(* ===== verification/_CoqProject ===== *)
-Q . S2P
Prelude.v
Safe.v
Chainbase.v
Asset.v
Raw.v
Encoding.v
Protocol.v
Wire.v
SignState.v
Block.v
Digest.v
ForkDatabase.v
ResourceDynamics.v
Objects.v
Database.v
Ledger.v
Evaluators.v
EvaluatorFacts.v
Xtt.v
Operations.v
LedgerProps.v
Apply.v
ApplyFacts.v
BlockFacts.v
Progress.v
Determinism.v
Producer.v
BlockSize.v
Included.v
Replay.v
Reindex.v
Takeover.v
BlockLog.v
Peer.v
PeerDb.v
Net.v
NetFacts.v
NetLists.v
NetSync.v
NetConnect.v
NetOrder.v
NetItems.v
NetDelegate.v
P2p.v
TxStatus.v
WalletByKey.v
Variants.v
Json.v
JsonRpc.v
