(* ===== verification/Prelude.v ===== *)
(** * XGT: a verification library of the blockchain core

    XGT is a proof-of-work fork of Steem in C++: nodes exchange blocks of
    signed transactions, keep the blocks that may still be undone in a fork
    database, apply them to tables of objects, and write those that became
    irreversible to a log.  This library translates the part of the program
    that decides what the chain is into Rocq functions and proves what a user
    or an operator of a node relies on.

    ** The program and the files that model it

    From the bottom up; paths are under src/libraries.

    - [Prelude]: exceptions, the error and state monads, a small program logic,
      machine integers, shared lemmas and tactics.
    - [Safe]: fc/include/fc/safe.hpp and saturation.hpp.  [Chainbase]:
      chainbase/include/chainbase/chainbase.hpp, one table of objects with
      unique keys and a stack of undo states.
    - [Raw], [Encoding]: fc/include/fc/io/raw.hpp and the text encodings and
      the hash logarithm of fc/src/crypto.
    - [Asset], [Protocol], [Wire], [SignState], [Block], [Digest]: protocol/.
      Assets, symbols and prices; the operations with [validate] and the
      authorities they ask for; their packed form; the check of signatures;
      block ids and Merkle roots; what is hashed and signed.
    - [ForkDatabase]: chain/fork_database.cpp.  [BlockLog]:
      chain/block_log.cpp.  [ResourceDynamics]: energy bars and resource pools
      of chain/util.
    - [Objects], [Database]: the objects and tables of chain/include/xgt/chain
      and the lookups, balances and supplies of chain/database.cpp; the state
      of a node is the record [database] (tables, fork database, block log,
      pending transactions, skip flags).
    - [Evaluators], [Xtt], [Operations]: chain/xgt_evaluator.cpp,
      xtt_evaluator.cpp, required_action_evaluator.cpp and the registry that
      gives an operation to its evaluator.
    - [Apply]: pushing and applying transactions and blocks, switching forks,
      genesis, irreversibility (chain/database.cpp, db_with.hpp).
    - [Producer]: plugins/witness/block_producer.cpp.  [Reindex]: opening,
      closing and replaying a chain (chain/database.cpp).
    - [Peer], [P2p]: plugins/p2p/p2p_plugin.cpp, what the chain tells peers and
      what it takes from them, and the queue of writes of
      plugins/chain/chain_plugin.cpp.
    - [PeerDb], [Net]: net/peer_database.cpp, net/node.cpp and
      net/peer_connection.cpp: connections and introductions, synchronisation,
      inventory, blocks and transactions.  [Net] reaches the chain through the
      class [NodeDelegate], which [P2p] implements.  [NetFacts] makes a system
      of events out of it.
    - [TxStatus]: plugins/transaction_status and find_transaction of
      plugins/apis/transaction_api, which read the chain through [ChainReads].
      [WalletByKey]: plugins/wallet_by_key and its API.
    - [Variants], [Json], [JsonRpc]: the variants and the JSON of fc/src and the
      dispatch of requests of plugins/json_rpc.
    - [Ledger], [EvaluatorFacts], [LedgerProps], [ApplyFacts], [BlockFacts],
      [Progress], [Determinism], [BlockSize], [Included], [Replay], [Takeover],
      [NetLists], [NetSync], [NetConnect], [NetOrder], [NetItems],
      [NetDelegate] have no code of their own: they hold the theorems over
      [Operations], [Apply], [Producer] and [Net].

    ** How the code is translated

    A function that can throw returns [result], with the class of the exception
    where somebody distinguishes it.  Code that changes the state of a node is a
    function of the state monad [DB] that returns the state also when it throws,
    so that what is left behind half-way is visible; a C++ scope object is a
    combinator that does its work on both exits.  Integers are [Z] with the
    wrap-around or the check of the code written out.  Tables are finite maps by
    id; an index by a unique key is a search for the key.  Fork items, which are
    shared by pointers, are addresses in a heap, and so are connections.  The
    cooperative tasks of the network node are operations that run to their end;
    an execution is any sequence of messages that arrive, tasks that run,
    connections that come and go, and of changes of the chain by other threads.  Every definition can be
    evaluated; each theorem with hypotheses is followed by a witness that
    applies it to concrete data.

    Loops that are not structural have fuel, and the theorems that speak about
    their results show that it suffices: a fork database walks at most as many
    links as it has items; the Merkle loop halves the number of digests; nested
    authorities are limited by the code's own depth; a variable-length integer
    has at most 5 or 10 groups; base 58 has at most twice as many digits as
    bytes; rebuilding an index reads at most one block per byte of the file; a
    synopsis of a chain of 32-bit numbers has at most 32 entries; each pass but
    the last of the search for peers starts a connection, so the number that is
    wanted bounds the passes; the JSON parser reads at least one character per
    call.

    Code outside the repository, and what depends on the machine, is a
    parameter: the hash functions and the curve ([Crypto], with [CryptoSizes]
    for the sizes of hashes; [Env] is what the upper layers see of them, and
    [Digest.ChainEnv] builds it from [Crypto]), the sizes of C++ objects that
    limit allocations ([Abi]), the plugins'
    interpreters of custom operations ([Node], with [NodePromise]: an
    interpreter leaves the tables of the chain alone), the
    floating-point scaling of the mining target and the deadline for the time a
    transaction may take ([Platform]), the keys with which nodes introduce
    themselves ([NodeKeys]), the methods of the APIs behind JSON-RPC.  The random
    generator from which a transfer to a new wallet draws its keys is part of the
    state of a node ([entropy], with the number of keys drawn so far), so two
    nodes, or a live and a replaying run, may draw different keys; theorems that
    compare nodes ask that no key is drawn ([undrawn]) and hold for any two
    generators.

    ** What the theorems show

    - State: a trace of calls on a table that keep the ids and unique keys of
      objects behaves like a stack of snapshots
      ([chainbase_traces_refine_snapshots]); a refused transaction and a block
      that throws without a switch of forks leave no trace ([push_transaction_atomic],
      [failed_block_leaves_no_trace]); pending transactions and the production
      of a block are tentative ([pending_is_tentative],
      [production_is_tentative]); the fork database keeps its invariant, and
      its walks end and return what they promise ([fork_db_invariant],
      [fork_push_returns_highest], [fork_branches_meet]); the same blocks give
      the same tables on every machine as long as no key is drawn at random
      ([chain_deterministic]); then a log that is replayed rebuilds the state but
      for the recent transactions ([reindex_rebuilds]); a restart goes back to the
      oldest state that can be undone ([restart_rewinds]).
    - Money: assets are conserved over any sequence of operations
      ([assets_conserved]); covered transfers go through
      ([covered_transfer_succeeds]); who can release an escrow
      and who gets what ([escrow_release_rules]); conversion never gains value
      ([price_conversion_floor]).
    - Authority: [verify_authority_sound], [visited_wallets_bounded],
      [digests_bind], [transaction_applied_once].
    - Representation: blocks, keys, symbols, variants and JSON survive their
      encodings ([block_wire_roundtrip], [key_text_roundtrip],
      [nai_roundtrip], [variant_conversions_roundtrip], [json_roundtrip],
      [json_parser_total]); the log on disk is the sequence of blocks
      ([disk_log_refines_sequence], [reopened_log_recovers]); Merkle roots
      ([merkle_root_correct]).
    - Blocks: [block_becomes_head]; what a producer takes in applies
      ([produced_transactions_apply]) and fits ([produced_block_fits]).
    - Network: over all executions a block is asked of one peer at a
      time within the limits ([sync_requests_invariant]), a connection is in one
      list ([connections_in_one_list]); blocks reach the chain in order
      ([sync_blocks_in_list_order]), news is shared out among the peers
      ([items_shared_out]), the search for peers ends and leaves nothing untried
      ([connect_loop_searches]), the database of addresses is a map
      ([peer_database_refines_map]), messages stay in the cache for twenty
      blocks ([cached_message_lifetime]), peers agree on where their chains part
      ([peers_find_common_block]).
    - Requests: [rpc_call_answers], [rpc_dispatches]; the table of transaction
      statuses follows the chain through undone blocks when it is kept from the
      first block on ([tracking_matches_chain]), and what is answered from it is
      true ([find_transaction_truthful]); the table from keys to wallets is right
      while no key is shared ([key_lookup_exact]).
    - Where the code does not do what it means to: [updates_ride_on_create],
      [older_block_allows_replay], [unratified_escrow_stuck],
      [unavailable_block_is_lost], [contributions_stay], [one_contract_only],
      [receiver_keys_differ], [single_block_index_lost],
      [undo_throws_after_key_reuse], [open_forgets_newest],
      [restart_misses_block], [dropped_key_crashes_node],
      [unknown_transaction_unanswered] and others.

    ** What is not modelled

    Threads, locks, shared memory files and RocksDB (mira): the model is the
    sequence of calls that the write lock of the database admits.  Of the network
    the encrypted sockets, bandwidth, the bound of a queue in bytes, reports on
    connections and shutting down; the HTTP server, logging, configuration,
    statistics and dumps: input and output around the calls modelled here.
    The other query APIs and the index of wallet histories read the tables and take no
    part in consensus.  The mining loop works on the clock of the machine and
    random numbers.  The strict and relaxed JSON parsers are not the ones the
    program uses for requests.
*)

From Stdlib Require Export ZArith Lia.
From stdpp Require Export base tactics option list numbers gmap sets strings.

#[global] Open Scope Z_scope.

(** ** Exceptions

    The C++ code signals errors by exceptions.  The classes are kept apart
    where a [catch] clause or a caller distinguishes them; everything that
    derives from [fc::exception] is recognised by [is_fc]. *)
Inductive exn :=
| AssertException        (* fc::assert_exception, thrown by FC_ASSERT *)
| OverflowException      (* fc::overflow_exception *)
| UnderflowException     (* fc::underflow_exception *)
| DivideByZero           (* fc::divide_by_zero_exception *)
| UnlinkableBlock        (* xgt::chain::unlinkable_block_exception *)
| BlockTooOld            (* xgt::chain::block_too_old_exception *)
| UnknownHardfork        (* xgt::chain::unknown_hardfork_exception *)
| MissingMoneyAuth       (* xgt::protocol::tx_missing_money_auth *)
| MissingAuthority       (* xgt::protocol::tx_missing_{recovery,social,other}_auth *)
| IrrelevantSig          (* xgt::protocol::tx_irrelevant_sig *)
| TransactionException   (* xgt::protocol::transaction_*_exception *)
| PluginException        (* xgt::chain::plugin_exception *)
| PopEmptyChain          (* xgt::chain::pop_empty_chain *)
| KeyNotFound            (* fc::key_not_found_exception *)
| EofException           (* fc::eof_exception *)
| ParseError             (* fc::parse_error_exception *)
| BadCast                (* fc::bad_cast_exception *)
| UnreachableFork        (* graphene::net::peer_is_on_an_unreachable_fork *)
| OlderThanUndoHistory   (* graphene::net::block_older_than_undo_history *)
| FcException            (* any other fc::exception *)
| LogicError             (* std::logic_error *)
| OutOfRange             (* std::out_of_range *)
| RuntimeError           (* std::runtime_error *)
| Fault.                 (* a trap of the machine, e.g. division by zero *)

#[export] Instance exn_eq_dec : EqDecision exn.
Proof. solve_decision. Defined.

Definition is_fc (e : exn) : bool :=
  match e with LogicError | OutOfRange | RuntimeError | Fault => false | _ => true end.

Inductive result (A : Type) :=
| Ok (a : A)
| Exc (e : exn).
Arguments Ok {A} a.
Arguments Exc {A} e.

#[export] Instance result_eq_dec `{EqDecision A} : EqDecision (result A).
Proof. solve_decision. Defined.

#[export] Instance result_ret : MRet result := @Ok.
#[export] Instance result_bind : MBind result := λ A B f m,
  match m with Ok a => f a | Exc e => Exc e end.
#[export] Instance result_throw : MThrow exn result := λ A e, Exc e.

Definition is_ok {A} (r : result A) : bool :=
  match r with Ok _ => true | Exc _ => false end.

(** [FC_ASSERT( b )] in any of the monads below. *)
Definition fc_assert `{MRet M, MThrow exn M} (b : bool) : M unit :=
  if b then mret tt else mthrow AssertException.

Definition assert_or `{MRet M, MThrow exn M} (b : bool) (e : exn) : M unit :=
  if b then mret tt else mthrow e.

(** ** Stateful code

    A computation over a state [S]; the state reached before an exception is
    kept, because the C++ code has no implicit rollback: whatever undoes the
    changes of a failed operation is code of the program, and is modelled. *)
Definition St (S A : Type) : Type := S → result A * S.

#[export] Instance St_ret {S} : MRet (St S) := λ A a s, (Ok a, s).
#[export] Instance St_bind {S} : MBind (St S) := λ A B f m s,
  match m s with
  | (Ok a, s') => f a s'
  | (Exc e, s') => (Exc e, s')
  end.
#[export] Instance St_throw {S} : MThrow exn (St S) := λ A e s, (Exc e, s).

Definition get_st {S} : St S S := λ s, (Ok s, s).
Definition put_st {S} (s : S) : St S unit := λ _, (Ok tt, s).
Definition gets {S A} (f : S → A) : St S A := λ s, (Ok (f s), s).
Definition lift {S A} (r : result A) : St S A := λ s, (r, s).
Definition when `{MRet M} (b : bool) (m : M unit) : M unit :=
  if b then m else mret tt.

(** [try { m } catch( ... ) { h }] *)
Definition try_catch {S A} (m : St S A) (h : exn → St S A) : St S A := λ s,
  match m s with
  | (Ok a, s') => (Ok a, s')
  | (Exc e, s') => h e s'
  end.

(** Range-for over a list. *)
Fixpoint for_each `{MRet M, MBind M} {A} (l : list A) (f : A → M unit) : M unit :=
  match l with
  | [] => mret tt
  | x :: l' => f x ;; for_each l' f
  end.

(** ** Program logic

    [preserves I m]: the run of [m], failed or not, keeps [I].
    [hoare P m Q]: from [P], if [m] returns then [Q] holds of its result. *)
Definition preserves {S A} (I : S → Prop) (m : St S A) : Prop :=
  ∀ s, I s → I (m s).2.

Definition hoare {S A} (P : S → Prop) (m : St S A) (Q : A → S → Prop) : Prop :=
  ∀ s, P s → match m s with (Ok a, s') => Q a s' | (Exc _, _) => True end.

Definition succeeds {S A} (m : St S A) (s : S) : bool := is_ok (m s).1.

Create HintDb xgt.
Create HintDb preserves.

Section logic.
Context {S : Type} (I : S → Prop).

Lemma preserves_ret {A} (a : A) : preserves I (mret a).
Proof. by intros s. Qed.
Lemma preserves_throw {A} e : preserves I (A:=A) (mthrow (e : exn)).
Proof. by intros s. Qed.
Lemma preserves_bind {A B} (m : St S A) (f : A → St S B) :
  preserves I m → (∀ a, preserves I (f a)) → preserves I (m ≫= f).
Proof.
  intros Hm Hf s Hs. unfold mbind, St_bind.
  specialize (Hm s Hs). destruct (m s) as [[a|e] s']; [by apply Hf|done].
Qed.
Lemma preserves_gets {A} (f : S → A) : preserves I (gets f).
Proof. by intros s. Qed.
Lemma preserves_get : preserves I get_st.
Proof. by intros s. Qed.
Lemma preserves_lift {A} (r : result A) : preserves I (lift r).
Proof. by intros s. Qed.
Lemma preserves_assert b : preserves I (fc_assert b).
Proof. by destruct b; intros s. Qed.
Lemma preserves_assert_or b e : preserves I (assert_or b e).
Proof. by destruct b; intros s. Qed.
Lemma preserves_when b (m : St S unit) : preserves I m → preserves I (when b m).
Proof. destruct b; intros Hm; [exact Hm|by intros s]. Qed.
Lemma preserves_for_each {A} (l : list A) (f : A → St S unit) :
  (∀ x, preserves I (f x)) → preserves I (for_each l f).
Proof.
  intros Hf. induction l as [|x l IH]; [by intros s|].
  simpl. by apply preserves_bind.
Qed.
Lemma preserves_try {A} (m : St S A) h :
  preserves I m → (∀ e, preserves I (h e)) → preserves I (try_catch m h).
Proof.
  intros Hm Hh s Hs. unfold try_catch. specialize (Hm s Hs).
  destruct (m s) as [[a|e] s']; [done|by apply Hh].
Qed.
Lemma preserves_if {A} (b : bool) (m1 m2 : St S A) :
  preserves I m1 → preserves I m2 → preserves I (if b then m1 else m2).
Proof. by destruct b. Qed.
Lemma preserves_match_opt {A B} (o : option A) (f : A → St S B) (m : St S B) :
  (∀ a, preserves I (f a)) → preserves I m →
  preserves I (match o with Some a => f a | None => m end).
Proof. by destruct o; auto. Qed.

Lemma hoare_bind {A B} P Q R (m : St S A) (f : A → St S B) :
  hoare P m Q → (∀ a, hoare (Q a) (f a) R) → hoare P (m ≫= f) R.
Proof.
  intros Hm Hf s Hs. specialize (Hm s Hs). unfold mbind, St_bind.
  destruct (m s) as [[a|e] s']; [by apply Hf|done].
Qed.
End logic.

#[export] Hint Resolve preserves_ret preserves_throw preserves_bind
  preserves_gets preserves_get preserves_lift preserves_assert
  preserves_assert_or preserves_when preserves_for_each preserves_try
  preserves_if preserves_match_opt : preserves.

(** Inversion of monadic equations [m s = (Ok a, s')]. *)
Lemma St_bind_ok {S A B} (m : St S A) (f : A → St S B) s b s' :
  (m ≫= f) s = (Ok b, s') ↔ ∃ a s1, m s = (Ok a, s1) ∧ f a s1 = (Ok b, s').
Proof.
  unfold mbind, St_bind. destruct (m s) as [[a|e] s1]; naive_solver.
Qed.

Lemma result_bind_ok {A B} (m : result A) (f : A → result B) b :
  (m ≫= f) = Ok b ↔ ∃ a, m = Ok a ∧ f a = Ok b.
Proof. destruct m; unfold mbind, result_bind; naive_solver. Qed.

Lemma fc_assert_St_ok {S} b (s : S) a s' :
  fc_assert (M:=St S) b s = (Ok a, s') ↔ b = true ∧ s' = s.
Proof.
  destruct b, a; unfold fc_assert, mret, St_ret, mthrow, St_throw; naive_solver.
Qed.

Lemma assert_or_St_ok {S} b e (s : S) a s' :
  assert_or (M:=St S) b e s = (Ok a, s') ↔ b = true ∧ s' = s.
Proof.
  destruct b, a; unfold assert_or, mret, St_ret, mthrow, St_throw; naive_solver.
Qed.

Lemma fc_assert_ok b a : fc_assert (M:=result) b = Ok a ↔ b = true.
Proof. destruct b, a; naive_solver. Qed.

Lemma assert_or_ok b e a : assert_or (M:=result) b e = Ok a ↔ b = true.
Proof. destruct b, a; naive_solver. Qed.

Lemma lift_ok {S A} (r : result A) (s : S) a s' :
  lift r s = (Ok a, s') ↔ r = Ok a ∧ s' = s.
Proof. unfold lift; naive_solver. Qed.

Lemma gets_ok {S A} (f : S → A) (s : S) a s' :
  gets f s = (Ok a, s') ↔ a = f s ∧ s' = s.
Proof. unfold gets; naive_solver. Qed.

Lemma St_ret_ok {S A} (a : A) (s : S) b s' :
  (mret a : St S A) s = (Ok b, s') ↔ b = a ∧ s' = s.
Proof. unfold mret, St_ret; naive_solver. Qed.

Lemma when_ok {S} b (m : St S unit) s a s' :
  when b m s = (Ok a, s') ↔
  (b = true ∧ m s = (Ok a, s')) ∨ (b = false ∧ s' = s).
Proof. destruct b, a; unfold when, mret, St_ret; naive_solver. Qed.

Lemma try_ok {S A} (m : St S A) h s a s' : try_catch m h s = (Ok a, s') ↔
  m s = (Ok a, s') ∨ ∃ e s1, m s = (Exc e, s1) ∧ h e s1 = (Ok a, s').
Proof. unfold try_catch. destruct (m s) as [[b|e] s1]; naive_solver. Qed.

(** Running the first step of a sequence. *)
Lemma bind_run {S A B} (m : St S A) (f : A → St S B) s :
  (m ≫= f) s = match m s with (Ok a, s') => f a s' | (Exc e, s') => (Exc e, s') end.
Proof. done. Qed.
Lemma for_each_snoc {S A} (f : A → St S unit) l x s s1 : for_each l f s = (Ok tt, s1) →
  for_each (l ++ [x]) f s = f x s1.
Proof.
  revert s. induction l as [|y l IH]; intros s Hr.
  - injection Hr as <-. cbn [for_each app]. rewrite bind_run. destruct (f x s) as [[[]|e] s2]; reflexivity.
  - cbn [for_each app] in *. rewrite bind_run in *. destruct (f y s) as [[[]|e] s2]; [by apply IH|discriminate Hr].
Qed.

Lemma bind_Ok {A B} (a : A) (f : A → result B) : (Ok a ≫= f) = f a.
Proof. done. Qed.
Lemma bind_assert_true {B} (b : bool) (f : unit → result B) :
  b = true → (fc_assert b ≫= f) = f tt.
Proof. by intros ->. Qed.

(** One step of inversion, and its closure. *)
Ltac inv_step :=
  match goal with
  | H : _ ∧ _ |- _ => destruct H
  | H : ∃ _, _ |- _ => destruct H
  | H : (_ ≫= _) _ = (Ok _, _) |- _ => apply St_bind_ok in H
  | H : (_ ≫= _) = Ok _ |- _ => apply result_bind_ok in H
  | H : fc_assert _ _ = (Ok _, _) |- _ => apply fc_assert_St_ok in H
  | H : assert_or _ _ _ = (Ok _, _) |- _ => apply assert_or_St_ok in H
  | H : fc_assert _ = Ok _ |- _ => apply fc_assert_ok in H
  | H : assert_or _ _ = Ok _ |- _ => apply assert_or_ok in H
  | H : lift _ _ = (Ok _, _) |- _ => apply lift_ok in H
  | H : gets _ _ = (Ok _, _) |- _ => apply gets_ok in H
  | H : mret _ _ = (Ok _, _) |- _ => apply St_ret_ok in H
  | H : mret _ = Ok _ |- _ => injection H as H
  | H : Ok _ = Ok _ |- _ => injection H as H
  | H : (Ok _, _) = (Ok _, _) |- _ => injection H as H
  | H : mthrow _ _ = (Ok _, _) |- _ => discriminate H
  | H : mthrow _ = Ok _ |- _ => discriminate H
  | H : Exc _ = Ok _ |- _ => discriminate H
  | H : (Exc _, _) = (Ok _, _) |- _ => discriminate H
  | H : ?x = ?y |- _ => is_var x; subst x
  | H : ?x = ?y |- _ => is_var y; subst y
  end.
Ltac inv_ok := repeat inv_step.

Ltac case_match_goal :=
  match goal with
  | |- context [ match ?x with _ => _ end ] => destruct x eqn:?
  end.

(** Boolean hypotheses as propositions. *)
Ltac bool_hyps :=
  repeat match goal with
  | H : (_ && _)%bool = true |- _ => apply andb_true_iff in H; destruct H
  | H : (_ || _)%bool = false |- _ => apply orb_false_iff in H; destruct H
  | H : negb _ = true |- _ => apply negb_true_iff in H
  | H : negb _ = false |- _ => apply negb_false_iff in H
  | H : (_ <? _) = true |- _ => apply Z.ltb_lt in H
  | H : (_ <? _) = false |- _ => apply Z.ltb_ge in H
  | H : (_ <=? _) = true |- _ => apply Z.leb_le in H
  | H : (_ <=? _) = false |- _ => apply Z.leb_gt in H
  | H : (_ =? _) = true |- _ => apply Z.eqb_eq in H
  | H : (_ =? _) = false |- _ => apply Z.eqb_neq in H
  | H : bool_decide _ = true |- _ => apply bool_decide_eq_true in H
  | H : bool_decide _ = false |- _ => apply bool_decide_eq_false in H
  end.

(** ** Machine integers: values of [Z], reduced where the code narrows. *)
Definition u8 (z : Z) : Z := z mod 2^8.
Definition u16 (z : Z) : Z := z mod 2^16.
Definition u32 (z : Z) : Z := z mod 2^32.
Definition u64 (z : Z) : Z := z mod 2^64.
Definition u128 (z : Z) : Z := z mod 2^128.
(** Conversion to a signed 64-bit integer (two's complement). *)
Definition i64 (z : Z) : Z := (z + 2^63) mod 2^64 - 2^63.

Definition int64_max : Z := 2^63 - 1.
Definition int64_min : Z := - 2^63.
Definition is_i64 (z : Z) : Prop := int64_min ≤ z ≤ int64_max.

Lemma i64_id z : is_i64 z → i64 z = z.
Proof. unfold is_i64, i64, int64_min, int64_max. intros. rewrite Z.mod_small; lia. Qed.
Lemma u64_id z : 0 ≤ z < 2^64 → u64 z = z.
Proof. apply Z.mod_small. Qed.
Lemma u128_id z : 0 ≤ z < 2^128 → u128 z = z.
Proof. apply Z.mod_small. Qed.
Lemma u32_id z : 0 ≤ z < 2^32 → u32 z = z.
Proof. apply Z.mod_small. Qed.
Lemma u8_id z : 0 ≤ z < 2^8 → u8 z = z.
Proof. apply Z.mod_small. Qed.
Lemma i64_u64 z : is_i64 z → i64 (u64 z) = z.
Proof.
  unfold is_i64, i64, u64, int64_min, int64_max. intros Hz.
  destruct (decide (0 ≤ z)).
  - rewrite (Z.mod_small z); [|lia]. rewrite Z.mod_small; lia.
  - replace (z mod 2^64) with (z + 2^64).
    + replace (z + 2^64 + 2^63) with (z + 2^63 + 1 * 2^64) by lia.
      rewrite Z.mod_add; [|lia]. rewrite Z.mod_small; lia.
    + rewrite <- (Z.mod_add z 1); [|lia]. rewrite Z.mod_small; lia.
Qed.

(** ** Sums over finite maps *)
Section map_sum.
Context {V : Type}.
Implicit Types (f : V → Z) (m : gmap Z V).

Definition map_sum f m : Z := map_fold (λ _ v acc, f v + acc) 0 m.

Lemma map_sum_empty f : map_sum f ∅ = 0.
Proof. apply map_fold_empty. Qed.

Lemma map_sum_insert_new f m i v :
  m !! i = None → map_sum f (<[i:=v]> m) = f v + map_sum f m.
Proof. intros Hi. unfold map_sum.
  apply (map_fold_insert_L (λ _ v acc, f v + acc) 0 i v m); [intros; lia|done]. Qed.

Lemma map_sum_delete f m i v :
  m !! i = Some v → map_sum f (delete i m) = map_sum f m - f v.
Proof.
  intros Hi. rewrite <- (insert_delete_id m i v Hi) at 2.
  rewrite map_sum_insert_new; [lia|apply lookup_delete_eq].
Qed.

Lemma map_sum_insert f m i v0 v :
  m !! i = Some v0 → map_sum f (<[i:=v]> m) = map_sum f m - f v0 + f v.
Proof.
  intros Hi. rewrite <- insert_delete_eq, map_sum_insert_new by apply lookup_delete_eq.
  rewrite (map_sum_delete f m i v0 Hi). lia.
Qed.

Lemma map_sum_nonneg f m :
  (∀ i v, m !! i = Some v → 0 ≤ f v) → 0 ≤ map_sum f m.
Proof.
  induction m as [|i v m Hi IH] using map_ind; intros Hf.
  - by rewrite map_sum_empty.
  - rewrite map_sum_insert_new by done.
    assert (0 ≤ f v) by (apply (Hf i); apply lookup_insert_eq).
    assert (0 ≤ map_sum f m); [|lia]. apply IH. intros j w Hj.
    apply (Hf j). rewrite lookup_insert_ne; [done|]. intros ->. congruence.
Qed.

Lemma map_sum_elem f m i v :
  (∀ i v, m !! i = Some v → 0 ≤ f v) → m !! i = Some v → f v ≤ map_sum f m.
Proof.
  intros Hf Hi. pose proof (map_sum_delete f m i v Hi).
  assert (0 ≤ map_sum f (delete i m)); [|lia].
  apply map_sum_nonneg. intros j w Hj%lookup_delete_Some. by eapply Hf, Hj.
Qed.
End map_sum.
