(* ===== verification/Safe.v ===== *)
(** * Checked and saturating 64-bit arithmetic

    [fc::safe<int64_t>] (libraries/fc/include/fc/safe.hpp), the type behind
    [share_type], and the saturating operations of
    libraries/fc/include/fc/saturation.hpp.  The definitions follow the tests
    and the bit tricks of the code; the theorems show that the tests are
    exactly the range checks they stand for. *)
From S2P Require Import Prelude.

Module Safe.

(** [operator +], [operator -], [operator *], [operator /], [operator %] and
    unary minus of [fc::safe<int64_t>].  C++ division truncates: [Z.quot]. *)
Definition add (a b : Z) : result Z :=
  if (0 <? b) && (int64_max - b <? a) then Exc OverflowException
  else if (b <? 0) && (a <? int64_min - b) then Exc UnderflowException
  else Ok (a + b).

Definition sub (a b : Z) : result Z :=
  if (0 <? b) && (a <? int64_min + b) then Exc UnderflowException
  else if (b <? 0) && (int64_max + b <? a) then Exc OverflowException
  else Ok (a - b).

Definition mul (a b : Z) : result Z :=
  if 0 <? a then
    if 0 <? b then
      if Z.quot int64_max b <? a then Exc OverflowException else Ok (a * b)
    else
      if b <? Z.quot int64_min a then Exc UnderflowException else Ok (a * b)
  else
    if 0 <? b then
      if a <? Z.quot int64_min b then Exc UnderflowException else Ok (a * b)
    else
      if negb (a =? 0) && (b <? Z.quot int64_max a) then Exc OverflowException
      else Ok (a * b).

Definition div (a b : Z) : result Z :=
  if b =? 0 then Exc DivideByZero
  else if (a =? int64_min) && (b =? -1) then Exc OverflowException
  else Ok (Z.quot a b).

Definition rem (a b : Z) : result Z :=
  if b =? 0 then Exc DivideByZero
  else if (a =? int64_min) && (b =? -1) then Exc OverflowException
  else Ok (Z.rem a b).

Definition neg (a : Z) : result Z :=
  if a =? int64_min then Exc OverflowException else Ok (- a).

(** [operator ++] and [operator --] go through [+=] and [-=]. *)
Definition incr (a : Z) : result Z := add a 1.
Definition decr (a : Z) : result Z := sub a 1.

(** What each checked operation is meant to compute. *)
Definition exact (z : Z) : option Z :=
  if (int64_min <=? z) && (z <=? int64_max) then Some z else None.

Definition value (r : result Z) : option Z :=
  match r with Ok z => Some z | Exc _ => None end.

End Safe.

Module Saturation.

(** The bits of a signed value as the corresponding unsigned type. *)
Definition signed_sat_add (x y : Z) : Z :=
  let ux := u64 x in let uy := u64 y in
  let res := u64 (ux + uy) in
  let sat := if 0 <=? x then u64 int64_max else u64 int64_min in
  if i64 (Z.land (u64 (Z.lnot (Z.lxor ux uy))) (Z.lxor ux res)) <? 0
  then i64 sat else i64 res.

Definition signed_sat_sub (x y : Z) : Z :=
  let ux := u64 x in let uy := u64 y in
  let res := u64 (ux - uy) in
  let sat := if 0 <=? x then u64 int64_max else u64 int64_min in
  if i64 (Z.land (Z.lxor ux uy) (Z.lxor ux res)) <? 0
  then i64 sat else i64 res.

(** Reference: the nearest representable value. *)
Definition clamp (z : Z) : Z := Z.max int64_min (Z.min int64_max z).

End Saturation.

(** ** Range lemmas of the checked operations *)
Section safe_lemmas.
Import Safe.

Lemma safe_add_ok a b c :
  is_i64 a → is_i64 b → add a b = Ok c ↔ c = a + b ∧ is_i64 c.
Proof.
  unfold is_i64, add. intros Ha Hb.
  repeat case_match_goal; bool_hyps; split; intros; inv_ok;
    repeat match goal with H : (_ && _)%bool = false |- _ =>
      apply andb_false_iff in H; destruct H end; bool_hyps;
    try discriminate; try split; try f_equal; unfold int64_min, int64_max in *; lia.
Qed.

Lemma safe_sub_ok a b c :
  is_i64 a → is_i64 b → sub a b = Ok c ↔ c = a - b ∧ is_i64 c.
Proof.
  unfold is_i64, sub. intros Ha Hb.
  repeat case_match_goal; bool_hyps; split; intros; inv_ok;
    repeat match goal with H : (_ && _)%bool = false |- _ =>
      apply andb_false_iff in H; destruct H end; bool_hyps;
    try discriminate; try split; try f_equal; unfold int64_min, int64_max in *; lia.
Qed.

(** Whatever the operands, a result that is returned is the exact one. *)
Lemma safe_add_value a b c : add a b = Ok c → c = a + b.
Proof. unfold add. intros Ha. repeat case_match; by inv_ok. Qed.
Lemma safe_sub_value a b c : sub a b = Ok c → c = a - b.
Proof. unfold sub. intros Ha. repeat case_match; by inv_ok. Qed.
Lemma safe_neg_value a c : neg a = Ok c → c = - a.
Proof. unfold neg. intros Ha. case_match; by inv_ok. Qed.

Lemma safe_add_exact a b :
  is_i64 a → is_i64 b → value (add a b) = exact (a + b).
Proof.
  intros Ha Hb. pose proof (safe_add_ok a b (a + b) Ha Hb) as H.
  unfold exact. destruct (_ && _) eqn:E; bool_hyps.
  - rewrite (proj2 H); [done|]. unfold is_i64; lia.
  - destruct (add a b) as [c|] eqn:Ec; [|done].
    apply safe_add_ok in Ec as [-> Hc]; [|done..]. unfold is_i64 in Hc.
    apply andb_false_iff in E as [?|?]; bool_hyps; lia.
Qed.

Lemma safe_sub_exact a b :
  is_i64 a → is_i64 b → value (sub a b) = exact (a - b).
Proof.
  intros Ha Hb. pose proof (safe_sub_ok a b (a - b) Ha Hb) as H.
  unfold exact. destruct (_ && _) eqn:E; bool_hyps.
  - rewrite (proj2 H); [done|]. unfold is_i64; lia.
  - destruct (sub a b) as [c|] eqn:Ec; [|done].
    apply safe_sub_ok in Ec as [-> Hc]; [|done..]. unfold is_i64 in Hc.
    apply andb_false_iff in E as [?|?]; bool_hyps; lia.
Qed.

(** The four guards of multiplication, one lemma per quadrant. *)
Lemma quot_pos_guard m a b : 0 ≤ m → 0 < b → (m ÷ b < a ↔ m < a * b).
Proof. intros. rewrite Z.quot_div_nonneg by lia. split; intros; [|apply Z.div_lt_upper_bound; lia].
  pose proof (Z.mul_succ_div_gt m b). nia. Qed.

Lemma quot_neg_guard m a b : 0 ≤ m → 0 < a → (b < - m ÷ a ↔ a * b < - m).
Proof.
  intros. rewrite Z.quot_opp_l by lia.
  pose proof (quot_pos_guard m (- b) a). lia.
Qed.

Lemma quot_negneg_guard m a b : 0 ≤ m → a < 0 → (b < m ÷ a ↔ m < a * b).
Proof.
  intros. replace a with (- (- a)) at 1 by lia. rewrite Z.quot_opp_r by lia.
  pose proof (quot_pos_guard m (- b) (- a)). lia.
Qed.

Lemma exact_in z : int64_min ≤ z ≤ int64_max → exact z = Some z.
Proof. unfold exact. intros. rewrite !(proj2 (Z.leb_le _ _)) by lia. done. Qed.
Lemma exact_out z : ¬ (int64_min ≤ z ≤ int64_max) → exact z = None.
Proof.
  unfold exact. intros. destruct (_ && _) eqn:E; [|done]. bool_hyps; lia.
Qed.

Lemma mul_branch (g : bool) e z :
  (g = true ↔ ¬ (int64_min ≤ z ≤ int64_max)) →
  value (if g then Exc e else Ok z) = exact z.
Proof.
  intros Hg. destruct g; simpl.
  - symmetry. apply exact_out. tauto.
  - symmetry. apply exact_in.
    destruct (decide (int64_min ≤ z ≤ int64_max)); [done|]. intuition discriminate.
Qed.

Lemma safe_mul_exact a b :
  is_i64 a → is_i64 b → value (mul a b) = exact (a * b).
Proof.
  unfold is_i64, mul. intros Ha Hb.
  change int64_min with (- 2^63) in *. change int64_max with (2^63 - 1) in *.
  destruct (0 <? a) eqn:Ea, (0 <? b) eqn:Eb; bool_hyps; apply mul_branch;
    change int64_min with (- 2^63) in *; change int64_max with (2^63 - 1) in *.
  - rewrite Z.ltb_lt, quot_pos_guard by lia. nia.
  - rewrite Z.ltb_lt, quot_neg_guard by lia. nia.
  - rewrite Z.ltb_lt, quot_neg_guard by lia. nia.
  - rewrite andb_true_iff, negb_true_iff, Z.eqb_neq, Z.ltb_lt.
    destruct (decide (a = 0)) as [->|]; [lia|].
    rewrite quot_negneg_guard by lia. nia.
Qed.
End safe_lemmas.

(** ** Saturation: the sign-bit test is the overflow test *)
Section saturation_lemmas.
Import Saturation.

(** Reading the sign bit of a 64-bit word. *)
Lemma i64_neg_testbit w : 0 ≤ w < 2^64 → (i64 w <? 0) = Z.testbit w 63.
Proof.
  intros Hw. rewrite Z.testbit_eqb by lia. unfold i64.
  apply eq_true_iff_eq. rewrite Z.ltb_lt, Z.eqb_eq.
  destruct (decide (w < 2^63)).
  - rewrite (Z.mod_small (w + 2^63)), (Z.div_small w) by lia.
    change (0 mod 2) with 0. lia.
  - replace (w + 2^63) with (w - 2^63 + 1 * 2^64) by lia.
    rewrite Z.mod_add, Z.mod_small by lia.
    replace (w / 2^63) with 1; [change (1 mod 2) with 1; lia|].
    apply (Z.div_unique _ _ _ (w - 2^63)); lia.
Qed.

Lemma u64_testbit63 x : is_i64 x → Z.testbit (u64 x) 63 = (x <? 0).
Proof.
  intros Hx. rewrite <- i64_neg_testbit by (apply Z.mod_pos_bound; lia).
  by rewrite i64_u64.
Qed.

Lemma u64_range z : 0 ≤ u64 z < 2^64.
Proof. apply Z.mod_pos_bound; lia. Qed.

Lemma bits64_range w : 0 ≤ w → (∀ n, 64 ≤ n → Z.testbit w n = false) → 0 ≤ w < 2^64.
Proof.
  intros Hw Hb. split; [done|]. destruct (decide (w = 0)) as [->|]; [lia|].
  apply Z.log2_lt_pow2; [lia|]. apply Z.nle_gt. intros Hl.
  pose proof (Z.bit_log2 w ltac:(lia)) as Ht. rewrite Hb in Ht by lia. done.
Qed.

Lemma u64_high_bits x n : 64 ≤ n → Z.testbit (u64 x) n = false.
Proof. intros. unfold u64. apply Z.mod_pow2_bits_high. lia. Qed.

Lemma lxor_range x y : 0 ≤ Z.lxor (u64 x) (u64 y) < 2^64.
Proof.
  apply bits64_range.
  - apply Z.lxor_nonneg. pose proof (u64_range x). pose proof (u64_range y). lia.
  - intros n Hn. rewrite Z.lxor_spec, !u64_high_bits by lia. done.
Qed.

Lemma land_range x y : 0 ≤ x < 2^64 → 0 ≤ y → 0 ≤ Z.land x y < 2^64.
Proof.
  intros Hx Hy. apply bits64_range; [apply Z.land_nonneg; lia|].
  intros n Hn. rewrite Z.land_spec, <- (Z.mod_small x (2^64)) by lia.
  by rewrite Z.mod_pow2_bits_high by lia.
Qed.

Lemma u64_lnot_63 z : Z.testbit (u64 (Z.lnot z)) 63 = negb (Z.testbit z 63).
Proof. unfold u64. rewrite Z.mod_pow2_bits_low by lia. apply Z.lnot_spec. lia. Qed.

Lemma u64_add x y : u64 (u64 x + u64 y) = u64 (x + y).
Proof. unfold u64. by rewrite <- Zplus_mod. Qed.
Lemma u64_sub x y : u64 (u64 x - u64 y) = u64 (x - y).
Proof. unfold u64. by rewrite <- Zminus_mod. Qed.

(** The sign bit of the wrapped 64-bit result of an exact value [z]. *)
Lemma wrapped_sign z : -2^64 ≤ z < 2^64 →
  Z.testbit (u64 z) 63 =
  if decide (is_i64 z) then z <? 0 else negb (z <? 0).
Proof.
  intros Hz. case_decide as Hd; [by apply u64_testbit63|].
  rewrite <- i64_neg_testbit by apply u64_range.
  unfold is_i64, int64_min, int64_max in Hd. unfold i64, u64.
  rewrite Zplus_mod_idemp_l.
  destruct (z <? 0) eqn:E; bool_hyps; simpl.
  - apply Z.ltb_ge. replace (z + 2^63) with (z + 2^63 + 2^64 + (-1) * 2^64) by lia.
    rewrite Z.mod_add, Z.mod_small by lia. lia.
  - apply Z.ltb_lt. replace (z + 2^63) with (z + 2^63 - 2^64 + 1 * 2^64) by lia.
    rewrite Z.mod_add, Z.mod_small by lia. lia.
Qed.

Lemma sat_select (c : bool) x z : is_i64 x →
  c = negb (bool_decide (is_i64 z)) → (¬ is_i64 z → (0 ≤ x ↔ 0 ≤ z)) →
  (if c then i64 (if 0 <=? x then u64 int64_max else u64 int64_min)
   else i64 (u64 z)) = clamp z.
Proof.
  intros Hx -> Hs. case_bool_decide as Hz; simpl.
  - rewrite i64_u64 by done. unfold is_i64, clamp in *. lia.
  - specialize (Hs Hz). unfold is_i64, clamp in *.
    destruct (0 <=? x) eqn:E; bool_hyps;
      change (i64 (u64 int64_max)) with int64_max;
      change (i64 (u64 int64_min)) with int64_min;
      unfold int64_min, int64_max in *; lia.
Qed.

Lemma sat_add_clamp x y :
  is_i64 x → is_i64 y → signed_sat_add x y = clamp (x + y).
Proof.
  intros Hx Hy. unfold signed_sat_add. cbv zeta. rewrite u64_add.
  apply sat_select; [done| |unfold is_i64, int64_min, int64_max in *; lia].
  rewrite i64_neg_testbit.
  - rewrite Z.land_spec, u64_lnot_63, !Z.lxor_spec, !u64_testbit63 by done.
    rewrite wrapped_sign by (unfold is_i64, int64_min, int64_max in *; lia).
    unfold is_i64, int64_min, int64_max in *.
    case_decide; case_bool_decide; try tauto;
      destruct (x <? 0) eqn:?, (y <? 0) eqn:?, (x + y <? 0) eqn:?; bool_hyps; try done; lia.
  - apply land_range; [apply u64_range|apply lxor_range].
Qed.

Lemma sat_sub_clamp x y :
  is_i64 x → is_i64 y → signed_sat_sub x y = clamp (x - y).
Proof.
  intros Hx Hy. unfold signed_sat_sub. cbv zeta. rewrite u64_sub.
  apply sat_select; [done| |unfold is_i64, int64_min, int64_max in *; lia].
  rewrite i64_neg_testbit.
  - rewrite Z.land_spec, !Z.lxor_spec, !u64_testbit63 by done.
    rewrite wrapped_sign by (unfold is_i64, int64_min, int64_max in *; lia).
    unfold is_i64, int64_min, int64_max in *.
    case_decide; case_bool_decide; try tauto;
      destruct (x <? 0) eqn:?, (y <? 0) eqn:?, (x - y <? 0) eqn:?; bool_hyps; try done; lia.
  - apply land_range; [apply lxor_range|apply lxor_range].
Qed.
End saturation_lemmas.

(** On 64-bit operands, checked addition, subtraction and multiplication
    return exactly the mathematical result when it fits in 64 bits and throw
    otherwise; checked division truncates and throws for a zero divisor and
    for the one quotient that does not fit. *)
Theorem safe_ops_exact a b :
  is_i64 a → is_i64 b →
  Safe.value (Safe.add a b) = Safe.exact (a + b) ∧
  Safe.value (Safe.sub a b) = Safe.exact (a - b) ∧
  Safe.value (Safe.mul a b) = Safe.exact (a * b) ∧
  Safe.value (Safe.div a b) = (if b =? 0 then None else Safe.exact (Z.quot a b)) ∧
  Safe.value (Safe.neg a) = Safe.exact (- a).
Proof.
  intros Ha Hb. split_and!;
    [by apply safe_add_exact|by apply safe_sub_exact|by apply safe_mul_exact|..].
  - unfold Safe.div. destruct (b =? 0) eqn:E0; [done|]. bool_hyps.
    assert (Hq : Z.abs (Z.quot a b) ≤ Z.abs a).
    { destruct (decide (Z.abs b = 1)).
      - assert (b = 1 ∨ b = -1) as [->| ->] by lia; [rewrite Z.quot_1_r; lia|].
        change (-1) with (- (1)). rewrite Z.quot_opp_r, Z.quot_1_r; lia.
      - rewrite <- Z.quot_abs by done. apply Z.quot_le_upper_bound; nia. }
    apply (mul_branch ((a =? int64_min) && (b =? -1)) OverflowException).
    rewrite andb_true_iff, !Z.eqb_eq. unfold is_i64, int64_min, int64_max in *. split.
    + intros [-> ->]. vm_compute. intros [_ H]. by apply H.
    + intros Hout.
      assert (a = - 2^63) as -> by lia. split; [done|].
      destruct (decide (b = -1)); [done|exfalso; apply Hout].
      assert (Hlt : Z.quot (- 2^63) b ≠ 2^63); [|lia]. intros Heq.
      pose proof (Z.quot_rem (- 2^63) b E0). pose proof (Z.rem_bound_abs (- 2^63) b E0). nia.
  - unfold Safe.neg. apply mul_branch. rewrite Z.eqb_eq.
    unfold is_i64, int64_min, int64_max in *. lia.
Qed.

Lemma safe_ops_exact_witness :
  Safe.value (Safe.add int64_max 1) = None ∧ Safe.value (Safe.add 2 3) = Some 5.
Proof.
  split.
  - refine (proj1 (safe_ops_exact int64_max 1 _ _)); vm_compute; split; discriminate.
  - refine (proj1 (safe_ops_exact 2 3 _ _)); vm_compute; split; discriminate.
Defined.

(** The branch-free saturating addition and subtraction on 64-bit values
    return the representable value nearest to the exact result. *)
Theorem saturating_ops_clamp x y :
  is_i64 x → is_i64 y →
  Saturation.signed_sat_add x y = Saturation.clamp (x + y) ∧
  Saturation.signed_sat_sub x y = Saturation.clamp (x - y).
Proof. intros Hx Hy. split; [by apply sat_add_clamp|by apply sat_sub_clamp]. Qed.

Lemma saturating_ops_clamp_witness :
  Saturation.signed_sat_add int64_max 5 = int64_max ∧
  Saturation.signed_sat_sub int64_min 5 = int64_min.
Proof.
  split.
  - refine (proj1 (saturating_ops_clamp int64_max 5 _ _)); vm_compute; split; discriminate.
  - refine (proj2 (saturating_ops_clamp int64_min 5 _ _)); vm_compute; split; discriminate.
Defined.
