(* ===== verification/Chainbase.v ===== *)
(** * chainbase: indexed object tables with an undo stack

    [generic_index], [undo_state] and [session] of
    libraries/chainbase/include/chainbase/chainbase.hpp.  A table keeps its
    objects under an integer id together with a family of unique secondary
    keys; every change made while an undo session is open is recorded in the
    innermost [undo_state] so that it can be taken back.

    The specification is a plain stack of snapshots ([Spec]); the refinement
    lemmas show that the change-set representation implements it. *)
From stdpp Require Import sorting.
From S2P Require Import Prelude.

(** ** The objects a table holds

    [obj_init i] is [value_type v{}; v.id = i;] of [generic_index::emplace].
    [ukeys] lists the keys of the object's unique secondary indices, each
    tagged (by its constructor) with the index it belongs to. *)
Class IndexedObject (V : Type) := {
  obj_id : V → Z;
  obj_init : Z → V;
  ukey : Type;
  ukey_eq_dec : EqDecision ukey;
  ukeys : V → list ukey;
  obj_id_init : ∀ i, obj_id (obj_init i) = i
}.
#[export] Existing Instance ukey_eq_dec.

Module Chainbase.

Record undo_state (V : Type) := mkUndo {
  old_values : gmap Z V;
  removed_values : gmap Z V;
  new_ids : gset Z;
  old_next_id : Z;
  us_revision : Z
}.
Arguments mkUndo {V}.
Arguments old_values {V}.
Arguments removed_values {V}.
Arguments new_ids {V}.
Arguments old_next_id {V}.
Arguments us_revision {V}.

(** [_stack] is a deque whose back is the innermost session; here the head of
    the list is the back of the deque. *)
Record generic_index (V : Type) := mkIndex {
  stack : list (undo_state V);
  revision : Z;
  next_id : Z;
  indices : gmap Z V
}.
Arguments mkIndex {V}.
Arguments stack {V}.
Arguments revision {V}.
Arguments next_id {V}.
Arguments indices {V}.

Definition empty_index {V} : generic_index V := mkIndex [] 0 0 ∅.

(** A [boost::container::map] and a [set] are traversed in key order. *)
Definition item_le {V} (x y : Z * V) : Prop := x.1 ≤ y.1.
#[export] Instance item_le_dec {V} (x y : Z * V) : Decision (item_le x y).
Proof. unfold item_le. apply _. Defined.
Definition map_items {V} (m : gmap Z V) : list (Z * V) :=
  merge_sort item_le (map_to_list m).
Definition set_items (s : gset Z) : list Z := merge_sort Z.le (elements s).

(** [map::emplace] keeps an existing entry. *)
Definition map_emplace {V} (i : Z) (v : V) (m : gmap Z V) : gmap Z V :=
  match m !! i with Some _ => m | None => <[i:=v]> m end.

Section with_object.
Context {V : Type} `{IndexedObject V}.
Implicit Types (gi : generic_index V) (u : undo_state V) (m : gmap Z V).

(** ** The multi-index container under the table *)
Definition key_used (k : ukey) m : bool :=
  existsb (λ p, bool_decide (k ∈ ukeys p.2)) (map_to_list m).

Definition container_emplace (v : V) m : option (gmap Z V) :=
  if bool_decide (m !! obj_id v = None) && negb (existsb (λ k, key_used k m) (ukeys v))
  then Some (<[obj_id v := v]> m) else None.

(** The modified copy [v'] of [v] is accepted when its id is unchanged and no
    key that changed is in use. *)
Definition container_replace (v v' : V) m : option (gmap Z V) :=
  if bool_decide (obj_id v' = obj_id v) &&
     negb (existsb (λ k, negb (bool_decide (k ∈ ukeys v)) && key_used k m) (ukeys v'))
  then Some (<[obj_id v := v']> m) else None.

Definition set_indices m gi : generic_index V :=
  mkIndex (stack gi) (revision gi) (next_id gi) m.
Definition set_stack st gi : generic_index V :=
  mkIndex st (revision gi) (next_id gi) (indices gi).
Definition set_next n gi : generic_index V :=
  mkIndex (stack gi) (revision gi) n (indices gi).

Definition enabled gi : bool := match stack gi with [] => false | _ => true end.

(** ** Recording of changes *)
Definition record_modify (v : V) u : undo_state V :=
  if bool_decide (obj_id v ∈ new_ids u) then u
  else match old_values u !! obj_id v with
  | Some _ => u
  | None => mkUndo (map_emplace (obj_id v) v (old_values u)) (removed_values u)
                   (new_ids u) (old_next_id u) (us_revision u)
  end.

Definition record_remove (v : V) u : undo_state V :=
  if bool_decide (obj_id v ∈ new_ids u) then
    mkUndo (old_values u) (removed_values u) (new_ids u ∖ {[obj_id v]})
           (old_next_id u) (us_revision u)
  else match old_values u !! obj_id v with
  | Some w => mkUndo (delete (obj_id v) (old_values u))
                     (map_emplace (obj_id v) w (removed_values u))
                     (new_ids u) (old_next_id u) (us_revision u)
  | None =>
      match removed_values u !! obj_id v with
      | Some _ => u
      | None => mkUndo (old_values u) (map_emplace (obj_id v) v (removed_values u))
                       (new_ids u) (old_next_id u) (us_revision u)
      end
  end.

Definition record_create (v : V) u : undo_state V :=
  mkUndo (old_values u) (removed_values u) ({[obj_id v]} ∪ new_ids u)
         (old_next_id u) (us_revision u).

Definition on_head (f : undo_state V → undo_state V) gi : generic_index V :=
  match stack gi with [] => gi | u :: us => set_stack (f u :: us) gi end.

Definition on_modify v gi := on_head (record_modify v) gi.
Definition on_remove v gi := on_head (record_remove v) gi.
Definition on_create v gi := on_head (record_create v) gi.

(** ** Operations of the table *)
Definition emplace (f : V → result V) : St (generic_index V) V := λ gi,
  let new_id := next_id gi in
  match f (obj_init new_id) with
  | Exc e => (Exc e, gi)
  | Ok v =>
      match container_emplace v (indices gi) with
      | None => (Exc LogicError, gi)
      | Some m => (Ok v, on_create v (set_next (next_id gi + 1) (set_indices m gi)))
      end
  end.

(** [modify( obj, m )]: [obj] is a reference into the table, here its id; the
    entry is the object's current value.  A dangling reference is undefined
    behaviour in C++ and an exception here. *)
Definition modify (i : Z) (f : V → result V) : St (generic_index V) unit := λ gi,
  match indices gi !! i with
  | None => (Exc LogicError, gi)
  | Some v =>
      let gi1 := on_modify v gi in
      match f v with
      | Exc e => (Exc e, gi1)
      | Ok v' =>
          match container_replace v v' (indices gi1) with
          | None => (Exc LogicError, gi1)
          | Some m => (Ok tt, set_indices m gi1)
          end
      end
  end.

Definition remove (i : Z) : St (generic_index V) unit := λ gi,
  match indices gi !! i with
  | None => (Exc LogicError, gi)
  | Some v => let gi1 := on_remove v gi in
              (Ok tt, set_indices (delete i (indices gi1)) gi1)
  end.

(** [find] and [get] through a unique key, and through the id. *)
Definition find_key (k : ukey) gi : option V :=
  snd <$> List.find (λ p, bool_decide (k ∈ ukeys p.2)) (map_items (indices gi)).
Definition get_key (k : ukey) gi : result V :=
  match find_key k gi with Some v => Ok v | None => Exc OutOfRange end.
Definition find_id (i : Z) gi : option V := indices gi !! i.
Definition get_id (i : Z) gi : result V :=
  match find_id i gi with Some v => Ok v | None => Exc OutOfRange end.

(** ** Undo sessions *)
Definition start_undo_session gi : generic_index V :=
  let r := revision gi + 1 in
  mkIndex (mkUndo ∅ ∅ ∅ (next_id gi) r :: stack gi) r (next_id gi) (indices gi).

(** One iteration of the loop over [head.old_values] in [undo]. *)
Definition restore_old (v : V) m : option (gmap Z V) :=
  match m !! obj_id v with
  | Some w => container_replace w v m
  | None => container_emplace v m
  end.

Fixpoint restore_all (f : V → gmap Z V → option (gmap Z V)) (l : list (Z * V)) m
    : result unit * gmap Z V :=
  match l with
  | [] => (Ok tt, m)
  | (_, v) :: l' =>
      match f v m with
      | None => (Exc LogicError, m)
      | Some m' => restore_all f l' m'
      end
  end.

Definition undo : St (generic_index V) unit := λ gi,
  match stack gi with
  | [] => (Ok tt, gi)
  | head :: rest =>
      match restore_all restore_old (map_items (old_values head)) (indices gi) with
      | (Exc e, m) => (Exc e, set_indices m gi)
      | (Ok _, m1) =>
          let m2 := foldl (λ m i, delete i m) m1 (set_items (new_ids head)) in
          let gi2 := set_next (old_next_id head) (set_indices m2 gi) in
          match restore_all container_emplace (map_items (removed_values head)) m2 with
          | (Exc e, m) => (Exc e, set_indices m gi2)
          | (Ok _, m3) => (Ok tt, mkIndex rest (revision gi - 1) (old_next_id head) m3)
          end
      end
  end.

(** The three loops of [squash], merging [state] into [prev_state]. *)
Definition squash_old (prev : undo_state V) (p : Z * V) : undo_state V :=
  let i := obj_id p.2 in
  if bool_decide (i ∈ new_ids prev) then prev
  else match old_values prev !! i with
  | Some _ => prev
  | None => mkUndo (map_emplace p.1 p.2 (old_values prev)) (removed_values prev)
                   (new_ids prev) (old_next_id prev) (us_revision prev)
  end.

Definition squash_new (prev : undo_state V) (i : Z) : undo_state V :=
  mkUndo (old_values prev) (removed_values prev) ({[i]} ∪ new_ids prev)
         (old_next_id prev) (us_revision prev).

Definition squash_removed (prev : undo_state V) (p : Z * V) : undo_state V :=
  let i := obj_id p.2 in
  if bool_decide (i ∈ new_ids prev) then
    mkUndo (old_values prev) (removed_values prev) (new_ids prev ∖ {[i]})
           (old_next_id prev) (us_revision prev)
  else match old_values prev !! i with
  | Some w => mkUndo (delete i (old_values prev)) (map_emplace i w (removed_values prev))
                     (new_ids prev) (old_next_id prev) (us_revision prev)
  | None => mkUndo (old_values prev) (map_emplace p.1 p.2 (removed_values prev))
                   (new_ids prev) (old_next_id prev) (us_revision prev)
  end.

Definition merge_states (state prev : undo_state V) : undo_state V :=
  let p1 := foldl squash_old prev (map_items (old_values state)) in
  let p2 := foldl squash_new p1 (set_items (new_ids state)) in
  foldl squash_removed p2 (map_items (removed_values state)).

Definition squash gi : generic_index V :=
  match stack gi with
  | [] => gi
  | [_] => set_stack [] gi
  | state :: prev :: rest =>
      mkIndex (merge_states state prev :: rest) (revision gi - 1) (next_id gi) (indices gi)
  end.

(** [while( _stack.size() && _stack[0].revision <= revision ) pop_front]: the
    front of the deque is the end of the list. *)
Fixpoint pop_front_while (rev : Z) (front : list (undo_state V)) : list (undo_state V) :=
  match front with
  | [] => []
  | u :: us => if us_revision u <=? rev then pop_front_while rev us else front
  end.

Definition commit (rev : Z) gi : generic_index V :=
  set_stack (reverse (pop_front_while rev (reverse (stack gi)))) gi.

(** [while( enabled() ) undo();] — every round pops one session, so the stack
    depth bounds the rounds. *)
Fixpoint undo_rounds (n : nat) : St (generic_index V) unit :=
  match n with
  | O => mret tt
  | S n' => λ gi, if enabled gi then (undo ;; undo_rounds n') gi else (Ok tt, gi)
  end.
Definition undo_all : St (generic_index V) unit := λ gi,
  undo_rounds (length (stack gi)) gi.

Definition set_revision (rev : Z) : St (generic_index V) unit := λ gi,
  match stack gi with
  | [] => (Ok tt, mkIndex [] rev (next_id gi) (indices gi))
  | _ => (Exc LogicError, gi)
  end.

(** [generic_index::session]: the object that, unless [push]ed or [squash]ed,
    undoes when it is destroyed. *)
Record session := mkSession { apply : bool }.
Definition session_push (s : session) : session := mkSession false.
Definition session_squash (s : session) : St (generic_index V) session := λ gi,
  (Ok (mkSession false), if apply s then squash gi else gi).
Definition session_undo (s : session) : St (generic_index V) session := λ gi,
  if apply s then
    match undo gi with (Ok _, gi') => (Ok (mkSession false), gi') | (Exc e, gi') => (Exc e, gi') end
  else (Ok (mkSession false), gi).
Definition session_destroy (s : session) : St (generic_index V) unit := λ gi,
  if apply s then undo gi else (Ok tt, gi).

End with_object.

(** ** Specification: a stack of snapshots *)
Module Spec.
Definition snapshot (V : Type) : Type := gmap Z V * Z.
Record t (V : Type) := mk { cur : snapshot V; saved : list (snapshot V) }.
Arguments mk {V}.
Arguments cur {V}.
Arguments saved {V}.
Definition start {V} (s : t V) : t V := mk (cur s) (cur s :: saved s).
Definition undo {V} (s : t V) : t V :=
  match saved s with [] => s | c :: l => mk c l end.
Definition squash {V} (s : t V) : t V := mk (cur s) (tail (saved s)).
Definition commit {V} (keep : nat) (s : t V) : t V := mk (cur s) (take keep (saved s)).
Definition undo_all {V} (s : t V) : t V :=
  mk (List.last (saved s) (cur s)) [].
Definition update {V} (c : snapshot V) (s : t V) : t V := mk c (saved s).
End Spec.

End Chainbase.

(** ** Traversals *)
Section items.
Import Chainbase.
Context {V : Type}.
Implicit Types (m : gmap Z V).

Lemma map_items_perm m : map_items m ≡ₚ map_to_list m.
Proof. apply merge_sort_Permutation. Qed.
Lemma elem_of_map_items m i v : (i, v) ∈ map_items m ↔ m !! i = Some v.
Proof. by rewrite map_items_perm, elem_of_map_to_list. Qed.
Lemma NoDup_map_items m : NoDup (map_items m).*1.
Proof. rewrite map_items_perm. apply NoDup_fst_map_to_list. Qed.
Lemma list_to_map_items m : list_to_map (map_items m) = m.
Proof.
  apply map_eq. intros i. apply option_eq. intros v.
  rewrite <- elem_of_list_to_map by apply NoDup_map_items. apply elem_of_map_items.
Qed.
Lemma elem_of_set_items s i : i ∈ set_items s ↔ i ∈ s.
Proof. unfold set_items. by rewrite merge_sort_Permutation, elem_of_elements. Qed.
Lemma NoDup_set_items s : NoDup (set_items s).
Proof. unfold set_items. rewrite merge_sort_Permutation. apply NoDup_elements. Qed.

Lemma lookup_map_emplace m i j v :
  map_emplace i v m !! j =
  if decide (i = j) then Some (default v (m !! i)) else m !! j.
Proof.
  unfold map_emplace. destruct (m !! i) eqn:E; case_decide; subst; simpl; try done.
  - by rewrite lookup_insert_eq.
  - by rewrite lookup_insert_ne.
Qed.

Lemma lookup_erase_all l m j :
  foldl (λ m i, delete i m) m l !! j = if decide (j ∈ l) then None else m !! j.
Proof.
  revert m. induction l as [|i l IH]; intros m; [done|].
  cbn [foldl]. rewrite IH. destruct (decide (j ∈ l)); [by rewrite decide_True by set_solver|].
  destruct (decide (i = j)) as [->|].
  - rewrite lookup_delete_eq. by rewrite decide_True by set_solver.
  - rewrite lookup_delete_ne by done. by rewrite decide_False by set_solver.
Qed.
End items.

(** ** Well-formed tables

    A table is well formed when every object sits at its own id, below
    [next_id], with no unique key shared, and when each undo state describes
    a change from a well-formed snapshot. *)
Section wf.
Import Chainbase.
Context {V : Type} `{IndexedObject V}.
Implicit Types (gi : generic_index V) (u : undo_state V) (m : gmap Z V).

Definition unique_keys m : Prop := ∀ i j v w k,
  m !! i = Some v → m !! j = Some w → k ∈ ukeys v → k ∈ ukeys w → i = j.

Definition wf_map m (n : Z) : Prop :=
  (∀ i v, m !! i = Some v → obj_id v = i ∧ i < n) ∧ unique_keys m.

(** The map before the changes recorded in [u]. *)
Definition restore_at (o r : option V) (n : bool) (x : option V) : option V :=
  match r with
  | Some v => Some v
  | None => match o with Some v => Some v | None => if n then None else x end
  end.
Definition restore u m : gmap Z V :=
  removed_values u ∪ (old_values u ∪ filter (λ p, p.1 ∉ new_ids u) m).

(** What an undo state may say of an id: updated, removed, new or nothing. *)
Definition wf_at (n0 i : Z) (o r : option V) (n : bool) (x : option V) : Prop :=
  match o, r, n with
  | Some v, None, false => ∃ w, x = Some w ∧ ukeys w = ukeys v
  | None, Some _, false => x = None
  | None, None, true => is_Some x ∧ n0 ≤ i
  | None, None, false => is_Some x → i < n0
  | _, _, _ => False
  end.
Definition wf_undo u m : Prop := ∀ i,
  wf_at (old_next_id u) i (old_values u !! i) (removed_values u !! i)
        (bool_decide (i ∈ new_ids u)) (m !! i).

Fixpoint wf_stack (us : list (undo_state V)) m (n : Z) : Prop :=
  match us with
  | [] => True
  | u :: us' => wf_undo u m ∧ old_next_id u ≤ n ∧
      wf_map (restore u m) (old_next_id u) ∧ wf_stack us' (restore u m) (old_next_id u)
  end.

(** The revision numbers count down from the table's own. *)
Fixpoint wf_revisions (us : list (undo_state V)) (r : Z) : Prop :=
  match us with [] => True | u :: us' => us_revision u = r ∧ wf_revisions us' (r - 1) end.

Definition wf gi : Prop :=
  wf_map (indices gi) (next_id gi) ∧ wf_stack (stack gi) (indices gi) (next_id gi) ∧
  wf_revisions (stack gi) (revision gi).

(** The snapshots a table stands for. *)
Fixpoint snapshots (us : list (undo_state V)) m : list (Spec.snapshot V) :=
  match us with
  | [] => []
  | u :: us' => (restore u m, old_next_id u) :: snapshots us' (restore u m)
  end.
Definition abs gi : Spec.t V :=
  Spec.mk (indices gi, next_id gi) (snapshots (stack gi) (indices gi)).

Lemma lookup_restore u m i :
  restore u m !! i =
  restore_at (old_values u !! i) (removed_values u !! i) (bool_decide (i ∈ new_ids u)) (m !! i).
Proof.
  unfold restore, restore_at. rewrite !lookup_union, map_lookup_filter.
  case_bool_decide; destruct (removed_values u !! i), (old_values u !! i), (m !! i);
    simpl; try done; case_guard; simpl; done.
Qed.

Lemma key_used_spec k m :
  key_used k m = true ↔ ∃ i v, m !! i = Some v ∧ k ∈ ukeys v.
Proof.
  unfold key_used. rewrite existsb_exists. split.
  - intros ([i v] & Hin & Hk). bool_hyps.
    rewrite <- list_elem_of_In, elem_of_map_to_list in Hin. eauto.
  - intros (i & v & Hi & Hk). exists (i, v).
    rewrite <- list_elem_of_In, elem_of_map_to_list, bool_decide_eq_true. eauto.
Qed.

Lemma container_emplace_Some v m m' :
  container_emplace v m = Some m' →
  m' = <[obj_id v := v]> m ∧ m !! obj_id v = None ∧
  (∀ i w k, m !! i = Some w → k ∈ ukeys v → k ∈ ukeys w → False).
Proof.
  unfold container_emplace. destruct (_ && _) eqn:E; [|done]. intros [= <-].
  bool_hyps. split_and!; [done..|]. intros i w k Hi Hv Hw.
  assert (existsb (λ k, key_used k m) (ukeys v) = true); [|congruence].
  apply existsb_exists. exists k. rewrite <- list_elem_of_In, key_used_spec. eauto.
Qed.

Lemma container_emplace_free v m :
  m !! obj_id v = None →
  (∀ i w k, m !! i = Some w → k ∈ ukeys v → k ∈ ukeys w → False) →
  container_emplace v m = Some (<[obj_id v := v]> m).
Proof.
  intros Hn Hk. unfold container_emplace. rewrite bool_decide_true by done. simpl.
  destruct (existsb _ _) eqn:E; [|done]. exfalso.
  apply existsb_exists in E as (k & Hin & (i & w & Hi & Hw)%key_used_spec).
  rewrite <- list_elem_of_In in Hin. eauto.
Qed.

Lemma container_replace_Some v v' m m' :
  container_replace v v' m = Some m' → m' = <[obj_id v := v']> m ∧ obj_id v' = obj_id v.
Proof.
  unfold container_replace. destruct (_ && _) eqn:E; [|done]. intros [= <-]. by bool_hyps.
Qed.

Lemma container_replace_same_keys v v' m :
  obj_id v' = obj_id v → ukeys v' = ukeys v →
  container_replace v v' m = Some (<[obj_id v := v']> m).
Proof.
  intros Hid Hk. unfold container_replace. rewrite bool_decide_true by done. simpl.
  destruct (existsb _ _) eqn:E; [|done]. exfalso.
  apply existsb_exists in E as (k & Hin & Hc). bool_hyps.
  rewrite <- list_elem_of_In in Hin. congruence.
Qed.

(** *** Changes of a well-formed map *)
Lemma wf_map_replace m n i v v' :
  wf_map m n → m !! i = Some v → obj_id v' = obj_id v → ukeys v' = ukeys v →
  wf_map (<[i := v']> m) n.
Proof.
  intros [Hid Huk] Hi Heq Hk. split.
  - intros j w. rewrite lookup_insert. case_decide; subst; intros; simplify_eq; [|by apply Hid].
    rewrite Heq. by apply Hid.
  - intros j1 j2 w1 w2 k. rewrite !lookup_insert.
    repeat case_decide; subst; intros; simplify_eq; try done.
    + eapply (Huk _ _ v w2 k); eauto. by rewrite <- Hk.
    + eapply (Huk _ _ w1 v k); eauto. by rewrite <- Hk.
    + by eapply (Huk j1 j2).
Qed.

Lemma wf_map_create m n v m' :
  wf_map m n → obj_id v = n → container_emplace v m = Some m' → wf_map m' (n + 1).
Proof.
  intros [Hid Huk] Hn (-> & Hnone & Hfree)%container_emplace_Some. split.
  - intros j w. rewrite lookup_insert. case_decide; subst; intros; simplify_eq; [split; lia|].
    destruct (Hid j w); [done|]. split; [done|lia].
  - intros j1 j2 w1 w2 k. rewrite !lookup_insert.
    repeat case_decide; subst; intros; simplify_eq; try done.
    + exfalso. eauto.
    + exfalso. eauto.
    + by eapply (Huk j1 j2).
Qed.

Lemma wf_map_delete m n i : wf_map m n → wf_map (delete i m) n.
Proof.
  intros [Hid Huk]. split.
  - intros j w Hj%lookup_delete_Some. by apply Hid, Hj.
  - intros j1 j2 w1 w2 k Hj1%lookup_delete_Some Hj2%lookup_delete_Some.
    eapply Huk; [apply Hj1|apply Hj2].
Qed.

Lemma wf_map_none m n i : wf_map m n → n ≤ i → m !! i = None.
Proof.
  intros [Hid _] Hi. destruct (m !! i) eqn:E; [|done]. apply Hid in E. lia.
Qed.

(** *** [undo] replays the snapshot *)
Lemma restore_all_old l m :
  NoDup l.*1 →
  (∀ i v, (i, v) ∈ l → obj_id v = i ∧
     ∃ w, m !! i = Some w ∧ obj_id w = i ∧ ukeys w = ukeys v) →
  restore_all restore_old l m = (Ok tt, list_to_map l ∪ m).
Proof.
  revert m. induction l as [|[i v] l IH]; intros m Hnd Hl; csimpl.
  { by rewrite (left_id_L ∅ (∪)). }
  apply NoDup_cons in Hnd as [Hi Hnd].
  destruct (Hl i v) as (Hid & w & Hw & Hidw & Hk); [set_solver|].
  unfold restore_old at 1. rewrite Hid, Hw.
  rewrite container_replace_same_keys by congruence. rewrite IH; [|done|].
  - f_equal. rewrite Hidw. rewrite <- insert_union_l, <- insert_union_r; [done|].
    by apply not_elem_of_list_to_map.
  - intros j v' Hin. destruct (Hl j v') as (Hid' & w' & Hw' & ?); [set_solver|].
    split; [done|]. exists w'. split; [|done].
    rewrite Hidw, lookup_insert_ne; [done|]. intros <-.
    apply Hi. by apply (list_elem_of_fmap_2 fst _ (i, v')).
Qed.

Lemma restore_all_emplace l m :
  NoDup l.*1 → (∀ i v, (i, v) ∈ l → obj_id v = i ∧ m !! i = None) →
  unique_keys (list_to_map l ∪ m) →
  restore_all container_emplace l m = (Ok tt, list_to_map l ∪ m).
Proof.
  revert m. induction l as [|[i v] l IH]; intros m Hnd Hl Hu; csimpl.
  { by rewrite (left_id_L ∅ (∪)). }
  apply NoDup_cons in Hnd as [Hi Hnd].
  destruct (Hl i v) as [Hid Hn]; [set_solver|]. csimpl in Hu.
  assert (Hlm : (list_to_map l : gmap Z V) !! i = None) by by apply not_elem_of_list_to_map.
  assert (Hpush : list_to_map l ∪ <[i:=v]> m = <[i:=v]> (list_to_map l) ∪ m).
  { rewrite <- insert_union_l. by rewrite insert_union_r. }
  rewrite container_emplace_free, Hid.
  - rewrite IH; [by rewrite Hpush|done| |by rewrite Hpush].
    intros j v' Hin. destruct (Hl j v') as [? Hn']; [set_solver|]. split; [done|].
    rewrite lookup_insert_ne; [done|]. intros <-.
    apply Hi. by apply (list_elem_of_fmap_2 fst _ (i, v')).
  - by rewrite Hid.
  - intros j w k Hj Hkv Hkw.
    destruct ((list_to_map l : gmap Z V) !! j) as [x|] eqn:Ex.
    { rewrite <- elem_of_list_to_map in Ex by done.
      destruct (Hl j x) as [_ ?]; [set_solver|]. congruence. }
    assert (j ≠ i) by congruence. assert (i = j); [|done].
    apply (Hu i j v w k); [by rewrite lookup_union, lookup_insert_eq, union_Some_l| |done..].
    rewrite lookup_union, lookup_insert_ne, Ex, Hj by done. done.
Qed.

Lemma undo_restores gi u us :
  wf gi → stack gi = u :: us →
  undo gi = (Ok tt, mkIndex us (revision gi - 1) (old_next_id u) (restore u (indices gi))).
Proof.
  intros (Hm & Hst & Hr) Hs. unfold undo. rewrite Hs in *.
  destruct Hst as (Hu & Hle & Hmr & _).
  assert (Hu' : ∀ i, wf_at (old_next_id u) i (old_values u !! i) (removed_values u !! i)
    (bool_decide (i ∈ new_ids u)) (indices gi !! i)) by exact Hu.
  assert (Hids : ∀ i v, restore u (indices gi) !! i = Some v → obj_id v = i) by apply Hmr.
  rewrite restore_all_old; [|apply NoDup_map_items|].
  2:{ intros i v Hin%elem_of_map_items. specialize (Hu' i). rewrite Hin in Hu'.
      unfold wf_at in Hu'.
      destruct (removed_values u !! i) eqn:Er; [done|].
      destruct (bool_decide (i ∈ new_ids u)); [done|]. destruct Hu' as (w & Hw & Hk).
      split; [|exists w; split_and!; [done| |done]; by apply Hm].
      apply Hids. rewrite lookup_restore, Hin, Er. done. }
  rewrite list_to_map_items.
  set (m2 := foldl _ _ _).
  assert (Hm2 : ∀ i, m2 !! i = if decide (i ∈ new_ids u) then None
                                else (old_values u ∪ indices gi) !! i).
  { intros i. unfold m2. rewrite lookup_erase_all.
    repeat case_decide; rewrite ?elem_of_set_items in *; done. }
  assert (Heq : removed_values u ∪ m2 = restore u (indices gi)).
  { apply map_eq. intros i. rewrite lookup_restore, lookup_union, Hm2, lookup_union.
    specialize (Hu' i). unfold wf_at, restore_at in *.
    destruct (decide (i ∈ new_ids u));
      [rewrite bool_decide_true in * by done|rewrite bool_decide_false in * by done];
      destruct (removed_values u !! i), (old_values u !! i), (indices gi !! i); done. }
  rewrite restore_all_emplace.
  - rewrite list_to_map_items. by rewrite Heq.
  - apply NoDup_map_items.
  - intros i v Hin%elem_of_map_items. split.
    { apply Hids. by rewrite lookup_restore, Hin. }
    rewrite Hm2. case_decide; [done|]. rewrite lookup_union.
    specialize (Hu' i). rewrite Hin in Hu'. unfold wf_at in Hu'.
    destruct (old_values u !! i); [done|]. rewrite bool_decide_false in Hu' by done.
    by rewrite Hu'.
  - rewrite list_to_map_items, Heq. apply Hmr.
Qed.
End wf.

(** ** Recording keeps the snapshots *)
Section record.
Import Chainbase.
Context {V : Type} `{IndexedObject V}.
Implicit Types (gi : generic_index V) (u : undo_state V) (m : gmap Z V).

Lemma record_modify_frame v u j : j ≠ obj_id v →
  old_values (record_modify v u) !! j = old_values u !! j.
Proof.
  intros Hj. unfold record_modify. case_bool_decide; [done|].
  destruct (old_values u !! obj_id v) eqn:E; [done|]. simpl.
  rewrite lookup_map_emplace. by case_decide.
Qed.

Lemma record_modify_same v u :
  removed_values (record_modify v u) = removed_values u ∧
  new_ids (record_modify v u) = new_ids u ∧
  old_next_id (record_modify v u) = old_next_id u ∧
  us_revision (record_modify v u) = us_revision u.
Proof.
  unfold record_modify. case_bool_decide; [done|].
  by destruct (old_values u !! obj_id v).
Qed.

Lemma record_modify_at v u :
  old_values (record_modify v u) !! obj_id v =
  if decide (obj_id v ∈ new_ids u) then old_values u !! obj_id v
  else Some (default v (old_values u !! obj_id v)).
Proof.
  unfold record_modify. case_bool_decide; case_decide; try done.
  destruct (old_values u !! obj_id v) eqn:E; simpl; [by rewrite E|].
  rewrite lookup_map_emplace, E. by case_decide.
Qed.

Lemma record_modify_ok v v' u m :
  wf_undo u m → m !! obj_id v = Some v → ukeys v' = ukeys v →
  restore (record_modify v u) (<[obj_id v := v']> m) = restore u m ∧
  wf_undo (record_modify v u) (<[obj_id v := v']> m).
Proof.
  intros Hu Hv Hk. destruct (record_modify_same v u) as (Hr & Hn & Ho & _).
  assert (Hpt : ∀ i, restore (record_modify v u) (<[obj_id v := v']> m) !! i = restore u m !! i ∧
     wf_at (old_next_id u) i (old_values (record_modify v u) !! i) (removed_values u !! i)
       (bool_decide (i ∈ new_ids u)) (<[obj_id v := v']> m !! i)).
  { intros i. specialize (Hu i). rewrite !lookup_restore, Hr, Hn.
    destruct (decide (i = obj_id v)) as [->|Hne].
    - rewrite record_modify_at, lookup_insert_eq, Hv in *. unfold wf_at, restore_at in *.
      destruct (decide (obj_id v ∈ new_ids u));
        [rewrite bool_decide_true in * by done|rewrite bool_decide_false in * by done];
        destruct (removed_values u !! _), (old_values u !! _); simpl; try done;
        (split; [done|]); [by split; [|apply Hu]|..];
        try destruct Hu as (? & ? & ?); simplify_eq; eauto with congruence.
    - rewrite record_modify_frame, lookup_insert_ne by done. done. }
  split.
  - apply map_eq. intros i. apply Hpt.
  - intros i. rewrite Hr, Hn, Ho. apply Hpt.
Qed.

Lemma record_remove_ok v u m :
  wf_undo u m → wf_map (restore u m) (old_next_id u) → m !! obj_id v = Some v →
  restore (record_remove v u) (delete (obj_id v) m) = restore u m ∧
  wf_undo (record_remove v u) (delete (obj_id v) m) ∧
  old_next_id (record_remove v u) = old_next_id u ∧
  us_revision (record_remove v u) = us_revision u.
Proof.
  intros Hu Hmr Hv.
  assert (Hnx : old_next_id (record_remove v u) = old_next_id u ∧
                us_revision (record_remove v u) = us_revision u).
  { unfold record_remove. repeat case_match; done. }
  assert (Hpt : ∀ i, restore (record_remove v u) (delete (obj_id v) m) !! i = restore u m !! i ∧
     wf_at (old_next_id u) i (old_values (record_remove v u) !! i)
       (removed_values (record_remove v u) !! i)
       (bool_decide (i ∈ new_ids (record_remove v u))) (delete (obj_id v) m !! i)).
  { intros i. pose proof (Hu i) as Hi. rewrite !lookup_restore. unfold record_remove.
    pose proof (Hu (obj_id v)) as Ho. rewrite Hv in Ho.
    assert (Hlt : ∀ x, restore u m !! obj_id v = Some x → obj_id v < old_next_id u).
    { intros x Hx. by apply Hmr in Hx as [_ ?]. }
    rewrite lookup_restore, Hv in Hlt.
    destruct (decide (obj_id v ∈ new_ids u)) as [Hn|Hn].
    - rewrite bool_decide_true in Ho, Hlt |- * by done. simpl.
      rewrite lookup_delete. unfold wf_at, restore_at in *.
      destruct (decide (obj_id v = i)) as [<-|Hne].
      + rewrite (bool_decide_false (_ ∈ _ ∖ _)) by set_solver. rewrite bool_decide_true by done.
        destruct (old_values u !! obj_id v), (removed_values u !! obj_id v); done.
      + replace (bool_decide (i ∈ new_ids u ∖ {[obj_id v]})) with (bool_decide (i ∈ new_ids u));
          [done|]. apply bool_decide_ext. set_solver.
    - rewrite bool_decide_false in Ho, Hlt |- * by done.
      destruct (old_values u !! obj_id v) as [w|] eqn:Ew; simpl.
      + rewrite lookup_delete, lookup_map_emplace. rewrite lookup_delete.
        destruct (decide (obj_id v = i)) as [<-|Hne]; [|done].
        rewrite bool_decide_false by done. unfold wf_at, restore_at in *.
        destruct (removed_values u !! obj_id v); [done|]. by rewrite Ew.
      + unfold wf_at, restore_at in *.
        destruct (removed_values u !! obj_id v) eqn:Er; [done|]. simpl.
        rewrite lookup_map_emplace, lookup_delete.
        destruct (decide (obj_id v = i)) as [<-|Hne]; [|done].
        rewrite bool_decide_false by done. by rewrite Er, Ew, Hv. }
  split_and!; [|..|apply Hnx|apply Hnx].
  - apply map_eq. intros i. apply Hpt.
  - intros i. destruct Hnx as [-> _]. apply Hpt.
Qed.

Lemma record_create_ok v u m n :
  wf_undo u m → wf_map (restore u m) (old_next_id u) → m !! obj_id v = None →
  old_next_id u ≤ n → obj_id v = n →
  restore (record_create v u) (<[obj_id v := v]> m) = restore u m ∧
  wf_undo (record_create v u) (<[obj_id v := v]> m).
Proof.
  intros Hu Hmr Hv Hle Hn.
  assert (Hpt : ∀ i, restore (record_create v u) (<[obj_id v := v]> m) !! i = restore u m !! i ∧
     wf_at (old_next_id u) i (old_values u !! i) (removed_values u !! i)
       (bool_decide (i ∈ {[obj_id v]} ∪ new_ids u)) (<[obj_id v := v]> m !! i)).
  { intros i. specialize (Hu i). rewrite !lookup_restore. simpl.
    destruct (decide (i = obj_id v)) as [->|Hne].
    - assert (Hge : old_next_id u ≤ obj_id v) by lia.
      pose proof (wf_map_none _ _ (obj_id v) Hmr Hge) as Hnone.
      rewrite lookup_restore, Hv in Hnone. rewrite bool_decide_true by set_solver.
      rewrite lookup_insert_eq, Hv in *. unfold wf_at, restore_at in *.
      destruct (old_values u !! _), (removed_values u !! _); done.
    - rewrite lookup_insert_ne by done.
      replace (bool_decide (i ∈ {[obj_id v]} ∪ new_ids u)) with (bool_decide (i ∈ new_ids u));
        [done|]. apply bool_decide_ext. set_solver. }
  split.
  - apply map_eq. intros i. apply Hpt.
  - intros i. apply Hpt.
Qed.
End record.

(** ** [squash] composes change sets *)
Section squash.
Import Chainbase.
Context {V : Type} `{IndexedObject V}.
Implicit Types (gi : generic_index V) (u s p : undo_state V) (m : gmap Z V).

(** What an undo state says of the id [i]. *)
Definition view (i : Z) u : option V * option V * bool :=
  (old_values u !! i, removed_values u !! i, bool_decide (i ∈ new_ids u)).

(** A loop whose steps only read and write the entry of their own key acts
    on each entry once. *)
Lemma foldl_local {A} (key : A → Z) (f : undo_state V → A → undo_state V)
    (g : Z → A → option V * option V * bool → option V * option V * bool) l u i :
  NoDup (key <$> l) →
  (∀ u a j, a ∈ l → view j (f u a) = if decide (key a = j) then g j a (view j u) else view j u) →
  view i (foldl f u l) =
    match List.find (λ a, bool_decide (key a = i)) l with
    | Some a => g i a (view i u)
    | None => view i u
    end.
Proof.
  revert u. induction l as [|a l IH]; intros u Hnd Hf; [done|].
  cbn [foldl List.find]. csimpl in Hnd. apply NoDup_cons in Hnd as [Ha Hnd].
  rewrite IH; [|done|set_solver]. rewrite !Hf by set_solver.
  case_decide as Hk; [|by rewrite bool_decide_false].
  rewrite bool_decide_true by done.
  destruct (List.find _ l) as [b|] eqn:E; [|done]. exfalso.
  apply List.find_some in E as [Hin Hb]. bool_hyps. rewrite <- list_elem_of_In in Hin.
  apply Ha. rewrite Hk, <- Hb. by apply list_elem_of_fmap_2.
Qed.

Lemma find_items m i :
  List.find (λ a : Z * V, bool_decide (a.1 = i)) (map_items m) = (λ v, (i, v)) <$> (m !! i).
Proof.
  destruct (List.find _ _) as [[j v]|] eqn:E.
  - apply List.find_some in E as [Hin Hb]. simpl in Hb. bool_hyps. subst j.
    rewrite <- list_elem_of_In, elem_of_map_items in Hin. by rewrite Hin.
  - destruct (m !! i) as [v|] eqn:Hi; [|done]. exfalso.
    apply elem_of_map_items, list_elem_of_In in Hi.
    pose proof (List.find_none _ _ E _ Hi) as Hb. simpl in Hb. bool_hyps. done.
Qed.

Lemma find_set (s : gset Z) i :
  List.find (λ a, bool_decide (a = i)) (set_items s) = if decide (i ∈ s) then Some i else None.
Proof.
  destruct (List.find _ _) as [j|] eqn:E.
  - apply List.find_some in E as [Hin Hb]. bool_hyps. subst j.
    rewrite <- list_elem_of_In, elem_of_set_items in Hin. by rewrite decide_True.
  - case_decide as Hi; [|done]. exfalso.
    apply elem_of_set_items, list_elem_of_In in Hi.
    pose proof (List.find_none _ _ E _ Hi) as Hb. simpl in Hb. bool_hyps. done.
Qed.

(** The merge matrix of [squash], row by row. *)
Definition merge_old (v : V) (w : option V * option V * bool) :=
  let '(o, r, n) := w in
  if n then w else match o with Some _ => w | None => (Some v, r, n) end.
Definition merge_removed (v : V) (w : option V * option V * bool) :=
  let '(o, r, n) := w in
  if n then (o, r, false)
  else match o with
  | Some x => (None, Some (default x r), n)
  | None => (o, Some (default v r), n)
  end.
Definition merge_view (s p : option V * option V * bool) :=
  let '(so, sr, sn) := s in
  let p1 := match so with Some v => merge_old v p | None => p end in
  let p2 := let '(o, r, n) := p1 in (o, r, sn || n) in
  match sr with Some v => merge_removed v p2 | None => p2 end.

Lemma view_squash_old p a j :
  obj_id a.2 = a.1 →
  view j (squash_old p a) = if decide (a.1 = j) then merge_old a.2 (view j p) else view j p.
Proof.
  intros Hid. unfold squash_old. rewrite Hid. destruct a as [i v]; simpl in *.
  case_decide as Hj; subst.
  - unfold view, merge_old. case_bool_decide as Hn; [by rewrite bool_decide_true|].
    destruct (old_values p !! obj_id v) eqn:E; simpl; rewrite ?E, bool_decide_false by done; [done|].
    rewrite lookup_map_emplace, decide_True, E by done. done.
  - case_bool_decide; [done|]. destruct (old_values p !! obj_id v); [done|].
    unfold view; simpl. rewrite lookup_map_emplace, decide_False by done. done.
Qed.

Lemma view_squash_removed p a j :
  obj_id a.2 = a.1 →
  view j (squash_removed p a) =
  if decide (a.1 = j) then merge_removed a.2 (view j p) else view j p.
Proof.
  intros Hid. unfold squash_removed. rewrite Hid. destruct a as [i v]; simpl in *.
  case_decide as Hj; [subst|].
  - unfold view, merge_removed. case_bool_decide as Hn; simpl.
    { by rewrite bool_decide_false by set_solver. }
    destruct (old_values p !! obj_id v) eqn:E; simpl; rewrite ?E, ?bool_decide_false by done.
    + by rewrite lookup_delete_eq, lookup_map_emplace, decide_True by done; destruct (_ !! _).
    + by rewrite lookup_map_emplace, decide_True by done; destruct (_ !! _).
  - unfold view. case_bool_decide; simpl.
    { do 2 f_equal. apply bool_decide_ext. set_solver. }
    destruct (old_values p !! i); simpl;
      rewrite ?lookup_delete_ne, lookup_map_emplace, decide_False by done; done.
Qed.

Lemma view_squash_new p a j :
  view j (squash_new p a) =
  if decide (a = j) then (let '(o, r, _) := view j p in (o, r, true)) else view j p.
Proof.
  unfold view; simpl. case_decide; subst.
  - by rewrite bool_decide_true by set_solver.
  - do 2 f_equal. apply bool_decide_ext. set_solver.
Qed.

Lemma view_merge s p i :
  (∀ i v, old_values s !! i = Some v → obj_id v = i) →
  (∀ i v, removed_values s !! i = Some v → obj_id v = i) →
  view i (merge_states s p) = merge_view (view i s) (view i p).
Proof.
  intros Ho Hr. unfold merge_states.
  rewrite (foldl_local fst _ (λ _ a, merge_removed a.2)), find_items; [|apply NoDup_map_items|].
  2:{ intros u [j v] j' Hin%elem_of_map_items. apply view_squash_removed. by apply Hr. }
  rewrite (foldl_local id _ (λ _ _ w, let '(o, r, _) := w in (o, r, true))), find_set;
    [| rewrite list_fmap_id; apply NoDup_set_items | by intros; apply view_squash_new ].
  rewrite (foldl_local fst _ (λ _ a, merge_old a.2)), find_items; [|apply NoDup_map_items|].
  2:{ intros u [j v] j' Hin%elem_of_map_items. apply view_squash_old. by apply Ho. }
  change (view i s) with
    (old_values s !! i, removed_values s !! i, bool_decide (i ∈ new_ids s)).
  destruct (view i p) as [[o r] n]. unfold merge_view.
  destruct (old_values s !! i), (removed_values s !! i); simpl;
    case_decide; case_bool_decide; try done;
    unfold merge_old; destruct o, n; done.
Qed.

Lemma merge_states_next s p :
  old_next_id (merge_states s p) = old_next_id p ∧
  us_revision (merge_states s p) = us_revision p.
Proof.
  assert (Hfold : ∀ {A} (f : undo_state V → A → undo_state V) l u,
    (∀ u a, old_next_id (f u a) = old_next_id u ∧ us_revision (f u a) = us_revision u) →
    old_next_id (foldl f u l) = old_next_id u ∧ us_revision (foldl f u l) = us_revision u).
  { intros A f l. induction l as [|a l IH]; intros u Hf; [done|].
    cbn. destruct (IH (f u a) Hf) as [-> ->]. apply Hf. }
  unfold merge_states.
  repeat match goal with |- context [foldl ?f ?u ?l] =>
    let E1 := fresh in let E2 := fresh in
    destruct (Hfold _ f l u) as [E1 E2]; [|rewrite E1, E2; clear E1 E2] end; try done.
  - intros u a. unfold squash_removed. repeat case_match; done.
  - intros u a. unfold squash_old. repeat case_match; done.
Qed.

Lemma merge_at n0 n1 i (s p : option V * option V * bool) x :
  let '(so, sr, sn) := s in let '(o, r, n) := p in
  let '(o', r', n') := merge_view s p in
  n0 ≤ n1 →
  wf_at n1 i so sr sn x →
  wf_at n0 i o r n (restore_at so sr sn x) →
  (∀ y, restore_at o r n (restore_at so sr sn x) = Some y → i < n0) →
  restore_at o' r' n' x = restore_at o r n (restore_at so sr sn x) ∧
  wf_at n0 i o' r' n' x.
Proof.
  destruct s as [[so sr] sn], p as [[o r] n].
  destruct so, sr, sn; destruct o, r, n; simpl; try done; intros Hle Hs Hp Hi;
    repeat match goal with
    | H : _ ∧ _ |- _ => destruct H
    | H : is_Some _ |- _ => destruct H
    | H : ∃ _, _ |- _ => destruct H
    end; simplify_eq; try (split; [done|]); eauto with congruence; try lia.
  all: try (by specialize (Hi _ eq_refl); lia).
  all: try (eexists; split; [done|congruence]).
  all: try (intros _; specialize (Hp (mk_is_Some _ _ eq_refl)); lia).
  - by intros [].
  - split; [done|lia].
Qed.
End squash.

(** ** The table refines the stack of snapshots *)
Section refinement.
Import Chainbase.
Context {V : Type} `{IndexedObject V}.
Implicit Types (gi : generic_index V) (u s p : undo_state V) (m : gmap Z V).

Lemma wf_map_restored u m i v :
  wf_map (restore u m) (old_next_id u) → wf_undo u m →
  (old_values u !! i = Some v ∨ removed_values u !! i = Some v) → obj_id v = i.
Proof.
  intros [Hid _] Hu Hv. apply Hid. rewrite lookup_restore. specialize (Hu i).
  unfold wf_at, restore_at in *.
  destruct (removed_values u !! i), (old_values u !! i); naive_solver.
Qed.

Lemma merge_states_ok s p m n :
  wf_undo s m → old_next_id s ≤ n → wf_map (restore s m) (old_next_id s) →
  wf_undo p (restore s m) → old_next_id p ≤ old_next_id s →
  wf_map (restore p (restore s m)) (old_next_id p) →
  restore (merge_states s p) m = restore p (restore s m) ∧ wf_undo (merge_states s p) m.
Proof.
  intros Hs Hn Hms Hp Hnp Hmp. destruct (merge_states_next s p) as [Hnext _].
  assert (Hpt : ∀ i, restore (merge_states s p) m !! i = restore p (restore s m) !! i ∧
    wf_at (old_next_id p) i (old_values (merge_states s p) !! i)
      (removed_values (merge_states s p) !! i)
      (bool_decide (i ∈ new_ids (merge_states s p))) (m !! i)).
  { intros i.
    assert (Hv : view i (merge_states s p) = merge_view (view i s) (view i p)).
    { apply view_merge; intros; apply (wf_map_restored s m); eauto. }
    pose proof (merge_at (old_next_id p) (old_next_id s) i (view i s) (view i p) (m !! i)) as Hat.
    specialize (Hs i). specialize (Hp i). rewrite lookup_restore in Hp.
    assert (Hlt : ∀ y, restore p (restore s m) !! i = Some y → i < old_next_id p).
    { intros y Hy. by destruct (proj1 Hmp i y Hy). }
    rewrite !lookup_restore in Hlt |- *. rewrite lookup_restore.
    unfold view in Hv at 1. rewrite <- Hv in Hat. unfold view in Hat. by apply Hat. }
  split.
  - apply map_eq. intros i. apply Hpt.
  - intros i. rewrite Hnext. apply Hpt.
Qed.

Lemma wf_squash gi : wf gi → wf (squash gi) ∧ abs (squash gi) = Spec.squash (abs gi).
Proof.
  intros (Hm & Hst & Hr). unfold squash, wf, abs.
  destruct gi as [[|s [|p rest]] r n m]; simpl in *; [done..|].
  destruct Hst as (Hs & Hsn & Hsm & Hp & Hpn & Hpm & Hrest), Hr as (Hrs & Hrp & Hrr).
  destruct (merge_states_ok s p m n) as [Heq Hwf]; [done..|].
  destruct (merge_states_next s p) as [Hnx Hrv].
  rewrite Heq, Hnx, Hrv. split_and!; try done. lia.
Qed.

Lemma wf_start gi :
  wf gi → wf (start_undo_session gi) ∧ abs (start_undo_session gi) = Spec.start (abs gi).
Proof.
  intros (Hm & Hst & Hr). unfold wf, abs, start_undo_session; simpl.
  assert (He : restore (mkUndo ∅ ∅ ∅ (next_id gi) (revision gi + 1)) (indices gi) = indices gi).
  { apply map_eq. intros i. rewrite lookup_restore. simpl. rewrite !lookup_empty.
    by rewrite bool_decide_false by set_solver. }
  rewrite He. split_and!; try done.
  - intros i. simpl. rewrite !lookup_empty, bool_decide_false by set_solver.
    intros [v Hv]. by apply Hm in Hv as [_ ?].
  - by replace (revision gi + 1 - 1) with (revision gi) by lia.
Qed.

Lemma undo_ok gi : wf gi → ∃ gi', undo gi = (Ok tt, gi') ∧ wf gi' ∧ abs gi' = Spec.undo (abs gi).
Proof.
  intros Hwf. destruct (stack gi) as [|u us] eqn:Hs.
  - exists gi. unfold undo, abs, Spec.undo. rewrite Hs. simpl. done.
  - rewrite (undo_restores gi u us) by done. eexists. split; [done|].
    destruct Hwf as (Hm & Hst & Hr). rewrite Hs in Hst, Hr.
    destruct Hst as (Hu & Hn & Hum & Hst), Hr as [_ Hr].
    unfold wf, abs, Spec.undo; simpl. rewrite Hs. done.
Qed.

Lemma pop_front_while_take (us : list (undo_state V)) r rev :
  wf_revisions us r →
  reverse (pop_front_while rev (reverse us)) = take (Z.to_nat (r - rev)) us.
Proof.
  revert r. induction us as [|u us IH] using rev_ind; intros r Hr.
  { by rewrite take_nil. }
  assert (Hsplit : wf_revisions us r ∧ us_revision u = r - Z.of_nat (length us)).
  { clear IH. revert r Hr. induction us as [|x us IH]; intros r; simpl.
    - intros [? _]. split; [done|lia].
    - intros [? Hr]. destruct (IH _ Hr) as [? Hu]. split; [done|]. lia. }
  destruct Hsplit as [Hus Hu].
  rewrite reverse_app. simpl. case_match eqn:E; bool_hyps.
  - rewrite (IH r) by done. rewrite take_app_le by lia. done.
  - rewrite <- (reverse_involutive us) at 2.
    rewrite reverse_involutive, reverse_cons, reverse_involutive.
    rewrite take_ge; [done|]. rewrite length_app. simpl. lia.
Qed.

Lemma wf_stack_take k us m n : wf_stack us m n → wf_stack (take k us) m n.
Proof.
  revert k m n. induction us as [|u us IH]; intros [|k] m n; simpl; [done..|].
  intros (? & ? & ? & ?). auto.
Qed.
Lemma wf_revisions_take k (us : list (undo_state V)) r : wf_revisions us r → wf_revisions (take k us) r.
Proof.
  revert k r. induction us as [|u us IH]; intros [|k] r; simpl; [done..|]. naive_solver.
Qed.
Lemma snapshots_take k (us : list (undo_state V)) m : snapshots (take k us) m = take k (snapshots us m).
Proof. revert k m. induction us as [|u us IH]; intros [|k] m; simpl; [done..|]. by rewrite IH. Qed.

Lemma wf_commit gi rev :
  wf gi → wf (commit rev gi) ∧
  abs (commit rev gi) = Spec.commit (Z.to_nat (revision gi - rev)) (abs gi).
Proof.
  intros (Hm & Hst & Hr). unfold commit, abs, wf, Spec.commit; simpl.
  rewrite (pop_front_while_take _ (revision gi)) by done.
  rewrite snapshots_take. auto using wf_stack_take, wf_revisions_take.
Qed.

(** *** Creation, modification and removal only touch the current state *)
Definition stable (f : V → result V) : Prop :=
  ∀ v v', f v = Ok v' → ukeys v' = ukeys v.
Definition keeps_id (f : V → result V) : Prop :=
  ∀ v v', f v = Ok v' → obj_id v' = obj_id v.

Lemma wf_emplace gi f :
  keeps_id f → wf gi →
  wf (emplace f gi).2 ∧ Spec.saved (abs (emplace f gi).2) = Spec.saved (abs gi).
Proof.
  intros Hf (Hm & Hst & Hr). unfold emplace.
  destruct (f (obj_init (next_id gi))) as [v|e] eqn:Ef; [|done].
  apply Hf in Ef. rewrite obj_id_init in Ef.
  destruct (container_emplace v (indices gi)) as [m|] eqn:Em; [|done]. simpl.
  pose proof (wf_map_create _ _ _ _ Hm Ef Em) as Hm'.
  apply container_emplace_Some in Em as (-> & Hnone & _).
  unfold on_create, on_head, wf, abs; simpl.
  destruct (stack gi) as [|u us] eqn:Hs; simpl in *; [rewrite ?Hs; simpl; done|].
  destruct Hst as (Hu & Hn & Hum & Hst).
  destruct (record_create_ok v u (indices gi) (next_id gi)) as [He Hw]; [done..|].
  rewrite He. split_and!; try done; [lia|apply Hr..].
Qed.

Lemma wf_modify gi i f :
  stable f → wf gi →
  wf (modify i f gi).2 ∧ Spec.saved (abs (modify i f gi).2) = Spec.saved (abs gi).
Proof.
  intros Hf (Hm & Hst & Hr). unfold modify.
  destruct (indices gi !! i) as [v|] eqn:Hi; [|done].
  assert (Hid : obj_id v = i) by by apply Hm in Hi as [? _]. subst i.
  assert (Hgen : ∀ v', obj_id v' = obj_id v → ukeys v' = ukeys v →
    wf (set_indices (<[obj_id v := v']> (indices gi)) (on_modify v gi)) ∧
    Spec.saved (abs (set_indices (<[obj_id v := v']> (indices gi)) (on_modify v gi))) =
    Spec.saved (abs gi)).
  { intros v' Hv' Hk. pose proof (wf_map_replace _ _ _ _ _ Hm Hi Hv' Hk) as Hm'.
    unfold on_modify, on_head, wf, abs.
    destruct (stack gi) as [|u us] eqn:Hs; simpl in *; [by rewrite Hs; simpl|].
    destruct Hst as (Hu & Hn & Hum & Hst).
    destruct (record_modify_ok v v' u (indices gi)) as [He Hw]; [done..|].
    destruct (record_modify_same v u) as (_ & _ & -> & ->). rewrite He.
    split_and!; try done; apply Hr. }
  assert (Hsame : set_indices (<[obj_id v := v]> (indices gi)) (on_modify v gi) = on_modify v gi).
  { rewrite insert_id by done. unfold on_modify, on_head, set_indices.
    by destruct gi as [[|] ? ? ?]. }
  assert (Hfail : wf (on_modify v gi) ∧ Spec.saved (abs (on_modify v gi)) = Spec.saved (abs gi)).
  { rewrite <- Hsame. by apply Hgen. }
  destruct (f v) as [v'|e] eqn:Ef; [|done].
  assert (Hidx : indices (on_modify v gi) = indices gi).
  { unfold on_modify, on_head. by destruct (stack gi). }
  rewrite Hidx. destruct (container_replace v v' (indices gi)) as [m'|] eqn:Em; [|done].
  apply container_replace_Some in Em as [-> Hv']. apply Hgen; [done|]. by apply Hf.
Qed.

Lemma wf_remove gi i :
  wf gi → wf (remove i gi).2 ∧ Spec.saved (abs (remove i gi).2) = Spec.saved (abs gi).
Proof.
  intros (Hm & Hst & Hr). unfold remove.
  destruct (indices gi !! i) as [v|] eqn:Hi; [|done]. simpl.
  assert (Hid : obj_id v = i) by by apply Hm in Hi as [? _]. subst i.
  pose proof (wf_map_delete _ _ (obj_id v) Hm) as Hm'.
  unfold on_remove, on_head, wf, abs.
  destruct (stack gi) as [|u us] eqn:Hs; simpl in *; [by rewrite Hs; simpl|].
  destruct Hst as (Hu & Hn & Hum & Hst).
  destruct (record_remove_ok v u (indices gi)) as (He & Hw & Hnx & Hrv); [done..|].
  rewrite He, Hnx, Hrv. split_and!; try done; apply Hr.
Qed.

Lemma wf_empty : wf (empty_index (V:=V)).
Proof. unfold wf, wf_map, unique_keys; simpl. split_and!; try done; intros *; by rewrite lookup_empty. Qed.

(** Undoing every session: all rounds succeed and reach the oldest snapshot. *)
Lemma last_cons_default {A} (x d : A) l : List.last (x :: l) d = List.last l x.
Proof. revert x. induction l as [|y l IH]; intros x; [done|]. simpl in *. destruct l; [done|]. apply IH. Qed.

Lemma undo_all_ok gi :
  wf gi → ∃ gi', undo_all gi = (Ok tt, gi') ∧ wf gi' ∧ abs gi' = Spec.undo_all (abs gi).
Proof.
  unfold undo_all. remember (length (stack gi)) as k eqn:Hk. revert gi Hk.
  induction k as [|k IH]; intros gi Hk Hwf.
  - destruct (stack gi) as [|] eqn:Hs; [|done]. exists gi.
    unfold abs, Spec.undo_all. rewrite Hs. done.
  - destruct (stack gi) as [|u us] eqn:Hs; [done|]. simpl.
    unfold enabled. rewrite Hs. unfold mbind, St_bind.
    rewrite (undo_restores gi u us) by done.
    destruct (undo_ok gi Hwf) as (gi1 & Hu & Hwf1 & Habs).
    rewrite (undo_restores gi u us) in Hu by done. injection Hu as <-.
    destruct (IH (mkIndex us (revision gi - 1) (old_next_id u) (restore u (indices gi))))
      as (gi2 & Hr & Hwf2 & Habs2); [simpl in *; congruence|done|].
    exists gi2. split_and!; [done..|]. rewrite Habs2, Habs.
    unfold Spec.undo_all, Spec.undo, abs. rewrite Hs. cbn [Spec.saved Spec.cur snapshots].
    by rewrite last_cons_default.
Qed.
End refinement.

(** ** Lookup through a unique key *)
Section find.
Import Chainbase.
Context {V : Type} `{IndexedObject V}.
Implicit Types (gi : generic_index V).

Lemma find_key_Some gi k v :
  find_key k gi = Some v → indices gi !! obj_id v = Some v ∧ k ∈ ukeys v ∨ ¬ wf gi.
Proof.
  unfold find_key. intros Hf. apply fmap_Some in Hf as ([i w] & Hf & ->).
  apply List.find_some in Hf as [Hin Hk]. simpl in *. bool_hyps.
  rewrite <- list_elem_of_In, elem_of_map_items in Hin.
  destruct (decide (obj_id w = i)) as [->|Hne]; [by left|right].
  intros ((Hid & _) & _). by destruct (Hid i w Hin).
Qed.

Lemma find_key_wf gi k v :
  wf gi → (find_key k gi = Some v ↔ indices gi !! obj_id v = Some v ∧ k ∈ ukeys v).
Proof.
  intros Hwf. split; [intros Hf; by destruct (find_key_Some _ _ _ Hf)|].
  intros [Hv Hk]. unfold find_key.
  destruct (List.find _ (map_items (indices gi))) as [[j w]|] eqn:E; simpl.
  - apply List.find_some in E as [Hin Hw]. simpl in Hw. bool_hyps.
    rewrite <- list_elem_of_In, elem_of_map_items in Hin.
    destruct Hwf as ((_ & Hu) & _).
    pose proof (Hu _ _ _ _ _ Hin Hv Hw Hk) as ->. congruence.
  - apply elem_of_map_items, list_elem_of_In in Hv.
    pose proof (List.find_none _ _ E _ Hv) as Hn. simpl in Hn. by bool_hyps.
Qed.

Lemma find_key_None gi k :
  find_key k gi = None ↔ ∀ i v, indices gi !! i = Some v → k ∉ ukeys v.
Proof.
  unfold find_key. split.
  - intros Hn%fmap_None i v Hi Hk.
    apply elem_of_map_items, list_elem_of_In in Hi.
    pose proof (List.find_none _ _ Hn _ Hi) as Hb. simpl in Hb. by bool_hyps.
  - intros Hall. destruct (List.find _ _) as [[i v]|] eqn:E; [|done]. exfalso.
    apply List.find_some in E as [Hin Hk]. simpl in Hk. bool_hyps.
    rewrite <- list_elem_of_In, elem_of_map_items in Hin. by eapply Hall.
Qed.
End find.

(** ** Command traces: the table against its specification

    A [cmd] is one call a client makes on a table.  The specification runs the
    same calls on plain snapshots, with no change recording at all. *)
Section traces.
Import Chainbase.
Context {V : Type} `{IndexedObject V}.

Inductive cmd :=
| Create (f : V → result V)
| Modify (i : Z) (f : V → result V)
| Remove (i : Z)
| Start
| Undo
| Squash
| Commit (rev : Z)
| UndoAll.

Definition step_cmd (c : cmd) : St (generic_index V) unit := λ gi,
  match c with
  | Create f => match emplace f gi with (Ok _, g) => (Ok tt, g) | (Exc e, g) => (Exc e, g) end
  | Modify i f => modify i f gi
  | Remove i => remove i gi
  | Start => (Ok tt, start_undo_session gi)
  | Undo => undo gi
  | Squash => (Ok tt, squash gi)
  | Commit rev => (Ok tt, commit rev gi)
  | UndoAll => undo_all gi
  end.

(** The specification state: snapshots and the revision number. *)
Definition spec_update (c : result unit * Spec.snapshot V) (sr : Spec.t V * Z) :
    result unit * (Spec.t V * Z) := (c.1, (Spec.update c.2 sr.1, sr.2)).

Definition plain_create (f : V → result V) (c : Spec.snapshot V) : result unit * Spec.snapshot V :=
  let '(m, n) := c in
  match f (obj_init n) with
  | Exc e => (Exc e, c)
  | Ok v => match container_emplace v m with
            | None => (Exc LogicError, c)
            | Some m' => (Ok tt, (m', n + 1))
            end
  end.
Definition plain_modify (i : Z) (f : V → result V) (c : Spec.snapshot V) :
    result unit * Spec.snapshot V :=
  let '(m, n) := c in
  match m !! i with
  | None => (Exc LogicError, c)
  | Some v => match f v with
              | Exc e => (Exc e, c)
              | Ok v' => match container_replace v v' m with
                         | None => (Exc LogicError, c)
                         | Some m' => (Ok tt, (m', n))
                         end
              end
  end.
Definition plain_remove (i : Z) (c : Spec.snapshot V) : result unit * Spec.snapshot V :=
  let '(m, n) := c in
  match m !! i with None => (Exc LogicError, c) | Some _ => (Ok tt, (delete i m, n)) end.

Definition spec_cmd (c : cmd) (sr : Spec.t V * Z) : result unit * (Spec.t V * Z) :=
  let '(s, r) := sr in
  match c with
  | Create f => spec_update (plain_create f (Spec.cur s)) sr
  | Modify i f => spec_update (plain_modify i f (Spec.cur s)) sr
  | Remove i => spec_update (plain_remove i (Spec.cur s)) sr
  | Start => (Ok tt, (Spec.start s, r + 1))
  | Undo => (Ok tt, (Spec.undo s, match Spec.saved s with [] => r | _ => r - 1 end))
  | Squash => (Ok tt, (Spec.squash s, match Spec.saved s with [] | [_] => r | _ => r - 1 end))
  | Commit rev => (Ok tt, (Spec.commit (Z.to_nat (r - rev)) s, r))
  | UndoAll => (Ok tt, (Spec.undo_all s, r - Z.of_nat (length (Spec.saved s))))
  end.

Fixpoint run_cmds (l : list cmd) (gi : generic_index V) : list (result unit) * generic_index V :=
  match l with
  | [] => ([], gi)
  | c :: l' => let '(r, g) := step_cmd c gi in
               let '(rs, g') := run_cmds l' g in (r :: rs, g')
  end.
Fixpoint spec_cmds (l : list cmd) (sr : Spec.t V * Z) : list (result unit) * (Spec.t V * Z) :=
  match l with
  | [] => ([], sr)
  | c :: l' => let '(r, s) := spec_cmd c sr in
               let '(rs, s') := spec_cmds l' s in (r :: rs, s')
  end.

(** Constructors leave the id alone, modifiers leave the unique keys alone. *)
Definition cmd_ok (c : cmd) : Prop :=
  match c with Create f => keeps_id f | Modify _ f => stable f | _ => True end.

Definition abs_rev (gi : generic_index V) : Spec.t V * Z := (abs gi, revision gi).

Lemma snapshots_length (us : list (undo_state V)) m : length (snapshots us m) = length us.
Proof. revert m. induction us; intros m; simpl; [done|]. by f_equal. Qed.

Lemma on_head_fields f (gi : generic_index V) :
  indices (on_head f gi) = indices gi ∧ next_id (on_head f gi) = next_id gi ∧
  revision (on_head f gi) = revision gi.
Proof. unfold on_head. by destruct (stack gi). Qed.

Lemma abs_with_saved (gi gi' : generic_index V) :
  Spec.saved (abs gi') = Spec.saved (abs gi) → revision gi' = revision gi →
  abs_rev gi' = (Spec.update (indices gi', next_id gi') (abs gi), revision gi).
Proof. unfold abs_rev, abs, Spec.update. simpl. intros -> ->. done. Qed.

Lemma create_fields f (gi : generic_index V) :
  let r := emplace f gi in
  (match r.1 with Ok _ => Ok tt | Exc e => Exc e end, (indices r.2, next_id r.2)) =
    plain_create f (indices gi, next_id gi) ∧ revision r.2 = revision gi.
Proof.
  unfold emplace, plain_create, on_create. cbv zeta.
  destruct (f (obj_init (next_id gi))) as [v|]; [|done].
  destruct (container_emplace v (indices gi)) as [m|]; [|done]. simpl.
  by destruct (on_head_fields (record_create v) (set_next (next_id gi + 1) (set_indices m gi)))
    as (-> & -> & ->).
Qed.

Lemma modify_fields i f (gi : generic_index V) :
  let r := modify i f gi in
  (r.1, (indices r.2, next_id r.2)) = plain_modify i f (indices gi, next_id gi) ∧
  revision r.2 = revision gi.
Proof.
  unfold modify, plain_modify, on_modify. cbv zeta.
  destruct (indices gi !! i) as [v|]; [|done].
  destruct (on_head_fields (record_modify v) gi) as (E1 & E2 & E3).
  destruct (f v); [|by simpl; rewrite E1, E2, E3].
  rewrite E1. destruct (container_replace _ _ _); simpl; by rewrite ?E1, ?E2, ?E3.
Qed.

Lemma remove_fields i (gi : generic_index V) :
  let r := remove i gi in
  (r.1, (indices r.2, next_id r.2)) = plain_remove i (indices gi, next_id gi) ∧
  revision r.2 = revision gi.
Proof.
  unfold remove, plain_remove, on_remove. cbv zeta.
  destruct (indices gi !! i) as [v|]; [|done].
  destruct (on_head_fields (record_remove v) gi) as (E1 & E2 & E3). simpl. by rewrite E1, E2, E3.
Qed.

Lemma undo_revision (gi : generic_index V) : wf gi →
  revision (undo gi).2 = match stack gi with [] => revision gi | _ => revision gi - 1 end.
Proof.
  intros Hwf. destruct (stack gi) as [|u us] eqn:Hs.
  - unfold undo. by rewrite Hs.
  - by rewrite (undo_restores gi u us).
Qed.

Lemma undo_all_revision (gi : generic_index V) : wf gi →
  revision (undo_all gi).2 = revision gi - Z.of_nat (length (stack gi)).
Proof.
  unfold undo_all. remember (length (stack gi)) as k eqn:Hk. revert gi Hk.
  induction k as [|k IH]; intros gi Hk Hwf; [simpl; lia|].
  destruct (stack gi) as [|u us] eqn:Hs; [done|]. simpl.
  unfold enabled. rewrite Hs. unfold mbind, St_bind.
  destruct (undo_ok gi Hwf) as (gi1 & Hu & Hwf1 & _). rewrite Hu.
  pose proof (undo_revision gi Hwf) as Hr. rewrite Hs, Hu in Hr. simpl in Hr.
  rewrite (undo_restores gi u us) in Hu by done. injection Hu as <-.
  rewrite IH; [simpl in *; lia|simpl in *; congruence|done].
Qed.

Lemma step_refines c (gi : generic_index V) :
  cmd_ok c → wf gi →
  wf (step_cmd c gi).2 ∧
  ((step_cmd c gi).1, abs_rev (step_cmd c gi).2) = spec_cmd c (abs_rev gi).
Proof.
  intros Hc Hwf. destruct c; cbn [step_cmd spec_cmd abs_rev cmd_ok] in *; unfold spec_update;
    change (Spec.cur (abs gi)) with (indices gi, next_id gi).
  - destruct (wf_emplace gi f Hc Hwf) as [Hw Hs].
    destruct (create_fields f gi) as [Hf Hr]. rewrite <- Hf. simpl.
    rewrite <- (abs_with_saved gi _ Hs Hr).
    destruct (emplace f gi) as [[v|e] g]; done.
  - destruct (wf_modify gi i f Hc Hwf) as [Hw Hs].
    destruct (modify_fields i f gi) as [Hf Hr]. rewrite <- Hf. simpl.
    by rewrite <- (abs_with_saved gi _ Hs Hr).
  - destruct (wf_remove gi i Hwf) as [Hw Hs].
    destruct (remove_fields i gi) as [Hf Hr]. rewrite <- Hf. simpl.
    by rewrite <- (abs_with_saved gi _ Hs Hr).
  - destruct (wf_start gi Hwf) as [Hw Ha]. unfold abs_rev. simpl in *. by rewrite <- Ha.
  - destruct (undo_ok gi Hwf) as (g & Hu & Hw & Ha).
    pose proof (undo_revision gi Hwf) as Hr. rewrite Hu in *. unfold abs_rev. simpl in *.
    rewrite Ha, Hr. split; [done|]. by destruct (stack gi).
  - destruct (wf_squash gi Hwf) as [Hw Ha]. unfold abs_rev. simpl. split; [done|].
    rewrite Ha. do 2 f_equal. unfold squash. by destruct (stack gi) as [|? [|]].
  - destruct (wf_commit gi rev Hwf) as [Hw Ha]. unfold abs_rev. simpl in *. by rewrite <- Ha.
  - destruct (undo_all_ok gi Hwf) as (g & Hu & Hw & Ha).
    pose proof (undo_all_revision gi Hwf) as Hr. rewrite Hu in *. unfold abs_rev. simpl in *.
    rewrite Ha, Hr, snapshots_length. done.
Qed.

Lemma run_cmds_refines l (gi : generic_index V) :
  Forall cmd_ok l → wf gi →
  wf (run_cmds l gi).2 ∧
  ((run_cmds l gi).1, abs_rev (run_cmds l gi).2) = spec_cmds l (abs_rev gi).
Proof.
  revert gi. induction l as [|c l IH]; intros gi Hl Hwf; [done|].
  apply Forall_cons in Hl as [Hc Hl].
  destruct (step_refines c gi Hc Hwf) as [Hw Hs]. simpl.
  destruct (step_cmd c gi) as [r g]. simpl in *. rewrite <- Hs.
  destruct (IH g Hl Hw) as [Hw' Hs']. destruct (run_cmds l g) as [rs g']. simpl in *.
  rewrite <- Hs'. done.
Qed.
End traces.

(** A small object type, for concrete runs: an id, one unique key, a value. *)
Module Demo.
Record item := mkItem { it_id : Z; it_key : Z; it_val : Z }.
#[global] Instance item_eq_dec : EqDecision item.
Proof. solve_decision. Defined.
#[global] Instance item_indexed : IndexedObject item := {|
  obj_id := it_id;
  obj_init i := mkItem i 0 0;
  ukey := Z;
  ukey_eq_dec := Z.eq_dec;
  ukeys v := [it_key v];
  obj_id_init i := eq_refl
|}.
Definition with_key (k : Z) (v : item) : result item := Ok (mkItem (it_id v) k (it_val v)).
Definition with_val (x : Z) (v : item) : result item := Ok (mkItem (it_id v) (it_key v) x).
Definition trace : list (@cmd item) :=
  [Create (with_key 7); Start; Modify 0 (with_val 5); Create (with_key 8); Create (with_key 7);
   Start; Remove 0; Create (with_key 7); Squash; Undo].
End Demo.

(** C1: Every trace of calls on a table (create, modify, remove, open a
    session, undo, squash, commit, undo all), starting from any well-formed
    table, gives the same results and exceptions, the same contents, next id,
    saved snapshots and revision as the snapshot-stack specification; in
    particular no [undo] throws or loses a change.  Constructors must keep the
    assigned id and modifiers the unique keys of the object. *)
Theorem chainbase_traces_refine_snapshots {V} `{IndexedObject V}
    (l : list cmd) (gi : Chainbase.generic_index V) :
  Forall cmd_ok l → wf gi →
  wf (run_cmds l gi).2 ∧
  ((run_cmds l gi).1, abs_rev (run_cmds l gi).2) = spec_cmds l (abs_rev gi).
Proof. apply run_cmds_refines. Qed.

Lemma chainbase_traces_refine_snapshots_witness :
  let gi := Chainbase.empty_index (V:=Demo.item) in
  wf (run_cmds Demo.trace gi).2 ∧
  ((run_cmds Demo.trace gi).1, abs_rev (run_cmds Demo.trace gi).2) =
    spec_cmds Demo.trace (abs_rev gi).
Proof.
  apply chainbase_traces_refine_snapshots; [|apply wf_empty].
  unfold Demo.trace. repeat constructor; intros v v' [= <-]; reflexivity.
Defined.

(** Whatever a session does — any sequence of creations, modifications and
    removals, some of which may throw — a following [undo] succeeds and puts
    back the contents, the next id, the outer snapshots and the revision that
    the table had when the session started. *)
Theorem undo_rolls_back_session {V} `{IndexedObject V}
    (l : list cmd) (gi : Chainbase.generic_index V) :
  Forall (λ c, cmd_ok c ∧ match c with Create _ | Modify _ _ | Remove _ => True | _ => False end) l →
  wf gi →
  ∃ gi', Chainbase.undo (run_cmds l (Chainbase.start_undo_session gi)).2 = (Ok tt, gi') ∧
         wf gi' ∧ abs_rev gi' = abs_rev gi.
Proof.
  intros Hl Hwf. destruct (wf_start gi Hwf) as [Hw Ha].
  assert (Hspec : ∀ sr : Chainbase.Spec.t V * Z,
    Chainbase.Spec.saved (spec_cmds l sr).2.1 = Chainbase.Spec.saved sr.1 ∧
    (spec_cmds l sr).2.2 = sr.2).
  { clear -Hl. induction l as [|c l IH]; intros sr; [done|]. apply Forall_cons in Hl as [[_ Hc] Hl].
    simpl. destruct sr as [s r]. destruct c; try done; simpl;
      match goal with |- context [spec_cmds l ?sr] => specialize (IH Hl sr) end;
      destruct (spec_cmds l _); done. }
  destruct (run_cmds_refines l (Chainbase.start_undo_session gi)) as [Hw' Hr];
    [eapply Forall_impl; [done|]; by intros c [? _]|done|].
  destruct (Hspec (abs_rev (Chainbase.start_undo_session gi))) as [H1 H2].
  rewrite <- Hr in H1, H2. cbn [fst snd abs_rev] in H1, H2. rewrite Ha in H1.
  destruct (step_refines Undo _ I Hw') as [Hwu Hsu]. cbn [step_cmd spec_cmd abs_rev] in Hwu, Hsu.
  destruct (Chainbase.undo _) as [r g]. simpl in Hwu, Hsu. injection Hsu as -> Ha' Hr'.
  exists g. split; [done|]. split; [done|]. unfold abs_rev. rewrite Ha', Hr'.
  unfold Chainbase.Spec.undo. rewrite H1, H2. simpl. f_equal.
  unfold abs in H1. cbn [Chainbase.Spec.saved] in H1. rewrite H1. simpl. lia.
Qed.

Lemma undo_rolls_back_session_witness :
  let gi := (run_cmds [Create (Demo.with_key 7)] (Chainbase.empty_index (V:=Demo.item))).2 in
  let l := [Modify 0 (Demo.with_val 5); Create (Demo.with_key 8); Create (Demo.with_key 7); Remove 0] in
  ∃ gi', Chainbase.undo (run_cmds l (Chainbase.start_undo_session gi)).2 = (Ok tt, gi') ∧
         wf gi' ∧ abs_rev gi' = abs_rev gi.
Proof.
  apply undo_rolls_back_session.
  - repeat constructor; intros v v' [= <-]; reflexivity.
  - apply run_cmds_refines; [|apply wf_empty].
    repeat constructor; intros v v' [= <-]; reflexivity.
Defined.

(** The restriction on modifiers is necessary: when a modifier moves an
    object off its unique key and a new object takes that key in the same
    session, [undo] throws [std::logic_error], because it restores old values
    before it erases the new ids. *)
Theorem undo_throws_after_key_reuse :
  let gi := (run_cmds [Create (Demo.with_key 7)] (Chainbase.empty_index (V:=Demo.item))).2 in
  let l := [Start; Modify 0 (Demo.with_key 9); Create (Demo.with_key 7)] in
  (run_cmds l gi).1 = [Ok tt; Ok tt; Ok tt] ∧
  (Chainbase.undo (run_cmds l gi).2).1 = Exc LogicError.
Proof. vm_compute. done. Qed.

(** With one open session, [squash] drops its change set but leaves the
    revision number where the session put it; with two or more it lowers the
    revision by one.  In both cases the contents and the next id stay. *)
Theorem squash_revision {V} `{IndexedObject V} (gi : Chainbase.generic_index V) :
  Chainbase.revision (Chainbase.squash (Chainbase.start_undo_session gi)) =
    (if Chainbase.enabled gi then Chainbase.revision gi else Chainbase.revision gi + 1) ∧
  Chainbase.indices (Chainbase.squash gi) = Chainbase.indices gi ∧
  Chainbase.next_id (Chainbase.squash gi) = Chainbase.next_id gi.
Proof.
  destruct gi as [[|u [|p st]] r n m]; unfold Chainbase.squash; simpl; split_and!; done || lia.
Qed.
