(* ===== verification/Asset.v ===== *)
(** * Asset symbols, numerical asset identifiers, assets and prices

    libraries/protocol/include/xgt/protocol/{asset_symbol,asset}.hpp and
    libraries/protocol/asset.cpp.  An [asset_symbol_type] is its 32-bit
    [asset_num]; a NAI is the decimal number written after the data digits and
    a Damm check digit. *)
From S2P Require Import Prelude Safe.

Definition XGT_NAI_SHIFT : Z := 5.
Definition XTT_MAX_NAI : Z := 99999999.
Definition XTT_MIN_NAI : Z := 1.
Definition XTT_MIN_NON_RESERVED_NAI : Z := 10000000.
Definition XTT_MAX_NAI_POOL_COUNT : nat := 10.
Definition XTT_MAX_NAI_GENERATION_TRIES : nat := 100.
Definition XGT_PRECISION_XGT : Z := 8.
Definition XGT_NAI_XGT : Z := 2.
Definition XGT_ASSET_NUM_XGT : Z :=
  u32 (Z.lor (Z.shiftl (XTT_MAX_NAI + XGT_NAI_XGT) XGT_NAI_SHIFT) XGT_PRECISION_XGT).
Definition XGT_SYMBOL_U64 : Z := Z.lor 88 (Z.lor (Z.shiftl 71 8) (Z.shiftl 84 16)).
Definition XGT_SYMBOL_SER : Z := Z.lor 3 (Z.shiftl XGT_SYMBOL_U64 8).
Definition XGT_ASSET_MAX_DECIMALS : Z := 12.
Definition XTT_ASSET_NUM_PRECISION_MASK : Z := 15.
Definition XTT_ASSET_NUM_CONTROL_MASK : Z := 16.
Definition XTT_ASSET_NUM_VESTING_MASK : Z := 32.
Definition XGT_MAX_SATOSHIS : Z := 4611686018427387903.
Definition XGT_MAX_SHARE_SUPPLY : Z := 1000000000000000.
Definition XGT_ASSET_SYMBOL_NAI_STRING_LENGTH : nat := 12.

Definition asset_symbol_type := Z.
Definition XGT_SYMBOL : asset_symbol_type := XGT_ASSET_NUM_XGT.

Module AssetSymbol.

Inductive asset_symbol_space := legacy_space | xtt_nai_space.

(** ** The Damm check digit *)
Definition damm_table : list Z := [
   0; 30; 10; 70; 50; 90; 80; 60; 40; 20;
  70;  0; 90; 20; 10; 50; 40; 80; 60; 30;
  40; 20;  0; 60; 80; 70; 10; 30; 50; 90;
  10; 70; 50;  0; 90; 80; 30; 40; 20; 60;
  60; 10; 20; 30;  0; 40; 50; 90; 70; 80;
  30; 60; 70; 40; 20;  0; 90; 50; 80; 10;
  50; 80; 60; 90; 70; 20;  0; 10; 30; 40;
  80; 90; 40; 50; 30; 60; 20;  0; 10; 70;
  90; 40; 30; 80; 60; 10; 70; 20;  0; 50;
  20; 50; 80; 10; 40; 30; 60; 70; 90; 0 ].

Definition damm_t (i : Z) : Z := nth (Z.to_nat i) damm_table 0.

Definition damm_checksum_8digit (value : Z) : result Z :=
  fc_assert (value <? 100000000) ;;
  let q0 := value / 10 in let d0 := value mod 10 in
  let q1 := q0 / 10 in let d1 := q0 mod 10 in
  let q2 := q1 / 10 in let d2 := q1 mod 10 in
  let q3 := q2 / 10 in let d3 := q2 mod 10 in
  let q4 := q3 / 10 in let d4 := q3 mod 10 in
  let q5 := q4 / 10 in let d5 := q4 mod 10 in
  let d6 := q5 mod 10 in let d7 := q5 / 10 in
  let x := damm_t d7 in
  let x := damm_t (x + d6) in
  let x := damm_t (x + d5) in
  let x := damm_t (x + d4) in
  let x := damm_t (x + d3) in
  let x := damm_t (x + d2) in
  let x := damm_t (x + d1) in
  let x := damm_t (x + d0) in
  mret (x / 10).

(** ** NAI conversions *)
Definition space (asset_num : asset_symbol_type) : asset_symbol_space :=
  if asset_num =? XGT_ASSET_NUM_XGT then legacy_space else xtt_nai_space.

Definition decimals (s : asset_symbol_type) : Z := u8 (Z.land s XTT_ASSET_NUM_PRECISION_MASK).

Definition asset_num_from_nai (nai decimal_places : Z) : result Z :=
  let nai_check_digit := nai mod 10 in
  let nai_data_digits := nai / 10 in
  fc_assert ((XTT_MIN_NAI <=? nai_data_digits) && (nai_data_digits <=? XTT_MAX_NAI)) ;;
  c ← damm_checksum_8digit nai_data_digits;
  fc_assert (nai_check_digit =? c) ;;
  if nai_data_digits =? XGT_NAI_XGT then
    fc_assert (decimal_places =? XGT_PRECISION_XGT) ;; mret XGT_ASSET_NUM_XGT
  else
    fc_assert (decimal_places <=? XGT_ASSET_MAX_DECIMALS) ;;
    mret (Z.lor (Z.lor (u32 (Z.shiftl nai_data_digits XGT_NAI_SHIFT)) XTT_ASSET_NUM_CONTROL_MASK)
                decimal_places).

Definition from_nai (nai decimal_places : Z) : result asset_symbol_type :=
  asset_num_from_nai nai decimal_places.

Definition to_nai (asset_num : asset_symbol_type) : result Z :=
  nai_data_digits ←
    (if asset_num =? XGT_ASSET_NUM_XGT then mret XGT_NAI_XGT
     else fc_assert (match space asset_num with xtt_nai_space => true | _ => false end) ;;
          mret (Z.shiftr asset_num XGT_NAI_SHIFT));
  nai_check_digit ← damm_checksum_8digit nai_data_digits;
  mret (u32 (nai_data_digits * 10 + nai_check_digit)).

Definition get_liquid_symbol (s : asset_symbol_type) : result asset_symbol_type :=
  match space s with
  | legacy_space =>
      if s =? XGT_ASSET_NUM_XGT then mret XGT_SYMBOL else mthrow AssertException
  | xtt_nai_space => mret (Z.land s (u32 (Z.lnot XTT_ASSET_NUM_VESTING_MASK)))
  end.

Definition validate (asset_num : asset_symbol_type) : result unit :=
  if asset_num =? XGT_ASSET_NUM_XGT then mret tt
  else
    let nai_data_digits := Z.shiftr asset_num XGT_NAI_SHIFT in
    let nai_1bit := Z.land asset_num XTT_ASSET_NUM_CONTROL_MASK in
    let nai_decimal_places := Z.land asset_num XTT_ASSET_NUM_PRECISION_MASK in
    fc_assert ((XTT_MIN_NAI <=? nai_data_digits) && (nai_data_digits <=? XTT_MAX_NAI) &&
               (nai_1bit =? XTT_ASSET_NUM_CONTROL_MASK) &&
               (nai_decimal_places <=? XGT_ASSET_MAX_DECIMALS)).

(** ** NAI strings: characters by their codes ('0' = 48, '@' = 64) *)
Fixpoint write_digits (n : nat) (x : Z) (buf : list Z) : list Z :=
  match n with
  | O => (u8 (x + 48)) :: buf
  | S n' => write_digits n' (x / 10) ((x mod 10 + 48) :: buf)
  end.

(** Eight [x%10] digits and the remaining quotient, after the prefix "@@". *)
Definition to_nai_string (s : asset_symbol_type) : result (list Z) :=
  x ← to_nai s;
  mret (64 :: 64 :: write_digits 8 x []).

Section nai_string.
(** [boost::lexical_cast<uint32_t>], [None] for [bad_lexical_cast]. *)
Context (lexical_cast : list Z → option Z).

Definition from_nai_string (p : list Z) (decimal_places : Z) : result asset_symbol_type :=
  fc_assert (length p =? XGT_ASSET_SYMBOL_NAI_STRING_LENGTH - 1)%nat ;;
  match p with
  | a :: b :: digits =>
      fc_assert ((a =? 64) && (b =? 64)) ;;
      match lexical_cast digits with
      | Some nai => from_nai nai decimal_places
      | None => mthrow FcException
      end
  | _ => mthrow AssertException
  end.
End nai_string.

(** ** Binary serialization: little-endian bytes *)
Fixpoint le_bytes (n : nat) (x : Z) : list Z :=
  match n with O => [] | S n' => (x mod 256) :: le_bytes n' (x / 256) end.
Fixpoint from_le (l : list Z) : Z :=
  match l with [] => 0 | b :: l' => b + 256 * from_le l' end.

Definition pack (sym : asset_symbol_type) : result (list Z) :=
  match space sym with
  | legacy_space =>
      if sym =? XGT_ASSET_NUM_XGT then mret (le_bytes 8 XGT_SYMBOL_SER)
      else mthrow AssertException
  | xtt_nai_space => mret (le_bytes 4 sym)
  end.

(** A datastream read of [n] bytes throws when fewer are left. *)
Definition read (n : nat) (s : list Z) : result (list Z * list Z) :=
  if (n <=? length s)%nat then Ok (take n s, drop n s) else Exc FcException.

Definition unpack (s : list Z) : result (asset_symbol_type * list Z) :=
  r1 ← read 4 s;
  let '(b1, s1) := r1 in
  let ser := from_le b1 in
  r2 ← (if ser =? Z.land XGT_SYMBOL_SER (2^32 - 1) then
          r ← read 4 s1;
          let '(b2, s2) := r in
          fc_assert (ser + 2^32 * from_le b2 =? XGT_SYMBOL_SER) ;;
          mret (XGT_ASSET_NUM_XGT, s2)
        else mret (u32 ser, s1));
  let '(sym, rest) := r2 in
  validate sym ;;
  mret (sym, rest).

End AssetSymbol.

(** ** Assets *)
Record asset := mkAsset { amount : Z; symbol : asset_symbol_type }.
#[export] Instance asset_eq_dec : EqDecision asset.
Proof. solve_decision. Defined.

Module Asset.
Definition default_asset : asset := mkAsset 0 XGT_SYMBOL.

Definition validate (a : asset) : result unit :=
  AssetSymbol.validate (symbol a) ;;
  fc_assert (0 <=? amount a) ;;
  fc_assert (amount a <=? XGT_MAX_SATOSHIS).

Definition same_symbol (a b : asset) : result unit := fc_assert (symbol a =? symbol b).

Definition add (a b : asset) : result asset :=
  same_symbol a b ;; x ← Safe.add (amount a) (amount b); mret (mkAsset x (symbol a)).
Definition sub (a b : asset) : result asset :=
  same_symbol a b ;; x ← Safe.sub (amount a) (amount b); mret (mkAsset x (symbol a)).
Definition mul (a b : asset) : result asset :=
  same_symbol a b ;; x ← Safe.mul (amount a) (amount b); mret (mkAsset x (symbol a)).
Definition neg (a : asset) : result asset :=
  x ← Safe.neg (amount a); mret (mkAsset x (symbol a)).
Definition eqb (a b : asset) : bool := (symbol a =? symbol b) && (amount a =? amount b).
Definition lt (a b : asset) : result bool := same_symbol a b ;; mret (amount a <? amount b).
Definition le (a b : asset) : result bool := same_symbol a b ;; mret (amount a <=? amount b).
Definition ne (a b : asset) : result bool := same_symbol a b ;; mret (negb (amount a =? amount b)).
Definition gt (a b : asset) : result bool := same_symbol a b ;; mret (amount b <? amount a).
Definition ge (a b : asset) : result bool := same_symbol a b ;; mret (amount b <=? amount a).
End Asset.

(** ** Prices *)
Record price := mkPrice { base : asset; quote : asset }.

Module Price.
Definition validate (p : price) : result unit :=
  fc_assert (0 <? amount (base p)) ;;
  fc_assert (0 <? amount (quote p)) ;;
  fc_assert (negb (symbol (base p) =? symbol (quote p))).

(** The constructor validates; [base / quote] checks the symbols first. *)
Definition make (b q : asset) : result price :=
  let p := mkPrice b q in validate p ;; mret p.
Definition of_assets (b q : asset) : result price :=
  fc_assert (negb (symbol b =? symbol q)) ;; make b q.
Definition inverse (p : price) : result price := make (quote p) (base p).

(** [std::tie( base.symbol, quote.symbol )] compared lexicographically. *)
Definition lex_lt (a b : Z * Z) : bool :=
  (a.1 <? b.1) || ((a.1 =? b.1) && (a.2 <? b.2)).
Definition bq (p : price) : Z * Z := (symbol (base p), symbol (quote p)).
(** [uint128_t] products: a negative [int64_t] is sign-extended. *)
Definition cross (a b : price) : Z := u128 (u128 (amount (quote b)) * u128 (amount (base a))).

Definition eqb (a b : price) : bool :=
  if negb (bool_decide (bq a = bq b)) then bool_decide (bq a = bq b)
  else cross a b =? cross b a.
Definition ltb (a b : price) : bool :=
  if negb (bool_decide (bq a = bq b)) then lex_lt (bq a) (bq b)
  else cross a b <? cross b a.
Definition leb (a b : price) : bool :=
  if negb (bool_decide (bq a = bq b)) then lex_lt (bq a) (bq b) || bool_decide (bq a = bq b)
  else cross a b <=? cross b a.

(** [asset * price]. *)
Definition convert (a b d : Z) : result Z :=
  let r := u128 (u128 a * u128 b) / d in
  fc_assert (r / 2^64 =? 0) ;; mret (i64 (u64 r)).
Definition mul (a : asset) (b : price) : result asset :=
  if symbol a =? symbol (base b) then
    fc_assert (0 <? amount (base b)) ;;
    r ← convert (amount a) (amount (quote b)) (amount (base b));
    mret (mkAsset r (symbol (quote b)))
  else if symbol a =? symbol (quote b) then
    fc_assert (0 <? amount (quote b)) ;;
    r ← convert (amount a) (amount (base b)) (amount (quote b));
    mret (mkAsset r (symbol (base b)))
  else mthrow AssertException.
End Price.

(** ** Bit-field arithmetic of an [asset_num]: data digits, control bit, precision *)
Section symbol_lemmas.
Import AssetSymbol.

Lemma lor_add_low a b k : 0 ≤ k → 0 ≤ b < 2^k → Z.lor (a * 2^k) b = a * 2^k + b.
Proof.
  intros Hk Hb. rewrite <- (Z.add_lor_land (a * 2^k) b).
  replace (Z.land (a * 2^k) b) with 0; [lia|]. symmetry.
  apply Z.bits_inj_0. intros n. rewrite Z.land_spec.
  destruct (decide (n < 0)); [by rewrite !Z.testbit_neg_r|].
  destruct (decide (n < k)).
  - by rewrite Z.mul_pow2_bits_low.
  - rewrite <- (Z.mod_small b (2^k)) by lia.
    rewrite Z.mod_pow2_bits_high by lia. apply andb_false_r.
Qed.

Lemma compose_num n d : 0 ≤ n ≤ XTT_MAX_NAI → 0 ≤ d < 16 →
  Z.lor (Z.lor (u32 (Z.shiftl n XGT_NAI_SHIFT)) XTT_ASSET_NUM_CONTROL_MASK) d =
  n * 32 + 16 + d.
Proof.
  unfold XTT_MAX_NAI, XGT_NAI_SHIFT, XTT_ASSET_NUM_CONTROL_MASK. intros Hn Hd.
  rewrite Z.shiftl_mul_pow2 by lia. rewrite u32_id by lia.
  rewrite (lor_add_low n 16 5) by lia.
  replace (n * 2^5 + 16) with ((2 * n + 1) * 2^4) by lia.
  rewrite (lor_add_low _ d 4) by lia. lia.
Qed.

Lemma num_fields n d : 0 ≤ d < 16 →
  let s := n * 32 + 16 + d in
  Z.shiftr s XGT_NAI_SHIFT = n ∧ Z.land s XTT_ASSET_NUM_PRECISION_MASK = d ∧
  Z.land s XTT_ASSET_NUM_CONTROL_MASK = XTT_ASSET_NUM_CONTROL_MASK.
Proof.
  intros Hd s. unfold XGT_NAI_SHIFT, XTT_ASSET_NUM_PRECISION_MASK, XTT_ASSET_NUM_CONTROL_MASK.
  split_and!.
  - rewrite Z.shiftr_div_pow2 by lia. symmetry. apply (Z.div_unique _ _ _ (16 + d)); lia.
  - change 15 with (Z.ones 4). rewrite Z.land_ones by lia.
    symmetry. apply (Z.mod_unique _ _ (2 * n + 1)); lia.
  - apply Z.bits_inj'. intros k Hk. rewrite Z.land_spec. change 16 with (2^4).
    rewrite Z.pow2_bits_eqb by lia. destruct (4 =? k) eqn:E; bool_hyps; [subst k|apply andb_false_r].
    rewrite Z.testbit_eqb by lia. rewrite andb_true_r, Z.eqb_eq.
    replace (s / 2^4) with (2 * n + 1); [symmetry; apply (Z.mod_unique _ _ n); lia|].
    apply (Z.div_unique _ _ _ d); lia.
Qed.

Lemma validate_cases s :
  validate s = Ok tt ↔
  s = XGT_ASSET_NUM_XGT ∨
  (s ≠ XGT_ASSET_NUM_XGT ∧ ∃ n d, XTT_MIN_NAI ≤ n ≤ XTT_MAX_NAI ∧ 0 ≤ d ≤ XGT_ASSET_MAX_DECIMALS ∧
     s = n * 32 + 16 + d).
Proof.
  unfold validate. destruct (s =? XGT_ASSET_NUM_XGT) eqn:E; bool_hyps.
  { split; [by left|done]. }
  rewrite fc_assert_ok. split.
  - intros Hv. bool_hyps. right. split; [done|].
    unfold XGT_NAI_SHIFT, XTT_ASSET_NUM_PRECISION_MASK, XTT_ASSET_NUM_CONTROL_MASK in *.
    exists (Z.shiftr s 5), (Z.land s 15).
    assert (Hbit : Z.testbit s 4 = true).
    { match goal with H : Z.land s 16 = 16 |- _ => rename H into Hl end.
      apply (f_equal (λ z, Z.testbit z 4)) in Hl. rewrite Z.land_spec in Hl.
      by apply andb_true_iff in Hl as [? _]. }
    assert (Z.land s 15 = s mod 2^4) as Hd by (change 15 with (Z.ones 4); apply Z.land_ones; lia).
    rewrite Hd in *. rewrite Z.testbit_eqb in Hbit by lia. bool_hyps.
    rewrite Z.shiftr_div_pow2 in * by lia.
    split_and!; try lia; [apply Z.mod_pos_bound; lia|].
    replace (s / 2^5) with (s / 2^4 / 2) by by rewrite Z.div_div by lia.
    pose proof (Z.div_mod s (2^4)). pose proof (Z.div_mod (s / 2^4) 2). lia.
  - intros [?|(_ & n & d & Hn & Hd & ->)]; [done|].
    unfold XGT_ASSET_MAX_DECIMALS in *.
    destruct (num_fields n d) as (-> & -> & ->); [lia|].
    repeat (apply andb_true_intro; split); rewrite ?Z.leb_le, ?Z.eqb_eq; lia.
Qed.

(** *** The check digit is a digit *)
Lemma damm_t_range i : 0 ≤ damm_t i ≤ 90.
Proof.
  unfold damm_t. destruct (nth_in_or_default (Z.to_nat i) damm_table 0) as [Hin| ->]; [|lia].
  assert (Hall : Forall (λ x, 0 ≤ x ≤ 90) damm_table) by (repeat constructor; lia).
  rewrite List.Forall_forall in Hall. by apply Hall.
Qed.

Lemma damm_total v : v < 100000000 → ∃ c, damm_checksum_8digit v = Ok c ∧ 0 ≤ c ≤ 9.
Proof.
  intros Hv. unfold damm_checksum_8digit, fc_assert. rewrite (proj2 (Z.ltb_lt _ _) Hv).
  eexists. split; [reflexivity|].
  match goal with |- 0 ≤ damm_t ?i / 10 ≤ 9 => pose proof (damm_t_range i) as Hr end.
  split; [apply Z.div_pos; lia|]. apply Z.lt_succ_r, Z.div_lt_upper_bound; lia.
Qed.

Lemma to_nai_data s n :
  (s = XGT_ASSET_NUM_XGT ∧ n = XGT_NAI_XGT ∨ s ≠ XGT_ASSET_NUM_XGT ∧ n = Z.shiftr s XGT_NAI_SHIFT) →
  0 ≤ n ≤ XTT_MAX_NAI →
  ∃ c, damm_checksum_8digit n = Ok c ∧ 0 ≤ c ≤ 9 ∧ to_nai s = Ok (n * 10 + c).
Proof.
  intros Hs Hn. unfold XTT_MAX_NAI in Hn. destruct (damm_total n) as (c & Hc & Hr); [lia|].
  exists c. split_and!; [done|lia..|]. unfold to_nai, space.
  destruct Hs as [[-> ->]|[Hne ->]].
  - rewrite Z.eqb_refl. cbn [mbind result_bind mret result_ret]. rewrite Hc. simpl.
    by rewrite u32_id by lia.
  - rewrite (proj2 (Z.eqb_neq _ _) Hne).
    cbn [mbind result_bind mret result_ret fc_assert]. rewrite Hc. simpl.
    by rewrite u32_id by lia.
Qed.

Lemma div10_mod10 n c : 0 ≤ c ≤ 9 → (n * 10 + c) / 10 = n ∧ (n * 10 + c) mod 10 = c.
Proof.
  intros. split; symmetry;
    [apply (Z.div_unique _ _ _ c)|apply (Z.mod_unique _ _ n)]; lia.
Qed.

Lemma from_nai_intro n c d :
  XTT_MIN_NAI ≤ n ≤ XTT_MAX_NAI → damm_checksum_8digit n = Ok c → 0 ≤ c ≤ 9 →
  from_nai (n * 10 + c) d =
    if n =? XGT_NAI_XGT then (fc_assert (d =? XGT_PRECISION_XGT) ;; mret XGT_ASSET_NUM_XGT)
    else (fc_assert (d <=? XGT_ASSET_MAX_DECIMALS) ;;
          mret (Z.lor (Z.lor (u32 (Z.shiftl n XGT_NAI_SHIFT)) XTT_ASSET_NUM_CONTROL_MASK) d)).
Proof.
  intros Hn Hc Hr. unfold from_nai, asset_num_from_nai. cbv zeta.
  destruct (div10_mod10 n c Hr) as [-> ->].
  rewrite (proj2 (Z.leb_le _ _) (proj1 Hn)), (proj2 (Z.leb_le _ _) (proj2 Hn)).
  rewrite bind_assert_true, Hc, bind_Ok, bind_assert_true by (apply Z.eqb_refl || done). done.
Qed.

Lemma xgt_not_compose n d : n ≤ XTT_MAX_NAI → 0 ≤ d ≤ XGT_ASSET_MAX_DECIMALS →
  n * 32 + 16 + d ≠ XGT_ASSET_NUM_XGT.
Proof.
  unfold XTT_MAX_NAI, XGT_ASSET_MAX_DECIMALS. change XGT_ASSET_NUM_XGT with 3200000040. lia.
Qed.

Lemma decimals_compose n d : 0 ≤ d ≤ XGT_ASSET_MAX_DECIMALS → decimals (n * 32 + 16 + d) = d.
Proof.
  unfold decimals, XGT_ASSET_MAX_DECIMALS. intros Hd.
  destruct (num_fields n d) as (_ & -> & _); [lia|]. apply u8_id. lia.
Qed.

Lemma from_to_nai s :
  validate s = Ok tt → Z.shiftr s XGT_NAI_SHIFT ≠ XGT_NAI_XGT →
  ∃ nai, to_nai s = Ok nai ∧ from_nai nai (decimals s) = Ok s.
Proof.
  intros [->|(Hne & n & d & Hn & Hd & ->)]%validate_cases Hx.
  - exists 21. split; reflexivity.
  - destruct (num_fields n d) as (Hsh & _); [unfold XGT_ASSET_MAX_DECIMALS in *; lia|].
    rewrite Hsh in Hx.
    destruct (to_nai_data (n * 32 + 16 + d) n) as (c & Hc & Hr & Hto); [by right|unfold XTT_MIN_NAI in *; lia|].
    exists (n * 10 + c). split; [done|].
    rewrite (from_nai_intro n c) by done. rewrite decimals_compose by done.
    rewrite (proj2 (Z.eqb_neq _ _) Hx), (proj2 (Z.leb_le _ _) (proj2 Hd)).
    cbn [fc_assert mbind result_bind mret result_ret].
    rewrite compose_num; [done|unfold XTT_MIN_NAI in *; lia|unfold XGT_ASSET_MAX_DECIMALS in *; lia].
Qed.

Lemma to_from_nai nai d s :
  0 ≤ d → from_nai nai d = Ok s → to_nai s = Ok nai ∧ decimals s = d ∧ validate s = Ok tt.
Proof.
  intros Hd0 Hf. unfold from_nai, asset_num_from_nai in Hf. cbv zeta in Hf. inv_ok. bool_hyps.
  assert (Hnai : nai = nai / 10 * 10 + nai mod 10) by (pose proof (Z.div_mod nai 10); lia).
  assert (Hcr : 0 ≤ nai mod 10 ≤ 9) by (pose proof (Z.mod_pos_bound nai 10); lia).
  destruct (nai / 10 =? XGT_NAI_XGT) eqn:En; bool_hyps; inv_ok; bool_hyps.
  - subst d. destruct (to_nai_data XGT_ASSET_NUM_XGT (nai / 10)) as (c & Hc & Hr & ->).
    + by left.
    + rewrite En. unfold XGT_NAI_XGT, XTT_MAX_NAI. lia.
    + split_and!; [f_equal; congruence|reflexivity..].
  - rewrite compose_num in *; [|unfold XTT_MIN_NAI in *; lia|unfold XGT_ASSET_MAX_DECIMALS in *; lia].
    pose proof (xgt_not_compose (nai / 10) d ltac:(done) ltac:(done)) as Hne.
    destruct (num_fields (nai / 10) d) as (Hsh & _ & _); [unfold XGT_ASSET_MAX_DECIMALS in *; lia|].
    destruct (to_nai_data (nai / 10 * 32 + 16 + d) (nai / 10)) as (c & Hc & Hr & ->);
      [by right|unfold XTT_MIN_NAI in *; lia|].
    split_and!; [f_equal; congruence|by apply decimals_compose|].
    apply validate_cases. right. split; [done|]. by exists (nai / 10), d.
Qed.
End symbol_lemmas.

(** ** Serialization *)
Section pack_lemmas.
Import AssetSymbol.

Lemma from_le_bytes n x : 0 ≤ x < 256 ^ Z.of_nat n → from_le (le_bytes n x) = x.
Proof.
  revert x. induction n as [|n IH]; intros x Hx; cbn [le_bytes from_le].
  { change (256 ^ Z.of_nat 0) with 1 in Hx. lia. }
  rewrite Nat2Z.inj_succ, Z.pow_succ_r in Hx by lia.
  rewrite IH; [pose proof (Z.div_mod x 256); lia|].
  split; [apply Z.div_pos; lia|apply Z.div_lt_upper_bound; lia].
Qed.

Lemma length_le_bytes n x : length (le_bytes n x) = n.
Proof. revert x. induction n; intros; simpl; auto. Qed.

Lemma read_le_app n l rest : length l = n → read n (l ++ rest) = Ok (l, rest).
Proof.
  intros <-. unfold read. rewrite length_app.
  rewrite (proj2 (Nat.leb_le _ _)) by lia. by rewrite take_app_length, drop_app_length.
Qed.

Lemma symbol_range s : validate s = Ok tt → 0 ≤ s < 2^32.
Proof.
  intros [->|(_ & n & d & Hn & Hd & ->)]%validate_cases.
  - change XGT_ASSET_NUM_XGT with 3200000040. lia.
  - unfold XTT_MIN_NAI, XTT_MAX_NAI, XGT_ASSET_MAX_DECIMALS in *. lia.
Qed.

(** No valid non-XGT number starts with the bytes of the legacy symbol. *)
Lemma no_legacy_prefix s :
  validate s = Ok tt → s ≠ XGT_ASSET_NUM_XGT → s ≠ Z.land XGT_SYMBOL_SER (2^32 - 1).
Proof.
  intros [->|(_ & n & d & Hn & Hd & ->)]%validate_cases Hne; [done|].
  change (Z.land XGT_SYMBOL_SER (2^32 - 1)) with 1413961731.
  unfold XTT_MIN_NAI, XTT_MAX_NAI, XGT_ASSET_MAX_DECIMALS in *. lia.
Qed.

Lemma unpack_pack s rest :
  validate s = Ok tt →
  ∃ bytes, pack s = Ok bytes ∧ unpack (bytes ++ rest) = Ok (s, rest).
Proof.
  intros Hv. unfold pack, space. destruct (s =? XGT_ASSET_NUM_XGT) eqn:E; bool_hyps.
  - subst s. eexists. split; [reflexivity|].
    change (le_bytes 8 XGT_SYMBOL_SER ++ rest) with ([3; 88; 71; 84] ++ ([0; 0; 0; 0] ++ rest)).
    unfold unpack. rewrite read_le_app, bind_Ok by done.
    change (from_le [3; 88; 71; 84] =? _) with true. cbv iota.
    rewrite read_le_app, bind_Ok by done. reflexivity.
  - eexists. split; [reflexivity|]. unfold unpack.
    rewrite read_le_app by apply length_le_bytes. rewrite bind_Ok.
    pose proof (symbol_range s Hv) as Hr.
    rewrite from_le_bytes by (change (256 ^ Z.of_nat 4) with (2^32); lia).
    rewrite (proj2 (Z.eqb_neq _ _) (no_legacy_prefix s Hv E)), u32_id by lia.
    unfold mret at 1, result_ret at 1. rewrite bind_Ok, Hv. done.
Qed.
End pack_lemmas.

(** ** NAI strings *)
Section nai_string_lemmas.
Import AssetSymbol.
Context (lexical_cast : list Z → option Z).

(** The documented behaviour of [boost::lexical_cast<uint32_t>]: a non-empty
    string of decimal digits that fits is converted to its value. *)
Definition digits_value (l : list Z) : Z := fold_left (λ a c, 10 * a + (c - 48)) l 0.
Definition converts_digits : Prop := ∀ l,
  l ≠ [] → Forall (λ c, 48 ≤ c ≤ 57) l → digits_value l < 2^32 →
  lexical_cast l = Some (digits_value l).

Lemma write_digits_spec n x buf :
  0 ≤ x < 10 ^ (Z.of_nat n + 1) →
  ∃ l, write_digits n x buf = l ++ buf ∧ length l = S n ∧
       Forall (λ c, 48 ≤ c ≤ 57) l ∧ digits_value l = x.
Proof.
  revert x buf. induction n as [|n IH]; intros x buf Hx; simpl.
  - change (10 ^ (Z.of_nat 0 + 1)) with 10 in Hx. exists [x + 48].
    rewrite u8_id by lia. split_and!; [done..| |].
    + repeat constructor; lia.
    + unfold digits_value. simpl. lia.
  - replace (Z.of_nat (S n) + 1) with (Z.succ (Z.of_nat n + 1)) in Hx by lia.
    rewrite Z.pow_succ_r in Hx by lia.
    destruct (IH (x / 10) (x mod 10 + 48 :: buf)) as (l & -> & Hl & Hd & Hv).
    { split; [apply Z.div_pos; lia|apply Z.div_lt_upper_bound; lia]. }
    exists (l ++ [x mod 10 + 48]). pose proof (Z.mod_pos_bound x 10).
    split_and!.
    + by rewrite <- app_assoc.
    + rewrite length_app. simpl. lia.
    + apply Forall_app. split; [done|]. repeat constructor; lia.
    + unfold digits_value in *. rewrite fold_left_app, Hv. simpl.
      pose proof (Z.div_mod x 10). lia.
Qed.

Lemma nai_string_roundtrip_aux s :
  converts_digits → validate s = Ok tt → Z.shiftr s XGT_NAI_SHIFT ≠ XGT_NAI_XGT →
  ∃ str, to_nai_string s = Ok str ∧ length str = 11%nat ∧
         from_nai_string lexical_cast str (decimals s) = Ok s.
Proof.
  intros Hcast Hv Hx. destruct (from_to_nai s Hv Hx) as (nai & Hto & Hfrom).
  unfold to_nai_string. rewrite Hto, bind_Ok.
  assert (Hr : 0 ≤ nai < 10 ^ 9).
  { apply validate_cases in Hv as [->|(Hne & n & d & Hn & Hd & ->)].
    - change (to_nai XGT_ASSET_NUM_XGT) with (Ok 21) in Hto. injection Hto as <-. lia.
    - destruct (num_fields n d) as (Hsh & _); [unfold XGT_ASSET_MAX_DECIMALS in *; lia|].
      unfold XTT_MIN_NAI in *.
      destruct (to_nai_data (n * 32 + 16 + d) n) as (c & _ & Hc & Hto'); [by right|lia|].
      rewrite Hto in Hto'. injection Hto' as ->. unfold XTT_MAX_NAI in *. lia. }
  destruct (write_digits_spec 8 nai []) as (l & Hw & Hlen & Hd & Hval);
    [change (Z.of_nat 8 + 1) with 9; lia|].
  rewrite app_nil_r in Hw. rewrite Hw. eexists. split; [reflexivity|].
  split; [simpl; by rewrite Hlen|]. unfold from_nai_string.
  rewrite bind_assert_true by (simpl; by rewrite Hlen). cbv beta iota.
  rewrite bind_assert_true by done.
  rewrite Hcast; [by rewrite Hval|by destruct l|done|rewrite Hval; lia].
Qed.
End nai_string_lemmas.

(** ** The check digit catches single-digit errors and adjacent swaps *)
Section damm_lemmas.
Import AssetSymbol.

Definition digit (d : Z) : Prop := 0 ≤ d < 10.
Definition from_digits (ds : list Z) : Z := fold_left (λ a d, 10 * a + d) ds 0.
Definition damm_fold (ds : list Z) (x : Z) : Z := fold_left (λ x d, damm_t (x + d)) ds x.
Definition damm (ds : list Z) : Z := damm_fold ds 0 / 10.

Lemma damm_unrolled ds :
  length ds = 8%nat → Forall digit ds →
  damm_checksum_8digit (from_digits ds) = Ok (damm ds).
Proof.
  intros Hl Hd. do 8 (destruct ds as [|? ds]; [done|]). destruct ds; [|done].
  repeat match goal with H : Forall _ (_ :: _) |- _ => apply Forall_cons in H as [? H] end.
  unfold digit in *. unfold from_digits. cbn [fold_left].
  unfold damm_checksum_8digit. rewrite bind_assert_true by (apply Z.ltb_lt; lia).
  assert (Hdm : ∀ a d, 0 ≤ d < 10 → (10 * a + d) / 10 = a ∧ (10 * a + d) mod 10 = d).
  { intros a d Hd'. rewrite (Z.mul_comm 10). apply div10_mod10. lia. }
  cbv zeta.
  repeat match goal with |- context [(10 * ?a + ?d) / 10] =>
    let E := fresh in let E' := fresh in
    destruct (Hdm a d) as [E E']; [lia|]; rewrite ?E, ?E'; clear E E' end.
  rewrite ?Z.mul_0_r, ?Z.add_0_l.
  unfold damm, damm_fold. cbn [fold_left]. rewrite Z.add_0_l. reflexivity.
Qed.

Definition ten : list Z := [0;1;2;3;4;5;6;7;8;9].
Lemma digit_ten d : digit d → In d ten.
Proof. unfold digit, ten. simpl. lia. Qed.

(** Interim values are multiples of ten; over them the table is a quasigroup
    that is weakly totally anti-symmetric. *)
Definition interim (x : Z) : Prop := ∃ i, digit i ∧ x = 10 * i.

Definition quasigroup_check : bool :=
  forallb (λ i, forallb (λ j, forallb (λ d,
    implb (damm_t (10 * i + d) =? damm_t (10 * j + d)) (i =? j) &&
    implb (damm_t (10 * d + i) =? damm_t (10 * d + j)) (i =? j) &&
    implb (damm_t (damm_t (10 * d + i) + j) =? damm_t (damm_t (10 * d + j) + i)) (i =? j))
    ten) ten) ten.
Lemma quasigroup_ok : quasigroup_check = true.
Proof. vm_compute. done. Qed.

Lemma quasigroup_use i j d : digit i → digit j → digit d →
  (damm_t (10 * i + d) = damm_t (10 * j + d) → i = j) ∧
  (damm_t (10 * d + i) = damm_t (10 * d + j) → i = j) ∧
  (damm_t (damm_t (10 * d + i) + j) = damm_t (damm_t (10 * d + j) + i) → i = j).
Proof.
  intros Hi Hj Hd. pose proof quasigroup_ok as H. unfold quasigroup_check in H.
  rewrite forallb_forall in H. specialize (H i (digit_ten i Hi)). cbv beta in H.
  rewrite forallb_forall in H. specialize (H j (digit_ten j Hj)). cbv beta in H.
  rewrite forallb_forall in H. specialize (H d (digit_ten d Hd)). cbv beta in H.
  apply andb_true_iff in H as [H H3]. apply andb_true_iff in H as [H1 H2].
  rewrite !implb_true_iff, !Z.eqb_eq in *. done.
Qed.

Lemma interim_step x d : interim (damm_t (x + d)).
Proof.
  unfold damm_t, interim. destruct (nth_in_or_default (Z.to_nat (x + d)) damm_table 0) as [Hin| ->].
  - assert (Hall : forallb (λ x, existsb (λ i, x =? 10 * i) ten) damm_table = true) by (vm_compute; done).
    rewrite forallb_forall in Hall. apply Hall, existsb_exists in Hin as (i & Hi & He). bool_hyps.
    exists i. split; [|done]. unfold digit, ten in *. simpl in Hi. lia.
  - exists 0. split; [|done]. unfold digit. lia.
Qed.

Lemma damm_fold_inj ds x y :
  Forall digit ds → interim x → interim y → damm_fold ds x = damm_fold ds y → x = y.
Proof.
  unfold damm_fold. revert x y. induction ds as [|d ds IH]; intros x y Hd Hx Hy; simpl; [done|].
  apply Forall_cons in Hd as [Hd Hds]. intros Heq.
  apply IH in Heq; [|done|apply interim_step..].
  destruct Hx as (i & Hi & ->), Hy as (j & Hj & ->).
  apply (quasigroup_use i j d) in Heq; [congruence|done..].
Qed.

Lemma damm_fold_interim ds x : interim x → interim (damm_fold ds x).
Proof.
  unfold damm_fold. revert x. induction ds as [|d ds IH]; intros x Hx; simpl; [done|].
  apply IH, interim_step.
Qed.

Lemma interim0 : interim 0.
Proof. exists 0. unfold digit. lia. Qed.

Lemma damm_neq l1 (f g : Z → Z) l2 :
  Forall digit l2 → (∀ x, interim x → interim (f x) ∧ interim (g x) ∧ f x ≠ g x) →
  damm_fold l2 (f (damm_fold l1 0)) / 10 ≠ damm_fold l2 (g (damm_fold l1 0)) / 10.
Proof.
  intros Hl2 Hfg. pose proof (damm_fold_interim l1 0 interim0) as Hi.
  destruct (Hfg _ Hi) as (Hf & Hg & Hne). intros Heq. apply Hne.
  apply (damm_fold_inj l2); [done..|].
  destruct (damm_fold_interim l2 _ Hf) as (i & _ & Ei), (damm_fold_interim l2 _ Hg) as (j & _ & Ej).
  rewrite Ei, Ej in Heq |- *. rewrite !(Z.mul_comm 10), !Z.div_mul in Heq by lia. lia.
Qed.

Lemma damm_detects l1 l2 a b :
  Forall digit l2 → digit a → digit b → a ≠ b →
  damm (l1 ++ a :: l2) ≠ damm (l1 ++ b :: l2) ∧
  damm (l1 ++ a :: b :: l2) ≠ damm (l1 ++ b :: a :: l2).
Proof.
  intros Hl2 Ha Hb Hab. unfold damm, damm_fold. rewrite !fold_left_app. simpl. split.
  - apply (damm_neq l1 (λ x, damm_t (x + a)) (λ x, damm_t (x + b)) l2); [done|].
    intros x (i & Hi & ->). split_and!; [apply interim_step..|].
    intros Heq. by apply (quasigroup_use a b i) in Heq.
  - apply (damm_neq l1 (λ x, damm_t (damm_t (x + a) + b)) (λ x, damm_t (damm_t (x + b) + a)) l2);
      [done|].
    intros x (i & Hi & ->). split_and!; [apply interim_step..|].
    intros Heq. by apply (quasigroup_use a b i) in Heq.
Qed.
End damm_lemmas.

(** ** Price conversion *)
Section price_lemmas.
Import Price.

Lemma convert_floor a b d :
  0 ≤ a < 2^63 → 0 ≤ b < 2^63 → 0 < d → a * b / d < 2^63 →
  convert a b d = Ok (a * b / d).
Proof.
  intros Ha Hb Hd Hr. unfold convert. rewrite !(u128_id a), !(u128_id b), u128_id by nia.
  assert (0 ≤ a * b / d) by (apply Z.div_pos; nia).
  rewrite (Z.div_small (a * b / d)), bind_assert_true by (done || lia).
  unfold mret, result_ret. f_equal. rewrite u64_id, i64_id; [done|unfold is_i64, int64_min, int64_max; lia|lia].
Qed.

(** Converting forth and back rounds down twice. *)
Lemma floor_back a b d : 0 ≤ a → 0 < b → 0 < d → a * b / d * d / b ≤ a.
Proof.
  intros Ha Hb Hd. apply Z.div_le_upper_bound; [done|].
  pose proof (Z.mul_div_le (a * b) d Hd). lia.
Qed.
End price_lemmas.

(** For every valid symbol whose NAI data digits are not XGT's reserved
    number, converting to the NAI and back with the symbol's own precision is
    the identity; conversely every NAI and precision accepted by [from_nai]
    give a valid symbol that converts back to the same NAI and precision. *)
Theorem nai_roundtrip :
  (∀ s, AssetSymbol.validate s = Ok tt → Z.shiftr s XGT_NAI_SHIFT ≠ XGT_NAI_XGT →
     ∃ nai, AssetSymbol.to_nai s = Ok nai ∧
            AssetSymbol.from_nai nai (AssetSymbol.decimals s) = Ok s) ∧
  (∀ nai d s, 0 ≤ d → AssetSymbol.from_nai nai d = Ok s →
     AssetSymbol.to_nai s = Ok nai ∧ AssetSymbol.decimals s = d ∧
     AssetSymbol.validate s = Ok tt).
Proof. split; [apply from_to_nai|apply to_from_nai]. Qed.

Lemma nai_roundtrip_witness :
  (∃ nai, AssetSymbol.to_nai XGT_SYMBOL = Ok nai ∧
          AssetSymbol.from_nai nai (AssetSymbol.decimals XGT_SYMBOL) = Ok XGT_SYMBOL) ∧
  AssetSymbol.validate (12345678 * 32 + 16 + 3) = Ok tt.
Proof.
  split.
  - apply nai_roundtrip; [reflexivity|]. vm_compute. discriminate.
  - apply (proj2 nai_roundtrip 123456786 3); [lia|]. vm_compute. reflexivity.
Defined.

(** Two different valid symbols share XGT's NAI: [validate] accepts asset
    numbers whose data digits are the reserved number 2, [to_nai] maps them to
    the NAI of XGT, and [from_nai] of that NAI always gives XGT. *)
Theorem xgt_nai_has_alias :
  let alias := XGT_NAI_XGT * 32 + 16 + 8 in
  alias ≠ XGT_SYMBOL ∧ AssetSymbol.validate alias = Ok tt ∧
  AssetSymbol.validate XGT_SYMBOL = Ok tt ∧
  AssetSymbol.to_nai alias = AssetSymbol.to_nai XGT_SYMBOL ∧
  AssetSymbol.from_nai 21 (AssetSymbol.decimals alias) = Ok XGT_SYMBOL.
Proof. vm_compute. split_and!; done. Qed.

(** A valid symbol serializes, and deserializing the bytes followed by any
    further input gives back the symbol and leaves the further input. *)
Theorem symbol_pack_roundtrip s rest :
  AssetSymbol.validate s = Ok tt →
  ∃ bytes, AssetSymbol.pack s = Ok bytes ∧ AssetSymbol.unpack (bytes ++ rest) = Ok (s, rest).
Proof. apply unpack_pack. Qed.

Lemma symbol_pack_roundtrip_witness :
  ∃ bytes, AssetSymbol.pack XGT_SYMBOL = Ok bytes ∧
           AssetSymbol.unpack (bytes ++ [1; 2]) = Ok (XGT_SYMBOL, [1; 2]).
Proof. apply symbol_pack_roundtrip. reflexivity. Defined.

(** The eleven-character NAI string of a valid symbol (data digits other
    than XGT's reserved number) is read back to the same symbol, for any
    [lexical_cast] that converts decimal digit strings to their value. *)
Theorem nai_string_roundtrip lexical_cast s :
  converts_digits lexical_cast → AssetSymbol.validate s = Ok tt →
  Z.shiftr s XGT_NAI_SHIFT ≠ XGT_NAI_XGT →
  ∃ str, AssetSymbol.to_nai_string s = Ok str ∧ length str = 11%nat ∧
         AssetSymbol.from_nai_string lexical_cast str (AssetSymbol.decimals s) = Ok s.
Proof. apply nai_string_roundtrip_aux. Qed.

Lemma nai_string_roundtrip_witness :
  ∃ str, AssetSymbol.to_nai_string XGT_SYMBOL = Ok str ∧ length str = 11%nat ∧
         AssetSymbol.from_nai_string (λ l, Some (digits_value l)) str
           (AssetSymbol.decimals XGT_SYMBOL) = Ok XGT_SYMBOL.
Proof.
  apply nai_string_roundtrip; [intros l _ _ _; reflexivity|reflexivity|].
  vm_compute. discriminate.
Defined.

(** On eight decimal digits the unrolled checksum equals the Damm fold
    over the digits, and it changes whenever one digit is replaced by another
    or two adjacent different digits are swapped. *)
Theorem damm_detects_errors (l1 l2 : list Z) (a b : Z) :
  Forall digit l1 → Forall digit l2 → digit a → digit b → a ≠ b →
  ((length (l1 ++ a :: l2) = 8%nat →
    AssetSymbol.damm_checksum_8digit (from_digits (l1 ++ a :: l2)) = Ok (damm (l1 ++ a :: l2)) ∧
    AssetSymbol.damm_checksum_8digit (from_digits (l1 ++ a :: l2)) ≠
    AssetSymbol.damm_checksum_8digit (from_digits (l1 ++ b :: l2))) ∧
   (length (l1 ++ a :: b :: l2) = 8%nat →
    AssetSymbol.damm_checksum_8digit (from_digits (l1 ++ a :: b :: l2)) ≠
    AssetSymbol.damm_checksum_8digit (from_digits (l1 ++ b :: a :: l2)))).
Proof.
  intros H1 H2 Ha Hb Hab. destruct (damm_detects l1 l2 a b) as [Hs Ht]; [done..|].
  split; intros Hlen; rewrite !damm_unrolled;
    rewrite ?length_app in *; cbn [length] in *; try done;
    try (apply Forall_app; split; [done|]; repeat (constructor; try done)).
  - split; [done|congruence].
  - congruence.
Qed.

Lemma damm_detects_errors_witness :
  AssetSymbol.damm_checksum_8digit (from_digits ([1;2;3] ++ 4 :: [5;6;7;8])) ≠
  AssetSymbol.damm_checksum_8digit (from_digits ([1;2;3] ++ 5 :: [5;6;7;8])).
Proof.
  apply (damm_detects_errors [1;2;3] [5;6;7;8] 4 5);
    [repeat constructor..| | |lia|reflexivity]; unfold digit; lia.
Defined.

(** [asset * price] on a valid price and non-negative amounts whose
    quotient fits an [int64_t] is the floor of the exact rational value in the
    other symbol, and converting the result back never exceeds the start. *)
Theorem price_conversion_floor (a : asset) (p : price) :
  Price.validate p = Ok tt → symbol a = symbol (base p) →
  0 ≤ amount a < 2^63 → amount (base p) < 2^63 → amount (quote p) < 2^63 →
  amount a * amount (quote p) / amount (base p) < 2^63 →
  ∃ b, Price.mul a p = Ok b ∧ symbol b = symbol (quote p) ∧
       amount b = amount a * amount (quote p) / amount (base p) ∧
       ∃ c, Price.mul b p = Ok c ∧ symbol c = symbol a ∧ amount c ≤ amount a.
Proof.
  intros Hv Hs Ha Hb Hq Hr. unfold Price.validate in Hv. inv_ok. bool_hyps.
  assert (Hq0 : 0 ≤ amount a * amount (quote p) / amount (base p)) by (apply Z.div_pos; nia).
  pose proof (floor_back (amount a) (amount (quote p)) (amount (base p))) as Hback.
  eexists. split_and!.
  - unfold Price.mul. rewrite (proj2 (Z.eqb_eq _ _) Hs), bind_assert_true by (apply Z.ltb_lt; lia).
    rewrite convert_floor by lia. reflexivity.
  - done.
  - done.
  - eexists. split_and!.
    + unfold Price.mul. cbn [symbol amount].
      rewrite (proj2 (Z.eqb_neq _ _)) by congruence.
      rewrite Z.eqb_refl, bind_assert_true by (apply Z.ltb_lt; lia).
      rewrite convert_floor; [reflexivity|lia..].
    + done.
    + cbn [amount]. lia.
Qed.

Lemma price_conversion_floor_witness :
  let p := mkPrice (mkAsset 3 XGT_SYMBOL) (mkAsset 7 (12345678 * 32 + 16 + 3)) in
  ∃ b, Price.mul (mkAsset 10 XGT_SYMBOL) p = Ok b ∧ symbol b = symbol (quote p) ∧
       amount b = 10 * 7 / 3 ∧
       ∃ c, Price.mul b p = Ok c ∧ symbol c = XGT_SYMBOL ∧ amount c ≤ 10.
Proof.
  apply (price_conversion_floor (mkAsset 10 XGT_SYMBOL)
    (mkPrice (mkAsset 3 XGT_SYMBOL) (mkAsset 7 (12345678 * 32 + 16 + 3))));
    [vm_compute; reflexivity|reflexivity|simpl; lia..|vm_compute; reflexivity].
Defined.
