(* ===== verification/Raw.v ===== *)
(** * Binary serialization

    libraries/fc/include/fc/io/raw.hpp, datastream.hpp, varint.hpp and
    container/flat.hpp: how values become bytes and back.  Bytes are numbers
    below 256; integers are little endian.  [unpack] reads from the rest of a
    stream and carries the recursion depth that the C++ templates carry.

    A [codec] pairs the two directions with the values it is faithful on and
    the depth it needs, and with the proof that reading what was written gives
    the value back and leaves what follows; codecs are put together the way the
    templates are. *)
From S2P Require Import Prelude Safe Asset.

Abbreviation bytes := (list Z).

Definition MAX_ARRAY_ALLOC_SIZE : Z := 1024 * 1024 * 10.
Definition MAX_RECURSION_DEPTH : Z := 40.

Module Raw.
(** ** Streams *)
Definition read (n : nat) : St bytes bytes := λ s,
  if (n <=? length s)%nat then (Ok (take n s), drop n s) else (Exc FcException, s).
Definition get : St bytes Z := λ s,
  match s with b :: s' => (Ok b, s') | [] => (Exc FcException, []) end.
Definition check_depth (d : Z) : St bytes unit := fc_assert (d <=? MAX_RECURSION_DEPTH).

(** ** Numbers of fixed width

    The generic [unpack] and [if_reflected::unpack] each count a level. *)
Definition pack_uint (n : nat) (v : Z) : result bytes := mret (AssetSymbol.le_bytes n v).
Definition unpack_uint (n : nat) (d : Z) : St bytes Z :=
  check_depth (d + 1) ;; check_depth (d + 2) ;;
  b ← read n;
  mret (AssetSymbol.from_le b).
Definition pack_int64 (v : Z) : result bytes := pack_uint 8 (u64 v).
Definition unpack_int64 (d : Z) : St bytes Z := v ← unpack_uint 8 d; mret (i64 v).
(** [safe< int64_t >] *)
Definition unpack_safe (d : Z) : St bytes Z := check_depth (d + 1) ;; unpack_int64 (d + 1).
Definition pack_bool (v : bool) : result bytes := pack_uint 1 (if v then 1 else 0).
Definition unpack_bool (d : Z) : St bytes bool :=
  b ← unpack_uint 1 (d + 1);
  fc_assert (Z.land b (Z.lnot 1) =? 0) ;;
  mret (negb (b =? 0)).
(** [time_point_sec] *)
Definition unpack_time (d : Z) : St bytes Z := b ← read 4; mret (AssetSymbol.from_le b).

(** ** Variable-length numbers

    Seven bits per byte, the low ones first; the top bit says that more follow.
    [fuel] is ten: a 64-bit number has at most ten groups. *)
Fixpoint varint_bytes (fuel : nat) (val : Z) : bytes :=
  match fuel with
  | O => []
  | S fuel' =>
      let rest := Z.shiftr val 7 in
      let b := Z.lor (Z.land val 0x7f) (if 0 <? rest then 0x80 else 0) in
      if rest =? 0 then [b] else b :: varint_bytes fuel' rest
  end.
Definition pack_unsigned_int (v : Z) : result bytes := mret (varint_bytes 10 v).
(** At most five bytes are read; what does not fit 32 bits is shifted out. *)
Fixpoint unpack_varint (limit : nat) (by_ v : Z) : St bytes Z :=
  match limit with
  | O => mret v
  | S limit' =>
      b ← get;
      let v := Z.lor v (u32 (Z.shiftl (Z.land b 0x7f) by_)) in
      if Z.land b 0x80 =? 0 then mret v else unpack_varint limit' (by_ + 7) v
  end.
Definition unpack_unsigned_int : St bytes Z := unpack_varint 5 0 0.

(** [signed_int]: the sign in the lowest bit. *)
Definition i32 (z : Z) : Z := (z + 2^31) mod 2^32 - 2^31.
Definition zigzag (v : Z) : Z := u32 (Z.lxor (i32 (Z.shiftl v 1)) (Z.shiftr v 31)).
Definition pack_signed_int (v : Z) : result bytes := mret (varint_bytes 10 (zigzag v)).
Definition signed_of (v : Z) : Z :=
  let value := i32 (Z.lxor (Z.shiftr v 1) (Z.shiftr v 31) + Z.land v 1) in
  let value := if Z.land v 1 =? 0 then i32 (- value) else value in
  i32 (- value).
Definition unpack_signed_int : St bytes Z := v ← unpack_varint 5 0 0; mret (signed_of v).

(** ** Byte vectors and strings *)
Definition pack_chars (v : bytes) : result bytes :=
  n ← pack_unsigned_int (u32 (Z.of_nat (length v))); mret (n ++ v).
Definition unpack_chars : St bytes bytes :=
  size ← unpack_unsigned_int;
  fc_assert (size <? MAX_ARRAY_ALLOC_SIZE) ;;
  read (Z.to_nat size).
Definition string_bytes (s : string) : bytes :=
  (λ c, Z.of_nat (Ascii.nat_of_ascii c)) <$> String.list_ascii_of_string s.
Definition bytes_string (b : bytes) : string :=
  String.string_of_list_ascii ((λ z, Ascii.ascii_of_nat (Z.to_nat z)) <$> b).
Definition pack_string (s : string) : result bytes := pack_chars (string_bytes s).
Definition unpack_string : St bytes string := b ← unpack_chars; mret (bytes_string b).
(** [fixed_string_impl]: bytes beyond the storage are cut off, and the string
    ends at the first zero byte. *)
Fixpoint until_zero (b : bytes) : bytes :=
  match b with [] => [] | x :: b' => if x =? 0 then [] else x :: until_zero b' end.
Definition fixed_string (n : nat) (s : string) : string := bytes_string (until_zero (take n (string_bytes s))).
Definition unpack_fixed_string (n : nat) : St bytes string := s ← unpack_string; mret (fixed_string n s).
End Raw.

(** ** Variable-length numbers are read back *)
Section varint.
Import Raw.

Lemma lor_shiftl acc x k : 0 ≤ k → 0 ≤ acc < 2 ^ k → Z.lor acc (Z.shiftl x k) = acc + x * 2 ^ k.
Proof. intros Hk Hacc. rewrite Z.lor_comm, Z.shiftl_mul_pow2, lor_add_low by done. lia. Qed.
(** The byte that is written: seven bits and the mark. *)
Lemma varint_byte v (more : bool) :
  let b := Z.lor (Z.land v 0x7f) (if more then 0x80 else 0) in
  Z.land b 0x7f = v mod 128 ∧ (Z.land b 0x80 =? 0) = negb more.
Proof.
  assert (Hl : Z.land v 0x7f = v mod 128) by exact (Z.land_ones v 7 ltac:(done)).
  assert (Hv : v mod 128 ∈ seqZ 0 128).
  { apply elem_of_seqZ. pose proof (Z.mod_pos_bound v 128 ltac:(lia)). lia. }
  cbv zeta. rewrite Hl. revert Hv. generalize (v mod 128). apply Forall_forall.
  destruct more; apply (bool_decide_unpack _); vm_compute; exact I.
Qed.

Lemma unpack_varint_bytes limit : ∀ fuel k acc v rest, (limit ≤ fuel)%nat → 0 ≤ k → 0 ≤ acc < 2 ^ k →
  0 ≤ v < 2 ^ (7 * Z.of_nat limit) → v * 2 ^ k < 2 ^ 32 → (0 < limit)%nat →
  unpack_varint limit k acc (varint_bytes fuel v ++ rest) = (Ok (acc + v * 2 ^ k), rest).
Proof.
  induction limit as [|limit IH]; intros [|fuel] k acc v rest Hf Hk Hacc Hv Hfit Hpos; try lia.
  assert (Hs : Z.shiftr v 7 = v / 128) by exact (Z.shiftr_div_pow2 v 7 ltac:(done)).
  assert (Hdm : v = 128 * (v / 128) + v mod 128) by (apply Z.div_mod; lia).
  pose proof (Z.mod_pos_bound v 128 ltac:(lia)) as Hm.
  assert (Hq : 0 ≤ v / 128) by (apply Z.div_pos; lia). assert (Hp : 0 < 2 ^ k) by (apply Z.pow_pos_nonneg; lia).
  assert (Hstep : Z.lor acc (u32 (Z.shiftl (v mod 128) k)) = acc + v mod 128 * 2 ^ k).
  { rewrite u32_id; [by apply lor_shiftl|]. rewrite Z.shiftl_mul_pow2 by lia. split; [nia|].
    eapply Z.le_lt_trans; [|exact Hfit]. apply Z.mul_le_mono_nonneg_r; lia. }
  simpl. rewrite Hs. destruct (varint_byte v (0 <? v / 128)) as [Hlow Hmark].
  destruct (Z.eqb_spec (v / 128) 0) as [Hz|Hnz].
  - simpl. rewrite bind_run. simpl. rewrite Hlow, Hmark, Hz. simpl. rewrite Hstep.
    assert (v mod 128 = v) as -> by lia. done.
  - rewrite <- app_comm_cons. rewrite bind_run. simpl. rewrite Hlow, Hmark.
    destruct (Z.ltb_spec 0 (v / 128)); [|lia]. simpl. rewrite Hstep.
    destruct limit as [|limit]; [exfalso; lia|].
    assert (Hk7 : 2 ^ (k + 7) = 2 ^ k * 128) by (rewrite Z.pow_add_r by lia; done).
    assert (Hl7 : 2 ^ (7 * Z.of_nat (S (S limit))) = 2 ^ (7 * Z.of_nat (S limit)) * 128)
      by (rewrite <- (Z.pow_add_r 2 _ 7) by lia; f_equal; lia).
    rewrite IH; [f_equal; f_equal; rewrite Hk7; nia|lia|lia|rewrite Hk7; nia| |rewrite Hk7; nia|lia].
    split; [done|]. apply Z.div_lt_upper_bound; lia.
Qed.
Lemma unpack_pack_unsigned v rest : 0 ≤ v < 2 ^ 32 →
  unpack_unsigned_int (varint_bytes 10 v ++ rest) = (Ok v, rest).
Proof.
  intros Hv. unfold unpack_unsigned_int. rewrite unpack_varint_bytes; [|lia..| |lia|lia].
  - f_equal. f_equal. lia.
  - change (2 ^ (7 * Z.of_nat 5)) with (2 ^ 35). lia.
Qed.

(** *** The signed form *)
Lemma i32_id z : -(2 ^ 31) ≤ z < 2 ^ 31 → i32 z = z.
Proof. intros Hz. unfold i32. rewrite Z.mod_small; lia. Qed.
Lemma i32_neg_neg z : -(2 ^ 31) < z < 2 ^ 31 → i32 (- i32 (- i32 z)) = z.
Proof. intros Hz. rewrite (i32_id z), (i32_id (- z)), i32_id by lia. lia. Qed.
Lemma lxor_1 n : 0 ≤ n → Z.lxor n 1 = if Z.even n then n + 1 else n - 1.
Proof. intros Hn. destruct n as [|p|p]; [done| |lia]. by destruct p. Qed.
Lemma zigzag_value v : -(2 ^ 31) ≤ v < 2 ^ 31 → zigzag v = if 0 <=? v then 2 * v else - 2 * v - 1.
Proof.
  intros Hv. unfold zigzag. rewrite Z.shiftl_mul_pow2, Z.shiftr_div_pow2 by done. change (2 ^ 1) with 2.
  destruct (Z.leb_spec 0 v).
  - rewrite (Z.div_small v (2 ^ 31)), Z.lxor_0_r by lia. unfold u32, i32.
    rewrite Zminus_mod_idemp_l. rewrite Z.mod_small; lia.
  - assert (Hd : v / 2 ^ 31 = -1) by (symmetry; apply (Z.div_unique_pos v (2 ^ 31) (-1) (v + 2 ^ 31)); lia).
    rewrite Hd, Z.lxor_m1_r. unfold Z.lnot, u32, i32.
    replace (Z.pred (- ((v * 2 + 2 ^ 31) mod 2 ^ 32 - 2 ^ 31)))
      with (2 ^ 31 - 1 - (v * 2 + 2 ^ 31) mod 2 ^ 32) by lia.
    rewrite Zminus_mod_idemp_r, Z.mod_small; lia.
Qed.
Lemma signed_of_even n : 0 ≤ n < 2 ^ 31 → signed_of (2 * n) = if n <? 2 ^ 30 then n else Z.lxor n 1.
Proof.
  intros Hn. unfold signed_of. rewrite !Z.shiftr_div_pow2 by done.
  assert (Hl : Z.land (2 * n) 1 = 0)
    by (rewrite (Z.land_ones (2 * n) 1 ltac:(done) : Z.land (2 * n) 1 = _), Z.mul_comm; apply Z_mod_mult).
  rewrite Hl. change (2 ^ 1) with 2. rewrite (Z.mul_comm 2 n), Z_div_mult by done. cbv zeta. cbn [Z.eqb].
  rewrite Z.add_0_r. pose proof (lxor_1 n ltac:(lia)) as Hx.
  assert (Ht : n * 2 / 2 ^ 31 = if n <? 2 ^ 30 then 0 else 1).
  { destruct (Z.ltb_spec n (2 ^ 30)); [apply Z.div_small; lia|].
    symmetry. apply (Z.div_unique_pos _ _ 1 (n * 2 - 2 ^ 31)); lia. }
  rewrite Ht. destruct (n <? 2 ^ 30); [rewrite Z.lxor_0_r; apply i32_neg_neg; lia|].
  apply i32_neg_neg. rewrite Hx. assert (2 ^ 31 - 1 = n → Z.even n = false) by (intros <-; done).
  destruct (Z.even n); [|lia]. assert (n ≠ 2 ^ 31 - 1) by (intros ->; naive_solver). lia.
Qed.
Lemma signed_of_odd n : 0 ≤ n < 2 ^ 31 →
  signed_of (2 * n + 1) = - (if n <? 2 ^ 30 then n + 1 else Z.lxor n 1 + 1).
Proof.
  intros Hn. unfold signed_of. rewrite !Z.shiftr_div_pow2 by done.
  assert (Hl : Z.land (2 * n + 1) 1 = 1).
  { rewrite (Z.land_ones (2 * n + 1) 1 ltac:(done) : Z.land (2 * n + 1) 1 = _). change (2 ^ 1) with 2.
    rewrite Z.add_comm, Z.mul_comm, Z_mod_plus_full. done. }
  rewrite Hl. change (2 ^ 1) with 2. cbv zeta. cbn [Z.eqb].
  assert (Hh : (2 * n + 1) / 2 = n) by (symmetry; apply (Z.div_unique_pos _ _ n 1); lia). rewrite Hh.
  assert (Ht : (2 * n + 1) / 2 ^ 31 = if n <? 2 ^ 30 then 0 else 1).
  { destruct (Z.ltb_spec n (2 ^ 30)); [apply Z.div_small; lia|].
    symmetry. apply (Z.div_unique_pos _ _ 1 (2 * n + 1 - 2 ^ 31)); lia. }
  rewrite Ht. pose proof (lxor_1 n ltac:(lia)) as Hx. destruct (Z.ltb_spec n (2 ^ 30)).
  - rewrite Z.lxor_0_r, (i32_id (n + 1)), i32_id by lia. done.
  - rewrite Hx. destruct (Z.even n) eqn:He.
    + assert (n ≠ 2 ^ 31 - 1) by (intros ->; done).
      destruct (decide (n = 2 ^ 31 - 2)) as [->|Hne]; [done|].
      rewrite (i32_id (n + 1 + 1)), i32_id by lia. done.
    + rewrite (i32_id (n - 1 + 1)), i32_id by lia. done.
Qed.
(** What is read back: the number, or one whose lowest bit is wrong. *)
Lemma unpack_pack_signed v rest : -(2 ^ 31) ≤ v < 2 ^ 31 →
  unpack_signed_int (varint_bytes 10 (zigzag v) ++ rest) =
    (Ok (if (-(2 ^ 30) <=? v) && (v <? 2 ^ 30) then v
         else if 0 <=? v then Z.lxor v 1 else - (Z.lxor (- v - 1) 1 + 1)), rest).
Proof.
  intros Hv. unfold unpack_signed_int. rewrite bind_run.
  change (unpack_varint 5 0 0) with unpack_unsigned_int. rewrite unpack_pack_unsigned by (apply Z.mod_pos_bound; done).
  unfold mret, St_ret. f_equal. f_equal. rewrite zigzag_value by done. destruct (Z.leb_spec 0 v).
  - rewrite signed_of_even by lia. destruct (Z.leb_spec (-(2 ^ 30)) v); [|lia]. by destruct (v <? 2 ^ 30).
  - replace (-2 * v - 1) with (2 * (- v - 1) + 1) by lia. rewrite signed_of_odd by lia.
    destruct (Z.leb_spec (-(2 ^ 30)) v), (Z.ltb_spec v (2 ^ 30)), (Z.ltb_spec (- v - 1) (2 ^ 30)); simpl; lia.
Qed.
End varint.

(** ** Codecs *)
Record codec (A : Type) := mkCodec {
  enc : A → result bytes;
  dec : Z → St bytes A;
  valid : A → bool;
  levels : Z;
  codec_law : ∀ a, valid a = true → ∃ bs, enc a = Ok bs ∧
    ∀ d rest, d + levels ≤ MAX_RECURSION_DEPTH → dec d (bs ++ rest) = (Ok a, rest)
}.
Arguments mkCodec {A} _ _ _ _ _.
Arguments enc {A} c.
Arguments dec {A} c.
Arguments valid {A} c.
Arguments levels {A} c.
Arguments codec_law {A} c.

#[local] Unset Program Cases.

Module Codec.
Import Raw.

Lemma check_depth_ok d s : d ≤ MAX_RECURSION_DEPTH → check_depth d s = (Ok tt, s).
Proof. intros Hd. unfold check_depth. by rewrite (proj2 (Z.leb_le _ _) Hd). Qed.
Lemma read_app n b rest : length b = n → read n (b ++ rest) = (Ok b, rest).
Proof.
  intros <-. unfold read. rewrite length_app, (proj2 (Nat.leb_le _ _)) by lia.
  by rewrite take_app_length, drop_app_length.
Qed.

(** Step through a run that reads what was written. *)
Ltac run_step :=
  first
    [ rewrite bind_run
    | rewrite check_depth_ok by lia
    | rewrite read_app by (rewrite ?length_le_bytes; done)
    | progress unfold mret, St_ret, result_ret
    | progress cbv beta iota ].
Ltac run := repeat run_step.
Ltac written := cbv beta in *; bool_hyps; eexists; split; [reflexivity|]; intros d rest Hd.

(** *** Numbers *)
Lemma unpack_pack_uint n v d rest : 0 ≤ v < 256 ^ Z.of_nat n → d + 2 ≤ MAX_RECURSION_DEPTH →
  unpack_uint n d (AssetSymbol.le_bytes n v ++ rest) = (Ok v, rest).
Proof. intros Hv Hd. unfold unpack_uint. run. by rewrite from_le_bytes. Qed.

Program Definition uint (n : nat) : codec Z :=
  mkCodec (pack_uint n) (unpack_uint n) (λ v, (0 <=? v) && (v <? 256 ^ Z.of_nat n)) 2 _.
Next Obligation.
  intros n v Hv. written. apply unpack_pack_uint; lia.
Qed.
Program Definition int64 : codec Z :=
  mkCodec pack_int64 unpack_int64 (λ v, (int64_min <=? v) && (v <=? int64_max)) 2 _.
Next Obligation.
  intros v Hv. written. unfold unpack_int64. rewrite bind_run.
  rewrite unpack_pack_uint by (try lia; apply Z.mod_pos_bound; done). run. by rewrite i64_u64.
Qed.
(** [safe< int64_t >] *)
Program Definition share : codec Z := mkCodec pack_int64 unpack_safe (valid int64) 3 _.
Next Obligation.
  intros v (bs & Hp & Hu)%(codec_law int64). exists bs. split; [exact Hp|]. intros d rest Hd.
  unfold unpack_safe. run. apply (Hu (d + 1)). simpl. lia.
Qed.
Program Definition boolean : codec bool := mkCodec pack_bool unpack_bool (λ _, true) 3 _.
Next Obligation.
  intros v _. written. unfold unpack_bool. rewrite bind_run.
  rewrite unpack_pack_uint by (destruct v; lia). by destruct v.
Qed.
Program Definition time_sec : codec Z :=
  mkCodec (pack_uint 4) unpack_time (λ v, (0 <=? v) && (v <? 2 ^ 32)) 0 _.
Next Obligation.
  intros v Hv. written. unfold unpack_time. run.
  rewrite from_le_bytes; [done|]. change (256 ^ Z.of_nat 4) with (2 ^ 32). lia.
Qed.
(** [fc::array< char, N >], as the number that its bytes spell. *)
Definition unpack_array (n : nat) (d : Z) : St bytes Z := b ← read n; mret (AssetSymbol.from_le b).
Program Definition array (n : nat) : codec Z :=
  mkCodec (pack_uint n) (unpack_array n) (λ v, (0 <=? v) && (v <? 256 ^ Z.of_nat n)) 0 _.
Next Obligation.
  intros n v Hv. written. unfold unpack_array. run.
  rewrite from_le_bytes; [done|lia].
Qed.

(** *** Byte vectors and strings *)
Definition fits (n : nat) : bool := Z.of_nat n <? MAX_ARRAY_ALLOC_SIZE.
Lemma unpack_pack_chars v rest : fits (length v) = true →
  ∃ bs, pack_chars v = Ok bs ∧ unpack_chars (bs ++ rest) = (Ok v, rest).
Proof.
  unfold fits, MAX_ARRAY_ALLOC_SIZE. intros Hv. bool_hyps. eexists. split; [reflexivity|].
  unfold unpack_chars. rewrite bind_run, <- app_assoc.
  rewrite u32_id by lia. rewrite unpack_pack_unsigned by lia. rewrite bind_run.
  unfold fc_assert. rewrite (proj2 (Z.ltb_lt _ _)) by (unfold MAX_ARRAY_ALLOC_SIZE; lia).
  unfold mret, St_ret. rewrite Nat2Z.id. by apply read_app.
Qed.
Program Definition chars : codec bytes :=
  mkCodec pack_chars (λ _, unpack_chars)
    (λ v, fits (length v) && forallb (λ b, (0 <=? b) && (b <? 256)) v) 0 _.
Next Obligation.
  intros v Hv. cbv beta in Hv. bool_hyps. destruct (unpack_pack_chars v [] ltac:(done)) as (bs & Hp & _).
  exists bs. split; [done|]. intros d rest _. destruct (unpack_pack_chars v rest ltac:(done)) as (bs' & Hp' & Hu).
  congruence.
Qed.
Lemma length_string_bytes s : length (string_bytes s) = String.length s.
Proof.
  unfold string_bytes. rewrite length_fmap. induction s as [|c s IH]; simpl; [done|by rewrite IH].
Qed.
Lemma bytes_string_bytes s : bytes_string (string_bytes s) = s.
Proof.
  unfold bytes_string, string_bytes. rewrite <- list_fmap_compose.
  rewrite (list_fmap_ext _ id).
  - rewrite list_fmap_id. apply String.string_of_list_ascii_of_string.
  - intros i c _. simpl. rewrite Nat2Z.id. apply Ascii.ascii_nat_embedding.
Qed.
Lemma unpack_pack_string s : fits (String.length s) = true →
  ∃ bs, pack_string s = Ok bs ∧ ∀ rest, unpack_string (bs ++ rest) = (Ok s, rest).
Proof.
  intros Hs. rewrite <- length_string_bytes in Hs. destruct (unpack_pack_chars (string_bytes s) [] Hs) as (bs & Hp & _).
  exists bs. split; [done|]. intros rest. destruct (unpack_pack_chars (string_bytes s) rest Hs) as (bs' & Hp' & Hu).
  assert (bs' = bs) as -> by congruence. unfold unpack_string. rewrite bind_run, Hu. run. by rewrite bytes_string_bytes.
Qed.
Program Definition str : codec string :=
  mkCodec pack_string (λ _, unpack_string) (λ s, fits (String.length s)) 0 _.
Next Obligation. intros s (bs & Hp & Hu)%unpack_pack_string. exists bs. by split. Qed.
(** A string that the fixed storage holds as it is. *)
Program Definition fixed (n : nat) : codec string :=
  mkCodec pack_string (λ _, unpack_fixed_string n)
    (λ s, fits (String.length s) && String.eqb (fixed_string n s) s) 0 _.
Next Obligation.
  intros n s Hs. cbv beta in Hs. bool_hyps. destruct (unpack_pack_string s ltac:(done)) as (bs & Hp & Hu).
  exists bs. split; [done|]. intros d rest _. unfold unpack_fixed_string. rewrite bind_run, Hu. run.
  by match goal with E : String.eqb _ _ = true |- _ => apply String.eqb_eq in E as -> end.
Qed.
(** [fc::ripemd160]: five words, read through [operator >>]. *)
Definition pack_words (l : list Z) : result bytes := mret (l ≫= AssetSymbol.le_bytes 4).
Fixpoint read_words (n : nat) : St bytes (list Z) :=
  match n with O => mret [] | S n => w ← read 4; l ← read_words n; mret (AssetSymbol.from_le w :: l) end.
Definition unpack_words (n : nat) (d : Z) : St bytes (list Z) :=
  check_depth (d + 1) ;; check_depth (d + 2) ;; read_words n.
Program Definition words (n : nat) : codec (list Z) :=
  mkCodec pack_words (unpack_words n)
    (λ l, (length l =? n)%nat && forallb (λ w, (0 <=? w) && (w <? 2 ^ 32)) l) 2 _.
Next Obligation.
  intros n l Hl. written. unfold unpack_words. run. apply Nat.eqb_eq in H as <-. clear Hd.
  induction l as [|w l IH]; [done|]. simpl in H0. bool_hyps.
  cbn [length read_words]. rewrite bind_cons, <- app_assoc. run.
  rewrite IH by done. run. rewrite from_le_bytes; [done|]. change (256 ^ Z.of_nat 4) with (2 ^ 32). lia.
Qed.
(** Asset symbols check themselves. *)
Definition unpack_symbol (d : Z) : St bytes asset_symbol_type := λ s,
  match AssetSymbol.unpack s with Ok (sym, rest) => (Ok sym, rest) | Exc e => (Exc e, s) end.
Program Definition symbol_codec : codec asset_symbol_type :=
  mkCodec AssetSymbol.pack unpack_symbol (λ s, bool_decide (AssetSymbol.validate s = Ok tt)) 0 _.
Next Obligation.
  intros s Hs. cbv beta in Hs. bool_hyps. destruct (unpack_pack s [] Hs) as (bs & Hp & _). exists bs. split; [done|].
  intros d rest _. destruct (unpack_pack s rest Hs) as (bs' & Hp' & Hu). unfold unpack_symbol.
  assert (bs' = bs) as -> by congruence. by rewrite Hu.
Qed.

(** *** Pairs, vectors, sets and maps *)
Section containers.
Context {A B : Type}.

Definition pack_pair (ca : codec A) (cb : codec B) (p : A * B) : result bytes :=
  x ← enc ca p.1; y ← enc cb p.2; mret (x ++ y).
Definition unpack_pair (ca : codec A) (cb : codec B) (d : Z) : St bytes (A * B) :=
  check_depth (d + 1) ;; a ← dec ca (d + 1); b ← dec cb (d + 1); mret (a, b).
Program Definition pair_codec (ca : codec A) (cb : codec B) : codec (A * B) :=
  mkCodec (pack_pair ca cb) (unpack_pair ca cb) (λ p, valid ca p.1 && valid cb p.2)
    (1 + Z.max 0 (Z.max (levels ca) (levels cb))) _.
Next Obligation.
  intros ca cb [a b] Hv. cbv beta in Hv. simpl in Hv. bool_hyps.
  destruct (codec_law ca a ltac:(done)) as (x & Hx & Ux), (codec_law cb b ltac:(done)) as (y & Hy & Uy).
  exists (x ++ y). unfold pack_pair, unpack_pair. simpl. rewrite Hx, bind_Ok, Hy. split; [done|].
  intros d rest Hd. run. rewrite <- app_assoc, Ux by lia. run. rewrite Uy by lia. done.
Qed.

(** The elements one after the other. *)
Fixpoint pack_all (c : codec A) (l : list A) : result bytes :=
  match l with [] => mret [] | a :: l => x ← enc c a; y ← pack_all c l; mret (x ++ y) end.
Fixpoint unpack_all (c : codec A) (d : Z) (n : nat) : St bytes (list A) :=
  match n with O => mret [] | S n => a ← dec c d; l ← unpack_all c d n; mret (a :: l) end.
Definition pack_size_of {T} (l : list T) : result bytes := pack_unsigned_int (u32 (Z.of_nat (length l))).
(** The size, and the check on what the elements need in memory. *)
Definition unpack_size (sizeof : Z) : St bytes nat :=
  size ← unpack_unsigned_int;
  fc_assert (size * sizeof <? MAX_ARRAY_ALLOC_SIZE) ;;
  mret (Z.to_nat size).
Definition fits_all (sizeof : Z) (l : list A) : bool :=
  (Z.of_nat (length l) <? 2 ^ 32) && (Z.of_nat (length l) * sizeof <? MAX_ARRAY_ALLOC_SIZE).

Lemma pack_all_ok c l : forallb (valid c) l = true → ∃ bs, pack_all c l = Ok bs ∧
  ∀ d rest, d + levels c ≤ MAX_RECURSION_DEPTH → unpack_all c d (length l) (bs ++ rest) = (Ok l, rest).
Proof.
  induction l as [|a l IH]; simpl; intros Hv; [by eexists|]. bool_hyps.
  destruct (codec_law c a ltac:(done)) as (x & Hx & Ux), IH as (y & Hy & Uy); [done|].
  rewrite Hx, bind_Ok, Hy. eexists. split; [reflexivity|]. intros d rest Hd. rewrite <- app_assoc.
  run. rewrite Ux by lia. run. rewrite Uy by lia. done.
Qed.
Lemma unpack_size_ok sizeof l rest : fits_all sizeof l = true → ∃ bs, pack_size_of l = Ok bs ∧
  unpack_size sizeof (bs ++ rest) = (Ok (length l), rest).
Proof.
  unfold fits_all, unpack_size. intros Hl. bool_hyps. eexists. split; [reflexivity|].
  rewrite bind_run, u32_id, unpack_pack_unsigned by lia. rewrite bind_run. unfold fc_assert.
  rewrite (proj2 (Z.ltb_lt _ _)) by done. run. by rewrite Nat2Z.id.
Qed.

Definition pack_vector (c : codec A) (l : list A) : result bytes :=
  n ← pack_size_of l; x ← pack_all c l; mret (n ++ x).
Definition unpack_vector (sizeof : Z) (c : codec A) (d : Z) : St bytes (list A) :=
  check_depth (d + 1) ;; n ← unpack_size sizeof; unpack_all c (d + 1) n.
Lemma vector_law sizeof c l : fits_all sizeof l && forallb (valid c) l = true → ∃ bs, pack_vector c l = Ok bs ∧
  ∀ d rest, d + (1 + Z.max 0 (levels c)) ≤ MAX_RECURSION_DEPTH →
    unpack_vector sizeof c d (bs ++ rest) = (Ok l, rest).
Proof.
  intros Hv. bool_hyps. destruct (pack_all_ok c l ltac:(done)) as (x & Hx & Ux).
  destruct (unpack_size_ok sizeof l [] ltac:(done)) as (n & Hn & _).
  exists (n ++ x). unfold pack_vector. rewrite Hn, bind_Ok, Hx. split; [done|]. intros d rest Hd.
  destruct (unpack_size_ok sizeof l (x ++ rest) ltac:(done)) as (n' & Hn' & Un).
  assert (n' = n) as -> by congruence. unfold unpack_vector. run. rewrite <- app_assoc, Un. run.
  apply Ux. lia.
Qed.
Definition vector (sizeof : Z) (c : codec A) : codec (list A) :=
  mkCodec (pack_vector c) (unpack_vector sizeof c) (λ l, fits_all sizeof l && forallb (valid c) l)
    (1 + Z.max 0 (levels c)) (vector_law sizeof c).

(** A [flat_set] or [flat_map]: a vector in order; what is read is inserted one
    by one, and an element equivalent to one that is there is dropped. *)
Fixpoint flat_add (lt : A → A → bool) (x : A) (l : list A) : list A :=
  match l with
  | [] => [x]
  | y :: l' => if lt x y then x :: l else if lt y x then y :: flat_add lt x l' else l
  end.
Definition unpack_flat (lt : A → A → bool) (sizeof : Z) (c : codec A) (d : Z) : St bytes (list A) :=
  l ← unpack_vector sizeof c d; mret (fold_left (λ acc x, flat_add lt x acc) l []).
Fixpoint ordered (lt : A → A → bool) (l : list A) : bool :=
  match l with [] => true | x :: l => forallb (λ y, lt x y && negb (lt y x)) l && ordered lt l end.
Lemma flat_add_last lt x l : forallb (λ y, lt y x && negb (lt x y)) l = true → flat_add lt x l = l ++ [x].
Proof.
  induction l as [|y l IH]; simpl; [done|]. intros Hl. bool_hyps.
  match goal with E : lt x y = false |- _ => rewrite E end.
  match goal with E : lt y x = true |- _ => rewrite E end. by rewrite IH.
Qed.
Lemma fold_flat_add lt l acc : ordered lt l = true →
  (∀ y, y ∈ acc → forallb (λ x, lt y x && negb (lt x y)) l = true) →
  fold_left (λ acc x, flat_add lt x acc) l acc = acc ++ l.
Proof.
  revert acc. induction l as [|x l IH]; simpl; intros acc Hl Hacc; [by rewrite app_nil_r|]. bool_hyps.
  rewrite flat_add_last.
  - rewrite IH, <- app_assoc; [done..|]. intros y [Hy|Hy]%elem_of_app.
    + specialize (Hacc y Hy). by bool_hyps.
    + by apply list_elem_of_singleton in Hy as ->.
  - apply forallb_forall. intros y Hy%list_elem_of_In. specialize (Hacc y Hy).
    by apply andb_true_iff in Hacc as [? _].
Qed.
Program Definition flat (lt : A → A → bool) (sizeof : Z) (c : codec A) : codec (list A) :=
  mkCodec (pack_vector c) (unpack_flat lt sizeof c)
    (λ l, fits_all sizeof l && forallb (valid c) l && ordered lt l) (1 + Z.max 0 (levels c)) _.
Next Obligation.
  intros lt sizeof c l Hl. cbv beta in Hl. apply andb_true_iff in Hl as [Hl Ho].
  destruct (vector_law sizeof c l Hl) as (bs & Hp & Hu). exists bs. split; [done|]. intros d rest Hd.
  unfold unpack_flat. rewrite bind_run, Hu by lia. run. rewrite fold_flat_add; [done..|].
  intros y Hy. by apply not_elem_of_nil in Hy.
Qed.

(** *** Optional members *)
Definition pack_optional (c : codec A) (v : option A) : result bytes :=
  match v with
  | None => pack_bool false
  | Some a => b ← pack_bool true; x ← enc c a; mret (b ++ x)
  end.
Definition unpack_optional (c : codec A) (d : Z) : St bytes (option A) :=
  check_depth (d + 1) ;;
  b ← unpack_bool (d + 1);
  if b : bool then a ← dec c (d + 1); mret (Some a) else mret None.
Program Definition optional (c : codec A) : codec (option A) :=
  mkCodec (pack_optional c) (unpack_optional c)
    (λ v, match v with Some a => valid c a | None => true end) (1 + Z.max 3 (levels c)) _.
Next Obligation.
  intros c [a|] Hv; cbv beta iota in Hv; unfold unpack_optional.
  - destruct (codec_law c a Hv) as (x & Hx & Ux). destruct (codec_law boolean true eq_refl) as (b & Hb & Ub).
    exists (b ++ x). unfold pack_optional. simpl in Hb, Ub. rewrite Hb, bind_Ok, Hx. split; [done|].
    intros d rest Hd. run. rewrite <- app_assoc, Ub by lia. run. rewrite Ux by lia. done.
  - destruct (codec_law boolean false eq_refl) as (b & Hb & Ub). exists b. split; [done|].
    intros d rest Hd. run. simpl in Ub. rewrite Ub by lia. done.
Qed.
End containers.

(** *** Reflected classes

    The visitor packs the members in the order of [FC_REFLECT], those of the
    base class first; it unpacks each of them from depth 0 again. *)
Definition shallow {A} (c : codec A) : bool := levels c <=? MAX_RECURSION_DEPTH.
Program Definition no_members : codec unit := mkCodec (λ _, mret []) (λ _, mret tt) (λ _, true) 0 _.
Next Obligation. intros [] _. by exists []. Qed.
Definition pack_members {A B} (c : codec A) (cs : codec B) (p : A * B) : result bytes :=
  x ← enc c p.1; y ← enc cs p.2; mret (x ++ y).
Definition unpack_members {A B} (c : codec A) (cs : codec B) (d : Z) : St bytes (A * B) :=
  a ← dec c 0; b ← dec cs 0; mret (a, b).
Program Definition members {A B} (c : codec A) (cs : codec B) : codec (A * B) :=
  mkCodec (pack_members c cs) (unpack_members c cs)
    (λ p, shallow c && shallow cs && valid c p.1 && valid cs p.2) 0 _.
Next Obligation.
  intros A B c cs [a b] Hv. cbv beta in Hv. unfold shallow in Hv. simpl in Hv. bool_hyps.
  destruct (codec_law c a ltac:(done)) as (x & Hx & Ux), (codec_law cs b ltac:(done)) as (y & Hy & Uy).
  exists (x ++ y). unfold pack_members, unpack_members. simpl. rewrite Hx, bind_Ok, Hy. split; [done|].
  intros d rest Hd. run. rewrite <- app_assoc, Ux by lia. run. rewrite Uy by lia. done.
Qed.
Definition unpack_object {A T} (c : codec T) (g : T → A) (d : Z) : St bytes A :=
  check_depth (d + 1) ;; check_depth (d + 2) ;; t ← dec c 0; mret (g t).
Program Definition object {A T} (c : codec T) (f : A → T) (g : T → A) (Hgf : ∀ a, g (f a) = a) : codec A :=
  mkCodec (λ a, enc c (f a)) (unpack_object c g) (λ a, shallow c && valid c (f a)) 2 _.
Next Obligation.
  intros A T c f g Hgf a Hv. cbv beta in Hv. unfold shallow in Hv. bool_hyps.
  destruct (codec_law c (f a) ltac:(done)) as (x & Hx & Ux). exists x. split; [done|].
  intros d rest Hd. unfold unpack_object. run. rewrite Ux by lia. run. by rewrite Hgf.
Qed.

(** *** [static_variant]: the index, then the alternative, again from depth 0 *)
Record choice (T : Type) := mkChoice {
  which : T → Z;
  enc_choice : T → result bytes;
  dec_choice : Z → St bytes T;
  valid_choice : T → bool;
  count : Z;
  choice_law : ∀ t, valid_choice t = true → 0 ≤ which t < count ∧ ∃ bs, enc_choice t = Ok bs ∧
    ∀ rest, dec_choice (which t) (bs ++ rest) = (Ok t, rest)
}.
Arguments mkChoice {T} _ _ _ _ _ _.
Arguments which {T} c.
Arguments enc_choice {T} c.
Arguments dec_choice {T} c.
Arguments valid_choice {T} c.
Arguments count {T} c.
Arguments choice_law {T} c.
Program Definition no_choice : choice Empty_set :=
  mkChoice (λ t, match t with end) (λ t, match t with end) (λ _, mthrow AssertException) (λ _, false) 0 _.
Next Obligation. by intros []. Qed.
Program Definition alternative {A T} (c : codec A) (ch : choice T) : choice (A + T) :=
  mkChoice
    (λ t, match t with inl _ => 0 | inr t => 1 + which ch t end)
    (λ t, match t with inl a => enc c a | inr t => enc_choice ch t end)
    (λ w, if w =? 0 then a ← dec c 0; mret (inl a) else t ← dec_choice ch (w - 1); mret (inr t))
    (λ t, match t with inl a => shallow c && (0 <=? count ch) && valid c a | inr t => valid_choice ch t end)
    (1 + count ch) _.
Next Obligation.
  intros A T c ch [a|t] Hv; cbv beta iota in Hv; unfold shallow in Hv.
  - bool_hyps. destruct (codec_law c a ltac:(done)) as (x & Hx & Ux).
    split; [cbv beta iota; lia|]. exists x. split; [done|]. intros rest. cbv beta iota. cbn [Z.eqb]. run. rewrite Ux by lia. done.
  - destruct (choice_law ch t Hv) as (Hw & x & Hx & Ux). cbv beta iota. split; [lia|]. exists x. split; [done|].
    intros rest. destruct (Z.eqb_spec (1 + which ch t) 0); [lia|]. run.
    replace (1 + which ch t - 1) with (which ch t) by lia. rewrite Ux. done.
Qed.
Definition pack_variant {A T} (f : A → T) (ch : choice T) (a : A) : result bytes :=
  n ← pack_unsigned_int (u32 (which ch (f a))); x ← enc_choice ch (f a); mret (n ++ x).
Definition unpack_variant {A T} (g : T → A) (ch : choice T) (d : Z) : St bytes A :=
  check_depth (d + 1) ;;
  w ← unpack_unsigned_int;
  assert_or ((w <? count ch) && (0 <=? w)) AssertException ;;
  t ← dec_choice ch w;
  mret (g t).
Program Definition variant {A T} (ch : choice T) (f : A → T) (g : T → A) (Hgf : ∀ a, g (f a) = a) : codec A :=
  mkCodec (pack_variant f ch) (unpack_variant g ch) (λ a, (count ch <=? 2 ^ 32) && valid_choice ch (f a)) 1 _.
Next Obligation.
  intros A T ch f g Hgf a Hv. cbv beta in Hv. bool_hyps.
  destruct (choice_law ch (f a) ltac:(done)) as (Hw & x & Hx & Ux).
  exists (varint_bytes 10 (which ch (f a)) ++ x). unfold pack_variant. rewrite Hx, u32_id by lia. split; [done|].
  intros d rest Hd. unfold unpack_variant. run. rewrite <- app_assoc, unpack_pack_unsigned by lia. run.
  unfold assert_or. rewrite (proj2 (Z.ltb_lt _ _)), (proj2 (Z.leb_le _ _)) by lia. cbn [andb]. run. rewrite Ux. run. by rewrite Hgf.
Qed.

(** What every codec promises: reading back, and no two values with bytes that
    continue to the same stream. *)
Lemma codec_reads {A} (c : codec A) a : valid c a = true → shallow c = true → ∃ bs, enc c a = Ok bs ∧
  ∀ rest, dec c 0 (bs ++ rest) = (Ok a, rest).
Proof.
  unfold shallow. intros (bs & Hp & Hu)%codec_law Hs. bool_hyps. exists bs. split; [done|]. intros rest. apply Hu. lia.
Qed.
Lemma codec_injective {A} (c : codec A) a b x y r r' : shallow c = true → valid c a = true → valid c b = true →
  enc c a = Ok x → enc c b = Ok y → x ++ r = y ++ r' → a = b ∧ x = y ∧ r = r'.
Proof.
  intros Hs Ha Hb Hx Hy He. destruct (codec_reads c a Ha Hs) as (x' & Hx' & Ux), (codec_reads c b Hb Hs) as (y' & Hy' & Uy).
  assert (x' = x) as -> by congruence. assert (y' = y) as -> by congruence.
  pose proof (Ux r) as H1. rewrite He, Uy in H1. injection H1 as <- <-. split; [done|]. split; [congruence|done].
Qed.
End Codec.


(** Where [signed_int] is faithful: a 32-bit number survives packing and
    unpacking exactly when it lies between -2^30 and 2^30 - 1; any other number
    comes back with a wrong lowest bit, without an exception. *)
Theorem signed_int_survives (v : Z) (rest : bytes) : -(2 ^ 31) ≤ v < 2 ^ 31 →
  ∃ bs w, Raw.pack_signed_int v = Ok bs ∧ Raw.unpack_signed_int (bs ++ rest) = (Ok w, rest) ∧
    (w = v ↔ -(2 ^ 30) ≤ v < 2 ^ 30).
Proof.
  intros Hv. eexists _, _. split; [reflexivity|]. split; [by apply unpack_pack_signed|].
  destruct (Z.leb_spec (-(2 ^ 30)) v), (Z.ltb_spec v (2 ^ 30)); cbn [andb]; [by split|..]; (split; [|lia]).
  all: destruct (Z.leb_spec 0 v); try lia; rewrite lxor_1 by lia; case_match; lia.
Qed.
Lemma signed_int_survives_witness : ∃ bs w, Raw.pack_signed_int (2 ^ 30) = Ok bs ∧
  Raw.unpack_signed_int (bs ++ []) = (Ok w, []) ∧ w ≠ 2 ^ 30.
Proof.
  destruct (signed_int_survives (2 ^ 30) [] ltac:(lia)) as (bs & w & Hp & Hu & Hw).
  exists bs, w. split; [exact Hp|]. split; [exact Hu|]. intros He. apply Hw in He. lia.
Defined.
