(* ===== verification/Encoding.v ===== *)
(** * Text and number encodings

    libraries/fc/src/crypto: hexadecimal (hex.cpp), base 58 (base58.cpp) and the
    32-bit logarithm of a 256-bit hash (sha256.cpp).  Big numbers of OpenSSL are
    integers; a hash is its bytes, the first one the most significant. *)
From S2P Require Import Prelude Safe Asset Raw.

(** ** Digits *)
Fixpoint digits (base : Z) (fuel : nat) (n : Z) : list Z :=
  match fuel with
  | O => []
  | S fuel' => if 0 <? n then n mod base :: digits base fuel' (n / base) else []
  end.
Fixpoint value (base : Z) (l : list Z) : Z :=
  match l with [] => 0 | d :: l' => d + base * value base l' end.
Definition digits_ok (base : Z) (l : list Z) : Prop := Forall (λ d, 0 ≤ d < base) l.

Section digits_facts.
Context (base : Z) (Hbase : 1 < base).

Lemma value_nonneg l : digits_ok base l → 0 ≤ value base l.
Proof. induction 1; simpl; nia. Qed.
Lemma value_bound l : digits_ok base l → value base l < base ^ Z.of_nat (length l).
Proof.
  induction 1 as [|d l Hd Hl IH]; [done|]. cbn [value length]. rewrite Nat2Z.inj_succ, Z.pow_succ_r by lia. nia.
Qed.
Lemma value_app l l' : value base (l ++ l') = value base l + base ^ Z.of_nat (length l) * value base l'.
Proof.
  induction l as [|d l IH]; cbn [value length app]; [lia|]. rewrite IH, Nat2Z.inj_succ, Z.pow_succ_r by lia. ring.
Qed.
Lemma value_zeros n : value base (replicate n 0) = 0.
Proof. induction n; simpl; lia. Qed.
Lemma digits_range fuel n : digits_ok base (digits base fuel n).
Proof.
  revert n. induction fuel as [|fuel IH]; intros n; simpl; [constructor|].
  destruct (0 <? n); [|constructor]. constructor; [apply Z.mod_pos_bound; lia|apply IH].
Qed.
Lemma value_digits fuel n : 0 ≤ n < base ^ Z.of_nat fuel → value base (digits base fuel n) = n.
Proof.
  revert n. induction fuel as [|fuel IH]; intros n Hn; [change (base ^ Z.of_nat 0) with 1 in Hn; simpl; lia|].
  rewrite Nat2Z.inj_succ, Z.pow_succ_r in Hn by lia. cbn [digits]. destruct (Z.ltb_spec 0 n); [|simpl; lia].
  cbn [value]. rewrite IH; [pose proof (Z.div_mod n base ltac:(lia)); lia|].
  split; [apply Z.div_pos; lia|apply Z.div_lt_upper_bound; lia].
Qed.
(** The top digit is not zero: the digits of a number are its only ones. *)
Lemma digits_last fuel n d : last (digits base fuel n) = Some d → 0 ≤ n < base ^ Z.of_nat fuel → 0 < d.
Proof.
  revert n. induction fuel as [|fuel IH]; intros n Hd Hn; [done|].
  rewrite Nat2Z.inj_succ, Z.pow_succ_r in Hn by lia. cbn [digits] in Hd.
  destruct (Z.ltb_spec 0 n); [|done]. pose proof (Z.div_mod n base ltac:(lia)) as Hdm.
  assert (Hq : 0 ≤ n / base < base ^ Z.of_nat fuel) by (split; [apply Z.div_pos; lia|apply Z.div_lt_upper_bound; lia]).
  rewrite last_cons in Hd. destruct (last (digits base fuel (n / base))) as [x|] eqn:Hx.
  - injection Hd as <-. by apply (IH (n / base)).
  - injection Hd as <-. apply last_None in Hx. pose proof (value_digits fuel _ Hq) as Hv. rewrite Hx in Hv. simpl in Hv.
    pose proof (Z.mod_pos_bound n base ltac:(lia)). lia.
Qed.
Lemma digits_value fuel l : digits_ok base l → (length l ≤ fuel)%nat → (∀ d, last l = Some d → 0 < d) →
  digits base fuel (value base l) = l.
Proof.
  revert l. induction fuel as [|fuel IH]; intros [|d l] Hl Hf Hlast; simpl in Hf; try lia; [done|done|].
  inversion Hl as [|?? Hd Hl']; subst. cbn [digits value]. pose proof (value_nonneg l Hl') as Hv.
  assert (Hpos : 0 < d + base * value base l).
  { destruct l as [|d' l]; [specialize (Hlast d eq_refl); simpl; lia|].
    assert (value base (d' :: l) ≠ 0); [|nia]. intros Hz.
    specialize (IH (d' :: l) Hl' ltac:(simpl in *; lia)). rewrite Hz in IH.
    rewrite last_cons_cons in Hlast. specialize (IH Hlast). destruct fuel; [simpl in Hf; lia|done]. }
  rewrite (proj2 (Z.ltb_lt _ _)) by done.
  rewrite <- (Z.mod_unique_pos (d + base * value base l) base (value base l) d) by lia.
  rewrite <- (Z.div_unique_pos (d + base * value base l) base (value base l) d) by lia.
  rewrite IH; [done..|lia|]. intros x Hx. apply Hlast. rewrite last_cons, Hx. done.
Qed.
Lemma digits_fuel f f' n : 0 ≤ n < base ^ Z.of_nat f → n < base ^ Z.of_nat f' → digits base f n = digits base f' n.
Proof.
  revert f' n. induction f as [|f IH]; intros f' n Hn Hn'.
  - change (base ^ Z.of_nat 0) with 1 in Hn. assert (n = 0) as -> by lia. by destruct f'.
  - destruct f' as [|f']; [change (base ^ Z.of_nat 0) with 1 in Hn'; assert (n = 0) as -> by lia; done|].
    rewrite Nat2Z.inj_succ, Z.pow_succ_r in Hn, Hn' by lia. cbn [digits]. destruct (0 <? n); [|done]. f_equal.
    apply IH; [split; [apply Z.div_pos; lia|]|]; apply Z.div_lt_upper_bound; lia.
Qed.
End digits_facts.

Module Encoding.
Import Raw.

(** ** Hexadecimal *)
Definition hex_chars : bytes := string_bytes "0123456789abcdef".
Definition hex_char (x : Z) : Z := nth (Z.to_nat x) hex_chars 0.
Definition from_hex_char (c : Z) : result Z :=
  if (48 <=? c) && (c <=? 57) then mret (c - 48)
  else if (97 <=? c) && (c <=? 102) then mret (c - 97 + 10)
  else if (65 <=? c) && (c <=? 70) then mret (c - 65 + 10)
  else mthrow FcException.
Definition to_hex (d : bytes) : string :=
  bytes_string (d ≫= λ c, [hex_char (Z.shiftr c 4); hex_char (Z.land c 0x0f)]).
(** At most [out_len] bytes are written; a last digit alone is a high half. *)
Fixpoint from_hex_loop (i : bytes) (out_len : nat) : result bytes :=
  match out_len, i with
  | S n, c :: c' :: i' =>
      hi ← from_hex_char c; lo ← from_hex_char c'; rest ← from_hex_loop i' n;
      mret (Z.lor (u8 (Z.shiftl hi 4)) lo :: rest)
  | S n, [c] => hi ← from_hex_char c; mret [u8 (Z.shiftl hi 4)]
  | _, _ => mret []
  end.
Definition from_hex (hex_str : string) (out_len : nat) : result bytes :=
  from_hex_loop (string_bytes hex_str) out_len.

(** ** Base 58 *)
Definition pszBase58 : bytes := string_bytes "123456789ABCDEFGHJKLMNPQRSTUVWXYZabcdefghijkmnopqrstuvwxyz".
Definition base58_char (d : Z) : Z := nth (Z.to_nat d) pszBase58 0.
Fixpoint leading (x : Z) (l : bytes) : nat :=
  match l with y :: l' => if y =? x then S (leading x l') else O | [] => O end.
(** A byte is worth less than two digits: twice the length bounds the loop. *)
Definition to_base58 (d : bytes) : string :=
  let bn := value 256 (reverse d) in
  let str := base58_char <$> digits 58 (2 * length d) bn in
  bytes_string (reverse (str ++ replicate (leading 0 d) (base58_char 0))).

Definition isspace (c : Z) : bool := ((9 <=? c) && (c <=? 13)) || (c =? 32).
Fixpoint skip_spaces (p : bytes) : bytes :=
  match p with c :: p' => if isspace c then skip_spaces p' else p | [] => [] end.
Fixpoint strchr (l : bytes) (c : Z) : option Z :=
  match l with
  | [] => None
  | x :: l' => if x =? c then Some 0 else (λ i, i + 1) <$> strchr l' c
  end.
Fixpoint decode_loop (p : bytes) (bn : Z) : option Z :=
  match p with
  | [] => Some bn
  | c :: p' =>
      match strchr pszBase58 c with
      | None => match skip_spaces p with [] => Some bn | _ :: _ => None end
      | Some i => decode_loop p' (bn * 58 + i)
      end
  end.
(** [CBigNum::getvch]: little endian, with a zero byte for the sign when the
    top bit is set. *)
Definition getvch (fuel : nat) (bn : Z) : bytes :=
  let m := digits 256 fuel bn in
  match last m with Some b => if 0x80 <=? b then m ++ [0] else m | None => m end.
Definition trim_sign (v : bytes) : bytes :=
  match reverse v with
  | 0 :: b :: r => if 0x80 <=? b then reverse (b :: r) else v
  | _ => v
  end.
Definition DecodeBase58 (str : bytes) : option bytes :=
  let psz := skip_spaces (until_zero str) in
  bn ← decode_loop psz 0;
  let vchTmp := trim_sign (getvch (length psz) bn) in
  Some (replicate (leading (base58_char 0) psz) 0 ++ reverse vchTmp).
Definition from_base58 (base58_str : string) : result bytes :=
  match DecodeBase58 (string_bytes base58_str) with Some b => mret b | None => mthrow FcException end.
Definition from_base58_into (base58_str : string) (out_data_len : nat) : result bytes :=
  out ← from_base58 base58_str;
  fc_assert (length out <=? out_data_len)%nat ;;
  mret out.

(** ** The logarithm of a hash *)
Definition char2lzbits : list Z :=
  [8; 7] ++ replicate 2 6 ++ replicate 4 5 ++ replicate 8 4 ++ replicate 16 3 ++ replicate 32 2 ++
  replicate 64 1 ++ replicate 128 0.
Fixpoint clz_loop (my_bytes : bytes) (lzbits : Z) : Z :=
  match my_bytes with
  | [] => 0x100
  | c :: my_bytes' =>
      let lzbits := lzbits + nth (Z.to_nat c) char2lzbits 0 in
      if c =? 0 then clz_loop my_bytes' lzbits else lzbits
  end.
Definition clz (h : bytes) : Z := clz_loop h 0.
Definition approx_log_32 (h : bytes) : Z :=
  let lzbits := clz h in
  if 0x100 <=? lzbits then 0
  else
    let nzbits := 0xFF - lzbits in
    let offset := Z.to_nat (Z.shiftr lzbits 3) in
    let y := Z.lor (Z.lor (Z.lor (Z.shiftl (nth offset h 0) 0x18) (Z.shiftl (nth (offset + 1) h 0) 0x10))
                          (Z.shiftl (nth (offset + 2) h 0) 0x08)) (nth (offset + 3) h 0) in
    let y := Z.shiftr y (Z.land nzbits 7) in
    let y := Z.lxor y (Z.shiftl 1 0x18) in
    Z.lor y (Z.shiftl nzbits 0x18).
End Encoding.

Section encoding_facts.
Import Raw Encoding.
Definition is_bytes (b : bytes) : Prop := Forall (λ x, 0 ≤ x < 256) b.

Lemma string_bytes_string b : is_bytes b → string_bytes (bytes_string b) = b.
Proof.
  intros Hb. unfold string_bytes, bytes_string. rewrite String.list_ascii_of_string_of_list_ascii.
  rewrite <- list_fmap_compose. induction Hb as [|x b Hx Hb IH]; [done|]. cbn. f_equal; [|exact IH].
  rewrite Ascii.nat_ascii_embedding by lia. lia.
Qed.
(** *** Hexadecimal *)
Lemma hex_digit x : 0 ≤ x < 16 → from_hex_char (hex_char x) = Ok x ∧ 0 ≤ hex_char x < 256.
Proof.
  intros Hx. assert (Hin : x ∈ seqZ 0 16) by (apply elem_of_seqZ; lia). clear Hx. revert x Hin. apply Forall_forall.
  apply (bool_decide_unpack _). vm_compute. exact I.
Qed.
Lemma hex_halves c : 0 ≤ c < 256 →
  0 ≤ Z.shiftr c 4 < 16 ∧ 0 ≤ Z.land c 0x0f < 16 ∧ Z.lor (u8 (Z.shiftl (Z.shiftr c 4) 4)) (Z.land c 0x0f) = c.
Proof.
  intros Hc. assert (Hin : c ∈ seqZ 0 256) by (apply elem_of_seqZ; lia). clear Hc. revert c Hin. apply Forall_forall.
  apply (bool_decide_unpack _). vm_compute. exact I.
Qed.
Lemma from_to_hex b : is_bytes b → from_hex (to_hex b) (length b) = Ok b.
Proof.
  intros Hb. unfold from_hex, to_hex. rewrite string_bytes_string.
  - induction Hb as [|c b Hc Hb IH]; [done|]. destruct (hex_halves c Hc) as (Hh & Hl & He).
    cbn -[hex_char from_hex_char]. rewrite (proj1 (hex_digit _ Hh)), bind_Ok, (proj1 (hex_digit _ Hl)), bind_Ok, IH.
    cbn -[hex_char]. by rewrite He.
  - induction Hb as [|c b Hc Hb IH]; [constructor|]. destruct (hex_halves c Hc) as (Hh & Hl & _).
    repeat constructor; try apply hex_digit; done.
Qed.

(** *** Base 58 *)
Lemma base58_digit d : 0 ≤ d < 58 →
  strchr pszBase58 (base58_char d) = Some d ∧ isspace (base58_char d) = false ∧ 0 < base58_char d < 256 ∧
  (base58_char d =? base58_char 0) = (d =? 0).
Proof.
  intros Hd. assert (Hin : d ∈ seqZ 0 58) by (apply elem_of_seqZ; lia). clear Hd. revert d Hin. apply Forall_forall.
  apply (bool_decide_unpack _). vm_compute. exact I.
Qed.
Lemma leading_split x l : l = replicate (leading x l) x ++ drop (leading x l) l.
Proof. induction l as [|y l IH]; [done|]. simpl. destruct (Z.eqb_spec y x) as [->|]; [|done]. simpl. by f_equal. Qed.
Lemma leading_head x l y : head (drop (leading x l) l) = Some y → y ≠ x.
Proof.
  induction l as [|z l IH]; [done|]. simpl. destruct (Z.eqb_spec z x); [apply IH|]. simpl. by intros [= ->].
Qed.
Lemma leading_app x n l : (∀ y, head l = Some y → y ≠ x) → leading x (replicate n x ++ l) = n.
Proof.
  intros Hl. induction n as [|n IH]; simpl; [|by rewrite Z.eqb_refl, IH].
  destruct l as [|y l]; [done|]. simpl. destruct (Z.eqb_spec y x); [|done]. exfalso. by apply (Hl y).
Qed.
Lemma decode_digits l : digits_ok 58 l → ∀ bn,
  decode_loop (base58_char <$> l) bn = Some (bn * 58 ^ Z.of_nat (length l) + value 58 (reverse l)).
Proof.
  induction 1 as [|d l Hd Hl IH]; intros bn; [cbn; f_equal; lia|].
  cbn [fmap list_fmap decode_loop length]. rewrite (proj1 (base58_digit d Hd)). unfold base.fmap in IH. rewrite IH.
  f_equal. rewrite reverse_cons, value_app, length_reverse, Nat2Z.inj_succ, Z.pow_succ_r by lia. simpl. lia.
Qed.
Lemma trim_getvch fuel bn : 0 ≤ bn < 256 ^ Z.of_nat fuel → trim_sign (getvch fuel bn) = digits 256 fuel bn.
Proof.
  intros Hbn. unfold getvch, trim_sign. destruct (last (digits 256 fuel bn)) as [b|] eqn:Hb.
  - pose proof (digits_last 256 ltac:(lia) fuel bn b Hb Hbn) as Hpos.
    apply last_Some in Hb as [m Hm]. rewrite Hm. destruct (0x80 <=? b) eqn:Hs.
    + rewrite !reverse_app, !reverse_singleton. cbn [app]. rewrite Hs. by rewrite reverse_cons, reverse_involutive.
    + rewrite reverse_app, reverse_singleton. cbn [app]. destruct b; [lia|done..].
  - by apply last_None in Hb as ->.
Qed.
Lemma until_zero_pos b : Forall (λ x, 0 < x) b → until_zero b = b.
Proof. induction 1 as [|x b Hx Hb IH]; [done|]. simpl. rewrite IH. by destruct (Z.eqb_spec x 0); [lia|]. Qed.
Lemma skip_no_spaces b : (∀ c, head b = Some c → isspace c = false) → skip_spaces b = b.
Proof. destruct b as [|c b]; [done|]. intros Hc. simpl. by rewrite (Hc c). Qed.
Lemma digits_ok_reverse base l : digits_ok base l → digits_ok base (reverse l).
Proof. apply Forall_reverse. Qed.

Lemma head_chars c ds : digits_ok 58 ds → head (base58_char <$> ds) = Some c →
  ∃ x, head ds = Some x ∧ c = base58_char x ∧ 0 ≤ x < 58.
Proof. intros Hds Hc. destruct ds as [|x ds]; [done|]. injection Hc as <-. exists x. by inversion Hds. Qed.

(** The text of some bytes: as many ones as there are leading zeros, then the
    digits of the number. *)
Lemma to_base58_chars d : is_bytes d → ∃ ds, to_base58 d =
    bytes_string (base58_char <$> (replicate (leading 0 d) 0 ++ ds)) ∧ digits_ok 58 ds ∧
  (∀ x, head ds = Some x → x ≠ 0) ∧ value 58 (reverse ds) = value 256 (reverse d).
Proof.
  intros Hd. pose proof (value_nonneg 256 ltac:(lia) _ (digits_ok_reverse 256 _ Hd)) as Hv.
  pose proof (value_bound 256 ltac:(lia) _ (digits_ok_reverse 256 _ Hd)) as Hb. rewrite length_reverse in Hb.
  assert (Hfit : value 256 (reverse d) < 58 ^ Z.of_nat (2 * length d)).
  { eapply Z.lt_le_trans; [exact Hb|]. rewrite Nat2Z.inj_mul, Z.pow_mul_r by lia. apply Z.pow_le_mono_l. lia. }
  exists (reverse (digits 58 (2 * length d) (value 256 (reverse d)))).
  split; [|split; [apply digits_ok_reverse, digits_range; lia|split]].
  - unfold to_base58. f_equal. rewrite reverse_app, reverse_replicate, fmap_app, fmap_replicate, fmap_reverse. done.
  - intros x Hx. rewrite head_reverse in Hx. apply digits_last in Hx; [lia|lia|lia].
  - rewrite reverse_involutive. apply value_digits; lia.
Qed.
Lemma decode_base58_chars n ds : digits_ok 58 ds → (∀ x, head ds = Some x → x ≠ 0) →
  DecodeBase58 (base58_char <$> (replicate n 0 ++ ds)) =
  Some (replicate n 0 ++ reverse (digits 256 (n + length ds) (value 58 (reverse ds)))).
Proof.
  intros Hds Hh. assert (Hall : digits_ok 58 (replicate n 0 ++ ds)).
  { apply Forall_app. split; [|done]. apply Forall_replicate. lia. }
  unfold DecodeBase58. rewrite until_zero_pos.
  2: { apply Forall_fmap. eapply Forall_impl; [exact Hall|]. intros x Hx. by apply base58_digit. }
  rewrite skip_no_spaces.
  2: { intros c (x & _ & -> & Hx)%head_chars; [by apply base58_digit|done]. }
  rewrite decode_digits by done. cbn [mbind option_bind]. rewrite reverse_app, value_app, reverse_replicate, value_zeros, length_fmap.
  rewrite Z.mul_0_l, Z.add_0_l, Z.mul_0_r, Z.add_0_r, length_app, length_replicate, fmap_app, fmap_replicate.
  rewrite leading_app, trim_getvch; [done| |].
  - pose proof (value_nonneg 58 ltac:(lia) _ (digits_ok_reverse _ _ Hds)).
    pose proof (value_bound 58 ltac:(lia) _ (digits_ok_reverse _ _ Hds)) as Hb. rewrite length_reverse in Hb.
    split; [done|]. eapply Z.lt_le_trans; [exact Hb|]. rewrite Nat2Z.inj_add.
    transitivity (256 ^ Z.of_nat (length ds)); [apply Z.pow_le_mono_l; lia|apply Z.pow_le_mono_r; lia].
  - intros y (x & Hx & -> & Hr)%head_chars; [|done]. specialize (Hh x Hx).
    intros He%Z.eqb_eq. rewrite (proj2 (proj2 (proj2 (base58_digit x Hr)))) in He. by apply Z.eqb_eq in He.
Qed.
Lemma from_to_base58 d : is_bytes d → from_base58 (to_base58 d) = Ok d.
Proof.
  intros Hd. destruct (to_base58_chars d Hd) as (ds & -> & Hds & Hh & Hv). unfold from_base58.
  rewrite string_bytes_string.
  2: { apply Forall_fmap, Forall_app. split.
       - apply Forall_replicate. vm_compute. done.
       - eapply Forall_impl; [exact Hds|]. intros x Hx. destruct (base58_digit x Hx) as (_ & _ & Hc & _). simpl. lia. }
  rewrite decode_base58_chars by done. rewrite Hv. unfold mret, result_ret. f_equal.
  set (d' := drop (leading 0 d) d). assert (Hsplit : d = replicate (leading 0 d) 0 ++ d') by apply leading_split.
  assert (Hd' : digits_ok 256 (reverse d')) by (apply digits_ok_reverse, Forall_drop, Hd).
  assert (Hvd : value 256 (reverse d) = value 256 (reverse d')).
  { rewrite Hsplit at 1. rewrite reverse_app, value_app, reverse_replicate, value_zeros by lia. lia. }
  transitivity (replicate (leading 0 d) 0 ++ d'); [|done]. f_equal. rewrite Hvd.
  pose proof (value_nonneg 256 ltac:(lia) _ Hd') as Hnn. pose proof (value_bound 256 ltac:(lia) _ Hd') as Hub.
  rewrite (digits_fuel 256 ltac:(lia) _ (length (reverse d'))).
  - rewrite digits_value; [apply reverse_involutive|lia|done|done|]. intros x Hx. rewrite last_reverse in Hx.
    assert (x ≠ 0) by (by eapply leading_head). assert (0 ≤ x < 256); [|lia].
    assert (Hds' : is_bytes d') by (by apply Forall_drop). clearbody d'. destruct Hds' as [|y d' Hy]; [done|].
    by injection Hx as <-.
  - split; [done|]. rewrite <- Hvd, <- Hv.
    pose proof (value_bound 58 ltac:(lia) _ (digits_ok_reverse _ _ Hds)) as Hb. rewrite length_reverse in Hb.
    eapply Z.lt_le_trans; [exact Hb|]. rewrite Nat2Z.inj_add.
    transitivity (256 ^ Z.of_nat (length ds)); [apply Z.pow_le_mono_l; lia|apply Z.pow_le_mono_r; lia].
  - done.
Qed.
End encoding_facts.

(** ** The logarithm *)
Section log_facts.
Import Raw Encoding.

Definition spell (h : bytes) : Z := value 256 (reverse h).
Lemma spell_app h h' : spell (h ++ h') = spell h * 256 ^ Z.of_nat (length h') + spell h'.
Proof. unfold spell. rewrite reverse_app, value_app, length_reverse by lia. lia. Qed.
Lemma spell_cons c h : spell (c :: h) = c * 256 ^ Z.of_nat (length h) + spell h.
Proof. change (c :: h) with ([c] ++ h). rewrite spell_app. unfold spell. simpl. lia. Qed.
Lemma spell_bound h : is_bytes h → 0 ≤ spell h < 256 ^ Z.of_nat (length h).
Proof.
  intros Hh%(digits_ok_reverse 256). unfold spell. split; [by apply value_nonneg|].
  eapply Z.lt_le_trans; [by apply value_bound|]. by rewrite length_reverse.
Qed.
Lemma lz_byte c : 0 < c < 256 → nth (Z.to_nat c) char2lzbits 0 = 7 - Z.log2 c ∧ 0 ≤ Z.log2 c ≤ 7.
Proof.
  intros Hc. assert (Hin : c ∈ seqZ 1 255) by (apply elem_of_seqZ; lia). clear Hc. revert c Hin. apply Forall_forall.
  apply (bool_decide_unpack _). vm_compute. exact I.
Qed.
(** Zero bytes, then the first byte that is not. *)
Lemma clz_split h lz : is_bytes h →
  (h = replicate (length h) 0 ∧ clz_loop h lz = 256) ∨
  ∃ o c t, h = replicate o 0 ++ c :: t ∧ 0 < c < 256 ∧ is_bytes t ∧
    clz_loop h lz = lz + 8 * Z.of_nat o + (7 - Z.log2 c).
Proof.
  intros Hh. revert lz. induction Hh as [|c h Hc Hh IH]; intros lz; [by left|]. cbn [clz_loop].
  destruct (Z.eqb_spec c 0) as [->|Hne].
  - destruct (IH (lz + 8)) as [[He Hl]|(o & c & t & -> & Hc' & Ht & Hl)].
    + left. split; [simpl; by f_equal|done].
    + right. exists (S o), c, t. split; [done|]. split; [done|]. split; [done|]. etrans; [exact Hl|]. lia.
  - right. exists O, c, h. split; [done|]. split; [lia|]. split; [done|]. rewrite (proj1 (lz_byte c ltac:(lia))). lia.
Qed.
(** Four bytes, with zeros beyond the end, are the top of the number. *)
Lemma top_bytes c t : is_bytes (c :: t) →
  Z.lor (Z.lor (Z.lor (Z.shiftl c 24) (Z.shiftl (nth 0 t 0) 16)) (Z.shiftl (nth 1 t 0) 8)) (nth 2 t 0) =
  spell (c :: t) * 2 ^ 24 / 256 ^ Z.of_nat (length t).
Proof.
  intros Hb. set (p := [c; nth 0 t 0; nth 1 t 0; nth 2 t 0]).
  assert (Hp : is_bytes p ∧ ∃ r, c :: t ++ [0; 0; 0] = p ++ r ∧ is_bytes r ∧ length r = length t).
  { inversion Hb as [|?? Hc Ht]; subst. split.
    - assert (Hn : ∀ i, 0 ≤ nth i t 0 < 256).
      { intros i. destruct (nth_in_or_default i t 0) as [Hi| ->]; [|lia].
        apply list_elem_of_In in Hi. by eapply Forall_forall in Ht. }
      by repeat constructor; try apply Hn; try apply Hc.
    - destruct t as [|x [|y [|z t]]]; [exists []|exists [0]|exists [0; 0]|].
      1-3: by repeat (split || constructor).
      exists (t ++ [0; 0; 0]). inversion Ht as [|?? _ Ht1]; subst. inversion Ht1 as [|?? _ Ht2]; subst.
    inversion Ht2 as [|?? _ Ht3]; subst. split; [done|]. split; [|rewrite length_app; simpl; lia].
      apply Forall_app. split; [done|]. repeat constructor; lia. }
  destruct Hp as (Hp & r & Hr & Hrb & Hlen). transitivity (spell p).
  - inversion Hp as [|?? H0 Hp1]; subst. inversion Hp1 as [|?? H1 Hp2]; subst. inversion Hp2 as [|?? H2 Hp3]; subst.
    inversion Hp3 as [|?? H3 _]; subst. rewrite !Z.shiftl_mul_pow2 by lia.
    rewrite lor_add_low by lia.
    replace (c * 2 ^ 24 + nth 0 t 0 * 2 ^ 16) with ((c * 2 ^ 8 + nth 0 t 0) * 2 ^ 16) by lia.
    rewrite lor_add_low by lia.
    replace ((c * 2 ^ 8 + nth 0 t 0) * 2 ^ 16 + nth 1 t 0 * 2 ^ 8)
      with ((c * 2 ^ 16 + nth 0 t 0 * 2 ^ 8 + nth 1 t 0) * 2 ^ 8) by lia.
    rewrite lor_add_low by lia. unfold p, spell. simpl. lia.
  - apply (Z.div_unique_pos _ _ (spell p) (spell r)); [rewrite <- Hlen; by apply spell_bound|].
    transitivity (spell ((c :: t) ++ [0; 0; 0])); [rewrite spell_app; unfold spell at 3; simpl; lia|].
    cbn [app]. rewrite Hr, spell_app, Hlen. lia.
Qed.
Lemma lxor_top r k : 0 ≤ k → 0 ≤ r < 2 ^ k → Z.lxor (2 ^ k + r) (2 ^ k) = r.
Proof.
  intros Hk Hr. pose proof (lor_add_low 1 r k Hk Hr) as Hl. rewrite Z.mul_1_l in Hl.
  pose proof (Z.add_lor_land (2 ^ k) r) as Ha. rewrite Z.add_nocarry_lxor by lia.
  rewrite Z.lxor_comm, <- Z.lxor_assoc, Z.lxor_nilpotent, Z.lxor_0_l. done.
Qed.
Lemma log2_bytes c t : 0 < c < 256 → is_bytes t → Z.log2 (spell (c :: t)) = 8 * Z.of_nat (length t) + Z.log2 c.
Proof.
  intros Hc Ht. pose proof (Z.log2_nonneg c). destruct (Z.log2_spec c ltac:(lia)) as [Hl Hu].
  assert (H256 : 256 ^ Z.of_nat (length t) = 2 ^ (8 * Z.of_nat (length t))) by (rewrite Z.pow_mul_r by lia; done).
  pose proof (spell_bound t Ht) as Hb. rewrite H256 in Hb. apply Z.log2_unique; [lia|]. rewrite spell_cons, H256.
  rewrite Z.pow_succ_r, Z.pow_add_r in * by lia. nia.
Qed.
(** The logarithm of a hash: how many bits follow the first one, and the 24
    bits that come next. *)
Lemma approx_log_32_value h : is_bytes h → length h = 32%nat → 0 < spell h →
  let n := Z.log2 (spell h) in
  approx_log_32 h = n * 2 ^ 24 + (spell h * 2 ^ 24 / 2 ^ n - 2 ^ 24) ∧ 2 ^ 24 ≤ spell h * 2 ^ 24 / 2 ^ n < 2 ^ 25.
Proof.
  intros Hh Hlen Hpos n. unfold approx_log_32, clz.
  destruct (clz_split h 0 Hh) as [[He _]|(o & c & t & He & Hc & Ht & ->)].
  { exfalso. rewrite He in Hpos. unfold spell in Hpos. rewrite reverse_replicate, value_zeros in Hpos. lia. }
  assert (Hlt : (o + S (length t) = 32)%nat) by (rewrite <- Hlen, He, length_app, length_replicate; done).
  assert (Hsp : spell h = spell (c :: t)).
  { rewrite He, spell_app. unfold spell at 1. rewrite reverse_replicate, value_zeros. lia. }
  destruct (lz_byte c Hc) as [_ Hk]. set (k := Z.log2 c) in *.
  assert (Hn : n = 8 * Z.of_nat (length t) + k) by (unfold n; rewrite Hsp; by apply log2_bytes).
  assert (Hnz : 255 - (0 + 8 * Z.of_nat o + (7 - k)) = n) by lia.
  assert (Hoff : Z.to_nat (Z.shiftr (0 + 8 * Z.of_nat o + (7 - k)) 3) = o).
  { rewrite Z.shiftr_div_pow2 by lia. rewrite <- (Z.div_unique_pos _ (2 ^ 3) (Z.of_nat o) (7 - k)) by lia. lia. }
  assert (Hlow : Z.land n 7 = k).
  { rewrite (Z.land_ones n 3 ltac:(lia) : Z.land n 7 = _). symmetry.
    apply (Z.mod_unique_pos _ _ (Z.of_nat (length t))); lia. }
  assert (Hnth : ∀ i, nth (o + i) h 0 = nth i (c :: t) 0).
  { intros i. rewrite He, app_nth2; rewrite length_replicate; [f_equal|]; lia. }
  rewrite (proj2 (Z.leb_gt _ _)) by lia. rewrite Hnz, Hoff, Hlow. cbv zeta.
  rewrite <- (Nat.add_0_r o) at 1. rewrite !Hnth. cbn [nth]. rewrite top_bytes by (constructor; [lia|done]).
  assert (Hdiv : Z.shiftr (spell (c :: t) * 2 ^ 24 / 256 ^ Z.of_nat (length t)) k = spell h * 2 ^ 24 / 2 ^ n).
  { rewrite Z.shiftr_div_pow2, Z.div_div, Hsp, Hn, Z.pow_add_r, Z.pow_mul_r by lia. done. }
  rewrite Hdiv. destruct (Z.log2_spec (spell h) Hpos) as [Hl Hu]. fold n in Hl, Hu. rewrite Z.pow_succ_r in Hu by lia.
  assert (0 < 2 ^ n) by (apply Z.pow_pos_nonneg; lia).
  assert (Hr : 2 ^ 24 ≤ spell h * 2 ^ 24 / 2 ^ n < 2 ^ 25).
  { split; [apply Z.div_le_lower_bound; lia|apply Z.div_lt_upper_bound; lia]. }
  split; [|done]. set (y := spell h * 2 ^ 24 / 2 ^ n) in *. replace y with (2 ^ 24 + (y - 2 ^ 24)) at 1 by lia.
  change (Z.shiftl 1 24) with (2 ^ 24). rewrite lxor_top, Z.lor_comm, Z.shiftl_mul_pow2, lor_add_low by lia. lia.
Qed.
Lemma spell_zero h : is_bytes h → spell h = 0 → h = replicate (length h) 0.
Proof.
  intros Hh Hz. destruct (clz_split h 0 Hh) as [[He _]|(o & c & t & He & Hc & Ht & _)]; [done|exfalso].
  rewrite He, spell_app, spell_cons in Hz. pose proof (spell_bound t Ht).
  pose proof (spell_bound (replicate o 0) ltac:(apply Forall_replicate; lia)).
  assert (0 < 256 ^ Z.of_nat (length t)) by (apply Z.pow_pos_nonneg; lia).
  assert (0 < 256 ^ Z.of_nat (length (c :: t))) by (apply Z.pow_pos_nonneg; lia). nia.
Qed.
End log_facts.

Lemma log_of_zero h : is_bytes h → length h = 32%nat → spell h = 0 → Encoding.approx_log_32 h = 0.
Proof. intros Hh Hlen Hz%spell_zero; [|done]. by rewrite Hz, Hlen. Qed.
Lemma log_range h : is_bytes h → length h = 32%nat → 0 ≤ Encoding.approx_log_32 h < 2 ^ 32.
Proof.
  intros Hh Hlen. pose proof (spell_bound h Hh) as Hb. rewrite Hlen in Hb. change (256 ^ Z.of_nat 32) with (2 ^ 256) in Hb.
  destruct (decide (spell h = 0)) as [Hz|Hnz]; [by rewrite log_of_zero|].
  destruct (approx_log_32_value h Hh Hlen ltac:(lia)) as [-> Hr]. pose proof (Z.log2_nonneg (spell h)).
  assert (Z.log2 (spell h) < 256) by (apply Z.log2_lt_pow2; lia). lia.
Qed.

(** What miners compare.  The 32-bit summary of a 256-bit hash is, for a
    hash that is not zero, the position of its first bit in the top 8 bits and
    the 24 bits that follow it below (zeros beyond the end), it fits 32 bits,
    and it never orders two hashes the other way round: a hash below the target
    has a summary that is not above the target's. *)
Theorem hash_log_exact_and_monotone (h h' : bytes) :
  is_bytes h → length h = 32%nat → is_bytes h' → length h' = 32%nat →
  (0 < spell h → let n := Z.log2 (spell h) in
     Encoding.approx_log_32 h = n * 2 ^ 24 + (spell h * 2 ^ 24 / 2 ^ n - 2 ^ 24)) ∧
  0 ≤ Encoding.approx_log_32 h < 2 ^ 32 ∧
  (spell h ≤ spell h' → Encoding.approx_log_32 h ≤ Encoding.approx_log_32 h').
Proof.
  intros Hh Hl Hh' Hl'. split; [intros Hpos; by apply approx_log_32_value|]. split; [by apply log_range|].
  intros Hle. destruct (decide (spell h = 0)) as [Hz|Hnz].
  { rewrite (log_of_zero h) by done. by apply log_range. }
  pose proof (spell_bound h Hh) as Hb.
  destruct (approx_log_32_value h Hh Hl ltac:(lia)) as [-> Hr], (approx_log_32_value h' Hh' Hl' ltac:(lia)) as [-> Hr'].
  assert (Hlog : Z.log2 (spell h) ≤ Z.log2 (spell h')) by (apply Z.log2_le_mono; lia).
  destruct (decide (Z.log2 (spell h) = Z.log2 (spell h'))) as [He|Hne]; [|lia]. rewrite He in *.
  assert (spell h * 2 ^ 24 / 2 ^ Z.log2 (spell h') ≤ spell h' * 2 ^ 24 / 2 ^ Z.log2 (spell h')); [|lia].
  apply Z.div_le_mono; [apply Z.pow_pos_nonneg; [lia|apply Z.log2_nonneg]|lia].
Qed.
Lemma hash_log_exact_and_monotone_witness :
  Encoding.approx_log_32 (replicate 4 0 ++ replicate 28 200) ≤ Encoding.approx_log_32 (replicate 3 0 ++ replicate 29 7).
Proof.
  refine (proj2 (proj2 (hash_log_exact_and_monotone (replicate 4 0 ++ replicate 28 200) (replicate 3 0 ++ replicate 29 7)
    _ eq_refl _ eq_refl)) _);
    [apply (bool_decide_unpack _); vm_compute; exact I..|vm_compute; discriminate].
Defined.

(** Base 58 is read back: the text that is made of any bytes, leading zeros
    included, decodes to these bytes, also into a buffer of just their size. *)
Theorem base58_roundtrip (d : bytes) : is_bytes d →
  Encoding.from_base58 (Encoding.to_base58 d) = Ok d ∧
  Encoding.from_base58_into (Encoding.to_base58 d) (length d) = Ok d.
Proof.
  intros Hd. split; [by apply from_to_base58|]. unfold Encoding.from_base58_into.
  rewrite from_to_base58, bind_Ok by done. by rewrite Nat.leb_refl.
Qed.
Lemma base58_roundtrip_witness : Encoding.to_base58 [0; 0; 255; 88] = "11LS3"%string ∧
  Encoding.from_base58 "11LS3" = Ok [0; 0; 255; 88].
Proof.
  split; [by vm_compute|]. apply (base58_roundtrip [0; 0; 255; 88]). apply (bool_decide_unpack _). vm_compute. exact I.
Defined.
