(* ===== verification/Protocol.v ===== *)
(** * Protocol data: authorities, operations, transactions, blocks

    libraries/protocol: the operation structures, their [validate] functions,
    the authorities each of them asks for, and the transaction and block
    records built from them.  Cryptographic primitives, UTF-8 and JSON checks
    are the fields of [Env]. *)
From S2P Require Import Prelude Safe Asset.

(** ** Basic types

    Names are strings; a public key is the integer of its serialized bytes;
    [fc::ripemd160] values are lists of their 32-bit words; times are seconds. *)
Definition wallet_name_type := string.
Definition public_key_type := Z.
Definition signature_type := Z.
Definition time_point_sec := Z.
Definition block_id_type := list Z.
Definition transaction_id_type := list Z.
Definition checksum_type := list Z.
Definition digest_type := Z.
Definition weight_type := Z.

Definition null_block_id : block_id_type := replicate 5 0.

Definition XGT_100_PERCENT : Z := 10000.
Definition XGT_1_PERCENT : Z := XGT_100_PERCENT / 100.
Definition XGT_MAX_AUTHORITY_MEMBERSHIP : Z := 40.
Definition XGT_MAX_SIG_CHECK_DEPTH : Z := 2.
Definition XGT_MAX_SIG_CHECK_WALLETS : Z := 125.
Definition XGT_MAX_MEMO_SIZE : nat := 2048.
Definition XGT_MAX_PERMLINK_LENGTH : nat := 256.
Definition XGT_MAX_WITNESS_URL_LENGTH : nat := 2048.
Definition XGT_COMMENT_TITLE_LIMIT : nat := 256.
Definition XGT_CUSTOM_OP_ID_MAX_LENGTH : nat := 32.
Definition XGT_MIN_WALLET_CREATION_FEE : Z := 0.
Definition XGT_MIN_BLOCK_SIZE_LIMIT : Z := 1024 * 64.
Definition XGT_GENESIS_TIME : time_point_sec := 1586840015.
Definition XGT_BLOCK_INTERVAL : Z := 5.
Definition XTT_MAX_UNIT_ROUTES : nat := 10.
Definition XTT_MAX_UNIT_COUNT : nat := 20.
Definition XTT_MAX_NOMINAL_VOTES_PER_DAY : Z := 1000.
Definition XTT_MAX_VOTABLE_ASSETS : nat := 2.
Definition XTT_MAX_ICO_TIERS : Z := 10.
Definition XGT_SYMBOL_STR : string := "XGT".

(** ** Authorities

    A [flat_map] is the list of its entries in key order. *)
Record authority := mkAuthority {
  weight_threshold : Z;
  wallet_auths : list (wallet_name_type * weight_type);
  key_auths : list (public_key_type * weight_type)
}.
#[export] Instance authority_eq_dec : EqDecision authority.
Proof. solve_decision. Defined.

Module Authority.
(** Ordered insertion into a [flat_map]: an existing key is overwritten. *)
Fixpoint flat_insert {K V} `{EqDecision K} (ltb : K → K → bool) (k : K) (v : V)
    (l : list (K * V)) : list (K * V) :=
  match l with
  | [] => [(k, v)]
  | (k', v') :: l' =>
      if bool_decide (k = k') then (k, v) :: l'
      else if ltb k k' then (k, v) :: l
      else (k', v') :: flat_insert ltb k v l'
  end.

Definition add_key_authority (k : public_key_type) (w : weight_type) (a : authority) : authority :=
  mkAuthority (weight_threshold a) (wallet_auths a) (flat_insert Z.ltb k w (key_auths a)).
Definition add_wallet_authority (k : wallet_name_type) (w : weight_type) (a : authority) : authority :=
  mkAuthority (weight_threshold a) (flat_insert String.ltb k w (wallet_auths a)) (key_auths a).

Definition get_keys (a : authority) : list public_key_type := (key_auths a).*1.

Definition sum_weights {K} (l : list (K * Z)) : Z := fold_left (λ s x, u64 (s + x.2)) l 0.
Definition is_impossible (a : authority) : bool :=
  fold_left (λ s x, u64 (s + x.2)) (key_auths a) (sum_weights (wallet_auths a)) <? weight_threshold a.
Definition num_auths (a : authority) : Z :=
  u32 (Z.of_nat (length (wallet_auths a) + length (key_auths a))).
Definition clear (a : authority) : authority := mkAuthority (weight_threshold a) [] [].

(** The name check is switched off in the source: it accepts every name. *)
Definition is_valid_wallet_name (name : string) : bool := true.

Definition validate (a : authority) : result unit :=
  for_each (wallet_auths a) (λ item, fc_assert (is_valid_wallet_name item.1)).
End Authority.

(** ** Versions *)
Definition version := Z.
Module Version.
Definition make (m h r : Z) : version :=
  let v := u32 (Z.shiftl m 8) in
  let v := u32 (Z.shiftl (Z.lor v h) 16) in
  Z.lor v r.
Definition major_v (v : version) : Z := Z.shiftr (Z.land v 0xFF000000) 24.
Definition minor_v (v : version) : Z := Z.shiftr (Z.land v 0x00FF0000) 16.
Definition rev_v (v : version) : Z := Z.land v 0x0000FFFF.
Definition hardfork_of (v : version) : version := Z.land v 0xFFFF0000.
(** [from_variant] after the stream extraction of the three numbers. *)
Definition from_parts (major hardfork revision : Z) : result version :=
  fc_assert (major <=? 0xFF) ;; fc_assert (hardfork <=? 0xFF) ;; fc_assert (revision <=? 0xFFFF) ;;
  mret (Z.lor (Z.lor (u32 (Z.shiftl major 24)) (u32 (Z.shiftl hardfork 16))) revision).
End Version.
Record hardfork_version_vote := mkHfVote { hf_version : version; hf_time : time_point_sec }.

(** ** Automated actions and block headers *)
Inductive required_automated_action :=
| xtt_ico_launch_action (control_account : wallet_name_type) (sym : asset_symbol_type)
| xtt_ico_evaluation_action (control_account : wallet_name_type) (sym : asset_symbol_type)
| xtt_token_launch_action (control_account : wallet_name_type) (sym : asset_symbol_type)
| xtt_refund_action (contributor : wallet_name_type) (sym : asset_symbol_type)
    (contribution_id : Z) (refund : asset)
| example_required_action (account : wallet_name_type).
#[export] Instance required_action_eq_dec : EqDecision required_automated_action.
Proof. solve_decision. Defined.

Inductive optional_automated_action :=
| example_optional_action (wallet : wallet_name_type).

Inductive block_header_extension :=
| ext_void
| ext_version (v : version)
| ext_hardfork_vote (v : hardfork_version_vote)
| ext_required_actions (l : list required_automated_action)
| ext_optional_actions (l : list optional_automated_action).

Record signed_block_header := mkHeader {
  previous : block_id_type;
  timestamp : time_point_sec;
  witness : wallet_name_type;
  transaction_merkle_root : checksum_type;
  header_extensions : list block_header_extension;
  witness_signature : signature_type
}.

(** ** Operations *)
Record legacy_xgt_asset := mkLegacyAsset { legacy_amount : Z; legacy_ser : Z }.
Record legacy_chain_properties := mkProps {
  account_creation_fee : legacy_xgt_asset;
  maximum_block_size : Z
}.

(** [flat_set< future_extensions >], where the only extension is [void_t]. *)
Definition extensions_type := list unit.
Record wallet_create_operation := mkWalletCreate {
  wc_fee : asset;
  wc_creator : wallet_name_type;
  wc_new_wallet_name : wallet_name_type;
  wc_recovery : authority;
  wc_money : authority;
  wc_social : authority;
  wc_memo_key : public_key_type;
  wc_json_metadata : string
}.
Record wallet_update_operation := mkWalletUpdate {
  wu_wallet : wallet_name_type;
  wu_recovery : option authority;
  wu_money : option authority;
  wu_social : option authority;
  wu_memo_key : option public_key_type;
  wu_json_metadata : string;
  wu_social_json_metadata : string;
  wu_extensions : extensions_type
}.
Record comment_operation := mkComment {
  co_parent_author : wallet_name_type;
  co_parent_permlink : string;
  co_author : wallet_name_type;
  co_permlink : string;
  co_title : string;
  co_body : string;
  co_json_metadata : string
}.
Record comment_options_operation := mkCommentOptions {
  cop_author : wallet_name_type; cop_permlink : string; cop_allow_votes : bool
}.
Record delete_comment_operation := mkDeleteComment {
  dc_author : wallet_name_type; dc_permlink : string
}.
Record vote_operation := mkVote {
  vo_voter : wallet_name_type; vo_author : wallet_name_type; vo_permlink : string; vo_extensions : extensions_type
}.
Record transfer_operation := mkTransfer {
  tr_from : wallet_name_type; tr_to : wallet_name_type; tr_amount : asset; tr_memo : string
}.
Record escrow_transfer_operation := mkEscrowTransfer {
  et_from : wallet_name_type;
  et_to : wallet_name_type;
  et_agent : wallet_name_type;
  et_escrow_id : Z;
  et_xgt_amount : asset;
  et_fee : asset;
  et_ratification_deadline : time_point_sec;
  et_escrow_expiration : time_point_sec;
  et_json_meta : string
}.
Record escrow_approve_operation := mkEscrowApprove {
  ea_from : wallet_name_type;
  ea_to : wallet_name_type;
  ea_agent : wallet_name_type;
  ea_who : wallet_name_type;
  ea_escrow_id : Z;
  ea_approve : bool
}.
Record escrow_dispute_operation := mkEscrowDispute {
  ed_from : wallet_name_type;
  ed_to : wallet_name_type;
  ed_agent : wallet_name_type;
  ed_who : wallet_name_type;
  ed_escrow_id : Z
}.
Record escrow_release_operation := mkEscrowRelease {
  er_from : wallet_name_type;
  er_to : wallet_name_type;
  er_agent : wallet_name_type;
  er_who : wallet_name_type;
  er_receiver : wallet_name_type;
  er_escrow_id : Z;
  er_xgt_amount : asset
}.
Record witness_update_operation := mkWitnessUpdate {
  wiu_owner : wallet_name_type;
  wiu_url : string;
  wiu_block_signing_key : public_key_type;
  wiu_props : legacy_chain_properties;
  wiu_fee : asset
}.
Record custom_operation := mkCustom {
  cu_required_auths : list wallet_name_type; cu_id : Z; cu_data : list Z
}.
Record custom_json_operation := mkCustomJson {
  cj_required_auths : list wallet_name_type;
  cj_required_social_auths : list wallet_name_type;
  cj_id : string;
  cj_json : string
}.
Record pow_input := mkPowInput {
  worker_account : wallet_name_type; prev_block : block_id_type; nonce : Z
}.
Inductive pow_work :=
| work_pow (input : pow_input) (pow_summary : Z)
| work_sha2_pow (input : pow_input) (proof : Z) (prev : block_id_type) (pow_summary : Z).
Record pow_operation := mkPow {
  work : pow_work;
  new_recovery_key : option public_key_type;
  pow_props : legacy_chain_properties
}.
Record report_over_production_operation := mkReport {
  reporter : wallet_name_type; first_block : signed_block_header; second_block : signed_block_header
}.
Record request_wallet_recovery_operation := mkRequestRecovery {
  rr_recovery_account : wallet_name_type;
  rr_account_to_recover : wallet_name_type;
  rr_new_recovery_authority : authority;
  rr_extensions : extensions_type
}.
Record recover_wallet_operation := mkRecover {
  rw_account_to_recover : wallet_name_type;
  rw_new_recovery_authority : authority;
  rw_recent_recovery_authority : authority;
  rw_extensions : extensions_type
}.
Record change_recovery_wallet_operation := mkChangeRecovery {
  cr_account_to_recover : wallet_name_type; cr_new_recovery_account : wallet_name_type;
  cr_extensions : extensions_type
}.
Record contract_create_operation := mkContractCreate {
  cc_owner : wallet_name_type; cc_code : list Z
}.
Record contract_invoke_operation := mkContractInvoke {
  ci_caller : wallet_name_type; ci_contract_hash : list Z; ci_args : list (list Z)
}.

(** XTT (user-issued token) operations. *)
Record xtt_create_operation := mkXttCreate {
  xc_control_account : wallet_name_type;
  xc_symbol : asset_symbol_type;
  xc_desired_ticker : string;
  xc_creation_fee : asset;
  xc_precision : Z;
  xc_extensions : extensions_type
}.
Record xtt_generation_unit := mkUnit {
  xgt_unit : list (string * Z); token_unit : list (string * Z)
}.
(** The only alternative of the variant [xtt_generation_policy]. *)
Record xtt_capped_generation_policy := mkPolicy {
  gp_generation_unit : xtt_generation_unit; gp_extensions : extensions_type
}.
Record xtt_setup_operation := mkXttSetup {
  xs_control_account : wallet_name_type;
  xs_symbol : asset_symbol_type;
  xs_max_supply : Z;
  xs_contribution_begin_time : time_point_sec;
  xs_contribution_end_time : time_point_sec;
  xs_launch_time : time_point_sec;
  xs_xgt_units_min : Z;
  xs_min_unit_ratio : Z;
  xs_max_unit_ratio : Z;
  xs_extensions : extensions_type
}.
Record xtt_setup_ico_tier_operation := mkIcoTier {
  xi_control_account : wallet_name_type;
  xi_symbol : asset_symbol_type;
  xi_xgt_units_cap : Z;
  xi_generation_policy : xtt_capped_generation_policy;
  xi_remove : bool;
  xi_extensions : extensions_type
}.
Inductive xtt_setup_parameter := xtt_param_allow_voting (value : bool).
Inductive xtt_runtime_parameter :=
| xtt_param_windows_v1 (reverse_auction_window_seconds : Z)
| xtt_param_vote_regeneration_period_seconds_v1
    (vote_regeneration_period_seconds votes_per_regeneration_period : Z)
| xtt_param_allow_downvotes (value : bool).
Record xtt_set_setup_parameters_operation := mkSetupParams {
  xp_control_account : wallet_name_type;
  xp_symbol : asset_symbol_type;
  xp_setup_parameters : list xtt_setup_parameter;
  xp_extensions : extensions_type
}.
Record xtt_set_runtime_parameters_operation := mkRuntimeParams {
  xr_control_account : wallet_name_type;
  xr_symbol : asset_symbol_type;
  xr_runtime_parameters : list xtt_runtime_parameter;
  xr_extensions : extensions_type
}.
Record xtt_contribute_operation := mkContribute {
  xo_contributor : wallet_name_type;
  xo_symbol : asset_symbol_type;
  xo_contribution_id : Z;
  xo_contribution : asset;
  xo_extensions : extensions_type
}.

Inductive operation :=
| op_comment (o : comment_operation)
| op_transfer (o : transfer_operation)
| op_wallet_create (o : wallet_create_operation)
| op_wallet_update (o : wallet_update_operation)
| op_witness_update (o : witness_update_operation)
| op_custom (o : custom_operation)
| op_report_over_production (o : report_over_production_operation)
| op_delete_comment (o : delete_comment_operation)
| op_custom_json (o : custom_json_operation)
| op_comment_options (o : comment_options_operation)
| op_request_wallet_recovery (o : request_wallet_recovery_operation)
| op_recover_wallet (o : recover_wallet_operation)
| op_change_recovery_wallet (o : change_recovery_wallet_operation)
| op_escrow_transfer (o : escrow_transfer_operation)
| op_escrow_dispute (o : escrow_dispute_operation)
| op_escrow_release (o : escrow_release_operation)
| op_pow (o : pow_operation)
| op_escrow_approve (o : escrow_approve_operation)
| op_vote (o : vote_operation)
| op_xtt_setup (o : xtt_setup_operation)
| op_xtt_setup_ico_tier (o : xtt_setup_ico_tier_operation)
| op_xtt_set_setup_parameters (o : xtt_set_setup_parameters_operation)
| op_xtt_set_runtime_parameters (o : xtt_set_runtime_parameters_operation)
| op_xtt_create (o : xtt_create_operation)
| op_xtt_contribute (o : xtt_contribute_operation)
| op_shutdown_witness (recovery : wallet_name_type)
| op_hardfork (hardfork_id : Z)
| op_clear_null_wallet_balance (total_cleared : list asset)
| op_contract_create (o : contract_create_operation)
| op_contract_invoke (o : contract_invoke_operation).

(** ** Transactions and blocks *)
Record signed_transaction := mkTx {
  ref_block_num : Z;
  ref_block_prefix : Z;
  expiration : time_point_sec;
  operations : list operation;
  tx_extensions : extensions_type;
  signatures : list signature_type
}.
Record signed_block := mkBlock {
  header : signed_block_header;
  transactions : list signed_transaction
}.

(** ** External code: text checks, hashing, signatures *)
Inductive canonical_signature_type := non_canonical | bip_0062 | fc_canonical.
Class Env := {
  is_utf8 : string → bool;
  json_is_valid : string → bool;
  (** [fc::sha256] of a work input, hashed twice, and [approx_log_32] *)
  sha256_twice : pow_input → Z;
  approx_log_32 : Z → Z;
  (** the summary computed by [pow::create] *)
  pow_create_summary : pow_input → result Z;
  (** [fc::sha224] of a signed header: seven 32-bit words *)
  sha224_header : signed_block_header → list Z;
  header_signee : signed_block_header → result public_key_type;
  (** [fc::sha256] of a transaction, of a pair of digests, and
      [fc::ripemd160] of a digest *)
  tx_id : signed_transaction → transaction_id_type;
  tx_merkle_digest : signed_transaction → digest_type;
  hash_pair : digest_type → digest_type → digest_type;
  hash_root : digest_type → checksum_type;
  (** key recovery from a signature over the transaction's digest; signatures
      that are not canonical are refused *)
  recover_key : canonical_signature_type → signed_transaction → signature_type → result public_key_type;
  (** [wallet_create_operation::get_wallet_name( keys )] *)
  wallet_name_of_keys : list public_key_type → wallet_name_type;
  (** [fc::raw::pack_size] *)
  tx_pack_size : signed_transaction → Z;
  block_pack_size : signed_block → Z
}.

(** ** Validation: [operation::validate] of every operation *)
Module Validate.
Section with_env.
Context `{Env}.

Definition is_asset_type (a : asset) (s : asset_symbol_type) : bool := symbol a =? s.
Definition validate_wallet_name (name : wallet_name_type) : result unit :=
  fc_assert (Authority.is_valid_wallet_name name).
Definition validate_permlink (permlink : string) : result unit :=
  fc_assert (String.length permlink <? XGT_MAX_PERMLINK_LENGTH)%nat ;;
  fc_assert (is_utf8 permlink).
Definition validate_xtt_symbol (s : asset_symbol_type) : result unit :=
  AssetSymbol.validate s ;;
  fc_assert (match AssetSymbol.space s with AssetSymbol.xtt_nai_space => true | _ => false end).
Definition validate_auth_size (a : authority) : result unit :=
  fc_assert (Z.of_nat (length (wallet_auths a) + length (key_auths a)) <=? XGT_MAX_AUTHORITY_MEMBERSHIP).

Definition nonempty (s : string) : bool := (0 <? String.length s)%nat.
Definition check_json (s : string) : result unit :=
  when (nonempty s) (fc_assert (is_utf8 s) ;; fc_assert (json_is_valid s)).
(** [fee >= asset( 0, XGT_SYMBOL )] asserts the symbol inside the comparison. *)
Definition nonneg_xgt (a : asset) : result unit :=
  b ← Asset.ge a (mkAsset 0 XGT_SYMBOL); fc_assert b.

Definition is_canon (a : legacy_xgt_asset) : bool := legacy_ser a =? XGT_SYMBOL_SER.
Definition validate_props (force_canon : bool) (p : legacy_chain_properties) : result unit :=
  when force_canon (fc_assert (is_canon (account_creation_fee p))) ;;
  fc_assert (XGT_MIN_WALLET_CREATION_FEE <=? legacy_amount (account_creation_fee p)) ;;
  fc_assert (XGT_MIN_BLOCK_SIZE_LIMIT <=? maximum_block_size p).

Definition wallet_create (o : wallet_create_operation) : result unit :=
  fc_assert (is_asset_type (wc_fee o) XGT_SYMBOL) ;;
  Authority.validate (wc_recovery o) ;;
  Authority.validate (wc_money o) ;;
  check_json (wc_json_metadata o) ;;
  nonneg_xgt (wc_fee o).

Definition wallet_update (o : wallet_update_operation) : result unit :=
  validate_wallet_name (wu_wallet o) ;;
  check_json (wu_json_metadata o) ;;
  check_json (wu_social_json_metadata o).

Definition comment (o : comment_operation) : result unit :=
  fc_assert (String.length (co_title o) <? XGT_COMMENT_TITLE_LIMIT)%nat ;;
  fc_assert (is_utf8 (co_title o)) ;;
  fc_assert (nonempty (co_body o)) ;;
  fc_assert (is_utf8 (co_body o)) ;;
  when (nonempty (co_parent_author o)) (validate_wallet_name (co_parent_author o)) ;;
  validate_wallet_name (co_author o) ;;
  validate_permlink (co_parent_permlink o) ;;
  validate_permlink (co_permlink o) ;;
  when (nonempty (co_json_metadata o)) (fc_assert (json_is_valid (co_json_metadata o))).

Definition comment_options (o : comment_options_operation) : result unit :=
  validate_wallet_name (cop_author o) ;; validate_permlink (cop_permlink o).
Definition delete_comment (o : delete_comment_operation) : result unit :=
  validate_permlink (dc_permlink o) ;; validate_wallet_name (dc_author o).
Definition vote (o : vote_operation) : result unit :=
  validate_wallet_name (vo_voter o) ;; validate_wallet_name (vo_author o) ;;
  validate_permlink (vo_permlink o).

Definition transfer (o : transfer_operation) : result unit :=
  validate_wallet_name (tr_from o) ;;
  fc_assert (0 <? amount (tr_amount o)) ;;
  fc_assert (String.length (tr_memo o) <? XGT_MAX_MEMO_SIZE)%nat ;;
  fc_assert (is_utf8 (tr_memo o)).

Definition witness_update (o : witness_update_operation) : result unit :=
  validate_wallet_name (wiu_owner o) ;;
  fc_assert (String.length (wiu_url o) <=? XGT_MAX_WITNESS_URL_LENGTH)%nat ;;
  fc_assert (nonempty (wiu_url o)) ;;
  fc_assert (is_utf8 (wiu_url o)) ;;
  nonneg_xgt (wiu_fee o) ;;
  validate_props false (wiu_props o).

Definition custom (o : custom_operation) : result unit :=
  fc_assert (0 <? length (cu_required_auths o))%nat.
Definition custom_json (o : custom_json_operation) : result unit :=
  fc_assert (0 <? length (cj_required_auths o) + length (cj_required_social_auths o))%nat ;;
  fc_assert (String.length (cj_id o) <=? XGT_CUSTOM_OP_ID_MAX_LENGTH)%nat ;;
  fc_assert (is_utf8 (cj_json o)) ;;
  fc_assert (json_is_valid (cj_json o)).

(** [sha2_pow::is_valid] *)
Definition sha2_pow_is_valid (input : pow_input) (proof pow_summary : Z) : bool :=
  (proof =? sha256_twice input) && (pow_summary =? approx_log_32 proof).
Definition validate_work (w : pow_work) : result unit :=
  match w with
  | work_pow input summary =>
      validate_wallet_name (worker_account input) ;;
      expected ← pow_create_summary input;
      fc_assert (summary =? expected)
  | work_sha2_pow input proof _ summary =>
      validate_wallet_name (worker_account input) ;;
      fc_assert (sha2_pow_is_valid input proof summary)
  end.
Definition pow (o : pow_operation) : result unit :=
  validate_props true (pow_props o) ;; validate_work (work o).

(** [signed_block_header::id()] compared as word lists: see [Block.id]. *)
Definition report_over_production (block_id : signed_block_header → block_id_type)
    (o : report_over_production_operation) : result unit :=
  validate_wallet_name (reporter o) ;;
  validate_wallet_name (witness (first_block o)) ;;
  fc_assert (bool_decide (witness (first_block o) = witness (second_block o))) ;;
  fc_assert (timestamp (first_block o) =? timestamp (second_block o)) ;;
  first_signee ← header_signee (first_block o);
  second_signee ← header_signee (second_block o);
  fc_assert (first_signee =? second_signee) ;;
  fc_assert (negb (bool_decide (block_id (first_block o) = block_id (second_block o)))).

Definition escrow_transfer (o : escrow_transfer_operation) : result unit :=
  validate_wallet_name (et_from o) ;;
  validate_wallet_name (et_to o) ;;
  validate_wallet_name (et_agent o) ;;
  fc_assert (0 <=? amount (et_fee o)) ;;
  fc_assert (0 <=? amount (et_xgt_amount o)) ;;
  fc_assert (0 <? amount (et_xgt_amount o)) ;;
  fc_assert (negb (bool_decide (et_from o = et_agent o)) && negb (bool_decide (et_to o = et_agent o))) ;;
  fc_assert (symbol (et_fee o) =? XGT_SYMBOL) ;;
  fc_assert (symbol (et_xgt_amount o) =? XGT_SYMBOL) ;;
  fc_assert (et_ratification_deadline o <? et_escrow_expiration o) ;;
  check_json (et_json_meta o).

Definition escrow_approve (o : escrow_approve_operation) : result unit :=
  validate_wallet_name (ea_from o) ;; validate_wallet_name (ea_to o) ;;
  validate_wallet_name (ea_agent o) ;; validate_wallet_name (ea_who o) ;;
  fc_assert (bool_decide (ea_who o = ea_to o) || bool_decide (ea_who o = ea_agent o)).

Definition escrow_dispute (o : escrow_dispute_operation) : result unit :=
  validate_wallet_name (ed_from o) ;; validate_wallet_name (ed_to o) ;;
  validate_wallet_name (ed_agent o) ;; validate_wallet_name (ed_who o) ;;
  fc_assert (bool_decide (ed_who o = ed_from o) || bool_decide (ed_who o = ed_to o)).

Definition escrow_release (o : escrow_release_operation) : result unit :=
  validate_wallet_name (er_from o) ;; validate_wallet_name (er_to o) ;;
  validate_wallet_name (er_agent o) ;; validate_wallet_name (er_who o) ;;
  validate_wallet_name (er_receiver o) ;;
  fc_assert (bool_decide (er_who o = er_from o) || bool_decide (er_who o = er_to o) ||
             bool_decide (er_who o = er_agent o)) ;;
  fc_assert (bool_decide (er_receiver o = er_from o) || bool_decide (er_receiver o = er_to o)) ;;
  fc_assert (0 <=? amount (er_xgt_amount o)) ;;
  fc_assert (0 <? amount (er_xgt_amount o)) ;;
  fc_assert (symbol (er_xgt_amount o) =? XGT_SYMBOL).

Definition request_wallet_recovery (o : request_wallet_recovery_operation) : result unit :=
  validate_wallet_name (rr_recovery_account o) ;;
  validate_wallet_name (rr_account_to_recover o) ;;
  Authority.validate (rr_new_recovery_authority o).

Definition recover_wallet (o : recover_wallet_operation) : result unit :=
  validate_wallet_name (rw_account_to_recover o) ;;
  fc_assert (negb (bool_decide (rw_new_recovery_authority o = rw_recent_recovery_authority o))) ;;
  fc_assert (negb (Authority.is_impossible (rw_new_recovery_authority o))) ;;
  fc_assert (negb (Authority.is_impossible (rw_recent_recovery_authority o))) ;;
  fc_assert (negb (weight_threshold (rw_new_recovery_authority o) =? 0)) ;;
  Authority.validate (rw_new_recovery_authority o) ;;
  Authority.validate (rw_recent_recovery_authority o).

Definition change_recovery_wallet (o : change_recovery_wallet_operation) : result unit :=
  validate_wallet_name (cr_account_to_recover o) ;;
  validate_wallet_name (cr_new_recovery_account o).
Definition contract_create (o : contract_create_operation) : result unit :=
  validate_wallet_name (cc_owner o).
Definition contract_invoke (o : contract_invoke_operation) : result unit := mret tt.

(** *** XTT operations *)
Definition xtt_admin (control_account : wallet_name_type) (s : asset_symbol_type) : result unit :=
  validate_wallet_name control_account ;; validate_xtt_symbol s.

Definition is_capital (c : Ascii.ascii) : bool :=
  (65 <=? Z.of_nat (Ascii.nat_of_ascii c)) && (Z.of_nat (Ascii.nat_of_ascii c) <=? 90).
Definition xtt_create (o : xtt_create_operation) : result unit :=
  xtt_admin (xc_control_account o) (xc_symbol o) ;;
  when (negb (bool_decide (xc_desired_ticker o = EmptyString)))
    (fc_assert (negb (bool_decide (xc_desired_ticker o = XGT_SYMBOL_STR))) ;;
     fc_assert (3 <=? String.length (xc_desired_ticker o))%nat ;;
     for_each (String.list_ascii_of_string (xc_desired_ticker o)) (λ c, fc_assert (is_capital c))) ;;
  fc_assert (0 <=? amount (xc_creation_fee o)) ;;
  fc_assert (amount (xc_creation_fee o) <=? XGT_MAX_SHARE_SUPPLY) ;;
  fc_assert (is_asset_type (xc_creation_fee o) XGT_SYMBOL) ;;
  fc_assert (AssetSymbol.decimals (xc_symbol o) =? xc_precision o).

Definition is_contributor (unit_target : string) : bool :=
  bool_decide (unit_target = "$from"%string) || bool_decide (unit_target = "$from.vesting"%string).
Definition is_valid_unit_target (t : string) : bool :=
  if Authority.is_valid_wallet_name t then true else is_contributor t.
Definition is_valid_xtt_ico_xgt_destination (t : string) : bool := Authority.is_valid_wallet_name t.
Definition is_valid_xtt_ico_token_destination (t : string) : bool :=
  if Authority.is_valid_wallet_name t then true else is_contributor t.

Definition unit_sum (l : list (string * Z)) : Z := fold_left (λ r e, u32 (r + e.2)) l 0.

Definition routes (l : list (string * Z)) : result unit :=
  fc_assert (length l <=? XTT_MAX_UNIT_ROUTES)%nat ;;
  for_each l (λ e, fc_assert (is_valid_unit_target e.1) ;; fc_assert (0 <? e.2)).
Definition generation_unit (g : xtt_generation_unit) : result unit :=
  routes (xgt_unit g) ;; routes (token_unit g).
Definition capped_generation_policy (g : xtt_generation_unit) : result unit :=
  generation_unit g ;;
  fc_assert (0 <? length (xgt_unit g))%nat ;;
  fc_assert (0 <=? length (token_unit g))%nat ;;
  fc_assert (length (xgt_unit g) <=? XTT_MAX_UNIT_COUNT)%nat ;;
  fc_assert (length (token_unit g) <=? XTT_MAX_UNIT_COUNT)%nat ;;
  for_each (xgt_unit g) (λ e, fc_assert (is_valid_xtt_ico_xgt_destination e.1)) ;;
  for_each (token_unit g) (λ e, fc_assert (is_valid_xtt_ico_token_destination e.1)).

Definition xtt_setup_ico_tier (o : xtt_setup_ico_tier_operation) : result unit :=
  xtt_admin (xi_control_account o) (xi_symbol o) ;;
  fc_assert (0 <=? xi_xgt_units_cap o) ;;
  fc_assert (xi_xgt_units_cap o <=? XGT_MAX_SHARE_SUPPLY) ;;
  capped_generation_policy (gp_generation_unit (xi_generation_policy o)).

Definition xtt_setup (o : xtt_setup_operation) : result unit :=
  xtt_admin (xs_control_account o) (xs_symbol o) ;;
  fc_assert (0 <? xs_max_supply o) ;;
  fc_assert (xs_max_supply o <=? XGT_MAX_SHARE_SUPPLY) ;;
  fc_assert (XGT_GENESIS_TIME <? xs_contribution_begin_time o) ;;
  fc_assert (xs_contribution_begin_time o <=? xs_contribution_end_time o) ;;
  fc_assert (xs_contribution_end_time o <=? xs_launch_time o) ;;
  fc_assert (0 <=? xs_xgt_units_min o).

(** 32-bit unsigned arithmetic; a zero divisor traps. *)
Definition nominal_votes_per_day (period votes : Z) : result Z :=
  if period =? 0 then mthrow Fault
  else mret (u32 (u32 (votes * 86400) + period - 1) / period).
Definition runtime_parameter (p : xtt_runtime_parameter) : result unit :=
  match p with
  | xtt_param_windows_v1 _ => mret tt
  | xtt_param_vote_regeneration_period_seconds_v1 period votes =>
      n ← nominal_votes_per_day period votes;
      fc_assert (n <=? XTT_MAX_NOMINAL_VOTES_PER_DAY)
  | xtt_param_allow_downvotes _ => mret tt
  end.
Definition xtt_set_runtime_parameters (o : xtt_set_runtime_parameters_operation) : result unit :=
  xtt_admin (xr_control_account o) (xr_symbol o) ;;
  fc_assert (negb (length (xr_runtime_parameters o) =? 0)%nat) ;;
  for_each (xr_runtime_parameters o) runtime_parameter.
Definition xtt_set_setup_parameters (o : xtt_set_setup_parameters_operation) : result unit :=
  xtt_admin (xp_control_account o) (xp_symbol o) ;;
  fc_assert (negb (length (xp_setup_parameters o) =? 0)%nat).

Definition xtt_contribute (o : xtt_contribute_operation) : result unit :=
  validate_wallet_name (xo_contributor o) ;;
  validate_xtt_symbol (xo_symbol o) ;;
  fc_assert (symbol (xo_contribution o) =? XGT_SYMBOL) ;;
  fc_assert (0 <? amount (xo_contribution o)).

(** Required actions. *)
Definition required_action (a : required_automated_action) : result unit :=
  match a with
  | xtt_ico_launch_action c s | xtt_ico_evaluation_action c s | xtt_token_launch_action c s =>
      validate_wallet_name c ;; validate_xtt_symbol s
  | xtt_refund_action c s _ _ => validate_wallet_name c ;; validate_xtt_symbol s
  | example_required_action a => validate_wallet_name a
  end.
Definition optional_action (a : optional_automated_action) : result unit :=
  match a with example_optional_action w => validate_wallet_name w end.

(** [operation_validate]: the visitor over the variant. *)
Definition operation_validate (block_id : signed_block_header → block_id_type) (op : operation) :
    result unit :=
  match op with
  | op_comment o => comment o
  | op_transfer o => transfer o
  | op_wallet_create o => wallet_create o
  | op_wallet_update o => wallet_update o
  | op_witness_update o => witness_update o
  | op_custom o => custom o
  | op_report_over_production o => report_over_production block_id o
  | op_delete_comment o => delete_comment o
  | op_custom_json o => custom_json o
  | op_comment_options o => comment_options o
  | op_request_wallet_recovery o => request_wallet_recovery o
  | op_recover_wallet o => recover_wallet o
  | op_change_recovery_wallet o => change_recovery_wallet o
  | op_escrow_transfer o => escrow_transfer o
  | op_escrow_dispute o => escrow_dispute o
  | op_escrow_release o => escrow_release o
  | op_pow o => pow o
  | op_escrow_approve o => escrow_approve o
  | op_vote o => vote o
  | op_xtt_setup o => xtt_setup o
  | op_xtt_setup_ico_tier o => xtt_setup_ico_tier o
  | op_xtt_set_setup_parameters o => xtt_set_setup_parameters o
  | op_xtt_set_runtime_parameters o => xtt_set_runtime_parameters o
  | op_xtt_create o => xtt_create o
  | op_xtt_contribute o => xtt_contribute o
  | op_shutdown_witness _ | op_hardfork _ | op_clear_null_wallet_balance _ => mthrow AssertException
  | op_contract_create o => contract_create o
  | op_contract_invoke o => contract_invoke o
  end.

(** [transaction::validate] *)
Definition transaction (block_id : signed_block_header → block_id_type) (tx : signed_transaction) :
    result unit :=
  fc_assert (0 <? length (operations tx))%nat ;;
  for_each (operations tx) (operation_validate block_id).
End with_env.
End Validate.

(** ** Required authorities *)
Module Required.
Definition worker_name (w : pow_work) : wallet_name_type :=
  match w with work_pow i _ => worker_account i | work_sha2_pow i _ _ _ => worker_account i end.

(** The four [get_required_*_authorities] members, as the visitor
    [get_required_auth_visitor] calls them; an operation that does not define
    one inherits the empty one of [base_operation]. *)
Definition money (op : operation) : list wallet_name_type :=
  match op with
  | op_transfer o => [tr_from o]
  | op_wallet_create o => [wc_creator o]
  | op_witness_update o => [wiu_owner o]
  | op_custom o => cu_required_auths o
  | op_custom_json o => cj_required_auths o
  | op_request_wallet_recovery o => [rr_recovery_account o]
  | op_escrow_transfer o => [et_from o]
  | op_escrow_dispute o => [ed_who o]
  | op_escrow_release o => [er_who o]
  | op_escrow_approve o => [ea_who o]
  | op_pow o => match new_recovery_key o with None => [worker_name (work o)] | Some _ => [] end
  | op_xtt_setup o => [xs_control_account o]
  | op_xtt_set_setup_parameters o => [xp_control_account o]
  | op_xtt_set_runtime_parameters o => [xr_control_account o]
  | op_xtt_create o => [xc_control_account o]
  | op_xtt_contribute o => [xo_contributor o]
  | op_contract_create o => [cc_owner o]
  | _ => []
  end.
Definition recovery (op : operation) : list wallet_name_type :=
  match op with
  | op_change_recovery_wallet o => [cr_account_to_recover o]
  | op_contract_create o => [cc_owner o]
  | _ => []
  end.
Definition social (op : operation) : list wallet_name_type :=
  match op with
  | op_comment o => [co_author o]
  | op_comment_options o => [cop_author o]
  | op_delete_comment o => [dc_author o]
  | op_vote o => [vo_voter o]
  | op_custom_json o => cj_required_social_auths o
  | _ => []
  end.
Definition other (op : operation) : list authority :=
  match op with
  | op_pow o => match new_recovery_key o with Some k => [mkAuthority 1 [] [(k, 1)]] | None => [] end
  | op_recover_wallet o => [rw_new_recovery_authority o; rw_recent_recovery_authority o]
  | _ => []
  end.

(** Insertion into a [flat_set] of names, in string order. *)
Fixpoint set_insert (k : wallet_name_type) (l : list wallet_name_type) : list wallet_name_type :=
  match l with
  | [] => [k]
  | k' :: l' => if bool_decide (k = k') then l
                else if String.ltb k k' then k :: l else k' :: set_insert k l'
  end.
Definition collect (f : operation → list wallet_name_type) (ops : list operation) :
    list wallet_name_type :=
  fold_left (λ acc op, fold_left (λ a k, set_insert k a) (f op) acc) ops [].

Definition is_virtual (op : operation) : bool :=
  match op with
  | op_shutdown_witness _ | op_hardfork _ | op_clear_null_wallet_balance _ => true
  | _ => false
  end.
Definition is_pow_operation (op : operation) : bool :=
  match op with op_pow _ => true | _ => false end.
Definition is_wallet_create_operation (op : operation) : bool :=
  match op with op_wallet_create _ => true | _ => false end.
Definition is_wallet_update_operation (op : operation) : bool :=
  match op with op_wallet_update _ => true | _ => false end.
Definition has_pow_op (tx : signed_transaction) : bool := existsb is_pow_operation (operations tx).

Lemma elem_of_set_insert x k l : x ∈ set_insert k l ↔ x = k ∨ x ∈ l.
Proof.
  induction l as [|k' l IH]; simpl; [set_solver|].
  case_bool_decide; [set_solver|]. destruct (String.ltb k k'); set_solver.
Qed.

Lemma elem_of_fold_insert x l acc :
  x ∈ fold_left (λ a k, set_insert k a) l acc ↔ x ∈ l ∨ x ∈ acc.
Proof.
  revert acc. induction l as [|k l IH]; intros acc; simpl; [set_solver|].
  rewrite IH, elem_of_set_insert. set_solver.
Qed.

Lemma elem_of_collect x f ops : x ∈ collect f ops ↔ ∃ op, op ∈ ops ∧ x ∈ f op.
Proof.
  unfold collect.
  assert (Hgen : ∀ acc, x ∈ fold_left (λ acc op, fold_left (λ a k, set_insert k a) (f op) acc) ops acc ↔
    (∃ op, op ∈ ops ∧ x ∈ f op) ∨ x ∈ acc).
  { induction ops as [|op ops IH]; intros acc; simpl; [set_solver|].
    rewrite IH, elem_of_fold_insert. set_solver. }
  rewrite Hgen. set_solver.
Qed.
End Required.

(** A concrete environment, used to run the definitions on examples: text is
    accepted, hashes are injective encodings, a signature is its own key. *)
Module DemoEnv.
#[global] Instance demo : Env := {|
  is_utf8 _ := true;
  json_is_valid _ := true;
  sha256_twice i := nonce i;
  approx_log_32 h := h;
  pow_create_summary i := Ok (nonce i);
  sha224_header h := [0; timestamp h; nth 0 (transaction_merkle_root h) 0;
                      Z.of_nat (String.length (witness h)); nth 0 (previous h) 0; 0; 0];
  header_signee h := Ok (witness_signature h);
  tx_id tx := [ref_block_num tx; ref_block_prefix tx; expiration tx; 0; 0];
  tx_merkle_digest tx := expiration tx;
  hash_pair x y := Z.pos (encode (x, y));
  hash_root x := [x];
  recover_key _ _ sig := Ok sig;
  wallet_name_of_keys _ := "wallet"%string;
  tx_pack_size _ := 100;
  block_pack_size _ := 1000
|}.
End DemoEnv.
