(* ===== verification/Wire.v ===== *)
(** * The protocol on the wire

    The codecs of the types of libraries/protocol: which members
    [FC_REFLECT] lists and in which order, which alternatives a
    [static_variant] has.  A key or a signature is the number its bytes spell,
    the first byte being the most significant, so that keys compare as the code
    compares them. *)
From S2P Require Import Prelude Safe Asset Raw Protocol.

(** Sizes in memory that the checks on the length of containers use and that
    depend on the compiler. *)
Class Abi := {
  sizeof_operation : Z;
  sizeof_transaction : Z;
  sizeof_extension : Z;
  sizeof_header_extension : Z;
  sizeof_required_action : Z;
  sizeof_optional_action : Z;
  sizeof_setup_parameter : Z;
  sizeof_runtime_parameter : Z
}.

Module Wire.
Import Raw Codec.
#[local] Infix "⊗" := members (at level 60, right associativity).
#[local] Infix "⊕" := alternative (at level 60, right associativity).
#[local] Unset Program Cases.

(** ** Building blocks *)
Definition pack_spelled (n : nat) (v : Z) : result bytes := mret (reverse (AssetSymbol.le_bytes n v)).
Definition unpack_spelled (n : nat) (d : Z) : St bytes Z := b ← read n; mret (AssetSymbol.from_le (reverse b)).
Program Definition spelled (n : nat) : codec Z :=
  mkCodec (pack_spelled n) (unpack_spelled n) (λ v, (0 <=? v) && (v <? 256 ^ Z.of_nat n)) 0 _.
Next Obligation.
  intros n v Hv. written. unfold unpack_spelled. rewrite bind_run, read_app by (by rewrite length_reverse, length_le_bytes).
  run. rewrite reverse_involutive, from_le_bytes by lia. done.
Qed.
Definition public_key : codec public_key_type := object
  (spelled 33 ⊗ no_members) (λ k, (k, tt)) (λ '(k, _), k) ltac:(done).
(** [fc::sha256], read through [operator >>]. *)
Definition unpack_digest (d : Z) : St bytes Z := check_depth (d + 1) ;; check_depth (d + 2) ;; unpack_spelled 32 d.
Program Definition digest : codec digest_type :=
  mkCodec (pack_spelled 32) unpack_digest (λ v, (0 <=? v) && (v <? 256 ^ Z.of_nat 32)) 2 _.
Next Obligation.
  intros v (bs & Hp & Hu)%(codec_law (spelled 32)). exists bs. split; [done|]. intros d rest Hd.
  unfold unpack_digest. run. by apply (Hu 0).
Qed.
Definition signature : codec signature_type := spelled 65.
Definition wallet_name : codec wallet_name_type := fixed 256.
Definition wallet_set : codec (list wallet_name_type) := flat String.ltb 256 wallet_name.
Definition by_key {K V} (lt : K → K → bool) (x y : K * V) : bool := lt x.1 y.1.
Definition unit_map : codec (list (string * Z)) := flat (by_key String.ltb) (32 + 2) (pair_codec (fixed 32) (uint 2)).
(** Variants are ordered by their index alone. *)
Definition variant_set {A} (which : A → Z) (sizeof : Z) (c : codec A) : codec (list A) :=
  flat (λ x y, which x <? which y) sizeof c.
Definition void : codec unit := object no_members (λ _, tt) (λ _, tt) ltac:(by intros []).

Section with_abi.
Context `{Abi}.

Definition future_extensions : codec unit := variant
  (void ⊕ no_choice) (λ o, inl o) (λ t, match t with inl o => o | inr e => match e with end end) ltac:(done).
Definition extensions : codec extensions_type := variant_set (λ _, 0) sizeof_extension future_extensions.
Definition asset : codec Asset.asset := object
  (share ⊗ symbol_codec ⊗ no_members)
  (λ o, (amount o, (symbol o, tt))) (λ '(x0, (x1, _)), mkAsset x0 x1) ltac:(by intros []).
Definition authority : codec Protocol.authority := object
  (uint 4 ⊗ flat (by_key String.ltb) (256 + 2) (pair_codec wallet_name (uint 2)) ⊗
   flat (by_key Z.ltb) (33 + 2) (pair_codec public_key (uint 2)) ⊗ no_members)
  (λ o, (weight_threshold o, (wallet_auths o, (key_auths o, tt))))
  (λ '(x0, (x1, (x2, _))), mkAuthority x0 x1 x2)
  ltac:(by intros []).
Definition version : codec Protocol.version := object
  (uint 4 ⊗ no_members) (λ v, (v, tt)) (λ '(v, _), v) ltac:(done).
Definition hardfork_version_vote : codec Protocol.hardfork_version_vote := object
  (version ⊗ time_sec ⊗ no_members)
  (λ o, (hf_version o, (hf_time o, tt)))
  (λ '(x0, (x1, _)), mkHfVote x0 x1)
  ltac:(by intros []).

(** ** Block headers *)
Definition action (c : codec (wallet_name_type * (asset_symbol_type * unit))) : codec (wallet_name_type * asset_symbol_type) :=
  object c (λ '(a, s), (a, (s, tt))) (λ '(a, (s, _)), (a, s)) ltac:(by intros []).
Definition launch_action : codec (wallet_name_type * asset_symbol_type) :=
  action (wallet_name ⊗ symbol_codec ⊗ no_members).
Definition refund_action : codec (wallet_name_type * asset_symbol_type * Z * Asset.asset) := object
  (wallet_name ⊗ symbol_codec ⊗ uint 4 ⊗ asset ⊗ no_members)
  (λ '(a, s, i, r), (a, (s, (i, (r, tt))))) (λ '(a, (s, (i, (r, _)))), (a, s, i, r)) ltac:(by intros [[[] ?] ?]).
Definition example_action : codec wallet_name_type := object
  (wallet_name ⊗ no_members) (λ a, (a, tt)) (λ '(a, _), a) ltac:(done).
Definition required_automated_action : codec Protocol.required_automated_action := variant
  (launch_action ⊕ launch_action ⊕ launch_action ⊕ refund_action ⊕ example_action ⊕ no_choice)
  (λ o, match o with
    | xtt_ico_launch_action x0 x1 => inl (x0, x1)
    | xtt_ico_evaluation_action x0 x1 => inr (inl (x0, x1))
    | xtt_token_launch_action x0 x1 => inr (inr (inl (x0, x1)))
    | xtt_refund_action x0 x1 x2 x3 => inr (inr (inr (inl (x0, x1, x2, x3))))
    | example_required_action x0 => inr (inr (inr (inr (inl x0))))
    end)
  (λ t, match t with
    | inl (x0, x1) => xtt_ico_launch_action x0 x1
    | inr (inl (x0, x1)) => xtt_ico_evaluation_action x0 x1
    | inr (inr (inl (x0, x1))) => xtt_token_launch_action x0 x1
    | inr (inr (inr (inl (x0, x1, x2, x3)))) => xtt_refund_action x0 x1 x2 x3
    | inr (inr (inr (inr (inl x0)))) => example_required_action x0
    | inr (inr (inr (inr (inr e)))) => match e with end
    end)
  ltac:(by intros []).
Definition optional_automated_action : codec Protocol.optional_automated_action := variant
  (example_action ⊕ no_choice)
  (λ o, match o with
    | example_optional_action x0 => inl x0
    end)
  (λ t, match t with
    | inl x0 => example_optional_action x0
    | inr e => match e with end
    end)
  ltac:(by intros []).
Definition block_header_extension : codec Protocol.block_header_extension := variant
  (void ⊕ version ⊕ hardfork_version_vote ⊕ vector sizeof_required_action required_automated_action ⊕ vector sizeof_optional_action optional_automated_action ⊕ no_choice)
  (λ o, match o with
    | ext_void  => inl tt
    | ext_version x0 => inr (inl x0)
    | ext_hardfork_vote x0 => inr (inr (inl x0))
    | ext_required_actions x0 => inr (inr (inr (inl x0)))
    | ext_optional_actions x0 => inr (inr (inr (inr (inl x0))))
    end)
  (λ t, match t with
    | inl tt => ext_void 
    | inr (inl x0) => ext_version x0
    | inr (inr (inl x0)) => ext_hardfork_vote x0
    | inr (inr (inr (inl x0))) => ext_required_actions x0
    | inr (inr (inr (inr (inl x0)))) => ext_optional_actions x0
    | inr (inr (inr (inr (inr e)))) => match e with end
    end)
  ltac:(by intros []).
Definition which_extension (e : Protocol.block_header_extension) : Z :=
  match e with
  | ext_void => 0 | ext_version _ => 1 | ext_hardfork_vote _ => 2
  | ext_required_actions _ => 3 | ext_optional_actions _ => 4
  end.
(** The members of [block_header] alone, and with the signature. *)
Definition header_content : Type := block_id_type * (time_point_sec * (wallet_name_type * (checksum_type *
  (list Protocol.block_header_extension * unit)))).
Definition content_of (h : Protocol.signed_block_header) : header_content :=
  (previous h, (timestamp h, (witness h, (transaction_merkle_root h, (header_extensions h, tt))))).
Definition block_header : codec header_content := object
  (words 5 ⊗ time_sec ⊗ str ⊗ words 5 ⊗ variant_set which_extension sizeof_header_extension block_header_extension ⊗ no_members)
  (λ c, c) (λ c, c) ltac:(done).
Definition signed_block_header : codec Protocol.signed_block_header := object
  (words 5 ⊗ time_sec ⊗ str ⊗ words 5 ⊗ variant_set which_extension sizeof_header_extension block_header_extension ⊗ signature ⊗ no_members)
  (λ o, (previous o, (timestamp o, (witness o, (transaction_merkle_root o, (header_extensions o, (witness_signature o, tt)))))))
  (λ '(x0, (x1, (x2, (x3, (x4, (x5, _)))))), mkHeader x0 x1 x2 x3 x4 x5)
  ltac:(by intros []).

(** ** Operations *)
Definition legacy_symbols : list Z :=
  let u64_at c k := Z.shiftl c k in
  [Z.lor 1 (Z.shiftl XGT_SYMBOL_U64 8); Z.lor 2 (Z.shiftl XGT_SYMBOL_U64 8); Z.lor 5 (Z.shiftl XGT_SYMBOL_U64 8);
   fold_left Z.lor [3; u64_at 48 8; u64_at 46 16; u64_at 48 24; u64_at 48 32; u64_at 49 40] 0;
   fold_left Z.lor [3; u64_at 54 8; u64_at 46 16; u64_at 48 24; u64_at 48 32; u64_at 48 40] 0;
   XGT_SYMBOL_SER].
Definition pack_legacy_symbol (ser : Z) : result bytes :=
  if existsb (Z.eqb ser) legacy_symbols then pack_uint 8 ser else mthrow AssertException.
Definition unpack_legacy_symbol (d : Z) : St bytes Z :=
  ser ← unpack_uint 8 (d + 1);
  assert_or (existsb (Z.eqb ser) legacy_symbols) AssertException ;;
  mret ser.
Lemma legacy_symbol_fits ser : existsb (Z.eqb ser) legacy_symbols = true → 0 ≤ ser < 256 ^ Z.of_nat 8.
Proof.
  intros (x & Hx & ->%Z.eqb_eq)%existsb_exists. revert x Hx. apply List.Forall_forall.
  repeat apply List.Forall_cons; [split; vm_compute; done..|apply List.Forall_nil].
Qed.
Program Definition legacy_symbol : codec Z :=
  mkCodec pack_legacy_symbol unpack_legacy_symbol (λ ser, existsb (Z.eqb ser) legacy_symbols) 3 _.
Next Obligation.
  intros ser Hs. cbv beta in Hs. unfold pack_legacy_symbol, unpack_legacy_symbol. rewrite Hs. eexists. split; [reflexivity|].
  intros d rest Hd. rewrite bind_run, unpack_pack_uint by (try apply legacy_symbol_fits; done || lia). rewrite bind_run, Hs. done.
Qed.
Definition legacy_xgt_asset : codec Protocol.legacy_xgt_asset := object
  (share ⊗ legacy_symbol ⊗ no_members)
  (λ o, (legacy_amount o, (legacy_ser o, tt)))
  (λ '(x0, (x1, _)), mkLegacyAsset x0 x1)
  ltac:(by intros []).
Definition legacy_chain_properties : codec Protocol.legacy_chain_properties := object
  (legacy_xgt_asset ⊗ uint 4 ⊗ no_members)
  (λ o, (account_creation_fee o, (maximum_block_size o, tt)))
  (λ '(x0, (x1, _)), mkProps x0 x1)
  ltac:(by intros []).
Definition wallet_create_operation : codec Protocol.wallet_create_operation := object
  (asset ⊗ wallet_name ⊗ wallet_name ⊗ authority ⊗ authority ⊗ authority ⊗ public_key ⊗ str ⊗ no_members)
  (λ o, (wc_fee o, (wc_creator o, (wc_new_wallet_name o, (wc_recovery o, (wc_money o, (wc_social o, (wc_memo_key o, (wc_json_metadata o, tt)))))))))
  (λ '(x0, (x1, (x2, (x3, (x4, (x5, (x6, (x7, _)))))))), mkWalletCreate x0 x1 x2 x3 x4 x5 x6 x7)
  ltac:(by intros []).
Definition wallet_update_operation : codec Protocol.wallet_update_operation := object
  (wallet_name ⊗ optional authority ⊗ optional authority ⊗ optional authority ⊗ optional public_key ⊗ str ⊗ str ⊗ extensions ⊗ no_members)
  (λ o, (wu_wallet o, (wu_recovery o, (wu_money o, (wu_social o, (wu_memo_key o, (wu_json_metadata o, (wu_social_json_metadata o, (wu_extensions o, tt)))))))))
  (λ '(x0, (x1, (x2, (x3, (x4, (x5, (x6, (e, _)))))))), mkWalletUpdate x0 x1 x2 x3 x4 x5 x6 e)
  ltac:(by intros []).
Definition transfer_operation : codec Protocol.transfer_operation := object
  (wallet_name ⊗ wallet_name ⊗ asset ⊗ str ⊗ no_members)
  (λ o, (tr_from o, (tr_to o, (tr_amount o, (tr_memo o, tt)))))
  (λ '(x0, (x1, (x2, (x3, _)))), mkTransfer x0 x1 x2 x3)
  ltac:(by intros []).
Definition witness_update_operation : codec Protocol.witness_update_operation := object
  (wallet_name ⊗ str ⊗ public_key ⊗ legacy_chain_properties ⊗ asset ⊗ no_members)
  (λ o, (wiu_owner o, (wiu_url o, (wiu_block_signing_key o, (wiu_props o, (wiu_fee o, tt))))))
  (λ '(x0, (x1, (x2, (x3, (x4, _))))), mkWitnessUpdate x0 x1 x2 x3 x4)
  ltac:(by intros []).
Definition comment_operation : codec Protocol.comment_operation := object
  (wallet_name ⊗ str ⊗ wallet_name ⊗ str ⊗ str ⊗ str ⊗ str ⊗ no_members)
  (λ o, (co_parent_author o, (co_parent_permlink o, (co_author o, (co_permlink o, (co_title o, (co_body o, (co_json_metadata o, tt))))))))
  (λ '(x0, (x1, (x2, (x3, (x4, (x5, (x6, _))))))), mkComment x0 x1 x2 x3 x4 x5 x6)
  ltac:(by intros []).
Definition vote_operation : codec Protocol.vote_operation := object
  (wallet_name ⊗ wallet_name ⊗ str ⊗ extensions ⊗ no_members)
  (λ o, (vo_voter o, (vo_author o, (vo_permlink o, (vo_extensions o, tt)))))
  (λ '(x0, (x1, (x2, (e, _)))), mkVote x0 x1 x2 e)
  ltac:(by intros []).
Definition custom_operation : codec Protocol.custom_operation := object
  (wallet_set ⊗ uint 2 ⊗ chars ⊗ no_members)
  (λ o, (cu_required_auths o, (cu_id o, (cu_data o, tt))))
  (λ '(x0, (x1, (x2, _))), mkCustom x0 x1 x2)
  ltac:(by intros []).
Definition custom_json_operation : codec Protocol.custom_json_operation := object
  (wallet_set ⊗ wallet_set ⊗ fixed 32 ⊗ str ⊗ no_members)
  (λ o, (cj_required_auths o, (cj_required_social_auths o, (cj_id o, (cj_json o, tt)))))
  (λ '(x0, (x1, (x2, (x3, _)))), mkCustomJson x0 x1 x2 x3)
  ltac:(by intros []).
Definition delete_comment_operation : codec Protocol.delete_comment_operation := object
  (wallet_name ⊗ str ⊗ no_members)
  (λ o, (dc_author o, (dc_permlink o, tt)))
  (λ '(x0, (x1, _)), mkDeleteComment x0 x1)
  ltac:(by intros []).
Definition comment_options_operation : codec Protocol.comment_options_operation := object
  (wallet_name ⊗ str ⊗ boolean ⊗ no_members)
  (λ o, (cop_author o, (cop_permlink o, (cop_allow_votes o, tt))))
  (λ '(x0, (x1, (x2, _))), mkCommentOptions x0 x1 x2)
  ltac:(by intros []).
Definition escrow_transfer_operation : codec Protocol.escrow_transfer_operation := object
  (wallet_name ⊗ wallet_name ⊗ asset ⊗ uint 4 ⊗ wallet_name ⊗ asset ⊗ str ⊗ time_sec ⊗ time_sec ⊗ no_members)
  (λ o, (et_from o, (et_to o, (et_xgt_amount o, (et_escrow_id o, (et_agent o, (et_fee o, (et_json_meta o, (et_ratification_deadline o, (et_escrow_expiration o, tt))))))))))
  (λ '(x0, (x1, (x2, (x3, (x4, (x5, (x6, (x7, (x8, _))))))))), mkEscrowTransfer x0 x1 x4 x3 x2 x5 x7 x8 x6)
  ltac:(by intros []).
Definition escrow_approve_operation : codec Protocol.escrow_approve_operation := object
  (wallet_name ⊗ wallet_name ⊗ wallet_name ⊗ wallet_name ⊗ uint 4 ⊗ boolean ⊗ no_members)
  (λ o, (ea_from o, (ea_to o, (ea_agent o, (ea_who o, (ea_escrow_id o, (ea_approve o, tt)))))))
  (λ '(x0, (x1, (x2, (x3, (x4, (x5, _)))))), mkEscrowApprove x0 x1 x2 x3 x4 x5)
  ltac:(by intros []).
Definition escrow_dispute_operation : codec Protocol.escrow_dispute_operation := object
  (wallet_name ⊗ wallet_name ⊗ wallet_name ⊗ wallet_name ⊗ uint 4 ⊗ no_members)
  (λ o, (ed_from o, (ed_to o, (ed_agent o, (ed_who o, (ed_escrow_id o, tt))))))
  (λ '(x0, (x1, (x2, (x3, (x4, _))))), mkEscrowDispute x0 x1 x2 x3 x4)
  ltac:(by intros []).
Definition escrow_release_operation : codec Protocol.escrow_release_operation := object
  (wallet_name ⊗ wallet_name ⊗ wallet_name ⊗ wallet_name ⊗ wallet_name ⊗ uint 4 ⊗ asset ⊗ no_members)
  (λ o, (er_from o, (er_to o, (er_agent o, (er_who o, (er_receiver o, (er_escrow_id o, (er_xgt_amount o, tt))))))))
  (λ '(x0, (x1, (x2, (x3, (x4, (x5, (x6, _))))))), mkEscrowRelease x0 x1 x2 x3 x4 x5 x6)
  ltac:(by intros []).
Definition request_wallet_recovery_operation : codec Protocol.request_wallet_recovery_operation := object
  (wallet_name ⊗ wallet_name ⊗ authority ⊗ extensions ⊗ no_members)
  (λ o, (rr_recovery_account o, (rr_account_to_recover o, (rr_new_recovery_authority o, (rr_extensions o, tt)))))
  (λ '(x0, (x1, (x2, (e, _)))), mkRequestRecovery x0 x1 x2 e)
  ltac:(by intros []).
Definition recover_wallet_operation : codec Protocol.recover_wallet_operation := object
  (wallet_name ⊗ authority ⊗ authority ⊗ extensions ⊗ no_members)
  (λ o, (rw_account_to_recover o, (rw_new_recovery_authority o, (rw_recent_recovery_authority o, (rw_extensions o, tt)))))
  (λ '(x0, (x1, (x2, (e, _)))), mkRecover x0 x1 x2 e)
  ltac:(by intros []).
Definition change_recovery_wallet_operation : codec Protocol.change_recovery_wallet_operation := object
  (wallet_name ⊗ wallet_name ⊗ extensions ⊗ no_members)
  (λ o, (cr_account_to_recover o, (cr_new_recovery_account o, (cr_extensions o, tt))))
  (λ '(x0, (x1, (e, _))), mkChangeRecovery x0 x1 e)
  ltac:(by intros []).
Definition contract_create_operation : codec Protocol.contract_create_operation := object
  (wallet_name ⊗ chars ⊗ no_members)
  (λ o, (cc_owner o, (cc_code o, tt)))
  (λ '(x0, (x1, _)), mkContractCreate x0 x1)
  ltac:(by intros []).
Definition contract_invoke_operation : codec Protocol.contract_invoke_operation := object
  (wallet_name ⊗ words 5 ⊗ vector 24 chars ⊗ no_members)
  (λ o, (ci_caller o, (ci_contract_hash o, (ci_args o, tt))))
  (λ '(x0, (x1, (x2, _))), mkContractInvoke x0 x1 x2)
  ltac:(by intros []).
Definition pow_input : codec Protocol.pow_input := object
  (wallet_name ⊗ words 5 ⊗ uint 8 ⊗ no_members)
  (λ o, (worker_account o, (prev_block o, (nonce o, tt))))
  (λ '(x0, (x1, (x2, _))), mkPowInput x0 x1 x2)
  ltac:(by intros []).
Definition pow : codec (Protocol.pow_input * Z) := object
  (pow_input ⊗ uint 4 ⊗ no_members) (λ '(i, s), (i, (s, tt))) (λ '(i, (s, _)), (i, s)) ltac:(by intros []).
Definition sha2_pow : codec (Protocol.pow_input * Z * block_id_type * Z) := object
  (pow_input ⊗ digest ⊗ words 5 ⊗ uint 4 ⊗ no_members)
  (λ '(i, p, b, s), (i, (p, (b, (s, tt))))) (λ '(i, (p, (b, (s, _)))), (i, p, b, s)) ltac:(by intros [[[] ?] ?]).
Definition pow_work : codec Protocol.pow_work := variant
  (pow ⊕ sha2_pow ⊕ no_choice)
  (λ o, match o with
    | work_pow x0 x1 => inl (x0, x1)
    | work_sha2_pow x0 x1 x2 x3 => inr (inl (x0, x1, x2, x3))
    end)
  (λ t, match t with
    | inl (x0, x1) => work_pow x0 x1
    | inr (inl (x0, x1, x2, x3)) => work_sha2_pow x0 x1 x2 x3
    | inr (inr e) => match e with end
    end)
  ltac:(by intros []).
Definition pow_operation : codec Protocol.pow_operation := object
  (pow_work ⊗ optional public_key ⊗ legacy_chain_properties ⊗ no_members)
  (λ o, (work o, (new_recovery_key o, (pow_props o, tt))))
  (λ '(x0, (x1, (x2, _))), mkPow x0 x1 x2)
  ltac:(by intros []).
Definition report_over_production_operation : codec Protocol.report_over_production_operation := object
  (wallet_name ⊗ signed_block_header ⊗ signed_block_header ⊗ no_members)
  (λ o, (reporter o, (first_block o, (second_block o, tt))))
  (λ '(x0, (x1, (x2, _))), mkReport x0 x1 x2)
  ltac:(by intros []).
Definition xtt_create_operation : codec Protocol.xtt_create_operation := object
  (wallet_name ⊗ symbol_codec ⊗ fixed 8 ⊗ asset ⊗ uint 1 ⊗ extensions ⊗ no_members)
  (λ o, (xc_control_account o, (xc_symbol o, (xc_desired_ticker o, (xc_creation_fee o, (xc_precision o, (xc_extensions o, tt)))))))
  (λ '(x0, (x1, (x2, (x3, (x4, (e, _)))))), mkXttCreate x0 x1 x2 x3 x4 e)
  ltac:(by intros []).
Definition xtt_setup_operation : codec Protocol.xtt_setup_operation := object
  (wallet_name ⊗ symbol_codec ⊗ int64 ⊗ time_sec ⊗ time_sec ⊗ time_sec ⊗ share ⊗ uint 4 ⊗ uint 4 ⊗ extensions ⊗ no_members)
  (λ o, (xs_control_account o, (xs_symbol o, (xs_max_supply o, (xs_contribution_begin_time o, (xs_contribution_end_time o, (xs_launch_time o, (xs_xgt_units_min o, (xs_min_unit_ratio o, (xs_max_unit_ratio o, (xs_extensions o, tt)))))))))))
  (λ '(x0, (x1, (x2, (x3, (x4, (x5, (x6, (x7, (x8, (e, _)))))))))), mkXttSetup x0 x1 x2 x3 x4 x5 x6 x7 x8 e)
  ltac:(by intros []).
Definition xtt_generation_unit : codec Protocol.xtt_generation_unit := object
  (unit_map ⊗ unit_map ⊗ no_members)
  (λ o, (xgt_unit o, (token_unit o, tt)))
  (λ '(x0, (x1, _)), mkUnit x0 x1)
  ltac:(by intros []).
Definition xtt_capped_generation_policy : codec Protocol.xtt_capped_generation_policy := object
  (xtt_generation_unit ⊗ extensions ⊗ no_members)
  (λ o, (gp_generation_unit o, (gp_extensions o, tt)))
  (λ '(x0, (x1, _)), mkPolicy x0 x1)
  ltac:(by intros []).
Definition xtt_generation_policy : codec Protocol.xtt_capped_generation_policy := variant
  (xtt_capped_generation_policy ⊕ no_choice)
  (λ u, inl u) (λ t, match t with inl u => u | inr e => match e with end end) ltac:(done).
Definition flag_param : codec bool := object (boolean ⊗ no_members) (λ b, (b, tt)) (λ '(b, _), b) ltac:(done).
Definition windows_param : codec Z := object (uint 4 ⊗ no_members) (λ b, (b, tt)) (λ '(b, _), b) ltac:(done).
Definition regeneration_param : codec (Z * Z) := object
  (uint 4 ⊗ uint 4 ⊗ no_members) (λ '(a, b), (a, (b, tt))) (λ '(a, (b, _)), (a, b)) ltac:(by intros []).
Definition xtt_setup_parameter : codec Protocol.xtt_setup_parameter := variant
  (flag_param ⊕ no_choice)
  (λ o, match o with
    | xtt_param_allow_voting x0 => inl x0
    end)
  (λ t, match t with
    | inl x0 => xtt_param_allow_voting x0
    | inr e => match e with end
    end)
  ltac:(by intros []).
Definition xtt_runtime_parameter : codec Protocol.xtt_runtime_parameter := variant
  (windows_param ⊕ regeneration_param ⊕ flag_param ⊕ no_choice)
  (λ o, match o with
    | xtt_param_windows_v1 x0 => inl x0
    | xtt_param_vote_regeneration_period_seconds_v1 x0 x1 => inr (inl (x0, x1))
    | xtt_param_allow_downvotes x0 => inr (inr (inl x0))
    end)
  (λ t, match t with
    | inl x0 => xtt_param_windows_v1 x0
    | inr (inl (x0, x1)) => xtt_param_vote_regeneration_period_seconds_v1 x0 x1
    | inr (inr (inl x0)) => xtt_param_allow_downvotes x0
    | inr (inr (inr e)) => match e with end
    end)
  ltac:(by intros []).
Definition which_setup (p : Protocol.xtt_setup_parameter) : Z := match p with xtt_param_allow_voting _ => 0 end.
Definition which_runtime (p : Protocol.xtt_runtime_parameter) : Z :=
  match p with
  | xtt_param_windows_v1 _ => 0
  | xtt_param_vote_regeneration_period_seconds_v1 _ _ => 1
  | xtt_param_allow_downvotes _ => 2
  end.
Definition xtt_setup_ico_tier_operation : codec Protocol.xtt_setup_ico_tier_operation := object
  (wallet_name ⊗ symbol_codec ⊗ share ⊗ xtt_generation_policy ⊗ boolean ⊗ extensions ⊗ no_members)
  (λ o, (xi_control_account o, (xi_symbol o, (xi_xgt_units_cap o, (xi_generation_policy o, (xi_remove o, (xi_extensions o, tt)))))))
  (λ '(x0, (x1, (x2, (x3, (x4, (e, _)))))), mkIcoTier x0 x1 x2 x3 x4 e)
  ltac:(by intros []).
Definition xtt_set_setup_parameters_operation : codec Protocol.xtt_set_setup_parameters_operation := object
  (wallet_name ⊗ symbol_codec ⊗ variant_set which_setup sizeof_setup_parameter xtt_setup_parameter ⊗ extensions ⊗ no_members)
  (λ o, (xp_control_account o, (xp_symbol o, (xp_setup_parameters o, (xp_extensions o, tt)))))
  (λ '(x0, (x1, (x2, (e, _)))), mkSetupParams x0 x1 x2 e)
  ltac:(by intros []).
Definition xtt_set_runtime_parameters_operation : codec Protocol.xtt_set_runtime_parameters_operation := object
  (wallet_name ⊗ symbol_codec ⊗ variant_set which_runtime sizeof_runtime_parameter xtt_runtime_parameter ⊗ extensions ⊗ no_members)
  (λ o, (xr_control_account o, (xr_symbol o, (xr_runtime_parameters o, (xr_extensions o, tt)))))
  (λ '(x0, (x1, (x2, (e, _)))), mkRuntimeParams x0 x1 x2 e)
  ltac:(by intros []).
Definition xtt_contribute_operation : codec Protocol.xtt_contribute_operation := object
  (wallet_name ⊗ symbol_codec ⊗ uint 4 ⊗ asset ⊗ extensions ⊗ no_members)
  (λ o, (xo_contributor o, (xo_symbol o, (xo_contribution_id o, (xo_contribution o, (xo_extensions o, tt))))))
  (λ '(x0, (x1, (x2, (x3, (e, _))))), mkContribute x0 x1 x2 x3 e)
  ltac:(by intros []).
Definition shutdown_witness_operation : codec wallet_name_type := example_action.
Definition hardfork_operation : codec Z := windows_param.
Definition clear_null_wallet_balance_operation : codec (list Asset.asset) := object
  (vector 16 asset ⊗ no_members) (λ l, (l, tt)) (λ '(l, _), l) ltac:(done).
Definition operation : codec Protocol.operation := variant
  (comment_operation ⊕ transfer_operation ⊕ wallet_create_operation ⊕ wallet_update_operation ⊕ witness_update_operation ⊕ custom_operation ⊕ report_over_production_operation ⊕ delete_comment_operation ⊕ custom_json_operation ⊕ comment_options_operation ⊕ request_wallet_recovery_operation ⊕ recover_wallet_operation ⊕ change_recovery_wallet_operation ⊕ escrow_transfer_operation ⊕ escrow_dispute_operation ⊕ escrow_release_operation ⊕ pow_operation ⊕ escrow_approve_operation ⊕ vote_operation ⊕ xtt_setup_operation ⊕ xtt_setup_ico_tier_operation ⊕ xtt_set_setup_parameters_operation ⊕ xtt_set_runtime_parameters_operation ⊕ xtt_create_operation ⊕ xtt_contribute_operation ⊕ shutdown_witness_operation ⊕ hardfork_operation ⊕ clear_null_wallet_balance_operation ⊕ contract_create_operation ⊕ contract_invoke_operation ⊕ no_choice)
  (λ o, match o with
    | op_comment x0 => inl x0
    | op_transfer x0 => inr (inl x0)
    | op_wallet_create x0 => inr (inr (inl x0))
    | op_wallet_update x0 => inr (inr (inr (inl x0)))
    | op_witness_update x0 => inr (inr (inr (inr (inl x0))))
    | op_custom x0 => inr (inr (inr (inr (inr (inl x0)))))
    | op_report_over_production x0 => inr (inr (inr (inr (inr (inr (inl x0))))))
    | op_delete_comment x0 => inr (inr (inr (inr (inr (inr (inr (inl x0)))))))
    | op_custom_json x0 => inr (inr (inr (inr (inr (inr (inr (inr (inl x0))))))))
    | op_comment_options x0 => inr (inr (inr (inr (inr (inr (inr (inr (inr (inl x0)))))))))
    | op_request_wallet_recovery x0 => inr (inr (inr (inr (inr (inr (inr (inr (inr (inr (inl x0))))))))))
    | op_recover_wallet x0 => inr (inr (inr (inr (inr (inr (inr (inr (inr (inr (inr (inl x0)))))))))))
    | op_change_recovery_wallet x0 => inr (inr (inr (inr (inr (inr (inr (inr (inr (inr (inr (inr (inl x0))))))))))))
    | op_escrow_transfer x0 => inr (inr (inr (inr (inr (inr (inr (inr (inr (inr (inr (inr (inr (inl x0)))))))))))))
    | op_escrow_dispute x0 => inr (inr (inr (inr (inr (inr (inr (inr (inr (inr (inr (inr (inr (inr (inl x0))))))))))))))
    | op_escrow_release x0 => inr (inr (inr (inr (inr (inr (inr (inr (inr (inr (inr (inr (inr (inr (inr (inl x0)))))))))))))))
    | op_pow x0 => inr (inr (inr (inr (inr (inr (inr (inr (inr (inr (inr (inr (inr (inr (inr (inr (inl x0))))))))))))))))
    | op_escrow_approve x0 => inr (inr (inr (inr (inr (inr (inr (inr (inr (inr (inr (inr (inr (inr (inr (inr (inr (inl x0)))))))))))))))))
    | op_vote x0 => inr (inr (inr (inr (inr (inr (inr (inr (inr (inr (inr (inr (inr (inr (inr (inr (inr (inr (inl x0))))))))))))))))))
    | op_xtt_setup x0 => inr (inr (inr (inr (inr (inr (inr (inr (inr (inr (inr (inr (inr (inr (inr (inr (inr (inr (inr (inl x0)))))))))))))))))))
    | op_xtt_setup_ico_tier x0 => inr (inr (inr (inr (inr (inr (inr (inr (inr (inr (inr (inr (inr (inr (inr (inr (inr (inr (inr (inr (inl x0))))))))))))))))))))
    | op_xtt_set_setup_parameters x0 => inr (inr (inr (inr (inr (inr (inr (inr (inr (inr (inr (inr (inr (inr (inr (inr (inr (inr (inr (inr (inr (inl x0)))))))))))))))))))))
    | op_xtt_set_runtime_parameters x0 => inr (inr (inr (inr (inr (inr (inr (inr (inr (inr (inr (inr (inr (inr (inr (inr (inr (inr (inr (inr (inr (inr (inl x0))))))))))))))))))))))
    | op_xtt_create x0 => inr (inr (inr (inr (inr (inr (inr (inr (inr (inr (inr (inr (inr (inr (inr (inr (inr (inr (inr (inr (inr (inr (inr (inl x0)))))))))))))))))))))))
    | op_xtt_contribute x0 => inr (inr (inr (inr (inr (inr (inr (inr (inr (inr (inr (inr (inr (inr (inr (inr (inr (inr (inr (inr (inr (inr (inr (inr (inl x0))))))))))))))))))))))))
    | op_shutdown_witness x0 => inr (inr (inr (inr (inr (inr (inr (inr (inr (inr (inr (inr (inr (inr (inr (inr (inr (inr (inr (inr (inr (inr (inr (inr (inr (inl x0)))))))))))))))))))))))))
    | op_hardfork x0 => inr (inr (inr (inr (inr (inr (inr (inr (inr (inr (inr (inr (inr (inr (inr (inr (inr (inr (inr (inr (inr (inr (inr (inr (inr (inr (inl x0))))))))))))))))))))))))))
    | op_clear_null_wallet_balance x0 => inr (inr (inr (inr (inr (inr (inr (inr (inr (inr (inr (inr (inr (inr (inr (inr (inr (inr (inr (inr (inr (inr (inr (inr (inr (inr (inr (inl x0)))))))))))))))))))))))))))
    | op_contract_create x0 => inr (inr (inr (inr (inr (inr (inr (inr (inr (inr (inr (inr (inr (inr (inr (inr (inr (inr (inr (inr (inr (inr (inr (inr (inr (inr (inr (inr (inl x0))))))))))))))))))))))))))))
    | op_contract_invoke x0 => inr (inr (inr (inr (inr (inr (inr (inr (inr (inr (inr (inr (inr (inr (inr (inr (inr (inr (inr (inr (inr (inr (inr (inr (inr (inr (inr (inr (inr (inl x0)))))))))))))))))))))))))))))
    end)
  (λ t, match t with
    | inl x0 => op_comment x0
    | inr (inl x0) => op_transfer x0
    | inr (inr (inl x0)) => op_wallet_create x0
    | inr (inr (inr (inl x0))) => op_wallet_update x0
    | inr (inr (inr (inr (inl x0)))) => op_witness_update x0
    | inr (inr (inr (inr (inr (inl x0))))) => op_custom x0
    | inr (inr (inr (inr (inr (inr (inl x0)))))) => op_report_over_production x0
    | inr (inr (inr (inr (inr (inr (inr (inl x0))))))) => op_delete_comment x0
    | inr (inr (inr (inr (inr (inr (inr (inr (inl x0)))))))) => op_custom_json x0
    | inr (inr (inr (inr (inr (inr (inr (inr (inr (inl x0))))))))) => op_comment_options x0
    | inr (inr (inr (inr (inr (inr (inr (inr (inr (inr (inl x0)))))))))) => op_request_wallet_recovery x0
    | inr (inr (inr (inr (inr (inr (inr (inr (inr (inr (inr (inl x0))))))))))) => op_recover_wallet x0
    | inr (inr (inr (inr (inr (inr (inr (inr (inr (inr (inr (inr (inl x0)))))))))))) => op_change_recovery_wallet x0
    | inr (inr (inr (inr (inr (inr (inr (inr (inr (inr (inr (inr (inr (inl x0))))))))))))) => op_escrow_transfer x0
    | inr (inr (inr (inr (inr (inr (inr (inr (inr (inr (inr (inr (inr (inr (inl x0)))))))))))))) => op_escrow_dispute x0
    | inr (inr (inr (inr (inr (inr (inr (inr (inr (inr (inr (inr (inr (inr (inr (inl x0))))))))))))))) => op_escrow_release x0
    | inr (inr (inr (inr (inr (inr (inr (inr (inr (inr (inr (inr (inr (inr (inr (inr (inl x0)))))))))))))))) => op_pow x0
    | inr (inr (inr (inr (inr (inr (inr (inr (inr (inr (inr (inr (inr (inr (inr (inr (inr (inl x0))))))))))))))))) => op_escrow_approve x0
    | inr (inr (inr (inr (inr (inr (inr (inr (inr (inr (inr (inr (inr (inr (inr (inr (inr (inr (inl x0)))))))))))))))))) => op_vote x0
    | inr (inr (inr (inr (inr (inr (inr (inr (inr (inr (inr (inr (inr (inr (inr (inr (inr (inr (inr (inl x0))))))))))))))))))) => op_xtt_setup x0
    | inr (inr (inr (inr (inr (inr (inr (inr (inr (inr (inr (inr (inr (inr (inr (inr (inr (inr (inr (inr (inl x0)))))))))))))))))))) => op_xtt_setup_ico_tier x0
    | inr (inr (inr (inr (inr (inr (inr (inr (inr (inr (inr (inr (inr (inr (inr (inr (inr (inr (inr (inr (inr (inl x0))))))))))))))))))))) => op_xtt_set_setup_parameters x0
    | inr (inr (inr (inr (inr (inr (inr (inr (inr (inr (inr (inr (inr (inr (inr (inr (inr (inr (inr (inr (inr (inr (inl x0)))))))))))))))))))))) => op_xtt_set_runtime_parameters x0
    | inr (inr (inr (inr (inr (inr (inr (inr (inr (inr (inr (inr (inr (inr (inr (inr (inr (inr (inr (inr (inr (inr (inr (inl x0))))))))))))))))))))))) => op_xtt_create x0
    | inr (inr (inr (inr (inr (inr (inr (inr (inr (inr (inr (inr (inr (inr (inr (inr (inr (inr (inr (inr (inr (inr (inr (inr (inl x0)))))))))))))))))))))))) => op_xtt_contribute x0
    | inr (inr (inr (inr (inr (inr (inr (inr (inr (inr (inr (inr (inr (inr (inr (inr (inr (inr (inr (inr (inr (inr (inr (inr (inr (inl x0))))))))))))))))))))))))) => op_shutdown_witness x0
    | inr (inr (inr (inr (inr (inr (inr (inr (inr (inr (inr (inr (inr (inr (inr (inr (inr (inr (inr (inr (inr (inr (inr (inr (inr (inr (inl x0)))))))))))))))))))))))))) => op_hardfork x0
    | inr (inr (inr (inr (inr (inr (inr (inr (inr (inr (inr (inr (inr (inr (inr (inr (inr (inr (inr (inr (inr (inr (inr (inr (inr (inr (inr (inl x0))))))))))))))))))))))))))) => op_clear_null_wallet_balance x0
    | inr (inr (inr (inr (inr (inr (inr (inr (inr (inr (inr (inr (inr (inr (inr (inr (inr (inr (inr (inr (inr (inr (inr (inr (inr (inr (inr (inr (inl x0)))))))))))))))))))))))))))) => op_contract_create x0
    | inr (inr (inr (inr (inr (inr (inr (inr (inr (inr (inr (inr (inr (inr (inr (inr (inr (inr (inr (inr (inr (inr (inr (inr (inr (inr (inr (inr (inr (inl x0))))))))))))))))))))))))))))) => op_contract_invoke x0
    | inr (inr (inr (inr (inr (inr (inr (inr (inr (inr (inr (inr (inr (inr (inr (inr (inr (inr (inr (inr (inr (inr (inr (inr (inr (inr (inr (inr (inr (inr e))))))))))))))))))))))))))))) => match e with end
    end)
  ltac:(by intros []).

(** ** Transactions and blocks *)
Definition tx_content : Type := Z * (Z * (time_point_sec * (list Protocol.operation * (extensions_type * unit)))).
Definition tx_content_of (tx : Protocol.signed_transaction) : tx_content :=
  (ref_block_num tx, (ref_block_prefix tx, (expiration tx, (operations tx, (tx_extensions tx, tt))))).
(** [transaction], without the signatures *)
Definition transaction : codec tx_content := object
  (uint 2 ⊗ uint 4 ⊗ time_sec ⊗ vector sizeof_operation operation ⊗ extensions ⊗ no_members)
  id id ltac:(done).
Definition signed_transaction : codec Protocol.signed_transaction := object
  (uint 2 ⊗ uint 4 ⊗ time_sec ⊗ vector sizeof_operation operation ⊗ extensions ⊗ vector 65 signature ⊗ no_members)
  (λ o, (ref_block_num o, (ref_block_prefix o, (expiration o, (operations o, (tx_extensions o, (signatures o, tt)))))))
  (λ '(x0, (x1, (x2, (x3, (x4, (x5, _)))))), mkTx x0 x1 x2 x3 x4 x5)
  ltac:(by intros []).
(** The members of the header come first, in the same object. *)
Definition signed_block : codec Protocol.signed_block := object
  (words 5 ⊗ time_sec ⊗ str ⊗ words 5 ⊗
   variant_set which_extension sizeof_header_extension block_header_extension ⊗ signature ⊗
   vector sizeof_transaction signed_transaction ⊗ no_members)
  (λ o, let h := header o in
        (previous h, (timestamp h, (witness h, (transaction_merkle_root h, (header_extensions h,
          (witness_signature h, (transactions o, tt))))))))
  (λ '(x0, (x1, (x2, (x3, (x4, (x5, (x6, _))))))), mkBlock (mkHeader x0 x1 x2 x3 x4 x5) x6)
  ltac:(by intros [[]]).
(** [fc::raw::pack_size] *)
Definition pack_size {A} (c : codec A) (a : A) : result Z :=
  bs ← enc c a; mret (Z.of_nat (length bs)).
End with_abi.
End Wire.

(** Sizes of a 64-bit build, to run the codecs. *)
Module DemoAbi.
#[global] Instance demo : Abi := {|
  sizeof_operation := 16; sizeof_transaction := 72; sizeof_extension := 16; sizeof_header_extension := 32;
  sizeof_required_action := 16; sizeof_optional_action := 16; sizeof_setup_parameter := 16; sizeof_runtime_parameter := 16
|}.
Definition memo : transfer_operation := mkTransfer "alice" "bob" (mkAsset (-5) XGT_SYMBOL) "for you".
Definition vote : custom_json_operation := mkCustomJson ["alice"; "bob"] [] "vote" "{}".
Definition tx : signed_transaction :=
  mkTx 7 0xfffffffe 1600000000 [op_transfer memo; op_custom_json vote; op_hardfork 3] [tt] [2 ^ 519; 12345].
Definition block : signed_block :=
  mkBlock (mkHeader [1; 2; 3; 4; 2 ^ 32 - 1] 1600000003 "alice" [0; 0; 0; 0; 9]
             [ext_version 5; ext_optional_actions [example_optional_action "carol"]] (2 ^ 500)) [tx; tx].
End DemoAbi.

(** C24: Blocks travel unchanged.  A block within the limits of the format packs;
    unpacking the bytes, whatever follows them, gives the block back and stops
    exactly where it ends; so no two blocks have the same bytes and no block's
    bytes begin with another block's.  The same holds of transactions alone. *)
Theorem block_wire_roundtrip `{Abi} (b b' : signed_block) (tx : signed_transaction) (rest rest' : bytes) :
  valid Wire.signed_block b = true → valid Wire.signed_block b' = true → valid Wire.signed_transaction tx = true →
  (∃ bs, enc Wire.signed_block b = Ok bs ∧ dec Wire.signed_block 0 (bs ++ rest) = (Ok b, rest) ∧
     Wire.pack_size Wire.signed_block b = Ok (Z.of_nat (length bs)) ∧
     ∀ bs', enc Wire.signed_block b' = Ok bs' → bs ++ rest = bs' ++ rest' → b = b' ∧ rest = rest') ∧
  ∃ ts, enc Wire.signed_transaction tx = Ok ts ∧ dec Wire.signed_transaction 0 (ts ++ rest) = (Ok tx, rest).
Proof.
  intros Hb Hb' Ht. split.
  - destruct (Codec.codec_reads Wire.signed_block b Hb eq_refl) as (bs & He & Hd). exists bs.
    split; [done|]. split; [done|]. split; [unfold Wire.pack_size; by rewrite He|]. intros bs' He' Heq.
    by destruct (Codec.codec_injective Wire.signed_block b b' bs bs' rest rest' eq_refl Hb Hb' He He' Heq) as (? & _ & ?).
  - destruct (Codec.codec_reads Wire.signed_transaction tx Ht eq_refl) as (ts & He & Hd). by exists ts.
Qed.
Lemma block_wire_roundtrip_witness :
  ∃ bs, enc Wire.signed_block DemoAbi.block = Ok bs ∧
    dec Wire.signed_block 0 (bs ++ [7]) = (Ok DemoAbi.block, [7]).
Proof.
  destruct (block_wire_roundtrip DemoAbi.block DemoAbi.block DemoAbi.tx [7] [7]) as [(bs & He & Hd & _) _];
    [vm_compute; reflexivity..|].
  exists bs. split; [exact He|exact Hd].
Defined.
