(* ===== verification/SignState.v ===== *)
(** * Signature checking: [sign_state] and [verify_authority]

    libraries/protocol/sign_state.cpp and
    libraries/protocol/include/xgt/protocol/transaction_util.hpp.  An
    authority is satisfied by signing keys and by other wallets whose own
    authority is satisfied; the walk over nested wallets is cut by a recursion
    depth, a membership count and a total count of visited wallets. *)
From S2P Require Import Prelude Safe Asset Protocol.

Module SignState.

(** An [authority_getter] reads the database and may throw. *)
Definition authority_getter := wallet_name_type → result authority.

(** The mutable part of a [sign_state], with the counter that
    [check_authority_impl] receives by pointer. *)
Record state := mkState {
  provided_signatures : list (public_key_type * bool);
  approved_by : list wallet_name_type;
  account_auth_count : Z
}.

Record limits := mkLimits {
  max_recursion : nat;
  max_membership : Z;
  max_wallet_auths : Z
}.
Definition default_limits : limits :=
  mkLimits (Z.to_nat XGT_MAX_SIG_CHECK_DEPTH) XGT_MAX_AUTHORITY_MEMBERSHIP XGT_MAX_SIG_CHECK_WALLETS.

Section with_getter.
Context (get_money : authority_getter) (available_keys : list public_key_type) (lim : limits).

(** Assigning to an entry of [provided_signatures]. *)
Fixpoint mark (k : public_key_type) (l : list (public_key_type * bool)) : list (public_key_type * bool) :=
  match l with
  | [] => [(k, true)]
  | (k', b) :: l' => if k =? k' then (k, true) :: l' else (k', b) :: mark k l'
  end.
Definition mark_state (k : public_key_type) (s : state) : state :=
  mkState (mark k (provided_signatures s)) (approved_by s) (account_auth_count s).

Definition signed_by (k : public_key_type) : St state bool := λ s,
  if bool_decide (k ∈ (provided_signatures s).*1) then (Ok true, mark_state k s)
  else if bool_decide (k ∈ available_keys) then (Ok true, mark_state k s)
  else (Ok false, s).

Definition approve (w : wallet_name_type) : St state unit := λ s,
  (Ok tt, mkState (provided_signatures s) (w :: approved_by s) (account_auth_count s)).
Definition count_wallet : St state unit := λ s,
  (Ok tt, mkState (provided_signatures s) (approved_by s) (u32 (account_auth_count s + 1))).

(** How a loop of [check_authority_impl] ends: with the function's result, or
    by falling through with the weight and membership reached. *)
Inductive flow := Return (b : bool) | Next (total_weight : Z) (membership : Z).

Definition membership_full (membership : Z) : bool :=
  (0 <? max_membership lim) && (max_membership lim <=? membership).

Fixpoint key_loop (threshold : Z) (l : list (public_key_type * weight_type))
    (total_weight membership : Z) : St state flow :=
  match l with
  | [] => mret (Next total_weight membership)
  | (k, w) :: l' =>
      b ← signed_by k;
      let total := if b : bool then u32 (total_weight + w) else total_weight in
      if b && (threshold <=? total) then mret (Return true)
      else
        let m := membership + 1 in
        if membership_full m then mret (Return false)
        else key_loop threshold l' total m
  end.

Section wallet_loop.
(** [check_authority_impl] one level deeper, [None] at the depth limit. *)
Context (deeper : option (authority → St state bool)).

Fixpoint wallet_loop (threshold : Z) (l : list (wallet_name_type * weight_type))
    (total_weight membership : Z) : St state flow :=
  match l with
  | [] => mret (Next total_weight membership)
  | (a, w) :: l' =>
      s ← get_st;
      if bool_decide (a ∈ approved_by s) then
        let total := u32 (total_weight + w) in
        if threshold <=? total then mret (Return true)
        else
          let m := membership + 1 in
          if membership_full m then mret (Return false)
          else wallet_loop threshold l' total m
      else match deeper with
      | None => wallet_loop threshold l' total_weight membership
      | Some check =>
          if (0 <? max_wallet_auths lim) && (max_wallet_auths lim <=? account_auth_count s)
          then mret (Return false)
          else
            count_wallet ;;
            auth ← lift (get_money a);
            ok ← check auth;
            (if ok : bool then approve a else mret tt) ;;
            let total := if ok : bool then u32 (total_weight + w) else total_weight in
            if ok && (threshold <=? total) then mret (Return true)
            else
              let m := membership + 1 in
              if membership_full m then mret (Return false)
              else wallet_loop threshold l' total m
      end
  end.
End wallet_loop.

(** [rem] is [max_recursion - depth]: at zero the nested wallets are skipped. *)
Fixpoint check_authority_impl (rem : nat) (auth : authority) : St state bool :=
  r ← key_loop (weight_threshold auth) (key_auths auth) 0 0;
  match r with
  | Return b => mret b
  | Next total membership =>
      let deeper := match rem with O => None | S rem' => Some (check_authority_impl rem') end in
      r ← wallet_loop deeper (weight_threshold auth) (wallet_auths auth) total membership;
      match r with
      | Return b => mret b
      | Next total _ => mret (weight_threshold auth <=? total)
      end
  end.

Definition set_count (n : Z) : St state unit := λ s,
  (Ok tt, mkState (provided_signatures s) (approved_by s) n).

(** [check_authority( string )] and [check_authority( authority )]. *)
Definition check_authority_id (id : wallet_name_type) : St state bool :=
  s ← get_st;
  if bool_decide (id ∈ approved_by s) then mret true
  else
    set_count 1 ;;
    auth ← lift (get_money id);
    check_authority_impl (max_recursion lim) auth.
Definition check_authority (auth : authority) : St state bool :=
  set_count 0 ;; check_authority_impl (max_recursion lim) auth.
End with_getter.

Definition remove_unused_signatures (s : state) : bool * state :=
  let kept := filter (λ p, p.2 = true) (provided_signatures s) in
  (negb (length kept =? length (provided_signatures s))%nat,
   mkState kept (approved_by s) (account_auth_count s)).

(** The constructor approves the wallet named "temp". *)
Definition init (sigs : list public_key_type) : state :=
  mkState ((λ k, (k, false)) <$> sigs) ["temp"%string] 0.

(** ** [verify_authority] *)
Section verify.
Context (get_money get_recovery get_social : authority_getter) (lim : limits).

(** Short-circuit disjunction of checks. *)
Definition or_else (a b : St state bool) : St state bool :=
  x ← a; if x : bool then mret true else b.

Definition check_getter (getter : authority_getter) (g : authority_getter) (id : wallet_name_type) :
    St state bool :=
  auth ← lift (g id); check_authority getter [] lim auth.

Definition require (e : exn) (m : St state bool) : St state unit :=
  b ← m; assert_or b e.

Definition approve_all (l : list wallet_name_type) : St state unit :=
  for_each l approve.

Definition run (sigs : list public_key_type) (m : St state unit) : result unit := fst (m (init sigs)).

Definition verify_authority (ops : list operation) (sigs : list public_key_type)
    (money_approvals recovery_approvals social_approvals : list wallet_name_type) : result unit :=
  let required_money := Required.collect Required.money ops in
  let required_recovery := Required.collect Required.recovery ops in
  let required_social := Required.collect Required.social ops in
  let other := ops ≫= Required.other in
  if negb (length required_social =? 0)%nat then
    fc_assert (length required_money =? 0)%nat ;;
    fc_assert (length required_recovery =? 0)%nat ;;
    fc_assert (length other =? 0)%nat ;;
    run sigs (approve_all social_approvals ;;
     for_each required_social (λ id,
       require MissingAuthority (or_else (check_authority_id get_social [] lim id)
                 (or_else (check_getter get_social get_money id)
                          (check_getter get_social get_recovery id)))))
  else
    run sigs (approve_all money_approvals ;;
     approve_all recovery_approvals ;;
     for_each other (λ auth, require MissingAuthority (check_authority get_money [] lim auth)) ;;
     for_each required_money (λ id,
       require MissingMoneyAuth (or_else (check_authority_id get_money [] lim id)
                        (check_getter get_money get_recovery id))) ;;
     for_each required_recovery (λ id,
       require MissingAuthority (or_else (mret (bool_decide (id ∈ recovery_approvals)))
                        (check_getter get_money get_recovery id)))).
End verify.

(** [signed_transaction::get_signature_keys]: duplicates are refused. *)
Fixpoint get_signature_keys `{Env} (canon_type : canonical_signature_type) (tx : signed_transaction) (sigs : list signature_type)
    (acc : list public_key_type) : result (list public_key_type) :=
  match sigs with
  | [] => mret acc
  | sig :: sigs' =>
      k ← recover_key canon_type tx sig;
      assert_or (negb (bool_decide (k ∈ acc))) TransactionException ;;
      get_signature_keys canon_type tx sigs' (acc ++ [k])
  end.

Definition tx_verify_authority `{Env} (canon_type : canonical_signature_type) (tx : signed_transaction)
    (get_money get_recovery get_social : authority_getter) (lim : limits) : result unit :=
  sigs ← get_signature_keys canon_type tx (signatures tx) [];
  verify_authority get_money get_recovery get_social lim (operations tx) sigs [] [] [].

End SignState.

(** ** What a true answer means *)
Section soundness.
Import SignState.
Context (get_money : authority_getter) (available_keys : list public_key_type) (lim : limits).
Context (sigs : list public_key_type) (appr : list wallet_name_type).

Definition wsum {K} (l : list (K * Z)) : Z := foldr (λ p a, p.2 + a) 0 l.

Definition can_sign (k : public_key_type) : Prop := k ∈ sigs ∨ k ∈ available_keys.

(** An authority is satisfied when some of its keys can sign and some of its
    wallets are approved or satisfied themselves, with enough weight. *)
Inductive satisfied : authority → Prop :=
| satisfied_intro a ks ws :
    ks `sublist_of` key_auths a → ws `sublist_of` wallet_auths a →
    (∀ p, p ∈ ks → can_sign p.1) →
    (∀ p, p ∈ ws → p.1 ∈ appr ∨ ∃ a', get_money p.1 = Ok a' ∧ satisfied a') →
    weight_threshold a ≤ wsum ks + wsum ws →
    satisfied a.

Definition approved (w : wallet_name_type) : Prop :=
  w ∈ appr ∨ ∃ a, get_money w = Ok a ∧ satisfied a.

(** Weights are [uint16_t]. *)
Definition wf_weights (a : authority) : Prop :=
  (∀ p, p ∈ key_auths a → 0 ≤ p.2) ∧ (∀ p, p ∈ wallet_auths a → 0 ≤ p.2).
Context (Hgetter : ∀ w a, get_money w = Ok a → wf_weights a).

Definition inv (s : state) : Prop :=
  (∀ k, k ∈ (provided_signatures s).*1 → can_sign k) ∧
  (∀ w, w ∈ approved_by s → approved w).

(** Weight [x] is covered by signing keys in [kl] and approved wallets in [wl]. *)
Definition reach (kl : list (public_key_type * Z)) (wl : list (wallet_name_type * Z)) (x : Z) : Prop :=
  ∃ ks ws, ks `sublist_of` kl ∧ ws `sublist_of` wl ∧
    (∀ p, p ∈ ks → can_sign p.1) ∧ (∀ p, p ∈ ws → approved p.1) ∧ x ≤ wsum ks + wsum ws.

Lemma wsum_app {K} (l1 l2 : list (K * Z)) : wsum (l1 ++ l2) = wsum l1 + wsum l2.
Proof. induction l1; simpl; [done|]. unfold wsum in *. lia. Qed.

Lemma u32_le x : 0 ≤ x → 0 ≤ u32 x ≤ x.
Proof. unfold u32. intros. pose proof (Z.mod_pos_bound x (2^32)). pose proof (Z.mod_le x (2^32)). lia. Qed.

Lemma reach_key kl wl x k w : reach kl wl x → can_sign k → reach (kl ++ [(k, w)]) wl (x + w).
Proof.
  intros (ks & ws & Hks & Hws & Hk & Hw & Hx) Hc. exists (ks ++ [(k, w)]), ws.
  split_and!; [by apply sublist_app|done| |done|].
  - set_solver.
  - rewrite wsum_app. simpl. lia.
Qed.
Lemma reach_wallet kl wl x a w : reach kl wl x → approved a → reach kl (wl ++ [(a, w)]) (x + w).
Proof.
  intros (ks & ws & Hks & Hws & Hk & Hw & Hx) Hc. exists ks, (ws ++ [(a, w)]).
  split_and!; [done|by apply sublist_app|done| |].
  - set_solver.
  - rewrite wsum_app. simpl. lia.
Qed.
Lemma reach_mono kl kl' wl wl' x y :
  reach kl wl x → kl `sublist_of` kl' → wl `sublist_of` wl' → y ≤ x → reach kl' wl' y.
Proof.
  intros (ks & ws & ? & ? & ? & ? & ?) ? ? ?. exists ks, ws. split_and!; try done; [by etrans..|lia].
Qed.
Lemma reach_satisfied a x :
  reach (key_auths a) (wallet_auths a) x → weight_threshold a ≤ x → satisfied a.
Proof.
  intros (ks & ws & ? & ? & ? & Hw & ?) ?. apply (satisfied_intro a ks ws); try done. lia.
Qed.

Lemma mark_keys k l x : x ∈ (mark k l).*1 → x = k ∨ x ∈ l.*1.
Proof.
  induction l as [|[k' b] l IH]; simpl; [set_solver|].
  destruct (k =? k') eqn:E; bool_hyps; set_solver.
Qed.

Lemma signed_by_inv k s r s' :
  inv s → signed_by available_keys k s = (r, s') →
  inv s' ∧ ∃ b, r = Ok b ∧ (b = true → can_sign k).
Proof.
  intros [Hp Ha]. unfold signed_by.
  assert (Hmark : can_sign k → inv (mark_state k s)).
  { intros Hc. split; [|done]. simpl. intros x [-> |Hx]%mark_keys; [done|by apply Hp]. }
  repeat case_bool_decide; intros [= <- <-].
  - split; [apply Hmark; by apply Hp|]. eauto.
  - split; [apply Hmark; by right|]. exists true. split; [done|]. by right.
  - split; [done|]. by exists false.
Qed.

(** The outcome of a loop over the entries after [pre]. *)
Definition flow_ok thr kl wl (r : result flow) : Prop :=
  match r with
  | Ok (Return true) => ∃ x, thr ≤ x ∧ reach kl wl x
  | Ok (Next t _) => 0 ≤ t ∧ reach kl wl t
  | _ => True
  end.

Lemma key_loop_sound thr l pre t m s r s' :
  (∀ p, p ∈ l → 0 ≤ p.2) → inv s → 0 ≤ t → reach pre [] t →
  key_loop available_keys lim thr l t m s = (r, s') →
  inv s' ∧ flow_ok thr (pre ++ l) [] r.
Proof.
  revert pre t m s. induction l as [|[k w] l IH]; intros pre t m s Hw Hs Ht Hr Hrun.
  { injection Hrun as <- <-. simpl. by rewrite app_nil_r. }
  cbn [key_loop] in Hrun. rewrite bind_run in Hrun.
  destruct (signed_by available_keys k s) as [rb s1] eqn:Es.
  destruct (signed_by_inv _ _ _ _ Hs Es) as (Hs1 & b & -> & Hb).
  assert (H0w : 0 ≤ w) by (apply (Hw (k, w)); set_solver).
  assert (Hr' : 0 ≤ (if b then u32 (t + w) else t) ∧
                reach (pre ++ [(k, w)]) [] (if b then u32 (t + w) else t)).
  { destruct b.
    - destruct (u32_le (t + w)) as [? ?]; [lia|]. split; [done|].
      eapply reach_mono; [by apply (reach_key _ _ t k w Hr), Hb|done..].
    - split; [done|]. eapply reach_mono; [done|by apply sublist_inserts_r|done..]. }
  destruct Hr' as [Ht' Hr'].
  rewrite (cons_middle (k, w)), app_assoc.
  destruct (b && _) eqn:Eb.
  { injection Hrun as <- <-. apply andb_true_iff in Eb as [_ Eb]. bool_hyps.
    split; [done|]. eexists. split; [done|].
    eapply reach_mono; [done|by apply sublist_inserts_r|done..]. }
  destruct (membership_full lim (m + 1)); [by injection Hrun as <- <-|].
  apply (IH _ _ _ _ ltac:(set_solver) Hs1 Ht' Hr' Hrun).
Qed.

Definition checks (f : authority → St state bool) : Prop := ∀ a s r s',
  wf_weights a → inv s → f a s = (r, s') → inv s' ∧ (r = Ok true → satisfied a).

Lemma wallet_loop_sound deeper thr kl l pre t m s r s' :
  match deeper with Some f => checks f | None => True end →
  (∀ p, p ∈ l → 0 ≤ p.2) → inv s → 0 ≤ t → reach kl pre t →
  wallet_loop get_money lim deeper thr l t m s = (r, s') →
  inv s' ∧ flow_ok thr kl (pre ++ l) r.
Proof.
  intros Hdeep. revert pre t m s.
  induction l as [|[a w] l IH]; intros pre t m s Hw Hs Ht Hr Hrun.
  { injection Hrun as <- <-. simpl. by rewrite app_nil_r. }
  assert (H0w : 0 ≤ w) by (apply (Hw (a, w)); set_solver).
  assert (Hw' : ∀ p, p ∈ l → 0 ≤ p.2) by set_solver.
  rewrite (cons_middle (a, w)), app_assoc.
  assert (Hskip : reach kl (pre ++ [(a, w)]) t)
    by (eapply reach_mono; [done|done|by apply sublist_inserts_r|done]).
  (* the common tail after the entry was decided *)
  assert (Htail : ∀ (ok : bool) s1, inv s1 → (ok = true → approved a) →
    (let total := if ok then u32 (t + w) else t in
     if ok && (thr <=? total) then mret (Return true)
     else if membership_full lim (m + 1) then mret (Return false)
     else wallet_loop get_money lim deeper thr l total (m + 1)) s1 = (r, s') →
    inv s' ∧ flow_ok thr kl ((pre ++ [(a, w)]) ++ l) r).
  { intros ok s1 Hs1 Hok Hrun1. cbv zeta in Hrun1.
    assert (Hr1 : 0 ≤ (if ok then u32 (t + w) else t) ∧
                  reach kl (pre ++ [(a, w)]) (if ok then u32 (t + w) else t)).
    { destruct ok; [|done]. destruct (u32_le (t + w)) as [? ?]; [lia|]. split; [done|].
      eapply reach_mono; [by apply (reach_wallet _ _ t a w Hr), Hok|done..]. }
    destruct Hr1 as [Ht1 Hr1].
    destruct (ok && _) eqn:Eb.
    { injection Hrun1 as <- <-. apply andb_true_iff in Eb as [_ Eb]. bool_hyps.
      split; [done|]. eexists. split; [done|].
      eapply reach_mono; [done|done|by apply sublist_inserts_r|done]. }
    destruct (membership_full lim (m + 1)); [by injection Hrun1 as <- <-|].
    apply (IH _ _ _ _ Hw' Hs1 Ht1 Hr1 Hrun1). }
  cbn [wallet_loop] in Hrun. rewrite bind_run in Hrun. unfold get_st in Hrun at 1.
  case_bool_decide as Happ.
  { apply (Htail true s Hs); [intros _; by apply (proj2 Hs)|exact Hrun]. }
  destruct deeper as [check|].
  2:{ apply (IH _ _ _ _ Hw' Hs Ht Hskip Hrun). }
  destruct (_ && _) eqn:Efull; [by injection Hrun as <- <-|].
  rewrite bind_run in Hrun. unfold count_wallet in Hrun at 1.
  set (s1 := mkState _ _ _) in Hrun.
  assert (Hs1 : inv s1) by exact Hs.
  rewrite bind_run in Hrun. unfold lift in Hrun at 1.
  destruct (get_money a) as [auth|e] eqn:Ega; [|by injection Hrun as <- <-].
  rewrite bind_run in Hrun.
  destruct (check auth s1) as [[ok|e] s2] eqn:Ec.
  2:{ injection Hrun as <- <-. split; [|done].
      by apply (Hdeep auth s1 _ _ (Hgetter _ _ Ega) Hs1 Ec). }
  destruct (Hdeep auth s1 _ _ (Hgetter _ _ Ega) Hs1 Ec) as [Hs2 Hsat].
  assert (Hok : ok = true → approved a).
  { intros ->. right. eauto. }
  rewrite bind_run in Hrun. destruct ok.
  - apply (Htail true (mkState (provided_signatures s2) (a :: approved_by s2) (account_auth_count s2)));
      [|done|exact Hrun].
    split; [apply Hs2|]. simpl. intros x Hx. apply elem_of_cons in Hx as [->|Hx]; [by apply Hok|].
    by apply (proj2 Hs2).
  - apply (Htail false s2); [done|done|exact Hrun].
Qed.

(** One level of [check_authority_impl], over the deeper level. *)
Lemma level_sound deeper :
  match deeper with Some f => checks f | None => True end →
  checks (λ auth,
    r ← key_loop available_keys lim (weight_threshold auth) (key_auths auth) 0 0;
    match r with
    | Return b => mret b
    | Next total membership =>
        r ← wallet_loop get_money lim deeper (weight_threshold auth) (wallet_auths auth) total membership;
        match r with
        | Return b => mret b
        | Next total _ => mret (weight_threshold auth <=? total)
        end
    end).
Proof.
  intros Hdeep a s r s' [Hwk Hww] Hs. rewrite bind_run.
  destruct (key_loop _ _ _ _ 0 0 s) as [rk s1] eqn:Ek.
  eapply (key_loop_sound _ _ [] 0) in Ek as [Hs1 Hf]; [|done|done|lia|].
  2:{ exists [], []. split_and!; [done|done|set_solver|set_solver|simpl; lia]. }
  simpl in Hf. destruct rk as [[b|t m]|e]; [|rewrite bind_run|by intros [= <- <-]].
  { intros [= <- <-]. split; [done|]. intros [= ->]. destruct Hf as (x & Hx & Hr).
    apply (reach_satisfied a x); [|done].
    eapply reach_mono; [done|done|apply sublist_nil_l|done]. }
  destruct Hf as [Ht Hr].
  destruct (wallet_loop _ _ _ _ _ t m s1) as [rw s2] eqn:Ew.
  eapply (wallet_loop_sound _ _ (key_auths a) _ []) in Ew as [Hs2 Hf]; [|done..].
  simpl in Hf. destruct rw as [[b|t' m']|e]; intros [= <- <-]; (split; [done|]); try done.
  - intros [= ->]. destruct Hf as (x & Hx & Hr'). by apply (reach_satisfied a x).
  - intros [= Hle]. bool_hyps. by apply (reach_satisfied a t'); [apply Hf|].
Qed.

Lemma check_authority_impl_sound rem :
  checks (check_authority_impl get_money available_keys lim rem).
Proof.
  induction rem as [|rem IH].
  - exact (level_sound None I).
  - exact (level_sound (Some _) IH).
Qed.

Lemma init_inv : (∀ k, k ∈ sigs → can_sign k) → "temp"%string ∈ appr → inv (init sigs).
Proof.
  intros Hk Ht. split; simpl.
  - intros k. rewrite <- list_fmap_compose. simpl. rewrite list_fmap_id. apply Hk.
  - intros w ->%list_elem_of_singleton. by left.
Qed.

(** *** The same for the entry points *)
Definition sound_check (m : St state bool) (P : Prop) : Prop := ∀ s r s',
  inv s → m s = (r, s') → inv s' ∧ (r = Ok true → P).

Lemma check_authority_sound a :
  wf_weights a → sound_check (check_authority get_money available_keys lim a) (satisfied a).
Proof.
  intros Ha s r s' Hs. unfold check_authority. rewrite bind_run. cbn [set_count].
  intros Hrun. by eapply check_authority_impl_sound in Hrun.
Qed.

Lemma check_authority_id_sound w :
  sound_check (check_authority_id get_money available_keys lim w) (approved w).
Proof.
  intros s r s' Hs. unfold check_authority_id. rewrite bind_run. cbn [get_st].
  case_bool_decide as Hw.
  { intros [= <- <-]. split; [done|]. intros _. by apply (proj2 Hs). }
  rewrite bind_run. cbn [set_count]. rewrite bind_run. unfold lift at 1.
  destruct (get_money w) as [a|e] eqn:Ea; [|by intros [= <- <-]].
  intros Hrun. eapply check_authority_impl_sound in Hrun as [Hs' Hsat]; [|by eauto|done].
  split; [done|]. intros ->. right. eauto.
Qed.

Lemma or_else_sound m1 m2 P1 P2 :
  sound_check m1 P1 → sound_check m2 P2 → sound_check (or_else m1 m2) (P1 ∨ P2).
Proof.
  intros H1 H2 s r s' Hs. unfold or_else. rewrite bind_run.
  destruct (m1 s) as [[b|e] s1] eqn:E1.
  - destruct (H1 s _ _ Hs E1) as [Hs1 Hp1]. destruct b.
    + intros [= <- <-]. split; [done|]. intros _. left. by apply Hp1.
    + intros Hrun. destruct (H2 s1 _ _ Hs1 Hrun) as [? Hp2]. split; [done|]. auto.
  - intros [= <- <-]. split; [|done]. by apply (H1 s _ _ Hs E1).
Qed.

Lemma check_getter_sound (g : authority_getter) w :
  (∀ w a, g w = Ok a → wf_weights a) →
  sound_check (auth ← lift (g w); check_authority get_money available_keys lim auth)
              (∃ a, g w = Ok a ∧ satisfied a).
Proof.
  intros Hg s r s' Hs. rewrite bind_run. unfold lift.
  destruct (g w) as [a|e] eqn:Ea; [|by intros [= <- <-]]. intros Hrun.
  destruct (check_authority_sound a (Hg _ _ Ea) s _ _ Hs Hrun) as [? Hsat].
  split; [done|]. eauto.
Qed.

Lemma for_each_require {A} e (l : list A) (f : A → St state bool) (P : A → Prop) s s' u :
  (∀ x, sound_check (f x) (P x)) → inv s →
  for_each l (λ x, require e (f x)) s = (Ok u, s') → inv s' ∧ ∀ x, x ∈ l → P x.
Proof.
  intros Hf. revert s. induction l as [|x l IH]; intros s Hs; simpl.
  { intros [= <- <-]. split; [done|set_solver]. }
  intros Hrun. apply St_bind_ok in Hrun as ([] & s1 & Hreq & Hrun).
  unfold require in Hreq. apply St_bind_ok in Hreq as (b & s2 & Hx & Has).
  apply assert_or_St_ok in Has as [-> ->].
  destruct (Hf x s _ _ Hs Hx) as [Hs2 HP]. destruct (IH s2 Hs2 Hrun) as [? Hl].
  split; [done|]. intros y Hy. apply elem_of_cons in Hy as [->|Hy]; [by apply HP|by apply Hl].
Qed.
End soundness.

(** *** [verify_authority] *)
Section verify_sound.
Import SignState.
Context (get_money get_recovery get_social : authority_getter) (lim : limits).
Context (Hm : ∀ w a, get_money w = Ok a → wf_weights a).
Context (Hr : ∀ w a, get_recovery w = Ok a → wf_weights a).
Context (Hs : ∀ w a, get_social w = Ok a → wf_weights a).

Lemma approve_all_run l s :
  approve_all l s =
  (Ok tt, mkState (provided_signatures s) (reverse l ++ approved_by s) (account_auth_count s)).
Proof.
  unfold approve_all. revert s. induction l as [|w l IH]; intros s; simpl.
  { by destruct s. }
  rewrite bind_run. simpl. rewrite IH. simpl. rewrite reverse_cons, <- app_assoc. done.
Qed.
End verify_sound.

Section verify_theorems.
Import SignState.

(** Satisfaction as [verify_authority] establishes it: nested wallets are
    looked up with [getter], and only "temp" is approved beforehand. *)
Definition sat (getter : authority_getter) (sigs : list public_key_type) : authority → Prop :=
  satisfied getter [] sigs ["temp"%string].
Definition sat_wallet (getter g : authority_getter) (sigs : list public_key_type)
    (w : wallet_name_type) : Prop := ∃ a, g w = Ok a ∧ sat getter sigs a.
Definition getter_ok (g : authority_getter) : Prop := ∀ w a, g w = Ok a → wf_weights a.

Lemma length_0_collect f ops : length (Required.collect f ops) = 0%nat →
  ∀ op x, op ∈ ops → x ∉ f op.
Proof.
  intros Hl op x Hop Hx. apply nil_length_inv in Hl.
  assert (x ∈ Required.collect f ops) as Hin by (apply Required.elem_of_collect; eauto).
  rewrite Hl in Hin. set_solver.
Qed.

Lemma run_ok sigs m : run sigs m = Ok tt → ∃ s', m (init sigs) = (Ok tt, s').
Proof. unfold run. destruct (m (init sigs)) as [r s']. simpl. intros ->. eauto. Qed.

Lemma init_sound sigs getter : inv getter [] sigs ["temp"%string] (init sigs).
Proof. apply init_inv; [intros k Hk; by left|set_solver]. Qed.

Lemma approved_temp getter sigs w :
  approved getter [] sigs ["temp"%string] w ↔ w = "temp"%string ∨ sat_wallet getter getter sigs w.
Proof. unfold approved, sat_wallet, sat. rewrite list_elem_of_singleton. done. Qed.

Lemma verify_social_sound gm gr gs lim ops sigs :
  getter_ok gm → getter_ok gr → getter_ok gs →
  (∃ op w, op ∈ ops ∧ w ∈ Required.social op) →
  verify_authority gm gr gs lim ops sigs [] [] [] = Ok tt →
  (∀ op, op ∈ ops → Required.money op = [] ∧ Required.recovery op = [] ∧ Required.other op = []) ∧
  (∀ op w, op ∈ ops → w ∈ Required.social op →
     w = "temp"%string ∨ sat_wallet gs gs sigs w ∨ sat_wallet gs gm sigs w ∨ sat_wallet gs gr sigs w).
Proof.
  intros Hm Hr Hs (op0 & w0 & Hop0 & Hw0) Hv. unfold verify_authority in Hv.
  destruct (length (Required.collect Required.social ops) =? 0)%nat eqn:E.
  { apply Nat.eqb_eq in E. exfalso. by eapply (length_0_collect _ _ E op0 w0). }
  cbn [negb] in Hv. inv_ok.
  repeat match goal with H : (_ =? _)%nat = true |- _ => apply Nat.eqb_eq in H end.
  split.
  - intros op Hop. split_and!; apply elem_of_nil_inv; intros y Hy.
    + by eapply (length_0_collect Required.money ops).
    + by eapply (length_0_collect Required.recovery ops).
    + assert (y ∈ ops ≫= Required.other) as Hin by (apply list_elem_of_bind; eauto).
      rewrite (nil_length_inv (ops ≫= Required.other)) in Hin by done. set_solver.
  - match goal with H : run _ _ = Ok tt |- _ => apply run_ok in H as [s' Hf] end.
    rewrite bind_run in Hf. simpl in Hf.
    eapply for_each_require with (get_money := gs) (available_keys := []) (sigs := sigs)
      (appr := ["temp"%string]) (P := λ w, approved gs [] sigs ["temp"%string] w ∨
            (sat_wallet gs gm sigs w ∨ sat_wallet gs gr sigs w)) in Hf as [_ Hall];
      [|exact Hs|intros w; apply or_else_sound; [by apply check_authority_id_sound|];
        apply or_else_sound; by apply check_getter_sound
       |apply init_sound].
    intros op w Hop Hw. assert (w ∈ Required.collect Required.social ops) as Hin
      by (apply Required.elem_of_collect; eauto).
    specialize (Hall w Hin). rewrite approved_temp in Hall. tauto.
Qed.

Lemma verify_money_sound gm gr gs lim ops sigs :
  getter_ok gm → getter_ok gr → (∀ op a, op ∈ ops → a ∈ Required.other op → wf_weights a) →
  (∀ op, op ∈ ops → Required.social op = []) →
  verify_authority gm gr gs lim ops sigs [] [] [] = Ok tt →
  (∀ op a, op ∈ ops → a ∈ Required.other op → sat gm sigs a) ∧
  (∀ op w, op ∈ ops → w ∈ Required.money op →
     w = "temp"%string ∨ sat_wallet gm gm sigs w ∨ sat_wallet gm gr sigs w) ∧
  (∀ op w, op ∈ ops → w ∈ Required.recovery op → sat_wallet gm gr sigs w).
Proof.
  intros Hm Hr Ho Hsoc Hv. unfold verify_authority in Hv.
  destruct (length (Required.collect Required.social ops) =? 0)%nat eqn:E.
  2:{ apply Nat.eqb_neq in E. exfalso. apply E.
      destruct (Required.collect Required.social ops) as [|w l] eqn:Ec; [done|].
      assert (w ∈ Required.collect Required.social ops) as Hin by (rewrite Ec; set_solver).
      apply Required.elem_of_collect in Hin as (op & Hop & Hin). rewrite (Hsoc op Hop) in Hin. set_solver. }
  cbn [negb] in Hv. apply run_ok in Hv as [s' Hrun].
  rewrite bind_run in Hrun. cbn [approve_all for_each mret St_ret] in Hrun.
  rewrite bind_run in Hrun. cbn [approve_all for_each mret St_ret] in Hrun.
  apply St_bind_ok in Hrun as ([] & s1 & H1 & Hrun).
  apply St_bind_ok in Hrun as ([] & s2 & H2 & H3).
  assert (Hsound : ∀ a, a ∈ ops ≫= Required.other → wf_weights a).
  { intros a Ha. apply list_elem_of_bind in Ha as (op & Ha & Hop). by eapply Ho. }
  assert (H1' : inv gm [] sigs ["temp"%string] s1 ∧
    ∀ a, a ∈ ops ≫= Required.other → sat gm sigs a).
  { revert H1 Hsound. generalize (ops ≫= Required.other) (init sigs) (init_sound sigs gm).
    intros l. induction l as [|a l IH]; intros s Hs H1 Hw; simpl in H1.
    { injection H1 as <-. split; [done|set_solver]. }
    apply St_bind_ok in H1 as ([] & s3 & Ha & H1).
    unfold require in Ha. apply St_bind_ok in Ha as (b & s4 & Ha & Has).
    apply assert_or_St_ok in Has as [-> ->].
    destruct (check_authority_sound gm [] lim sigs ["temp"%string] Hm a
      (Hw a ltac:(set_solver)) _ _ _ Hs Ha) as [Hs4 Hsat].
    destruct (IH s4 Hs4 H1 ltac:(set_solver)) as [? Hl]. split; [done|].
    intros x Hx. apply elem_of_cons in Hx as [->|Hx]; [by apply Hsat|by apply Hl]. }
  destruct H1' as [Hi1 Hother].
  eapply for_each_require with (get_money := gm) (available_keys := []) (sigs := sigs)
    (appr := ["temp"%string]) (P := λ w, approved gm [] sigs ["temp"%string] w ∨ sat_wallet gm gr sigs w) in H2 as [Hi2 Hmoney];
    [|exact Hm|intros w; apply or_else_sound; [by apply check_authority_id_sound|by apply check_getter_sound]|done].
  eapply for_each_require with (get_money := gm) (available_keys := []) (sigs := sigs)
    (appr := ["temp"%string]) (P := λ w, False ∨ sat_wallet gm gr sigs w) in H3 as [_ Hrec];
    [|exact Hm|intros w; apply or_else_sound; [|by apply check_getter_sound]|done].
  2:{ intros s r s3 Hs3 [= <- <-]. split; [done|].
      by intros [= Hb]. }
  split_and!.
  - intros op a Hop Ha. apply Hother, list_elem_of_bind. eauto.
  - intros op w Hop Hw. assert (w ∈ Required.collect Required.money ops) as Hin
      by (apply Required.elem_of_collect; eauto).
    specialize (Hmoney w Hin). rewrite approved_temp in Hmoney. tauto.
  - intros op w Hop Hw. assert (w ∈ Required.collect Required.recovery ops) as Hin
      by (apply Required.elem_of_collect; eauto).
    by destruct (Hrec w Hin).
Qed.
End verify_theorems.

(** ** The number of visited wallets stays within its limit *)
Section count_bound.
Import SignState.
Context (get_money : authority_getter) (available_keys : list public_key_type) (lim : limits).
Context (Hlim : 0 < max_wallet_auths lim < 2^32).

Definition count_ok (s : state) : Prop := 0 ≤ account_auth_count s ≤ max_wallet_auths lim.

Lemma key_loop_count thr l t m :
  preserves count_ok (key_loop available_keys lim thr l t m).
Proof.
  revert t m. induction l as [|[k w] l IH]; intros t m; cbn [key_loop]; eauto with preserves.
  apply preserves_bind; [|eauto with preserves].
  intros s Hs. unfold signed_by. by repeat case_bool_decide.
Qed.

Lemma wallet_loop_count deeper thr l t m :
  match deeper with Some f => ∀ a, preserves count_ok (f a) | None => True end →
  preserves count_ok (wallet_loop get_money lim deeper thr l t m).
Proof.
  intros Hd. revert t m. induction l as [|[a w] l IH]; intros t m s Hs; cbn [wallet_loop]; [done|].
  rewrite bind_run. cbn [get_st]. case_bool_decide.
  { repeat case_match_goal; try done. by apply IH. }
  destruct deeper as [check|]; [|by apply IH].
  destruct (_ && _) eqn:Efull; [done|].
  rewrite bind_run. cbn [count_wallet]. 
  match goal with |- count_ok (snd (?m ?s1)) => assert (Hs1 : count_ok s1); [|
    assert (Hp : preserves count_ok m); [|by apply Hp]] end.
  - unfold count_ok in *. simpl. rewrite (proj2 (Z.ltb_lt 0 _) (proj1 Hlim)) in Efull.
    simpl in Efull. bool_hyps. rewrite u32_id; lia.
  - apply preserves_bind; [apply preserves_lift|]. intros auth.
    apply preserves_bind; [apply Hd|]. intros ok.
    apply preserves_bind; [destruct ok; [by intros s2 Hs2|apply preserves_ret]|]. intros _.
    repeat (apply preserves_if; eauto with preserves).
Qed.

Lemma check_count rem a : preserves count_ok (check_authority_impl get_money available_keys lim rem a).
Proof.
  revert a. induction rem as [|rem IH]; intros a; cbn [check_authority_impl];
    (apply preserves_bind; [apply key_loop_count|]; intros [b|t m]; [apply preserves_ret|]);
    (apply preserves_bind; [by apply wallet_loop_count|]; intros [b|t' m']; apply preserves_ret).
Qed.
End count_bound.

(** C3: When [verify_authority] accepts a transaction's operations with the
    recovered signing keys, every authority they ask for is satisfied: with a
    social requirement nothing else is required and each wallet's social,
    money or recovery authority is met; otherwise each explicit authority is
    met, each money wallet's money or recovery authority, and each recovery
    wallet's recovery authority.  Satisfaction counts the exact weights of
    signing keys and of (transitively) satisfied wallets; the depth,
    membership and count limits can only make the check stricter. *)
Theorem verify_authority_sound gm gr gs lim ops sigs :
  getter_ok gm → getter_ok gr → getter_ok gs →
  (∀ op a, op ∈ ops → a ∈ Required.other op → wf_weights a) →
  SignState.verify_authority gm gr gs lim ops sigs [] [] [] = Ok tt →
  ((∃ op w, op ∈ ops ∧ w ∈ Required.social op) →
     (∀ op, op ∈ ops → Required.money op = [] ∧ Required.recovery op = [] ∧ Required.other op = []) ∧
     ∀ op w, op ∈ ops → w ∈ Required.social op →
       w = "temp"%string ∨ sat_wallet gs gs sigs w ∨ sat_wallet gs gm sigs w ∨ sat_wallet gs gr sigs w) ∧
  ((∀ op, op ∈ ops → Required.social op = []) →
     (∀ op a, op ∈ ops → a ∈ Required.other op → sat gm sigs a) ∧
     (∀ op w, op ∈ ops → w ∈ Required.money op →
        w = "temp"%string ∨ sat_wallet gm gm sigs w ∨ sat_wallet gm gr sigs w) ∧
     ∀ op w, op ∈ ops → w ∈ Required.recovery op → sat_wallet gm gr sigs w).
Proof.
  intros Hm Hr Hs Ho Hv. split.
  - intros Hsoc. by eapply verify_social_sound.
  - intros Hno. by eapply verify_money_sound.
Qed.

Lemma verify_authority_sound_witness :
  let auth := mkAuthority 1 [] [(7, 1)] in
  let g : SignState.authority_getter := λ _, Ok auth in
  let ops := [op_transfer (mkTransfer "alice" "bob" (mkAsset 5 XGT_SYMBOL) "")] in
  "alice"%string = "temp"%string ∨ sat_wallet g g [7] "alice" ∨ sat_wallet g g [7] "alice".
Proof.
  intros auth g ops.
  assert (Hg : getter_ok g).
  { intros w a [= <-]. split; intros p Hp; [|by inversion Hp].
    apply list_elem_of_singleton in Hp as ->. simpl. lia. }
  refine (proj1 (proj2 (proj2 (verify_authority_sound g g g SignState.default_limits ops [7]
    Hg Hg Hg _ _) _)) (op_transfer (mkTransfer "alice" "bob" (mkAsset 5 XGT_SYMBOL) "")) _ _ _).
  - intros op a Hop Ha. apply list_elem_of_singleton in Hop as ->. by inversion Ha.
  - vm_compute. reflexivity.
  - intros op Hop. by apply list_elem_of_singleton in Hop as ->.
  - by apply list_elem_of_singleton.
  - by apply list_elem_of_singleton.
Defined.

(** [verify_authority] accepts these operations with no signature at all,
    whatever the stored authorities: [wallet_update_operation] and
    [contract_invoke_operation] declare no required authority, and
    [xtt_setup_ico_tier_operation] declares it under a name
    ([get_required_active_authorities]) that the visitor never calls. *)
Theorem operations_without_authority gm gr gs lim op :
  match op with
  | op_wallet_update _ | op_xtt_setup_ico_tier _ | op_contract_invoke _
  | op_report_over_production _ => True
  | _ => False
  end →
  SignState.verify_authority gm gr gs lim [op] [] [] [] [] = Ok tt.
Proof. destruct op; intros Hop; try done. Qed.

Lemma operations_without_authority_witness :
  SignState.verify_authority (λ _, Exc OutOfRange) (λ _, Exc OutOfRange) (λ _, Exc OutOfRange)
    SignState.default_limits
    [op_xtt_setup_ico_tier (mkIcoTier "alice" 0 10 (mkPolicy (mkUnit [] []) []) true [])] [] [] [] [] = Ok tt.
Proof. apply operations_without_authority. exact I. Defined.

(** However wallets name each other, cyclically or not, the recursion over
    nested wallets ends and the counter of visited wallets never passes
    [max_wallet_auths]. *)
Theorem visited_wallets_bounded get_money available_keys lim rem auth s :
  0 < SignState.max_wallet_auths lim < 2^32 →
  0 ≤ SignState.account_auth_count s ≤ SignState.max_wallet_auths lim →
  0 ≤ SignState.account_auth_count
        (SignState.check_authority_impl get_money available_keys lim rem auth s).2
    ≤ SignState.max_wallet_auths lim.
Proof. intros Hl Hs. by apply (check_count get_money available_keys lim Hl rem auth s). Qed.

Lemma visited_wallets_bounded_witness :
  let g : SignState.authority_getter := λ _, Ok (mkAuthority 5 [("a"%string, 1); ("b"%string, 1)] []) in
  0 ≤ SignState.account_auth_count
        (SignState.check_authority_impl g [] SignState.default_limits 2
           (mkAuthority 9 [("a"%string, 1)] []) (SignState.init [])).2 ≤ 125.
Proof.
  intros g. apply (visited_wallets_bounded g [] SignState.default_limits); simpl; split; vm_compute; congruence.
Defined.
