(* ===== verification/Block.v ===== *)
(** * Block ids and the transaction Merkle root

    libraries/protocol/block.cpp and libraries/fc/include/fc/bitutil.hpp, and
    the version words of libraries/protocol/version.cpp. *)
From S2P Require Import Prelude Safe Asset Protocol.

Module Block.

Definition byte_at (x n : Z) : Z := Z.land (Z.shiftr x n) 255.
Definition endian_reverse_u32 (x : Z) : Z :=
  Z.lor (Z.lor (Z.lor (byte_at x 24) (Z.shiftl (byte_at x 16) 8))
               (Z.shiftl (byte_at x 8) 16)) (Z.shiftl (byte_at x 0) 24).

Definition word0 (id : block_id_type) : Z := nth 0 id 0.

Definition num_from_id (id : block_id_type) : Z := endian_reverse_u32 (word0 id).
Definition block_num (h : signed_block_header) : Z := u32 (num_from_id (previous h) + 1).

Section with_env.
Context `{Env}.

(** The hash is seven words, of which the first is replaced by the number and
    the first five are kept. *)
Definition id (h : signed_block_header) : block_id_type :=
  take 5 (<[0%nat := endian_reverse_u32 (block_num h)]> (sha224_header h)).

(** [ids[k++] = hash( ids[i], ids[i+1] )] for [i = 0, 2, ..], on the vector
    itself; [n] is the number of iterations left. *)
Fixpoint pair_loop (n i k : nat) (ids : list digest_type) : list digest_type * nat :=
  match n with
  | O => (ids, k)
  | S n' =>
      let h := hash_pair (nth i ids 0) (nth (S i) ids 0) in
      pair_loop n' (i + 2)%nat (k + 1)%nat (<[k := h]> ids)
  end.

Definition merkle_round (cur : nat) (ids : list digest_type) : list digest_type * nat :=
  let i_max := (cur - cur mod 2)%nat in
  let '(ids1, k) := pair_loop (i_max / 2)%nat 0 0 ids in
  if (cur mod 2 =? 1)%nat then (<[k := nth i_max ids1 0]> ids1, (k + 1)%nat) else (ids1, k).

(** [while( current_number_of_hashes > 1 )]; a round at least keeps the count
    and lowers it when it is above one, so the count is enough fuel. *)
Fixpoint merkle_loop (fuel cur : nat) (ids : list digest_type) : list digest_type :=
  match fuel with
  | O => ids
  | S fuel' =>
      if (1 <? cur)%nat then
        let '(ids', cur') := merkle_round cur ids in merkle_loop fuel' cur' ids'
      else ids
  end.

Definition calculate_merkle_root (b : signed_block) : checksum_type :=
  match transactions b with
  | [] => replicate 5 0
  | txs =>
      let ids := tx_merkle_digest <$> txs in
      hash_root (nth 0 (merkle_loop (length ids) (length ids) ids) 0)
  end.

(** Reference: the tree level by level on lists. *)
Fixpoint level (l : list digest_type) : list digest_type :=
  match l with
  | a :: b :: l' => hash_pair a b :: level l'
  | _ => l
  end.
Fixpoint tree (n : nat) (l : list digest_type) : list digest_type :=
  match n with O => l | S n' => match l with _ :: _ :: _ => tree n' (level l) | _ => l end end.
Definition merkle_root_ref (l : list digest_type) : checksum_type :=
  hash_root (nth 0 (tree (length l) l) 0).

(** The pairs that are hashed on the way up, in order, and what the root hash
    is taken of. *)
Fixpoint level_pairs (l : list digest_type) : list (digest_type * digest_type) :=
  match l with
  | a :: b :: l' => (a, b) :: level_pairs l'
  | _ => []
  end.
Fixpoint tree_pairs (n : nat) (l : list digest_type) : list (digest_type * digest_type) :=
  match n with
  | O => []
  | S n' => match l with _ :: _ :: _ => level_pairs l ++ tree_pairs n' (level l) | _ => [] end
  end.
Definition hashed_pairs (l : list digest_type) : list (digest_type * digest_type) := tree_pairs (length l) l.
Definition root_input (l : list digest_type) : digest_type := nth 0 (tree (length l) l) 0.
(** Two lists of digests whose trees hash two different pairs at the same
    place to the same digest, or two different tops to the same root. *)
Definition trees_collide (l l' : list digest_type) : Prop :=
  (∃ i p q, hashed_pairs l !! i = Some p ∧ hashed_pairs l' !! i = Some q ∧
     p ≠ q ∧ hash_pair p.1 p.2 = hash_pair q.1 q.2) ∨
  (root_input l ≠ root_input l' ∧ hash_root (root_input l) = hash_root (root_input l')).

End with_env.
End Block.

(** ** Lemmas *)
Section endian.
Import Block.

Definition bytes4 (a b c d : Z) : Z := a + 256 * (b + 256 * (c + 256 * d)).

Lemma byte_bytes4 a b c d :
  0 ≤ a < 256 → 0 ≤ b < 256 → 0 ≤ c < 256 → 0 ≤ d < 256 →
  byte_at (bytes4 a b c d) 0 = a ∧ byte_at (bytes4 a b c d) 8 = b ∧
  byte_at (bytes4 a b c d) 16 = c ∧ byte_at (bytes4 a b c d) 24 = d.
Proof.
  intros Ha Hb Hc Hd. unfold byte_at, bytes4. change 255 with (Z.ones 8).
  rewrite !Z.land_ones, !Z.shiftr_div_pow2 by lia. change (2^8) with 256.
  change (2^0) with 1. change (2^16) with (256 * 256). change (2^24) with (256 * 256 * 256).
  assert (Hstep : ∀ x y, 0 ≤ x < 256 → (x + 256 * y) / 256 = y ∧ (x + 256 * y) mod 256 = x).
  { intros x y Hx. split; symmetry;
      [apply (Z.div_unique _ _ _ x)|apply (Z.mod_unique _ _ y)]; lia. }
  rewrite Z.div_1_r, <- !Z.div_div by lia.
  destruct (Hstep a (b + 256 * (c + 256 * d))) as [-> ->]; [done|].
  destruct (Hstep b (c + 256 * d)) as [-> ->]; [done|].
  destruct (Hstep c d) as [-> ->]; [done|]. rewrite Z.mod_small by lia. done.
Qed.

Lemma endian_bytes4 a b c d :
  0 ≤ a < 256 → 0 ≤ b < 256 → 0 ≤ c < 256 → 0 ≤ d < 256 →
  endian_reverse_u32 (bytes4 a b c d) = bytes4 d c b a.
Proof.
  intros Ha Hb Hc Hd. unfold endian_reverse_u32.
  destruct (byte_bytes4 a b c d) as (-> & -> & -> & ->); [done..|].
  rewrite !Z.shiftl_mul_pow2 by lia.
  rewrite (Z.lor_comm d), (lor_add_low c d 8) by lia.
  rewrite (Z.lor_comm (c * 2^8 + d)), (lor_add_low b _ 16) by lia.
  rewrite (Z.lor_comm (b * 2^16 + _)), (lor_add_low a _ 24) by lia.
  unfold bytes4. lia.
Qed.

Lemma bytes4_split x : 0 ≤ x < 2^32 → ∃ a b c d,
  0 ≤ a < 256 ∧ 0 ≤ b < 256 ∧ 0 ≤ c < 256 ∧ 0 ≤ d < 256 ∧ x = bytes4 a b c d.
Proof.
  intros Hx. exists (x mod 256), (x / 256 mod 256), (x / 256 / 256 mod 256), (x / 256 / 256 / 256).
  pose proof (Z.mod_pos_bound x 256). pose proof (Z.mod_pos_bound (x / 256) 256).
  pose proof (Z.mod_pos_bound (x / 256 / 256) 256).
  pose proof (Z.div_mod x 256). pose proof (Z.div_mod (x / 256) 256).
  pose proof (Z.div_mod (x / 256 / 256) 256).
  unfold bytes4. split_and!; try lia.
Qed.

Lemma endian_involutive x : 0 ≤ x < 2^32 →
  endian_reverse_u32 (endian_reverse_u32 x) = x ∧ 0 ≤ endian_reverse_u32 x < 2^32.
Proof.
  intros Hx. destruct (bytes4_split x Hx) as (a & b & c & d & ? & ? & ? & ? & ->).
  rewrite !endian_bytes4 by done. split; [done|]. unfold bytes4. lia.
Qed.
End endian.

Section merkle.
Import Block.
Context `{Env}.

Lemma level_length l : length (level l) = ((length l + 1) / 2)%nat.
Proof.
  assert (Hgen : ∀ n l, (length l ≤ n)%nat → length (level l) = ((length l + 1) / 2)%nat).
  { induction n as [|n IH]; intros [|a [|b l']] Hl; try done; cbn [length level] in *; [lia|].
    rewrite IH by lia. replace (S (S (length l')) + 1)%nat with (length l' + 1 + 1 * 2)%nat by lia.
    rewrite Nat.div_add by lia. lia. }
  by apply (Hgen (length l)).
Qed.

(** The in-place loop: [out] holds the finished hashes, [mid] cells that are
    read no more, [l] the pairs still to be hashed. *)
Lemma pair_loop_spec n (out mid l : list digest_type) :
  (2 * n ≤ length l)%nat → length mid = length out →
  ∃ mid', length mid' = (length mid + n)%nat ∧
    pair_loop n (length out + length mid) (length out) (out ++ mid ++ l) =
    (out ++ level (take (2 * n) l) ++ mid' ++ drop (2 * n) l, (length out + n)%nat).
Proof.
  revert out mid l. induction n as [|n IH]; intros out mid l Hl Hmid.
  { exists mid. split; [lia|]. simpl. by rewrite drop_0, Nat.add_0_r. }
  destruct l as [|a [|b l]]; simpl in Hl; [lia..|].
  cbn [pair_loop].
  assert (Hi : ∀ j, nth (length out + length mid + j) (out ++ mid ++ a :: b :: l) 0 =
                    nth j (a :: b :: l) 0).
  { intros j. rewrite app_assoc, app_nth2; rewrite length_app; [|lia]. f_equal. lia. }
  pose proof (Hi 0%nat) as H0. rewrite Nat.add_0_r in H0. rewrite H0.
  replace (S (length out + length mid)) with (length out + length mid + 1)%nat by lia.
  rewrite Hi. cbn [nth].
  assert (Hins : ∃ mid1, length mid1 = S (length mid) ∧
    <[length out := hash_pair a b]> (out ++ mid ++ a :: b :: l) =
    (out ++ [hash_pair a b]) ++ mid1 ++ l).
  { destruct mid as [|x mid].
    - exists [b]. split; [done|]. simpl. rewrite insert_app_r_alt by lia.
      rewrite Nat.sub_diag. simpl. by rewrite <- app_assoc.
    - exists (mid ++ [a; b]). split; [rewrite length_app; simpl; lia|].
      rewrite insert_app_r_alt by lia. rewrite Nat.sub_diag. simpl.
      rewrite <- !app_assoc. done. }
  destruct Hins as (mid1 & Hlen1 & ->).
  destruct (IH (out ++ [hash_pair a b]) mid1 l) as (mid' & Hlen' & Hrun);
    [lia|rewrite length_app; simpl; lia|].
  rewrite !length_app in Hrun. simpl length in Hrun.
  replace (length out + length mid + 2)%nat with (length out + 1 + length mid1)%nat by lia.
  rewrite Hrun. exists mid'. split; [lia|].
  replace (2 * S n)%nat with (S (S (2 * n))) by lia. cbn [take drop level].
  rewrite <- !app_assoc. simpl. f_equal. lia.
Qed.

Lemma merkle_round_spec (l junk : list digest_type) :
  ∃ junk', merkle_round (length l) (l ++ junk) = (level l ++ junk', length (level l)).
Proof.
  unfold merkle_round. set (n := (length l / 2)%nat).
  assert (Hlen : length l = (2 * n + length l mod 2)%nat) by (unfold n; by apply Nat.div_mod_eq).
  assert (Hmod : (length l mod 2 < 2)%nat) by (apply Nat.mod_upper_bound; lia).
  replace ((length l - length l mod 2) / 2)%nat with n
    by (rewrite Hlen at 1; rewrite Nat.add_sub, Nat.mul_comm, Nat.div_mul; lia).
  replace (length l - length l mod 2)%nat with (2 * n)%nat by lia.
  destruct (pair_loop_spec n [] [] (l ++ junk)) as (mid' & Hm & Hrun); [rewrite length_app; lia|done|].
  simpl in Hrun. rewrite Hrun. simpl in Hm. clear Hrun.
  replace (n + (n + 0))%nat with (2 * n)%nat by lia.
  destruct (length l mod 2 =? 1)%nat eqn:E.
  - apply Nat.eqb_eq in E.
    destruct (nil_or_length_pos l) as [->|_]; [done|].
    assert (Hl : ∃ x, l = take (2 * n) l ++ [x]).
    { destruct (drop (2 * n) l) as [|x [|y r]] eqn:Ed.
      - apply (f_equal length) in Ed. rewrite length_drop in Ed. simpl in Ed. lia.
      - exists x. by rewrite <- Ed, take_drop.
      - apply (f_equal length) in Ed. rewrite length_drop in Ed. simpl in Ed. lia. }
    destruct Hl as [x Hl]. set (p := take (2 * n) l) in *.
    assert (Hp : length p = (2 * n)%nat) by (unfold p; rewrite length_take; lia).
    rewrite Hl. rewrite <- !app_assoc. rewrite take_app_length', drop_app_length' by done.
    assert (Hlp : length (level p) = n).
    { rewrite level_length, Hp. replace (2 * n + 1)%nat with (1 + n * 2)%nat by lia.
      rewrite Nat.div_add by lia. done. }
    rewrite app_assoc, app_nth2; rewrite length_app, Hlp, Hm; [|lia].
    replace (2 * n - (n + n))%nat with 0%nat by lia. cbn [nth app].
    assert (Hodd : ∀ q y, (∃ k, length q = (2 * k)%nat) → level (q ++ [y]) = level q ++ [y]).
    { intros q y [k Hk]. revert q Hk. induction k as [|k IH]; intros q Hk.
      - destruct q; [done|simpl in Hk; lia].
      - destruct q as [|a [|b q]]; simpl in Hk; [lia..|]. simpl. rewrite IH by lia. done. }
    rewrite (Hodd p x) by eauto. rewrite length_app, Hlp. simpl.
    destruct n as [|n'].
    + simpl in Hm. apply nil_length_inv in Hm as ->. destruct p; [|done]. simpl. eauto.
    + destruct mid' as [|y mid']; [simpl in Hm; lia|].
      exists (mid' ++ x :: junk). f_equal. rewrite <- app_assoc.
      rewrite insert_app_r_alt by lia. rewrite Hlp, Nat.sub_diag. simpl. by rewrite <- app_assoc.
  - assert (Hz : (length l mod 2)%nat = 0%nat) by (apply Nat.eqb_neq in E; lia).
    rewrite take_app_length', drop_app_length' by lia.
    exists (mid' ++ junk). f_equal. rewrite level_length, Hlen, Hz.
    replace (2 * n + 0 + 1)%nat with (1 + n * 2)%nat by lia.
    rewrite Nat.div_add by lia. done.
Qed.

Lemma merkle_loop_spec fuel (l junk : list digest_type) :
  ∃ junk', merkle_loop fuel (length l) (l ++ junk) = tree fuel l ++ junk'.
Proof.
  revert l junk. induction fuel as [|fuel IH]; intros l junk; [by exists junk|].
  cbn [merkle_loop tree]. destruct l as [|a [|b l]]; [by exists junk..|].
  replace (1 <? length (a :: b :: l))%nat with true by (symmetry; apply Nat.ltb_lt; simpl; lia).
  destruct (merkle_round_spec (a :: b :: l) junk) as [junk1 ->]. apply IH.
Qed.

(** Enough rounds leave a single hash. *)
Lemma tree_single n l : l ≠ [] → (length l ≤ S n)%nat → ∃ x, tree n l = [x].
Proof.
  revert l. induction n as [|n IH]; intros l Hne Hl.
  - destruct l as [|a [|b l]]; simpl in Hl; [done|eauto|lia].
  - destruct l as [|a [|b l]]; [done|eauto|]. cbn [tree]. apply IH; [done|].
    rewrite level_length. cbn [length] in *. apply Nat.lt_succ_r, Nat.Div0.div_lt_upper_bound. lia.
Qed.

Lemma merkle_loop_root l : l ≠ [] →
  nth 0 (merkle_loop (length l) (length l) l) 0 = nth 0 (tree (length l) l) 0 ∧
  ∃ x, tree (length l) l = [x].
Proof.
  intros Hne. destruct (merkle_loop_spec (length l) l []) as [junk' Hr].
  rewrite app_nil_r in Hr. rewrite Hr.
  destruct (tree_single (length l) l Hne) as [x Hx]; [lia|]. rewrite Hx. split; [done|eauto].
Qed.

(** Pairs at the same place of two lists with the same hash. *)
Definition pairs_collide (ps qs : list (digest_type * digest_type)) : Prop :=
  ∃ i p q, ps !! i = Some p ∧ qs !! i = Some q ∧ p ≠ q ∧ hash_pair p.1 p.2 = hash_pair q.1 q.2.
Lemma pairs_collide_app_l ps qs ps' qs' : pairs_collide ps qs → pairs_collide (ps ++ ps') (qs ++ qs').
Proof.
  intros (i & p & q & Hp & Hq & Hne). exists i, p, q.
  rewrite !lookup_app_l by (by eapply lookup_lt_Some). done.
Qed.
Lemma pairs_collide_app_r ps qs ps' qs' : length ps = length qs →
  pairs_collide ps' qs' → pairs_collide (ps ++ ps') (qs ++ qs').
Proof.
  intros Hl (i & p & q & Hp & Hq & Hne). exists (length ps + i)%nat, p, q.
  rewrite !lookup_app_r by lia. rewrite <- Hl. replace (length ps + i - length ps)%nat with i by lia. done.
Qed.

(** Lists with equal levels are equal, or two pairs hashed for the levels
    collide; and so for whole trees. *)
Lemma level_pairs_length l1 l2 : length l1 = length l2 → length (level_pairs l1) = length (level_pairs l2).
Proof.
  revert l1 l2. assert (Hgen : ∀ n l1 l2, (length l1 ≤ n)%nat → length l1 = length l2 →
    length (level_pairs l1) = length (level_pairs l2)); [|intros; by apply (Hgen (length l1))].
  induction n as [|n IH]; intros [|a [|b k1]] [|c [|d k2]] Hn Hl; simpl in *; try done; try lia.
  f_equal. apply IH; lia.
Qed.
Lemma level_binds l1 l2 : length l1 = length l2 → level l1 = level l2 →
  l1 = l2 ∨ pairs_collide (level_pairs l1) (level_pairs l2).
Proof.
  revert l1 l2. assert (Hgen : ∀ n l1 l2, (length l1 ≤ n)%nat → length l1 = length l2 → level l1 = level l2 →
    l1 = l2 ∨ pairs_collide (level_pairs l1) (level_pairs l2)); [|intros; by apply (Hgen (length l1))].
  induction n as [|n IH]; intros [|a [|b k1]] [|c [|d k2]] Hn Hl; simpl in *; try lia; auto.
  intros [= Hh Hk]. destruct (decide ((a, b) = (c, d))) as [[= -> ->]|Hne].
  - destruct (IH k1 k2 ltac:(lia) ltac:(lia) Hk) as [->|Hc]; [by left|right].
    by apply (pairs_collide_app_r [(c, d)] [(c, d)]).
  - right. by exists 0%nat, (a, b), (c, d).
Qed.
Lemma tree_binds n l1 l2 : length l1 = length l2 → tree n l1 = tree n l2 →
  l1 = l2 ∨ pairs_collide (tree_pairs n l1) (tree_pairs n l2).
Proof.
  revert l1 l2. induction n as [|n IH]; intros l1 l2 Hl; [by left|].
  destruct l1 as [|a [|b k1]], l2 as [|c [|d k2]]; simpl in Hl; try lia; [by left|by left|].
  cbn [tree tree_pairs]. intros Ht.
  apply IH in Ht as [Ht|Ht]; [| |rewrite !level_length; cbn [length]; by rewrite Hl].
  - apply level_binds in Ht as [?|Ht]; [by left|right|cbn [length]; lia]. by apply pairs_collide_app_l.
  - right. apply pairs_collide_app_r; [|done]. apply level_pairs_length. cbn [length]. lia.
Qed.
Lemma root_binds l1 l2 : length l1 = length l2 → l1 ≠ [] → merkle_root_ref l1 = merkle_root_ref l2 →
  l1 = l2 ∨ trees_collide l1 l2.
Proof.
  intros Hl Hne Hr. assert (l2 ≠ []) as Hne' by (by destruct l1, l2).
  destruct (decide (root_input l1 = root_input l2)) as [Ht|Ht]; [|right; by right].
  destruct (merkle_loop_root _ Hne) as [_ [x Hx]], (merkle_loop_root _ Hne') as [_ [y Hy]].
  unfold root_input in Ht. rewrite Hx, Hy in Ht. simpl in Ht. subst y.
  destruct (tree_binds (length l1) l1 l2 Hl) as [?|Hc]; [congruence|by left|right; left].
  unfold hashed_pairs. rewrite <- Hl. done.
Qed.
Lemma merkle_root_is_ref (b : signed_block) : transactions b ≠ [] →
  calculate_merkle_root b = merkle_root_ref (tx_merkle_digest <$> transactions b).
Proof.
  unfold calculate_merkle_root, merkle_root_ref.
  destruct (transactions b) as [|t ts] eqn:E; [done|]. intros _. f_equal. by apply merkle_loop_root.
Qed.
End merkle.

(** C11: The Merkle root computed by rewriting the digest vector in place ends
    after finitely many rounds with a single hash, and is the root of the
    level-by-level pair tree over the transactions' digests.  Of two blocks
    with equally many transactions and the same root, either the digests are
    the same in the same order, or the two computations hash two different
    pairs at the same place of the tree, or two different tops, to the same
    value. *)
Theorem merkle_root_correct `{Env} (b : signed_block) :
  transactions b ≠ [] →
  Block.calculate_merkle_root b = Block.merkle_root_ref (tx_merkle_digest <$> transactions b) ∧
  ∀ b', length (transactions b') = length (transactions b) →
    Block.calculate_merkle_root b' = Block.calculate_merkle_root b →
    tx_merkle_digest <$> transactions b' = tx_merkle_digest <$> transactions b ∨
    Block.trees_collide (tx_merkle_digest <$> transactions b') (tx_merkle_digest <$> transactions b).
Proof.
  intros Hne. split; [by apply merkle_root_is_ref|]. intros b' Hlen Heq.
  assert (Hne' : transactions b' ≠ []) by (by destruct (transactions b'), (transactions b)).
  rewrite !merkle_root_is_ref in Heq by done.
  apply root_binds; [by rewrite !length_fmap| |done]. by destruct (transactions b').
Qed.

(** The number stored in a block id is the block's number: for a header
    whose 224-bit hash has seven words, [num_from_id( id() ) == block_num()],
    and a block whose [previous] is that id has the next number. *)
Theorem block_id_carries_number `{Env} (h h' : signed_block_header) :
  length (sha224_header h) = 7%nat →
  Block.num_from_id (Block.id h) = Block.block_num h ∧
  length (Block.id h) = 5%nat ∧
  (previous h' = Block.id h → Block.block_num h' = u32 (Block.block_num h + 1)).
Proof.
  intros Hlen.
  assert (Hnum : Block.num_from_id (Block.id h) = Block.block_num h).
  { unfold Block.num_from_id, Block.id, Block.word0.
    destruct (sha224_header h) as [|w ws]; [done|]. simpl.
    apply endian_involutive. unfold Block.block_num, u32. apply Z.mod_pos_bound. lia. }
  split_and!; [done| |].
  - unfold Block.id. rewrite length_take, length_insert. lia.
  - intros Hp. unfold Block.block_num at 1. by rewrite Hp, Hnum.
Qed.

(** Two blocks that differ in their witness have the same transactions. *)
Lemma merkle_root_correct_witness :
  let tx e := mkTx 0 0 e [] [] [] in
  let b := mkBlock (mkHeader null_block_id 0 "" [] [] 0) [tx 1; tx 2; tx 3] in
  let b' := mkBlock (mkHeader null_block_id 0 "w" [] [] 0) [tx 1; tx 2; tx 3] in
  Block.calculate_merkle_root b =
    Block.merkle_root_ref (tx_merkle_digest <$> transactions b) ∧
  b' ≠ b ∧
  (tx_merkle_digest <$> transactions b' = tx_merkle_digest <$> transactions b ∨
   Block.trees_collide (tx_merkle_digest <$> transactions b') (tx_merkle_digest <$> transactions b)).
Proof.
  intros tx b b'. destruct (merkle_root_correct b ltac:(discriminate)) as [Href Hb].
  split_and!; [exact Href|discriminate|exact (Hb b' eq_refl eq_refl)].
Defined.

Lemma block_id_carries_number_witness :
  let h := mkHeader null_block_id 9 "w" [] [] 0 in
  Block.num_from_id (Block.id h) = Block.block_num h ∧ Block.block_num h = 1.
Proof.
  intros h. split; [|reflexivity].
  refine (proj1 (block_id_carries_number h h _)). reflexivity.
Defined.
