(* ===== verification/Digest.v ===== *)
(** * What is hashed and signed

    libraries/protocol/transaction.cpp, block.cpp, types.cpp and the proofs of
    work of xgt_operations.cpp: ids, digests, keys as text, wallet names.  The
    hash functions of OpenSSL and the curve of secp256k1 are parameters over
    bytes; the bytes are those of [Wire].

    A hash, a key and a signature are the number that their bytes spell, the
    first one the most significant; the words of an id are little endian.  The
    functions are total; packing throws only for a value that holds a symbol
    which does not validate, and a digest is meant for values that are packed. *)
From S2P Require Import Prelude Safe Asset Raw Encoding Protocol Wire Block.

(** Code of third parties. *)
Class Crypto := {
  sha256 : bytes → bytes;
  sha224 : bytes → bytes;
  ripemd160 : bytes → bytes;
  (** [secp256k1_ecdsa_recover_compact]: digest, 64 bytes and the recovery id *)
  secp256k1_recover : bytes → bytes → Z → option bytes;
  (** [private_key::sign_compact] for the key that a secret gives *)
  secp256k1_sign : canonical_signature_type → digest_type → digest_type → signature_type;
  (** the comparison with half the order of the curve, a number of Boost *)
  is_bip_0062_canonical : bytes → bool;
  utf8_is_valid : string → bool;
  json_valid : string → bool
}.
(** What the code relies on: the sizes of the hashes. *)
Class CryptoSizes `{Crypto} : Prop := {
  sha256_size b : is_bytes (sha256 b) ∧ length (sha256 b) = 32%nat;
  sha224_size b : is_bytes (sha224 b) ∧ length (sha224 b) = 28%nat;
  ripemd160_size b : is_bytes (ripemd160 b) ∧ length (ripemd160 b) = 20%nat
}.

Module Digest.
Import Raw Encoding.

Definition be_bytes (n : nat) (v : Z) : bytes := reverse (AssetSymbol.le_bytes n v).
(** The first [n] words of a hash, as they lie in memory. *)
Fixpoint words_of (n : nat) (b : bytes) : list Z :=
  match n with O => [] | S n => AssetSymbol.from_le (take 4 b) :: words_of n (drop 4 b) end.
Definition packed {A} (c : codec A) (a : A) : bytes := match enc c a with Ok b => b | Exc _ => [] end.

Lemma from_le_value l : AssetSymbol.from_le l = value 256 l.
Proof. induction l as [|b l IH]; [done|]. cbn [AssetSymbol.from_le value]. by rewrite IH. Qed.
Lemma le_bytes_range n v : is_bytes (AssetSymbol.le_bytes n v).
Proof. revert v. induction n as [|n IH]; intros v; constructor; [apply Z.mod_pos_bound; lia|apply IH]. Qed.
Lemma le_bytes_value l : is_bytes l → AssetSymbol.le_bytes (length l) (value 256 l) = l.
Proof.
  induction 1 as [|b l Hb Hl IH]; [done|]. cbn [length AssetSymbol.le_bytes value].
  rewrite <- (Z.mod_unique_pos (b + 256 * value 256 l) 256 (value 256 l) b) by lia.
  by rewrite <- (Z.div_unique_pos (b + 256 * value 256 l) 256 (value 256 l) b), IH by lia.
Qed.
Lemma length_be_bytes n v : length (be_bytes n v) = n.
Proof. unfold be_bytes. by rewrite length_reverse, length_le_bytes. Qed.
Lemma be_bytes_range n v : is_bytes (be_bytes n v).
Proof. apply Forall_reverse, le_bytes_range. Qed.
Lemma spell_be_bytes n v : 0 ≤ v < 256 ^ Z.of_nat n → spell (be_bytes n v) = v.
Proof. intros Hv. unfold spell, be_bytes. rewrite reverse_involutive, <- from_le_value. by apply from_le_bytes. Qed.
Lemma be_bytes_spell b : is_bytes b → be_bytes (length b) (spell b) = b.
Proof.
  intros Hb. unfold be_bytes, spell. rewrite <- (length_reverse b), le_bytes_value by (by apply Forall_reverse).
  apply reverse_involutive.
Qed.
Lemma spell_inj b b' : is_bytes b → is_bytes b' → length b = length b' → spell b = spell b' → b = b'.
Proof. intros Hb Hb' Hl Hs. by rewrite <- (be_bytes_spell b Hb), <- (be_bytes_spell b' Hb'), Hl, Hs. Qed.
Lemma packed_ok {A} (c : codec A) a : valid c a = true → enc c a = Ok (packed c a).
Proof. intros (bs & Hbs & _)%codec_law. unfold packed. by rewrite Hbs. Qed.
Lemma packed_inj {A} (c : codec A) a b : Codec.shallow c = true → valid c a = true → valid c b = true →
  packed c a = packed c b → a = b.
Proof.
  intros Hs Ha Hb He. eapply (Codec.codec_injective c a b _ _ [] []); [done..|by apply packed_ok|by apply packed_ok|].
  by rewrite He.
Qed.

Section with_crypto.
Context `{Abi} `{Crypto}.

Definition hash {A} (c : codec A) (a : A) : digest_type := spell (sha256 (packed c a)).
Definition hash_digest (h : digest_type) : digest_type := spell (sha256 (be_bytes 32 h)).
Definition hash_string (s : string) : digest_type := spell (sha256 (string_bytes s)).

(** ** Keys from signatures *)
Definition is_fc_canonical (c : bytes) : bool :=
  let at_ i := nth i c 0 in
  let high i := negb (Z.land (at_ i) 0x80 =? 0) in
  negb (high 1%nat) && negb ((at_ 1%nat =? 0) && negb (high 2%nat)) &&
  negb (high 33%nat) && negb ((at_ 33%nat =? 0) && negb (high 34%nat)).
Definition is_canonical (c : bytes) (canon_type : canonical_signature_type) : bool :=
  match canon_type with
  | bip_0062 => is_bip_0062_canonical c
  | fc_canonical => is_fc_canonical c
  | non_canonical => true
  end.
Definition public_key (sig : signature_type) (digest : digest_type) (canon_type : canonical_signature_type) :
    result public_key_type :=
  let c := be_bytes 65 sig in
  let nV := nth 0 c 0 in
  assert_or (negb ((nV <? 27) || (35 <=? nV))) FcException ;;
  fc_assert (is_canonical c canon_type) ;;
  match secp256k1_recover (be_bytes 32 digest) (drop 1 c) (Z.land (nV - 27) 3) with
  | Some k => fc_assert (length k =? 33)%nat ;; mret (spell k)
  | None => mthrow AssertException
  end.

(** ** Transactions *)
Definition merkle_digest (tx : signed_transaction) : digest_type := hash Wire.signed_transaction tx.
Definition digest (tx : signed_transaction) : digest_type := hash Wire.transaction (Wire.tx_content_of tx).
Definition sig_bytes (chain_id : digest_type) (tx : signed_transaction) : bytes :=
  be_bytes 32 chain_id ++ packed Wire.transaction (Wire.tx_content_of tx).
Definition sig_digest (chain_id : digest_type) (tx : signed_transaction) : digest_type :=
  spell (sha256 (sig_bytes chain_id tx)).
Definition id (tx : signed_transaction) : transaction_id_type := words_of 5 (be_bytes 32 (digest tx)).
Definition add_signature (sig : signature_type) (tx : signed_transaction) : signed_transaction :=
  mkTx (ref_block_num tx) (ref_block_prefix tx) (expiration tx) (operations tx) (tx_extensions tx) (signatures tx ++ [sig]).
Definition sign (key : digest_type) (chain_id : digest_type) (canon_type : canonical_signature_type)
    (tx : signed_transaction) : signed_transaction :=
  add_signature (secp256k1_sign canon_type key (sig_digest chain_id tx)) tx.
(** The [const] overload packs the signed transaction. *)
Definition const_sign_bytes (chain_id : digest_type) (tx : signed_transaction) : bytes :=
  be_bytes 32 chain_id ++ packed Wire.signed_transaction tx.
Definition const_sign (key : digest_type) (chain_id : digest_type) (canon_type : canonical_signature_type)
    (tx : signed_transaction) : signature_type :=
  secp256k1_sign canon_type key (spell (sha256 (const_sign_bytes chain_id tx))).
Definition set_expiration (t : time_point_sec) (tx : signed_transaction) : signed_transaction :=
  mkTx (ref_block_num tx) (ref_block_prefix tx) t (operations tx) (tx_extensions tx) (signatures tx).
Definition set_reference_block (b : block_id_type) (tx : signed_transaction) : signed_transaction :=
  mkTx (u16 (Block.num_from_id b)) (nth 1 b 0) (expiration tx) (operations tx) (tx_extensions tx) (signatures tx).

(** ** Block headers *)
Definition header_digest (h : signed_block_header) : digest_type := hash Wire.block_header (Wire.content_of h).
Definition signee (canon_type : canonical_signature_type) (h : signed_block_header) : result public_key_type :=
  public_key (witness_signature h) (header_digest h) canon_type.
Definition sign_header (signer : digest_type) (canon_type : canonical_signature_type) (h : signed_block_header) :
    signed_block_header :=
  mkHeader (previous h) (timestamp h) (witness h) (transaction_merkle_root h) (header_extensions h)
    (secp256k1_sign canon_type signer (header_digest h)).
Definition validate_signee (expected : public_key_type) (canon_type : canonical_signature_type)
    (h : signed_block_header) : result bool :=
  k ← signee canon_type h; mret (k =? expected).

(** ** Proofs of work *)
Definition sha2_proof (input : pow_input) : digest_type := hash_digest (hash Wire.pow_input input).
Definition summary (h : digest_type) : Z := approx_log_32 (be_bytes 32 h).
(** [sha2_pow::create]; the member [prev_block] of the work itself is not set. *)
Definition sha2_pow_create (recent_block : block_id_type) (name : wallet_name_type) (n : Z) : pow_work :=
  let input := mkPowInput name recent_block n in
  work_sha2_pow input (sha2_proof input) (replicate 5 0) (summary (sha2_proof input)).
(** [pow::create]: what the summary of an input is. *)
Definition pow_summary_of (input : pow_input) : result Z :=
  let prv_key := hash Wire.pow_input input in
  let input := hash_digest prv_key in
  let signature := secp256k1_sign fc_canonical prv_key input in
  let sig_hash := hash Wire.signature signature in
  recover ← public_key signature sig_hash fc_canonical;
  mret (summary (hash (Codec.pair_codec Wire.digest Wire.public_key) (input, recover))).

(** ** Keys as text, wallet names *)
Definition XGT_ADDRESS_PREFIX : string := "XGT".
Definition XGT_WALLET_NAME_LENGTH : nat := 40.
Definition binary_key : codec (Z * Z) := Codec.object
  (Codec.members (Wire.spelled 33) (Codec.members (Codec.uint 4) Codec.no_members))
  (λ '(k, check), (k, (check, tt))) (λ '(k, (check, _)), (k, check)) ltac:(by intros []).
Definition key_check (k : public_key_type) : Z := nth 0 (words_of 5 (ripemd160 (be_bytes 33 k))) 0.
Definition key_to_string (k : public_key_type) : string :=
  XGT_ADDRESS_PREFIX +:+ to_base58 (packed binary_key (k, key_check k)).
(** [unpack_from_vector]: what follows the value is ignored, and no bytes at all
    leave the value as it is. *)
Definition unpack_from_vector {A} (c : codec A) (default : A) (b : bytes) : result A :=
  match b with [] => mret default | _ :: _ => (dec c 1 b).1 end.
Definition key_from_string (base58str : string) : result public_key_type :=
  let prefix_len := String.length XGT_ADDRESS_PREFIX in
  fc_assert (prefix_len <? String.length base58str)%nat ;;
  fc_assert (String.eqb (String.substring 0 prefix_len base58str) XGT_ADDRESS_PREFIX) ;;
  bin ← from_base58 (String.substring prefix_len (String.length base58str) base58str);
  bin_key ← unpack_from_vector binary_key (0, 0) bin;
  fc_assert (key_check bin_key.1 =? bin_key.2) ;;
  mret bin_key.1.
Definition get_wallet_name (keys : list public_key_type) : result wallet_name_type :=
  let hasher := foldl (λ s k, s +:+ key_to_string k) "" keys in
  let hashed := to_hex (sha256 (string_bytes hasher)) in
  data ← from_hex hashed 32;
  mret (XGT_ADDRESS_PREFIX +:+ String.substring 0 XGT_WALLET_NAME_LENGTH (to_base58 data)).

(** ** A digest binds what it covers *)
Definition collides (x y : bytes) : Prop := x ≠ y ∧ sha256 x = sha256 y.
Lemma sha256_binds `{!CryptoSizes} x y : spell (sha256 x) = spell (sha256 y) → x = y ∨ collides x y.
Proof.
  intros He. destruct (decide (x = y)); [by left|right]. split; [done|].
  destruct (sha256_size x), (sha256_size y). apply spell_inj; congruence || done.
Qed.
Lemma hash_binds `{!CryptoSizes} {A} (c : codec A) a b : Codec.shallow c = true → valid c a = true → valid c b = true →
  hash c a = hash c b → a = b ∨ collides (packed c a) (packed c b).
Proof. intros Hs Ha Hb [He|]%sha256_binds; [left; by eapply packed_inj|by right]. Qed.
Lemma sig_bytes_inj chain chain' tx tx' :
  0 ≤ chain < 2 ^ 256 → 0 ≤ chain' < 2 ^ 256 →
  valid Wire.transaction (Wire.tx_content_of tx) = true → valid Wire.transaction (Wire.tx_content_of tx') = true →
  sig_bytes chain tx = sig_bytes chain' tx' → chain = chain' ∧ Wire.tx_content_of tx = Wire.tx_content_of tx'.
Proof.
  intros Hc Hc' Hv Hv' He. apply app_inj_1 in He as [Hb Ht]; [|by rewrite !length_be_bytes]. split.
  - by rewrite <- (spell_be_bytes 32 chain), <- (spell_be_bytes 32 chain'), Hb.
  - by apply (packed_inj Wire.transaction).
Qed.

(** ** Keys as text *)
Lemma words_of_range n b i : is_bytes b → 0 ≤ nth i (words_of n b) 0 < 2 ^ 32.
Proof.
  revert b i. induction n as [|n IH]; intros b i Hb; [by destruct i|].
  destruct i as [|i]; cbn [words_of nth]; [|by apply IH, Forall_drop]. rewrite from_le_value.
  assert (Ht : digits_ok 256 (take 4 b)) by (by apply Forall_take). split; [by apply value_nonneg|].
  eapply Z.lt_le_trans; [by apply value_bound|]. change (2 ^ 32) with (256 ^ 4).
  apply Z.pow_le_mono_r; [lia|]. rewrite length_take. lia.
Qed.
Lemma substring_all n s : (String.length s ≤ n)%nat → String.substring 0 n s = s.
Proof.
  revert n. induction s as [|c s IH]; intros [|n] Hn; simpl in *; [done|done|lia|]. rewrite IH by lia. done.
Qed.
Lemma prefix_split s : String.length (XGT_ADDRESS_PREFIX +:+ s) = (3 + String.length s)%nat ∧
  String.substring 0 (String.length XGT_ADDRESS_PREFIX) (XGT_ADDRESS_PREFIX +:+ s) = XGT_ADDRESS_PREFIX ∧
  String.substring (String.length XGT_ADDRESS_PREFIX) (String.length (XGT_ADDRESS_PREFIX +:+ s)) (XGT_ADDRESS_PREFIX +:+ s) = s.
Proof. split; [done|]. split; [by destruct s|].
  change (String.substring 0 (3 + String.length s) s = s). apply substring_all. lia.
Qed.
Lemma packed_binary_key k check : packed binary_key (k, check) = be_bytes 33 k ++ AssetSymbol.le_bytes 4 check.
Proof. unfold packed. cbn. done. Qed.
Lemma key_from_to_string `{!CryptoSizes} k : 0 ≤ k < 2 ^ 264 → key_from_string (key_to_string k) = Ok k.
Proof.
  intros Hk. assert (Hc : 0 ≤ key_check k < 2 ^ 32) by apply words_of_range, ripemd160_size.
  assert (Hv : valid binary_key (k, key_check k) = true).
  { change (2 ^ 32) with (256 ^ Z.of_nat 4) in Hc. change (2 ^ 264) with (256 ^ Z.of_nat 33) in Hk.
    cbn. rewrite !andb_true_r. rewrite !(proj2 (Z.leb_le _ _)), !(proj2 (Z.ltb_lt _ _)) by apply Hk || apply Hc. done. }
  set (b := packed binary_key (k, key_check k)) in *.
  assert (Hb : is_bytes b).
  { unfold b. rewrite packed_binary_key. apply Forall_app. split; [apply be_bytes_range|apply le_bytes_range]. }
  assert (Hne : (0 < String.length (to_base58 b))%nat).
  { pose proof (from_to_base58 b Hb) as Hr. destruct (to_base58 b); [exfalso|simpl; lia]. injection Hr as Hr.
    unfold b in Hr. rewrite packed_binary_key in Hr. by apply (f_equal length) in Hr. }
  unfold key_from_string. change (key_to_string k) with (XGT_ADDRESS_PREFIX +:+ to_base58 b).
  destruct (prefix_split (to_base58 b)) as (Hl & Hp & Hs). rewrite Hp, Hs, Hl, from_to_base58 by done.
  rewrite (proj2 (Nat.ltb_lt _ _)) by (simpl; lia). rewrite String.eqb_refl. rewrite !bind_assert_true by done.
  rewrite bind_Ok. unfold unpack_from_vector. destruct (codec_law binary_key _ Hv) as (bs & Hbs & Hd).
  assert (Hbb : b = bs) by (unfold b, packed; by rewrite Hbs).
  specialize (Hd 1 [] ltac:(done)). rewrite app_nil_r, <- Hbb in Hd. destruct b as [|x b']; [done|].
  rewrite Hd. cbn [fst]. rewrite bind_Ok. cbn [fst snd]. rewrite Z.eqb_refl. done.
Qed.
End with_crypto.
End Digest.

(** ** The environment of the chain

    The functions that the rest of the library is stated over, given the code
    of third parties and the id of the chain. *)
Module ChainEnv.
Section instance.
Context `{Abi} `{Crypto} (chain_id : digest_type).

Definition or_empty (r : result string) : string := match r with Ok s => s | Exc _ => "" end.
Definition pack_size {A} (c : codec A) (a : A) : Z := Z.of_nat (length (Digest.packed c a)).
Definition env : Env := {|
  is_utf8 := utf8_is_valid;
  json_is_valid := json_valid;
  sha256_twice := Digest.sha2_proof;
  approx_log_32 := Digest.summary;
  pow_create_summary := Digest.pow_summary_of;
  sha224_header h := Digest.words_of 7 (sha224 (Digest.packed Wire.signed_block_header h));
  header_signee := Digest.signee bip_0062;
  tx_id := Digest.id;
  tx_merkle_digest := Digest.merkle_digest;
  hash_pair x y := spell (sha256 (Digest.be_bytes 32 x ++ Digest.be_bytes 32 y));
  hash_root x := Digest.words_of 5 (ripemd160 (Digest.be_bytes 32 x));
  recover_key canon_type tx sig := Digest.public_key sig (Digest.sig_digest chain_id tx) canon_type;
  wallet_name_of_keys keys := or_empty (Digest.get_wallet_name keys);
  tx_pack_size := pack_size Wire.signed_transaction;
  block_pack_size := pack_size Wire.signed_block
|}.
End instance.
End ChainEnv.

(** *** What is valid with its signatures is valid without *)
Section contents.
Context `{Abi}.
Ltac content := intros Hv; bool_hyps; rewrite !andb_true_iff; repeat split; assumption || reflexivity.

Lemma tx_content_valid (tx : signed_transaction) :
  valid Wire.signed_transaction tx = true → valid Wire.transaction (Wire.tx_content_of tx) = true.
Proof.
  unfold Wire.signed_transaction, Wire.transaction. cbn [valid Codec.object Codec.members Wire.tx_content_of fst snd].
  content.
Qed.
Lemma header_content_valid (h : signed_block_header) :
  valid Wire.signed_block_header h = true → valid Wire.block_header (Wire.content_of h) = true.
Proof.
  unfold Wire.signed_block_header, Wire.block_header. cbn [valid Codec.object Codec.members Wire.content_of fst snd].
  content.
Qed.
(** The bytes with the signatures are those without them and some more. *)
Definition longer (s u : bytes) : Prop := ∃ x xs, s = u ++ x :: xs.
Lemma members_longer {A B B'} (c : codec A) (cs : codec B) (cs' : codec B') a b b' s u :
  enc (Codec.members c cs) (a, b) = Ok s → enc (Codec.members c cs') (a, b') = Ok u →
  (∀ s' u', enc cs b = Ok s' → enc cs' b' = Ok u' → longer s' u') → longer s u.
Proof.
  cbn [enc Codec.members]. unfold Codec.pack_members. cbn [fst snd]. intros Hs Hu Hl. inv_ok.
  match goal with E : enc c a = Ok ?x, E' : enc c a = Ok ?y |- _ => assert (x = y) as -> by congruence end.
  destruct (Hl _ _ ltac:(eassumption) ltac:(eassumption)) as (y & ys & ->). exists y, ys. by rewrite app_assoc.
Qed.
Lemma varint_nonempty v : ∃ x xs, Raw.varint_bytes 10 v = x :: xs.
Proof. cbn [Raw.varint_bytes]. destruct (Z.shiftr v 7 =? 0); by eexists _, _. Qed.
Lemma signed_bytes_longer (tx : signed_transaction) : valid Wire.signed_transaction tx = true →
  longer (Digest.packed Wire.signed_transaction tx) (Digest.packed Wire.transaction (Wire.tx_content_of tx)).
Proof.
  intros Hv. pose proof (Digest.packed_ok _ _ Hv) as Hs. pose proof (Digest.packed_ok _ _ (tx_content_valid _ Hv)) as Hu.
  do 5 (eapply members_longer; [exact Hs|exact Hu|]; clear Hs Hu; intros ?? Hs Hu).
  injection Hu as <-. cbn [enc Codec.members] in Hs. unfold Codec.pack_members in Hs. cbn [fst] in Hs.
  apply result_bind_ok in Hs as (x & Hx & Hs). unfold Codec.vector in Hx. cbn [enc] in Hx. unfold Codec.pack_vector in Hx.
  inv_ok. destruct (varint_nonempty (u32 (Z.of_nat (length (signatures tx))))) as (y & ys & Hy).
  match goal with E : Codec.pack_size_of _ = Ok ?b |- _ => 
    unfold Codec.pack_size_of, Raw.pack_unsigned_int in E; rewrite Hy in E; injection E as <- end.
  by eexists _, _.
Qed.
End contents.

(** Hash functions to run the definitions: they have the right sizes. *)
Module DemoCrypto.
Definition demo_hash (n : nat) (b : bytes) : bytes := Digest.be_bytes n (value 257 ((λ x, x + 1) <$> b) mod 256 ^ Z.of_nat n).
#[global] Instance demo : Crypto := {|
  sha256 := demo_hash 32;
  sha224 := demo_hash 28;
  ripemd160 := demo_hash 20;
  secp256k1_recover d s i := Some (Digest.be_bytes 33 (spell d));
  secp256k1_sign _ key d := key + d;
  is_bip_0062_canonical _ := true;
  utf8_is_valid _ := true;
  json_valid _ := true
|}.
#[global] Instance demo_sizes : CryptoSizes.
Proof.
  split; intros b; (split; [apply Digest.be_bytes_range|apply Digest.length_be_bytes]).
Qed.
End DemoCrypto.

(** C23: What a signature covers.  Two signing digests are equal only for the
    same chain and the same transaction, two Merkle leaves only for the same
    transaction with the same signatures, two header digests only for headers
    that agree on everything but the signature — or the two byte strings that
    were hashed are themselves a collision of the hash function: they differ
    and have the same hash.  The transactions and headers are ones that the
    binary format can hold. *)
Theorem digests_bind `{Abi} `{Crypto} `{!CryptoSizes} (chain chain' : digest_type)
    (tx tx' : signed_transaction) (h h' : signed_block_header) :
  0 ≤ chain < 2 ^ 256 → 0 ≤ chain' < 2 ^ 256 →
  valid Wire.signed_transaction tx = true → valid Wire.signed_transaction tx' = true →
  valid Wire.signed_block_header h = true → valid Wire.signed_block_header h' = true →
  (Digest.sig_digest chain tx = Digest.sig_digest chain' tx' →
     (chain = chain' ∧ Wire.tx_content_of tx = Wire.tx_content_of tx') ∨
     Digest.collides (Digest.sig_bytes chain tx) (Digest.sig_bytes chain' tx')) ∧
  (Digest.merkle_digest tx = Digest.merkle_digest tx' →
     tx = tx' ∨
     Digest.collides (Digest.packed Wire.signed_transaction tx) (Digest.packed Wire.signed_transaction tx')) ∧
  (Digest.header_digest h = Digest.header_digest h' →
     Wire.content_of h = Wire.content_of h' ∨
     Digest.collides (Digest.packed Wire.block_header (Wire.content_of h))
       (Digest.packed Wire.block_header (Wire.content_of h'))).
Proof.
  intros Hc Hc' Ht Ht' Hh Hh'. split; [|split].
  - intros [He|]%Digest.sha256_binds; [left|by right].
    apply Digest.sig_bytes_inj; [done..|by apply tx_content_valid|by apply tx_content_valid|done].
  - by apply Digest.hash_binds.
  - apply Digest.hash_binds; [done|by apply header_content_valid|by apply header_content_valid].
Qed.
Lemma digests_bind_witness :
  let tx' := Digest.set_expiration 0 DemoAbi.tx in
  let h := header DemoAbi.block in
  let h' := mkHeader (previous h) (timestamp h + 1) (witness h) (transaction_merkle_root h) (header_extensions h)
              (witness_signature h) in
  (Digest.sig_digest 1 DemoAbi.tx = Digest.sig_digest 2 tx' →
     (1 = 2 ∧ Wire.tx_content_of DemoAbi.tx = Wire.tx_content_of tx') ∨
     Digest.collides (Digest.sig_bytes 1 DemoAbi.tx) (Digest.sig_bytes 2 tx')) ∧
  (Digest.merkle_digest DemoAbi.tx = Digest.merkle_digest tx' →
     DemoAbi.tx = tx' ∨
     Digest.collides (Digest.packed Wire.signed_transaction DemoAbi.tx) (Digest.packed Wire.signed_transaction tx')) ∧
  (Digest.header_digest h = Digest.header_digest h' →
     Wire.content_of h = Wire.content_of h' ∨
     Digest.collides (Digest.packed Wire.block_header (Wire.content_of h))
       (Digest.packed Wire.block_header (Wire.content_of h'))).
Proof.
  intros tx' h h'. exact (digests_bind 1 2 DemoAbi.tx tx' h h'
    ltac:(lia) ltac:(lia) eq_refl eq_refl eq_refl eq_refl).
Defined.

(** Keys survive their text form: the text of a public key, its prefix and
    check word included, is read back as that key. *)
Theorem key_text_roundtrip `{Crypto} `{!CryptoSizes} (k : public_key_type) : 0 ≤ k < 2 ^ 264 →
  Digest.key_from_string (Digest.key_to_string k) = Ok k.
Proof. apply Digest.key_from_to_string. Qed.
Lemma key_text_roundtrip_witness :
  Digest.key_from_string (Digest.key_to_string (2 ^ 257 + 12345)) = Ok (2 ^ 257 + 12345).
Proof. apply key_text_roundtrip. lia. Defined.

(** Signing by the [const] overload does not sign the transaction: for every
    transaction the bytes that it hashes differ from those that the check of
    signatures hashes, because the signatures are packed as well. *)
Theorem const_sign_signs_other_bytes `{Abi} (chain : digest_type) (tx : signed_transaction) :
  valid Wire.signed_transaction tx = true → Digest.const_sign_bytes chain tx ≠ Digest.sig_bytes chain tx.
Proof.
  intros (x & xs & Hl)%signed_bytes_longer He%app_inv_head. rewrite Hl in He.
  apply (f_equal length) in He. rewrite length_app in He. simpl in He. lia.
Qed.
Lemma const_sign_signs_other_bytes_witness : Digest.const_sign_bytes 1 DemoAbi.tx ≠ Digest.sig_bytes 1 DemoAbi.tx.
Proof. apply const_sign_signs_other_bytes. vm_compute. reflexivity. Defined.
