(* ===== verification/ForkDatabase.v ===== *)
(** * The fork database

    libraries/chain/fork_database.cpp.  Every block that may still become part
    of the chain is a heap-allocated [fork_item]; two multi-index containers
    of shared pointers hold the linked and the unlinked items, each item has a
    weak pointer to its predecessor, and [_head] points to the best block.
    Items are modelled as addresses in a heap so that the sharing and the
    expiry of the weak pointers are visible. *)
From S2P Require Import Prelude Safe Asset Protocol Block.

Definition XGT_FORK_DB_MAX_SIZE : Z := 1024.

Module ForkDb.
Definition addr := nat.

Record fork_item := mkItem {
  prev : option addr;
  num : Z;
  invalid : bool;
  id : block_id_type;
  data : signed_block
}.
Definition previous_id (i : fork_item) : block_id_type := previous (header (data i)).

(** [index] and [unlinked_index] list the items in insertion order; the
    unique key of both is the block id. *)
Record fork_database := mkDb {
  max_size : Z;
  heap : gmap addr fork_item;
  next_addr : addr;
  unlinked_index : list addr;
  index : list addr;
  head : option addr
}.
Definition empty : fork_database := mkDb XGT_FORK_DB_MAX_SIZE ∅ 0%nat [] [] None.

Definition set_heap h d := mkDb (max_size d) h (next_addr d) (unlinked_index d) (index d) (head d).
Definition set_index l d := mkDb (max_size d) (heap d) (next_addr d) (unlinked_index d) l (head d).
Definition set_unlinked l d := mkDb (max_size d) (heap d) (next_addr d) l (index d) (head d).
Definition set_head_ptr h d := mkDb (max_size d) (heap d) (next_addr d) (unlinked_index d) (index d) h.

Section with_env.
Context `{Env}.

Definition item_of (b : signed_block) : fork_item :=
  mkItem None (Block.block_num (header b)) false (Block.id (header b)) b.

(** Dereferencing; every stored pointer has an item. *)
Definition deref (d : fork_database) (a : addr) : option fork_item := heap d !! a.
Definition has_id (d : fork_database) (i : block_id_type) (a : addr) : bool :=
  match deref d a with Some it => bool_decide (id it = i) | None => false end.
Definition has_prev (d : fork_database) (i : block_id_type) (a : addr) : bool :=
  match deref d a with Some it => bool_decide (previous_id it = i) | None => false end.
Definition has_num (d : fork_database) (n : Z) (a : addr) : bool :=
  match deref d a with Some it => num it =? n | None => false end.

Definition find_id (i : block_id_type) (l : list addr) (d : fork_database) : option addr :=
  List.find (has_id d i) l.

(** Insertion into a multi-index container with a unique id. *)
Definition insert_unique (a : addr) (i : block_id_type) (l : list addr) (d : fork_database) : list addr :=
  match find_id i l d with Some _ => l | None => l ++ [a] end.

(** A weak pointer locks while some container or the head owns the item. *)
Definition alive (d : fork_database) (a : addr) : bool :=
  bool_decide (a ∈ index d) || bool_decide (a ∈ unlinked_index d) || bool_decide (head d = Some a).
Definition lock (d : fork_database) (p : option addr) : option addr :=
  match p with Some a => if alive d a then Some a else None | None => None end.

Definition reset (d : fork_database) : fork_database := set_index [] (set_head_ptr None d).

Definition pop_block : St fork_database unit := λ d,
  match head d with
  | None => (Exc AssertException, d)
  | Some h =>
      match deref d h with
      | None => (Exc Fault, d)
      | Some it =>
          match lock d (prev it) with
          | None => (Exc AssertException, d)
          | Some p => (Ok tt, set_head_ptr (Some p) d)
          end
      end
  end.

(** [std::make_shared<fork_item>( b )] *)
Definition alloc (b : signed_block) (d : fork_database) : addr * fork_database :=
  (next_addr d, mkDb (max_size d) (<[next_addr d := item_of b]> (heap d)) (S (next_addr d))
                     (unlinked_index d) (index d) (head d)).

Definition start_block (b : signed_block) (d : fork_database) : fork_database :=
  let '(a, d1) := alloc b d in
  set_head_ptr (Some a) (set_index (insert_unique a (Block.id (header b)) (index d1) d1) d1).

Definition head_num (d : fork_database) : option Z :=
  match head d with Some h => num <$> deref d h | None => None end.

Definition set_prev (a p : addr) (d : fork_database) : fork_database :=
  match deref d a with
  | Some it => set_heap (<[a := mkItem (Some p) (num it) (invalid it) (id it) (data it)]> (heap d)) d
  | None => d
  end.

(** The middle of [_push_block]: with a head and a non-null previous id the
    item must link to a known, valid item. *)
Definition link_prev (a : addr) (item : fork_item) (d : fork_database) : result fork_database :=
  match head d with
  | None => Ok d
  | Some _ =>
      if bool_decide (previous_id item = null_block_id) then Ok d
      else match find_id (previous_id item) (index d) d with
           | None => Exc UnlinkableBlock
           | Some p =>
               match deref d p with
               | Some pit => if invalid pit then Exc AssertException else Ok (set_prev a p d)
               | None => Exc Fault
               end
           end
  end.

Definition too_old (item : fork_item) (d : fork_database) : bool :=
  match head_num d with
  | Some hn => num item <=? Z.max 0 (hn - max_size d)
  | None => false
  end.

(** [_push_block] up to the call of [_push_next]. *)
Definition link_item (a : addr) : St fork_database unit := λ d,
  match deref d a with
  | None => (Exc Fault, d)
  | Some item =>
      if too_old item d then (Exc BlockTooOld, d)
      else match link_prev a item d with
      | Exc e => (Exc e, d)
      | Ok d1 =>
          let d2 := set_index (insert_unique a (id item) (index d1) d1) d1 in
          let better := match head_num d2 with Some hn => hn <? num item | None => true end in
          (Ok tt, if better then set_head_ptr (Some a) d2 else d2)
      end
  end.

(** [_push_block] and [_push_next] call each other.  Every round of
    [_push_next] takes one item out of the unlinked index, so twice its size
    bounds the depth (see [push_fuel]); running out would show as [Fault].
    Which of several children the hashed index returns first is unspecified;
    here it is the one inserted first.  Only [fc::assert_exception] is caught. *)
Fixpoint push_item (fuel : nat) (a : addr) : St fork_database unit :=
  match fuel with
  | O => mthrow Fault
  | S fuel' =>
      link_item a ;;
      d ← get_st;
      match deref d a with
      | None => mthrow Fault
      | Some item => push_next fuel' (id item)
      end
  end
with push_next (fuel : nat) (new_id : block_id_type) : St fork_database unit :=
  match fuel with
  | O => mthrow Fault
  | S fuel' =>
      d ← get_st;
      match List.find (has_prev d new_id) (unlinked_index d) with
      | None => mret tt
      | Some tmp =>
          put_st (set_unlinked (filter (λ x, x ≠ tmp) (unlinked_index d)) d) ;;
          try_catch (push_item fuel' tmp)
            (λ e, match e with AssertException => mret tt | _ => mthrow e end) ;;
          push_next fuel' new_id
      end
  end.
Definition push_fuel (d : fork_database) : nat := 2 * length (unlinked_index d) + 2.

(** [push_block]: an unlinkable block is cached, then the exception goes on. *)
Definition push_block (b : signed_block) : St fork_database (option addr) := λ d,
  let '(a, d1) := alloc b d in
  match push_item (push_fuel d1) a d1 with
  | (Ok _, d2) => (Ok (head d2), d2)
  | (Exc UnlinkableBlock, d2) =>
      (Exc UnlinkableBlock,
       set_unlinked (insert_unique a (Block.id (header b)) (unlinked_index d2) d2) d2)
  | (Exc e, d2) => (Exc e, d2)
  end.

(** Both loops of [set_max_size] erase, in order of number, every item below
    the window. *)
Definition below_window (d : fork_database) (hn : Z) (a : addr) : bool :=
  match deref d a with Some it => num it <? Z.max 0 (hn - max_size d) | None => false end.
Definition set_max_size (s : Z) (d : fork_database) : fork_database :=
  let d1 := mkDb s (heap d) (next_addr d) (unlinked_index d) (index d) (head d) in
  match head_num d1 with
  | None => d1
  | Some hn =>
      set_unlinked (filter (λ a, below_window d1 hn a = false) (unlinked_index d1))
        (set_index (filter (λ a, below_window d1 hn a = false) (index d1)) d1)
  end.

Definition is_known_block (i : block_id_type) (d : fork_database) : bool :=
  match find_id i (index d) d with
  | Some _ => true
  | None => match find_id i (unlinked_index d) d with Some _ => true | None => false end
  end.
Definition fetch_block (i : block_id_type) (d : fork_database) : option addr :=
  match find_id i (index d) d with
  | Some a => Some a
  | None => find_id i (unlinked_index d) d
  end.
Definition fetch_block_by_number (n : Z) (d : fork_database) : list addr :=
  filter (λ a, has_num d n a = true) (index d).

(** [while( cur->num > n ) { branch.push_back( cur ); cur = cur->prev.lock(); assert( cur ); }] *)
Fixpoint climb (fuel : nat) (d : fork_database) (cur : addr) (n : Z) (branch : list addr) :
    result (addr * list addr) :=
  match deref d cur with
  | None => Exc Fault
  | Some it =>
      if n <? num it then
        match fuel with
        | O => Exc Fault
        | S fuel' =>
            match lock d (prev it) with
            | None => Exc AssertException
            | Some p => climb fuel' d p n (branch ++ [cur])
            end
        end
      else Ok (cur, branch)
  end.

(** The third loop: both sides step back until their previous ids agree. *)
Fixpoint climb_both (fuel : nat) (d : fork_database) (a b : addr) (b1 b2 : list addr) :
    result (list addr * list addr) :=
  match deref d a, deref d b with
  | Some ia, Some ib =>
      if bool_decide (previous_id ia = previous_id ib) then Ok (b1 ++ [a], b2 ++ [b])
      else match fuel with
      | O => Exc Fault
      | S fuel' =>
          match lock d (prev ia) with
          | None => Exc AssertException
          | Some pa =>
              match lock d (prev ib) with
              | None => Exc AssertException
              | Some pb => climb_both fuel' d pa pb (b1 ++ [a]) (b2 ++ [b])
              end
          end
      end
  | _, _ => Exc Fault
  end.

Definition num_at (d : fork_database) (a : addr) : Z := match deref d a with Some it => num it | None => 0 end.

Definition fetch_branch_from (first second : block_id_type) (d : fork_database) :
    result (list addr * list addr) :=
  match find_id first (index d) d with
  | None => Exc AssertException
  | Some a =>
      match find_id second (index d) d with
      | None => Exc AssertException
      | Some b =>
          '(a1, b1) ← climb (Z.to_nat (num_at d a)) d a (num_at d b) [];
          '(b', b2) ← climb (Z.to_nat (num_at d b)) d b (num_at d a1) [];
          climb_both (Z.to_nat (num_at d a1)) d a1 b' b1 b2
      end
  end.

(** [while( next && next->num > block_num ) next = next->prev.lock();] *)
Fixpoint walk (fuel : nat) (d : fork_database) (cur : option addr) (n : Z) : option addr :=
  match cur with
  | None => None
  | Some a =>
      match fuel with
      | O => Some a
      | S fuel' =>
          match deref d a with
          | Some it => if n <? num it then walk fuel' d (lock d (prev it)) n else Some a
          | None => None
          end
      end
  end.
Definition walk_main_branch_to_num (n : Z) (d : fork_database) : option addr :=
  match head d, head_num d with
  | Some h, Some hn => if hn <? n then None else walk (S (Z.to_nat hn)) d (Some h) n
  | _, _ => None
  end.
Definition fetch_block_on_main_branch_by_number (n : Z) (d : fork_database) : option addr :=
  match head_num d with
  | None => None
  | Some hn =>
      if hn <? n then None
      else match fetch_block_by_number n d with
      | [] => None
      | [a] => Some a
      | _ => walk_main_branch_to_num n d
      end
  end.

Definition set_head (h : option addr) (d : fork_database) : fork_database := set_head_ptr h d.
Definition remove (i : block_id_type) (d : fork_database) : fork_database :=
  set_index (filter (λ a, has_id d i a = false) (index d)) d.
End with_env.
End ForkDb.

(** ** Well-formed fork databases *)
Section fork_wf.
Import ForkDb.
Context `{Env}.
Implicit Types (d : fork_database) (it : fork_item).

Definition held d (a : addr) : Prop := a ∈ index d ∨ a ∈ unlinked_index d ∨ head d = Some a.

Record fork_wf d : Prop := {
  wf_alloc : ∀ a, (next_addr d ≤ a)%nat → heap d !! a = None;
  wf_held : ∀ a, held d a → is_Some (heap d !! a);
  wf_item : ∀ a it, heap d !! a = Some it →
    id it = Block.id (header (data it)) ∧ num it = Block.block_num (header (data it)) ∧ 1 ≤ num it;
  wf_prev : ∀ a it p, heap d !! a = Some it → prev it = Some p →
    ∃ pit, heap d !! p = Some pit ∧ id pit = previous_id it;
  wf_unique : ∀ a b ia ib, a ∈ index d → b ∈ index d →
    heap d !! a = Some ia → heap d !! b = Some ib → id ia = id ib → a = b
}.

(** The head has the highest number of all linked blocks. *)
Definition head_max d : Prop := ∀ a it, a ∈ index d → heap d !! a = Some it →
  ∃ hn, head_num d = Some hn ∧ num it ≤ hn.

Lemma find_id_Some i l d a :
  find_id i l d = Some a → a ∈ l ∧ ∃ it, heap d !! a = Some it ∧ id it = i.
Proof.
  unfold find_id. intros [Hin Hh]%List.find_some. rewrite <- list_elem_of_In in Hin.
  split; [done|]. unfold has_id, deref in Hh. destruct (heap d !! a); [|done].
  bool_hyps. eauto.
Qed.
Lemma find_id_None i l d a it :
  find_id i l d = None → a ∈ l → heap d !! a = Some it → id it ≠ i.
Proof.
  unfold find_id. intros Hn Hin Ha Hi. apply list_elem_of_In in Hin.
  pose proof (List.find_none _ _ Hn _ Hin) as Hf. unfold has_id, deref in Hf.
  rewrite Ha in Hf. by bool_hyps.
Qed.

(** Updates of an item that keep its identity. *)
Definition same_identity it it' : Prop :=
  id it' = id it ∧ num it' = num it ∧ data it' = data it.

Lemma head_num_upd d a it it' :
  heap d !! a = Some it → same_identity it it' →
  head_num (set_heap (<[a := it']> (heap d)) d) = head_num d.
Proof.
  intros Ha (_ & Hn & _). unfold head_num, deref. simpl. destruct (head d) as [h|]; [|done].
  rewrite lookup_insert. case_decide; subst; [|done]. rewrite Ha. simpl. by rewrite Hn.
Qed.

Lemma wf_upd d a it it' :
  fork_wf d → heap d !! a = Some it → same_identity it it' →
  (∀ p, prev it' = Some p → ∃ pit, heap d !! p = Some pit ∧ id pit = previous_id it') →
  fork_wf (set_heap (<[a := it']> (heap d)) d).
Proof.
  intros Hwf Ha (Hid & Hnum & Hdata) Hp. destruct Hwf as [W1 W2 W3 W4 W5].
  assert (Hlift : ∀ p pit, heap d !! p = Some pit → ∃ pit',
    <[a := it']> (heap d) !! p = Some pit' ∧ id pit' = id pit).
  { intros p pit Hpit. rewrite lookup_insert. case_decide; subst; [|eauto].
    exists it'. split; [done|]. congruence. }
  split; simpl.
  - intros x Hx. rewrite lookup_insert. case_decide; subst; [|by apply W1].
    by rewrite W1 in Ha.
  - intros x Hx. rewrite lookup_insert. case_decide; [done|by apply W2].
  - intros x ix. rewrite lookup_insert. case_decide; subst; intros; simplify_eq; [|by apply (W3 x)].
    destruct (W3 _ it Ha) as (? & ? & ?). split_and!; congruence || lia.
  - intros x ix p. rewrite lookup_insert. case_decide; subst; intros; simplify_eq.
    + destruct (Hp p) as (pit & Hpit & Hpid); [done|]. destruct (Hlift p pit Hpit) as (pit' & ? & ?).
      exists pit'. split; [done|congruence].
    + destruct (W4 x ix p) as (pit & Hpit & Hpid); [done..|].
      destruct (Hlift p pit Hpit) as (pit' & ? & ?). exists pit'. split; [done|congruence].
  - intros x y ix iy Hx Hy. rewrite !lookup_insert.
    repeat case_decide; subst; intros; simplify_eq; try done.
    + eapply (W5 x y it iy); try done. congruence.
    + eapply (W5 x y ix it); try done. congruence.
    + by eapply (W5 x y).
Qed.

Lemma deref_upd d a it it' x :
  heap d !! a = Some it → is_Some (heap d !! x) → is_Some (<[a := it']> (heap d) !! x).
Proof. intros Ha Hx. rewrite lookup_insert. by case_decide. Qed.

(** Linking an allocated item into the index, possibly as the head. *)
Lemma wf_insert d a it :
  fork_wf d → heap d !! a = Some it →
  fork_wf (set_index (insert_unique a (id it) (index d) d) d).
Proof.
  intros [W1 W2 W3 W4 W5] Ha. unfold insert_unique.
  destruct (find_id (id it) (index d) d) eqn:Ef; [by split|].
  split; simpl; try done.
  - intros x [Hx|Hx]; [|apply W2; by right].
    apply elem_of_app in Hx as [Hx|Hx]; [apply W2; by left|].
    apply list_elem_of_singleton in Hx as ->. eauto.
  - intros x y ix iy Hx Hy Hix Hiy Heq.
    apply elem_of_app in Hx, Hy. rewrite !list_elem_of_singleton in *.
    destruct Hx as [Hx| ->], Hy as [Hy| ->]; simplify_eq; try done.
    + by eapply (W5 x y).
    + exfalso. by eapply (find_id_None _ _ d x ix).
    + exfalso. eapply (find_id_None _ _ d y iy); [done..|]. congruence.
Qed.

Lemma wf_set_head d a : fork_wf d → is_Some (heap d !! a) → fork_wf (set_head_ptr (Some a) d).
Proof.
  intros [W1 W2 W3 W4 W5] Ha. split; simpl; try done.
  intros x [Hx|[Hx|Hx]]; simpl in *; [apply W2; by left|apply W2; by right; left|by simplify_eq].
Qed.

Lemma wf_set_unlinked d l : fork_wf d → (∀ a, a ∈ l → is_Some (heap d !! a)) → fork_wf (set_unlinked l d).
Proof.
  intros [W1 W2 W3 W4 W5] Hl. split; simpl; try done.
  intros x [Hx|[Hx|Hx]]; simpl in *; [apply W2; by left|by apply Hl|apply W2; by right; right].
Qed.

Lemma wf_set_index_sub d l : fork_wf d → (∀ a, a ∈ l → a ∈ index d) → fork_wf (set_index l d).
Proof.
  intros [W1 W2 W3 W4 W5] Hl. split; simpl; try done.
  - intros x [Hx|[Hx|Hx]]; simpl in *; apply W2; [left|right; left|right; right]; auto.
  - intros x y ix iy Hx Hy. by apply W5; apply Hl.
Qed.

(** How a push changes the database: items keep their identity, linked items
    stay linked, the head is the old one or has a higher number, and no newly
    linked item is above the head. *)
Record grows d d' : Prop := {
  gr_heap : ∀ a it, heap d !! a = Some it → ∃ it', heap d' !! a = Some it' ∧ same_identity it it';
  gr_index : ∀ a, a ∈ index d → a ∈ index d';
  gr_head : head d' = head d ∨
    ∃ hn', head_num d' = Some hn' ∧ ∀ hn, head_num d = Some hn → hn < hn';
  gr_new : ∀ a it, a ∈ index d' → a ∉ index d → heap d' !! a = Some it →
    ∃ hn, head_num d' = Some hn ∧ num it ≤ hn
}.

Lemma grows_refl d : grows d d.
Proof. split; [|by auto..|by intros]. intros a it Ha. by exists it. Qed.
(** Changes of the unlinked index do not matter. *)
Lemma grows_unlinked d l : grows d (set_unlinked l d).
Proof. split; simpl; [|by auto..|by intros]. intros a it Ha. by exists it. Qed.
Lemma grows_unlinked_r d d' l : grows d d' → grows d (set_unlinked l d').
Proof. intros []. by split. Qed.

Lemma grows_same_head d d' hn : grows d d' → head d' = head d → head_num d = Some hn → head_num d' = Some hn.
Proof.
  intros Hg Hh. unfold head_num, deref. rewrite Hh. destruct (head d) as [h|]; [|done].
  destruct (heap d !! h) as [it|] eqn:Eh; [|done]. simpl. intros [= <-].
  destruct (gr_heap _ _ Hg h it Eh) as (it' & -> & _ & Hn & _). simpl. by rewrite Hn.
Qed.
Lemma grows_head_num d d' hn : grows d d' → head_num d = Some hn → ∃ hn', head_num d' = Some hn' ∧ hn ≤ hn'.
Proof.
  intros Hg Hhn. destruct (gr_head _ _ Hg) as [Hh|(hn' & Hhn' & Hlt)].
  - exists hn. split; [by eapply grows_same_head|done].
  - exists hn'. split; [done|]. specialize (Hlt hn Hhn). lia.
Qed.
Lemma grows_trans d1 d2 d3 : fork_wf d2 → grows d1 d2 → grows d2 d3 → grows d1 d3.
Proof.
  intros Hwf G1 G2. split.
  - intros a it Ha. destruct (gr_heap _ _ G1 a it Ha) as (it2 & Ha2 & I1 & I2 & I3).
    destruct (gr_heap _ _ G2 a it2 Ha2) as (it3 & Ha3 & J1 & J2 & J3). exists it3. split; [done|].
    split_and!; congruence.
  - intros a Ha. by apply (gr_index _ _ G2), (gr_index _ _ G1).
  - destruct (gr_head _ _ G2) as [H2|(n3 & H3 & L3)].
    + destruct (gr_head _ _ G1) as [H1|(n2 & H2' & L2)]; [left; congruence|right].
      exists n2. split; [by eapply grows_same_head|done].
    + right. exists n3. split; [done|]. intros hn Hhn.
      destruct (grows_head_num _ _ _ G1 Hhn) as (n2 & Hn2 & ?). specialize (L3 n2 Hn2). lia.
  - intros a it Ha Hna Hit. destruct (decide (a ∈ index d2)) as [H2|H2]; [|by apply (gr_new _ _ G2 a it)].
    destruct (wf_held _ Hwf a) as [it2 Hit2]; [by left|].
    destruct (gr_new _ _ G1 a it2 H2 Hna Hit2) as (n2 & Hn2 & ?).
    destruct (grows_head_num _ _ _ G2 Hn2) as (n3 & Hn3 & ?). exists n3. split; [done|].
    destruct (gr_heap _ _ G2 a it2 Hit2) as (it3 & Hit3 & _ & Hnum & _). simplify_eq. lia.
Qed.
(** If the head was the highest linked block, it still is. *)
Lemma grows_head_max d d' : fork_wf d → grows d d' → head_max d → head_max d'.
Proof.
  intros Hwf Hg Hm a it Ha Hit. destruct (decide (a ∈ index d)) as [Hin|Hin]; [|by apply (gr_new _ _ Hg a it)].
  destruct (wf_held _ Hwf a) as [it0 Hit0]; [by left|]. destruct (Hm a it0 Hin Hit0) as (hn & Hhn & ?).
  destruct (grows_head_num _ _ _ Hg Hhn) as (hn' & Hhn' & ?). exists hn'. split; [done|].
  destruct (gr_heap _ _ Hg a it0 Hit0) as (it' & Hit' & _ & Hnum & _). simplify_eq. lia.
Qed.
Lemma grows_find_id d d' i : grows d d' → is_Some (find_id i (index d) d) → is_Some (find_id i (index d') d').
Proof.
  intros Hg [a Ha]. apply find_id_Some in Ha as (Hin & it & Ha & Hi).
  destruct (gr_heap _ _ Hg a it Ha) as (it' & Ha' & Hid & _).
  destruct (find_id i (index d') d') as [x|] eqn:E; [eauto|exfalso].
  eapply (find_id_None _ _ d' a it'); [done|by apply (gr_index _ _ Hg)|done|congruence].
Qed.

Lemma grows_link d a it :
  heap d !! a = Some it →
  let d2 := set_index (insert_unique a (id it) (index d) d) d in
  let d3 := if match head_num d2 with Some hn => hn <? num it | None => true end
            then set_head_ptr (Some a) d2 else d2 in
  grows d d3 ∧ is_Some (find_id (id it) (index d3) d3).
Proof.
  intros Ha d2 d3.
  assert (Hheap : heap d3 = heap d) by (unfold d3; by case_match).
  assert (Hidx3 : index d3 = insert_unique a (id it) (index d) d) by (unfold d3; by case_match).
  assert (Hidx : ∀ x, x ∈ index d3 → x ∈ index d ∨ x = a).
  { intros x. rewrite Hidx3. unfold insert_unique. destruct (find_id _ _ _); set_solver. }
  assert (Htop : ∃ hn, head_num d3 = Some hn ∧ num it ≤ hn).
  { unfold d3. change (head_num d2) with (head_num d). destruct (head_num d) as [hn|] eqn:Eh.
    - destruct (hn <? num it) eqn:El; bool_hyps; [|by exists hn].
      exists (num it). unfold head_num, deref. simpl. by rewrite Ha.
    - exists (num it). unfold head_num, deref. simpl. by rewrite Ha. }
  split; [split|].
  - intros x ix Hx. exists ix. by rewrite Hheap.
  - intros x Hx. rewrite Hidx3. unfold insert_unique. destruct (find_id _ _ _); set_solver.
  - unfold d3. change (head_num d2) with (head_num d).
    destruct (match head_num d with Some hn => hn <? num it | None => true end) eqn:El; [right|by left].
    exists (num it). unfold head_num at 1. unfold deref. simpl. rewrite Ha. split; [done|].
    intros hn Hhn. rewrite Hhn in El. bool_hyps. lia.
  - intros x ix Hx Hnx Hix. destruct (Hidx x Hx) as [?| ->]; [done|]. rewrite Hheap in Hix. by simplify_eq.
  - destruct (find_id (id it) (index d3) d3) as [x|] eqn:E; [eauto|exfalso].
    unfold insert_unique in Hidx3. destruct (find_id (id it) (index d) d) as [x|] eqn:Ef.
    + apply find_id_Some in Ef as (Hin & ix & Hix & Hid).
      eapply (find_id_None _ _ d3 x ix); [done|by rewrite Hidx3|by rewrite Hheap|done].
    + eapply (find_id_None _ _ d3 a it); [done|rewrite Hidx3; set_solver|by rewrite Hheap|done].
Qed.

(** What a push step guarantees of the state after it. *)
Definition step_ok d (r : result unit) d' : Prop :=
  fork_wf d' ∧ r ≠ Exc Fault ∧ (length (unlinked_index d') ≤ length (unlinked_index d))%nat ∧ grows d d'.

Lemma step_ok_trans d1 r1 d2 r2 d3 : step_ok d1 r1 d2 → step_ok d2 r2 d3 → step_ok d1 r2 d3.
Proof. intros (?&?&?&?) (?&?&?&?). split_and!; [done..|lia|]. by eapply (grows_trans _ d2). Qed.

Lemma link_prev_ok d a item :
  fork_wf d → heap d !! a = Some item →
  match link_prev a item d with
  | Exc e => e ≠ Fault
  | Ok d1 =>
      fork_wf d1 ∧ unlinked_index d1 = unlinked_index d ∧
      (∃ it, heap d1 !! a = Some it ∧ same_identity item it) ∧ grows d d1
  end.
Proof.
  intros Hwf Ha. unfold link_prev.
  destruct (head d) as [h|] eqn:Eh; [|split_and!; try done; [by exists item|apply grows_refl]].
  case_bool_decide; [split_and!; try done; [by exists item|apply grows_refl]|].
  destruct (find_id _ _ d) as [p|] eqn:Ef; [|done].
  apply find_id_Some in Ef as (Hpin & pit & Hp & Hpid).
  unfold deref at 1. rewrite Hp. destruct (invalid pit); [done|].
  unfold set_prev, deref. rewrite Ha. split_and!.
  - eapply wf_upd; [done..|]. intros q [= <-]. simpl. by exists pit.
  - done.
  - eexists. simpl. by rewrite lookup_insert_eq.
  - split; simpl; [|by auto..|by intros]. intros x ix Hx. rewrite lookup_insert.
    case_decide; subst; [rewrite Ha in Hx; simplify_eq|]; eexists; by split_and!.
Qed.

Lemma link_item_ok d a item :
  fork_wf d → heap d !! a = Some item →
  step_ok d (link_item a d).1 (link_item a d).2 ∧
  ((link_item a d).1 = Ok tt → is_Some (find_id (id item) (index (link_item a d).2) (link_item a d).2)).
Proof.
  intros Hwf Ha.
  assert (Hexc : ∀ e, e ≠ Fault → step_ok d (Exc e) d).
  { intros e He. split_and!; try done; [congruence|apply grows_refl]. }
  unfold link_item, deref. rewrite Ha. destruct (too_old item d); [split; [by apply Hexc|done]|].
  pose proof (link_prev_ok d a item Hwf Ha) as Hl.
  destruct (link_prev a item d) as [d1|e]; [|split; [by apply Hexc|done]].
  destruct Hl as (Hwf1 & Hu1 & (it & Hit & Hsame) & Hg). cbv zeta. cbn [fst snd].
  destruct Hsame as (Hid' & Hnum' & _). rewrite <- Hid', <- Hnum'.
  pose proof (wf_insert d1 a it Hwf1 Hit) as Hwf2. destruct (grows_link d1 a it Hit) as [Hg2 Hf].
  split; [|by intros _].
  split_and!.
  - case_match; [apply wf_set_head; eauto|done].
  - done.
  - case_match; simpl; by rewrite Hu1.
  - by eapply (grows_trans d d1).
Qed.

Lemma filter_shrinks l (t : addr) : t ∈ l → (length (filter (λ x, x ≠ t) l) < length l)%nat.
Proof.
  intros Ht. induction l as [|y l IH]; [set_solver|]. rewrite filter_cons. simpl.
  case_decide as Hy.
  - simpl. apply elem_of_cons in Ht as [->|Ht]; [done|]. specialize (IH Ht). lia.
  - pose proof (length_filter (λ x, x ≠ t) l). lia.
Qed.

Lemma push_ok fuel :
  (∀ d a it, fork_wf d → heap d !! a = Some it → (2 * length (unlinked_index d) + 2 ≤ fuel)%nat →
     step_ok d (push_item fuel a d).1 (push_item fuel a d).2 ∧
     ((push_item fuel a d).1 = Ok tt →
        is_Some (find_id (id it) (index (push_item fuel a d).2) (push_item fuel a d).2))) ∧
  (∀ d i, fork_wf d → (2 * length (unlinked_index d) + 1 ≤ fuel)%nat →
     step_ok d (push_next fuel i d).1 (push_next fuel i d).2).
Proof.
  induction fuel as [|fuel [IHp IHn]]; [split; intros; lia|].
  split.
  - intros d a it0 Hwf Ha Hf. cbn [push_item]. rewrite bind_run.
    destruct (link_item_ok d a it0 Hwf Ha) as [Hl Hfound].
    destruct (link_item a d) as [[u|e] d1]; simpl in Hl, Hfound; [|done].
    rewrite bind_run. cbn [get_st]. destruct Hl as (Hwf1 & ? & Hlen & Hg).
    unfold deref. destruct (gr_heap _ _ Hg a it0 Ha) as (it & Hit & _). rewrite Hit.
    pose proof (IHn d1 (id it) Hwf1 ltac:(lia)) as Hn. split.
    + eapply step_ok_trans; [split_and!; done|exact Hn].
    + intros _. destruct Hn as (_ & _ & _ & Hg'). apply (grows_find_id _ _ _ Hg'). by destruct u; apply Hfound.
  - intros d i Hwf Hf. cbn [push_next]. rewrite bind_run. cbn [get_st].
    destruct (List.find _ _) as [t|] eqn:Et; [|split_and!; try done; apply grows_refl].
    apply List.find_some in Et as [Hin Hp]. rewrite <- list_elem_of_In in Hin.
    rewrite bind_run. cbn [put_st]. rewrite bind_run.
    set (d1 := set_unlinked _ d).
    assert (Hlen1 : (length (unlinked_index d1) < length (unlinked_index d))%nat).
    { simpl. by apply filter_shrinks. }
    assert (Hwf1 : fork_wf d1).
    { apply wf_set_unlinked; [done|]. intros x [_ Hx]%list_elem_of_filter.
      apply (wf_held _ Hwf). by right; left. }
    assert (Ht1 : is_Some (heap d1 !! t)) by (apply (wf_held _ Hwf); by right; left).
    assert (Hstep1 : step_ok d (Ok tt) d1) by (split_and!; try done; [lia|apply grows_unlinked]).
    destruct Ht1 as [itt Ht1]. destruct (IHp d1 t itt Hwf1 Ht1 ltac:(lia)) as [Hs _]. unfold try_catch.
    destruct (push_item fuel t d1) as [[u|e] d2]; simpl in Hs.
    + eapply step_ok_trans; [exact Hstep1|]. eapply step_ok_trans; [exact Hs|].
      apply IHn; [apply Hs|]. destruct Hs as (_ & _ & ? & _). lia.
    + destruct (decide (e = AssertException)) as [->|Hne].
      * cbn [mret St_ret]. eapply step_ok_trans; [exact Hstep1|]. eapply step_ok_trans; [exact Hs|].
        apply IHn; [apply Hs|]. destruct Hs as (_ & _ & ? & _). lia.
      * destruct e; try done; by eapply step_ok_trans.
Qed.
End fork_wf.

(** ** Reachable states *)
Section reachable.
Import ForkDb.
Context `{Env}.
Implicit Types (d : fork_database) (it : fork_item).

Lemma alloc_ok d b :
  fork_wf d → 1 ≤ Block.block_num (header b) →
  fork_wf (alloc b d).2 ∧ heap (alloc b d).2 !! (alloc b d).1 = Some (item_of b) ∧
  grows d (alloc b d).2.
Proof.
  intros [W1 W2 W3 W4 W5] Hn. simpl.
  assert (Hfresh : heap d !! next_addr d = None) by by apply W1.
  assert (Hold : ∀ a it, heap d !! a = Some it → a ≠ next_addr d) by congruence.
  assert (Hlift : ∀ a, is_Some (heap d !! a) → <[next_addr d := item_of b]> (heap d) !! a = heap d !! a).
  { intros a [it Ha]. rewrite lookup_insert_ne; [done|]. intros <-. congruence. }
  split_and!; [|by rewrite lookup_insert_eq|].
  - split; simpl.
    + intros a Ha. rewrite lookup_insert_ne by lia. apply W1. lia.
    + intros a Ha. rewrite Hlift; by apply W2.
    + intros a it. rewrite lookup_insert. case_decide; intros; simplify_eq; [done|by apply (W3 a)].
    + intros a it p. rewrite lookup_insert. case_decide; intros; simplify_eq.
      destruct (W4 a it p) as (pit & ? & ?); [done..|]. exists pit. by rewrite Hlift.
    + intros x y ix iy Hx Hy. rewrite !Hlift by (apply W2; by left). by apply W5.
  - split; simpl; [|by auto..|by intros]. intros a it Ha. exists it. split; [|done].
    rewrite Hlift; [done|eauto].
Qed.

Lemma push_block_ok d b :
  fork_wf d → 1 ≤ Block.block_num (header b) →
  let '(r, d') := push_block b d in
  fork_wf d' ∧ r ≠ Exc Fault ∧ grows d d' ∧
  (∀ h, r = Ok h → h = head d' ∧ is_Some (find_id (Block.id (header b)) (index d') d')) ∧
  (r = Exc UnlinkableBlock → is_Some (find_id (Block.id (header b)) (unlinked_index d') d')).
Proof.
  intros Hwf Hn. destruct (alloc_ok d b Hwf Hn) as (Hwf1 & Ha & Hg1).
  unfold push_block. destruct (alloc b d) as [a d1]. simpl in *.
  destruct (push_ok (push_fuel d1)) as [Hp _].
  destruct (Hp d1 a _ Hwf1 Ha ltac:(unfold push_fuel; lia)) as [Hs Hfound].
  destruct (push_item (push_fuel d1) a d1) as [r d2]. simpl in Hs, Hfound.
  destruct Hs as (Hwf2 & Hr & _ & Hg2). pose proof (grows_trans _ _ _ Hwf1 Hg1 Hg2) as Hg.
  destruct r as [[]|e].
  - split_and!; [done|done|done|intros h [= <-]; split; [done|by apply Hfound]|done].
  - destruct (decide (e = UnlinkableBlock)) as [->|He].
    + destruct (gr_heap _ _ Hg2 a _ Ha) as (it & Hit & Hid & _). simpl in Hid.
      split_and!; [|done|by apply grows_unlinked_r|done|intros _].
      * clear Hfound. apply wf_set_unlinked; [done|]. intros x Hx. unfold insert_unique in Hx.
        destruct (find_id _ _ _); [by apply (wf_held _ Hwf2); right; left|].
        apply elem_of_app in Hx as [Hx|Hx]; [by apply (wf_held _ Hwf2); right; left|].
        apply list_elem_of_singleton in Hx as ->. eauto.
      * simpl. unfold insert_unique. destruct (find_id _ (unlinked_index d2) d2) as [x|] eqn:Ef; [by exists x|].
        destruct (find_id _ _ (set_unlinked _ d2)) as [x|] eqn:Ef'; [eauto|exfalso].
        eapply (find_id_None _ _ (set_unlinked _ d2) a it); [exact Ef'|set_solver|done|done].
    + destruct e; try done; split_and!; done.
Qed.

Inductive fork_step : fork_database → fork_database → Prop :=
| step_push d b : 1 ≤ Block.block_num (header b) → fork_step d (push_block b d).2
| step_start d b : 1 ≤ Block.block_num (header b) → fork_step d (start_block b d)
| step_pop d : fork_step d (pop_block d).2
| step_max_size d s : fork_step d (set_max_size s d)
| step_set_head d a : held d a → fork_step d (set_head (Some a) d)
| step_remove d i : fork_step d (remove i d)
| step_reset d : fork_step d (reset d).

Lemma step_wf d d' : fork_wf d → fork_step d d' → fork_wf d'.
Proof.
  intros Hwf Hstep. destruct Hstep as [d b Hn|d b Hn|d|d s|d a Ha|d i|d].
  - pose proof (push_block_ok d b Hwf Hn) as Hp. by destruct (push_block b d), Hp.
  - destruct (alloc_ok d b Hwf Hn) as (Hwf1 & Ha & _). unfold start_block.
    destruct (alloc b d) as [a d1]. simpl in *.
    apply wf_set_head; [by apply (wf_insert d1 a (item_of b))|]. simpl. eauto.
  - unfold pop_block. destruct (head d) as [h|] eqn:Eh; [|done].
    unfold deref. destruct (heap d !! h) as [it|] eqn:Eit; [|done].
    destruct (lock d (prev it)) as [p|] eqn:El; [|done]. simpl.
    apply wf_set_head; [done|]. unfold lock in El.
    destruct (prev it) as [q|] eqn:Eq; [|done]. destruct (alive d q); [|done]. simplify_eq.
    destruct (wf_prev _ Hwf h it p Eit Eq) as (pit & ? & _). eauto.
  - assert (Hwf1 : fork_wf (mkDb s (heap d) (next_addr d) (unlinked_index d) (index d) (head d)))
      by (by destruct Hwf; split).
    unfold set_max_size. destruct (head_num _); [|done].
    apply wf_set_unlinked.
    + apply wf_set_index_sub; [done|]. by intros x [_ ?]%list_elem_of_filter.
    + intros x [_ Hx]%list_elem_of_filter. apply (wf_held _ Hwf). by right; left.
  - apply wf_set_head; [done|]. by apply (wf_held _ Hwf).
  - apply wf_set_index_sub; [done|]. by intros x [_ ?]%list_elem_of_filter.
  - unfold reset. destruct Hwf as [W1 W2 W3 W4 W5]. split; simpl; try done.
    + intros x [Hx|[Hx|Hx]]; simpl in *; [set_solver| |done]. apply W2. by right; left.
    + set_solver.
Qed.

Lemma fork_wf_empty : fork_wf empty.
Proof.
  split; simpl; try done; try set_solver.
  intros x [Hx|[Hx|Hx]]; simpl in *; set_solver.
Qed.

Lemma reachable_wf d : rtc fork_step empty d → fork_wf d.
Proof. apply rtc_ind_r; [apply fork_wf_empty|]. intros. by eapply step_wf. Qed.
End reachable.

(** ** Branches *)
Section branches.
Import ForkDb.
Context `{Env}.
Context (Hsha : ∀ h, length (sha224_header h) = 7%nat).
Implicit Types (d : fork_database) (it : fork_item).

Lemma header_num h : Block.num_from_id (Block.id h) = Block.block_num h.
Proof.
  unfold Block.num_from_id, Block.id, Block.word0. specialize (Hsha h).
  destruct (sha224_header h) as [|w ws]; [done|]. simpl.
  apply endian_involutive. unfold Block.block_num, u32. apply Z.mod_pos_bound. lia.
Qed.

(** A linked item has the number after its predecessor's. *)
Lemma prev_num d a it p pit :
  fork_wf d → heap d !! a = Some it → prev it = Some p → heap d !! p = Some pit → num it = num pit + 1.
Proof.
  intros Hwf Ha Hp Hpit.
  destruct (wf_prev _ Hwf a it p Ha Hp) as (pit1 & Hpit1 & Hid).
  rewrite Hpit in Hpit1. injection Hpit1 as <-.
  destruct (wf_item _ Hwf a it Ha) as (_ & Hn & H1).
  destruct (wf_item _ Hwf p pit Hpit) as (Hid' & Hn' & H1').
  unfold Block.block_num in Hn. fold (previous_id it) in Hn. rewrite <- Hid, Hid', header_num, <- Hn' in Hn.
  assert (num pit < 2^32).
  { rewrite Hn'. unfold Block.block_num, u32. apply Z.mod_pos_bound. lia. }
  unfold u32 in Hn. destruct (decide (num pit + 1 = 2^32)) as [He|].
  - rewrite He, Z.mod_same in Hn by lia. lia.
  - rewrite Z.mod_small in Hn; lia.
Qed.

(** [fork_path d a l b]: following predecessors from [a] visits [l] and stops at [b]. *)
Inductive fork_path d : addr → list addr → addr → Prop :=
| path_nil a : fork_path d a [] a
| path_cons a it p l b :
    heap d !! a = Some it → prev it = Some p → fork_path d p l b → fork_path d a (a :: l) b.

Lemma path_snoc d a l b it p :
  fork_path d a l b → heap d !! b = Some it → prev it = Some p → fork_path d a (l ++ [b]) p.
Proof.
  induction 1 as [a|a it' q l b Ha Hq Hp IH]; intros Hb Hpr; simpl.
  - econstructor; [done..|]. constructor.
  - econstructor; [done..|]. by apply IH.
Qed.

Lemma lock_Some d p a : lock d p = Some a → p = Some a.
Proof. unfold lock. destruct p; [|done]. destruct (alive d a0); naive_solver. Qed.

Definition climb_post d a n branch (r : result (addr * list addr)) : Prop :=
  match r with
  | Ok (b, br) => ∃ l itb, br = branch ++ l ∧ fork_path d a l b ∧ heap d !! b = Some itb ∧
                           num itb = Z.min n (num_at d a)
  | Exc e => e ≠ Fault
  end.

Lemma climb_ok d fuel a n branch it :
  fork_wf d → heap d !! a = Some it → 0 ≤ n → (Z.to_nat (num it - n) ≤ fuel)%nat →
  climb_post d a n branch (climb fuel d a n branch).
Proof.
  intros Hwf. revert a branch it. induction fuel as [|fuel IH]; intros a branch it Ha H0 Hf;
    cbn [climb]; unfold deref; rewrite Ha;
    (assert (Hat : num_at d a = num it) by (unfold num_at, deref; by rewrite Ha));
    destruct (n <? num it) eqn:En; bool_hyps.
  - lia.
  - exists [], it. rewrite app_nil_r. split_and!; [done|constructor|done|lia].
  - destruct (lock d (prev it)) as [p|] eqn:El; [|done]. apply lock_Some in El.
    destruct (wf_prev _ Hwf a it p Ha El) as (pit & Hpit & _).
    pose proof (prev_num d a it p pit Hwf Ha El Hpit) as Hnum.
    assert (Hatp : num_at d p = num pit) by (unfold num_at, deref; by rewrite Hpit).
    pose proof (IH p (branch ++ [a]) pit Hpit H0 ltac:(lia)) as Hpost.
    destruct (climb fuel d p n (branch ++ [a])) as [[b br]|e]; [|done].
    destruct Hpost as (l & itb & -> & Hpath & Hb & Hnb).
    exists (a :: l), itb. split_and!; [by rewrite <- app_assoc|by econstructor|done|lia].
  - exists [], it. rewrite app_nil_r. split_and!; [done|constructor|done|lia].
Qed.

Definition both_post d a b b1 b2 (r : result (list addr * list addr)) : Prop :=
  match r with
  | Ok (r1, r2) => ∃ l1 l2 x y ix iy,
      r1 = b1 ++ l1 ++ [x] ∧ r2 = b2 ++ l2 ++ [y] ∧ fork_path d a l1 x ∧ fork_path d b l2 y ∧
      heap d !! x = Some ix ∧ heap d !! y = Some iy ∧ previous_id ix = previous_id iy
  | Exc e => e ≠ Fault
  end.

Lemma climb_both_ok d fuel a b b1 b2 ia ib :
  fork_wf d → heap d !! a = Some ia → heap d !! b = Some ib → num ia = num ib →
  (Z.to_nat (num ia) ≤ fuel)%nat →
  both_post d a b b1 b2 (climb_both fuel d a b b1 b2).
Proof.
  intros Hwf. revert a b b1 b2 ia ib. induction fuel as [|fuel IH]; intros a b b1 b2 ia ib Ha Hb Hn Hf;
    cbn [climb_both]; unfold deref; rewrite Ha, Hb; case_bool_decide as He;
    try (exists [], [], a, b, ia, ib; split_and!; done || constructor).
  - destruct (wf_item _ Hwf a ia Ha) as (_ & _ & ?). lia.
  - destruct (lock d (prev ia)) as [pa|] eqn:Ea; [|done].
    destruct (lock d (prev ib)) as [pb|] eqn:Eb; [|done].
    apply lock_Some in Ea, Eb.
    destruct (wf_prev _ Hwf a ia pa Ha Ea) as (pia & Hpa & _).
    destruct (wf_prev _ Hwf b ib pb Hb Eb) as (pib & Hpb & _).
    pose proof (prev_num d a ia pa pia Hwf Ha Ea Hpa).
    pose proof (prev_num d b ib pb pib Hwf Hb Eb Hpb).
    pose proof (IH pa pb (b1 ++ [a]) (b2 ++ [b]) pia pib Hpa Hpb ltac:(lia) ltac:(lia)) as Hpost.
    destruct (climb_both fuel d pa pb _ _) as [[r1 r2]|e]; [|done].
    destruct Hpost as (l1 & l2 & x & y & ix & iy & -> & -> & P1 & P2 & Hx & Hy & Heq).
    exists (a :: l1), (b :: l2), x, y, ix, iy.
    split_and!; try done; [by rewrite <- app_assoc|by rewrite <- app_assoc|by econstructor..].
Qed.

Lemma path_app d a l1 b l2 c : fork_path d a l1 b → fork_path d b l2 c → fork_path d a (l1 ++ l2) c.
Proof. induction 1; simpl; [done|]. intros. econstructor; eauto. Qed.

Lemma fetch_branch_ok d first second :
  fork_wf d →
  match fetch_branch_from first second d with
  | Ok (r1, r2) => ∃ a b l1 l2 x y ia ib ix iy,
      heap d !! a = Some ia ∧ id ia = first ∧ heap d !! b = Some ib ∧ id ib = second ∧
      r1 = l1 ++ [x] ∧ r2 = l2 ++ [y] ∧ fork_path d a l1 x ∧ fork_path d b l2 y ∧
      heap d !! x = Some ix ∧ heap d !! y = Some iy ∧ previous_id ix = previous_id iy ∧ num ix = num iy
  | Exc e => e ≠ Fault
  end.
Proof.
  intros Hwf. unfold fetch_branch_from.
  destruct (find_id first _ d) as [a|] eqn:Ea; [|done].
  destruct (find_id second _ d) as [b|] eqn:Eb; [|done].
  apply find_id_Some in Ea as (_ & ia & Ha & Hia). apply find_id_Some in Eb as (_ & ib & Hb & Hib).
  assert (Hna : num_at d a = num ia) by (unfold num_at, deref; by rewrite Ha).
  assert (Hnb : num_at d b = num ib) by (unfold num_at, deref; by rewrite Hb).
  destruct (wf_item _ Hwf a ia Ha) as (_ & _ & H1a). destruct (wf_item _ Hwf b ib Hb) as (_ & _ & H1b).
  pose proof (climb_ok d (Z.to_nat (num_at d a)) a (num_at d b) [] ia Hwf Ha ltac:(lia) ltac:(lia)) as C1.
  destruct (climb _ d a _ []) as [[a1 b1]|e]; [|done]. rewrite bind_Ok.
  destruct C1 as (l1 & ia1 & -> & P1 & Ha1 & Hn1).
  assert (Hna1 : num_at d a1 = num ia1) by (unfold num_at, deref; by rewrite Ha1).
  destruct (wf_item _ Hwf a1 ia1 Ha1) as (_ & _ & H1a1).
  pose proof (climb_ok d (Z.to_nat (num_at d b)) b (num_at d a1) [] ib Hwf Hb ltac:(lia) ltac:(lia)) as C2.
  destruct (climb _ d b _ []) as [[b' b2]|e]; [|done]. rewrite bind_Ok.
  destruct C2 as (l2 & ib' & -> & P2 & Hb' & Hn2).
  pose proof (climb_both_ok d (Z.to_nat (num_at d a1)) a1 b' ([] ++ l1) ([] ++ l2) ia1 ib' Hwf Ha1 Hb'
    ltac:(lia) ltac:(lia)) as C3.
  destruct (climb_both _ _ _ _ _ _) as [[r1 r2]|e]; [|done].
  destruct C3 as (m1 & m2 & x & y & ix & iy & -> & -> & Q1 & Q2 & Hx & Hy & Heq).
  exists a, b, (l1 ++ m1), (l2 ++ m2), x, y, ia, ib, ix, iy.
  split_and!; try done; [by rewrite !app_assoc..|by eapply path_app|by eapply path_app|].
  destruct (wf_item _ Hwf x ix Hx) as (_ & -> & _). destruct (wf_item _ Hwf y iy Hy) as (_ & -> & _).
  unfold Block.block_num. fold (previous_id ix) (previous_id iy). by rewrite Heq.
Qed.
End branches.

(** A fork for concrete runs: block 1, two children with number 2, and a
    number-3 block on the second child, which arrives before its parent. *)
Module ForkDemo.
Definition blk (prev : block_id_type) (t : Z) : signed_block :=
  mkBlock (mkHeader prev t "w" [0] [] 0) [].
Definition b1 := blk null_block_id 10.
Definition b2 := blk (Block.id (header b1)) 20.
Definition b2' := blk (Block.id (header b1)) 21.
Definition b3' := blk (Block.id (header b2')) 30.
Definition pushed (l : list signed_block) : ForkDb.fork_database :=
  fold_left (λ d b, (ForkDb.push_block b d).2) l ForkDb.empty.
Definition db : ForkDb.fork_database := pushed [b1; b2; b3'; b2'].
End ForkDemo.

Lemma fork_demo_reachable l :
  Forall (λ b, 1 ≤ Block.block_num (header b)) l → rtc fork_step ForkDb.empty (ForkDemo.pushed l).
Proof.
  unfold ForkDemo.pushed. rewrite <- (reverse_involutive l).
  induction (reverse l) as [|b l' IH]; intros Hl; [constructor|].
  rewrite reverse_cons in Hl |- *. apply Forall_app in Hl as [Hl Hb].
  rewrite fold_left_app. simpl. eapply rtc_r; [by apply IH|].
  constructor. by inversion Hb.
Qed.

(** C5: In every state reachable by the operations of the fork database (out
    of order pushes, pops, pruning, head changes, removals, reset), each stored pointer has an item, each item carries its block's id
    and number, predecessor links agree with the block's previous id, and no
    two linked items share an id. *)
Theorem fork_db_invariant `{Env} (d : ForkDb.fork_database) :
  rtc fork_step ForkDb.empty d → fork_wf d.
Proof. apply reachable_wf. Qed.

Lemma fork_db_invariant_witness : fork_wf ForkDemo.db.
Proof.
  apply fork_db_invariant. apply (fork_demo_reachable
    [ForkDemo.b1; ForkDemo.b2; ForkDemo.b3'; ForkDemo.b2']).
  repeat constructor; vm_compute; congruence.
Defined.

(** C34: [push_block] always ends (the recursion through the unlinked cache
    consumes it).  What it returns is the head, which is the one before or a
    block with a higher number: an equally long fork does not displace it.
    No block that the push linked, be it the pushed one or cached ones that
    link to it, is above the head, so the head stays the highest linked block
    if it was (after [pop_block] it need not be).  On success the block is
    linked; when it does not link it is cached. *)
Theorem fork_push_returns_highest `{Env} (d : ForkDb.fork_database) (b : signed_block) :
  rtc fork_step ForkDb.empty d → 1 ≤ Block.block_num (header b) →
  let '(r, d') := ForkDb.push_block b d in
  r ≠ Exc Fault ∧
  (∀ h, r = Ok h → h = ForkDb.head d' ∧
     is_Some (ForkDb.find_id (Block.id (header b)) (ForkDb.index d') d')) ∧
  (r = Exc UnlinkableBlock → is_Some (ForkDb.find_id (Block.id (header b)) (ForkDb.unlinked_index d') d')) ∧
  (ForkDb.head d' = ForkDb.head d ∨
     ∃ hn', ForkDb.head_num d' = Some hn' ∧ ∀ hn, ForkDb.head_num d = Some hn → hn < hn') ∧
  (∀ a it, a ∈ ForkDb.index d' → a ∉ ForkDb.index d → ForkDb.heap d' !! a = Some it →
     ∃ hn, ForkDb.head_num d' = Some hn ∧ ForkDb.num it ≤ hn) ∧
  (head_max d → head_max d').
Proof.
  intros Hd%reachable_wf Hn. pose proof (push_block_ok d b Hd Hn) as Hp.
  destruct (ForkDb.push_block b d) as [r d'], Hp as (_ & Hr & Hg & Hok & Hun).
  split_and!; [done..|apply Hg|apply Hg|by apply grows_head_max].
Qed.

Lemma fork_push_returns_highest_witness :
  let d := ForkDemo.pushed [ForkDemo.b1; ForkDemo.b2; ForkDemo.b3'] in
  let '(r, d') := ForkDb.push_block ForkDemo.b2' d in
  ForkDb.head_num d' = Some 3 ∧ r ≠ Exc Fault ∧
  (ForkDb.head d' = ForkDb.head d ∨
     ∃ hn', ForkDb.head_num d' = Some hn' ∧ ∀ hn, ForkDb.head_num d = Some hn → hn < hn').
Proof.
  intros d. pose proof (fork_push_returns_highest d ForkDemo.b2'
    (fork_demo_reachable [ForkDemo.b1; ForkDemo.b2; ForkDemo.b3']
       ltac:(repeat constructor; vm_compute; congruence)) ltac:(vm_compute; congruence)) as H.
  assert (Hn : ForkDb.head_num (ForkDb.push_block ForkDemo.b2' d).2 = Some 3) by (vm_compute; reflexivity).
  revert H Hn. generalize (ForkDb.push_block ForkDemo.b2' d). intros [r d'] (Hr & _ & _ & Hh & _) Hn.
  exact (conj Hn (conj Hr Hh)).
Defined.

(** After [pop_block] the popped block is still linked and above the head, and
    a push of a lower block returns the head, not the highest linked block. *)
Example popped_block_outranks_head :
  let d := (ForkDb.pop_block (ForkDemo.pushed [ForkDemo.b1; ForkDemo.b2])).2 in
  let '(r, d') := ForkDb.push_block ForkDemo.b1 d in
  r = Ok (ForkDb.head d') ∧ ForkDb.head_num d' = Some 1 ∧ List.map (ForkDb.num_at d') (ForkDb.index d') = [1; 2].
Proof. vm_compute. done. Qed.

(** [fetch_branch_from] always ends, and a pair of branches it returns
    leads from the two given blocks back along predecessor links to two blocks
    of equal number with the same previous block. *)
Theorem fork_branches_meet `{Env} (d : ForkDb.fork_database) (first second : block_id_type) :
  (∀ h, length (sha224_header h) = 7%nat) → rtc fork_step ForkDb.empty d →
  match ForkDb.fetch_branch_from first second d with
  | Ok (r1, r2) => ∃ a b l1 l2 x y ia ib ix iy,
      ForkDb.heap d !! a = Some ia ∧ ForkDb.id ia = first ∧
      ForkDb.heap d !! b = Some ib ∧ ForkDb.id ib = second ∧
      r1 = l1 ++ [x] ∧ r2 = l2 ++ [y] ∧ fork_path d a l1 x ∧ fork_path d b l2 y ∧
      ForkDb.heap d !! x = Some ix ∧ ForkDb.heap d !! y = Some iy ∧
      ForkDb.previous_id ix = ForkDb.previous_id iy ∧ ForkDb.num ix = ForkDb.num iy
  | Exc e => e ≠ Fault
  end.
Proof. intros Hsha Hd. by apply fetch_branch_ok, reachable_wf. Qed.

Lemma fork_branches_meet_witness :
  let r := ForkDb.fetch_branch_from (Block.id (header ForkDemo.b3')) (Block.id (header ForkDemo.b2)) ForkDemo.db in
  r = Ok ([2; 3], [1])%nat ∧ match r with Ok _ => True | Exc e => e ≠ Fault end.
Proof.
  split; [vm_compute; reflexivity|].
  assert (Hsha : ∀ h : signed_block_header, length (sha224_header h) = 7%nat) by (intros h; reflexivity).
  pose proof (fork_branches_meet ForkDemo.db (Block.id (header ForkDemo.b3'))
    (Block.id (header ForkDemo.b2)) Hsha
    (fork_demo_reachable [ForkDemo.b1; ForkDemo.b2; ForkDemo.b3'; ForkDemo.b2']
       ltac:(repeat constructor; vm_compute; congruence))) as H.
  destruct (ForkDb.fetch_branch_from _ _ _) as [[r1 r2]|e]; [exact I|exact H].
Defined.
