(* ===== verification/ResourceDynamics.v ===== *)
(** * Energy bars and resource pools

    libraries/chain/include/xgt/chain/util/energybar.hpp and
    libraries/chain/util/rd.cpp (with rd_setup.hpp, rd_dynamics.hpp): an energy
    that regenerates linearly with time up to a maximum, and a resource pool
    that gains a budget and loses a fraction in every time unit. *)
From S2P Require Import Prelude Safe.

(** [fc::uint128]: 128-bit operations; the conversion to 64 bits asserts, the
    division is boost's, which throws [std::overflow_error] for zero. *)
Module U128.
Definition mul (a b : Z) : Z := u128 (a * b).
Definition add (a b : Z) : Z := u128 (a + b).
Definition shl (a n : Z) : Z := if 128 <=? n then 0 else u128 (Z.shiftl a n).
Definition shr (a n : Z) : Z := if 128 <=? n then 0 else Z.shiftr a n.
Definition div (a b : Z) : result Z := if b =? 0 then Exc RuntimeError else Ok (a / b).
Definition to_uint64 (a : Z) : result Z := fc_assert (a <? 2^64) ;; mret a.
End U128.

(** ** Energy bars *)
Record energybar_params := mkEnergyParams { max_energy : Z; regen_time : Z }.
Record energybar := mkEnergybar { current_energy : Z; last_update_time : Z }.

Module Energybar.
Definition validate (p : energybar_params) : result unit := fc_assert (0 <=? max_energy p).

Definition regenerate_energy (skip_cap_regen : bool) (p : energybar_params) (now : Z)
    (e : energybar) : result energybar :=
  validate p ;;
  fc_assert (last_update_time e <=? now) ;;
  let dt := now - last_update_time e in
  if max_energy p <=? current_energy e then mret (mkEnergybar (max_energy p) now)
  else
    let dt := if skip_cap_regen then dt else if regen_time p <? dt then regen_time p else dt in
    let max_energy_dt := U128.mul (if 0 <=? max_energy p then max_energy p else 0) dt in
    q ← U128.div max_energy_dt (regen_time p);
    u_regen ← U128.to_uint64 q;
    fc_assert (u_regen <=? int64_max) ;;
    let new_current_energy := Saturation.signed_sat_add (current_energy e) u_regen in
    mret (mkEnergybar (if max_energy p <? new_current_energy then max_energy p
                       else new_current_energy) now).

Definition has_energy (energy_needed : Z) (e : energybar) : bool :=
  (energy_needed <=? 0) || (energy_needed <=? current_energy e).
(** The overload on [uint64_t] converts to [int64_t] first. *)
Definition has_energy_u64 (energy_needed : Z) (e : energybar) : bool :=
  has_energy (i64 energy_needed) e.

Definition use_energy (energy_used min_energy : Z) (e : energybar) : energybar :=
  let c := Saturation.signed_sat_sub (current_energy e) energy_used in
  mkEnergybar (if c <? min_energy then min_energy else c) (last_update_time e).
Definition use_energy_u64 (energy_used min_energy : Z) (e : energybar) : energybar :=
  use_energy (i64 energy_used) min_energy e.
End Energybar.

(** ** Resource dynamics *)
Definition XGT_RD_MIN_DECAY_BITS : Z := 6.
Definition XGT_RD_DECAY_DENOM_SHIFT : Z := 36.
Definition XGT_RD_MAX_POOL_BITS : Z := 64.
Definition XGT_RD_MAX_BUDGET_1 : Z :=
  2 ^ (XGT_RD_MAX_POOL_BITS + XGT_RD_MIN_DECAY_BITS - XGT_RD_DECAY_DENOM_SHIFT) - 1.
Definition XGT_RD_MAX_BUDGET_2 : Z := 2 ^ (64 - XGT_RD_DECAY_DENOM_SHIFT) - 1.
Definition XGT_RD_MAX_BUDGET_3 : Z := 2^31 - 1.
Definition XGT_RD_MAX_BUDGET : Z :=
  Z.min XGT_RD_MAX_BUDGET_1 (Z.min XGT_RD_MAX_BUDGET_2 XGT_RD_MAX_BUDGET_3).
Definition XGT_RD_MIN_BUDGET : Z := 1.
Definition XGT_RD_MIN_DECAY : Z := 2 ^ XGT_RD_MIN_DECAY_BITS.
Definition XGT_RD_MAX_DECAY : Z := 0xFFFFFFFF.

Record rd_user_params := mkUserParams { u_budget_per_time_unit : Z; u_decay_per_time_unit : Z }.
Record rd_system_params := mkSystemParams { s_resource_unit : Z; s_decay_denom_shift : Z }.
Record rd_decay_params := mkDecayParams { decay_per_time_unit : Z; decay_denom_shift : Z }.
Record rd_dynamics_params := mkDynamics {
  resource_unit : Z;
  budget_per_time_unit : Z;
  pool_eq : Z;
  max_pool_size : Z;
  decay_params : rd_decay_params;
  min_decay : Z
}.

Module Rd.
Definition validate_user_params (p : rd_user_params) : result unit :=
  fc_assert (XGT_RD_MIN_BUDGET <=? u_budget_per_time_unit p) ;;
  fc_assert (u_budget_per_time_unit p <=? XGT_RD_MAX_BUDGET) ;;
  fc_assert (XGT_RD_MIN_DECAY <=? u_decay_per_time_unit p) ;;
  fc_assert (u_decay_per_time_unit p <=? XGT_RD_MAX_DECAY).

(** The body for a non-negative pool; a negative pool is negated on the way in
    and out. *)
Definition pool_decay_nonneg (d : rd_decay_params) (current_pool dt : Z) : result Z :=
  let decay_amount := u64 (decay_per_time_unit d * dt) in
  let decay_amount := U128.mul decay_amount (u64 current_pool) in
  let decay_amount := U128.shr decay_amount (decay_denom_shift d) in
  r ← U128.to_uint64 decay_amount;
  mret (if u64 current_pool <? r then current_pool else i64 r).
Definition compute_pool_decay (d : rd_decay_params) (current_pool dt : Z) : result Z :=
  if current_pool <? 0 then r ← pool_decay_nonneg d (i64 (- current_pool)) dt; mret (i64 (- r))
  else pool_decay_nonneg d current_pool dt.

Definition apply (rd : rd_dynamics_params) (pool : Z) : result Z :=
  decay ← compute_pool_decay (decay_params rd) pool 1;
  let budget := budget_per_time_unit rd in
  let max_pool_size := i64 (max_pool_size rd) in
  let decay := Z.max decay (min_decay rd) in
  let new_pool := i64 (pool + budget - decay) in
  let new_pool := Z.min new_pool max_pool_size in
  mret (Z.max new_pool 0).

Definition check_pool_eq (p : rd_dynamics_params) (pool : Z) : result bool :=
  decay ← compute_pool_decay (decay_params p) (i64 pool) 1;
  mret (budget_per_time_unit p <=? decay).

(** [min_decay] of the output parameter is left as it was. *)
Definition setup_dynamics_params (u : rd_user_params) (s : rd_system_params)
    (out : rd_dynamics_params) : result rd_dynamics_params :=
  fc_assert (s_decay_denom_shift s =? XGT_RD_DECAY_DENOM_SHIFT) ;;
  let temp := u128 (u_budget_per_time_unit u) in
  let temp := U128.shl temp (s_decay_denom_shift s) in
  let temp := U128.add temp (u32 (u_decay_per_time_unit u - 1)) in
  temp ← U128.div temp (u_decay_per_time_unit u);
  eq ← U128.to_uint64 temp;
  let out := mkDynamics (s_resource_unit s) (u_budget_per_time_unit u) eq eq
    (mkDecayParams (u_decay_per_time_unit u) (u8 (s_decay_denom_shift s))) (min_decay out) in
  ok1 ← check_pool_eq out (pool_eq out);
  fc_assert ok1 ;;
  ok2 ← check_pool_eq out (u64 (pool_eq out - 1));
  fc_assert (negb ok2) ;;
  mret out.
End Rd.

(** ** Lemmas *)
Lemma regen_amount m dt r :
  0 ≤ m ≤ int64_max → 0 ≤ dt ≤ r → 0 < r < 2^32 →
  (q ← U128.div (U128.mul m dt) r; U128.to_uint64 q) = Ok (m * dt / r) ∧ 0 ≤ m * dt / r ≤ m.
Proof.
  unfold int64_max. intros Hm Hdt Hr.
  assert (Hd : 0 ≤ m * dt / r ≤ m).
  { split; [apply Z.div_pos; nia|]. apply Z.div_le_upper_bound; nia. }
  assert (Hx : 0 ≤ m * dt < 2^128) by nia.
  split; [|done].
  unfold U128.div, U128.mul. rewrite u128_id by done.
  replace (r =? 0) with false by (symmetry; apply Z.eqb_neq; lia).
  rewrite bind_Ok. unfold U128.to_uint64.
  by rewrite bind_assert_true by (apply Z.ltb_lt; lia).
Qed.

Lemma regenerate_capped p now e :
  0 ≤ max_energy p ≤ int64_max → 0 < regen_time p < 2^32 → is_i64 (current_energy e) →
  last_update_time e ≤ now →
  Energybar.regenerate_energy false p now e =
    Ok (mkEnergybar (Z.min (max_energy p)
          (current_energy e + max_energy p * Z.min (regen_time p) (now - last_update_time e) / regen_time p))
          now).
Proof.
  intros Hm Hr Hc Hnow. unfold Energybar.regenerate_energy, Energybar.validate.
  set (dt := Z.min (regen_time p) (now - last_update_time e)).
  destruct (regen_amount (max_energy p) dt (regen_time p)) as [Hq Hd]; [done|lia|done|].
  rewrite !bind_assert_true by (apply Z.leb_le; lia).
  destruct (max_energy p <=? current_energy e) eqn:Hfull; bool_hyps.
  { do 2 f_equal. lia. }
  replace (0 <=? max_energy p) with true by (symmetry; apply Z.leb_le; lia).
  replace (if regen_time p <? now - last_update_time e then regen_time p
           else now - last_update_time e) with dt
    by (subst dt; destruct (regen_time p <? now - last_update_time e) eqn:?; bool_hyps; lia).
  cbv zeta. destruct (U128.div _ _) as [q|] eqn:Hdiv; [|done].
  change (U128.to_uint64 q = Ok (max_energy p * dt / regen_time p)) in Hq.
  rewrite bind_Ok, Hq, bind_Ok.
  rewrite bind_assert_true by (apply Z.leb_le; lia).
  rewrite sat_add_clamp; [|done|unfold is_i64, int64_min in *; lia].
  unfold Saturation.clamp, is_i64 in *. set (x := max_energy p * dt / regen_time p) in *.
  do 2 f_equal. case_match; bool_hyps; lia.
Qed.

(** The decay of a pool, for parameters in the validated range. *)
Lemma decay_value d p :
  0 ≤ d < 2^32 → 0 ≤ p ≤ int64_max →
  Rd.compute_pool_decay (mkDecayParams d 36) p 1 = Ok (d * p / 2^36) ∧ 0 ≤ d * p / 2^36 ≤ p.
Proof.
  unfold int64_max. intros Hd Hp.
  assert (Hb : 0 ≤ d * p / 2^36 ≤ p).
  { split; [apply Z.div_pos; lia|].
    apply Z.div_le_upper_bound; [lia|]. apply Z.mul_le_mono_nonneg_r; lia. }
  assert (Hm : 0 ≤ d * p < 2^128).
  { split; [lia|]. apply Z.le_lt_trans with (2^32 * p); [apply Z.mul_le_mono_nonneg_r; lia|lia]. }
  split; [|done].
  unfold Rd.compute_pool_decay. destruct (p <? 0) eqn:?; bool_hyps; [lia|].
  unfold Rd.pool_decay_nonneg, U128.mul, U128.shr. cbn [decay_per_time_unit decay_denom_shift].
  change (128 <=? 36) with false. cbv iota zeta.
  rewrite Z.mul_1_r, (u64_id d), (u64_id p), u128_id, Z.shiftr_div_pow2 by lia.
  unfold U128.to_uint64. rewrite bind_assert_true by (apply Z.ltb_lt; lia).
  unfold mret, result_ret. rewrite bind_Ok.
  destruct (p <? d * p / 2^36) eqn:?; bool_hyps; [lia|].
  rewrite i64_id; [done|]. unfold is_i64, int64_min, int64_max. lia.
Qed.

(** The ceiling division used for the equilibrium. *)
Lemma ceil_least b d x : 0 < d → (b ≤ d * x ↔ (b + (d - 1)) / d ≤ x).
Proof.
  intros Hd. split; intros Hx.
  - apply Z.lt_succ_r, Z.div_lt_upper_bound; lia.
  - pose proof (Z.mul_succ_div_gt (b + (d - 1)) d Hd). nia.
Qed.

Definition valid_user (u : rd_user_params) : Prop := Rd.validate_user_params u = Ok tt.
Lemma valid_user_range u : valid_user u →
  1 ≤ u_budget_per_time_unit u < 2^28 ∧ 64 ≤ u_decay_per_time_unit u < 2^32.
Proof.
  unfold valid_user, Rd.validate_user_params. intros Hv. inv_ok. bool_hyps.
  unfold XGT_RD_MIN_BUDGET, XGT_RD_MIN_DECAY in *.
  change XGT_RD_MAX_BUDGET with 268435455 in *. change XGT_RD_MAX_DECAY with 4294967295 in *.
  change (2 ^ XGT_RD_MIN_DECAY_BITS) with 64 in *. lia.
Qed.

Definition equilibrium (u : rd_user_params) : Z :=
  (u_budget_per_time_unit u * 2^36 + (u_decay_per_time_unit u - 1)) / u_decay_per_time_unit u.

Lemma equilibrium_range u : valid_user u → 1 ≤ equilibrium u ≤ 2^58.
Proof.
  intros [Hb Hd]%valid_user_range. unfold equilibrium. split.
  - apply Z.div_le_lower_bound; lia.
  - apply Z.div_le_upper_bound; lia.
Qed.

Lemma decay_reaches_budget u x : valid_user u →
  u_budget_per_time_unit u ≤ u_decay_per_time_unit u * x / 2^36 ↔ equilibrium u ≤ x.
Proof.
  intros [Hb Hd]%valid_user_range. unfold equilibrium.
  rewrite <- ceil_least by lia. split; intros Hx.
  - pose proof (Z.mul_div_le (u_decay_per_time_unit u * x) (2^36)). nia.
  - apply Z.div_le_lower_bound; lia.
Qed.

Lemma setup_ok u s out : valid_user u → s_decay_denom_shift s = XGT_RD_DECAY_DENOM_SHIFT →
  Rd.setup_dynamics_params u s out =
    Ok (mkDynamics (s_resource_unit s) (u_budget_per_time_unit u) (equilibrium u) (equilibrium u)
          (mkDecayParams (u_decay_per_time_unit u) 36) (min_decay out)).
Proof.
  intros Hv Hs. pose proof (equilibrium_range u Hv). pose proof (valid_user_range u Hv) as [Hb Hd].
  unfold Rd.setup_dynamics_params. rewrite Hs.
  rewrite bind_assert_true by done. unfold U128.shl, U128.add.
  change (128 <=? XGT_RD_DECAY_DENOM_SHIFT) with false. cbv iota zeta.
  rewrite (u32_id (u_decay_per_time_unit u - 1)), (u128_id (u_budget_per_time_unit u)) by lia.
  change XGT_RD_DECAY_DENOM_SHIFT with 36.
  rewrite Z.shiftl_mul_pow2, (u128_id (_ * _)), u128_id by lia.
  unfold U128.div. replace (_ =? 0) with false by (symmetry; apply Z.eqb_neq; lia).
  rewrite bind_Ok. fold (equilibrium u). unfold U128.to_uint64.
  rewrite bind_assert_true by (apply Z.ltb_lt; lia). unfold mret, result_ret. rewrite bind_Ok.
  unfold Rd.check_pool_eq. cbn [pool_eq decay_params budget_per_time_unit].
  change (u8 36) with 36.
  rewrite u64_id, !i64_id by (unfold is_i64, int64_min, int64_max; lia).
  destruct (decay_value (u_decay_per_time_unit u) (equilibrium u)) as [-> _]; [lia|unfold int64_max; lia|].
  destruct (decay_value (u_decay_per_time_unit u) (equilibrium u - 1)) as [-> _];
    [lia|unfold int64_max; lia|].
  rewrite ?bind_Ok.
  rewrite bind_assert_true by (apply Z.leb_le; by apply decay_reaches_budget).
  rewrite bind_assert_true; [done|]. apply negb_true_iff, Z.leb_gt, Z.nle_gt.
  rewrite decay_reaches_budget by done. lia.
Qed.

(** ** Properties *)

(** Regeneration of an energy bar is exact: with a valid maximum, a
    positive regeneration time and a clock that did not go back it never
    throws, and gives the smaller of the maximum and the old energy plus the
    elapsed share of the maximum; after a full regeneration time a bar that
    was not negative is full. *)
Theorem energy_regeneration_exact p now e :
  0 ≤ max_energy p ≤ int64_max → 0 < regen_time p < 2^32 → is_i64 (current_energy e) →
  last_update_time e ≤ now →
  ∃ e', Energybar.regenerate_energy false p now e = Ok e' ∧ last_update_time e' = now ∧
    current_energy e' = Z.min (max_energy p)
      (current_energy e + max_energy p * Z.min (regen_time p) (now - last_update_time e) / regen_time p) ∧
    (0 ≤ current_energy e → regen_time p ≤ now - last_update_time e →
     current_energy e' = max_energy p).
Proof.
  intros Hm Hr Hc Hnow. eexists. split; [by apply regenerate_capped|].
  split; [done|]. split; [done|]. simpl. intros H0 Hfull.
  rewrite (Z.min_l (regen_time p)), Z.div_mul by lia. lia.
Qed.

Lemma energy_regeneration_exact_witness :
  ∃ e', Energybar.regenerate_energy false (mkEnergyParams 1000 86400) 43200 (mkEnergybar 100 0) = Ok e' ∧
    last_update_time e' = 43200 ∧ current_energy e' = 600 ∧
    (0 ≤ 100 → 86400 ≤ 43200 - 0 → current_energy e' = 1000).
Proof.
  refine (energy_regeneration_exact (mkEnergyParams 1000 86400) 43200 (mkEnergybar 100 0) _ _ _ _);
    vm_compute; repeat split; congruence.
Defined.

(** Spending energy never gives a bar below the minimum, and takes exactly
    the amount asked for when the bar has it; but the overload on [uint64_t],
    whose range check is switched off, adds energy to the bar for every amount
    of 2^63 or more. *)
Theorem energy_spending e used :
  0 ≤ current_energy e ≤ int64_max → 0 ≤ used < 2^64 →
  0 ≤ current_energy (Energybar.use_energy_u64 used 0 e) ∧
  (used ≤ int64_max →
     current_energy (Energybar.use_energy_u64 used 0 e) = Z.max 0 (current_energy e - used)) ∧
  (int64_max < used →
     current_energy (Energybar.use_energy_u64 used 0 e) =
       Z.min int64_max (current_energy e + (2^64 - used))).
Proof.
  intros Hc Hu. unfold Energybar.use_energy_u64, Energybar.use_energy. simpl.
  assert (Hi : is_i64 (i64 used)).
  { unfold is_i64, i64, int64_min, int64_max. pose proof (Z.mod_pos_bound (used + 2^63) (2^64)). lia. }
  rewrite sat_sub_clamp; [|unfold is_i64, int64_min; lia|done].
  unfold Saturation.clamp, int64_min, int64_max in *.
  assert (Hlow : used ≤ 2^63 - 1 → i64 used = used).
  { intros. apply i64_id. unfold is_i64, int64_min, int64_max. lia. }
  assert (Hhigh : 2^63 - 1 < used → i64 used = used - 2^64).
  { intros. unfold i64. replace (used + 2^63) with (used - 2^63 + 1 * 2^64) by lia.
    rewrite Z.mod_add, Z.mod_small by lia. lia. }
  case_match; bool_hyps; (destruct (decide (used ≤ 2^63 - 1)) as [l|l];
    [rewrite (Hlow l) in *|rewrite (Hhigh ltac:(lia)) in *]); lia.
Qed.

Lemma energy_spending_witness :
  0 ≤ current_energy (Energybar.use_energy_u64 (2^64 - 7) 0 (mkEnergybar 5 0)) ∧
  (2^64 - 7 ≤ int64_max →
     current_energy (Energybar.use_energy_u64 (2^64 - 7) 0 (mkEnergybar 5 0)) = Z.max 0 (5 - (2^64 - 7))) ∧
  (int64_max < 2^64 - 7 →
     current_energy (Energybar.use_energy_u64 (2^64 - 7) 0 (mkEnergybar 5 0)) =
       Z.min int64_max (5 + (2^64 - (2^64 - 7)))).
Proof. apply (energy_spending (mkEnergybar 5 0) (2^64 - 7)); vm_compute; split; congruence. Defined.

(** For user parameters that pass validation the set-up of a resource pool
    never fails its own checks, and [pool_eq] is the smallest pool whose decay
    in one time unit reaches the budget. *)
Theorem rd_equilibrium_least u s out :
  Rd.validate_user_params u = Ok tt → s_decay_denom_shift s = XGT_RD_DECAY_DENOM_SHIFT →
  ∃ p, Rd.setup_dynamics_params u s out = Ok p ∧ max_pool_size p = pool_eq p ∧
    ∀ x, 0 ≤ x ≤ int64_max → ∃ decay,
      Rd.compute_pool_decay (decay_params p) x 1 = Ok decay ∧
      (budget_per_time_unit p ≤ decay ↔ pool_eq p ≤ x).
Proof.
  intros Hv Hs. eexists. split; [by apply setup_ok|]. split; [done|]. intros x Hx. simpl.
  pose proof (valid_user_range u Hv).
  destruct (decay_value (u_decay_per_time_unit u) x) as [-> _]; [lia|done|].
  eexists. split; [done|]. by apply decay_reaches_budget.
Qed.

Lemma rd_equilibrium_least_witness :
  ∃ p, Rd.setup_dynamics_params (mkUserParams 797 347321) (mkSystemParams 10000 36)
         (mkDynamics 0 0 0 0 (mkDecayParams 0 0) 0) = Ok p ∧ max_pool_size p = pool_eq p ∧
    ∀ x, 0 ≤ x ≤ int64_max → ∃ decay,
      Rd.compute_pool_decay (decay_params p) x 1 = Ok decay ∧
      (budget_per_time_unit p ≤ decay ↔ pool_eq p ≤ x).
Proof. apply rd_equilibrium_least; vm_compute; reflexivity. Defined.

(** One step of a pool set up from valid parameters keeps it between zero
    and [pool_eq], never lowers a pool below [pool_eq], and never
    throws. *)
Theorem rd_apply_bounds u s out p pool :
  Rd.validate_user_params u = Ok tt → s_decay_denom_shift s = XGT_RD_DECAY_DENOM_SHIFT →
  min_decay out = 0 → Rd.setup_dynamics_params u s out = Ok p → 0 ≤ pool ≤ pool_eq p →
  ∃ pool', Rd.apply p pool = Ok pool' ∧ 0 ≤ pool' ≤ pool_eq p ∧ (pool < pool_eq p → pool ≤ pool').
Proof.
  intros Hv Hs Hmin Hset Hpool. rewrite setup_ok in Hset by done. injection Hset as <-.
  simpl in Hpool. pose proof (equilibrium_range u Hv). pose proof (valid_user_range u Hv) as [Hb Hd].
  unfold Rd.apply. cbn [decay_params budget_per_time_unit max_pool_size min_decay].
  destruct (decay_value (u_decay_per_time_unit u) pool) as [-> Hdec]; [lia|unfold int64_max; lia|].
  rewrite bind_Ok, Hmin. set (dec := _ / _) in *.
  rewrite !i64_id by (unfold is_i64, int64_min, int64_max; lia).
  eexists. split; [done|]. cbn [pool_eq]. split; [lia|]. intros Hlt.
  assert (dec < u_budget_per_time_unit u); [|lia].
  apply Z.nle_gt. subst dec. rewrite decay_reaches_budget by done. lia.
Qed.

Lemma rd_apply_bounds_witness :
  ∃ pool', Rd.apply (mkDynamics 10000 797 157691079 157691079 (mkDecayParams 347321 36) 0) 1000 = Ok pool' ∧
    0 ≤ pool' ≤ 157691079 ∧ (1000 < 157691079 → 1000 ≤ pool').
Proof.
  apply (rd_apply_bounds (mkUserParams 797 347321) (mkSystemParams 10000 36)
    (mkDynamics 0 0 0 0 (mkDecayParams 0 0) 0)
    (mkDynamics 10000 797 157691079 157691079 (mkDecayParams 347321 36) 0));
    vm_compute; try reflexivity; split; congruence.
Defined.
