(* ===== verification/Objects.v ===== *)
(** * The objects of the chain database

    The object classes of libraries/chain/include/xgt/chain (wallet_object.hpp,
    xgt_objects.hpp, comment_object.hpp, witness_objects.hpp,
    transaction_object.hpp, global_property_object.hpp, xtt_objects/, ...), with
    their default member values, the keys of their unique secondary indices, and
    the list of tables the database registers for them (index_init1.cpp to
    index_init3.cpp).  An index whose composite key ends in the object's id is
    unique by construction and is not listed.  [set_f v o] is the object with
    member [f] assigned. *)
From S2P Require Import Prelude Safe Chainbase Asset Protocol ResourceDynamics.

Definition XGT_INIT_MINER_NAME : wallet_name_type := "XGT0000000000000000000000000000000000000000".
Definition XGT_MINER_WALLET : wallet_name_type := "XGT0000000000000000000000000000000000000001".
Definition XGT_NULL_WALLET : wallet_name_type := "XGT0000000000000000000000000000000000000002".
Definition XGT_TEMP_WALLET : wallet_name_type := "XGT0000000000000000000000000000000000000003".
Definition XGT_TREASURY_WALLET : wallet_name_type := "XGT0000000000000000000000000000000000000004".
Definition XGT_ROOT_POST_PARENT : wallet_name_type := EmptyString.

Definition zero_xgt : asset := mkAsset 0 XGT_SYMBOL.
Definition empty_authority : authority := mkAuthority 0 [] [].

(** [strcmp_less] compares the C strings: up to the first NUL. *)
Fixpoint c_str (s : string) : string :=
  match s with
  | EmptyString => EmptyString
  | String c s' => if bool_decide (c = Ascii.zero) then EmptyString else String c (c_str s')
  end.

Inductive xtt_phase :=
| phase_setup | phase_setup_completed | phase_ico | phase_ico_completed
| phase_launch_failed | phase_launch_success.
#[export] Instance xtt_phase_eq_dec : EqDecision xtt_phase.
Proof. solve_decision. Defined.
(** The order of the enumeration's values. *)
Definition phase_num (p : xtt_phase) : Z :=
  match p with
  | phase_setup => 0 | phase_setup_completed => 1 | phase_ico => 2 | phase_ico_completed => 3
  | phase_launch_failed => 4 | phase_launch_success => 5
  end.

Record dynamic_global_property_object := mkDgp {
  dgp_id : Z;
  dgp_head_block_number : Z;
  dgp_head_block_id : block_id_type;
  dgp_time : time_point_sec;
  dgp_mining_target : Z;
  dgp_last_mining_recalc_time : time_point_sec;
  dgp_total_pow : Z;
  dgp_num_pow_witnesses : Z;
  dgp_virtual_supply : asset;
  dgp_current_supply : asset;
  dgp_confidential_supply : asset;
  dgp_maximum_block_size : Z;
  dgp_required_actions_partition_percent : Z;
  dgp_current_aslot : Z;
  dgp_recent_slots_filled : Z;
  dgp_participation_count : Z;
  dgp_last_irreversible_block_num : Z;
  dgp_target_votes_per_period : Z;
  dgp_delegation_return_period : Z;
  dgp_reverse_auction_seconds : Z;
  dgp_next_maintenance_time : time_point_sec;
  dgp_last_budget_time : time_point_sec;
  dgp_downvote_pool_percent : Z;
  dgp_xtt_creation_fee : asset
}.
Definition set_dgp_head_block_number (v : Z) (o : dynamic_global_property_object) : dynamic_global_property_object :=
  mkDgp (dgp_id o) v (dgp_head_block_id o) (dgp_time o) (dgp_mining_target o)
    (dgp_last_mining_recalc_time o) (dgp_total_pow o) (dgp_num_pow_witnesses o)
    (dgp_virtual_supply o) (dgp_current_supply o) (dgp_confidential_supply o)
    (dgp_maximum_block_size o) (dgp_required_actions_partition_percent o) (dgp_current_aslot o)
    (dgp_recent_slots_filled o) (dgp_participation_count o) (dgp_last_irreversible_block_num o)
    (dgp_target_votes_per_period o) (dgp_delegation_return_period o)
    (dgp_reverse_auction_seconds o) (dgp_next_maintenance_time o) (dgp_last_budget_time o)
    (dgp_downvote_pool_percent o) (dgp_xtt_creation_fee o).
Definition set_dgp_head_block_id (v : block_id_type) (o : dynamic_global_property_object) : dynamic_global_property_object :=
  mkDgp (dgp_id o) (dgp_head_block_number o) v (dgp_time o) (dgp_mining_target o)
    (dgp_last_mining_recalc_time o) (dgp_total_pow o) (dgp_num_pow_witnesses o)
    (dgp_virtual_supply o) (dgp_current_supply o) (dgp_confidential_supply o)
    (dgp_maximum_block_size o) (dgp_required_actions_partition_percent o) (dgp_current_aslot o)
    (dgp_recent_slots_filled o) (dgp_participation_count o) (dgp_last_irreversible_block_num o)
    (dgp_target_votes_per_period o) (dgp_delegation_return_period o)
    (dgp_reverse_auction_seconds o) (dgp_next_maintenance_time o) (dgp_last_budget_time o)
    (dgp_downvote_pool_percent o) (dgp_xtt_creation_fee o).
Definition set_dgp_time (v : time_point_sec) (o : dynamic_global_property_object) : dynamic_global_property_object :=
  mkDgp (dgp_id o) (dgp_head_block_number o) (dgp_head_block_id o) v (dgp_mining_target o)
    (dgp_last_mining_recalc_time o) (dgp_total_pow o) (dgp_num_pow_witnesses o)
    (dgp_virtual_supply o) (dgp_current_supply o) (dgp_confidential_supply o)
    (dgp_maximum_block_size o) (dgp_required_actions_partition_percent o) (dgp_current_aslot o)
    (dgp_recent_slots_filled o) (dgp_participation_count o) (dgp_last_irreversible_block_num o)
    (dgp_target_votes_per_period o) (dgp_delegation_return_period o)
    (dgp_reverse_auction_seconds o) (dgp_next_maintenance_time o) (dgp_last_budget_time o)
    (dgp_downvote_pool_percent o) (dgp_xtt_creation_fee o).
Definition set_dgp_mining_target (v : Z) (o : dynamic_global_property_object) : dynamic_global_property_object :=
  mkDgp (dgp_id o) (dgp_head_block_number o) (dgp_head_block_id o) (dgp_time o) v
    (dgp_last_mining_recalc_time o) (dgp_total_pow o) (dgp_num_pow_witnesses o)
    (dgp_virtual_supply o) (dgp_current_supply o) (dgp_confidential_supply o)
    (dgp_maximum_block_size o) (dgp_required_actions_partition_percent o) (dgp_current_aslot o)
    (dgp_recent_slots_filled o) (dgp_participation_count o) (dgp_last_irreversible_block_num o)
    (dgp_target_votes_per_period o) (dgp_delegation_return_period o)
    (dgp_reverse_auction_seconds o) (dgp_next_maintenance_time o) (dgp_last_budget_time o)
    (dgp_downvote_pool_percent o) (dgp_xtt_creation_fee o).
Definition set_dgp_total_pow (v : Z) (o : dynamic_global_property_object) : dynamic_global_property_object :=
  mkDgp (dgp_id o) (dgp_head_block_number o) (dgp_head_block_id o) (dgp_time o)
    (dgp_mining_target o) (dgp_last_mining_recalc_time o) v (dgp_num_pow_witnesses o)
    (dgp_virtual_supply o) (dgp_current_supply o) (dgp_confidential_supply o)
    (dgp_maximum_block_size o) (dgp_required_actions_partition_percent o) (dgp_current_aslot o)
    (dgp_recent_slots_filled o) (dgp_participation_count o) (dgp_last_irreversible_block_num o)
    (dgp_target_votes_per_period o) (dgp_delegation_return_period o)
    (dgp_reverse_auction_seconds o) (dgp_next_maintenance_time o) (dgp_last_budget_time o)
    (dgp_downvote_pool_percent o) (dgp_xtt_creation_fee o).
Definition set_dgp_num_pow_witnesses (v : Z) (o : dynamic_global_property_object) : dynamic_global_property_object :=
  mkDgp (dgp_id o) (dgp_head_block_number o) (dgp_head_block_id o) (dgp_time o)
    (dgp_mining_target o) (dgp_last_mining_recalc_time o) (dgp_total_pow o) v
    (dgp_virtual_supply o) (dgp_current_supply o) (dgp_confidential_supply o)
    (dgp_maximum_block_size o) (dgp_required_actions_partition_percent o) (dgp_current_aslot o)
    (dgp_recent_slots_filled o) (dgp_participation_count o) (dgp_last_irreversible_block_num o)
    (dgp_target_votes_per_period o) (dgp_delegation_return_period o)
    (dgp_reverse_auction_seconds o) (dgp_next_maintenance_time o) (dgp_last_budget_time o)
    (dgp_downvote_pool_percent o) (dgp_xtt_creation_fee o).
Definition set_dgp_last_irreversible_block_num (v : Z) (o : dynamic_global_property_object) : dynamic_global_property_object :=
  mkDgp (dgp_id o) (dgp_head_block_number o) (dgp_head_block_id o) (dgp_time o)
    (dgp_mining_target o) (dgp_last_mining_recalc_time o) (dgp_total_pow o)
    (dgp_num_pow_witnesses o) (dgp_virtual_supply o) (dgp_current_supply o)
    (dgp_confidential_supply o) (dgp_maximum_block_size o)
    (dgp_required_actions_partition_percent o) (dgp_current_aslot o)
    (dgp_recent_slots_filled o) (dgp_participation_count o) v (dgp_target_votes_per_period o)
    (dgp_delegation_return_period o) (dgp_reverse_auction_seconds o)
    (dgp_next_maintenance_time o) (dgp_last_budget_time o) (dgp_downvote_pool_percent o)
    (dgp_xtt_creation_fee o).
Definition set_dgp_recent_slots_filled (v : Z) (o : dynamic_global_property_object) : dynamic_global_property_object :=
  mkDgp (dgp_id o) (dgp_head_block_number o) (dgp_head_block_id o) (dgp_time o)
    (dgp_mining_target o) (dgp_last_mining_recalc_time o) (dgp_total_pow o)
    (dgp_num_pow_witnesses o) (dgp_virtual_supply o) (dgp_current_supply o)
    (dgp_confidential_supply o) (dgp_maximum_block_size o)
    (dgp_required_actions_partition_percent o) (dgp_current_aslot o) v
    (dgp_participation_count o) (dgp_last_irreversible_block_num o)
    (dgp_target_votes_per_period o) (dgp_delegation_return_period o)
    (dgp_reverse_auction_seconds o) (dgp_next_maintenance_time o) (dgp_last_budget_time o)
    (dgp_downvote_pool_percent o) (dgp_xtt_creation_fee o).
Definition set_dgp_participation_count (v : Z) (o : dynamic_global_property_object) : dynamic_global_property_object :=
  mkDgp (dgp_id o) (dgp_head_block_number o) (dgp_head_block_id o) (dgp_time o)
    (dgp_mining_target o) (dgp_last_mining_recalc_time o) (dgp_total_pow o)
    (dgp_num_pow_witnesses o) (dgp_virtual_supply o) (dgp_current_supply o)
    (dgp_confidential_supply o) (dgp_maximum_block_size o)
    (dgp_required_actions_partition_percent o) (dgp_current_aslot o)
    (dgp_recent_slots_filled o) v (dgp_last_irreversible_block_num o)
    (dgp_target_votes_per_period o) (dgp_delegation_return_period o)
    (dgp_reverse_auction_seconds o) (dgp_next_maintenance_time o) (dgp_last_budget_time o)
    (dgp_downvote_pool_percent o) (dgp_xtt_creation_fee o).
Definition set_dgp_current_supply (v : asset) (o : dynamic_global_property_object) : dynamic_global_property_object :=
  mkDgp (dgp_id o) (dgp_head_block_number o) (dgp_head_block_id o) (dgp_time o)
    (dgp_mining_target o) (dgp_last_mining_recalc_time o) (dgp_total_pow o)
    (dgp_num_pow_witnesses o) (dgp_virtual_supply o) v (dgp_confidential_supply o)
    (dgp_maximum_block_size o) (dgp_required_actions_partition_percent o) (dgp_current_aslot o)
    (dgp_recent_slots_filled o) (dgp_participation_count o) (dgp_last_irreversible_block_num o)
    (dgp_target_votes_per_period o) (dgp_delegation_return_period o)
    (dgp_reverse_auction_seconds o) (dgp_next_maintenance_time o) (dgp_last_budget_time o)
    (dgp_downvote_pool_percent o) (dgp_xtt_creation_fee o).
Definition set_dgp_virtual_supply (v : asset) (o : dynamic_global_property_object) : dynamic_global_property_object :=
  mkDgp (dgp_id o) (dgp_head_block_number o) (dgp_head_block_id o) (dgp_time o)
    (dgp_mining_target o) (dgp_last_mining_recalc_time o) (dgp_total_pow o)
    (dgp_num_pow_witnesses o) v (dgp_current_supply o) (dgp_confidential_supply o)
    (dgp_maximum_block_size o) (dgp_required_actions_partition_percent o) (dgp_current_aslot o)
    (dgp_recent_slots_filled o) (dgp_participation_count o) (dgp_last_irreversible_block_num o)
    (dgp_target_votes_per_period o) (dgp_delegation_return_period o)
    (dgp_reverse_auction_seconds o) (dgp_next_maintenance_time o) (dgp_last_budget_time o)
    (dgp_downvote_pool_percent o) (dgp_xtt_creation_fee o).
Definition set_dgp_maximum_block_size (v : Z) (o : dynamic_global_property_object) : dynamic_global_property_object :=
  mkDgp (dgp_id o) (dgp_head_block_number o) (dgp_head_block_id o) (dgp_time o)
    (dgp_mining_target o) (dgp_last_mining_recalc_time o) (dgp_total_pow o)
    (dgp_num_pow_witnesses o) (dgp_virtual_supply o) (dgp_current_supply o)
    (dgp_confidential_supply o) v (dgp_required_actions_partition_percent o)
    (dgp_current_aslot o) (dgp_recent_slots_filled o) (dgp_participation_count o)
    (dgp_last_irreversible_block_num o) (dgp_target_votes_per_period o)
    (dgp_delegation_return_period o) (dgp_reverse_auction_seconds o)
    (dgp_next_maintenance_time o) (dgp_last_budget_time o) (dgp_downvote_pool_percent o)
    (dgp_xtt_creation_fee o).
Definition set_dgp_reverse_auction_seconds (v : Z) (o : dynamic_global_property_object) : dynamic_global_property_object :=
  mkDgp (dgp_id o) (dgp_head_block_number o) (dgp_head_block_id o) (dgp_time o)
    (dgp_mining_target o) (dgp_last_mining_recalc_time o) (dgp_total_pow o)
    (dgp_num_pow_witnesses o) (dgp_virtual_supply o) (dgp_current_supply o)
    (dgp_confidential_supply o) (dgp_maximum_block_size o)
    (dgp_required_actions_partition_percent o) (dgp_current_aslot o)
    (dgp_recent_slots_filled o) (dgp_participation_count o) (dgp_last_irreversible_block_num o)
    (dgp_target_votes_per_period o) (dgp_delegation_return_period o) v
    (dgp_next_maintenance_time o) (dgp_last_budget_time o) (dgp_downvote_pool_percent o)
    (dgp_xtt_creation_fee o).
Definition set_dgp_next_maintenance_time (v : time_point_sec) (o : dynamic_global_property_object) : dynamic_global_property_object :=
  mkDgp (dgp_id o) (dgp_head_block_number o) (dgp_head_block_id o) (dgp_time o)
    (dgp_mining_target o) (dgp_last_mining_recalc_time o) (dgp_total_pow o)
    (dgp_num_pow_witnesses o) (dgp_virtual_supply o) (dgp_current_supply o)
    (dgp_confidential_supply o) (dgp_maximum_block_size o)
    (dgp_required_actions_partition_percent o) (dgp_current_aslot o)
    (dgp_recent_slots_filled o) (dgp_participation_count o) (dgp_last_irreversible_block_num o)
    (dgp_target_votes_per_period o) (dgp_delegation_return_period o)
    (dgp_reverse_auction_seconds o) v (dgp_last_budget_time o) (dgp_downvote_pool_percent o)
    (dgp_xtt_creation_fee o).
Definition set_dgp_last_budget_time (v : time_point_sec) (o : dynamic_global_property_object) : dynamic_global_property_object :=
  mkDgp (dgp_id o) (dgp_head_block_number o) (dgp_head_block_id o) (dgp_time o)
    (dgp_mining_target o) (dgp_last_mining_recalc_time o) (dgp_total_pow o)
    (dgp_num_pow_witnesses o) (dgp_virtual_supply o) (dgp_current_supply o)
    (dgp_confidential_supply o) (dgp_maximum_block_size o)
    (dgp_required_actions_partition_percent o) (dgp_current_aslot o)
    (dgp_recent_slots_filled o) (dgp_participation_count o) (dgp_last_irreversible_block_num o)
    (dgp_target_votes_per_period o) (dgp_delegation_return_period o)
    (dgp_reverse_auction_seconds o) (dgp_next_maintenance_time o) v
    (dgp_downvote_pool_percent o) (dgp_xtt_creation_fee o).
#[export] Instance dynamic_global_property_object_indexed : IndexedObject dynamic_global_property_object := {|
  obj_id := dgp_id;
  obj_init i := mkDgp i 0 null_block_id 0 0 0 (2^64 - 1) 0 zero_xgt zero_xgt zero_xgt 0 0 0 0 0
    0 40 86400 0 0 0 0 (mkAsset 1000 XGT_SYMBOL);
  ukey := Empty_set;
  ukeys o := [];
  obj_id_init _ := eq_refl
|}.

Record wallet_object := mkWallet {
  w_id : Z;
  w_name : wallet_name_type;
  w_memo_key : public_key_type;
  w_last_account_update : time_point_sec;
  w_created : time_point_sec;
  w_mined : bool;
  w_recovery_account : wallet_name_type;
  w_reset_account : wallet_name_type;
  w_last_account_recovery : time_point_sec;
  w_comment_count : Z;
  w_lifetime_vote_count : Z;
  w_post_count : Z;
  w_can_vote : bool;
  w_energybar : energybar;
  w_balance : asset;
  w_witnesses_voted_for : Z;
  w_last_post : time_point_sec;
  w_last_root_post : time_point_sec;
  w_last_post_edit : time_point_sec;
  w_last_vote_time : time_point_sec;
  w_post_bandwidth : Z
}.
Definition set_w_name (v : wallet_name_type) (o : wallet_object) : wallet_object :=
  mkWallet (w_id o) v (w_memo_key o) (w_last_account_update o) (w_created o) (w_mined o)
    (w_recovery_account o) (w_reset_account o) (w_last_account_recovery o) (w_comment_count o)
    (w_lifetime_vote_count o) (w_post_count o) (w_can_vote o) (w_energybar o) (w_balance o)
    (w_witnesses_voted_for o) (w_last_post o) (w_last_root_post o) (w_last_post_edit o)
    (w_last_vote_time o) (w_post_bandwidth o).
Definition set_w_memo_key (v : public_key_type) (o : wallet_object) : wallet_object :=
  mkWallet (w_id o) (w_name o) v (w_last_account_update o) (w_created o) (w_mined o)
    (w_recovery_account o) (w_reset_account o) (w_last_account_recovery o) (w_comment_count o)
    (w_lifetime_vote_count o) (w_post_count o) (w_can_vote o) (w_energybar o) (w_balance o)
    (w_witnesses_voted_for o) (w_last_post o) (w_last_root_post o) (w_last_post_edit o)
    (w_last_vote_time o) (w_post_bandwidth o).
Definition set_w_last_account_update (v : time_point_sec) (o : wallet_object) : wallet_object :=
  mkWallet (w_id o) (w_name o) (w_memo_key o) v (w_created o) (w_mined o)
    (w_recovery_account o) (w_reset_account o) (w_last_account_recovery o) (w_comment_count o)
    (w_lifetime_vote_count o) (w_post_count o) (w_can_vote o) (w_energybar o) (w_balance o)
    (w_witnesses_voted_for o) (w_last_post o) (w_last_root_post o) (w_last_post_edit o)
    (w_last_vote_time o) (w_post_bandwidth o).
Definition set_w_created (v : time_point_sec) (o : wallet_object) : wallet_object :=
  mkWallet (w_id o) (w_name o) (w_memo_key o) (w_last_account_update o) v (w_mined o)
    (w_recovery_account o) (w_reset_account o) (w_last_account_recovery o) (w_comment_count o)
    (w_lifetime_vote_count o) (w_post_count o) (w_can_vote o) (w_energybar o) (w_balance o)
    (w_witnesses_voted_for o) (w_last_post o) (w_last_root_post o) (w_last_post_edit o)
    (w_last_vote_time o) (w_post_bandwidth o).
Definition set_w_recovery_account (v : wallet_name_type) (o : wallet_object) : wallet_object :=
  mkWallet (w_id o) (w_name o) (w_memo_key o) (w_last_account_update o) (w_created o)
    (w_mined o) v (w_reset_account o) (w_last_account_recovery o) (w_comment_count o)
    (w_lifetime_vote_count o) (w_post_count o) (w_can_vote o) (w_energybar o) (w_balance o)
    (w_witnesses_voted_for o) (w_last_post o) (w_last_root_post o) (w_last_post_edit o)
    (w_last_vote_time o) (w_post_bandwidth o).
Definition set_w_balance (v : asset) (o : wallet_object) : wallet_object :=
  mkWallet (w_id o) (w_name o) (w_memo_key o) (w_last_account_update o) (w_created o)
    (w_mined o) (w_recovery_account o) (w_reset_account o) (w_last_account_recovery o)
    (w_comment_count o) (w_lifetime_vote_count o) (w_post_count o) (w_can_vote o)
    (w_energybar o) v (w_witnesses_voted_for o) (w_last_post o) (w_last_root_post o)
    (w_last_post_edit o) (w_last_vote_time o) (w_post_bandwidth o).
Definition set_w_post_count (v : Z) (o : wallet_object) : wallet_object :=
  mkWallet (w_id o) (w_name o) (w_memo_key o) (w_last_account_update o) (w_created o)
    (w_mined o) (w_recovery_account o) (w_reset_account o) (w_last_account_recovery o)
    (w_comment_count o) (w_lifetime_vote_count o) v (w_can_vote o) (w_energybar o)
    (w_balance o) (w_witnesses_voted_for o) (w_last_post o) (w_last_root_post o)
    (w_last_post_edit o) (w_last_vote_time o) (w_post_bandwidth o).
Definition set_w_last_post (v : time_point_sec) (o : wallet_object) : wallet_object :=
  mkWallet (w_id o) (w_name o) (w_memo_key o) (w_last_account_update o) (w_created o)
    (w_mined o) (w_recovery_account o) (w_reset_account o) (w_last_account_recovery o)
    (w_comment_count o) (w_lifetime_vote_count o) (w_post_count o) (w_can_vote o)
    (w_energybar o) (w_balance o) (w_witnesses_voted_for o) v (w_last_root_post o)
    (w_last_post_edit o) (w_last_vote_time o) (w_post_bandwidth o).
Definition set_w_last_root_post (v : time_point_sec) (o : wallet_object) : wallet_object :=
  mkWallet (w_id o) (w_name o) (w_memo_key o) (w_last_account_update o) (w_created o)
    (w_mined o) (w_recovery_account o) (w_reset_account o) (w_last_account_recovery o)
    (w_comment_count o) (w_lifetime_vote_count o) (w_post_count o) (w_can_vote o)
    (w_energybar o) (w_balance o) (w_witnesses_voted_for o) (w_last_post o) v
    (w_last_post_edit o) (w_last_vote_time o) (w_post_bandwidth o).
Definition set_w_last_post_edit (v : time_point_sec) (o : wallet_object) : wallet_object :=
  mkWallet (w_id o) (w_name o) (w_memo_key o) (w_last_account_update o) (w_created o)
    (w_mined o) (w_recovery_account o) (w_reset_account o) (w_last_account_recovery o)
    (w_comment_count o) (w_lifetime_vote_count o) (w_post_count o) (w_can_vote o)
    (w_energybar o) (w_balance o) (w_witnesses_voted_for o) (w_last_post o)
    (w_last_root_post o) v (w_last_vote_time o) (w_post_bandwidth o).
Definition set_w_post_bandwidth (v : Z) (o : wallet_object) : wallet_object :=
  mkWallet (w_id o) (w_name o) (w_memo_key o) (w_last_account_update o) (w_created o)
    (w_mined o) (w_recovery_account o) (w_reset_account o) (w_last_account_recovery o)
    (w_comment_count o) (w_lifetime_vote_count o) (w_post_count o) (w_can_vote o)
    (w_energybar o) (w_balance o) (w_witnesses_voted_for o) (w_last_post o)
    (w_last_root_post o) (w_last_post_edit o) (w_last_vote_time o) v.
#[export] Instance wallet_object_indexed : IndexedObject wallet_object := {|
  obj_id := w_id;
  obj_init i := mkWallet i EmptyString 0 0 0 true EmptyString XGT_NULL_WALLET 0 0 0 0 true
    (mkEnergybar 0 0) zero_xgt 0 0 0 0 0 0;
  ukey := wallet_name_type;
  ukeys o := [w_name o];
  obj_id_init _ := eq_refl
|}.

Record account_metadata_object := mkMetadata {
  am_id : Z;
  am_account : Z;
  am_json_metadata : string;
  am_social_json_metadata : string
}.
Definition set_am_json_metadata (v : string) (o : account_metadata_object) : account_metadata_object :=
  mkMetadata (am_id o) (am_account o) v (am_social_json_metadata o).
Definition set_am_social_json_metadata (v : string) (o : account_metadata_object) : account_metadata_object :=
  mkMetadata (am_id o) (am_account o) (am_json_metadata o) v.
#[export] Instance account_metadata_object_indexed : IndexedObject account_metadata_object := {|
  obj_id := am_id;
  obj_init i := mkMetadata i 0 EmptyString EmptyString;
  ukey := Z;
  ukeys o := [am_account o];
  obj_id_init _ := eq_refl
|}.

Record account_authority_object := mkAccountAuthority {
  aa_id : Z;
  aa_account : wallet_name_type;
  aa_recovery : authority;
  aa_money : authority;
  aa_social : authority;
  aa_last_recovery_update : time_point_sec
}.
Definition set_aa_account (v : wallet_name_type) (o : account_authority_object) : account_authority_object :=
  mkAccountAuthority (aa_id o) v (aa_recovery o) (aa_money o) (aa_social o)
    (aa_last_recovery_update o).
Definition set_aa_recovery (v : authority) (o : account_authority_object) : account_authority_object :=
  mkAccountAuthority (aa_id o) (aa_account o) v (aa_money o) (aa_social o)
    (aa_last_recovery_update o).
Definition set_aa_money (v : authority) (o : account_authority_object) : account_authority_object :=
  mkAccountAuthority (aa_id o) (aa_account o) (aa_recovery o) v (aa_social o)
    (aa_last_recovery_update o).
Definition set_aa_social (v : authority) (o : account_authority_object) : account_authority_object :=
  mkAccountAuthority (aa_id o) (aa_account o) (aa_recovery o) (aa_money o) v
    (aa_last_recovery_update o).
Definition set_aa_last_recovery_update (v : time_point_sec) (o : account_authority_object) : account_authority_object :=
  mkAccountAuthority (aa_id o) (aa_account o) (aa_recovery o) (aa_money o) (aa_social o) v.
#[export] Instance account_authority_object_indexed : IndexedObject account_authority_object := {|
  obj_id := aa_id;
  obj_init i := mkAccountAuthority i EmptyString empty_authority empty_authority
    empty_authority 0;
  ukey := Empty_set;
  ukeys o := [];
  obj_id_init _ := eq_refl
|}.

Record witness_object := mkWitness {
  wit_id : Z;
  wit_owner : wallet_name_type;
  wit_created : time_point_sec;
  wit_url : string;
  wit_total_missed : Z;
  wit_last_aslot : Z;
  wit_last_confirmed_block_num : Z;
  wit_pow_worker : Z;
  wit_signing_key : public_key_type;
  wit_account_creation_fee : asset;
  wit_maximum_block_size : Z;
  wit_votes : Z;
  wit_virtual_last_update : Z;
  wit_virtual_position : Z;
  wit_virtual_scheduled_time : Z;
  wit_last_work : digest_type;
  wit_running_version : version;
  wit_hardfork_version_vote : version;
  wit_hardfork_time_vote : time_point_sec
}.
Definition set_wit_owner (v : wallet_name_type) (o : witness_object) : witness_object :=
  mkWitness (wit_id o) v (wit_created o) (wit_url o) (wit_total_missed o) (wit_last_aslot o)
    (wit_last_confirmed_block_num o) (wit_pow_worker o) (wit_signing_key o)
    (wit_account_creation_fee o) (wit_maximum_block_size o) (wit_votes o)
    (wit_virtual_last_update o) (wit_virtual_position o) (wit_virtual_scheduled_time o)
    (wit_last_work o) (wit_running_version o) (wit_hardfork_version_vote o)
    (wit_hardfork_time_vote o).
Definition set_wit_created (v : time_point_sec) (o : witness_object) : witness_object :=
  mkWitness (wit_id o) (wit_owner o) v (wit_url o) (wit_total_missed o) (wit_last_aslot o)
    (wit_last_confirmed_block_num o) (wit_pow_worker o) (wit_signing_key o)
    (wit_account_creation_fee o) (wit_maximum_block_size o) (wit_votes o)
    (wit_virtual_last_update o) (wit_virtual_position o) (wit_virtual_scheduled_time o)
    (wit_last_work o) (wit_running_version o) (wit_hardfork_version_vote o)
    (wit_hardfork_time_vote o).
Definition set_wit_url (v : string) (o : witness_object) : witness_object :=
  mkWitness (wit_id o) (wit_owner o) (wit_created o) v (wit_total_missed o) (wit_last_aslot o)
    (wit_last_confirmed_block_num o) (wit_pow_worker o) (wit_signing_key o)
    (wit_account_creation_fee o) (wit_maximum_block_size o) (wit_votes o)
    (wit_virtual_last_update o) (wit_virtual_position o) (wit_virtual_scheduled_time o)
    (wit_last_work o) (wit_running_version o) (wit_hardfork_version_vote o)
    (wit_hardfork_time_vote o).
Definition set_wit_pow_worker (v : Z) (o : witness_object) : witness_object :=
  mkWitness (wit_id o) (wit_owner o) (wit_created o) (wit_url o) (wit_total_missed o)
    (wit_last_aslot o) (wit_last_confirmed_block_num o) v (wit_signing_key o)
    (wit_account_creation_fee o) (wit_maximum_block_size o) (wit_votes o)
    (wit_virtual_last_update o) (wit_virtual_position o) (wit_virtual_scheduled_time o)
    (wit_last_work o) (wit_running_version o) (wit_hardfork_version_vote o)
    (wit_hardfork_time_vote o).
Definition set_wit_signing_key (v : public_key_type) (o : witness_object) : witness_object :=
  mkWitness (wit_id o) (wit_owner o) (wit_created o) (wit_url o) (wit_total_missed o)
    (wit_last_aslot o) (wit_last_confirmed_block_num o) (wit_pow_worker o) v
    (wit_account_creation_fee o) (wit_maximum_block_size o) (wit_votes o)
    (wit_virtual_last_update o) (wit_virtual_position o) (wit_virtual_scheduled_time o)
    (wit_last_work o) (wit_running_version o) (wit_hardfork_version_vote o)
    (wit_hardfork_time_vote o).
Definition set_wit_account_creation_fee (v : asset) (o : witness_object) : witness_object :=
  mkWitness (wit_id o) (wit_owner o) (wit_created o) (wit_url o) (wit_total_missed o)
    (wit_last_aslot o) (wit_last_confirmed_block_num o) (wit_pow_worker o) (wit_signing_key o)
    v (wit_maximum_block_size o) (wit_votes o) (wit_virtual_last_update o)
    (wit_virtual_position o) (wit_virtual_scheduled_time o) (wit_last_work o)
    (wit_running_version o) (wit_hardfork_version_vote o) (wit_hardfork_time_vote o).
Definition set_wit_maximum_block_size (v : Z) (o : witness_object) : witness_object :=
  mkWitness (wit_id o) (wit_owner o) (wit_created o) (wit_url o) (wit_total_missed o)
    (wit_last_aslot o) (wit_last_confirmed_block_num o) (wit_pow_worker o) (wit_signing_key o)
    (wit_account_creation_fee o) v (wit_votes o) (wit_virtual_last_update o)
    (wit_virtual_position o) (wit_virtual_scheduled_time o) (wit_last_work o)
    (wit_running_version o) (wit_hardfork_version_vote o) (wit_hardfork_time_vote o).
Definition set_wit_running_version (v : version) (o : witness_object) : witness_object :=
  mkWitness (wit_id o) (wit_owner o) (wit_created o) (wit_url o) (wit_total_missed o)
    (wit_last_aslot o) (wit_last_confirmed_block_num o) (wit_pow_worker o) (wit_signing_key o)
    (wit_account_creation_fee o) (wit_maximum_block_size o) (wit_votes o)
    (wit_virtual_last_update o) (wit_virtual_position o) (wit_virtual_scheduled_time o)
    (wit_last_work o) v (wit_hardfork_version_vote o) (wit_hardfork_time_vote o).
Definition set_wit_hardfork_version_vote (v : version) (o : witness_object) : witness_object :=
  mkWitness (wit_id o) (wit_owner o) (wit_created o) (wit_url o) (wit_total_missed o)
    (wit_last_aslot o) (wit_last_confirmed_block_num o) (wit_pow_worker o) (wit_signing_key o)
    (wit_account_creation_fee o) (wit_maximum_block_size o) (wit_votes o)
    (wit_virtual_last_update o) (wit_virtual_position o) (wit_virtual_scheduled_time o)
    (wit_last_work o) (wit_running_version o) v (wit_hardfork_time_vote o).
Definition set_wit_hardfork_time_vote (v : time_point_sec) (o : witness_object) : witness_object :=
  mkWitness (wit_id o) (wit_owner o) (wit_created o) (wit_url o) (wit_total_missed o)
    (wit_last_aslot o) (wit_last_confirmed_block_num o) (wit_pow_worker o) (wit_signing_key o)
    (wit_account_creation_fee o) (wit_maximum_block_size o) (wit_votes o)
    (wit_virtual_last_update o) (wit_virtual_position o) (wit_virtual_scheduled_time o)
    (wit_last_work o) (wit_running_version o) (wit_hardfork_version_vote o) v.
Definition set_wit_last_confirmed_block_num (v : Z) (o : witness_object) : witness_object :=
  mkWitness (wit_id o) (wit_owner o) (wit_created o) (wit_url o) (wit_total_missed o)
    (wit_last_aslot o) v (wit_pow_worker o) (wit_signing_key o) (wit_account_creation_fee o)
    (wit_maximum_block_size o) (wit_votes o) (wit_virtual_last_update o)
    (wit_virtual_position o) (wit_virtual_scheduled_time o) (wit_last_work o)
    (wit_running_version o) (wit_hardfork_version_vote o) (wit_hardfork_time_vote o).
#[export] Instance witness_object_indexed : IndexedObject witness_object := {|
  obj_id := wit_id;
  obj_init i := mkWitness i EmptyString 0 EmptyString 0 0 0 0 0 zero_xgt
    (XGT_MIN_BLOCK_SIZE_LIMIT * 2) 0 0 0 (2^128 - 1) 0 0 0 XGT_GENESIS_TIME;
  ukey := wallet_name_type;
  ukeys o := [wit_owner o];
  obj_id_init _ := eq_refl
|}.

Record transaction_object := mkTransactionObject {
  to_id : Z;
  to_packed_trx : option signed_transaction;
  to_trx_id : transaction_id_type;
  to_expiration : time_point_sec
}.
Definition set_to_packed_trx (v : option signed_transaction) (o : transaction_object) : transaction_object :=
  mkTransactionObject (to_id o) v (to_trx_id o) (to_expiration o).
Definition set_to_trx_id (v : transaction_id_type) (o : transaction_object) : transaction_object :=
  mkTransactionObject (to_id o) (to_packed_trx o) v (to_expiration o).
Definition set_to_expiration (v : time_point_sec) (o : transaction_object) : transaction_object :=
  mkTransactionObject (to_id o) (to_packed_trx o) (to_trx_id o) v.
#[export] Instance transaction_object_indexed : IndexedObject transaction_object := {|
  obj_id := to_id;
  obj_init i := mkTransactionObject i None null_block_id 0;
  ukey := transaction_id_type;
  ukeys o := [to_trx_id o];
  obj_id_init _ := eq_refl
|}.

Record block_summary_object := mkBlockSummary {
  bs_id : Z;
  bs_block_id : block_id_type
}.
Definition set_bs_block_id (v : block_id_type) (o : block_summary_object) : block_summary_object :=
  mkBlockSummary (bs_id o) v.
#[export] Instance block_summary_object_indexed : IndexedObject block_summary_object := {|
  obj_id := bs_id;
  obj_init i := mkBlockSummary i null_block_id;
  ukey := Empty_set;
  ukeys o := [];
  obj_id_init _ := eq_refl
|}.

Record comment_object := mkCommentObject {
  cm_id : Z;
  cm_category : string;
  cm_parent_author : wallet_name_type;
  cm_parent_permlink : string;
  cm_author : wallet_name_type;
  cm_permlink : string;
  cm_last_update : time_point_sec;
  cm_created : time_point_sec;
  cm_active : time_point_sec;
  cm_depth : Z;
  cm_children : Z;
  cm_net_votes : Z;
  cm_root_comment : Z;
  cm_allow_replies : bool;
  cm_allow_votes : bool
}.
Definition set_cm_category (v : string) (o : comment_object) : comment_object :=
  mkCommentObject (cm_id o) v (cm_parent_author o) (cm_parent_permlink o) (cm_author o)
    (cm_permlink o) (cm_last_update o) (cm_created o) (cm_active o) (cm_depth o)
    (cm_children o) (cm_net_votes o) (cm_root_comment o) (cm_allow_replies o)
    (cm_allow_votes o).
Definition set_cm_parent_author (v : wallet_name_type) (o : comment_object) : comment_object :=
  mkCommentObject (cm_id o) (cm_category o) v (cm_parent_permlink o) (cm_author o)
    (cm_permlink o) (cm_last_update o) (cm_created o) (cm_active o) (cm_depth o)
    (cm_children o) (cm_net_votes o) (cm_root_comment o) (cm_allow_replies o)
    (cm_allow_votes o).
Definition set_cm_parent_permlink (v : string) (o : comment_object) : comment_object :=
  mkCommentObject (cm_id o) (cm_category o) (cm_parent_author o) v (cm_author o)
    (cm_permlink o) (cm_last_update o) (cm_created o) (cm_active o) (cm_depth o)
    (cm_children o) (cm_net_votes o) (cm_root_comment o) (cm_allow_replies o)
    (cm_allow_votes o).
Definition set_cm_author (v : wallet_name_type) (o : comment_object) : comment_object :=
  mkCommentObject (cm_id o) (cm_category o) (cm_parent_author o) (cm_parent_permlink o) v
    (cm_permlink o) (cm_last_update o) (cm_created o) (cm_active o) (cm_depth o)
    (cm_children o) (cm_net_votes o) (cm_root_comment o) (cm_allow_replies o)
    (cm_allow_votes o).
Definition set_cm_permlink (v : string) (o : comment_object) : comment_object :=
  mkCommentObject (cm_id o) (cm_category o) (cm_parent_author o) (cm_parent_permlink o)
    (cm_author o) v (cm_last_update o) (cm_created o) (cm_active o) (cm_depth o)
    (cm_children o) (cm_net_votes o) (cm_root_comment o) (cm_allow_replies o)
    (cm_allow_votes o).
Definition set_cm_last_update (v : time_point_sec) (o : comment_object) : comment_object :=
  mkCommentObject (cm_id o) (cm_category o) (cm_parent_author o) (cm_parent_permlink o)
    (cm_author o) (cm_permlink o) v (cm_created o) (cm_active o) (cm_depth o) (cm_children o)
    (cm_net_votes o) (cm_root_comment o) (cm_allow_replies o) (cm_allow_votes o).
Definition set_cm_created (v : time_point_sec) (o : comment_object) : comment_object :=
  mkCommentObject (cm_id o) (cm_category o) (cm_parent_author o) (cm_parent_permlink o)
    (cm_author o) (cm_permlink o) (cm_last_update o) v (cm_active o) (cm_depth o)
    (cm_children o) (cm_net_votes o) (cm_root_comment o) (cm_allow_replies o)
    (cm_allow_votes o).
Definition set_cm_active (v : time_point_sec) (o : comment_object) : comment_object :=
  mkCommentObject (cm_id o) (cm_category o) (cm_parent_author o) (cm_parent_permlink o)
    (cm_author o) (cm_permlink o) (cm_last_update o) (cm_created o) v (cm_depth o)
    (cm_children o) (cm_net_votes o) (cm_root_comment o) (cm_allow_replies o)
    (cm_allow_votes o).
Definition set_cm_depth (v : Z) (o : comment_object) : comment_object :=
  mkCommentObject (cm_id o) (cm_category o) (cm_parent_author o) (cm_parent_permlink o)
    (cm_author o) (cm_permlink o) (cm_last_update o) (cm_created o) (cm_active o) v
    (cm_children o) (cm_net_votes o) (cm_root_comment o) (cm_allow_replies o)
    (cm_allow_votes o).
Definition set_cm_children (v : Z) (o : comment_object) : comment_object :=
  mkCommentObject (cm_id o) (cm_category o) (cm_parent_author o) (cm_parent_permlink o)
    (cm_author o) (cm_permlink o) (cm_last_update o) (cm_created o) (cm_active o) (cm_depth o)
    v (cm_net_votes o) (cm_root_comment o) (cm_allow_replies o) (cm_allow_votes o).
Definition set_cm_root_comment (v : Z) (o : comment_object) : comment_object :=
  mkCommentObject (cm_id o) (cm_category o) (cm_parent_author o) (cm_parent_permlink o)
    (cm_author o) (cm_permlink o) (cm_last_update o) (cm_created o) (cm_active o) (cm_depth o)
    (cm_children o) (cm_net_votes o) v (cm_allow_replies o) (cm_allow_votes o).
Definition set_cm_allow_votes (v : bool) (o : comment_object) : comment_object :=
  mkCommentObject (cm_id o) (cm_category o) (cm_parent_author o) (cm_parent_permlink o)
    (cm_author o) (cm_permlink o) (cm_last_update o) (cm_created o) (cm_active o) (cm_depth o)
    (cm_children o) (cm_net_votes o) (cm_root_comment o) (cm_allow_replies o) v.
#[export] Instance comment_object_indexed : IndexedObject comment_object := {|
  obj_id := cm_id;
  obj_init i := mkCommentObject i EmptyString EmptyString EmptyString EmptyString EmptyString 0
    0 0 0 0 0 0 true true;
  ukey := wallet_name_type * string;
  ukeys o := [(cm_author o, c_str (cm_permlink o))];
  obj_id_init _ := eq_refl
|}.

Record comment_content_object := mkCommentContent {
  cmc_id : Z;
  cmc_comment : Z;
  cmc_title : string;
  cmc_body : string;
  cmc_json_metadata : string
}.
Definition set_cmc_comment (v : Z) (o : comment_content_object) : comment_content_object :=
  mkCommentContent (cmc_id o) v (cmc_title o) (cmc_body o) (cmc_json_metadata o).
Definition set_cmc_title (v : string) (o : comment_content_object) : comment_content_object :=
  mkCommentContent (cmc_id o) (cmc_comment o) v (cmc_body o) (cmc_json_metadata o).
Definition set_cmc_body (v : string) (o : comment_content_object) : comment_content_object :=
  mkCommentContent (cmc_id o) (cmc_comment o) (cmc_title o) v (cmc_json_metadata o).
Definition set_cmc_json_metadata (v : string) (o : comment_content_object) : comment_content_object :=
  mkCommentContent (cmc_id o) (cmc_comment o) (cmc_title o) (cmc_body o) v.
#[export] Instance comment_content_object_indexed : IndexedObject comment_content_object := {|
  obj_id := cmc_id;
  obj_init i := mkCommentContent i 0 EmptyString EmptyString EmptyString;
  ukey := Z;
  ukeys o := [cmc_comment o];
  obj_id_init _ := eq_refl
|}.

Record comment_vote_object := mkCommentVote {
  cv_id : Z;
  cv_voter : Z;
  cv_comment : Z;
  cv_weight : Z;
  cv_last_update : time_point_sec;
  cv_num_changes : Z;
  cv_symbol : asset_symbol_type
}.
#[export] Instance comment_vote_object_indexed : IndexedObject comment_vote_object := {|
  obj_id := cv_id;
  obj_init i := mkCommentVote i 0 0 0 0 0 XGT_SYMBOL;
  ukey := Z * Z * Z;
  ukeys o := [(cv_comment o, cv_voter o, cv_symbol o)];
  obj_id_init _ := eq_refl
|}.

Record hardfork_property_object := mkHardforkProperty {
  hp_id : Z;
  hp_processed_hardforks : list time_point_sec;
  hp_last_hardfork : Z;
  hp_current_hardfork_version : version;
  hp_next_hardfork : version;
  hp_next_hardfork_time : time_point_sec
}.
Definition set_hp_processed_hardforks (v : list time_point_sec) (o : hardfork_property_object) : hardfork_property_object :=
  mkHardforkProperty (hp_id o) v (hp_last_hardfork o) (hp_current_hardfork_version o)
    (hp_next_hardfork o) (hp_next_hardfork_time o).
Definition set_hp_last_hardfork (v : Z) (o : hardfork_property_object) : hardfork_property_object :=
  mkHardforkProperty (hp_id o) (hp_processed_hardforks o) v (hp_current_hardfork_version o)
    (hp_next_hardfork o) (hp_next_hardfork_time o).
Definition set_hp_current_hardfork_version (v : version) (o : hardfork_property_object) : hardfork_property_object :=
  mkHardforkProperty (hp_id o) (hp_processed_hardforks o) (hp_last_hardfork o) v
    (hp_next_hardfork o) (hp_next_hardfork_time o).
Definition set_hp_next_hardfork (v : version) (o : hardfork_property_object) : hardfork_property_object :=
  mkHardforkProperty (hp_id o) (hp_processed_hardforks o) (hp_last_hardfork o)
    (hp_current_hardfork_version o) v (hp_next_hardfork_time o).
Definition set_hp_next_hardfork_time (v : time_point_sec) (o : hardfork_property_object) : hardfork_property_object :=
  mkHardforkProperty (hp_id o) (hp_processed_hardforks o) (hp_last_hardfork o)
    (hp_current_hardfork_version o) (hp_next_hardfork o) v.
#[export] Instance hardfork_property_object_indexed : IndexedObject hardfork_property_object := {|
  obj_id := hp_id;
  obj_init i := mkHardforkProperty i [] 0 0 0 0;
  ukey := Empty_set;
  ukeys o := [];
  obj_id_init _ := eq_refl
|}.

Record recovery_authority_history_object := mkRecoveryHistory {
  rh_id : Z;
  rh_account : wallet_name_type;
  rh_previous_recovery_authority : authority;
  rh_last_valid_time : time_point_sec
}.
Definition set_rh_account (v : wallet_name_type) (o : recovery_authority_history_object) : recovery_authority_history_object :=
  mkRecoveryHistory (rh_id o) v (rh_previous_recovery_authority o) (rh_last_valid_time o).
Definition set_rh_previous_recovery_authority (v : authority) (o : recovery_authority_history_object) : recovery_authority_history_object :=
  mkRecoveryHistory (rh_id o) (rh_account o) v (rh_last_valid_time o).
Definition set_rh_last_valid_time (v : time_point_sec) (o : recovery_authority_history_object) : recovery_authority_history_object :=
  mkRecoveryHistory (rh_id o) (rh_account o) (rh_previous_recovery_authority o) v.
#[export] Instance recovery_authority_history_object_indexed : IndexedObject recovery_authority_history_object := {|
  obj_id := rh_id;
  obj_init i := mkRecoveryHistory i EmptyString empty_authority 0;
  ukey := Empty_set;
  ukeys o := [];
  obj_id_init _ := eq_refl
|}.

Record account_recovery_request_object := mkRecoveryRequest {
  arr_id : Z;
  arr_account_to_recover : wallet_name_type;
  arr_new_recovery_authority : authority;
  arr_expires : time_point_sec
}.
#[export] Instance account_recovery_request_object_indexed : IndexedObject account_recovery_request_object := {|
  obj_id := arr_id;
  obj_init i := mkRecoveryRequest i EmptyString empty_authority 0;
  ukey := wallet_name_type;
  ukeys o := [arr_account_to_recover o];
  obj_id_init _ := eq_refl
|}.

Record change_recovery_account_request_object := mkChangeRecoveryRequest {
  crr_id : Z;
  crr_account_to_recover : wallet_name_type;
  crr_recovery_account : wallet_name_type;
  crr_effective_on : time_point_sec
}.
#[export] Instance change_recovery_account_request_object_indexed : IndexedObject change_recovery_account_request_object := {|
  obj_id := crr_id;
  obj_init i := mkChangeRecoveryRequest i EmptyString EmptyString 0;
  ukey := wallet_name_type;
  ukeys o := [crr_account_to_recover o];
  obj_id_init _ := eq_refl
|}.

Record escrow_object := mkEscrow {
  esc_id : Z;
  esc_escrow_id : Z;
  esc_from : wallet_name_type;
  esc_to : wallet_name_type;
  esc_agent : wallet_name_type;
  esc_ratification_deadline : time_point_sec;
  esc_escrow_expiration : time_point_sec;
  esc_sbd_balance : asset;
  esc_xgt_balance : asset;
  esc_pending_fee : asset;
  esc_to_approved : bool;
  esc_agent_approved : bool;
  esc_disputed : bool
}.
Definition set_esc_escrow_id (v : Z) (o : escrow_object) : escrow_object :=
  mkEscrow (esc_id o) v (esc_from o) (esc_to o) (esc_agent o) (esc_ratification_deadline o)
    (esc_escrow_expiration o) (esc_sbd_balance o) (esc_xgt_balance o) (esc_pending_fee o)
    (esc_to_approved o) (esc_agent_approved o) (esc_disputed o).
Definition set_esc_from (v : wallet_name_type) (o : escrow_object) : escrow_object :=
  mkEscrow (esc_id o) (esc_escrow_id o) v (esc_to o) (esc_agent o)
    (esc_ratification_deadline o) (esc_escrow_expiration o) (esc_sbd_balance o)
    (esc_xgt_balance o) (esc_pending_fee o) (esc_to_approved o) (esc_agent_approved o)
    (esc_disputed o).
Definition set_esc_to (v : wallet_name_type) (o : escrow_object) : escrow_object :=
  mkEscrow (esc_id o) (esc_escrow_id o) (esc_from o) v (esc_agent o)
    (esc_ratification_deadline o) (esc_escrow_expiration o) (esc_sbd_balance o)
    (esc_xgt_balance o) (esc_pending_fee o) (esc_to_approved o) (esc_agent_approved o)
    (esc_disputed o).
Definition set_esc_agent (v : wallet_name_type) (o : escrow_object) : escrow_object :=
  mkEscrow (esc_id o) (esc_escrow_id o) (esc_from o) (esc_to o) v (esc_ratification_deadline o)
    (esc_escrow_expiration o) (esc_sbd_balance o) (esc_xgt_balance o) (esc_pending_fee o)
    (esc_to_approved o) (esc_agent_approved o) (esc_disputed o).
Definition set_esc_ratification_deadline (v : time_point_sec) (o : escrow_object) : escrow_object :=
  mkEscrow (esc_id o) (esc_escrow_id o) (esc_from o) (esc_to o) (esc_agent o) v
    (esc_escrow_expiration o) (esc_sbd_balance o) (esc_xgt_balance o) (esc_pending_fee o)
    (esc_to_approved o) (esc_agent_approved o) (esc_disputed o).
Definition set_esc_escrow_expiration (v : time_point_sec) (o : escrow_object) : escrow_object :=
  mkEscrow (esc_id o) (esc_escrow_id o) (esc_from o) (esc_to o) (esc_agent o)
    (esc_ratification_deadline o) v (esc_sbd_balance o) (esc_xgt_balance o) (esc_pending_fee o)
    (esc_to_approved o) (esc_agent_approved o) (esc_disputed o).
Definition set_esc_xgt_balance (v : asset) (o : escrow_object) : escrow_object :=
  mkEscrow (esc_id o) (esc_escrow_id o) (esc_from o) (esc_to o) (esc_agent o)
    (esc_ratification_deadline o) (esc_escrow_expiration o) (esc_sbd_balance o) v
    (esc_pending_fee o) (esc_to_approved o) (esc_agent_approved o) (esc_disputed o).
Definition set_esc_pending_fee (v : asset) (o : escrow_object) : escrow_object :=
  mkEscrow (esc_id o) (esc_escrow_id o) (esc_from o) (esc_to o) (esc_agent o)
    (esc_ratification_deadline o) (esc_escrow_expiration o) (esc_sbd_balance o)
    (esc_xgt_balance o) v (esc_to_approved o) (esc_agent_approved o) (esc_disputed o).
Definition set_esc_to_approved (v : bool) (o : escrow_object) : escrow_object :=
  mkEscrow (esc_id o) (esc_escrow_id o) (esc_from o) (esc_to o) (esc_agent o)
    (esc_ratification_deadline o) (esc_escrow_expiration o) (esc_sbd_balance o)
    (esc_xgt_balance o) (esc_pending_fee o) v (esc_agent_approved o) (esc_disputed o).
Definition set_esc_agent_approved (v : bool) (o : escrow_object) : escrow_object :=
  mkEscrow (esc_id o) (esc_escrow_id o) (esc_from o) (esc_to o) (esc_agent o)
    (esc_ratification_deadline o) (esc_escrow_expiration o) (esc_sbd_balance o)
    (esc_xgt_balance o) (esc_pending_fee o) (esc_to_approved o) v (esc_disputed o).
Definition set_esc_disputed (v : bool) (o : escrow_object) : escrow_object :=
  mkEscrow (esc_id o) (esc_escrow_id o) (esc_from o) (esc_to o) (esc_agent o)
    (esc_ratification_deadline o) (esc_escrow_expiration o) (esc_sbd_balance o)
    (esc_xgt_balance o) (esc_pending_fee o) (esc_to_approved o) (esc_agent_approved o) v.
#[export] Instance escrow_object_indexed : IndexedObject escrow_object := {|
  obj_id := esc_id;
  obj_init i := mkEscrow i 20 EmptyString EmptyString EmptyString 0 0 zero_xgt zero_xgt
    zero_xgt false false false;
  ukey := wallet_name_type * Z;
  ukeys o := [(esc_from o, esc_escrow_id o)];
  obj_id_init _ := eq_refl
|}.

Record pending_required_action_object := mkPendingRequired {
  pra_id : Z;
  pra_execution_time : time_point_sec;
  pra_action : required_automated_action
}.
Definition set_pra_execution_time (v : time_point_sec) (o : pending_required_action_object) : pending_required_action_object :=
  mkPendingRequired (pra_id o) v (pra_action o).
Definition set_pra_action (v : required_automated_action) (o : pending_required_action_object) : pending_required_action_object :=
  mkPendingRequired (pra_id o) (pra_execution_time o) v.
#[export] Instance pending_required_action_object_indexed : IndexedObject pending_required_action_object := {|
  obj_id := pra_id;
  obj_init i := mkPendingRequired i 0 (xtt_ico_launch_action EmptyString 0);
  ukey := Empty_set;
  ukeys o := [];
  obj_id_init _ := eq_refl
|}.

Record pending_optional_action_object := mkPendingOptional {
  poa_id : Z;
  poa_execution_time : time_point_sec;
  poa_action_hash : digest_type;
  poa_action : optional_automated_action
}.
Definition set_poa_execution_time (v : time_point_sec) (o : pending_optional_action_object) : pending_optional_action_object :=
  mkPendingOptional (poa_id o) v (poa_action_hash o) (poa_action o).
Definition set_poa_action_hash (v : digest_type) (o : pending_optional_action_object) : pending_optional_action_object :=
  mkPendingOptional (poa_id o) (poa_execution_time o) v (poa_action o).
Definition set_poa_action (v : optional_automated_action) (o : pending_optional_action_object) : pending_optional_action_object :=
  mkPendingOptional (poa_id o) (poa_execution_time o) (poa_action_hash o) v.
#[export] Instance pending_optional_action_object_indexed : IndexedObject pending_optional_action_object := {|
  obj_id := poa_id;
  obj_init i := mkPendingOptional i 0 0 (example_optional_action EmptyString);
  ukey := Empty_set;
  ukeys o := [];
  obj_id_init _ := eq_refl
|}.

Record xtt_token_object := mkXttToken {
  tok_id : Z;
  tok_liquid_symbol : asset_symbol_type;
  tok_control_account : wallet_name_type;
  tok_desired_ticker : string;
  tok_phase : xtt_phase;
  tok_current_supply : Z;
  tok_recent_claims : Z;
  tok_allow_voting : bool;
  tok_reverse_auction_window_seconds : Z;
  tok_vote_regeneration_period_seconds : Z;
  tok_votes_per_regeneration_period : Z;
  tok_content_constant : Z;
  tok_allow_downvotes : bool;
  tok_max_supply : Z
}.
Definition set_tok_liquid_symbol (v : asset_symbol_type) (o : xtt_token_object) : xtt_token_object :=
  mkXttToken (tok_id o) v (tok_control_account o) (tok_desired_ticker o) (tok_phase o)
    (tok_current_supply o) (tok_recent_claims o) (tok_allow_voting o)
    (tok_reverse_auction_window_seconds o) (tok_vote_regeneration_period_seconds o)
    (tok_votes_per_regeneration_period o) (tok_content_constant o) (tok_allow_downvotes o)
    (tok_max_supply o).
Definition set_tok_control_account (v : wallet_name_type) (o : xtt_token_object) : xtt_token_object :=
  mkXttToken (tok_id o) (tok_liquid_symbol o) v (tok_desired_ticker o) (tok_phase o)
    (tok_current_supply o) (tok_recent_claims o) (tok_allow_voting o)
    (tok_reverse_auction_window_seconds o) (tok_vote_regeneration_period_seconds o)
    (tok_votes_per_regeneration_period o) (tok_content_constant o) (tok_allow_downvotes o)
    (tok_max_supply o).
Definition set_tok_desired_ticker (v : string) (o : xtt_token_object) : xtt_token_object :=
  mkXttToken (tok_id o) (tok_liquid_symbol o) (tok_control_account o) v (tok_phase o)
    (tok_current_supply o) (tok_recent_claims o) (tok_allow_voting o)
    (tok_reverse_auction_window_seconds o) (tok_vote_regeneration_period_seconds o)
    (tok_votes_per_regeneration_period o) (tok_content_constant o) (tok_allow_downvotes o)
    (tok_max_supply o).
Definition set_tok_phase (v : xtt_phase) (o : xtt_token_object) : xtt_token_object :=
  mkXttToken (tok_id o) (tok_liquid_symbol o) (tok_control_account o) (tok_desired_ticker o) v
    (tok_current_supply o) (tok_recent_claims o) (tok_allow_voting o)
    (tok_reverse_auction_window_seconds o) (tok_vote_regeneration_period_seconds o)
    (tok_votes_per_regeneration_period o) (tok_content_constant o) (tok_allow_downvotes o)
    (tok_max_supply o).
Definition set_tok_current_supply (v : Z) (o : xtt_token_object) : xtt_token_object :=
  mkXttToken (tok_id o) (tok_liquid_symbol o) (tok_control_account o) (tok_desired_ticker o)
    (tok_phase o) v (tok_recent_claims o) (tok_allow_voting o)
    (tok_reverse_auction_window_seconds o) (tok_vote_regeneration_period_seconds o)
    (tok_votes_per_regeneration_period o) (tok_content_constant o) (tok_allow_downvotes o)
    (tok_max_supply o).
Definition set_tok_allow_voting (v : bool) (o : xtt_token_object) : xtt_token_object :=
  mkXttToken (tok_id o) (tok_liquid_symbol o) (tok_control_account o) (tok_desired_ticker o)
    (tok_phase o) (tok_current_supply o) (tok_recent_claims o) v
    (tok_reverse_auction_window_seconds o) (tok_vote_regeneration_period_seconds o)
    (tok_votes_per_regeneration_period o) (tok_content_constant o) (tok_allow_downvotes o)
    (tok_max_supply o).
Definition set_tok_reverse_auction_window_seconds (v : Z) (o : xtt_token_object) : xtt_token_object :=
  mkXttToken (tok_id o) (tok_liquid_symbol o) (tok_control_account o) (tok_desired_ticker o)
    (tok_phase o) (tok_current_supply o) (tok_recent_claims o) (tok_allow_voting o) v
    (tok_vote_regeneration_period_seconds o) (tok_votes_per_regeneration_period o)
    (tok_content_constant o) (tok_allow_downvotes o) (tok_max_supply o).
Definition set_tok_vote_regeneration_period_seconds (v : Z) (o : xtt_token_object) : xtt_token_object :=
  mkXttToken (tok_id o) (tok_liquid_symbol o) (tok_control_account o) (tok_desired_ticker o)
    (tok_phase o) (tok_current_supply o) (tok_recent_claims o) (tok_allow_voting o)
    (tok_reverse_auction_window_seconds o) v (tok_votes_per_regeneration_period o)
    (tok_content_constant o) (tok_allow_downvotes o) (tok_max_supply o).
Definition set_tok_votes_per_regeneration_period (v : Z) (o : xtt_token_object) : xtt_token_object :=
  mkXttToken (tok_id o) (tok_liquid_symbol o) (tok_control_account o) (tok_desired_ticker o)
    (tok_phase o) (tok_current_supply o) (tok_recent_claims o) (tok_allow_voting o)
    (tok_reverse_auction_window_seconds o) (tok_vote_regeneration_period_seconds o) v
    (tok_content_constant o) (tok_allow_downvotes o) (tok_max_supply o).
Definition set_tok_allow_downvotes (v : bool) (o : xtt_token_object) : xtt_token_object :=
  mkXttToken (tok_id o) (tok_liquid_symbol o) (tok_control_account o) (tok_desired_ticker o)
    (tok_phase o) (tok_current_supply o) (tok_recent_claims o) (tok_allow_voting o)
    (tok_reverse_auction_window_seconds o) (tok_vote_regeneration_period_seconds o)
    (tok_votes_per_regeneration_period o) (tok_content_constant o) v (tok_max_supply o).
Definition set_tok_max_supply (v : Z) (o : xtt_token_object) : xtt_token_object :=
  mkXttToken (tok_id o) (tok_liquid_symbol o) (tok_control_account o) (tok_desired_ticker o)
    (tok_phase o) (tok_current_supply o) (tok_recent_claims o) (tok_allow_voting o)
    (tok_reverse_auction_window_seconds o) (tok_vote_regeneration_period_seconds o)
    (tok_votes_per_regeneration_period o) (tok_content_constant o) (tok_allow_downvotes o) v.
#[export] Instance xtt_token_object_indexed : IndexedObject xtt_token_object := {|
  obj_id := tok_id;
  obj_init i := mkXttToken i 0 EmptyString EmptyString phase_setup 0 0 true 300 86400 50
    2000000000000 true 0;
  ukey := Z;
  ukeys o := [tok_liquid_symbol o];
  obj_id_init _ := eq_refl
|}.

Record account_regular_balance_object := mkRegularBalance {
  arb_id : Z;
  arb_name : wallet_name_type;
  arb_liquid : asset;
  arb_withdrawn : Z;
  arb_to_withdraw : Z;
  arb_energybar : energybar;
  arb_last_vote_time : time_point_sec
}.
Definition set_arb_name (v : wallet_name_type) (o : account_regular_balance_object) : account_regular_balance_object :=
  mkRegularBalance (arb_id o) v (arb_liquid o) (arb_withdrawn o) (arb_to_withdraw o)
    (arb_energybar o) (arb_last_vote_time o).
Definition set_arb_liquid (v : asset) (o : account_regular_balance_object) : account_regular_balance_object :=
  mkRegularBalance (arb_id o) (arb_name o) v (arb_withdrawn o) (arb_to_withdraw o)
    (arb_energybar o) (arb_last_vote_time o).
#[export] Instance account_regular_balance_object_indexed : IndexedObject account_regular_balance_object := {|
  obj_id := arb_id;
  obj_init i := mkRegularBalance i EmptyString zero_xgt 0 0 (mkEnergybar 0 0) 0;
  ukey := wallet_name_type * Z;
  ukeys o := [(arb_name o, symbol (arb_liquid o))];
  obj_id_init _ := eq_refl
|}.

Record nai_pool_object := mkNaiPool {
  np_id : Z;
  np_num_available_nais : Z;
  np_attempts_per_block : Z;
  np_collisions_per_block : Z;
  np_last_block_id : block_id_type;
  np_nais : list asset_symbol_type
}.
Definition set_np_num_available_nais (v : Z) (o : nai_pool_object) : nai_pool_object :=
  mkNaiPool (np_id o) v (np_attempts_per_block o) (np_collisions_per_block o)
    (np_last_block_id o) (np_nais o).
Definition set_np_attempts_per_block (v : Z) (o : nai_pool_object) : nai_pool_object :=
  mkNaiPool (np_id o) (np_num_available_nais o) v (np_collisions_per_block o)
    (np_last_block_id o) (np_nais o).
Definition set_np_collisions_per_block (v : Z) (o : nai_pool_object) : nai_pool_object :=
  mkNaiPool (np_id o) (np_num_available_nais o) (np_attempts_per_block o) v
    (np_last_block_id o) (np_nais o).
Definition set_np_last_block_id (v : block_id_type) (o : nai_pool_object) : nai_pool_object :=
  mkNaiPool (np_id o) (np_num_available_nais o) (np_attempts_per_block o)
    (np_collisions_per_block o) v (np_nais o).
Definition set_np_nais (v : list asset_symbol_type) (o : nai_pool_object) : nai_pool_object :=
  mkNaiPool (np_id o) (np_num_available_nais o) (np_attempts_per_block o)
    (np_collisions_per_block o) (np_last_block_id o) v.
#[export] Instance nai_pool_object_indexed : IndexedObject nai_pool_object := {|
  obj_id := np_id;
  obj_init i := mkNaiPool i 0 0 0 null_block_id (replicate XTT_MAX_NAI_POOL_COUNT 0);
  ukey := Empty_set;
  ukeys o := [];
  obj_id_init _ := eq_refl
|}.

Record xtt_contribution_object := mkContributionObject {
  xcb_id : Z;
  xcb_symbol : asset_symbol_type;
  xcb_contributor : wallet_name_type;
  xcb_contribution_id : Z;
  xcb_contribution : asset
}.
Definition set_xcb_symbol (v : asset_symbol_type) (o : xtt_contribution_object) : xtt_contribution_object :=
  mkContributionObject (xcb_id o) v (xcb_contributor o) (xcb_contribution_id o)
    (xcb_contribution o).
Definition set_xcb_contributor (v : wallet_name_type) (o : xtt_contribution_object) : xtt_contribution_object :=
  mkContributionObject (xcb_id o) (xcb_symbol o) v (xcb_contribution_id o) (xcb_contribution o).
Definition set_xcb_contribution_id (v : Z) (o : xtt_contribution_object) : xtt_contribution_object :=
  mkContributionObject (xcb_id o) (xcb_symbol o) (xcb_contributor o) v (xcb_contribution o).
Definition set_xcb_contribution (v : asset) (o : xtt_contribution_object) : xtt_contribution_object :=
  mkContributionObject (xcb_id o) (xcb_symbol o) (xcb_contributor o) (xcb_contribution_id o) v.
#[export] Instance xtt_contribution_object_indexed : IndexedObject xtt_contribution_object := {|
  obj_id := xcb_id;
  obj_init i := mkContributionObject i 0 EmptyString 0 zero_xgt;
  ukey := Z * wallet_name_type * Z;
  ukeys o := [(xcb_symbol o, xcb_contributor o, xcb_contribution_id o)];
  obj_id_init _ := eq_refl
|}.

Record xtt_ico_object := mkIco {
  ico_id : Z;
  ico_symbol : asset_symbol_type;
  ico_contribution_begin_time : time_point_sec;
  ico_contribution_end_time : time_point_sec;
  ico_launch_time : time_point_sec;
  ico_xgt_units_min : Z;
  ico_min_unit_ratio : Z;
  ico_max_unit_ratio : Z;
  ico_contributed : asset;
  ico_processed_contributions : Z
}.
Definition set_ico_symbol (v : asset_symbol_type) (o : xtt_ico_object) : xtt_ico_object :=
  mkIco (ico_id o) v (ico_contribution_begin_time o) (ico_contribution_end_time o)
    (ico_launch_time o) (ico_xgt_units_min o) (ico_min_unit_ratio o) (ico_max_unit_ratio o)
    (ico_contributed o) (ico_processed_contributions o).
Definition set_ico_contribution_begin_time (v : time_point_sec) (o : xtt_ico_object) : xtt_ico_object :=
  mkIco (ico_id o) (ico_symbol o) v (ico_contribution_end_time o) (ico_launch_time o)
    (ico_xgt_units_min o) (ico_min_unit_ratio o) (ico_max_unit_ratio o) (ico_contributed o)
    (ico_processed_contributions o).
Definition set_ico_contribution_end_time (v : time_point_sec) (o : xtt_ico_object) : xtt_ico_object :=
  mkIco (ico_id o) (ico_symbol o) (ico_contribution_begin_time o) v (ico_launch_time o)
    (ico_xgt_units_min o) (ico_min_unit_ratio o) (ico_max_unit_ratio o) (ico_contributed o)
    (ico_processed_contributions o).
Definition set_ico_launch_time (v : time_point_sec) (o : xtt_ico_object) : xtt_ico_object :=
  mkIco (ico_id o) (ico_symbol o) (ico_contribution_begin_time o) (ico_contribution_end_time o)
    v (ico_xgt_units_min o) (ico_min_unit_ratio o) (ico_max_unit_ratio o) (ico_contributed o)
    (ico_processed_contributions o).
Definition set_ico_xgt_units_min (v : Z) (o : xtt_ico_object) : xtt_ico_object :=
  mkIco (ico_id o) (ico_symbol o) (ico_contribution_begin_time o) (ico_contribution_end_time o)
    (ico_launch_time o) v (ico_min_unit_ratio o) (ico_max_unit_ratio o) (ico_contributed o)
    (ico_processed_contributions o).
Definition set_ico_min_unit_ratio (v : Z) (o : xtt_ico_object) : xtt_ico_object :=
  mkIco (ico_id o) (ico_symbol o) (ico_contribution_begin_time o) (ico_contribution_end_time o)
    (ico_launch_time o) (ico_xgt_units_min o) v (ico_max_unit_ratio o) (ico_contributed o)
    (ico_processed_contributions o).
Definition set_ico_max_unit_ratio (v : Z) (o : xtt_ico_object) : xtt_ico_object :=
  mkIco (ico_id o) (ico_symbol o) (ico_contribution_begin_time o) (ico_contribution_end_time o)
    (ico_launch_time o) (ico_xgt_units_min o) (ico_min_unit_ratio o) v (ico_contributed o)
    (ico_processed_contributions o).
Definition set_ico_contributed (v : asset) (o : xtt_ico_object) : xtt_ico_object :=
  mkIco (ico_id o) (ico_symbol o) (ico_contribution_begin_time o) (ico_contribution_end_time o)
    (ico_launch_time o) (ico_xgt_units_min o) (ico_min_unit_ratio o) (ico_max_unit_ratio o) v
    (ico_processed_contributions o).
Definition set_ico_processed_contributions (v : Z) (o : xtt_ico_object) : xtt_ico_object :=
  mkIco (ico_id o) (ico_symbol o) (ico_contribution_begin_time o) (ico_contribution_end_time o)
    (ico_launch_time o) (ico_xgt_units_min o) (ico_min_unit_ratio o) (ico_max_unit_ratio o)
    (ico_contributed o) v.
#[export] Instance xtt_ico_object_indexed : IndexedObject xtt_ico_object := {|
  obj_id := ico_id;
  obj_init i := mkIco i 0 0 0 0 (-1) 0 0 zero_xgt 0;
  ukey := Z;
  ukeys o := [ico_symbol o];
  obj_id_init _ := eq_refl
|}.

Record xtt_ico_tier_object := mkIcoTierObject {
  tier_id : Z;
  tier_symbol : asset_symbol_type;
  tier_xgt_units_cap : Z;
  tier_generation_unit : xtt_generation_unit
}.
Definition set_tier_symbol (v : asset_symbol_type) (o : xtt_ico_tier_object) : xtt_ico_tier_object :=
  mkIcoTierObject (tier_id o) v (tier_xgt_units_cap o) (tier_generation_unit o).
Definition set_tier_xgt_units_cap (v : Z) (o : xtt_ico_tier_object) : xtt_ico_tier_object :=
  mkIcoTierObject (tier_id o) (tier_symbol o) v (tier_generation_unit o).
Definition set_tier_generation_unit (v : xtt_generation_unit) (o : xtt_ico_tier_object) : xtt_ico_tier_object :=
  mkIcoTierObject (tier_id o) (tier_symbol o) (tier_xgt_units_cap o) v.
#[export] Instance xtt_ico_tier_object_indexed : IndexedObject xtt_ico_tier_object := {|
  obj_id := tier_id;
  obj_init i := mkIcoTierObject i 0 (-1) (mkUnit [] []);
  ukey := Z * Z;
  ukeys o := [(tier_symbol o, tier_xgt_units_cap o)];
  obj_id_init _ := eq_refl
|}.

Record contract_object := mkContract {
  ct_id : Z;
  ct_owner : wallet_name_type;
  ct_contract_hash : list Z;
  ct_code : list Z
}.
Definition set_ct_owner (v : wallet_name_type) (o : contract_object) : contract_object :=
  mkContract (ct_id o) v (ct_contract_hash o) (ct_code o).
Definition set_ct_code (v : list Z) (o : contract_object) : contract_object :=
  mkContract (ct_id o) (ct_owner o) (ct_contract_hash o) v.
#[export] Instance contract_object_indexed : IndexedObject contract_object := {|
  obj_id := ct_id;
  obj_init i := mkContract i EmptyString null_block_id [];
  ukey := wallet_name_type + list Z;
  ukeys o := [inl (ct_owner o); inr (ct_contract_hash o)];
  obj_id_init _ := eq_refl
|}.

Definition is_approved (e : escrow_object) : bool := esc_to_approved e && esc_agent_approved e.

(** ** The tables *)
Inductive table :=
| t_dgp
| t_wallet
| t_metadata
| t_authority
| t_witness
| t_transaction
| t_block_summary
| t_comment
| t_comment_content
| t_comment_vote
| t_hardfork
| t_recovery_history
| t_recovery_request
| t_change_recovery
| t_escrow
| t_pending_required
| t_pending_optional
| t_token
| t_balance
| t_nai_pool
| t_contribution
| t_ico
| t_tier
| t_contract.
#[export] Instance table_eq_dec : EqDecision table.
Proof. solve_decision. Defined.
Definition obj (t : table) : Type :=
  match t with
  | t_dgp => dynamic_global_property_object
  | t_wallet => wallet_object
  | t_metadata => account_metadata_object
  | t_authority => account_authority_object
  | t_witness => witness_object
  | t_transaction => transaction_object
  | t_block_summary => block_summary_object
  | t_comment => comment_object
  | t_comment_content => comment_content_object
  | t_comment_vote => comment_vote_object
  | t_hardfork => hardfork_property_object
  | t_recovery_history => recovery_authority_history_object
  | t_recovery_request => account_recovery_request_object
  | t_change_recovery => change_recovery_account_request_object
  | t_escrow => escrow_object
  | t_pending_required => pending_required_action_object
  | t_pending_optional => pending_optional_action_object
  | t_token => xtt_token_object
  | t_balance => account_regular_balance_object
  | t_nai_pool => nai_pool_object
  | t_contribution => xtt_contribution_object
  | t_ico => xtt_ico_object
  | t_tier => xtt_ico_tier_object
  | t_contract => contract_object
  end.
#[export] Instance obj_indexed (t : table) : IndexedObject (obj t) :=
  match t with
  | t_dgp => dynamic_global_property_object_indexed
  | t_wallet => wallet_object_indexed
  | t_metadata => account_metadata_object_indexed
  | t_authority => account_authority_object_indexed
  | t_witness => witness_object_indexed
  | t_transaction => transaction_object_indexed
  | t_block_summary => block_summary_object_indexed
  | t_comment => comment_object_indexed
  | t_comment_content => comment_content_object_indexed
  | t_comment_vote => comment_vote_object_indexed
  | t_hardfork => hardfork_property_object_indexed
  | t_recovery_history => recovery_authority_history_object_indexed
  | t_recovery_request => account_recovery_request_object_indexed
  | t_change_recovery => change_recovery_account_request_object_indexed
  | t_escrow => escrow_object_indexed
  | t_pending_required => pending_required_action_object_indexed
  | t_pending_optional => pending_optional_action_object_indexed
  | t_token => xtt_token_object_indexed
  | t_balance => account_regular_balance_object_indexed
  | t_nai_pool => nai_pool_object_indexed
  | t_contribution => xtt_contribution_object_indexed
  | t_ico => xtt_ico_object_indexed
  | t_tier => xtt_ico_tier_object_indexed
  | t_contract => contract_object_indexed
  end.
(** The order of registration, which is the order of [_index_list]. *)
Definition all_tables : list table :=
  [t_dgp;
   t_wallet;
   t_metadata;
   t_authority;
   t_witness;
   t_transaction;
   t_block_summary;
   t_comment;
   t_comment_content;
   t_comment_vote;
   t_hardfork;
   t_recovery_history;
   t_recovery_request;
   t_change_recovery;
   t_escrow;
   t_pending_required;
   t_pending_optional;
   t_token;
   t_balance;
   t_nai_pool;
   t_contribution;
   t_ico;
   t_tier;
   t_contract].
Lemma elem_of_all_tables t : t ∈ all_tables.
Proof. destruct t; vm_compute; repeat constructor. Qed.
