(* ===== verification/Database.v ===== *)
(** * The chain database: tables, sessions, balances

    chainbase::database (libraries/chainbase/src/chainbase.cpp), which keeps
    one undo stack per table in step, and the parts of xgt::chain::database
    (libraries/chain/database.cpp) every operation uses: lookups, balances and
    supplies.  [quiet] states what code inside a session may do to the undo
    stacks; the rollback lemma and the atomicity theorems rest on it. *)
From S2P Require Import Prelude Safe Chainbase Asset Protocol Block ForkDatabase ResourceDynamics Objects.

(** ** chainbase::database *)
Definition tables : Type := ∀ t : table, Chainbase.generic_index (obj t).

Definition upd (t : table) (gi : Chainbase.generic_index (obj t)) (d : tables) : tables := λ t',
  match decide (t = t') with
  | left E => eq_rect t (λ x, Chainbase.generic_index (obj x)) gi t' E
  | right _ => d t'
  end.

Definition no_tables : tables := λ t, Chainbase.empty_index.

Module Base.
(** The loops over [_index_list]: a throwing index stops the loop. *)
Definition on_index (f : ∀ t, St (Chainbase.generic_index (obj t)) unit) (t : table) : St tables unit :=
  λ d, let '(r, gi) := f t (d t) in (r, upd t gi d).
Definition each_index (f : ∀ t, St (Chainbase.generic_index (obj t)) unit) : St tables unit :=
  for_each all_tables (on_index f).

Definition undo : St tables unit := each_index (λ t, Chainbase.undo).
Definition squash : St tables unit := each_index (λ t gi, (Ok tt, Chainbase.squash gi)).
Definition commit (rev : Z) : St tables unit := each_index (λ t gi, (Ok tt, Chainbase.commit rev gi)).
Definition undo_all : St tables unit := each_index (λ t, Chainbase.undo_all).
Definition start_undo_session : St tables unit :=
  each_index (λ t gi, (Ok tt, Chainbase.start_undo_session gi)).
Definition set_revision (rev : Z) : St tables unit := each_index (λ t, Chainbase.set_revision rev).
Definition revision (d : tables) : Z := Chainbase.revision (d t_dgp).
End Base.

(** ** xgt::chain::database

    The members that outlive a call.  [pending_tx_session] says whether the
    optional session object is set.  [block_log] is the sequence of blocks in
    the log.  [entropy] is what the random generator of this node will yield, draw
    by draw, and [rand_count] how often it was drawn from: two nodes, or a node and
    its replay, have nothing in common there. *)
Record database := mkDb {
  tbl : tables;
  fork_db : ForkDb.fork_database;
  block_log : list signed_block;
  pending_tx : list signed_transaction;
  pending_tx_session : bool;
  popped_tx : list signed_transaction;
  skip_flags : Z;
  is_producing : bool;
  is_pending_tx : bool;
  checkpoints : list (Z * block_id_type);
  entropy : Z → public_key_type;
  rand_count : Z
}.
Definition set_tbl (v : tables) (s : database) : database :=
  mkDb v (fork_db s) (block_log s) (pending_tx s) (pending_tx_session s) (popped_tx s)
    (skip_flags s) (is_producing s) (is_pending_tx s) (checkpoints s) (entropy s) (rand_count s).
Definition set_rand_count (v : Z) (s : database) : database :=
  mkDb (tbl s) (fork_db s) (block_log s) (pending_tx s) (pending_tx_session s) (popped_tx s)
    (skip_flags s) (is_producing s) (is_pending_tx s) (checkpoints s) (entropy s) v.
Definition set_entropy (v : Z → public_key_type) (s : database) : database :=
  mkDb (tbl s) (fork_db s) (block_log s) (pending_tx s) (pending_tx_session s) (popped_tx s)
    (skip_flags s) (is_producing s) (is_pending_tx s) (checkpoints s) v (rand_count s).

Abbreviation DB := (St database).

(** [FC_CAPTURE_AND_RETHROW]: an [fc::exception] passes unchanged, a
    [std::exception] becomes an [fc::exception]. *)
Definition to_fc (e : exn) : exn :=
  match e with LogicError | OutOfRange | RuntimeError => FcException | _ => e end.
Definition capture_rethrow {A} (m : DB A) : DB A := try_catch m (λ e, mthrow (to_fc e)).

(** ** Access to the tables *)
Definition at_table {A} (t : table) (m : St (Chainbase.generic_index (obj t)) A) : DB A := λ s,
  let '(r, gi) := m (tbl s t) in (r, set_tbl (upd t gi (tbl s)) s).
Definition on_base {A} (m : St tables A) : DB A := λ s,
  let '(r, d) := m (tbl s) in (r, set_tbl d s).

Definition create (t : table) (f : obj t → result (obj t)) : DB (obj t) :=
  at_table t (Chainbase.emplace f).
Definition modify (t : table) (i : Z) (f : obj t → result (obj t)) : DB unit :=
  at_table t (Chainbase.modify i f).
Definition remove (t : table) (i : Z) : DB unit := at_table t (Chainbase.remove i).

Definition items (t : table) (s : database) : gmap Z (obj t) := Chainbase.indices (tbl s t).
Definition find_by_key (t : table) (k : ukey (V:=obj t)) (s : database) : option (obj t) :=
  Chainbase.find_key k (tbl s t).
(** The first object, in id order, that satisfies a test: the result of a
    lookup by the leading part of a composite key that ends in the id. *)
Definition find_first (t : table) (p : obj t → bool) (s : database) : option (obj t) :=
  snd <$> List.find (λ x, p x.2) (Chainbase.map_items (items t s)).

Definition get_or {A} (e : exn) (f : database → option A) : DB A := λ s,
  match f s with Some a => (Ok a, s) | None => (Exc e, s) end.
(** Reading through a reference obtained earlier: the object's current value. *)
Definition deref (t : table) (i : Z) : DB (obj t) := get_or LogicError (λ s, items t s !! i).

Module Db.
Definition find_account (name : wallet_name_type) (s : database) : option wallet_object :=
  find_by_key t_wallet name s.
Definition get_account (name : wallet_name_type) : DB wallet_object :=
  get_or FcException (find_account name).
Definition find_witness (name : wallet_name_type) (s : database) : option witness_object :=
  find_by_key t_witness name s.
Definition get_witness (name : wallet_name_type) : DB witness_object :=
  get_or FcException (find_witness name).
Definition find_comment (author : wallet_name_type) (permlink : string) (s : database) :
    option comment_object := find_by_key t_comment (author, c_str permlink) s.
Definition get_comment (author : wallet_name_type) (permlink : string) : DB comment_object :=
  get_or FcException (find_comment author permlink).
Definition find_escrow (name : wallet_name_type) (escrow_id : Z) (s : database) :
    option escrow_object := find_by_key t_escrow (name, escrow_id) s.
Definition get_escrow (name : wallet_name_type) (escrow_id : Z) : DB escrow_object :=
  get_or FcException (find_escrow name escrow_id).
Definition find_authority (name : wallet_name_type) (s : database) : option account_authority_object :=
  find_first t_authority (λ a, bool_decide (aa_account a = name)) s.
Definition get_authority (name : wallet_name_type) : DB account_authority_object :=
  get_or OutOfRange (find_authority name).

Definition dgp (s : database) : option dynamic_global_property_object := items t_dgp s !! 0.
Definition get_dynamic_global_properties : DB dynamic_global_property_object :=
  get_or FcException dgp.
Definition get_hardfork_property_object : DB hardfork_property_object :=
  get_or FcException (λ s, items t_hardfork s !! 0).
Definition head_block_time : DB time_point_sec :=
  p ← get_dynamic_global_properties; mret (dgp_time p).
Definition head_block_num : DB Z :=
  p ← get_dynamic_global_properties; mret (dgp_head_block_number p).
Definition head_block_id : DB block_id_type :=
  p ← get_dynamic_global_properties; mret (dgp_head_block_id p).
Definition last_non_undoable_block_num : DB Z :=
  p ← get_dynamic_global_properties; mret (dgp_last_irreversible_block_num p).

Definition is_known_transaction (id : transaction_id_type) (s : database) : bool :=
  match find_by_key t_transaction id s with Some _ => true | None => false end.

(** *** Balances *)
Definition is_xtt (sym : asset_symbol_type) : bool :=
  match AssetSymbol.space sym with AssetSymbol.xtt_nai_space => true | _ => false end.

Definition find_balance (name : wallet_name_type) (sym : asset_symbol_type) (s : database) :
    option account_regular_balance_object := find_by_key t_balance (name, sym) s.
Definition xtt_balance (name : wallet_name_type) (sym : asset_symbol_type) : DB asset :=
  o ← gets (find_balance name sym);
  mret (match o with None => mkAsset 0 sym | Some b => arb_liquid b end).

Definition get_balance_of (a : wallet_object) (sym : asset_symbol_type) : DB asset :=
  if sym =? XGT_ASSET_NUM_XGT then mret (w_balance a)
  else fc_assert (is_xtt sym) ;; xtt_balance (w_name a) sym.
Definition get_balance (name : wallet_name_type) (sym : asset_symbol_type) : DB asset :=
  if is_xtt sym then xtt_balance name sym
  else a ← get_account name; get_balance_of a sym.

Definition adjust_supply (delta : asset) : DB unit :=
  when (is_xtt (symbol delta))
    (xtt ← get_or OutOfRange (find_by_key t_token (symbol delta));
     xtt_new_supply ← lift (Safe.add (tok_current_supply xtt) (amount delta));
     fc_assert (0 <=? xtt_new_supply) ;;
     modify t_token (tok_id xtt) (λ x, mret (set_tok_current_supply xtt_new_supply x))).

Definition add_to_balance (delta : asset) (b : account_regular_balance_object) :
    result account_regular_balance_object :=
  l ← Asset.add (arb_liquid b) delta; mret (set_arb_liquid l b).

(** [adjust_xtt_balance] with [check_account] false. *)
Definition adjust_xtt_balance (name : wallet_name_type) (delta : asset) : DB unit :=
  o ← gets (find_balance name (symbol delta));
  match o with
  | None =>
      fc_assert (0 <=? amount delta) ;;
      if amount delta =? 0 then mret tt
      else
        create t_balance (λ b,
          add_to_balance delta (set_arb_name name (set_arb_liquid (mkAsset 0 (symbol delta)) b))) ;;
        mret tt
  | Some bo =>
      r ← lift (Asset.add (arb_liquid bo) delta);
      fc_assert (0 <=? amount r) ;;
      modify t_balance (arb_id bo) (add_to_balance delta)
  end.

Definition modify_balance (a : wallet_object) (delta : asset) (check_balance : bool) : DB unit :=
  modify t_wallet (w_id a) (λ acnt,
    if symbol delta =? XGT_ASSET_NUM_XGT then
      b ← Asset.add (w_balance acnt) delta;
      when check_balance (fc_assert (0 <=? amount b)) ;;
      mret (set_w_balance b acnt)
    else mthrow AssertException).

Definition check_funds (available : asset) (delta : asset) : DB unit :=
  n ← lift (Asset.neg delta); b ← lift (Asset.ge available n); fc_assert b.

Definition adjust_balance_of (a : wallet_object) (delta : asset) : DB unit :=
  when (amount delta <? 0)
    (available ← get_balance_of a (symbol delta); check_funds available delta) ;;
  if is_xtt (symbol delta) then
    if bool_decide (w_name a = XGT_NULL_WALLET)
    then n ← lift (Asset.neg delta); adjust_supply n
    else adjust_xtt_balance (w_name a) delta
  else modify_balance a delta true.
Definition adjust_balance (name : wallet_name_type) (delta : asset) : DB unit :=
  when (amount delta <? 0)
    (available ← get_balance name (symbol delta); check_funds available delta) ;;
  if is_xtt (symbol delta) then
    if bool_decide (name = XGT_NULL_WALLET)
    then n ← lift (Asset.neg delta); adjust_supply n
    else adjust_xtt_balance name delta
  else a ← get_account name; modify_balance a delta true.

(** The amount in the null wallet disappears; [adjust_supply] ignores XGT. *)
Definition clear_null_wallet_balance : DB unit :=
  null_account ← get_account XGT_NULL_WALLET;
  total ← (if 0 <? amount (w_balance null_account)
           then lift (Asset.add zero_xgt (w_balance null_account)) else mret zero_xgt);
  if amount total =? 0 then mret tt
  else
    when (0 <? amount total)
      (modify t_wallet (w_id null_account) (λ a,
         mret (set_w_balance (mkAsset 0 (symbol (w_balance a))) a))) ;;
    when (0 <? amount total) (n ← lift (Asset.neg total); adjust_supply n).
End Db.

(** ** Reading blocks

    [Log] is the view of the block log that the database uses: its blocks in
    order; the block of number [n] is at index position [n - 1]. *)
Module Log.
Definition head (l : list signed_block) : option signed_block := last l.
Definition read_block_by_num `{Env} (n : Z) (l : list signed_block) : result (option signed_block) :=
  match head l with
  | None => mret None
  | Some h =>
      if (n <=? Block.num_from_id (Block.id (header h))) && (0 <? n) then
        match l !! Z.to_nat (n - 1) with
        | None => mthrow FcException
        | Some b => fc_assert (Block.block_num (header b) =? n) ;; mret (Some b)
        end
      else mret None
  end.
End Log.

Module Store.
Section with_env.
Context `{Env}.
Definition fork_block (a : ForkDb.addr) (s : database) : option signed_block :=
  ForkDb.data <$> ForkDb.deref (fork_db s) a.

Definition fetch_block_by_id (id : block_id_type) : DB (option signed_block) :=
  b ← gets (λ s, ForkDb.fetch_block id (fork_db s));
  match b with
  | Some a => b ← get_or Fault (fork_block a); mret (Some b)
  | None =>
      l ← gets block_log;
      tmp ← lift (Log.read_block_by_num (Block.num_from_id id) l);
      mret (match tmp with
            | Some b => if bool_decide (Block.id (header b) = id) then Some b else None
            | None => None
            end)
  end.
Definition is_known_block (id : block_id_type) : DB bool :=
  b ← fetch_block_by_id id; mret (match b with Some _ => true | None => false end).

Definition fetch_block_by_number (n : Z) : DB (option signed_block) :=
  a ← gets (λ s, ForkDb.fetch_block_on_main_branch_by_number n (fork_db s));
  match a with
  | Some a => b ← get_or Fault (fork_block a); mret (Some b)
  | None => l ← gets block_log; lift (Log.read_block_by_num n l)
  end.

Definition previous_block_id : DB (option block_id_type) :=
  i ← Db.head_block_id;
  head_block ← fetch_block_by_id i;
  mret (match head_block with Some b => Some (previous (header b)) | None => None end).

Definition find_in_stores (block_num : Z) : DB block_id_type :=
  l ← gets block_log;
  b ← lift (Log.read_block_by_num block_num l);
  match b with
  | Some b => mret (Block.id (header b))
  | None =>
      a ← gets (λ s, ForkDb.fetch_block_on_main_branch_by_number block_num (fork_db s));
      match a with
      | Some a => it ← get_or Fault (λ s, ForkDb.deref (fork_db s) a); mret (ForkDb.id it)
      | None => mret null_block_id
      end
  end.
Definition find_block_id_for_num (block_num : Z) : DB block_id_type :=
  if block_num =? 0 then mret null_block_id
  else
    bs ← gets (λ s, items t_block_summary s !! Z.land block_num 0xFFFF);
    match bs with
    | Some x =>
        if Block.num_from_id (bs_block_id x) =? block_num then mret (bs_block_id x)
        else find_in_stores block_num
    | None => find_in_stores block_num
    end.
End with_env.
End Store.

(** ** Theory of the table family *)
Lemma upd_same t gi d : upd t gi d t = gi.
Proof. unfold upd. by rewrite (decide_True_pi eq_refl). Qed.
Lemma upd_other t t' gi d : t ≠ t' → upd t gi d t' = d t'.
Proof. intros Hne. unfold upd. by destruct (decide (t = t')). Qed.

Definition wf_tables (d : tables) : Prop := ∀ t, wf (d t).

(** Code that only creates, modifies and removes leaves the saved snapshots
    and the revisions alone. *)
Definition quiet (d0 d : tables) : Prop := ∀ t,
  wf (d t) ∧ Chainbase.Spec.saved (abs (d t)) = Chainbase.Spec.saved (abs (d0 t)) ∧
  Chainbase.revision (d t) = Chainbase.revision (d0 t).

Lemma quiet_refl d : wf_tables d → quiet d d.
Proof. intros Hwf t. split_and!; done. Qed.
Lemma quiet_trans d0 d1 d2 : quiet d0 d1 → quiet d1 d2 → quiet d0 d2.
Proof. intros H1 H2 t. destruct (H1 t) as (_ & ? & ?), (H2 t) as (? & ? & ?). split_and!; congruence. Qed.
Lemma quiet_wf d0 d : quiet d0 d → wf_tables d.
Proof. intros Hq t. apply Hq. Qed.

Lemma quiet_upd d0 d t gi : quiet d0 d → wf gi →
  Chainbase.Spec.saved (abs gi) = Chainbase.Spec.saved (abs (d t)) →
  Chainbase.revision gi = Chainbase.revision (d t) → quiet d0 (upd t gi d).
Proof.
  intros Hq Hwf Hs Hr t'. destruct (decide (t = t')) as [<-|Hne].
  - rewrite upd_same. destruct (Hq t) as (_ & <- & <-). done.
  - rewrite upd_other by done. apply Hq.
Qed.

(** One pass over the tables: each of [l] gets [f]'s result. *)
Lemma each_index_run (f : ∀ t, St (Chainbase.generic_index (obj t)) unit) l d :
  NoDup l → (∀ t, t ∈ l → fst (f t (d t)) = Ok tt) →
  ∃ d', for_each l (Base.on_index f) d = (Ok tt, d') ∧
    (∀ t, t ∈ l → d' t = snd (f t (d t))) ∧ (∀ t, t ∉ l → d' t = d t).
Proof.
  revert d. induction l as [|t l IH]; intros d Hnd Hok.
  { exists d. split_and!; [done|by intros t Ht; inversion Ht|done]. }
  inversion Hnd as [|? ? Hnotin Hnd']; subst. simpl. rewrite bind_run. unfold Base.on_index at 1.
  pose proof (Hok t ltac:(left)) as Ht. destruct (f t (d t)) as [r gi] eqn:Ef. simpl in Ht. subst r.
  destruct (IH (upd t gi d)) as (d' & Hrun & Hin & Hout); [done| |].
  { intros t' Ht'. rewrite upd_other by (intros ->; done). apply Hok. by right. }
  exists d'. split; [done|]. split.
  - intros t' Ht'. apply elem_of_cons in Ht' as [->|Ht'].
    + rewrite Hout, upd_same by done. by rewrite Ef.
    + rewrite Hin by done. by rewrite upd_other by (intros ->; done).
  - intros t' Ht'. apply not_elem_of_cons in Ht' as [Hne Ht'].
    rewrite Hout by done. by rewrite upd_other.
Qed.

Lemma NoDup_all_tables : NoDup all_tables.
Proof. by apply (bool_decide_unpack _); vm_compute. Qed.

Lemma each_index_all (f : ∀ t, St (Chainbase.generic_index (obj t)) unit) d :
  (∀ t, fst (f t (d t)) = Ok tt) →
  ∃ d', Base.each_index f d = (Ok tt, d') ∧ ∀ t, d' t = snd (f t (d t)).
Proof.
  intros Hok. destruct (each_index_run f all_tables d NoDup_all_tables) as (d' & Hrun & Hin & _).
  { intros t _. apply Hok. }
  exists d'. split; [done|]. intros t. apply Hin, elem_of_all_tables.
Qed.

(** The contents of the tables, as snapshots and revisions. *)
Definition same_tables (d d' : tables) : Prop := ∀ t, abs_rev (d t) = abs_rev (d' t).

#[export] Instance same_tables_equiv : Equivalence same_tables.
Proof.
  split.
  - by intros d t.
  - intros d d' Hd t. by rewrite Hd.
  - intros d d' d'' H1 H2 t. by rewrite H1, H2.
Qed.

Lemma start_session_ok d : wf_tables d →
  ∃ d', Base.start_undo_session d = (Ok tt, d') ∧ wf_tables d' ∧
    ∀ t, abs (d' t) = Chainbase.Spec.start (abs (d t)) ∧
         Chainbase.revision (d' t) = Chainbase.revision (d t) + 1.
Proof.
  intros Hwf. destruct (each_index_all (λ t gi, (Ok tt, Chainbase.start_undo_session gi)) d)
    as (d' & Hrun & Hd'); [done|].
  exists d'. split; [done|]. split; intros t; rewrite Hd'; simpl.
  - by apply wf_start.
  - split; [by apply wf_start|done].
Qed.

(** Undoing a session in which everything was quiet restores the tables. *)
Lemma undo_restores_tables d0 d1 d : wf_tables d0 →
  Base.start_undo_session d0 = (Ok tt, d1) → quiet d1 d →
  ∃ d', Base.undo d = (Ok tt, d') ∧ wf_tables d' ∧ same_tables d' d0.
Proof.
  intros Hwf Hstart Hq. destruct (start_session_ok d0 Hwf) as (d1' & Hs & Hwf1 & Habs).
  rewrite Hstart in Hs. injection Hs as <-.
  destruct (each_index_all (λ t, Chainbase.undo) d) as (d' & Hrun & Hd').
  { intros t. destruct (undo_ok (d t)) as (gi & -> & _); [apply Hq|done]. }
  exists d'. split; [done|].
  assert (Ht : ∀ t, wf (d' t) ∧ abs (d' t) = abs (d0 t) ∧
    Chainbase.revision (d' t) = Chainbase.revision (d0 t)).
  { intros t. rewrite Hd'. destruct (Hq t) as (Hwft & Hsv & Hrv), (Habs t) as [Ha Hr].
    pose proof (undo_revision (d t) Hwft) as Hur.
    destruct (undo_ok (d t) Hwft) as (gi & Hu & Hwfg & Hag). rewrite Hu in Hur |- *.
    cbn [fst snd] in Hur |- *. split; [done|]. split.
    - rewrite Hag. unfold Chainbase.Spec.undo. rewrite Hsv, Ha. by destruct (abs (d0 t)).
    - rewrite Hur. destruct (Chainbase.stack (d t)) eqn:Hstk; [|lia].
      exfalso. rewrite Ha in Hsv. unfold abs in Hsv. simpl in Hsv. rewrite Hstk in Hsv. done. }
  split; [intros t; apply Ht|]. intros t. unfold abs_rev. by destruct (Ht t) as (_ & -> & ->).
Qed.

(** Closing a session with [squash] keeps the contents and drops one level. *)
Lemma squash_tables d : wf_tables d →
  ∃ d', Base.squash d = (Ok tt, d') ∧ wf_tables d' ∧
    ∀ t, abs (d' t) = Chainbase.Spec.squash (abs (d t)) ∧ d' t = Chainbase.squash (d t).
Proof.
  intros Hwf. destruct (each_index_all (λ t gi, (Ok tt, Chainbase.squash gi)) d) as (d' & Hrun & Hd');
    [done|].
  exists d'. split; [done|]. split; intros t; rewrite Hd'; simpl; [|split; [|done]];
    by apply wf_squash.
Qed.

(** ** Primitive steps are quiet *)
Definition stays_quiet {A} (m : DB A) : Prop :=
  ∀ d0, preserves (λ s, quiet d0 (tbl s)) m.

Lemma at_table_quiet {A} t (m : St (Chainbase.generic_index (obj t)) A) d0 :
  (∀ gi, wf gi → wf (snd (m gi)) ∧
     Chainbase.Spec.saved (abs (snd (m gi))) = Chainbase.Spec.saved (abs gi) ∧
     Chainbase.revision (snd (m gi)) = Chainbase.revision gi) →
  preserves (λ s, quiet d0 (tbl s)) (at_table t m).
Proof.
  intros Hm s Hq. unfold at_table. destruct (Hq t) as (Hwf & _). destruct (Hm _ Hwf) as (? & ? & ?).
  destruct (m (tbl s t)) as [r gi] eqn:E. simpl in *. by apply quiet_upd.
Qed.

Lemma create_quiet t f d0 : keeps_id f → preserves (λ s, quiet d0 (tbl s)) (create t f).
Proof.
  intros Hf. apply at_table_quiet. intros gi Hwf. destruct (wf_emplace gi f Hf Hwf) as [? ?].
  split_and!; [done..|]. apply create_fields.
Qed.
Lemma modify_quiet t i f d0 : stable f → preserves (λ s, quiet d0 (tbl s)) (modify t i f).
Proof.
  intros Hf. apply at_table_quiet. intros gi Hwf. destruct (wf_modify gi i f Hf Hwf) as [? ?].
  split_and!; [done..|]. apply modify_fields.
Qed.
Lemma remove_quiet t i d0 : preserves (λ s, quiet d0 (tbl s)) (remove t i).
Proof.
  apply at_table_quiet. intros gi Hwf. destruct (wf_remove gi i Hwf) as [? ?].
  split_and!; [done..|]. apply remove_fields.
Qed.
Lemma preserves_get_or {A} I e (f : database → option A) : preserves I (get_or e f).
Proof. intros s Hs. unfold get_or. by destruct (f s). Qed.
Lemma preserves_deref I t i : preserves I (deref t i).
Proof. apply preserves_get_or. Qed.
Lemma preserves_capture {A} I (m : DB A) : preserves I m → preserves I (capture_rethrow m).
Proof. intros Hm. apply preserves_try; [done|]. intros e. apply preserves_throw. Qed.

(** Side conditions on modifiers: a monadic modifier that only assigns members
    outside the keys. *)
Ltac solve_modifier :=
  let v := fresh in let v' := fresh in let Hf := fresh in
  intros v v' Hf; cbn in Hf; repeat (inv_ok; try case_match; try discriminate); inv_ok;
  repeat case_match_goal; reflexivity.

#[export] Hint Resolve create_quiet modify_quiet remove_quiet preserves_get_or preserves_deref
  preserves_capture : preserves.
#[export] Hint Extern 1 (stable _) => solve_modifier : preserves.
#[export] Hint Extern 1 (keeps_id _) => solve_modifier : preserves.

(** Walk through the code of a computation; what is left are the calls for
    which no lemma is known. *)
Ltac walk_step :=
  lazymatch goal with
  | |- ∀ _, _ => intros ?
  | |- preserves _ (_ ≫= _) => apply preserves_bind
  | |- preserves _ (when _ _) => apply preserves_when
  | |- preserves _ (for_each _ _) => apply preserves_for_each
  | |- preserves _ (capture_rethrow _) => apply preserves_capture
  | |- preserves _ (try_catch _ _) => apply preserves_try
  | |- preserves _ (match ?x with _ => _ end) => destruct x
  | |- _ => solve [eauto 4 with preserves]
  end.
Ltac walk := repeat walk_step.

Lemma adjust_supply_quiet d0 delta : preserves (λ s, quiet d0 (tbl s)) (Db.adjust_supply delta).
Proof. unfold Db.adjust_supply. walk. Qed.
#[export] Hint Resolve adjust_supply_quiet : preserves.
Lemma asset_add_ok a b c : Asset.add a b = Ok c →
  symbol a = symbol b ∧ symbol c = symbol a ∧ amount c = amount a + amount b.
Proof.
  unfold Asset.add, Asset.same_symbol. intros Ha. inv_ok. bool_hyps.
  split_and!; [done..|]. simpl. by apply safe_add_value.
Qed.
Lemma asset_neg_ok a b : Asset.neg a = Ok b → symbol b = symbol a ∧ amount b = - amount a.
Proof. unfold Asset.neg. intros Ha. inv_ok. simpl. split; [done|by apply safe_neg_value]. Qed.

Lemma add_to_balance_ok delta b b' : Db.add_to_balance delta b = Ok b' →
  arb_id b' = arb_id b ∧ arb_name b' = arb_name b ∧
  symbol (arb_liquid b') = symbol (arb_liquid b) ∧ symbol delta = symbol (arb_liquid b) ∧
  amount (arb_liquid b') = amount (arb_liquid b) + amount delta.
Proof.
  unfold Db.add_to_balance. intros Ha. inv_ok.
  match goal with H : Asset.add _ _ = Ok _ |- _ => apply asset_add_ok in H as (? & ? & ?) end. done.
Qed.

Lemma adjust_xtt_balance_quiet d0 name delta :
  preserves (λ s, quiet d0 (tbl s)) (Db.adjust_xtt_balance name delta).
Proof.
  unfold Db.adjust_xtt_balance. walk; [apply modify_quiet|apply create_quiet];
    intros v v' Hf%add_to_balance_ok; simpl in *; naive_solver congruence.
Qed.
#[export] Hint Resolve adjust_xtt_balance_quiet : preserves.

Lemma modify_balance_quiet d0 a delta check :
  preserves (λ s, quiet d0 (tbl s)) (Db.modify_balance a delta check).
Proof. unfold Db.modify_balance. walk. Qed.
#[export] Hint Resolve modify_balance_quiet : preserves.

Lemma adjust_balance_quiet d0 name delta :
  preserves (λ s, quiet d0 (tbl s)) (Db.adjust_balance name delta).
Proof.
  unfold Db.adjust_balance, Db.get_balance, Db.get_balance_of, Db.xtt_balance, Db.get_account,
    Db.check_funds. walk.
Qed.
Lemma adjust_balance_of_quiet d0 a delta :
  preserves (λ s, quiet d0 (tbl s)) (Db.adjust_balance_of a delta).
Proof.
  unfold Db.adjust_balance_of, Db.get_balance_of, Db.xtt_balance, Db.check_funds. walk.
Qed.
Lemma clear_null_wallet_balance_quiet d0 :
  preserves (λ s, quiet d0 (tbl s)) Db.clear_null_wallet_balance.
Proof. unfold Db.clear_null_wallet_balance, Db.get_account. walk. Qed.
#[export] Hint Resolve adjust_balance_quiet adjust_balance_of_quiet
  clear_null_wallet_balance_quiet : preserves.

(** Reading the head of the chain changes nothing. *)
Lemma head_reads_quiet {A} I (m : DB A) (f : dynamic_global_property_object → A) :
  m = (p ← Db.get_dynamic_global_properties; mret (f p)) → preserves I m.
Proof. intros ->. unfold Db.get_dynamic_global_properties. walk. Qed.
#[export] Hint Extern 1 (preserves _ Db.head_block_time) => eapply head_reads_quiet; reflexivity : preserves.
#[export] Hint Extern 1 (preserves _ Db.head_block_num) => eapply head_reads_quiet; reflexivity : preserves.
#[export] Hint Extern 1 (preserves _ Db.head_block_id) => eapply head_reads_quiet; reflexivity : preserves.
#[export] Hint Extern 1 (preserves _ Db.last_non_undoable_block_num) =>
  eapply head_reads_quiet; reflexivity : preserves.
#[export] Hint Extern 1 (preserves _ (Db.get_account _)) => apply preserves_get_or : preserves.
#[export] Hint Extern 1 (preserves _ (Db.get_escrow _ _)) => apply preserves_get_or : preserves.
#[export] Hint Extern 1 (preserves _ (Db.get_comment _ _)) => apply preserves_get_or : preserves.
#[export] Hint Extern 1 (preserves _ (Db.get_witness _)) => apply preserves_get_or : preserves.
#[export] Hint Extern 1 (preserves _ (Db.get_authority _)) => apply preserves_get_or : preserves.
#[export] Hint Extern 1 (preserves _ Db.get_dynamic_global_properties) =>
  apply preserves_get_or : preserves.
#[export] Hint Extern 1 (preserves _ Db.get_hardfork_property_object) =>
  apply preserves_get_or : preserves.

(** ** Successful runs of the primitives

    [only t s s']: [s'] differs from [s] in table [t] at most. *)
Definition only (t : table) (s s' : database) : Prop :=
  s' = set_tbl (tbl s') s ∧ ∀ t', t' ≠ t → tbl s' t' = tbl s t'.

Lemma only_items t t' s s' : only t s s' → t' ≠ t → items t' s' = items t' s.
Proof. intros [_ Hf] Hne. unfold items. by rewrite Hf. Qed.

Lemma at_table_run {A} t (m : St (Chainbase.generic_index (obj t)) A) s r s' :
  at_table t m s = (r, s') → m (tbl s t) = (r, tbl s' t) ∧ only t s s'.
Proof.
  unfold at_table. destruct (m (tbl s t)) as [r1 gi] eqn:E. intros [= <- <-]. simpl.
  rewrite upd_same. split; [done|]. split; [by destruct s|].
  intros t' Hne. simpl. by rewrite upd_other.
Qed.

Lemma create_run t f s v s' : create t f s = (Ok v, s') →
  f (obj_init (Chainbase.next_id (tbl s t))) = Ok v ∧ items t s !! obj_id v = None ∧
  (∀ i w k, items t s !! i = Some w → k ∈ ukeys v → k ∉ ukeys w) ∧
  items t s' = <[obj_id v := v]> (items t s) ∧ only t s s'.
Proof.
  intros [Hm Ho]%at_table_run. unfold Chainbase.emplace in Hm.
  destruct (f _) as [v0|] eqn:Ef; [|done].
  destruct (Chainbase.container_emplace v0 _) as [m|] eqn:Em; [|done].
  injection Hm as <- Hm. apply container_emplace_Some in Em as (-> & Hnone & Hkeys).
  unfold items. rewrite <- Hm. unfold Chainbase.on_create.
  destruct (on_head_fields (Chainbase.record_create v0)
    (Chainbase.set_next (Chainbase.next_id (tbl s t) + 1)
      (Chainbase.set_indices (<[obj_id v0:=v0]> (Chainbase.indices (tbl s t))) (tbl s t)))) as (-> & _ & _).
  split_and!; try done.
Qed.

Lemma modify_run t i f s u s' : modify t i f s = (Ok u, s') →
  ∃ v v', items t s !! i = Some v ∧ f v = Ok v' ∧ obj_id v' = obj_id v ∧
    items t s' = <[obj_id v := v']> (items t s) ∧ only t s s'.
Proof.
  intros [Hm Ho]%at_table_run. unfold Chainbase.modify in Hm.
  destruct (Chainbase.indices (tbl s t) !! i) as [v|] eqn:Hi; [|done].
  destruct (f v) as [v'|] eqn:Ef; [|done].
  destruct (on_head_fields (Chainbase.record_modify v) (tbl s t)) as (Hidx & _ & _).
  unfold Chainbase.on_modify in Hm. rewrite Hidx in Hm.
  destruct (Chainbase.container_replace v v' _) as [m|] eqn:Em; [|done].
  apply container_replace_Some in Em as [-> Hid]. injection Hm as _ Hm.
  exists v, v'. split_and!; try done. unfold items. by rewrite <- Hm.
Qed.

Lemma remove_run t i s u s' : remove t i s = (Ok u, s') →
  ∃ v, items t s !! i = Some v ∧ items t s' = delete i (items t s) ∧ only t s s'.
Proof.
  intros [Hm Ho]%at_table_run. unfold Chainbase.remove in Hm.
  destruct (Chainbase.indices (tbl s t) !! i) as [v|] eqn:Hi; [|done].
  injection Hm as _ Hm. exists v. split_and!; try done. unfold items. rewrite <- Hm. simpl.
  unfold Chainbase.on_remove. by destruct (on_head_fields (Chainbase.record_remove v) (tbl s t)) as (-> & _ & _).
Qed.

Lemma get_or_run {A} e (f : database → option A) s a s' :
  get_or e f s = (Ok a, s') ↔ f s = Some a ∧ s' = s.
Proof. unfold get_or. destruct (f s); naive_solver. Qed.

Lemma deref_run t i s v s' : deref t i s = (Ok v, s') → items t s !! i = Some v ∧ s' = s.
Proof. unfold deref. intros Hd. by apply get_or_run in Hd. Qed.

(** A wallet found by name is stored under its id, and so on for the others. *)
Lemma find_by_key_items t k s v : wf_tables (tbl s) → find_by_key t k s = Some v →
  items t s !! obj_id v = Some v ∧ k ∈ ukeys v.
Proof. intros Hwf Hf. by apply find_key_wf in Hf. Qed.

(** A step that is quiet keeps the tables well formed. *)
Lemma run_quiet {A} (m : DB A) s r s' :
  (∀ d0, preserves (λ s, quiet d0 (tbl s)) m) → wf_tables (tbl s) → m s = (r, s') →
  quiet (tbl s) (tbl s').
Proof.
  intros Hm Hwf Hrun. pose proof (Hm (tbl s) s (quiet_refl _ Hwf)) as Hq. by rewrite Hrun in Hq.
Qed.

Lemma capture_ok {A} (m : DB A) s a s' : capture_rethrow m s = (Ok a, s') → m s = (Ok a, s').
Proof. unfold capture_rethrow, try_catch. by destruct (m s) as [[b|e] s1]. Qed.

(** More inversion rules, for the primitives. *)
Ltac inv_db_step :=
  match goal with
  | H : get_or _ _ _ = (Ok _, _) |- _ => apply get_or_run in H
  | H : capture_rethrow _ _ = (Ok _, _) |- _ => apply capture_ok in H
  | H : Db.get_account _ _ = (Ok _, _) |- _ => apply get_or_run in H
  | H : Db.get_escrow _ _ _ = (Ok _, _) |- _ => apply get_or_run in H
  | H : Db.get_comment _ _ _ = (Ok _, _) |- _ => apply get_or_run in H
  | H : Db.get_witness _ _ = (Ok _, _) |- _ => apply get_or_run in H
  | H : Db.get_authority _ _ = (Ok _, _) |- _ => apply get_or_run in H
  | H : Db.get_dynamic_global_properties _ = (Ok _, _) |- _ => apply get_or_run in H
  | H : deref ?t _ _ = (Ok _, _) |- _ => apply (deref_run t) in H
  | H : Db.head_block_time _ = (Ok _, _) |- _ => unfold Db.head_block_time in H
  | H : Db.head_block_num _ = (Ok _, _) |- _ => unfold Db.head_block_num in H
  | H : Db.head_block_id _ = (Ok _, _) |- _ => unfold Db.head_block_id in H
  | _ => inv_step
  end.
Ltac inv_db := repeat inv_db_step.

(** ** What code leaves alone

    [frame ts s0 s]: [s] differs from [s0] at most in the tables [ts] and in
    the random generator. *)
Definition frame (ts : list table) (s0 s : database) : Prop :=
  (∀ t, t ∉ ts → tbl s t = tbl s0 t) ∧ s = set_rand_count (rand_count s) (set_tbl (tbl s) s0).

Lemma frame_refl ts s : frame ts s s.
Proof. split; [done|by destruct s]. Qed.
Lemma frame_trans ts s0 s1 s2 : frame ts s0 s1 → frame ts s1 s2 → frame ts s0 s2.
Proof.
  intros [H1 E1] [H2 E2]. split; [intros t Ht; by rewrite H2, H1|].
  rewrite E2, E1. by destruct s0.
Qed.
Lemma frame_weaken ts ts' s0 s : ts ⊆ ts' → frame ts s0 s → frame ts' s0 s.
Proof. intros Hs [Ht He]. split; [|done]. intros t Hn. apply Ht. set_solver. Qed.
Lemma frame_items ts t s0 s : frame ts s0 s → t ∉ ts → items t s = items t s0.
Proof. intros [Ht _] Hn. unfold items. by rewrite Ht. Qed.
Lemma at_table_frame {A} ts t (m : St (Chainbase.generic_index (obj t)) A) s0 :
  t ∈ ts → preserves (frame ts s0) (at_table t m).
Proof.
  intros Hin s Hs. apply (frame_trans _ _ s); [done|]. unfold at_table.
  destruct (m (tbl s t)) as [r gi]. split; [|by destruct s].
  intros t' Ht'. apply upd_other. by intros ->.
Qed.
Lemma create_frame ts t f s0 : t ∈ ts → preserves (frame ts s0) (create t f).
Proof. apply at_table_frame. Qed.
Lemma modify_frame ts t i f s0 : t ∈ ts → preserves (frame ts s0) (modify t i f).
Proof. apply at_table_frame. Qed.
Lemma remove_frame ts t i s0 : t ∈ ts → preserves (frame ts s0) (remove t i).
Proof. apply at_table_frame. Qed.
#[export] Hint Resolve create_frame modify_frame remove_frame : preserves.
Ltac by_decide := solve [apply (bool_decide_unpack _); vm_compute; exact I].
#[export] Hint Extern 1 (_ ∈ _) => by_decide : preserves.

(** The balance primitives. *)
Definition liquid_tables : list table := [t_wallet; t_balance; t_token].
Lemma adjust_balance_frame ts name delta s0 : liquid_tables ⊆ ts →
  preserves (frame ts s0) (Db.adjust_balance name delta).
Proof.
  intros Hs. assert (t_wallet ∈ ts ∧ t_balance ∈ ts ∧ t_token ∈ ts) as (? & ? & ?).
  { unfold liquid_tables in Hs. set_solver. }
  unfold Db.adjust_balance, Db.get_balance, Db.get_balance_of, Db.xtt_balance, Db.check_funds,
    Db.adjust_supply, Db.adjust_xtt_balance, Db.modify_balance. walk.
Qed.
Lemma adjust_balance_of_frame ts a delta s0 : liquid_tables ⊆ ts →
  preserves (frame ts s0) (Db.adjust_balance_of a delta).
Proof.
  intros Hs. assert (t_wallet ∈ ts ∧ t_balance ∈ ts ∧ t_token ∈ ts) as (? & ? & ?).
  { unfold liquid_tables in Hs. set_solver. }
  unfold Db.adjust_balance_of, Db.get_balance_of, Db.xtt_balance, Db.check_funds,
    Db.adjust_supply, Db.adjust_xtt_balance, Db.modify_balance. walk.
Qed.
#[export] Hint Resolve adjust_balance_frame adjust_balance_of_frame : preserves.
#[export] Hint Extern 1 (_ ⊆ _) => by_decide : preserves.

Lemma frame_run {A} ts (m : DB A) s r s' : (∀ s0, preserves (frame ts s0) m) → m s = (r, s') →
  frame ts s s'.
Proof. intros Hm Hr. pose proof (Hm s s (frame_refl ts s)) as Hf. by rewrite Hr in Hf. Qed.

(** Code that preserves everything only reads. *)
Lemma reads_run {A} (m : DB A) s r s' : (∀ I, preserves I m) → m s = (r, s') → s' = s.
Proof. intros Hm Hr. pose proof (Hm (λ x, x = s) s eq_refl) as E. by rewrite Hr in E. Qed.
