(* ===== verification/Ledger.v ===== *)
(** * The ledger: where the amounts of an asset are held

    For every symbol the ledger adds up the wallets' liquid balances, the token
    balance objects, the escrows and the contributions of ICOs, and subtracts
    the recorded supply of a token.  The lemmas give the effect of every
    balance primitive of libraries/chain/database.cpp on it. *)
From S2P Require Import Prelude Safe Chainbase Asset Protocol Objects Database.

Definition amount_in (sym : asset_symbol_type) (a : asset) : Z :=
  if symbol a =? sym then amount a else 0.

Definition held_in_wallet sym (w : wallet_object) : Z := amount_in sym (w_balance w).
Definition held_in_balance sym (b : account_regular_balance_object) : Z := amount_in sym (arb_liquid b).
Definition held_in_escrow sym (e : escrow_object) : Z :=
  amount_in sym (esc_xgt_balance e) + amount_in sym (esc_pending_fee e).
Definition held_in_contribution sym (c : xtt_contribution_object) : Z := amount_in sym (xcb_contribution c).
Definition issued sym (x : xtt_token_object) : Z :=
  if tok_liquid_symbol x =? sym then tok_current_supply x else 0.

Definition liquid (sym : asset_symbol_type) (s : database) : Z :=
  map_sum (held_in_wallet sym) (items t_wallet s) + map_sum (held_in_balance sym) (items t_balance s)
  - map_sum (issued sym) (items t_token s).
Definition locked (sym : asset_symbol_type) (s : database) : Z :=
  map_sum (held_in_escrow sym) (items t_escrow s) +
  map_sum (held_in_contribution sym) (items t_contribution s).
Definition ledger (sym : asset_symbol_type) (s : database) : Z := liquid sym s + locked sym s.

(** Two states with the same six tables have the same ledger. *)
Lemma liquid_eq sym s s' :
  items t_wallet s' = items t_wallet s → items t_balance s' = items t_balance s →
  items t_token s' = items t_token s → liquid sym s' = liquid sym s.
Proof. unfold liquid. by intros -> -> ->. Qed.
Lemma locked_eq sym s s' :
  items t_escrow s' = items t_escrow s → items t_contribution s' = items t_contribution s →
  locked sym s' = locked sym s.
Proof. unfold locked. by intros -> ->. Qed.

Lemma amount_in_zero sym sym' : amount_in sym (mkAsset 0 sym') = 0.
Proof. unfold amount_in. by case_match. Qed.
Lemma amount_in_add sym a b c : Asset.add a b = Ok c →
  amount_in sym c = amount_in sym a + amount_in sym b.
Proof. intros (Hs & Hc & Ha)%asset_add_ok. unfold amount_in. rewrite Hc, Ha, <- Hs. by case_match. Qed.
Lemma amount_in_sub sym a b c : Asset.sub a b = Ok c →
  amount_in sym c = amount_in sym a - amount_in sym b.
Proof.
  unfold Asset.sub, Asset.same_symbol. intros Ha. inv_ok. bool_hyps.
  match goal with H : Safe.sub _ _ = Ok _ |- _ => apply safe_sub_value in H as -> end.
  unfold amount_in. simpl. match goal with H : symbol a = symbol b |- _ => rewrite H end. by case_match.
Qed.
Lemma amount_in_neg sym a b : Asset.neg a = Ok b → amount_in sym b = - amount_in sym a.
Proof. intros [Hs Ha]%asset_neg_ok. unfold amount_in. rewrite Hs, Ha. case_match; lia. Qed.

(** A step that only touches the liquid tables. *)
Definition liquid_step (s s' : database) : Prop :=
  s' = set_tbl (tbl s') s ∧
  ∀ t, t ≠ t_wallet → t ≠ t_balance → t ≠ t_token → tbl s' t = tbl s t.

Lemma liquid_step_refl s : liquid_step s s.
Proof. split; [by destruct s|done]. Qed.
Lemma liquid_step_trans s1 s2 s3 : liquid_step s1 s2 → liquid_step s2 s3 → liquid_step s1 s3.
Proof.
  intros [E1 H1] [E2 H2]. split; [rewrite E2, E1; by destruct s1|].
  intros t Hw Hb Ht. by rewrite H2, H1.
Qed.
Lemma liquid_step_locked sym s s' : liquid_step s s' → locked sym s' = locked sym s.
Proof. intros [_ Hs]. apply locked_eq; unfold items; by rewrite Hs. Qed.
Lemma only_liquid t s s' : only t s s' → t = t_wallet ∨ t = t_balance ∨ t = t_token → liquid_step s s'.
Proof. intros [E Ho] Ht. split; [done|]. intros t' ? ? ?. apply Ho. naive_solver. Qed.

(** *** Effects of the balance primitives *)
Lemma wallet_insert_liquid sym s s' w w' : wf_tables (tbl s) →
  items t_wallet s !! w_id w = Some w → items t_wallet s' = <[w_id w := w']> (items t_wallet s) →
  only t_wallet s s' → liquid sym s' = liquid sym s - held_in_wallet sym w + held_in_wallet sym w'.
Proof.
  intros Hwf Hw Hi Ho. unfold liquid. rewrite Hi, (only_items _ t_balance _ _ Ho),
    (only_items _ t_token _ _ Ho) by done.
  rewrite (map_sum_insert _ _ _ w) by done. lia.
Qed.

Lemma items_id t s i v : wf_tables (tbl s) → items t s !! i = Some v → obj_id v = i.
Proof. intros Hwf Hi. destruct (Hwf t) as ((Hid & _) & _). by apply Hid in Hi as [? _]. Qed.

Lemma items_inj t s i v w : items t s !! i = Some v → items t s !! i = Some w → v = w.
Proof. congruence. Qed.

Lemma modify_balance_effect a delta check s u s' : wf_tables (tbl s) →
  Db.modify_balance a delta check s = (Ok u, s') →
  (∀ sym, liquid sym s' = liquid sym s + amount_in sym delta) ∧ only t_wallet s s' ∧
  ∃ w w', items t_wallet s !! w_id a = Some w ∧ items t_wallet s' = <[w_id a := w']> (items t_wallet s) ∧
    Asset.add (w_balance w) delta = Ok (w_balance w') ∧ w' = set_w_balance (w_balance w') w ∧
    symbol delta = XGT_SYMBOL ∧ (check = true → 0 ≤ amount (w_balance w')).
Proof.
  intros Hwf (w & w' & Hw & Hf & _ & Hi & Ho)%modify_run. pose proof (items_id _ _ _ _ Hwf Hw) as Hid.
  simpl in Hid, Hi. rewrite Hid in Hi.
  destruct (symbol delta =? XGT_ASSET_NUM_XGT) eqn:Hsym; [|done]. bool_hyps. inv_ok.
  match goal with H : Asset.add _ _ = Ok ?b |- _ => rename H into Hadd; rename b into bal end.
  split_and!; [|done|].
  - intros sym. rewrite (wallet_insert_liquid sym s s' w (set_w_balance bal w)); try done.
    + unfold held_in_wallet. simpl. rewrite (amount_in_add _ _ _ _ Hadd). lia.
    + by rewrite Hid.
    + by rewrite Hid.
  - exists w, (set_w_balance bal w). split_and!; try done. intros ->.
    match goal with H : when true _ = Ok _ |- _ => apply fc_assert_ok in H end. by bool_hyps.
Qed.

Lemma adjust_supply_effect delta s u s' : wf_tables (tbl s) →
  Db.adjust_supply delta s = (Ok u, s') →
  (∀ sym, liquid sym s' =
     liquid sym s - (if Db.is_xtt (symbol delta) then amount_in sym delta else 0)) ∧
  only t_token s s'.
Proof.
  intros Hwf Hrun. unfold Db.adjust_supply in Hrun.
  destruct (Db.is_xtt (symbol delta)); simpl in Hrun.
  2:{ inv_ok. split; [intros; lia|]. split; [by destruct s|done]. }
  inv_db. match goal with H : find_by_key _ _ _ = Some ?x |- _ => rename H into Hx; rename x into tok end.
  match goal with H : Safe.add _ _ = Ok _ |- _ => apply safe_add_value in H as -> end.
  match goal with H : modify _ _ _ _ = _ |- _ =>
    apply modify_run in H as (v & v' & Hv & Hf & _ & Hi & Ho) end.
  split; [|done].
  destruct (find_by_key_items t_token _ _ _ Hwf Hx) as [Htok Hk]. simpl in Htok, Hk, Hi.
  pose proof (items_inj t_token _ _ _ _ Hv Htok) as ->. injection Hf as <-.
  apply list_elem_of_singleton in Hk. intros sym. unfold liquid.
  rewrite (only_items _ t_wallet _ _ Ho), (only_items _ t_balance _ _ Ho), Hi by done.
  rewrite (map_sum_insert _ _ _ tok) by done. unfold issued, amount_in. simpl. rewrite <- Hk.
  case_match; lia.
Qed.

Lemma adjust_xtt_balance_effect name delta s u s' : wf_tables (tbl s) →
  Db.adjust_xtt_balance name delta s = (Ok u, s') →
  (∀ sym, liquid sym s' = liquid sym s + amount_in sym delta) ∧ liquid_step s s'.
Proof.
  intros Hwf Hrun. unfold Db.adjust_xtt_balance in Hrun. inv_db.
  destruct (Db.find_balance name (symbol delta) s) as [bo|] eqn:Hb.
  - inv_db. match goal with H : modify _ _ _ _ = _ |- _ =>
      apply modify_run in H as (v & v' & Hv & Hf & _ & Hi & Ho) end.
    split; [|by eapply only_liquid; eauto].
    destruct (find_by_key_items t_balance _ _ _ Hwf Hb) as [Hbo _]. simpl in Hbo, Hi.
    pose proof (items_inj t_balance _ _ _ _ Hv Hbo) as ->. intros sym. unfold liquid.
    rewrite (only_items _ t_wallet _ _ Ho), (only_items _ t_token _ _ Ho), Hi by done.
    rewrite (map_sum_insert _ _ _ bo) by done.
    apply add_to_balance_ok in Hf as (_ & _ & Hs & Hd & Ha).
    unfold held_in_balance, amount_in. rewrite Hs, Hd, Ha. case_match; lia.
  - inv_db. case_match; bool_hyps; inv_db.
    + split; [|apply liquid_step_refl]. intros sym. unfold amount_in.
      match goal with H : amount delta = 0 |- _ => rewrite H end. case_match; lia.
    + match goal with H : create _ _ _ = _ |- _ =>
        apply create_run in H as (Hf & Hnew & _ & Hi & Ho) end.
      split; [|by eapply only_liquid; eauto]. intros sym. unfold liquid.
      rewrite (only_items _ t_wallet _ _ Ho), (only_items _ t_token _ _ Ho), Hi by done.
      rewrite map_sum_insert_new by done.
      apply add_to_balance_ok in Hf as (_ & _ & Hs & Hd & Ha). simpl in Hs, Ha.
      unfold held_in_balance, amount_in. rewrite Hs, Ha. case_match; lia.
Qed.

Lemma adjust_balance_effect name delta s u s' : wf_tables (tbl s) →
  Db.adjust_balance name delta s = (Ok u, s') →
  (∀ sym, liquid sym s' = liquid sym s + amount_in sym delta) ∧ liquid_step s s'.
Proof.
  intros Hwf Hrun. unfold Db.adjust_balance in Hrun. inv_ok.
  match goal with H : when _ ?m _ = (Ok _, ?s1) |- _ => assert (Hs : s1 = s) end.
  { match goal with H : when _ _ _ = _ |- _ => apply when_ok in H as [[_ H]|[_ ->]]; [|done] end.
    unfold Db.check_funds, Db.get_balance, Db.get_balance_of, Db.xtt_balance in *.
    repeat (case_match || inv_db); done. }
  subst. destruct (Db.is_xtt (symbol delta)) eqn:Hx.
  - case_bool_decide; [|by eapply adjust_xtt_balance_effect].
    inv_db. match goal with H : Asset.neg _ = Ok ?n, H2 : Db.adjust_supply _ _ = _ |- _ =>
      pose proof (asset_neg_ok _ _ H) as [Hns _]; pose proof (λ sym, amount_in_neg sym _ _ H) as Hn;
      apply adjust_supply_effect in H2 as [Hl Ho]; [|done] end.
    split; [|by eapply only_liquid; eauto]. intros sym. rewrite Hl, Hns, Hx, Hn. lia.
  - inv_db. match goal with H : Db.modify_balance _ _ _ _ = _ |- _ =>
      apply modify_balance_effect in H as (Hl & Ho & _); [|done] end.
    split; [done|by eapply only_liquid; eauto].
Qed.

Lemma adjust_balance_of_effect a delta s u s' : wf_tables (tbl s) →
  Db.adjust_balance_of a delta s = (Ok u, s') →
  (∀ sym, liquid sym s' = liquid sym s + amount_in sym delta) ∧ liquid_step s s'.
Proof.
  intros Hwf Hrun. unfold Db.adjust_balance_of in Hrun. inv_ok.
  match goal with H : when _ ?m _ = (Ok _, ?s1) |- _ => assert (Hs : s1 = s) end.
  { match goal with H : when _ _ _ = _ |- _ => apply when_ok in H as [[_ H]|[_ ->]]; [|done] end.
    unfold Db.check_funds, Db.get_balance_of, Db.xtt_balance in *.
    repeat (case_match || inv_db); done. }
  subst. destruct (Db.is_xtt (symbol delta)) eqn:Hx.
  - case_bool_decide; [|by eapply adjust_xtt_balance_effect].
    inv_db. match goal with H : Asset.neg _ = Ok ?n, H2 : Db.adjust_supply _ _ = _ |- _ =>
      pose proof (asset_neg_ok _ _ H) as [Hns _]; pose proof (λ sym, amount_in_neg sym _ _ H) as Hn;
      apply adjust_supply_effect in H2 as [Hl Ho]; [|done] end.
    split; [|by eapply only_liquid; eauto]. intros sym. rewrite Hl, Hns, Hx, Hn. lia.
  - match goal with H : Db.modify_balance _ _ _ _ = _ |- _ =>
      apply modify_balance_effect in H as (Hl & Ho & _); [|done] end.
    split; [done|by eapply only_liquid; eauto].
Qed.

(** *** One wallet is credited *)
Lemma find_in_table t s i (v : obj t) k : wf_tables (tbl s) → items t s !! i = Some v → k ∈ ukeys v →
  find_by_key t k s = Some v.
Proof.
  intros Hwf Hv Hk. apply find_key_wf; [done|]. split; [|done]. by rewrite (items_id _ _ _ _ Hwf Hv).
Qed.
(** The wallets after one of them has changed. *)
Lemma find_after_insert s s' a a' : wf_tables (tbl s) → wf_tables (tbl s') →
  items t_wallet s !! w_id a = Some a → w_id a' = w_id a → w_name a' = w_name a →
  items t_wallet s' = <[w_id a := a']> (items t_wallet s) →
  Db.find_account (w_name a) s' = Some a' ∧
  ∀ name, name ≠ w_name a → Db.find_account name s' = Db.find_account name s.
Proof.
  intros Hwf Hwf' Ha Hid Hname Hi. split.
  - apply (find_in_table t_wallet s' (w_id a)); [done|by rewrite Hi, lookup_insert_eq|]. simpl. rewrite Hname. left.
  - intros name Hne. unfold Db.find_account. destruct (find_by_key t_wallet name s) as [b|] eqn:Hb.
    + apply find_by_key_items in Hb as [Hb Hk]; [|done]. simpl in Hb, Hk. apply list_elem_of_singleton in Hk as ->.
      apply (find_in_table t_wallet s' (w_id b)); [done| |left]. rewrite Hi, lookup_insert_ne; [done|].
      intros He. apply Hne. f_equal. apply (items_inj t_wallet s (w_id a)); [rewrite He; exact Hb|exact Ha].
    + apply find_key_None. intros i b Hl Hk. simpl in Hk. apply list_elem_of_singleton in Hk as ->.
      change (items t_wallet s' !! i = Some b) in Hl. rewrite Hi in Hl.
      apply lookup_insert_Some in Hl as [[_ <-]|[_ Hl]]; [by rewrite Hname in Hne|].
      pose proof (proj1 (find_key_None _ _) Hb i b Hl) as Hno. apply Hno. left.
Qed.
(** The balance of one wallet has changed by [x], no other wallet has changed. *)
Definition credited (name : wallet_name_type) (x : Z) (s s' : database) : Prop :=
  ∃ w, Db.find_account name s = Some w ∧
    Db.find_account name s' = Some (set_w_balance (mkAsset (amount (w_balance w) + x) (symbol (w_balance w))) w) ∧
    ∀ other, other ≠ name → Db.find_account other s' = Db.find_account other s.
Lemma credited_same name x s s1 s2 : tbl s2 t_wallet = tbl s1 t_wallet → credited name x s s1 → credited name x s s2.
Proof. intros Ht. unfold credited, Db.find_account, find_by_key. by rewrite Ht. Qed.
Lemma asset_add_value a b c : Asset.add a b = Ok c → c = mkAsset (amount a + amount b) (symbol a).
Proof.
  unfold Asset.add. intros Hs. inv_ok.
  match goal with H : Safe.add _ _ = Ok _ |- _ => by apply safe_add_value in H as -> end.
Qed.
Lemma adjust_balance_credits name delta s u s' : wf_tables (tbl s) → symbol delta = XGT_SYMBOL →
  Db.adjust_balance name delta s = (Ok u, s') → credited name (amount delta) s s' ∧ only t_wallet s s'.
Proof.
  intros Hwf Hsym Hr. unfold Db.adjust_balance in Hr. rewrite Hsym in Hr. change (Db.is_xtt XGT_SYMBOL) with false in Hr.
  cbv iota in Hr. apply St_bind_ok in Hr as ([] & s1 & Hw & Hr).
  assert (s1 = s) as ->.
  { apply when_ok in Hw as [[_ Hw]|[_ ->]]; [|done].
    unfold Db.check_funds, Db.get_balance, Db.get_balance_of, Db.xtt_balance in *.
    repeat (case_match || inv_db); done. }
  apply St_bind_ok in Hr as (a & s2 & Ha & Hr).
  assert (Db.find_account name s = Some a ∧ s2 = s) as [Hf ->] by (unfold Db.get_account in Ha; inv_db; done).
  pose proof (find_by_key_items t_wallet name s a Hwf Hf) as [Hi Hk]. simpl in Hi, Hk.
  apply list_elem_of_singleton in Hk as ->.
  pose proof (run_quiet _ _ _ _ (λ d0, modify_balance_quiet d0 a delta true) Hwf Hr) as Hq.
  destruct (modify_balance_effect a delta true s u s' Hwf Hr) as (_ & Ho & w & w' & Hw' & Hit & Hadd & Hset & _).
  split; [|done]. assert (w = a) as -> by exact (items_inj t_wallet s (w_id a) w a Hw' Hi).
  apply asset_add_value in Hadd. exists a. split; [done|]. rewrite <- Hadd, <- Hset.
  apply (find_after_insert s s' a w'); try done; [by eapply quiet_wf|by rewrite Hset..].
Qed.

(** ** The ledger, table by table *)
Definition held (t : table) (sym : asset_symbol_type) : obj t → Z :=
  match t with
  | t_wallet => held_in_wallet sym
  | t_balance => held_in_balance sym
  | t_token => λ x, - issued sym x
  | t_escrow => held_in_escrow sym
  | t_contribution => held_in_contribution sym
  | _ => λ _, 0
  end.

Lemma map_sum_opp {V} (f : V → Z) (m : gmap Z V) : map_sum (λ x, - f x) m = - map_sum f m.
Proof.
  induction m as [|i v m Hi IH] using map_ind; [done|].
  rewrite !map_sum_insert_new, IH by done. lia.
Qed.

Lemma map_sum_zero {V} (m : gmap Z V) : map_sum (λ _, 0) m = 0.
Proof.
  induction m as [|i v m Hi IH] using map_ind; [done|]. by rewrite map_sum_insert_new, IH.
Qed.

(** The ledger with the part of table [t] taken out depends on the others only. *)
Lemma ledger_split t sym s s' : only t s s' →
  ledger sym s' - map_sum (held t sym) (items t s') = ledger sym s - map_sum (held t sym) (items t s).
Proof.
  intros Ho. assert (Hi : ∀ t', t' ≠ t → items t' s' = items t' s) by (intros; by apply (only_items t)).
  unfold ledger, liquid, locked.
  destruct t; cbn [held]; rewrite ?map_sum_opp;
    repeat match goal with
    | |- context [items ?t' s'] => rewrite (Hi t') by done
    end; rewrite ?map_sum_zero; cbn [obj]; lia.
Qed.

Lemma ledger_insert t sym s s' i v v' : only t s s' → items t s !! i = Some v →
  items t s' = <[i := v']> (items t s) → ledger sym s' = ledger sym s - held t sym v + held t sym v'.
Proof.
  intros Ho Hv Hi. pose proof (ledger_split t sym s s' Ho) as Hl.
  rewrite Hi, (map_sum_insert _ _ _ v) in Hl by done. lia.
Qed.
Lemma ledger_create t sym s s' i v : only t s s' → items t s !! i = None →
  items t s' = <[i := v]> (items t s) → ledger sym s' = ledger sym s + held t sym v.
Proof.
  intros Ho Hv Hi. pose proof (ledger_split t sym s s' Ho) as Hl.
  rewrite Hi, map_sum_insert_new in Hl by done. lia.
Qed.
Lemma ledger_delete t sym s s' i v : only t s s' → items t s !! i = Some v →
  items t s' = delete i (items t s) → ledger sym s' = ledger sym s - held t sym v.
Proof.
  intros Ho Hv Hi. pose proof (ledger_split t sym s s' Ho) as Hl.
  rewrite Hi, (map_sum_delete _ _ _ v) in Hl by done. lia.
Qed.
Lemma liquid_step_ledger sym s s' x : liquid_step s s' → liquid sym s' = liquid sym s + x →
  ledger sym s' = ledger sym s + x.
Proof. intros Hs Hl. unfold ledger. rewrite (liquid_step_locked sym s s' Hs). lia. Qed.

(** ** Code that moves no asset *)
Definition neutral (L : asset_symbol_type → Z) (s : database) : Prop :=
  wf_tables (tbl s) ∧ ∀ sym, ledger sym s = L sym.

Lemma failed_only {A} t (m : St (Chainbase.generic_index (obj t)) A) s r s' :
  at_table t m s = (r, s') → Chainbase.indices (snd (m (tbl s t))) = items t s →
  only t s s' ∧ items t s' = items t s.
Proof. intros [Hm Ho]%at_table_run Hi. rewrite Hm in Hi. done. Qed.

Lemma ledger_same t sym s s' : only t s s' → items t s' = items t s → ledger sym s' = ledger sym s.
Proof. intros Ho Hi. pose proof (ledger_split t sym s s' Ho) as Hl. rewrite Hi in Hl. lia. Qed.

Lemma create_failed t f s e s' : create t f s = (Exc e, s') → only t s s' ∧ items t s' = items t s.
Proof.
  intros Hc. pose proof (at_table_run _ _ _ _ _ Hc) as [Hm Ho]. split; [done|].
  unfold Chainbase.emplace in Hm. unfold items.
  destruct (f _); [destruct (Chainbase.container_emplace _ _); [done|]|]; by injection Hm as _ <-.
Qed.
Lemma modify_failed t i f s e s' : modify t i f s = (Exc e, s') → only t s s' ∧ items t s' = items t s.
Proof.
  intros Hc. pose proof (at_table_run _ _ _ _ _ Hc) as [Hm Ho]. split; [done|].
  unfold Chainbase.modify, Chainbase.on_modify in Hm. unfold items.
  destruct (Chainbase.indices (tbl s t) !! i) as [v|]; [|by injection Hm as _ <-].
  destruct (on_head_fields (Chainbase.record_modify v) (tbl s t)) as (Hx & _ & _).
  destruct (f v); [|by injection Hm as _ <-].
  rewrite Hx in Hm. destruct (Chainbase.container_replace _ _ _); [done|]. by injection Hm as _ <-.
Qed.

Lemma create_neutral t f L : keeps_id f →
  (∀ i v, f (obj_init i) = Ok v → ∀ sym, held t sym v = 0) → preserves (neutral L) (create t f).
Proof.
  intros Hid Hz s [Hwf Hl]. destruct (create t f s) as [r s'] eqn:Hc. simpl. split.
  { eapply quiet_wf, (run_quiet (create t f)); [|done|done]. intros d0. by apply create_quiet. }
  intros sym. rewrite <- Hl. destruct r as [v|e].
  - apply create_run in Hc as (Hf & Hnew & _ & Hi & Ho).
    rewrite (ledger_create t sym s s' _ v Ho Hnew Hi), (Hz _ _ Hf sym). lia.
  - apply create_failed in Hc as [Ho Hi]. by apply (ledger_same t).
Qed.
Lemma modify_neutral t i f L : stable f →
  (∀ v v', f v = Ok v' → ∀ sym, held t sym v' = held t sym v) → preserves (neutral L) (modify t i f).
Proof.
  intros Hst Hz s [Hwf Hl]. destruct (modify t i f s) as [r s'] eqn:Hc. simpl. split.
  { eapply quiet_wf, (run_quiet (modify t i f)); [|done|done]. intros d0. by apply modify_quiet. }
  intros sym. rewrite <- Hl. destruct r as [v|e].
  - apply modify_run in Hc as (v0 & v1 & Hv & Hf & _ & Hi & Ho).
    pose proof (items_id _ _ _ _ Hwf Hv) as Hid. rewrite Hid in Hi.
    rewrite (ledger_insert t sym s s' _ _ _ Ho Hv Hi), (Hz _ _ Hf sym). lia.
  - apply modify_failed in Hc as [Ho Hi]. by apply (ledger_same t).
Qed.
Lemma remove_neutral t i L : (∀ v sym, held t sym v = 0) → preserves (neutral L) (remove t i).
Proof.
  intros Hz s [Hwf Hl]. destruct (remove t i s) as [r s'] eqn:Hc. simpl. split.
  { eapply quiet_wf, (run_quiet (remove t i)); [|done|done]. intros d0. by apply remove_quiet. }
  intros sym. rewrite <- Hl. destruct r as [u|e].
  - apply remove_run in Hc as (v & Hv & Hi & Ho).
    rewrite (ledger_delete t sym s s' _ _ Ho Hv Hi), Hz. lia.
  - pose proof (at_table_run _ _ _ _ _ Hc) as [Hm Ho]. apply (ledger_same t); [done|].
    unfold Chainbase.remove in Hm. unfold items.
    destruct (Chainbase.indices (tbl s t) !! i); [done|]. by injection Hm as _ <-.
Qed.

Ltac solve_held :=
  let Hf := fresh in
  intros ? ? Hf ?; cbn in Hf; repeat (inv_ok; try case_match; try discriminate); inv_ok;
  repeat case_match_goal; first [reflexivity | apply amount_in_zero].
#[export] Hint Resolve create_neutral modify_neutral remove_neutral : preserves.
#[export] Hint Extern 1 (∀ _ _, _ = Ok _ → ∀ _, held _ _ _ = _) => solve_held : preserves.
#[export] Hint Extern 1 (∀ _ _, held _ _ _ = 0) => intros ? ?; reflexivity : preserves.

(** The ledger effect of a successful run. *)
Definition moves {A} (m : DB A) (delta : asset_symbol_type → Z) : Prop := ∀ s a s',
  wf_tables (tbl s) → m s = (Ok a, s') →
  wf_tables (tbl s') ∧ ∀ sym, ledger sym s' = ledger sym s + delta sym.

Lemma neutral_moves {A} (m : DB A) : (∀ L, preserves (neutral L) m) → moves m (λ _, 0).
Proof.
  intros Hm s a s' Hwf Hrun. destruct (Hm (λ sym, ledger sym s) s) as [Hwf' Hl]; [done|].
  rewrite Hrun in Hwf', Hl. split; [done|]. intros sym. rewrite Hl. lia.
Qed.
Lemma adjust_balance_moves name delta : moves (Db.adjust_balance name delta) (λ sym, amount_in sym delta).
Proof.
  intros s u s' Hwf Hrun. split.
  - eapply quiet_wf, (run_quiet (Db.adjust_balance name delta)); [|done|done]. intros; apply adjust_balance_quiet.
  - intros sym. apply adjust_balance_effect in Hrun as [Hl Hs]; [|done]. by apply liquid_step_ledger.
Qed.
Lemma adjust_balance_of_moves a delta : moves (Db.adjust_balance_of a delta) (λ sym, amount_in sym delta).
Proof.
  intros s u s' Hwf Hrun. split.
  - eapply quiet_wf, (run_quiet (Db.adjust_balance_of a delta)); [|done|done].
    intros; apply adjust_balance_of_quiet.
  - intros sym. apply adjust_balance_of_effect in Hrun as [Hl Hs]; [|done]. by apply liquid_step_ledger.
Qed.

Lemma moves_ext {A} (m : DB A) d d' : (∀ sym, d sym = d' sym) → moves m d → moves m d'.
Proof. intros He Hm s a s' Hwf Hr. destruct (Hm s a s' Hwf Hr) as [? Hl]. split; [done|]. intros sym. by rewrite Hl, He. Qed.
Lemma moves_bind {A B} (m : DB A) (f : A → DB B) d1 d2 :
  moves m d1 → (∀ a, moves (f a) d2) → moves (m ≫= f) (λ sym, d1 sym + d2 sym).
Proof.
  intros Hm Hf s b s' Hwf Hr. apply St_bind_ok in Hr as (a & s1 & H1 & H2).
  destruct (Hm _ _ _ Hwf H1) as [Hwf1 Hl1]. destruct (Hf a _ _ _ Hwf1 H2) as [Hwf2 Hl2].
  split; [done|]. intros sym. rewrite Hl2, Hl1. lia.
Qed.
Lemma moves_lift {A B} (r : result A) (f : A → DB B) d :
  (∀ a, r = Ok a → moves (f a) d) → moves (lift r ≫= f) d.
Proof. intros Hf s b s' Hwf Hr. inv_ok. by eapply Hf. Qed.
Lemma moves_capture {A} (m : DB A) d : moves m d → moves (capture_rethrow m) d.
Proof. intros Hm s a s' Hwf Hr%capture_ok. exact (Hm s a s' Hwf Hr). Qed.
Lemma moves_after {A B} (m : DB A) (f : A → DB B) d :
  (∀ L, preserves (neutral L) m) → (∀ a, moves (f a) d) → moves (m ≫= f) d.
Proof.
  intros Hm Hf. eapply moves_ext; [|apply (moves_bind _ _ (λ _, 0) d); [by apply neutral_moves|done]].
  intros sym. simpl. lia.
Qed.
Lemma moves_before {A B} (m : DB A) (f : A → DB B) d :
  moves m d → (∀ a L, preserves (neutral L) (f a)) → moves (m ≫= f) d.
Proof.
  intros Hm Hf. eapply moves_ext; [|apply (moves_bind _ _ d (λ _, 0)); [done|]].
  - intros sym. simpl. lia.
  - intros a. by apply neutral_moves.
Qed.

(** The primitives, with the object they change. *)
Lemma create_moves t f d : keeps_id f →
  (∀ i v, f (obj_init i) = Ok v → ∀ sym, held t sym v = d sym) → moves (create t f) d.
Proof.
  intros Hid Hd s v s' Hwf Hc. split.
  { eapply quiet_wf, (run_quiet (create t f)); [|done|done]. intros d0. by apply create_quiet. }
  intros sym. apply create_run in Hc as (Hf & Hnew & _ & Hi & Ho).
  by rewrite (ledger_create t sym s s' _ v Ho Hnew Hi), (Hd _ _ Hf sym).
Qed.
Lemma modify_ledger t i f s u s' : wf_tables (tbl s) → stable f → modify t i f s = (Ok u, s') →
  ∃ v v', items t s !! i = Some v ∧ f v = Ok v' ∧ items t s' = <[i := v']> (items t s) ∧
    only t s s' ∧ wf_tables (tbl s') ∧
    ∀ sym, ledger sym s' = ledger sym s - held t sym v + held t sym v'.
Proof.
  intros Hwf Hst Hm.
  assert (Hwf' : wf_tables (tbl s')).
  { eapply quiet_wf, (run_quiet (modify t i f)); [|done|done]. intros d0. by apply modify_quiet. }
  apply modify_run in Hm as (v & v' & Hv & Hf & _ & Hi & Ho).
  pose proof (items_id _ _ _ _ Hwf Hv) as Hid. rewrite Hid in Hi.
  exists v, v'. split_and!; try done. intros sym. by apply (ledger_insert t _ _ _ i).
Qed.
Lemma remove_ledger t i s u s' : wf_tables (tbl s) → remove t i s = (Ok u, s') →
  ∃ v, items t s !! i = Some v ∧ items t s' = delete i (items t s) ∧ only t s s' ∧
    wf_tables (tbl s') ∧ ∀ sym, ledger sym s' = ledger sym s - held t sym v.
Proof.
  intros Hwf Hm. assert (Hwf' : wf_tables (tbl s')).
  { eapply quiet_wf, (run_quiet (remove t i)); [|done|done]. intros d0. by apply remove_quiet. }
  apply remove_run in Hm as (v & Hv & Hi & Ho).
  exists v. split_and!; try done. intros sym. by apply (ledger_delete t _ _ _ i).
Qed.
