(* ===== verification/Evaluators.v ===== *)
(** * Evaluators of the core operations

    libraries/chain/xgt_evaluator.cpp: what each operation does to the
    database, and the database functions only they call
    ([update_recovery_authority], [get_pow_target]).  Every evaluator is a
    computation on the whole database, so that a failure half way leaves the
    state as the code leaves it. *)
From S2P Require Import Prelude Safe Chainbase Asset Protocol Block ForkDatabase ResourceDynamics Objects Database.

Definition XGT_MAX_WALLET_CREATION_FEE : Z := 0.
Definition XGT_SOFT_MAX_BLOCK_SIZE : Z := 2 * 1024 * 1024.
Definition XGT_RECOVERY_UPDATE_LIMIT : Z := 60 * 60.
Definition XGT_RECOVERY_AUTH_HISTORY_TRACKING_START_BLOCK_NUM : Z := 3186477.
Definition XGT_MAX_COMMENT_DEPTH : Z := 0xffff.
Definition XGT_MIN_PERMLINK_LENGTH : nat := 0.
Definition XGT_MIN_ROOT_COMMENT_INTERVAL : Z := 60 * 5.
Definition XGT_MIN_REPLY_INTERVAL_HF20 : Z := 3.
Definition XGT_MIN_COMMENT_EDIT_INTERVAL : Z := 3.
Definition XGT_CUSTOM_OP_DATA_MAX_LENGTH : Z := 8192.
Definition XGT_STARTING_OFFSET : Z := 0.
Definition XGT_MINING_REWARD : asset := mkAsset 4166166 XGT_SYMBOL.
(** [uint64_t( 201000 * XGT_MINING_RELATIVE_SPEED )], where the relative speed
    (1/4) / (1/600) rounds to 150 in single precision. *)
Definition XGT_MINING_REWARD_HALVING_INTERVAL : Z := 201000 * 150.
(** The block number from which the first miner of a block is rewarded by the
    block itself (since 1.3.0) and no longer by the evaluator. *)
Definition POW_IN_BLOCK_START : Z := 2116800.

(** What differs from node to node: the custom JSON evaluators that plugins
    registered. *)
Class Node := {
  custom_json_evaluator : string → option (custom_json_operation → DB unit)
}.

Module Eval.
Section with_node.
Context `{Env} `{Node}.

(** *** Witnesses *)
Definition copy_legacy_chain_properties (force_canon : bool) (src : legacy_chain_properties)
    (w : witness_object) : result witness_object :=
  when force_canon (fc_assert (Validate.is_canon (account_creation_fee src))) ;;
  mret (set_wit_maximum_block_size (maximum_block_size src)
         (set_wit_account_creation_fee
           (mkAsset (legacy_amount (account_creation_fee src)) XGT_SYMBOL) w)).

Definition witness_update (o : witness_update_operation) : DB unit :=
  Db.get_account (wiu_owner o) ;;
  fc_assert (Validate.is_canon (account_creation_fee (wiu_props o))) ;;
  fc_assert (legacy_amount (account_creation_fee (wiu_props o)) <=? XGT_MAX_WALLET_CREATION_FEE) ;;
  fc_assert (maximum_block_size (wiu_props o) <=? XGT_SOFT_MAX_BLOCK_SIZE) ;;
  witness ← gets (Db.find_witness (wiu_owner o));
  match witness with
  | Some w =>
      modify t_witness (wit_id w) (λ w,
        copy_legacy_chain_properties false (wiu_props o)
          (set_wit_signing_key (wiu_block_signing_key o) (set_wit_url (wiu_url o) w)))
  | None =>
      now ← Db.head_block_time;
      create t_witness (λ w,
        copy_legacy_chain_properties false (wiu_props o)
          (set_wit_created now (set_wit_signing_key (wiu_block_signing_key o)
            (set_wit_url (wiu_url o) (set_wit_owner (wiu_owner o) w))))) ;;
      mret tt
  end.

(** *** Wallets *)
Definition verify_authority_accounts_exist (auth : authority) : DB unit :=
  for_each (wallet_auths auth) (λ aw,
    a ← gets (Db.find_account aw.1);
    fc_assert (match a with Some _ => true | None => false end)).

Definition initialize_wallet_object (name : wallet_name_type) (key : public_key_type)
    (props : dynamic_global_property_object) (acc : wallet_object) : wallet_object :=
  set_w_created (dgp_time props) (set_w_memo_key key (set_w_name name acc)).

Definition get_hardfork : DB Z :=
  h ← Db.get_hardfork_property_object; mret (Z.of_nat (length (hp_processed_hardforks h)) - 1).

(** The two objects of a wallet; the last recovery update is [time_point_sec::min()]. *)
Definition create_wallet (name : wallet_name_type) (key : public_key_type) : DB unit :=
  props ← Db.get_dynamic_global_properties;
  get_hardfork ;;
  create t_wallet (λ acc, mret (initialize_wallet_object name key props acc)) ;;
  mret tt.
Definition create_authority (name : wallet_name_type) (recovery money social : authority) : DB unit :=
  create t_authority (λ auth,
    mret (set_aa_last_recovery_update 0 (set_aa_social social (set_aa_money money
      (set_aa_recovery recovery (set_aa_account name auth)))))) ;;
  mret tt.

Definition wallet_create (o : wallet_create_operation) : DB unit :=
  let wallet_name := wallet_name_of_keys (Authority.get_keys (wc_recovery o)) in
  create_wallet wallet_name (wc_memo_key o) ;;
  create_authority wallet_name (wc_recovery o) (wc_money o) (wc_social o).

Definition update_recovery_authority (account : wallet_object) (recovery_authority : authority) : DB unit :=
  n ← Db.head_block_num;
  now ← Db.head_block_time;
  when (XGT_RECOVERY_AUTH_HISTORY_TRACKING_START_BLOCK_NUM <=? n)
    (auth ← Db.get_authority (w_name account);
     create t_recovery_history (λ hist,
       mret (set_rh_last_valid_time now (set_rh_previous_recovery_authority (aa_recovery auth)
         (set_rh_account (w_name account) hist)))) ;;
     mret tt) ;;
  auth ← Db.get_authority (w_name account);
  modify t_authority (aa_id auth) (λ auth,
    mret (set_aa_last_recovery_update now (set_aa_recovery recovery_authority auth))).

(** Dereferencing an empty optional is undefined behaviour: [Fault]. *)
Definition value {A} (o : option A) : result A := match o with Some a => Ok a | None => Exc Fault end.
Definition on_some {A} (o : option A) (f : A → DB unit) : DB unit :=
  match o with Some a => f a | None => mret tt end.

Definition wallet_update (o : wallet_update_operation) : DB unit :=
  fc_assert (negb (bool_decide (wu_wallet o = XGT_TEMP_WALLET))) ;;
  on_some (wu_social o) (λ a, lift (Authority.validate a)) ;;
  found ← gets (Db.find_account (wu_wallet o));
  match found with
  | Some _ => mret tt
  | None =>
      key ← lift (value (wu_memo_key o));
      create_wallet (wu_wallet o) key ;;
      recovery ← lift (value (wu_recovery o));
      money ← lift (value (wu_money o));
      social ← lift (value (wu_social o));
      create_authority (wu_wallet o) recovery money social
  end ;;
  wallet ← Db.get_account (wu_wallet o);
  wallet_auth ← Db.get_authority (wu_wallet o);
  on_some (wu_recovery o) (λ a, lift (Validate.validate_auth_size a)) ;;
  on_some (wu_money o) (λ a, lift (Validate.validate_auth_size a)) ;;
  on_some (wu_social o) (λ a, lift (Validate.validate_auth_size a)) ;;
  now ← Db.head_block_time;
  on_some (wu_recovery o) (λ a,
    fc_assert (XGT_RECOVERY_UPDATE_LIMIT <? now - aa_last_recovery_update wallet_auth) ;;
    verify_authority_accounts_exist a ;;
    update_recovery_authority wallet a) ;;
  on_some (wu_money o) verify_authority_accounts_exist ;;
  on_some (wu_social o) verify_authority_accounts_exist ;;
  modify t_wallet (w_id wallet) (λ acc,
    let acc := match wu_memo_key o with
               | Some k => if k =? 0 then acc else set_w_memo_key k acc
               | None => acc
               end in
    mret (set_w_last_account_update now acc)) ;;
  when (Validate.nonempty (wu_json_metadata o) || Validate.nonempty (wu_social_json_metadata o))
    (meta ← get_or OutOfRange (find_by_key t_metadata (w_id wallet));
     modify t_metadata (am_id meta) (λ meta,
       let meta := if Validate.nonempty (wu_json_metadata o)
                   then set_am_json_metadata (wu_json_metadata o) meta else meta in
       mret (if Validate.nonempty (wu_social_json_metadata o)
             then set_am_social_json_metadata (wu_social_json_metadata o) meta else meta))) ;;
  match wu_money o, wu_social o with
  | None, None => mret tt
  | m, so =>
      modify t_authority (aa_id wallet_auth) (λ auth,
        let auth := match m with Some a => set_aa_money a auth | None => auth end in
        mret (match so with Some a => set_aa_social a auth | None => auth end))
  end.

(** *** Comments and votes *)
Definition permlink_char (c : Ascii.ascii) : bool :=
  let n := Z.of_nat (Ascii.nat_of_ascii c) in
  ((97 <=? n) && (n <=? 122)) || ((48 <=? n) && (n <=? 57)) || (n =? 45).
Definition validate_permlink_0_1 (permlink : string) : result unit :=
  fc_assert ((XGT_MIN_PERMLINK_LENGTH <? String.length permlink)%nat &&
             (String.length permlink <? XGT_MAX_PERMLINK_LENGTH)%nat) ;;
  for_each (String.list_ascii_of_string permlink) (λ c, fc_assert (permlink_char c)).

(** The votes of a comment; they are removed one by one, in any order. *)
Definition votes_of (comment : Z) (s : database) : list Z :=
  fst <$> filter (λ p, cv_comment p.2 = comment) (Chainbase.map_items (items t_comment_vote s)).

Definition touch_parent (delta : Z) (now : time_point_sec) (p : comment_object) : result comment_object :=
  mret (set_cm_active now (set_cm_children (u32 (cm_children p + delta)) p)).

Definition delete_comment (o : delete_comment_operation) : DB unit :=
  comment ← Db.get_comment (dc_author o) (dc_permlink o);
  fc_assert (cm_children comment =? 0) ;;
  votes ← gets (votes_of (cm_id comment));
  for_each votes (remove t_comment_vote) ;;
  when (negb (bool_decide (cm_parent_author comment = XGT_ROOT_POST_PARENT)))
    (parent ← Db.get_comment (cm_parent_author comment) (cm_parent_permlink comment);
     now ← Db.head_block_time;
     modify t_comment (cm_id parent) (touch_parent (-1) now)) ;;
  remove t_comment (cm_id comment).

Definition comment_options (o : comment_options_operation) : DB unit :=
  comment ← Db.get_comment (cop_author o) (cop_permlink o);
  fc_assert (implb (cop_allow_votes o) (cm_allow_votes comment)) ;;
  modify t_comment (cm_id comment) (λ c, mret (set_cm_allow_votes (cop_allow_votes o) c)).

(** [while( parent )]: counts the reply on every ancestor.  The table bounds
    the length of a chain of distinct ancestors. *)
Fixpoint touch_ancestors (fuel : nat) (now : time_point_sec) (parent : Z) : DB unit :=
  match fuel with
  | O => mthrow Fault
  | S fuel =>
      modify t_comment parent (touch_parent 1 now) ;;
      p ← deref t_comment parent;
      if bool_decide (cm_parent_author p = XGT_ROOT_POST_PARENT) then mret tt
      else
        q ← Db.get_comment (cm_parent_author p) (cm_parent_permlink p);
        touch_ancestors fuel now (cm_id q)
  end.

Definition is_root_post (o : comment_operation) : bool :=
  bool_decide (co_parent_author o = XGT_ROOT_POST_PARENT).

Definition new_comment (o : comment_operation) (parent : option comment_object) (now : time_point_sec)
    (com : comment_object) : result comment_object :=
  validate_permlink_0_1 (co_parent_permlink o) ;;
  validate_permlink_0_1 (co_permlink o) ;;
  let com := set_cm_active now (set_cm_created now (set_cm_last_update now
    (set_cm_permlink (co_permlink o) (set_cm_author (co_author o) com)))) in
  match parent with
  | None =>
      mret (set_cm_root_comment (cm_id com) (set_cm_category (co_parent_permlink o)
        (set_cm_parent_permlink (co_parent_permlink o) (set_cm_parent_author EmptyString com))))
  | Some p =>
      mret (set_cm_root_comment (cm_root_comment p) (set_cm_category (cm_category p)
        (set_cm_depth (u16 (cm_depth p + 1)) (set_cm_parent_permlink (cm_permlink p)
          (set_cm_parent_author (cm_author p) com)))))
  end.

Definition equal (a b : string) : bool :=
  (String.length a =? String.length b)%nat && bool_decide (c_str a = c_str b).

Definition edit_comment (o : comment_operation) (now : time_point_sec) (com : comment_object) :
    result comment_object :=
  let com := set_cm_active now (set_cm_last_update now com) in
  fc_assert (bool_decide (cm_parent_author com =
    if is_root_post o then EmptyString else co_parent_author o)) ;;
  fc_assert (equal (cm_parent_permlink com) (co_parent_permlink o)) ;;
  mret com.

Definition comment (o : comment_operation) : DB unit := capture_rethrow (
  fc_assert (0 <? String.length (co_title o) + String.length (co_body o) +
                  String.length (co_json_metadata o))%nat ;;
  itr ← gets (Db.find_comment (co_author o) (co_permlink o));
  auth ← Db.get_account (co_author o);
  parent ← (if is_root_post o then mret None
            else p ← Db.get_comment (co_parent_author o) (co_parent_permlink o);
                 fc_assert (cm_depth p <? XGT_MAX_COMMENT_DEPTH) ;; mret (Some p));
  fc_assert (is_utf8 (co_json_metadata o)) ;;
  now ← Db.head_block_time;
  match itr with
  | None =>
      match parent with
      | Some p =>
          root ← get_or OutOfRange (λ s, items t_comment s !! cm_root_comment p);
          fc_assert (cm_allow_replies root)
      | None => mret tt
      end ;;
      fc_assert (if is_root_post o
                 then XGT_MIN_ROOT_COMMENT_INTERVAL <? now - w_last_root_post auth
                 else XGT_MIN_REPLY_INTERVAL_HF20 <=? now - w_last_post auth) ;;
      modify t_wallet (w_id auth) (λ a,
        let a := if is_root_post o
                 then set_w_post_bandwidth (w_post_bandwidth auth) (set_w_last_root_post now a) else a in
        mret (set_w_post_count (u32 (w_post_count a + 1)) (set_w_last_post_edit now (set_w_last_post now a)))) ;;
      com ← create t_comment (new_comment o parent now);
      create t_comment_content (λ con,
        let con := set_cmc_title (co_title o) (set_cmc_comment (cm_id com) con) in
        let con := if Z.of_nat (String.length (co_body o)) <? 1024 * 1024 * 128
                   then set_cmc_body (co_body o) con else con in
        mret (set_cmc_json_metadata (co_json_metadata o) con)) ;;
      match parent with
      | Some p => n ← gets (λ s, size (items t_comment s)); touch_ancestors n now (cm_id p)
      | None => mret tt
      end
  | Some comment =>
      fc_assert (XGT_MIN_COMMENT_EDIT_INTERVAL <=? now - w_last_post_edit auth) ;;
      modify t_comment (cm_id comment) (edit_comment o now) ;;
      modify t_wallet (w_id auth) (λ a, mret (set_w_last_post_edit now a))
  end).

(** The modifier of [vote_evaluator] is empty. *)
Definition vote (o : vote_operation) : DB unit :=
  comment ← Db.get_comment (vo_author o) (vo_permlink o);
  Db.get_account (vo_voter o) ;;
  Db.get_dynamic_global_properties ;;
  modify t_comment (cm_id comment) (λ c, mret c).

(** *** Transfers *)

(** [generate_random_private_key]: a fresh key, the next one of this node's own
    generator. *)
Definition random_key : DB public_key_type := λ s,
  (Ok (entropy s (rand_count s)), set_rand_count (rand_count s + 1) s).

Definition single_key (k : public_key_type) : authority :=
  Authority.add_key_authority k 1 (mkAuthority 1 [] []).

(** The wallet of an unknown receiver, with keys that this node makes up. *)
Definition create_receiver (name : wallet_name_type) : DB unit :=
  recovery_pubkey ← random_key;
  money_pubkey ← random_key;
  social_pubkey ← random_key;
  memo_pubkey ← random_key;
  create_wallet name memo_pubkey ;;
  create_authority name (single_key recovery_pubkey) (single_key money_pubkey)
    (single_key social_pubkey).

Definition transfer (o : transfer_operation) : DB unit :=
  wallet_it ← gets (Db.find_account (tr_to o));
  (match wallet_it with Some _ => mret tt | None => create_receiver (tr_to o) end) ;;
  n ← lift (Asset.neg (tr_amount o));
  Db.adjust_balance (tr_from o) n ;;
  Db.adjust_balance (tr_to o) (tr_amount o).

(** *** Escrow *)
Definition escrow_transfer (o : escrow_transfer_operation) : DB unit := capture_rethrow (
  from_account ← Db.get_account (et_from o);
  Db.get_account (et_to o) ;;
  Db.get_account (et_agent o) ;;
  now ← Db.head_block_time;
  fc_assert (now <? et_ratification_deadline o) ;;
  fc_assert (now <? et_escrow_expiration o) ;;
  xgt_spent ← lift (if symbol (et_fee o) =? XGT_SYMBOL
                    then Asset.add (et_xgt_amount o) (et_fee o) else mret (et_xgt_amount o));
  n ← lift (Asset.neg xgt_spent);
  Db.adjust_balance_of from_account n ;;
  create t_escrow (λ esc,
    mret (set_esc_pending_fee (et_fee o) (set_esc_xgt_balance (et_xgt_amount o)
      (set_esc_escrow_expiration (et_escrow_expiration o)
        (set_esc_ratification_deadline (et_ratification_deadline o)
          (set_esc_agent (et_agent o) (set_esc_to (et_to o) (set_esc_from (et_from o)
            (set_esc_escrow_id (et_escrow_id o) esc))))))))) ;;
  mret tt).

Definition escrow_approve (o : escrow_approve_operation) : DB unit := capture_rethrow (
  escrow ← Db.get_escrow (ea_from o) (ea_escrow_id o);
  fc_assert (bool_decide (esc_to escrow = ea_to o)) ;;
  fc_assert (bool_decide (esc_agent escrow = ea_agent o)) ;;
  now ← Db.head_block_time;
  fc_assert (now <=? esc_ratification_deadline escrow) ;;
  let reject_escrow := negb (ea_approve o) in
  when (bool_decide (ea_who o = ea_to o))
    (fc_assert (negb (esc_to_approved escrow)) ;;
     when (negb reject_escrow)
       (modify t_escrow (esc_id escrow) (λ esc, mret (set_esc_to_approved true esc)))) ;;
  when (bool_decide (ea_who o = ea_agent o))
    (fc_assert (negb (esc_agent_approved escrow)) ;;
     when (negb reject_escrow)
       (modify t_escrow (esc_id escrow) (λ esc, mret (set_esc_agent_approved true esc)))) ;;
  if reject_escrow then
    Db.adjust_balance (ea_from o) (esc_xgt_balance escrow) ;;
    Db.adjust_balance (ea_from o) (esc_pending_fee escrow) ;;
    remove t_escrow (esc_id escrow)
  else
    e ← deref t_escrow (esc_id escrow);
    when (is_approved e)
      (Db.adjust_balance (ea_agent o) (esc_pending_fee e) ;;
       modify t_escrow (esc_id escrow) (λ esc,
         mret (set_esc_pending_fee (mkAsset 0 (symbol (esc_pending_fee esc))) esc)))).

Definition escrow_dispute (o : escrow_dispute_operation) : DB unit := capture_rethrow (
  Db.get_account (ed_from o) ;;
  e ← Db.get_escrow (ed_from o) (ed_escrow_id o);
  now ← Db.head_block_time;
  fc_assert (now <? esc_escrow_expiration e) ;;
  fc_assert (is_approved e) ;;
  fc_assert (negb (esc_disputed e)) ;;
  fc_assert (bool_decide (esc_to e = ed_to o)) ;;
  fc_assert (bool_decide (esc_agent e = ed_agent o)) ;;
  modify t_escrow (esc_id e) (λ esc, mret (set_esc_disputed true esc))).

(** The rules on who may release to whom. *)
Definition release_allowed (o : escrow_release_operation) (e : escrow_object) (now : time_point_sec) :
    DB unit :=
  if esc_disputed e then fc_assert (bool_decide (er_who o = esc_agent e))
  else
    fc_assert (bool_decide (er_who o = esc_from e) || bool_decide (er_who o = esc_to e)) ;;
    when (now <? esc_escrow_expiration e)
      (if bool_decide (er_who o = esc_from e) then fc_assert (bool_decide (er_receiver o = esc_to e))
       else when (bool_decide (er_who o = esc_to e))
              (fc_assert (bool_decide (er_receiver o = esc_from e)))).

Definition escrow_release (o : escrow_release_operation) : DB unit := capture_rethrow (
  Db.get_account (er_from o) ;;
  e ← Db.get_escrow (er_from o) (er_escrow_id o);
  enough ← lift (Asset.ge (esc_xgt_balance e) (er_xgt_amount o));
  fc_assert enough ;;
  fc_assert (bool_decide (esc_to e = er_to o)) ;;
  fc_assert (bool_decide (esc_agent e = er_agent o)) ;;
  fc_assert (bool_decide (er_receiver o = esc_from e) || bool_decide (er_receiver o = esc_to e)) ;;
  fc_assert (is_approved e) ;;
  now ← Db.head_block_time;
  release_allowed o e now ;;
  Db.adjust_balance (er_receiver o) (er_xgt_amount o) ;;
  modify t_escrow (esc_id e) (λ esc,
    b ← Asset.sub (esc_xgt_balance esc) (er_xgt_amount o); mret (set_esc_xgt_balance b esc)) ;;
  e ← deref t_escrow (esc_id e);
  when (amount (esc_xgt_balance e) =? 0) (remove t_escrow (esc_id e))).

(** *** Custom operations *)
Definition custom (o : custom_operation) : DB unit :=
  producing ← gets is_producing;
  when producing (fc_assert (Z.of_nat (length (cu_data o)) <=? XGT_CUSTOM_OP_DATA_MAX_LENGTH)) ;;
  fc_assert (Z.of_nat (length (cu_required_auths o)) <=? XGT_MAX_AUTHORITY_MEMBERSHIP).

Definition custom_json (o : custom_json_operation) : DB unit :=
  producing ← gets is_producing;
  when producing (fc_assert (Z.of_nat (String.length (cj_json o)) <=? XGT_CUSTOM_OP_DATA_MAX_LENGTH)) ;;
  fc_assert (Z.of_nat (length (cj_required_auths o) + length (cj_required_social_auths o)) <=?
             XGT_MAX_AUTHORITY_MEMBERSHIP) ;;
  match custom_json_evaluator (cj_id o) with
  | None => mret tt
  | Some eval =>
      try_catch (eval o) (λ e,
        if is_fc e then when producing (mthrow FcException)
        else match e with Fault => mthrow Fault | _ => mret tt end)
  end.

(** *** Proof of work *)
Definition POW_TARGET_1 : Z := 0xffff * 2 ^ 220.
Definition POW_TARGET_2 : Z := 0x3fffc * 2 ^ 212.
Definition get_pow_target : DB Z :=
  head_num ← Db.head_block_num;
  if head_num <? 400000 then mret POW_TARGET_1
  else if head_num <? 907200 then mret POW_TARGET_2
  else dgp ← Db.get_dynamic_global_properties; mret (dgp_mining_target dgp).
Definition get_pow_summary_target : DB Z := t ← get_pow_target; mret (approx_log_32 t).

(** [floor( amount * ( 1.0 / divisor ) )]: the divisor is a power of two, so
    the product is exact in double precision and the floor is the quotient. *)
Definition mining_reward (head_block_number : Z) : asset :=
  let halvings := (XGT_STARTING_OFFSET + head_block_number) / XGT_MINING_REWARD_HALVING_INTERVAL in
  mkAsset (amount XGT_MINING_REWARD / 2 ^ halvings) (symbol XGT_MINING_REWARD).

(** The wallet, authority and witness of a worker that has none. *)
Definition create_worker (o : pow_operation) (worker : wallet_name_type) (key : public_key_type)
    (total_pow : Z) : DB unit :=
  create_wallet worker key ;;
  create t_authority (λ auth,
    let recovery := mkAuthority 1 [] [(key, 1)] in
    mret (set_aa_social recovery (set_aa_money recovery (set_aa_recovery recovery
      (set_aa_account worker auth))))) ;;
  create t_witness (λ w,
    w ← copy_legacy_chain_properties true (pow_props o) (set_wit_owner worker w);
    mret (set_wit_pow_worker total_pow (set_wit_signing_key key w))) ;;
  mret tt.
Definition reward_worker (o : pow_operation) (worker : wallet_name_type) (total_pow : Z)
    (reward : asset) : DB unit :=
  cur_witness ← gets (Db.find_witness worker);
  match cur_witness with
  | None => mret tt
  | Some cw =>
      modify t_witness (wit_id cw) (λ w,
        w ← copy_legacy_chain_properties true (pow_props o) w;
        mret (set_wit_pow_worker total_pow w)) ;;
      Db.adjust_balance worker reward
  end.

(** What [pow] asserts of the work before it counts it. *)
Definition check_work (o : pow_operation) (dgp : dynamic_global_property_object) (input : pow_input)
    (prev : block_id_type) (pow_summary target_pow : Z) : DB unit :=
  previous_block_id ← Store.previous_block_id;
  match previous_block_id with
  | Some i => fc_assert (bool_decide (prev = i))
  | None => mret tt
  end ;;
  fc_assert (dgp_last_irreversible_block_num dgp <? Block.num_from_id (prev_block input)) ;;
  fc_assert (pow_summary <? target_pow) ;;
  fc_assert (XGT_MIN_BLOCK_SIZE_LIMIT * 2 <=? maximum_block_size (pow_props o)).

Definition pow (o : pow_operation) : DB unit :=
  head_num ← Db.head_block_num;
  if POW_IN_BLOCK_START <=? head_num then mret tt
  else
    dgp ← Db.get_dynamic_global_properties;
    target_pow ← get_pow_summary_target;
    match work o with
    | work_pow _ _ => mthrow AssertException
    | work_sha2_pow input proof prev pow_summary =>
        check_work o dgp input prev pow_summary target_pow ;;
        modify t_dgp (dgp_id dgp) (λ p,
          mret (set_dgp_num_pow_witnesses (u32 (dgp_num_pow_witnesses p + 1))
            (set_dgp_total_pow (u64 (dgp_total_pow p + 1)) p))) ;;
        dgp ← Db.get_dynamic_global_properties;
        let reward := mining_reward (dgp_head_block_number dgp) in
        let worker := worker_account input in
        w ← gets (Db.find_account worker);
        match w, new_recovery_key o with
        | Some _, _ => reward_worker o worker (dgp_total_pow dgp) reward
        | None, Some key =>
            create_worker o worker key (dgp_total_pow dgp) ;;
            reward_worker o worker (dgp_total_pow dgp) reward
        | None, None => mret tt
        end
    end.

(** *** Contracts: the contract hash is left at its default. *)
Definition contract_create (o : contract_create_operation) : DB unit :=
  create t_contract (λ c, mret (set_ct_code (cc_code o) (set_ct_owner (cc_owner o) c))) ;;
  mret tt.
Definition contract_invoke (o : contract_invoke_operation) : DB unit := mret tt.
Definition report_over_production (o : report_over_production_operation) : DB unit := mret tt.
End with_node.
End Eval.
