(* ===== verification/EvaluatorFacts.v ===== *)
(** * Facts about the evaluators

    Every evaluator of Evaluators.v leaves the undo stacks alone ([quiet]); the
    effect of transfers and of the escrow operations on the ledger. *)
From S2P Require Import Prelude Safe Chainbase Asset Protocol Block ForkDatabase ResourceDynamics Objects Database Ledger Evaluators.

(** What the database relies on of a custom JSON evaluator that a plugin
    registers: it works on the plugin's own objects and leaves the tables of
    the chain, and everything else the database keeps, as they are. *)
Class NodePromise `{Node} := {
  custom_json_frame : ∀ id f o s, custom_json_evaluator id = Some f → frame [] s (snd (f o s))
}.

Lemma custom_json_quiet `{NodePromise} id f o d0 :
  custom_json_evaluator id = Some f → preserves (λ s, quiet d0 (tbl s)) (f o).
Proof.
  intros Hf s Hq t. destruct (custom_json_frame id f o s Hf) as [Ht _].
  rewrite (Ht t ltac:(apply not_elem_of_nil)). apply Hq.
Qed.
Lemma custom_json_neutral `{NodePromise} id f o L :
  custom_json_evaluator id = Some f → preserves (neutral L) (f o).
Proof.
  intros Hf s [Hwf Hl]. pose proof (custom_json_frame id f o s Hf) as Hfr. split.
  - intros t. destruct Hfr as [Ht _]. rewrite (Ht t ltac:(apply not_elem_of_nil)). apply Hwf.
  - intros sym. rewrite <- Hl. unfold ledger. f_equal; [apply liquid_eq|apply locked_eq];
      by apply (frame_items []), not_elem_of_nil.
Qed.

Lemma copy_props_id `{Env} force p w w' :
  Eval.copy_legacy_chain_properties force p w = Ok w' →
  wit_id w' = wit_id w ∧ wit_owner w' = wit_owner w.
Proof. unfold Eval.copy_legacy_chain_properties. intros Hc. by inv_ok. Qed.

Ltac solve_witness :=
  let Hf := fresh in
  intros ? ? Hf; cbv beta in Hf; inv_ok;
  repeat match goal with
  | H : Eval.copy_legacy_chain_properties _ _ _ = Ok _ |- _ =>
      apply copy_props_id in H as [? ?]
  end; simpl in *; congruence.

Section quiet.
Context `{Env} `{Node} `{!NodePromise}.

Lemma witness_update_quiet d0 o : preserves (λ s, quiet d0 (tbl s)) (Eval.witness_update o).
Proof. unfold Eval.witness_update. walk; first [apply modify_quiet|apply create_quiet]; solve_witness. Qed.

Lemma get_hardfork_quiet d0 : preserves (λ s, quiet d0 (tbl s)) Eval.get_hardfork.
Proof. unfold Eval.get_hardfork. walk. Qed.
#[local] Hint Resolve get_hardfork_quiet : preserves.
Lemma create_wallet_quiet d0 n k : preserves (λ s, quiet d0 (tbl s)) (Eval.create_wallet n k).
Proof. unfold Eval.create_wallet. walk. Qed.
Lemma create_authority_quiet d0 n r m s0 :
  preserves (λ s, quiet d0 (tbl s)) (Eval.create_authority n r m s0).
Proof. unfold Eval.create_authority. walk. Qed.
Lemma verify_accounts_quiet d0 a :
  preserves (λ s, quiet d0 (tbl s)) (Eval.verify_authority_accounts_exist a).
Proof. unfold Eval.verify_authority_accounts_exist. walk. Qed.
Lemma update_recovery_quiet d0 w a :
  preserves (λ s, quiet d0 (tbl s)) (Eval.update_recovery_authority w a).
Proof. unfold Eval.update_recovery_authority. walk. Qed.
#[local] Hint Resolve create_wallet_quiet create_authority_quiet verify_accounts_quiet
  update_recovery_quiet : preserves.

Lemma on_some_quiet {A} d0 (o : option A) f :
  (∀ a, preserves (λ s, quiet d0 (tbl s)) (f a)) → preserves (λ s, quiet d0 (tbl s)) (Eval.on_some o f).
Proof. intros Hf. destruct o; simpl; walk. Qed.
#[local] Hint Resolve on_some_quiet : preserves.

Lemma wallet_create_quiet d0 o : preserves (λ s, quiet d0 (tbl s)) (Eval.wallet_create o).
Proof. unfold Eval.wallet_create. walk. Qed.
Lemma wallet_update_quiet d0 o : preserves (λ s, quiet d0 (tbl s)) (Eval.wallet_update o).
Proof. unfold Eval.wallet_update. walk. Qed.

Lemma touch_parent_stable x now : stable (V:=comment_object) (Eval.touch_parent x now).
Proof. intros v v' Hf. by injection Hf as <-. Qed.
#[local] Hint Extern 1 (stable _) => apply touch_parent_stable : preserves.
Lemma delete_comment_quiet d0 o : preserves (λ s, quiet d0 (tbl s)) (Eval.delete_comment o).
Proof. unfold Eval.delete_comment. walk. Qed.
Lemma comment_options_quiet d0 o : preserves (λ s, quiet d0 (tbl s)) (Eval.comment_options o).
Proof. unfold Eval.comment_options. walk. Qed.
Lemma vote_quiet d0 o : preserves (λ s, quiet d0 (tbl s)) (Eval.vote o).
Proof. unfold Eval.vote. walk. Qed.

Lemma touch_ancestors_quiet d0 n now i :
  preserves (λ s, quiet d0 (tbl s)) (Eval.touch_ancestors n now i).
Proof. revert i. induction n as [|n IH]; intros i; simpl; walk. Qed.
#[local] Hint Resolve touch_ancestors_quiet : preserves.
Lemma new_comment_id o parent now : keeps_id (V:=comment_object) (Eval.new_comment o parent now).
Proof. intros v v' Hf. unfold Eval.new_comment in Hf. inv_ok. by destruct parent; inv_ok. Qed.
Lemma edit_comment_stable o now : stable (V:=comment_object) (Eval.edit_comment o now).
Proof. intros v v' Hf. unfold Eval.edit_comment in Hf. by inv_ok. Qed.
#[local] Hint Extern 1 (stable _) => apply edit_comment_stable : preserves.
Lemma comment_quiet d0 o : preserves (λ s, quiet d0 (tbl s)) (Eval.comment o).
Proof. unfold Eval.comment. walk. apply (create_quiet t_comment), new_comment_id. Qed.

Lemma random_key_quiet d0 : preserves (λ s, quiet d0 (tbl s)) Eval.random_key.
Proof. by intros s Hs. Qed.
#[local] Hint Resolve random_key_quiet : preserves.
Lemma create_receiver_quiet d0 n : preserves (λ s, quiet d0 (tbl s)) (Eval.create_receiver n).
Proof. unfold Eval.create_receiver. walk. Qed.
#[local] Hint Resolve create_receiver_quiet : preserves.
Lemma transfer_quiet d0 o : preserves (λ s, quiet d0 (tbl s)) (Eval.transfer o).
Proof. unfold Eval.transfer. walk. Qed.
Lemma escrow_transfer_quiet d0 o : preserves (λ s, quiet d0 (tbl s)) (Eval.escrow_transfer o).
Proof. unfold Eval.escrow_transfer. walk. Qed.
Lemma escrow_approve_quiet d0 o : preserves (λ s, quiet d0 (tbl s)) (Eval.escrow_approve o).
Proof. unfold Eval.escrow_approve. walk. Qed.
Lemma escrow_dispute_quiet d0 o : preserves (λ s, quiet d0 (tbl s)) (Eval.escrow_dispute o).
Proof. unfold Eval.escrow_dispute. walk. Qed.
Lemma escrow_release_quiet d0 o : preserves (λ s, quiet d0 (tbl s)) (Eval.escrow_release o).
Proof. unfold Eval.escrow_release, Eval.release_allowed. walk. Qed.

Lemma custom_quiet d0 o : preserves (λ s, quiet d0 (tbl s)) (Eval.custom o).
Proof. unfold Eval.custom. walk. Qed.
Lemma custom_json_eval_quiet d0 o : preserves (λ s, quiet d0 (tbl s)) (Eval.custom_json o).
Proof.
  unfold Eval.custom_json. apply preserves_bind; [walk|]. intros p.
  apply preserves_bind; [walk|]. intros _. apply preserves_bind; [walk|]. intros _.
  destruct (custom_json_evaluator (cj_id o)) eqn:E; [|walk].
  apply preserves_try; [by eapply custom_json_quiet|]. walk.
Qed.

Lemma fetch_block_by_id_reads I i : preserves I (Store.fetch_block_by_id i).
Proof. unfold Store.fetch_block_by_id. walk. Qed.
#[local] Hint Resolve fetch_block_by_id_reads : preserves.
Lemma previous_block_id_reads I : preserves I Store.previous_block_id.
Proof. unfold Store.previous_block_id. walk. Qed.
#[local] Hint Resolve previous_block_id_reads : preserves.
Lemma get_pow_summary_target_reads I : preserves I Eval.get_pow_summary_target.
Proof. unfold Eval.get_pow_summary_target, Eval.get_pow_target. walk. Qed.
#[local] Hint Resolve get_pow_summary_target_reads : preserves.
Lemma pow_quiet d0 o : preserves (λ s, quiet d0 (tbl s)) (Eval.pow o).
Proof.
  unfold Eval.pow, Eval.check_work, Eval.create_worker, Eval.reward_worker.
  walk; first [apply modify_quiet|apply create_quiet]; solve_witness.
Qed.
Lemma contract_create_quiet d0 o : preserves (λ s, quiet d0 (tbl s)) (Eval.contract_create o).
Proof. unfold Eval.contract_create. walk. Qed.
End quiet.

#[export] Hint Resolve witness_update_quiet wallet_create_quiet wallet_update_quiet
  delete_comment_quiet comment_options_quiet vote_quiet comment_quiet transfer_quiet
  escrow_transfer_quiet escrow_approve_quiet escrow_dispute_quiet escrow_release_quiet
  custom_quiet custom_json_eval_quiet pow_quiet contract_create_quiet
  fetch_block_by_id_reads previous_block_id_reads get_pow_summary_target_reads
  random_key_quiet create_wallet_quiet create_authority_quiet : preserves.

(** ** Evaluators that move no asset *)
Section neutral.
Context `{Env} `{Node} `{!NodePromise}.

Lemma copy_props_neutral force p :
  stable (V:=witness_object) (Eval.copy_legacy_chain_properties force p).
Proof. intros w w' [_ Ho]%copy_props_id. simpl. by rewrite Ho. Qed.

Lemma witness_update_neutral L o : preserves (neutral L) (Eval.witness_update o).
Proof.
  unfold Eval.witness_update. walk;
    first [apply (modify_neutral t_witness)|apply (create_neutral t_witness)]; try done; solve_witness.
Qed.
Lemma get_hardfork_neutral L : preserves (neutral L) Eval.get_hardfork.
Proof. unfold Eval.get_hardfork. walk. Qed.
#[local] Hint Resolve get_hardfork_neutral : preserves.
Lemma create_wallet_neutral L n k : preserves (neutral L) (Eval.create_wallet n k).
Proof. unfold Eval.create_wallet. walk. Qed.
Lemma create_authority_neutral L n r m s0 : preserves (neutral L) (Eval.create_authority n r m s0).
Proof. unfold Eval.create_authority. walk. Qed.
Lemma verify_accounts_neutral L a : preserves (neutral L) (Eval.verify_authority_accounts_exist a).
Proof. unfold Eval.verify_authority_accounts_exist. walk. Qed.
Lemma update_recovery_neutral L w a : preserves (neutral L) (Eval.update_recovery_authority w a).
Proof. unfold Eval.update_recovery_authority. walk. Qed.
#[local] Hint Resolve create_wallet_neutral create_authority_neutral verify_accounts_neutral
  update_recovery_neutral : preserves.
Lemma on_some_neutral {A} L (o : option A) f :
  (∀ a, preserves (neutral L) (f a)) → preserves (neutral L) (Eval.on_some o f).
Proof. intros Hf. destruct o; simpl; walk. Qed.
#[local] Hint Resolve on_some_neutral : preserves.
Lemma wallet_create_neutral L o : preserves (neutral L) (Eval.wallet_create o).
Proof. unfold Eval.wallet_create. walk. Qed.
Lemma wallet_update_neutral L o : preserves (neutral L) (Eval.wallet_update o).
Proof. unfold Eval.wallet_update. walk. Qed.

#[local] Hint Extern 1 (stable _) => apply touch_parent_stable : preserves.
#[local] Hint Extern 1 (stable _) => apply edit_comment_stable : preserves.
#[local] Hint Extern 1 (∀ _ _, _ → ∀ _, held t_comment _ _ = _) => done : preserves.
Lemma delete_comment_neutral L o : preserves (neutral L) (Eval.delete_comment o).
Proof. unfold Eval.delete_comment. walk. Qed.
Lemma comment_options_neutral L o : preserves (neutral L) (Eval.comment_options o).
Proof. unfold Eval.comment_options. walk. Qed.
Lemma vote_neutral L o : preserves (neutral L) (Eval.vote o).
Proof. unfold Eval.vote. walk. Qed.
Lemma touch_ancestors_neutral L n now i : preserves (neutral L) (Eval.touch_ancestors n now i).
Proof. revert i. induction n as [|n IH]; intros i; simpl; walk. Qed.
#[local] Hint Resolve touch_ancestors_neutral : preserves.
Lemma comment_neutral L o : preserves (neutral L) (Eval.comment o).
Proof. unfold Eval.comment. walk. apply (create_neutral t_comment); [apply new_comment_id|done]. Qed.
Lemma random_key_neutral L : preserves (neutral L) Eval.random_key.
Proof. by intros s Hs. Qed.
#[local] Hint Resolve random_key_neutral : preserves.
Lemma create_receiver_neutral L n : preserves (neutral L) (Eval.create_receiver n).
Proof. unfold Eval.create_receiver. walk. Qed.
Lemma custom_neutral L o : preserves (neutral L) (Eval.custom o).
Proof. unfold Eval.custom. walk. Qed.
Lemma custom_json_eval_neutral L o : preserves (neutral L) (Eval.custom_json o).
Proof.
  unfold Eval.custom_json. apply preserves_bind; [walk|]. intros p.
  apply preserves_bind; [walk|]. intros _. apply preserves_bind; [walk|]. intros _.
  destruct (custom_json_evaluator (cj_id o)) eqn:E; [|walk].
  apply preserves_try; [by eapply custom_json_neutral|]. walk.
Qed.
Lemma contract_create_neutral L o : preserves (neutral L) (Eval.contract_create o).
Proof. unfold Eval.contract_create. walk. Qed.
Lemma check_work_reads I o p i b x y : preserves I (Eval.check_work o p i b x y).
Proof. unfold Eval.check_work. walk. Qed.
Lemma create_worker_neutral L o w k n : preserves (neutral L) (Eval.create_worker o w k n).
Proof.
  unfold Eval.create_worker. walk.
Qed.
Lemma escrow_dispute_neutral L o : preserves (neutral L) (Eval.escrow_dispute o).
Proof. unfold Eval.escrow_dispute. walk. Qed.
End neutral.
#[export] Hint Resolve witness_update_neutral wallet_create_neutral wallet_update_neutral
  delete_comment_neutral comment_options_neutral vote_neutral comment_neutral random_key_neutral
  custom_neutral custom_json_eval_neutral contract_create_neutral escrow_dispute_neutral
  create_wallet_neutral create_authority_neutral create_receiver_neutral
  check_work_reads create_worker_neutral : preserves.

(** ** Transfers and escrows *)
Section money.
Context `{Env} `{Node} `{!NodePromise}.

Lemma transfer_moves o : moves (Eval.transfer o) (λ _, 0).
Proof.
  unfold Eval.transfer.
  apply (moves_ext _ (λ sym, 0 + (0 + (- amount_in sym (tr_amount o) + amount_in sym (tr_amount o)))));
    [intros; lia|].
  apply moves_bind; [apply neutral_moves; intros; walk|]. intros w.
  apply moves_bind; [apply neutral_moves; intros; walk|]. intros _.
  apply moves_lift. intros n Hn. apply moves_bind.
  - eapply moves_ext, adjust_balance_moves. intros sym. by apply amount_in_neg.
  - intros _. apply adjust_balance_moves.
Qed.

(** A step without effect on the ledger. *)
Definition keeps_ledger (s s' : database) : Prop :=
  wf_tables (tbl s') ∧ ∀ sym, ledger sym s' = ledger sym s.
Lemma keeps_ledger_run {A} (m : DB A) s r s' : (∀ L, preserves (neutral L) m) →
  wf_tables (tbl s) → m s = (r, s') → keeps_ledger s s'.
Proof.
  intros Hm Hwf Hr. destruct (Hm (λ sym, ledger sym s) s) as [Hw Hl]; [done|].
  rewrite Hr in Hw, Hl. done.
Qed.
Lemma keeps_ledger_trans s s1 s2 : keeps_ledger s s1 → keeps_ledger s1 s2 → keeps_ledger s s2.
Proof. intros [_ Hl] [? Hl2]. split; [done|]. intros sym. by rewrite Hl2, Hl. Qed.

Lemma reward_worker_moves o w n r s u s' : wf_tables (tbl s) →
  Eval.reward_worker o w n r s = (Ok u, s') →
  wf_tables (tbl s') ∧ ((∀ sym, ledger sym s' = ledger sym s) ∨
    ∀ sym, ledger sym s' = ledger sym s + amount_in sym r).
Proof.
  intros Hwf Hr. unfold Eval.reward_worker in Hr. inv_db.
  destruct (Db.find_witness w s) as [cw|]; inv_db; [|auto].
  match goal with H : modify _ _ _ _ = _ |- _ =>
    apply modify_ledger in H as (v & v' & _ & _ & _ & _ & Hwf1 & Hl1); [|done|] end.
  - match goal with H : Db.adjust_balance _ _ _ = _ |- _ =>
      apply adjust_balance_moves in H as [Hwf2 Hl2]; [|done] end.
    split; [done|]. right. intros sym. rewrite Hl2, Hl1. cbn [held]. lia.
  - solve_witness.
Qed.

Lemma pow_moves o s u s' : wf_tables (tbl s) → Eval.pow o s = (Ok u, s') →
  wf_tables (tbl s') ∧ ((∀ sym, ledger sym s' = ledger sym s) ∨
  ∃ p, Db.dgp s = Some p ∧ dgp_head_block_number p < POW_IN_BLOCK_START ∧
    ∀ sym, ledger sym s' = ledger sym s + amount_in sym (Eval.mining_reward (dgp_head_block_number p))).
Proof.
  intros Hwf Hr. unfold Eval.pow in Hr. inv_db.
  match goal with H : Db.dgp s = Some ?x |- _ => rename x into p; rename H into Hp end.
  destruct (POW_IN_BLOCK_START <=? dgp_head_block_number p) eqn:Hlt; inv_db; [auto|].
  match goal with H : Db.dgp s = Some ?x |- _ => replace x with p in * by congruence; clear x H end.
  match goal with H : Eval.get_pow_summary_target _ = _ |- _ =>
    apply reads_run in H as ->; [|apply get_pow_summary_target_reads] end.
  destruct (work o) as [|input proof prev summary]; inv_db.
  match goal with H : Eval.check_work _ _ _ _ _ _ _ = _ |- _ =>
    apply reads_run in H as ->; [|intros; apply check_work_reads] end.
  match goal with H : modify _ _ _ _ = (_, ?s1) |- _ =>
    apply modify_ledger in H as (v & v' & Hv & [= <-] & Hi & _ & Hwf1 & Hl1);
    [|done|solve_modifier]; assert (Hk : keeps_ledger s s1) end.
  { split; [done|]. intros sym. rewrite Hl1. cbn [held]. lia. }
  match goal with H : Db.dgp ?s1 = Some ?x |- _ =>
    assert (Hh : dgp_head_block_number x = dgp_head_block_number p) end.
  { pose proof (items_id t_dgp s 0 p Hwf Hp) as Hid. simpl in Hid. rewrite Hid in Hv, Hi.
    unfold Db.dgp in *. pose proof (items_inj t_dgp _ _ _ _ Hv Hp) as ->.
    match goal with H : items t_dgp _ !! 0 = Some ?x |- dgp_head_block_number ?x = _ =>
      rewrite Hi, lookup_insert_eq in H; by injection H as <- end. }
  rewrite Hh in *.
  assert (Hfin : ∀ s1 n u s', keeps_ledger s s1 →
    Eval.reward_worker o (worker_account input) n (Eval.mining_reward (dgp_head_block_number p)) s1 =
      (Ok u, s') → wf_tables (tbl s') ∧ ((∀ sym, ledger sym s' = ledger sym s) ∨
    ∃ p, Db.dgp s = Some p ∧ dgp_head_block_number p < POW_IN_BLOCK_START ∧
    ∀ sym, ledger sym s' = ledger sym s + amount_in sym (Eval.mining_reward (dgp_head_block_number p)))).
  { intros s1 n u1 s2 [Hw Hl] [Hw' Hr]%reward_worker_moves; [|done]. split; [done|].
    destruct Hr as [Hr|Hr]; [left; intros sym; by rewrite Hr|right].
    exists p. split_and!; [done|by apply Z.leb_gt|]. intros sym. by rewrite Hr, Hl. }
  destruct (Db.find_account (worker_account input) _); [by eapply Hfin|].
  destruct (new_recovery_key o) as [key|]; inv_db; [|by destruct Hk; auto].
  match goal with H : Eval.create_worker _ _ _ _ _ = _ |- _ =>
    eapply keeps_ledger_run in H; [|intros; apply create_worker_neutral|done] end.
  eapply Hfin; [|eassumption]. by eapply keeps_ledger_trans.
Qed.

(** The escrow found under its key is stored under its id. *)
Lemma found_escrow from i s e : wf_tables (tbl s) → Db.find_escrow from i s = Some e →
  items t_escrow s !! esc_id e = Some e ∧ esc_from e = from ∧ esc_escrow_id e = i.
Proof.
  intros Hwf Hf. destruct (find_by_key_items t_escrow _ _ _ Hwf Hf) as [Hi Hk].
  apply list_elem_of_singleton in Hk. injection Hk as <- <-. done.
Qed.

Lemma adjust_balance_escrows name delta s u s' : wf_tables (tbl s) →
  Db.adjust_balance name delta s = (Ok u, s') → items t_escrow s' = items t_escrow s.
Proof. intros Hwf [_ [_ Hs]]%adjust_balance_effect; [|done]. unfold items. by rewrite Hs. Qed.

Lemma escrow_transfer_moves o : Validate.escrow_transfer o = Ok tt →
  moves (Eval.escrow_transfer o) (λ _, 0).
Proof.
  intros Hv. assert (Hfee : (symbol (et_fee o) =? XGT_SYMBOL) = true).
  { unfold Validate.escrow_transfer in Hv. by inv_ok. }
  unfold Eval.escrow_transfer. rewrite Hfee. apply moves_capture.
  do 6 (apply moves_after; [intros; walk|]; intros ?).
  apply moves_lift. intros spent Ha. apply moves_lift. intros n Hn.
  apply (moves_ext _ (λ sym, amount_in sym n + amount_in sym spent)).
  { intros sym. rewrite (amount_in_neg sym _ _ Hn). lia. }
  apply moves_bind; [apply adjust_balance_of_moves|]. intros _.
  apply moves_before; [|walk]. apply (create_moves t_escrow); [solve_modifier|].
  intros i v [= <-] sym. cbn [held]. unfold held_in_escrow. simpl.
  by rewrite (amount_in_add sym _ _ _ Ha).
Qed.

(** One party's approval: a flag of the escrow may change, no amount does. *)
Definition same_amounts (e e' : escrow_object) : Prop :=
  esc_xgt_balance e' = esc_xgt_balance e ∧ esc_pending_fee e' = esc_pending_fee e.

Lemma approval_step (b c d : bool) i (f : escrow_object → escrow_object) s u s' e :
  (∀ x, esc_from (f x) = esc_from x ∧ esc_escrow_id (f x) = esc_escrow_id x ∧ same_amounts x (f x)) →
  wf_tables (tbl s) → items t_escrow s !! i = Some e →
  when (M:=DB) b (fc_assert c ;; when d (modify t_escrow i (λ x, mret (f x)))) s = (Ok u, s') →
  wf_tables (tbl s') ∧ (∀ sym, ledger sym s' = ledger sym s) ∧
  ∃ e', items t_escrow s' = <[i := e']> (items t_escrow s) ∧ same_amounts e e'.
Proof.
  intros Hf Hwf He Hr. apply when_ok in Hr as [[_ Hr]|[_ ->]].
  2:{ split_and!; [done..|]. exists e. by rewrite (insert_id _ _ _ He). }
  inv_ok. match goal with H : when d _ _ = _ |- _ => apply when_ok in H as [[_ H]|[_ ->]] end.
  2:{ split_and!; [done..|]. exists e. by rewrite (insert_id _ _ _ He). }
  match goal with H : modify _ _ _ _ = _ |- _ =>
    apply modify_ledger in H as (v & v' & Hv & [= <-] & Hi & _ & Hwf' & Hl) end; [|done|].
  2:{ intros y y' [= <-]. destruct (Hf y) as (E1 & E2 & _). simpl. by rewrite E1, E2. }
  pose proof (items_inj t_escrow _ _ _ _ Hv He) as ->. destruct (Hf e) as (_ & _ & Hs).
  split_and!; [done| |].
  - intros sym. rewrite Hl. destruct Hs as [E1 E2]. cbn [held]. unfold held_in_escrow.
    rewrite E1, E2. lia.
  - exists (f e). done.
Qed.

Lemma held_escrow_same sym e e' : same_amounts e e' → held t_escrow sym e' = held t_escrow sym e.
Proof. intros [E1 E2]. cbn [held]. unfold held_in_escrow. by rewrite E1, E2. Qed.

(** Replace a successful balance adjustment by what it does. *)
Ltac adjusted :=
  match goal with
  | H : Db.adjust_balance ?n ?d ?s = (Ok ?u, ?s'), Hw : wf_tables (tbl ?s) |- _ =>
      pose proof (adjust_balance_escrows n d s u s' Hw H);
      apply (adjust_balance_moves n d s u s' Hw) in H as [? ?]
  end.
(** Look an escrow up in an earlier state whose escrows are the same. *)
Ltac same_escrows :=
  repeat match goal with
  | H : items t_escrow ?s = items t_escrow _ |- context [items t_escrow ?s] => rewrite H
  end; eassumption.
(** Collect the ledger equations of a run. *)
Ltac ledgers sym :=
  repeat match goal with H : ∀ sym, ledger sym _ = _ |- _ => specialize (H sym) end.

(** An escrow holds XGT only, and pays its fee once both parties approved. *)
Record escrow_ok (e : escrow_object) : Prop := {
  fee_paid : is_approved e = true → amount (esc_pending_fee e) = 0;
  balance_xgt : symbol (esc_xgt_balance e) = XGT_SYMBOL;
  fee_xgt : symbol (esc_pending_fee e) = XGT_SYMBOL
}.
Definition escrows_ok (s : database) : Prop := map_Forall (λ _, escrow_ok) (items t_escrow s).

Lemma asset_sub_symbol a b c : Asset.sub a b = Ok c → symbol c = symbol a.
Proof. unfold Asset.sub. intros Hs. by inv_ok. Qed.
Lemma amount_in_none sym a : amount a = 0 → amount_in sym a = 0.
Proof. unfold amount_in. by case_match. Qed.

Lemma escrows_ok_insert s s' i e : escrows_ok s → escrow_ok e →
  items t_escrow s' = <[i := e]> (items t_escrow s) → escrows_ok s'.
Proof. unfold escrows_ok. intros Hp He ->. by apply map_Forall_insert_2. Qed.
Lemma escrows_ok_replace s s' i e e' : escrows_ok s → escrow_ok e →
  items t_escrow s' = <[i := e]> (<[i := e']> (items t_escrow s)) → escrows_ok s'.
Proof. unfold escrows_ok. intros Hp He ->. rewrite insert_insert_eq. by apply map_Forall_insert_2. Qed.
Lemma escrows_ok_delete s s' i : escrows_ok s →
  items t_escrow s' = delete i (items t_escrow s) → escrows_ok s'.
Proof. unfold escrows_ok. intros Hp ->. by apply map_Forall_delete. Qed.
Lemma escrows_ok_same s s' : items t_escrow s' = items t_escrow s → escrows_ok s → escrows_ok s'.
Proof. unfold escrows_ok. by intros ->. Qed.

(** The two approvals together: one escrow is replaced, its amounts are kept. *)
Lemma approvals_step o esc s u1 s1 u2 s2 : wf_tables (tbl s) →
  items t_escrow s !! esc_id esc = Some esc →
  when (M:=DB) (bool_decide (ea_who o = ea_to o))
    (fc_assert (negb (esc_to_approved esc)) ;; when (negb (negb (ea_approve o)))
       (modify t_escrow (esc_id esc) (λ x, mret (set_esc_to_approved true x)))) s = (Ok u1, s1) →
  when (M:=DB) (bool_decide (ea_who o = ea_agent o))
    (fc_assert (negb (esc_agent_approved esc)) ;; when (negb (negb (ea_approve o)))
       (modify t_escrow (esc_id esc) (λ x, mret (set_esc_agent_approved true x)))) s1 = (Ok u2, s2) →
  wf_tables (tbl s2) ∧ (∀ sym, ledger sym s2 = ledger sym s) ∧
  ∃ e, items t_escrow s2 = <[esc_id esc := e]> (items t_escrow s) ∧ same_amounts esc e.
Proof.
  intros Hwf He Ha Hb.
  eapply approval_step in Ha as (Hwf1 & Hl1 & e1 & He1 & Hs1); [|done..].
  eapply (approval_step _ _ _ _ _ _ _ _ e1) in Hb as (Hwf2 & Hl2 & e2 & He2 & Hs2); [|done..|].
  2:{ rewrite He1. apply lookup_insert_eq. }
  split_and!; [done|intros sym; by rewrite Hl2, Hl1|].
  exists e2. split; [by rewrite He2, He1, insert_insert_eq|].
  destruct Hs1, Hs2; split; congruence.
Qed.

Lemma escrow_approve_moves o s u s' : wf_tables (tbl s) → escrows_ok s →
  Eval.escrow_approve o s = (Ok u, s') →
  wf_tables (tbl s') ∧ escrows_ok s' ∧ ∀ sym, ledger sym s' = ledger sym s.
Proof.
  intros Hwf Hpaid Hr. apply capture_ok in Hr. cbv zeta in Hr. inv_db.
  match goal with He : Db.find_escrow _ _ _ = Some ?e |- _ =>
    apply found_escrow in He as (Hesc & _ & _); [|done]; rename e into esc end.
  pose proof (map_Forall_lookup_1 _ _ _ _ Hpaid Hesc) as Hok.
  match goal with Ha : when (bool_decide (ea_who o = ea_to o)) _ _ = _,
    Hb : when (bool_decide (ea_who o = ea_agent o)) _ _ = _ |- _ =>
    destruct (approvals_step o esc s _ _ _ _ Hwf Hesc Ha Hb) as (Hwf2 & Hl2 & e2 & He2 & Hs2);
    clear Ha Hb end.
  destruct (negb (ea_approve o)); inv_db.
  - adjusted. adjusted.
    match goal with H : remove _ _ _ = _ |- _ =>
      apply remove_ledger in H as (v & Hv & Hi & _ & Hwf' & Hl'); [|done] end.
    repeat match goal with H : items t_escrow ?x = items t_escrow _ |- _ => rewrite H in Hi, Hv; clear H end.
    rewrite He2, lookup_insert_eq in Hv. injection Hv as <-. split_and!; [done| |].
    + eapply (escrows_ok_delete s); [done|]. rewrite Hi, He2. apply delete_insert_eq.
    + intros sym. ledgers sym. rewrite (held_escrow_same sym _ _ Hs2) in Hl'.
      cbn [held] in Hl'. unfold held_in_escrow in Hl'. lia.
  - match goal with H : items t_escrow _ !! _ = Some ?e |- _ =>
      rewrite He2, lookup_insert_eq in H; injection H as <- end.
    match goal with H : when (is_approved e2) _ _ = _ |- _ => apply when_ok in H as [[_ H]|[Hna ->]] end.
    2:{ split_and!; [done| |done]. eapply escrows_ok_insert; [done| |done].
        destruct Hok, Hs2 as [E1 E2]. split; [congruence|by rewrite E1|by rewrite E2]. }
    inv_db. adjusted.
    match goal with H : modify _ _ _ _ = _ |- _ =>
      apply modify_ledger in H as (v & v' & Hv & [= <-] & Hi & _ & Hwf' & Hl');
      [|assumption|solve_modifier] end.
    match goal with H : items t_escrow ?x = items t_escrow _ |- _ => rewrite H, He2 in Hi, Hv end.
    rewrite lookup_insert_eq in Hv. injection Hv as <-. split_and!; [done| |].
    + eapply escrows_ok_replace; [done| |done].
      destruct Hok, Hs2 as [E1 E2]. by split; simpl; rewrite ?E1, ?E2.
    + intros sym. ledgers sym. cbn [held] in Hl'. unfold held_in_escrow in Hl'.
      simpl in Hl'. rewrite amount_in_zero in Hl'. lia.
Qed.

Lemma release_allowed_reads o e now s u s' :
  Eval.release_allowed o e now s = (Ok u, s') → s' = s.
Proof. unfold Eval.release_allowed, when. intros Hr. repeat (case_match || inv_db); done. Qed.

Lemma escrow_release_moves o s u s' : wf_tables (tbl s) → escrows_ok s →
  Eval.escrow_release o s = (Ok u, s') →
  wf_tables (tbl s') ∧ escrows_ok s' ∧ ∀ sym, ledger sym s' = ledger sym s.
Proof.
  intros Hwf Hpaid Hr. apply capture_ok in Hr. inv_db.
  match goal with H : Eval.release_allowed _ _ _ _ = _ |- _ => apply release_allowed_reads in H as -> end.
  match goal with He : Db.find_escrow _ _ _ = Some ?e |- _ =>
    apply found_escrow in He as (Hesc & _ & _); [|done]; rename e into esc end.
  pose proof (map_Forall_lookup_1 _ _ _ _ Hpaid Hesc) as Hok. adjusted.
  match goal with H : modify _ _ _ _ = _ |- _ =>
    apply modify_ledger in H as (v & v' & Hv & Hf & Hi & _ & Hwf2 & Hl2);
    [|assumption|solve_modifier] end.
  assert (v = esc) as -> by (eapply (items_inj t_escrow); [exact Hv|]; same_escrows).
  inv_ok. match goal with H : Asset.sub _ _ = Ok _ |- _ => rename H into Hsub end.
  match goal with H : items t_escrow _ = items t_escrow s |- _ => rename H into Hsame end.
  match goal with H : items t_escrow _ !! _ = Some ?e |- _ =>
    rewrite Hi, lookup_insert_eq in H; injection H as <- end.
  match goal with H : when _ (remove _ _) ?s2 = _ |- _ =>
    assert (Hsum : ∀ sym, ledger sym s2 = ledger sym s); [intros sym; ledgers sym|];
    [|assert (Hp2 : escrows_ok s2)] end.
  - cbn [held] in Hl2. unfold held_in_escrow in Hl2. simpl in Hl2.
    rewrite (amount_in_sub sym _ _ _ Hsub) in Hl2. lia.
  - rewrite Hsame in Hi. apply (escrows_ok_insert s _ _ _ Hpaid) in Hi; [done|]. destruct Hok. split; [done| |done].
    simpl. by rewrite (asset_sub_symbol _ _ _ Hsub).
  - match goal with H : when _ (remove _ _) _ = _ |- _ => apply when_ok in H as [[Hz H]|[_ ->]] end;
      [|done].
    match goal with H : remove _ _ _ = _ |- _ =>
      apply remove_ledger in H as (v & Hv' & Hd & _ & Hwf' & Hl'); [|done] end.
    rewrite Hi, lookup_insert_eq in Hv'. injection Hv' as <-.
    split_and!; [done|by eapply escrows_ok_delete|]. intros sym. rewrite Hl', Hsum.
    cbn [held]. unfold held_in_escrow. simpl in *. bool_hyps.
    rewrite !amount_in_none; [lia|by apply Hok|done].
Qed.
End money.
