(* ===== verification/Xtt.v ===== *)
(** * User-issued tokens

    libraries/chain/xtt_evaluator.cpp and required_action_evaluator.cpp: the
    operations that set a token up and contribute to its ICO, and the
    automated actions that move it from phase to phase;
    libraries/chain/util/xtt_token.cpp and xtt_objects/nai_pool.cpp: token and
    tier lookups and the pool of free numerical asset identifiers;
    util/nai_generator.hpp: the generator that refills the pool. *)
From S2P Require Import Prelude Safe Chainbase Asset Protocol Block ForkDatabase Objects Database Ledger Evaluators EvaluatorFacts.

Definition XTT_MAX_ICO_TIERS : nat := 10.
Definition NAI_GENERATION_SEED_BLOCK_ID_HASH_INDEX : nat := 4.

(** ** The generator of identifiers: FNV-1a of the seed's four bytes *)
Module NaiGenerator.
Definition prime : Z := 0x01000193.
Definition offset_basis : Z := 0x811C9DC5.
Definition hash_byte (byte hash : Z) : Z := u32 (Z.lxor byte hash * prime).
Definition hash (four_bytes : Z) : Z :=
  let h := hash_byte (Block.byte_at four_bytes 0) offset_basis in
  let h := hash_byte (Block.byte_at four_bytes 8) h in
  let h := hash_byte (Block.byte_at four_bytes 16) h in
  hash_byte (Block.byte_at four_bytes 24) h.
Definition generate (seed : Z) : result asset_symbol_type :=
  let nai := hash seed mod (XTT_MAX_NAI + 1 - XTT_MIN_NON_RESERVED_NAI) + XTT_MIN_NON_RESERVED_NAI in
  let nai := Z.land nai (u32 (Z.lnot 1)) in
  check_digit ← AssetSymbol.damm_checksum_8digit nai;
  AssetSymbol.asset_num_from_nai (u32 (nai * 10 + check_digit)) 0.
End NaiGenerator.

Module Xtt.
Definition get_stripped_precision_xtt_num (s : asset_symbol_type) : asset_symbol_type :=
  Z.land s (u32 (Z.lnot XTT_ASSET_NUM_PRECISION_MASK)).

(** The object with the least key: the first one of an ordered index. *)
Definition least {A} (key : A → Z) (l : list A) : option A :=
  foldr (λ a acc, match acc with
                  | Some b => if key a <=? key b then Some a else Some b
                  | None => Some a
                  end) None l.

(** ** util/xtt_token.cpp *)
Definition tokens (s : database) : list xtt_token_object := (map_to_list (items t_token s)).*2.
Definition find_token_nai (nai : Z) (s : database) : result (option xtt_token_object) :=
  lower ← AssetSymbol.from_nai nai 0;
  match least tok_liquid_symbol (filter (λ x, lower ≤ tok_liquid_symbol x) (tokens s)) with
  | None => mret None
  | Some x => n ← AssetSymbol.to_nai (tok_liquid_symbol x);
              mret (if n =? nai then Some x else None)
  end.
Definition find_token (sym : asset_symbol_type) (precision_agnostic : bool) :
    DB (option xtt_token_object) :=
  if precision_agnostic then
    nai ← lift (AssetSymbol.to_nai sym);
    r ← gets (find_token_nai nai);
    lift r
  else gets (find_by_key t_token sym).

Definition tiers (sym : asset_symbol_type) (s : database) : list xtt_ico_tier_object :=
  filter (λ x, tier_symbol x = sym) (map_to_list (items t_tier s)).*2.
(** The last tier of a symbol in the order of the caps. *)
Definition xgt_units_hard_cap (sym : asset_symbol_type) (s : database) : option Z :=
  tier_xgt_units_cap <$> least (λ x, - tier_xgt_units_cap x) (tiers sym s).
Definition ico_tier_size (sym : asset_symbol_type) (s : database) : nat := length (tiers sym s).

(** ** The pool of identifiers *)
Definition get_nai_pool : DB nai_pool_object := get_or OutOfRange (λ s, items t_nai_pool s !! 0).

(** [std::find] over the first [n] slots: a position, [n] when there is none. *)
Fixpoint find_slot (a : asset_symbol_type) (n : nat) (nais : list asset_symbol_type) : nat :=
  match n, nais with
  | S n, x :: nais => if x =? a then O else S (find_slot a n nais)
  | _, _ => O
  end.
Definition available (p : nai_pool_object) : nat := Z.to_nat (np_num_available_nais p).
Definition contains (a : asset_symbol_type) (p : nai_pool_object) : bool :=
  negb (find_slot (get_stripped_precision_xtt_num a) (available p) (np_nais p) =? available p)%nat.

(** [refill_nais]: the counters [collisions_per_block], [attempts_per_block]
    and [num_available_nais] are passed along with the array. *)
Record refill := mkRefill { rf_collisions : Z; rf_attempts : Z; rf_num : Z; rf_nais : list asset_symbol_type }.
Fixpoint refill_nais (fuel : nat) (last_block_id : block_id_type) (r : refill) : DB refill :=
  match fuel with
  | O => mthrow Fault
  | S fuel =>
      if rf_num r <? Z.of_nat XTT_MAX_NAI_POOL_COUNT then
        if Z.of_nat XTT_MAX_NAI_GENERATION_TRIES <=? rf_collisions r then mret r
        else
          next_sym ← lift (NaiGenerator.generate
            (u32 (nth NAI_GENERATION_SEED_BLOCK_ID_HASH_INDEX last_block_id 0 + rf_attempts r)));
          let attempts := u32 (rf_attempts r + 1) in
          token ← find_token next_sym true;
          if match token with None => true | Some _ => false end &&
             negb (find_slot next_sym (Z.to_nat (rf_num r)) (rf_nais r) =? XTT_MAX_NAI_POOL_COUNT)%nat
          then
            refill_nais fuel last_block_id
              (mkRefill (rf_collisions r) attempts (u8 (rf_num r + 1))
                 (<[Z.to_nat (rf_num r) := next_sym]> (rf_nais r)))
          else
            refill_nais fuel last_block_id
              (mkRefill (u32 (rf_collisions r + 1)) attempts (rf_num r) (rf_nais r))
      else mret r
  end.
Definition refill_fuel : nat := XTT_MAX_NAI_POOL_COUNT + XTT_MAX_NAI_GENERATION_TRIES + 1.

Definition replenish_nai_pool : DB unit := capture_rethrow (
  npo ← get_nai_pool;
  head ← Db.head_block_id;
  let same := bool_decide (np_last_block_id npo = head) in
  let r := mkRefill (if same then np_collisions_per_block npo else 0)
             (if same then np_attempts_per_block npo else 0) (np_num_available_nais npo) (np_nais npo) in
  when (rf_collisions r <? Z.of_nat XTT_MAX_NAI_GENERATION_TRIES)
    (r ← refill_nais refill_fuel head r;
     modify t_nai_pool (np_id npo) (λ obj,
       mret (set_np_num_available_nais (rf_num r) (set_np_nais (rf_nais r)
         (set_np_attempts_per_block (rf_attempts r) (set_np_collisions_per_block (rf_collisions r)
           (set_np_last_block_id head obj)))))))).

Definition remove_slot (index : nat) (obj : nai_pool_object) : nai_pool_object :=
  let last := Z.to_nat (np_num_available_nais obj - 1) in
  let nais := <[index := 0]> (np_nais obj) in
  let nais := <[last := nth index nais 0]> (<[index := nth last nais 0]> nais) in
  set_np_num_available_nais (u8 (np_num_available_nais obj - 1)) (set_np_nais nais obj).
Definition remove_from_nai_pool (a : asset_symbol_type) : DB unit :=
  npo ← get_nai_pool;
  let index := find_slot (get_stripped_precision_xtt_num a) (available npo) (np_nais npo) in
  when (negb (index =? available npo)%nat)
    (modify t_nai_pool (np_id npo) (λ obj, mret (remove_slot index obj))).

(** ** Required actions are queued unless a pending transaction is applied *)
Definition push_required_action (a : required_automated_action) (execution_time : time_point_sec) : DB unit :=
  now ← Db.head_block_time;
  lift (Validate.required_action a) ;;
  pending ← gets is_pending_tx;
  when (negb pending)
    (create t_pending_required (λ p,
       mret (set_pra_execution_time (Z.max execution_time now) (set_pra_action a p))) ;;
     mret tt).

(** ** Operations *)
Definition get_controlled_xtt (control_account : wallet_name_type) (sym : asset_symbol_type) :
    DB xtt_token_object :=
  x ← gets (find_by_key t_token sym);
  match x with
  | None => mthrow AssertException
  | Some x => fc_assert (bool_decide (tok_control_account x = control_account)) ;; mret x
  end.
Definition common_pre_setup_evaluation (sym : asset_symbol_type) (control_account : wallet_name_type) :
    DB xtt_token_object :=
  x ← get_controlled_xtt control_account sym;
  fc_assert (phase_num (tok_phase x) <? phase_num phase_setup_completed) ;; mret x.

(** The two cases of [xtt_create]: a fee creates the token, no fee resets it. *)
Definition charge_or_reset (o : xtt_create_operation) (token_ptr : option xtt_token_object)
    (dgpo : dynamic_global_property_object) : DB unit :=
  if 0 <? amount (xc_creation_fee o) then
    fc_assert (match token_ptr with None => true | Some _ => false end) ;;
    npo ← get_nai_pool;
    fc_assert (contains (xc_symbol o) npo) ;;
    fc_assert (Asset.eqb (xc_creation_fee o) (dgp_xtt_creation_fee dgpo)) ;;
    n ← lift (Asset.neg (xc_creation_fee o));
    Db.adjust_balance (xc_control_account o) n ;;
    Db.adjust_balance XGT_NULL_WALLET (xc_creation_fee o)
  else
    match token_ptr with
    | None => mthrow AssertException
    | Some token =>
        fc_assert (bool_decide (tok_control_account token = xc_control_account o)) ;;
        fc_assert (bool_decide (tok_phase token = phase_setup)) ;;
        remove t_token (tok_id token)
    end.
Definition xtt_create (o : xtt_create_operation) : DB unit :=
  dgpo ← Db.get_dynamic_global_properties;
  token_ptr ← find_token (xc_symbol o) true;
  charge_or_reset o token_ptr dgpo ;;
  create t_token (λ t,
    mret (set_tok_desired_ticker (xc_desired_ticker o) (set_tok_control_account (xc_control_account o)
      (set_tok_liquid_symbol (xc_symbol o) t)))) ;;
  remove_from_nai_pool (xc_symbol o) ;;
  pending ← gets is_pending_tx;
  when (negb pending) replenish_nai_pool.

Definition XTT_DESTINATION_ACCOUNT_PREFIX : string := "$!"%string.
Definition XTT_DESTINATION_VESTING_SUFFIX : string := ".vesting"%string.
Definition get_unit_target_account (unit_target : string) : result wallet_name_type :=
  fc_assert (negb (Validate.is_contributor unit_target)) ;;
  if Authority.is_valid_wallet_name unit_target then mret unit_target
  else
    let size := String.length unit_target in
    let prefix_len := String.length XTT_DESTINATION_ACCOUNT_PREFIX in
    let suffix_len := String.length XTT_DESTINATION_VESTING_SUFFIX in
    fc_assert (prefix_len + suffix_len <? size)%nat ;;
    fc_assert (String.prefix XTT_DESTINATION_ACCOUNT_PREFIX unit_target) ;;
    fc_assert (bool_decide (String.substring (size - suffix_len) suffix_len unit_target =
                            XTT_DESTINATION_VESTING_SUFFIX)) ;;
    let account := String.substring prefix_len (size - suffix_len - prefix_len) unit_target in
    fc_assert (Authority.is_valid_wallet_name account) ;;
    mret account.
Definition verify_accounts (units : list (string * Z)) : DB unit :=
  for_each units (λ u,
    when (negb (Validate.is_contributor u.1))
      (name ← lift (get_unit_target_account u.1);
       a ← gets (Db.find_account name);
       fc_assert (match a with Some _ => true | None => false end))).

Definition xtt_setup (o : xtt_setup_operation) : DB unit :=
  token ← common_pre_setup_evaluation (xs_symbol o) (xs_control_account o);
  when (0 <? xs_xgt_units_min o)
    (cap ← gets (xgt_units_hard_cap (xs_symbol o));
     match cap with
     | None => mthrow AssertException
     | Some hard_cap => fc_assert (xs_xgt_units_min o <=? hard_cap)
     end) ;;
  modify t_token (tok_id token) (λ t,
    mret (set_tok_max_supply (xs_max_supply o) (set_tok_phase phase_setup_completed t))) ;;
  create t_ico (λ i,
    mret (set_ico_max_unit_ratio (xs_max_unit_ratio o) (set_ico_min_unit_ratio (xs_min_unit_ratio o)
      (set_ico_xgt_units_min (xs_xgt_units_min o) (set_ico_launch_time (xs_launch_time o)
        (set_ico_contribution_end_time (xs_contribution_end_time o)
          (set_ico_contribution_begin_time (xs_contribution_begin_time o)
            (set_ico_symbol (tok_liquid_symbol token) i)))))))) ;;
  push_required_action (xtt_ico_launch_action (tok_control_account token) (tok_liquid_symbol token))
    (xs_contribution_begin_time o).

Definition xtt_setup_ico_tier (o : xtt_setup_ico_tier_operation) : DB unit :=
  token ← common_pre_setup_evaluation (xi_symbol o) (xi_control_account o);
  if xi_remove o then
    ito ← gets (find_by_key t_tier (tok_liquid_symbol token, xi_xgt_units_cap o));
    match ito with
    | None => mthrow AssertException
    | Some ito => remove t_tier (tier_id ito)
    end
  else
    n ← gets (ico_tier_size (xi_symbol o));
    fc_assert (n <? XTT_MAX_ICO_TIERS)%nat ;;
    verify_accounts (xgt_unit (gp_generation_unit (xi_generation_policy o))) ;;
    verify_accounts (token_unit (gp_generation_unit (xi_generation_policy o))) ;;
    create t_tier (λ ito,
      mret (set_tier_generation_unit (gp_generation_unit (xi_generation_policy o))
        (set_tier_xgt_units_cap (xi_xgt_units_cap o) (set_tier_symbol (tok_liquid_symbol token) ito)))) ;;
    mret tt.

Definition setup_parameter (p : xtt_setup_parameter) (t : xtt_token_object) : xtt_token_object :=
  match p with xtt_param_allow_voting v => set_tok_allow_voting v t end.
Definition xtt_set_setup_parameters (o : xtt_set_setup_parameters_operation) : DB unit :=
  token ← common_pre_setup_evaluation (xp_symbol o) (xp_control_account o);
  modify t_token (tok_id token) (λ t,
    mret (fold_left (λ t p, setup_parameter p t) (xp_setup_parameters o) t)).

Definition runtime_parameter (p : xtt_runtime_parameter) (t : xtt_token_object) : xtt_token_object :=
  match p with
  | xtt_param_windows_v1 w => set_tok_reverse_auction_window_seconds w t
  | xtt_param_vote_regeneration_period_seconds_v1 period votes =>
      set_tok_votes_per_regeneration_period votes (set_tok_vote_regeneration_period_seconds period t)
  | xtt_param_allow_downvotes v => set_tok_allow_downvotes v t
  end.
Definition xtt_set_runtime_parameters (o : xtt_set_runtime_parameters_operation) : DB unit :=
  token ← common_pre_setup_evaluation (xr_symbol o) (xr_control_account o);
  modify t_token (tok_id token) (λ t,
    mret (fold_left (λ t p, runtime_parameter p t) (xr_runtime_parameters o) t)).

Definition xtt_contribute (o : xtt_contribute_operation) : DB unit := capture_rethrow (
  found ← find_token (xo_symbol o) false;
  match found with
  | None => mthrow AssertException
  | Some token =>
      fc_assert (phase_num phase_ico <=? phase_num (tok_phase token)) ;;
      fc_assert (phase_num (tok_phase token) <? phase_num phase_ico_completed) ;;
      cap ← gets (xgt_units_hard_cap (xo_symbol o));
      ico ← gets (find_by_key t_ico (tok_liquid_symbol token));
      match cap, ico with
      | Some hard_cap, Some token_ico =>
          fc_assert (amount (ico_contributed token_ico) <? hard_cap) ;;
          total ← lift (Safe.add (amount (ico_contributed token_ico)) (amount (xo_contribution o)));
          fc_assert (total <=? hard_cap) ;;
          c ← gets (find_by_key t_contribution
                (symbol (xo_contribution o), xo_contributor o, xo_contribution_id o));
          fc_assert (match c with None => true | Some _ => false end) ;;
          n ← lift (Asset.neg (xo_contribution o));
          Db.adjust_balance (xo_contributor o) n ;;
          create t_contribution (λ obj,
            mret (set_xcb_contribution (xo_contribution o) (set_xcb_contribution_id (xo_contribution_id o)
              (set_xcb_symbol (xo_symbol o) (set_xcb_contributor (xo_contributor o) obj))))) ;;
          modify t_ico (ico_id token_ico) (λ ico,
            c ← Asset.add (ico_contributed ico) (xo_contribution o); mret (set_ico_contributed c ico))
      | _, _ => mthrow AssertException
      end
  end).

(** ** Automated actions *)
Definition get_token (sym : asset_symbol_type) : DB xtt_token_object :=
  get_or OutOfRange (find_by_key t_token sym).
Definition get_ico (sym : asset_symbol_type) : DB xtt_ico_object :=
  get_or OutOfRange (find_by_key t_ico sym).
Definition set_phase (p : xtt_phase) (token : xtt_token_object) : DB unit :=
  modify t_token (tok_id token) (λ t, mret (set_tok_phase p t)).

Definition ico_launch (sym : asset_symbol_type) : DB unit :=
  token ← get_token sym;
  ico ← get_ico (tok_liquid_symbol token);
  set_phase phase_ico token ;;
  push_required_action (xtt_ico_evaluation_action (tok_control_account token) (tok_liquid_symbol token))
    (ico_contribution_end_time ico).
Definition ico_evaluation (sym : asset_symbol_type) : DB unit :=
  token ← get_token sym;
  ico ← get_ico (tok_liquid_symbol token);
  if ico_xgt_units_min ico <=? amount (ico_contributed ico) then
    set_phase phase_ico_completed token ;;
    push_required_action (xtt_token_launch_action (tok_control_account token) (tok_liquid_symbol token))
      (ico_launch_time ico)
  else set_phase phase_launch_failed token.
Definition token_launch (sym : asset_symbol_type) : DB unit :=
  token ← get_token sym; set_phase phase_launch_success token.

Definition apply_required_action (a : required_automated_action) : DB unit :=
  match a with
  | xtt_ico_launch_action _ sym => ico_launch sym
  | xtt_ico_evaluation_action _ sym => ico_evaluation sym
  | xtt_token_launch_action _ sym => token_launch sym
  | xtt_refund_action _ _ _ _ => mret tt
  | example_required_action _ => mret tt
  end.
Definition apply_optional_action (a : optional_automated_action) : DB unit := mret tt.
End Xtt.

(** ** Facts: the evaluators are quiet *)
Section quiet.
Context (d0 : tables).
Abbreviation Q := (λ s, quiet d0 (tbl s)).

Lemma find_token_reads I sym b : preserves I (Xtt.find_token sym b).
Proof. unfold Xtt.find_token. walk. Qed.
Lemma get_nai_pool_reads I : preserves I Xtt.get_nai_pool.
Proof. apply preserves_get_or. Qed.
#[local] Hint Resolve find_token_reads get_nai_pool_reads : preserves.

Lemma refill_nais_reads I n i r : preserves I (Xtt.refill_nais n i r).
Proof. revert r. induction n as [|n IH]; intros r; simpl; walk. Qed.
#[local] Hint Resolve refill_nais_reads : preserves.
Lemma replenish_quiet : preserves Q Xtt.replenish_nai_pool.
Proof. unfold Xtt.replenish_nai_pool. walk. Qed.
Lemma remove_from_pool_quiet a : preserves Q (Xtt.remove_from_nai_pool a).
Proof. unfold Xtt.remove_from_nai_pool. walk. Qed.
Lemma push_required_quiet a t : preserves Q (Xtt.push_required_action a t).
Proof. unfold Xtt.push_required_action. walk. Qed.
#[local] Hint Resolve replenish_quiet remove_from_pool_quiet push_required_quiet : preserves.
Lemma pre_setup_reads I sym c : preserves I (Xtt.common_pre_setup_evaluation sym c).
Proof. unfold Xtt.common_pre_setup_evaluation, Xtt.get_controlled_xtt. walk. Qed.
Lemma verify_accounts_reads I u : preserves I (Xtt.verify_accounts u).
Proof. unfold Xtt.verify_accounts. walk. Qed.
#[local] Hint Resolve pre_setup_reads verify_accounts_reads : preserves.

(** The parameters of a token are outside its keys and its supply. *)
Definition same_token (t t' : xtt_token_object) : Prop :=
  tok_id t' = tok_id t ∧ tok_liquid_symbol t' = tok_liquid_symbol t ∧
  tok_current_supply t' = tok_current_supply t.
Lemma fold_same_token {P} (f : P → xtt_token_object → xtt_token_object) l t :
  (∀ p t, same_token t (f p t)) → same_token t (fold_left (λ t p, f p t) l t).
Proof.
  intros Hf. revert t. induction l as [|p l IH]; intros t; [done|]. simpl.
  destruct (IH (f p t)) as (E1 & E2 & E3), (Hf p t) as (F1 & F2 & F3).
  repeat split; congruence.
Qed.
Lemma setup_parameters_same l t : same_token t (fold_left (λ t p, Xtt.setup_parameter p t) l t).
Proof. apply fold_same_token. by intros [] t'. Qed.
Lemma runtime_parameters_same l t : same_token t (fold_left (λ t p, Xtt.runtime_parameter p t) l t).
Proof. apply fold_same_token. by intros [] t'. Qed.
Lemma same_token_stable (f : xtt_token_object → xtt_token_object) :
  (∀ t, same_token t (f t)) → stable (V:=obj t_token) (λ t, mret (f t)).
Proof. intros Hf v v' [= <-]. destruct (Hf v) as (_ & E & _). simpl. by rewrite E. Qed.

#[local] Hint Extern 1 (stable _) => apply same_token_stable; apply setup_parameters_same : preserves.
#[local] Hint Extern 1 (stable _) => apply same_token_stable; apply runtime_parameters_same : preserves.

Lemma xtt_create_quiet o : preserves Q (Xtt.xtt_create o).
Proof. unfold Xtt.xtt_create, Xtt.charge_or_reset. walk. Qed.
Lemma xtt_setup_quiet o : preserves Q (Xtt.xtt_setup o).
Proof. unfold Xtt.xtt_setup. walk. Qed.
Lemma xtt_setup_ico_tier_quiet o : preserves Q (Xtt.xtt_setup_ico_tier o).
Proof. unfold Xtt.xtt_setup_ico_tier. walk. Qed.
Lemma xtt_set_setup_quiet o : preserves Q (Xtt.xtt_set_setup_parameters o).
Proof. unfold Xtt.xtt_set_setup_parameters. walk. Qed.
Lemma xtt_set_runtime_quiet o : preserves Q (Xtt.xtt_set_runtime_parameters o).
Proof. unfold Xtt.xtt_set_runtime_parameters. walk. Qed.
Lemma xtt_contribute_quiet o : preserves Q (Xtt.xtt_contribute o).
Proof. unfold Xtt.xtt_contribute. walk. Qed.
Lemma set_phase_quiet p t : preserves Q (Xtt.set_phase p t).
Proof. unfold Xtt.set_phase. walk. Qed.
Lemma get_token_reads I sym : preserves I (Xtt.get_token sym).
Proof. apply preserves_get_or. Qed.
Lemma get_ico_reads I sym : preserves I (Xtt.get_ico sym).
Proof. apply preserves_get_or. Qed.
#[local] Hint Resolve set_phase_quiet get_token_reads get_ico_reads : preserves.
Lemma required_action_quiet a : preserves Q (Xtt.apply_required_action a).
Proof.
  unfold Xtt.apply_required_action, Xtt.ico_launch, Xtt.ico_evaluation, Xtt.token_launch. walk.
Qed.
Lemma optional_action_quiet a : preserves Q (Xtt.apply_optional_action a).
Proof. unfold Xtt.apply_optional_action. walk. Qed.
End quiet.
#[export] Hint Resolve find_token_reads get_nai_pool_reads refill_nais_reads pre_setup_reads
  verify_accounts_reads get_token_reads get_ico_reads replenish_quiet remove_from_pool_quiet
  push_required_quiet xtt_create_quiet xtt_setup_quiet xtt_setup_ico_tier_quiet
  xtt_set_setup_quiet xtt_set_runtime_quiet xtt_contribute_quiet set_phase_quiet
  required_action_quiet optional_action_quiet : preserves.
