(* ===== verification/Operations.v ===== *)
(** * Applying an operation

    The evaluator registry of libraries/chain/database.cpp
    ([initialize_evaluators], [apply_operation]) over the evaluators of
    Evaluators.v and Xtt.v, and what holds of every operation: the tables it
    touches, the conservation of every asset, the state of the escrows. *)
From S2P Require Import Prelude Safe Chainbase Asset Protocol Block ForkDatabase ResourceDynamics Objects Database Ledger Evaluators EvaluatorFacts Xtt.

Module Registry.
Section with_node.
Context `{Env} `{Node}.

(** An operation without a registered evaluator fails the assertion of
    [get_evaluator]. *)
Definition apply_operation (op : operation) : DB unit :=
  match op with
  | op_vote o => Eval.vote o
  | op_comment o => Eval.comment o
  | op_comment_options o => Eval.comment_options o
  | op_delete_comment o => Eval.delete_comment o
  | op_transfer o => Eval.transfer o
  | op_wallet_create o => Eval.wallet_create o
  | op_wallet_update o => Eval.wallet_update o
  | op_witness_update o => Eval.witness_update o
  | op_custom o => Eval.custom o
  | op_custom_json o => Eval.custom_json o
  | op_pow o => Eval.pow o
  | op_report_over_production o => Eval.report_over_production o
  | op_escrow_transfer o => Eval.escrow_transfer o
  | op_escrow_approve o => Eval.escrow_approve o
  | op_escrow_dispute o => Eval.escrow_dispute o
  | op_escrow_release o => Eval.escrow_release o
  | op_xtt_setup o => Xtt.xtt_setup o
  | op_xtt_setup_ico_tier o => Xtt.xtt_setup_ico_tier o
  | op_xtt_set_setup_parameters o => Xtt.xtt_set_setup_parameters o
  | op_xtt_set_runtime_parameters o => Xtt.xtt_set_runtime_parameters o
  | op_xtt_create o => Xtt.xtt_create o
  | op_xtt_contribute o => Xtt.xtt_contribute o
  | op_contract_create o => Eval.contract_create o
  | op_contract_invoke o => Eval.contract_invoke o
  | op_request_wallet_recovery _ | op_recover_wallet _ | op_change_recovery_wallet _
  | op_shutdown_witness _ | op_hardfork _ | op_clear_null_wallet_balance _ => mthrow AssertException
  end.
End with_node.
End Registry.

(** ** The tables of an operation *)
Definition touched (op : operation) : list table :=
  match op with
  | op_vote _ | op_comment_options _ => [t_comment]
  | op_comment _ => [t_wallet; t_comment; t_comment_content]
  | op_delete_comment _ => [t_comment; t_comment_vote]
  | op_transfer _ => t_authority :: liquid_tables
  | op_wallet_create _ => [t_wallet; t_authority]
  | op_wallet_update _ => [t_wallet; t_authority; t_recovery_history; t_metadata]
  | op_witness_update _ => [t_witness]
  | op_pow _ => t_dgp :: t_witness :: t_authority :: liquid_tables
  | op_escrow_transfer _ | op_escrow_approve _ | op_escrow_release _ => t_escrow :: liquid_tables
  | op_escrow_dispute _ => [t_escrow]
  | op_xtt_setup _ => [t_token; t_ico; t_pending_required]
  | op_xtt_setup_ico_tier _ => [t_tier]
  | op_xtt_set_setup_parameters _ | op_xtt_set_runtime_parameters _ => [t_token]
  | op_xtt_create _ => t_nai_pool :: liquid_tables
  | op_xtt_contribute _ => t_contribution :: t_ico :: liquid_tables
  | op_contract_create _ => [t_contract]
  | _ => []
  end.

Section frames.
Context `{Env} `{Node} `{!NodePromise}.

Lemma random_key_frame ts s0 : preserves (frame ts s0) Eval.random_key.
Proof. intros s Hs. apply (frame_trans _ _ s); [done|]. split; [done|by destruct s]. Qed.
Lemma on_some_preserves {A} I (o : option A) f :
  (∀ a, preserves I (f a)) → preserves I (Eval.on_some o f).
Proof. intros Hf. destruct o; simpl; walk. Qed.
Lemma touch_ancestors_frame ts s0 n now i : t_comment ∈ ts →
  preserves (frame ts s0) (Eval.touch_ancestors n now i).
Proof. intros ?. revert i. induction n as [|n IH]; intros i; simpl; walk. Qed.
#[local] Hint Resolve random_key_frame on_some_preserves touch_ancestors_frame
  get_pow_summary_target_reads previous_block_id_reads : preserves.

Lemma custom_json_eval_frame s0 o : preserves (frame [] s0) (Eval.custom_json o).
Proof.
  unfold Eval.custom_json. apply preserves_bind; [walk|]. intros p.
  apply preserves_bind; [walk|]. intros _. apply preserves_bind; [walk|]. intros _.
  destruct (custom_json_evaluator (cj_id o)) eqn:E; [|walk].
  apply preserves_try; [|walk]. intros s1 Hs. eapply frame_trans, custom_json_frame; done.
Qed.
#[local] Hint Resolve custom_json_eval_frame : preserves.

(** An operation touches its tables only. *)
Lemma apply_operation_frame op s0 :
  preserves (frame (touched op) s0) (Registry.apply_operation op).
Proof.
  destruct op; cbn [touched Registry.apply_operation];
    unfold Eval.vote, Eval.comment, Eval.comment_options, Eval.delete_comment, Eval.transfer, Eval.create_receiver,
      Eval.wallet_create, Eval.wallet_update, Eval.witness_update, Eval.custom, Eval.pow, Eval.create_worker, Eval.reward_worker,
      Eval.report_over_production, Eval.escrow_transfer, Eval.escrow_approve, Eval.escrow_dispute,
      Eval.escrow_release, Eval.release_allowed, Xtt.xtt_setup, Xtt.xtt_setup_ico_tier,
      Xtt.xtt_set_setup_parameters, Xtt.xtt_set_runtime_parameters, Xtt.xtt_create, Xtt.charge_or_reset,
      Xtt.xtt_contribute, Eval.contract_create, Eval.contract_invoke, Eval.create_wallet,
      Eval.get_hardfork, Eval.create_authority, Eval.update_recovery_authority,
      Eval.verify_authority_accounts_exist, Xtt.remove_from_nai_pool, Xtt.replenish_nai_pool,
      Xtt.push_required_action, Eval.get_pow_summary_target, Eval.get_pow_target; walk;
    first [apply on_some_preserves; walk | apply (create_frame _ t_comment); auto with preserves].
Qed.
End frames.

(** ** Tokens are never issued

    No operation creates units of a user-issued token, so none is held. *)
Record no_tokens (s : database) : Prop := {
  supply_zero : map_Forall (λ _ x, tok_current_supply x = 0) (items t_token s);
  no_balances : items t_balance s = ∅
}.

Lemma no_tokens_same s s' : items t_token s' = items t_token s →
  items t_balance s' = items t_balance s → no_tokens s → no_tokens s'.
Proof. intros Ht Hb [Hs Hn]. split; [by rewrite Ht|by rewrite Hb]. Qed.
Lemma frame_no_tokens ts s s' : frame ts s s' → t_token ∉ ts → t_balance ∉ ts →
  no_tokens s → no_tokens s'.
Proof. intros Hf Ht Hb. apply no_tokens_same; by apply (frame_items ts). Qed.

Lemma only_frame ts t s s' : only t s s' → t ∈ ts → frame ts s s'.
Proof.
  intros [E Ho] Hin. split; [|rewrite E; by destruct s]. intros t' Hn. apply Ho. by intros ->.
Qed.

(** Adjusting an XGT balance touches the wallets only. *)
Lemma is_xtt_xgt : Db.is_xtt XGT_SYMBOL = false.
Proof. reflexivity. Qed.
Lemma check_funds_reads name delta s u s' :
  when (M:=DB) (amount delta <? 0)
    (available ← Db.get_balance name (symbol delta); Db.check_funds available delta) s = (Ok u, s') →
  s' = s.
Proof.
  intros [[_ Hw]|[_ ->]]%when_ok; [|done].
  unfold Db.check_funds, Db.get_balance, Db.get_balance_of, Db.xtt_balance in *.
  repeat (case_match || inv_db); done.
Qed.
Lemma adjust_xgt_frame ts name delta s0 : symbol delta = XGT_SYMBOL → t_wallet ∈ ts →
  preserves (frame ts s0) (Db.adjust_balance name delta).
Proof.
  intros Hx Hin. unfold Db.adjust_balance. rewrite Hx, is_xtt_xgt.
  unfold Db.get_balance, Db.get_balance_of, Db.xtt_balance, Db.check_funds, Db.modify_balance. walk.
Qed.
Lemma adjust_xgt_of_frame ts a delta s0 : symbol delta = XGT_SYMBOL → t_wallet ∈ ts →
  preserves (frame ts s0) (Db.adjust_balance_of a delta).
Proof.
  intros Hx Hin. unfold Db.adjust_balance_of. rewrite Hx, is_xtt_xgt.
  unfold Db.get_balance_of, Db.xtt_balance, Db.check_funds, Db.modify_balance. walk.
Qed.

(** Nobody can spend a token that nobody holds. *)
Lemma no_tokens_no_spend name delta s u s' : no_tokens s → wf_tables (tbl s) →
  Db.is_xtt (symbol delta) = true → amount delta < 0 →
  Db.adjust_balance name delta s ≠ (Ok u, s').
Proof.
  intros [_ Hb] Hwf Hx Hneg Hr. unfold Db.adjust_balance in Hr.
  rewrite (proj2 (Z.ltb_lt _ _) Hneg) in Hr. unfold when in Hr.
  unfold Db.get_balance in Hr. rewrite Hx in Hr. inv_db. unfold Db.xtt_balance, Db.check_funds in *. inv_db.
  destruct (Db.find_balance name (symbol delta) s) as [b|] eqn:Hf.
  - apply (find_by_key_items t_balance) in Hf as [Hf _]; [|done]. rewrite Hb in Hf. by rewrite lookup_empty in Hf.
  - unfold Asset.ge, Asset.same_symbol in *. inv_ok.
    match goal with H : Asset.neg _ = Ok _ |- _ => apply asset_neg_ok in H as [_ Hn] end.
    bool_hyps. simpl in *. lia.
Qed.

(** A chain of framed steps. *)
Ltac framed ts :=
  repeat match goal with
  | H : ?m ?s = (Ok _, ?s') |- frame ts ?s ?s'' =>
      apply (frame_trans ts s s'); [apply (frame_run ts m s _ _ ltac:(intros; walk) H)|]
  end; try apply frame_refl.

Section money_frames.
Context `{Env} `{Node} `{!NodePromise}.

Lemma create_receiver_step n s u s' : wf_tables (tbl s) → Eval.create_receiver n s = (Ok u, s') →
  frame [t_wallet; t_authority] s s' ∧ wf_tables (tbl s').
Proof.
  intros Hwf Hr. split.
  - eapply frame_run; [|exact Hr]. intros s0. unfold Eval.create_receiver, Eval.create_wallet,
      Eval.get_hardfork, Eval.create_authority. walk; apply random_key_frame.
  - eapply quiet_wf, run_quiet; [|done|exact Hr]. intros d0. apply create_receiver_quiet.
Qed.

Lemma transfer_tokens o s u s' : Validate.transfer o = Ok tt → wf_tables (tbl s) → no_tokens s →
  Eval.transfer o s = (Ok u, s') → frame [t_wallet; t_authority] s s'.
Proof.
  intros Hv Hwf Hnt Hr. assert (Hpos : 0 < amount (tr_amount o)).
  { unfold Validate.transfer in Hv. inv_ok. bool_hyps. lia. }
  unfold Eval.transfer in Hr. inv_db.
  match goal with H : _ s = (Ok _, ?s1) |- _ =>
    assert (frame [t_wallet; t_authority] s s1 ∧ wf_tables (tbl s1)) as [Hf Hwf1];
    [destruct (Db.find_account (tr_to o) s); [inv_db; split; [apply frame_refl|done]|by eapply create_receiver_step]|clear H] end.
  destruct (decide (symbol (tr_amount o) = XGT_SYMBOL)) as [Hx|Hx].
  - match goal with H : Asset.neg _ = Ok _ |- _ => apply asset_neg_ok in H as [Hs _] end.
    eapply frame_trans; [done|]. eapply frame_trans; (eapply frame_run; [|eassumption]);
      intros; apply adjust_xgt_frame; auto with preserves; congruence.
  - match goal with H : Asset.neg _ = Ok _ |- _ => apply asset_neg_ok in H as [Hs Ha] end.
    exfalso. eapply (no_tokens_no_spend (tr_from o)); [|exact Hwf1| | |eassumption].
    + eapply frame_no_tokens; [exact Hf|by_decide..|done].
    + rewrite Hs. unfold Db.is_xtt, AssetSymbol.space.
      by destruct (Z.eqb_spec (symbol (tr_amount o)) XGT_ASSET_NUM_XGT).
    + lia.
Qed.

Lemma escrow_transfer_tokens o s u s' : Validate.escrow_transfer o = Ok tt →
  Eval.escrow_transfer o s = (Ok u, s') → frame [t_wallet; t_escrow] s s'.
Proof.
  intros Hv Hr. assert (symbol (et_fee o) = XGT_SYMBOL ∧ symbol (et_xgt_amount o) = XGT_SYMBOL) as [Hf Hx].
  { unfold Validate.escrow_transfer in Hv. inv_ok. bool_hyps. done. }
  apply capture_ok in Hr. rewrite Hf, Z.eqb_refl in Hr. inv_db.
  repeat match goal with
  | H : Asset.neg _ = Ok _ |- _ => apply asset_neg_ok in H as [? _]
  | H : Asset.add _ _ = Ok _ |- _ => apply asset_add_ok in H as (_ & ? & _)
  end.
  eapply frame_trans; (eapply frame_run; [|eassumption]); intros.
  - apply adjust_xgt_of_frame; [congruence|by_decide].
  - walk.
Qed.

Lemma escrow_release_tokens o s u s' : Validate.escrow_release o = Ok tt →
  Eval.escrow_release o s = (Ok u, s') → frame [t_wallet; t_escrow] s s'.
Proof.
  intros Hv Hr. assert (Hx : symbol (er_xgt_amount o) = XGT_SYMBOL).
  { unfold Validate.escrow_release in Hv. inv_ok. bool_hyps. done. }
  eapply frame_run; [|exact Hr]. intros s0. unfold Eval.escrow_release, Eval.release_allowed. walk.
  apply adjust_xgt_frame; [done|by_decide].
Qed.

Lemma escrow_approve_tokens o s u s' : wf_tables (tbl s) → escrows_ok s →
  Eval.escrow_approve o s = (Ok u, s') → frame [t_wallet; t_escrow] s s'.
Proof.
  intros Hwf Hpaid Hr. apply capture_ok in Hr. cbv zeta in Hr. inv_db.
  match goal with He : Db.find_escrow _ _ _ = Some ?e |- _ =>
    apply found_escrow in He as (Hesc & _ & _); [|done]; rename e into esc end.
  destruct (map_Forall_lookup_1 _ _ _ _ Hpaid Hesc) as [_ Hb Hf].
  match goal with Ha : when (bool_decide (ea_who o = ea_to o)) _ _ = _,
    Hb : when (bool_decide (ea_who o = ea_agent o)) _ _ = (Ok _, ?s2) |- _ =>
    destruct (approvals_step o esc s _ _ _ _ Hwf Hesc Ha Hb) as (_ & _ & e2 & He2 & [_ Hs2]);
    assert (frame [t_wallet; t_escrow] s s2) end.
  { eapply frame_trans; (eapply frame_run; [|eassumption]); intros; walk. }
  eapply frame_trans; [eassumption|]. destruct (negb (ea_approve o)); inv_db.
  - eapply frame_trans; [eapply frame_run; [|eassumption]; intros; apply adjust_xgt_frame; [done|by_decide]|].
    eapply frame_trans; [eapply frame_run; [|eassumption]; intros; apply adjust_xgt_frame; [done|by_decide]|].
    eapply frame_run; [|eassumption]. intros; walk.
  - match goal with H : items t_escrow _ !! _ = Some ?e |- _ =>
      rewrite He2, lookup_insert_eq in H; injection H as <- end.
    eapply frame_run; [|eassumption]. intros; walk.
    apply adjust_xgt_frame; [by rewrite Hs2|by_decide].
Qed.
End money_frames.

(** ** Conservation *)
Section conservation.
Context `{Env} `{Node} `{!NodePromise}.

Lemma pow_tokens o s u s' : Eval.pow o s = (Ok u, s') →
  frame [t_dgp; t_witness; t_authority; t_wallet] s s'.
Proof.
  intros Hr. eapply frame_run; [|exact Hr]. intros s0. unfold Eval.pow, Eval.create_worker,
    Eval.reward_worker, Eval.create_wallet, Eval.get_hardfork. walk; apply adjust_xgt_frame;
    first [done|by_decide].
Qed.

Lemma contribute_xgt o : Validate.xtt_contribute o = Ok tt → symbol (xo_contribution o) = XGT_SYMBOL.
Proof. unfold Validate.xtt_contribute. intros Hv. inv_ok. bool_hyps. done. Qed.

Lemma contribute_tokens o s u s' : Validate.xtt_contribute o = Ok tt →
  Xtt.xtt_contribute o s = (Ok u, s') → frame [t_wallet; t_contribution; t_ico] s s'.
Proof.
  intros Hx%contribute_xgt Hr. unfold Xtt.xtt_contribute in Hr. inv_db.
  match goal with H : Xtt.find_token _ _ _ = _ |- _ =>
    apply reads_run in H as ->; [|intros I; apply find_token_reads] end.
  repeat (case_match; inv_db; try discriminate).
  match goal with H : Asset.neg _ = Ok _ |- _ => apply asset_neg_ok in H as [Hs _] end.
  eapply frame_trans; [eapply frame_run; [|eassumption]; intros; apply adjust_xgt_frame; [congruence|by_decide]|].
  eapply frame_trans; (eapply frame_run; [|eassumption]); intros; walk.
Qed.
Lemma contribute_moves o : moves (Xtt.xtt_contribute o) (λ _, 0).
Proof.
  unfold Xtt.xtt_contribute. apply moves_capture.
  apply moves_after; [intros; walk|]. intros [token|]; [|by intros s a s' _ Hr; inv_db].
  do 4 (apply moves_after; [intros; walk|]; intros ?).
  repeat case_match; try by (intros s ? s' _ Hr; inv_db).
  do 5 (apply moves_after; [intros; walk|]; intros ?).
  apply moves_lift. intros n Hn.
  apply (moves_ext _ (λ sym, amount_in sym n + amount_in sym (xo_contribution o))).
  { intros sym. rewrite (amount_in_neg sym _ _ Hn). lia. }
  apply moves_bind; [apply adjust_balance_moves|]. intros _.
  apply moves_before; [|intros; walk].
  apply (create_moves t_contribution); [solve_modifier|]. by intros i v [= <-] sym.
Qed.

(** *** Creating and resetting a token *)
Lemma create_fee_xgt o : Validate.xtt_create o = Ok tt → symbol (xc_creation_fee o) = XGT_SYMBOL.
Proof.
  unfold Validate.xtt_create. intros Hv. inv_ok. unfold Validate.is_asset_type in *. bool_hyps. done.
Qed.

Lemma no_tokens_insert s s' i x : no_tokens s → tok_current_supply x = 0 →
  items t_token s' = <[i := x]> (items t_token s) → only t_token s s' → no_tokens s'.
Proof.
  intros [Hs Hb] Hx Hi Ho. split; [|by rewrite (only_items _ _ _ _ Ho)].
  rewrite Hi. by apply map_Forall_insert_2.
Qed.
Lemma no_tokens_delete s s' i : no_tokens s →
  items t_token s' = delete i (items t_token s) → only t_token s s' → no_tokens s'.
Proof.
  intros [Hs Hb] Hi Ho. split; [|by rewrite (only_items _ _ _ _ Ho)].
  rewrite Hi. by apply map_Forall_delete.
Qed.
Lemma no_supply sym s i x : no_tokens s → items t_token s !! i = Some x → held t_token sym x = 0.
Proof.
  intros [Hs _] Hi. apply Hs in Hi. cbn [held]. unfold issued. case_match; lia.
Qed.

Lemma charge_or_reset_step o p t s u s' : symbol (xc_creation_fee o) = XGT_SYMBOL →
  wf_tables (tbl s) → no_tokens s → Xtt.charge_or_reset o t p s = (Ok u, s') →
  keeps_ledger s s' ∧ no_tokens s'.
Proof.
  intros Hx Hwf Hn Hr. unfold Xtt.charge_or_reset in Hr. case_match; inv_db.
  - match goal with H : Xtt.get_nai_pool _ = _ |- _ => apply get_or_run in H as [_ ->] end.
    match goal with H : Asset.neg _ = Ok ?n, H1 : Db.adjust_balance _ ?n s = (_, ?s1),
      H2 : Db.adjust_balance _ _ ?s1 = _ |- _ =>
      pose proof (asset_neg_ok _ _ H) as [Hns _]; pose proof (λ sym, amount_in_neg sym _ _ H) as Ha;
      assert (frame [t_wallet] s s') as Hf;
      [eapply frame_trans; [eapply frame_run; [|exact H1]|eapply frame_run; [|exact H2]]; intros s0;
       (apply adjust_xgt_frame; [congruence|by_decide])|];
      apply adjust_balance_moves in H1 as [Hwf1 Hl1]; [|done];
      apply adjust_balance_moves in H2 as [Hwf2 Hl2]; [|done] end.
    split; [|by eapply frame_no_tokens; [exact Hf|by_decide..|]].
    split; [done|]. intros sym. rewrite Hl2, Hl1, Ha. lia.
  - destruct t as [token|]; inv_db. match goal with H : remove _ _ _ = _ |- _ =>
      pose proof H as Hrm; apply remove_ledger in H as (v & Hv & Hi & Ho & Hwf' & Hl'); [|done] end.
    split; [|by eapply no_tokens_delete]. split; [done|]. intros sym. rewrite Hl'.
    rewrite (no_supply _ _ _ _ Hn Hv). lia.
Qed.

Lemma replenish_neutral L : preserves (neutral L) Xtt.replenish_nai_pool.
Proof. unfold Xtt.replenish_nai_pool. walk. Qed.
Lemma remove_from_pool_neutral L a : preserves (neutral L) (Xtt.remove_from_nai_pool a).
Proof. unfold Xtt.remove_from_nai_pool. walk. Qed.
Lemma pool_frame a s0 : preserves (frame [t_nai_pool] s0)
  (Xtt.remove_from_nai_pool a ;; pending ← gets is_pending_tx; when (negb pending) Xtt.replenish_nai_pool).
Proof. unfold Xtt.remove_from_nai_pool, Xtt.replenish_nai_pool. walk. Qed.
#[local] Hint Resolve replenish_neutral remove_from_pool_neutral : preserves.

Lemma xtt_create_moves o s u s' : Validate.xtt_create o = Ok tt →
  wf_tables (tbl s) → no_tokens s → Xtt.xtt_create o s = (Ok u, s') →
  keeps_ledger s s' ∧ no_tokens s'.
Proof.
  intros Hx%create_fee_xgt Hwf Hn Hr. unfold Xtt.xtt_create in Hr.
  apply St_bind_ok in Hr as (p & s1 & Hp & Hr). apply get_or_run in Hp as [_ ->].
  apply St_bind_ok in Hr as (t & s1 & Ht & Hr). apply reads_run in Ht as ->; [|intros I; apply find_token_reads].
  apply St_bind_ok in Hr as (u1 & s1 & H1' & Hr).
  apply charge_or_reset_step in H1' as [[Hwf1 Hl1] Hn1]; [|done..].
  apply St_bind_ok in Hr as (x & s2 & Hc & Hr).
  assert (Hm : wf_tables (tbl s2) ∧ ∀ sym, ledger sym s2 = ledger sym s1 + 0); [|destruct Hm as [Hwf2 Hl2]].
  { eapply (create_moves t_token _ (λ _, 0)); [| |exact Hwf1|exact Hc]; [solve_modifier|].
    intros i v [= <-] sym. cbn [held]. unfold issued. simpl. by case_match. }
  apply create_run in Hc as ([= <-] & _ & _ & Hi & Ho).
  assert (Hn2 : no_tokens s2) by (by eapply no_tokens_insert; [exact Hn1| |exact Hi|exact Ho]).
  pose proof (frame_run _ _ _ _ _ (λ s0, pool_frame _ s0) Hr) as Hf.
  eapply keeps_ledger_run in Hr as [Hwf3 Hl3]; [|intros L; walk|done].
  split; [|by eapply frame_no_tokens; [exact Hf|by_decide..|]].
  split; [done|]. intros sym. rewrite Hl3, Hl2, Hl1. lia.
Qed.

(** *** Operations and actions on tokens keep the supply *)
Lemma modify_token_keeps i f :
  (∀ x x', f x = Ok x' → tok_current_supply x' = tok_current_supply x) →
  preserves no_tokens (modify t_token i f).
Proof.
  intros Hf s Hs. destruct (modify t_token i f s) as [[u|e] s'] eqn:E.
  - apply modify_run in E as (x & x' & Hx & Hfx & _ & Hi & Ho). eapply no_tokens_insert; try done.
    rewrite (Hf _ _ Hfx). by eapply supply_zero.
  - apply modify_failed in E as [Ho Hi]. eapply no_tokens_same; [done| |done].
    by apply (only_items _ _ _ _ Ho).
Qed.
Lemma other_table_keeps {A} t (m : St (Chainbase.generic_index (obj t)) A) :
  t ≠ t_token → t ≠ t_balance → preserves no_tokens (at_table t m).
Proof.
  intros Ht Hb s Hs. destruct (at_table t m s) as [r s'] eqn:E.
  apply at_table_run in E as [_ Ho]. by eapply no_tokens_same; [apply (only_items _ _ _ _ Ho)..|].
Qed.
Lemma create_keeps_tokens t f : t ≠ t_token → t ≠ t_balance → preserves no_tokens (create t f).
Proof. apply other_table_keeps. Qed.
#[local] Hint Resolve create_keeps_tokens modify_token_keeps : preserves.
#[local] Hint Extern 1 (∀ _ _, _ = Ok _ → tok_current_supply _ = _) =>
  intros ? ? [= <-]; first [reflexivity | apply setup_parameters_same | apply runtime_parameters_same] : preserves.

Lemma push_required_tokens a t : preserves no_tokens (Xtt.push_required_action a t).
Proof. unfold Xtt.push_required_action. walk. Qed.
#[local] Hint Resolve push_required_tokens : preserves.
Lemma xtt_setup_tokens o : preserves no_tokens (Xtt.xtt_setup o).
Proof. unfold Xtt.xtt_setup. walk. Qed.
Lemma xtt_parameters_tokens o : preserves no_tokens (Xtt.xtt_set_setup_parameters o).
Proof. unfold Xtt.xtt_set_setup_parameters. walk. Qed.
Lemma xtt_runtime_tokens o : preserves no_tokens (Xtt.xtt_set_runtime_parameters o).
Proof. unfold Xtt.xtt_set_runtime_parameters. walk. Qed.
Lemma required_action_tokens a : preserves no_tokens (Xtt.apply_required_action a).
Proof.
  unfold Xtt.apply_required_action, Xtt.ico_launch, Xtt.ico_evaluation, Xtt.token_launch,
    Xtt.set_phase. walk.
Qed.

(** They move no asset either. *)
Lemma push_required_neutral L a t : preserves (neutral L) (Xtt.push_required_action a t).
Proof. unfold Xtt.push_required_action. walk. Qed.
#[local] Hint Resolve push_required_neutral : preserves.
Lemma modify_token_neutral L i f : stable (V:=obj t_token) f →
  (∀ x x', f x = Ok x' → same_token x x') → preserves (neutral L) (modify t_token i f).
Proof.
  intros Hst Hf. apply modify_neutral; [done|]. intros x x' (_ & E1 & E2)%Hf sym. cbn [held].
  unfold issued. by rewrite E1, E2.
Qed.
Lemma xtt_setup_neutral L o : preserves (neutral L) (Xtt.xtt_setup o).
Proof. unfold Xtt.xtt_setup. walk. Qed.
Lemma xtt_tier_neutral L o : preserves (neutral L) (Xtt.xtt_setup_ico_tier o).
Proof. unfold Xtt.xtt_setup_ico_tier. walk. Qed.
Lemma xtt_parameters_neutral L o : preserves (neutral L) (Xtt.xtt_set_setup_parameters o).
Proof.
  unfold Xtt.xtt_set_setup_parameters. walk. apply modify_token_neutral.
  - apply same_token_stable, setup_parameters_same.
  - intros x x' [= <-]. apply setup_parameters_same.
Qed.
Lemma xtt_runtime_neutral L o : preserves (neutral L) (Xtt.xtt_set_runtime_parameters o).
Proof.
  unfold Xtt.xtt_set_runtime_parameters. walk. apply modify_token_neutral.
  - apply same_token_stable, runtime_parameters_same.
  - intros x x' [= <-]. apply runtime_parameters_same.
Qed.
Lemma required_action_neutral L a : preserves (neutral L) (Xtt.apply_required_action a).
Proof.
  unfold Xtt.apply_required_action, Xtt.ico_launch, Xtt.ico_evaluation, Xtt.token_launch,
    Xtt.set_phase. walk.
Qed.

(** *** Escrows stay in order *)
Lemma escrow_transfer_escrows o s u s' : Validate.escrow_transfer o = Ok tt → wf_tables (tbl s) →
  escrows_ok s → Eval.escrow_transfer o s = (Ok u, s') → escrows_ok s'.
Proof.
  intros Hv Hwf He Hr. assert (symbol (et_fee o) = XGT_SYMBOL ∧ symbol (et_xgt_amount o) = XGT_SYMBOL) as [Hf Hx].
  { unfold Validate.escrow_transfer in Hv. inv_ok. bool_hyps. done. }
  apply capture_ok in Hr. rewrite Hf, Z.eqb_refl in Hr. inv_db.
  match goal with H : Db.adjust_balance_of _ _ _ = _ |- _ =>
    apply (frame_run liquid_tables) in H; [|intros s0; walk]; rename H into Hfr end.
  match goal with H : create _ _ _ = _ |- _ => apply create_run in H as ([= <-] & _ & _ & Hi & _) end.
  rewrite (frame_items _ t_escrow _ _ Hfr ltac:(by_decide)) in Hi.
  by eapply escrows_ok_insert; [exact He| |exact Hi].
Qed.
Lemma escrow_dispute_escrows o s u s' : wf_tables (tbl s) → escrows_ok s →
  Eval.escrow_dispute o s = (Ok u, s') → escrows_ok s'.
Proof.
  intros Hwf He Hr. apply capture_ok in Hr. inv_db.
  match goal with H : modify _ _ _ _ = _ |- _ => apply modify_run in H as (e & e' & Hx & [= <-] & _ & Hi & _) end.
  eapply escrows_ok_insert; [exact He| |exact Hi].
  destruct (map_Forall_lookup_1 _ _ _ _ He Hx). by split.
Qed.

(** *** The invariant of the ledger *)
Record ledger_inv (s : database) : Prop := {
  li_wf : wf_tables (tbl s);
  li_escrows : escrows_ok s;
  li_tokens : no_tokens s
}.

(** What an operation may mint: the reward of a proof of work. *)
Definition mints (op : operation) (s : database) (a : asset) : Prop :=
  a = mkAsset 0 XGT_SYMBOL ∨
  ∃ o p, op = op_pow o ∧ Db.dgp s = Some p ∧ dgp_head_block_number p < POW_IN_BLOCK_START ∧
    a = Eval.mining_reward (dgp_head_block_number p).

Lemma keeps_mints op s s' : keeps_ledger s s' → wf_tables (tbl s') ∧
  ∃ a, mints op s a ∧ ∀ sym, ledger sym s' = ledger sym s + amount_in sym a.
Proof.
  intros [Hwf Hl]. split; [done|]. exists (mkAsset 0 XGT_SYMBOL). split; [by left|].
  intros sym. rewrite Hl, amount_in_zero. lia.
Qed.
Lemma moves_keeps {A} (m : DB A) s r s' : moves m (λ _, 0) → wf_tables (tbl s) → m s = (Ok r, s') →
  keeps_ledger s s'.
Proof. intros Hm Hwf Hr. destruct (Hm _ _ _ Hwf Hr) as [? Hl]. split; [done|]. intros sym. rewrite Hl. lia. Qed.

#[local] Hint Resolve xtt_setup_neutral xtt_tier_neutral xtt_parameters_neutral xtt_runtime_neutral : preserves.

Lemma operation_ledger op s u s' : ledger_inv s → Validate.operation_validate Block.id op = Ok tt →
  Registry.apply_operation op s = (Ok u, s') →
  wf_tables (tbl s') ∧ ∃ a, mints op s a ∧ ∀ sym, ledger sym s' = ledger sym s + amount_in sym a.
Proof.
  intros [Hwf He Hn] Hv Hr. destruct op; cbn [Registry.apply_operation] in Hr;
    cbn [Validate.operation_validate] in Hv; try discriminate;
    lazymatch type of Hr with
    | Eval.transfer _ _ = _ => apply keeps_mints, (moves_keeps _ _ _ _ (transfer_moves o) Hwf Hr)
    | Eval.escrow_transfer _ _ = _ =>
        apply keeps_mints, (moves_keeps _ _ _ _ (escrow_transfer_moves o Hv) Hwf Hr)
    | Eval.escrow_release _ _ = _ =>
        destruct (escrow_release_moves _ _ _ _ Hwf He Hr) as (? & _ & ?); by apply keeps_mints
    | Eval.escrow_approve _ _ = _ =>
        destruct (escrow_approve_moves _ _ _ _ Hwf He Hr) as (? & _ & ?); by apply keeps_mints
    | Xtt.xtt_create _ _ = _ => apply keeps_mints; by apply (xtt_create_moves _ _ _ _ Hv Hwf Hn Hr)
    | Xtt.xtt_contribute _ _ = _ =>
        apply keeps_mints, (moves_keeps _ _ _ _ (contribute_moves o) Hwf Hr)
    | Eval.pow _ _ = _ => idtac
    | _ => apply keeps_mints; eapply keeps_ledger_run; [|exact Hwf|exact Hr]; intros L; by walk
    end.
  apply pow_moves in Hr as [Hwf' [Hl|(p & Hp & Hlt & Hl)]]; [by apply keeps_mints| |done].
  split; [done|]. eexists. split; [right; by exists o, p|done].
Qed.

Lemma operation_escrows op s u s' : ledger_inv s → Validate.operation_validate Block.id op = Ok tt →
  Registry.apply_operation op s = (Ok u, s') → escrows_ok s'.
Proof.
  intros [Hwf He Hn] Hv Hr. pose proof (frame_run _ _ _ _ _ (apply_operation_frame op) Hr) as Hf.
  destruct op; cbn [Registry.apply_operation] in Hr; cbn [Validate.operation_validate] in Hv;
    cbn [touched] in Hf;
    lazymatch type of Hr with
    | Eval.escrow_transfer _ _ = _ => by eapply escrow_transfer_escrows
    | Eval.escrow_dispute _ _ = _ => by eapply escrow_dispute_escrows
    | Eval.escrow_release _ _ = _ => by apply (escrow_release_moves _ _ _ _ Hwf He Hr)
    | Eval.escrow_approve _ _ = _ => by apply (escrow_approve_moves _ _ _ _ Hwf He Hr)
    | _ => eapply escrows_ok_same; [|exact He]; eapply frame_items; [exact Hf|by_decide]
    end.
Qed.

Lemma operation_tokens op s u s' : ledger_inv s → Validate.operation_validate Block.id op = Ok tt →
  Registry.apply_operation op s = (Ok u, s') → no_tokens s'.
Proof.
  intros [Hwf He Hn] Hv Hr. pose proof (frame_run _ _ _ _ _ (apply_operation_frame op) Hr) as Hf.
  assert (Hkeep : ∀ m : DB unit, preserves no_tokens m → m s = (Ok u, s') → no_tokens s').
  { intros m Hm Hr'. pose proof (Hm s Hn) as Hm'. by rewrite Hr' in Hm'. }
  destruct op; cbn [Registry.apply_operation] in Hr; cbn [Validate.operation_validate] in Hv;
    cbn [touched] in Hf;
    lazymatch type of Hr with
    | Eval.transfer _ _ = _ => apply transfer_tokens in Hr; [|done..]; clear Hf; rename Hr into Hf
    | Eval.escrow_transfer _ _ = _ => apply escrow_transfer_tokens in Hr; [|done]; clear Hf; rename Hr into Hf
    | Eval.escrow_release _ _ = _ => apply escrow_release_tokens in Hr; [|done]; clear Hf; rename Hr into Hf
    | Eval.escrow_approve _ _ = _ => apply escrow_approve_tokens in Hr; [|done..]; clear Hf; rename Hr into Hf
    | Eval.pow _ _ = _ => apply pow_tokens in Hr; clear Hf; rename Hr into Hf
    | Xtt.xtt_contribute _ _ = _ => apply contribute_tokens in Hr; [|done]; clear Hf; rename Hr into Hf
    | _ => idtac
    end;
    first [ eapply frame_no_tokens; [exact Hf|by_decide..|exact Hn] | idtac ].
  - by eapply Hkeep, Hr; apply xtt_setup_tokens.
  - by eapply Hkeep, Hr; apply xtt_parameters_tokens.
  - by eapply Hkeep, Hr; apply xtt_runtime_tokens.
  - by apply xtt_create_moves in Hr as [_ ?].
Qed.
End conservation.

(** ** Sequences of operations and automated actions *)
Inductive event := ev_operation (op : operation) | ev_action (a : required_automated_action).
Definition apply_event `{Env} `{Node} (e : event) : DB unit :=
  match e with
  | ev_operation op => lift (Validate.operation_validate Block.id op) ;; Registry.apply_operation op
  | ev_action a => Xtt.apply_required_action a
  end.
Definition event_tables (e : event) : list table :=
  match e with ev_operation op => touched op | ev_action _ => [t_token; t_pending_required] end.
Definition is_pow (e : event) : bool := match e with ev_operation (op_pow _) => true | _ => false end.
Definition pow_count (l : list event) : Z := Z.of_nat (length (List.filter is_pow l)).

Section events.
Context `{Env} `{Node} `{!NodePromise}.

Lemma for_each_invariant {A} (P : list A → database → Prop) (f : A → DB unit) l s u s' :
  (∀ a l s u s', P (a :: l) s → f a s = (Ok u, s') → P l s') →
  P l s → for_each l f s = (Ok u, s') → P [] s'.
Proof.
  intros Hf. revert s. induction l as [|a l IH]; intros s Hs Hr; simpl in Hr; [by inv_db|].
  apply St_bind_ok in Hr as (v & s1 & Ha & Hr). eapply IH; [by eapply Hf|done].
Qed.
Lemma preserves_run {A} (I : database → Prop) (m : DB A) s r s' :
  preserves I m → I s → m s = (r, s') → I s'.
Proof. intros Hm Hs Hr. pose proof (Hm s Hs) as HI. by rewrite Hr in HI. Qed.

Lemma operation_quiet op d0 : preserves (λ s, quiet d0 (tbl s)) (Registry.apply_operation op).
Proof.
  destruct op; cbn [Registry.apply_operation]; unfold Eval.report_over_production, Eval.contract_invoke;
    eauto with preserves.
Qed.
Lemma apply_event_quiet e d0 : preserves (λ s, quiet d0 (tbl s)) (apply_event e).
Proof. destruct e; simpl; [apply preserves_bind; [walk|intros _; apply operation_quiet]|walk]. Qed.
Lemma apply_event_frame e s0 : preserves (frame (event_tables e) s0) (apply_event e).
Proof.
  destruct e; simpl; [apply preserves_bind; [walk|intros _; apply apply_operation_frame]|].
  unfold Xtt.apply_required_action, Xtt.ico_launch, Xtt.ico_evaluation, Xtt.token_launch,
    Xtt.set_phase, Xtt.push_required_action. walk.
Qed.
Lemma apply_event_wf e s r s' : wf_tables (tbl s) → apply_event e s = (r, s') → wf_tables (tbl s').
Proof. intros Hwf Hr. eapply quiet_wf, run_quiet; [|done|exact Hr]. intros d0. apply apply_event_quiet. Qed.

Lemma mining_reward_bounds n : 0 ≤ amount (Eval.mining_reward n) ≤ amount XGT_MINING_REWARD.
Proof.
  unfold Eval.mining_reward. simpl amount. set (h := _ / XGT_MINING_REWARD_HALVING_INTERVAL).
  destruct (decide (0 ≤ h)) as [Hh|Hh].
  - split; [apply Z.div_pos; lia|]. apply Z.div_le_upper_bound; [lia|].
    assert (1 ≤ 2 ^ h) by (pose proof (Z.pow_pos_nonneg 2 h); lia). lia.
  - rewrite Z.pow_neg_r, Z.div_0_r by lia. lia.
Qed.

Lemma event_ledger e s u s' : ledger_inv s → apply_event e s = (Ok u, s') → ledger_inv s' ∧
  (∀ sym, sym ≠ XGT_SYMBOL → ledger sym s' = ledger sym s) ∧
  ledger XGT_SYMBOL s ≤ ledger XGT_SYMBOL s' ≤
    ledger XGT_SYMBOL s + pow_count [e] * amount XGT_MINING_REWARD.
Proof.
  intros Hs Hr. pose proof (apply_event_wf _ _ _ _ (li_wf _ Hs) Hr) as Hwf'.
  destruct e as [op|a]; simpl in Hr.
  - apply St_bind_ok in Hr as ([] & s1 & Hv & Hr). apply lift_ok in Hv as [Hv ->].
    destruct (operation_ledger op s u s' Hs Hv Hr) as (_ & a & Hm & Hl). split.
    { split; [done|by eapply operation_escrows|by eapply operation_tokens]. }
    destruct Hm as [->|(o & p & -> & _ & _ & ->)].
    + split; [intros; rewrite Hl, amount_in_zero; lia|]. rewrite Hl, amount_in_zero.
      assert (0 ≤ pow_count [ev_operation op]) by (unfold pow_count; lia).
      change (amount XGT_MINING_REWARD) with 4166166. lia.
    + pose proof (mining_reward_bounds (dgp_head_block_number p)) as Hb.
      set (r := Eval.mining_reward _) in *. assert (Hsym : symbol r = XGT_SYMBOL) by reflexivity.
      change (pow_count _) with 1. unfold amount_in in Hl. rewrite Hsym in Hl. split.
      * intros sym Hne. rewrite Hl, (proj2 (Z.eqb_neq XGT_SYMBOL sym)) by done. lia.
      * rewrite Hl, Z.eqb_refl. lia.
  - destruct Hs as [Hwf He Hn].
    pose proof (frame_run _ _ _ _ _ (apply_event_frame (ev_action a)) Hr) as Hf. simpl in Hf.
    pose proof (preserves_run _ _ _ _ _ (required_action_tokens a) Hn Hr) as Hn'.
    apply keeps_ledger_run in Hr as [_ Hl]; [|intros L; apply required_action_neutral|done]. split.
    { split; [done| |done]. eapply escrows_ok_same; [|exact He]. eapply frame_items; [exact Hf|by_decide]. }
    change (pow_count _) with 0. split; [done|]. rewrite Hl. lia.
Qed.
End events.
