(* ===== verification/LedgerProps.v ===== *)
(** * What the operations guarantee, and what they do not

    Theorems over arbitrary sequences of operations and automated actions:
    conservation of every asset, the fate of escrows and of contributions;
    and over single evaluators: the rules of an escrow release, contracts, and
    the keys of a wallet that a transfer opens. *)
From S2P Require Import Prelude Safe Chainbase Asset Protocol Block ForkDatabase ResourceDynamics Objects Database Ledger Evaluators EvaluatorFacts Xtt Operations.

(** ** A small chain to run the definitions on *)
Module Demo.
#[global] Instance node : Node := {| custom_json_evaluator _ := None |}.
#[global] Instance node_promise : NodePromise.
Proof. by constructor. Qed.

Definition empty_db : database :=
  mkDb (λ _, Chainbase.empty_index) ForkDb.empty [] [] false [] 0 false false [] (λ n, 1000 + n) 0.
Definition wallet (name : wallet_name_type) (n : Z) : DB unit :=
  create t_wallet (λ w, mret (set_w_balance (mkAsset n XGT_SYMBOL) (set_w_name name w))) ;; mret tt.
Definition setup : DB unit :=
  create t_dgp (λ p, mret (set_dgp_time 1000 (set_dgp_head_block_number 10 p))) ;;
  create t_hardfork (λ h, mret h) ;;
  wallet "alice" 100 ;; wallet "bob" 0 ;; wallet "carol" 0 ;; wallet XGT_NULL_WALLET 0 ;;
  create t_escrow (λ e, mret
    (set_esc_pending_fee (mkAsset 5 XGT_SYMBOL) (set_esc_xgt_balance (mkAsset 40 XGT_SYMBOL)
      (set_esc_ratification_deadline 900 (set_esc_escrow_expiration 5000
        (set_esc_agent "carol" (set_esc_to "bob" (set_esc_from "alice" e)))))))) ;;
  create t_escrow (λ e, mret
    (set_esc_agent_approved true (set_esc_to_approved true
    (set_esc_xgt_balance (mkAsset 20 XGT_SYMBOL) (set_esc_escrow_id 1
      (set_esc_ratification_deadline 900 (set_esc_escrow_expiration 5000
        (set_esc_agent "carol" (set_esc_to "bob" (set_esc_from "alice" e)))))))))) ;;
  create t_contribution (λ c, mret (set_xcb_contribution (mkAsset 7 XGT_SYMBOL) (set_xcb_contributor "alice" c))) ;;
  mret tt.
Definition db : database := snd (setup empty_db).

Lemma empty_wf : wf_tables (tbl empty_db).
Proof. intros t. apply wf_empty. Qed.
Lemma db_wf : wf_tables (tbl db).
Proof.
  eapply quiet_wf, (run_quiet setup empty_db); [|apply empty_wf|apply surjective_pairing].
  intros d0. unfold setup, wallet. walk.
Qed.
Lemma db_inv : ledger_inv db.
Proof.
  split; [apply db_wf| |].
  - intros i e Hi. assert (Hc : is_Some (items t_escrow db !! i)) by eauto.
    apply elem_of_map_to_list in Hi. vm_compute in Hi.
    repeat (apply elem_of_cons in Hi as [[= -> ->]|Hi]; [by split|]). by apply not_elem_of_nil in Hi.
  - split; [|by vm_compute]. intros i x Hi. apply elem_of_map_to_list in Hi. vm_compute in Hi.
    by apply not_elem_of_nil in Hi.
Qed.
End Demo.

(** ** Conservation *)

(** C2: Whatever sequence of valid operations and automated actions is
    applied, the sum of all balances, escrows and contributions of an asset,
    less the recorded supply of a token, stays the same, except that each
    proof of work adds at most the base mining reward of XGT; escrows keep
    holding XGT only and have paid their fee once approved; and no unit of a
    user-issued token is ever issued or held. *)
Theorem assets_conserved `{Env} `{Node} `{!NodePromise} (l : list event) (s s' : database) :
  ledger_inv s → for_each l apply_event s = (Ok tt, s') →
  ledger_inv s' ∧
  (∀ sym, sym ≠ XGT_SYMBOL → ledger sym s' = ledger sym s) ∧
  ledger XGT_SYMBOL s ≤ ledger XGT_SYMBOL s' ≤
    ledger XGT_SYMBOL s + pow_count l * amount XGT_MINING_REWARD.
Proof.
  intros Hs Hr.
  pose (P := λ (rest : list event) x, ledger_inv x ∧
    (∀ sym, sym ≠ XGT_SYMBOL → ledger sym x = ledger sym s) ∧
    ledger XGT_SYMBOL s ≤ ledger XGT_SYMBOL x ∧
    ledger XGT_SYMBOL x + pow_count rest * amount XGT_MINING_REWARD ≤
      ledger XGT_SYMBOL s + pow_count l * amount XGT_MINING_REWARD).
  assert (Hp : P [] s').
  { apply (for_each_invariant P apply_event l s tt s'); [|unfold P; split_and!; done || lia|done].
    intros e rest x [] x' (Hi & Hne & Hlo & Hhi) He.
    destruct (event_ledger e x tt x' Hi He) as (Hi' & Hne' & Hlo' & Hhi').
    assert (Hc : pow_count (e :: rest) = pow_count [e] + pow_count rest).
    { unfold pow_count. simpl. destruct (is_pow e); simpl; lia. }
    rewrite Hc in Hhi. split_and!; [done| |lia|lia].
    intros sym Hs'. rewrite Hne', Hne by done. done. }
  destruct Hp as (Hi & Hne & Hlo & Hhi). change (pow_count []) with 0 in Hhi.
  split_and!; [done..|lia].
Qed.

Module ConservedDemo.
Definition events : list event :=
  [ev_operation (op_transfer (mkTransfer "alice" "bob" (mkAsset 30 XGT_SYMBOL) ""));
   ev_operation (op_escrow_release (mkEscrowRelease "alice" "bob" "carol" "alice" "bob" 1 (mkAsset 20 XGT_SYMBOL)))].
Definition result := for_each events apply_event Demo.db.
Lemma runs : for_each events apply_event Demo.db = (Ok tt, snd result).
Proof.
  change (for_each events apply_event Demo.db) with result.
  rewrite (surjective_pairing result) at 1. apply (f_equal (λ r, (r, snd result))).
  vm_compute. reflexivity.
Qed.
End ConservedDemo.

Lemma assets_conserved_witness : ledger XGT_SYMBOL (snd ConservedDemo.result) = 172.
Proof.
  pose proof (assets_conserved ConservedDemo.events Demo.db (snd ConservedDemo.result) Demo.db_inv) as Hc.
  assert (Hl : ledger XGT_SYMBOL Demo.db = 172) by (vm_compute; reflexivity).
  assert (Hn : pow_count ConservedDemo.events = 0) by reflexivity.
  pose proof ConservedDemo.runs as Hr.
  destruct (Hc Hr) as (_ & _ & Hb). rewrite Hl, Hn in Hb. lia.
Defined.

(** ** Escrows *)
Section escrows.
Context `{Env} `{Node} `{!NodePromise}.

(** Who may release to whom. *)
Definition may_release (o : escrow_release_operation) (e : escrow_object) (now : time_point_sec) : Prop :=
  if esc_disputed e then er_who o = esc_agent e
  else (er_who o = esc_from e ∨ er_who o = esc_to e) ∧
       (now < esc_escrow_expiration e →
          (er_who o = esc_from e → er_receiver o = esc_to e) ∧
          (er_who o = esc_to e → er_who o ≠ esc_from e → er_receiver o = esc_from e)).
Lemma release_allowed_rules o e now s u s' :
  Eval.release_allowed o e now s = (Ok u, s') → may_release o e now.
Proof.
  unfold Eval.release_allowed, may_release. intros Hr. destruct (esc_disputed e).
  - apply fc_assert_St_ok in Hr as [Hr _]. by bool_hyps.
  - apply St_bind_ok in Hr as ([] & s1 & Hw & Hr). apply fc_assert_St_ok in Hw as [Hw ->].
    apply orb_true_iff in Hw. split; [destruct Hw as [Hw|Hw]; bool_hyps; auto|]. intros Hlt.
    rewrite (proj2 (Z.ltb_lt _ _) Hlt) in Hr. unfold when in Hr.
    repeat case_bool_decide; try (apply fc_assert_St_ok in Hr as [Hr _]); bool_hyps; naive_solver.
Qed.
Lemma asset_sub_ok a b c : Asset.sub a b = Ok c → c = mkAsset (amount a - amount b) (symbol a).
Proof.
  unfold Asset.sub. intros Hs. inv_ok.
  match goal with H : Safe.sub _ _ = Ok _ |- _ => by apply safe_sub_value in H as -> end.
Qed.

(** A successful release: what was required, and what happened to the escrow. *)
Definition released (o : escrow_release_operation) (s s' : database) : Prop :=
  ∃ e p, Db.find_escrow (er_from o) (er_escrow_id o) s = Some e ∧ Db.dgp s = Some p ∧
    is_approved e = true ∧ er_to o = esc_to e ∧ er_agent o = esc_agent e ∧
    amount (er_xgt_amount o) ≤ amount (esc_xgt_balance e) ∧
    (er_receiver o = esc_from e ∨ er_receiver o = esc_to e) ∧
    may_release o e (dgp_time p) ∧
    (let rest := amount (esc_xgt_balance e) - amount (er_xgt_amount o) in
     items t_escrow s' =
       if rest =? 0 then delete (esc_id e) (items t_escrow s)
       else <[esc_id e := set_esc_xgt_balance (mkAsset rest (symbol (esc_xgt_balance e))) e]> (items t_escrow s)) ∧
    (symbol (er_xgt_amount o) = XGT_SYMBOL →
       credited (er_receiver o) (amount (er_xgt_amount o)) s s' ∧
       ∀ t, t ≠ t_wallet → t ≠ t_escrow → items t s' = items t s).
Lemma escrow_release_run o s s' : wf_tables (tbl s) → Eval.escrow_release o s = (Ok tt, s') →
  released o s s'.
Proof.
  intros Hwf Hr. apply capture_ok in Hr. inv_db.
  match goal with H : Eval.release_allowed _ _ _ _ = _ |- _ =>
    pose proof H as Hallow; apply release_allowed_reads in H as -> end.
  match goal with He : Db.find_escrow _ _ _ = Some ?e, Hp : Db.dgp _ = Some ?p |- _ =>
    exists e, p; pose proof He as Hfind; apply found_escrow in He as (Hesc & _ & _); [|done]; rename e into esc end.
  apply release_allowed_rules in Hallow. unfold Asset.ge, Asset.same_symbol in *. inv_ok. bool_hyps.
  do 6 (split; [done|]). split.
  { match goal with H : _ || _ = true |- _ => apply orb_true_iff in H as [?|?]; bool_hyps; auto end. }
  split; [done|].
  match goal with H : Db.adjust_balance _ _ _ = _ |- _ =>
    apply adjust_balance_escrows in H as Hs1; [|done]; rename H into Hadj end.
  match goal with H : modify _ _ _ _ = _ |- _ => apply modify_run in H as (v & v' & Hv & Hf & _ & Hi & Ho) end.
  rewrite Hs1 in Hv, Hi. pose proof (items_inj t_escrow _ _ _ _ Hv Hesc) as ->. inv_ok.
  match goal with H : Asset.sub _ _ = Ok _ |- _ => apply asset_sub_ok in H as -> end.
  match goal with H : items t_escrow _ !! _ = Some ?e |- _ =>
    simpl in Hi; rewrite Hi, lookup_insert_eq in H; injection H as <- end.
  match goal with H : when _ (remove _ _) ?x = (_, ?y) |- _ =>
    rename H into Hrem; assert (Ho' : only t_escrow x y) by (clear - Hrem; apply when_ok in Hrem as [[_ Hr]|[_ ->]];
      [by apply remove_run in Hr as (? & _ & _ & ?)|split; [by destruct x|done]]) end.
  split; [|intros Hsym; apply adjust_balance_credits in Hadj as [Hcr How]; [|done..]; split].
  - cbv zeta. apply when_ok in Hrem as [[Hz Hrem]|[Hz ->]]; simpl in Hz; rewrite Hz; [|done].
    apply remove_run in Hrem as (v & _ & Hd & _). rewrite Hd, Hi. simpl. apply delete_insert_eq.
  - eapply credited_same, Hcr. destruct Ho as [_ Ho], Ho' as [_ Ho']. by rewrite Ho', Ho.
  - intros t Hw He. by rewrite (only_items _ t _ _ Ho' He), (only_items _ t _ _ Ho He), (only_items _ t _ _ How Hw).
Qed.

(** C33: A release that succeeds was allowed: the escrow was approved by both
    parties and held enough; in a dispute only the agent may release; without
    one only the sender or the receiver, and before the expiration only to the
    other party.  The released amount leaves the escrow, which disappears when
    it is empty and keeps the rest otherwise; the wallet named as receiver gets
    exactly that amount (of XGT, the only symbol that validation admits), and
    nothing else changes: no other wallet, no other table. *)
Theorem escrow_release_rules o s s' : wf_tables (tbl s) → Eval.escrow_release o s = (Ok tt, s') →
  ∃ e p, Db.find_escrow (er_from o) (er_escrow_id o) s = Some e ∧ Db.dgp s = Some p ∧
    is_approved e = true ∧ er_to o = esc_to e ∧ er_agent o = esc_agent e ∧
    amount (er_xgt_amount o) ≤ amount (esc_xgt_balance e) ∧
    (er_receiver o = esc_from e ∨ er_receiver o = esc_to e) ∧
    may_release o e (dgp_time p) ∧
    (let rest := amount (esc_xgt_balance e) - amount (er_xgt_amount o) in
     items t_escrow s' =
       if rest =? 0 then delete (esc_id e) (items t_escrow s)
       else <[esc_id e := set_esc_xgt_balance (mkAsset rest (symbol (esc_xgt_balance e))) e]> (items t_escrow s)) ∧
    (symbol (er_xgt_amount o) = XGT_SYMBOL →
       credited (er_receiver o) (amount (er_xgt_amount o)) s s' ∧
       ∀ t, t ≠ t_wallet → t ≠ t_escrow → items t s' = items t s).
Proof. apply escrow_release_run. Qed.

(** An escrow [e] under id [i], in a well-formed state whose head block has
    time [now]. *)
Definition holds_escrow (i : Z) (e : escrow_object) (now : time_point_sec) (s : database) : Prop :=
  wf_tables (tbl s) ∧ items t_escrow s !! i = Some e ∧ ∃ p, Db.dgp s = Some p ∧ dgp_time p = now.

Section stuck.
Context (i : Z) (e : escrow_object) (now : time_point_sec).
Abbreviation P := (holds_escrow i e now).

Lemma frame_holds ts s s' : frame ts s s' → t_escrow ∉ ts → t_dgp ∉ ts → wf_tables (tbl s') →
  P s → P s'.
Proof.
  intros Hf He Hd Hwf' (_ & Hi & Hp). split; [done|].
  by rewrite (frame_items _ _ _ _ Hf He); unfold Db.dgp; rewrite (frame_items _ _ _ _ Hf Hd).
Qed.
Lemma other_table_holds {A} t (m : St (Chainbase.generic_index (obj t)) A) :
  (∀ d0, preserves (λ s, quiet d0 (tbl s)) (at_table t m)) → t ≠ t_escrow → t ≠ t_dgp →
  preserves P (at_table t m).
Proof.
  intros Hq Hne Hnd s Hs. destruct (at_table t m s) as [r s'] eqn:E. simpl.
  apply (frame_holds [t] s); [|set_solver..| |done].
  - apply at_table_run in E as [_ Ho]. eapply only_frame; [done|set_solver].
  - eapply quiet_wf, run_quiet; [exact Hq|apply Hs|exact E].
Qed.
Lemma modify_other_holds j f : j ≠ i → stable f → preserves P (modify t_escrow j f).
Proof.
  intros Hj Hst s (Hwf & Hi & Hp). destruct (modify t_escrow j f s) as [r s'] eqn:E. simpl.
  assert (Hwf' : wf_tables (tbl s')).
  { eapply quiet_wf, run_quiet; [|done|exact E]. intros d0. by apply modify_quiet. }
  assert (only t_escrow s s' ∧ items t_escrow s' !! i = Some e) as [Ho Hi'].
  { destruct r as [u|x]; [|apply modify_failed in E as [? ->]; done].
    apply modify_run in E as (v & v' & Hv & _ & _ & Hit & Ho).
    pose proof (items_id _ _ _ _ Hwf Hv) as Hid. split; [done|].
    rewrite Hit, Hid. by rewrite lookup_insert_ne. }
  split; [done|]. split; [done|]. unfold Db.dgp. by rewrite (only_items _ t_dgp _ _ Ho).
Qed.
Lemma remove_other_holds j : j ≠ i → preserves P (remove t_escrow j).
Proof.
  intros Hj s (Hwf & Hi & Hp). destruct (remove t_escrow j s) as [r s'] eqn:E. simpl.
  assert (Hwf' : wf_tables (tbl s')).
  { eapply quiet_wf, run_quiet; [|done|exact E]. intros d0. by apply remove_quiet. }
  pose proof (at_table_run _ _ _ _ _ E) as [_ Ho]. split; [done|]. split.
  - destruct r as [u|x].
    + apply remove_run in E as (v & _ & Hit & _). by rewrite Hit, lookup_delete_ne.
    + apply at_table_run in E as [Hm _]. unfold Chainbase.remove in Hm. unfold items.
      destruct (Chainbase.indices (tbl s t_escrow) !! j); [done|]. by injection Hm as _ <-.
  - unfold Db.dgp. by rewrite (only_items _ t_dgp _ _ Ho).
Qed.
Lemma adjust_balance_holds name delta : preserves P (Db.adjust_balance name delta).
Proof.
  intros s Hs. destruct (Db.adjust_balance name delta s) as [r s'] eqn:E. simpl.
  apply (frame_holds liquid_tables s); [|by_decide..| |done].
  - eapply frame_run; [|exact E]. intros s0. walk.
  - eapply quiet_wf, run_quiet; [|apply Hs|exact E]. intros d0. apply adjust_balance_quiet.
Qed.
Lemma adjust_balance_of_holds a delta : preserves P (Db.adjust_balance_of a delta).
Proof.
  intros s Hs. destruct (Db.adjust_balance_of a delta s) as [r s'] eqn:E. simpl.
  apply (frame_holds liquid_tables s); [|by_decide..| |done].
  - eapply frame_run; [|exact E]. intros s0. walk.
  - eapply quiet_wf, run_quiet; [|apply Hs|exact E]. intros d0. apply adjust_balance_of_quiet.
Qed.
Lemma create_escrow_holds f s v s' : keeps_id f → P s → create t_escrow f s = (Ok v, s') → P s'.
Proof.
  intros Hid (Hwf & Hi & Hp) E.
  assert (Hwf' : wf_tables (tbl s')).
  { eapply quiet_wf, run_quiet; [|done|exact E]. intros d0. by apply create_quiet. }
  apply create_run in E as (_ & Hnew & _ & Hit & Ho). split; [done|]. split.
  - rewrite Hit. rewrite lookup_insert_ne; [done|]. intros Heq. rewrite Heq in Hnew.
    discriminate (eq_trans (eq_sym Hi) Hnew).
  - unfold Db.dgp. by rewrite (only_items _ t_dgp _ _ Ho).
Qed.
Lemma modify_dgp_holds j f : stable (V:=obj t_dgp) f →
  (∀ p p', f p = Ok p' → dgp_time p' = dgp_time p) → preserves P (modify t_dgp j f).
Proof.
  intros Hst Ht s (Hwf & Hi & p & Hp & Hnow). destruct (modify t_dgp j f s) as [r s'] eqn:E. simpl.
  assert (Hwf' : wf_tables (tbl s')).
  { eapply quiet_wf, run_quiet; [|done|exact E]. intros d0. by apply modify_quiet. }
  pose proof (at_table_run _ _ _ _ _ E) as [_ Ho]. split; [done|].
  rewrite (only_items _ t_escrow _ _ Ho) by done. split; [done|]. unfold Db.dgp in *. destruct r as [u|x].
  - apply modify_run in E as (v & v' & Hv & Hf & _ & Hit & _).
    pose proof (items_id _ _ _ _ Hwf Hv) as Hid. rewrite Hid in Hit. rewrite Hit.
    destruct (decide (j = 0)) as [->|Hj]; [|rewrite lookup_insert_ne by done; eauto].
    rewrite lookup_insert_eq. exists v'. split; [done|]. rewrite (Ht _ _ Hf).
    pose proof (items_inj t_dgp _ _ _ _ Hv Hp) as ->. done.
  - apply modify_failed in E as [_ ->]. eauto.
Qed.
Lemma create_other_holds t f : keeps_id f → t ≠ t_escrow → t ≠ t_dgp → preserves P (create t f).
Proof. intros Hf. apply other_table_holds. intros d0. by apply create_quiet. Qed.
Lemma modify_table_holds t j f : stable f → t ≠ t_escrow → t ≠ t_dgp → preserves P (modify t j f).
Proof. intros Hf. apply other_table_holds. intros d0. by apply modify_quiet. Qed.
Lemma pow_holds o : preserves P (Eval.pow o).
Proof.
  unfold Eval.pow, Eval.create_worker, Eval.reward_worker, Eval.create_wallet, Eval.get_hardfork.
  walk; first
    [ apply adjust_balance_holds
    | apply modify_dgp_holds; [solve_modifier|by intros p p' [= <-]]
    | apply create_other_holds; [first [solve_witness|solve_modifier]|done..]
    | apply modify_table_holds; [solve_witness|done..] ].
Qed.

(** The only operations that could touch the escrow refuse it. *)
Hypothesis Hopen : is_approved e = false.
Hypothesis Hlate : esc_ratification_deadline e < now.

Lemma other_escrow s from n e' : P s → Db.find_escrow from n s = Some e' →
  esc_id e' = i → e' = e.
Proof.
  intros (Hwf & Hi & _) [He' _]%found_escrow Hid; [|done]. rewrite Hid in He'.
  by apply (items_inj t_escrow s i).
Qed.
Lemma found_now s p : P s → Db.dgp s = Some p → dgp_time p = now.
Proof. intros (_ & _ & p' & Hp' & Hn) Hp. congruence. Qed.

Lemma approve_holds o s u s' : P s → Eval.escrow_approve o s = (Ok u, s') → P s'.
Proof.
  intros Hs Hr. apply capture_ok in Hr.
  apply St_bind_ok in Hr as (e' & s1 & Hg & Hr). apply get_or_run in Hg as [Hg ->].
  do 2 (apply St_bind_ok in Hr as ([] & s1 & Ha & Hr); apply fc_assert_St_ok in Ha as [_ ->]).
  apply St_bind_ok in Hr as (t & s1 & Ht & Hr). unfold Db.head_block_time in Ht. inv_db.
  match goal with H : Db.dgp _ = Some _ |- _ => apply (found_now _ _ Hs) in H end.
  assert (Hne : esc_id e' ≠ i).
  { intros Hid. pose proof (other_escrow _ _ _ _ Hs Hg Hid) as ->. bool_hyps. lia. }
  match goal with H : _ s = (Ok u, s') |- _ => cbv zeta in H; rename H into Hr end.
  eapply (preserves_run P); [|exact Hs|exact Hr]. walk;
    first [apply modify_other_holds; [done|solve_modifier]|apply remove_other_holds; done
          |apply adjust_balance_holds].
Qed.

Lemma dispute_holds o s u s' : P s → Eval.escrow_dispute o s = (Ok u, s') → P s'.
Proof.
  intros Hs Hr. apply capture_ok in Hr. inv_db.
  match goal with Hg : Db.find_escrow _ _ _ = Some ?e' |- _ =>
    assert (Hne : esc_id e' ≠ i);
    [intros Hid; pose proof (other_escrow _ _ _ _ Hs Hg Hid) as ->; congruence|] end.
  match goal with Hm : modify _ _ _ _ = _ |- _ => eapply (preserves_run P); [|exact Hs|exact Hm] end.
  apply modify_other_holds; [done|solve_modifier].
Qed.
Lemma release_holds o s s' : P s → Eval.escrow_release o s = (Ok tt, s') → P s'.
Proof.
  intros Hs Hr. pose proof Hs as (Hwf & Hi & p & Hp & Hn).
  assert (Hwf' : wf_tables (tbl s')).
  { eapply quiet_wf, run_quiet; [|done|exact Hr]. intros d0. apply escrow_release_quiet. }
  pose proof (frame_run _ _ _ _ _ (apply_operation_frame (op_escrow_release o)) Hr) as Hf.
  destruct (escrow_release_run o s s' Hwf Hr) as (e' & p' & Hg & _ & Ha & _ & _ & _ & _ & _ & Hit & _).
  assert (Hne : esc_id e' ≠ i).
  { intros Hid. pose proof (other_escrow _ _ _ _ Hs Hg Hid) as ->. congruence. }
  split; [done|]. split.
  - rewrite Hit. case_match; [by rewrite lookup_delete_ne|by rewrite lookup_insert_ne].
  - unfold Db.dgp. rewrite (frame_items _ t_dgp _ _ Hf) by by_decide. eauto.
Qed.
Lemma escrow_transfer_holds o s u s' : P s → Eval.escrow_transfer o s = (Ok u, s') → P s'.
Proof.
  intros Hs Hr. apply capture_ok in Hr. inv_db.
  match goal with Ha : Db.adjust_balance_of _ _ _ = _, Hc : create _ _ _ = _ |- _ =>
    eapply create_escrow_holds; [| |exact Hc]; [solve_modifier|];
    eapply (preserves_run P); [apply adjust_balance_of_holds|exact Hs|exact Ha] end.
Qed.

Lemma event_holds ev s u s' : P s → apply_event ev s = (Ok u, s') → P s'.
Proof.
  intros Hs Hr. pose proof (apply_event_wf _ _ _ _ (proj1 Hs) Hr) as Hwf'.
  pose proof (frame_run _ _ _ _ _ (apply_event_frame ev) Hr) as Hf. destruct u.
  destruct ev as [op|a]; [|by eapply frame_holds; [exact Hf|by_decide..| |]].
  simpl in Hr. apply St_bind_ok in Hr as ([] & s1 & Hv & Hr). apply lift_ok in Hv as [_ ->].
  destruct op; cbn [Registry.apply_operation] in Hr; cbn [event_tables touched] in Hf;
    lazymatch type of Hr with
    | Eval.escrow_transfer _ _ = _ => by eapply escrow_transfer_holds
    | Eval.escrow_approve _ _ = _ => by eapply approve_holds
    | Eval.escrow_dispute _ _ = _ => by eapply dispute_holds
    | Eval.escrow_release _ _ = _ => by eapply release_holds
    | Eval.pow _ _ = _ => by eapply (preserves_run P), Hr; [apply pow_holds|]
    | _ => by eapply frame_holds; [exact Hf|by_decide..| |]
    end.
Qed.
End stuck.
End escrows.

Module ReleaseDemo.
Definition op : escrow_release_operation :=
  mkEscrowRelease "alice" "bob" "carol" "alice" "bob" 1 (mkAsset 15 XGT_SYMBOL).
Definition after : database := snd (Eval.escrow_release op Demo.db).
Lemma late : ∃ e p, Db.dgp Demo.db = Some p ∧ items t_escrow Demo.db !! 0 = Some e ∧
  is_approved e = false ∧ esc_ratification_deadline e < dgp_time p.
Proof.
  eexists _, _. split; [vm_compute; reflexivity|]. split; [vm_compute; reflexivity|].
  split; vm_compute; reflexivity.
Qed.
End ReleaseDemo.

Lemma escrow_release_rules_witness :
  (∃ e, Db.find_escrow "alice" 1 Demo.db = Some e ∧ is_approved e = true ∧
    amount (esc_xgt_balance e) = 20) ∧
  credited "bob" 15 Demo.db ReleaseDemo.after.
Proof.
  assert (Hr : Eval.escrow_release ReleaseDemo.op Demo.db = (Ok tt, ReleaseDemo.after)).
  { unfold ReleaseDemo.after. rewrite (surjective_pairing (Eval.escrow_release _ _)) at 1.
    apply (f_equal (λ r, (r, snd (Eval.escrow_release ReleaseDemo.op Demo.db)))). vm_compute. reflexivity. }
  destruct (escrow_release_rules ReleaseDemo.op Demo.db _ Demo.db_wf Hr)
    as (e & p & He & _ & Ha & _ & _ & _ & _ & _ & _ & Hc). split; [|exact (proj1 (Hc eq_refl))].
  exists e. split_and!; [exact He|exact Ha|]. vm_compute in He. by injection He as <-.
Defined.

(** An escrow that was not ratified in time is stuck: once the head block
    is past the ratification deadline, no sequence of operations and automated
    actions changes or removes it, so what the sender put in is never paid out
    or returned.  ([expire_escrow_ratification], which would return it, is not
    called when a block is applied.) *)
Theorem unratified_escrow_stuck `{Env} `{Node} `{!NodePromise} (l : list event) (s s' : database) i e p :
  wf_tables (tbl s) → Db.dgp s = Some p → items t_escrow s !! i = Some e →
  is_approved e = false → esc_ratification_deadline e < dgp_time p →
  for_each l apply_event s = (Ok tt, s') → items t_escrow s' !! i = Some e.
Proof.
  intros Hwf Hp Hi Ha Hlate Hr.
  assert (Hs : holds_escrow i e (dgp_time p) s) by (split_and!; eauto).
  assert (Hs' : holds_escrow i e (dgp_time p) s') by
    (eapply (for_each_invariant (λ _, holds_escrow i e (dgp_time p))); [|exact Hs|exact Hr];
     intros; by eapply event_holds).
  apply Hs'.
Qed.

Lemma unratified_escrow_stuck_witness :
  items t_escrow (snd ConservedDemo.result) !! 0 = items t_escrow Demo.db !! 0.
Proof.
  pose proof ConservedDemo.runs as Hr.
  destruct ReleaseDemo.late as (e & p & Hp & He & Ha & Hlate).
  exact (eq_trans
    (unratified_escrow_stuck ConservedDemo.events Demo.db _ 0 e p Demo.db_wf Hp He Ha Hlate Hr)
    (eq_sym He)).
Defined.

(** ** Contributions to an ICO *)

Lemma contribute_grows o s u s' : Xtt.xtt_contribute o s = (Ok u, s') →
  items t_contribution s ⊆ items t_contribution s'.
Proof.
  intros Hr. unfold Xtt.xtt_contribute in Hr. inv_db.
  match goal with H : Xtt.find_token _ _ _ = _ |- _ =>
    apply reads_run in H as ->; [|intros I; apply find_token_reads] end.
  repeat (case_match; inv_db; try discriminate).
  match goal with Ha : Db.adjust_balance _ _ _ = _, Hm : modify _ _ _ _ = _, Hc : create _ _ _ = _ |- _ =>
    apply (frame_run liquid_tables) in Ha; [|intros s0; walk];
    apply (frame_run [t_ico]) in Hm; [|intros s0; walk];
    apply create_run in Hc as (_ & Hnew & _ & Hi & _);
    rewrite (frame_items _ t_contribution _ _ Hm) by by_decide; rewrite Hi;
    rewrite (frame_items _ t_contribution _ _ Ha) in Hnew |- * by by_decide end.
  by apply insert_subseteq.
Qed.
Lemma event_contributions `{Env} `{Node} `{!NodePromise} ev s u s' : apply_event ev s = (Ok u, s') →
  items t_contribution s ⊆ items t_contribution s'.
Proof.
  intros He. pose proof (frame_run _ _ _ _ _ (apply_event_frame ev) He) as Hf.
  destruct (decide (t_contribution ∈ event_tables ev)) as [Hin|Hin];
    [|by rewrite (frame_items _ _ _ _ Hf Hin)].
  destruct ev as [op|a]; [|by apply (bool_decide_pack _) in Hin; vm_compute in Hin].
  simpl in He. apply St_bind_ok in He as ([] & s1 & Hv & He). apply lift_ok in Hv as [_ ->].
  destruct op; try by (apply (bool_decide_pack _) in Hin; vm_compute in Hin).
  by eapply contribute_grows.
Qed.

(** A contribution is never given back or paid out: no sequence of
    operations and automated actions, a failed ICO evaluation and a refund
    action included, removes or changes a contribution. *)
Theorem contributions_stay `{Env} `{Node} `{!NodePromise} (l : list event) (s s' : database) :
  wf_tables (tbl s) → for_each l apply_event s = (Ok tt, s') →
  items t_contribution s ⊆ items t_contribution s'.
Proof.
  intros Hwf Hr.
  apply (for_each_invariant (λ _ x, items t_contribution s ⊆ items t_contribution x) apply_event l s tt s');
    [|done|done].
  intros ev _ x [] x' Hx He. etrans; [exact Hx|]. by eapply event_contributions.
Qed.

Lemma contributions_stay_witness :
  items t_contribution Demo.db ⊆ items t_contribution (snd ConservedDemo.result).
Proof.
  exact (contributions_stay ConservedDemo.events Demo.db _ Demo.db_wf ConservedDemo.runs).
Defined.

(** ** Contracts *)

Lemma contract_hash_taken o i c s : items t_contract s !! i = Some c →
  ct_contract_hash c = null_block_id →
  ∃ s', Eval.contract_create o s = (Exc LogicError, s') ∧ items t_contract s' = items t_contract s.
Proof.
  intros Hi Hc. unfold Eval.contract_create. rewrite bind_run.
  destruct (create t_contract _ s) as [[v|e] s'] eqn:E.
  - exfalso. apply create_run in E as ([= <-] & _ & Hk & _).
    apply (Hk i c (inr null_block_id) Hi); simpl; rewrite ?Hc; set_solver.
  - exists s'. pose proof (create_failed _ _ _ _ _ E) as [_ Hit]. split; [|done]. f_equal. f_equal.
    apply at_table_run in E as [Hm _]. unfold Chainbase.emplace in Hm. simpl in Hm.
    destruct (Chainbase.container_emplace _ _); [done|]. by injection Hm as <- _.
Qed.

(** Only one contract can ever be created: a stored contract always has the
    default hash, which is a unique key, so that any further creation throws
    and changes nothing. *)
Theorem one_contract_only o o' s s1 r s2 :
  Eval.contract_create o s = (Ok tt, s1) → Eval.contract_create o' s1 = (r, s2) →
  r = Exc LogicError ∧ items t_contract s2 = items t_contract s1.
Proof.
  intros Hc Hc'. unfold Eval.contract_create in Hc.
  apply St_bind_ok in Hc as (c & s1' & Hc & [= ->]).
  apply create_run in Hc as ([= <-] & _ & _ & Hi & _).
  edestruct (contract_hash_taken o') as (s3 & Hr & Hit); [rewrite Hi; apply lookup_insert_eq|done|].
  rewrite Hr in Hc'. by injection Hc' as <- <-.
Qed.

Lemma one_contract_only_witness :
  fst (Eval.contract_create (mkContractCreate "bob" [])
        (snd (Eval.contract_create (mkContractCreate "alice" []) Demo.db))) = Exc LogicError.
Proof.
  apply (one_contract_only (mkContractCreate "alice" []) (mkContractCreate "bob" []) Demo.db
    (snd (Eval.contract_create (mkContractCreate "alice" []) Demo.db)) _
    (snd (Eval.contract_create (mkContractCreate "bob" [])
        (snd (Eval.contract_create (mkContractCreate "alice" []) Demo.db))))).
  - rewrite (surjective_pairing (Eval.contract_create _ Demo.db)) at 1. f_equal.
  - apply surjective_pairing.
Defined.

(** ** Transfers to an unknown wallet *)

(** The authority that opening a wallet for [name] creates on a node. *)
Lemma create_receiver_authority `{Node} name s u s' :
  Eval.create_receiver name s = (Ok u, s') →
  ∃ a, items t_authority s' !! Chainbase.next_id (tbl s t_authority) = Some a ∧ aa_account a = name ∧
    key_auths (aa_recovery a) = [(entropy s (rand_count s), 1)].
Proof.
  intros Hr. unfold Eval.create_receiver in Hr.
  do 4 (apply St_bind_ok in Hr as (? & ? & [= <- <-] & Hr)).
  apply St_bind_ok in Hr as (u1 & s1 & Hw & Hr).
  apply (frame_run [t_wallet]) in Hw; [|intros s0; unfold Eval.create_wallet, Eval.get_hardfork; walk].
  unfold Eval.create_authority in Hr. apply St_bind_ok in Hr as (a & s2 & Hc & [= _ ->]).
  apply create_run in Hc as ([= <-] & _ & _ & Hi & _).
  destruct Hw as [Ht _]. rewrite (Ht t_authority ltac:(by_decide)) in Hi. simpl in Hi.
  eexists. split; [rewrite Hi; apply lookup_insert_eq|done].
Qed.

(** A transfer to an unknown wallet does not have one result: the wallet it
    opens gets keys from the generator of the node that applies the transfer,
    so two nodes that apply the same transfer to the same state end up with
    different authorities for the receiver. *)
Theorem receiver_keys_differ `{Node} (e1 e2 : Z → public_key_type) o s s1 s2 :
  Db.find_account (tr_to o) s = None → e1 (rand_count s) ≠ e2 (rand_count s) →
  Eval.transfer o (set_entropy e1 s) = (Ok tt, s1) → Eval.transfer o (set_entropy e2 s) = (Ok tt, s2) →
  ∃ i a1 a2, items t_authority s1 !! i = Some a1 ∧ items t_authority s2 !! i = Some a2 ∧
    aa_account a1 = tr_to o ∧ aa_account a2 = tr_to o ∧ aa_recovery a1 ≠ aa_recovery a2.
Proof.
  intros Hnew Hk Hr1 Hr2.
  assert (Hrun : ∀ e s', Eval.transfer o (set_entropy e s) = (Ok tt, s') → ∃ a,
    items t_authority s' !! Chainbase.next_id (tbl s t_authority) = Some a ∧ aa_account a = tr_to o ∧
    key_auths (aa_recovery a) = [(e (rand_count s), 1)]).
  { intros e s' Hr. unfold Eval.transfer in Hr. change (Db.find_account (tr_to o) s) with (Db.find_account (tr_to o) (set_entropy e s)) in Hnew.
    apply St_bind_ok in Hr as (w & s0 & [= <- <-] & Hr). rewrite Hnew in Hr.
    apply St_bind_ok in Hr as (u & s3 & Hc & Hr). apply create_receiver_authority in Hc as (a & Ha & Hx).
    apply (frame_run liquid_tables) in Hr; [|intros s0; walk].
    exists a. rewrite (frame_items _ t_authority _ _ Hr) by by_decide. exact (conj Ha Hx). }
  destruct (Hrun e1 s1 Hr1) as (a1 & Hi1 & Hn1 & Hk1), (Hrun e2 s2 Hr2) as (a2 & Hi2 & Hn2 & Hk2).
  exists (Chainbase.next_id (tbl s t_authority)), a1, a2. split_and!; try done.
  intros Heq. rewrite Heq, Hk2 in Hk1. injection Hk1 as Hk1. done.
Qed.

Module KeysDemo.
Definition op : transfer_operation := mkTransfer "alice" "dave" (mkAsset 30 XGT_SYMBOL) "".
Definition on (e : Z) : result unit * database := (Eval.transfer op) (set_entropy (λ n, e + n) Demo.db).
Lemma on_ok e : e = 1000 ∨ e = 2000 → on e = (Ok tt, snd (on e)).
Proof.
  intros He. rewrite (surjective_pairing (on e)) at 1. apply (f_equal (λ r, (r, snd (on e)))).
  destruct He as [-> | ->]; vm_compute; reflexivity.
Qed.
End KeysDemo.
Lemma receiver_keys_differ_witness : ∃ i a1 a2,
  items t_authority (snd (KeysDemo.on 1000)) !! i = Some a1 ∧
  items t_authority (snd (KeysDemo.on 2000)) !! i = Some a2 ∧
  aa_recovery a1 ≠ aa_recovery a2.
Proof.
  destruct (receiver_keys_differ (λ n, 1000 + n) (λ n, 2000 + n) KeysDemo.op Demo.db
    (snd (KeysDemo.on 1000)) (snd (KeysDemo.on 2000)))
    as (i & a1 & a2 & H1 & H2 & _ & _ & Hne).
  - vm_compute. reflexivity.
  - vm_compute. discriminate.
  - apply (KeysDemo.on_ok 1000). by left.
  - apply (KeysDemo.on_ok 2000). by right.
  - exists i, a1, a2. split; [exact H1|]. split; [exact H2|exact Hne].
Defined.
