(* ===== verification/Apply.v ===== *)
(** * Applying transactions and blocks

    libraries/chain/database.cpp: [push_transaction], [_apply_transaction],
    [push_block], [_push_block], [pop_block], [_apply_block] and what they
    call; libraries/chain/include/xgt/chain/db_with.hpp: the scopes that set
    skip flags and put pending transactions back.

    A C++ scope object is a combinator here: [with_skip_flags] restores the
    flags, [with_session] undoes the session, both when the body throws. *)
From S2P Require Import Prelude Safe Chainbase Asset Protocol SignState Block ForkDatabase ResourceDynamics Objects Database Ledger Evaluators EvaluatorFacts Xtt Operations.

(** ** Members *)
Definition set_fork_db (v : ForkDb.fork_database) (s : database) : database :=
  mkDb (tbl s) v (block_log s) (pending_tx s) (pending_tx_session s) (popped_tx s)
    (skip_flags s) (is_producing s) (is_pending_tx s) (checkpoints s) (entropy s) (rand_count s).
Definition set_block_log (v : list signed_block) (s : database) : database :=
  mkDb (tbl s) (fork_db s) v (pending_tx s) (pending_tx_session s) (popped_tx s)
    (skip_flags s) (is_producing s) (is_pending_tx s) (checkpoints s) (entropy s) (rand_count s).
Definition set_pending_tx (v : list signed_transaction) (s : database) : database :=
  mkDb (tbl s) (fork_db s) (block_log s) v (pending_tx_session s) (popped_tx s)
    (skip_flags s) (is_producing s) (is_pending_tx s) (checkpoints s) (entropy s) (rand_count s).
Definition set_pending_tx_session (v : bool) (s : database) : database :=
  mkDb (tbl s) (fork_db s) (block_log s) (pending_tx s) v (popped_tx s)
    (skip_flags s) (is_producing s) (is_pending_tx s) (checkpoints s) (entropy s) (rand_count s).
Definition set_popped_tx (v : list signed_transaction) (s : database) : database :=
  mkDb (tbl s) (fork_db s) (block_log s) (pending_tx s) (pending_tx_session s) v
    (skip_flags s) (is_producing s) (is_pending_tx s) (checkpoints s) (entropy s) (rand_count s).
Definition set_skip_flags (v : Z) (s : database) : database :=
  mkDb (tbl s) (fork_db s) (block_log s) (pending_tx s) (pending_tx_session s) (popped_tx s)
    v (is_producing s) (is_pending_tx s) (checkpoints s) (entropy s) (rand_count s).
Definition set_modes (v : bool) (s : database) : database :=
  mkDb (tbl s) (fork_db s) (block_log s) (pending_tx s) (pending_tx_session s) (popped_tx s)
    (skip_flags s) v v (checkpoints s) (entropy s) (rand_count s).
Definition update (f : database → database) : DB unit := λ s, (Ok tt, f s).
Definition on_fork {A} (m : St ForkDb.fork_database A) : DB A := λ s,
  let '(r, d) := m (fork_db s) in (r, set_fork_db d s).

(** ** Skip flags *)
Definition skip_witness_signature : Z := 1.
Definition skip_transaction_signatures : Z := 2.
Definition skip_transaction_dupe_check : Z := 4.
Definition skip_fork_db : Z := 8.
Definition skip_block_size_check : Z := 16.
Definition skip_tapos_check : Z := 32.
Definition skip_authority_check : Z := 64.
Definition skip_merkle_check : Z := 128.
Definition skip_undo_history_check : Z := 256.
Definition skip_witness_schedule_check : Z := 512.
Definition skip_validate : Z := 1024.
Definition skip_validate_invariants : Z := 2048.
Definition skip_undo_block : Z := 4096.
Definition skip_block_log : Z := 8192.
Definition flag (skip f : Z) : bool := negb (Z.land skip f =? 0).

Definition XGT_MAX_TIME_UNTIL_EXPIRATION : Z := 60 * 60.
Definition XGT_MAX_WITNESSES : Z := 10.
Definition XGT_MAX_UNDO_HISTORY : Z := 151200.
Definition XGT_MAX_TRANSACTION_SIZE : Z := 1024 * 64.
Definition XGT_MAX_BLOCK_SIZE : Z := XGT_MAX_TRANSACTION_SIZE * XGT_BLOCK_INTERVAL * 2000.
Definition XGT_REVERSE_AUCTION_WINDOW_SECONDS : Z := 60 * 5.
Definition XGT_MINING_TARGET_START : Z := 0xffff * 2 ^ 216.
Definition XGT_MINING_TARGET_MAX : Z := 0xffff * 2 ^ 220.
Definition XGT_MINING_RECALC_EVERY_N_BLOCKS : Z := 302400.

(** What the node gets from its floating-point library and its clock: the
    target scaled by the ratio of the expected to the actual time of a period,
    before it is capped; and whether the time for putting pending transactions
    back is over when a transaction's turn comes. *)
Class Platform := {
  scaled_target : Z → Z → Z;
  out_of_time : signed_transaction → bool
}.

(** shared_db_merkle.hpp *)
Definition get_shared_db_merkle : list (Z * checksum_type) :=
  [(3705111, [0xd50f8f0a; 0x06370c45; 0xba8c8bec; 0x0bcd95d7; 0x35bf7936]);
   (3705120, [0xb7ed2720; 0x701f672b; 0x4cccc811; 0xc3598b7a; 0x9350309b]);
   (3713940, [0x511d8abf; 0x06c52769; 0xb3b7dbeb; 0x992eef8b; 0x5f433524]);
   (3714132, [0x7377b7e8; 0x2cb768d2; 0x3703658d; 0x60e3ccb8; 0x7947e6bb]);
   (3714567, [0xa859af45; 0xa6d4d7c2; 0xf51e1506; 0x2d3de0da; 0xddfb13fe]);
   (3714588, [0x447542e6; 0xf182dc3b; 0x6493ac04; 0xaf67d386; 0x84156d8f]);
   (4138790, [0x783a5af6; 0x24f52e8a; 0x57bad806; 0x8b28d705; 0x3f4028e2]);
   (5435426, [0x8b53320b; 0x31bd222d; 0x6e4bd546; 0x8baeb53c; 0xa5e88097])].
Definition merkle_entry (n : Z) : option checksum_type :=
  snd <$> List.find (λ p, p.1 =? n) get_shared_db_merkle.

(** ** Scopes *)
Definition with_skip_flags {A} (skip : Z) (m : DB A) : DB A :=
  old ← gets skip_flags;
  update (set_skip_flags skip) ;;
  a ← try_catch m (λ e, update (set_skip_flags old) ;; mthrow e);
  update (set_skip_flags old) ;;
  mret a.
(** A session that is dropped undoes its changes; an exception out of a
    destructor ends the program. *)
Definition drop_session : DB unit := try_catch (on_base Base.undo) (λ _, mthrow Fault).
Definition with_session {A} (m : DB A) : DB A :=
  on_base Base.start_undo_session ;;
  try_catch m (λ e, drop_session ;; mthrow e).

Module Apply.
Section with_node.
Context `{Env} `{Node} `{Platform}.

(** ** Transactions *)
Definition authority_getter (f : account_authority_object → authority) (s : database) :
    SignState.authority_getter := λ name,
  match Db.find_authority name s with Some a => Ok (f a) | None => Exc OutOfRange end.

Definition get_worker_name (o : pow_operation) : wallet_name_type :=
  match work o with
  | work_pow input _ => worker_account input
  | work_sha2_pow input _ _ _ => worker_account input
  end.

(** A [flat_set] of keys is sorted. *)
Fixpoint insert_key (k : public_key_type) (l : list public_key_type) : list public_key_type :=
  match l with
  | [] => [k]
  | k' :: l' => if k <? k' then k :: l else k' :: insert_key k l'
  end.
Definition signature_keys (tx : signed_transaction) : result (list public_key_type) :=
  keys ← SignState.get_signature_keys fc_canonical tx (signatures tx) [];
  mret (foldr insert_key [] keys).

(** The loop over the operations that looks at the keys itself; a
    [wallet_create_operation] ends it. *)
Fixpoint check_operation_keys (tx : signed_transaction) (ops : list operation) : DB unit :=
  match ops with
  | [] => mret tt
  | op :: ops =>
      match op with
      | op_pow o =>
          key_set ← lift (signature_keys tx);
          auth ← Db.get_authority (get_worker_name o);
          assert_or (existsb (λ k, bool_decide (k ∈ key_set)) (Authority.get_keys (aa_money auth)) ||
                     existsb (λ k, bool_decide (k ∈ key_set)) (Authority.get_keys (aa_recovery auth)))
            FcException ;;
          check_operation_keys tx ops
      | op_wallet_create _ => mret tt
      | op_wallet_update o =>
          Db.get_authority (wu_wallet o) ;;
          key_set ← lift (signature_keys tx);
          assert_or (bool_decide (wu_wallet o = wallet_name_of_keys key_set)) FcException ;;
          check_operation_keys tx ops
      | _ => check_operation_keys tx ops
      end
  end.

Definition verify_signatures (tx : signed_transaction) : DB unit :=
  s ← get_st;
  lift (SignState.tx_verify_authority bip_0062 tx (authority_getter aa_money s) (authority_getter aa_recovery s)
    (authority_getter aa_social s) SignState.default_limits).

Definition check_authorities (tx : signed_transaction) : DB unit :=
  try_catch (check_operation_keys tx (operations tx) ;; verify_signatures tx) (λ e,
    if bool_decide (e = MissingMoneyAuth) then
      n ← Db.head_block_num;
      match merkle_entry (u32 (n + 1)) with None => mthrow e | Some _ => mret tt end
    else mthrow e).

(** An exception of an operation is thrown again as a plain [fc::exception]. *)
Definition rethrow_plain (e : exn) : exn := match e with Fault => Fault | _ => FcException end.

Definition _apply_transaction (tx : signed_transaction) : DB unit := capture_rethrow (
  skip ← gets skip_flags;
  when (negb (flag skip skip_validate)) (lift (Validate.transaction Block.id tx)) ;;
  known ← gets (Db.is_known_transaction (tx_id tx));
  fc_assert (flag skip skip_transaction_dupe_check || negb known) ;;
  when (negb (flag skip (Z.lor skip_transaction_signatures skip_authority_check)))
    (check_authorities tx) ;;
  n ← Db.head_block_num;
  when (0 <? n)
    (now ← Db.head_block_time;
     assert_or (expiration tx <=? now + XGT_MAX_TIME_UNTIL_EXPIRATION) TransactionException ;;
     assert_or (now <? expiration tx) TransactionException) ;;
  when (negb (flag skip skip_transaction_dupe_check))
    (create t_transaction (λ t,
       mret (set_to_packed_trx (Some tx) (set_to_expiration (expiration tx) (set_to_trx_id (tx_id tx) t)))) ;;
     mret tt) ;;
  for_each (operations tx) (λ op,
    try_catch (Registry.apply_operation op) (λ e, mthrow (rethrow_plain e)))).

Definition apply_transaction (tx : signed_transaction) (skip : Z) : DB unit :=
  with_skip_flags skip (_apply_transaction tx).

Definition start_pending_session : DB unit :=
  open ← gets pending_tx_session;
  when (negb open) (on_base Base.start_undo_session ;; update (set_pending_tx_session true)).
Definition _push_transaction (tx : signed_transaction) : DB unit :=
  start_pending_session ;;
  with_session (_apply_transaction tx) ;;
  update (λ s, set_pending_tx (pending_tx s ++ [tx]) s) ;;
  on_base Base.squash.

Definition push_transaction (tx : signed_transaction) (skip : Z) : DB unit := capture_rethrow (
  try_catch
    (p ← Db.get_dynamic_global_properties;
     fc_assert (tx_pack_size tx <=? u32 (dgp_maximum_block_size p - 256)) ;;
     update (set_modes true) ;;
     with_skip_flags skip (_push_transaction tx) ;;
     update (set_modes false))
    (λ e, update (set_modes false) ;; mthrow e)).

Definition validate_transaction (tx : signed_transaction) : DB unit :=
  with_session (_apply_transaction tx) ;; on_base Base.undo.

Definition reset_pending_session : DB unit :=
  open ← gets pending_tx_session;
  when open (drop_session ;; update (set_pending_tx_session false)).
Definition clear_pending : DB unit := capture_rethrow (
  update (set_pending_tx []) ;; reset_pending_session).

(** ** Blocks *)
Definition process_header_extension (w : wallet_name_type) (e : block_header_extension) : DB unit :=
  match e with
  | ext_version reported_version =>
      signing_witness ← Db.get_witness w;
      when (negb (reported_version =? wit_running_version signing_witness))
        (modify t_witness (wit_id signing_witness) (λ wo, mret (set_wit_running_version reported_version wo)))
  | ext_hardfork_vote hfv =>
      signing_witness ← Db.get_witness w;
      when (negb (hf_version hfv =? wit_hardfork_version_vote signing_witness) ||
            negb (hf_time hfv =? wit_hardfork_time_vote signing_witness))
        (modify t_witness (wit_id signing_witness) (λ wo,
           mret (set_wit_hardfork_time_vote (hf_time hfv) (set_wit_hardfork_version_vote (hf_version hfv) wo))))
  | ext_void | ext_required_actions _ | ext_optional_actions _ => mret tt
  end.
Definition process_header_extensions (b : signed_block) : DB unit :=
  for_each (header_extensions (header b)) (process_header_extension (witness (header b))).

Definition update_global_dynamic_data (b : signed_block) : DB unit := capture_rethrow (
  _dgp ← Db.get_dynamic_global_properties;
  modify t_dgp (dgp_id _dgp) (λ p,
    mret (set_dgp_time (timestamp (header b)) (set_dgp_head_block_id (Block.id (header b))
      (set_dgp_head_block_number (Block.block_num (header b)) p)))) ;;
  skip ← gets skip_flags;
  when (negb (flag skip skip_undo_history_check))
    (_dgp ← Db.get_dynamic_global_properties;
     assert_or (u32 (dgp_head_block_number _dgp - dgp_last_irreversible_block_num _dgp) <? XGT_MAX_UNDO_HISTORY)
       FcException)).

Definition update_last_irreversible_block : DB unit := capture_rethrow (
  dpo ← Db.get_dynamic_global_properties;
  modify t_dgp (dgp_id dpo) (λ p,
    mret (if XGT_MAX_WITNESSES <? dgp_head_block_number dpo
          then set_dgp_last_irreversible_block_num (dgp_head_block_number dpo - XGT_MAX_WITNESSES) p
          else p))).

Definition create_block_summary (b : signed_block) : DB unit := capture_rethrow (
  bs ← get_or OutOfRange (λ s, items t_block_summary s !! Z.land (Block.block_num (header b)) 0xffff);
  modify t_block_summary (bs_id bs) (λ p, mret (set_bs_block_id (Block.id (header b)) p))).

(** [dedupe_index] lists the transactions by expiration: the loop removes those
    that expired before the head block. *)
Definition expired (now : time_point_sec) (s : database) : list Z :=
  fst <$> filter (λ p, to_expiration p.2 < now) (Chainbase.map_items (items t_transaction s)).
Definition clear_expired_transactions : DB unit :=
  now ← Db.head_block_time;
  l ← gets (expired now);
  for_each l (remove t_transaction).

Definition first_pow (txs : list signed_transaction) : option pow_operation :=
  head (omap (λ op, match op with op_pow o => Some o | _ => None end) (txs ≫= operations)).
Definition reward_miner (b : signed_block) : DB unit :=
  match first_pow (transactions b) with
  | None => mret tt
  | Some o =>
      dgp ← Db.get_dynamic_global_properties;
      target_pow ← Eval.get_pow_summary_target;
      match work o with
      | work_pow _ _ => mthrow AssertException
      | work_sha2_pow input _ prev pow_summary =>
          fc_assert (pow_summary <? target_pow) ;;
          fc_assert (bool_decide (prev = previous (header b))) ;;
          fc_assert (bool_decide (witness (header b) = get_worker_name o)) ;;
          let worker := worker_account input in
          w ← gets (Db.find_account worker);
          cur_witness ← gets (Db.find_witness worker);
          assert_or (match w with Some _ => true | None => false end) FcException ;;
          assert_or (match cur_witness with Some _ => true | None => false end) FcException ;;
          Db.adjust_balance worker (Eval.mining_reward (dgp_head_block_number dgp))
      end
  end.

(** The block at the start of the period, from the log or the fork database. *)
Definition prior_block (n : Z) : DB signed_block :=
  l ← gets block_log;
  b ← lift (Log.read_block_by_num n l);
  match b with
  | Some b => mret b
  | None =>
      a ← get_or Fault (λ s, head (ForkDb.fetch_block_by_number n (fork_db s)));
      get_or Fault (Store.fork_block a)
  end.
Definition set_mining_target (t : Z) : DB unit :=
  gprops ← Db.get_dynamic_global_properties;
  modify t_dgp (dgp_id gprops) (λ p, mret (set_dgp_mining_target t p)).
Definition adjust_difficulty (b : signed_block) : DB unit :=
  let next_block_num := Block.block_num (header b) in
  if next_block_num =? 1 then set_mining_target XGT_MINING_TARGET_START
  else when ((XGT_STARTING_OFFSET + next_block_num) mod XGT_MINING_RECALC_EVERY_N_BLOCKS =? 1)
    (prior ← prior_block (u32 (next_block_num - XGT_MINING_RECALC_EVERY_N_BLOCKS));
     gprops ← Db.get_dynamic_global_properties;
     let next_target := scaled_target (dgp_mining_target gprops)
                          (timestamp (header b) - timestamp (header prior)) in
     set_mining_target (if XGT_MINING_TARGET_MAX <=? next_target then XGT_MINING_TARGET_MAX else next_target)).

(** [_hardfork_versions] holds the version 0.0.0 of hardfork 0 alone, and
    [XGT_NUM_HARDFORKS] is 0: the loop ends or throws. *)
Definition hardfork_versions (n : Z) : option version := if n =? 0 then Some 0 else None.
Definition process_hardforks : DB unit := capture_rethrow (
  hardforks ← Db.get_hardfork_property_object;
  v ← lift (match hardfork_versions (hp_last_hardfork hardforks) with Some v => Ok v | None => Exc Fault end);
  now ← Db.head_block_time;
  assert_or (negb ((v <? hp_next_hardfork hardforks) && (hp_next_hardfork_time hardforks <=? now)))
    UnknownHardfork).

(** [block_log::append]: the index has one entry per block. *)
Definition log_append (b : signed_block) : DB unit :=
  l ← gets block_log;
  fc_assert (Z.of_nat (length l) =? u32 (Block.block_num (header b) - 1)) ;;
  update (set_block_log (l ++ [b])).

(** The blocks [n + 1], ..., [n + k] of the main branch. *)
Fixpoint blocks_to_write (n : Z) (k : nat) : DB (list signed_block) :=
  match k with
  | O => mret []
  | S k =>
      a ← gets (λ s, ForkDb.fetch_block_on_main_branch_by_number (n + 1) (fork_db s));
      match a with
      | None => mthrow AssertException
      | Some a => b ← get_or Fault (Store.fork_block a);
                  bs ← blocks_to_write (n + 1) k;
                  mret (b :: bs)
      end
  end.
Definition write_irreversible_blocks (last_irreversible : Z) : DB unit :=
  l ← gets block_log;
  let log_head_num := match Log.head l with Some b => Block.block_num (header b) | None => 0 end in
  bs ← blocks_to_write log_head_num (Z.to_nat (last_irreversible - log_head_num));
  for_each bs log_append.
Definition fork_head_matches (dpo : dynamic_global_property_object) : DB unit :=
  s ← get_st;
  match ForkDb.head (fork_db s) with
  | None => mret tt
  | Some a => it ← get_or Fault (λ s, ForkDb.deref (fork_db s) a);
              fc_assert (ForkDb.num it =? dgp_head_block_number dpo)
  end.
Definition migrate_irreversible_state : DB unit := capture_rethrow (
  dpo ← Db.get_dynamic_global_properties;
  fork_head_matches dpo ;;
  skip ← gets skip_flags;
  when (negb (flag skip skip_block_log))
    (write_irreversible_blocks (dgp_last_irreversible_block_num dpo)) ;;
  update (λ s, set_fork_db (ForkDb.set_max_size XGT_FORK_DB_MAX_SIZE (ForkDb.set_max_size
    (u32 (dgp_head_block_number dpo - dgp_last_irreversible_block_num dpo + 1)) (fork_db s))) s) ;;
  on_base (Base.commit (dgp_last_irreversible_block_num dpo))).

Definition check_merkle_root (b : signed_block) : DB unit :=
  let merkle_root := Block.calculate_merkle_root b in
  if bool_decide (transaction_merkle_root (header b) = merkle_root) then mret tt
  else assert_or (bool_decide (merkle_entry (Block.block_num (header b)) = Some merkle_root)) AssertException.

(** What follows the transactions of a block, up to the irreversible part. *)
Definition settle_block (b : signed_block) : DB unit :=
  update_global_dynamic_data b ;;
  update_last_irreversible_block ;;
  create_block_summary b ;;
  clear_expired_transactions ;;
  Db.clear_null_wallet_balance ;;
  head_num ← Db.head_block_num;
  when (POW_IN_BLOCK_START <=? head_num) (reward_miner b) ;;
  adjust_difficulty b ;;
  process_hardforks.
(** Everything that [_apply_block] does before the irreversible part.  At block
    1 the hardforks up to [XGT_NUM_HARDFORKS], which is 0, would be applied. *)
Definition apply_contents (b : signed_block) : DB unit :=
  skip ← gets skip_flags;
  when (negb (flag skip skip_merkle_check)) (check_merkle_root b) ;;
  gprops ← Db.get_dynamic_global_properties;
  fc_assert (block_pack_size b <=? dgp_maximum_block_size gprops) ;;
  process_header_extensions b ;;
  w ← Db.get_witness (witness (header b));
  hardfork_state ← Db.get_hardfork_property_object;
  fc_assert (hp_current_hardfork_version hardfork_state <=? wit_running_version w) ;;
  for_each (transactions b) (λ tx, apply_transaction tx skip) ;;
  settle_block b.
Definition _apply_block (b : signed_block) : DB unit := capture_rethrow (
  apply_contents b ;; migrate_irreversible_state).
Definition apply_block (b : signed_block) (skip : Z) : DB unit := capture_rethrow (
  with_skip_flags skip (_apply_block b)).

Definition pop_block : DB unit := capture_rethrow (
  reset_pending_session ;;
  head_id ← Db.head_block_id;
  head_block ← Store.fetch_block_by_id head_id;
  match head_block with
  | None => mthrow PopEmptyChain
  | Some b =>
      on_fork ForkDb.pop_block ;;
      on_base Base.undo ;;
      update (λ s, set_popped_tx (transactions b ++ popped_tx s) s)
  end).
(** [while( head_block_id() != id ) pop_block();]  Each round moves the head of
    the fork database down one link, or throws. *)
Fixpoint pop_until (fuel : nat) (id : block_id_type) : DB unit :=
  match fuel with
  | O => mthrow Fault
  | S fuel =>
      head_id ← Db.head_block_id;
      if bool_decide (head_id = id) then mret tt else pop_block ;; pop_until fuel id
  end.

Definition apply_fork_item (skip : Z) (a : ForkDb.addr) : DB unit :=
  update (λ s, set_fork_db (ForkDb.set_head (Some a) (fork_db s)) s) ;;
  b ← get_or Fault (Store.fork_block a);
  with_session (apply_block b skip).
Definition remove_fork_item (a : ForkDb.addr) : DB unit :=
  b ← get_or Fault (Store.fork_block a);
  update (λ s, set_fork_db (ForkDb.remove (Block.id (header b)) (fork_db s)) s).
Definition pop_to (id : block_id_type) : DB unit :=
  n ← gets (λ s, size (ForkDb.heap (fork_db s)));
  pop_until (S (S n)) id.

(** [branch] is the rest of the new fork, oldest block first; when a block of
    it fails the old fork [good] is applied again. *)
Fixpoint push_fork (skip : Z) (forked : block_id_type) (good branch : list ForkDb.addr) : DB unit :=
  match branch with
  | [] => mret tt
  | a :: rest =>
      try_catch (apply_fork_item skip a) (λ e,
        if is_fc e then
          for_each branch remove_fork_item ;;
          pop_to forked ;;
          for_each good (apply_fork_item skip) ;;
          mthrow FcException
        else mthrow e) ;;
      push_fork skip forked good rest
  end.
Definition switch_forks (skip : Z) (new_head : ForkDb.fork_item) : DB unit :=
  head_id ← Db.head_block_id;
  s ← get_st;
  branches ← lift (ForkDb.fetch_branch_from (Block.id (header (ForkDb.data new_head))) head_id (fork_db s));
  oldest ← get_or Fault (λ s, last (branches.2) ≫= λ a, Store.fork_block a s);
  let forked := previous (header oldest) in
  pop_to forked ;;
  push_fork skip forked (reverse (branches.2)) (reverse (branches.1)).

Definition push_next (b : signed_block) (skip : Z) : DB bool :=
  try_catch (with_session (apply_block b skip)) (λ e,
    when (is_fc e) (update (λ s, set_fork_db (ForkDb.remove (Block.id (header b)) (fork_db s)) s)) ;;
    mthrow e) ;;
  mret false.
Definition _push_block (b : signed_block) : DB bool := capture_rethrow (
  skip ← gets skip_flags;
  if flag skip skip_fork_db then push_next b skip
  else
    a ← on_fork (ForkDb.push_block b);
    new_head ← get_or Fault (λ s, a ≫= ForkDb.deref (fork_db s));
    head_id ← Db.head_block_id;
    if bool_decide (ForkDb.previous_id new_head = head_id) then push_next b skip
    else
      n ← Db.head_block_num;
      if n <? Block.block_num (header (ForkDb.data new_head))
      then switch_forks skip new_head ;; mret true
      else mret false).

(** ** Putting pending transactions back *)
Definition restore_one (apply_trxs : bool) (tx : signed_transaction) : DB bool :=
  n ← Db.head_block_num;
  known ← gets (Db.is_known_transaction (tx_id tx));
  if (POW_IN_BLOCK_START <? n) && Required.has_pow_op tx then mret apply_trxs
  else if known : bool then mret apply_trxs
  else if apply_trxs && negb (out_of_time tx) then
    try_catch (_push_transaction tx) (λ e, when (negb (is_fc e)) (mthrow Fault)) ;; mret true
  else update (λ s, set_pending_tx (pending_tx s ++ [tx]) s) ;; mret false.
Fixpoint restore (apply_trxs : bool) (l : list signed_transaction) : DB bool :=
  match l with
  | [] => mret apply_trxs
  | tx :: l => b ← restore_one apply_trxs tx; restore b l
  end.
Definition restore_pending (pending : list signed_transaction) : DB unit :=
  popped ← gets popped_tx;
  b ← restore true popped;
  update (set_popped_tx []) ;;
  restore b pending ;;
  mret tt.
Definition without_pending_transactions {A} (m : DB A) : DB A :=
  pending ← gets pending_tx;
  clear_pending ;;
  a ← try_catch m (λ e, restore_pending pending ;; mthrow e);
  restore_pending pending ;;
  mret a.

Definition checkpoint_skip : Z :=
  fold_left Z.lor [skip_witness_signature; skip_transaction_signatures; skip_transaction_dupe_check;
    skip_block_size_check; skip_tapos_check; skip_authority_check; skip_undo_history_check;
    skip_validate; skip_validate_invariants] 0.
Definition check_checkpoints (b : signed_block) (skip : Z) : DB Z :=
  c ← gets checkpoints;
  match last c with
  | Some (n, i) =>
      if bool_decide (i = null_block_id) then mret skip
      else
        match snd <$> List.find (λ p, p.1 =? Block.block_num (header b)) c with
        | Some i => fc_assert (bool_decide (Block.id (header b) = i))
        | None => mret tt
        end ;;
        mret (if Block.block_num (header b) <=? n then checkpoint_skip else skip)
  | None => mret skip
  end.
Definition push_block (b : signed_block) (skip : Z) : DB bool :=
  skip ← check_checkpoints b skip;
  with_skip_flags skip (without_pending_transactions (capture_rethrow (_push_block b))).

(** ** Genesis *)
Definition new_wallet (name : wallet_name_type) : DB unit :=
  create t_wallet (λ a, mret (set_w_name name a)) ;; mret tt.
(** The authority of a system wallet: thresholds, no keys. *)
Definition system_authority (name : wallet_name_type) (threshold : Z) : DB unit :=
  create t_authority (λ auth,
    let set a := mkAuthority threshold (wallet_auths a) (key_auths a) in
    mret (set_aa_money (set (aa_money auth)) (set_aa_recovery (set (aa_recovery auth))
      (set_aa_account name auth)))) ;;
  mret tt.
Definition init_genesis (init_public_key : public_key_type) (init_supply : Z) : DB unit := capture_rethrow (
  flags ← gets skip_flags;
  with_skip_flags (Z.lor flags skip_authority_check) (
    new_wallet XGT_MINER_WALLET ;;
    system_authority XGT_MINER_WALLET 1 ;;
    create t_wallet (λ a,
      mret (set_w_balance (mkAsset init_supply XGT_SYMBOL) (set_w_memo_key init_public_key
        (set_w_name XGT_INIT_MINER_NAME a)))) ;;
    create t_authority (λ auth,
      let recovery := mkAuthority 1 (wallet_auths (aa_recovery auth))
        (key_auths (Authority.add_key_authority init_public_key 1 (aa_recovery auth))) in
      mret (set_aa_social recovery (set_aa_money recovery (set_aa_recovery recovery
        (set_aa_account XGT_INIT_MINER_NAME auth))))) ;;
    create t_witness (λ w,
      mret (set_wit_signing_key init_public_key (set_wit_owner XGT_INIT_MINER_NAME w))) ;;
    new_wallet XGT_NULL_WALLET ;;
    system_authority XGT_NULL_WALLET 1 ;;
    new_wallet XGT_TREASURY_WALLET ;;
    new_wallet XGT_TEMP_WALLET ;;
    system_authority XGT_TEMP_WALLET 0 ;;
    create t_dgp (λ p,
      let supply := mkAsset init_supply XGT_SYMBOL in
      let p := set_dgp_participation_count 128 (set_dgp_recent_slots_filled (2 ^ 128 - 1)
        (set_dgp_time XGT_GENESIS_TIME (set_dgp_mining_target XGT_MINING_TARGET_START p))) in
      let p := set_dgp_maximum_block_size XGT_MAX_BLOCK_SIZE (set_dgp_virtual_supply supply
        (set_dgp_current_supply supply p)) in
      mret (set_dgp_last_budget_time XGT_GENESIS_TIME (set_dgp_next_maintenance_time XGT_GENESIS_TIME
        (set_dgp_reverse_auction_seconds XGT_REVERSE_AUCTION_WINDOW_SECONDS p)))) ;;
    for_each (replicate (Z.to_nat 0x10000) tt) (λ _, create t_block_summary (λ b, mret b) ;; mret tt) ;;
    create t_hardfork (λ hpo,
      mret (set_hp_processed_hardforks (hp_processed_hardforks hpo ++ [XGT_GENESIS_TIME]) hpo)) ;;
    create t_nai_pool (λ npo, mret npo) ;;
    mret tt)).
End with_node.
End Apply.
