(* ===== verification/ApplyFacts.v ===== *)
(** * Facts about transactions

    Sessions make a failed transaction leave no trace, and pending transactions
    are tentative. *)
From S2P Require Import Prelude Safe Chainbase Asset Protocol SignState Block ForkDatabase ResourceDynamics Objects Database Ledger Evaluators EvaluatorFacts Xtt Operations LedgerProps Apply.

(** The traversals of all tables are only used through their lemmas. *)
#[local] Opaque Base.start_undo_session Base.undo Base.squash Base.commit.

(** ** Everything inside a session is quiet *)
Section quiet.
Context `{Env} `{Node} `{!NodePromise} `{Platform}.

Lemma check_keys_reads I tx ops : preserves I (Apply.check_operation_keys tx ops).
Proof. induction ops as [|[] ops IH]; simpl; walk. Qed.
Lemma verify_signatures_reads I tx : preserves I (Apply.verify_signatures tx).
Proof. unfold Apply.verify_signatures. walk. Qed.
#[local] Hint Resolve check_keys_reads verify_signatures_reads operation_quiet : preserves.
Lemma check_authorities_reads I tx : preserves I (Apply.check_authorities tx).
Proof. unfold Apply.check_authorities. walk. Qed.
#[local] Hint Resolve check_authorities_reads : preserves.

Lemma _apply_transaction_quiet d0 tx : preserves (λ s, quiet d0 (tbl s)) (Apply._apply_transaction tx).
Proof. unfold Apply._apply_transaction. walk. Qed.

Lemma operation_frame_all op s0 : preserves (frame all_tables s0) (Registry.apply_operation op).
Proof.
  intros s Hs. apply (frame_trans _ _ s); [done|].
  apply (frame_weaken (touched op)); [intros t _; apply elem_of_all_tables|].
  apply apply_operation_frame, frame_refl.
Qed.
#[local] Hint Resolve operation_frame_all : preserves.
#[local] Hint Resolve elem_of_all_tables : preserves.
Lemma _apply_transaction_frame s0 tx : preserves (frame all_tables s0) (Apply._apply_transaction tx).
Proof. unfold Apply._apply_transaction. walk. Qed.
End quiet.
#[export] Hint Resolve check_keys_reads verify_signatures_reads check_authorities_reads operation_quiet
  _apply_transaction_quiet _apply_transaction_frame : preserves.

(** ** Sessions *)
Lemma on_base_run {A} (m : St tables A) s r d : m (tbl s) = (r, d) → on_base m s = (r, set_tbl d s).
Proof. unfold on_base. by intros ->. Qed.

Lemma set_tbl_tbl d s : tbl (set_tbl d s) = d.
Proof. done. Qed.

Lemma drop_session_run d0 d1 s : wf_tables d0 → Base.start_undo_session d0 = (Ok tt, d1) →
  quiet d1 (tbl s) →
  ∃ d, drop_session s = (Ok tt, set_tbl d s) ∧ wf_tables d ∧ same_tables d d0.
Proof.
  intros Hwf Hs Hq. destruct (undo_restores_tables d0 d1 (tbl s) Hwf Hs Hq) as (d & Hu & Hwf' & Hsame).
  exists d. split; [|by split]. unfold drop_session, try_catch. by rewrite (on_base_run _ _ _ _ Hu).
Qed.

(** A body that throws inside a session leaves the tables as they were. *)
Lemma with_session_run {A} (m : DB A) s r s' : (∀ d0, preserves (λ s, quiet d0 (tbl s)) m) →
  wf_tables (tbl s) → with_session m s = (r, s') →
  ∃ d1 s1, Base.start_undo_session (tbl s) = (Ok tt, d1) ∧ m (set_tbl d1 s) = (r, s1) ∧
    quiet d1 (tbl s1) ∧
    match r with
    | Ok _ => s' = s1
    | Exc _ => s' = set_tbl (tbl s') s1 ∧ wf_tables (tbl s') ∧ same_tables (tbl s') (tbl s)
    end.
Proof.
  intros Hm Hwf Hr. destruct (start_session_ok (tbl s) Hwf) as (d1 & Hs & Hwf1 & _).
  unfold with_session in Hr. rewrite bind_run, (on_base_run _ _ _ _ Hs) in Hr.
  unfold try_catch in Hr. destruct (m (set_tbl d1 s)) as [r1 s1] eqn:Em.
  assert (Hq : quiet d1 (tbl s1)).
  { pose proof (Hm d1 (set_tbl d1 s) (quiet_refl _ Hwf1)) as Hq. by rewrite Em in Hq. }
  destruct r1 as [a|e].
  - injection Hr as <- <-. exists d1, s1. split_and!; [exact Hs|exact Em|exact Hq|reflexivity].
  - destruct (drop_session_run (tbl s) d1 s1 Hwf Hs Hq) as (d & Hd & Hwf' & Hsame).
    rewrite bind_run, Hd in Hr. injection Hr as <- <-.
    exists d1, s1. split_and!; [exact Hs|exact Em|exact Hq|by destruct s1|exact Hwf'|exact Hsame].
Qed.

(** Squashing a session that was quiet over the outer one is quiet over the
    outer one. *)
Lemma squash_quiet d0 d d1 d2 d3 : wf_tables d → quiet d0 d → (∀ t, Chainbase.Spec.saved (abs (d0 t)) ≠ []) →
  Base.start_undo_session d = (Ok tt, d1) → quiet d1 d2 → Base.squash d2 = (Ok tt, d3) →
  quiet d0 d3 ∧ ∀ t, Chainbase.Spec.cur (abs (d3 t)) = Chainbase.Spec.cur (abs (d2 t)).
Proof.
  intros Hwf Hq0 Hdeep Hs Hq Hsq. destruct (start_session_ok d Hwf) as (d1' & Hs' & _ & Hst).
  rewrite Hs in Hs'. injection Hs' as <-.
  destruct (squash_tables d2 (quiet_wf _ _ Hq)) as (d3' & Hsq' & Hwf3 & Habs).
  rewrite Hsq in Hsq'. injection Hsq' as <-.
  assert (Hall : ∀ t, abs (d3 t) = Chainbase.Spec.mk (Chainbase.Spec.cur (abs (d2 t))) (Chainbase.Spec.saved (abs (d0 t))) ∧
    Chainbase.revision (d3 t) = Chainbase.revision (d0 t)).
  { intros t. destruct (Habs t) as [Ha He], (Hq t) as (_ & Hsv & Hrv), (Hst t) as [Hst1 Hst2],
      (Hq0 t) as (_ & Hsv0 & Hrv0).
    rewrite Hst1 in Hsv. split.
    - rewrite Ha. unfold Chainbase.Spec.squash. by rewrite Hsv, <- Hsv0.
    - rewrite He. specialize (Hdeep t). rewrite <- Hsv0 in Hdeep.
      unfold Chainbase.squash. pose proof (f_equal length Hsv) as Hlen. simpl in Hlen.
      rewrite !snapshots_length in Hlen.
      unfold abs in Hdeep. simpl in Hdeep.
      destruct (Chainbase.stack (d t)) as [|u0 us0]; [by destruct Hdeep|]. simpl in Hlen.
      destruct (Chainbase.stack (d2 t)) as [|u [|u' us]]; [discriminate Hlen..|]. simpl. lia. }
  split; intros t; destruct (Hall t) as [Ha Hr]; [|by rewrite Ha].
  split_and!; [apply Hwf3|by rewrite Ha|done].
Qed.

(** The contents of a table, from its snapshot. *)
Lemma cur_items (d d' : tables) t : Chainbase.Spec.cur (abs (d t)) = Chainbase.Spec.cur (abs (d' t)) →
  Chainbase.indices (d t) = Chainbase.indices (d' t).
Proof. unfold abs. simpl. by intros [= ->]. Qed.
Lemma same_items d d' t : same_tables d d' → Chainbase.indices (d t) = Chainbase.indices (d' t).
Proof. intros Hs. apply cur_items. exact (f_equal (λ x, Chainbase.Spec.cur x.1) (Hs t)). Qed.
Lemma start_items d d1 t : wf_tables d → Base.start_undo_session d = (Ok tt, d1) →
  Chainbase.indices (d1 t) = Chainbase.indices (d t).
Proof.
  intros Hwf Hs. destruct (start_session_ok d Hwf) as (d1' & Hs' & _ & Ha). rewrite Hs in Hs'.
  injection Hs' as <-. apply cur_items. by destruct (Ha t) as [-> _].
Qed.

(** ** Pending transactions *)
Lemma same_quiet d0 d d' : quiet d0 d → same_tables d' d → wf_tables d' → quiet d0 d'.
Proof.
  intros Hq Hs Hwf t. destruct (Hq t) as (_ & <- & <-). split_and!; [apply Hwf|..].
  - exact (f_equal (λ x, Chainbase.Spec.saved x.1) (Hs t)).
  - exact (f_equal snd (Hs t)).
Qed.

(** The tables are those of [d0], or a session over them is open. *)
Definition pending_over (d0 : tables) (s : database) : Prop :=
  wf_tables (tbl s) ∧
  if pending_tx_session s
  then ∃ d d1, wf_tables d ∧ same_tables d d0 ∧ Base.start_undo_session d = (Ok tt, d1) ∧ quiet d1 (tbl s)
  else same_tables (tbl s) d0.

Section pending.
Context `{Env} `{Node} `{!NodePromise} `{Platform}.
Context (d0 : tables).

Lemma pending_over_ext s s' : tbl s' = tbl s → pending_tx_session s' = pending_tx_session s →
  pending_over d0 s → pending_over d0 s'.
Proof. unfold pending_over. by intros -> ->. Qed.
Lemma update_pending f : (∀ s, tbl (f s) = tbl s) → (∀ s, pending_tx_session (f s) = pending_tx_session s) →
  preserves (pending_over d0) (update f).
Proof. intros Ht Hp s. apply pending_over_ext; [apply Ht|apply Hp]. Qed.

Lemma start_pending_run s : pending_over d0 s → ∃ s1,
  Apply.start_pending_session s = (Ok tt, s1) ∧ pending_over d0 s1 ∧ pending_tx_session s1 = true ∧
  s1 = set_pending_tx_session true (set_tbl (tbl s1) s) ∧ ∀ t, items t s1 = items t s.
Proof.
  intros Hs. unfold Apply.start_pending_session. rewrite bind_run. cbn [gets].
  destruct (pending_tx_session s) eqn:Hp; simpl.
  - exists s. split; [done|]. split; [done|]. split; [done|]. split; [|done]. destruct s; simpl in *; by subst.
  - destruct Hs as [Hwf Hs]. rewrite Hp in Hs.
    destruct (start_session_ok (tbl s) Hwf) as (d1 & Hst & Hwf1 & _).
    exists (set_pending_tx_session true (set_tbl d1 s)).
    split; [rewrite bind_run, (on_base_run _ _ _ _ Hst); reflexivity|].
    split; [|split; [done|split; [by destruct s|intros t; by apply start_items]]].
    split; [exact Hwf1|]. simpl.
    exists (tbl s), d1. split; [exact Hwf|]. split; [exact Hs|]. split; [exact Hst|by apply quiet_refl].
Qed.

Lemma started_saved d d1 t : wf_tables d → Base.start_undo_session d = (Ok tt, d1) →
  Chainbase.Spec.saved (abs (d1 t)) ≠ [].
Proof.
  intros Hwf Hs. destruct (start_session_ok d Hwf) as (d1' & Hs' & _ & Ha). rewrite Hs in Hs'.
  injection Hs' as <-. destruct (Ha t) as [-> _]. done.
Qed.

Lemma _push_transaction_pending tx s r s' : pending_over d0 s → Apply._push_transaction tx s = (r, s') →
  pending_over d0 s' ∧
  match r with
  | Ok _ => pending_tx s' = pending_tx s ++ [tx]
  | Exc _ => pending_tx s' = pending_tx s ∧ ∀ t, items t s' = items t s
  end.
Proof.
  intros Hs Hr. destruct (start_pending_run s Hs) as (s1 & Hst & Hs1 & Hp1 & E1 & Hit).
  assert (Hpt : pending_tx s1 = pending_tx s) by (rewrite E1; done).
  unfold Apply._push_transaction in Hr. rewrite bind_run, Hst in Hr. rewrite bind_run in Hr.
  destruct (with_session (Apply._apply_transaction tx) s1) as [r1 s2] eqn:Hw.
  destruct Hs1 as [Hwf1 Hs1]. rewrite Hp1 in Hs1. destruct Hs1 as (d & d1 & Hwfd & Hsame & Hsd & Hq1).
  apply with_session_run in Hw as (d2 & s3 & Hs2 & Hm & Hq2 & Hres);
    [|intros; apply _apply_transaction_quiet|done].
  pose proof (_apply_transaction_frame (set_tbl d2 s1) tx (set_tbl d2 s1) (frame_refl _ _)) as [_ Hfr].
  rewrite Hm in Hfr. simpl in Hfr. destruct r1 as [[]|e].
  - subst s3. destruct (squash_tables (tbl s2) (quiet_wf _ _ Hq2)) as (d3 & Hsq & Hwf3 & _).
    rewrite bind_run in Hr. unfold update in Hr. cbv beta iota in Hr.
    rewrite (on_base_run Base.squash (set_pending_tx (pending_tx s2 ++ [tx]) s2) _ _ Hsq) in Hr. injection Hr as <- <-.
    destruct (squash_quiet d1 (tbl s1) d2 (tbl s2) d3) as [Hq3 _];
      [exact Hwf1|exact Hq1|intros t; exact (started_saved d d1 t Hwfd Hsd)|exact Hs2|exact Hq2|exact Hsq|].
    split; [|simpl; rewrite Hfr; simpl; by rewrite Hpt]. split; [exact Hwf3|]. simpl.
    replace (pending_tx_session s2) with true by (rewrite Hfr; simpl; congruence).
    exists d, d1. split_and!; [exact Hwfd|exact Hsame|exact Hsd|exact Hq3].
  - injection Hr as <- <-. destruct Hres as (E2 & Hwf2 & Hsame2). split.
    + split; [exact Hwf2|]. replace (pending_tx_session s2) with true.
      * exists d, d1. split_and!; [exact Hwfd|exact Hsame|exact Hsd|exact (same_quiet _ _ _ Hq1 Hsame2 Hwf2)].
      * rewrite E2, Hfr. simpl. congruence.
    + split; [rewrite E2, Hfr; simpl; by rewrite Hpt|]. intros t. rewrite <- Hit. by apply same_items.
Qed.

(** The effect of a scope that only saves and restores members. *)
Definition same_state (s s' : database) : Prop :=
  tbl s' = tbl s ∧ pending_tx_session s' = pending_tx_session s ∧ pending_tx s' = pending_tx s.

Lemma with_skip_run {A} skip (m : DB A) s r s' : with_skip_flags skip m s = (r, s') →
  ∃ s1, m (set_skip_flags skip s) = (r, s1) ∧ s' = set_skip_flags (skip_flags s) s1.
Proof.
  unfold with_skip_flags, try_catch. rewrite !bind_run. unfold gets, update. cbv beta iota.
  rewrite bind_run. cbv beta iota. rewrite bind_run.
  destruct (m (set_skip_flags skip s)) as [[a|e] s1]; rewrite ?bind_run; cbv beta iota; intros [= <- <-]; eauto.
Qed.

Lemma push_transaction_run tx skip s r s' : Apply.push_transaction tx skip s = (r, s') →
  (∃ e, r = Exc e ∧ same_state s s' ∧ skip_flags s' = skip_flags s) ∨
  ∃ r1 s1, Apply._push_transaction tx (set_skip_flags skip (set_modes true s)) = (r1, s1) ∧
    same_state s1 s' ∧ skip_flags s' = skip_flags s ∧
    (∀ u, r = Ok u → r1 = Ok u) ∧ (∀ e, r = Exc e → ∃ e', r1 = Exc e').
Proof.
  unfold Apply.push_transaction, capture_rethrow, try_catch, Db.get_dynamic_global_properties, get_or,
    fc_assert, update. cbv [mbind St_bind mret St_ret mthrow St_throw]. intros Hr.
  destruct (Db.dgp s) as [p|]; [|injection Hr as <- <-; left; by eexists].
  destruct (tx_pack_size tx <=? _); [|injection Hr as <- <-; left; by eexists].
  destruct (with_skip_flags skip _ (set_modes true s)) as [r1 s1] eqn:Hw.
  apply with_skip_run in Hw as (s2 & Hw & ->). right. exists r1, s2. split; [exact Hw|].
  destruct r1 as [[]|e]; injection Hr as <- <-; split_and!; try done; naive_solver.
Qed.

Lemma push_transaction_pending tx skip : preserves (pending_over d0) (Apply.push_transaction tx skip).
Proof.
  intros s Hs. destruct (Apply.push_transaction tx skip s) as [r s'] eqn:Hr. simpl.
  apply push_transaction_run in Hr as [(e & _ & (Ht & Hp & _) & _)|(r1 & s1 & Hr & (Ht & Hp & _) & _)].
  - by eapply pending_over_ext.
  - apply _push_transaction_pending in Hr as [Hs1 _]; [by eapply pending_over_ext|].
    by eapply pending_over_ext, Hs.
Qed.

Lemma clear_pending_run s : pending_over d0 s →
  ∃ s', Apply.clear_pending s = (Ok tt, s') ∧ same_tables (tbl s') d0 ∧ wf_tables (tbl s') ∧
    pending_tx s' = [] ∧ pending_tx_session s' = false.
Proof.
  intros [Hwf Hs]. unfold Apply.clear_pending, Apply.reset_pending_session, capture_rethrow, try_catch, update, when.
  rewrite !bind_run. cbv beta iota. unfold gets. cbv beta iota. cbn [pending_tx_session set_pending_tx].
  destruct (pending_tx_session s) eqn:Hp.
  - destruct Hs as (d & d1 & Hwfd & Hsame & Hst & Hq).
    destruct (drop_session_run d d1 (set_pending_tx [] s) Hwfd Hst Hq) as (d' & Hd & Hwf' & Hsame').
    rewrite bind_run, Hd. eexists. split; [reflexivity|]. split_and!; [|done..].
    etrans; [exact Hsame'|exact Hsame].
  - eexists. split; [reflexivity|]. by split_and!.
Qed.
End pending.

(** ** A run of the definitions *)
Module ApplyDemo.
#[global] Instance platform : Platform := {| scaled_target target _ := target; out_of_time _ := false |}.
Lemma no_session : pending_tx_session Demo.db = false.
Proof. vm_compute. reflexivity. Qed.
Lemma pending : pending_over (tbl Demo.db) Demo.db.
Proof. split; [exact Demo.db_wf|]. rewrite no_session. reflexivity. Qed.
(** The first transfer has funds, the second has not. *)
Definition transfer (n : Z) : operation := op_transfer (mkTransfer "alice" "bob" (mkAsset n XGT_SYMBOL) "").
Definition overspend : signed_transaction := mkTx 0 0 1500 [transfer 30; transfer 1000] [] [].
Definition overspend_result := Apply.push_transaction overspend skip_transaction_signatures Demo.db.
Lemma overspend_fails : Apply.push_transaction overspend skip_transaction_signatures Demo.db =
  (Exc FcException, snd overspend_result).
Proof.
  change (Apply.push_transaction overspend skip_transaction_signatures Demo.db) with overspend_result.
  rewrite (surjective_pairing overspend_result) at 1. apply (f_equal (λ r, (r, snd overspend_result))).
  vm_compute. reflexivity.
Qed.
Definition spend : signed_transaction := mkTx 0 0 1500 [transfer 30] [] [].
End ApplyDemo.

(** ** A transaction leaves no trace when it fails, and none when it is dropped *)
Section transactions.
Context `{Env} `{Node} `{!NodePromise} `{Platform}.

(** C4: A transaction that [push_transaction] refuses leaves no trace, however
    far it got: every table holds the same objects as before, the list of
    pending transactions and the skip flags are unchanged, and the session of
    pending changes still lies over the same state of the head block. *)
Theorem push_transaction_atomic d0 tx skip s e s' : pending_over d0 s →
  Apply.push_transaction tx skip s = (Exc e, s') →
  (∀ t, items t s' = items t s) ∧ pending_tx s' = pending_tx s ∧ skip_flags s' = skip_flags s ∧
  pending_over d0 s'.
Proof.
  intros Hs Hr. pose proof (push_transaction_pending d0 tx skip s Hs) as Hs'. rewrite Hr in Hs'.
  apply push_transaction_run in Hr as [(e1 & _ & (Ht & _ & Hp) & Hf)|(r1 & s1 & Hr & (Ht & _ & Hp) & Hf & _ & He)].
  - split_and!; try done. intros t. unfold items. by rewrite Ht.
  - destruct (He e eq_refl) as [e' ->].
    apply (_push_transaction_pending d0) in Hr as (_ & Hp1 & Hi); [|by eapply pending_over_ext, Hs].
    split_and!; [|by rewrite Hp, Hp1|done|done]. intros t. unfold items in *. rewrite Ht. apply Hi.
Qed.

(** Transactions arrive one after the other; a refused one is reported and
    forgotten. *)
Definition push_all (l : list (signed_transaction * Z)) : DB unit :=
  for_each l (λ p, try_catch (Apply.push_transaction p.1 p.2) (λ _, mret tt)).

(** C8: Pending transactions are tentative: after any sequence of pushed
    transactions, accepted or refused, [clear_pending] succeeds and brings
    every table, its undo history and its revision back to the state of the
    head block, with no transaction left pending. *)
Theorem pending_is_tentative l s : wf_tables (tbl s) → pending_tx_session s = false →
  ∃ s', Apply.clear_pending (snd (push_all l s)) = (Ok tt, s') ∧ same_tables (tbl s') (tbl s) ∧
    pending_tx s' = [] ∧ pending_tx_session s' = false.
Proof.
  intros Hwf Hp. assert (Hs : pending_over (tbl s) s) by (split; [done|rewrite Hp; reflexivity]).
  assert (Hs1 : pending_over (tbl s) (snd (push_all l s))).
  { assert (Hl : preserves (pending_over (tbl s)) (push_all l)); [|exact (Hl s Hs)].
    apply preserves_for_each. intros p. apply preserves_try; [apply push_transaction_pending|].
    intros e. apply preserves_ret. }
  destruct (clear_pending_run _ _ Hs1) as (s' & Hc & Hsame & _ & Hpt & Hps). eauto.
Qed.
End transactions.

Lemma push_transaction_atomic_witness :
  items t_wallet (snd ApplyDemo.overspend_result) = items t_wallet Demo.db.
Proof.
  exact (proj1 (push_transaction_atomic (tbl Demo.db) ApplyDemo.overspend skip_transaction_signatures
    Demo.db FcException (snd ApplyDemo.overspend_result) ApplyDemo.pending ApplyDemo.overspend_fails) t_wallet).
Defined.
Lemma pending_is_tentative_witness : ∃ s', Apply.clear_pending (snd (push_all
    [(ApplyDemo.spend, skip_transaction_signatures); (ApplyDemo.overspend, 0)] Demo.db)) = (Ok tt, s') ∧
  same_tables (tbl s') (tbl Demo.db) ∧ pending_tx s' = [] ∧ pending_tx_session s' = false.
Proof.
  exact (pending_is_tentative [(ApplyDemo.spend, skip_transaction_signatures); (ApplyDemo.overspend, 0)]
    Demo.db Demo.db_wf ApplyDemo.no_session).
Defined.
