(* ===== verification/BlockFacts.v ===== *)
(** * Facts about blocks

    A block that fails leaves the tables as they were; after a block the chain
    points to it and the last irreversible block trails the head. *)
From S2P Require Import Prelude Safe Chainbase Asset Protocol SignState Block ForkDatabase ResourceDynamics Objects Database Ledger Evaluators EvaluatorFacts Xtt Operations LedgerProps Apply ApplyFacts.

#[local] Opaque Base.start_undo_session Base.undo Base.squash Base.commit.

(** ** The contents of a block are applied quietly *)
Section quiet_block.
Context `{Env} `{Node} `{!NodePromise} `{Platform}.
Context (d0 : tables).
Abbreviation Q := (preserves (λ s, quiet d0 (tbl s))).

Lemma update_quiet f : (∀ s, tbl (f s) = tbl s) → Q (update f).
Proof. intros Hf s Hs. simpl. by rewrite Hf. Qed.
Lemma with_skip_quiet {A} skip (m : DB A) : Q m → Q (with_skip_flags skip m).
Proof.
  intros Hm s Hs. destruct (with_skip_flags skip m s) as [r s'] eqn:Hr.
  apply with_skip_run in Hr as (s1 & Hr & ->). simpl.
  specialize (Hm (set_skip_flags skip s) Hs). by rewrite Hr in Hm.
Qed.
#[local] Hint Extern 1 (preserves _ (update _)) => apply update_quiet; intros; reflexivity : preserves.
#[local] Hint Resolve with_skip_quiet : preserves.

Lemma check_merkle_root_quiet b : Q (Apply.check_merkle_root b).
Proof. unfold Apply.check_merkle_root. walk. Qed.
Lemma header_extensions_quiet b : Q (Apply.process_header_extensions b).
Proof. unfold Apply.process_header_extensions, Apply.process_header_extension. walk. Qed.
Lemma update_global_dynamic_data_quiet b : Q (Apply.update_global_dynamic_data b).
Proof. unfold Apply.update_global_dynamic_data. walk. Qed.
Lemma update_last_irreversible_block_quiet : Q Apply.update_last_irreversible_block.
Proof. unfold Apply.update_last_irreversible_block. walk. Qed.
Lemma create_block_summary_quiet b : Q (Apply.create_block_summary b).
Proof. unfold Apply.create_block_summary. walk. Qed.
Lemma clear_expired_quiet : Q Apply.clear_expired_transactions.
Proof. unfold Apply.clear_expired_transactions. walk. Qed.
Lemma reward_miner_quiet b : Q (Apply.reward_miner b).
Proof. unfold Apply.reward_miner, Eval.get_pow_summary_target, Eval.get_pow_target. walk. Qed.
Lemma adjust_difficulty_quiet b : Q (Apply.adjust_difficulty b).
Proof. unfold Apply.adjust_difficulty, Apply.prior_block, Apply.set_mining_target. walk. Qed.
Lemma process_hardforks_quiet : Q Apply.process_hardforks.
Proof. unfold Apply.process_hardforks. walk. Qed.
#[local] Hint Resolve check_merkle_root_quiet header_extensions_quiet update_global_dynamic_data_quiet
  update_last_irreversible_block_quiet create_block_summary_quiet clear_expired_quiet reward_miner_quiet
  adjust_difficulty_quiet process_hardforks_quiet : preserves.
Lemma apply_contents_quiet b : Q (Apply.apply_contents b).
Proof. unfold Apply.apply_contents, Apply.settle_block, Apply.apply_transaction. walk. Qed.
End quiet_block.
#[export] Hint Resolve with_skip_quiet apply_contents_quiet : preserves.
#[export] Hint Extern 1 (preserves _ (update _)) => apply update_quiet; intros; reflexivity : preserves.

(** ** A block that throws *)

(** When [m] throws it has changed the tables only inside the open session. *)
Definition throws_quiet {A} (m : DB A) : Prop := ∀ d0 s e s',
  quiet d0 (tbl s) → m s = (Exc e, s') → quiet d0 (tbl s').

Lemma quiet_throws {A} (m : DB A) : (∀ d0, preserves (λ s, quiet d0 (tbl s)) m) → throws_quiet m.
Proof. intros Hm d0 s e s' Hs Hr. specialize (Hm d0 s Hs). by rewrite Hr in Hm. Qed.
Lemma throws_bind {A B} (m : DB A) (f : A → DB B) :
  (∀ d0, preserves (λ s, quiet d0 (tbl s)) m) → (∀ a, throws_quiet (f a)) → throws_quiet (m ≫= f).
Proof.
  intros Hm Hf d0 s e s' Hs Hr. rewrite bind_run in Hr. specialize (Hm d0 s Hs).
  destruct (m s) as [[a|e1] s1]; simpl in Hm; [exact (Hf a d0 s1 e s' Hm Hr)|]. by injection Hr as <- <-.
Qed.
Lemma throws_capture {A} (m : DB A) : throws_quiet m → throws_quiet (capture_rethrow m).
Proof.
  intros Hm d0 s e s' Hs. unfold capture_rethrow, try_catch.
  destruct (m s) as [[a|e1] s1] eqn:Em; [done|]. intros [= _ <-]. by eapply Hm.
Qed.
Lemma throws_skip {A} skip (m : DB A) : throws_quiet m → throws_quiet (with_skip_flags skip m).
Proof.
  intros Hm d0 s e s' Hs Hr. apply with_skip_run in Hr as (s1 & Hr & ->). by eapply Hm in Hr.
Qed.
Lemma session_throws {A} (m : DB A) s e s' : throws_quiet m → wf_tables (tbl s) →
  with_session m s = (Exc e, s') → same_tables (tbl s') (tbl s) ∧ wf_tables (tbl s').
Proof.
  intros Hm Hwf Hr. destruct (start_session_ok (tbl s) Hwf) as (d1 & Hs & Hwf1 & _).
  unfold with_session in Hr. rewrite bind_run, (on_base_run _ _ _ _ Hs) in Hr.
  unfold try_catch in Hr. destruct (m (set_tbl d1 s)) as [[a|e1] s1] eqn:Em; [discriminate Hr|].
  apply (Hm d1) in Em; [|by apply quiet_refl].
  destruct (drop_session_run (tbl s) d1 s1 Hwf Hs Em) as (d & Hd & Hwf' & Hsame).
  rewrite bind_run, Hd in Hr. injection Hr as <- <-. exact (conj Hsame Hwf').
Qed.

(** [commit] passes over every table and never throws. *)
#[local] Transparent Base.commit.
Lemma commit_tables rev d : ∃ d', Base.commit rev d = (Ok tt, d') ∧ ∀ t, d' t = Chainbase.commit rev (d t).
Proof. by apply (each_index_all (λ t gi, (Ok tt, Chainbase.commit rev gi))). Qed.
#[local] Opaque Base.commit.

Section failed_block.
Context `{Env} `{Node} `{!NodePromise} `{Platform}.

Lemma commit_throws_quiet rev : throws_quiet (on_base (Base.commit rev)).
Proof.
  intros d0 s e s' _. unfold on_base. by destruct (commit_tables rev (tbl s)) as (d' & -> & _).
Qed.

Lemma blocks_to_write_reads I n k : preserves I (Apply.blocks_to_write n k).
Proof. revert n. induction k as [|k IH]; intros n; simpl; walk. Qed.
#[local] Hint Resolve blocks_to_write_reads : preserves.
Lemma write_irreversible_quiet d0 n : preserves (λ s, quiet d0 (tbl s)) (Apply.write_irreversible_blocks n).
Proof. unfold Apply.write_irreversible_blocks, Apply.log_append. walk. Qed.
#[local] Hint Resolve write_irreversible_quiet : preserves.
Lemma fork_head_matches_reads I p : preserves I (Apply.fork_head_matches p).
Proof. unfold Apply.fork_head_matches. walk. Qed.
#[local] Hint Resolve fork_head_matches_reads : preserves.

Lemma quiet_keeps_wf {A} (m : DB A) : (∀ d0, preserves (λ s, quiet d0 (tbl s)) m) → preserves (λ s, wf_tables (tbl s)) m.
Proof. intros Hm s Hs. eapply quiet_wf, (Hm (tbl s)). by apply quiet_refl. Qed.
Lemma migrate_wf : preserves (λ s, wf_tables (tbl s)) Apply.migrate_irreversible_state.
Proof.
  unfold Apply.migrate_irreversible_state.
  apply preserves_capture, preserves_bind; [walk|intros p]. apply preserves_bind; [apply fork_head_matches_reads|intros _].
  apply preserves_bind; [walk|intros k]. apply preserves_bind.
  - apply preserves_when, quiet_keeps_wf. intros d0. apply write_irreversible_quiet.
  - intros _. apply preserves_bind; [by intros s Hs|intros _]. intros s Hs.
    destruct (commit_tables (dgp_last_irreversible_block_num p) (tbl s)) as (d & Hrun & Hd).
    rewrite (on_base_run _ _ _ _ Hrun). intros t. cbn [tbl set_tbl snd]. rewrite Hd. by apply wf_commit.
Qed.
Lemma log_append_items t x b' : preserves (λ s, items t s = x) (Apply.log_append b').
Proof. unfold Apply.log_append. walk. Qed.
Lemma commit_items t x n : preserves (λ s, items t s = x) (on_base (Base.commit n)).
Proof.
  intros s <-. destruct (commit_tables n (tbl s)) as (d & Hrun & Hd). rewrite (on_base_run _ _ _ _ Hrun). simpl.
  unfold items. cbn [tbl set_tbl]. by rewrite Hd.
Qed.
(** What is irreversible is written and its undo history dropped; no object changes. *)
Lemma migrate_items t x : preserves (λ s, items t s = x) Apply.migrate_irreversible_state.
Proof.
  unfold Apply.migrate_irreversible_state, Apply.write_irreversible_blocks.
  apply preserves_capture, preserves_bind; [walk|intros p]. apply preserves_bind; [apply fork_head_matches_reads|intros _].
  apply preserves_bind; [walk|intros k]. apply preserves_bind.
  - apply preserves_when, preserves_bind; [walk|intros l]. apply preserves_bind; [apply blocks_to_write_reads|intros bs].
    apply preserves_for_each. intros b'. apply log_append_items.
  - intros _. apply preserves_bind; [by intros s Hs|intros _]. apply commit_items.
Qed.

Lemma apply_block_throws b skip : throws_quiet (Apply.apply_block b skip).
Proof.
  unfold Apply.apply_block, Apply._apply_block, Apply.migrate_irreversible_state.
  apply throws_capture, throws_skip, throws_capture, throws_bind; [intros; walk|intros _].
  apply throws_capture. do 5 (apply throws_bind; [intros; walk|intros ?]).
  apply commit_throws_quiet.
Qed.

Lemma capture_exc {A} (m : DB A) s e s' : capture_rethrow m s = (Exc e, s') → ∃ e0, m s = (Exc e0, s').
Proof.
  unfold capture_rethrow, try_catch. destruct (m s) as [[a|e0] s1]; [done|]. intros [= _ <-]. by exists e0.
Qed.
Lemma push_next_throws b skip s e s' : wf_tables (tbl s) →
  Apply.push_next b skip s = (Exc e, s') → same_tables (tbl s') (tbl s) ∧ wf_tables (tbl s').
Proof.
  intros Hwf Hr. unfold Apply.push_next, try_catch in Hr. rewrite bind_run in Hr.
  destruct (with_session (Apply.apply_block b skip) s) as [[[]|e1] s1] eqn:Hw; [discriminate Hr|].
  apply session_throws in Hw as [Hsame Hwf1]; [|apply apply_block_throws|exact Hwf].
  replace (tbl s') with (tbl s1); [exact (conj Hsame Hwf1)|].
  destruct (is_fc e1); rewrite bind_run in Hr; injection Hr as _ <-; reflexivity.
Qed.

(** Pushing [b] does not make the node switch to another fork: the block that
    the fork database then has as its head builds on the head of the chain, or
    is not higher than it. *)
Definition stays_on_fork (b : signed_block) (s : database) : Prop :=
  flag (skip_flags s) skip_fork_db = false → ∀ a d it p,
  ForkDb.push_block b (fork_db s) = (Ok (Some a), d) → ForkDb.deref d a = Some it → Db.dgp s = Some p →
  ForkDb.previous_id it = dgp_head_block_id p ∨
  Block.block_num (header (ForkDb.data it)) ≤ dgp_head_block_number p.

(** C6: A block that does not apply leaves no trace in the tables: when
    [_push_block] throws on a block that does not make the node switch forks,
    whatever part of it failed, every table has the contents, the undo history
    and the revision it had before. *)
Theorem failed_block_leaves_no_trace b s e s' : wf_tables (tbl s) → stays_on_fork b s →
  Apply._push_block b s = (Exc e, s') → same_tables (tbl s') (tbl s) ∧ wf_tables (tbl s').
Proof.
  intros Hwf Hstay Hr. unfold Apply._push_block in Hr. apply capture_exc in Hr as (e0 & Hr).
  rewrite bind_run in Hr. cbn [gets] in Hr.
  assert (Hrefl : same_tables (tbl s) (tbl s) ∧ wf_tables (tbl s)) by (split; [reflexivity|done]).
  destruct (flag (skip_flags s) skip_fork_db) eqn:Hskip; [by apply push_next_throws in Hr|].
  rewrite bind_run in Hr. unfold on_fork in Hr.
  destruct (ForkDb.push_block b (fork_db s)) as [[a|e1] d] eqn:Hp; [|by injection Hr as <- <-].
  rewrite bind_run in Hr. unfold get_or in Hr. cbn [fork_db set_fork_db] in Hr.
  destruct a as [a|]; [cbn [mbind option_bind] in Hr|by injection Hr as <- <-].
  destruct (ForkDb.deref d a) as [it|] eqn:Hit; [|by injection Hr as <- <-].
  rewrite bind_run in Hr. destruct (Db.head_block_id (set_fork_db d s)) as [[h|e1] s1] eqn:Hh;
    (pose proof Hh as Hs1; apply reads_run in Hs1 as ->; [|intros I; walk]); [|by injection Hr as <- <-].
  case_bool_decide as Hprev; [by apply push_next_throws in Hr|].
  rewrite bind_run in Hr. destruct (Db.head_block_num (set_fork_db d s)) as [[n|e1] s1] eqn:Hn;
    (pose proof Hn as Hs1; apply reads_run in Hs1 as ->; [|intros I; walk]); [|by injection Hr as <- <-].
  assert (Hnn : (n <? Block.block_num (header (ForkDb.data it))) = false).
  { inv_db. destruct (Hstay Hskip a d it _ Hp Hit ltac:(eassumption)) as [?|?]; [congruence|].
    simplify_eq. by apply Z.ltb_ge. }
  rewrite Hnn in Hr. discriminate Hr.
Qed.
End failed_block.

(** ** The head of the chain after a block *)

Lemma modify_dgp_run p f s u s' : wf_tables (tbl s) → Db.dgp s = Some p →
  modify t_dgp (dgp_id p) f s = (Ok u, s') →
  ∃ p', f p = Ok p' ∧ Db.dgp s' = Some p' ∧ only t_dgp s s'.
Proof.
  intros Hwf Hp (v & v' & Hv & Hf & _ & Hi & Ho)%modify_run.
  pose proof (items_id t_dgp s 0 p Hwf Hp) as Hid. simpl in Hid.
  rewrite Hid in Hv. pose proof (items_inj t_dgp s 0 v p Hv Hp) as ->.
  change (obj_id p) with (dgp_id p) in Hi. rewrite Hid in Hi.
  exists v'. split; [done|]. split; [|done]. unfold Db.dgp. rewrite Hi. apply lookup_insert_eq.
Qed.

Section head.
Context `{Env} `{Node} `{!NodePromise} `{Platform}.

(** What the global properties say after block [b]. *)
Definition heads (b : signed_block) (p : dynamic_global_property_object) : Prop :=
  dgp_head_block_number p = Block.block_num (header b) ∧ dgp_head_block_id p = Block.id (header b) ∧
  dgp_time p = timestamp (header b) ∧
  (XGT_MAX_WITNESSES < Block.block_num (header b) →
   dgp_last_irreversible_block_num p = Block.block_num (header b) - XGT_MAX_WITNESSES).

Lemma update_global_run b s u s' : wf_tables (tbl s) → Apply.update_global_dynamic_data b s = (Ok u, s') →
  ∃ p, Db.dgp s' = Some p ∧ dgp_head_block_number p = Block.block_num (header b) ∧
    dgp_head_block_id p = Block.id (header b) ∧ dgp_time p = timestamp (header b).
Proof.
  unfold Apply.update_global_dynamic_data. intros Hwf Hr. inv_db.
  match goal with Hw : when _ _ _ = (Ok _, _) |- _ => apply reads_run in Hw as ->; [|intros I; walk] end.
  match goal with Hm : modify _ _ _ _ = _ |- _ => eapply modify_dgp_run in Hm as (p & [= <-] & Hp & _); [|done..] end.
  eexists. by split.
Qed.

Lemma update_lib_run b p s u s' : wf_tables (tbl s) → Db.dgp s = Some p →
  dgp_head_block_number p = Block.block_num (header b) → dgp_head_block_id p = Block.id (header b) →
  dgp_time p = timestamp (header b) → Apply.update_last_irreversible_block s = (Ok u, s') →
  ∃ p, Db.dgp s' = Some p ∧ heads b p.
Proof.
  unfold Apply.update_last_irreversible_block. intros Hwf Hp Hn Hi Ht Hr. inv_db.
  match goal with Hm : modify _ _ _ _ = _ |- _ => eapply modify_dgp_run in Hm as (p' & Hf & Hp' & _); [|done..] end.
  exists p'. split; [done|]. simplify_eq. rewrite Hn in Hf. unfold heads.
  destruct (Z.ltb_spec XGT_MAX_WITNESSES (Block.block_num (header b))); injection Hf as <-; simpl;
    split_and!; done || lia.
Qed.

(** The steps after that leave those members alone. *)
Definition headed (b : signed_block) (s : database) : Prop :=
  wf_tables (tbl s) ∧ ∃ p, Db.dgp s = Some p ∧ heads b p.
Lemma headed_frame b ts (m : DB unit) s u s' : t_dgp ∉ ts → (∀ d0, preserves (λ s, quiet d0 (tbl s)) m) →
  (∀ s0, preserves (frame ts s0) m) → headed b s → m s = (Ok u, s') → headed b s'.
Proof.
  intros Ht Hq Hf (Hwf & p & Hp & Hh) Hr. split.
  - eapply quiet_wf, run_quiet; [exact Hq|exact Hwf|exact Hr].
  - exists p. split; [|done]. apply (frame_run ts) in Hr; [|done].
    unfold Db.dgp. by rewrite (frame_items _ t_dgp _ _ Hr Ht).
Qed.
Lemma set_mining_target_headed b t s u s' : headed b s → Apply.set_mining_target t s = (Ok u, s') → headed b s'.
Proof.
  intros (Hwf & p & Hp & Hh) Hr. split.
  - eapply quiet_wf, run_quiet; [|exact Hwf|exact Hr]. intros d0. unfold Apply.set_mining_target. walk.
  - unfold Apply.set_mining_target in Hr. inv_db. simplify_eq.
    match goal with Hm : modify _ _ _ _ = _ |- _ => eapply modify_dgp_run in Hm as (p' & [= <-] & Hp' & _); [|done..] end.
    eexists. split; [done|]. done.
Qed.
Lemma adjust_difficulty_headed b b' s u s' : headed b s → Apply.adjust_difficulty b' s = (Ok u, s') → headed b s'.
Proof.
  intros Hs Hr. unfold Apply.adjust_difficulty in Hr.
  destruct (_ =? 1); [by eapply set_mining_target_headed|].
  apply when_ok in Hr as [[_ Hr]|[_ ->]]; [|done].
  apply St_bind_ok in Hr as (pr & s1 & Hpr & Hr). apply reads_run in Hpr as ->; [|intros I; unfold Apply.prior_block; walk].
  apply St_bind_ok in Hr as (g & s1 & [_ ->]%get_or_run & Hr). by eapply set_mining_target_headed.
Qed.
Lemma remove_all_run (l : list Z) s u s' : for_each l (remove t_transaction) s = (Ok u, s') →
  ∀ j, items t_transaction s' !! j = if bool_decide (j ∈ l) then None else items t_transaction s !! j.
Proof.
  revert s. induction l as [|i l IH]; intros s Hr j; simpl in Hr.
  { by injection Hr as _ <-. }
  apply St_bind_ok in Hr as ([] & s1 & (v & _ & Hi & _)%remove_run & Hr).
  rewrite (IH _ Hr j), Hi. destruct (decide (j = i)) as [->|Hne].
  - rewrite lookup_delete_eq. by case_bool_decide; case_bool_decide; set_solver.
  - rewrite lookup_delete_ne by done. repeat case_bool_decide; done || set_solver.
Qed.
(** The table after [clear_expired_transactions]: the rest, and only that. *)
Lemma clear_expired_run p s u s' : Db.dgp s = Some p → Apply.clear_expired_transactions s = (Ok u, s') →
  ∀ i (x : obj t_transaction), items t_transaction s' !! i = Some x ↔
    items t_transaction s !! i = Some x ∧ dgp_time p ≤ to_expiration x.
Proof.
  unfold Apply.clear_expired_transactions. intros Hp Hr i x. inv_db. simplify_eq.
  match goal with Hf : for_each _ _ _ = _ |- _ => rewrite (remove_all_run _ _ _ _ Hf i) end.
  assert (Hin : items t_transaction s !! i = Some x → i ∈ Apply.expired (dgp_time p) s ↔ to_expiration x < dgp_time p).
  { intros Hi. unfold Apply.expired. rewrite list_elem_of_fmap. split.
    - intros ([j y] & -> & [Hlt Hj]%list_elem_of_filter). apply elem_of_map_items in Hj.
      by pose proof (items_inj t_transaction _ _ _ _ Hi Hj) as ->.
    - intros Hlt. exists (i, x). split; [done|]. apply list_elem_of_filter. split; [done|].
      by apply elem_of_map_items. }
  case_bool_decide as Hl; split; try done.
  - intros [Hi Hle]. apply Hin in Hl; [lia|done].
  - intros Hi. split; [done|]. rewrite (Hin Hi) in Hl. lia.
  - by intros [? _].
Qed.

(** What the steps after the transactions may touch. *)
Lemma create_block_summary_frame b s0 : preserves (frame [t_block_summary] s0) (Apply.create_block_summary b).
Proof. unfold Apply.create_block_summary. walk. Qed.
Lemma clear_expired_frame s0 : preserves (frame [t_transaction] s0) Apply.clear_expired_transactions.
Proof. unfold Apply.clear_expired_transactions. walk. Qed.
Lemma clear_null_frame s0 : preserves (frame liquid_tables s0) Db.clear_null_wallet_balance.
Proof.
  unfold Db.clear_null_wallet_balance, Db.adjust_supply. walk.
Qed.
Lemma reward_miner_frame b s0 : preserves (frame liquid_tables s0) (Apply.reward_miner b).
Proof. unfold Apply.reward_miner. walk. Qed.
Lemma adjust_difficulty_frame b s0 : preserves (frame [t_dgp] s0) (Apply.adjust_difficulty b).
Proof.
  unfold Apply.adjust_difficulty, Apply.prior_block, Apply.set_mining_target.
  walk.
Qed.
Lemma process_hardforks_reads I : preserves I Apply.process_hardforks.
Proof. unfold Apply.process_hardforks. walk. Qed.

Lemma create_block_summary_run b s u s' : wf_tables (tbl s) → Apply.create_block_summary b s = (Ok u, s') →
  ∃ x, items t_block_summary s' !! Z.land (Block.block_num (header b)) 0xffff = Some x ∧
    bs_block_id x = Block.id (header b).
Proof.
  unfold Apply.create_block_summary. intros Hwf Hr. inv_db.
  match goal with Hi : items t_block_summary s !! ?k = Some ?x, Hm : modify _ _ _ _ = _ |- _ =>
    pose proof (items_id t_block_summary s k x Hwf Hi) as Hid; change (obj_id x) with (bs_id x) in Hid;
    apply (modify_run t_block_summary) in Hm as (v & v' & Hv & [= <-] & _ & Hit & _) end.
  rewrite Hid in Hv.
  assert (Hidv : obj_id v = Z.land (Block.block_num (header b)) 0xffff) by exact (items_id t_block_summary _ _ _ Hwf Hv).
  rewrite Hit, Hidv. eexists. split; [apply lookup_insert_eq|done].
Qed.

(** The first two steps set the head. *)
Lemma headed_after b s s1 s2 : wf_tables (tbl s) → Apply.update_global_dynamic_data b s = (Ok tt, s1) →
  Apply.update_last_irreversible_block s1 = (Ok tt, s2) → headed b s2.
Proof.
  intros Hwf E1 E2. assert (Hwf1 : wf_tables (tbl s1)).
  { eapply quiet_wf, run_quiet; [|exact Hwf|exact E1]. intros d0. apply update_global_dynamic_data_quiet. }
  destruct (update_global_run _ _ _ _ Hwf E1) as (p & Hp & Hn & Hi & Ht).
  split; [|exact (update_lib_run b p s1 tt s2 Hwf1 Hp Hn Hi Ht E2)].
  eapply quiet_wf, run_quiet; [|exact Hwf1|exact E2]. intros d0. apply update_last_irreversible_block_quiet.
Qed.
(** The last steps: balances, then the mining target. *)
Lemma rewards_after b n s4 s5 s6 s7 : headed b s4 → Db.clear_null_wallet_balance s4 = (Ok tt, s5) →
  when (POW_IN_BLOCK_START <=? n) (Apply.reward_miner b) s5 = (Ok tt, s6) →
  Apply.adjust_difficulty b s6 = (Ok tt, s7) →
  headed b s7 ∧ ∀ t, t ≠ t_dgp → t ∉ liquid_tables → items t s7 = items t s4.
Proof.
  intros Hh4 E5 E6 E7.
  assert (Hh5 : headed b s5) by (eapply (headed_frame b liquid_tables), E5;
    [by_decide|intros; apply clear_null_wallet_balance_quiet|intros; apply clear_null_frame|done]).
  assert (Hf6 : ∀ s0, preserves (frame liquid_tables s0) (when (POW_IN_BLOCK_START <=? n) (Apply.reward_miner b)))
    by (intros s0; apply preserves_when, reward_miner_frame).
  assert (Hh6 : headed b s6) by (eapply (headed_frame b liquid_tables), E6;
    [by_decide|intros; apply preserves_when, reward_miner_quiet|done|done]).
  split; [exact (adjust_difficulty_headed b b s6 tt s7 Hh6 E7)|]. intros t Htd Htl.
  apply (frame_run [t_dgp]) in E7; [|intros; apply adjust_difficulty_frame].
  apply (frame_run liquid_tables) in E6; [|done].
  apply (frame_run liquid_tables) in E5; [|intros; apply clear_null_frame].
  rewrite (frame_items _ t _ _ E7), (frame_items _ t _ _ E6), (frame_items _ t _ _ E5) by set_solver. done.
Qed.

(** The state a block leaves: the head, its summary, no expired transaction. *)
Definition settled (b : signed_block) (s : database) : Prop :=
  headed b s ∧
  (∃ x, items t_block_summary s !! Z.land (Block.block_num (header b)) 0xffff = Some x ∧
     bs_block_id x = Block.id (header b)) ∧
  ∀ i x, items t_transaction s !! i = Some x → timestamp (header b) ≤ to_expiration x.
(** The states [settle_block] goes through. *)
Lemma settle_steps b s u s' : wf_tables (tbl s) → Apply.settle_block b s = (Ok u, s') →
  ∃ s2 s3 s4, headed b s2 ∧ (∀ t, t ≠ t_dgp → items t s2 = items t s) ∧
    Apply.create_block_summary b s2 = (Ok tt, s3) ∧ headed b s3 ∧
    Apply.clear_expired_transactions s3 = (Ok tt, s4) ∧
    headed b s' ∧ ∀ t, t ≠ t_dgp → t ∉ liquid_tables → items t s' = items t s4.
Proof.
  intros Hwf Hr. unfold Apply.settle_block in Hr.
  apply St_bind_ok in Hr as ([] & s1 & E1 & Hr). apply St_bind_ok in Hr as ([] & s2 & E2 & Hr).
  apply St_bind_ok in Hr as ([] & s3 & E3 & Hr). apply St_bind_ok in Hr as ([] & s4 & E4 & Hr).
  apply St_bind_ok in Hr as ([] & s5 & E5 & Hr). apply St_bind_ok in Hr as (n & x & E & Hr).
  apply reads_run in E as ->; [|intros I; walk].
  apply St_bind_ok in Hr as ([] & s6 & E6 & Hr). apply St_bind_ok in Hr as ([] & s7 & E7 & Hr).
  apply reads_run in Hr as ->; [|intros I; apply process_hardforks_reads].
  pose proof (headed_after b s s1 s2 Hwf E1 E2) as Hh2.
  assert (Hh3 : headed b s3) by (eapply (headed_frame b [t_block_summary]), E3;
    [by_decide|intros; apply create_block_summary_quiet|intros; apply create_block_summary_frame|done]).
  assert (Hh4 : headed b s4) by (eapply (headed_frame b [t_transaction]), E4;
    [by_decide|intros; apply clear_expired_quiet|intros; apply clear_expired_frame|done]).
  destruct (rewards_after b n s4 s5 s6 s7 Hh4 E5 E6 E7) as [Hh7 Hsame].
  exists s2, s3, s4. split_and!; try done. intros t Ht.
  apply (frame_run [t_dgp]) in E1; [|intros s0; unfold Apply.update_global_dynamic_data; walk].
  apply (frame_run [t_dgp]) in E2; [|intros s0; unfold Apply.update_last_irreversible_block; walk].
  by rewrite (frame_items _ t _ _ E2), (frame_items _ t _ _ E1) by set_solver.
Qed.
(** The table of recent transactions afterwards: those that did not expire. *)
Lemma settle_table b s u s' i x : wf_tables (tbl s) → Apply.settle_block b s = (Ok u, s') →
  items t_transaction s' !! i = Some x ↔
  items t_transaction s !! i = Some x ∧ timestamp (header b) ≤ to_expiration x.
Proof.
  intros Hwf (s2 & s3 & s4 & _ & Hi2 & E3 & Hh3 & E4 & _ & Hsame)%settle_steps; [|done].
  rewrite Hsame by by_decide. destruct Hh3 as (_ & q & Hq & _ & _ & Ht & _).
  rewrite (clear_expired_run q s3 tt s4 Hq E4), Ht.
  apply (frame_run [t_block_summary]) in E3; [|intros; apply create_block_summary_frame].
  by rewrite (frame_items _ t_transaction _ _ E3), Hi2 by by_decide.
Qed.
Lemma settle_run b s u s' : wf_tables (tbl s) → Apply.settle_block b s = (Ok u, s') → settled b s'.
Proof.
  intros Hwf Hr. split; [|split].
  - by apply settle_steps in Hr as (s2 & s3 & s4 & _ & _ & _ & _ & _ & Hh & _).
  - apply settle_steps in Hr as (s2 & s3 & s4 & Hh2 & _ & E3 & Hh3 & E4 & Hh & Hsame); [|done].
    rewrite Hsame by by_decide. apply create_block_summary_run in E3; [|apply Hh2].
    apply (frame_run [t_transaction]) in E4; [|intros; apply clear_expired_frame].
    by rewrite (frame_items _ t_block_summary _ _ E4) by by_decide.
  - intros i x Hx. by apply (settle_table b s u s' i x Hwf Hr) in Hx as [_ Hx].
Qed.
(** Transactions that did not expire stay in the table. *)
Lemma settle_keeps b s u s' i x : wf_tables (tbl s) → Apply.settle_block b s = (Ok u, s') →
  items t_transaction s !! i = Some x → timestamp (header b) ≤ to_expiration x →
  items t_transaction s' !! i = Some x.
Proof. intros Hwf Hr Hi Hle. by apply (settle_table b s u s' i x Hwf Hr). Qed.

(** ** The table of recent transactions *)
Definition remembered (id : transaction_id_type) (e : time_point_sec) (s : database) : Prop :=
  ∃ i x, items t_transaction s !! i = Some x ∧ to_trx_id x = id ∧ to_expiration x = e.

Lemma operation_keeps_transactions m op :
  preserves (λ s, items t_transaction s = m) (Registry.apply_operation op).
Proof.
  intros s <-. apply (frame_items (touched op)); [|destruct op; by_decide].
  apply apply_operation_frame, frame_refl.
Qed.
#[local] Hint Resolve operation_keeps_transactions : preserves.

(** An applied transaction is added to the table, unless duplicates are not
    looked for. *)
Lemma transaction_table tx s u s' : Apply._apply_transaction tx s = (Ok u, s') →
  if flag (skip_flags s) skip_transaction_dupe_check then items t_transaction s' = items t_transaction s
  else ∃ i x, items t_transaction s !! i = None ∧ items t_transaction s' = <[i := x]> (items t_transaction s) ∧
    to_trx_id x = tx_id tx ∧ to_expiration x = expiration tx.
Proof.
  intros Hr. apply capture_ok in Hr.
  apply St_bind_ok in Hr as (skip & x0 & [-> ->]%gets_ok & Hr).
  apply St_bind_ok in Hr as ([] & x1 & E1 & Hr). apply reads_run in E1 as ->; [|intros I; walk].
  apply St_bind_ok in Hr as (known & x2 & [-> ->]%gets_ok & Hr).
  apply St_bind_ok in Hr as ([] & x3 & [_ ->]%fc_assert_St_ok & Hr).
  apply St_bind_ok in Hr as ([] & x4 & E4 & Hr). apply reads_run in E4 as ->; [|intros I; walk].
  apply St_bind_ok in Hr as (n & x5 & E5 & Hr). apply reads_run in E5 as ->; [|intros I; walk].
  apply St_bind_ok in Hr as ([] & x6 & E6 & Hr). apply reads_run in E6 as ->; [|intros I; walk].
  apply St_bind_ok in Hr as ([] & x7 & E7 & Hr).
  eapply (preserves_run (λ s, items t_transaction s = items t_transaction x7)) in Hr; [|walk|done]. rewrite Hr.
  destruct (flag (skip_flags s) skip_transaction_dupe_check); simpl in E7; [by injection E7 as <-|].
  apply St_bind_ok in E7 as (v & x8 & Hc & [= <-]).
  apply (create_run t_transaction) in Hc as ([= <-] & Hnew & _ & Hit & _).
  rewrite Hit. by eexists _, _.
Qed.
Lemma transaction_remembered id e tx skip s u s' : Apply.apply_transaction tx skip s = (Ok u, s') →
  remembered id e s' ↔ remembered id e s ∨
    flag skip skip_transaction_dupe_check = false ∧ tx_id tx = id ∧ expiration tx = e.
Proof.
  intros (s1 & Hr & ->)%with_skip_run. apply transaction_table in Hr. simpl in Hr.
  change (remembered id e (set_skip_flags (skip_flags s) s1)) with (remembered id e s1). unfold remembered.
  change (items t_transaction (set_skip_flags skip s)) with (items t_transaction s) in Hr.
  destruct (flag skip skip_transaction_dupe_check).
  { rewrite Hr. split; [by left|]. by intros [?|[? _]]. }
  destruct Hr as (i & x & Hnew & -> & Hid & He). split.
  - intros (j & y & Hy & Hy1 & Hy2). rewrite lookup_insert in Hy. case_decide; [injection Hy as <-|left; eauto].
    right. split_and!; congruence.
  - intros [(j & y & Hy & Hy')|(_ & <- & <-)].
    + exists j, y. split; [|done]. rewrite lookup_insert_ne; [done|]. intros ->. discriminate (eq_trans (eq_sym Hnew) Hy).
    + exists i, x. by rewrite lookup_insert_eq.
Qed.
Lemma transactions_remembered id e skip l s u s' :
  for_each l (λ tx, Apply.apply_transaction tx skip) s = (Ok u, s') →
  remembered id e s' ↔ remembered id e s ∨
    flag skip skip_transaction_dupe_check = false ∧ ∃ tx, tx ∈ l ∧ tx_id tx = id ∧ expiration tx = e.
Proof.
  revert s. induction l as [|tx l IH]; intros s Hr; simpl in Hr.
  - injection Hr as _ <-. set_solver.
  - apply St_bind_ok in Hr as ([] & s1 & E & Hr). rewrite (IH _ Hr), (transaction_remembered id e _ _ _ _ _ E).
    set_solver.
Qed.

(** A step that neither leaves the session nor touches the table. *)
Definition keeps_recent {A} (m : DB A) : Prop :=
  (∀ d0, preserves (λ s, quiet d0 (tbl s)) m) ∧
  ∀ x p, preserves (λ s, items t_transaction s = x ∧ Db.dgp s = p) m.
Lemma keeps_recent_ok {A B} (m : DB A) (f : A → DB B) s b s' : keeps_recent m →
  wf_tables (tbl s) → (m ≫= f) s = (Ok b, s') →
  ∃ a s1, wf_tables (tbl s1) ∧ (items t_transaction s1 = items t_transaction s ∧ Db.dgp s1 = Db.dgp s) ∧
    f a s1 = (Ok b, s').
Proof.
  intros [Hq Hi] Hwf (a & s1 & Hr & Hf)%St_bind_ok. exists a, s1.
  split; [|split; [exact (preserves_run _ m s _ s1 (Hi _ _) (conj eq_refl eq_refl) Hr)|done]].
  eapply quiet_wf, run_quiet; [exact Hq|exact Hwf|exact Hr].
Qed.
Lemma header_extensions_recent b : keeps_recent (Apply.process_header_extensions b).
Proof.
  split; [intros; apply header_extensions_quiet|].
  assert (Hf : ∀ s0, preserves (frame [t_witness] s0) (Apply.process_header_extensions b)).
  { intros s0. unfold Apply.process_header_extensions, Apply.process_header_extension. walk. }
  intros x p s [<- <-]. pose proof (Hf s s (frame_refl _ _)) as Hs. unfold Db.dgp.
  split; [|f_equal]; apply (frame_items [t_witness]); done || by_decide.
Qed.
(** The transactions of a block, with the table as it was, and what follows. *)
Lemma contents_steps b s s' : wf_tables (tbl s) → Apply.apply_contents b s = (Ok tt, s') →
  ∃ s1 s2, wf_tables (tbl s1) ∧ items t_transaction s1 = items t_transaction s ∧ Db.dgp s1 = Db.dgp s ∧
    for_each (transactions b) (λ tx, Apply.apply_transaction tx (skip_flags s)) s1 = (Ok tt, s2) ∧
    wf_tables (tbl s2) ∧ Apply.settle_block b s2 = (Ok tt, s').
Proof.
  intros Hwf Hr. unfold Apply.apply_contents in Hr.
  apply St_bind_ok in Hr as (skip & s0 & [-> ->]%gets_ok & Hr).
  do 7 (apply keeps_recent_ok in Hr as (? & ? & ? & [? ?] & Hr);
    [|first [apply header_extensions_recent|
        split; intros; first [apply preserves_when, check_merkle_root_quiet|unfold Apply.check_merkle_root; walk]]|done]).
  apply St_bind_ok in Hr as ([] & s2 & E & Hr). eexists _, s2. split_and!; [| | |exact E| |exact Hr]; [done|congruence|congruence|].
  eapply quiet_wf, run_quiet; [|done|exact E]. intros d0. unfold Apply.apply_transaction. walk.
Qed.

Lemma contents_run b s s' : wf_tables (tbl s) → Apply.apply_contents b s = (Ok tt, s') →
  settled b s' ∧
  ∀ id e, remembered id e s' ↔ timestamp (header b) ≤ e ∧
    (remembered id e s ∨
     flag (skip_flags s) skip_transaction_dupe_check = false ∧
     ∃ tx, tx ∈ transactions b ∧ tx_id tx = id ∧ expiration tx = e).
Proof.
  intros Hwf Hr. destruct (contents_steps b s s' Hwf Hr) as (s1 & s2 & _ & Hs1 & _ & Ht & Hwf2 & Hset).
  split; [by eapply settle_run|]. intros id e. pose proof (transactions_remembered id e _ _ _ _ _ Ht) as Hm.
  assert (Hm1 : remembered id e s1 ↔ remembered id e s) by (unfold remembered; by rewrite Hs1).
  rewrite <- Hm1, <- Hm. unfold remembered. split.
  - intros (i & x & [Hx Hle]%(settle_table b s2 tt s' i x Hwf2 Hset) & Hid & <-). eauto 6.
  - intros [Hle (i & x & Hx & Hid & He)]. exists i, x. split; [|done].
    apply (settle_table b s2 tt s' i x Hwf2 Hset). split; [done|lia].
Qed.

(** C9: Once the contents of a block are applied the chain points to that
    block: the head number, id and time are those of its header, the last
    irreversible block trails it by [XGT_MAX_WITNESSES] as soon as there are so
    many, and its id is in the block summaries under its number modulo 2^16.
    The transactions remembered are those remembered before and, unless
    duplicates are not looked for, those of the block, except the ones that
    expired before the time of the block; nothing else is dropped. *)
Theorem block_becomes_head b s s' : wf_tables (tbl s) → Apply.apply_contents b s = (Ok tt, s') →
  settled b s' ∧
  ∀ id e, remembered id e s' ↔ timestamp (header b) ≤ e ∧
    (remembered id e s ∨
     flag (skip_flags s) skip_transaction_dupe_check = false ∧
     ∃ tx, tx ∈ transactions b ∧ tx_id tx = id ∧ expiration tx = e).
Proof. apply contents_run. Qed.
End head.

(** ** A block on a small chain *)
Module BlockDemo.
Definition setup : DB unit :=
  p ← Db.get_dynamic_global_properties;
  modify t_dgp (dgp_id p) (λ p, mret (set_dgp_maximum_block_size 65536 p)) ;;
  create t_witness (λ w, mret (set_wit_owner "alice" w)) ;;
  for_each (replicate 16 tt) (λ _, create t_block_summary (λ b, mret b) ;; mret tt).
Definition db : database := snd (setup Demo.db).
Lemma chain_wf : wf_tables (tbl db).
Proof.
  eapply quiet_wf, (run_quiet setup Demo.db); [|apply Demo.db_wf|apply surjective_pairing].
  intros d0. unfold setup. walk.
Qed.
Definition header : signed_block_header :=
  mkHeader [Block.endian_reverse_u32 10; 0; 0; 0; 0] 1005 "alice" (Block.calculate_merkle_root (mkBlock (mkHeader [] 0 "" [] [] 0) [])) [] 0.
Definition good : signed_block := mkBlock header [].
Definition result := Apply.apply_contents good db.
(** A block with a transaction that spends too much. *)
Definition bad : signed_block := mkBlock header [ApplyDemo.overspend].
(** The chain with the block before it as its head. *)
Definition tip : DB unit :=
  p ← Db.get_dynamic_global_properties;
  modify t_dgp (dgp_id p) (λ p, mret (set_dgp_head_block_id (previous header) p)).
Definition ready : database := set_skip_flags (Z.lor skip_merkle_check skip_transaction_signatures) (snd (tip db)).
Definition bad_result := Apply._push_block bad ready.
Lemma set_skip_wf v s : wf_tables (tbl s) → wf_tables (tbl (set_skip_flags v s)).
Proof. intros Hs. exact Hs. Qed.
Lemma ready_wf : wf_tables (tbl ready).
Proof.
  apply set_skip_wf. eapply quiet_wf, (run_quiet tip db); [|apply chain_wf|apply surjective_pairing].
  intros d0. unfold tip. walk.
Qed.
Lemma ready_stays : stays_on_fork bad ready.
Proof.
  intros _ a d it p Hp Hit Hd. left.
  assert (Hr : (ForkDb.push_block bad (fork_db ready)).1 = Ok (Some 0%nat)) by (vm_compute; reflexivity).
  assert (Hi : (ForkDb.previous_id <$> ForkDb.deref (ForkDb.push_block bad (fork_db ready)).2 0%nat) =
    Some (previous header)) by (vm_compute; reflexivity).
  assert (Hh : (dgp_head_block_id <$> Db.dgp ready) = Some (previous header)) by (vm_compute; reflexivity).
  rewrite Hd in Hh. clear Hd. revert Hp Hr Hi Hh. generalize (ForkDb.push_block bad (fork_db ready)).
  generalize (previous header). intros i [r d0] Hp Hr Hi Hh. simpl in *. injection Hp as -> ->.
  injection Hr as ->. rewrite Hit in Hi. simpl in Hi. congruence.
Qed.
Lemma applies : Apply.apply_contents good db = (Ok tt, snd result).
Proof.
  change (Apply.apply_contents good db) with result.
  rewrite (surjective_pairing result) at 1. apply (f_equal (λ r, (r, snd result))).
  vm_compute. reflexivity.
Qed.
Lemma fails : Apply._push_block bad ready = (Exc FcException, snd bad_result).
Proof.
  change (Apply._push_block bad ready) with bad_result.
  rewrite (surjective_pairing bad_result) at 1. apply (f_equal (λ r, (r, snd bad_result))).
  vm_compute. reflexivity.
Qed.
End BlockDemo.

Lemma failed_block_leaves_no_trace_witness : same_tables (tbl (snd BlockDemo.bad_result)) (tbl BlockDemo.ready).
Proof.
  exact (proj1 (failed_block_leaves_no_trace BlockDemo.bad BlockDemo.ready FcException
    (snd BlockDemo.bad_result) BlockDemo.ready_wf BlockDemo.ready_stays BlockDemo.fails)).
Defined.
Lemma block_becomes_head_witness : settled BlockDemo.good (snd BlockDemo.result).
Proof. exact (proj1 (block_becomes_head BlockDemo.good BlockDemo.db _ BlockDemo.chain_wf BlockDemo.applies)). Defined.
