(* ===== verification/Progress.v ===== *)
(** * Well-formed tables and progress

    Every operation, transaction and block keeps the tables well formed, also
    when it throws half-way; and a transfer that is covered goes through. *)
From S2P Require Import Prelude Safe Chainbase Asset Protocol Objects Database Ledger Evaluators EvaluatorFacts Xtt Operations LedgerProps Apply ApplyFacts BlockFacts.

(** ** A modification that keeps the keys goes through *)
Section progress.
Context `{Env} `{Node}.

Lemma modify_progress t i (f : obj t → result (obj t)) s v v' : items t s !! i = Some v → f v = Ok v' →
  obj_id v' = obj_id v → ukeys v' = ukeys v → ∃ s', modify t i f s = (Ok tt, s').
Proof.
  intros Hi Hf Hid Hk. unfold modify, at_table, Chainbase.modify. unfold items in Hi. rewrite Hi, Hf.
  unfold Chainbase.on_modify. rewrite (proj1 (on_head_fields _ _)), container_replace_same_keys by done. by eexists.
Qed.
Lemma asset_add_exact x y sym : int64_min ≤ x + y ≤ int64_max →
  Asset.add (mkAsset x sym) (mkAsset y sym) = Ok (mkAsset (x + y) sym).
Proof.
  intros Hr. unfold Asset.add, Asset.same_symbol. cbn [symbol amount]. rewrite Z.eqb_refl.
  rewrite bind_assert_true by done. unfold Safe.add.
  destruct (Z.ltb_spec 0 y), (Z.ltb_spec y 0), (Z.ltb_spec (int64_max - y) x), (Z.ltb_spec x (int64_min - y)); try lia; done.
Qed.
Lemma modify_balance_progress s a bal x : wf_tables (tbl s) → items t_wallet s !! w_id a = Some a →
  w_balance a = mkAsset bal XGT_SYMBOL → 0 ≤ bal + x ≤ int64_max →
  ∃ s', Db.modify_balance a (mkAsset x XGT_SYMBOL) true s = (Ok tt, s') ∧ only t_wallet s s' ∧ wf_tables (tbl s') ∧
    items t_wallet s' = <[w_id a := set_w_balance (mkAsset (bal + x) XGT_SYMBOL) a]> (items t_wallet s).
Proof.
  intros Hwf Ha Hbal Hr. assert (Hadd := asset_add_exact bal x XGT_SYMBOL ltac:(unfold int64_min; lia)).
  destruct (modify_progress t_wallet (w_id a) (λ acnt,
    if XGT_SYMBOL =? XGT_ASSET_NUM_XGT then
      b ← Asset.add (w_balance acnt) (mkAsset x XGT_SYMBOL);
      when true (fc_assert (0 <=? amount b)) ;; mret (set_w_balance b acnt)
    else mthrow AssertException)
    s a (set_w_balance (mkAsset (bal + x) XGT_SYMBOL) a) Ha) as [s' Hm]; [|done..|].
  { change (XGT_SYMBOL =? XGT_ASSET_NUM_XGT) with true. cbv iota. rewrite Hbal, Hadd, bind_Ok. cbn [amount when].
    rewrite (proj2 (Z.leb_le _ _)) by lia. done. }
  exists s'. split; [exact Hm|]. pose proof (run_quiet _ _ _ _ (λ d0, modify_balance_quiet d0 a (mkAsset x XGT_SYMBOL) true) Hwf Hm) as Hq.
  destruct (modify_balance_effect a (mkAsset x XGT_SYMBOL) true s tt s' Hwf Hm) as (_ & Ho & w & w' & Hw & Hi & Ha' & Hw' & _).
  split; [done|]. split; [by eapply quiet_wf|]. assert (w = a) as -> by exact (items_inj t_wallet s (w_id a) w a Hw Ha).
  rewrite Hbal, Hadd in Ha'. injection Ha' as Ha'. rewrite Hi, Hw', <- Ha'. done.
Qed.
(** Taking and giving XGT. *)
Lemma adjust_balance_progress s name a bal x : wf_tables (tbl s) → Db.find_account name s = Some a →
  w_balance a = mkAsset bal XGT_SYMBOL → 0 ≤ bal + x ≤ int64_max → int64_min < x →
  ∃ s', Db.adjust_balance name (mkAsset x XGT_SYMBOL) s = (Ok tt, s') ∧ only t_wallet s s' ∧ wf_tables (tbl s') ∧
    Db.find_account name s' = Some (set_w_balance (mkAsset (bal + x) XGT_SYMBOL) a) ∧
    ∀ name', name' ≠ name → Db.find_account name' s' = Db.find_account name' s.
Proof.
  intros Hwf Hf Hbal Hr Hmin. pose proof (find_by_key_items t_wallet name s a Hwf Hf) as [Ha Hk].
  simpl in Ha, Hk. apply list_elem_of_singleton in Hk as ->.
  destruct (modify_balance_progress s a bal x Hwf Ha Hbal Hr) as (s' & Hm & Ho & Hwf' & Hi).
  exists s'. split; [|split; [done|split; [done|]]].
  - assert (Hget : Db.get_account (w_name a) s = (Ok a, s)) by (unfold Db.get_account, get_or; by rewrite Hf).
    unfold Db.adjust_balance. change (Db.is_xtt (symbol (mkAsset x XGT_SYMBOL))) with false. cbv iota.
    rewrite bind_run. cbn [amount]. destruct (Z.ltb_spec x 0) as [Hneg|Hge].
    + unfold when. rewrite bind_run. unfold Db.get_balance. change (Db.is_xtt (symbol (mkAsset x XGT_SYMBOL))) with false.
      cbv iota. rewrite bind_run, Hget. unfold Db.get_balance_of. change (symbol _ =? XGT_ASSET_NUM_XGT) with true. cbv iota.
      unfold mret at 1, St_ret at 1. unfold Db.check_funds. rewrite bind_run. unfold lift, Asset.neg, Safe.neg. cbn [amount symbol].
      destruct (Z.eqb_spec x int64_min); [lia|]. rewrite bind_Ok. unfold mret, result_ret. cbv beta iota.
      rewrite bind_run. unfold Asset.ge, Asset.same_symbol.
      rewrite Hbal. cbn [amount symbol]. rewrite Z.eqb_refl, bind_assert_true by done. cbv beta iota.
      rewrite (proj2 (Z.leb_le _ _)) by lia. unfold fc_assert, mret, St_ret, result_ret. cbv beta iota.
      rewrite bind_run, Hget. exact Hm.
    + unfold when, mret, St_ret. rewrite bind_run, Hget. exact Hm.
  - by apply find_after_insert.
Qed.
End progress.

Section overdraft.
Context `{Env} `{Node}.
Lemma overdraft_refused s name a bal x : Db.find_account name s = Some a → w_balance a = mkAsset bal XGT_SYMBOL →
  0 ≤ bal < x → x ≤ int64_max → Db.adjust_balance name (mkAsset (- x) XGT_SYMBOL) s = (Exc AssertException, s).
Proof.
  intros Hf Hbal Hx Hmax. assert (Hget : Db.get_account name s = (Ok a, s)) by (unfold Db.get_account, get_or; by rewrite Hf).
  unfold Db.adjust_balance. change (Db.is_xtt (symbol (mkAsset (- x) XGT_SYMBOL))) with false. cbv iota.
  rewrite bind_run. cbn [amount]. destruct (Z.ltb_spec (- x) 0) as [Hneg|]; [|lia].
  unfold when. rewrite bind_run. unfold Db.get_balance. change (Db.is_xtt (symbol (mkAsset (- x) XGT_SYMBOL))) with false.
  cbv iota. rewrite bind_run, Hget. unfold Db.get_balance_of. change (symbol _ =? XGT_ASSET_NUM_XGT) with true. cbv iota.
  unfold mret at 1, St_ret at 1. unfold Db.check_funds. rewrite bind_run. unfold lift, Asset.neg, Safe.neg. cbn [amount symbol].
  unfold int64_min, int64_max in *. destruct (Z.eqb_spec (- x) (- 2 ^ 63)); [lia|]. rewrite bind_Ok. unfold mret, result_ret. cbv beta iota.
  rewrite bind_run. unfold Asset.ge, Asset.same_symbol. rewrite Hbal. cbn [amount symbol].
  rewrite Z.eqb_refl, bind_assert_true by done. rewrite (proj2 (Z.leb_gt _ _)) by lia. done.
Qed.
End overdraft.

(** C30: A transfer of XGT between two wallets goes through exactly when it is
    covered.  If the sender has the amount and the receiver's balance does not
    overflow, it succeeds; the two balances change by the amount, every other
    wallet and every other table stays as it is.  If the sender has less, it is
    refused and nothing changes. *)
Theorem covered_transfer_succeeds `{Env} `{Node} (s : database) (o : transfer_operation) (a b : wallet_object) (x ba bb : Z) :
  wf_tables (tbl s) → Db.find_account (tr_from o) s = Some a → Db.find_account (tr_to o) s = Some b →
  tr_from o ≠ tr_to o → tr_amount o = mkAsset x XGT_SYMBOL → 0 < x ≤ int64_max →
  w_balance a = mkAsset ba XGT_SYMBOL → 0 ≤ ba ≤ int64_max →
  w_balance b = mkAsset bb XGT_SYMBOL → 0 ≤ bb → bb + x ≤ int64_max →
  if x <=? ba then
    ∃ s', Registry.apply_operation (op_transfer o) s = (Ok tt, s') ∧
      Db.find_account (tr_from o) s' = Some (set_w_balance (mkAsset (ba - x) XGT_SYMBOL) a) ∧
      Db.find_account (tr_to o) s' = Some (set_w_balance (mkAsset (bb + x) XGT_SYMBOL) b) ∧
      (∀ name, name ≠ tr_from o → name ≠ tr_to o → Db.find_account name s' = Db.find_account name s) ∧
      (∀ t, t ≠ t_wallet → items t s' = items t s)
  else Registry.apply_operation (op_transfer o) s = (Exc AssertException, s).
Proof.
  intros Hwf Ha Hb Hne Hx Hxr Hba Hbar Hbb Hbb0 Hbbr. cbn [Registry.apply_operation].
  assert (Hrun : Eval.transfer o s = (Db.adjust_balance (tr_from o) (mkAsset (- x) XGT_SYMBOL) ;;
    Db.adjust_balance (tr_to o) (mkAsset x XGT_SYMBOL)) s).
  { unfold Eval.transfer. rewrite bind_run. unfold gets. rewrite Hb. rewrite bind_run. unfold mret at 1, St_ret at 1.
    rewrite bind_run. unfold lift, Asset.neg, Safe.neg. rewrite Hx. cbn [amount symbol].
    unfold int64_min, int64_max in *. destruct (Z.eqb_spec x (- 2 ^ 63)); [lia|]. done. }
  rewrite Hrun. destruct (Z.leb_spec x ba) as [Hle|Hlt].
  - destruct (adjust_balance_progress s (tr_from o) a ba (- x) Hwf Ha Hba ltac:(lia) ltac:(unfold int64_min, int64_max in *; lia))
      as (s1 & E1 & Ho1 & Hwf1 & Hf1 & Hn1).
    destruct (adjust_balance_progress s1 (tr_to o) b bb x Hwf1 ltac:(rewrite Hn1; [exact Hb|by apply not_eq_sym]) Hbb ltac:(lia)
      ltac:(unfold int64_min; lia)) as (s2 & E2 & Ho2 & Hwf2 & Hf2 & Hn2).
    exists s2. split; [by rewrite bind_run, E1|]. split; [by rewrite Hn2, Hf1|]. split; [done|]. split.
    + intros name H1 H2. by rewrite Hn2, Hn1.
    + intros t Ht. by rewrite (only_items _ _ _ _ Ho2 Ht), (only_items _ _ _ _ Ho1 Ht).
  - rewrite bind_run, (overdraft_refused s (tr_from o) a ba x Ha Hba) by lia. done.
Qed.

(** The tables stay well formed — ids below the next id and equal to the
    key they are stored under, no unique key twice, every undo record fitting
    what it restores — through every operation, transaction and block, also
    when it throws half-way. *)
Theorem tables_stay_well_formed `{Env} `{Node} `{!NodePromise} `{Platform}
    (op : operation) (tx : signed_transaction) (b : signed_block) (s : database) :
  wf_tables (tbl s) →
  wf_tables (tbl (Registry.apply_operation op s).2) ∧
  wf_tables (tbl (Apply._apply_transaction tx s).2) ∧
  wf_tables (tbl (Apply.apply_contents b s).2).
Proof.
  intros Hwf. pose proof (quiet_refl _ Hwf) as Hq. split; [|split]; eapply quiet_wf.
  - exact (operation_quiet op (tbl s) s Hq).
  - exact (_apply_transaction_quiet (tbl s) tx s Hq).
  - exact (apply_contents_quiet (tbl s) b s Hq).
Qed.

Module ProgressDemo.
(** Wallets of the small chain: alice has 100, bob nothing. *)
Definition holder (name : wallet_name_type) : wallet_object := default (obj_init 0) (Db.find_account name Demo.db).
Lemma alice : Db.find_account "alice" Demo.db = Some (holder "alice").
Proof. vm_compute. reflexivity. Qed.
Lemma bob : Db.find_account "bob" Demo.db = Some (holder "bob").
Proof. vm_compute. reflexivity. Qed.
Definition move (x : Z) : transfer_operation := mkTransfer "alice" "bob" (mkAsset x XGT_SYMBOL) "".
End ProgressDemo.

(** A transfer of 30 goes through, one of 1000 is refused. *)
Lemma covered_transfer_succeeds_witness :
  (∃ s', Registry.apply_operation (op_transfer (ProgressDemo.move 30)) Demo.db = (Ok tt, s') ∧
     Db.find_account "alice" s' = Some (set_w_balance (mkAsset 70 XGT_SYMBOL) (ProgressDemo.holder "alice"))) ∧
  Registry.apply_operation (op_transfer (ProgressDemo.move 1000)) Demo.db = (Exc AssertException, Demo.db).
Proof.
  split.
  - destruct (covered_transfer_succeeds Demo.db (ProgressDemo.move 30) _ _ 30 100 0 Demo.db_wf ProgressDemo.alice ProgressDemo.bob
      ltac:(discriminate) eq_refl ltac:(unfold int64_max; lia) ltac:(vm_compute; reflexivity) ltac:(unfold int64_max; lia)
      ltac:(vm_compute; reflexivity) ltac:(lia) ltac:(unfold int64_max; lia)) as (s' & Hr & Ha & _).
    exists s'. split; [exact Hr|exact Ha].
  - exact (covered_transfer_succeeds Demo.db (ProgressDemo.move 1000) _ _ 1000 100 0 Demo.db_wf ProgressDemo.alice ProgressDemo.bob
      ltac:(discriminate) eq_refl ltac:(unfold int64_max; lia) ltac:(vm_compute; reflexivity) ltac:(unfold int64_max; lia)
      ltac:(vm_compute; reflexivity) ltac:(lia) ltac:(unfold int64_max; lia)).
Defined.
(** An operation and a transaction that throw, and a block that does not. *)
Lemma tables_stay_well_formed_witness :
  wf_tables (tbl (Registry.apply_operation (op_transfer (ProgressDemo.move 1000)) BlockDemo.db).2) ∧
  wf_tables (tbl (Apply._apply_transaction ApplyDemo.overspend BlockDemo.db).2) ∧
  wf_tables (tbl (Apply.apply_contents BlockDemo.good BlockDemo.db).2).
Proof.
  exact (tables_stay_well_formed (op_transfer (ProgressDemo.move 1000)) ApplyDemo.overspend BlockDemo.good BlockDemo.db BlockDemo.chain_wf).
Defined.
