(* ===== verification/Determinism.v ===== *)
(** * The chain is a function of its tables

    Whether an operation, a transaction or a block is accepted, and what it does,
    depends on the contents of the tables and on the blocks a node knows, not on
    the history of undo states, on pending transactions or on open sessions.
    Applying a block again after a fork was undone, replaying the log without
    sessions, and applying a block on another node with the same tables therefore
    give the same tables.  The exception is a key that is drawn at random: each
    node, and each run of a node, has a generator of its own, so what is proved is
    about runs that draw none. *)
From Stdlib Require Import Morphisms.
From S2P Require Import Prelude Safe Chainbase Asset Protocol SignState Block ForkDatabase ResourceDynamics Objects Database Ledger Evaluators EvaluatorFacts Xtt Operations LedgerProps Apply ApplyFacts BlockFacts.

(** ** States that look the same to the code *)

(** With [h] the relation leaves out what a node that replays its log has of its
    own: the table of recent transactions, the stores of blocks and the flags. *)
Definition hidden (h : bool) (t : table) : bool := match t with t_transaction => h | _ => false end.
Record view (h : bool) (s s' : database) : Prop := {
  view_items t : hidden h t = false → items t s = items t s';
  view_next t : hidden h t = false → Chainbase.next_id (tbl s t) = Chainbase.next_id (tbl s' t);
  view_producing : is_producing s = is_producing s';
  view_pending : is_pending_tx s = is_pending_tx s';
  view_fork : h = false → fork_db s = fork_db s';
  view_log : h = false → block_log s = block_log s';
  view_skip : h = false → skip_flags s = skip_flags s'
}.
Abbreviation same_view := (view false).
#[export] Instance view_equiv h : Equivalence (view h).
Proof.
  split.
  - by constructor.
  - intros s s' []. constructor; intros; symmetry; auto.
  - intros s1 s2 s3 H1 H2. constructor; intros; (etrans; [by apply H1|by apply H2]).
Qed.

Lemma same_view_hides s s' : same_view s s' → view true s s'.
Proof. intros Hv. constructor; try (intros; by apply Hv); intros t _; apply Hv; by destruct t. Qed.

(** Two runs end the same way: with the same result, or the same exception, in
    states that look the same. *)
Definition same_end {A} (h : bool) : relation (result A * database) := prod_relation eq (view h).
Abbreviation same_run := (same_end false).
(** The run from [s] draws no random key. *)
Definition undrawn {A} (s : database) (r : result A * database) : Prop := rand_count r.2 = rand_count s.
(** Unless the run from [s] draws a key, the run from [s'] draws none either and
    ends the same way.  Draws are never taken back. *)
Definition alike {A} (h : bool) (s s' : database) (r r' : result A * database) : Prop :=
  rand_count s ≤ rand_count r.2 ∧ (undrawn s r → same_end h r r' ∧ undrawn s' r').
Definition respects {A} (h : bool) (m : DB A) : Prop := ∀ s s', view h s s' → alike h s s' (m s) (m s').
Abbreviation reads h f := (Proper (view h ==> eq) f).

Create HintDb same_view.

Section logic.
Context (h : bool).
(** What leaves the generator alone. *)
Lemma alike_undrawn {A} s s' (r r' : result A * database) : undrawn s r → undrawn s' r' → same_end h r r' → alike h s s' r r'.
Proof. intros H1 H2 H3. split; [unfold undrawn in H1; lia|done]. Qed.
Lemma alike_same {A} (m : DB A) s s' : view h s s' → (m s).1 = (m s').1 → (m s).2 = s → (m s').2 = s' → alike h s s' (m s) (m s').
Proof. intros Hv E1 E2 E2'. apply alike_undrawn; unfold undrawn; rewrite ?E2, ?E2'; [done..|]. split; [done|]. by rewrite E2, E2'. Qed.
Lemma respects_ret {A} (a : A) : respects h (mret a : DB A).
Proof. intros s s' Hv. by apply alike_same. Qed.
Lemma respects_throw {A} (e : exn) : respects h (mthrow e : DB A).
Proof. intros s s' Hv. by apply alike_same. Qed.
Lemma respects_lift {A} (r : result A) : respects h (lift r : DB A).
Proof. intros s s' Hv. by apply alike_same. Qed.
Lemma respects_assert b : respects h (fc_assert b : DB unit).
Proof. destruct b; intros s s' Hv; by apply alike_same. Qed.
Lemma respects_assert_or b e : respects h (assert_or b e : DB unit).
Proof. destruct b; intros s s' Hv; by apply alike_same. Qed.
Lemma respects_mono {A} (m : DB A) s : respects h m → rand_count s ≤ rand_count (m s).2.
Proof. intros Hm. apply (Hm s s). reflexivity. Qed.
Lemma respects_bind {A B} (m : DB A) (f : A → DB B) : respects h m → (∀ a, respects h (f a)) → respects h (m ≫= f).
Proof.
  intros Hm Hf s s' Hv. rewrite !bind_run. destruct (Hm s s' Hv) as [H1 H2]. unfold undrawn in H2.
  destruct (m s) as [r t], (m s') as [r' t']. simpl in H1, H2. destruct r as [a|e].
  - split; [pose proof (respects_mono (f a) t (Hf a)); lia|]. unfold undrawn. intros Hu. pose proof (respects_mono (f a) t (Hf a)).
    destruct H2 as [[E Hv'] Hu']; [lia|]. simpl in E, Hv'. subst r'. destruct (Hf a t t' Hv') as [_ Hk]. unfold undrawn in Hk.
    destruct Hk as [He Hc]; [lia|]. split; [done|lia].
  - split; [done|]. unfold undrawn. simpl. intros Hu. destruct (H2 Hu) as [[E Hv'] Hu']. simpl in E, Hv'. subst r'. by split.
Qed.
Lemma respects_try {A} (m : DB A) g : respects h m → (∀ e, respects h (g e)) → respects h (try_catch m g).
Proof.
  intros Hm Hf s s' Hv. unfold try_catch. destruct (Hm s s' Hv) as [H1 H2]. unfold undrawn in H2.
  destruct (m s) as [r t], (m s') as [r' t']. simpl in H1, H2. destruct r as [a|e].
  - split; [done|]. unfold undrawn. simpl. intros Hu. destruct (H2 Hu) as [[E Hv'] Hu']. simpl in E, Hv'. subst r'. by split.
  - split; [pose proof (respects_mono (g e) t (Hf e)); lia|]. unfold undrawn. intros Hu. pose proof (respects_mono (g e) t (Hf e)).
    destruct H2 as [[E Hv'] Hu']; [lia|]. simpl in E, Hv'. subst r'. destruct (Hf e t t' Hv') as [_ Hk]. unfold undrawn in Hk.
    destruct Hk as [He Hc]; [lia|]. split; [done|lia].
Qed.
Lemma respects_capture {A} (m : DB A) : respects h m → respects h (capture_rethrow m).
Proof. intros Hm. apply respects_try; [done|]. intros e. apply respects_throw. Qed.
Lemma respects_when b (m : DB unit) : respects h m → respects h (when b m).
Proof. destruct b; [done|]. intros _. apply respects_ret. Qed.
Lemma respects_for_each {A} (l : list A) f : (∀ x, respects h (f x)) → respects h (for_each (M:=St database) l f).
Proof. intros Hf. induction l as [|x l IH]; [apply respects_ret|]. apply respects_bind; [apply Hf|by intros _]. Qed.
Lemma respects_gets {A} (f : database → A) : reads h f → respects h (gets f).
Proof. intros Hf s s' Hv. apply alike_same; [done|exact (f_equal Ok (Hf s s' Hv))|done..]. Qed.
Lemma respects_get_or {A} e (f : database → option A) : reads h f → respects h (get_or e f).
Proof.
  intros Hf s s' Hv. apply alike_same; unfold get_or; [done|rewrite <- (Hf s s' Hv)|..]; by destruct (f _).
Qed.

Lemma respects_at_table {A} t (m : St (Chainbase.generic_index (obj t)) A) : hidden h t = false →
  (∀ gi gi', Chainbase.indices gi = Chainbase.indices gi' → Chainbase.next_id gi = Chainbase.next_id gi' →
     (m gi).1 = (m gi').1 ∧ Chainbase.indices (m gi).2 = Chainbase.indices (m gi').2 ∧
     Chainbase.next_id (m gi).2 = Chainbase.next_id (m gi').2) → respects h (at_table t m).
Proof.
  intros Ht Hm s s' Hv. unfold at_table. destruct (Hm (tbl s t) (tbl s' t)) as (H1 & H2 & H3);
    [by apply (view_items _ _ _ Hv)|by apply (view_next _ _ _ Hv)|].
  destruct (m (tbl s t)) as [r gi], (m (tbl s' t)) as [r' gi']. simpl in H1, H2, H3. subst r'.
  apply alike_undrawn; [done..|]. split; [done|]. destruct Hv. constructor; try done; intros t' Ht'; unfold items in *; simpl;
    (destruct (decide (t = t')) as [<-|Hne]; [by rewrite !upd_same|rewrite !upd_other by done; auto]).
Qed.
Lemma on_head_view {V} f (gi : Chainbase.generic_index V) :
  Chainbase.indices (Chainbase.on_head f gi) = Chainbase.indices gi ∧
  Chainbase.next_id (Chainbase.on_head f gi) = Chainbase.next_id gi.
Proof. unfold Chainbase.on_head. by destruct (Chainbase.stack gi). Qed.
Lemma respects_create t f : hidden h t = false → respects h (create t f).
Proof.
  intros Ht. apply respects_at_table; [done|]. intros gi gi' Hi Hn. unfold Chainbase.emplace. rewrite <- Hi, <- Hn.
  destruct (f _) as [v|e]; [|done]. destruct (Chainbase.container_emplace _ _); [|done].
  unfold Chainbase.on_create. simpl. by rewrite !(proj1 (on_head_view _ _)), !(proj2 (on_head_view _ _)).
Qed.
Lemma respects_modify t i f : hidden h t = false → respects h (modify t i f).
Proof.
  intros Ht. apply respects_at_table; [done|]. intros gi gi' Hi Hn. unfold Chainbase.modify, Chainbase.on_modify. rewrite <- Hi.
  destruct (_ !! i) as [v|]; [|done]. rewrite !(proj1 (on_head_view _ _)), <- Hi.
  destruct (f v) as [v'|e]; [destruct (Chainbase.container_replace _ _ _)|]; simpl;
    rewrite ?(proj1 (on_head_view _ _)), !(proj2 (on_head_view _ _)); done.
Qed.
Lemma respects_remove t i : hidden h t = false → respects h (remove t i).
Proof.
  intros Ht. apply respects_at_table; [done|]. intros gi gi' Hi Hn. unfold Chainbase.remove, Chainbase.on_remove. rewrite <- Hi.
  destruct (_ !! i) as [v|]; [|done]. simpl. by rewrite !(proj1 (on_head_view _ _)), !(proj2 (on_head_view _ _)), <- Hi.
Qed.

Lemma reads_items {A} t (f : gmap Z (obj t) → A) : hidden h t = false → reads h (λ s, f (items t s)).
Proof. intros Ht s s' Hv. by rewrite (view_items _ _ _ Hv). Qed.
Lemma reads_key t k : hidden h t = false → reads h (find_by_key t k).
Proof.
  intros Ht s s' Hv. unfold find_by_key, Chainbase.find_key. pose proof (view_items _ _ _ Hv t Ht) as Hi.
  unfold items in Hi. by rewrite Hi.
Qed.
Lemma reads_first t p : hidden h t = false → reads h (find_first t p).
Proof. intros Ht s s' Hv. unfold find_first. by rewrite (view_items _ _ _ Hv). Qed.
Lemma reads_producing : reads h is_producing.
Proof. intros s s' Hv. apply Hv. Qed.
Lemma reads_pending : reads h is_pending_tx.
Proof. intros s s' Hv. apply Hv. Qed.
End logic.
Lemma reads_skip : reads false skip_flags.
Proof. intros s s' Hv. by apply Hv. Qed.
Lemma reads_log : reads false block_log.
Proof. intros s s' Hv. by apply Hv. Qed.
Lemma reads_fork {A} (f : ForkDb.fork_database → A) : reads false (λ s, f (fork_db s)).
Proof. intros s s' Hv. by rewrite (view_fork _ _ _ Hv). Qed.
#[export] Hint Resolve respects_ret respects_throw respects_lift respects_assert respects_assert_or
  reads_producing reads_pending reads_skip reads_log : same_view.
#[export] Hint Extern 1 (respects _ (create _ _)) => apply respects_create; reflexivity : same_view.
#[export] Hint Extern 1 (respects _ (modify _ _ _)) => apply respects_modify; reflexivity : same_view.
#[export] Hint Extern 1 (respects _ (remove _ _)) => apply respects_remove; reflexivity : same_view.
#[export] Hint Extern 1 (Proper _ (find_by_key _ _)) => apply reads_key; reflexivity : same_view.
#[export] Hint Extern 1 (Proper _ (find_first _ _)) => apply reads_first; reflexivity : same_view.
#[export] Hint Extern 2 (Proper (view _ ==> eq) _) =>
  solve [intros ? ? Hv; cbv delta [Db.find_account Db.find_witness Db.find_comment Db.find_escrow Db.find_authority
    Db.find_balance Db.dgp Db.is_known_transaction find_by_key find_first Chainbase.find_key items] in *; cbv beta;
    pose proof (view_items _ _ _ Hv) as Hi; unfold items in Hi; rewrite ?(view_fork _ _ _ Hv) by reflexivity;
    repeat rewrite Hi by reflexivity; reflexivity] : same_view.

Ltac same_step :=
  lazymatch goal with
  | |- ∀ _, _ => intros ?; cbv zeta
  | |- respects _ (_ ≫= _) => apply respects_bind
  | |- respects _ (when _ _) => apply respects_when
  | |- respects _ (for_each _ _) => apply respects_for_each
  | |- respects _ (capture_rethrow _) => apply respects_capture
  | |- respects _ (try_catch _ _) => apply respects_try
  | |- respects _ (create ?t ?f) => exact (respects_create _ t f eq_refl)
  | |- respects _ (modify ?t ?i ?f) => exact (respects_modify _ t i f eq_refl)
  | |- respects _ (gets _) => apply respects_gets
  | |- respects _ (get_or _ _) => apply respects_get_or
  | |- respects _ (deref _ _) => apply respects_get_or
  | |- respects _ (match ?x with _ => _ end) => destruct x
  | |- _ => solve [eauto 2 with same_view]
  end.
Ltac same := repeat same_step.

(** What is required of the interpreters of custom operations: that they depend
    on what they see, and that the draws they make are counted. *)
Class NodeSame (h : bool) `{Node} :=
  custom_json_same : ∀ id f o, custom_json_evaluator id = Some f → respects h (f o).
Class NodeDeterministic `{Node} := {
  deterministic_same :: NodeSame false;
  custom_json_draws : ∀ id f o s, custom_json_evaluator id = Some f → rand_count s ≤ rand_count (f o s).2
}.

(** ** Lookups, balances and the stores of blocks *)
Section database.
Context `{Env} (h : bool).
Lemma get_account_same n : respects h (Db.get_account n).
Proof. unfold Db.get_account. same. Qed.
Lemma get_witness_same n : respects h (Db.get_witness n).
Proof. unfold Db.get_witness. same. Qed.
Lemma get_comment_same a p : respects h (Db.get_comment a p).
Proof. unfold Db.get_comment. same. Qed.
Lemma get_escrow_same n i : respects h (Db.get_escrow n i).
Proof. unfold Db.get_escrow. same. Qed.
Lemma get_authority_same n : respects h (Db.get_authority n).
Proof. unfold Db.get_authority. same. Qed.
Lemma get_dgp_same : respects h Db.get_dynamic_global_properties.
Proof. unfold Db.get_dynamic_global_properties. same. Qed.
Lemma get_hpo_same : respects h Db.get_hardfork_property_object.
Proof. unfold Db.get_hardfork_property_object. same. Qed.
#[local] Hint Resolve get_account_same get_witness_same get_comment_same get_escrow_same get_authority_same
  get_dgp_same get_hpo_same : same_view.
Lemma head_block_time_same : respects h Db.head_block_time.
Proof. unfold Db.head_block_time. same. Qed.
Lemma head_block_num_same : respects h Db.head_block_num.
Proof. unfold Db.head_block_num. same. Qed.
Lemma head_block_id_same : respects h Db.head_block_id.
Proof. unfold Db.head_block_id. same. Qed.
#[local] Hint Resolve head_block_time_same head_block_num_same head_block_id_same : same_view.
Lemma adjust_balance_same n d : respects h (Db.adjust_balance n d).
Proof.
  unfold Db.adjust_balance, Db.get_balance, Db.get_balance_of, Db.xtt_balance, Db.check_funds, Db.adjust_supply,
    Db.adjust_xtt_balance, Db.modify_balance. same.
Qed.
Lemma adjust_balance_of_same a d : respects h (Db.adjust_balance_of a d).
Proof.
  unfold Db.adjust_balance_of, Db.get_balance_of, Db.xtt_balance, Db.check_funds, Db.adjust_supply,
    Db.adjust_xtt_balance, Db.modify_balance. same.
Qed.
Lemma modify_balance_same a d c : respects h (Db.modify_balance a d c).
Proof. unfold Db.modify_balance. same. Qed.
#[local] Hint Resolve adjust_balance_same adjust_balance_of_same modify_balance_same : same_view.
Lemma clear_null_same : respects h Db.clear_null_wallet_balance.
Proof. unfold Db.clear_null_wallet_balance, Db.adjust_supply. same. Qed.
Lemma get_pow_summary_target_same : respects h Eval.get_pow_summary_target.
Proof. unfold Eval.get_pow_summary_target, Eval.get_pow_target. same. Qed.
End database.
#[export] Hint Resolve get_account_same get_witness_same get_comment_same get_escrow_same get_authority_same
  get_dgp_same get_hpo_same head_block_time_same head_block_num_same head_block_id_same adjust_balance_same
  adjust_balance_of_same modify_balance_same clear_null_same get_pow_summary_target_same : same_view.
Section stores.
Context `{Env}.
Lemma fetch_block_by_id_same i : respects false (Store.fetch_block_by_id i).
Proof. unfold Store.fetch_block_by_id, Store.fork_block. same. Qed.
#[local] Hint Resolve fetch_block_by_id_same : same_view.
Lemma previous_block_id_same : respects false Store.previous_block_id.
Proof. unfold Store.previous_block_id. same. Qed.
End stores.
#[export] Hint Resolve fetch_block_by_id_same previous_block_id_same : same_view.

(** The two states have the same answer for the block before the head. *)
Definition same_previous `{Env} (s s' : database) : Prop :=
  (Store.previous_block_id s).1 = (Store.previous_block_id s').1.

(** ** Evaluators *)
Section evaluators.
Context `{Env} `{Node} (h : bool) `{!NodeSame h}.
Lemma random_key_same : respects h Eval.random_key.
Proof.
  intros s s' Hv. unfold Eval.random_key, alike, undrawn. simpl. split; [lia|]. intros. lia.
Qed.
Lemma on_some_same {A} (o : option A) f : (∀ a, respects h (f a)) → respects h (Eval.on_some o f).
Proof. intros Hf. destruct o; simpl; same. Qed.
Lemma verify_accounts_exist_same a : respects h (Eval.verify_authority_accounts_exist a).
Proof. unfold Eval.verify_authority_accounts_exist. same. Qed.
Lemma update_recovery_same w a : respects h (Eval.update_recovery_authority w a).
Proof. unfold Eval.update_recovery_authority. same. Qed.
Lemma create_wallet_same n k : respects h (Eval.create_wallet n k).
Proof. unfold Eval.create_wallet, Eval.get_hardfork. same. Qed.
#[local] Hint Resolve random_key_same verify_accounts_exist_same update_recovery_same create_wallet_same : same_view.
#[local] Hint Extern 1 (respects _ (Eval.on_some _ _)) => apply on_some_same; intros; same : same_view.
Lemma witness_update_same o : respects h (Eval.witness_update o).
Proof. unfold Eval.witness_update. same. Qed.
Lemma create_authority_same n r m s : respects h (Eval.create_authority n r m s).
Proof. unfold Eval.create_authority. same. Qed.
#[local] Hint Resolve create_authority_same : same_view.
Lemma wallet_create_same o : respects h (Eval.wallet_create o).
Proof. unfold Eval.wallet_create. same. Qed.
Lemma wallet_update_same o : respects h (Eval.wallet_update o).
Proof. unfold Eval.wallet_update. same. Qed.
Lemma delete_comment_same o : respects h (Eval.delete_comment o).
Proof. unfold Eval.delete_comment, Eval.votes_of. same. Qed.
Lemma comment_options_same o : respects h (Eval.comment_options o).
Proof. unfold Eval.comment_options. same. Qed.
Lemma vote_same o : respects h (Eval.vote o).
Proof. unfold Eval.vote. same. Qed.
Lemma touch_ancestors_same n now i : respects h (Eval.touch_ancestors n now i).
Proof. revert i. induction n as [|n IH]; intros i; simpl; same. Qed.
#[local] Hint Resolve touch_ancestors_same : same_view.
Lemma comment_same o : respects h (Eval.comment o).
Proof. unfold Eval.comment. same. Qed.
Lemma create_receiver_same n : respects h (Eval.create_receiver n).
Proof. unfold Eval.create_receiver. same. Qed.
#[local] Hint Resolve create_receiver_same : same_view.
Lemma transfer_same o : respects h (Eval.transfer o).
Proof. unfold Eval.transfer. same. Qed.
Lemma escrow_transfer_same o : respects h (Eval.escrow_transfer o).
Proof. unfold Eval.escrow_transfer. same. Qed.
Lemma escrow_approve_same o : respects h (Eval.escrow_approve o).
Proof. unfold Eval.escrow_approve. same. Qed.
Lemma escrow_dispute_same o : respects h (Eval.escrow_dispute o).
Proof. unfold Eval.escrow_dispute. same. Qed.
Lemma escrow_release_same o : respects h (Eval.escrow_release o).
Proof. unfold Eval.escrow_release, Eval.release_allowed. same. Qed.
Lemma custom_same o : respects h (Eval.custom o).
Proof. unfold Eval.custom. same. Qed.
Lemma custom_json_eval_same o : respects h (Eval.custom_json o).
Proof.
  unfold Eval.custom_json. apply respects_bind; [same|]. intros p. do 2 (apply respects_bind; [same|intros _]).
  destruct (custom_json_evaluator (cj_id o)) eqn:E; [|same]. apply respects_try; [by eapply custom_json_same|]. same.
Qed.
Lemma same_bind_read {A B} (m : DB A) (f : A → DB B) s s' : (∀ I, preserves I m) → (m s).1 = (m s').1 →
  view h s s' → (∀ a, alike h s s' (f a s) (f a s')) → alike h s s' ((m ≫= f) s) ((m ≫= f) s').
Proof.
  intros Hm Hr Hv Hf. rewrite !bind_run. destruct (m s) as [r t] eqn:E, (m s') as [r' t'] eqn:E'. simpl in Hr. subst r'.
  apply reads_run in E as ->; [|exact Hm]. apply reads_run in E' as ->; [|exact Hm].
  destruct r; [apply Hf|by apply (alike_same h (λ s, (Exc e, s)))].
Qed.
Lemma same_reads {A} (m : DB A) s s' : (∀ I, preserves I m) → respects h m → view h s s' → (m s).1 = (m s').1.
Proof.
  intros Hm Hr Hv. destruct (Hr s s' Hv) as [_ Hk]. unfold undrawn in Hk. destruct (m s) as [r t] eqn:E, (m s') as [r' t'] eqn:E'.
  apply reads_run in E as ->; [|exact Hm]. by destruct Hk as [[? _] _].
Qed.
Lemma same_bind_view {A B} (m : DB A) (f : A → DB B) s s' : (∀ I, preserves I m) → respects h m →
  view h s s' → (∀ a, alike h s s' (f a s) (f a s')) → alike h s s' ((m ≫= f) s) ((m ≫= f) s').
Proof. intros Hm Hr Hv. apply same_bind_read; [done|by apply same_reads|done]. Qed.
Lemma check_work_same o p input prev sm target s s' : view h s s' → same_previous s s' →
  alike h s s' (Eval.check_work o p input prev sm target s) (Eval.check_work o p input prev sm target s').
Proof.
  intros Hv Hp. apply same_bind_read; [intros I; walk|exact Hp|done|]. intros i. revert s s' Hv Hp.
  enough (Hk : respects h (match i with Some i => fc_assert (bool_decide (prev = i)) | None => mret tt end ;;
    fc_assert (dgp_last_irreversible_block_num p <? Block.num_from_id (prev_block input)) ;;
    fc_assert (sm <? target) ;; fc_assert (XGT_MIN_BLOCK_SIZE_LIMIT * 2 <=? maximum_block_size (pow_props o))))
    by (intros s s' Hv _; exact (Hk s s' Hv)).
  same.
Qed.
Lemma check_work_alike o p input prev sm target s s' : view h s s' → same_previous s s' →
  (Eval.check_work o p input prev sm target s).1 = (Eval.check_work o p input prev sm target s').1.
Proof.
  intros Hv Hp. destruct (check_work_same o p input prev sm target s s' Hv Hp) as [_ Hk]. unfold undrawn in Hk.
  destruct (Eval.check_work _ _ _ _ _ _ s) as [r t] eqn:E. apply reads_run in E as ->; [|intros I; unfold Eval.check_work; walk].
  by destruct Hk as [[? _] _].
Qed.
(** A proof of work is the one operation that looks at the stores of blocks. *)
Lemma pow_same o s s' : view h s s' → same_previous s s' → alike h s s' (Eval.pow o s) (Eval.pow o s').
Proof.
  intros Hv Hp. unfold Eval.pow. apply same_bind_view; [intros I; walk|same|done|].
  intros n. destruct (_ <=? n); [by apply alike_same|].
  apply same_bind_view; [intros I; walk|same|done|]. intros p.
  apply same_bind_view; [intros I; walk|same|done|]. intros target.
  destruct (work o) as [|input proof prev sm]; [by apply alike_same|].
  apply same_bind_read; [intros I; unfold Eval.check_work; walk|by apply check_work_alike|done|].
  intros _.
  match goal with |- alike _ _ _ (?m s) (?m s') => enough (Hk : respects h m) by exact (Hk s s' Hv) end.
  clear s s' Hv Hp. unfold Eval.create_worker, Eval.reward_worker. same.
Qed.
Lemma contract_create_same o : respects h (Eval.contract_create o).
Proof. unfold Eval.contract_create. same. Qed.
End evaluators.
#[export] Hint Resolve witness_update_same wallet_create_same wallet_update_same delete_comment_same
  comment_options_same vote_same comment_same transfer_same escrow_transfer_same escrow_approve_same
  escrow_dispute_same escrow_release_same custom_same custom_json_eval_same contract_create_same : same_view.

(** ** Tokens *)
Section tokens.
Context `{Env} (h : bool).
Lemma find_token_same sym b : respects h (Xtt.find_token sym b).
Proof. unfold Xtt.find_token, Xtt.find_token_nai, Xtt.tokens. same. Qed.
Lemma get_nai_pool_same : respects h Xtt.get_nai_pool.
Proof. unfold Xtt.get_nai_pool. same. Qed.
Lemma push_required_same a t : respects h (Xtt.push_required_action a t).
Proof. unfold Xtt.push_required_action. same. Qed.
Lemma get_controlled_same n sym : respects h (Xtt.get_controlled_xtt n sym).
Proof. unfold Xtt.get_controlled_xtt. same. Qed.
Lemma verify_accounts_same l : respects h (Xtt.verify_accounts l).
Proof. unfold Xtt.verify_accounts. same. Qed.
#[local] Hint Resolve find_token_same get_nai_pool_same push_required_same get_controlled_same verify_accounts_same
  : same_view.
Lemma common_pre_setup_same sym n : respects h (Xtt.common_pre_setup_evaluation sym n).
Proof. unfold Xtt.common_pre_setup_evaluation. same. Qed.
Lemma refill_same n i r : respects h (Xtt.refill_nais n i r).
Proof. revert r. induction n as [|n IH]; intros r; cbn [Xtt.refill_nais]; same. Qed.
#[local] Hint Resolve common_pre_setup_same refill_same : same_view.
Lemma replenish_same : respects h Xtt.replenish_nai_pool.
Proof. unfold Xtt.replenish_nai_pool. same. Qed.
Lemma remove_from_pool_same a : respects h (Xtt.remove_from_nai_pool a).
Proof. unfold Xtt.remove_from_nai_pool. same. Qed.
#[local] Hint Resolve replenish_same remove_from_pool_same : same_view.
Lemma xtt_create_same o : respects h (Xtt.xtt_create o).
Proof. unfold Xtt.xtt_create, Xtt.charge_or_reset. same. Qed.
Lemma xtt_setup_same o : respects h (Xtt.xtt_setup o).
Proof. unfold Xtt.xtt_setup, Xtt.xgt_units_hard_cap, Xtt.tiers. same. Qed.
Lemma xtt_setup_ico_tier_same o : respects h (Xtt.xtt_setup_ico_tier o).
Proof. unfold Xtt.xtt_setup_ico_tier, Xtt.ico_tier_size, Xtt.tiers. same. Qed.
Lemma xtt_set_setup_same o : respects h (Xtt.xtt_set_setup_parameters o).
Proof. unfold Xtt.xtt_set_setup_parameters. same. Qed.
Lemma xtt_set_runtime_same o : respects h (Xtt.xtt_set_runtime_parameters o).
Proof. unfold Xtt.xtt_set_runtime_parameters. same. Qed.
Lemma xtt_contribute_same o : respects h (Xtt.xtt_contribute o).
Proof. unfold Xtt.xtt_contribute, Xtt.xgt_units_hard_cap, Xtt.tiers. same. Qed.
Lemma required_action_same a : respects h (Xtt.apply_required_action a).
Proof.
  destruct a; simpl; unfold Xtt.ico_launch, Xtt.ico_evaluation, Xtt.token_launch, Xtt.get_token, Xtt.get_ico, Xtt.set_phase;
    same.
Qed.
End tokens.
#[export] Hint Resolve xtt_create_same xtt_setup_same xtt_setup_ico_tier_same xtt_set_setup_same xtt_set_runtime_same
  xtt_contribute_same required_action_same : same_view.

(** ** Operations, transactions, blocks *)
Section apply.
Context `{Env} `{Node} `{!NodeDeterministic} `{Platform}.
Lemma operation_same_at h `{!NodeSame h} op s s' : view h s s' → same_previous s s' →
  alike h s s' (Registry.apply_operation op s) (Registry.apply_operation op s').
Proof.
  intros Hv Hp. destruct op; try (by apply pow_same);
    match goal with |- alike _ _ _ (?m s) (?m s') => enough (Hk : respects h m) by exact (Hk s s' Hv) end;
    clear s s' Hv Hp; simpl; unfold Eval.contract_invoke, Eval.report_over_production; same.
Qed.
Lemma operation_same op : respects false (Registry.apply_operation op).
Proof.
  intros s s' Hv. apply operation_same_at; [apply _|done|]. apply (same_reads false); [intros I; walk|apply previous_block_id_same|done].
Qed.
#[local] Hint Resolve operation_same : same_view.

Lemma with_skip_flags_same {A} skip (m : DB A) : respects false m → respects false (with_skip_flags skip m).
Proof.
  intros Hm. unfold with_skip_flags. same; try done; intros s s' Hv; apply alike_undrawn; try done; split; try done; destruct Hv; by constructor.
Qed.
Lemma check_keys_same tx ops : respects false (Apply.check_operation_keys tx ops).
Proof. induction ops as [|op ops IH]; [simpl; same|]. destruct op; simpl; same. Qed.
(** What the check of signatures reads h of the state is a table. *)
Lemma verify_signatures_same tx : respects false (Apply.verify_signatures tx).
Proof.
  intros s s' Hv. unfold Apply.verify_signatures. rewrite !bind_run. cbn [get_st]. unfold lift. apply alike_undrawn; [done..|]. split; [|done]. simpl.
  unfold Apply.authority_getter, Db.find_authority, find_first. by rewrite (view_items _ _ _ Hv).
Qed.
#[local] Hint Resolve check_keys_same verify_signatures_same : same_view.
Lemma _apply_transaction_same tx : respects false (Apply._apply_transaction tx).
Proof. unfold Apply._apply_transaction, Apply.check_authorities. same. Qed.
Lemma apply_transaction_same tx skip : respects false (Apply.apply_transaction tx skip).
Proof. apply with_skip_flags_same, _apply_transaction_same. Qed.
#[local] Hint Resolve apply_transaction_same : same_view.

Lemma settle_block_same b : respects false (Apply.settle_block b).
Proof.
  unfold Apply.settle_block, Apply.update_global_dynamic_data, Apply.update_last_irreversible_block,
    Apply.create_block_summary, Apply.clear_expired_transactions, Apply.expired, Apply.reward_miner,
    Apply.adjust_difficulty, Apply.prior_block, Apply.set_mining_target, Apply.process_hardforks, Store.fork_block. same.
Qed.
Lemma apply_contents_same b : respects false (Apply.apply_contents b).
Proof.
  unfold Apply.apply_contents, Apply.check_merkle_root, Apply.process_header_extensions, Apply.process_header_extension.
  pose proof (settle_block_same b). same.
Qed.
End apply.

(** ** Sessions do not show *)
Lemma start_session_view s : ∃ d, on_base Base.start_undo_session s = (Ok tt, set_tbl d s) ∧ same_view s (set_tbl d s).
Proof.
  destruct (each_index_all (λ t gi, (Ok tt, Chainbase.start_undo_session gi)) (tbl s)) as (d & Hrun & Hd); [done|].
  exists d. split; [exact (on_base_run _ _ _ _ Hrun)|]. constructor; [intros t; unfold items; cbn [tbl set_tbl]; by rewrite Hd|intros t; cbn [tbl set_tbl]; by rewrite Hd|reflexivity..].
Qed.
#[local] Opaque Base.start_undo_session Base.undo.

(** C12: The chain is deterministic, but for keys drawn at random.  Take two nodes
    whose tables have the same contents, with the same flags and the same blocks
    in the fork database and the log, however different their undo states,
    sessions, pending transactions and random generators are.  When an operation,
    a transaction or the contents of a block run on the first without drawing a
    key, they have the same outcome on the second, exceptions included, draw no
    key there either, and leave the same contents.  The plugins' interpreters of
    custom operations are taken to depend on nothing else.  ([receiver_keys_differ]
    shows what happens when a key is drawn.) *)
Theorem chain_deterministic `{Env} `{Node} `{!NodeDeterministic} `{Platform}
    (op : operation) (tx : signed_transaction) (b : signed_block) (s s' : database) :
  same_view s s' →
  (undrawn s (Registry.apply_operation op s) → same_run (Registry.apply_operation op s) (Registry.apply_operation op s') ∧
     undrawn s' (Registry.apply_operation op s')) ∧
  (undrawn s (Apply._apply_transaction tx s) → same_run (Apply._apply_transaction tx s) (Apply._apply_transaction tx s') ∧
     undrawn s' (Apply._apply_transaction tx s')) ∧
  (undrawn s (Apply.apply_contents b s) → same_run (Apply.apply_contents b s) (Apply.apply_contents b s') ∧
     undrawn s' (Apply.apply_contents b s')).
Proof.
  intros Hv. split_and!; [by apply operation_same|by apply _apply_transaction_same|by apply apply_contents_same].
Qed.

Module DeterminismDemo.
#[global] Instance node_deterministic : NodeDeterministic (H:=Demo.node).
Proof. constructor; discriminate. Qed.
(** The same chain with a session open, on a node with another generator. *)
Definition open : database := set_entropy (λ n, 5000 - n) (on_base Base.start_undo_session BlockDemo.db).2.
Lemma looks_same : same_view BlockDemo.db open.
Proof. destruct (start_session_view BlockDemo.db) as (d & E & Hv). unfold open. rewrite E. destruct Hv. by constructor. Qed.
End DeterminismDemo.

Lemma chain_deterministic_witness :
  same_run (Apply._apply_transaction ApplyDemo.overspend BlockDemo.db)
    (Apply._apply_transaction ApplyDemo.overspend DeterminismDemo.open) ∧
  same_run (Apply.apply_contents BlockDemo.good BlockDemo.db) (Apply.apply_contents BlockDemo.good DeterminismDemo.open).
Proof.
  destruct (chain_deterministic (ApplyDemo.transfer 30) ApplyDemo.overspend BlockDemo.good
    BlockDemo.db DeterminismDemo.open DeterminismDemo.looks_same) as (_ & Ht & Hb).
  split; [apply Ht|apply Hb]; unfold undrawn; vm_compute; reflexivity.
Defined.
