(* ===== verification/Producer.v ===== *)
(** * Producing a block

    libraries/plugins/witness/block_producer.cpp: a block is put together from
    the pending transactions that still apply and from the automated actions that
    are due, within the limits on its size, and pushed to the chain of the node
    itself.  Sizes are those of the packed form ([Wire]); ids, digests and
    signatures are those of [Digest]. *)
From stdpp Require Import sorting.
From S2P Require Import Prelude Safe Chainbase Asset Raw Encoding Protocol Wire SignState Block Digest ForkDatabase ResourceDynamics Objects Database Ledger Evaluators EvaluatorFacts Xtt Operations LedgerProps Apply ApplyFacts BlockFacts Determinism.

Definition XGT_BLOCK_GENERATION_POSTPONED_TX_LIMIT : Z := 5.
Definition XGT_100_PERCENT : Z := 10000.
Definition XGT_BLOCKCHAIN_VERSION : version := 0.
Definition set_producing (v : bool) (s : database) : database :=
  mkDb (tbl s) (fork_db s) (block_log s) (pending_tx s) (pending_tx_session s) (popped_tx s)
    (skip_flags s) v (is_pending_tx s) (checkpoints s) (entropy s) (rand_count s).

(** What has been put into the block so far. *)
Record assembly := mkAssembly { total_block_size : Z; postponed_tx_count : Z; included : list signed_transaction }.

Module Producer.
Section with_node.
Context `{Env} `{Abi} `{Crypto} `{Node} `{Platform}.

Definition set_extensions (l : list block_header_extension) (b : signed_block) : signed_block :=
  let h := header b in
  mkBlock (mkHeader (previous h) (timestamp h) (witness h) (transaction_merkle_root h) l (witness_signature h))
    (transactions b).
(** [extensions.insert( e )]: the order of a [static_variant] is that of its
    alternatives, and an extension of a kind that is there is not inserted. *)
Definition insert_extension (e : block_header_extension) (b : signed_block) : signed_block :=
  set_extensions (Codec.flat_add (λ x y, Wire.which_extension x <? Wire.which_extension y) e
    (header_extensions (header b))) b.
Definition set_transactions (l : list signed_transaction) (b : signed_block) : signed_block := mkBlock (header b) l.
Definition set_merkle_root (b : signed_block) : signed_block :=
  let h := header b in
  mkBlock (mkHeader (previous h) (timestamp h) (witness h) (Block.calculate_merkle_root b) (header_extensions h)
    (witness_signature h)) (transactions b).

(** Entry [n] of the arrays of hardforks, which have one entry. *)
Definition hardfork_vote_for (n : Z) : DB block_header_extension :=
  match Apply.hardfork_versions n with
  | Some v => mret (ext_hardfork_vote (mkHfVote v XGT_GENESIS_TIME))
  | None => mthrow Fault
  end.
Definition adjust_hardfork_version_vote (w : witness_object) (pending_block : signed_block) : DB signed_block :=
  let b := if negb (wit_running_version w =? XGT_BLOCKCHAIN_VERSION)
           then insert_extension (ext_version XGT_BLOCKCHAIN_VERSION) pending_block else pending_block in
  hfp ← Db.get_hardfork_property_object;
  if hp_current_hardfork_version hfp <? XGT_BLOCKCHAIN_VERSION then
    vote ← hardfork_vote_for (hp_last_hardfork hfp + 1);
    mret (match vote with
          | ext_hardfork_vote v =>
              if negb (wit_hardfork_version_vote w =? hf_version v) || negb (wit_hardfork_time_vote w =? hf_time v)
              then insert_extension vote b else b
          | _ => b
          end)
  else if (hp_current_hardfork_version hfp =? XGT_BLOCKCHAIN_VERSION) &&
          (XGT_BLOCKCHAIN_VERSION <? wit_hardfork_version_vote w)
  then vote ← hardfork_vote_for (hp_last_hardfork hfp); mret (insert_extension vote b)
  else mret b.

(** [temp_session]: what is applied stays, what throws is undone. *)
Definition in_temp_session (m : DB unit) : DB unit := with_session m ;; on_base Base.squash.

(** The block reward: when it does not apply the block is not produced. *)
Definition include_reward (max_transactions : Z) (block_reward : option signed_transaction) (a : assembly) : DB assembly :=
  match block_reward with
  | None => mret a
  | Some tx =>
      n ← lift (Wire.pack_size Wire.signed_transaction tx);
      let new_total_size := total_block_size a + n in
      if max_transactions <=? new_total_size then
        mret (mkAssembly (total_block_size a) (postponed_tx_count a + 1) (included a))
      else
        skip ← gets skip_flags;
        try_catch (in_temp_session (Apply.apply_transaction tx skip)) (λ e,
          mthrow (if is_fc e then FcException else e)) ;;
        mret (mkAssembly new_total_size (postponed_tx_count a) (included a ++ [tx]))
  end.

(** A pending transaction that fits is tried; one that throws is left out. *)
Definition include_one (max_transactions : Z) (tx : signed_transaction) (a : assembly) : DB assembly :=
  n ← lift (Wire.pack_size Wire.signed_transaction tx);
  let new_total_size := total_block_size a + n in
  if max_transactions <=? new_total_size then
    mret (mkAssembly (total_block_size a) (postponed_tx_count a + 1) (included a))
  else
    skip ← gets skip_flags;
    try_catch
      (in_temp_session (Apply.apply_transaction tx skip) ;;
       mret (mkAssembly new_total_size (postponed_tx_count a) (included a ++ [tx])))
      (λ e, if is_fc e then mret a else mthrow e).
Fixpoint include_pending (max_transactions when : Z) (rewarded : bool) (txs : list signed_transaction) (a : assembly) :
    DB assembly :=
  match txs with
  | [] => mret a
  | tx :: txs =>
      if XGT_BLOCK_GENERATION_POSTPONED_TX_LIMIT <? postponed_tx_count a then mret a
      else if (expiration tx <? when) || (rewarded && Required.has_pow_op tx)
      then include_pending max_transactions when rewarded txs a
      else a ← include_one max_transactions tx a; include_pending max_transactions when rewarded txs a
  end.

(** The index [by_execution]: by time, then by id. *)
Definition before (x y : Z * Z) : bool := (x.1 <? y.1) || ((x.1 =? y.1) && (x.2 <? y.2)).
Definition required_key (p : pending_required_action_object) : Z * Z := (pra_execution_time p, pra_id p).
Definition earlier (x : pending_required_action_object) (y : option pending_required_action_object) :
    option pending_required_action_object :=
  match y with Some y => if before (required_key x) (required_key y) then Some x else Some y | None => Some x end.
(** The first entry behind [after]. *)
Definition next_required (after : option (Z * Z)) (s : database) : option pending_required_action_object :=
  foldr earlier None (List.filter (λ p, match after with Some k => before k (required_key p) | None => true end)
    (map_to_list (items t_pending_required s)).*2).
(** Every action takes a byte or more, so that the room that is left bounds the
    rounds. *)
Fixpoint take_required (fuel : nat) (when maximum_block_size : Z) (after : option (Z * Z)) (total : Z)
    (taken : list required_automated_action) : DB (Z * list required_automated_action) :=
  match fuel with
  | O => mthrow Fault
  | S fuel =>
      next ← gets (next_required after);
      match next with
      | None => mret (total, taken)
      | Some p =>
          if pra_execution_time p <=? when then
            n ← lift (Wire.pack_size Wire.required_automated_action (pra_action p));
            if maximum_block_size <? total + n then mret (total, taken)
            else
              in_temp_session (Xtt.apply_required_action (pra_action p)) ;;
              take_required fuel when maximum_block_size (Some (required_key p)) (total + n) (taken ++ [pra_action p])
          else mret (total, taken)
      end
  end.

Definition optional_le (x y : pending_optional_action_object) : Prop :=
  poa_execution_time x < poa_execution_time y ∨ poa_execution_time x = poa_execution_time y ∧ poa_id x ≤ poa_id y.
#[local] Instance optional_le_dec x y : Decision (optional_le x y).
Proof. unfold optional_le. apply _. Defined.
Definition optional_by_execution (s : database) : list pending_optional_action_object :=
  merge_sort optional_le (map_to_list (items t_pending_optional s)).*2.
(** An optional action changes no table, so the index stays as it is. *)
Fixpoint take_optional (when maximum_block_size total : Z) (l : list pending_optional_action_object)
    (attempted : list Z) (taken : list optional_automated_action) : DB (list Z * list optional_automated_action) :=
  match l with
  | [] => mret (attempted, taken)
  | p :: l =>
      if poa_execution_time p <=? when then
        n ← lift (Wire.pack_size Wire.optional_automated_action (poa_action p));
        if maximum_block_size <? total + n then mret (attempted, taken)
        else
          applied ← try_catch (in_temp_session (Xtt.apply_optional_action (poa_action p)) ;; mret true)
            (λ e, if is_fc e then mret false else mthrow e);
          if applied : bool
          then take_optional when maximum_block_size (total + n) l (attempted ++ [poa_id p]) (taken ++ [poa_action p])
          else take_optional when maximum_block_size total l (attempted ++ [poa_id p]) taken
      else mret (attempted, taken)
  end.

Definition insert_nonempty {A} (l : list A) (e : block_header_extension) (b : signed_block) : signed_block :=
  match l with [] => b | _ :: _ => insert_extension e b end.

(** Reserved for the three vectors: [3 * sizeof( uint32_t )]. *)
Definition reserved : Z := 12.
Definition transaction_partition (gpo : dynamic_global_property_object) : Z :=
  let maximum_block_size := dgp_maximum_block_size gpo in
  u64 (maximum_block_size - u64 (maximum_block_size * dgp_required_actions_partition_percent gpo) / XGT_100_PERCENT).
Definition open_pending_session : DB unit :=
  Apply.reset_pending_session ;; on_base Base.start_undo_session ;; update (set_pending_tx_session true).

(** What happens inside the session. *)
Definition fill_block (when : time_point_sec) (block_reward : option signed_transaction)
    (size : Z) (gpo : dynamic_global_property_object) (pending_block : signed_block) : DB signed_block :=
  let maximum_block_size := dgp_maximum_block_size gpo in
  let max_transactions := transaction_partition gpo in
  a ← include_reward max_transactions block_reward (mkAssembly (size + reserved) 0 (transactions pending_block));
  txs ← gets pending_tx;
  a ← include_pending max_transactions when (match block_reward with Some _ => true | None => false end) txs a;
  let b := set_transactions (included a) pending_block in
  Apply.update_global_dynamic_data b ;;
  required ← take_required (S (Z.to_nat maximum_block_size)) when maximum_block_size None (total_block_size a) [];
  let b := insert_nonempty required.2 (ext_required_actions required.2) b in
  l ← gets optional_by_execution;
  optional ← take_optional when maximum_block_size required.1 l [] [];
  for_each optional.1 (remove t_pending_optional) ;;
  mret (insert_nonempty optional.2 (ext_optional_actions optional.2) b).
Definition apply_pending_transactions (when : time_point_sec) (pending_block : signed_block)
    (block_reward : option signed_transaction) : DB signed_block :=
  size ← lift (Wire.pack_size Wire.signed_block pending_block);
  gpo ← Db.get_dynamic_global_properties;
  open_pending_session ;;
  b ← fill_block when block_reward size gpo pending_block;
  Apply.reset_pending_session ;;
  mret (set_merkle_root b).

Definition sign_block (key : digest_type) (b : signed_block) : signed_block :=
  mkBlock (Digest.sign_header key bip_0062 (header b)) (transactions b).
Definition new_block (previous : block_id_type) (when : time_point_sec) (w : wallet_name_type) : signed_block :=
  mkBlock (mkHeader previous when w [0; 0; 0; 0; 0] [] 0) [].
Definition _generate_block (when : time_point_sec) (w : wallet_name_type) (key : digest_type)
    (block_reward : option signed_transaction) : DB signed_block := capture_rethrow (
  skip ← gets skip_flags;
  head ← Db.head_block_id;
  wo ← Db.get_witness w;
  b ← adjust_hardfork_version_vote wo (new_block head when w);
  b ← apply_pending_transactions when b block_reward;
  let b := if flag skip skip_witness_signature then b else sign_block key b in
  Prelude.when (negb (flag skip skip_block_size_check))
    (n ← lift (Wire.pack_size Wire.signed_block b); fc_assert (n <=? XGT_MAX_BLOCK_SIZE)) ;;
  Apply.push_block b skip ;;
  mret b).
Definition generate_block (when : time_point_sec) (w : wallet_name_type) (key : digest_type)
    (block_reward : option signed_transaction) (skip : Z) : DB signed_block :=
  try_catch
    (update (set_producing true) ;;
     b ← with_skip_flags skip (capture_rethrow (_generate_block when w key block_reward));
     update (set_producing false) ;;
     mret b)
    (λ e, if is_fc e then update (set_producing false) ;; mthrow FcException else mthrow e).
End with_node.
End Producer.

(** ** Production is tentative

    Everything happens inside the session of the pending transactions. *)
#[local] Opaque Base.start_undo_session Base.undo Base.squash Base.commit.

(** Members other than the tables. *)
Lemma frame_all s0 s : s = set_rand_count (rand_count s) (set_tbl (tbl s) s0) → frame all_tables s0 s.
Proof. intros E. split; [intros t Ht; destruct (Ht (elem_of_all_tables t))|exact E]. Qed.
Lemma frame_tbl s0 s d : frame all_tables s0 s → frame all_tables s0 (set_tbl d s).
Proof. intros [_ E]. apply frame_all. rewrite E. by destruct s0. Qed.
Lemma with_skip_frame {A} skip (m : DB A) s0 : (∀ s0, preserves (frame all_tables s0) m) →
  preserves (frame all_tables s0) (with_skip_flags skip m).
Proof.
  intros Hm s Hs. destruct (with_skip_flags skip m s) as [r s'] eqn:Hr. apply with_skip_run in Hr as (s1 & Hr & ->).
  apply (frame_trans _ _ s); [done|]. pose proof (frame_run _ _ _ _ _ Hm Hr) as [_ E]. apply frame_all.
  cbn [snd]. rewrite E. by destruct s.
Qed.
#[local] Hint Resolve with_skip_frame with_skip_quiet _apply_transaction_frame _apply_transaction_quiet elem_of_all_tables : preserves.

Section tentative.
Context `{Env} `{Abi} `{Crypto} `{Node} `{!NodePromise} `{Platform}.

Lemma required_action_frame a s0 : preserves (frame all_tables s0) (Xtt.apply_required_action a).
Proof.
  unfold Xtt.apply_required_action, Xtt.ico_launch, Xtt.ico_evaluation, Xtt.token_launch, Xtt.set_phase,
    Xtt.push_required_action, Xtt.get_token, Xtt.get_ico. walk.
Qed.
Lemma update_global_frame b s0 : preserves (frame all_tables s0) (Apply.update_global_dynamic_data b).
Proof. unfold Apply.update_global_dynamic_data. walk. Qed.

(** [s] is over the session [d1] that was started on [d], and differs from [s0]
    in tables only. *)
Context (d d1 : tables) (Hwf : wf_tables d) (Hst : Base.start_undo_session d = (Ok tt, d1)) (s0 : database).
Definition over (s : database) : Prop := quiet d1 (tbl s) ∧ frame all_tables s0 s.

Lemma quiet_over {A} (m : DB A) : (∀ d, preserves (λ s, quiet d (tbl s)) m) → (∀ s, preserves (frame all_tables s) m) →
  preserves over m.
Proof. intros Hq Hf s [Hs Hs0]. split; [by apply Hq|by apply Hf]. Qed.
Lemma temp_session_over m : (∀ d, preserves (λ s, quiet d (tbl s)) m) → (∀ s, preserves (frame all_tables s) m) →
  preserves over (Producer.in_temp_session m).
Proof.
  intros Hq Hf s [Hs Hs0]. unfold Producer.in_temp_session. rewrite bind_run.
  destruct (with_session m s) as [r s2] eqn:Hw.
  apply with_session_run in Hw as (d2 & s3 & Hs2 & Hm & Hq2 & Hres); [|exact Hq|exact (quiet_wf _ _ Hs)].
  assert (Hf3 : frame all_tables s0 s3).
  { pose proof (Hf s0 (set_tbl d2 s) (frame_tbl _ _ _ Hs0)) as Hf3. by rewrite Hm in Hf3. }
  destruct r as [[]|e]; cbn [snd].
  - subst s3. destruct (squash_tables (tbl s2) (quiet_wf _ _ Hq2)) as (d3 & Hsq & Hwf3 & _).
    rewrite (on_base_run _ _ _ _ Hsq). destruct (squash_quiet d1 (tbl s) d2 (tbl s2) d3) as [Hq3 _];
      [exact (quiet_wf _ _ Hs)|exact Hs|intros t; exact (started_saved d d1 t Hwf Hst)|exact Hs2|exact Hq2|exact Hsq|].
    split; [exact Hq3|exact (frame_tbl _ _ _ Hf3)].
  - destruct Hres as (E2 & Hwf2 & Hsame). split; [exact (same_quiet _ _ _ Hs Hsame Hwf2)|]. rewrite E2. exact (frame_tbl _ _ _ Hf3).
Qed.
Lemma apply_transaction_over tx skip : preserves over (Producer.in_temp_session (Apply.apply_transaction tx skip)).
Proof. apply temp_session_over; intros; unfold Apply.apply_transaction; walk. Qed.
#[local] Hint Resolve apply_transaction_over : preserves.
Lemma include_reward_over n tx a : preserves over (Producer.include_reward n tx a).
Proof. unfold Producer.include_reward. walk. Qed.
Lemma include_pending_over n w b txs a : preserves over (Producer.include_pending n w b txs a).
Proof. revert a. induction txs as [|tx txs IH]; intros a; simpl; unfold Producer.include_one; walk. Qed.
Lemma take_required_over fuel w n after total l : preserves over (Producer.take_required fuel w n after total l).
Proof.
  revert after total l. induction fuel as [|fuel IH]; intros after total l; simpl; walk.
  apply temp_session_over; intros; [apply required_action_quiet|apply required_action_frame].
Qed.
Lemma take_optional_over w n total l ids acc : preserves over (Producer.take_optional w n total l ids acc).
Proof.
  revert total ids acc. induction l as [|p l IH]; intros total ids acc; simpl; walk.
  apply temp_session_over; intros; walk.
Qed.
Lemma update_global_over b : preserves over (Apply.update_global_dynamic_data b).
Proof. apply quiet_over; intros; [apply update_global_dynamic_data_quiet|apply update_global_frame]. Qed.
Lemma remove_over t l : preserves over (for_each l (remove t)).
Proof. apply quiet_over; intros; walk. Qed.
#[local] Hint Resolve include_reward_over include_pending_over take_required_over take_optional_over update_global_over
  remove_over : preserves.
Lemma fill_block_over w tx n p b : preserves over (Producer.fill_block w tx n p b).
Proof.
  unfold Producer.fill_block. repeat (apply preserves_bind; [by eauto 2 with preserves|intros ?]); apply preserves_ret.
Qed.
End tentative.

Section outcome.
Context `{Env} `{Abi} `{Crypto} `{Node} `{!NodePromise} `{Platform}.
Context (d0 : tables).

Lemma reset_pending_run s : pending_over d0 s → ∃ d', Apply.reset_pending_session s =
    (Ok tt, set_pending_tx_session false (set_tbl d' s)) ∧ wf_tables d' ∧ same_tables d' d0.
Proof.
  intros [Hwf Hs]. unfold Apply.reset_pending_session. rewrite bind_run. unfold gets. cbv beta iota.
  destruct (pending_tx_session s) eqn:Hp; unfold when.
  - destruct Hs as (d & d1 & Hwfd & Hsame & Hst & Hq).
    destruct (drop_session_run d d1 s Hwfd Hst Hq) as (d' & Hd & Hwf' & Hsame').
    exists d'. rewrite bind_run, Hd. split; [reflexivity|]. split; [exact Hwf'|]. etrans; [exact Hsame'|exact Hsame].
  - exists (tbl s). split; [|split; [exact Hwf|exact Hs]]. unfold mret, St_ret. f_equal. destruct s; simpl in *; by subst.
Qed.
Lemma open_pending_run s : pending_over d0 s → ∃ d d1 s1, Producer.open_pending_session s = (Ok tt, s1) ∧
  wf_tables d ∧ same_tables d d0 ∧ Base.start_undo_session d = (Ok tt, d1) ∧
  s1 = set_pending_tx_session true (set_tbl d1 s) ∧ over d1 s1 s1 ∧
  Apply.reset_pending_session s = (Ok tt, set_pending_tx_session false (set_tbl d s)).
Proof.
  intros Hs. destruct (reset_pending_run s Hs) as (d & Hr & Hwf & Hsame).
  destruct (start_session_ok d Hwf) as (d1 & Hst & Hwf1 & _).
  exists d, d1, (set_pending_tx_session true (set_tbl d1 s)). split.
  - unfold Producer.open_pending_session. rewrite bind_run, Hr, bind_run.
    rewrite (on_base_run Base.start_undo_session (set_pending_tx_session false (set_tbl d s)) (Ok tt) d1 Hst). by destruct s.
  - split; [exact Hwf|]. split; [exact Hsame|]. split; [exact Hst|]. split; [reflexivity|].
    split; [split; [exact (quiet_refl _ Hwf1)|exact (frame_refl _ _)]|exact Hr].
Qed.
(** Over the session, the chain is still [d0]. *)
Lemma over_pending d d1 s s1 : wf_tables d → same_tables d d0 → Base.start_undo_session d = (Ok tt, d1) →
  pending_tx_session s1 = true → over d1 s1 s → pending_over d0 s.
Proof.
  intros Hwf Hsame Hst Hp [Hq [_ E]]. split; [exact (quiet_wf _ _ Hq)|].
  replace (pending_tx_session s) with true by (rewrite E; simpl; congruence).
  exists d, d1. split; [exact Hwf|]. split; [exact Hsame|]. split; [exact Hst|exact Hq].
Qed.
End outcome.

(** C32: Producing a block is tentative.  Whatever the pending transactions and
    actions do, and also when filling the block throws, the chain is where it
    was: the tables are those of the head block under the session of the pending
    transactions, which is closed when a block comes out, and closing it, as
    every block that is pushed does, gives them back.  The pending transactions,
    the fork database and the log stay as they are. *)
Theorem production_is_tentative `{Env} `{Abi} `{Node} `{!NodePromise} `{Platform}
    (d0 : tables) (when : time_point_sec) (b : signed_block) (reward : option signed_transaction)
    (s s' : database) (r : result signed_block) :
  pending_over d0 s → Producer.apply_pending_transactions when b reward s = (r, s') →
  pending_over d0 s' ∧ pending_tx s' = pending_tx s ∧ fork_db s' = fork_db s ∧ block_log s' = block_log s ∧
  (is_ok r = true → same_tables (tbl s') d0 ∧ pending_tx_session s' = false) ∧
  ∃ s'', Apply.clear_pending s' = (Ok tt, s'') ∧ same_tables (tbl s'') d0.
Proof.
  intros Hs Hr.
  assert (Hgoal : pending_over d0 s' ∧ pending_tx s' = pending_tx s ∧ fork_db s' = fork_db s ∧ block_log s' = block_log s ∧
    (is_ok r = true → same_tables (tbl s') d0 ∧ pending_tx_session s' = false)).
  { unfold Producer.apply_pending_transactions in Hr. rewrite bind_run in Hr. unfold lift in Hr.
    destruct (Wire.pack_size Wire.signed_block b) as [n|e]; [|injection Hr as <- <-; by split_and!].
    rewrite bind_run in Hr. unfold Db.get_dynamic_global_properties, get_or in Hr.
    destruct (Db.dgp s) as [p|]; [|injection Hr as <- <-; by split_and!].
    destruct (open_pending_run d0 s Hs) as (d & d1 & s1 & Ho & Hwf & Hsame & Hst & E1 & Hov & _).
    rewrite bind_run, Ho, bind_run in Hr.
    pose proof (fill_block_over d d1 Hwf Hst s1 when reward n p b s1 Hov) as Hf.
    destruct (Producer.fill_block when reward n p b s1) as [[b'|e] s2]; cbn [snd] in Hf.
    - pose proof (over_pending d0 d d1 s2 s1 Hwf Hsame Hst ltac:(by rewrite E1) Hf) as Hp2.
      destruct (reset_pending_run d0 s2 Hp2) as (d' & Hrs & Hwf' & Hsame'). rewrite bind_run, Hrs in Hr.
      injection Hr as <- <-. destruct Hf as [_ [_ E2]].
      split; [split; [exact Hwf'|exact Hsame']|]. split; [by rewrite E2, E1|]. split; [by rewrite E2, E1|].
      split; [by rewrite E2, E1|]. intros _. split; [exact Hsame'|reflexivity].
    - injection Hr as <- <-. split; [exact (over_pending d0 d d1 s2 s1 Hwf Hsame Hst ltac:(by rewrite E1) Hf)|].
      destruct Hf as [_ [_ E2]]. rewrite E2, E1. by split_and!. }
  destruct Hgoal as (Hp & H1' & H2' & H3' & H4'). split_and!; [exact Hp|exact H1'|exact H2'|exact H3'|exact H4'|].
  destruct (clear_pending_run d0 s' Hp) as (s'' & Hc & Hsame & _). exists s''. split; [exact Hc|exact Hsame].
Qed.

(** A producer on the small chain with two pending transactions, one of which
    spends too much. *)
Module ProducerDemo.
Definition db : database :=
  set_skip_flags skip_transaction_signatures (set_pending_tx [ApplyDemo.spend; ApplyDemo.overspend] BlockDemo.db).
Definition empty : signed_block := Producer.new_block [Block.endian_reverse_u32 10; 0; 0; 0; 0] 1005 "alice".
Definition outcome := Producer.apply_pending_transactions (H:=ChainEnv.env 0) 1005 empty None db.
Definition full : signed_block := match outcome.1 with Ok b => b | Exc _ => empty end.
Lemma assembles : Producer.apply_pending_transactions (H:=ChainEnv.env 0) 1005 empty None db = (Ok full, outcome.2).
Proof.
  change (Producer.apply_pending_transactions (H:=ChainEnv.env 0) 1005 empty None db) with outcome.
  rewrite (surjective_pairing outcome) at 1. apply (f_equal (λ r, (r, outcome.2))). vm_compute. reflexivity.
Qed.
Lemma takes_one : transactions full = [ApplyDemo.spend].
Proof. vm_compute. reflexivity. Qed.
Lemma block_demo_closed : pending_tx_session BlockDemo.db = false.
Proof. vm_compute. reflexivity. Qed.
Lemma same_members flags txs s : tbl (set_skip_flags flags (set_pending_tx txs s)) = tbl s ∧
  pending_tx_session (set_skip_flags flags (set_pending_tx txs s)) = pending_tx_session s.
Proof. by split. Qed.
Lemma at_head : pending_over (tbl BlockDemo.db) db.
Proof.
  unfold db. apply (pending_over_ext (tbl BlockDemo.db) BlockDemo.db); [apply same_members..|].
  split; [exact BlockDemo.chain_wf|]. rewrite block_demo_closed. exact (reflexivity (tbl BlockDemo.db)).
Qed.
End ProducerDemo.

Lemma production_is_tentative_witness :
  same_tables (tbl ProducerDemo.outcome.2) (tbl BlockDemo.db) ∧
  pending_tx ProducerDemo.outcome.2 = [ApplyDemo.spend; ApplyDemo.overspend].
Proof.
  destruct (production_is_tentative (H:=ChainEnv.env 0) (tbl BlockDemo.db) 1005 ProducerDemo.empty None ProducerDemo.db _ _
    ProducerDemo.at_head ProducerDemo.assembles) as (_ & Hp & _ & _ & Hs & _).
  split; [exact (proj1 (Hs eq_refl))|exact Hp].
Defined.
