(* ===== verification/BlockSize.v ===== *)
(** * A produced block fits

    The producer adds up the sizes of what it puts into a block and keeps twelve
    bytes for the lengths of three vectors.  The packed size of the block that
    comes out, signed or not, is within the limit that the chain checks. *)
From S2P Require Import Prelude Safe Chainbase Asset Raw Encoding Protocol Wire SignState Block Digest ForkDatabase ResourceDynamics Objects Database Ledger Evaluators EvaluatorFacts Xtt Operations LedgerProps Apply ApplyFacts BlockFacts Determinism Producer.

(** ** Sizes of packed values *)
Abbreviation packs c a n := (Wire.pack_size c a = Ok n).
Definition packs_all {A} (c : codec A) (l : list A) (n : Z) : Prop :=
  ∃ bs, Codec.pack_all c l = Ok bs ∧ Z.of_nat (length bs) = n.
(** The bytes of the length of a vector. *)
Definition length_size {A} (l : list A) : Z := Z.of_nat (length (Raw.varint_bytes 10 (u32 (Z.of_nat (length l))))).

Section sizes.
Context {A : Type}.
Lemma packs_ok (c : codec A) a n : packs c a n ↔ ∃ bs, enc c a = Ok bs ∧ Z.of_nat (length bs) = n.
Proof.
  unfold Wire.pack_size. destruct (enc c a) as [bs|e]; split.
  - intros [= <-]. by exists bs.
  - intros (x & [= ->] & <-). done.
  - intros [=].
  - intros (x & [=] & _).
Qed.
Lemma packs_all_nil (c : codec A) : packs_all c [] 0.
Proof. by exists []. Qed.
Lemma packs_all_snoc (c : codec A) l a n m : packs_all c l n → packs c a m → packs_all c (l ++ [a]) (n + m).
Proof.
  intros (bs & Hl & <-) (x & Hx & <-)%packs_ok. exists (bs ++ x). split; [|rewrite length_app; lia].
  revert bs Hl. induction l as [|b l IH]; intros bs Hl; simpl in *.
  - injection Hl as <-. rewrite Hx, bind_Ok, app_nil_l. unfold mret, result_ret. cbv [mbind result_bind]. by rewrite app_nil_r.
  - apply result_bind_ok in Hl as (y & Hy & Hl). apply result_bind_ok in Hl as (z & Hz & [= <-]).
    rewrite Hy, bind_Ok, (IH z Hz), bind_Ok. unfold mret, result_ret. by rewrite app_assoc.
Qed.
Lemma packs_vector_eq (c : codec A) l n : packs_all c l n →
  ∃ bs, Codec.pack_vector c l = Ok bs ∧ Z.of_nat (length bs) = length_size l + n.
Proof.
  intros (bs & Hl & <-). unfold Codec.pack_vector, Codec.pack_size_of, Raw.pack_unsigned_int. unfold mret at 1, result_ret at 1.
  rewrite bind_Ok, Hl, bind_Ok. eexists. split; [reflexivity|]. rewrite length_app. unfold length_size. lia.
Qed.
Lemma packs_vector_inv (c : codec A) l bs : Codec.pack_vector c l = Ok bs →
  packs_all c l (Z.of_nat (length bs) - length_size l).
Proof.
  unfold Codec.pack_vector. intros Hb. apply result_bind_ok in Hb as (x & Hx & Hl).
  apply result_bind_ok in Hl as (y & Hy & Hl). exists y. split; [exact Hy|]. unfold mret, result_ret in Hl.
  assert (bs = x ++ y) as -> by congruence. unfold length_size.
  assert (x = Raw.varint_bytes 10 (u32 (Z.of_nat (length l)))) as <- by (unfold Codec.pack_size_of, Raw.pack_unsigned_int, mret, result_ret in Hx; congruence).
  rewrite length_app. lia.
Qed.
End sizes.
Lemma packs_members {A B} (c : codec A) (cs : codec B) p n : packs (Codec.members c cs) p n ↔
  ∃ x y, packs c p.1 x ∧ packs cs p.2 y ∧ n = x + y.
Proof.
  rewrite packs_ok. simpl. unfold Codec.pack_members. split.
  - intros (bs & He & <-). apply result_bind_ok in He as (x & Hx & He). apply result_bind_ok in He as (y & Hy & [= <-]).
    exists (Z.of_nat (length x)), (Z.of_nat (length y)). rewrite !packs_ok. split_and!; [by eexists..|]. rewrite length_app. lia.
  - intros (x & y & (bx & Hx & <-)%packs_ok & (by_ & Hy & <-)%packs_ok & ->). rewrite Hx, bind_Ok, Hy, bind_Ok.
    eexists. split; [reflexivity|]. rewrite length_app. lia.
Qed.

(** A number below [2 ^ (7 * k)] takes at most [k] groups. *)
Lemma varint_length k : ∀ fuel v, (0 < k)%nat → 0 ≤ v < 2 ^ (7 * Z.of_nat k) → (length (Raw.varint_bytes fuel v) ≤ k)%nat.
Proof.
  induction k as [|k IH]; intros [|fuel] v Hk Hv; simpl; try lia.
  destruct (Z.eqb_spec (Z.shiftr v 7) 0); simpl; [lia|]. rewrite Z.shiftr_div_pow2 in * by lia.
  destruct k as [|k].
  - exfalso. apply n. apply Z.div_small. change (2 ^ (7 * Z.of_nat 1)) with 128 in Hv. change (2 ^ 7) with 128. lia.
  - apply le_n_S, IH; [lia|]. split; [apply Z.div_pos; lia|]. apply Z.div_lt_upper_bound; [lia|].
    replace (2 ^ 7 * 2 ^ (7 * Z.of_nat (S k))) with (2 ^ (7 * Z.of_nat (S (S k)))); [lia|].
    rewrite <- Z.pow_add_r by lia. f_equal. lia.
Qed.
Lemma varint_takes_bytes fuel v : (0 < length (Raw.varint_bytes (S fuel) v))%nat.
Proof. simpl. case_match; simpl; lia. Qed.
Lemma length_size_bound {A} (l : list A) : 1 ≤ length_size l ≤ 5 ∧
  (Z.of_nat (length l) < 128 → length_size l = 1) ∧ (Z.of_nat (length l) < 2 ^ 21 → length_size l ≤ 3).
Proof.
  unfold length_size. set (v := u32 (Z.of_nat (length l))).
  assert (Hv : 0 ≤ v < 2 ^ 32) by apply Z.mod_pos_bound, eq_refl.
  assert (Hle : v ≤ Z.of_nat (length l)) by (apply Z.mod_le; lia).
  pose proof (varint_takes_bytes 9 v) as Hpos.
  split; [split; [lia|]|split; intros Hl].
  - pose proof (varint_length 5 10 v ltac:(lia) ltac:(change (2 ^ (7 * Z.of_nat 5)) with (2 ^ 35); lia)). lia.
  - pose proof (varint_length 1 10 v ltac:(lia) ltac:(change (2 ^ (7 * Z.of_nat 1)) with 128; lia)). lia.
  - pose proof (varint_length 3 10 v ltac:(lia) ltac:(change (2 ^ (7 * Z.of_nat 3)) with (2 ^ 21); lia)). lia.
Qed.

(** ** The size of a block *)
Definition string_size (s : string) : Z := length_size (Raw.string_bytes s) + Z.of_nat (length (Raw.string_bytes s)).
Definition fixed_size (h : signed_block_header) : Z :=
  4 * Z.of_nat (length (previous h)) + (4 + (string_size (witness h) + (4 * Z.of_nat (length (transaction_merkle_root h)) + 65))).
Lemma packs_words l n : packs (Codec.words 5) l n ↔ n = 4 * Z.of_nat (length l).
Proof.
  rewrite packs_ok. simpl. unfold Codec.pack_words.
  assert (Hl : Z.of_nat (length (l ≫= AssetSymbol.le_bytes 4)) = 4 * Z.of_nat (length l)).
  { induction l as [|w l IH]; [done|]. rewrite bind_cons, length_app, length_le_bytes. change (length (w :: l)) with (S (length l)). lia. }
  split; [intros (bs & [= <-] & <-); done|]. intros ->. by eexists.
Qed.
Lemma packs_time t n : packs Codec.time_sec t n ↔ n = 4.
Proof.
  rewrite packs_ok. cbn [enc Codec.time_sec]. unfold Raw.pack_uint, mret, result_ret. split.
  - intros (bs & Hb & <-). assert (bs = AssetSymbol.le_bytes 4 t) as -> by congruence. by rewrite length_le_bytes.
  - intros ->. eexists. split; [reflexivity|]. by rewrite length_le_bytes.
Qed.
Lemma packs_signature v n : packs Wire.signature v n ↔ n = 65.
Proof.
  rewrite packs_ok. cbn [enc Wire.signature Wire.spelled]. unfold Wire.pack_spelled, mret, result_ret. split.
  - intros (bs & Hb & <-). assert (bs = reverse (AssetSymbol.le_bytes 65 v)) as -> by congruence.
    by rewrite length_reverse, length_le_bytes.
  - intros ->. eexists. split; [reflexivity|]. by rewrite length_reverse, length_le_bytes.
Qed.
Lemma packs_str s n : packs Codec.str s n ↔ n = string_size s.
Proof.
  rewrite packs_ok. cbn [enc Codec.str]. unfold Raw.pack_string, Raw.pack_chars, Raw.pack_unsigned_int, mret, result_ret.
  rewrite bind_Ok. unfold string_size, length_size. split.
  - intros (bs & Hb & <-). assert (bs = Raw.varint_bytes 10 (u32 (Z.of_nat (length (Raw.string_bytes s)))) ++ Raw.string_bytes s) as -> by congruence.
    rewrite length_app. lia.
  - intros ->. eexists. split; [reflexivity|]. rewrite length_app. lia.
Qed.
Lemma packs_vector {A} (c : codec A) (c' : codec (list A)) l n : enc c' l = Codec.pack_vector c l →
  packs c' l n ↔ packs_all c l (n - length_size l).
Proof.
  intros He. rewrite packs_ok, He. split.
  - intros (bs & Hb & <-). by apply packs_vector_inv.
  - intros (bs & Hb & Hn)%packs_vector_eq. exists bs. split; [done|lia].
Qed.
Lemma packs_nothing u n : packs Codec.no_members u n ↔ n = 0.
Proof. rewrite packs_ok. simpl. split; [by intros (bs & [= <-] & <-)|intros ->; by eexists]. Qed.
Lemma packs_object {A T} (c : codec T) (f : A → T) g Hgf a n : packs (Codec.object c f g Hgf) a n ↔ packs c (f a) n.
Proof. done. Qed.

Lemma block_packs `{Abi} b n : packs Wire.signed_block b n ↔ ∃ e t,
  packs_all Wire.block_header_extension (header_extensions (header b)) e ∧ packs_all Wire.signed_transaction (transactions b) t ∧
  n = fixed_size (header b) + (length_size (header_extensions (header b)) + e) + (length_size (transactions b) + t).
Proof.
  unfold Wire.signed_block, fixed_size. rewrite packs_object. split.
  - intros (x1 & y1 & H1%packs_words & Hr & ->)%packs_members. apply packs_members in Hr as (x2 & y2 & H2%packs_time & Hr & ->).
    apply packs_members in Hr as (x3 & y3 & H3%packs_str & Hr & ->).
    apply packs_members in Hr as (x4 & y4 & H4%packs_words & Hr & ->). apply packs_members in Hr as (x5 & y5 & H5 & Hr & ->).
    apply packs_members in Hr as (x6 & y6 & H6%packs_signature & Hr & ->). apply packs_members in Hr as (x7 & y7 & H7 & H8%packs_nothing & ->).
    apply (packs_vector Wire.block_header_extension) in H5; [|reflexivity].
    apply (packs_vector Wire.signed_transaction) in H7; [|reflexivity].
    eexists _, _. split; [exact H5|]. split; [exact H7|]. cbn [fst snd] in *. lia.
  - intros (e & t & He & Ht & ->).
    apply packs_members. eexists _, _. split; [by apply packs_words|]. split; [|rewrite <- !Z.add_assoc; reflexivity].
    apply packs_members. eexists _, _. split; [by apply packs_time|]. split; [|reflexivity].
    apply packs_members. eexists _, _. split; [by apply packs_str|]. split; [|reflexivity].
    apply packs_members. eexists _, _. split; [by apply packs_words|]. split; [|reflexivity].
    apply packs_members. exists (length_size (header_extensions (header b)) + e), (65 + (length_size (transactions b) + t)).
    split; [apply (packs_vector Wire.block_header_extension); [reflexivity|cbn [fst snd]; by rewrite Z.add_simpl_l]|]. split; [|lia].
    apply packs_members. exists 65, (length_size (transactions b) + t). split; [by apply packs_signature|]. split; [|lia].
    apply packs_members. exists (length_size (transactions b) + t), 0.
    split; [apply (packs_vector Wire.signed_transaction); [reflexivity|cbn [fst snd]; by rewrite Z.add_simpl_l]|].
    split; [by apply packs_nothing|lia].
Qed.

(** ** What the loops add up *)
Section loops.
Context `{Env} `{Abi} `{Crypto} `{Node} `{Platform}.

(** The running total, and that a transaction was only added below the limit. *)
Definition adds_up (base max : Z) (a : assembly) : Prop := ∃ t, packs_all Wire.signed_transaction (included a) t ∧
  total_block_size a = base + t ∧ (included a = [] ∧ t = 0 ∨ base + t < max).
Lemma adds_one base max a tx n k : adds_up base max a → packs Wire.signed_transaction tx n → total_block_size a + n < max →
  adds_up base max (mkAssembly (total_block_size a + n) k (included a ++ [tx])).
Proof.
  intros (t & Ht & Hn & _) Hp Hlt. exists (t + n). split; [by apply packs_all_snoc|]. cbn [total_block_size].
  split; [lia|]. right. lia.
Qed.
Lemma postponed_adds_up base max a k : adds_up base max a → adds_up base max (mkAssembly (total_block_size a) k (included a)).
Proof. done. Qed.
Lemma include_reward_size base max tx a s a' s' : adds_up base max a →
  Producer.include_reward max tx a s = (Ok a', s') → adds_up base max a'.
Proof.
  unfold Producer.include_reward. intros Ha Hr. destruct tx as [tx|]; [|inv_ok; done].
  apply St_bind_ok in Hr as (n & s1 & [Hn ->]%lift_ok & Hr). cbv zeta in Hr.
  destruct (Z.leb_spec max (total_block_size a + n)); [inv_ok; by apply postponed_adds_up|].
  apply St_bind_ok in Hr as (sk & s1 & _ & Hr). apply St_bind_ok in Hr as (u & s2 & _ & Hr). inv_ok. by apply adds_one.
Qed.
Lemma include_one_size base max tx a s a' s' : adds_up base max a →
  Producer.include_one max tx a s = (Ok a', s') → adds_up base max a'.
Proof.
  unfold Producer.include_one. intros Ha Hr.
  apply St_bind_ok in Hr as (n & s1 & [Hn ->]%lift_ok & Hr). cbv zeta in Hr.
  destruct (Z.leb_spec max (total_block_size a + n)); [inv_ok; by apply postponed_adds_up|].
  apply St_bind_ok in Hr as (sk & s1 & _ & Hr). apply try_ok in Hr as [Hr|(e & s2 & _ & Hr)].
  - apply St_bind_ok in Hr as (u & s2 & _ & Hr). apply St_ret_ok in Hr as [-> _]. by apply adds_one.
  - destruct (is_fc e); [|discriminate Hr]. apply St_ret_ok in Hr as [-> _]. exact Ha.
Qed.
Lemma include_pending_size base max w rw txs : ∀ a s a' s', adds_up base max a →
  Producer.include_pending max w rw txs a s = (Ok a', s') → adds_up base max a'.
Proof.
  induction txs as [|tx txs IH]; intros a s a' s' Ha Hr; cbn [Producer.include_pending] in Hr; [inv_ok; done|].
  destruct (_ <? _); [inv_ok; done|]. destruct (_ || _); [by eapply IH|].
  apply St_bind_ok in Hr as (a1 & s1 & H1' & Hr). eapply IH; [|exact Hr]. by eapply include_one_size.
Qed.

Lemma take_required_size fuel w max : ∀ after total l s total' l' s' q,
  packs_all Wire.required_automated_action l q →
  Producer.take_required fuel w max after total l s = (Ok (total', l'), s') →
  ∃ q', packs_all Wire.required_automated_action l' q' ∧ total' = total + (q' - q) ∧ (total' = total ∧ q' = q ∨ total' ≤ max).
Proof.
  induction fuel as [|fuel IH]; intros after total l s total' l' s' q Hq Hr; cbn [Producer.take_required] in Hr; [discriminate Hr|].
  apply St_bind_ok in Hr as (p & s1 & _ & Hr).
  destruct p as [p|]; [|apply St_ret_ok in Hr as [[= -> ->] _]; exists q; split_and!; [done|lia|left; lia]].
  destruct (_ <=? _); [|apply St_ret_ok in Hr as [[= -> ->] _]; exists q; split_and!; [done|lia|left; lia]].
  apply St_bind_ok in Hr as (n & s2 & [Hn ->]%lift_ok & Hr).
  destruct (Z.ltb_spec max (total + n)); [apply St_ret_ok in Hr as [[= -> ->] _]; exists q; split_and!; [done|lia|left; lia]|].
  apply St_bind_ok in Hr as (u & s2 & _ & Hr).
  apply IH with (q:=q + n) in Hr as (q' & Hq' & Ht & Hm); [|by apply packs_all_snoc].
  exists q'. split; [done|]. split; [lia|]. right. lia.
Qed.
Lemma take_optional_size w max l : ∀ total ids acc s ids' acc' s' q,
  packs_all Wire.optional_automated_action acc q →
  Producer.take_optional w max total l ids acc s = (Ok (ids', acc'), s') →
  ∃ q', packs_all Wire.optional_automated_action acc' q' ∧ (q' = q ∨ total + (q' - q) ≤ max).
Proof.
  induction l as [|p l IH]; intros total ids acc s ids' acc' s' q Hq Hr; cbn [Producer.take_optional] in Hr;
    [apply St_ret_ok in Hr as [[= -> ->] _]; exists q; by split; [|left]|].
  destruct (_ <=? _); [|apply St_ret_ok in Hr as [[= -> ->] _]; exists q; by split; [|left]].
  apply St_bind_ok in Hr as (n & s2 & [Hn ->]%lift_ok & Hr).
  destruct (Z.ltb_spec max (total + n)); [apply St_ret_ok in Hr as [[= -> ->] _]; exists q; by split; [|left]|].
  apply St_bind_ok in Hr as (u & s2 & _ & Hr). destruct u.
  - apply IH with (q:=q + n) in Hr as (q' & Hq' & Hm); [|by apply packs_all_snoc]. exists q'. split; [done|]. right. lia.
  - by apply IH with (q:=q) in Hr.
Qed.
End loops.

(** ** Extensions *)
Section extensions.
Context `{Abi}.
Lemma packs_required l q : packs_all Wire.required_automated_action l q →
  packs Wire.block_header_extension (ext_required_actions l) (1 + (length_size l + q)).
Proof.
  intros (bs & Hb & Hn)%packs_vector_eq. apply packs_ok. exists ([3] ++ bs).
  split; [|rewrite length_app; cbn [length]; lia].
  change (enc Wire.block_header_extension (ext_required_actions l)) with
    (n ← Raw.pack_unsigned_int 3; x ← Codec.pack_vector Wire.required_automated_action l; mret (n ++ x)).
  rewrite Hb. reflexivity.
Qed.
Lemma packs_optional l q : packs_all Wire.optional_automated_action l q →
  packs Wire.block_header_extension (ext_optional_actions l) (1 + (length_size l + q)).
Proof.
  intros (bs & Hb & Hn)%packs_vector_eq. apply packs_ok. exists ([4] ++ bs).
  split; [|rewrite length_app; cbn [length]; lia].
  change (enc Wire.block_header_extension (ext_optional_actions l)) with
    (n ← Raw.pack_unsigned_int 4; x ← Codec.pack_vector Wire.optional_automated_action l; mret (n ++ x)).
  rewrite Hb. reflexivity.
Qed.
Lemma insert_last e l : Forall (λ x, Wire.which_extension x < Wire.which_extension e) l →
  Codec.flat_add (λ x y, Wire.which_extension x <? Wire.which_extension y) e l = l ++ [e].
Proof.
  induction 1 as [|x l Hx Hl IH]; [done|]. cbn [Codec.flat_add]. rewrite (proj2 (Z.ltb_ge _ _)), (proj2 (Z.ltb_lt _ _)) by lia.
  by rewrite IH.
Qed.
(** An extension that is inserted behind the others: what it adds. *)
Lemma insert_nonempty_size {A} (l : list A) e b x n q : Z.of_nat (length l) < 2 ^ 21 →
  Forall (λ x, Wire.which_extension x < Wire.which_extension e) (header_extensions (header b)) →
  packs_all Wire.block_header_extension (header_extensions (header b)) x → n = 1 + (length_size l + q) →
  packs Wire.block_header_extension e n → (l = [] → q = 0) →
  ∃ x', packs_all Wire.block_header_extension (header_extensions (header (Producer.insert_nonempty l e b))) x' ∧
    x' ≤ x + 4 + q ∧ (l = [] → x' = x) ∧
    (length (header_extensions (header (Producer.insert_nonempty l e b))) ≤ S (length (header_extensions (header b))))%nat.
Proof.
  intros Hlen Hw Hx -> Hn Hq. destruct l as [|a l]; cbn [Producer.insert_nonempty].
  - exists x. split_and!; [done| |done|lia]. rewrite Hq by done. lia.
  - unfold Producer.insert_extension, Producer.set_extensions. cbn [header header_extensions]. rewrite insert_last by done.
    exists (x + (1 + (length_size (a :: l) + q))). split_and!; [by apply packs_all_snoc| |discriminate|rewrite length_app; simpl; lia].
    pose proof (proj2 (proj2 (length_size_bound (a :: l))) Hlen). lia.
Qed.
Lemma insert_nonempty_header {A} (l : list A) e b : let b' := Producer.insert_nonempty l e b in
  fixed_size (header b') = fixed_size (header b) ∧ transactions b' = transactions b.
Proof. by destruct l. Qed.
End extensions.
Lemma packs_all_unique {A} (c : codec A) l n m : packs_all c l n → packs_all c l m → n = m.
Proof. intros (x & Hx & <-) (y & Hy & <-). congruence. Qed.

(** ** The block that comes out *)
Definition few {A} (l : list A) : bool := Z.of_nat (length l) <? 2 ^ 21.
Definition few_actions (b : signed_block) : bool :=
  forallb (λ e, match e with ext_required_actions l => few l | ext_optional_actions l => few l | _ => true end)
    (header_extensions (header b)).
(** A block with nothing in it yet. *)
Definition fresh_block (b : signed_block) : Prop :=
  transactions b = [] ∧ Forall (λ e, Wire.which_extension e < 3) (header_extensions (header b)) ∧
  (length (header_extensions (header b)) ≤ 2)%nat ∧ length (transaction_merkle_root (header b)) = 5%nat.

Section filled.
Context `{Env} `{Abi} `{Crypto} `{Node} `{Platform}.

Lemma inserted_few {A} (l : list A) e b : l ≠ [] →
  Forall (λ x, Wire.which_extension x < Wire.which_extension e) (header_extensions (header b)) →
  e ∈ header_extensions (header (Producer.insert_nonempty l e b)).
Proof.
  intros Hl Hw. destruct l as [|a l]; [done|]. cbn [Producer.insert_nonempty].
  unfold Producer.insert_extension, Producer.set_extensions. cbn [header header_extensions]. rewrite insert_last by done. set_solver.
Qed.
Lemma inserted_below {A} (l : list A) e b k : Wire.which_extension e < k →
  Forall (λ x, Wire.which_extension x < Wire.which_extension e) (header_extensions (header b)) →
  Forall (λ x, Wire.which_extension x < k) (header_extensions (header (Producer.insert_nonempty l e b))).
Proof.
  intros Hk Hw. assert (Hb : Forall (λ x, Wire.which_extension x < k) (header_extensions (header b))).
  { eapply Forall_impl; [exact Hw|]. intros x Hx; cbv beta in *; lia. }
  destruct l as [|a l]; [exact Hb|]. cbn [Producer.insert_nonempty].
  unfold Producer.insert_extension, Producer.set_extensions. cbn [header header_extensions]. rewrite insert_last by done.
  apply Forall_app. split; [exact Hb|]. by constructor.
Qed.
Lemma kept_extension {A} (l : list A) e b x : x ∈ header_extensions (header b) →
  Forall (λ x, Wire.which_extension x < Wire.which_extension e) (header_extensions (header b)) →
  x ∈ header_extensions (header (Producer.insert_nonempty l e b)).
Proof.
  intros Hx Hw. destruct l as [|a l]; [done|]. cbn [Producer.insert_nonempty].
  unfold Producer.insert_extension, Producer.set_extensions. cbn [header header_extensions]. rewrite insert_last by done. set_solver.
Qed.

Lemma fill_block_size w reward n p b s b' s' : fresh_block b → packs Wire.signed_block b n →
  n + Producer.reserved ≤ dgp_maximum_block_size p → Producer.transaction_partition p ≤ dgp_maximum_block_size p →
  Producer.fill_block w reward n p b s = (Ok b', s') → few_actions b' = true →
  ∃ m, packs Wire.signed_block b' m ∧ m ≤ dgp_maximum_block_size p ∧ fixed_size (header b') = fixed_size (header b) ∧
    transaction_merkle_root (header b') = transaction_merkle_root (header b).
Proof.
  intros (Htx & Hw & Hlen & _) Hn Hbase Hpart Hr Hfew. unfold Producer.fill_block in Hr. cbv zeta in Hr.
  apply block_packs in Hn as (e & t & He & Ht & Hn). rewrite Htx in Ht, Hn.
  apply (packs_all_unique _ _ _ 0) in Ht as ->; [|apply packs_all_nil].
  apply St_bind_ok in Hr as (a1 & s1 & Ha1%(include_reward_size (n + 12) (Producer.transaction_partition p)) & Hr);
    [|rewrite Htx; exists 0; split; [apply packs_all_nil|]; split; [unfold Producer.reserved; simpl; lia|by left]].
  apply St_bind_ok in Hr as (txs & s2 & _ & Hr).
  apply St_bind_ok in Hr as (a2 & s3 & Ha2%(include_pending_size (n + 12) (Producer.transaction_partition p)) & Hr); [|done].
  destruct Ha2 as (t & Ht & Htot & Hmax).
  apply St_bind_ok in Hr as (u & s4 & _ & Hr).
  apply St_bind_ok in Hr as ([total req] & s5 & (q & Hq & Hreq & Hqm)%(take_required_size _ _ _ _ _ _ _ _ _ _ 0) & Hr);
    [|apply packs_all_nil].
  apply St_bind_ok in Hr as (l & s6 & _ & Hr).
  apply St_bind_ok in Hr as ([ids opt] & s7 & (q2 & Hq2 & Hqm2)%(take_optional_size _ _ _ _ _ _ _ _ _ _ 0) & Hr);
    [|apply packs_all_nil].
  apply St_bind_ok in Hr as (u' & s8 & _ & Hr). apply St_ret_ok in Hr as [-> _]. cbn [fst snd] in *.
  set (b1 := Producer.set_transactions (included a2) b) in *.
  set (b2 := Producer.insert_nonempty req (ext_required_actions req) b1) in *.
  assert (Hw2 : Forall (λ x, Wire.which_extension x < 4) (header_extensions (header b2))) by (by apply inserted_below).
  assert (Hfr : Z.of_nat (length req) < 2 ^ 21 ∧ Z.of_nat (length opt) < 2 ^ 21).
  { unfold few_actions in Hfew. rewrite forallb_forall in Hfew. split.
    - destruct req as [|r0 req']; [done|]. apply Z.ltb_lt. apply (Hfew (ext_required_actions (r0 :: req'))).
      apply list_elem_of_In, kept_extension; [by apply inserted_few|done].
    - destruct opt as [|o0 opt']; [done|]. apply Z.ltb_lt. apply (Hfew (ext_optional_actions (o0 :: opt'))).
      apply list_elem_of_In. by apply inserted_few. }
  destruct Hfr as [Hfr Hfo].
  destruct (insert_nonempty_size req (ext_required_actions req) b1 e _ q Hfr Hw He eq_refl (packs_required _ _ Hq))
    as (e1 & He1 & Hle1 & Heq1 & Hlen1); [intros ->; by apply (packs_all_unique _ _ _ 0) in Hq; [|apply packs_all_nil]|].
  destruct (insert_nonempty_size opt (ext_optional_actions opt) b2 e1 _ q2 Hfo Hw2 He1 eq_refl (packs_optional _ _ Hq2))
    as (e2 & He2 & Hle2 & Heq2 & Hlen2); [intros ->; by apply (packs_all_unique _ _ _ 0) in Hq2; [|apply packs_all_nil]|].
  fold b2 in Hlen1.
  set (b3 := Producer.insert_nonempty opt (ext_optional_actions opt) b2) in *.
  assert (Hfix : fixed_size (header b3) = fixed_size (header b) ∧ transactions b3 = included a2).
  { unfold b3, b2. rewrite !(proj1 (insert_nonempty_header _ _ _)), !(proj2 (insert_nonempty_header _ _ _)). done. }
  destruct Hfix as [Hfix Htx3].
  eexists. split; [apply block_packs; eexists _, _; split; [exact He2|]; split; [rewrite Htx3; exact Ht|reflexivity]|].
  split; [|split; [exact Hfix|by unfold b3, b2; destruct opt, req]].
  rewrite Hfix, Htx3.
  assert (Hl3 : length_size (header_extensions (header b3)) = 1)
    by (apply (length_size_bound (header_extensions (header b3))); change (header_extensions (header b1)) with (header_extensions (header b)) in Hlen1; lia).
  assert (Hl0 : length_size (header_extensions (header b)) = 1)
    by (apply (length_size_bound (header_extensions (header b))); lia).
  pose proof (proj1 (length_size_bound (included a2))) as Hlt. unfold Producer.reserved in *.
  change (length_size []) with 1 in Hn. lia.
Qed.
End filled.

Section fits.
Context `{Env} `{Abi} `{Crypto} `{Node} `{Platform}.

Lemma length_words_of n b : length (Digest.words_of n b) = n.
Proof. revert b. induction n as [|n IH]; intros b; simpl; [done|by rewrite IH]. Qed.
Lemma merkle_root_length chain_id b : length (Block.calculate_merkle_root (H:=ChainEnv.env chain_id) b) = 5%nat.
Proof. unfold Block.calculate_merkle_root. destruct (transactions b); [done|]. apply length_words_of. Qed.
Lemma hardfork_vote_kind n v s s' : Producer.hardfork_vote_for n s = (Ok v, s') → ∃ h, v = ext_hardfork_vote h.
Proof.
  unfold Producer.hardfork_vote_for. destruct (Apply.hardfork_versions n); [|discriminate]. intros [-> _]%St_ret_ok. by eexists.
Qed.
Lemma adjust_fresh wo head w name s b s' :
  Producer.adjust_hardfork_version_vote wo (Producer.new_block head w name) s = (Ok b, s') → fresh_block b.
Proof.
  unfold Producer.adjust_hardfork_version_vote. intros Hr. cbv zeta in Hr.
  apply St_bind_ok in Hr as (hfp & s1 & _ & Hr).
  assert (Hdone : ∀ h, fresh_block (if negb (wit_running_version wo =? XGT_BLOCKCHAIN_VERSION)
      then Producer.insert_extension (ext_version XGT_BLOCKCHAIN_VERSION) (Producer.new_block head w name)
      else Producer.new_block head w name) ∧ fresh_block (Producer.insert_extension (ext_hardfork_vote h)
    (if negb (wit_running_version wo =? XGT_BLOCKCHAIN_VERSION)
      then Producer.insert_extension (ext_version XGT_BLOCKCHAIN_VERSION) (Producer.new_block head w name)
      else Producer.new_block head w name))).
  { intros h. unfold fresh_block. destruct (negb _); simpl; split_and!; done || lia || (repeat constructor; done). }
  destruct (_ <? _).
  - apply St_bind_ok in Hr as (v & s2 & Hv & Hr). apply hardfork_vote_kind in Hv as [h ->]. apply St_ret_ok in Hr as [-> _].
    destruct (_ || _); apply Hdone. exact h.
  - destruct (_ && _).
    + apply St_bind_ok in Hr as (v & s2 & Hv & Hr). apply hardfork_vote_kind in Hv as [h ->]. apply St_ret_ok in Hr as [-> _]. apply Hdone.
    + apply St_ret_ok in Hr as [-> _]. apply (Hdone (mkHfVote 0 0)).
Qed.
Lemma partition_bound p : 0 ≤ dgp_maximum_block_size p < 2 ^ 32 → 0 ≤ dgp_required_actions_partition_percent p ≤ XGT_100_PERCENT →
  Producer.transaction_partition p ≤ dgp_maximum_block_size p.
Proof.
  unfold Producer.transaction_partition, XGT_100_PERCENT. set (m := dgp_maximum_block_size p). set (q := dgp_required_actions_partition_percent p).
  intros Hm Hq. rewrite (u64_id (m * q)) by nia.
  assert (Hd : 0 ≤ m * q / 10000 ≤ m) by (split; [apply Z.div_pos; nia|apply Z.div_le_upper_bound; nia]).
  rewrite u64_id; lia.
Qed.
End fits.

(** C31: A produced block fits.  The block that a producer puts together, with
    the pending transactions and actions it chose and its signature, packs to a
    size within the maximum block size of the chain — the very number that is
    compared when the block is applied — as long as an empty block has room and
    the block has fewer than two million actions of a kind. *)
Theorem produced_block_fits `{Abi} `{Crypto} (chain_id : digest_type) `{Node} `{Platform} (wo : witness_object)
    (head : block_id_type) (when : time_point_sec) (name : wallet_name_type) (key : digest_type)
    (reward : option signed_transaction) (s s1 s' : database) (b b' : signed_block)
    (gpo : dynamic_global_property_object) (n : Z) :
  Producer.adjust_hardfork_version_vote wo (Producer.new_block head when name) s = (Ok b, s1) →
  Db.dgp s = Some gpo → 0 ≤ dgp_maximum_block_size gpo < 2 ^ 32 →
  0 ≤ dgp_required_actions_partition_percent gpo ≤ XGT_100_PERCENT →
  Wire.pack_size Wire.signed_block b = Ok n → n + Producer.reserved ≤ dgp_maximum_block_size gpo →
  Producer.apply_pending_transactions (H:=ChainEnv.env chain_id) when b reward s = (Ok b', s') → few_actions b' = true →
  Wire.pack_size Wire.signed_block b' = Ok (block_pack_size (Env:=ChainEnv.env chain_id) b') ∧
  Wire.pack_size Wire.signed_block (Producer.sign_block key b') = Ok (block_pack_size (Env:=ChainEnv.env chain_id) b') ∧
  block_pack_size (Env:=ChainEnv.env chain_id) b' ≤ dgp_maximum_block_size gpo.
Proof.
  intros Hadj Hdgp Hmax Hpct Hn Hbase Hr Hfew. apply adjust_fresh in Hadj as Hfresh.
  unfold Producer.apply_pending_transactions in Hr. apply St_bind_ok in Hr as (n' & s2 & [Hn' ->]%lift_ok & Hr).
  assert (n' = n) as -> by congruence. apply St_bind_ok in Hr as (p & s2 & Hp & Hr). apply get_or_run in Hp as [Hp ->].
  assert (p = gpo) as -> by congruence. apply St_bind_ok in Hr as (u & s2 & _ & Hr).
  apply St_bind_ok in Hr as (b1 & s3 & Hfill & Hr). apply St_bind_ok in Hr as (u' & s4 & _ & Hr). apply St_ret_ok in Hr as [-> _].
  eapply fill_block_size in Hfill as (m & Hm & Hle & Hfix & Hroot); [|done|done|done|by apply partition_bound|exact Hfew].
  apply block_packs in Hm as (e & t & He & Ht & ->).
  assert (Hlen : length (transaction_merkle_root (header b1)) = 5%nat) by (rewrite Hroot; apply Hfresh).
  assert (Hany : ∀ sig, Wire.pack_size Wire.signed_block (mkBlock (mkHeader (previous (header b1)) (timestamp (header b1))
      (witness (header b1)) (Block.calculate_merkle_root (H:=ChainEnv.env chain_id) b1) (header_extensions (header b1)) sig) (transactions b1)) =
    Ok (fixed_size (header b1) + (length_size (header_extensions (header b1)) + e) + (length_size (transactions b1) + t))).
  { intros sig. apply block_packs. exists e, t. split; [exact He|]. split; [exact Ht|]. unfold fixed_size.
    cbn [header previous witness transaction_merkle_root header_extensions transactions]. by rewrite merkle_root_length, Hlen. }
  assert (Hb : block_pack_size (Env:=ChainEnv.env chain_id) (Producer.set_merkle_root (H:=ChainEnv.env chain_id) b1) =
    fixed_size (header b1) + (length_size (header_extensions (header b1)) + e) + (length_size (transactions b1) + t)).
  { destruct (proj1 (packs_ok _ _ _) (Hany (witness_signature (header b1)))) as (bs & Hbs & Hl). rewrite <- Hl.
    change (Z.of_nat (length (match enc Wire.signed_block (Producer.set_merkle_root (H:=ChainEnv.env chain_id) b1) with Ok b => b | Exc _ => [] end)) =
      Z.of_nat (length bs)).
    assert (He2 : enc Wire.signed_block (Producer.set_merkle_root (H:=ChainEnv.env chain_id) b1) = Ok bs) by exact Hbs. by rewrite He2. }
  rewrite Hb. split; [apply Hany|]. split; [apply Hany|exact Hle].
Qed.

Module SizeDemo.
Definition signer : witness_object := default (obj_init 0) (Db.find_witness "alice" BlockDemo.db).
Definition gpo : dynamic_global_property_object := default (obj_init 0) (Db.dgp ProducerDemo.db).
Lemma votes : Producer.adjust_hardfork_version_vote signer ProducerDemo.empty ProducerDemo.db = (Ok ProducerDemo.empty, ProducerDemo.db).
Proof. reflexivity. Qed.
Lemma limits : Db.dgp ProducerDemo.db = Some gpo.
Proof. reflexivity. Qed.
End SizeDemo.
Lemma produced_block_fits_witness :
  block_pack_size (Env:=ChainEnv.env 0) ProducerDemo.full ≤ 65536.
Proof.
  destruct (produced_block_fits 0 SizeDemo.signer [Block.endian_reverse_u32 10; 0; 0; 0; 0] 1005 "alice" 7 None
    ProducerDemo.db ProducerDemo.db ProducerDemo.outcome.2 ProducerDemo.empty ProducerDemo.full SizeDemo.gpo 117
    SizeDemo.votes SizeDemo.limits ltac:(vm_compute; split; discriminate || reflexivity) ltac:(vm_compute; split; discriminate)
    ltac:(vm_compute; reflexivity) ltac:(vm_compute; discriminate) ProducerDemo.assembles ltac:(vm_compute; reflexivity))
    as (_ & _ & Hle). exact Hle.
Defined.
