(* ===== verification/Included.v ===== *)
(** * What a producer includes is accepted

    The transactions of a produced block, in their order, apply to the state of
    the head block one after the other: the temporary sessions, the transactions
    that failed in between and the session of the pending transactions do not
    show.  The exception is the random key of a wallet that a transfer opens, so
    the theorem is about runs that draw none. *)
From S2P Require Import Prelude Safe Chainbase Asset Raw Encoding Protocol Wire SignState Block Digest ForkDatabase ResourceDynamics Objects Database Ledger Evaluators EvaluatorFacts Xtt Operations LedgerProps Apply ApplyFacts BlockFacts Determinism Producer.

(** ** Random draws are counted *)
Section draws.
Context `{Env} `{Node} `{!NodeDeterministic} (k : Z).
Abbreviation D := (λ s, k ≤ rand_count s).
Lemma at_table_draws {A} t (m : St (Chainbase.generic_index (obj t)) A) : preserves D (at_table t m).
Proof. intros s Hs. unfold at_table. by destruct (m (tbl s t)). Qed.
Lemma create_draws t f : preserves D (create t f).
Proof. apply at_table_draws. Qed.
Lemma modify_draws t i f : preserves D (modify t i f).
Proof. apply at_table_draws. Qed.
Lemma remove_draws t i : preserves D (remove t i).
Proof. apply at_table_draws. Qed.
Lemma random_key_draws : preserves D Eval.random_key.
Proof. intros s Hs. simpl. lia. Qed.
#[local] Hint Resolve random_key_draws : preserves.
#[local] Hint Extern 1 (preserves _ (create _ _)) => apply create_draws : preserves.
#[local] Hint Extern 1 (preserves _ (modify _ _ _)) => apply modify_draws : preserves.
#[local] Hint Extern 1 (preserves _ (remove _ _)) => apply remove_draws : preserves.

Lemma adjust_balance_draws n d : preserves D (Db.adjust_balance n d).
Proof.
  unfold Db.adjust_balance, Db.get_balance, Db.get_balance_of, Db.xtt_balance, Db.check_funds, Db.adjust_supply,
    Db.adjust_xtt_balance, Db.modify_balance. walk.
Qed.
Lemma adjust_balance_of_draws a d : preserves D (Db.adjust_balance_of a d).
Proof.
  unfold Db.adjust_balance_of, Db.get_balance_of, Db.xtt_balance, Db.check_funds, Db.adjust_supply,
    Db.adjust_xtt_balance, Db.modify_balance. walk.
Qed.
Lemma create_wallet_draws n key : preserves D (Eval.create_wallet n key).
Proof. unfold Eval.create_wallet, Eval.get_hardfork. walk. Qed.
Lemma create_authority_draws n r m s : preserves D (Eval.create_authority n r m s).
Proof. unfold Eval.create_authority. walk. Qed.
Lemma verify_exist_draws a : preserves D (Eval.verify_authority_accounts_exist a).
Proof. unfold Eval.verify_authority_accounts_exist. walk. Qed.
Lemma update_recovery_draws w a : preserves D (Eval.update_recovery_authority w a).
Proof. unfold Eval.update_recovery_authority. walk. Qed.
Lemma on_some_draws {A} (o : option A) f : (∀ a, preserves D (f a)) → preserves D (Eval.on_some o f).
Proof. intros Hf. destruct o; simpl; walk. Qed.
Lemma touch_ancestors_draws n now i : preserves D (Eval.touch_ancestors n now i).
Proof. revert i. induction n as [|n IH]; intros i; simpl; walk. Qed.
#[local] Hint Resolve adjust_balance_draws adjust_balance_of_draws create_wallet_draws create_authority_draws verify_exist_draws
  update_recovery_draws on_some_draws touch_ancestors_draws : preserves.
Lemma create_receiver_draws n : preserves D (Eval.create_receiver n).
Proof. unfold Eval.create_receiver. walk. Qed.
Lemma custom_json_eval_draws o : preserves D (Eval.custom_json o).
Proof.
  unfold Eval.custom_json. apply preserves_bind; [walk|]. intros p. do 2 (apply preserves_bind; [walk|intros _]).
  destruct (custom_json_evaluator (cj_id o)) as [f|] eqn:E; [|walk]. apply preserves_try; [|walk].
  intros s Hs. pose proof (custom_json_draws _ f o s E). simpl. lia.
Qed.
#[local] Hint Resolve create_receiver_draws custom_json_eval_draws : preserves.

Lemma find_token_draws sym b : preserves D (Xtt.find_token sym b).
Proof. unfold Xtt.find_token. walk. Qed.
Lemma push_required_draws a t : preserves D (Xtt.push_required_action a t).
Proof. unfold Xtt.push_required_action. walk. Qed.
#[local] Hint Resolve find_token_draws push_required_draws : preserves.
Lemma refill_draws n i r : preserves D (Xtt.refill_nais n i r).
Proof. revert r. induction n as [|n IH]; intros r; cbn [Xtt.refill_nais]; cbv zeta; walk. Qed.
#[local] Hint Resolve refill_draws : preserves.
Lemma replenish_draws : preserves D Xtt.replenish_nai_pool.
Proof. unfold Xtt.replenish_nai_pool, Xtt.get_nai_pool. walk. Qed.
Lemma remove_from_pool_draws a : preserves D (Xtt.remove_from_nai_pool a).
Proof. unfold Xtt.remove_from_nai_pool, Xtt.get_nai_pool. walk. Qed.
#[local] Hint Resolve replenish_draws remove_from_pool_draws : preserves.
Lemma required_action_draws a : preserves D (Xtt.apply_required_action a).
Proof.
  unfold Xtt.apply_required_action, Xtt.ico_launch, Xtt.ico_evaluation, Xtt.token_launch, Xtt.set_phase, Xtt.get_token, Xtt.get_ico.
  walk.
Qed.
Lemma operation_draws op : preserves D (Registry.apply_operation op).
Proof.
  destruct op; simpl; unfold Eval.comment, Eval.transfer, Eval.wallet_create, Eval.wallet_update, Eval.witness_update,
    Eval.custom, Eval.delete_comment, Eval.comment_options, Eval.escrow_transfer, Eval.escrow_dispute, Eval.escrow_release,
    Eval.release_allowed, Eval.pow, Eval.check_work, Eval.create_worker, Eval.reward_worker, Eval.escrow_approve, Eval.vote,
    Eval.contract_create, Eval.contract_invoke, Eval.report_over_production, Xtt.xtt_setup, Xtt.xtt_setup_ico_tier,
    Xtt.xtt_set_setup_parameters, Xtt.xtt_set_runtime_parameters, Xtt.xtt_create, Xtt.charge_or_reset, Xtt.xtt_contribute,
    Xtt.common_pre_setup_evaluation, Xtt.get_controlled_xtt, Xtt.verify_accounts, Xtt.get_nai_pool; walk.
  apply (create_draws t_comment).
Qed.
Lemma apply_transaction_draws tx skip : preserves D (Apply.apply_transaction tx skip).
Proof.
  unfold Apply.apply_transaction. intros s Hs. destruct (with_skip_flags _ _ s) as [r s'] eqn:Hr.
  apply with_skip_run in Hr as (s1 & Hr & ->). cbn [snd]. change (k ≤ rand_count s1).
  assert (Ha : preserves D (Apply._apply_transaction tx)).
  { pose proof operation_draws. unfold Apply._apply_transaction. walk. }
  pose proof (Ha (set_skip_flags skip s) Hs) as Hd. by rewrite Hr in Hd.
Qed.
End draws.
#[local] Opaque Base.start_undo_session Base.undo Base.squash Base.commit.

(** ** Transactions included so far *)

Section included.
Context `{Env} `{Abi} `{Crypto} `{Node} `{!NodePromise} `{!NodeDeterministic} `{Platform}.
Context (d d1 : tables) (Hwf : wf_tables d) (Hst : Base.start_undo_session d = (Ok tt, d1)) (s0 sh : database).

Definition run_all (l : list signed_transaction) : DB unit := for_each l (λ tx, Apply.apply_transaction tx (skip_flags s0)).
(** [s] is what the transactions [l] make of the head state [sh], unless a key was
    drawn; and so on every node that looks the same. *)
Definition applied (l : list signed_transaction) (s : database) : Prop :=
  over d1 s0 s ∧ rand_count sh ≤ rand_count s ∧
  (rand_count s = rand_count sh → ∀ sh', same_view sh sh' → ∃ sp, run_all l sh' = (Ok tt, sp) ∧ same_view s sp).

Lemma over_view s s' : over d1 s0 s → over d1 s0 s' →
  (∀ t, Chainbase.Spec.cur (abs (tbl s t)) = Chainbase.Spec.cur (abs (tbl s' t))) → same_view s s'.
Proof.
  intros [_ [_ E]] [_ [_ E']] Ht.
  assert (Hn : ∀ t, Chainbase.indices (tbl s t) = Chainbase.indices (tbl s' t) ∧
    Chainbase.next_id (tbl s t) = Chainbase.next_id (tbl s' t)).
  { intros t. split; [exact (f_equal fst (Ht t))|exact (f_equal snd (Ht t))]. }
  constructor; [intros t _; apply Hn|intros t _; apply Hn|rewrite E, E'; reflexivity..| | |];
    intros _; rewrite E, E'; reflexivity.
Qed.
Lemma started_view s d2 : Base.start_undo_session (tbl s) = (Ok tt, d2) → same_view s (set_tbl d2 s).
Proof.
  intros Hs. destruct (start_session_view s) as (d3 & Hr & Hv). rewrite (on_base_run _ _ _ _ Hs) in Hr.
  injection Hr as <-. exact Hv.
Qed.

Lemma temp_session_applied tx l s r s' : applied l s →
  Producer.in_temp_session (Apply.apply_transaction tx (skip_flags s0)) s = (r, s') →
  applied (match r with Ok _ => l ++ [tx] | Exc _ => l end) s'.
Proof.
  intros (Hov & Hrand & Happ) Hr.
  pose proof (apply_transaction_over d d1 Hwf Hst s0 tx (skip_flags s0) s Hov) as Hov'. rewrite Hr in Hov'.
  unfold Producer.in_temp_session in Hr. rewrite bind_run in Hr.
  destruct (with_session (Apply.apply_transaction tx (skip_flags s0)) s) as [r1 s2] eqn:Hw.
  apply with_session_run in Hw as (d2 & s3 & Hs2 & Hm & Hq2 & Hres);
    [|intros d'; apply with_skip_quiet, _apply_transaction_quiet|exact (quiet_wf _ _ (proj1 Hov))].
  pose proof (apply_transaction_draws (rand_count s) tx (skip_flags s0) (set_tbl d2 s) (Z.le_refl _)) as Hd.
  rewrite Hm in Hd. cbn [snd] in Hd. destruct r1 as [[]|e].
  - subst s3. destruct (squash_tables (tbl s2) (quiet_wf _ _ Hq2)) as (d3 & Hsq & Hwf3 & Hsq').
    rewrite (on_base_run _ _ _ _ Hsq) in Hr. injection Hr as <- <-. split; [exact Hov'|].
    change (rand_count (set_tbl d3 s2)) with (rand_count s2). split; [lia|]. intros Heq sh' Hsh.
    destruct (Happ ltac:(lia) sh' Hsh) as (sp & Hsp & Hv).
    assert (Hv2 : same_view (set_tbl d2 s) sp) by (rewrite <- (started_view s d2 Hs2); exact Hv).
    destruct (apply_transaction_same tx (skip_flags s0) _ _ Hv2) as [_ Hal]. unfold undrawn in Hal. rewrite Hm in Hal.
    destruct Hal as [[E1 E2] _]; [cbn [snd]; change (rand_count (set_tbl d2 s)) with (rand_count s); lia|].
    destruct (Apply.apply_transaction tx (skip_flags s0) sp) as [r3 sp3] eqn:Hsp3. cbn [fst snd] in E1, E2. subst r3.
    exists sp3. split; [unfold run_all; rewrite (for_each_snoc _ _ _ _ _ Hsp); exact Hsp3|].
    rewrite <- E2. constructor; try reflexivity; intros t _.
    + change (Chainbase.indices (d3 t) = Chainbase.indices (tbl s2 t)). destruct (Hsq' t) as [Ha _].
      apply (cur_items d3 (tbl s2)). by rewrite Ha.
    + change (Chainbase.next_id (d3 t) = Chainbase.next_id (tbl s2 t)). destruct (Hsq' t) as [Ha _].
      exact (f_equal (λ x, (Chainbase.Spec.cur x).2) Ha).
  - injection Hr as <- <-. destruct Hres as (E2 & Hwf2 & Hsame).
    assert (Hr2 : rand_count s2 = rand_count s3) by (rewrite E2; reflexivity).
    split; [exact Hov'|]. split; [lia|]. intros Heq sh' Hsh. destruct (Happ ltac:(lia) sh' Hsh) as (sp & Hsp & Hv). exists sp. split; [exact Hsp|].
    rewrite <- Hv. apply over_view; [exact Hov'|exact Hov|]. intros t. exact (f_equal (λ x, Chainbase.Spec.cur x.1) (Hsame t)).
Qed.

Lemma include_reward_applied max reward a s a' s' : applied (included a) s →
  Producer.include_reward max reward a s = (Ok a', s') → applied (included a') s' ∧
  (included a' = included a ∨ ∃ tx, reward = Some tx ∧ included a' = included a ++ [tx]).
Proof.
  intros Ha Hr. unfold Producer.include_reward in Hr. destruct reward as [tx|];
    [|apply St_ret_ok in Hr as [-> ->]; split; [exact Ha|by left]].
  apply St_bind_ok in Hr as (n & s1 & [Hn ->]%lift_ok & Hr). cbv zeta in Hr.
  destruct (_ <=? _); [apply St_ret_ok in Hr as [-> ->]; split; [exact Ha|by left]|].
  apply St_bind_ok in Hr as (sk & s1 & [-> ->]%gets_ok & Hr). apply St_bind_ok in Hr as (u & s2 & Ht & Hr).
  apply St_ret_ok in Hr as [-> ->]. apply try_ok in Ht as [Ht|(e & s3 & _ & Ht)]; [|discriminate Ht].
  replace (skip_flags s) with (skip_flags s0) in Ht by (destruct Ha as [[_ [_ E]] _]; rewrite E; reflexivity).
  apply temp_session_applied with (l := included a) in Ht; [|exact Ha]. split; [exact Ht|]. right. exists tx. by split.
Qed.
Lemma include_one_applied max tx a s a' s' : applied (included a) s →
  Producer.include_one max tx a s = (Ok a', s') → applied (included a') s' ∧
  (included a' = included a ∨ included a' = included a ++ [tx]).
Proof.
  intros Ha Hr. unfold Producer.include_one in Hr.
  apply St_bind_ok in Hr as (n & s1 & [Hn ->]%lift_ok & Hr). cbv zeta in Hr.
  destruct (_ <=? _); [apply St_ret_ok in Hr as [-> ->]; split; [exact Ha|by left]|].
  apply St_bind_ok in Hr as (sk & s1 & [-> ->]%gets_ok & Hr).
  replace (skip_flags s) with (skip_flags s0) in Hr by (destruct Ha as [[_ [_ E]] _]; rewrite E; reflexivity).
  apply try_ok in Hr as [Ht|(e & s3 & Ht & Hr)].
  - apply St_bind_ok in Ht as (u & s2 & Ht & Hr). apply St_ret_ok in Hr as [-> ->].
    apply temp_session_applied with (l := included a) in Ht; [|exact Ha]. split; [exact Ht|by right].
  - rewrite bind_run in Ht. destruct (Producer.in_temp_session _ s) as [[u|e'] s4] eqn:Es; [discriminate Ht|].
    injection Ht as <- <-. apply temp_session_applied with (l := included a) in Es; [|exact Ha].
    destruct (is_fc e'); [|discriminate Hr]. apply St_ret_ok in Hr as [-> ->]. split; [exact Es|by left].
Qed.
Lemma include_pending_applied max w rw txs : ∀ a s a' s', applied (included a) s →
  Producer.include_pending max w rw txs a s = (Ok a', s') → applied (included a') s' ∧
  ∃ l, included a' = included a ++ l ∧ l `sublist_of` txs ∧ Forall (λ tx, w ≤ expiration tx) l.
Proof.
  assert (Hstop : ∀ a s txs, applied (included a) s → applied (included a) s ∧
    ∃ l, included a = included a ++ l ∧ l `sublist_of` txs ∧ Forall (λ tx, w ≤ expiration tx) l).
  { intros a s l Ha. split; [exact Ha|]. exists []. split; [by rewrite app_nil_r|]. split; [apply sublist_nil_l|constructor]. }
  induction txs as [|tx txs IH]; intros a s a' s' Ha Hr; cbn [Producer.include_pending] in Hr.
  - apply St_ret_ok in Hr as [-> ->]. by apply Hstop.
  - destruct (_ <? postponed_tx_count a); [apply St_ret_ok in Hr as [-> ->]; by apply Hstop|].
    destruct (Z.ltb_spec (expiration tx) w) as [|Hexp]; cbn [orb] in Hr.
    { destruct (IH _ _ _ _ Ha Hr) as (Ha' & l & El & Hl & Hf). split; [exact Ha'|]. exists l. split; [done|]. split; [by apply sublist_cons|done]. }
    destruct (_ && _).
    { destruct (IH _ _ _ _ Ha Hr) as (Ha' & l & El & Hl & Hf). split; [exact Ha'|]. exists l. split; [done|]. split; [by apply sublist_cons|done]. }
    apply St_bind_ok in Hr as (a1 & s1 & H1' & Hr). apply include_one_applied in H1' as [Ha1 Hi]; [|exact Ha].
    destruct (IH _ _ _ _ Ha1 Hr) as (Ha' & l & El & Hl & Hf). split; [exact Ha'|]. destruct Hi as [Hi|Hi]; rewrite Hi in El.
    + exists l. split; [done|]. split; [by apply sublist_cons|done].
    + exists (tx :: l). split; [by rewrite El, <- app_assoc|]. split; [by apply sublist_skip|by constructor].
Qed.
End included.

(** ** The block that comes out *)
Section rest.
Context `{Env} `{Abi} `{Crypto} `{Node} `{!NodeDeterministic} `{Platform} (k : Z).
Abbreviation D := (λ s, k ≤ rand_count s).
Lemma on_base_draws {A} (m : St tables A) : preserves D (on_base m).
Proof. intros s Hs. unfold on_base. by destruct (m (tbl s)). Qed.
#[local] Hint Resolve on_base_draws : preserves.
#[local] Hint Extern 1 (preserves _ (modify _ _ _)) => apply modify_draws : preserves.
#[local] Hint Extern 1 (preserves _ (remove _ _)) => apply remove_draws : preserves.
Lemma temp_session_draws m : preserves D m → preserves D (Producer.in_temp_session m).
Proof. intros Hm. unfold Producer.in_temp_session, with_session, drop_session. walk; try done. Qed.
Lemma reset_draws : preserves D Apply.reset_pending_session.
Proof.
  unfold Apply.reset_pending_session, drop_session, when. apply preserves_bind; [walk|]. intros []; walk.
Qed.
Lemma take_required_draws fuel w n after total l : preserves D (Producer.take_required fuel w n after total l).
Proof.
  revert after total l. induction fuel as [|fuel IH]; intros after total l; simpl; walk.
  apply temp_session_draws, required_action_draws.
Qed.
Lemma take_optional_draws w n total l ids acc : preserves D (Producer.take_optional w n total l ids acc).
Proof.
  revert total ids acc. induction l as [|p l IH]; intros total ids acc; simpl; walk.
Qed.
Lemma update_global_draws b : preserves D (Apply.update_global_dynamic_data b).
Proof. unfold Apply.update_global_dynamic_data. walk. Qed.
End rest.

(** C13: What a producer includes is accepted.  The transactions of a produced
    block are the reward transaction, if it fits, followed by pending
    transactions in their order, none of these expired at the time of the block.
    Provided that no random key was drawn while the block was filled, they all
    succeed when they are applied one after another to the tables of the head
    block, with the flags the producer has — whatever the pending transactions had
    done to the tables before, and whatever failed on the way — on the producer
    and on every node that has the same tables, blocks and flags, whatever its
    random generator is. *)
Theorem produced_transactions_apply `{Env} `{Abi} `{Node} `{!NodePromise} `{!NodeDeterministic} `{Platform}
    (d0 : tables) (when : time_point_sec) (b b' : signed_block) (reward : option signed_transaction) (s s' : database) :
  pending_over d0 s → transactions b = [] → Producer.apply_pending_transactions when b reward s = (Ok b', s') →
  (∃ l r, transactions b' = r ++ l ∧ (r = [] ∨ ∃ tx, reward = Some tx ∧ r = [tx]) ∧ l `sublist_of` pending_tx s ∧
     Forall (λ tx, when ≤ expiration tx) l) ∧
  (rand_count s' = rand_count s →
   ∃ sh, Apply.reset_pending_session s = (Ok tt, sh) ∧ same_tables (tbl sh) d0 ∧
     ∀ sh', same_view sh sh' →
       ∃ sp, for_each (transactions b') (λ tx, Apply.apply_transaction tx (skip_flags s)) sh' = (Ok tt, sp)).
Proof.
  intros Hs Htx Hr. unfold Producer.apply_pending_transactions in Hr.
  apply St_bind_ok in Hr as (n & s2 & [Hn ->]%lift_ok & Hr). apply St_bind_ok in Hr as (p & s2 & Hp & Hr). apply get_or_run in Hp as [Hp ->].
  destruct (open_pending_run d0 s Hs) as (d & d1 & s1 & Ho & Hwf & Hsame & Hst & E1 & Hov & Hreset).
  apply St_bind_ok in Hr as (u & s2 & Ho' & Hr). rewrite Ho in Ho'. injection Ho' as <- <-.
  set (sh := set_pending_tx_session false (set_tbl d s)) in *.
  apply St_bind_ok in Hr as (b1 & s3 & Hfill & Hr). apply St_bind_ok in Hr as (u' & s4 & Hre & Hr). apply St_ret_ok in Hr as [-> ->].
  assert (Hstart : applied d1 s1 sh [] s1).
  { split; [exact Hov|]. split; [rewrite E1; reflexivity|]. intros _ sh' Hsh. exists sh'. split; [reflexivity|]. rewrite <- Hsh.
    assert (Hv : same_view sh (set_tbl d1 sh)) by (apply started_view; exact Hst). rewrite Hv, E1. by constructor. }
  unfold Producer.fill_block in Hfill. cbv zeta in Hfill. rewrite Htx in Hfill.
  apply St_bind_ok in Hfill as (a1 & t1 & Ha1 & Hfill). apply (include_reward_applied d d1 Hwf Hst s1 sh) in Ha1 as [Ha1 Hi1]; [|exact Hstart].
  apply St_bind_ok in Hfill as (txs & t2 & [-> ->]%gets_ok & Hfill).
  assert (Hpend : pending_tx t1 = pending_tx s) by (destruct Ha1 as [[_ [_ E]] _]; rewrite E, E1; reflexivity). rewrite Hpend in Hfill.
  apply St_bind_ok in Hfill as (a2 & t3 & Ha2 & Hfill). apply (include_pending_applied d d1 Hwf Hst s1 sh) in Ha2 as [Ha2 Hl]; [|exact Ha1].
  apply St_bind_ok in Hfill as (u1 & t4 & Hu1 & Hfill). apply St_bind_ok in Hfill as (rq & t5 & Hrq & Hfill).
  apply St_bind_ok in Hfill as (ol & t6 & [_ ->]%gets_ok & Hfill). apply St_bind_ok in Hfill as (op & t7 & Hop & Hfill).
  apply St_bind_ok in Hfill as (u2 & t8 & Hu2 & Hfill). apply St_ret_ok in Hfill as [-> ->].
  assert (Hb : transactions (Producer.set_merkle_root (Producer.insert_nonempty op.2 (ext_optional_actions op.2)
    (Producer.insert_nonempty rq.2 (ext_required_actions rq.2) (Producer.set_transactions (included a2) b)))) = included a2)
    by (destruct (op.2), (rq.2); reflexivity).
  rewrite Hb. split.
  - destruct Hl as (l & El & Hl & Hf). exists l, (included a1). split; [exact El|]. split; [exact Hi1|]. split; [exact Hl|exact Hf].
  - intros Hrand. assert (Hmono : rand_count t3 ≤ rand_count s4).
    { set (k := rand_count t3). assert (D0 : k ≤ rand_count t3) by reflexivity.
      pose proof (preserves_run _ _ _ _ _ (update_global_draws k _) D0 Hu1) as D1.
      pose proof (preserves_run _ _ _ _ _ (take_required_draws k _ _ _ _ _ _) D1 Hrq) as D2.
      pose proof (preserves_run _ _ _ _ _ (take_optional_draws k _ _ _ _ _ _) D2 Hop) as D3.
      pose proof (preserves_run _ _ _ _ _ (preserves_for_each _ _ _ (remove_draws k t_pending_optional)) D3 Hu2) as D4.
      exact (preserves_run _ _ _ _ _ (reset_draws k) D4 Hre). }
    destruct Ha2 as (_ & Hge & Hrun). assert (Hsh : rand_count sh = rand_count s) by reflexivity.
    exists sh. split; [exact Hreset|]. split; [exact Hsame|]. intros sh' Hsh'.
    destruct (Hrun ltac:(lia) sh' Hsh') as (sp & Hsp & _). exists sp.
    unfold run_all in Hsp. replace (skip_flags s) with (skip_flags s1) by (rewrite E1; reflexivity). exact Hsp.
Qed.
Lemma produced_transactions_apply_witness :
  ∃ sh sp, Apply.reset_pending_session ProducerDemo.db = (Ok tt, sh) ∧
    for_each [ApplyDemo.spend] (λ tx, Apply.apply_transaction (H:=ChainEnv.env 0) tx (skip_flags ProducerDemo.db)) sh = (Ok tt, sp).
Proof.
  destruct (produced_transactions_apply (H:=ChainEnv.env 0) (tbl BlockDemo.db) 1005 ProducerDemo.empty ProducerDemo.full None
    ProducerDemo.db ProducerDemo.outcome.2 ProducerDemo.at_head eq_refl ProducerDemo.assembles) as [_ Hap].
  destruct Hap as (sh & Hr & _ & Hrun); [vm_compute; reflexivity|]. destruct (Hrun sh ltac:(reflexivity)) as [sp Hsp].
  exists sh, sp. split; [exact Hr|]. rewrite ProducerDemo.takes_one in Hsp. exact Hsp.
Defined.
