(* ===== verification/Replay.v ===== *)
(** * A transaction is applied once

    The table of recent transactions and the expiration check together refuse
    a transaction that was applied, for as long as the time of the head block
    does not go back; nothing in [_apply_block] checks that it does not. *)
From S2P Require Import Prelude Safe Chainbase Asset Protocol SignState Block ForkDatabase ResourceDynamics Objects Database Ledger Evaluators EvaluatorFacts Xtt Operations LedgerProps Apply ApplyFacts BlockFacts.

#[local] Opaque Base.start_undo_session Base.undo Base.squash Base.commit.

(** ** The clock of the head block *)
Definition same_head (p q : dynamic_global_property_object) : Prop :=
  dgp_time p = dgp_time q ∧ dgp_head_block_number p = dgp_head_block_number q ∧
  dgp_head_block_id p = dgp_head_block_id q.
Definition clock (q : dynamic_global_property_object) (s : database) : Prop :=
  wf_tables (tbl s) ∧ ∃ p, Db.dgp s = Some p ∧ same_head p q.

Section clock.
Context `{Env} `{Node} `{!NodePromise} `{Platform}.
Context (q : dynamic_global_property_object).

Lemma clock_quiet {A} ts (m : DB A) : t_dgp ∉ ts → (∀ d0, preserves (λ s, quiet d0 (tbl s)) m) →
  (∀ s0, preserves (frame ts s0) m) → preserves (clock q) m.
Proof.
  intros Ht Hq Hf s (Hwf & p & Hp & Hc). destruct (m s) as [r s'] eqn:Hr. simpl. split.
  - eapply quiet_wf, run_quiet; [exact Hq|exact Hwf|exact Hr].
  - exists p. split; [|done]. apply (frame_run ts) in Hr; [|done].
    unfold Db.dgp. by rewrite (frame_items _ t_dgp _ _ Hr Ht).
Qed.
Lemma create_clock t f : keeps_id f → t ≠ t_dgp → preserves (clock q) (create t f).
Proof.
  intros Hf Ht. apply (clock_quiet [t]); [set_solver|intros; by apply create_quiet|].
  intros s0. apply create_frame. by left.
Qed.
Lemma modify_clock t i f : stable f → t ≠ t_dgp → preserves (clock q) (modify t i f).
Proof.
  intros Hf Ht. apply (clock_quiet [t]); [set_solver|intros; by apply modify_quiet|].
  intros s0. apply modify_frame. by left.
Qed.
Lemma adjust_balance_clock name delta : preserves (clock q) (Db.adjust_balance name delta).
Proof. apply (clock_quiet liquid_tables); [by_decide|intros; walk..]. Qed.
Lemma modify_dgp_clock j f : stable (V:=obj t_dgp) f →
  (∀ p p', f p = Ok p' → same_head p' p) →
  preserves (clock q) (modify t_dgp j f).
Proof.
  intros Hst Ht s (Hwf & p & Hp & Hc). destruct (modify t_dgp j f s) as [r s'] eqn:E. simpl. split.
  { eapply quiet_wf, run_quiet; [|exact Hwf|exact E]. intros d0. by apply modify_quiet. }
  unfold Db.dgp in *. destruct r as [u|x].
  - apply modify_run in E as (v & v' & Hv & Hf & _ & Hit & _).
    pose proof (items_id _ _ _ _ Hwf Hv) as Hid. rewrite Hid in Hit. rewrite Hit.
    destruct (decide (j = 0)) as [->|Hj]; [|rewrite lookup_insert_ne by done; eauto].
    rewrite lookup_insert_eq. exists v'. split; [done|]. destruct (Ht _ _ Hf) as (E1 & E2 & E3).
    pose proof (items_inj t_dgp _ _ _ _ Hv Hp) as ->. unfold same_head. by rewrite E1, E2, E3.
  - apply modify_failed in E as [_ ->]. eauto.
Qed.
Lemma pow_clock o : preserves (clock q) (Eval.pow o).
Proof.
  unfold Eval.pow, Eval.create_worker, Eval.reward_worker, Eval.create_wallet, Eval.get_hardfork.
  walk; first
    [ apply adjust_balance_clock
    | apply modify_dgp_clock; [solve_modifier|by intros p p' [= <-]]
    | apply create_clock; [first [solve_witness|solve_modifier]|done]
    | apply modify_clock; [solve_witness|done] ].
Qed.
Lemma operation_clock op : preserves (clock q) (Registry.apply_operation op).
Proof.
  destruct (decide (t_dgp ∈ touched op)) as [Ht|Ht].
  - destruct op; simpl in Ht; try (exfalso; revert Ht; by_decide). apply pow_clock.
  - eapply (clock_quiet (touched op)); [done|intros; apply operation_quiet|apply apply_operation_frame].
Qed.
#[local] Hint Resolve operation_clock : preserves.
Lemma transaction_clock tx : preserves (clock q) (Apply._apply_transaction tx).
Proof. unfold Apply._apply_transaction. walk. apply create_clock; [solve_modifier|done]. Qed.
End clock.

(** ** The guard against replay *)
Section replay.
Context `{Env} `{Node} `{!NodePromise} `{Platform}.

(** The transaction is in the table of recent transactions. *)
Definition recorded (tx : signed_transaction) (s : database) : Prop := remembered (tx_id tx) (expiration tx) s.
(** It is recorded, or too old. *)
Definition guarded (tx : signed_transaction) (s : database) : Prop :=
  recorded tx s ∨ ∃ p, Db.dgp s = Some p ∧ 0 < dgp_head_block_number p ∧ expiration tx ≤ dgp_time p.

Lemma recorded_known tx s : recorded tx s → Db.is_known_transaction (tx_id tx) s = true.
Proof.
  intros (i & x & Hi & Hid & _). unfold Db.is_known_transaction, find_by_key.
  destruct (Chainbase.find_key _ _) eqn:Hf; [done|]. exfalso.
  apply (proj1 (find_key_None _ _) Hf i x Hi). rewrite <- Hid. by left.
Qed.
Lemma recorded_mono tx s s' : items t_transaction s ⊆ items t_transaction s' → recorded tx s → recorded tx s'.
Proof. intros Hsub (i & x & Hi & Hx). exists i, x. split; [|done]. by eapply lookup_weaken. Qed.

#[local] Hint Resolve operation_keeps_transactions : preserves.

(** What a successful application means for the table of transactions. *)
Lemma transaction_run tx s u s' : Apply._apply_transaction tx s = (Ok u, s') →
  flag (skip_flags s) skip_transaction_dupe_check = false →
  Db.is_known_transaction (tx_id tx) s = false ∧
  (∃ p, Db.dgp s = Some p ∧ (0 < dgp_head_block_number p → dgp_time p < expiration tx)) ∧
  items t_transaction s ⊆ items t_transaction s' ∧ recorded tx s'.
Proof.
  intros Hr Hd. apply capture_ok in Hr.
  apply St_bind_ok in Hr as (skip & x0 & [-> ->]%gets_ok & Hr). rewrite Hd in Hr.
  apply St_bind_ok in Hr as ([] & x1 & E1 & Hr). apply reads_run in E1 as ->; [|intros I; walk].
  apply St_bind_ok in Hr as (known & x2 & [-> ->]%gets_ok & Hr).
  apply St_bind_ok in Hr as ([] & x3 & [Hk ->]%fc_assert_St_ok & Hr).
  apply St_bind_ok in Hr as ([] & x4 & E4 & Hr). apply reads_run in E4 as ->; [|intros I; walk].
  apply St_bind_ok in Hr as (n & x5 & E5 & Hr). apply St_bind_ok in Hr as ([] & x6 & E6 & Hr).
  apply St_bind_ok in Hr as ([] & x7 & E7 & Hr).
  assert (Hp : x6 = s ∧ ∃ p, Db.dgp s = Some p ∧ (0 < dgp_head_block_number p → dgp_time p < expiration tx)).
  { inv_db. apply when_ok in E6 as [[Hn E6]|[Hn ->]]; [inv_db|]; (split; [done|]); eexists; (split; [done|]);
      bool_hyps; simplify_eq; lia. }
  destruct Hp as [-> Hp]. simpl in E7. apply St_bind_ok in E7 as (v & x8 & Hc & [= <-]).
  apply (create_run t_transaction) in Hc as ([= <-] & Hnew & _ & Hit & _).
  eapply (preserves_run (λ s, items t_transaction s = items t_transaction x8)) in Hr; [|walk|done].
  rewrite Hr, Hit. split; [by destruct (Db.is_known_transaction _ _)|]. split; [done|].
  split; [by apply insert_subseteq|]. eexists _, _. by rewrite Hr, Hit, lookup_insert_eq.
Qed.

Lemma settle_guarded tx b s s' q : clock q s → dgp_time q ≤ timestamp (header b) →
  0 < Block.block_num (header b) → Apply.settle_block b s = (Ok tt, s') → guarded tx s → guarded tx s'.
Proof.
  intros (Hwf & p & Hp & Hnow & _ & _) Ht Hn Hr Hg.
  destruct (settle_run b s tt s' Hwf Hr) as ((_ & p' & Hp' & Hn' & _ & Ht' & _) & _).
  assert (Hold : expiration tx ≤ timestamp (header b) → guarded tx s').
  { intros He. right. exists p'. rewrite Hn', Ht'. split_and!; done || lia. }
  destruct Hg as [(i & x & Hi & Hid & He)|(p1 & Hq & _ & He)].
  - destruct (Z.le_gt_cases (expiration tx) (timestamp (header b))) as [Hle|Hgt]; [by apply Hold|].
    left. exists i, x. split; [|done]. apply (settle_keeps b s tt s' i x Hwf Hr Hi). rewrite He. lia.
  - apply Hold. assert (p1 = p) as -> by congruence. lia.
Qed.
Lemma refused tx s : flag (skip_flags s) skip_transaction_dupe_check = false → guarded tx s →
  ∃ e, (Apply._apply_transaction tx s).1 = Exc e.
Proof.
  intros Hd Hg. destruct (Apply._apply_transaction tx s) as [[[]|e] s'] eqn:Hr; [|by eexists].
  exfalso. apply transaction_run in Hr as (Hk & (p & Hp & He) & _); [|done].
  destruct Hg as [Hrec|(q & Hq & Hn & Hle)].
  - apply recorded_known in Hrec. congruence.
  - assert (q = p) as -> by congruence. specialize (He Hn). lia.
Qed.

(** What happens to a chain as it grows: a transaction is applied, a block
    ends, or a whole block is applied, each block no earlier than the last. *)
Inductive chain_step : database → database → Prop :=
| step_transaction tx s s' : Apply._apply_transaction tx s = (Ok tt, s') → chain_step s s'
| step_settle b s s' p : Db.dgp s = Some p → dgp_time p ≤ timestamp (header b) →
    0 < Block.block_num (header b) → Apply.settle_block b s = (Ok tt, s') → chain_step s s'
| step_block b skip s s' p : Db.dgp s = Some p → dgp_time p ≤ timestamp (header b) →
    0 < Block.block_num (header b) → Apply.apply_block b skip s = (Ok tt, s') → chain_step s s'.

Lemma settle_wf b s s' : wf_tables (tbl s) → Apply.settle_block b s = (Ok tt, s') → wf_tables (tbl s').
Proof. intros Hwf Hr. apply settle_run in Hr as ((Hwf' & _) & _); done. Qed.
Lemma transaction_keeps tx s u s' : Apply._apply_transaction tx s = (Ok u, s') →
  items t_transaction s ⊆ items t_transaction s'.
Proof.
  intros Hr%transaction_table. destruct (flag _ _); [by rewrite Hr|].
  destruct Hr as (i & x & Hnew & -> & _). by apply insert_subseteq.
Qed.
Lemma transaction_guarded tx tx' s s' : Apply._apply_transaction tx' s = (Ok tt, s') →
  wf_tables (tbl s) ∧ guarded tx s → wf_tables (tbl s') ∧ guarded tx s'.
Proof.
  intros Hr [Hwf Hg].
  assert (Hwf' : wf_tables (tbl s')) by (eapply quiet_wf, run_quiet; [|exact Hwf|exact Hr];
    intros d0; apply _apply_transaction_quiet).
  split; [done|]. destruct Hg as [Hrec|(p & Hp & Hn & He)].
  - left. eapply recorded_mono, Hrec. by eapply transaction_keeps.
  - pose proof (transaction_clock p tx' s) as Hc. rewrite Hr in Hc.
    destruct Hc as (_ & q & Hq & Hqt & Hqn & _); [split; [done|by exists p]|].
    right. exists q. rewrite Hqt, Hqn. by split_and!.
Qed.
Lemma guarded_same tx s s' : items t_transaction s' = items t_transaction s → Db.dgp s' = Db.dgp s →
  guarded tx s → guarded tx s'.
Proof. unfold guarded, recorded, remembered. by intros -> ->. Qed.

(** [apply_block] is the contents of the block and what is irreversible. *)
Lemma apply_block_run b skip s s' : Apply.apply_block b skip s = (Ok tt, s') →
  ∃ s1 s2, Apply.apply_contents b (set_skip_flags skip s) = (Ok tt, s1) ∧
    Apply.migrate_irreversible_state s1 = (Ok tt, s2) ∧ s' = set_skip_flags (skip_flags s) s2.
Proof.
  intros (s2 & Hr & ->)%capture_ok%with_skip_run. apply capture_ok in Hr.
  apply St_bind_ok in Hr as ([] & s1 & Hc & Hm). by exists s1, s2.
Qed.
Lemma block_guarded tx b skip s s' p : Db.dgp s = Some p → dgp_time p ≤ timestamp (header b) →
  0 < Block.block_num (header b) → Apply.apply_block b skip s = (Ok tt, s') →
  wf_tables (tbl s) ∧ guarded tx s → wf_tables (tbl s') ∧ guarded tx s'.
Proof.
  intros Hp Ht Hn (s1 & s2 & Hc & Hm & ->)%apply_block_run [Hwf Hg].
  destruct (contents_run b (set_skip_flags skip s) s1 Hwf Hc) as [((Hwf1 & q & Hq & Hqn & _ & Hqt & _) & _) Hrem].
  split; [exact (preserves_run _ _ _ _ _ migrate_wf Hwf1 Hm)|].
  apply (guarded_same tx s1); [exact (preserves_run _ _ _ _ _ (migrate_items _ _) eq_refl Hm)| |].
  { pose proof (preserves_run _ _ _ _ _ (migrate_items t_dgp _) eq_refl Hm) as Hi. unfold Db.dgp.
    change (items t_dgp (set_skip_flags (skip_flags s) s2)) with (items t_dgp s2). by rewrite Hi. }
  destruct (Z.le_gt_cases (expiration tx) (timestamp (header b))) as [Hle|Hgt].
  { right. exists q. rewrite Hqn, Hqt. by split_and!. }
  left. apply Hrem. split; [lia|]. left.
  destruct Hg as [Hg|(p' & Hp' & _ & He)]; [exact Hg|]. assert (p' = p) as -> by congruence. lia.
Qed.
Lemma chain_step_guarded tx s s' : chain_step s s' → wf_tables (tbl s) ∧ guarded tx s →
  wf_tables (tbl s') ∧ guarded tx s'.
Proof.
  intros [tx' s0 s0' Hr|b s0 s0' p Hp Ht Hn Hr|b skip s0 s0' p Hp Ht Hn Hr].
  - by apply (transaction_guarded tx tx').
  - intros [Hwf Hg]. split; [by eapply settle_wf|].
    by eapply (settle_guarded tx b s0 s0' p); [split; [done|by exists p]|..].
  - by eapply block_guarded.
Qed.
Lemma transactions_refused tx skip l s u s' : flag skip skip_transaction_dupe_check = false → tx ∈ l →
  wf_tables (tbl s) ∧ guarded tx s → ¬ for_each l (λ t, Apply.apply_transaction t skip) s = (Ok u, s').
Proof.
  intros Hd. revert s. induction l as [|t l IH]; intros s Hin Hs Hr; [set_solver|]. simpl in Hr.
  apply St_bind_ok in Hr as ([] & s1 & (s2 & E & ->)%with_skip_run & Hr).
  apply elem_of_cons in Hin as [<-|Hin].
  - destruct (refused tx (set_skip_flags skip s)) as [e He]; [done|apply Hs|]. rewrite E in He. discriminate He.
  - apply (IH (set_skip_flags (skip_flags s) s2)); [done| |exact Hr].
    exact (transaction_guarded tx t (set_skip_flags skip s) s2 E Hs).
Qed.
Lemma block_refused tx b skip s : flag skip skip_transaction_dupe_check = false → tx ∈ transactions b →
  wf_tables (tbl s) ∧ guarded tx s → ∃ e, (Apply.apply_block b skip s).1 = Exc e.
Proof.
  intros Hd Hin [Hwf Hg]. destruct (Apply.apply_block b skip s) as [[[]|e] s'] eqn:Hr; [exfalso|by eexists].
  apply apply_block_run in Hr as (s1 & s2 & Hc & _).
  destruct (contents_steps b (set_skip_flags skip s) s1 Hwf Hc) as (x1 & x2 & Hwf1 & Hi & Hp & Ht & _).
  eapply transactions_refused; [exact Hd|exact Hin| |exact Ht]. split; [exact Hwf1|].
  by apply (guarded_same tx s).
Qed.

(** C7: A transaction is applied at most once on a chain that grows: after it
    was applied with the check for duplicates on, whatever transactions and
    blocks are applied after it, as long as no block is older than the one
    before it, both applying it again and applying a block that contains it
    throw wherever the check is on.  (Undone blocks and a rebuilt chain are
    other histories; without the condition on the times the claim fails, see
    [older_block_allows_replay].) *)
Theorem transaction_applied_once tx s s1 s2 : wf_tables (tbl s) →
  flag (skip_flags s) skip_transaction_dupe_check = false → Apply._apply_transaction tx s = (Ok tt, s1) →
  rtc chain_step s1 s2 →
  (flag (skip_flags s2) skip_transaction_dupe_check = false → ∃ e, (Apply._apply_transaction tx s2).1 = Exc e) ∧
  ∀ b skip, tx ∈ transactions b → flag skip skip_transaction_dupe_check = false →
    ∃ e, (Apply.apply_block b skip s2).1 = Exc e.
Proof.
  intros Hwf Hd Hr Hsteps.
  assert (Hg : wf_tables (tbl s2) ∧ guarded tx s2).
  { assert (Hg : wf_tables (tbl s1) ∧ guarded tx s1).
    { split; [|left; by eapply transaction_run in Hr as (_ & _ & _ & ?)].
      eapply quiet_wf, run_quiet; [|exact Hwf|exact Hr]. intros d0. apply _apply_transaction_quiet. }
    clear Hr. induction Hsteps as [x|x y z Hstep _ IH]; [apply Hg|]. by apply IH, (chain_step_guarded tx x). }
  split.
  - intros Hd2. apply refused; [done|apply Hg].
  - intros b skip Hb Hk. by apply (block_refused tx).
Qed.

(** ** When the time of the head goes back *)

(** What is left of [_apply_transaction] once its checks have passed. *)
Definition execute (tx : signed_transaction) : DB unit :=
  create t_transaction (λ t,
    mret (set_to_packed_trx (Some tx) (set_to_expiration (expiration tx) (set_to_trx_id (tx_id tx) t)))) ;;
  for_each (operations tx) (λ op,
    try_catch (Registry.apply_operation op) (λ e, mthrow (Apply.rethrow_plain e))).
(** The checks that look only at the transaction and at who signed it. *)
Definition checks_pass (tx : signed_transaction) (s : database) : Prop :=
  when (negb (flag (skip_flags s) skip_validate)) (lift (Validate.transaction Block.id tx)) s = (Ok tt, s) ∧
  when (negb (flag (skip_flags s) (Z.lor skip_transaction_signatures skip_authority_check)))
    (Apply.check_authorities tx) s = (Ok tt, s).

Lemma unknown_iff id s : Db.is_known_transaction id s = false ↔ ∀ e, ¬ remembered id e s.
Proof.
  assert (Hk : Db.is_known_transaction id s = false ↔ find_by_key t_transaction id s = None).
  { unfold Db.is_known_transaction. by destruct (find_by_key _ _ _). }
  rewrite Hk. unfold find_by_key. rewrite find_key_None. split.
  - intros Hn e (i & x & Hi & Hid & _). apply (Hn i x Hi). rewrite <- Hid. by left.
  - intros Hn i x Hi Hx. apply (Hn (to_expiration x)). exists i, x. split_and!; [done| |done].
    symmetry. by apply list_elem_of_singleton in Hx.
Qed.
(** A block forgets what expired before it and does not learn what it does not contain. *)
Lemma block_remembers b skip s s' : wf_tables (tbl s) → Apply.apply_block b skip s = (Ok tt, s') →
  wf_tables (tbl s') ∧
  (∃ p, Db.dgp s' = Some p ∧ dgp_time p = timestamp (header b)) ∧
  ∀ id e, remembered id e s' →
    timestamp (header b) ≤ e ∧ (remembered id e s ∨ ∃ tx, tx ∈ transactions b ∧ tx_id tx = id).
Proof.
  intros Hwf (s1 & s2 & Hc & Hm & ->)%apply_block_run.
  destruct (contents_run b (set_skip_flags skip s) s1 Hwf Hc) as [((Hwf1 & q & Hq & _ & _ & Hqt & _) & _) Hrem].
  split_and!; [exact (preserves_run _ _ _ _ _ migrate_wf Hwf1 Hm)| |].
  - exists q. split; [|done]. pose proof (preserves_run _ _ _ _ _ (migrate_items t_dgp _) eq_refl Hm) as Hi.
    unfold Db.dgp. change (items t_dgp (set_skip_flags (skip_flags s) s2)) with (items t_dgp s2). by rewrite Hi.
  - intros id e He. pose proof (preserves_run _ _ _ _ _ (migrate_items t_transaction _) eq_refl Hm) as Hi.
    assert (He1 : remembered id e s1).
    { unfold remembered in *. change (items t_transaction (set_skip_flags (skip_flags s) s2)) with
        (items t_transaction s2) in He. by rewrite Hi in He. }
    apply Hrem in He1 as [Hle [Hr|(_ & tx & Htx & Hid & _)]]; (split; [done|]); [by left|right; eauto].
Qed.
(** With the time and the table in favour only the other checks remain. *)
Lemma unknown_executes tx s p : flag (skip_flags s) skip_transaction_dupe_check = false →
  Db.is_known_transaction (tx_id tx) s = false → Db.dgp s = Some p →
  dgp_time p < expiration tx ≤ dgp_time p + XGT_MAX_TIME_UNTIL_EXPIRATION → checks_pass tx s →
  Apply._apply_transaction tx s = capture_rethrow (execute tx) s.
Proof.
  intros Hd Hk Hp Ht [Hv Ha].
  assert (Hg : Db.get_dynamic_global_properties s = (Ok p, s))
    by (unfold Db.get_dynamic_global_properties, get_or; by rewrite Hp).
  assert (Hn : Db.head_block_num s = (Ok (dgp_head_block_number p), s))
    by (unfold Db.head_block_num; by rewrite bind_run, Hg).
  assert (Hnow : Db.head_block_time s = (Ok (dgp_time p), s))
    by (unfold Db.head_block_time; by rewrite bind_run, Hg).
  unfold Apply._apply_transaction, capture_rethrow, try_catch at 1 3.
  rewrite bind_run. cbn [gets]. rewrite bind_run, Hv, bind_run. cbn [gets]. rewrite Hk, Hd, bind_run.
  cbn [orb negb]. change ((fc_assert true : DB unit) s) with (@Ok unit tt, s). cbv iota beta. rewrite bind_run, Ha, bind_run, Hn, bind_run.
  replace ((when (0 <? dgp_head_block_number p) _ : DB unit) s) with (@Ok unit tt, s).
  - rewrite bind_run. unfold execute, when. rewrite !bind_run.
    destruct (create t_transaction _ s) as [[v|e] s1]; reflexivity.
  - unfold when. destruct (0 <? dgp_head_block_number p); [|done]. rewrite bind_run, Hnow, bind_run.
    unfold assert_or. rewrite (proj2 (Z.leb_le _ _)), (proj2 (Z.ltb_lt _ _)) by lia. done.
Qed.

(** C39: Nothing that is done for a block compares its time with that of the
    block before, and then the guard against replay fails.  A transaction is
    applied with the check for duplicates on; a block that contains no
    transaction of that id and whose time is after its expiration is applied,
    then another with a time before the expiration (by at most an hour).  The
    transaction is unknown again, and if its form and signatures are accepted,
    as they were, it is executed a second time: only its operations can still
    throw. *)
Theorem older_block_allows_replay tx b1 b2 skip1 skip2 s s1 s2 s3 : wf_tables (tbl s) →
  flag (skip_flags s) skip_transaction_dupe_check = false → Apply._apply_transaction tx s = (Ok tt, s1) →
  Apply.apply_block b1 skip1 s1 = (Ok tt, s2) → Apply.apply_block b2 skip2 s2 = (Ok tt, s3) →
  (∀ t, t ∈ transactions b1 ++ transactions b2 → tx_id t ≠ tx_id tx) →
  expiration tx < timestamp (header b1) →
  timestamp (header b2) < expiration tx ≤ timestamp (header b2) + XGT_MAX_TIME_UNTIL_EXPIRATION →
  Db.is_known_transaction (tx_id tx) s3 = false ∧
  (flag (skip_flags s3) skip_transaction_dupe_check = false → checks_pass tx s3 →
     Apply._apply_transaction tx s3 = capture_rethrow (execute tx) s3).
Proof.
  intros Hwf Hd Hr E1 E2 Hids Hlate Hback.
  assert (Hwf1 : wf_tables (tbl s1)) by (eapply quiet_wf, run_quiet; [|exact Hwf|exact Hr];
    intros d0; apply _apply_transaction_quiet).
  pose proof (transaction_run _ _ _ _ Hr Hd) as (Hun & _). rewrite unknown_iff in Hun.
  apply transaction_table in Hr. rewrite Hd in Hr. destruct Hr as (i & x & _ & Hi & Hx & Hxe).
  destruct (block_remembers _ _ _ _ Hwf1 E1) as (Hwf2 & _ & Hb1).
  destruct (block_remembers _ _ _ _ Hwf2 E2) as (_ & (p & Hp & Hpt) & Hb2).
  assert (Hk : Db.is_known_transaction (tx_id tx) s3 = false).
  { apply unknown_iff. intros e [_ [He|(t & Ht & Hid)]]%Hb2; [|eapply (Hids t); [set_solver|done]].
    apply Hb1 in He as [Hle [He|(t & Ht & Hid)]]; [|eapply (Hids t); [set_solver|done]].
    destruct He as (j & y & Hy & Hyid & Hye). rewrite Hi in Hy.
    rewrite lookup_insert in Hy. case_decide; [injection Hy as <-; lia|]. apply (Hun e). by exists j, y. }
  split; [done|]. intros Hd3 Hc. apply (unknown_executes tx s3 p); try done. by rewrite Hpt.
Qed.
End replay.

Module ReplayDemo.
Definition run : DB unit := Apply._apply_transaction ApplyDemo.spend.
Definition base : database := set_skip_flags skip_transaction_signatures BlockDemo.db.
Definition block (n time : Z) : signed_block :=
  mkBlock (mkHeader [Block.endian_reverse_u32 (n - 1); 0; 0; 0; 0] time "alice" [] [] 0) [].
Definition spent : database := snd (run base).
Definition later : database := snd (Apply.settle_block (block 11 1005) spent).
Lemma spends : run base = (Ok tt, spent).
Proof.
  unfold spent. rewrite (surjective_pairing (run base)) at 1. apply (f_equal (λ r, (r, snd (run base)))).
  vm_compute. reflexivity.
Qed.
Lemma settles : Apply.settle_block (block 11 1005) spent = (Ok tt, later).
Proof.
  unfold later. rewrite (surjective_pairing (Apply.settle_block (block 11 1005) spent)) at 1.
  apply (f_equal (λ r, (r, snd (Apply.settle_block (block 11 1005) spent)))). vm_compute. reflexivity.
Qed.
Lemma steps : rtc chain_step spent later.
Proof.
  assert (Hp : ∃ p, Db.dgp spent = Some p ∧ dgp_time p ≤ 1005).
  { eexists. split; [vm_compute; reflexivity|]. by vm_compute. }
  destruct Hp as (p & Hp & Ht). eapply rtc_once, (step_settle (block 11 1005) spent later p Hp);
    [exact Ht|vm_compute; reflexivity|exact settles].
Qed.
Lemma flags : flag (skip_flags base) skip_transaction_dupe_check = false ∧
  flag (skip_flags later) skip_transaction_dupe_check = false.
Proof. split; vm_compute; reflexivity. Qed.
Definition again : signed_block := mkBlock (header (block 12 1010)) [ApplyDemo.spend].
Lemma base_wf : wf_tables (tbl base).
Proof. exact (BlockDemo.set_skip_wf skip_transaction_signatures BlockDemo.db BlockDemo.chain_wf). Qed.
End ReplayDemo.

Lemma transaction_applied_once_witness :
  (∃ e, (Apply._apply_transaction ApplyDemo.spend ReplayDemo.later).1 = Exc e) ∧
  ∃ e, (Apply.apply_block ReplayDemo.again 0 ReplayDemo.later).1 = Exc e.
Proof.
  destruct (transaction_applied_once ApplyDemo.spend ReplayDemo.base ReplayDemo.spent ReplayDemo.later
    ReplayDemo.base_wf (proj1 ReplayDemo.flags) ReplayDemo.spends ReplayDemo.steps) as [Ht Hb].
  exact (conj (Ht (proj2 ReplayDemo.flags))
    (Hb ReplayDemo.again 0 (list_elem_of_here ApplyDemo.spend []) eq_refl)).
Defined.

(** A transfer of 30 is applied, block 11 has time 2000, block 12 time 1400,
    and the same signed transfer is applied again: the sender has paid 60. *)
Module OlderDemo.
Definition skip : Z := fold_left Z.lor [skip_merkle_check; skip_block_log; skip_transaction_signatures] 0.
Definition after11 : database := snd (Apply.apply_block (ReplayDemo.block 11 2000) skip ReplayDemo.spent).
Definition after12 : database := snd (Apply.apply_block (ReplayDemo.block 12 1400) skip after11).
Lemma applied_ok {A} (r : result A * database) a : fst r = Ok a → r = (Ok a, snd r).
Proof. destruct r as [r' d]. simpl. by intros ->. Qed.
Lemma block11 : Apply.apply_block (ReplayDemo.block 11 2000) skip ReplayDemo.spent = (Ok tt, after11).
Proof. refine (applied_ok (Apply.apply_block (ReplayDemo.block 11 2000) skip ReplayDemo.spent) tt _). vm_compute. reflexivity. Qed.
Lemma block12 : Apply.apply_block (ReplayDemo.block 12 1400) skip after11 = (Ok tt, after12).
Proof. refine (applied_ok (Apply.apply_block (ReplayDemo.block 12 1400) skip after11) tt _). vm_compute. reflexivity. Qed.
Lemma after12_flags : flag (skip_flags after12) skip_transaction_dupe_check = false ∧
  flag (skip_flags after12) skip_validate = false ∧
  flag (skip_flags after12) (Z.lor skip_transaction_signatures skip_authority_check) = true.
Proof. split_and!; vm_compute; reflexivity. Qed.
Lemma passes : checks_pass ApplyDemo.spend after12.
Proof.
  assert (Hv : Validate.transaction Block.id ApplyDemo.spend = Ok tt) by (vm_compute; reflexivity).
  destruct after12_flags as (_ & Hf & Ha). unfold checks_pass. rewrite Hf, Ha, Hv. split; reflexivity.
Qed.
Definition twice : result unit * database := ReplayDemo.run after12.
Example paid_twice : twice.1 = Ok tt ∧
  amount <$> (w_balance <$> Db.find_account "alice" ReplayDemo.base) = Some 100 ∧
  amount <$> (w_balance <$> Db.find_account "alice" twice.2) = Some 40.
Proof. split_and!; vm_compute; reflexivity. Qed.
End OlderDemo.
Lemma older_block_allows_replay_witness :
  Db.is_known_transaction (tx_id ApplyDemo.spend) OlderDemo.after12 = false ∧
  Apply._apply_transaction ApplyDemo.spend OlderDemo.after12 =
    capture_rethrow (execute ApplyDemo.spend) OlderDemo.after12.
Proof.
  assert (Hids : ∀ t, t ∈ transactions (ReplayDemo.block 11 2000) ++ transactions (ReplayDemo.block 12 1400) →
    tx_id t ≠ tx_id ApplyDemo.spend) by (intros t Ht; by apply elem_of_nil in Ht).
  destruct (older_block_allows_replay ApplyDemo.spend (ReplayDemo.block 11 2000) (ReplayDemo.block 12 1400)
    OlderDemo.skip OlderDemo.skip ReplayDemo.base ReplayDemo.spent OlderDemo.after11 OlderDemo.after12
    ReplayDemo.base_wf (proj1 ReplayDemo.flags) ReplayDemo.spends OlderDemo.block11 OlderDemo.block12 Hids
    ltac:(vm_compute; reflexivity) ltac:(split; vm_compute; [reflexivity|intros [=]])) as [Hk Hx].
  exact (conj Hk (Hx (proj1 OlderDemo.after12_flags) OlderDemo.passes)).
Defined.
