(* ===== verification/Reindex.v ===== *)
(** * Opening, closing and rebuilding the chain

    database::open, close, wipe and reindex of libraries/chain/database.cpp.  A
    node that reindexes throws its tables away and applies the blocks of its log
    again, without sessions and with most checks off.  The theorems say that it
    arrives at the tables it had, except for the table of recent transactions,
    which stays empty. *)
From S2P Require Import Prelude Safe Chainbase Asset Protocol SignState Block ForkDatabase ResourceDynamics Objects Database Ledger Evaluators EvaluatorFacts Xtt Operations LedgerProps Apply ApplyFacts BlockFacts Determinism Producer Replay.

#[local] Opaque Base.start_undo_session Base.undo Base.undo_all Base.squash Base.commit.

(** [open_args], less the paths and the settings of storage and benchmarks. *)
Record open_args := mkOpenArgs {
  initial_supply : Z;
  skip_env_check : bool;
  genesis_func : option (DB unit);
  stop_at_block : Z
}.

Definition XGT_NUM_HARDFORKS : Z := 0.

Module Lifecycle.
Section with_node.
Context `{Env} `{Node} `{Platform} (init_public_key : public_key_type).

Definition init_hardforks : DB unit :=
  hardforks ← Db.get_hardfork_property_object;
  fc_assert (hp_last_hardfork hardforks <=? XGT_NUM_HARDFORKS) ;;
  v ← lift (match Apply.hardfork_versions (hp_last_hardfork hardforks) with Some v => Ok v | None => Exc Fault end);
  fc_assert (v <=? XGT_BLOCKCHAIN_VERSION) ;;
  fc_assert (bool_decide (Some XGT_BLOCKCHAIN_VERSION = Apply.hardfork_versions XGT_NUM_HARDFORKS)).

Definition load_genesis (args : open_args) : DB unit :=
  p ← gets Db.dgp;
  match p with
  | Some _ => mret tt
  | None =>
      match genesis_func args with
      | Some f => f
      | None => Apply.init_genesis init_public_key (initial_supply args)
      end
  end.

(** [open]; [validate_invariants] does nothing. *)
Definition open (args : open_args) : DB unit := capture_rethrow (
  load_genesis args ;;
  head ← Db.head_block_num;
  (if skip_env_check args then on_base (Base.set_revision head)
   else
     r ← gets (λ s, Base.revision (tbl s));
     fc_assert (r =? head)) ;;
  when (negb (head =? 0))
    (l ← gets block_log;
     head_block ← lift (Log.read_block_by_num head l);
     head_id ← Db.head_block_id;
     match head_block with
     | Some b =>
         fc_assert (bool_decide (Block.id (header b) = head_id)) ;;
         update (λ s, set_fork_db (ForkDb.start_block b (fork_db s)) s)
     | None => mthrow AssertException
     end) ;;
  init_hardforks).

Definition close : DB unit := capture_rethrow (
  Apply.clear_pending ;;
  on_base Base.undo_all ;;
  update (λ s, set_fork_db (ForkDb.reset (fork_db s)) s)).

Definition wipe (include_blocks : bool) : DB unit :=
  close ;;
  update (set_tbl no_tables) ;;
  when include_blocks (update (set_block_log [])).

Definition reindex_skip : Z :=
  fold_left Z.lor [skip_witness_signature; skip_transaction_signatures; skip_transaction_dupe_check;
    skip_tapos_check; skip_merkle_check; skip_authority_check; skip_validate; skip_validate_invariants;
    skip_block_log] 0.

(** [while( itr.first.block_num() < last ) { apply_block( itr.first ); itr =
    read_block( itr.second ); } apply_block( itr.first )]: reading past the end
    of the log throws. *)
Fixpoint replay (last : Z) (rest : list signed_block) : DB unit :=
  match rest with
  | [] => mthrow FcException
  | b :: rest =>
      Apply.apply_block b reindex_skip ;;
      if Block.block_num (header b) <? last then replay last rest else mret tt
  end.

Definition replay_log (last : Z) : DB unit :=
  l ← gets block_log;
  cur ← Db.head_block_num;
  let rest := drop (Z.to_nat cur) l in
  match head rest with
  | None => mthrow FcException
  | Some b =>
      fc_assert (Block.block_num (header b) =? cur + 1) ;;
      replay last rest ;;
      n ← Db.head_block_num;
      on_base (Base.set_revision n)
  end.

Definition reindex (args : open_args) : DB Z := capture_rethrow (
  wipe false ;;
  open args ;;
  update (λ s, set_fork_db (ForkDb.reset (fork_db s)) s) ;;
  l ← gets block_log;
  match Log.head l with
  | None => mthrow FcException
  | Some log_head =>
      cur_head_block_num ← Db.head_block_num;
      let n := Block.block_num (header log_head) in
      let last_block_num := if (0 <? stop_at_block args) && (stop_at_block args <? n) then stop_at_block args else n in
      when (cur_head_block_num <? last_block_num) (replay_log last_block_num) ;;
      when (negb (n =? 0)) (update (λ s, set_fork_db (ForkDb.start_block log_head (fork_db s)) s)) ;;
      Db.head_block_num
  end).

(** [foreach_block], [foreach_tx] and [foreach_operation] give a processor the
    blocks of the log in turn, until it returns false. *)
Section foreach.
Context {S : Type}.
Definition processor_loop {A} (l : list A) (f : A → St S bool) : St S bool :=
  fold_right (λ x k, go ← f x; if (go : bool) then k else mret false) (mret true) l.
Fixpoint block_loop (processor : signed_block_header → signed_block → St S bool) (last : Z)
    (prev : signed_block_header) (l : list signed_block) : St S unit :=
  match l with
  | [] => mthrow FcException
  | b :: rest =>
      if Block.block_num (header b) =? last then processor prev b ;; mret tt
      else
        go ← processor prev b;
        if (go : bool) then block_loop processor last (header b) rest else mret tt
  end.
Definition foreach_block (processor : signed_block_header → signed_block → St S bool) (log : list signed_block) :
    St S unit :=
  match log, Log.head log with
  | b :: _, Some h => block_loop processor (Block.block_num (header h)) (header b) log
  | _, _ => mret tt
  end.
Definition foreach_tx (processor : signed_block_header → signed_block → signed_transaction → Z → St S bool)
    (log : list signed_block) : St S unit :=
  foreach_block (λ prev b, processor_loop (imap (λ i t, (Z.of_nat i, t)) (transactions b))
    (λ p, processor prev b p.2 (u32 p.1))) log.
Definition foreach_operation
    (processor : signed_block_header → signed_block → signed_transaction → Z → operation → Z → St S bool)
    (log : list signed_block) : St S unit :=
  foreach_tx (λ prev b tx n, processor_loop (imap (λ i o, (Z.of_nat i, o)) (operations tx))
    (λ p, processor prev b tx n p.2 (u16 p.1))) log.
End foreach.
End with_node.
End Lifecycle.

(** ** Runs that follow one another *)

(** Draws are never taken back. *)
Definition counts {A} (m : DB A) : Prop := ∀ s, rand_count s ≤ rand_count (m s).2.
Lemma counts_read {A} (m : DB A) : (∀ I, preserves I m) → counts m.
Proof. intros Hm s. exact (Hm (λ s', rand_count s ≤ rand_count s') s (Z.le_refl _)). Qed.
Lemma counts_bind {A B} (m : DB A) (f : A → DB B) : counts m → (∀ a, counts (f a)) → counts (m ≫= f).
Proof.
  intros Hm Hf s. rewrite bind_run. specialize (Hm s). destruct (m s) as [[a|e] s1]; [|done]. specialize (Hf a s1). simpl in *. lia.
Qed.
Lemma counts_try {A} (m : DB A) g : counts m → (∀ e, counts (g e)) → counts (try_catch m g).
Proof.
  intros Hm Hf s. unfold try_catch. specialize (Hm s). destruct (m s) as [[a|e] s1]; [done|]. specialize (Hf e s1). simpl in *. lia.
Qed.
Lemma counts_throw {A} (e : exn) : counts (mthrow e : DB A).
Proof. by intros s. Qed.
Lemma counts_respects {A} h (m : DB A) : respects h m → counts m.
Proof. intros Hm s. by apply (respects_mono h). Qed.
(** When the first run succeeds from one of two related states and draws no key,
    the second succeeds from the other, with the same result and in related
    states. *)
Definition follows {A} (P Q : database → database → Prop) (m m' : DB A) : Prop :=
  counts m ∧ ∀ s s' a s1, P s s' → m s = (Ok a, s1) → rand_count s1 = rand_count s → ∃ s1', m' s' = (Ok a, s1') ∧ Q s1 s1'.

Section follows.
Context (P Q R : database → database → Prop).
Lemma follows_bind {A B} (m m' : DB A) (f f' : A → DB B) :
  follows P Q m m' → (∀ a, follows Q R (f a) (f' a)) → follows P R (m ≫= f) (m' ≫= f').
Proof.
  intros [Hc Hm] Hf. split; [apply counts_bind; [done|intros a; apply Hf]|]. intros s s' b s2 HP Hr Hu.
  apply St_bind_ok in Hr as (a & s1 & Ha & Hb). pose proof (Hc s) as H1. rewrite Ha in H1.
  pose proof (proj1 (Hf a) s1) as H2. rewrite Hb in H2. cbn [snd] in H1, H2.
  destruct (Hm s s' a s1 HP Ha) as (s1' & Ha' & HQ); [lia|]. destruct (proj2 (Hf a) s1 s1' b s2 HQ Hb) as (s2' & Hb' & HR); [lia|].
  exists s2'. split; [|done]. apply St_bind_ok. eauto.
Qed.
Lemma follows_capture {A} (m m' : DB A) : follows P Q m m' → follows P Q (capture_rethrow m) (capture_rethrow m').
Proof.
  intros [Hc Hm]. split; [apply counts_try; [done|intros e; apply counts_throw]|].
  intros s s' a s1 HP Hr%capture_ok Hu. destruct (Hm s s' a s1 HP Hr Hu) as (s1' & Hr' & HQ).
  exists s1'. split; [|done]. unfold capture_rethrow, try_catch. by rewrite Hr'.
Qed.
(** A check that the second run leaves out. *)
Lemma follows_check {A B} (m : DB A) (k : A → DB B) k' : (∀ I, preserves I m) → (∀ a, follows P Q (k a) k') →
  follows P Q (m ≫= k) k'.
Proof.
  intros Hm Hk. split; [apply counts_bind; [by apply counts_read|intros a; apply Hk]|].
  intros s s' b s1 HP Hr Hu. apply St_bind_ok in Hr as (a & s2 & Ha & Hb). apply reads_run in Ha as ->; [|done].
  by apply (proj2 (Hk a) s).
Qed.
End follows.
Lemma follows_ret {A} (P : database → database → Prop) (a : A) : follows P P (mret a) (mret a).
Proof. split; [by intros s|]. intros s s' b s1 HP [= <- <-] _. by exists s'. Qed.
Lemma follows_for_each {A} (P : database → database → Prop) (l : list A) f f' : (∀ x, follows P P (f x) (f' x)) →
  follows P P (for_each (M:=St database) l f) (for_each l f').
Proof.
  intros Hf. induction l as [|x l IH]; [apply follows_ret|].
  eapply follows_bind; [apply Hf|]. by intros _.
Qed.
Lemma follows_weaken {A} (P P' Q Q' : database → database → Prop) (m m' : DB A) :
  (∀ s s', P' s s' → P s s') → (∀ s s', Q s s' → Q' s s') → follows P Q m m' → follows P' Q' m m'.
Proof.
  intros HP HQ [Hc Hm]. split; [done|]. intros s s' a s1 H Hr Hu. destruct (Hm s s' a s1 (HP _ _ H) Hr Hu) as (s1' & ? & ?). eauto.
Qed.

(** ** A node that replays *)
Section replaying.
Context `{Env} `{Node} `{!NodePromise} `{!NodeSame true} `{Platform} (log : list signed_block).

Definition bare (f : ForkDb.fork_database) : Prop :=
  ForkDb.index f = [] ∧ ForkDb.unlinked_index f = [] ∧ ForkDb.head f = None.
Record replaying (s : database) : Prop := {
  rp_wf : wf_tables (tbl s);
  rp_saved t : Chainbase.Spec.saved (abs (tbl s t)) = [];
  rp_log : block_log s = log;
  rp_fork : bare (fork_db s);
  rp_transactions : items t_transaction s = ∅
}.

(** The state with the log as its only store of blocks, and what applying a
    block looks up in the stores: the block before the head, and the block at
    the start of the period of difficulty. *)
Definition with_log (s : database) : database := set_fork_db ForkDb.empty (set_block_log log s).
Definition period_start (b : signed_block) : Z := u32 (Block.block_num (header b) - XGT_MINING_RECALC_EVERY_N_BLOCKS).
Definition same_prior (b : signed_block) (s s' : database) : Prop :=
  (Apply.prior_block (period_start b) s).1 = (Apply.prior_block (period_start b) s').1.
Definition consults (b : signed_block) (s : database) : Prop :=
  same_previous s (with_log s) ∧ same_prior b s (with_log s).

Context (b : signed_block).
(** Related states during the end of a block, and during its transactions. *)
Record settling (s s' : database) : Prop := {
  st_view : view true s s';
  st_replaying : replaying s';
  st_prior : same_prior b s s';
  st_flags : flag (skip_flags s) skip_undo_history_check = false;
  st_flags' : skip_flags s' = Lifecycle.reindex_skip
}.
Record executing (s s' : database) : Prop := {
  ex_settling :> settling s s';
  ex_previous : same_previous s s';
  ex_clock : ∃ q, clock q s;
  ex_clock' : ∃ q, clock q s'
}.

Lemma frame_fields ts s s1 : frame ts s s1 →
  fork_db s1 = fork_db s ∧ block_log s1 = block_log s ∧ skip_flags s1 = skip_flags s.
Proof. intros [_ E]. rewrite E. by destruct s. Qed.
Lemma prior_stores n s s1 : fork_db s1 = fork_db s → block_log s1 = block_log s →
  (Apply.prior_block n s1).1 = (Apply.prior_block n s).1.
Proof.
  intros Ef El. unfold Apply.prior_block, Store.fork_block, gets, get_or, lift, mbind, St_bind. rewrite El.
  destruct (Log.read_block_by_num n (block_log s)) as [[b0|]|]; try done. rewrite Ef.
  destruct (head _) as [a|]; [|done]. rewrite Ef. by destruct (ForkDb.data <$> _).
Qed.
Lemma previous_stores s s1 : fork_db s1 = fork_db s → block_log s1 = block_log s →
  dgp_head_block_id <$> Db.dgp s1 = dgp_head_block_id <$> Db.dgp s →
  (Store.previous_block_id s1).1 = (Store.previous_block_id s).1.
Proof.
  intros Ef El Ed. unfold Store.previous_block_id, Db.head_block_id, Db.get_dynamic_global_properties,
    Store.fetch_block_by_id, Store.fork_block, gets, get_or, lift, mbind, St_bind.
  destruct (Db.dgp s1) as [p1|], (Db.dgp s) as [p|]; try done. injection Ed as Ed. cbn. rewrite Ed, Ef.
  destruct (ForkDb.fetch_block _ _) as [a|]; [rewrite Ef; by destruct (ForkDb.data <$> _)|]. rewrite El.
  by destruct (Log.read_block_by_num _ _).
Qed.

Lemma replaying_frame {A} ts (m : DB A) : t_transaction ∉ ts → (∀ d0, preserves (λ s, quiet d0 (tbl s)) m) →
  (∀ s0, preserves (frame ts s0) m) → preserves replaying m.
Proof.
  intros Ht Hq Hf s Hs. destruct (m s) as [r s1] eqn:Hr. simpl.
  pose proof (run_quiet m s r s1 Hq (rp_wf _ Hs) Hr) as Hqt. apply (frame_run ts) in Hr; [|done].
  destruct (frame_fields _ _ _ Hr) as (Ef & El & _). constructor.
  - by eapply quiet_wf.
  - intros t. destruct (Hqt t) as (_ & -> & _). apply Hs.
  - rewrite El. apply Hs.
  - rewrite Ef. apply Hs.
  - rewrite (frame_items _ t_transaction _ _ Hr Ht). apply Hs.
Qed.
Lemma settling_at {A} ts (m : DB A) s s' a s1 : t_transaction ∉ ts → (∀ d0, preserves (λ s, quiet d0 (tbl s)) m) →
  (∀ s0, preserves (frame ts s0) m) → same_end true (m s) (m s') → settling s s' → m s = (Ok a, s1) →
  ∃ s1', m s' = (Ok a, s1') ∧ settling s1 s1' ∧ frame ts s s1 ∧ frame ts s' s1'.
Proof.
  intros Ht Hq Hf [E1 E2] Hs Hr. rewrite Hr in E1, E2.
  destruct (m s') as [r s1'] eqn:Hr'. cbn [fst snd] in E1, E2. subst r. exists s1'. split; [done|].
  pose proof (preserves_run replaying m s' _ s1' (replaying_frame ts m Ht Hq Hf) (st_replaying _ _ Hs) Hr') as Hrp.
  apply (frame_run ts) in Hr, Hr'; [|done..]. split; [|done].
  destruct (frame_fields _ _ _ Hr) as (Ef & El & Ek), (frame_fields _ _ _ Hr') as (Ef' & El' & Ek').
  constructor; [done|done| |rewrite Ek; apply Hs|rewrite Ek'; apply Hs].
  unfold same_prior. rewrite (prior_stores _ _ _ Ef El), (prior_stores _ _ _ Ef' El'). apply Hs.
Qed.
Lemma settling_same {A} ts (m : DB A) : t_transaction ∉ ts → (∀ d0, preserves (λ s, quiet d0 (tbl s)) m) →
  (∀ s0, preserves (frame ts s0) m) → respects true m → follows settling settling m m.
Proof.
  intros Ht Hq Hf Hm. split; [by eapply counts_respects|]. intros s s' a s1 Hs Hr Hu.
  destruct (settling_at ts m s s' a s1) as (s1' & ? & ? & _); try done; [|eauto].
  apply (Hm s s' (st_view _ _ Hs)). unfold undrawn. by rewrite Hr.
Qed.
Lemma settling_read {A} (m : DB A) : (∀ I, preserves I m) → respects true m → follows settling settling m m.
Proof. intros Hm. apply (settling_same []); [by_decide|intros; apply Hm..]. Qed.
Lemma clock_previous q s s1 : clock q s → clock q s1 → fork_db s1 = fork_db s → block_log s1 = block_log s →
  (Store.previous_block_id s1).1 = (Store.previous_block_id s).1.
Proof.
  intros (_ & p & Hp & _ & _ & Hid) (_ & p1 & Hp1 & _ & _ & Hid1) Ef El. apply previous_stores; [done..|].
  rewrite Hp, Hp1. simpl. congruence.
Qed.
Lemma executing_at {A} ts (m : DB A) s s' a s1 : t_transaction ∉ ts → (∀ d0, preserves (λ s, quiet d0 (tbl s)) m) →
  (∀ s0, preserves (frame ts s0) m) → (∀ q, preserves (clock q) m) → same_end true (m s) (m s') →
  executing s s' → m s = (Ok a, s1) → ∃ s1', m s' = (Ok a, s1') ∧ executing s1 s1'.
Proof.
  intros Ht Hq Hf Hc He Hs Hr. destruct (settling_at ts m s s' a s1) as (s1' & Hr' & Hst & Hfr & Hfr'); try done.
  { apply Hs. }
  exists s1'. split; [done|]. destruct (ex_clock _ _ Hs) as [q Hk], (ex_clock' _ _ Hs) as [q' Hk'].
  pose proof (preserves_run _ m s _ s1 (Hc q) Hk Hr) as Hk1.
  pose proof (preserves_run _ m s' _ s1' (Hc q') Hk' Hr') as Hk1'.
  destruct (frame_fields _ _ _ Hfr) as (Ef & El & _), (frame_fields _ _ _ Hfr') as (Ef' & El' & _).
  constructor; [done| |by exists q|by exists q'].
  unfold same_previous. rewrite (clock_previous q s s1), (clock_previous q' s' s1') by done. apply Hs.
Qed.
Lemma executing_same {A} ts (m : DB A) : t_transaction ∉ ts → (∀ d0, preserves (λ s, quiet d0 (tbl s)) m) →
  (∀ s0, preserves (frame ts s0) m) → (∀ q, preserves (clock q) m) → respects true m → follows executing executing m m.
Proof.
  intros Ht Hq Hf Hc Hm. split; [by eapply counts_respects|]. intros s s' a s1 Hs Hr Hu. apply (executing_at ts m s s'); try done.
  apply (Hm s s' (st_view _ _ Hs)). unfold undrawn. by rewrite Hr.
Qed.
Lemma executing_read {A} (m : DB A) : (∀ I, preserves I m) → respects true m → follows executing executing m m.
Proof. intros Hm. apply (executing_same []); [by_decide|intros; apply Hm..]. Qed.

Lemma operation_follows op : follows executing executing (Registry.apply_operation op) (Registry.apply_operation op).
Proof.
  split; [intros s; apply (operation_same_at true op s s); reflexivity|].
  intros s s' a s1 Hs Hr Hu. apply (executing_at (touched op) (Registry.apply_operation op) s s'); try done.
  - destruct op; by_decide.
  - intros d0. apply operation_quiet.
  - apply apply_operation_frame.
  - intros q. apply operation_clock.
  - apply (operation_same_at true op s s'); [apply Hs..|]. unfold undrawn. by rewrite Hr.
Qed.
Lemma executing_flags k s s' : executing s s' → flag k skip_undo_history_check = false →
  executing (set_skip_flags k s) s'.
Proof.
  intros [[Hv Hr Hp _ Hk] Hpr Hc Hc'] Hf. constructor; [constructor|..]; try assumption.
  - destruct Hv. by constructor.
  - unfold same_prior. rewrite (prior_stores _ s) by reflexivity. exact Hp.
  - unfold same_previous. rewrite (previous_stores s) by reflexivity. exact Hpr.
Qed.

(** What the live node does to the table of recent transactions does not show. *)
Lemma hidden_frame_view s s1 : frame [t_transaction] s s1 → view true s s1.
Proof.
  intros [Ht E]. constructor; try (by rewrite E); try done; intros t Hh; unfold items; rewrite (Ht t); try done;
    intros ->%list_elem_of_singleton; discriminate Hh.
Qed.
Lemma settling_hidden s s' s1 : frame [t_transaction] s s1 →
  settling s s' → settling s1 s'.
Proof.
  intros Hf [Hv Hrp Hp Hk Hk']. destruct (frame_fields _ _ _ Hf) as (Ef & El & Ek).
  constructor; try assumption.
  - etrans; [symmetry; by apply hidden_frame_view|done].
  - unfold same_prior. by rewrite (prior_stores _ _ _ Ef El).
  - by rewrite Ek.
Qed.
Lemma executing_hidden s s' s1 : frame [t_transaction] s s1 → wf_tables (tbl s1) →
  executing s s' → executing s1 s'.
Proof.
  intros Hf Hwf [Hst Hpr [q (Hwf0 & p & Hdp & Hq)] Hc'].
  destruct (frame_fields _ _ _ Hf) as (Ef & El & Ek).
  assert (Ed : Db.dgp s1 = Db.dgp s).
  { unfold Db.dgp. by rewrite (frame_items _ t_dgp _ _ Hf) by by_decide. }
  constructor; try assumption.
  - by eapply settling_hidden.
  - unfold same_previous. rewrite (previous_stores s s1) by (done || by rewrite Ed). exact Hpr.
  - exists q. split; [done|]. exists p. by rewrite Ed.
Qed.
Lemma record_follows {A} (f : obj t_transaction → result (obj t_transaction)) c (k k' : DB A) : keeps_id f →
  follows executing executing k k' →
  follows executing executing (when c (create t_transaction f ;; mret tt) ;; k) k'.
Proof.
  intros Hid Hk.
  assert (Hrec : ∀ s r s2, when c (create t_transaction f ;; mret tt) s = (r, s2) → rand_count s2 = rand_count s).
  { intros s r s2 Hr. destruct c; [|by injection Hr as _ <-]. unfold when, create, at_table in Hr. rewrite bind_run in Hr.
    destruct (Chainbase.emplace _ _) as [[v|e] gi]; by injection Hr as _ <-. }
  split.
  { apply counts_bind; [|intros _; apply Hk]. intros s. destruct (when c (create t_transaction f ;; mret tt) s) as [r s2] eqn:E. cbn [snd]. rewrite (Hrec _ _ _ E). lia. }
  intros s s' a s1 Hs Hr Hu. apply St_bind_ok in Hr as ([] & s2 & Hc & Hr). pose proof (Hrec _ _ _ Hc) as Hc2.
  apply (proj2 Hk s2 s' a s1); [|done|lia]. apply when_ok in Hc as [[_ Hc]|[_ ->]]; [|done].
  apply St_bind_ok in Hc as (v & s3 & Hc & [= <-]). apply (executing_hidden s); [| |done].
  - eapply frame_run; [|exact Hc]. intros s0. apply create_frame. by left.
  - destruct (ex_clock _ _ Hs) as [q [Hwf _]]. eapply quiet_wf, run_quiet; [|exact Hwf|exact Hc].
    intros d0. by apply create_quiet.
Qed.

(** A transaction the live node accepts is accepted when it is replayed, and
    what its operations do is done. *)
Definition bare_transaction (tx : signed_transaction) : DB unit :=
  n ← Db.head_block_num;
  when (0 <? n)
    (now ← Db.head_block_time;
     assert_or (expiration tx <=? now + XGT_MAX_TIME_UNTIL_EXPIRATION) TransactionException ;;
     assert_or (now <? expiration tx) TransactionException) ;;
  for_each (operations tx) (λ op,
    try_catch (Registry.apply_operation op) (λ e, mthrow (Apply.rethrow_plain e))).
Lemma transaction_replayed tx s : skip_flags s = Lifecycle.reindex_skip →
  Apply._apply_transaction tx s = capture_rethrow (bare_transaction tx) s.
Proof. intros Hk. unfold Apply._apply_transaction, capture_rethrow, try_catch. rewrite bind_run. unfold gets at 1. by rewrite Hk. Qed.
Lemma follows_try {A} P Q (m m' : DB A) g g' : (∀ e s a s1, g e s ≠ (Ok a, s1)) → (∀ e, counts (g e)) → follows P Q m m' →
  follows P Q (try_catch m g) (try_catch m' g').
Proof.
  intros Hg Hcg [Hc Hm]. split; [by apply counts_try|].
  intros s s' a s1 HP [Hr|(e & s2 & _ & Hr)]%try_ok Hu; [|by apply Hg in Hr].
  destruct (Hm s s' a s1 HP Hr Hu) as (s1' & Hr' & HQ). exists s1'. split; [|done]. apply try_ok. by left.
Qed.
Lemma transaction_follows tx : follows executing executing (Apply._apply_transaction tx) (Apply._apply_transaction tx).
Proof.
  enough (Hf : follows executing executing (Apply._apply_transaction tx) (capture_rethrow (bare_transaction tx))).
  { split; [apply Hf|]. intros s s' a s1 Hs Hr Hu. rewrite transaction_replayed by apply Hs. by apply (proj2 Hf s). }
  apply follows_capture. unfold bare_transaction.
  apply follows_check; [intros I; walk|intros skip]. apply follows_check; [intros I; walk|intros _].
  apply follows_check; [intros I; walk|intros known]. apply follows_check; [intros I; walk|intros _].
  apply follows_check; [intros I; walk|intros _].
  eapply follows_bind; [apply executing_read; [intros I; walk|same]|intros n].
  eapply follows_bind; [apply executing_read; [intros I; walk|same]|intros _].
  apply record_follows; [solve_modifier|]. apply follows_for_each. intros op.
  apply follows_try; [done|intros e; apply counts_throw|apply operation_follows].
Qed.
Lemma set_flags_id s : set_skip_flags (skip_flags s) s = s.
Proof. by destruct s. Qed.
Lemma with_skip_eq {A} k (m : DB A) s r s1 : m (set_skip_flags k s) = (r, s1) →
  with_skip_flags k m s = (r, set_skip_flags (skip_flags s) s1).
Proof.
  intros Hm. destruct (with_skip_flags k m s) as [r' s2] eqn:E. apply with_skip_run in E as (s3 & E & ->). congruence.
Qed.
Lemma apply_transaction_follows tx k : flag k skip_undo_history_check = false →
  follows executing executing (Apply.apply_transaction tx k) (Apply.apply_transaction tx Lifecycle.reindex_skip).
Proof.
  intros Hf. split.
  { intros s. destruct (Apply.apply_transaction tx k s) as [r s1] eqn:Hr. apply with_skip_run in Hr as (s2 & Hr & ->).
    pose proof (proj1 (transaction_follows tx) (set_skip_flags k s)) as Hc. rewrite Hr in Hc. exact Hc. }
  intros s s' a s1 Hs Hr Hu. apply with_skip_run in Hr as (s2 & Hr & ->).
  destruct (proj2 (transaction_follows tx) (set_skip_flags k s) s' a s2) as (s2' & Hr' & Hs2); [by apply executing_flags|done|exact Hu|].
  exists s2'. pose proof (st_flags' _ _ Hs2) as Hk2. split; [|apply executing_flags; [done|apply Hs]].
  assert (E : set_skip_flags (skip_flags s') s2' = s2') by (rewrite (st_flags' _ _ Hs), <- Hk2; apply set_flags_id).
  rewrite <- E. apply with_skip_eq. by rewrite <- (st_flags' _ _ Hs), set_flags_id.
Qed.

(** ** The end of a block *)
Lemma flags_follow (k : DB unit) : follows settling settling k k →
  follows settling settling (skip ← gets skip_flags; when (negb (flag skip skip_undo_history_check)) k)
    (skip ← gets skip_flags; when (negb (flag skip skip_undo_history_check)) k).
Proof.
  intros Hk. split.
  { apply counts_bind; [apply counts_read; intros I; walk|]. intros c. destruct (negb _); [apply Hk|by intros s]. }
  intros s s' a s1 Hs. rewrite !bind_run. unfold gets. rewrite (st_flags _ _ Hs), (st_flags' _ _ Hs).
  exact (proj2 Hk s s' a s1 Hs).
Qed.
Lemma update_global_follows : follows settling settling (Apply.update_global_dynamic_data b) (Apply.update_global_dynamic_data b).
Proof.
  apply follows_capture. eapply follows_bind; [apply settling_read; [intros I; walk|same]|intros p].
  eapply follows_bind; [apply (settling_same [t_dgp]); [by_decide|intros; walk..|same]|intros _].
  apply flags_follow. apply settling_read; [intros I; walk|same].
Qed.
Lemma clear_expired_rand k : preserves (λ s, rand_count s = k) Apply.clear_expired_transactions.
Proof.
  unfold Apply.clear_expired_transactions. walk. intros s Hs. unfold remove, at_table.
  by destruct (Chainbase.remove _ _).
Qed.
Lemma clear_expired_follows :
  follows settling settling Apply.clear_expired_transactions Apply.clear_expired_transactions.
Proof.
  split.
  { intros s. pose proof (clear_expired_rand (rand_count s) s eq_refl) as Hc. cbv beta in Hc. rewrite Hc. lia. }
  intros s s' [] s1 Hs Hr _. exists s'. split.
  - unfold Apply.clear_expired_transactions in *. apply St_bind_ok in Hr as (now & s2 & Hn & _).
    destruct (proj2 (settling_read Db.head_block_time ltac:(intros I; walk) ltac:(same)) s s' now s2 Hs Hn) as (s2' & Hn' & _).
    { apply reads_run in Hn as ->; [done|intros I; walk]. }
    pose proof Hn' as Hsame. apply reads_run in Hsame as ->; [|intros I; walk].
    rewrite bind_run, Hn', bind_run. unfold gets, Apply.expired. by rewrite (rp_transactions _ (st_replaying _ _ Hs)).
  - apply (settling_hidden s); [|done]. eapply frame_run; [|exact Hr]. intros. apply clear_expired_frame.
Qed.
Lemma prior_follows : follows settling settling (Apply.prior_block (period_start b)) (Apply.prior_block (period_start b)).
Proof.
  assert (Hrd : ∀ I, preserves I (Apply.prior_block (period_start b))) by (intros I; unfold Apply.prior_block; walk).
  split; [by apply counts_read|].
  intros s s' a s1 Hs Hr _. exists s'. pose proof Hr as Hsame. apply reads_run in Hsame as ->; [|done]. split; [|done].
  pose proof (st_prior _ _ Hs) as Hp. unfold same_prior in Hp. rewrite Hr in Hp.
  destruct (Apply.prior_block (period_start b) s') as [r s2] eqn:Hr'. simpl in Hp. subst r.
  by apply reads_run in Hr' as ->.
Qed.
Lemma set_target_follows t : follows settling settling (Apply.set_mining_target t) (Apply.set_mining_target t).
Proof.
  apply (settling_same [t_dgp]); [by_decide|intros; unfold Apply.set_mining_target; walk..|].
  unfold Apply.set_mining_target. same.
Qed.
Lemma adjust_difficulty_follows : follows settling settling (Apply.adjust_difficulty b) (Apply.adjust_difficulty b).
Proof.
  unfold Apply.adjust_difficulty. destruct (_ =? 1); [apply set_target_follows|].
  destruct ((_ mod _) =? 1); [|apply follows_ret]. cbn [when].
  eapply follows_bind; [exact prior_follows|intros pr].
  eapply follows_bind; [apply settling_read; [intros I; walk|same]|intros p]. apply set_target_follows.
Qed.
Lemma settle_follows : follows settling settling (Apply.settle_block b) (Apply.settle_block b).
Proof.
  unfold Apply.settle_block. eapply follows_bind; [exact update_global_follows|intros _].
  eapply follows_bind; [apply (settling_same [t_dgp]);
    [by_decide|intros; apply update_last_irreversible_block_quiet|intros; unfold Apply.update_last_irreversible_block; walk|
     unfold Apply.update_last_irreversible_block; same]|intros _].
  eapply follows_bind; [apply (settling_same [t_block_summary]);
    [by_decide|intros; apply create_block_summary_quiet|intros; apply create_block_summary_frame|
     unfold Apply.create_block_summary; same]|intros _].
  eapply follows_bind; [exact clear_expired_follows|intros _].
  eapply follows_bind; [apply (settling_same liquid_tables);
    [by_decide|intros; walk|intros; apply clear_null_frame|same]|intros _].
  eapply follows_bind; [apply settling_read; [intros I; walk|same]|intros n].
  eapply follows_bind; [apply (settling_same liquid_tables);
    [by_decide|intros; apply preserves_when, reward_miner_quiet|intros; apply preserves_when, reward_miner_frame|
     unfold Apply.reward_miner; same]|intros _].
  eapply follows_bind; [exact adjust_difficulty_follows|intros _].
  apply settling_read; [intros I; apply process_hardforks_reads|unfold Apply.process_hardforks; same].
Qed.

(** ** Blocks *)
Definition bare_contents : DB unit :=
  gprops ← Db.get_dynamic_global_properties;
  fc_assert (block_pack_size b <=? dgp_maximum_block_size gprops) ;;
  Apply.process_header_extensions b ;;
  w ← Db.get_witness (witness (header b));
  hardfork_state ← Db.get_hardfork_property_object;
  fc_assert (hp_current_hardfork_version hardfork_state <=? wit_running_version w) ;;
  for_each (transactions b) (λ tx, Apply.apply_transaction tx Lifecycle.reindex_skip) ;;
  Apply.settle_block b.
Lemma contents_replayed s : skip_flags s = Lifecycle.reindex_skip → Apply.apply_contents b s = bare_contents s.
Proof. intros Hk. unfold Apply.apply_contents. rewrite bind_run. unfold gets at 1. by rewrite Hk. Qed.
Lemma header_extensions_follow :
  follows executing executing (Apply.process_header_extensions b) (Apply.process_header_extensions b).
Proof.
  assert (Hf : ∀ s0, preserves (frame [t_witness] s0) (Apply.process_header_extensions b)).
  { intros s0. unfold Apply.process_header_extensions, Apply.process_header_extension. walk. }
  apply (executing_same [t_witness]); [by_decide|intros; apply header_extensions_quiet|done| |].
  - intros q. apply (clock_quiet q [t_witness]); [by_decide|intros; apply header_extensions_quiet|done].
  - unfold Apply.process_header_extensions, Apply.process_header_extension. same.
Qed.
Lemma contents_follow s s' a s1 : executing s s' → Apply.apply_contents b s = (Ok a, s1) → rand_count s1 = rand_count s →
  ∃ s1', Apply.apply_contents b s' = (Ok a, s1') ∧ settling s1 s1'.
Proof.
  intros Hs Hr Hu. rewrite contents_replayed by apply Hs. unfold Apply.apply_contents in Hr. rewrite bind_run in Hr.
  unfold gets at 1 in Hr. pose proof (st_flags _ _ Hs) as Hf. revert Hf Hr. generalize (skip_flags s). intros k Hf Hr.
  revert s s' a s1 Hs Hr Hu. match goal with |- ∀ s s' a s1, _ → ?m s = _ → _ → ∃ s1', ?m' s' = _ ∧ _ => enough (Hk : follows executing settling m m') by apply Hk end.
  unfold bare_contents. apply follows_check; [intros I; unfold Apply.check_merkle_root; walk|intros _].
  eapply follows_bind; [apply executing_read; [intros I; walk|same]|intros p].
  eapply follows_bind; [apply executing_read; [intros I; walk|same]|intros _].
  eapply follows_bind; [exact header_extensions_follow|intros _].
  eapply follows_bind; [apply executing_read; [intros I; walk|same]|intros w].
  eapply follows_bind; [apply executing_read; [intros I; walk|same]|intros hs].
  eapply follows_bind; [apply executing_read; [intros I; walk|same]|intros _].
  eapply follows_bind; [apply follows_for_each; intros tx; by apply apply_transaction_follows|intros _].
  eapply follows_weaken; [|done|exact settle_follows]. apply ex_settling.
Qed.
Lemma saved_nil {V} (gi : Chainbase.generic_index V) : Chainbase.Spec.saved (abs gi) = [] → Chainbase.stack gi = [].
Proof. unfold abs. simpl. by destruct (Chainbase.stack gi). Qed.
Lemma commit_view s0 n : preserves (view true s0) (on_base (Base.commit n)).
Proof.
  intros s Hs. destruct (commit_tables n (tbl s)) as (d & Hrun & Hd). rewrite (on_base_run _ _ _ _ Hrun). simpl.
  etrans; [exact Hs|]. clear Hrun Hs. constructor;
    [intros t _|intros t _|reflexivity|reflexivity|intros [=]|intros [=]|intros [=]];
    unfold items; cbn [tbl set_tbl]; rewrite Hd; reflexivity.
Qed.
Lemma update_view s0 f : (∀ s, view true s (f s)) → preserves (view true s0) (update f).
Proof. intros Hf s Hs. simpl. by etrans; [|apply Hf]. Qed.
Lemma set_fork_view v s : view true s (set_fork_db v s).
Proof. constructor; first [reflexivity|discriminate]. Qed.
Lemma set_log_view v s : view true s (set_block_log v s).
Proof. constructor; first [reflexivity|discriminate]. Qed.
Lemma set_flags_view k s : view true s (set_skip_flags k s).
Proof. constructor; first [reflexivity|discriminate]. Qed.
Lemma log_append_view s0 b' : preserves (view true s0) (Apply.log_append b').
Proof. unfold Apply.log_append. walk. apply update_view. intros s. apply set_log_view. Qed.
Lemma migrate_view s0 : preserves (view true s0) Apply.migrate_irreversible_state.
Proof.
  unfold Apply.migrate_irreversible_state, Apply.write_irreversible_blocks.
  apply preserves_capture, preserves_bind; [walk|intros p]. apply preserves_bind; [apply fork_head_matches_reads|intros _].
  apply preserves_bind; [walk|intros k]. apply preserves_bind.
  - apply preserves_when, preserves_bind; [walk|intros l]. apply preserves_bind; [apply blocks_to_write_reads|intros bs].
    apply preserves_for_each. intros b'. apply log_append_view.
  - intros _. apply preserves_bind; [apply update_view; intros s; apply set_fork_view|intros _]. apply commit_view.
Qed.
Lemma migrate_rand k : preserves (λ s, rand_count s = k) Apply.migrate_irreversible_state.
Proof.
  unfold Apply.migrate_irreversible_state, Apply.write_irreversible_blocks.
  apply preserves_capture, preserves_bind; [walk|intros p]. apply preserves_bind; [apply fork_head_matches_reads|intros _].
  apply preserves_bind; [walk|intros f]. apply preserves_bind.
  - apply preserves_when, preserves_bind; [walk|intros l]. apply preserves_bind; [apply blocks_to_write_reads|intros bs].
    apply preserves_for_each. intros b'. unfold Apply.log_append. walk.
  - intros _. apply preserves_bind; [by intros s Hs|intros _]. intros s Hs. unfold on_base. by destruct (Base.commit _ _).
Qed.
Lemma set_max_size_bare n f : bare f → bare (ForkDb.set_max_size n f).
Proof. intros (Hi & Hu & Hh). unfold bare, ForkDb.set_max_size, ForkDb.head_num. simpl. by rewrite Hh. Qed.
Lemma migrate_replays s p : replaying s → skip_flags s = Lifecycle.reindex_skip → Db.dgp s = Some p →
  ∃ s1, Apply.migrate_irreversible_state s = (Ok tt, s1) ∧ replaying s1.
Proof.
  intros Hs Hk Hp. destruct Hs as [Hwf Hsv Hl (Hi & Hu & Hh) Htx].
  unfold Apply.migrate_irreversible_state, capture_rethrow, try_catch.
  assert (Hm : Apply.fork_head_matches p s = (Ok tt, s)).
  { unfold Apply.fork_head_matches. rewrite bind_run. unfold get_st. by rewrite Hh. }
  rewrite bind_run. unfold Db.get_dynamic_global_properties, get_or. rewrite Hp. rewrite bind_run, Hm, bind_run.
  unfold gets at 1. rewrite Hk, bind_run. change (flag Lifecycle.reindex_skip skip_block_log) with true. cbn [when negb mret St_ret].
  rewrite bind_run. unfold update at 1.
  set (s1 := set_fork_db _ s). destruct (commit_tables (dgp_last_irreversible_block_num p) (tbl s1)) as (d & Hrun & Hd).
  rewrite (on_base_run _ _ _ _ Hrun). exists (set_tbl d s1). split; [done|].
  assert (Ht : ∀ t, d t = tbl s t).
  { intros t. rewrite Hd. unfold Chainbase.commit. change (tbl s1 t) with (tbl s t).
    rewrite (saved_nil _ (Hsv t)). simpl. pose proof (saved_nil _ (Hsv t)) as E. by destruct (tbl s t); simpl in *; subst. }
  constructor; cbn [tbl set_tbl].
  - intros t. by rewrite Ht.
  - intros t. by rewrite Ht.
  - done.
  - unfold s1. cbn [fork_db set_fork_db set_tbl]. do 2 apply set_max_size_bare. split_and!; assumption.
  - unfold items. cbn [tbl set_tbl]. by rewrite Ht.
Qed.

Lemma bare_previous s s' : bare (fork_db s) → bare (fork_db s') → block_log s = block_log s' →
  items t_dgp s = items t_dgp s' → same_previous s s'.
Proof.
  intros (Hi & Hu & _) (Hi' & Hu' & _) El Ed. unfold same_previous, Store.previous_block_id, Db.head_block_id,
    Db.get_dynamic_global_properties, Store.fetch_block_by_id, Db.dgp, gets, get_or, lift, mbind, St_bind. rewrite Ed.
  destruct (items t_dgp s' !! 0) as [p|]; [|done]. cbn. unfold ForkDb.fetch_block. rewrite Hi, Hu, Hi', Hu'. simpl. rewrite El.
  by destruct (Log.read_block_by_num _ _).
Qed.
Lemma bare_prior s s' : bare (fork_db s) → bare (fork_db s') → block_log s = block_log s' → same_prior b s s'.
Proof.
  intros (Hi & _) (Hi' & _) El. unfold same_prior, Apply.prior_block, gets, get_or, lift, mbind, St_bind.
  rewrite El. destruct (Log.read_block_by_num _ _) as [[]|]; try done. unfold ForkDb.fetch_block_by_number. by rewrite Hi, Hi'.
Qed.
Lemma consults_executing k s s' : view true s s' → replaying s' → consults b s → (∃ q, clock q s) →
  flag k skip_undo_history_check = false →
  executing (set_skip_flags k s) (set_skip_flags Lifecycle.reindex_skip s').
Proof.
  intros Hv Hs [Hpr Hpi] [q (Hwf & p & Hp & Hq)] Hf.
  assert (Ed : items t_dgp s = items t_dgp s') by (by apply Hv).
  assert (Hb : bare ForkDb.empty) by done.
  constructor; [constructor|..].
  - rewrite <- (set_flags_view k s), Hv. apply set_flags_view.
  - destruct Hs. by constructor.
  - unfold same_prior. rewrite (prior_stores _ s) by reflexivity. etrans; [exact Hpi|].
    apply bare_prior; [done|apply Hs|symmetry; apply Hs].
  - done.
  - done.
  - unfold same_previous. rewrite (previous_stores s) by reflexivity. etrans; [exact Hpr|].
    apply bare_previous; [done|apply Hs|symmetry; apply Hs|exact Ed].
  - exists q. split; [done|by exists p].
  - exists q. split; [apply Hs|]. exists p. unfold Db.dgp in *. change (items t_dgp s' !! 0 = Some p ∧ same_head p q).
    by rewrite <- Ed.
Qed.
(** What a live node has after a block: its tables and the head. *)
Lemma live_block_headed k s s1 : wf_tables (tbl s) → Apply.apply_block b k s = (Ok tt, s1) → headed b s1.
Proof.
  intros Hwf Hr%capture_ok. apply with_skip_run in Hr as (s2 & Hr%capture_ok & ->).
  apply St_bind_ok in Hr as ([] & s3 & Hc & Hm).
  apply contents_run in Hc as [((Hwf3 & p & Hp & Hh) & _) _]; [|done].
  split; [exact (preserves_run _ _ _ _ _ migrate_wf Hwf3 Hm)|]. exists p. split; [|done].
  pose proof (migrate_view s3 s3 ltac:(reflexivity)) as Hv. rewrite Hm in Hv.
  unfold Db.dgp in *. rewrite <- Hp. symmetry. f_equal. by apply (view_items _ _ _ Hv).
Qed.

Lemma block_follows k s s' s1 : view true s s' → replaying s' → consults b s → (∃ q, clock q s) →
  flag k skip_undo_history_check = false → Apply.apply_block b k s = (Ok tt, s1) → rand_count s1 = rand_count s →
  ∃ s1', Apply.apply_block b Lifecycle.reindex_skip s' = (Ok tt, s1') ∧ view true s1 s1' ∧ replaying s1'.
Proof.
  intros Hv Hs Hc Hck Hf Hr%capture_ok Hu. apply with_skip_run in Hr as (s2 & Hr%capture_ok & ->).
  pose proof (consults_executing k s s' Hv Hs Hc Hck Hf) as He. apply St_bind_ok in Hr as ([] & s3 & Hcon & Hm).
  destruct (contents_follow _ _ _ _ He Hcon) as (s3' & Hcon' & Hst).
  { pose proof (migrate_rand (rand_count s3) s3 eq_refl) as Hmr. rewrite Hm in Hmr. simpl in *. lia. }
  assert (Hd : ∃ p, Db.dgp s3' = Some p).
  { apply capture_ok in Hm. apply St_bind_ok in Hm as (p & s4 & Hp & _). apply get_or_run in Hp as [Hp _]. exists p.
    unfold Db.dgp in *. rewrite <- Hp. symmetry. f_equal. by apply (view_items _ _ _ (st_view _ _ Hst)). }
  destruct Hd as [p Hp]. destruct (migrate_replays s3' p (st_replaying _ _ Hst) (st_flags' _ _ Hst) Hp) as (s4' & Hm' & Hs4).
  exists (set_skip_flags (skip_flags s') s4'). split; [|split].
  - unfold Apply.apply_block, capture_rethrow, try_catch. rewrite (with_skip_eq _ _ _ (Ok tt) s4'); [done|].
    unfold Apply._apply_block, capture_rethrow, try_catch. rewrite bind_run, Hcon'. cbv beta iota. by rewrite Hm'.
  - rewrite <- (set_flags_view _ s4'), <- (set_flags_view _ s2).
    pose proof (migrate_view s3 s3 ltac:(reflexivity)) as H3. rewrite Hm in H3.
    pose proof (migrate_view s3' s3' ltac:(reflexivity)) as H3'. rewrite Hm' in H3'. cbn [snd] in H3, H3'.
    rewrite <- H3, <- H3'. apply Hst.
  - destruct Hs4. by constructor.
Qed.
End replaying.

(** ** The whole log *)
Section chain.
Context `{Env} `{Node} `{!NodePromise} `{!NodeSame true} `{Platform} (log : list signed_block).

(** The life of a node: it applies blocks, each in a session, and draws no random
    key in them; between blocks anything may happen that leaves the tables as they
    are. *)
Inductive live_chain : list signed_block → database → database → Prop :=
| live_start s : live_chain [] s s
| live_block bs b k s s1 s2 s3 : live_chain bs s s1 → view true s1 s2 → wf_tables (tbl s2) → consults log b s2 →
    flag k skip_undo_history_check = false → with_session (Apply.apply_block b k) s2 = (Ok tt, s3) → rand_count s3 = rand_count s2 →
    live_chain (bs ++ [b]) s s3.

Lemma consults_view b s d : same_view s (set_tbl d s) → consults log b s → consults log b (set_tbl d s).
Proof.
  intros Hv [Hp Hq]. assert (Ed : Db.dgp (set_tbl d s) = Db.dgp s).
  { unfold Db.dgp. f_equal. symmetry. by apply (view_items _ _ _ Hv). }
  split.
  - unfold same_previous. rewrite (previous_stores s (set_tbl d s)), (previous_stores (with_log log s) (with_log log (set_tbl d s)));
      try reflexivity; [exact Hp|exact (f_equal (fmap dgp_head_block_id) Ed)|exact (f_equal (fmap dgp_head_block_id) Ed)].
  - unfold same_prior. rewrite (prior_stores _ s (set_tbl d s)), (prior_stores _ (with_log log s) (with_log log (set_tbl d s)));
      try reflexivity. exact Hq.
Qed.
Lemma session_ok {A} (m : DB A) s a s1 : with_session m s = (Ok a, s1) →
  ∃ d, Base.start_undo_session (tbl s) = (Ok tt, d) ∧ same_view s (set_tbl d s) ∧ m (set_tbl d s) = (Ok a, s1).
Proof.
  intros Hr. unfold with_session in Hr. rewrite bind_run in Hr. destruct (start_session_view s) as (d & Hst & Hd).
  rewrite Hst in Hr. apply try_ok in Hr as [Hr|(e & s2 & _ & Hr)].
  - exists d. split; [|split; [exact Hd|exact Hr]]. unfold on_base in Hst. destruct (Base.start_undo_session (tbl s)) as [r d'].
    by injection Hst as -> ->.
  - rewrite bind_run in Hr. destruct (drop_session s2) as [[]]; discriminate Hr.
Qed.
Lemma chain_replays bs s s1 s' : live_chain bs s s1 → view true s s' → replaying log s' → (∃ p, Db.dgp s' = Some p) →
  ∃ s1', for_each bs (λ b, Apply.apply_block b Lifecycle.reindex_skip) s' = (Ok tt, s1') ∧
    view true s1 s1' ∧ replaying log s1' ∧ (∃ p, Db.dgp s1' = Some p ∧
      dgp_head_block_number p = match last bs with
      | Some b => Block.block_num (header b)
      | None => default 0 (dgp_head_block_number <$> Db.dgp s') end).
Proof.
  intros Hl Hv Hs [p Hp]. induction Hl as [s|bs b k s s1 s2 s3 Hl IH Hv2 Hwf Hc Hf Hr Hu].
  { exists s'. split; [done|]. split; [done|]. split; [done|]. exists p. by rewrite Hp. }
  destruct (IH Hv) as (s1' & Hr1 & Hv1 & Hs1 & p1 & Hp1 & _).
  apply session_ok in Hr as (d & Hst & Hvd & Hr).
  destruct (start_session_ok (tbl s2) Hwf) as (d' & Hst' & Hwfd & _). rewrite Hst in Hst'. injection Hst' as <-.
  assert (Hvs : view true (set_tbl d s2) s1').
  { etrans; [|exact Hv1]. symmetry. etrans; [exact Hv2|]. by apply same_view_hides. }
  assert (Hd2 : Db.dgp (set_tbl d s2) = Some p1).
  { unfold Db.dgp in *. rewrite <- Hp1. f_equal. by apply (view_items _ _ _ Hvs). }
  destruct (block_follows log b k _ s1' s3 Hvs Hs1 (consults_view _ _ _ Hvd Hc)) as (s3' & Hr3 & Hv3 & Hs3); [|done..|].
  { exists p1. split; [exact Hwfd|]. exists p1. split; [exact Hd2|split_and!; reflexivity]. }
  exists s3'. split; [by rewrite (for_each_snoc _ _ _ _ _ Hr1)|]. split; [done|]. split; [done|].
  destruct (live_block_headed b k (set_tbl d s2) _ Hwfd Hr) as (_ & q & Hq & Hn & _). exists q. rewrite last_snoc. split; [|done].
  unfold Db.dgp in *. rewrite <- Hq. f_equal. symmetry. by apply (view_items _ _ _ Hv3).
Qed.
(** The block at index [i] of the log has number [i + 1]. *)
Definition numbered : Prop := ∀ i b, log !! i = Some b → Block.block_num (header b) = Z.of_nat i + 1.
Lemma replay_loop (c k : nat) : numbered → (c + S k ≤ length log)%nat →
  ∀ s s', for_each (take (S k) (drop c log)) (λ b, Apply.apply_block b Lifecycle.reindex_skip) s = (Ok tt, s') →
  Lifecycle.replay (Z.of_nat (c + S k)) (drop c log) s = (Ok tt, s').
Proof.
  intros Hn. revert c. induction k as [|k IH]; intros c Hk s s' Hr;
    (destruct (lookup_lt_is_Some_2 log c) as [b Hb]; [lia|]); rewrite (drop_S _ b) in Hr |- * by done;
    pose proof (Hn c b Hb) as Hnum; cbn [take for_each Lifecycle.replay] in *; apply St_bind_ok in Hr as ([] & s1 & Hb1 & Hr);
    rewrite bind_run, Hb1; rewrite Hnum.
  - injection Hr as <-. by rewrite (proj2 (Z.ltb_ge _ _)) by lia.
  - rewrite (proj2 (Z.ltb_lt _ _)) by lia. replace (c + S (S k))%nat with (S c + S k)%nat by lia.
    apply IH; [lia|exact Hr].
Qed.
Lemma set_revision_ok n s : (∀ t, Chainbase.Spec.saved (abs (tbl s t)) = []) →
  ∃ d, on_base (Base.set_revision n) s = (Ok tt, set_tbl d s) ∧ same_view s (set_tbl d s) ∧ Base.revision d = n ∧
    (wf_tables (tbl s) → wf_tables d) ∧ ∀ t, Chainbase.Spec.saved (abs (d t)) = [].
Proof.
  intros Hs. destruct (each_index_all (λ t, Chainbase.set_revision n) (tbl s)) as (d & Hrun & Hd).
  { intros t. unfold Chainbase.set_revision. by rewrite (saved_nil _ (Hs t)). }
  assert (Ht : ∀ t, d t = Chainbase.mkIndex [] n (Chainbase.next_id (tbl s t)) (Chainbase.indices (tbl s t))).
  { intros t. rewrite Hd. unfold Chainbase.set_revision. by rewrite (saved_nil _ (Hs t)). }
  exists d. split; [exact (on_base_run _ _ _ _ Hrun)|]. split; [|split; [unfold Base.revision; by rewrite Ht|split]].
  - constructor; try reflexivity; intros t _; unfold items; cbn [tbl set_tbl]; by rewrite Ht.
  - intros Hwf t. rewrite Ht. destruct (Hwf t) as (Hm & _). split; [exact Hm|done].
  - intros t. by rewrite Ht.
Qed.
End chain.

(** A processor that always goes on is given every block of the log in turn,
    with the header of the block before. *)
Definition with_previous (prev : signed_block_header) (l : list signed_block) : list (signed_block_header * signed_block) :=
  zip (prev :: (header <$> l)) l.
Lemma block_loop_visits `{Env} {S} (processor : signed_block_header → signed_block → St S bool) l i prev last s :
  (∀ h b s, ∃ s', processor h b s = (Ok true, s')) → l ≠ [] → last = Z.of_nat (i + length l) →
  (∀ j b, l !! j = Some b → Block.block_num (header b) = Z.of_nat (i + j) + 1) →
  Lifecycle.block_loop processor last prev l s = for_each (with_previous prev l) (λ p, processor p.1 p.2 ;; mret tt) s.
Proof.
  intros Hp. revert i prev s. induction l as [|b l IH]; intros i prev s Hne Hlast Hn; [done|].
  cbn [Lifecycle.block_loop with_previous zip zip_with fmap list_fmap for_each fst snd].
  pose proof (Hn 0%nat b eq_refl) as Hb. destruct (Hp prev b s) as [s' Hs]. rewrite Hb. destruct l as [|b' l]; cbn [length] in Hlast.
  - rewrite (proj2 (Z.eqb_eq _ _)) by lia. cbn [zip_with for_each]. rewrite !bind_run, Hs. reflexivity.
  - rewrite (proj2 (Z.eqb_neq _ _)) by lia. rewrite !bind_run, Hs. cbn [mret St_ret].
    apply (IH (Datatypes.S i)); [discriminate|cbn [length]; lia|].
    intros j b0 Hj. rewrite (Hn (Datatypes.S j) b0 Hj). lia.
Qed.
Lemma foreach_block_visits `{Env} {S} (processor : signed_block_header → signed_block → St S bool) b l s :
  numbered (b :: l) → (∀ h b s, ∃ s', processor h b s = (Ok true, s')) →
  Lifecycle.foreach_block processor (b :: l) s =
  for_each (with_previous (header b) (b :: l)) (λ p, processor p.1 p.2 ;; mret tt) s.
Proof.
  intros Hn Hp. unfold Lifecycle.foreach_block, Log.head. rewrite last_lookup.
  destruct (lookup_lt_is_Some_2 (b :: l) (Nat.pred (length (b :: l)))) as [z Hz]; [simpl; lia|]. rewrite Hz.
  apply (block_loop_visits _ _ 0); [done..| |].
  - rewrite (Hn _ _ Hz). simpl. lia.
  - intros j x Hj. by rewrite (Hn _ _ Hj).
Qed.

(** What [wipe] and [open] have to leave for the replay: tables without undo
    states and without transactions, and nothing unlinked. *)
Record restored (s : database) : Prop := {
  rs_wf : wf_tables (tbl s);
  rs_saved t : Chainbase.Spec.saved (abs (tbl s t)) = [];
  rs_unlinked : ForkDb.unlinked_index (fork_db s) = [];
  rs_transactions : items t_transaction s = ∅
}.
(** The block at which the replay stops. *)
Definition last_block (args : open_args) (log : list signed_block) : nat :=
  if (0 <? stop_at_block args) && (stop_at_block args <? Z.of_nat (length log))
  then Z.to_nat (stop_at_block args) else length log.

Section reindex.
Context `{Env} `{Node} `{!NodePromise} `{!NodeSame true} `{Platform} (key : public_key_type).

Lemma head_num_run s p : Db.dgp s = Some p → Db.head_block_num s = (Ok (dgp_head_block_number p), s).
Proof. intros Hp. unfold Db.head_block_num, Db.get_dynamic_global_properties, get_or. by rewrite bind_run, Hp. Qed.
Lemma replay_log_rebuilds log (c m : nat) p l0 l1 s : numbered log → (c < m ≤ length log)%nat →
  replaying log s → Db.dgp s = Some p → dgp_head_block_number p = Z.of_nat c → view true l0 s →
  live_chain log (take (m - c) (drop c log)) l0 l1 →
  ∃ s1 p1, Lifecycle.replay_log (Z.of_nat m) s = (Ok tt, s1) ∧ view true l1 s1 ∧ Base.revision (tbl s1) = Z.of_nat m ∧
    wf_tables (tbl s1) ∧ items t_transaction s1 = ∅ ∧ bare (fork_db s1) ∧ block_log s1 = log ∧
    Db.dgp s1 = Some p1 ∧ dgp_head_block_number p1 = Z.of_nat m.
Proof.
  intros Hn Hm Hs Hp Hc Hv Hl. destruct (lookup_lt_is_Some_2 log c) as [b Hb]; [lia|].
  destruct (chain_replays log _ l0 l1 s Hl Hv Hs) as (s1 & Hr & Hv1 & Hs1 & p1 & Hp1 & Hn1); [by eexists|].
  destruct (lookup_lt_is_Some_2 log (m - 1)) as [z Hz]; [lia|].
  assert (Hlast : last (take (m - c) (drop c log)) = Some z).
  { rewrite last_lookup, length_take_le by (rewrite length_drop; lia). rewrite lookup_take_lt, lookup_drop by lia.
    rewrite <- Hz. f_equal. lia. }
  rewrite Hlast in Hn1. rewrite (Hn _ _ Hz) in Hn1.
  destruct (set_revision_ok (Z.of_nat m) s1 (rp_saved _ _ Hs1)) as (d & Hrev & Hvd & Hd & Hwfd & _).
  exists (set_tbl d s1), p1. split.
  - assert (Hh : head (drop c log) = Some b) by (by rewrite (drop_S _ b)).
    replace (m - c)%nat with (S (m - c - 1)) in Hr by lia. apply replay_loop in Hr; [|done|lia].
    replace (c + S (m - c - 1))%nat with m in Hr by lia.
    unfold Lifecycle.replay_log. rewrite bind_run. unfold gets at 1. rewrite (rp_log _ _ Hs).
    rewrite bind_run, (head_num_run s p Hp), Hc, Nat2Z.id. cbv zeta. rewrite Hh, bind_run.
    rewrite (Hn _ _ Hb), Z.eqb_refl. unfold fc_assert. cbn. rewrite bind_run, Hr, bind_run, (head_num_run s1 p1 Hp1), Hn1.
    replace (Z.of_nat (m - 1) + 1) with (Z.of_nat m) by lia. exact Hrev.
  - split; [etrans; [exact Hv1|by apply same_view_hides]|]. split; [exact Hd|].
    split; [apply Hwfd, Hs1|]. split; [rewrite <- (view_items _ _ _ Hvd) by done; apply Hs1|]. split; [apply Hs1|]. split; [apply Hs1|].
    split; [|lia]. rewrite <- Hp1. unfold Db.dgp. f_equal. symmetry. by apply (view_items _ _ _ Hvd).
Qed.
Lemma restored_replaying s : restored s → replaying (block_log s) (set_fork_db (ForkDb.reset (fork_db s)) s).
Proof. intros []. by constructor. Qed.
Lemma fc_assert_run c (s : database) : c = true → fc_assert (M:=St database) c s = (Ok tt, s).
Proof. by intros ->. Qed.
Lemma start_block_num b f : ForkDb.head_num (ForkDb.start_block b f) = Some (Block.block_num (header b)).
Proof.
  unfold ForkDb.start_block. destruct (ForkDb.alloc b f) as [a d1] eqn:E.
  unfold ForkDb.alloc in E. injection E as <- <-. unfold ForkDb.head_num, ForkDb.deref. simpl. by rewrite lookup_insert_eq.
Qed.

(** ** The state of a new chain *)
Definition bases (l : list signed_block) (s : database) : Prop :=
  block_log s = l ∧ ForkDb.unlinked_index (fork_db s) = [].
Lemma on_base_bases l (m : St tables unit) : preserves (bases l) (on_base m).
Proof. intros s Hs. unfold on_base. by destruct (m (tbl s)). Qed.
Lemma update_bases l f : (∀ s, bases l s → bases l (f s)) → preserves (bases l) (update f).
Proof. intros Hf s Hs. by apply Hf. Qed.
Lemma wipe_run s w : ForkDb.unlinked_index (fork_db s) = [] → Lifecycle.wipe false s = (Ok tt, w) →
  tbl w = no_tables ∧ bases (block_log s) w.
Proof.
  intros Hu Hr. apply St_bind_ok in Hr as ([] & s1 & Hc & Hr). rewrite bind_run in Hr. injection Hr as <-. split; [done|].
  assert (Hb : bases (block_log s) s1); [|done].
  eapply (preserves_run (bases (block_log s))); [|by split|exact Hc].
  unfold Lifecycle.close, Apply.clear_pending, Apply.reset_pending_session, drop_session.
  walk; first [apply on_base_bases|apply update_bases; by intros x []].
Qed.
Definition genesis_tables : list table :=
  [t_wallet; t_authority; t_witness; t_dgp; t_block_summary; t_hardfork; t_nai_pool].
Lemma frame_step {A B} ts (m : DB A) (f : A → DB B) s0 s b s' : frame ts s0 s → (∀ s1, preserves (frame ts s1) m) →
  (m ≫= f) s = (Ok b, s') → ∃ a s1, frame ts s0 s1 ∧ f a s1 = (Ok b, s').
Proof.
  intros Hf Hm Hr. apply St_bind_ok in Hr as (a & s1 & Ha & Hr). exists a, s1. split; [|done].
  eapply frame_trans; [exact Hf|]. by eapply frame_run.
Qed.
(** The tables before the global properties, the properties, and what follows. *)
Lemma genesis_run init_supply s u s' : wf_tables (tbl s) → items t_dgp s = ∅ → Chainbase.next_id (tbl s t_dgp) = 0 →
  Apply.init_genesis key init_supply s = (Ok u, s') →
  quiet (tbl s) (tbl s') ∧ items t_transaction s' = items t_transaction s ∧ fork_db s' = fork_db s ∧
  block_log s' = block_log s ∧ ∃ p, Db.dgp s' = Some p ∧ dgp_head_block_number p = 0.
Proof.
  intros Hwf Hd Hid Hr. apply capture_ok, St_bind_ok in Hr as (fl & s1 & [-> ->]%gets_ok & Hr).
  apply with_skip_run in Hr as (s2 & Hr & ->). set (s1 := set_skip_flags _ s) in Hr.
  pose proof Hr as Hq. apply (run_quiet _ s1) in Hq; [|intros d0; unfold Apply.new_wallet, Apply.system_authority; walk|done].
  pose proof Hr as Hf. apply (frame_run genesis_tables) in Hf; [|intros s3; unfold Apply.new_wallet, Apply.system_authority; walk].
  destruct (frame_fields _ _ _ Hf) as (Ef & El & _).
  split; [exact Hq|]. split; [exact (frame_items _ t_transaction _ _ Hf ltac:(by_decide))|]. split; [exact Ef|]. split; [exact El|].
  clear Hq Hf Ef El. pose proof (frame_refl [t_wallet; t_authority; t_witness] s1) as Hf.
  do 10 (apply (frame_step _ _ _ _ _ _ _ Hf) in Hr as (? & ? & Hf' & Hr);
    [clear Hf; rename Hf' into Hf|intros s3; unfold Apply.new_wallet, Apply.system_authority; walk]).
  apply St_bind_ok in Hr as (p & s3 & Hc & Hr). apply (create_run t_dgp) in Hc as ([= <-] & _ & _ & Hit & _).
  apply (frame_run [t_block_summary; t_hardfork; t_nai_pool]) in Hr; [|intros s4; walk].
  match type of Hf with frame _ _ ?x => assert (Hx : Chainbase.next_id (tbl x t_dgp) = 0)
    by (rewrite (proj1 Hf t_dgp) by by_decide; exact Hid) end.
  match type of Hit with _ = <[_ := ?p]> _ => exists p end. split; [|reflexivity].
  unfold Db.dgp. change (items t_dgp (set_skip_flags (skip_flags s) s2)) with (items t_dgp s2).
  rewrite (frame_items _ t_dgp _ _ Hr), Hit by by_decide. apply lookup_insert_Some. left. split; [exact Hx|reflexivity].
Qed.
Lemma no_tables_wf : wf_tables no_tables.
Proof. intros t. apply wf_empty. Qed.

Lemma open_restored args w s1 s0 p : Lifecycle.load_genesis key args w = (Ok tt, s1) → restored s1 →
  Db.dgp s1 = Some p → dgp_head_block_number p = 0 → Lifecycle.open key args w = (Ok tt, s0) →
  restored s0 ∧ block_log s0 = block_log s1 ∧ Db.dgp s0 = Some p ∧ view true s1 s0.
Proof.
  intros Hlg Hrs Hp Hn Hr. apply capture_ok, St_bind_ok in Hr as ([] & s1' & Hlg' & Hr).
  rewrite Hlg in Hlg'. injection Hlg' as <-.
  apply St_bind_ok in Hr as (n & s2 & Hnum & Hr). rewrite (head_num_run s1 p Hp), Hn in Hnum. injection Hnum as <- <-.
  apply St_bind_ok in Hr as ([] & s2 & Hset & Hr). rewrite bind_run in Hr. cbn [Z.eqb negb when mret St_ret] in Hr.
  apply reads_run in Hr as ->; [|intros I; unfold Lifecycle.init_hardforks; walk].
  destruct (skip_env_check args).
  - destruct (set_revision_ok 0 s1 (rs_saved _ Hrs)) as (d & Hrev & Hv & _ & Hwfd & Hsv). rewrite Hrev in Hset.
    injection Hset as <-. split; [constructor|split_and!].
    + apply Hwfd, Hrs.
    + exact Hsv.
    + apply Hrs.
    + rewrite <- (view_items _ _ _ Hv) by done. apply Hrs.
    + reflexivity.
    + rewrite <- Hp. unfold Db.dgp. f_equal. symmetry. by apply (view_items _ _ _ Hv).
    + by apply same_view_hides.
  - apply reads_run in Hset as ->; [|intros I; walk]. done.
Qed.

(** After [wipe], [open] starts a chain of its own: nothing to undo, no block, no
    transaction, and the log as it was. *)
Lemma genesis_restored args s s0 : genesis_func args = None → ForkDb.unlinked_index (fork_db s) = [] →
  (Lifecycle.wipe false ;; Lifecycle.open key args) s = (Ok tt, s0) →
  restored s0 ∧ block_log s0 = block_log s ∧ ∃ p, Db.dgp s0 = Some p ∧ dgp_head_block_number p = 0.
Proof.
  intros Hg Hu Hr. apply St_bind_ok in Hr as ([] & w & Hw & Hr). destruct (wipe_run s w Hu Hw) as [Ht [Hl Hul]].
  pose proof Hr as Hlg. apply capture_ok, St_bind_ok in Hlg as ([] & s1 & Hlg & _). pose proof Hlg as Hgen.
  apply St_bind_ok in Hgen as (o & w' & [-> ->]%gets_ok & Hgen).
  replace (Db.dgp w) with (@None dynamic_global_property_object) in Hgen by (unfold Db.dgp, items; by rewrite Ht).
  rewrite Hg in Hgen. apply genesis_run in Hgen as (Hq & Htx & Ef & El & p & Hp & Hn); [|rewrite Ht; apply no_tables_wf|
    unfold items; by rewrite Ht|by rewrite Ht]. rewrite Ht in Hq.
  assert (Hrs : restored s1).
  { constructor; [by eapply quiet_wf|intros t; by destruct (Hq t) as (_ & -> & _)|by rewrite Ef|].
    rewrite Htx. unfold items. by rewrite Ht. }
  destruct (open_restored args w s1 s0 p Hlg Hrs Hp Hn Hr) as (Hr0 & El0 & Hp0 & _).
  split; [exact Hr0|]. split; [by rewrite El0, El|]. by exists p.
Qed.

(** ** Restarting *)
Lemma undo_tables d : wf_tables d →
  ∃ d', Base.undo d = (Ok tt, d') ∧ wf_tables d' ∧ ∀ t, abs (d' t) = Chainbase.Spec.undo (abs (d t)) ∧
    Chainbase.revision (d' t) = Chainbase.revision (d t) - Z.of_nat (length (take 1 (Chainbase.stack (d t)))).
Proof.
  intros Hwf. destruct (each_index_all (λ t, Chainbase.undo) d) as (d' & Hrun & Hd').
  { intros t. by destruct (undo_ok (d t) (Hwf t)) as (gi & -> & _). }
  exists d'. split; [exact Hrun|]. split; intros t; rewrite Hd';
    pose proof (undo_revision (d t) (Hwf t)) as Hr; destruct (undo_ok (d t) (Hwf t)) as (gi & Hu & Hw & Ha); rewrite Hu in Hr |- *;
    [done|]. split; [exact Ha|]. cbn [snd] in *. rewrite Hr. destruct (Chainbase.stack (d t)); simpl; lia.
Qed.
Lemma undo_all_tables d : wf_tables d →
  ∃ d', Base.undo_all d = (Ok tt, d') ∧ wf_tables d' ∧ ∀ t, abs (d' t) = Chainbase.Spec.undo_all (abs (d t)) ∧
    Chainbase.revision (d' t) = Chainbase.revision (d t) - Z.of_nat (length (Chainbase.stack (d t))).
Proof.
  intros Hwf. destruct (each_index_all (λ t, Chainbase.undo_all) d) as (d' & Hrun & Hd').
  { intros t. by destruct (undo_all_ok (d t) (Hwf t)) as (gi & -> & _). }
  exists d'. split; [exact Hrun|]. split; intros t; rewrite Hd';
    pose proof (undo_all_revision (d t) (Hwf t)) as Hr; destruct (undo_all_ok (d t) (Hwf t)) as (gi & Hu & Hw & Ha); rewrite Hu in Hr |- *;
    [done|]. split; [exact Ha|exact Hr].
Qed.
Lemma undo_undo_all {V} (x : Chainbase.Spec.t V) : Chainbase.Spec.undo_all (Chainbase.Spec.undo x) = Chainbase.Spec.undo_all x.
Proof.
  destruct x as [c [|y l]]; [done|]. unfold Chainbase.Spec.undo, Chainbase.Spec.undo_all. simpl.
  by rewrite <- (last_cons_default y c l).
Qed.
Lemma stack_saved {V} (gi : Chainbase.generic_index V) : length (Chainbase.stack gi) = length (Chainbase.Spec.saved (abs gi)).
Proof. unfold abs. simpl. by rewrite snapshots_length. Qed.
Lemma close_run s : wf_tables (tbl s) → ∃ d, wf_tables d ∧
  (∀ t, abs (d t) = Chainbase.Spec.undo_all (abs (tbl s t)) ∧
    Chainbase.revision (d t) = Chainbase.revision (tbl s t) - Z.of_nat (length (Chainbase.stack (tbl s t)))) ∧
  Lifecycle.close s = (Ok tt, set_fork_db (ForkDb.reset (fork_db s)) (set_pending_tx_session false (set_pending_tx [] (set_tbl d s)))).
Proof.
  intros Hwf. unfold Lifecycle.close, Apply.clear_pending, Apply.reset_pending_session, capture_rethrow, try_catch.
  rewrite bind_run, bind_run. unfold update at 1. rewrite bind_run. unfold gets at 1.
  change (pending_tx_session (set_pending_tx [] s)) with (pending_tx_session s).
  destruct (pending_tx_session s) eqn:Hps; cbn [when].
  - destruct (undo_tables (tbl s) Hwf) as (d1 & Hu & Hwf1 & Hd1).
    destruct (undo_all_tables d1 Hwf1) as (d2 & Hua & Hwf2 & Hd2). exists d2. split; [exact Hwf2|]. split.
    { intros t. destruct (Hd1 t) as [Ha1 Hr1], (Hd2 t) as [Ha2 Hr2]. split; [by rewrite Ha2, Ha1, undo_undo_all|].
      rewrite Hr2, Hr1, stack_saved, Ha1, length_take, (stack_saved (tbl s t)). unfold Chainbase.Spec.undo.
      destruct (Chainbase.Spec.saved (abs (tbl s t))) eqn:E; [rewrite E|]; simpl; lia. }
    rewrite bind_run. unfold drop_session, try_catch. rewrite (on_base_run _ (set_pending_tx [] s) _ _ Hu). unfold update at 1.
    rewrite bind_run. rewrite (on_base_run Base.undo_all (set_pending_tx_session false (set_tbl d1 (set_pending_tx [] s))) (Ok tt) d2 Hua).
    reflexivity.
  - destruct (undo_all_tables (tbl s) Hwf) as (d2 & Hua & Hwf2 & Hd2). exists d2. split; [exact Hwf2|]. split; [exact Hd2|].
    cbn [mret St_ret]. rewrite bind_run, (on_base_run Base.undo_all (set_pending_tx [] s) (Ok tt) d2 Hua).
    unfold update. do 2 f_equal. unfold set_pending_tx_session, set_pending_tx, set_tbl. simpl. by rewrite Hps.
Qed.
(** The oldest state a table can be brought back to. *)
Definition oldest (s : database) (t : table) : gmap Z (obj t) * Z :=
  Chainbase.Spec.cur (Chainbase.Spec.undo_all (abs (tbl s t))).

(** C15: A restart goes back to the last state that cannot be undone.  [close]
    always succeeds, pending transactions and an open session included.  If the
    oldest state a node can go back to has the number of its head as revision,
    and the log has that head, then [open] succeeds after [close]: every table
    has the contents of that state, nothing is left to undo or pending, and
    the fork database starts at that block. *)
Theorem restart_rewinds (args : open_args) (s : database) (p : dynamic_global_property_object)
    (h : hardfork_property_object) (b : signed_block) : wf_tables (tbl s) → skip_env_check args = false →
  (oldest s t_dgp).1 !! 0 = Some p → (oldest s t_hardfork).1 !! 0 = Some h → hp_last_hardfork h = 0 →
  Base.revision (tbl s) - Z.of_nat (length (Chainbase.stack (tbl s t_dgp))) = dgp_head_block_number p →
  dgp_head_block_number p ≠ 0 →
  Log.read_block_by_num (dgp_head_block_number p) (block_log s) = Ok (Some b) →
  Block.id (header b) = dgp_head_block_id p →
  ∃ s1, (Lifecycle.close ;; Lifecycle.open key args) s = (Ok tt, s1) ∧ wf_tables (tbl s1) ∧
    (∀ t, abs (tbl s1 t) = Chainbase.Spec.mk (oldest s t) []) ∧ pending_tx s1 = [] ∧ pending_tx_session s1 = false ∧
    block_log s1 = block_log s ∧ ForkDb.head_num (fork_db s1) = Some (Block.block_num (header b)).
Proof.
  intros Hwf Ha Hp Hh Hh0 Hrev Hn0 Hlog Hid. destruct (close_run s Hwf) as (d & Hwfd & Hd & Hc).
  set (s0 := set_fork_db _ _) in Hc. exists (set_fork_db (ForkDb.start_block b (fork_db s0)) s0).
  assert (Hit : ∀ t, items t s0 = (oldest s t).1).
  { intros t. destruct (Hd t) as [Hat _]. unfold oldest. rewrite <- Hat. reflexivity. }
  split; [|split_and!].
  - rewrite bind_run, Hc. unfold Lifecycle.open, capture_rethrow, try_catch, Lifecycle.load_genesis.
    rewrite bind_run, bind_run. unfold gets at 1. assert (Hp0 : Db.dgp s0 = Some p) by (unfold Db.dgp; by rewrite Hit).
    rewrite Hp0. cbn [mret St_ret]. rewrite bind_run, (head_num_run s0 p Hp0), bind_run, Ha, bind_run.
    unfold gets at 1. assert (Hr0 : Base.revision (tbl s0) = dgp_head_block_number p) by (rewrite <- Hrev; apply Hd).
    rewrite Hr0, fc_assert_run by apply Z.eqb_refl.
    rewrite bind_run, (proj2 (Z.eqb_neq _ 0)) by done. cbn [negb when].
    rewrite bind_run. unfold gets at 1. change (block_log s0) with (block_log s).
    rewrite bind_run. unfold lift at 1. rewrite Hlog, bind_run.
    unfold Db.head_block_id, Db.get_dynamic_global_properties, get_or. rewrite bind_run, Hp0. cbn [mret St_ret].
    rewrite bind_run, fc_assert_run by (by apply bool_decide_true). unfold update at 1.
    unfold Lifecycle.init_hardforks. rewrite bind_run. unfold Db.get_hardfork_property_object, get_or.
    change (items t_hardfork (set_fork_db _ s0)) with (items t_hardfork s0). rewrite Hit, Hh, bind_run, Hh0.
    reflexivity.
  - exact Hwfd.
  - intros t. destruct (Hd t) as [Hat _]. change (abs (d t) = Chainbase.Spec.mk (oldest s t) []). rewrite Hat. reflexivity.
  - reflexivity.
  - reflexivity.
  - reflexivity.
  - cbn [fork_db set_fork_db]. apply start_block_num.
Qed.

(** C14: Reindexing rebuilds the chain, as long as no key was drawn at random.
    Let a node have applied blocks live, each in a session and with its checks on
    and without drawing a random key in it, starting from the state that [wipe]
    and [open] produce, without transactions and undo states, and let the log hold
    those blocks and the ones that were looked up on the way ([consults]).  Then [reindex], which
    skips most checks and uses no sessions, succeeds, whatever the random
    generators of the two runs are: every table but one has the objects of the
    live node, the undo revision is the number of the last block, and the fork
    database starts at the head of the log.  The exception is the table of recent
    transactions: after a reindex no transaction is known. *)
Theorem reindex_rebuilds (args : open_args) (s s0 l0 l1 : database) (p : dynamic_global_property_object) :
  (Lifecycle.wipe false ;; Lifecycle.open key args) s = (Ok tt, s0) → restored s0 →
  let log := block_log s0 in let n := last_block args log in let c := Z.to_nat (dgp_head_block_number p) in
  numbered log → Db.dgp s0 = Some p → 0 ≤ dgp_head_block_number p < Z.of_nat n →
  view true l0 s0 → live_chain log (take (n - c) (drop c log)) l0 l1 →
  ∃ s1, Lifecycle.reindex key args s = (Ok (Z.of_nat n), s1) ∧ view true l1 s1 ∧
    wf_tables (tbl s1) ∧ Base.revision (tbl s1) = Z.of_nat n ∧ ForkDb.head_num (fork_db s1) = Some (Z.of_nat (length log)) ∧
    ∀ i, Db.is_known_transaction i s1 = false.
Proof.
  intros Hopen Hrs log n c Hn Hp Hc Hv Hl. apply St_bind_ok in Hopen as ([] & w & Hw & Ho).
  assert (Hnl : (n ≤ length log)%nat).
  { unfold n, last_block. destruct (_ && _) eqn:E; [|done]. apply andb_true_iff in E as [_ E%Z.ltb_lt]. lia. }
  pose proof (restored_replaying s0 Hrs) as Hs. set (sr := set_fork_db _ s0) in Hs.
  destruct (replay_log_rebuilds log c n p l0 l1 sr) as (s1 & p1 & Hr & Hv1 & Hrev & Hwf1 & Htx & Hb & Hl1 & Hp1 & Hn1); try done;
    [lia|lia|etrans; [exact Hv|apply set_fork_view]|].
  destruct (lookup_lt_is_Some_2 log (length log - 1)) as [z Hz]; [lia|].
  assert (Hnum : Block.block_num (header z) = Z.of_nat (length log)) by (rewrite (Hn _ _ Hz); lia).
  exists (set_fork_db (ForkDb.start_block z (fork_db s1)) s1). split; [|split_and!].
  - unfold Lifecycle.reindex, capture_rethrow, try_catch. rewrite bind_run, Hw, bind_run, Ho, bind_run. unfold update at 1.
    fold sr. rewrite bind_run. unfold gets at 1. change (block_log sr) with log. unfold Log.head.
    rewrite last_lookup, <- Nat.sub_1_r, Hz, bind_run, (head_num_run sr p Hp), Hnum. cbv zeta.
    assert (E : (if (0 <? stop_at_block args) && (stop_at_block args <? Z.of_nat (length log))
      then stop_at_block args else Z.of_nat (length log)) = Z.of_nat n).
    { unfold n, last_block. destruct (_ && _) eqn:E; [|done]. apply andb_true_iff in E as [E%Z.ltb_lt _]. lia. }
    rewrite E, (proj2 (Z.ltb_lt _ _)) by lia. cbn [when]. rewrite bind_run, Hr.
    rewrite (proj2 (Z.eqb_neq (Z.of_nat (length log)) 0)) by lia. cbn [when negb]. rewrite bind_run. unfold update.
    rewrite (head_num_run _ p1) by done. by rewrite Hn1.
  - etrans; [exact Hv1|apply set_fork_view].
  - exact Hwf1.
  - exact Hrev.
  - cbn [fork_db set_fork_db]. by rewrite start_block_num, Hnum.
  - intros i. unfold Db.is_known_transaction, find_by_key. rewrite (proj2 (find_key_None _ _)); [done|].
    intros j x Hj. assert (items t_transaction s1 !! j = Some x) as Hi by exact Hj. by rewrite Htx in Hi.
Qed.
End reindex.

(** ** A chain of one block *)
Module ReindexDemo.
#[global] Instance node_same : NodeSame true (H:=Demo.node).
Proof. by intros id f o [=]. Qed.
(** The wallets of the demonstration, before the first block. *)
Definition at_genesis : DB unit :=
  p ← Db.get_dynamic_global_properties;
  modify t_dgp (dgp_id p) (λ p, mret (set_dgp_head_block_number 0 (set_dgp_last_irreversible_block_num 0 p))).
Definition base : database := snd (at_genesis BlockDemo.db).
Lemma at_genesis_wf : wf_tables (tbl base).
Proof.
  eapply quiet_wf, (run_quiet at_genesis BlockDemo.db); [|apply BlockDemo.chain_wf|apply surjective_pairing].
  intros d0. unfold at_genesis. walk.
Qed.
Definition args : open_args := mkOpenArgs 0 true (Some (update (set_tbl (tbl base)))) 0.
Definition block_1 : signed_block := mkBlock (mkHeader [0; 0; 0; 0; 0] 1005 "alice" [] [] 0) [ApplyDemo.spend].
Definition node : database := set_block_log [block_1] base.
Lemma set_log_wf l s : wf_tables (tbl s) → wf_tables (tbl (set_block_log l s)).
Proof. done. Qed.
Lemma node_wf : wf_tables (tbl node).
Proof. exact (set_log_wf [block_1] base at_genesis_wf). Qed.
Definition opened := (Lifecycle.wipe false ;; Lifecycle.open 0 args) node.
Definition started : database := snd opened.
Definition live_flags : Z := Z.lor skip_merkle_check skip_transaction_signatures.
Definition lived := with_session (Apply.apply_block block_1 live_flags) started.
Definition properties : dynamic_global_property_object := default (obj_init (V:=obj t_dgp) 0) (Db.dgp base).

Lemma open_succeeds : (Lifecycle.wipe false ;; Lifecycle.open 0 args) node = (Ok tt, started).
Proof. change (opened = (Ok tt, started)). rewrite (surjective_pairing opened). apply (f_equal (λ r, (r, started))). vm_compute. reflexivity. Qed.
Lemma live_succeeds : with_session (Apply.apply_block block_1 live_flags) started = (Ok tt, snd lived).
Proof. change (lived = (Ok tt, snd lived)). rewrite (surjective_pairing lived) at 1. apply (f_equal (λ r, (r, snd lived))). vm_compute. reflexivity. Qed.
Lemma wiped_tables : (Lifecycle.wipe false node).1 = Ok tt.
Proof. vm_compute. reflexivity. Qed.
Lemma restored_base : restored (set_tbl (tbl base) (snd (Lifecycle.wipe false node))).
Proof.
  constructor.
  - exact at_genesis_wf.
  - intros t. destruct t; vm_compute; reflexivity.
  - vm_compute. reflexivity.
  - vm_compute. reflexivity.
Qed.
Lemma started_restored : restored started ∧ block_log started = [block_1] ∧ Db.dgp started = Some properties.
Proof.
  pose proof open_succeeds as Ho. apply St_bind_ok in Ho as ([] & w & Hw & Ho).
  assert (Ew : w = snd (Lifecycle.wipe false node)) by (by rewrite Hw).
  destruct (wipe_run node w ltac:(vm_compute; reflexivity) Hw) as [Ht _].
  destruct (open_restored 0 args w (set_tbl (tbl base) w) started properties) as (Hr & Hl & Hp & _).
  - unfold Lifecycle.load_genesis. rewrite bind_run. unfold gets, Db.dgp, items. rewrite Ht. reflexivity.
  - rewrite Ew. exact restored_base.
  - vm_compute. reflexivity.
  - vm_compute. reflexivity.
  - exact Ho.
  - split; [exact Hr|]. split; [|exact Hp]. rewrite Hl, Ew. vm_compute. reflexivity.
Qed.
Lemma one_numbered : numbered [block_1].
Proof.
  intros i b Hi. apply list_lookup_singleton_Some in Hi as [-> <-]. vm_compute. reflexivity.
Qed.
Lemma started_consults : consults [block_1] block_1 started.
Proof. split; vm_compute; reflexivity. Qed.
Lemma lived_chain : live_chain [block_1] [block_1] started (snd lived).
Proof.
  apply (live_block [block_1] [] block_1 live_flags started started started);
    [constructor|reflexivity|apply started_restored|exact started_consults|reflexivity|exact live_succeeds|vm_compute; reflexivity].
Qed.
(** The live node refuses the transaction of the block a second time; the node
    that was rebuilt from the same log spends the money again. *)
Lemma rebuilt_accepts_twice :
  (Apply.apply_transaction ApplyDemo.spend skip_transaction_signatures (snd lived)).1 = Exc AssertException ∧
  (Apply.apply_transaction ApplyDemo.spend skip_transaction_signatures (snd (Lifecycle.reindex 0 args node))).1 = Ok tt.
Proof. split; vm_compute; reflexivity. Qed.
End ReindexDemo.

Lemma reindex_rebuilds_witness : ∃ s1, Lifecycle.reindex 0 ReindexDemo.args ReindexDemo.node = (Ok 1, s1) ∧
  view true (snd ReindexDemo.lived) s1 ∧ wf_tables (tbl s1) ∧ Base.revision (tbl s1) = 1.
Proof.
  destruct ReindexDemo.started_restored as (Hr & Hl & Hp).
  destruct (reindex_rebuilds 0 ReindexDemo.args ReindexDemo.node ReindexDemo.started ReindexDemo.started
    (snd ReindexDemo.lived) ReindexDemo.properties ReindexDemo.open_succeeds Hr) as (s1 & H1 & H2 & H3 & H4 & _).
  - rewrite Hl. exact ReindexDemo.one_numbered.
  - exact Hp.
  - rewrite Hl. vm_compute. split; [intros [=]|reflexivity].
  - reflexivity.
  - rewrite Hl. exact ReindexDemo.lived_chain.
  - rewrite Hl in H1, H4. exists s1. split; [exact H1|]. split; [exact H2|]. split; [exact H3|exact H4].
Defined.

(** A node at block 1 with a session open. *)
Module RestartDemo.
Definition at_block (i : block_id_type) : DB unit :=
  p ← Db.get_dynamic_global_properties;
  modify t_dgp (dgp_id p) (λ p, mret (set_dgp_head_block_number 1 (set_dgp_head_block_id i p))).
Lemma at_block_wf i s : wf_tables (tbl s) → wf_tables (tbl (snd (at_block i s))).
Proof.
  intros Hwf. eapply quiet_wf, (run_quiet (at_block i) s); [|exact Hwf|apply surjective_pairing].
  intros d0. unfold at_block. walk.
Qed.
Definition first : database :=
  snd (at_block (Block.id (header ReindexDemo.block_1)) (snd (on_base (Base.set_revision 1) ReindexDemo.node))).
Definition busy : database := snd (on_base Base.start_undo_session first).
Lemma busy_wf : wf_tables (tbl busy).
Proof.
  destruct (set_revision_ok 1 ReindexDemo.node) as (d & Hr & _ & _ & Hwf & _).
  { intros t. destruct t; vm_compute; reflexivity. }
  assert (Hf : wf_tables (tbl first)).
  { unfold first. rewrite Hr. exact (at_block_wf _ (set_tbl d ReindexDemo.node) (Hwf ReindexDemo.node_wf)). }
  destruct (start_session_ok (tbl first) Hf) as (d1 & Hs & Hwf1 & _). unfold busy.
  rewrite (on_base_run _ _ _ _ Hs). exact Hwf1.
Qed.
Definition properties : dynamic_global_property_object :=
  default (obj_init (V:=obj t_dgp) 0) ((oldest busy t_dgp).1 !! 0).
Definition hardforks : hardfork_property_object :=
  default (obj_init (V:=obj t_hardfork) 0) ((oldest busy t_hardfork).1 !! 0).
Definition args : open_args := mkOpenArgs 0 false None 0.
End RestartDemo.

Lemma restart_rewinds_witness : ∃ s1, (Lifecycle.close ;; Lifecycle.open 0 RestartDemo.args) RestartDemo.busy = (Ok tt, s1) ∧
  wf_tables (tbl s1) ∧ ForkDb.head_num (fork_db s1) = Some 1.
Proof.
  destruct (restart_rewinds 0 RestartDemo.args RestartDemo.busy RestartDemo.properties RestartDemo.hardforks ReindexDemo.block_1
    RestartDemo.busy_wf) as (s1 & H1 & H2 & _ & _ & _ & _ & H3); try (vm_compute; reflexivity).
  - vm_compute. intros [=].
  - exists s1. split; [exact H1|]. split; [exact H2|exact H3].
Defined.
