(* ===== verification/Takeover.v ===== *)
(** * Who may update a wallet

    [_apply_transaction] checks the keys for a [wallet_update_operation] itself,
    since the operation declares no required authority; the loop that does so
    ends at the first [wallet_create_operation]. *)
From S2P Require Import Prelude Safe Chainbase Asset Protocol SignState Block ForkDatabase ResourceDynamics Objects Database Ledger Evaluators EvaluatorFacts Xtt Operations LedgerProps Apply ApplyFacts BlockFacts.

Section updates.
Context `{Env} `{Node} `{Platform}.

Abbreviation update_op := op_wallet_update.

(** Updates ask for no authority. *)
Lemma collect_updates (f : operation → list wallet_name_type) us acc : (∀ u, f (update_op u) = []) →
  fold_left (λ acc op, fold_left (λ a k, Required.set_insert k a) (f op) acc) (update_op <$> us) acc = acc.
Proof. intros Hf. revert acc. induction us as [|u us IH]; intros acc; simpl; [done|]. by rewrite Hf. Qed.
Lemma verify_updates gm gr gs lim op us sigs a b c :
  SignState.verify_authority gm gr gs lim (op :: (update_op <$> us)) sigs a b c =
  SignState.verify_authority gm gr gs lim [op] sigs a b c.
Proof.
  assert (Hc : ∀ f, (∀ u, f (update_op u) = []) →
    Required.collect f (op :: (update_op <$> us)) = Required.collect f [op])
    by (intros f Hf; unfold Required.collect; simpl; by apply collect_updates).
  assert (Ho : ((op :: (update_op <$> us)) ≫= Required.other) = ([op] ≫= Required.other)).
  { simpl. f_equal. clear Hc. by induction us as [|u us IH]. }
  unfold SignState.verify_authority. by rewrite !Hc, Ho by done.
Qed.

(** The check for a lone update: the name must come from the signing keys. *)
Lemma lone_update_checked tx u keys s : operations tx = [update_op u] → Apply.signature_keys tx = Ok keys →
  (Apply.check_authorities tx s).1 = Ok tt → wu_wallet u = wallet_name_of_keys keys.
Proof.
  unfold Apply.check_authorities, try_catch. intros -> Hk Hr. rewrite bind_run in Hr. simpl in Hr.
  unfold Db.get_authority, get_or, lift in Hr. cbv [mbind St_bind] in Hr.
  destruct (Db.find_authority (wu_wallet u) s); [|done]. rewrite Hk in Hr.
  unfold assert_or in Hr. by case_bool_decide.
Qed.

(** The authorities the check reads. *)
Definition verify_at (s : database) (ops : list operation) (keys : list public_key_type) : result unit :=
  SignState.verify_authority (Apply.authority_getter aa_money s) (Apply.authority_getter aa_recovery s)
    (Apply.authority_getter aa_social s) SignState.default_limits ops keys [] [] [].

(** C37: Alone in a transaction, a [wallet_update_operation] is accepted only
    when the wallet's name is the one that the signing keys give.  Behind a
    [wallet_create_operation] it is accepted whenever the creation is: no key
    of the updated wallets is looked at, however many are updated. *)
Theorem updates_ride_on_create :
  (∀ tx u keys s, operations tx = [update_op u] → Apply.signature_keys tx = Ok keys →
     (Apply.check_authorities tx s).1 = Ok tt → wu_wallet u = wallet_name_of_keys keys) ∧
  (∀ tx o us keys s, operations tx = op_wallet_create o :: (update_op <$> us) →
     SignState.get_signature_keys bip_0062 tx (signatures tx) [] = Ok keys →
     verify_at s [op_wallet_create o] keys = Ok tt → Apply.check_authorities tx s = (Ok tt, s)).
Proof.
  split; [exact lone_update_checked|]. intros tx o us keys s Hops Hk Hv.
  unfold Apply.check_authorities, try_catch. rewrite Hops. simpl.
  unfold Apply.verify_signatures, SignState.tx_verify_authority. cbv [mbind St_bind mret St_ret get_st lift].
  rewrite Hk, Hops. cbv [result_bind]. rewrite verify_updates. unfold verify_at in Hv. by rewrite Hv.
Qed.
End updates.

(** ** A wallet is taken over *)
Module TakeoverDemo.
Definition key (k : Z) : authority := mkAuthority 1 [] [(k, 1)].
Definition authority_of (name : wallet_name_type) (k : Z) : DB unit :=
  create t_authority (λ a, mret (set_aa_recovery (key k) (set_aa_money (key k) (set_aa_account name a)))) ;; mret tt.
(** "alice" holds key 7, "bob" holds key 8; the chain is at time 10000. *)
Definition setup : DB unit :=
  p ← Db.get_dynamic_global_properties;
  modify t_dgp (dgp_id p) (λ p, mret (set_dgp_time 10000 p)) ;;
  authority_of "alice" 7 ;; authority_of "bob" 8.
Definition db : database := snd (setup BlockDemo.db).
(** "bob" opens a wallet and sets the keys of "alice" to his own. *)
Definition opening : wallet_create_operation :=
  mkWalletCreate (mkAsset 0 XGT_SYMBOL) "bob" "" (key 9) (key 9) (key 9) 9 "".
Definition update : wallet_update_operation :=
  mkWalletUpdate "alice" (Some (key 8)) (Some (key 8)) None None "" "" [].
Definition theft : signed_transaction := mkTx 0 0 10500 [op_wallet_create opening; op_wallet_update update] [] [8].
Definition honest : signed_transaction := mkTx 0 0 10500 [op_wallet_update update] [] [8].
Definition keys_of (name : wallet_name_type) (s : database) : option (list public_key_type * list public_key_type) :=
  (λ a, (Authority.get_keys (aa_recovery a), Authority.get_keys (aa_money a))) <$> Db.find_authority name s.
Lemma opening_verifies : verify_at db [op_wallet_create opening] [8] = Ok tt.
Proof. vm_compute. reflexivity. Qed.
End TakeoverDemo.

Lemma updates_ride_on_create_witness :
  Apply.check_authorities TakeoverDemo.theft TakeoverDemo.db = (Ok tt, TakeoverDemo.db).
Proof.
  exact (proj2 updates_ride_on_create TakeoverDemo.theft TakeoverDemo.opening [TakeoverDemo.update] [8]
    TakeoverDemo.db eq_refl eq_refl TakeoverDemo.opening_verifies).
Defined.

(** With every check on, "bob" signs with his own key only, opens a wallet
    and in the same transaction replaces the recovery and money keys of
    "alice": the transaction is accepted and the keys are his.  The update
    alone is refused. *)
Example wallet_taken_over :
  TakeoverDemo.keys_of "alice" TakeoverDemo.db = Some ([7], [7]) ∧
  (Apply.push_transaction TakeoverDemo.theft 0 TakeoverDemo.db).1 = Ok tt ∧
  TakeoverDemo.keys_of "alice" (Apply.push_transaction TakeoverDemo.theft 0 TakeoverDemo.db).2 = Some ([8], [8]) ∧
  is_ok (Apply.push_transaction TakeoverDemo.honest 0 TakeoverDemo.db).1 = false.
Proof. split_and!; vm_compute; reflexivity. Qed.
