(* ===== verification/BlockLog.v ===== *)
(** * The block log on disk

    libraries/chain/block_log.cpp: a file of packed blocks, each followed by its
    position, and an index file of positions.  The state has the bytes of the
    two files as the streams see them, whether each stream is still usable
    (after a failed read it is not), and the cached head.  The database sees the
    log as the sequence of its blocks; the files implement that sequence. *)
From S2P Require Import Prelude Safe Asset Raw Encoding Protocol Wire Block Digest ForkDatabase Objects Database Apply LedgerProps.

Record block_log_impl := mkLog {
  block_stream : bytes;
  index_stream : bytes;
  block_good : bool;
  index_good : bool;
  head : option signed_block;
  head_id : block_id_type
}.

Module BlockLog.
Abbreviation M := (St block_log_impl).
Definition block_fails {A} : M A := λ s,
  (Exc RuntimeError, mkLog (block_stream s) (index_stream s) false (index_good s) (head s) (head_id s)).
Definition index_fails {A} : M A := λ s,
  (Exc RuntimeError, mkLog (block_stream s) (index_stream s) (block_good s) false (head s) (head_id s)).
Definition rethrow {A} (m : M A) : M A := try_catch m (λ e, mthrow (to_fc e)).

(** Reading eight bytes at a position, or the last eight. *)
Definition from (pos : Z) (b : bytes) : bytes :=
  if pos <=? Z.of_nat (length b) then drop (Z.to_nat pos) b else [].
Definition number_at (pos : Z) (b : bytes) : option Z :=
  let r := take 8 (from pos b) in
  if (length r =? 8)%nat then Some (AssetSymbol.from_le r) else None.
Definition read_index (pos : Z) : M Z :=
  s ← get_st;
  match number_at pos (index_stream s) with
  | Some v => if index_good s then mret v else index_fails
  | None => index_fails
  end.
Definition read_number (pos : Z) : M Z :=
  s ← get_st;
  match number_at pos (block_stream s) with
  | Some v => if block_good s then mret v else block_fails
  | None => block_fails
  end.
(** [seekg( -8, std::ios::end )] fails when the file is shorter. *)
Definition last_index : M Z :=
  s ← get_st;
  if (length (index_stream s) <? 8)%nat then index_fails
  else read_index (Z.of_nat (length (index_stream s)) - 8).
Definition last_number : M Z :=
  s ← get_st;
  if (length (block_stream s) <? 8)%nat then block_fails
  else read_number (Z.of_nat (length (block_stream s)) - 8).
Definition write_block (b : bytes) : M unit := λ s,
  if block_good s then (Ok tt, mkLog (block_stream s ++ b) (index_stream s) true (index_good s) (head s) (head_id s))
  else block_fails s.
Definition write_index (b : bytes) : M unit := λ s,
  if index_good s then (Ok tt, mkLog (block_stream s) (index_stream s ++ b) (block_good s) true (head s) (head_id s))
  else index_fails s.

Section with_env.
Context `{Abi} `{Env}.

Definition unpack_block (pos : Z) : M (signed_block * Z) :=
  s ← get_st;
  if block_good s then
    match dec Wire.signed_block 0 (from pos (block_stream s)) with
    | (Ok b, rest) => mret (b, Z.of_nat (length (block_stream s) - length rest))
    | (Exc e, _) => if bool_decide (e = FcException) then block_fails else mthrow e
    end
  else block_fails.
Definition read_block_helper (pos : Z) : M (signed_block * Z) := rethrow (
  '(b, tell) ← unpack_block pos; mret (b, tell + 8)).
Definition read_block : Z → M (signed_block * Z) := read_block_helper.
Definition npos : Z := 2 ^ 64 - 1.
Definition get_block_pos_helper (block_num : Z) : M Z := rethrow (
  s ← get_st;
  if negb (match head s with Some _ => true | None => false end &&
           (block_num <=? Block.num_from_id (head_id s)) && (0 <? block_num)) then mret npos
  else read_index (8 * (block_num - 1))).
Definition get_block_pos : Z → M Z := get_block_pos_helper.
Definition read_block_by_num (block_num : Z) : M (option signed_block) := rethrow (
  pos ← get_block_pos_helper block_num;
  if negb (pos =? npos) then
    '(b, _) ← read_block_helper pos;
    fc_assert (Block.block_num (Protocol.header b) =? block_num) ;;
    mret (Some b)
  else mret None).
Definition read_head : M signed_block := rethrow (
  pos ← last_number;
  '(b, _) ← read_block_helper pos;
  mret b).
Definition set_head (b : signed_block) : M unit := λ s,
  (Ok tt, mkLog (block_stream s) (index_stream s) (block_good s) (index_good s) (Some b) (Block.id (Protocol.header b))).

Definition append (b : signed_block) : M Z := rethrow (
  s ← get_st;
  if negb (block_good s) then block_fails else
  if negb (index_good s) then index_fails else
  let pos := Z.of_nat (length (block_stream s)) in
  fc_assert (Z.of_nat (length (index_stream s)) =? 8 * u32 (Block.block_num (Protocol.header b) - 1)) ;;
  data ← lift (enc Wire.signed_block b);
  write_block data ;;
  write_block (AssetSymbol.le_bytes 8 pos) ;;
  write_index (AssetSymbol.le_bytes 8 pos) ;;
  set_head b ;;
  mret pos).

(** [while( pos < end_pos )]: a block and its position are read at the place
    that the stream has reached; each turn reads at least the position, so the
    length of the file bounds the number of turns. *)
Fixpoint index_loop (fuel : nat) (at_ pos end_pos : Z) : M unit :=
  if pos <? end_pos then
    match fuel with
    | O => mthrow Fault
    | S fuel' =>
        '(_, tell) ← unpack_block at_;
        pos ← read_number tell;
        write_index (AssetSymbol.le_bytes 8 pos) ;;
        index_loop fuel' (tell + 8) pos end_pos
    end
  else mret tt.
Definition clear_index : M unit := λ s,
  (Ok tt, mkLog (block_stream s) [] (block_good s) true (head s) (head_id s)).
Definition clear_block_state : M unit := λ s,
  (Ok tt, mkLog (block_stream s) (index_stream s) true (index_good s) (head s) (head_id s)).
Definition construct_index : M unit := rethrow (
  clear_index ;;
  clear_block_state ;;
  end_pos ← last_number;
  s ← get_st;
  fc_assert (end_pos <=? Z.of_nat (length (block_stream s))) ;;
  index_loop (length (block_stream s)) 0 0 end_pos).

(** [open] on the files that are on disk. *)
Definition open_streams : M unit := λ s,
  (Ok tt, mkLog (block_stream s) (index_stream s) true true (head s) (head_id s)).
Definition open : M unit :=
  open_streams ;;
  s ← get_st;
  let log_size := length (block_stream s) in
  let index_size := length (index_stream s) in
  if (0 <? log_size)%nat then
    h ← read_head;
    set_head h ;;
    if (0 <? index_size)%nat then
      block_pos ← last_number;
      index_pos ← last_index;
      if block_pos <? index_pos then construct_index
      else if index_pos <? block_pos then construct_index
      else mret tt
    else construct_index
  else when (0 <? index_size)%nat clear_index.
(** A new object for the same files: the head is not known. *)
Definition close : M unit := λ s,
  (Ok tt, mkLog (block_stream s) (index_stream s) true true None (replicate 5 0)).
End with_env.
End BlockLog.

(** ** The layout of the files *)
Section layout.
Context `{Abi} `{Env}.
Import BlockLog.

Definition pack (b : signed_block) : bytes := Digest.packed Wire.signed_block b.
Fixpoint layout (pos : Z) (l : list signed_block) : bytes :=
  match l with
  | [] => []
  | b :: l => pack b ++ AssetSymbol.le_bytes 8 pos ++ layout (pos + Z.of_nat (length (pack b)) + 8) l
  end.
Fixpoint offsets (pos : Z) (l : list signed_block) : list Z :=
  match l with [] => [] | b :: l => pos :: offsets (pos + Z.of_nat (length (pack b)) + 8) l end.
Definition index_of (l : list signed_block) : bytes := offsets 0 l ≫= AssetSymbol.le_bytes 8.

Lemma length_offsets pos l : length (offsets pos l) = length l.
Proof. revert pos. induction l as [|b l IH]; intros pos; simpl; [done|by rewrite IH]. Qed.
Lemma length_numbers l : length (l ≫= AssetSymbol.le_bytes 8) = (8 * length l)%nat.
Proof. induction l as [|x l IH]; [done|]. rewrite bind_cons, length_app, IH, length_le_bytes. simpl. lia. Qed.
Lemma length_index l : length (index_of l) = (8 * length l)%nat.
Proof. unfold index_of. by rewrite length_numbers, length_offsets. Qed.
Lemma next_offset pos b r : pos + Z.of_nat (length (pack b ++ AssetSymbol.le_bytes 8 pos ++ r)) =
  pos + Z.of_nat (length (pack b)) + 8 + Z.of_nat (length r).
Proof. rewrite !length_app, length_le_bytes. lia. Qed.
Lemma layout_app pos l l' :
  layout pos (l ++ l') = layout pos l ++ layout (pos + Z.of_nat (length (layout pos l))) l'.
Proof.
  revert pos. induction l as [|b l IH]; intros pos; cbn [layout app]; [by rewrite Z.add_0_r|].
  by rewrite next_offset, IH, <- !app_assoc.
Qed.
Lemma offsets_app pos l l' :
  offsets pos (l ++ l') = offsets pos l ++ offsets (pos + Z.of_nat (length (layout pos l))) l'.
Proof.
  revert pos. induction l as [|b l IH]; intros pos; cbn [layout offsets app]; [by rewrite Z.add_0_r|].
  by rewrite next_offset, IH.
Qed.
Lemma index_snoc l b :
  index_of (l ++ [b]) = index_of l ++ AssetSymbol.le_bytes 8 (Z.of_nat (length (layout 0 l))).
Proof. unfold index_of. rewrite offsets_app, bind_app. cbn [offsets]. by rewrite bind_singleton. Qed.
Lemma layout_snoc l b : layout 0 (l ++ [b]) =
  layout 0 l ++ pack b ++ AssetSymbol.le_bytes 8 (Z.of_nat (length (layout 0 l))).
Proof. rewrite layout_app. cbn [layout]. by rewrite app_nil_r. Qed.

(** *** Reading at a position *)
Lemma from_app b b' : from (Z.of_nat (length b)) (b ++ b') = b'.
Proof.
  unfold from. rewrite (proj2 (Z.leb_le _ _)) by (rewrite length_app; lia). by rewrite Nat2Z.id, drop_app_length.
Qed.
Lemma number_at_app b v b' : 0 ≤ v < 2 ^ 64 →
  number_at (Z.of_nat (length b)) (b ++ AssetSymbol.le_bytes 8 v ++ b') = Some v.
Proof.
  intros Hv. unfold number_at. rewrite from_app, take_app_length', length_le_bytes by (by rewrite length_le_bytes).
  cbn [Nat.eqb]. by rewrite from_le_bytes.
Qed.
Lemma number_at_end b v : 0 ≤ v < 2 ^ 64 →
  number_at (Z.of_nat (length (b ++ AssetSymbol.le_bytes 8 v)) - 8) (b ++ AssetSymbol.le_bytes 8 v) = Some v.
Proof.
  intros Hv. rewrite length_app, length_le_bytes. replace (Z.of_nat (length b + 8) - 8) with (Z.of_nat (length b)) by lia.
  rewrite <- (app_nil_r (AssetSymbol.le_bytes 8 v)) at 1. by apply number_at_app.
Qed.
Lemma number_at_index l i v : Forall (λ x, 0 ≤ x < 2 ^ 64) l → l !! i = Some v →
  number_at (8 * Z.of_nat i) (l ≫= AssetSymbol.le_bytes 8) = Some v.
Proof.
  intros Hl Hi. pose proof (take_drop_middle l i v Hi) as Hs. rewrite <- Hs, bind_app, bind_cons.
  replace (8 * Z.of_nat i) with (Z.of_nat (length (take i l ≫= AssetSymbol.le_bytes 8))).
  - apply number_at_app. by eapply Forall_lookup_1 in Hl.
  - rewrite length_numbers, length_take. apply lookup_lt_Some in Hi. lia.
Qed.
Lemma number_at_index_end l i : (length l ≤ i)%nat →
  number_at (8 * Z.of_nat i) (l ≫= AssetSymbol.le_bytes 8) = None.
Proof.
  intros Hi. unfold number_at, from. rewrite length_numbers.
  destruct (8 * Z.of_nat i <=? Z.of_nat (8 * length l)) eqn:Hle; [|done].
  apply Z.leb_le in Hle. rewrite drop_ge by (rewrite length_numbers; lia). done.
Qed.

(** *** What the files hold when they hold the blocks [l] *)
Definition fits_disk (l : list signed_block) : Prop :=
  Forall (λ b, valid Wire.signed_block b = true) l ∧ Z.of_nat (length (layout 0 l)) < 2 ^ 63.
Record holds (s : block_log_impl) (l : list signed_block) : Prop := {
  holds_blocks : block_stream s = layout 0 l;
  holds_index : index_stream s = index_of l;
  holds_good : block_good s = true ∧ index_good s = true;
  holds_head : head s = last l;
  holds_head_id : ∀ b, last l = Some b → head_id s = Block.id (Protocol.header b);
  holds_fits : fits_disk l
}.
Lemma fits_app l l' : fits_disk (l ++ l') → fits_disk l.
Proof.
  intros [Hv Hs]. apply Forall_app in Hv as [Hv _]. split; [done|]. rewrite layout_app, length_app in Hs. lia.
Qed.
Lemma offsets_fit l : fits_disk l → Forall (λ x, 0 ≤ x < 2 ^ 64) (offsets 0 l).
Proof.
  induction l as [|b l IH] using rev_ind; [constructor|]. intros Hf. pose proof (fits_app _ _ Hf) as [Hv Hs].
  rewrite offsets_app. apply Forall_app. split; [by apply IH|]. constructor; [simpl; lia|constructor].
Qed.
(** A block in the middle of the file is found at its offset. *)
Lemma layout_lookup l i b : l !! i = Some b → ∃ pos rest, offsets 0 l !! i = Some pos ∧ 0 ≤ pos ∧
  from pos (layout 0 l) = pack b ++ AssetSymbol.le_bytes 8 pos ++ rest.
Proof.
  intros Hi. pose proof (take_drop_middle l i b Hi) as Hs. rewrite <- Hs.
  assert (Hlen : length (take i l) = i) by (apply length_take_le; apply lookup_lt_Some in Hi; lia).
  set (pre := take i l) in *. exists (Z.of_nat (length (layout 0 pre))). rewrite offsets_app, layout_app. cbn [layout offsets].
  eexists. split; [rewrite lookup_app_r; rewrite length_offsets, Hlen; [by rewrite Nat.sub_diag|done]|].
  split; [lia|]. rewrite from_app. done.
Qed.
Lemma dec_pack b rest : valid Wire.signed_block b = true → dec Wire.signed_block 0 (pack b ++ rest) = (Ok b, rest).
Proof.
  intros Hv. destruct (Codec.codec_reads Wire.signed_block b Hv eq_refl) as (bs & Hb & Hd).
  unfold pack, Digest.packed. by rewrite Hb.
Qed.

(** *** Each operation on files that hold the blocks [l] *)
Lemma rethrow_ok {A} (m : M A) s a s' : m s = (Ok a, s') → rethrow m s = (Ok a, s').
Proof. intros Hm. unfold rethrow, try_catch. by rewrite Hm. Qed.
Lemma unpack_block_ok s pos b rest : block_good s = true → valid Wire.signed_block b = true →
  from pos (block_stream s) = pack b ++ rest →
  unpack_block pos s = (Ok (b, Z.of_nat (length (block_stream s) - length rest)), s).
Proof. intros Hg Hv Hf. unfold unpack_block. rewrite bind_run. cbn [get_st]. by rewrite Hg, Hf, dec_pack. Qed.
Lemma read_block_helper_ok s pos b rest : block_good s = true → valid Wire.signed_block b = true →
  from pos (block_stream s) = pack b ++ rest →
  read_block_helper pos s = (Ok (b, Z.of_nat (length (block_stream s) - length rest) + 8), s).
Proof.
  intros Hg Hv Hf. apply rethrow_ok. rewrite bind_run, (unpack_block_ok s pos b rest) by done. done.
Qed.
Lemma read_number_ok s pos v : block_good s = true → number_at pos (block_stream s) = Some v → read_number pos s = (Ok v, s).
Proof. intros Hg Hn. unfold read_number. rewrite bind_run. cbn. by rewrite Hn, Hg. Qed.
Lemma read_index_ok s pos v : index_good s = true → number_at pos (index_stream s) = Some v → read_index pos s = (Ok v, s).
Proof. intros Hg Hn. unfold read_index. rewrite bind_run. cbn. by rewrite Hn, Hg. Qed.

Lemma append_holds s l b : holds s l → fits_disk (l ++ [b]) →
  if Z.of_nat (length l) =? u32 (Block.block_num (Protocol.header b) - 1)
  then ∃ s', append b s = (Ok (Z.of_nat (length (layout 0 l))), s') ∧ holds s' (l ++ [b])
  else append b s = (Exc AssertException, s).
Proof.
  intros [Hb Hi [Hgb Hgi] Hh Hid Hf] Hfit. unfold append, rethrow, try_catch. rewrite bind_run. cbn [get_st].
  rewrite Hgb, Hgi. cbn [negb]. rewrite bind_run, Hi, length_index.
  replace (Z.of_nat (8 * length l) =? 8 * u32 (Block.block_num (Protocol.header b) - 1))
    with (Z.of_nat (length l) =? u32 (Block.block_num (Protocol.header b) - 1)) by (apply eq_true_iff_eq; rewrite !Z.eqb_eq; lia).
  destruct (Z.of_nat (length l) =? _); [|done]. cbn [fc_assert]. unfold mret, St_ret.
  assert (Hv : valid Wire.signed_block b = true) by (destruct Hfit as [Hv _]; by apply Forall_app in Hv as [_ [? _]%Forall_cons]).
  rewrite bind_run. unfold lift. rewrite (Digest.packed_ok _ _ Hv). rewrite bind_run. unfold write_block. rewrite Hgb.
  rewrite bind_run. cbn [block_good]. rewrite bind_run. unfold write_index. cbn [index_good]. rewrite Hgi, bind_run.
  unfold set_head. cbn [block_stream index_stream block_good index_good head head_id]. rewrite Hb.
  eexists. split; [reflexivity|]. split; cbn [block_stream index_stream block_good index_good head head_id].
  - rewrite layout_snoc, <- app_assoc. done.
  - rewrite index_snoc, Hi. done.
  - done.
  - by rewrite last_snoc.
  - intros b'. rewrite last_snoc. by intros [= ->].
  - done.
Qed.
Lemma read_by_num_holds s l n : holds s l →
  ∃ s', read_block_by_num n s = (Log.read_block_by_num n l, s') ∧
    (is_ok (Log.read_block_by_num n l) = true → s' = s).
Proof.
  intros [Hb Hi [Hgb Hgi] Hh Hid [Hv Hs]].
  assert (Hpos : get_block_pos_helper n s =
    match last l with
    | Some h => if (n <=? Block.num_from_id (Block.id (Protocol.header h))) && (0 <? n) then rethrow (read_index (8 * (n - 1))) s
                else (Ok npos, s)
    | None => (Ok npos, s)
    end).
  { unfold get_block_pos_helper, rethrow, try_catch. rewrite bind_run. cbn [get_st]. rewrite Hh.
    destruct (last l) as [h|] eqn:Hl; [|done]. rewrite (Hid h eq_refl). simpl.
    by destruct ((n <=? _) && (0 <? n)). }
  unfold read_block_by_num, rethrow at 1, try_catch. rewrite bind_run, Hpos. unfold Log.read_block_by_num, Log.head.
  destruct (last l) as [h|]; [|by exists s]. destruct ((n <=? _) && (0 <? n)) eqn:Hn; [|by exists s]. bool_hyps.
  assert (He : 8 * (n - 1) = 8 * Z.of_nat (Z.to_nat (n - 1))) by lia. rewrite He.
  destruct (l !! Z.to_nat (n - 1)) as [b|] eqn:Hlook.
  - destruct (layout_lookup l _ b Hlook) as (pos & rest & Hoff & Hp & Hfrom).
    pose proof (offsets_fit l (conj Hv Hs)) as Hfit.
    rewrite (rethrow_ok _ s pos s).
    2: { apply read_index_ok; [done|]. rewrite Hi. by apply number_at_index. }
    assert (Hlt : pos < npos).
    { unfold npos. assert (pos ≤ Z.of_nat (length (layout 0 l))); [|lia]. unfold from in Hfrom.
      destruct (Z.leb_spec pos (Z.of_nat (length (layout 0 l)))); [done|]. destruct (pack b); done. }
    destruct (Z.eqb_spec pos npos); [lia|]. cbn [negb].
    rewrite bind_run, (read_block_helper_ok s pos b (AssetSymbol.le_bytes 8 pos ++ rest)); [|done| |by rewrite Hb].
    + exists s. cbn. by destruct (Block.block_num (Protocol.header b) =? n).
    + by eapply Forall_lookup_1 in Hv.
  - unfold rethrow, try_catch, read_index. rewrite bind_run. cbn [get_st]. rewrite Hi.
    unfold index_of. rewrite number_at_index_end by (rewrite length_offsets; by apply lookup_ge_None). by eexists.
Qed.

(** *** Opening the files *)
Definition with_index (i : bytes) (s : block_log_impl) : block_log_impl :=
  mkLog (block_stream s) i true true (head s) (head_id s).
Lemma entry_size b pos r : (8 ≤ length (pack b ++ AssetSymbol.le_bytes 8 pos ++ r))%nat.
Proof. rewrite !length_app, length_le_bytes. lia. Qed.
Lemma layout_entries l : (length l ≤ length (layout 0 l))%nat.
Proof.
  induction l as [|b l IH] using rev_ind; [done|]. rewrite layout_snoc, !length_app, length_le_bytes. simpl. lia.
Qed.
Lemma index_loop_ok w bl : fits_disk (w ++ [bl]) → ∀ l2 l1 fuel pos s,
  w ++ [bl] = l1 ++ l2 → block_stream s = layout 0 (w ++ [bl]) → index_stream s = index_of l1 →
  block_good s = true → index_good s = true → (length l2 ≤ fuel)%nat →
  match l2 with [] => pos = Z.of_nat (length (layout 0 w)) | _ :: _ => pos < Z.of_nat (length (layout 0 w)) end →
  index_loop fuel (Z.of_nat (length (layout 0 l1))) pos (Z.of_nat (length (layout 0 w))) s =
    (Ok tt, with_index (index_of (w ++ [bl])) s).
Proof.
  intros [Hv Hs]. induction l2 as [|b l2 IH]; intros l1 fuel pos s HW Hb Hi Hgb Hgi Hfuel Hpos.
  - subst pos. rewrite app_nil_r in HW. subst l1. destruct s as [bf xf gb gi h hid]. simpl in *. subst.
    destruct fuel; simpl; by rewrite Z.ltb_irrefl.
  - destruct fuel as [|fuel]; [simpl in Hfuel; lia|]. cbn [index_loop]. rewrite (proj2 (Z.ltb_lt _ _)) by done.
    set (p := Z.of_nat (length (layout 0 l1))).
    assert (Hsplit : layout 0 (w ++ [bl]) = layout 0 l1 ++ pack b ++ AssetSymbol.le_bytes 8 p ++
      layout (p + Z.of_nat (length (pack b)) + 8) l2) by (rewrite HW, layout_app; done).
    assert (Hvb : valid Wire.signed_block b = true).
    { rewrite HW in Hv. by apply Forall_app in Hv as [_ [? _]%Forall_cons]. }
    assert (Hp64 : 0 ≤ p < 2 ^ 64) by (rewrite Hsplit, length_app in Hs; lia).
    rewrite bind_run, (unpack_block_ok s p b (AssetSymbol.le_bytes 8 p ++ layout (p + Z.of_nat (length (pack b)) + 8) l2) Hgb Hvb)
      by (rewrite Hb, Hsplit; apply from_app).
    set (tell := Z.of_nat _).
    assert (Htell : tell = Z.of_nat (length (layout 0 l1 ++ pack b))).
    { unfold tell. rewrite Hb, Hsplit, !length_app. lia. }
    rewrite bind_run, (read_number_ok s tell p Hgb).
    2: { rewrite Hb, Hsplit, Htell, app_assoc. by apply number_at_app. }
    rewrite bind_run. unfold write_index at 1. rewrite Hgi.
    replace (tell + 8) with (Z.of_nat (length (layout 0 (l1 ++ [b]))))
      by (rewrite Htell, layout_snoc, !length_app, length_le_bytes; lia).
    rewrite (IH (l1 ++ [b])); cbn [block_stream index_stream block_good index_good]; [done|..].
    + by rewrite <- app_assoc.
    + done.
    + rewrite index_snoc, Hi. done.
    + done.
    + done.
    + simpl in Hfuel. lia.
    + destruct l2 as [|b' l2'].
      * apply app_inj_tail in HW as [-> _]. done.
      * destruct (exists_last (l:=b' :: l2') ltac:(done)) as (r & x & Hr). rewrite Hr in HW.
        assert (HW' : w ++ [bl] = (l1 ++ b :: r) ++ [x]) by (rewrite <- app_assoc; exact HW).
        apply app_inj_tail in HW' as [-> _]. rewrite layout_app, length_app. cbn [layout].
        pose proof (entry_size b (0 + p) (layout (0 + p + Z.of_nat (length (pack b)) + 8) r)). fold p. lia.
Qed.
Lemma index_loop_stop fuel a pos s : index_loop fuel a pos pos s = (Ok tt, s).
Proof. destruct fuel; cbn [index_loop]; by rewrite Z.ltb_irrefl. Qed.
Lemma last_number_ok s w bl : block_good s = true → block_stream s = layout 0 (w ++ [bl]) → fits_disk (w ++ [bl]) →
  last_number s = (Ok (Z.of_nat (length (layout 0 w))), s).
Proof.
  intros Hg Hb [_ Hs]. unfold last_number. rewrite bind_run. cbn [get_st]. rewrite Hb.
  destruct (Nat.ltb_spec (length (layout 0 (w ++ [bl]))) 8) as [Hlt|_].
  { rewrite layout_snoc, !length_app, length_le_bytes in Hlt. lia. }
  apply read_number_ok; [done|]. rewrite Hb. rewrite layout_snoc, app_assoc in Hs |- *. apply number_at_end.
  rewrite !length_app in Hs. lia.
Qed.
Lemma construct_index_ok s w bl : block_stream s = layout 0 (w ++ [bl]) → fits_disk (w ++ [bl]) → w ≠ [] →
  construct_index s = (Ok tt, with_index (index_of (w ++ [bl])) s).
Proof.
  intros Hb Hf Hw. apply rethrow_ok. rewrite bind_run. cbn [clear_index]. rewrite bind_run. cbn [clear_block_state].
  cbn [block_stream index_stream index_good head head_id].
  rewrite bind_run, (last_number_ok _ w bl) by done. rewrite bind_run. cbn [get_st block_stream]. rewrite bind_run.
  rewrite Hb, (proj2 (Z.leb_le _ _)) by (rewrite layout_app, length_app; lia). cbn [fc_assert]. unfold mret, St_ret.
  rewrite <- Hb. rewrite (index_loop_ok w bl Hf (w ++ [bl]) [] _ 0); [done..| |].
  - rewrite Hb. apply layout_entries.
  - destruct w as [|b w]; [done|]. cbn [app layout]. pose proof (entry_size b 0 (layout (0 + Z.of_nat (length (pack b)) + 8) w)).
    lia.
Qed.
Lemma read_head_ok s w bl : block_good s = true → block_stream s = layout 0 (w ++ [bl]) → fits_disk (w ++ [bl]) →
  read_head s = (Ok bl, s).
Proof.
  intros Hg Hb Hf. apply rethrow_ok. rewrite bind_run, (last_number_ok s w bl) by done. rewrite bind_run.
  rewrite (read_block_helper_ok s _ bl (AssetSymbol.le_bytes 8 (Z.of_nat (length (layout 0 w))))); [done|done| |].
  - destruct Hf as [Hv _]. by apply Forall_app in Hv as [_ [? _]%Forall_cons].
  - by rewrite Hb, layout_snoc, from_app.
Qed.
(** An index that is not mistaken for a good one: its last entry is not that of
    the head, or it is the right index. *)
Definition telling_index (i : bytes) (l : list signed_block) : Prop :=
  i = [] ∨ (8 ≤ length i)%nat ∧
    (number_at (Z.of_nat (length i) - 8) i = last (offsets 0 l) → i = index_of l).
Lemma open_recovers s l : block_stream s = layout 0 l → fits_disk l → head s = None → length l ≠ 1%nat →
  telling_index (index_stream s) l → ∃ s', open s = (Ok tt, s') ∧ holds s' l.
Proof.
  intros Hb Hf Hh Hl Hi. unfold open. rewrite bind_run. cbn [open_streams]. rewrite bind_run. cbn [get_st block_stream index_stream].
  destruct l as [|bl w _] using rev_ind.
  - rewrite Hb. cbn [layout length Nat.ltb Nat.leb]. destruct (index_stream s) as [|x i]; cbn.
    + eexists. split; [reflexivity|]. by split.
    + eexists. split; [reflexivity|]. by split.
  - assert (Hw : w ≠ []) by (intros ->; done).
    rewrite Hb. destruct (Nat.ltb_spec 0 (length (layout 0 (w ++ [bl])))) as [_|Hz].
    2: { rewrite layout_snoc, !length_app, length_le_bytes in Hz. lia. }
    set (s1 := mkLog _ _ true true _ _). assert (Hb1 : block_stream s1 = layout 0 (w ++ [bl])) by done.
    rewrite bind_run, (read_head_ok s1 w bl) by done. rewrite bind_run. cbn [set_head].
    set (s2 := mkLog _ _ _ _ _ _). assert (Hb2 : block_stream s2 = layout 0 (w ++ [bl])) by done.
    assert (Hdone : holds (with_index (index_of (w ++ [bl])) s2) (w ++ [bl])).
    { split; cbn; [done..|by rewrite last_snoc| |done]. intros b. rewrite last_snoc. by intros [= ->]. }
    destruct Hi as [Hnil|[Hlen Hlast]].
    { rewrite Hnil. cbn [length Nat.ltb Nat.leb]. rewrite (construct_index_ok s2 w bl) by done. by eexists. }
    destruct (Nat.ltb_spec 0 (length (index_stream s))) as [_|]; [|lia].
    rewrite bind_run, (last_number_ok s2 w bl) by done. rewrite bind_run. unfold last_index. rewrite bind_run.
    cbn [get_st]. change (index_stream s2) with (index_stream s).
    destruct (Nat.ltb_spec (length (index_stream s)) 8) as [|_]; [lia|].
    destruct (number_at (Z.of_nat (length (index_stream s)) - 8) (index_stream s)) as [v|] eqn:Hn.
    + rewrite (read_index_ok s2 _ v) by done.
      destruct (Z.ltb_spec (Z.of_nat (length (layout 0 w))) v), (Z.ltb_spec v (Z.of_nat (length (layout 0 w))));
        try (rewrite (construct_index_ok s2 w bl) by done; by eexists).
      eexists. split; [reflexivity|]. assert (Hv : v = Z.of_nat (length (layout 0 w))) by lia.
      specialize (Hlast ltac:(rewrite offsets_app; cbn [offsets]; by rewrite last_snoc, Hv)).
      unfold s2, s1. unfold with_index, s2, s1 in Hdone. cbn in Hdone |- *. by rewrite Hlast.
    + exfalso. unfold number_at, from in Hn. rewrite (proj2 (Z.leb_le _ _)) in Hn by lia.
      rewrite length_take, length_drop in Hn.
      replace (8 `min` _)%nat with 8%nat in Hn by lia. done.
Qed.
End layout.

(** Three blocks of a chain, to run the log. *)
Module LogDemo.
Definition blk (n : Z) : signed_block :=
  mkBlock (mkHeader [Block.endian_reverse_u32 (n - 1); 0; 0; 0; 0] (1000 + n) "alice" [0; 0; 0; 0; 0] [] 0) [].
Definition empty : block_log_impl := mkLog [] [] true true None [0; 0; 0; 0; 0].
Definition run : St block_log_impl unit := BlockLog.append (blk 1) ;; BlockLog.append (blk 2) ;; BlockLog.append (blk 3) ;; mret tt.
Definition three : block_log_impl := (run empty).2.
Lemma fits (l : list Z) : forallb (λ n, valid Wire.signed_block (blk n)) l = true →
  (Z.of_nat (length (layout 0 (blk <$> l))) <? 2 ^ 63) = true → fits_disk (blk <$> l).
Proof.
  intros Hl Hs%Z.ltb_lt. split; [|done]. apply Forall_fmap, Forall_forall. intros n Hn.
  by eapply forallb_forall in Hl; [|by apply list_elem_of_In].
Qed.
Lemma holds_empty : holds empty [].
Proof. split; [done..|]. split; [constructor|done]. Qed.
Lemma holds_three : holds three (blk <$> [1; 2; 3]).
Proof.
  assert (Hf : fits_disk (blk <$> [1; 2; 3])) by (apply (fits [1; 2; 3]); vm_compute; reflexivity).
  destruct (append_holds empty [] (blk 1) holds_empty ltac:(apply (fits [1]); vm_compute; reflexivity)) as (s1 & E1 & H1).
  destruct (append_holds s1 [blk 1] (blk 2) H1 ltac:(apply (fits [1; 2]); vm_compute; reflexivity)) as (s2 & E2 & H2).
  destruct (append_holds s2 [blk 1; blk 2] (blk 3) H2 Hf) as (s3 & E3 & H3).
  unfold three, run. rewrite bind_run, E1, bind_run, E2, bind_run, E3. exact H3.
Qed.
End LogDemo.

(** C18: The two files implement the sequence of blocks that the chain works
    with: reading a block by its number returns what the sequence has, with the
    same errors, and appending succeeds exactly when it does on the sequence;
    afterwards the files hold the longer sequence, and after a refusal they are
    as before. *)
Theorem disk_log_refines_sequence `{Abi} `{Env} (s : block_log_impl) (db : database) (b : signed_block) (n : Z) :
  holds s (block_log db) → fits_disk (block_log db ++ [b]) →
  (∃ s', BlockLog.read_block_by_num n s = (Log.read_block_by_num n (block_log db), s') ∧
     (is_ok (Log.read_block_by_num n (block_log db)) = true → s' = s)) ∧
  match Apply.log_append b db with
  | (Ok _, db') => ∃ pos s', BlockLog.append b s = (Ok pos, s') ∧ holds s' (block_log db')
  | (Exc e, db') => BlockLog.append b s = (Exc e, s) ∧ db' = db
  end.
Proof.
  intros Hh Hf. split; [by apply read_by_num_holds|]. pose proof (append_holds s _ b Hh Hf) as Ha.
  unfold Apply.log_append. rewrite bind_run. cbn [gets]. rewrite bind_run. unfold fc_assert.
  destruct (Z.of_nat (length (block_log db)) =? _); [|by split]. cbn. destruct Ha as (s' & Ha & Hs). by eexists _, _.
Qed.
Lemma disk_log_refines_sequence_witness :
  let db := Apply.set_block_log (LogDemo.blk <$> [1; 2; 3]) Demo.empty_db in
  ∃ pos s', BlockLog.append (LogDemo.blk 4) LogDemo.three = (Ok pos, s') ∧
    holds s' (block_log (Apply.log_append (LogDemo.blk 4) db).2).
Proof.
  intros db. assert (Hf : fits_disk (block_log db ++ [LogDemo.blk 4]))
    by (apply (LogDemo.fits [1; 2; 3; 4]); vm_compute; reflexivity).
  pose proof (proj2 (disk_log_refines_sequence LogDemo.three db (LogDemo.blk 4) 2 LogDemo.holds_three Hf)) as Ha.
  exact Ha.
Defined.

(** The log survives its index.  From the block file alone — the index gone,
    cut off anywhere behind its first entry, or from another file — opening
    rebuilds the index and the head, for every log that does not have exactly
    one block. *)
Theorem reopened_log_recovers `{Abi} `{Env} (s : block_log_impl) (l : list signed_block) (i : bytes) :
  holds s l → length l ≠ 1%nat → telling_index i l →
  ∃ s', (BlockLog.close ;; (λ t, (Ok tt, mkLog (block_stream t) i (block_good t) (index_good t) (head t) (head_id t))) ;;
         BlockLog.open) s = (Ok tt, s') ∧ holds s' l.
Proof.
  intros Hh Hl Hi. rewrite bind_run. cbn [BlockLog.close]. rewrite bind_run.
  apply open_recovers; [apply Hh|apply Hh|done|done|done].
Qed.
Lemma reopened_log_recovers_witness :
  ∃ s', (BlockLog.close ;;
         (λ t, (Ok tt, mkLog (block_stream t) (take 8 (index_stream LogDemo.three)) (block_good t) (index_good t) (head t) (head_id t))) ;;
         BlockLog.open) LogDemo.three = (Ok tt, s') ∧ holds s' (LogDemo.blk <$> [1; 2; 3]).
Proof.
  apply (reopened_log_recovers LogDemo.three (LogDemo.blk <$> [1; 2; 3])); [exact LogDemo.holds_three|discriminate|].
  right. split; [apply Nat.leb_le; vm_compute; reflexivity|]. intros Hn. exfalso. vm_compute in Hn. discriminate.
Defined.

(** A log of one block does not: the loop that rebuilds the index does not
    run, the index stays empty, the block cannot be read by its number and no
    second block can be appended. *)
Theorem single_block_index_lost `{Abi} `{Env} (s : block_log_impl) (b b2 : signed_block) :
  holds s [b] → Block.block_num (Protocol.header b) = 1 → Block.num_from_id (Block.id (Protocol.header b)) = 1 →
  Block.block_num (Protocol.header b2) = 2 →
  let disk := mkLog (block_stream s) [] true true None (replicate 5 0) in
  ∃ s', BlockLog.open disk = (Ok tt, s') ∧ index_stream s' = [] ∧ head s' = Some b ∧
    (BlockLog.read_block_by_num 1 s').1 = Exc FcException ∧
    BlockLog.append b2 s' = (Exc AssertException, s').
Proof.
  intros [Hb _ _ _ _ Hf] Hnum Hid Hnum2 disk. pose proof (last_number_ok disk [] b eq_refl Hb Hf) as Hlast.
  set (s' := mkLog (block_stream s) [] true true (Some b) (Block.id (Protocol.header b))).
  assert (Hopen : BlockLog.open disk = (Ok tt, s')).
  { unfold BlockLog.open. rewrite bind_run. cbn [BlockLog.open_streams]. rewrite bind_run. cbn [get_st block_stream index_stream].
    change (mkLog (block_stream disk) (index_stream disk) true true (head disk) (head_id disk)) with disk.
    change (block_stream disk) with (block_stream s). change (index_stream disk) with (@nil Z).
    destruct (Nat.ltb_spec 0 (length (block_stream s))) as [_|Hz].
    2: { rewrite Hb in Hz. pose proof (entry_size b 0 []). cbn [layout] in Hz. lia. }
    rewrite bind_run, (read_head_ok disk [] b eq_refl Hb Hf). rewrite bind_run. cbn [BlockLog.set_head length Nat.ltb Nat.leb].
    apply rethrow_ok. rewrite bind_run. cbn [BlockLog.clear_index]. rewrite bind_run. cbn [BlockLog.clear_block_state].
    rewrite bind_run, (last_number_ok _ [] b) by (exact Hb || exact Hf || reflexivity).
    rewrite bind_run. cbn [get_st]. rewrite bind_run.
    rewrite (proj2 (Z.leb_le _ _)) by (simpl; lia). cbn [fc_assert].
    change (Z.of_nat (length (layout 0 []))) with 0. unfold mret, St_ret. by rewrite index_loop_stop. }
  exists s'. split; [done|]. split; [done|]. split; [done|]. split.
  - unfold BlockLog.read_block_by_num, BlockLog.rethrow at 1, try_catch. rewrite bind_run.
    unfold BlockLog.get_block_pos_helper, BlockLog.rethrow, try_catch. rewrite bind_run. cbn [get_st].
    unfold s'. cbn [head head_id]. rewrite Hid. done.
  - unfold BlockLog.append, BlockLog.rethrow, try_catch. rewrite bind_run. cbn [get_st]. unfold s'. cbn. by rewrite Hnum2.
Qed.
Lemma single_block_index_lost_witness :
  ∃ s', BlockLog.open (mkLog (block_stream (BlockLog.append (LogDemo.blk 1) LogDemo.empty).2) [] true true None (replicate 5 0)) =
      (Ok tt, s') ∧ BlockLog.append (LogDemo.blk 2) s' = (Exc AssertException, s').
Proof.
  destruct (append_holds LogDemo.empty [] (LogDemo.blk 1) LogDemo.holds_empty
    ltac:(apply (LogDemo.fits [1]); vm_compute; reflexivity)) as (s1 & E1 & H1).
  destruct (single_block_index_lost s1 (LogDemo.blk 1) (LogDemo.blk 2) H1 eq_refl eq_refl eq_refl)
    as (s' & Ho & _ & _ & _ & Ha).
  exists s'. split; [|exact Ha]. rewrite E1. exact Ho.
Defined.
