(* ===== verification/Peer.v ===== *)
(** * What a node tells its peers

    libraries/plugins/p2p/p2p_plugin.cpp, the functions through which the network
    code reads the chain and feeds it, and what they use of
    libraries/chain/database.cpp and libraries/plugins/chain/chain_plugin.cpp.
    A synopsis and its answer are lists of block ids that two nodes exchange;
    Net.v is the network code that does it. *)
From stdpp Require Import sorting.
From S2P Require Import Prelude Safe Chainbase Asset Protocol Block ForkDatabase Objects Database Apply.

Module Peer.
Section with_env.
Context `{Env}.

(** ** The database, read *)
Definition get_block_id_for_num (block_num : Z) : DB block_id_type :=
  bid ← Store.find_block_id_for_num block_num;
  if bool_decide (bid = null_block_id) then mthrow KeyNotFound else mret bid.
Definition get_recent_transaction (trx_id : transaction_id_type) : DB signed_transaction := capture_rethrow (
  x ← gets (find_first t_transaction (λ x, bool_decide (to_trx_id x = trx_id)));
  match x with
  | None => mthrow AssertException
  | Some x => get_or FcException (λ _, to_packed_trx x)
  end).
Definition item_of (a : ForkDb.addr) : DB ForkDb.fork_item := get_or Fault (λ s, ForkDb.deref (fork_db s) a).
Fixpoint ids_of (l : list ForkDb.addr) : DB (list block_id_type) :=
  match l with [] => mret [] | a :: l => it ← item_of a; r ← ids_of l; mret (ForkDb.id it :: r) end.
Definition get_block_ids_on_fork (head_of_fork : block_id_type) : DB (list block_id_type) := capture_rethrow (
  h ← Db.head_block_id;
  s ← get_st;
  '(first, second) ← lift (ForkDb.fetch_branch_from h head_of_fork (fork_db s));
  result ← ids_of second;
  back ← get_or Fault (λ _, last first);
  it ← item_of back;
  mret (result ++ [ForkDb.previous_id it])).

(** ** The delegate of the network code *)
Definition is_included_block (block_id : block_id_type) : DB bool :=
  try_catch
    (block_id_in_preferred_chain ← get_block_id_for_num (Block.num_from_id block_id);
     mret (bool_decide (block_id = block_id_in_preferred_chain)))
    (λ e, if bool_decide (e = KeyNotFound) then mret false else mthrow (to_fc e)).
Definition has_block (id : block_id_type) : DB bool := capture_rethrow (Store.is_known_block id).
Definition has_transaction (id : transaction_id_type) : DB bool := gets (Db.is_known_transaction id).

(** The last block of a synopsis that is on our chain. *)
Fixpoint last_known (synopsis : list block_id_type) : DB (option block_id_type) :=
  match synopsis with
  | [] => mret None
  | id :: older =>
      ok ← (if bool_decide (id = null_block_id) then mret true
            else known ← Store.is_known_block id;
                 if known : bool then is_included_block id else mret false);
      if ok : bool then mret (Some id) else last_known older
  end.
(** [for( num = ...; num <= head_block_num && result.size() < limit; ++num )]
    for a number above zero; [room] is what is left of the limit. *)
Fixpoint ids_from (room : nat) (num head_num : Z) : DB (list block_id_type) :=
  match room with
  | O => mret []
  | S room' =>
      if num <=? head_num then
        id ← get_block_id_for_num num; rest ← ids_from room' (num + 1) head_num; mret (id :: rest)
      else mret []
  end.
(** The answer to a synopsis: block ids, and how many blocks follow them.
    Nothing is pushed for number 0. *)
Definition get_block_ids (blockchain_synopsis : list block_id_type) (limit : Z) : DB (list block_id_type * Z) :=
  capture_rethrow (
  head_num ← Db.head_block_num;
  if head_num =? 0 then mret ([], 0)
  else
    last_known_block_id ←
      (if bool_decide (blockchain_synopsis = []) || bool_decide (blockchain_synopsis = [null_block_id])
       then mret null_block_id
       else r ← last_known (reverse blockchain_synopsis);
            match r with Some id => mret id | None => mthrow UnreachableFork end);
    let num := Block.num_from_id last_known_block_id in
    result ← ids_from (Z.to_nat limit) (if num =? 0 then 1 else num) head_num;
    mret (result, match last result with
                  | Some back => if Block.num_from_id back <? head_num then u32 (head_num - Block.num_from_id back) else 0
                  | None => 0
                  end)).

(** [low += ( true_high - low + 2 ) / 2] *)
Definition next_low (low true_high : Z) : Z := u32 (low + u32 (true_high - low + 2) / 2).
(** [do ... while( low_block_num <= high_block_num )]: which numbers are taken.
    What is left above a number is at least halved, so 33 turns are enough. *)
Fixpoint synopsis_nums (fuel : nat) (low high true_high : Z) : list Z :=
  match fuel with
  | O => []
  | S fuel' =>
      let low' := next_low low true_high in
      low :: (if low' <=? high then synopsis_nums fuel' low' high true_high else [])
  end.
(** Where the id of each number comes from. *)
Fixpoint synopsis_ids (nums : list Z) (non_fork_high : Z) (fork_history : list block_id_type) : DB (list block_id_type) :=
  match nums with
  | [] => mret []
  | low :: nums' =>
      id ← (if low <=? non_fork_high then get_block_id_for_num low
            else get_or Fault (λ _, fork_history !! Z.to_nat (low - non_fork_high - 1)));
      rest ← synopsis_ids nums' non_fork_high fork_history;
      mret (id :: rest)
  end.
(** What the synopsis spans: the lowest and the highest number, the highest one
    on our chain, and the ids above that on a fork; [None] for an empty chain. *)
Definition synopsis_range (reference_point : block_id_type) : DB (option (Z * Z * Z * list block_id_type)) :=
  low ← Db.last_non_undoable_block_num;
  if bool_decide (reference_point = null_block_id) then
    high ← Db.head_block_num;
    if high =? 0 then mret None else mret (Some (low, high, high, []))
  else
    included ← is_included_block reference_point;
    if included : bool then
      let num := Block.num_from_id reference_point in
      mret (Some (if num <? low then num else low, num, num, []))
    else
      history ← get_block_ids_on_fork reference_point;
      last_non_fork ← get_or Fault (λ _, last history);
      let fork_history := reverse (take (length history - 1) history) in
      let non_fork_high := if bool_decide (last_non_fork = null_block_id) then 0 else Block.num_from_id last_non_fork in
      let high := u32 (non_fork_high + Z.of_nat (length fork_history)) in
      assert_or (negb (non_fork_high <? low)) OlderThanUndoHistory ;;
      mret (Some (low, high, non_fork_high, fork_history)).
Definition get_blockchain_synopsis (reference_point : block_id_type) (number_of_blocks_after : Z) :
    DB (list block_id_type) := capture_rethrow (
  r ← synopsis_range reference_point;
  match r with
  | None => mret []
  | Some (low, high, non_fork_high, fork_history) =>
      let low := if low =? 0 then 1 else low in
      synopsis_ids (synopsis_nums 33 low high (u32 (high + number_of_blocks_after))) non_fork_high fork_history
  end).

(** [get_item] *)
Definition get_block_item (id : block_id_type) : DB signed_block := capture_rethrow (
  b ← Store.fetch_block_by_id id;
  match b with
  | Some b => mret b
  | None => get_block_id_for_num (Block.num_from_id id) ;; mthrow AssertException
  end).
Definition get_transaction_item (id : transaction_id_type) : DB signed_transaction := get_recent_transaction id.
Definition get_block_number (id : block_id_type) : Z := Block.num_from_id id.
Definition get_block_time (id : block_id_type) : DB time_point_sec := capture_rethrow (
  b ← Store.fetch_block_by_id id;
  mret (match b with Some b => timestamp (header b) | None => 0 end)).
Definition get_head_block_id : DB block_id_type := capture_rethrow Db.head_block_id.
End with_env.
End Peer.

(** ** The numbers of a synopsis *)
Section numbers.
Import Peer.

Lemma next_low_value low true_high : 1 ≤ low ≤ true_high → true_high < 2 ^ 32 - 1 →
  next_low low true_high = low + (true_high - low + 2) / 2 ∧ low < next_low low true_high ≤ true_high + 1.
Proof.
  intros Hl Ht. pose proof (Z.div_mod (true_high - low + 2) 2 ltac:(lia)). pose proof (Z.mod_pos_bound (true_high - low + 2) 2 ltac:(lia)).
  unfold next_low. rewrite (u32_id (true_high - low + 2)), u32_id by lia. lia.
Qed.
(** The numbers go up from [low] to at most [high]; from every number on the way
    the last one taken is at most twice as far from the end. *)
Lemma synopsis_nums_spec fuel : ∀ low high true_high, 1 ≤ low ≤ high → high ≤ true_high → true_high < 2 ^ 32 - 1 →
  true_high - low + 1 < 2 ^ Z.of_nat fuel →
  let nums := synopsis_nums fuel low high true_high in
  head nums = Some low ∧ StronglySorted Z.lt nums ∧ Forall (λ x, low ≤ x ≤ high) nums ∧
  ∀ m, low ≤ m ≤ high → ∃ x, x ∈ nums ∧ x ≤ m ∧ true_high - x ≤ 2 * (true_high - m).
Proof.
  induction fuel as [|fuel IH]; intros low high true_high Hl Ht Hu Hf; [change (2 ^ Z.of_nat 0) with 1 in Hf; lia|].
  cbn [synopsis_nums]. destruct (next_low_value low true_high ltac:(lia) Hu) as [Hn Hb].
  set (low' := next_low low true_high) in *. rewrite Nat2Z.inj_succ, Z.pow_succ_r in Hf by lia.
  pose proof (Z.div_mod (true_high - low + 2) 2 ltac:(lia)). pose proof (Z.mod_pos_bound (true_high - low + 2) 2 ltac:(lia)).
  destruct (Z.leb_spec low' high) as [Hle|Hgt].
  - destruct (IH low' high true_high ltac:(lia) Ht Hu ltac:(lia)) as (Hh & Hs & Hr & Hd).
    split; [done|]. split; [|split].
    + constructor; [done|]. eapply Forall_impl; [exact Hr|]. simpl. lia.
    + constructor; [lia|]. eapply Forall_impl; [exact Hr|]. simpl. lia.
    + intros m Hm. destruct (decide (low' ≤ m)) as [Hge|Hlt].
      * destruct (Hd m ltac:(lia)) as (x & Hx & Hxm & Hxd). exists x. split; [by right|]. by split.
      * exists low. split; [left|]. lia.
  - split; [done|]. split; [by repeat constructor|]. split; [by repeat constructor; lia|].
    intros m Hm. exists low. split; [left|]. lia.
Qed.
Lemma synopsis_nums_length fuel : ∀ low high true_high k, 1 ≤ low ≤ high → high ≤ true_high → true_high < 2 ^ 32 - 1 →
  true_high - low + 1 < 2 ^ Z.of_nat k → (length (synopsis_nums fuel low high true_high) ≤ k)%nat.
Proof.
  induction fuel as [|fuel IH]; intros low high true_high k Hl Ht Hu Hf; [simpl; lia|].
  destruct k as [|k]; [change (2 ^ Z.of_nat 0) with 1 in Hf; lia|]. rewrite Nat2Z.inj_succ, Z.pow_succ_r in Hf by lia.
  destruct (next_low_value low true_high ltac:(lia) Hu) as [Hn Hb]. cbn [synopsis_nums].
  pose proof (Z.div_mod (true_high - low + 2) 2 ltac:(lia)). pose proof (Z.mod_pos_bound (true_high - low + 2) 2 ltac:(lia)).
  destruct (Z.leb_spec (next_low low true_high) high); [|simpl; lia]. cbn [length].
  specialize (IH (next_low low true_high) high true_high k ltac:(lia) Ht Hu ltac:(lia)). lia.
Qed.
End numbers.

(** ** A node that serves a chain

    What the functions above need of the chain of a node: [f] gives the id of
    every block from 1 to the head, and the node finds them. *)
Record serves_chain `{Env} (s : database) (f : Z → block_id_type) (head_num : Z) : Prop := {
  sc_range : 1 ≤ head_num < 2 ^ 32 - 1;
  sc_head : Db.head_block_num s = (Ok head_num, s);
  sc_id n : 1 ≤ n ≤ head_num → Peer.get_block_id_for_num n s = (Ok (f n), s);
  sc_num n : 1 ≤ n ≤ head_num → Block.num_from_id (f n) = n;
  sc_known n : 1 ≤ n ≤ head_num → Store.is_known_block (f n) s = (Ok true, s);
  sc_unknown i : ∃ b, Store.is_known_block i s = (Ok b, s);
  sc_beyond n : head_num < n → Peer.get_block_id_for_num n s = (Exc KeyNotFound, s)
}.

Section answers.
Import Peer.
Context `{Env} (s : database) (f : Z → block_id_type) (head_num : Z) (Hs : serves_chain s f head_num).

Lemma ids_from_chain room : ∀ n, 1 ≤ n ≤ head_num →
  ids_from room n head_num s = (Ok (f <$> seqZ n (Z.min (Z.of_nat room) (head_num - n + 1))), s).
Proof.
  induction room as [|room IH]; intros n Hn; [rewrite Z.min_l by lia; done|]. cbn [ids_from].
  rewrite (proj2 (Z.leb_le _ _)) by lia. rewrite bind_run, (sc_id _ _ _ Hs) by done. rewrite bind_run.
  rewrite (seqZ_cons n) by lia. rewrite fmap_cons. destruct (decide (n = head_num)) as [->|Hne].
  - replace (Z.pred _) with 0 by lia. destruct room as [|room]; [done|]. cbn [ids_from].
    rewrite (proj2 (Z.leb_gt _ _)) by lia. done.
  - rewrite IH by lia. replace (Z.pred (Z.min (Z.of_nat (S room)) (head_num - n + 1)))
      with (Z.min (Z.of_nat room) (head_num - (n + 1) + 1)) by lia. done.
Qed.
Lemma included_own n : 1 ≤ n ≤ head_num → is_included_block (f n) s = (Ok true, s).
Proof.
  intros Hn. unfold is_included_block, try_catch. rewrite bind_run, (sc_num _ _ _ Hs), (sc_id _ _ _ Hs) by done.
  unfold mret, St_ret. by rewrite bool_decide_true.
Qed.
Lemma included_other i : 1 ≤ Block.num_from_id i → (Block.num_from_id i ≤ head_num → f (Block.num_from_id i) ≠ i) →
  is_included_block i s = (Ok false, s).
Proof.
  intros Hi Hf. unfold is_included_block, try_catch. rewrite bind_run.
  destruct (decide (Block.num_from_id i ≤ head_num)) as [Hle|Hgt].
  - rewrite (sc_id _ _ _ Hs) by lia. unfold mret, St_ret. rewrite bool_decide_false; [done|]. intros He. by apply Hf.
  - rewrite (sc_beyond _ _ _ Hs) by lia. done.
Qed.
Lemma num_not_null i : 1 ≤ Block.num_from_id i → i ≠ null_block_id.
Proof. intros Hi ->. by vm_compute in Hi. Qed.
(** The ids of a synopsis of our own chain. *)
Lemma synopsis_ids_chain nums high history : Forall (λ x, 1 ≤ x ≤ head_num) nums → head_num ≤ high →
  synopsis_ids nums high history s = (Ok (f <$> nums), s).
Proof.
  intros Hn Hh. induction Hn as [|x nums Hx Hn IH]; [done|]. cbn [synopsis_ids].
  rewrite (proj2 (Z.leb_le _ _)) by lia. rewrite bind_run, (sc_id _ _ _ Hs), bind_run, IH by done. done.
Qed.
End answers.

(** ** Two nodes *)
Section two_nodes.
Import Peer.
Context `{Env} (sa sb : database) (fa fb : Z → block_id_type) (ha hb c : Z).
Context (Ha : serves_chain sa fa ha) (Hb : serves_chain sb fb hb) (Hc : 1 ≤ c ≤ ha) (Hcb : c ≤ hb).
Context (Hsame : ∀ n, 1 ≤ n ≤ c → fa n = fb n) (Hfork : ∀ n, c < n ≤ ha → n ≤ hb → fa n ≠ fb n).

(** The other node takes the first block, from the top, that is common. *)
Lemma last_known_common pre k post : Forall (λ x, c < x ≤ ha) pre → 1 ≤ k ≤ c →
  last_known (fa <$> (pre ++ k :: post)) sb = (Ok (Some (fa k)), sb).
Proof.
  intros Hpre Hk. induction Hpre as [|x pre Hx Hpre IH]; cbn [app fmap list_fmap last_known].
  - rewrite bind_run, bool_decide_false; cycle 1.
    { apply num_not_null. rewrite (sc_num _ _ _ Ha) by lia. lia. }
    rewrite bind_run, Hsame, (sc_known _ _ _ Hb), (included_own sb fb hb Hb) by lia. done.
  - assert (Hnum : Block.num_from_id (fa x) = x) by (apply (sc_num _ _ _ Ha); lia).
    rewrite bind_run, bool_decide_false by (apply num_not_null; lia).
    rewrite bind_run. destruct (sc_unknown _ _ _ Hb (fa x)) as [[|] ->]; [|exact IH].
    rewrite (included_other sb fb hb Hb); [exact IH|lia|]. rewrite Hnum. intros Hle He. by apply (Hfork x); [lia|lia|].
Qed.
Lemma first_below l : (∃ x, x ∈ l ∧ x ≤ c) → ∃ pre k post, l = pre ++ k :: post ∧ Forall (λ x, c < x) pre ∧ k ≤ c.
Proof.
  induction l as [|y l IH]; intros (x & Hx & Hle); [by apply not_elem_of_nil in Hx|].
  destruct (decide (y ≤ c)) as [Hy|Hy]; [by exists [], y, l|].
  apply elem_of_cons in Hx as [->|Hx]; [lia|]. destruct IH as (pre & k & post & -> & Hp & Hk); [by exists x|].
  exists (y :: pre), k, post. split; [done|]. split; [|done]. constructor; [lia|done].
Qed.
(** It is the highest number of the synopsis that is not above [c]. *)
Lemma first_below_max nums pre k post x : StronglySorted Z.lt nums → reverse nums = pre ++ k :: post →
  Forall (λ x, c < x) pre → x ∈ nums → x ≤ c → x ≤ k.
Proof.
  intros Hsort He Hpre Hx Hle. assert (Hx' : x ∈ pre ++ k :: post) by (rewrite <- He; by apply elem_of_reverse).
  apply elem_of_app in Hx' as [Hx'|Hx']; [eapply Forall_forall in Hpre; [|exact Hx']; simpl in Hpre; lia|].
  apply elem_of_cons in Hx' as [->|Hx']; [lia|].
  assert (Hn : nums = (reverse post ++ [k]) ++ reverse pre)
    by (rewrite <- (reverse_involutive nums), He, reverse_app, reverse_cons; done).
  rewrite Hn, <- app_assoc in Hsort.
  assert (x < k); [|lia]. eapply StronglySorted_app_1_elem_of; [exact Hsort|by apply elem_of_reverse|left].
Qed.

(** The synopsis of our chain, nothing being known beyond its head. *)
Lemma own_synopsis la : Db.last_non_undoable_block_num sa = (Ok la, sa) → 0 ≤ la ≤ c →
  ∃ nums, get_blockchain_synopsis null_block_id 0 sa = (Ok (fa <$> nums), sa) ∧
    StronglySorted Z.lt nums ∧ Forall (λ x, 1 ≤ x ≤ ha) nums ∧ (length nums ≤ 32)%nat ∧
    ∃ x, x ∈ nums ∧ x ≤ c ∧ ha - x ≤ 2 * (ha - c).
Proof.
  intros Hla Hlc. destruct (sc_range _ _ _ Ha) as [_ Hmax].
  set (low := if la =? 0 then 1 else la). assert (Hlow : 1 ≤ low ≤ c) by (unfold low; destruct (Z.eqb_spec la 0); lia).
  destruct (synopsis_nums_spec 33 low ha ha ltac:(lia) ltac:(lia) Hmax) as (_ & Hsort & Hr & Hd).
  { change (2 ^ Z.of_nat 33) with (2 ^ 33). lia. }
  exists (synopsis_nums 33 low ha ha). split; [|split; [done|split; [|split]]].
  - unfold get_blockchain_synopsis, capture_rethrow, try_catch, synopsis_range.
    rewrite bind_run. rewrite bind_run, Hla. rewrite bool_decide_true by done. rewrite bind_run, (sc_head _ _ _ Ha).
    destruct (Z.eqb_spec ha 0); [lia|]. cbn [mret St_ret]. unfold mret, St_ret. fold low. rewrite Z.add_0_r, u32_id by lia.
    rewrite (synopsis_ids_chain sa fa ha Ha); [done| |lia]. eapply Forall_impl; [exact Hr|]. simpl. lia.
  - eapply Forall_impl; [exact Hr|]. simpl. lia.
  - apply synopsis_nums_length; [lia|lia|done|]. change (2 ^ Z.of_nat 32) with (2 ^ 32). lia.
  - destruct (Hd c ltac:(lia)) as (x & Hx & Hxc & Hxd). by exists x.
Qed.
Lemma last_seqZ (f : Z → block_id_type) k n : 1 ≤ n → last (f <$> seqZ k n) = Some (f (k + n - 1)).
Proof.
  intros Hn. replace n with ((n - 1) + 1) at 1 by lia. rewrite seqZ_app, fmap_app, last_app by lia.
  rewrite (seqZ_cons (k + (n - 1)) 1) by lia. cbn. do 2 f_equal. lia.
Qed.
(** The answer to it. *)
Lemma answer_from_common nums limit : StronglySorted Z.lt nums → Forall (λ x, 1 ≤ x ≤ ha) nums → 1 ≤ limit →
  (∃ x, x ∈ nums ∧ x ≤ c ∧ ha - x ≤ 2 * (ha - c)) → ∃ k n, 1 ≤ k ≤ c ∧ ha - k ≤ 2 * (ha - c) ∧
    n = Z.min limit (hb - k + 1) ∧
    get_block_ids (fa <$> nums) limit sb = (Ok (fb <$> seqZ k n, hb - (k + n - 1)), sb).
Proof.
  intros Hsort Hr Hlim (x & Hx & Hxc & Hxd). destruct (sc_range _ _ _ Hb) as [Hb1 Hb2].
  destruct (first_below (reverse nums)) as (pre & k & post & He & Hpre & Hk); [exists x; by rewrite elem_of_reverse|].
  assert (Hall : Forall (λ x, 1 ≤ x ≤ ha) (pre ++ k :: post)) by (rewrite <- He; by apply Forall_reverse).
  apply Forall_app in Hall as [Hp1 [Hk1 _]%Forall_cons].
  pose proof (first_below_max nums pre k post x Hsort He Hpre Hx Hxc) as Hmax.
  exists k, (Z.min limit (hb - k + 1)). split; [lia|]. split; [lia|]. split; [done|].
  unfold get_block_ids, capture_rethrow, try_catch. rewrite bind_run, (sc_head _ _ _ Hb).
  destruct (Z.eqb_spec hb 0); [lia|]. rewrite bind_run.
  destruct nums as [|y nums]; [by apply not_elem_of_nil in Hx|].
  rewrite (bool_decide_false (fa <$> y :: nums = [])) by done. rewrite bool_decide_false; cycle 1.
  { intros Hnull. injection Hnull as Hnull _. apply Forall_cons in Hr as [Hy _].
    apply (num_not_null (fa y)); [rewrite (sc_num _ _ _ Ha) by lia; lia|done]. }
  cbn [orb]. rewrite bind_run, <- fmap_reverse, He, last_known_common; [|..|lia].
  2: { apply Forall_and. split; [done|]. eapply Forall_impl; [exact Hp1|]. simpl. lia. }
  unfold mret, St_ret. rewrite (sc_num _ _ _ Ha) by lia. destruct (Z.eqb_spec k 0); [lia|].
  rewrite bind_run, (ids_from_chain sb fb hb Hb) by lia. rewrite Z2Nat.id by lia.
  rewrite last_seqZ by lia. rewrite (sc_num _ _ _ Hb) by lia.
  destruct (Z.ltb_spec (k + Z.min limit (hb - k + 1) - 1) hb); [rewrite u32_id by lia; done|].
  do 3 f_equal. lia.
Qed.
End two_nodes.

(** ** A node that has just started

    All its blocks are in the log: it serves the chain of the log. *)
Section from_log.
Import Peer.
Context `{Env} (Hsha : ∀ h, length (sha224_header h) = 7%nat).
Context (s : database) (l : list signed_block) (p : dynamic_global_property_object).
Context (Hfork : fork_db s = ForkDb.empty) (Hlog : block_log s = l) (Hsum : items t_block_summary s = ∅).
Context (Hdgp : items t_dgp s !! 0 = Some p) (Hhead : dgp_head_block_number p = Z.of_nat (length l)).
Context (Hlen : 1 ≤ Z.of_nat (length l) < 2 ^ 32 - 1).
Context (Hnums : ∀ i b, l !! i = Some b → Block.block_num (header b) = Z.of_nat i + 1).

Definition log_id (n : Z) : block_id_type :=
  match l !! Z.to_nat (n - 1) with Some b => Block.id (header b) | None => null_block_id end.
Lemma log_at n : 1 ≤ n ≤ Z.of_nat (length l) → ∃ b, l !! Z.to_nat (n - 1) = Some b ∧ Block.block_num (header b) = n.
Proof.
  intros Hn. destruct (lookup_lt_is_Some_2 l (Z.to_nat (n - 1)) ltac:(lia)) as [b Hb]. exists b. split; [done|].
  rewrite (Hnums _ _ Hb). lia.
Qed.
Lemma read_log n : Log.read_block_by_num n l =
  Ok (if (1 <=? n) && (n <=? Z.of_nat (length l)) then l !! Z.to_nat (n - 1) else None).
Proof.
  unfold Log.read_block_by_num, Log.head. destruct (log_at (Z.of_nat (length l)) ltac:(lia)) as (h & Hh & Hnum).
  assert (Hlast : last l = Some h) by (rewrite last_lookup; rewrite <- Hh; f_equal; lia).
  rewrite Hlast, (header_num Hsha), Hnum. destruct (Z.leb_spec 1 n), (Z.leb_spec n (Z.of_nat (length l))), (Z.ltb_spec 0 n);
    try lia; cbn [andb]; try done.
  destruct (log_at n ltac:(lia)) as (b & -> & Hb). by rewrite Hb, Z.eqb_refl.
Qed.
Lemma id_for_num n : 1 ≤ n → get_block_id_for_num n s =
  if n <=? Z.of_nat (length l) then (Ok (log_id n), s) else (Exc KeyNotFound, s).
Proof.
  intros Hn. unfold get_block_id_for_num, Store.find_block_id_for_num. destruct (Z.eqb_spec n 0); [lia|].
  rewrite bind_run, bind_run. unfold gets at 1. rewrite Hsum, lookup_empty.
  unfold Store.find_in_stores. rewrite bind_run. unfold gets at 1. rewrite Hlog, bind_run. unfold lift. rewrite read_log.
  rewrite (proj2 (Z.leb_le 1 n)) by done. cbn [andb]. destruct (Z.leb_spec n (Z.of_nat (length l))).
  - destruct (log_at n ltac:(lia)) as (b & Hb & Hnum). unfold log_id. rewrite Hb. unfold mret, St_ret.
    rewrite bool_decide_false; [done|]. apply num_not_null. rewrite (header_num Hsha). lia.
  - rewrite bind_run. unfold gets. rewrite Hfork. done.
Qed.
Lemma known_in_log i : Store.is_known_block i s =
  (Ok (match l !! Z.to_nat (Block.num_from_id i - 1) with
       | Some b => (1 <=? Block.num_from_id i) && (Block.num_from_id i <=? Z.of_nat (length l)) &&
                   bool_decide (Block.id (header b) = i)
       | None => false
       end), s).
Proof.
  unfold Store.is_known_block, Store.fetch_block_by_id. rewrite bind_run, bind_run. unfold gets at 1. rewrite Hfork.
  change (ForkDb.fetch_block i ForkDb.empty) with (@None ForkDb.addr). cbv iota. rewrite bind_run. unfold gets. rewrite Hlog, bind_run.
  unfold lift. rewrite read_log. destruct (_ && _); [|by destruct (l !! _)].
  destruct (l !! _) as [b|]; [|done]. unfold mret, St_ret. by destruct (bool_decide _).
Qed.
Lemma log_serves : serves_chain s log_id (Z.of_nat (length l)).
Proof.
  assert (Hid : ∀ n, 1 ≤ n ≤ Z.of_nat (length l) → Block.num_from_id (log_id n) = n).
  { intros n Hn. destruct (log_at n Hn) as (b & Hb & Hnum). unfold log_id. by rewrite Hb, (header_num Hsha), Hnum. }
  split.
  - done.
  - unfold Db.head_block_num, Db.get_dynamic_global_properties, Db.dgp, get_or. rewrite bind_run, Hdgp. unfold mret, St_ret. by rewrite Hhead.
  - intros n Hn. rewrite id_for_num, (proj2 (Z.leb_le _ _)) by lia. done.
  - done.
  - intros n Hn. rewrite known_in_log, Hid by done. destruct (log_at n Hn) as (b & Hb & Hnum). unfold log_id.
    rewrite !Hb, !(proj2 (Z.leb_le _ _)), bool_decide_true by lia || done. done.
  - intros i. eexists. apply known_in_log.
  - intros n Hn. rewrite id_for_num, (proj2 (Z.leb_gt _ _)) by lia. done.
Qed.
End from_log.

(** Two nodes with three common blocks and different ones on top. *)
Module PeerDemo.
Definition blk (time n : Z) : signed_block :=
  mkBlock (mkHeader [Block.endian_reverse_u32 (n - 1); 0; 0; 0; 0] (time + n) "alice" [0; 0; 0; 0; 0] [] 0) [].
Definition setup (head_num irreversible : Z) : DB unit :=
  create t_dgp (λ p, mret (set_dgp_last_irreversible_block_num irreversible (set_dgp_head_block_number head_num p))) ;; mret tt.
Definition node (irreversible : Z) (l : list signed_block) : database :=
  Apply.set_block_log l (snd (setup (Z.of_nat (length l)) irreversible
    (mkDb (λ _, Chainbase.empty_index) ForkDb.empty [] [] false [] 0 false false [] (λ n, 1000 + n) 0))).
Definition a_blocks : list signed_block := (blk 0 <$> seqZ 1 3) ++ (blk 100 <$> seqZ 4 3).
Definition b_blocks : list signed_block := (blk 0 <$> seqZ 1 3) ++ (blk 200 <$> seqZ 4 9).
Definition numbered (l : list signed_block) : bool :=
  bool_decide ((λ b, Block.block_num (header b)) <$> l = seqZ 1 (Z.of_nat (length l))).
Lemma node_serves irreversible l : numbered l = true → (1 <=? Z.of_nat (length l)) && (Z.of_nat (length l) <? 2 ^ 32 - 1) = true →
  serves_chain (node irreversible l) (log_id l) (Z.of_nat (length l)).
Proof.
  intros Hn%bool_decide_eq_true Hl. apply andb_true_iff in Hl as [Hl1%Z.leb_le Hl2%Z.ltb_lt].
  assert (Hp : dgp_head_block_number <$> (items t_dgp (node irreversible l) !! 0) = Some (Z.of_nat (length l))) by reflexivity.
  destruct (items t_dgp (node irreversible l) !! 0) as [p|] eqn:Hdgp; [|discriminate Hp]. injection Hp as Hp.
  assert (Hsha : ∀ h : signed_block_header, length (sha224_header h) = 7%nat) by (intros h; reflexivity).
  apply (log_serves Hsha _ l p); [reflexivity..|exact Hdgp|exact Hp|lia|].
  intros i b Hi. assert (Hs : seqZ 1 (Z.of_nat (length l)) !! i = Some (Block.block_num (header b)))
    by (rewrite <- Hn, list_lookup_fmap, Hi; reflexivity).
  apply lookup_seqZ in Hs as [-> _]. lia.
Qed.
End PeerDemo.

(** C26: How nodes find where their chains part.  A node's synopsis has at most
    32 ids of its chain.  A node that shares the chain up to block [c], a block
    the first one can still undo to, answers with ids of consecutive blocks of
    its own chain that start at a common block, at most twice as far from the
    first node's head as [c] is; and it says how many blocks are missing from
    the answer. *)
Theorem peers_find_common_block `{Env} (sa sb : database) (fa fb : Z → block_id_type) (ha hb c la limit : Z) :
  serves_chain sa fa ha → serves_chain sb fb hb → 1 ≤ c ≤ ha → c ≤ hb →
  (∀ n, 1 ≤ n ≤ c → fa n = fb n) → (∀ n, c < n ≤ ha → n ≤ hb → fa n ≠ fb n) →
  Db.last_non_undoable_block_num sa = (Ok la, sa) → 0 ≤ la ≤ c → 1 ≤ limit →
  ∃ synopsis k n, Peer.get_blockchain_synopsis null_block_id 0 sa = (Ok synopsis, sa) ∧ (length synopsis ≤ 32)%nat ∧
    Peer.get_block_ids synopsis limit sb = (Ok (fb <$> seqZ k n, hb - (k + n - 1)), sb) ∧
    1 ≤ k ≤ c ∧ ha - k ≤ 2 * (ha - c) ∧ n = Z.min limit (hb - k + 1).
Proof.
  intros Ha Hb Hc Hcb Hsame Hfork Hla Hlc Hlim.
  destruct (own_synopsis sa fa ha c Ha Hc la Hla Hlc) as (nums & Hsyn & Hsort & Hr & Hlen & Hx).
  destruct (answer_from_common sa sb fa fb ha hb c Ha Hb Hc Hcb Hsame Hfork nums limit Hsort Hr Hlim Hx)
    as (k & n & Hk & Hd & Hn & Hans).
  exists (fa <$> nums), k, n. rewrite length_fmap. done.
Qed.
Lemma peers_find_common_block_witness :
  let sa := PeerDemo.node 1 PeerDemo.a_blocks in let sb := PeerDemo.node 2 PeerDemo.b_blocks in
  ∃ synopsis k n, Peer.get_blockchain_synopsis null_block_id 0 sa = (Ok synopsis, sa) ∧ (length synopsis ≤ 32)%nat ∧
    Peer.get_block_ids synopsis 5 sb = (Ok (log_id PeerDemo.b_blocks <$> seqZ k n, 12 - (k + n - 1)), sb) ∧
    1 ≤ k ≤ 3 ∧ 6 - k ≤ 2 * (6 - 3) ∧ n = Z.min 5 (12 - k + 1).
Proof.
  intros sa sb.
  apply (peers_find_common_block sa sb (log_id PeerDemo.a_blocks) (log_id PeerDemo.b_blocks) 6 12 3 1 5); try lia.
  - exact (PeerDemo.node_serves 1 PeerDemo.a_blocks eq_refl eq_refl).
  - exact (PeerDemo.node_serves 2 PeerDemo.b_blocks eq_refl eq_refl).
  - intros n Hn. assert (Hin : n ∈ seqZ 1 3) by (apply elem_of_seqZ; lia). clear Hn. revert n Hin. apply Forall_forall.
    apply (bool_decide_unpack _). vm_compute. exact I.
  - intros n Hn _. assert (Hin : n ∈ seqZ 4 3) by (apply elem_of_seqZ; lia). clear Hn. revert n Hin. apply Forall_forall.
    apply (bool_decide_unpack _). vm_compute. exact I.
  - reflexivity.
Defined.
