(* ===== verification/PeerDb.v ===== *)
(** * The database of addresses

    libraries/net/peer_database.cpp: the peers a node knows, as the multi-index
    container has them: in the order of the time they were last seen, one record
    for an endpoint.  The file is a list of records; the errors kept for reports
    are left out. *)
From stdpp Require Import sorting.
From S2P Require Import Prelude.
#[local] Open Scope Z_scope.

(** An address of 32 bits and a port. *)
Definition endpoint : Type := Z * Z.
Inductive potential_peer_last_connection_disposition :=
  never_attempted_to_connect | last_connection_failed | last_connection_rejected | last_connection_handshaking_failed | last_connection_succeeded.
Record potential_peer_record := mkRecord {
  record_endpoint : endpoint;
  last_seen_time : Z;
  last_connection_disposition : potential_peer_last_connection_disposition;
  last_connection_attempt_time : Z;
  number_of_successful_connection_attempts : Z;
  number_of_failed_connection_attempts : Z
}.
Definition new_record (e : endpoint) : potential_peer_record := mkRecord e 0 never_attempted_to_connect 0 0 0.
Definition set_last_seen_time (v : Z) (r : potential_peer_record) : potential_peer_record :=
  mkRecord (record_endpoint r) v (last_connection_disposition r) (last_connection_attempt_time r)
    (number_of_successful_connection_attempts r) (number_of_failed_connection_attempts r).
Definition set_last_connection_disposition (v : potential_peer_last_connection_disposition) (r : potential_peer_record) : potential_peer_record :=
  mkRecord (record_endpoint r) (last_seen_time r) v (last_connection_attempt_time r)
    (number_of_successful_connection_attempts r) (number_of_failed_connection_attempts r).
Definition set_last_connection_attempt_time (v : Z) (r : potential_peer_record) : potential_peer_record :=
  mkRecord (record_endpoint r) (last_seen_time r) (last_connection_disposition r) v
    (number_of_successful_connection_attempts r) (number_of_failed_connection_attempts r).
Definition count_success (r : potential_peer_record) : potential_peer_record :=
  mkRecord (record_endpoint r) (last_seen_time r) (last_connection_disposition r) (last_connection_attempt_time r)
    (u32 (number_of_successful_connection_attempts r + 1)) (number_of_failed_connection_attempts r).
Definition count_failure (r : potential_peer_record) : potential_peer_record :=
  mkRecord (record_endpoint r) (last_seen_time r) (last_connection_disposition r) (last_connection_attempt_time r)
    (number_of_successful_connection_attempts r) (u32 (number_of_failed_connection_attempts r + 1)).
Definition GRAPHENE_NET_MAX_PEERDB_SIZE : nat := 1000.

Definition peer_database : Type := list potential_peer_record.
Module PeerDb.
Definition is_at (e : endpoint) (r : potential_peer_record) : bool := bool_decide (record_endpoint r = e).
(** The index is ordered and not unique: after what has the same time. *)
Fixpoint link (r : potential_peer_record) (l : peer_database) : peer_database :=
  match l with
  | [] => [r]
  | x :: l' => if last_seen_time r <? last_seen_time x then r :: l else x :: link r l'
  end.
Definition lookup_entry_for_endpoint (e : endpoint) (l : peer_database) : option potential_peer_record := List.find (is_at e) l.
Definition lookup_or_create_entry_for_endpoint (e : endpoint) (l : peer_database) : potential_peer_record :=
  default (new_record e) (lookup_entry_for_endpoint e l).
Definition insert (r : potential_peer_record) (l : peer_database) : peer_database :=
  match lookup_entry_for_endpoint (record_endpoint r) l with Some _ => l | None => link r l end.
Definition erase (e : endpoint) (l : peer_database) : peer_database := List.filter (λ r, negb (is_at e r)) l.
(** [multi_index::modify]: a record keeps its place as long as the order allows. *)
Definition fits_between (before : option potential_peer_record) (r : potential_peer_record) (after : option potential_peer_record) : bool :=
  match before with Some x => last_seen_time x <=? last_seen_time r | None => true end &&
  match after with Some x => last_seen_time r <=? last_seen_time x | None => true end.
Fixpoint replace (r : potential_peer_record) (before : option potential_peer_record) (l : peer_database) : option peer_database :=
  match l with
  | [] => None
  | x :: l' =>
      if is_at (record_endpoint r) x then if fits_between before r (head l') then Some (r :: l') else None
      else cons x <$> replace r (Some x) l'
  end.
Definition update_entry (r : potential_peer_record) (l : peer_database) : peer_database :=
  match lookup_entry_for_endpoint (record_endpoint r) l with
  | Some _ => default (link r (erase (record_endpoint r) l)) (replace r None l)
  | None => link r l
  end.
Definition clear (l : peer_database) : peer_database := [].
(** What reading the file gives: [None] when there is none or it cannot be read,
    which is logged and leaves the database empty.  That the JSON text of the
    records is read back as the records is taken for granted here. *)
Definition peer_file := option (list potential_peer_record).
(** The records of the file; too many are cut off behind. *)
Definition open (file : peer_file) : peer_database :=
  match file with
  | None => []
  | Some records =>
      let l := fold_left (λ l r, insert r l) records [] in
      if (GRAPHENE_NET_MAX_PEERDB_SIZE <? length l)%nat then take GRAPHENE_NET_MAX_PEERDB_SIZE l else l
  end.
(** A write that fails is logged and leaves the file as it is. *)
Definition save (written : bool) (l : peer_database) (file : peer_file) : peer_file :=
  if written then Some l else file.
End PeerDb.

(** ** Facts *)
Section facts.
Import PeerDb.
Definition older (a b : potential_peer_record) : Prop := last_seen_time a ≤ last_seen_time b.
Record peer_db_ok (l : peer_database) : Prop := {
  in_time_order : StronglySorted older l;
  one_record_each : NoDup (map record_endpoint l)
}.
Lemma link_perm r l : link r l ≡ₚ r :: l.
Proof. induction l as [|x l IH]; [done|]. simpl. destruct (_ <? _); [done|]. rewrite IH. apply Permutation_swap. Qed.
Lemma link_sorted r l : StronglySorted older l → StronglySorted older (link r l).
Proof.
  induction 1 as [|x l Hl IH Hx]; [repeat constructor|]. simpl. destruct (Z.ltb_spec (last_seen_time r) (last_seen_time x)).
  - constructor; [by constructor|]. constructor; [unfold older; lia|]. eapply Forall_impl; [exact Hx|]. unfold older. intros; lia.
  - constructor; [done|]. rewrite link_perm. constructor; [unfold older; lia|done].
Qed.
Lemma lookup_some e l r : lookup_entry_for_endpoint e l = Some r → r ∈ l ∧ record_endpoint r = e.
Proof. intros Hf. apply List.find_some in Hf as [H1 H2]. rewrite list_elem_of_In. split; [done|]. by apply bool_decide_eq_true in H2. Qed.
Lemma lookup_none e l : lookup_entry_for_endpoint e l = None ↔ e ∉ map record_endpoint l.
Proof.
  unfold lookup_entry_for_endpoint. induction l as [|x l IH]; [split; [intros _; apply not_elem_of_nil|done]|]. simpl. unfold is_at at 1. rewrite not_elem_of_cons.
  case_bool_decide; [naive_solver|]. rewrite IH. naive_solver.
Qed.
Lemma lookup_unique e l r : NoDup (map record_endpoint l) → r ∈ l → record_endpoint r = e → lookup_entry_for_endpoint e l = Some r.
Proof.
  unfold lookup_entry_for_endpoint. induction l as [|x l IH]; [by intros _ ?%elem_of_nil|]. simpl. intros [Hx Hn]%NoDup_cons Hr He. unfold is_at at 1.
  apply elem_of_cons in Hr as [->|Hr]; [by rewrite bool_decide_eq_true_2|]. case_bool_decide as E; [|by apply IH].
  destruct Hx. rewrite E, <- He. apply list_elem_of_fmap. by exists r.
Qed.
Lemma replace_split r b l l' : replace r b l = Some l' →
  ∃ l1 x l2, l = l1 ++ x :: l2 ∧ l' = l1 ++ r :: l2 ∧ record_endpoint x = record_endpoint r ∧
    fits_between (match last l1 with Some y => Some y | None => b end) r (head l2) = true.
Proof.
  revert b l'. induction l as [|x l IH]; intros b l'; [done|]. simpl. unfold is_at. case_bool_decide as Ex.
  - destruct (fits_between b r (head l)) eqn:Ef; [|done]. intros [= <-]. by exists [], x, l.
  - destruct (replace r (Some x) l) as [m|] eqn:Em; [|done]. intros [= <-]. destruct (IH _ _ Em) as (l1 & y & l2 & -> & -> & Ey & Hf).
    exists (x :: l1), y, l2. split_and!; [done|done|done|]. destruct l1 as [|z l1]; [done|]. rewrite last_cons_cons. destruct (last (z :: l1)) eqn:El; [done|]. by apply last_None in El.
Qed.
Lemma erase_sorted e l : StronglySorted older l → StronglySorted older (erase e l).
Proof.
  induction 1 as [|x l Hl IH Hx]; [constructor|]. unfold erase in *. simpl. destruct (negb (is_at e x)); [|done]. constructor; [done|].
  apply Forall_forall. intros y Hy. rewrite Forall_forall in Hx. apply Hx. rewrite list_elem_of_In in *. by apply filter_In in Hy as [Hy _].
Qed.
Lemma erase_elem e l r : r ∈ erase e l ↔ r ∈ l ∧ record_endpoint r ≠ e.
Proof. unfold erase. rewrite !list_elem_of_In, filter_In, negb_true_iff. unfold is_at. by rewrite bool_decide_eq_false. Qed.
Lemma erase_once e l : NoDup (map record_endpoint l) → NoDup (map record_endpoint (erase e l)).
Proof.
  induction l as [|x l IH]; [done|]. unfold erase in *. simpl. intros [Hx Hn]%NoDup_cons. destruct (negb (is_at e x)); [|by apply IH].
  simpl. constructor; [|by apply IH]. intros Hi. apply Hx. apply list_elem_of_fmap in Hi as (y & E & Hy). apply list_elem_of_fmap. exists y.
  split; [done|]. rewrite list_elem_of_In in *. by apply filter_In in Hy as [Hy _].
Qed.
(** A record put between its neighbours keeps the order. *)
Lemma sorted_replace r x l1 l2 : StronglySorted older (l1 ++ x :: l2) → fits_between (last l1) r (head l2) = true →
  StronglySorted older (l1 ++ r :: l2).
Proof.
  intros Hs Hf. apply andb_true_iff in Hf as [Hb Ha]. apply StronglySorted_app in Hs as (Hc & H1 & H2). inversion H2 as [|? ? H3 Hx]; subst.
  assert (Hr : Forall (older r) l2).
  { destruct l2 as [|y l2]; [constructor|]. simpl in Ha. apply Z.leb_le in Ha. inversion H3 as [|? ? _ Hy]; subst. constructor; [done|].
    eapply Forall_impl; [exact Hy|]. unfold older in *. intros; lia. }
  assert (Hl : Forall (λ y, older y r) l1).
  { destruct (last l1) as [y|] eqn:El; [|apply last_None in El as ->; constructor]. apply last_Some in El as [l ->]. simpl in Hb. apply Z.leb_le in Hb.
    apply StronglySorted_app in H1 as (Hc1 & _ & _). apply Forall_app. split; [|by repeat constructor].
    apply Forall_forall. intros z Hz. pose proof (Hc1 z y Hz ltac:(left)). unfold older in *. lia. }
  apply StronglySorted_app. split_and!; [|done|by constructor]. intros y z Hy Hz. rewrite Forall_forall in Hl. apply elem_of_cons in Hz as [->|Hz]; [by apply Hl|].
  apply Hc; [done|by right].
Qed.
Lemma insert_ok r l : peer_db_ok l → peer_db_ok (insert r l).
Proof.
  intros [Hs Hn]. unfold insert. destruct (lookup_entry_for_endpoint _ _) eqn:E; [done|]. apply lookup_none in E. split; [by apply link_sorted|].
  rewrite link_perm. simpl. by constructor.
Qed.
Lemma erase_ok e l : peer_db_ok l → peer_db_ok (erase e l).
Proof. intros [Hs Hn]. split; [by apply erase_sorted|by apply erase_once]. Qed.
(** What [update_entry] leaves: the record, and the others. *)
Lemma update_entry_spec r l : peer_db_ok l → peer_db_ok (update_entry r l) ∧
  ∀ x, x ∈ update_entry r l ↔ x = r ∨ (x ∈ l ∧ record_endpoint x ≠ record_endpoint r).
Proof.
  intros [Hs Hn]. unfold update_entry. destruct (lookup_entry_for_endpoint (record_endpoint r) l) as [y|] eqn:E.
  - destruct (replace r None l) as [l'|] eqn:Er; simpl.
    + destruct (replace_split _ _ _ _ Er) as (l1 & x & l2 & -> & -> & Ex & Hf).
      assert (Hf' : fits_between (last l1) r (head l2) = true) by (by destruct (last l1)).
      assert (Hm : map record_endpoint (l1 ++ r :: l2) = map record_endpoint (l1 ++ x :: l2)) by (rewrite !map_app; simpl; by rewrite Ex).
      split; [split; [by eapply sorted_replace|by rewrite Hm]|]. intros z. rewrite !elem_of_app, !elem_of_cons.
      rewrite map_app in Hn. simpl in Hn. apply NoDup_app in Hn as (_ & Hd & Hn2). apply NoDup_cons in Hn2 as [Hx2 _].
      assert (H1 : ∀ z, z ∈ l1 → record_endpoint z ≠ record_endpoint r).
      { intros w Hw Ew. apply (Hd (record_endpoint w)); [apply list_elem_of_fmap; by exists w|]. rewrite Ew, <- Ex. left. }
      assert (H2 : ∀ z, z ∈ l2 → record_endpoint z ≠ record_endpoint r).
      { intros w Hw Ew. apply Hx2. rewrite Ex, <- Ew. apply list_elem_of_fmap. by exists w. }
      naive_solver.
    + assert (Ho : peer_db_ok (erase (record_endpoint r) l)) by (by apply erase_ok). destruct Ho as [Ho1 Ho2]. split; [split; [by apply link_sorted|]|].
      * rewrite link_perm. simpl. constructor; [|done]. intros (w & Ew & Hw)%list_elem_of_fmap. apply erase_elem in Hw as [_ Hw]. by destruct Hw.
      * intros z. rewrite link_perm, elem_of_cons, erase_elem. done.
  - apply lookup_none in E. split; [split; [by apply link_sorted|rewrite link_perm; simpl; by constructor]|].
    intros z. rewrite link_perm, elem_of_cons. split; [|naive_solver]. intros [->|Hz]; [by left|right]. split; [done|]. intros Ez. apply E. rewrite <- Ez.
    apply list_elem_of_fmap. by exists z.
Qed.
Lemma fold_insert_ok file l : peer_db_ok l → peer_db_ok (fold_left (λ l r, insert r l) file l).
Proof. revert l. induction file as [|r file IH]; intros l Hl; [done|]. by apply IH, insert_ok. Qed.
Lemma take_sorted n (l : peer_database) : StronglySorted older l → StronglySorted older (take n l) ∧
  ∀ a b, a ∈ take n l → b ∈ drop n l → older a b.
Proof.
  intros Hs. rewrite <- (take_drop n l) in Hs. apply StronglySorted_app in Hs as (Hc & H1 & _). by split.
Qed.
Lemma open_ok file : peer_db_ok (open file) ∧ (length (open file) ≤ GRAPHENE_NET_MAX_PEERDB_SIZE)%nat.
Proof.
  destruct file as [file|]; [|split; [split; constructor|simpl; lia]].
  unfold open. assert (Ho : peer_db_ok (fold_left (λ l r, insert r l) file [])) by (apply fold_insert_ok; split; constructor).
  set (l := fold_left (λ l r, insert r l) file []) in *. destruct (Nat.ltb_spec GRAPHENE_NET_MAX_PEERDB_SIZE (length l)) as [Hl|Hl]; [|by split].
  destruct Ho as [Hs Hn]. split; [|rewrite length_take; lia]. split; [by apply take_sorted|].
  rewrite <- (take_drop GRAPHENE_NET_MAX_PEERDB_SIZE l), map_app in Hn. by apply NoDup_app in Hn as [Hn _].
Qed.
(** When there are too many records, those that were seen last are given up. *)
Lemma open_forgets_newest file a b : a ∈ open (Some file) → b ∈ fold_left (λ l r, insert r l) file [] → b ∉ open (Some file) → last_seen_time a ≤ last_seen_time b.
Proof.
  unfold open. assert (Ho : peer_db_ok (fold_left (λ l r, insert r l) file [])) by (apply fold_insert_ok; split; constructor).
  set (l := fold_left (λ l r, insert r l) file []) in *. destruct (_ <? _)%nat; [|done]. intros Ha Hb Hn. destruct (take_sorted GRAPHENE_NET_MAX_PEERDB_SIZE _ (in_time_order _ Ho)) as [_ Hd]. apply Hd; [done|].
  rewrite <- (take_drop GRAPHENE_NET_MAX_PEERDB_SIZE l), elem_of_app in Hb. by destruct Hb.
Qed.

(** ** The database as a map *)
Inductive db_command := updating (r : potential_peer_record) | erasing (e : endpoint) | clearing | reopening.
Definition run_command (l : peer_database) (c : db_command) : peer_database :=
  match c with
  | updating r => update_entry r l
  | erasing e => erase e l
  | clearing => clear l
  | reopening => open (save true l None)
  end.
Definition spec_command (m : gmap endpoint potential_peer_record) (c : db_command) : gmap endpoint potential_peer_record :=
  match c with
  | updating r => <[record_endpoint r := r]> m
  | erasing e => delete e m
  | clearing => ∅
  | reopening => m
  end.
Definition represents (l : peer_database) (m : gmap endpoint potential_peer_record) : Prop :=
  peer_db_ok l ∧ ∀ e, lookup_entry_for_endpoint e l = m !! e.
Lemma lookup_char e l r : peer_db_ok l → lookup_entry_for_endpoint e l = Some r ↔ r ∈ l ∧ record_endpoint r = e.
Proof. intros [_ Hn]. split; [apply lookup_some|]. intros [Hr He]. by apply lookup_unique. Qed.
Lemma lookup_ext e l o : peer_db_ok l → (∀ r, o = Some r ↔ r ∈ l ∧ record_endpoint r = e) → lookup_entry_for_endpoint e l = o.
Proof. intros Hl Ho. apply option_eq. intros r. rewrite lookup_char by done. by rewrite Ho. Qed.
Lemma represents_elem l m r : represents l m → r ∈ l ↔ m !! record_endpoint r = Some r.
Proof. intros [Hl Hm]. rewrite <- Hm, lookup_char by done. naive_solver. Qed.
(** Reading a database back from the file it was written to. *)
Lemma insert_back r l : peer_db_ok (l ++ [r]) → insert r l = l ++ [r].
Proof.
  intros [Hs Hn]. unfold insert. rewrite map_app in Hn. apply NoDup_app in Hn as (_ & Hd & _).
  assert (lookup_entry_for_endpoint (record_endpoint r) l = None) as -> by (apply lookup_none; intros Hi; apply (Hd _ Hi); left).
  apply StronglySorted_app in Hs as (Hc & _ & _). clear Hd. induction l as [|x l IH]; [done|]. simpl.
  assert (older x r) by (apply Hc; left). unfold older in *. destruct (Z.ltb_spec (last_seen_time r) (last_seen_time x)); [lia|]. f_equal. apply IH.
  intros y z Hy Hz. apply Hc; [by right|done].
Qed.
Lemma reopen_takes l : peer_db_ok l → open (save true l None) = take GRAPHENE_NET_MAX_PEERDB_SIZE l.
Proof.
  intros Hl. unfold open, save. assert (E : fold_left (λ l r, insert r l) l [] = l).
  { change l with ([] ++ l) at 2. assert (Hg : peer_db_ok ([] ++ l)) by done. revert Hg. generalize (@nil potential_peer_record) as acc. clear Hl.
    induction l as [|r l IH]; intros acc Hg; [by rewrite app_nil_r|]. cbn [fold_left]. rewrite cons_middle, (assoc_L (++)) in Hg |- *. rewrite insert_back; [by apply IH|].
    destruct Hg as [Hs Hn]. apply StronglySorted_app in Hs as (_ & Hs & _). rewrite map_app in Hn. by apply NoDup_app in Hn as [Hn _]. }
  rewrite E. destruct (Nat.ltb_spec GRAPHENE_NET_MAX_PEERDB_SIZE (length l)); [done|]. by rewrite take_ge.
Qed.
Lemma command_represents l m c : represents l m → (c = reopening → (length l ≤ GRAPHENE_NET_MAX_PEERDB_SIZE)%nat) →
  represents (run_command l c) (spec_command m c).
Proof.
  intros Hr Hc. pose proof Hr as [Hl Hm]. destruct c as [r|e| |]; simpl.
  - destruct (update_entry_spec r l Hl) as [Hu He]. split; [done|]. intros e. apply lookup_ext; [done|]. intros x. rewrite He.
    destruct (decide (record_endpoint r = e)) as [<-|Hne]; [rewrite lookup_insert_eq; naive_solver|]. rewrite lookup_insert_ne by done.
    rewrite <- Hm, lookup_char by done. naive_solver.
  - split; [by apply erase_ok|]. intros e'. apply lookup_ext; [by apply erase_ok|]. intros x. rewrite erase_elem.
    destruct (decide (e = e')) as [<-|Hne]; [rewrite lookup_delete_eq; naive_solver|]. rewrite lookup_delete_ne by done. rewrite <- Hm, lookup_char by done. naive_solver.
  - split; [split; constructor|]. by intros e.
  - pose proof (reopen_takes l Hl) as E. simpl in E. rewrite E, take_ge by auto. done.
Qed.

(** The database is opened again only with records that it keeps. *)
Fixpoint small_enough (cs : list db_command) (l : peer_database) : Prop :=
  match cs with
  | [] => True
  | c :: cs => (c = reopening → (length l ≤ GRAPHENE_NET_MAX_PEERDB_SIZE)%nat) ∧ small_enough cs (run_command l c)
  end.

(** C19: the database of addresses is a map from endpoints to records, in every
    state it can get into from the records of a file by updates, erasures,
    clearing, and saving and opening it again while it has at most 1000 records:
    a lookup gives the record that was last stored for the endpoint, and the
    records stay in the order in which the peers were last seen.  Of more records
    saving and opening keeps exactly the first 1000 in that order.  (The file is
    taken to hold the records it was given.) *)
Theorem peer_database_refines_map file cs : small_enough cs (open file) →
  let l := fold_left run_command cs (open file) in
  let m := fold_left spec_command cs (list_to_map (map (λ r, (record_endpoint r, r)) (open file))) in
  represents l m ∧ open (save true l None) = take GRAPHENE_NET_MAX_PEERDB_SIZE l.
Proof.
  intros Hcs. cbv zeta. assert (H0 : represents (open file) (list_to_map (map (λ r, (record_endpoint r, r)) (open file)))).
  { destruct (open_ok file) as [Ho _]. split; [done|]. intros e. apply lookup_ext; [done|]. intros r.
    assert (Hn : NoDup (map (λ r, (record_endpoint r, r)) (open file)).*1).
    { destruct Ho as [_ Hn]. change (NoDup (map fst (map (λ r, (record_endpoint r, r)) (open file)))). by rewrite List.map_map. }
    rewrite <- (elem_of_list_to_map _ _ _ Hn), list_elem_of_fmap. naive_solver. }
  revert H0 Hcs. generalize (open file) (list_to_map (M:=gmap endpoint potential_peer_record) (map (λ r, (record_endpoint r, r)) (open file))).
  induction cs as [|c cs IH]; intros l m Hl Hcs; [split; [done|]; apply reopen_takes, Hl|].
  destruct Hcs as [Hc Hcs]. cbn [fold_left]. apply IH; [|done]. by apply command_represents.
Qed.
End facts.
Lemma peer_database_refines_map_witness :
  let a := new_record (1, 80) in let b := set_last_seen_time 5 (new_record (2, 80)) in
  let cs := [updating (set_last_seen_time 9 a); erasing (2, 80); reopening; updating (set_last_seen_time 7 b)] in
  let l := fold_left run_command cs (PeerDb.open (Some [b; a])) in
  represents l (<[(2, 80) := set_last_seen_time 7 b]> (delete (2, 80) (<[(1, 80) := set_last_seen_time 9 a]>
    (list_to_map (map (λ r, (record_endpoint r, r)) (PeerDb.open (Some [b; a]))))))) ∧
  l = [set_last_seen_time 7 b; set_last_seen_time 9 a].
Proof.
  intros a b cs. split; [|vm_compute; reflexivity].
  apply (peer_database_refines_map (Some [b; a]) cs). unfold cs.
  cbn [small_enough]. split_and!; first [exact I|intros E; discriminate E|intros _; vm_compute; lia].
Defined.
