(* ===== verification/Net.v ===== *)
(** * The network node

    libraries/net/node.cpp and peer_connection.cpp: how a node synchronises with
    its peers and how it passes blocks and transactions on; how connections are
    made, introduced and ended.  A handler runs from
    its message to its end; the tasks of the node (the loops that fetch and
    advertise, the processing of received blocks, the closing of idle
    connections) are operations that run between handlers, in any order.  The
    chain is reached through [NodeDelegate], the interface node_delegate of
    libraries/net/include/graphene/net/node.hpp, which P2p.v implements.
    Sockets, their bandwidth, the bound on the bytes of a queue, the requests for
    a report on the current connections and the shutting down of the node are not
    modelled; nor are texts that are only reported. *)
From S2P Require Import Prelude Protocol Block PeerDb.
#[local] Open Scope Z_scope.

Definition item_hash : Type := block_id_type.
Definition item_id : Type := Z * item_hash.
Definition item_type (i : item_id) : Z := i.1.
Definition hash_of (i : item_id) : item_hash := i.2.
Definition peer_id : Type := Z.

Definition trx_message_type : Z := 1000.
Definition block_message_type : Z := 1001.
Definition core_message_type_first : Z := 5000.
Definition core_message_type_last : Z := 5099.
Definition GRAPHENE_NET_MESSAGE_CACHE_DURATION_IN_BLOCKS : Z := 20.
Definition GRAPHENE_NET_MAX_INVENTORY_SIZE_IN_MINUTES : Z := 2.
Definition GRAPHENE_NET_MAX_ITEMS_PER_PEER_DURING_NORMAL_OPERATION : Z := 1.
Definition GRAPHENE_NET_MIN_BLOCK_IDS_TO_PREFETCH : Z := 10000.
Definition GRAPHENE_NET_MAX_TRX_PER_SECOND : Z := 1000.
Definition GRAPHENE_NET_PEER_DISCONNECT_TIMEOUT : Z := 20.
Definition GRAPHENE_NET_FAILED_TERMINATE_TIMEOUT_SECONDS : Z := 120.
Definition GRAPHENE_NET_PRUNE_FAILED_IDS_MINUTES : Z := 15.
Definition GRAPHENE_NET_FIREWALL_CHECK_MESSAGE_INTERVAL_MINUTES : Z := 5.
Definition GRAPHENE_NET_PROTOCOL_VERSION : Z := 106.

(** The configuration, with the block interval the node keeps. *)
Record node_configuration := mkConfiguration {
  maximum_number_of_blocks_to_handle_at_one_time : Z;
  maximum_number_of_sync_blocks_to_prefetch : Z;
  maximum_blocks_per_peer_during_syncing : Z;
  active_ignored_request_timeout_microseconds : Z;
  peer_inactivity_timeout : Z;
  recent_block_interval_in_seconds : Z;
  desired_number_of_connections : Z;
  maximum_number_of_connections : Z;
  peer_connection_retry_timeout : Z;
  accept_incoming_connections : bool;
  peer_advertising_disabled : bool
}.

Definition node_id_t : Type := Z.
Definition no_node_id : node_id_t := 0.
Definition no_endpoint : endpoint := (0, 0).
Inductive connection_state := disconnected | just_connected | connection_accepted | connection_rejected.
Inductive connection_negotiation_status :=
  not_connected | connecting | now_connected | accepting | accepted | hello_sent | peer_connection_accepted | peer_connection_rejected |
  negotiation_complete | closing | connection_closed.
Inductive peer_connection_direction := unknown_direction | inbound | outbound.
Inductive firewalled_state := unknown_firewalled | firewalled | not_firewalled.
Inductive rejection_reason_code :=
  unspecified | different_chain | already_connected | connected_to_self | not_accepting_connections | blocked | invalid_hello_message | client_too_old.
Inductive firewall_check_result := unable_to_check | unable_to_connect | connection_successful.
#[export] Instance connection_state_eq_dec : EqDecision connection_state.
Proof. solve_decision. Defined.
#[export] Instance direction_eq_dec : EqDecision peer_connection_direction.
Proof. solve_decision. Defined.
#[export] Instance firewalled_state_eq_dec : EqDecision firewalled_state.
Proof. solve_decision. Defined.
#[export] Instance rejection_reason_eq_dec : EqDecision rejection_reason_code.
Proof. solve_decision. Defined.
#[export] Instance firewall_check_result_eq_dec : EqDecision firewall_check_result.
Proof. solve_decision. Defined.

(** The members of the user data of a hello message that the node uses: each may
    be missing, or be of another type.  Those that are kept for reports only are
    left out. *)
Record hello_user_data := mkUserData {
  ud_git_revision_unix_timestamp : option (result Z);
  ud_node_id : option (result node_id_t);
  ud_last_known_fork_block_number : option (result Z);
  ud_chain_id : option (result Z)
}.
Record hello_message := mkHello {
  hello_protocol_version : Z;
  hello_inbound_address : Z;
  hello_inbound_port : Z;
  hello_outbound_port : Z;
  hello_node_public_key : node_id_t;
  signed_shared_secret : Z;
  user_data : hello_user_data
}.
Record address_info := mkAddress {
  address_endpoint : endpoint;
  address_last_seen_time : Z;
  latency : Z;
  address_node_id : node_id_t;
  address_direction : peer_connection_direction;
  address_firewalled : firewalled_state
}.
Record firewall_check_state_data := mkFirewallCheck {
  expected_node_id : node_id_t;
  endpoint_to_test : endpoint;
  nodes_already_tested : list node_id_t;
  requesting_peer : node_id_t
}.

(** A block as it is sent: with an id that the sender gives. *)
Record block_message := mkBlockMessage { block : signed_block; block_id : item_hash }.

Inductive message :=
| trx_message (trx : signed_transaction)
| a_block_message (b : block_message)
| item_ids_inventory_message (type : Z) (item_hashes_available : list item_hash)
| blockchain_item_ids_inventory_message (total_remaining_item_count type : Z) (item_hashes_available : list item_hash)
| fetch_blockchain_item_ids_message (type : Z) (blockchain_synopsis : list item_hash)
| fetch_items_message (type : Z) (items_to_fetch : list item_hash)
| item_not_available_message (requested_item : item_id)
| closing_connection_message (closing_due_to_error : bool)
| current_time_request_message (request_sent_time : Z)
| current_time_reply_message (request_sent_time request_received_time reply_transmitted_time : Z)
| a_hello_message (h : hello_message)
| connection_accepted_message
| connection_rejected_message (reason_code : rejection_reason_code)
| address_request_message
| address_message (addresses : list address_info)
| check_firewall_message (node : node_id_t) (endpoint_to_check : endpoint)
| check_firewall_reply_message (node : node_id_t) (endpoint_checked : endpoint) (r : firewall_check_result)
| other_message (type : Z).
Definition msg_type (m : message) : Z :=
  match m with
  | trx_message _ => trx_message_type
  | a_block_message _ => block_message_type
  | item_ids_inventory_message _ _ => 5001
  | blockchain_item_ids_inventory_message _ _ _ => 5002
  | fetch_blockchain_item_ids_message _ _ => 5003
  | fetch_items_message _ _ => 5004
  | item_not_available_message _ => 5005
  | closing_connection_message _ => 5011
  | current_time_request_message _ => 5012
  | current_time_reply_message _ _ _ => 5013
  | a_hello_message _ => 5006
  | connection_accepted_message => 5007
  | connection_rejected_message _ => 5008
  | address_request_message => 5009
  | address_message _ => 5010
  | check_firewall_message _ _ => 5014
  | check_firewall_reply_message _ _ _ => 5015
  | other_message t => t
  end.

(** A message, or an item whose message is made when its turn comes. *)
Inductive queued_message := real_queued_message (m : message) | virtual_queued_message (i : item_id).

(** ** The cache of messages *)
Record message_info := mkInfo {
  message_hash : item_hash;
  message_body : message;
  block_clock_when_received : Z;
  message_contents_hash : item_hash
}.
Record cache := mkCache { cached : list message_info; block_clock : Z }.

Definition i32 (z : Z) : Z := (z + 2^31) mod 2^32 - 2^31.
(** What is to be fetched: blocks first, then in the order of the news. *)
Record prioritized_item_id := mkPrioritized { wanted : item_id; sequence_number : Z; heard_at : Z }.
Definition precedes (a b : prioritized_item_id) : bool :=
  if negb (item_type (wanted a) =? item_type (wanted b)) then item_type (wanted b) <? item_type (wanted a)
  else 0 <? i32 (sequence_number b - sequence_number a).

(** ** State *)
Record peer_connection := mkPeer {
  ids_of_items_to_get : list item_hash;
  ids_of_items_being_processed : gset item_hash;
  number_of_unfetched_item_ids : Z;
  peer_needs_sync_items_from_us : bool;
  we_need_sync_items_from_peer : bool;
  item_ids_requested_from_peer : option (list item_hash * Z);
  sync_items_requested_from_peer : gmap item_hash Z;
  last_block_delegate_has_seen : item_hash;
  last_block_time_delegate_has_seen : Z;
  inhibit_fetching_sync_blocks : bool;
  inventory_peer_advertised_to_us : gmap item_id Z;
  inventory_advertised_to_peer : gmap item_id Z;
  items_requested_from_peer : gmap item_id Z;
  transaction_fetching_inhibited_until : Z;
  last_known_fork_block_number : Z;
  direction : peer_connection_direction;
  they_have_requested_close : bool;
  we_have_requested_close : bool;
  connection_initiation_time : Z;
  last_message_received_time : Z;
  last_message_sent_time : Z;
  connection_closed_time : Z;
  connection_terminated_time : Z;
  socket_closed : bool;
  queued_messages : list queued_message;
  remote_endpoint : option endpoint;
  inbound_address : Z;
  inbound_port : Z;
  outbound_port : Z;
  node_public_key : node_id_t;
  node_id : node_id_t;
  chain_id : option Z;
  core_protocol_version : Z;
  graphene_git_revision_unix_timestamp : option Z;
  our_state : connection_state;
  their_state : connection_state;
  negotiation_status : connection_negotiation_status;
  is_firewalled : firewalled_state;
  firewall_check_state : option firewall_check_state_data;
  clock_offset : Z;
  round_trip_delay : Z;
  shared_secret : Z
}.

Definition set_ids_of_items_to_get (v : list item_hash) (p : peer_connection) : peer_connection :=
  mkPeer v (ids_of_items_being_processed p) (number_of_unfetched_item_ids p) (peer_needs_sync_items_from_us
    p) (we_need_sync_items_from_peer p) (item_ids_requested_from_peer p) (sync_items_requested_from_peer p)
    (last_block_delegate_has_seen p) (last_block_time_delegate_has_seen p) (inhibit_fetching_sync_blocks p)
    (inventory_peer_advertised_to_us p) (inventory_advertised_to_peer p) (items_requested_from_peer p)
    (transaction_fetching_inhibited_until p) (last_known_fork_block_number p) (direction p)
    (they_have_requested_close p) (we_have_requested_close p) (connection_initiation_time p)
    (last_message_received_time p) (last_message_sent_time p) (connection_closed_time p)
    (connection_terminated_time p) (socket_closed p) (queued_messages p) (remote_endpoint p)
    (inbound_address p) (inbound_port p) (outbound_port p) (node_public_key p) (node_id p) (chain_id p)
    (core_protocol_version p) (graphene_git_revision_unix_timestamp p) (our_state p) (their_state p)
    (negotiation_status p) (is_firewalled p) (firewall_check_state p) (clock_offset p) (round_trip_delay p)
    (shared_secret p).
Definition set_ids_of_items_being_processed (v : gset item_hash) (p : peer_connection) : peer_connection :=
  mkPeer (ids_of_items_to_get p) v (number_of_unfetched_item_ids p) (peer_needs_sync_items_from_us p)
    (we_need_sync_items_from_peer p) (item_ids_requested_from_peer p) (sync_items_requested_from_peer p)
    (last_block_delegate_has_seen p) (last_block_time_delegate_has_seen p) (inhibit_fetching_sync_blocks p)
    (inventory_peer_advertised_to_us p) (inventory_advertised_to_peer p) (items_requested_from_peer p)
    (transaction_fetching_inhibited_until p) (last_known_fork_block_number p) (direction p)
    (they_have_requested_close p) (we_have_requested_close p) (connection_initiation_time p)
    (last_message_received_time p) (last_message_sent_time p) (connection_closed_time p)
    (connection_terminated_time p) (socket_closed p) (queued_messages p) (remote_endpoint p)
    (inbound_address p) (inbound_port p) (outbound_port p) (node_public_key p) (node_id p) (chain_id p)
    (core_protocol_version p) (graphene_git_revision_unix_timestamp p) (our_state p) (their_state p)
    (negotiation_status p) (is_firewalled p) (firewall_check_state p) (clock_offset p) (round_trip_delay p)
    (shared_secret p).
Definition set_number_of_unfetched_item_ids (v : Z) (p : peer_connection) : peer_connection :=
  mkPeer (ids_of_items_to_get p) (ids_of_items_being_processed p) v (peer_needs_sync_items_from_us p)
    (we_need_sync_items_from_peer p) (item_ids_requested_from_peer p) (sync_items_requested_from_peer p)
    (last_block_delegate_has_seen p) (last_block_time_delegate_has_seen p) (inhibit_fetching_sync_blocks p)
    (inventory_peer_advertised_to_us p) (inventory_advertised_to_peer p) (items_requested_from_peer p)
    (transaction_fetching_inhibited_until p) (last_known_fork_block_number p) (direction p)
    (they_have_requested_close p) (we_have_requested_close p) (connection_initiation_time p)
    (last_message_received_time p) (last_message_sent_time p) (connection_closed_time p)
    (connection_terminated_time p) (socket_closed p) (queued_messages p) (remote_endpoint p)
    (inbound_address p) (inbound_port p) (outbound_port p) (node_public_key p) (node_id p) (chain_id p)
    (core_protocol_version p) (graphene_git_revision_unix_timestamp p) (our_state p) (their_state p)
    (negotiation_status p) (is_firewalled p) (firewall_check_state p) (clock_offset p) (round_trip_delay p)
    (shared_secret p).
Definition set_peer_needs_sync_items_from_us (v : bool) (p : peer_connection) : peer_connection :=
  mkPeer (ids_of_items_to_get p) (ids_of_items_being_processed p) (number_of_unfetched_item_ids p) v
    (we_need_sync_items_from_peer p) (item_ids_requested_from_peer p) (sync_items_requested_from_peer p)
    (last_block_delegate_has_seen p) (last_block_time_delegate_has_seen p) (inhibit_fetching_sync_blocks p)
    (inventory_peer_advertised_to_us p) (inventory_advertised_to_peer p) (items_requested_from_peer p)
    (transaction_fetching_inhibited_until p) (last_known_fork_block_number p) (direction p)
    (they_have_requested_close p) (we_have_requested_close p) (connection_initiation_time p)
    (last_message_received_time p) (last_message_sent_time p) (connection_closed_time p)
    (connection_terminated_time p) (socket_closed p) (queued_messages p) (remote_endpoint p)
    (inbound_address p) (inbound_port p) (outbound_port p) (node_public_key p) (node_id p) (chain_id p)
    (core_protocol_version p) (graphene_git_revision_unix_timestamp p) (our_state p) (their_state p)
    (negotiation_status p) (is_firewalled p) (firewall_check_state p) (clock_offset p) (round_trip_delay p)
    (shared_secret p).
Definition set_we_need_sync_items_from_peer (v : bool) (p : peer_connection) : peer_connection :=
  mkPeer (ids_of_items_to_get p) (ids_of_items_being_processed p) (number_of_unfetched_item_ids p)
    (peer_needs_sync_items_from_us p) v (item_ids_requested_from_peer p) (sync_items_requested_from_peer p)
    (last_block_delegate_has_seen p) (last_block_time_delegate_has_seen p) (inhibit_fetching_sync_blocks p)
    (inventory_peer_advertised_to_us p) (inventory_advertised_to_peer p) (items_requested_from_peer p)
    (transaction_fetching_inhibited_until p) (last_known_fork_block_number p) (direction p)
    (they_have_requested_close p) (we_have_requested_close p) (connection_initiation_time p)
    (last_message_received_time p) (last_message_sent_time p) (connection_closed_time p)
    (connection_terminated_time p) (socket_closed p) (queued_messages p) (remote_endpoint p)
    (inbound_address p) (inbound_port p) (outbound_port p) (node_public_key p) (node_id p) (chain_id p)
    (core_protocol_version p) (graphene_git_revision_unix_timestamp p) (our_state p) (their_state p)
    (negotiation_status p) (is_firewalled p) (firewall_check_state p) (clock_offset p) (round_trip_delay p)
    (shared_secret p).
Definition set_item_ids_requested_from_peer (v : option (list item_hash * Z)) (p : peer_connection) : peer_connection :=
  mkPeer (ids_of_items_to_get p) (ids_of_items_being_processed p) (number_of_unfetched_item_ids p)
    (peer_needs_sync_items_from_us p) (we_need_sync_items_from_peer p) v (sync_items_requested_from_peer p)
    (last_block_delegate_has_seen p) (last_block_time_delegate_has_seen p) (inhibit_fetching_sync_blocks p)
    (inventory_peer_advertised_to_us p) (inventory_advertised_to_peer p) (items_requested_from_peer p)
    (transaction_fetching_inhibited_until p) (last_known_fork_block_number p) (direction p)
    (they_have_requested_close p) (we_have_requested_close p) (connection_initiation_time p)
    (last_message_received_time p) (last_message_sent_time p) (connection_closed_time p)
    (connection_terminated_time p) (socket_closed p) (queued_messages p) (remote_endpoint p)
    (inbound_address p) (inbound_port p) (outbound_port p) (node_public_key p) (node_id p) (chain_id p)
    (core_protocol_version p) (graphene_git_revision_unix_timestamp p) (our_state p) (their_state p)
    (negotiation_status p) (is_firewalled p) (firewall_check_state p) (clock_offset p) (round_trip_delay p)
    (shared_secret p).
Definition set_sync_items_requested_from_peer (v : gmap item_hash Z) (p : peer_connection) : peer_connection :=
  mkPeer (ids_of_items_to_get p) (ids_of_items_being_processed p) (number_of_unfetched_item_ids p)
    (peer_needs_sync_items_from_us p) (we_need_sync_items_from_peer p) (item_ids_requested_from_peer p) v
    (last_block_delegate_has_seen p) (last_block_time_delegate_has_seen p) (inhibit_fetching_sync_blocks p)
    (inventory_peer_advertised_to_us p) (inventory_advertised_to_peer p) (items_requested_from_peer p)
    (transaction_fetching_inhibited_until p) (last_known_fork_block_number p) (direction p)
    (they_have_requested_close p) (we_have_requested_close p) (connection_initiation_time p)
    (last_message_received_time p) (last_message_sent_time p) (connection_closed_time p)
    (connection_terminated_time p) (socket_closed p) (queued_messages p) (remote_endpoint p)
    (inbound_address p) (inbound_port p) (outbound_port p) (node_public_key p) (node_id p) (chain_id p)
    (core_protocol_version p) (graphene_git_revision_unix_timestamp p) (our_state p) (their_state p)
    (negotiation_status p) (is_firewalled p) (firewall_check_state p) (clock_offset p) (round_trip_delay p)
    (shared_secret p).
Definition set_last_block_delegate_has_seen (v : item_hash) (p : peer_connection) : peer_connection :=
  mkPeer (ids_of_items_to_get p) (ids_of_items_being_processed p) (number_of_unfetched_item_ids p)
    (peer_needs_sync_items_from_us p) (we_need_sync_items_from_peer p) (item_ids_requested_from_peer p)
    (sync_items_requested_from_peer p) v (last_block_time_delegate_has_seen p) (inhibit_fetching_sync_blocks
    p) (inventory_peer_advertised_to_us p) (inventory_advertised_to_peer p) (items_requested_from_peer p)
    (transaction_fetching_inhibited_until p) (last_known_fork_block_number p) (direction p)
    (they_have_requested_close p) (we_have_requested_close p) (connection_initiation_time p)
    (last_message_received_time p) (last_message_sent_time p) (connection_closed_time p)
    (connection_terminated_time p) (socket_closed p) (queued_messages p) (remote_endpoint p)
    (inbound_address p) (inbound_port p) (outbound_port p) (node_public_key p) (node_id p) (chain_id p)
    (core_protocol_version p) (graphene_git_revision_unix_timestamp p) (our_state p) (their_state p)
    (negotiation_status p) (is_firewalled p) (firewall_check_state p) (clock_offset p) (round_trip_delay p)
    (shared_secret p).
Definition set_last_block_time_delegate_has_seen (v : Z) (p : peer_connection) : peer_connection :=
  mkPeer (ids_of_items_to_get p) (ids_of_items_being_processed p) (number_of_unfetched_item_ids p)
    (peer_needs_sync_items_from_us p) (we_need_sync_items_from_peer p) (item_ids_requested_from_peer p)
    (sync_items_requested_from_peer p) (last_block_delegate_has_seen p) v (inhibit_fetching_sync_blocks p)
    (inventory_peer_advertised_to_us p) (inventory_advertised_to_peer p) (items_requested_from_peer p)
    (transaction_fetching_inhibited_until p) (last_known_fork_block_number p) (direction p)
    (they_have_requested_close p) (we_have_requested_close p) (connection_initiation_time p)
    (last_message_received_time p) (last_message_sent_time p) (connection_closed_time p)
    (connection_terminated_time p) (socket_closed p) (queued_messages p) (remote_endpoint p)
    (inbound_address p) (inbound_port p) (outbound_port p) (node_public_key p) (node_id p) (chain_id p)
    (core_protocol_version p) (graphene_git_revision_unix_timestamp p) (our_state p) (their_state p)
    (negotiation_status p) (is_firewalled p) (firewall_check_state p) (clock_offset p) (round_trip_delay p)
    (shared_secret p).
Definition set_inhibit_fetching_sync_blocks (v : bool) (p : peer_connection) : peer_connection :=
  mkPeer (ids_of_items_to_get p) (ids_of_items_being_processed p) (number_of_unfetched_item_ids p)
    (peer_needs_sync_items_from_us p) (we_need_sync_items_from_peer p) (item_ids_requested_from_peer p)
    (sync_items_requested_from_peer p) (last_block_delegate_has_seen p) (last_block_time_delegate_has_seen
    p) v (inventory_peer_advertised_to_us p) (inventory_advertised_to_peer p) (items_requested_from_peer p)
    (transaction_fetching_inhibited_until p) (last_known_fork_block_number p) (direction p)
    (they_have_requested_close p) (we_have_requested_close p) (connection_initiation_time p)
    (last_message_received_time p) (last_message_sent_time p) (connection_closed_time p)
    (connection_terminated_time p) (socket_closed p) (queued_messages p) (remote_endpoint p)
    (inbound_address p) (inbound_port p) (outbound_port p) (node_public_key p) (node_id p) (chain_id p)
    (core_protocol_version p) (graphene_git_revision_unix_timestamp p) (our_state p) (their_state p)
    (negotiation_status p) (is_firewalled p) (firewall_check_state p) (clock_offset p) (round_trip_delay p)
    (shared_secret p).
Definition set_inventory_peer_advertised_to_us (v : gmap item_id Z) (p : peer_connection) : peer_connection :=
  mkPeer (ids_of_items_to_get p) (ids_of_items_being_processed p) (number_of_unfetched_item_ids p)
    (peer_needs_sync_items_from_us p) (we_need_sync_items_from_peer p) (item_ids_requested_from_peer p)
    (sync_items_requested_from_peer p) (last_block_delegate_has_seen p) (last_block_time_delegate_has_seen
    p) (inhibit_fetching_sync_blocks p) v (inventory_advertised_to_peer p) (items_requested_from_peer p)
    (transaction_fetching_inhibited_until p) (last_known_fork_block_number p) (direction p)
    (they_have_requested_close p) (we_have_requested_close p) (connection_initiation_time p)
    (last_message_received_time p) (last_message_sent_time p) (connection_closed_time p)
    (connection_terminated_time p) (socket_closed p) (queued_messages p) (remote_endpoint p)
    (inbound_address p) (inbound_port p) (outbound_port p) (node_public_key p) (node_id p) (chain_id p)
    (core_protocol_version p) (graphene_git_revision_unix_timestamp p) (our_state p) (their_state p)
    (negotiation_status p) (is_firewalled p) (firewall_check_state p) (clock_offset p) (round_trip_delay p)
    (shared_secret p).
Definition set_inventory_advertised_to_peer (v : gmap item_id Z) (p : peer_connection) : peer_connection :=
  mkPeer (ids_of_items_to_get p) (ids_of_items_being_processed p) (number_of_unfetched_item_ids p)
    (peer_needs_sync_items_from_us p) (we_need_sync_items_from_peer p) (item_ids_requested_from_peer p)
    (sync_items_requested_from_peer p) (last_block_delegate_has_seen p) (last_block_time_delegate_has_seen
    p) (inhibit_fetching_sync_blocks p) (inventory_peer_advertised_to_us p) v (items_requested_from_peer p)
    (transaction_fetching_inhibited_until p) (last_known_fork_block_number p) (direction p)
    (they_have_requested_close p) (we_have_requested_close p) (connection_initiation_time p)
    (last_message_received_time p) (last_message_sent_time p) (connection_closed_time p)
    (connection_terminated_time p) (socket_closed p) (queued_messages p) (remote_endpoint p)
    (inbound_address p) (inbound_port p) (outbound_port p) (node_public_key p) (node_id p) (chain_id p)
    (core_protocol_version p) (graphene_git_revision_unix_timestamp p) (our_state p) (their_state p)
    (negotiation_status p) (is_firewalled p) (firewall_check_state p) (clock_offset p) (round_trip_delay p)
    (shared_secret p).
Definition set_items_requested_from_peer (v : gmap item_id Z) (p : peer_connection) : peer_connection :=
  mkPeer (ids_of_items_to_get p) (ids_of_items_being_processed p) (number_of_unfetched_item_ids p)
    (peer_needs_sync_items_from_us p) (we_need_sync_items_from_peer p) (item_ids_requested_from_peer p)
    (sync_items_requested_from_peer p) (last_block_delegate_has_seen p) (last_block_time_delegate_has_seen
    p) (inhibit_fetching_sync_blocks p) (inventory_peer_advertised_to_us p) (inventory_advertised_to_peer p)
    v (transaction_fetching_inhibited_until p) (last_known_fork_block_number p) (direction p)
    (they_have_requested_close p) (we_have_requested_close p) (connection_initiation_time p)
    (last_message_received_time p) (last_message_sent_time p) (connection_closed_time p)
    (connection_terminated_time p) (socket_closed p) (queued_messages p) (remote_endpoint p)
    (inbound_address p) (inbound_port p) (outbound_port p) (node_public_key p) (node_id p) (chain_id p)
    (core_protocol_version p) (graphene_git_revision_unix_timestamp p) (our_state p) (their_state p)
    (negotiation_status p) (is_firewalled p) (firewall_check_state p) (clock_offset p) (round_trip_delay p)
    (shared_secret p).
Definition set_last_known_fork_block_number (v : Z) (p : peer_connection) : peer_connection :=
  mkPeer (ids_of_items_to_get p) (ids_of_items_being_processed p) (number_of_unfetched_item_ids p)
    (peer_needs_sync_items_from_us p) (we_need_sync_items_from_peer p) (item_ids_requested_from_peer p)
    (sync_items_requested_from_peer p) (last_block_delegate_has_seen p) (last_block_time_delegate_has_seen
    p) (inhibit_fetching_sync_blocks p) (inventory_peer_advertised_to_us p) (inventory_advertised_to_peer p)
    (items_requested_from_peer p) (transaction_fetching_inhibited_until p) v (direction p)
    (they_have_requested_close p) (we_have_requested_close p) (connection_initiation_time p)
    (last_message_received_time p) (last_message_sent_time p) (connection_closed_time p)
    (connection_terminated_time p) (socket_closed p) (queued_messages p) (remote_endpoint p)
    (inbound_address p) (inbound_port p) (outbound_port p) (node_public_key p) (node_id p) (chain_id p)
    (core_protocol_version p) (graphene_git_revision_unix_timestamp p) (our_state p) (their_state p)
    (negotiation_status p) (is_firewalled p) (firewall_check_state p) (clock_offset p) (round_trip_delay p)
    (shared_secret p).
Definition set_direction (v : peer_connection_direction) (p : peer_connection) : peer_connection :=
  mkPeer (ids_of_items_to_get p) (ids_of_items_being_processed p) (number_of_unfetched_item_ids p)
    (peer_needs_sync_items_from_us p) (we_need_sync_items_from_peer p) (item_ids_requested_from_peer p)
    (sync_items_requested_from_peer p) (last_block_delegate_has_seen p) (last_block_time_delegate_has_seen
    p) (inhibit_fetching_sync_blocks p) (inventory_peer_advertised_to_us p) (inventory_advertised_to_peer p)
    (items_requested_from_peer p) (transaction_fetching_inhibited_until p) (last_known_fork_block_number p)
    v (they_have_requested_close p) (we_have_requested_close p) (connection_initiation_time p)
    (last_message_received_time p) (last_message_sent_time p) (connection_closed_time p)
    (connection_terminated_time p) (socket_closed p) (queued_messages p) (remote_endpoint p)
    (inbound_address p) (inbound_port p) (outbound_port p) (node_public_key p) (node_id p) (chain_id p)
    (core_protocol_version p) (graphene_git_revision_unix_timestamp p) (our_state p) (their_state p)
    (negotiation_status p) (is_firewalled p) (firewall_check_state p) (clock_offset p) (round_trip_delay p)
    (shared_secret p).
Definition set_they_have_requested_close (v : bool) (p : peer_connection) : peer_connection :=
  mkPeer (ids_of_items_to_get p) (ids_of_items_being_processed p) (number_of_unfetched_item_ids p)
    (peer_needs_sync_items_from_us p) (we_need_sync_items_from_peer p) (item_ids_requested_from_peer p)
    (sync_items_requested_from_peer p) (last_block_delegate_has_seen p) (last_block_time_delegate_has_seen
    p) (inhibit_fetching_sync_blocks p) (inventory_peer_advertised_to_us p) (inventory_advertised_to_peer p)
    (items_requested_from_peer p) (transaction_fetching_inhibited_until p) (last_known_fork_block_number p)
    (direction p) v (we_have_requested_close p) (connection_initiation_time p) (last_message_received_time
    p) (last_message_sent_time p) (connection_closed_time p) (connection_terminated_time p) (socket_closed
    p) (queued_messages p) (remote_endpoint p) (inbound_address p) (inbound_port p) (outbound_port p)
    (node_public_key p) (node_id p) (chain_id p) (core_protocol_version p)
    (graphene_git_revision_unix_timestamp p) (our_state p) (their_state p) (negotiation_status p)
    (is_firewalled p) (firewall_check_state p) (clock_offset p) (round_trip_delay p) (shared_secret p).
Definition set_we_have_requested_close (v : bool) (p : peer_connection) : peer_connection :=
  mkPeer (ids_of_items_to_get p) (ids_of_items_being_processed p) (number_of_unfetched_item_ids p)
    (peer_needs_sync_items_from_us p) (we_need_sync_items_from_peer p) (item_ids_requested_from_peer p)
    (sync_items_requested_from_peer p) (last_block_delegate_has_seen p) (last_block_time_delegate_has_seen
    p) (inhibit_fetching_sync_blocks p) (inventory_peer_advertised_to_us p) (inventory_advertised_to_peer p)
    (items_requested_from_peer p) (transaction_fetching_inhibited_until p) (last_known_fork_block_number p)
    (direction p) (they_have_requested_close p) v (connection_initiation_time p) (last_message_received_time
    p) (last_message_sent_time p) (connection_closed_time p) (connection_terminated_time p) (socket_closed
    p) (queued_messages p) (remote_endpoint p) (inbound_address p) (inbound_port p) (outbound_port p)
    (node_public_key p) (node_id p) (chain_id p) (core_protocol_version p)
    (graphene_git_revision_unix_timestamp p) (our_state p) (their_state p) (negotiation_status p)
    (is_firewalled p) (firewall_check_state p) (clock_offset p) (round_trip_delay p) (shared_secret p).
Definition set_last_message_received_time (v : Z) (p : peer_connection) : peer_connection :=
  mkPeer (ids_of_items_to_get p) (ids_of_items_being_processed p) (number_of_unfetched_item_ids p)
    (peer_needs_sync_items_from_us p) (we_need_sync_items_from_peer p) (item_ids_requested_from_peer p)
    (sync_items_requested_from_peer p) (last_block_delegate_has_seen p) (last_block_time_delegate_has_seen
    p) (inhibit_fetching_sync_blocks p) (inventory_peer_advertised_to_us p) (inventory_advertised_to_peer p)
    (items_requested_from_peer p) (transaction_fetching_inhibited_until p) (last_known_fork_block_number p)
    (direction p) (they_have_requested_close p) (we_have_requested_close p) (connection_initiation_time p) v
    (last_message_sent_time p) (connection_closed_time p) (connection_terminated_time p) (socket_closed p)
    (queued_messages p) (remote_endpoint p) (inbound_address p) (inbound_port p) (outbound_port p)
    (node_public_key p) (node_id p) (chain_id p) (core_protocol_version p)
    (graphene_git_revision_unix_timestamp p) (our_state p) (their_state p) (negotiation_status p)
    (is_firewalled p) (firewall_check_state p) (clock_offset p) (round_trip_delay p) (shared_secret p).
Definition set_connection_closed_time (v : Z) (p : peer_connection) : peer_connection :=
  mkPeer (ids_of_items_to_get p) (ids_of_items_being_processed p) (number_of_unfetched_item_ids p)
    (peer_needs_sync_items_from_us p) (we_need_sync_items_from_peer p) (item_ids_requested_from_peer p)
    (sync_items_requested_from_peer p) (last_block_delegate_has_seen p) (last_block_time_delegate_has_seen
    p) (inhibit_fetching_sync_blocks p) (inventory_peer_advertised_to_us p) (inventory_advertised_to_peer p)
    (items_requested_from_peer p) (transaction_fetching_inhibited_until p) (last_known_fork_block_number p)
    (direction p) (they_have_requested_close p) (we_have_requested_close p) (connection_initiation_time p)
    (last_message_received_time p) (last_message_sent_time p) v (connection_terminated_time p)
    (socket_closed p) (queued_messages p) (remote_endpoint p) (inbound_address p) (inbound_port p)
    (outbound_port p) (node_public_key p) (node_id p) (chain_id p) (core_protocol_version p)
    (graphene_git_revision_unix_timestamp p) (our_state p) (their_state p) (negotiation_status p)
    (is_firewalled p) (firewall_check_state p) (clock_offset p) (round_trip_delay p) (shared_secret p).
Definition set_connection_terminated_time (v : Z) (p : peer_connection) : peer_connection :=
  mkPeer (ids_of_items_to_get p) (ids_of_items_being_processed p) (number_of_unfetched_item_ids p)
    (peer_needs_sync_items_from_us p) (we_need_sync_items_from_peer p) (item_ids_requested_from_peer p)
    (sync_items_requested_from_peer p) (last_block_delegate_has_seen p) (last_block_time_delegate_has_seen
    p) (inhibit_fetching_sync_blocks p) (inventory_peer_advertised_to_us p) (inventory_advertised_to_peer p)
    (items_requested_from_peer p) (transaction_fetching_inhibited_until p) (last_known_fork_block_number p)
    (direction p) (they_have_requested_close p) (we_have_requested_close p) (connection_initiation_time p)
    (last_message_received_time p) (last_message_sent_time p) (connection_closed_time p) v (socket_closed p)
    (queued_messages p) (remote_endpoint p) (inbound_address p) (inbound_port p) (outbound_port p)
    (node_public_key p) (node_id p) (chain_id p) (core_protocol_version p)
    (graphene_git_revision_unix_timestamp p) (our_state p) (their_state p) (negotiation_status p)
    (is_firewalled p) (firewall_check_state p) (clock_offset p) (round_trip_delay p) (shared_secret p).
Definition set_socket_closed (v : bool) (p : peer_connection) : peer_connection :=
  mkPeer (ids_of_items_to_get p) (ids_of_items_being_processed p) (number_of_unfetched_item_ids p)
    (peer_needs_sync_items_from_us p) (we_need_sync_items_from_peer p) (item_ids_requested_from_peer p)
    (sync_items_requested_from_peer p) (last_block_delegate_has_seen p) (last_block_time_delegate_has_seen
    p) (inhibit_fetching_sync_blocks p) (inventory_peer_advertised_to_us p) (inventory_advertised_to_peer p)
    (items_requested_from_peer p) (transaction_fetching_inhibited_until p) (last_known_fork_block_number p)
    (direction p) (they_have_requested_close p) (we_have_requested_close p) (connection_initiation_time p)
    (last_message_received_time p) (last_message_sent_time p) (connection_closed_time p)
    (connection_terminated_time p) v (queued_messages p) (remote_endpoint p) (inbound_address p)
    (inbound_port p) (outbound_port p) (node_public_key p) (node_id p) (chain_id p) (core_protocol_version
    p) (graphene_git_revision_unix_timestamp p) (our_state p) (their_state p) (negotiation_status p)
    (is_firewalled p) (firewall_check_state p) (clock_offset p) (round_trip_delay p) (shared_secret p).
Definition set_queued_messages (v : list queued_message) (p : peer_connection) : peer_connection :=
  mkPeer (ids_of_items_to_get p) (ids_of_items_being_processed p) (number_of_unfetched_item_ids p)
    (peer_needs_sync_items_from_us p) (we_need_sync_items_from_peer p) (item_ids_requested_from_peer p)
    (sync_items_requested_from_peer p) (last_block_delegate_has_seen p) (last_block_time_delegate_has_seen
    p) (inhibit_fetching_sync_blocks p) (inventory_peer_advertised_to_us p) (inventory_advertised_to_peer p)
    (items_requested_from_peer p) (transaction_fetching_inhibited_until p) (last_known_fork_block_number p)
    (direction p) (they_have_requested_close p) (we_have_requested_close p) (connection_initiation_time p)
    (last_message_received_time p) (last_message_sent_time p) (connection_closed_time p)
    (connection_terminated_time p) (socket_closed p) v (remote_endpoint p) (inbound_address p) (inbound_port
    p) (outbound_port p) (node_public_key p) (node_id p) (chain_id p) (core_protocol_version p)
    (graphene_git_revision_unix_timestamp p) (our_state p) (their_state p) (negotiation_status p)
    (is_firewalled p) (firewall_check_state p) (clock_offset p) (round_trip_delay p) (shared_secret p).
Definition set_remote_endpoint (v : option endpoint) (p : peer_connection) : peer_connection :=
  mkPeer (ids_of_items_to_get p) (ids_of_items_being_processed p) (number_of_unfetched_item_ids p)
    (peer_needs_sync_items_from_us p) (we_need_sync_items_from_peer p) (item_ids_requested_from_peer p)
    (sync_items_requested_from_peer p) (last_block_delegate_has_seen p) (last_block_time_delegate_has_seen
    p) (inhibit_fetching_sync_blocks p) (inventory_peer_advertised_to_us p) (inventory_advertised_to_peer p)
    (items_requested_from_peer p) (transaction_fetching_inhibited_until p) (last_known_fork_block_number p)
    (direction p) (they_have_requested_close p) (we_have_requested_close p) (connection_initiation_time p)
    (last_message_received_time p) (last_message_sent_time p) (connection_closed_time p)
    (connection_terminated_time p) (socket_closed p) (queued_messages p) v (inbound_address p) (inbound_port
    p) (outbound_port p) (node_public_key p) (node_id p) (chain_id p) (core_protocol_version p)
    (graphene_git_revision_unix_timestamp p) (our_state p) (their_state p) (negotiation_status p)
    (is_firewalled p) (firewall_check_state p) (clock_offset p) (round_trip_delay p) (shared_secret p).
Definition set_inbound_address (v : Z) (p : peer_connection) : peer_connection :=
  mkPeer (ids_of_items_to_get p) (ids_of_items_being_processed p) (number_of_unfetched_item_ids p)
    (peer_needs_sync_items_from_us p) (we_need_sync_items_from_peer p) (item_ids_requested_from_peer p)
    (sync_items_requested_from_peer p) (last_block_delegate_has_seen p) (last_block_time_delegate_has_seen
    p) (inhibit_fetching_sync_blocks p) (inventory_peer_advertised_to_us p) (inventory_advertised_to_peer p)
    (items_requested_from_peer p) (transaction_fetching_inhibited_until p) (last_known_fork_block_number p)
    (direction p) (they_have_requested_close p) (we_have_requested_close p) (connection_initiation_time p)
    (last_message_received_time p) (last_message_sent_time p) (connection_closed_time p)
    (connection_terminated_time p) (socket_closed p) (queued_messages p) (remote_endpoint p) v (inbound_port
    p) (outbound_port p) (node_public_key p) (node_id p) (chain_id p) (core_protocol_version p)
    (graphene_git_revision_unix_timestamp p) (our_state p) (their_state p) (negotiation_status p)
    (is_firewalled p) (firewall_check_state p) (clock_offset p) (round_trip_delay p) (shared_secret p).
Definition set_inbound_port (v : Z) (p : peer_connection) : peer_connection :=
  mkPeer (ids_of_items_to_get p) (ids_of_items_being_processed p) (number_of_unfetched_item_ids p)
    (peer_needs_sync_items_from_us p) (we_need_sync_items_from_peer p) (item_ids_requested_from_peer p)
    (sync_items_requested_from_peer p) (last_block_delegate_has_seen p) (last_block_time_delegate_has_seen
    p) (inhibit_fetching_sync_blocks p) (inventory_peer_advertised_to_us p) (inventory_advertised_to_peer p)
    (items_requested_from_peer p) (transaction_fetching_inhibited_until p) (last_known_fork_block_number p)
    (direction p) (they_have_requested_close p) (we_have_requested_close p) (connection_initiation_time p)
    (last_message_received_time p) (last_message_sent_time p) (connection_closed_time p)
    (connection_terminated_time p) (socket_closed p) (queued_messages p) (remote_endpoint p)
    (inbound_address p) v (outbound_port p) (node_public_key p) (node_id p) (chain_id p)
    (core_protocol_version p) (graphene_git_revision_unix_timestamp p) (our_state p) (their_state p)
    (negotiation_status p) (is_firewalled p) (firewall_check_state p) (clock_offset p) (round_trip_delay p)
    (shared_secret p).
Definition set_outbound_port (v : Z) (p : peer_connection) : peer_connection :=
  mkPeer (ids_of_items_to_get p) (ids_of_items_being_processed p) (number_of_unfetched_item_ids p)
    (peer_needs_sync_items_from_us p) (we_need_sync_items_from_peer p) (item_ids_requested_from_peer p)
    (sync_items_requested_from_peer p) (last_block_delegate_has_seen p) (last_block_time_delegate_has_seen
    p) (inhibit_fetching_sync_blocks p) (inventory_peer_advertised_to_us p) (inventory_advertised_to_peer p)
    (items_requested_from_peer p) (transaction_fetching_inhibited_until p) (last_known_fork_block_number p)
    (direction p) (they_have_requested_close p) (we_have_requested_close p) (connection_initiation_time p)
    (last_message_received_time p) (last_message_sent_time p) (connection_closed_time p)
    (connection_terminated_time p) (socket_closed p) (queued_messages p) (remote_endpoint p)
    (inbound_address p) (inbound_port p) v (node_public_key p) (node_id p) (chain_id p)
    (core_protocol_version p) (graphene_git_revision_unix_timestamp p) (our_state p) (their_state p)
    (negotiation_status p) (is_firewalled p) (firewall_check_state p) (clock_offset p) (round_trip_delay p)
    (shared_secret p).
Definition set_node_public_key (v : node_id_t) (p : peer_connection) : peer_connection :=
  mkPeer (ids_of_items_to_get p) (ids_of_items_being_processed p) (number_of_unfetched_item_ids p)
    (peer_needs_sync_items_from_us p) (we_need_sync_items_from_peer p) (item_ids_requested_from_peer p)
    (sync_items_requested_from_peer p) (last_block_delegate_has_seen p) (last_block_time_delegate_has_seen
    p) (inhibit_fetching_sync_blocks p) (inventory_peer_advertised_to_us p) (inventory_advertised_to_peer p)
    (items_requested_from_peer p) (transaction_fetching_inhibited_until p) (last_known_fork_block_number p)
    (direction p) (they_have_requested_close p) (we_have_requested_close p) (connection_initiation_time p)
    (last_message_received_time p) (last_message_sent_time p) (connection_closed_time p)
    (connection_terminated_time p) (socket_closed p) (queued_messages p) (remote_endpoint p)
    (inbound_address p) (inbound_port p) (outbound_port p) v (node_id p) (chain_id p) (core_protocol_version
    p) (graphene_git_revision_unix_timestamp p) (our_state p) (their_state p) (negotiation_status p)
    (is_firewalled p) (firewall_check_state p) (clock_offset p) (round_trip_delay p) (shared_secret p).
Definition set_node_id (v : node_id_t) (p : peer_connection) : peer_connection :=
  mkPeer (ids_of_items_to_get p) (ids_of_items_being_processed p) (number_of_unfetched_item_ids p)
    (peer_needs_sync_items_from_us p) (we_need_sync_items_from_peer p) (item_ids_requested_from_peer p)
    (sync_items_requested_from_peer p) (last_block_delegate_has_seen p) (last_block_time_delegate_has_seen
    p) (inhibit_fetching_sync_blocks p) (inventory_peer_advertised_to_us p) (inventory_advertised_to_peer p)
    (items_requested_from_peer p) (transaction_fetching_inhibited_until p) (last_known_fork_block_number p)
    (direction p) (they_have_requested_close p) (we_have_requested_close p) (connection_initiation_time p)
    (last_message_received_time p) (last_message_sent_time p) (connection_closed_time p)
    (connection_terminated_time p) (socket_closed p) (queued_messages p) (remote_endpoint p)
    (inbound_address p) (inbound_port p) (outbound_port p) (node_public_key p) v (chain_id p)
    (core_protocol_version p) (graphene_git_revision_unix_timestamp p) (our_state p) (their_state p)
    (negotiation_status p) (is_firewalled p) (firewall_check_state p) (clock_offset p) (round_trip_delay p)
    (shared_secret p).
Definition set_chain_id (v : option Z) (p : peer_connection) : peer_connection :=
  mkPeer (ids_of_items_to_get p) (ids_of_items_being_processed p) (number_of_unfetched_item_ids p)
    (peer_needs_sync_items_from_us p) (we_need_sync_items_from_peer p) (item_ids_requested_from_peer p)
    (sync_items_requested_from_peer p) (last_block_delegate_has_seen p) (last_block_time_delegate_has_seen
    p) (inhibit_fetching_sync_blocks p) (inventory_peer_advertised_to_us p) (inventory_advertised_to_peer p)
    (items_requested_from_peer p) (transaction_fetching_inhibited_until p) (last_known_fork_block_number p)
    (direction p) (they_have_requested_close p) (we_have_requested_close p) (connection_initiation_time p)
    (last_message_received_time p) (last_message_sent_time p) (connection_closed_time p)
    (connection_terminated_time p) (socket_closed p) (queued_messages p) (remote_endpoint p)
    (inbound_address p) (inbound_port p) (outbound_port p) (node_public_key p) (node_id p) v
    (core_protocol_version p) (graphene_git_revision_unix_timestamp p) (our_state p) (their_state p)
    (negotiation_status p) (is_firewalled p) (firewall_check_state p) (clock_offset p) (round_trip_delay p)
    (shared_secret p).
Definition set_core_protocol_version (v : Z) (p : peer_connection) : peer_connection :=
  mkPeer (ids_of_items_to_get p) (ids_of_items_being_processed p) (number_of_unfetched_item_ids p)
    (peer_needs_sync_items_from_us p) (we_need_sync_items_from_peer p) (item_ids_requested_from_peer p)
    (sync_items_requested_from_peer p) (last_block_delegate_has_seen p) (last_block_time_delegate_has_seen
    p) (inhibit_fetching_sync_blocks p) (inventory_peer_advertised_to_us p) (inventory_advertised_to_peer p)
    (items_requested_from_peer p) (transaction_fetching_inhibited_until p) (last_known_fork_block_number p)
    (direction p) (they_have_requested_close p) (we_have_requested_close p) (connection_initiation_time p)
    (last_message_received_time p) (last_message_sent_time p) (connection_closed_time p)
    (connection_terminated_time p) (socket_closed p) (queued_messages p) (remote_endpoint p)
    (inbound_address p) (inbound_port p) (outbound_port p) (node_public_key p) (node_id p) (chain_id p) v
    (graphene_git_revision_unix_timestamp p) (our_state p) (their_state p) (negotiation_status p)
    (is_firewalled p) (firewall_check_state p) (clock_offset p) (round_trip_delay p) (shared_secret p).
Definition set_graphene_git_revision_unix_timestamp (v : option Z) (p : peer_connection) : peer_connection :=
  mkPeer (ids_of_items_to_get p) (ids_of_items_being_processed p) (number_of_unfetched_item_ids p)
    (peer_needs_sync_items_from_us p) (we_need_sync_items_from_peer p) (item_ids_requested_from_peer p)
    (sync_items_requested_from_peer p) (last_block_delegate_has_seen p) (last_block_time_delegate_has_seen
    p) (inhibit_fetching_sync_blocks p) (inventory_peer_advertised_to_us p) (inventory_advertised_to_peer p)
    (items_requested_from_peer p) (transaction_fetching_inhibited_until p) (last_known_fork_block_number p)
    (direction p) (they_have_requested_close p) (we_have_requested_close p) (connection_initiation_time p)
    (last_message_received_time p) (last_message_sent_time p) (connection_closed_time p)
    (connection_terminated_time p) (socket_closed p) (queued_messages p) (remote_endpoint p)
    (inbound_address p) (inbound_port p) (outbound_port p) (node_public_key p) (node_id p) (chain_id p)
    (core_protocol_version p) v (our_state p) (their_state p) (negotiation_status p) (is_firewalled p)
    (firewall_check_state p) (clock_offset p) (round_trip_delay p) (shared_secret p).
Definition set_our_state (v : connection_state) (p : peer_connection) : peer_connection :=
  mkPeer (ids_of_items_to_get p) (ids_of_items_being_processed p) (number_of_unfetched_item_ids p)
    (peer_needs_sync_items_from_us p) (we_need_sync_items_from_peer p) (item_ids_requested_from_peer p)
    (sync_items_requested_from_peer p) (last_block_delegate_has_seen p) (last_block_time_delegate_has_seen
    p) (inhibit_fetching_sync_blocks p) (inventory_peer_advertised_to_us p) (inventory_advertised_to_peer p)
    (items_requested_from_peer p) (transaction_fetching_inhibited_until p) (last_known_fork_block_number p)
    (direction p) (they_have_requested_close p) (we_have_requested_close p) (connection_initiation_time p)
    (last_message_received_time p) (last_message_sent_time p) (connection_closed_time p)
    (connection_terminated_time p) (socket_closed p) (queued_messages p) (remote_endpoint p)
    (inbound_address p) (inbound_port p) (outbound_port p) (node_public_key p) (node_id p) (chain_id p)
    (core_protocol_version p) (graphene_git_revision_unix_timestamp p) v (their_state p) (negotiation_status
    p) (is_firewalled p) (firewall_check_state p) (clock_offset p) (round_trip_delay p) (shared_secret p).
Definition set_their_state (v : connection_state) (p : peer_connection) : peer_connection :=
  mkPeer (ids_of_items_to_get p) (ids_of_items_being_processed p) (number_of_unfetched_item_ids p)
    (peer_needs_sync_items_from_us p) (we_need_sync_items_from_peer p) (item_ids_requested_from_peer p)
    (sync_items_requested_from_peer p) (last_block_delegate_has_seen p) (last_block_time_delegate_has_seen
    p) (inhibit_fetching_sync_blocks p) (inventory_peer_advertised_to_us p) (inventory_advertised_to_peer p)
    (items_requested_from_peer p) (transaction_fetching_inhibited_until p) (last_known_fork_block_number p)
    (direction p) (they_have_requested_close p) (we_have_requested_close p) (connection_initiation_time p)
    (last_message_received_time p) (last_message_sent_time p) (connection_closed_time p)
    (connection_terminated_time p) (socket_closed p) (queued_messages p) (remote_endpoint p)
    (inbound_address p) (inbound_port p) (outbound_port p) (node_public_key p) (node_id p) (chain_id p)
    (core_protocol_version p) (graphene_git_revision_unix_timestamp p) (our_state p) v (negotiation_status
    p) (is_firewalled p) (firewall_check_state p) (clock_offset p) (round_trip_delay p) (shared_secret p).
Definition set_negotiation_status (v : connection_negotiation_status) (p : peer_connection) : peer_connection :=
  mkPeer (ids_of_items_to_get p) (ids_of_items_being_processed p) (number_of_unfetched_item_ids p)
    (peer_needs_sync_items_from_us p) (we_need_sync_items_from_peer p) (item_ids_requested_from_peer p)
    (sync_items_requested_from_peer p) (last_block_delegate_has_seen p) (last_block_time_delegate_has_seen
    p) (inhibit_fetching_sync_blocks p) (inventory_peer_advertised_to_us p) (inventory_advertised_to_peer p)
    (items_requested_from_peer p) (transaction_fetching_inhibited_until p) (last_known_fork_block_number p)
    (direction p) (they_have_requested_close p) (we_have_requested_close p) (connection_initiation_time p)
    (last_message_received_time p) (last_message_sent_time p) (connection_closed_time p)
    (connection_terminated_time p) (socket_closed p) (queued_messages p) (remote_endpoint p)
    (inbound_address p) (inbound_port p) (outbound_port p) (node_public_key p) (node_id p) (chain_id p)
    (core_protocol_version p) (graphene_git_revision_unix_timestamp p) (our_state p) (their_state p) v
    (is_firewalled p) (firewall_check_state p) (clock_offset p) (round_trip_delay p) (shared_secret p).
Definition set_is_firewalled (v : firewalled_state) (p : peer_connection) : peer_connection :=
  mkPeer (ids_of_items_to_get p) (ids_of_items_being_processed p) (number_of_unfetched_item_ids p)
    (peer_needs_sync_items_from_us p) (we_need_sync_items_from_peer p) (item_ids_requested_from_peer p)
    (sync_items_requested_from_peer p) (last_block_delegate_has_seen p) (last_block_time_delegate_has_seen
    p) (inhibit_fetching_sync_blocks p) (inventory_peer_advertised_to_us p) (inventory_advertised_to_peer p)
    (items_requested_from_peer p) (transaction_fetching_inhibited_until p) (last_known_fork_block_number p)
    (direction p) (they_have_requested_close p) (we_have_requested_close p) (connection_initiation_time p)
    (last_message_received_time p) (last_message_sent_time p) (connection_closed_time p)
    (connection_terminated_time p) (socket_closed p) (queued_messages p) (remote_endpoint p)
    (inbound_address p) (inbound_port p) (outbound_port p) (node_public_key p) (node_id p) (chain_id p)
    (core_protocol_version p) (graphene_git_revision_unix_timestamp p) (our_state p) (their_state p)
    (negotiation_status p) v (firewall_check_state p) (clock_offset p) (round_trip_delay p) (shared_secret
    p).
Definition set_firewall_check_state (v : option firewall_check_state_data) (p : peer_connection) : peer_connection :=
  mkPeer (ids_of_items_to_get p) (ids_of_items_being_processed p) (number_of_unfetched_item_ids p)
    (peer_needs_sync_items_from_us p) (we_need_sync_items_from_peer p) (item_ids_requested_from_peer p)
    (sync_items_requested_from_peer p) (last_block_delegate_has_seen p) (last_block_time_delegate_has_seen
    p) (inhibit_fetching_sync_blocks p) (inventory_peer_advertised_to_us p) (inventory_advertised_to_peer p)
    (items_requested_from_peer p) (transaction_fetching_inhibited_until p) (last_known_fork_block_number p)
    (direction p) (they_have_requested_close p) (we_have_requested_close p) (connection_initiation_time p)
    (last_message_received_time p) (last_message_sent_time p) (connection_closed_time p)
    (connection_terminated_time p) (socket_closed p) (queued_messages p) (remote_endpoint p)
    (inbound_address p) (inbound_port p) (outbound_port p) (node_public_key p) (node_id p) (chain_id p)
    (core_protocol_version p) (graphene_git_revision_unix_timestamp p) (our_state p) (their_state p)
    (negotiation_status p) (is_firewalled p) v (clock_offset p) (round_trip_delay p) (shared_secret p).
Definition set_clock_offset (v : Z) (p : peer_connection) : peer_connection :=
  mkPeer (ids_of_items_to_get p) (ids_of_items_being_processed p) (number_of_unfetched_item_ids p)
    (peer_needs_sync_items_from_us p) (we_need_sync_items_from_peer p) (item_ids_requested_from_peer p)
    (sync_items_requested_from_peer p) (last_block_delegate_has_seen p) (last_block_time_delegate_has_seen
    p) (inhibit_fetching_sync_blocks p) (inventory_peer_advertised_to_us p) (inventory_advertised_to_peer p)
    (items_requested_from_peer p) (transaction_fetching_inhibited_until p) (last_known_fork_block_number p)
    (direction p) (they_have_requested_close p) (we_have_requested_close p) (connection_initiation_time p)
    (last_message_received_time p) (last_message_sent_time p) (connection_closed_time p)
    (connection_terminated_time p) (socket_closed p) (queued_messages p) (remote_endpoint p)
    (inbound_address p) (inbound_port p) (outbound_port p) (node_public_key p) (node_id p) (chain_id p)
    (core_protocol_version p) (graphene_git_revision_unix_timestamp p) (our_state p) (their_state p)
    (negotiation_status p) (is_firewalled p) (firewall_check_state p) v (round_trip_delay p) (shared_secret
    p).
Definition set_round_trip_delay (v : Z) (p : peer_connection) : peer_connection :=
  mkPeer (ids_of_items_to_get p) (ids_of_items_being_processed p) (number_of_unfetched_item_ids p)
    (peer_needs_sync_items_from_us p) (we_need_sync_items_from_peer p) (item_ids_requested_from_peer p)
    (sync_items_requested_from_peer p) (last_block_delegate_has_seen p) (last_block_time_delegate_has_seen
    p) (inhibit_fetching_sync_blocks p) (inventory_peer_advertised_to_us p) (inventory_advertised_to_peer p)
    (items_requested_from_peer p) (transaction_fetching_inhibited_until p) (last_known_fork_block_number p)
    (direction p) (they_have_requested_close p) (we_have_requested_close p) (connection_initiation_time p)
    (last_message_received_time p) (last_message_sent_time p) (connection_closed_time p)
    (connection_terminated_time p) (socket_closed p) (queued_messages p) (remote_endpoint p)
    (inbound_address p) (inbound_port p) (outbound_port p) (node_public_key p) (node_id p) (chain_id p)
    (core_protocol_version p) (graphene_git_revision_unix_timestamp p) (our_state p) (their_state p)
    (negotiation_status p) (is_firewalled p) (firewall_check_state p) (clock_offset p) v (shared_secret p).
Definition set_shared_secret (v : Z) (p : peer_connection) : peer_connection :=
  mkPeer (ids_of_items_to_get p) (ids_of_items_being_processed p) (number_of_unfetched_item_ids p)
    (peer_needs_sync_items_from_us p) (we_need_sync_items_from_peer p) (item_ids_requested_from_peer p)
    (sync_items_requested_from_peer p) (last_block_delegate_has_seen p) (last_block_time_delegate_has_seen
    p) (inhibit_fetching_sync_blocks p) (inventory_peer_advertised_to_us p) (inventory_advertised_to_peer p)
    (items_requested_from_peer p) (transaction_fetching_inhibited_until p) (last_known_fork_block_number p)
    (direction p) (they_have_requested_close p) (we_have_requested_close p) (connection_initiation_time p)
    (last_message_received_time p) (last_message_sent_time p) (connection_closed_time p)
    (connection_terminated_time p) (socket_closed p) (queued_messages p) (remote_endpoint p)
    (inbound_address p) (inbound_port p) (outbound_port p) (node_public_key p) (node_id p) (chain_id p)
    (core_protocol_version p) (graphene_git_revision_unix_timestamp p) (our_state p) (their_state p)
    (negotiation_status p) (is_firewalled p) (firewall_check_state p) (clock_offset p) (round_trip_delay p)
    v.

Section node.
Context {D : Type}.
Record node_impl := mkNode {
  connections : gmap peer_id peer_connection;
  handshaking_connections : gset peer_id;
  active_connections : list peer_id;
  closing_connections : gset peer_id;
  terminating_connections : gset peer_id;
  active_sync_requests : gmap item_hash Z;
  new_received_sync_items : list block_message;
  received_sync_items : list block_message;
  items_to_fetch : list prioritized_item_id;
  items_to_fetch_sequence_counter : Z;
  recently_failed_items : gmap item_id Z;
  new_inventory : list item_id;
  message_ids_currently_being_processed : gset item_hash;
  most_recent_blocks_accepted : list item_hash;
  sync_item_type : Z;
  total_number_of_unfetched_items : Z;
  hard_fork_block_numbers : list Z;
  message_cache : cache;
  last_reported_number_of_connections : Z;
  now : Z;
  own_node_id : node_id_t;
  own_public_key : node_id_t;
  potential_peer_db : peer_database;
  potential_peer_database_updated : bool;
  add_once_node_list : list potential_peer_record;
  self_firewalled : firewalled_state;
  last_firewall_check_message_sent : Z;
  publicly_visible_listening_endpoint : option endpoint;
  actual_listening_endpoint : endpoint;
  delegate : D
}.

Definition set_connections (v : gmap peer_id peer_connection) (s : node_impl) : node_impl :=
  mkNode v (handshaking_connections s) (active_connections s) (closing_connections s)
    (terminating_connections s) (active_sync_requests s) (new_received_sync_items s) (received_sync_items s)
    (items_to_fetch s) (items_to_fetch_sequence_counter s) (recently_failed_items s) (new_inventory s)
    (message_ids_currently_being_processed s) (most_recent_blocks_accepted s) (sync_item_type s)
    (total_number_of_unfetched_items s) (hard_fork_block_numbers s) (message_cache s)
    (last_reported_number_of_connections s) (now s) (own_node_id s) (own_public_key s) (potential_peer_db s)
    (potential_peer_database_updated s) (add_once_node_list s) (self_firewalled s)
    (last_firewall_check_message_sent s) (publicly_visible_listening_endpoint s) (actual_listening_endpoint
    s) (delegate s).
Definition set_handshaking_connections (v : gset peer_id) (s : node_impl) : node_impl :=
  mkNode (connections s) v (active_connections s) (closing_connections s) (terminating_connections s)
    (active_sync_requests s) (new_received_sync_items s) (received_sync_items s) (items_to_fetch s)
    (items_to_fetch_sequence_counter s) (recently_failed_items s) (new_inventory s)
    (message_ids_currently_being_processed s) (most_recent_blocks_accepted s) (sync_item_type s)
    (total_number_of_unfetched_items s) (hard_fork_block_numbers s) (message_cache s)
    (last_reported_number_of_connections s) (now s) (own_node_id s) (own_public_key s) (potential_peer_db s)
    (potential_peer_database_updated s) (add_once_node_list s) (self_firewalled s)
    (last_firewall_check_message_sent s) (publicly_visible_listening_endpoint s) (actual_listening_endpoint
    s) (delegate s).
Definition set_active_connections (v : list peer_id) (s : node_impl) : node_impl :=
  mkNode (connections s) (handshaking_connections s) v (closing_connections s) (terminating_connections s)
    (active_sync_requests s) (new_received_sync_items s) (received_sync_items s) (items_to_fetch s)
    (items_to_fetch_sequence_counter s) (recently_failed_items s) (new_inventory s)
    (message_ids_currently_being_processed s) (most_recent_blocks_accepted s) (sync_item_type s)
    (total_number_of_unfetched_items s) (hard_fork_block_numbers s) (message_cache s)
    (last_reported_number_of_connections s) (now s) (own_node_id s) (own_public_key s) (potential_peer_db s)
    (potential_peer_database_updated s) (add_once_node_list s) (self_firewalled s)
    (last_firewall_check_message_sent s) (publicly_visible_listening_endpoint s) (actual_listening_endpoint
    s) (delegate s).
Definition set_closing_connections (v : gset peer_id) (s : node_impl) : node_impl :=
  mkNode (connections s) (handshaking_connections s) (active_connections s) v (terminating_connections s)
    (active_sync_requests s) (new_received_sync_items s) (received_sync_items s) (items_to_fetch s)
    (items_to_fetch_sequence_counter s) (recently_failed_items s) (new_inventory s)
    (message_ids_currently_being_processed s) (most_recent_blocks_accepted s) (sync_item_type s)
    (total_number_of_unfetched_items s) (hard_fork_block_numbers s) (message_cache s)
    (last_reported_number_of_connections s) (now s) (own_node_id s) (own_public_key s) (potential_peer_db s)
    (potential_peer_database_updated s) (add_once_node_list s) (self_firewalled s)
    (last_firewall_check_message_sent s) (publicly_visible_listening_endpoint s) (actual_listening_endpoint
    s) (delegate s).
Definition set_terminating_connections (v : gset peer_id) (s : node_impl) : node_impl :=
  mkNode (connections s) (handshaking_connections s) (active_connections s) (closing_connections s) v
    (active_sync_requests s) (new_received_sync_items s) (received_sync_items s) (items_to_fetch s)
    (items_to_fetch_sequence_counter s) (recently_failed_items s) (new_inventory s)
    (message_ids_currently_being_processed s) (most_recent_blocks_accepted s) (sync_item_type s)
    (total_number_of_unfetched_items s) (hard_fork_block_numbers s) (message_cache s)
    (last_reported_number_of_connections s) (now s) (own_node_id s) (own_public_key s) (potential_peer_db s)
    (potential_peer_database_updated s) (add_once_node_list s) (self_firewalled s)
    (last_firewall_check_message_sent s) (publicly_visible_listening_endpoint s) (actual_listening_endpoint
    s) (delegate s).
Definition set_active_sync_requests (v : gmap item_hash Z) (s : node_impl) : node_impl :=
  mkNode (connections s) (handshaking_connections s) (active_connections s) (closing_connections s)
    (terminating_connections s) v (new_received_sync_items s) (received_sync_items s) (items_to_fetch s)
    (items_to_fetch_sequence_counter s) (recently_failed_items s) (new_inventory s)
    (message_ids_currently_being_processed s) (most_recent_blocks_accepted s) (sync_item_type s)
    (total_number_of_unfetched_items s) (hard_fork_block_numbers s) (message_cache s)
    (last_reported_number_of_connections s) (now s) (own_node_id s) (own_public_key s) (potential_peer_db s)
    (potential_peer_database_updated s) (add_once_node_list s) (self_firewalled s)
    (last_firewall_check_message_sent s) (publicly_visible_listening_endpoint s) (actual_listening_endpoint
    s) (delegate s).
Definition set_new_received_sync_items (v : list block_message) (s : node_impl) : node_impl :=
  mkNode (connections s) (handshaking_connections s) (active_connections s) (closing_connections s)
    (terminating_connections s) (active_sync_requests s) v (received_sync_items s) (items_to_fetch s)
    (items_to_fetch_sequence_counter s) (recently_failed_items s) (new_inventory s)
    (message_ids_currently_being_processed s) (most_recent_blocks_accepted s) (sync_item_type s)
    (total_number_of_unfetched_items s) (hard_fork_block_numbers s) (message_cache s)
    (last_reported_number_of_connections s) (now s) (own_node_id s) (own_public_key s) (potential_peer_db s)
    (potential_peer_database_updated s) (add_once_node_list s) (self_firewalled s)
    (last_firewall_check_message_sent s) (publicly_visible_listening_endpoint s) (actual_listening_endpoint
    s) (delegate s).
Definition set_received_sync_items (v : list block_message) (s : node_impl) : node_impl :=
  mkNode (connections s) (handshaking_connections s) (active_connections s) (closing_connections s)
    (terminating_connections s) (active_sync_requests s) (new_received_sync_items s) v (items_to_fetch s)
    (items_to_fetch_sequence_counter s) (recently_failed_items s) (new_inventory s)
    (message_ids_currently_being_processed s) (most_recent_blocks_accepted s) (sync_item_type s)
    (total_number_of_unfetched_items s) (hard_fork_block_numbers s) (message_cache s)
    (last_reported_number_of_connections s) (now s) (own_node_id s) (own_public_key s) (potential_peer_db s)
    (potential_peer_database_updated s) (add_once_node_list s) (self_firewalled s)
    (last_firewall_check_message_sent s) (publicly_visible_listening_endpoint s) (actual_listening_endpoint
    s) (delegate s).
Definition set_items_to_fetch (v : list prioritized_item_id) (s : node_impl) : node_impl :=
  mkNode (connections s) (handshaking_connections s) (active_connections s) (closing_connections s)
    (terminating_connections s) (active_sync_requests s) (new_received_sync_items s) (received_sync_items s)
    v (items_to_fetch_sequence_counter s) (recently_failed_items s) (new_inventory s)
    (message_ids_currently_being_processed s) (most_recent_blocks_accepted s) (sync_item_type s)
    (total_number_of_unfetched_items s) (hard_fork_block_numbers s) (message_cache s)
    (last_reported_number_of_connections s) (now s) (own_node_id s) (own_public_key s) (potential_peer_db s)
    (potential_peer_database_updated s) (add_once_node_list s) (self_firewalled s)
    (last_firewall_check_message_sent s) (publicly_visible_listening_endpoint s) (actual_listening_endpoint
    s) (delegate s).
Definition set_items_to_fetch_sequence_counter (v : Z) (s : node_impl) : node_impl :=
  mkNode (connections s) (handshaking_connections s) (active_connections s) (closing_connections s)
    (terminating_connections s) (active_sync_requests s) (new_received_sync_items s) (received_sync_items s)
    (items_to_fetch s) v (recently_failed_items s) (new_inventory s) (message_ids_currently_being_processed
    s) (most_recent_blocks_accepted s) (sync_item_type s) (total_number_of_unfetched_items s)
    (hard_fork_block_numbers s) (message_cache s) (last_reported_number_of_connections s) (now s)
    (own_node_id s) (own_public_key s) (potential_peer_db s) (potential_peer_database_updated s)
    (add_once_node_list s) (self_firewalled s) (last_firewall_check_message_sent s)
    (publicly_visible_listening_endpoint s) (actual_listening_endpoint s) (delegate s).
Definition set_recently_failed_items (v : gmap item_id Z) (s : node_impl) : node_impl :=
  mkNode (connections s) (handshaking_connections s) (active_connections s) (closing_connections s)
    (terminating_connections s) (active_sync_requests s) (new_received_sync_items s) (received_sync_items s)
    (items_to_fetch s) (items_to_fetch_sequence_counter s) v (new_inventory s)
    (message_ids_currently_being_processed s) (most_recent_blocks_accepted s) (sync_item_type s)
    (total_number_of_unfetched_items s) (hard_fork_block_numbers s) (message_cache s)
    (last_reported_number_of_connections s) (now s) (own_node_id s) (own_public_key s) (potential_peer_db s)
    (potential_peer_database_updated s) (add_once_node_list s) (self_firewalled s)
    (last_firewall_check_message_sent s) (publicly_visible_listening_endpoint s) (actual_listening_endpoint
    s) (delegate s).
Definition set_new_inventory (v : list item_id) (s : node_impl) : node_impl :=
  mkNode (connections s) (handshaking_connections s) (active_connections s) (closing_connections s)
    (terminating_connections s) (active_sync_requests s) (new_received_sync_items s) (received_sync_items s)
    (items_to_fetch s) (items_to_fetch_sequence_counter s) (recently_failed_items s) v
    (message_ids_currently_being_processed s) (most_recent_blocks_accepted s) (sync_item_type s)
    (total_number_of_unfetched_items s) (hard_fork_block_numbers s) (message_cache s)
    (last_reported_number_of_connections s) (now s) (own_node_id s) (own_public_key s) (potential_peer_db s)
    (potential_peer_database_updated s) (add_once_node_list s) (self_firewalled s)
    (last_firewall_check_message_sent s) (publicly_visible_listening_endpoint s) (actual_listening_endpoint
    s) (delegate s).
Definition set_message_ids_currently_being_processed (v : gset item_hash) (s : node_impl) : node_impl :=
  mkNode (connections s) (handshaking_connections s) (active_connections s) (closing_connections s)
    (terminating_connections s) (active_sync_requests s) (new_received_sync_items s) (received_sync_items s)
    (items_to_fetch s) (items_to_fetch_sequence_counter s) (recently_failed_items s) (new_inventory s) v
    (most_recent_blocks_accepted s) (sync_item_type s) (total_number_of_unfetched_items s)
    (hard_fork_block_numbers s) (message_cache s) (last_reported_number_of_connections s) (now s)
    (own_node_id s) (own_public_key s) (potential_peer_db s) (potential_peer_database_updated s)
    (add_once_node_list s) (self_firewalled s) (last_firewall_check_message_sent s)
    (publicly_visible_listening_endpoint s) (actual_listening_endpoint s) (delegate s).
Definition set_most_recent_blocks_accepted (v : list item_hash) (s : node_impl) : node_impl :=
  mkNode (connections s) (handshaking_connections s) (active_connections s) (closing_connections s)
    (terminating_connections s) (active_sync_requests s) (new_received_sync_items s) (received_sync_items s)
    (items_to_fetch s) (items_to_fetch_sequence_counter s) (recently_failed_items s) (new_inventory s)
    (message_ids_currently_being_processed s) v (sync_item_type s) (total_number_of_unfetched_items s)
    (hard_fork_block_numbers s) (message_cache s) (last_reported_number_of_connections s) (now s)
    (own_node_id s) (own_public_key s) (potential_peer_db s) (potential_peer_database_updated s)
    (add_once_node_list s) (self_firewalled s) (last_firewall_check_message_sent s)
    (publicly_visible_listening_endpoint s) (actual_listening_endpoint s) (delegate s).
Definition set_sync_item_type (v : Z) (s : node_impl) : node_impl :=
  mkNode (connections s) (handshaking_connections s) (active_connections s) (closing_connections s)
    (terminating_connections s) (active_sync_requests s) (new_received_sync_items s) (received_sync_items s)
    (items_to_fetch s) (items_to_fetch_sequence_counter s) (recently_failed_items s) (new_inventory s)
    (message_ids_currently_being_processed s) (most_recent_blocks_accepted s) v
    (total_number_of_unfetched_items s) (hard_fork_block_numbers s) (message_cache s)
    (last_reported_number_of_connections s) (now s) (own_node_id s) (own_public_key s) (potential_peer_db s)
    (potential_peer_database_updated s) (add_once_node_list s) (self_firewalled s)
    (last_firewall_check_message_sent s) (publicly_visible_listening_endpoint s) (actual_listening_endpoint
    s) (delegate s).
Definition set_total_number_of_unfetched_items (v : Z) (s : node_impl) : node_impl :=
  mkNode (connections s) (handshaking_connections s) (active_connections s) (closing_connections s)
    (terminating_connections s) (active_sync_requests s) (new_received_sync_items s) (received_sync_items s)
    (items_to_fetch s) (items_to_fetch_sequence_counter s) (recently_failed_items s) (new_inventory s)
    (message_ids_currently_being_processed s) (most_recent_blocks_accepted s) (sync_item_type s) v
    (hard_fork_block_numbers s) (message_cache s) (last_reported_number_of_connections s) (now s)
    (own_node_id s) (own_public_key s) (potential_peer_db s) (potential_peer_database_updated s)
    (add_once_node_list s) (self_firewalled s) (last_firewall_check_message_sent s)
    (publicly_visible_listening_endpoint s) (actual_listening_endpoint s) (delegate s).
Definition set_hard_fork_block_numbers (v : list Z) (s : node_impl) : node_impl :=
  mkNode (connections s) (handshaking_connections s) (active_connections s) (closing_connections s)
    (terminating_connections s) (active_sync_requests s) (new_received_sync_items s) (received_sync_items s)
    (items_to_fetch s) (items_to_fetch_sequence_counter s) (recently_failed_items s) (new_inventory s)
    (message_ids_currently_being_processed s) (most_recent_blocks_accepted s) (sync_item_type s)
    (total_number_of_unfetched_items s) v (message_cache s) (last_reported_number_of_connections s) (now s)
    (own_node_id s) (own_public_key s) (potential_peer_db s) (potential_peer_database_updated s)
    (add_once_node_list s) (self_firewalled s) (last_firewall_check_message_sent s)
    (publicly_visible_listening_endpoint s) (actual_listening_endpoint s) (delegate s).
Definition set_message_cache (v : cache) (s : node_impl) : node_impl :=
  mkNode (connections s) (handshaking_connections s) (active_connections s) (closing_connections s)
    (terminating_connections s) (active_sync_requests s) (new_received_sync_items s) (received_sync_items s)
    (items_to_fetch s) (items_to_fetch_sequence_counter s) (recently_failed_items s) (new_inventory s)
    (message_ids_currently_being_processed s) (most_recent_blocks_accepted s) (sync_item_type s)
    (total_number_of_unfetched_items s) (hard_fork_block_numbers s) v (last_reported_number_of_connections
    s) (now s) (own_node_id s) (own_public_key s) (potential_peer_db s) (potential_peer_database_updated s)
    (add_once_node_list s) (self_firewalled s) (last_firewall_check_message_sent s)
    (publicly_visible_listening_endpoint s) (actual_listening_endpoint s) (delegate s).
Definition set_last_reported_number_of_connections (v : Z) (s : node_impl) : node_impl :=
  mkNode (connections s) (handshaking_connections s) (active_connections s) (closing_connections s)
    (terminating_connections s) (active_sync_requests s) (new_received_sync_items s) (received_sync_items s)
    (items_to_fetch s) (items_to_fetch_sequence_counter s) (recently_failed_items s) (new_inventory s)
    (message_ids_currently_being_processed s) (most_recent_blocks_accepted s) (sync_item_type s)
    (total_number_of_unfetched_items s) (hard_fork_block_numbers s) (message_cache s) v (now s) (own_node_id
    s) (own_public_key s) (potential_peer_db s) (potential_peer_database_updated s) (add_once_node_list s)
    (self_firewalled s) (last_firewall_check_message_sent s) (publicly_visible_listening_endpoint s)
    (actual_listening_endpoint s) (delegate s).
Definition set_now (v : Z) (s : node_impl) : node_impl :=
  mkNode (connections s) (handshaking_connections s) (active_connections s) (closing_connections s)
    (terminating_connections s) (active_sync_requests s) (new_received_sync_items s) (received_sync_items s)
    (items_to_fetch s) (items_to_fetch_sequence_counter s) (recently_failed_items s) (new_inventory s)
    (message_ids_currently_being_processed s) (most_recent_blocks_accepted s) (sync_item_type s)
    (total_number_of_unfetched_items s) (hard_fork_block_numbers s) (message_cache s)
    (last_reported_number_of_connections s) v (own_node_id s) (own_public_key s) (potential_peer_db s)
    (potential_peer_database_updated s) (add_once_node_list s) (self_firewalled s)
    (last_firewall_check_message_sent s) (publicly_visible_listening_endpoint s) (actual_listening_endpoint
    s) (delegate s).
Definition set_potential_peer_db (v : peer_database) (s : node_impl) : node_impl :=
  mkNode (connections s) (handshaking_connections s) (active_connections s) (closing_connections s)
    (terminating_connections s) (active_sync_requests s) (new_received_sync_items s) (received_sync_items s)
    (items_to_fetch s) (items_to_fetch_sequence_counter s) (recently_failed_items s) (new_inventory s)
    (message_ids_currently_being_processed s) (most_recent_blocks_accepted s) (sync_item_type s)
    (total_number_of_unfetched_items s) (hard_fork_block_numbers s) (message_cache s)
    (last_reported_number_of_connections s) (now s) (own_node_id s) (own_public_key s) v
    (potential_peer_database_updated s) (add_once_node_list s) (self_firewalled s)
    (last_firewall_check_message_sent s) (publicly_visible_listening_endpoint s) (actual_listening_endpoint
    s) (delegate s).
Definition set_potential_peer_database_updated (v : bool) (s : node_impl) : node_impl :=
  mkNode (connections s) (handshaking_connections s) (active_connections s) (closing_connections s)
    (terminating_connections s) (active_sync_requests s) (new_received_sync_items s) (received_sync_items s)
    (items_to_fetch s) (items_to_fetch_sequence_counter s) (recently_failed_items s) (new_inventory s)
    (message_ids_currently_being_processed s) (most_recent_blocks_accepted s) (sync_item_type s)
    (total_number_of_unfetched_items s) (hard_fork_block_numbers s) (message_cache s)
    (last_reported_number_of_connections s) (now s) (own_node_id s) (own_public_key s) (potential_peer_db s)
    v (add_once_node_list s) (self_firewalled s) (last_firewall_check_message_sent s)
    (publicly_visible_listening_endpoint s) (actual_listening_endpoint s) (delegate s).
Definition set_add_once_node_list (v : list potential_peer_record) (s : node_impl) : node_impl :=
  mkNode (connections s) (handshaking_connections s) (active_connections s) (closing_connections s)
    (terminating_connections s) (active_sync_requests s) (new_received_sync_items s) (received_sync_items s)
    (items_to_fetch s) (items_to_fetch_sequence_counter s) (recently_failed_items s) (new_inventory s)
    (message_ids_currently_being_processed s) (most_recent_blocks_accepted s) (sync_item_type s)
    (total_number_of_unfetched_items s) (hard_fork_block_numbers s) (message_cache s)
    (last_reported_number_of_connections s) (now s) (own_node_id s) (own_public_key s) (potential_peer_db s)
    (potential_peer_database_updated s) v (self_firewalled s) (last_firewall_check_message_sent s)
    (publicly_visible_listening_endpoint s) (actual_listening_endpoint s) (delegate s).
Definition set_self_firewalled (v : firewalled_state) (s : node_impl) : node_impl :=
  mkNode (connections s) (handshaking_connections s) (active_connections s) (closing_connections s)
    (terminating_connections s) (active_sync_requests s) (new_received_sync_items s) (received_sync_items s)
    (items_to_fetch s) (items_to_fetch_sequence_counter s) (recently_failed_items s) (new_inventory s)
    (message_ids_currently_being_processed s) (most_recent_blocks_accepted s) (sync_item_type s)
    (total_number_of_unfetched_items s) (hard_fork_block_numbers s) (message_cache s)
    (last_reported_number_of_connections s) (now s) (own_node_id s) (own_public_key s) (potential_peer_db s)
    (potential_peer_database_updated s) (add_once_node_list s) v (last_firewall_check_message_sent s)
    (publicly_visible_listening_endpoint s) (actual_listening_endpoint s) (delegate s).
Definition set_last_firewall_check_message_sent (v : Z) (s : node_impl) : node_impl :=
  mkNode (connections s) (handshaking_connections s) (active_connections s) (closing_connections s)
    (terminating_connections s) (active_sync_requests s) (new_received_sync_items s) (received_sync_items s)
    (items_to_fetch s) (items_to_fetch_sequence_counter s) (recently_failed_items s) (new_inventory s)
    (message_ids_currently_being_processed s) (most_recent_blocks_accepted s) (sync_item_type s)
    (total_number_of_unfetched_items s) (hard_fork_block_numbers s) (message_cache s)
    (last_reported_number_of_connections s) (now s) (own_node_id s) (own_public_key s) (potential_peer_db s)
    (potential_peer_database_updated s) (add_once_node_list s) (self_firewalled s) v
    (publicly_visible_listening_endpoint s) (actual_listening_endpoint s) (delegate s).
Definition set_publicly_visible_listening_endpoint (v : option endpoint) (s : node_impl) : node_impl :=
  mkNode (connections s) (handshaking_connections s) (active_connections s) (closing_connections s)
    (terminating_connections s) (active_sync_requests s) (new_received_sync_items s) (received_sync_items s)
    (items_to_fetch s) (items_to_fetch_sequence_counter s) (recently_failed_items s) (new_inventory s)
    (message_ids_currently_being_processed s) (most_recent_blocks_accepted s) (sync_item_type s)
    (total_number_of_unfetched_items s) (hard_fork_block_numbers s) (message_cache s)
    (last_reported_number_of_connections s) (now s) (own_node_id s) (own_public_key s) (potential_peer_db s)
    (potential_peer_database_updated s) (add_once_node_list s) (self_firewalled s)
    (last_firewall_check_message_sent s) v (actual_listening_endpoint s) (delegate s).
Definition set_delegate (v : D) (s : node_impl) : node_impl :=
  mkNode (connections s) (handshaking_connections s) (active_connections s) (closing_connections s)
    (terminating_connections s) (active_sync_requests s) (new_received_sync_items s) (received_sync_items s)
    (items_to_fetch s) (items_to_fetch_sequence_counter s) (recently_failed_items s) (new_inventory s)
    (message_ids_currently_being_processed s) (most_recent_blocks_accepted s) (sync_item_type s)
    (total_number_of_unfetched_items s) (hard_fork_block_numbers s) (message_cache s)
    (last_reported_number_of_connections s) (now s) (own_node_id s) (own_public_key s) (potential_peer_db s)
    (potential_peer_database_updated s) (add_once_node_list s) (self_firewalled s)
    (last_firewall_check_message_sent s) (publicly_visible_listening_endpoint s) (actual_listening_endpoint
    s) v.
End node.

(** ** The interface to the chain

    [get_message_id] is the hash of a message's bytes, [trx_id] the id of a
    transaction.  [handle_block] also gives the ids of the messages of the
    transactions a block contains. *)
Class NodeDelegate (D : Type) := {
  get_message_id : message → item_hash;
  trx_id : signed_transaction → item_hash;
  has_item : item_id → St D bool;
  handle_block : block_message → bool → St D (list item_hash);
  handle_transaction : signed_transaction → St D unit;
  handle_message : message → St D unit;
  (** the flag is what [is_connected] of the node answers *)
  sync_status : bool → Z → Z → St D unit;
  get_block_ids : list item_hash → St D (list item_hash * Z);
  get_item : item_id → St D message;
  get_blockchain_synopsis : item_hash → Z → St D (list item_hash);
  get_block_number : item_hash → Z;
  get_block_time : item_hash → St D Z;
  get_head_block_id : St D item_hash;
  get_chain_id : D → Z;
  estimate_last_known_fork_from_git_revision_timestamp : Z → Z
}.
(** The keys with which nodes introduce themselves: the key that a signature of
    a shared secret recovers to, and our signature. *)
Class NodeKeys := {
  recover_node_key : Z → Z → result node_id_t;
  sign_compact : Z → Z
}.

Module Cache.
Definition block_accepted (c : cache) : cache :=
  let clock := u32 (block_clock c + 1) in
  mkCache (if GRAPHENE_NET_MESSAGE_CACHE_DURATION_IN_BLOCKS <? clock
           then List.filter (λ i, clock - GRAPHENE_NET_MESSAGE_CACHE_DURATION_IN_BLOCKS <=? block_clock_when_received i) (cached c)
           else cached c) clock.
(** The first message with a hash stays. *)
Definition cache_message (m : message) (hash contents : item_hash) (c : cache) : cache :=
  if bool_decide (hash ∈ map message_hash (cached c)) then c
  else mkCache (cached c ++ [mkInfo hash m (block_clock c) contents]) (block_clock c).
Definition get_message (hash : item_hash) (c : cache) : option message :=
  message_body <$> List.find (λ i, bool_decide (message_hash i = hash)) (cached c).
End Cache.

Module Net.
Section with_delegate.
Context {D : Type} `{NodeDelegate D} `{NodeKeys} (config : node_configuration).
Abbreviation node := (node_impl (D:=D)).
Abbreviation Net := (St node).

Definition update (f : node → node) : Net unit := λ s, (Ok tt, f s).
Definition on_delegate {A} (m : St D A) : Net A := λ s, let '(r, d) := m (delegate s) in (r, set_delegate d s).
(** A connection object that is gone cannot be reached. *)
Definition peer (p : peer_id) : Net peer_connection := λ s,
  (match connections s !! p with Some c => Ok c | None => Exc Fault end, s).
Definition set_peer (p : peer_id) (f : peer_connection → peer_connection) : Net unit :=
  update (λ s, set_connections (alter f p (connections s)) s).
Definition send (p : peer_id) (q : queued_message) : Net unit :=
  set_peer p (λ c, set_queued_messages (queued_messages c ++ [q]) c).
Definition send_message (p : peer_id) (m : message) : Net unit := send p (real_queued_message m).
Definition send_item (p : peer_id) (i : item_id) : Net unit := send p (virtual_queued_message i).
Definition seconds (t : Z) : Z := t / 1000000.

(** ** Connections *)
Definition busy (c : peer_connection) : bool :=
  negb (bool_decide (items_requested_from_peer c = ∅)) || negb (bool_decide (sync_items_requested_from_peer c = ∅)) ||
  bool_decide (is_Some (item_ids_requested_from_peer c)).
Definition idle (c : peer_connection) : bool := negb (busy c).
Definition is_transaction_fetching_inhibited (t : Z) (c : peer_connection) : bool := t <? transaction_fetching_inhibited_until c.
Definition keep_since (oldest : Z) (l : gmap item_id Z) : gmap item_id Z := filter (λ e, oldest ≤ e.2) l.
Definition clear_old_inventory (t : Z) (c : peer_connection) : peer_connection :=
  let oldest := seconds (t - GRAPHENE_NET_MAX_INVENTORY_SIZE_IN_MINUTES * 60 * 1000000) in
  set_inventory_peer_advertised_to_us (keep_since oldest (inventory_peer_advertised_to_us c))
    (set_inventory_advertised_to_peer (keep_since oldest (inventory_advertised_to_peer c)) c).
Definition transactions_kept : Z := GRAPHENE_NET_MAX_INVENTORY_SIZE_IN_MINUTES * GRAPHENE_NET_MAX_TRX_PER_SECOND * 60.
Definition is_inventory_full_for_transactions (c : peer_connection) : bool :=
  transactions_kept <? Z.of_nat (size (inventory_peer_advertised_to_us c)).
Definition is_inventory_full (c : peer_connection) : bool :=
  transactions_kept + (GRAPHENE_NET_MAX_INVENTORY_SIZE_IN_MINUTES + 1) * 60 / XGT_BLOCK_INTERVAL
    <? Z.of_nat (size (inventory_peer_advertised_to_us c)).
(** [fc::time_point::min()] is the time 0. *)
Definition close_connection (p : peer_id) : Net unit :=
  t ← gets now;
  set_peer p (λ c, set_socket_closed true (set_negotiation_status closing
    (if negb (connection_terminated_time c =? 0) then set_connection_terminated_time t c else c))).

Definition without (p : peer_id) : list peer_id → list peer_id := List.filter (λ q, negb (q =? p)).
Definition move_peer_to_active_list (p : peer_id) : Net unit := update (λ s,
  set_active_connections (if bool_decide (p ∈ active_connections s) then active_connections s else p :: active_connections s)
  (set_handshaking_connections (handshaking_connections s ∖ {[p]})
  (set_closing_connections (closing_connections s ∖ {[p]})
  (set_terminating_connections (terminating_connections s ∖ {[p]}) s)))).
Definition move_peer_to_closing_list (p : peer_id) : Net unit := update (λ s,
  set_active_connections (without p (active_connections s))
  (set_handshaking_connections (handshaking_connections s ∖ {[p]})
  (set_closing_connections ({[p]} ∪ closing_connections s)
  (set_terminating_connections (terminating_connections s ∖ {[p]}) s)))).
Definition move_peer_to_terminating_list (p : peer_id) : Net unit := update (λ s,
  set_active_connections (without p (active_connections s))
  (set_handshaking_connections (handshaking_connections s ∖ {[p]})
  (set_closing_connections (closing_connections s ∖ {[p]})
  (set_terminating_connections ({[p]} ∪ terminating_connections s) s)))).
(** The socket knows the other side, once it is connected. *)
Definition socket_endpoint (c : peer_connection) : endpoint := default no_endpoint (remote_endpoint c).
Definition get_endpoint_for_connecting (c : peer_connection) : option endpoint :=
  if inbound_port c =? 0 then None else Some (inbound_address c, inbound_port c).
Definition on_peer_db (f : peer_database → peer_database) : Net unit := update (λ s, set_potential_peer_db (f (potential_peer_db s)) s).
(** A record that is there is changed. *)
Definition update_known (e : option endpoint) (f : potential_peer_record → potential_peer_record) : Net unit :=
  match e with
  | None => mret tt
  | Some e => on_peer_db (λ l, match PeerDb.lookup_entry_for_endpoint e l with Some r => PeerDb.update_entry (f r) l | None => l end)
  end.
Definition update_or_create (e : endpoint) (f : potential_peer_record → potential_peer_record) : Net unit :=
  on_peer_db (λ l, PeerDb.update_entry (f (PeerDb.lookup_or_create_entry_for_endpoint e l)) l).
Definition disconnect_from_peer (p : peer_id) (caused_by_error : bool) : Net unit :=
  move_peer_to_closing_list p ;;
  c ← peer p;
  if they_have_requested_close c then close_connection p
  else
    t ← gets now;
    update_known (get_endpoint_for_connecting c) (set_last_seen_time (seconds t)) ;;
    set_peer p (λ c, set_connection_closed_time t (set_we_have_requested_close true c)) ;;
    send_message p (closing_connection_message caused_by_error).
Definition on_closing_connection_message (p : peer_id) : Net unit :=
  set_peer p (set_they_have_requested_close true) ;;
  c ← peer p;
  when (we_have_requested_close c) (close_connection p).

(** ** Synchronisation: the ids of the blocks of a peer *)

(** [low_block_num += ( true_high_block_num - low_block_num + 2 ) / 2], while it
    is not above [high].  What is left above a number is at least halved: 33
    turns are enough for 32 bits. *)
Definition next_low (low high : Z) : Z := u32 (low + u32 (high - low + 2) / 2).
Fixpoint low_block_nums (fuel : nat) (low high : Z) : list Z :=
  match fuel with
  | O => []
  | S fuel' => low :: (if next_low low high <=? high then low_block_nums fuel' (next_low low high) high else [])
  end.
Fixpoint missing_elements (first : Z) (ids : list item_hash) (nums : list Z) : result (list item_hash) :=
  match nums with
  | [] => mret []
  | low :: nums =>
      if first <=? low then
        match ids !! Z.to_nat (low - first) with
        | Some id => rest ← missing_elements first ids nums; mret (id :: rest)
        | None => mthrow AssertException
        end
      else missing_elements first ids nums
  end.
Definition create_blockchain_synopsis_for_peer (p : peer_id) : Net (list item_hash) :=
  c ← peer p;
  let reference_point := last_block_delegate_has_seen c in
  let ids := ids_of_items_to_get c in
  let n := u32 (Z.of_nat (length ids)) in
  synopsis ← on_delegate (get_blockchain_synopsis reference_point n);
  if negb (bool_decide (reference_point = null_block_id)) && bool_decide (synopsis = []) then mthrow OlderThanUndoHistory
  else
    match ids with
    | [] => mret synopsis
    | id :: _ =>
        let first := get_block_number id in
        let high := u32 (first + Z.of_nat (length ids) - 1) in
        let low := match synopsis with [] => 1 | x :: _ => get_block_number x end in
        rest ← lift (missing_elements first ids (low_block_nums 33 low high));
        mret (synopsis ++ rest)
    end.
Definition fetch_next_batch_of_item_ids_from_peer (p : peer_id) : Net unit :=
  c ← peer p;
  match item_ids_requested_from_peer c with
  | Some _ => mret tt
  | None =>
      try_catch
        (blockchain_synopsis ← create_blockchain_synopsis_for_peer p;
         t ← gets now;
         set_peer p (set_item_ids_requested_from_peer (Some (blockchain_synopsis, t))) ;;
         ty ← gets sync_item_type;
         send_message p (fetch_blockchain_item_ids_message ty blockchain_synopsis))
        (λ e, match e with OlderThanUndoHistory => disconnect_from_peer p false | _ => mthrow e end)
  end.
Definition start_synchronizing_with_peer (p : peer_id) : Net unit :=
  set_peer p (λ c, set_we_need_sync_items_from_peer true (set_number_of_unfetched_item_ids 0 (set_ids_of_items_to_get [] c))) ;;
  set_peer p (set_last_block_delegate_has_seen null_block_id) ;;
  t ← on_delegate (get_block_time null_block_id);
  set_peer p (λ c, set_inhibit_fetching_sync_blocks false (set_last_block_time_delegate_has_seen t c)) ;;
  fetch_next_batch_of_item_ids_from_peer p.
Definition start_synchronizing : Net unit :=
  ps ← gets active_connections;
  for_each ps start_synchronizing_with_peer.
Definition report_number_of_connections : Net unit :=
  update (λ s, set_last_reported_number_of_connections (u32 (Z.of_nat (length (active_connections s)))) s).
Definition new_peer_just_added (p : peer_id) : Net unit :=
  send_message p (current_time_request_message 0) ;;
  start_synchronizing_with_peer p ;;
  report_number_of_connections.

(** The answer to a synopsis. *)
Definition on_fetch_blockchain_item_ids_message (p : peer_id) (type : Z) (synopsis : list item_hash) : Net unit :=
  '(hashes, remaining) ← try_catch (on_delegate (get_block_ids synopsis))
    (λ e, match e with UnreachableFork => mret ([], 0) | _ => mthrow e end);
  c ← peer p;
  let seen_all := match hashes with [h] => bool_decide (h ∈ synopsis) | _ => false end in
  let needs := negb (bool_decide (hashes = [])) && negb seen_all in
  let disconnect_from_inhibited_peer := seen_all && inhibit_fetching_sync_blocks c in
  set_peer p (set_peer_needs_sync_items_from_us needs) ;;
  match last synopsis with
  | None => mret tt
  | Some last_item_seen =>
      if we_need_sync_items_from_peer c then mret tt
      else known ← on_delegate (has_item (type, last_item_seen));
           when (negb known) (start_synchronizing_with_peer p)
  end ;;
  send_message p (blockchain_item_ids_inventory_message remaining type hashes) ;;
  if disconnect_from_inhibited_peer then disconnect_from_peer p false
  else
    s ← get_st;
    when (bool_decide (direction c = inbound) && bool_decide (p ∈ handshaking_connections s))
      (match get_endpoint_for_connecting c with
       | Some e => update_or_create e (set_last_connection_disposition last_connection_succeeded)
       | None => mret tt
       end ;;
       move_peer_to_active_list p ;; new_peer_just_added p).

Definition calculate_unsynced_block_count_from_all_peers (s : node) : Z :=
  foldr (λ p m, match connections s !! p with
    | Some c => Z.max (u32 (Z.of_nat (length (ids_of_items_to_get c)) + number_of_unfetched_item_ids c)) m
    | None => m
    end) 0 (active_connections s).

(** A list of block ids answers a request when it is in sequence and starts at a
    block of the synopsis, or at the first block. *)
Definition sequential (hashes : list item_hash) : bool :=
  match hashes with
  | [] => true
  | h :: rest =>
      forallb (λ e, get_block_number e.2 =? u32 (get_block_number h + Z.of_nat (S e.1))) (imap (λ i x, (i, x)) rest)
  end.
Definition valid_response (synopsis hashes : list item_hash) : bool :=
  match hashes with
  | [] => true
  | h :: _ =>
      sequential hashes &&
      (if bool_decide (synopsis = []) then get_block_number h =? 1 else bool_decide (h ∈ synopsis))
  end.

(** Blocks at the front that the chain has are dropped; the last one dropped is
    noted. *)
Fixpoint drop_known (p : peer_id) (type : Z) (hashes : list item_hash) : Net (list item_hash) :=
  match hashes with
  | [] => mret []
  | h :: rest =>
      known ← on_delegate (has_item (type, h));
      if known : bool then
        t ← on_delegate (get_block_time h);
        set_peer p (λ c, set_last_block_time_delegate_has_seen t (set_last_block_delegate_has_seen h c)) ;;
        drop_known p type rest
      else mret hashes
  end.
(** [pop_back] until the last id is [h]. *)
Fixpoint pop_until (h : item_hash) (reversed : list item_hash) : list item_hash :=
  match reversed with
  | [] => []
  | x :: l => if bool_decide (x = h) then reversed else pop_until h l
  end.
Definition is_first_item_for_other_peer (p : peer_id) (h : item_hash) (s : node) : bool :=
  existsb (λ q, negb (q =? p) && match connections s !! q with
    | Some c => bool_decide (head (ids_of_items_to_get c) = Some h)
    | None => false
    end) (active_connections s).
(** What is left of a list of ids, after the list of the peer was fitted to it. *)
Definition merge_item_hashes (p : peer_id) (type : Z) (hashes : list item_hash) : Net (list item_hash) :=
  c ← peer p;
  match hashes, ids_of_items_to_get c with
  | [], _ => mret []
  | h :: _, [] =>
      other ← gets (is_first_item_for_other_peer p h);
      if other : bool then mret hashes else drop_known p type hashes
  | h :: rest, ids =>
      match pop_until h (reverse ids) with
      | [] =>
          set_peer p (λ c, set_last_block_delegate_has_seen h (set_ids_of_items_to_get [] c)) ;;
          t ← on_delegate (get_block_time h);
          set_peer p (set_last_block_time_delegate_has_seen t) ;;
          mret rest
      | _ :: kept => set_peer p (set_ids_of_items_to_get (reverse kept)) ;; mret hashes
      end
  end.
Definition is_connected (s : node) : bool := negb (bool_decide (active_connections s = [])).
(** The first is what the node does when a peer has nothing more, the second
    after every other list of ids: the delegate is told of a change only, and
    before the count is changed. *)
Definition tell_sync_status (type count : Z) : Net unit :=
  connected ← gets is_connected;
  on_delegate (sync_status connected type count).
Definition report_unfetched_count (type : Z) : Net unit :=
  count ← gets calculate_unsynced_block_count_from_all_peers;
  update (set_total_number_of_unfetched_items count) ;;
  tell_sync_status type count.
Definition update_unfetched_count (type : Z) : Net unit :=
  count ← gets calculate_unsynced_block_count_from_all_peers;
  total ← gets total_number_of_unfetched_items;
  when (negb (count =? total)) (tell_sync_status type count) ;;
  update (set_total_number_of_unfetched_items count).
Definition accept_item_hashes (p : peer_id) (remaining type : Z) (hashes : list item_hash) : Net unit :=
  nothing_after ←
    (if remaining =? 0 then
       match hashes with
       | [] => mret true
       | [h] => on_delegate (has_item (type, h))
       | _ => mret false
       end
     else mret false);
  c ← peer p;
  if nothing_after && bool_decide (ids_of_items_to_get c = []) && (number_of_unfetched_item_ids c =? 0) then
    set_peer p (set_we_need_sync_items_from_peer false) ;; report_unfetched_count type
  else
    set_peer p (set_number_of_unfetched_item_ids remaining) ;;
    rest ← merge_item_hashes p type hashes;
    set_peer p (λ c, set_number_of_unfetched_item_ids remaining (set_ids_of_items_to_get (ids_of_items_to_get c ++ rest) c)) ;;
    update_unfetched_count type ;;
    when (negb (remaining =? 0)) (fetch_next_batch_of_item_ids_from_peer p).
(** Exceptions after the request was taken off are logged. *)
Definition logged (m : Net unit) : Net unit := try_catch m (λ e, match e with Fault => mthrow Fault | _ => mret tt end).
Definition on_blockchain_item_ids_inventory_message (p : peer_id) (remaining type : Z) (hashes : list item_hash) : Net unit :=
  c ← peer p;
  match item_ids_requested_from_peer c with
  | None => mret tt
  | Some (synopsis, _) =>
      if valid_response synopsis hashes then
        set_peer p (set_item_ids_requested_from_peer None) ;;
        logged (accept_item_hashes p remaining type hashes)
      else disconnect_from_peer p true
  end.

(** ** Synchronisation: the blocks *)
Definition has_block_id (id : item_hash) (l : list block_message) : bool := existsb (λ b, bool_decide (block_id b = id)) l.
Definition have_already_received_sync_item (id : item_hash) (s : node) : bool :=
  has_block_id id (received_sync_items s) || has_block_id id (new_received_sync_items s) ||
  bool_decide (id ∈ most_recent_blocks_accepted s).
Definition request_sync_items_from_peer (p : peer_id) (items : list item_hash) : Net unit :=
  for_each items (λ i,
    t ← gets now;
    update (λ s, set_active_sync_requests (match active_sync_requests s !! i with Some _ => active_sync_requests s
                                           | None => <[i := t]> (active_sync_requests s) end) s) ;;
    set_peer p (λ c, set_sync_items_requested_from_peer (match sync_items_requested_from_peer c !! i with
                                           Some _ => sync_items_requested_from_peer c
                                           | None => <[i := t]> (sync_items_requested_from_peer c) end) c)) ;;
  send_message p (fetch_items_message block_message_type items).

(** One turn of [fetch_sync_items_loop]: first what to ask of whom, then the
    requests.  [chosen] are the ids chosen in this turn. *)
Definition prefetching_count (s : node) : Z :=
  Z.of_nat (size (active_sync_requests s)) + Z.of_nat (length (new_received_sync_items s)).
Definition too_many (s : node) (chosen : list item_hash) : bool :=
  maximum_number_of_sync_blocks_to_prefetch config <? prefetching_count s + Z.of_nat (length chosen).
Fixpoint choose_from_peer (s : node) (c : peer_connection) (ids chosen mine : list item_hash) : list item_hash * list item_hash :=
  match ids with
  | [] => (chosen, mine)
  | i :: ids =>
      if maximum_blocks_per_peer_during_syncing config <=?
           Z.of_nat (length mine) + Z.of_nat (size (sync_items_requested_from_peer c)) then (chosen, mine)
      else if too_many s chosen then (chosen, mine)
      else if negb (bool_decide (i ∈ chosen)) && bool_decide (active_sync_requests s !! i = None) &&
              negb (have_already_received_sync_item i s)
      then choose_from_peer s c ids (chosen ++ [i]) (mine ++ [i])
      else choose_from_peer s c ids chosen mine
  end.
Fixpoint choose_sync_items (s : node) (ps : list peer_id) (chosen : list item_hash) : list (peer_id * list item_hash) :=
  match ps with
  | [] => []
  | p :: ps =>
      match connections s !! p with
      | Some c =>
          if inhibit_fetching_sync_blocks c || negb (we_need_sync_items_from_peer c) then choose_sync_items s ps chosen
          else if maximum_blocks_per_peer_during_syncing config <=? Z.of_nat (size (sync_items_requested_from_peer c))
          then choose_sync_items s ps chosen
          else if too_many s chosen then []
          else let '(chosen, mine) := choose_from_peer s c (ids_of_items_to_get c) chosen [] in
               (p, mine) :: choose_sync_items s ps chosen
      | None => choose_sync_items s ps chosen
      end
  end.
Definition fetch_sync_items : Net unit :=
  s ← get_st;
  for_each (choose_sync_items s (active_connections s) [])
    (λ r, when (negb (bool_decide (r.2 = []))) (request_sync_items_from_peer r.1 r.2)).

(** [boost::circular_buffer::push_back] *)
Definition remember_block (id : item_hash) (s : node) : node :=
  let l := most_recent_blocks_accepted s in
  let l := if GRAPHENE_NET_MIN_BLOCK_IDS_TO_PREFETCH <=? Z.of_nat (length l) then tail l else l in
  set_most_recent_blocks_accepted (l ++ [id]) s.
Definition is_hard_fork_block (n : Z) (s : node) : bool := bool_decide (n ∈ hard_fork_block_numbers s).
Definition get_next_known_hard_fork_block_number (n : Z) (s : node) : Z :=
  default 0 (List.find (λ m, n <? m) (hard_fork_block_numbers s)).
(** A peer whose client does not know of a hard fork that has been reached. *)
Definition is_outdated (n : Z) (s : node) (c : peer_connection) : bool :=
  negb (last_known_fork_block_number c =? 0) &&
  (let next := get_next_known_hard_fork_block_number (last_known_fork_block_number c) s in
   negb (next =? 0) && (next <=? n)).

(** What an accepted block changes for an active peer: whether its list of blocks
    being processed became empty, and whether to synchronise with it anew. *)
Definition block_seen_by_peer (b : block_message) (c : peer_connection) : peer_connection * bool :=
  if bool_decide (block_id b ∈ ids_of_items_being_processed c) then
    let c := set_last_block_time_delegate_has_seen (timestamp (header (block b)))
               (set_last_block_delegate_has_seen (block_id b) c) in
    let c := set_ids_of_items_being_processed (ids_of_items_being_processed c ∖ {[block_id b]}) c in
    (c, bool_decide (ids_of_items_being_processed c = ∅))
  else (c, false).
Definition in_sync_and_idle (c : peer_connection) : bool :=
  bool_decide (ids_of_items_to_get c = []) && bool_decide (ids_of_items_being_processed c = ∅) &&
  negb (peer_needs_sync_items_from_us c) && negb (we_need_sync_items_from_peer c).
Fixpoint notice_block (b : block_message) (ps : list peer_id) : Net (list peer_id * list peer_id) :=
  match ps with
  | [] => mret ([], [])
  | p :: ps =>
      c ← peer p;
      s ← get_st;
      let n := Block.block_num (header (block b)) in
      if is_hard_fork_block n s && is_outdated n s c then notice_block b ps
      else
        let '(c, emptied) := block_seen_by_peer b c in
        set_peer p (λ _, c) ;;
        '(l1, l2) ← notice_block b ps;
        mret (if emptied then p :: l1 else l1, if in_sync_and_idle c then p :: l2 else l2)
  end.
Definition send_sync_block_to_node_delegate (b : block_message) : Net unit :=
  client_accepted_block ← try_catch (_ ← on_delegate (handle_block b true); mret true)
    (λ e, if is_fc e then mret false else mthrow e);
  when client_accepted_block
    (update (remember_block (block_id b)) ;;
     update (λ s, set_total_number_of_unfetched_items (u32 (total_number_of_unfetched_items s - 1)) s) ;;
     ps ← gets active_connections;
     '(peers_with_newly_empty_item_lists, peers_we_need_to_sync_to) ← notice_block b ps;
     for_each peers_with_newly_empty_item_lists fetch_next_batch_of_item_ids_from_peer ;;
     for_each peers_we_need_to_sync_to start_synchronizing_with_peer).

(** A received block that is the next one for a peer: those peers advance. *)
Definition waits_for (id : item_hash) (c : peer_connection) : bool := bool_decide (head (ids_of_items_to_get c) = Some id).
Definition advance (id : item_hash) (c : peer_connection) : peer_connection :=
  if waits_for id c
  then set_ids_of_items_being_processed ({[id]} ∪ ids_of_items_being_processed c)
         (set_ids_of_items_to_get (tail (ids_of_items_to_get c)) c)
  else c.
Definition is_potential_first_block (id : item_hash) (s : node) : bool :=
  existsb (λ p, match connections s !! p with Some c => waits_for id c | None => false end) (active_connections s).
Fixpoint first_block (s : node) (before l : list block_message) : option (list block_message * block_message * list block_message) :=
  match l with
  | [] => None
  | b :: l => if is_potential_first_block (block_id b) s then Some (before, b, l) else first_block s (before ++ [b]) l
  end.
Definition process_one_sync_block : Net bool :=
  s ← get_st;
  match first_block s [] (received_sync_items s) with
  | None => mret false
  | Some (before, b, after) =>
      for_each (active_connections s) (λ p, set_peer p (advance (block_id b))) ;;
      accepted ← gets most_recent_blocks_accepted;
      when (negb (bool_decide (block_id b ∈ accepted))) (send_sync_block_to_node_delegate b) ;;
      update (set_received_sync_items (before ++ after)) ;;
      mret true
  end.
(** At most a number of blocks at a time. *)
Fixpoint process_blocks (fuel : nat) : Net unit :=
  match fuel with
  | O => mret tt
  | S fuel => found ← process_one_sync_block; if found : bool then process_blocks fuel else mret tt
  end.
Definition process_backlog_of_sync_blocks : Net unit :=
  update (λ s, set_new_received_sync_items [] (set_received_sync_items (reverse (new_received_sync_items s) ++ received_sync_items s) s)) ;;
  process_blocks (Z.to_nat (Z.max 1 (maximum_number_of_blocks_to_handle_at_one_time config))).
Definition process_block_during_sync (b : block_message) : Net unit :=
  update (λ s, set_new_received_sync_items (b :: new_received_sync_items s) s).

(** ** Normal operation: inventory *)
Definition those (f : peer_connection → bool) (s : node) (l : list peer_id) : list peer_id :=
  List.filter (λ p, match connections s !! p with Some c => f c | None => false end) l.
Definition offers (i : item_id) (s : node) (p : peer_id) : bool :=
  match connections s !! p with Some c => bool_decide (is_Some (inventory_peer_advertised_to_us c !! i)) | None => false end.
Definition is_item_in_any_peers_inventory (i : item_id) (s : node) : bool := existsb (offers i s) (active_connections s).

(** The container is ordered by priority and refuses an item it has, or one of
    the same priority. *)
Fixpoint insert_prioritized (x : prioritized_item_id) (l : list prioritized_item_id) : list prioritized_item_id :=
  match l with
  | [] => [x]
  | y :: l' => if precedes x y then x :: l else if precedes y x then y :: insert_prioritized x l' else l
  end.
Definition is_wanted (i : item_id) (l : list prioritized_item_id) : bool := existsb (λ x, bool_decide (wanted x = i)) l.
Definition want_item (i : item_id) (s : node) : node :=
  let x := mkPrioritized i (items_to_fetch_sequence_counter s) (now s) in
  set_items_to_fetch (if is_wanted i (items_to_fetch s) then items_to_fetch s else insert_prioritized x (items_to_fetch s))
    (set_items_to_fetch_sequence_counter (u32 (items_to_fetch_sequence_counter s + 1)) s).

Definition broadcast (m : message) : Net unit := λ s,
  let contents := match m with a_block_message b => block_id b | trx_message t => trx_id t | _ => null_block_id end in
  let hash := get_message_id m in
  let i : item_id := (msg_type m, hash) in
  let s := match m with a_block_message b => remember_block (block_id b) s | _ => s end in
  (Ok tt, set_new_inventory (if bool_decide (i ∈ new_inventory s) then new_inventory s else i :: new_inventory s)
            (set_message_cache (Cache.cache_message m hash contents (message_cache s)) s)).

Definition get_message_for_item (i : item_id) : Net message :=
  s ← get_st;
  match Cache.get_message (hash_of i) (message_cache s) with
  | Some m => mret m
  | None => try_catch (on_delegate (get_item i))
              (λ e, match e with KeyNotFound => mret (item_not_available_message i) | _ => mthrow e end)
  end.
Fixpoint replies (type : Z) (hashes : list item_hash) : Net (list message) :=
  match hashes with
  | [] => mret []
  | h :: hashes => m ← get_message_for_item (type, h); ms ← replies type hashes; mret (m :: ms)
  end.
Definition as_block (m : message) : result block_message :=
  match m with a_block_message b => mret b | _ => mthrow AssertException end.
(** The last reply that is an item. *)
Definition available (m : message) : bool := match m with item_not_available_message _ => false | _ => true end.
Definition on_fetch_items_message (p : peer_id) (type : Z) (hashes : list item_hash) : Net unit :=
  reply_messages ← replies type hashes;
  match (if type =? block_message_type then last (List.filter available reply_messages) else None) with
  | None => mret tt
  | Some m =>
      b ← lift (as_block m);
      set_peer p (set_last_block_delegate_has_seen (block_id b)) ;;
      t ← on_delegate (get_block_time (block_id b));
      set_peer p (set_last_block_time_delegate_has_seen t)
  end ;;
  for_each reply_messages (λ m,
    match m with a_block_message b => send_item p (block_message_type, block_id b) | _ => send_message p m end).

Definition on_item_not_available_message (p : peer_id) (i : item_id) : Net unit :=
  c ← peer p;
  match items_requested_from_peer c !! i with
  | Some _ =>
      set_peer p (λ c, set_inventory_peer_advertised_to_us (delete i (inventory_peer_advertised_to_us c))
                         (set_items_requested_from_peer (delete i (items_requested_from_peer c)) c)) ;;
      found ← gets (is_item_in_any_peers_inventory i);
      when found (update (want_item i))
  | None =>
      match sync_items_requested_from_peer c !! hash_of i with
      | Some _ =>
          set_peer p (λ c, set_sync_items_requested_from_peer (delete (hash_of i) (sync_items_requested_from_peer c)) c) ;;
          if peer_needs_sync_items_from_us c then set_peer p (set_inhibit_fetching_sync_blocks true)
          else disconnect_from_peer p true
      | None => mret tt
      end
  end.

(** [for( peer : _active_connections )]: stops at a peer the item was advertised
    to; otherwise tells whether some peer was asked for it. *)
Fixpoint known_to_peers (i : item_id) (s : node) (ps : list peer_id) : bool * bool :=
  match ps with
  | [] => (false, false)
  | p :: ps =>
      match connections s !! p with
      | Some c =>
          if bool_decide (is_Some (inventory_advertised_to_peer c !! i)) then (true, false)
          else let '(advertised, requested) := known_to_peers i s ps in
               (advertised, requested || bool_decide (is_Some (items_requested_from_peer c !! i)))
      | None => known_to_peers i s ps
      end
  end.
Definition refresh (i : item_id) (t : Z) (l : list prioritized_item_id) : list prioritized_item_id :=
  map (λ x, if bool_decide (wanted x = i) then mkPrioritized (wanted x) (sequence_number x) t else x) l.
(** The news of one item; false when the list of the peer is full. *)
Definition hear_of_item (p : peer_id) (i : item_id) : Net bool :=
  s ← get_st;
  if bool_decide (hash_of i ∈ message_ids_currently_being_processed s) then mret true
  else if bool_decide (i ∈ new_inventory s) then mret true
  else
    let '(advertised, requested) := known_to_peers i s (active_connections s) in
    if advertised : bool then mret true
    else
      c ← peer p;
      if ((item_type i =? trx_message_type) && is_inventory_full_for_transactions c) || is_inventory_full c then mret false
      else
        set_peer p (λ c, set_inventory_peer_advertised_to_us
          (match inventory_peer_advertised_to_us c !! i with Some _ => inventory_peer_advertised_to_us c
           | None => <[i := seconds (now s)]> (inventory_peer_advertised_to_us c) end) c) ;;
        when (negb requested && bool_decide (recently_failed_items s !! i = None))
          (update (λ s, if is_wanted i (items_to_fetch s)
                        then set_items_to_fetch (refresh i (now s) (items_to_fetch s)) s else want_item i s)) ;;
        mret true.
Fixpoint hear_of_items (p : peer_id) (type : Z) (hashes : list item_hash) : Net unit :=
  match hashes with
  | [] => mret tt
  | h :: hashes => more ← hear_of_item p (type, h); if more : bool then hear_of_items p type hashes else mret tt
  end.
Definition on_item_ids_inventory_message (p : peer_id) (type : Z) (hashes : list item_hash) : Net unit :=
  t ← gets now;
  set_peer p (clear_old_inventory t) ;;
  hear_of_items p type hashes.

(** One turn of [fetch_items_loop].  Idle peers are asked, those with the fewest
    items first; what is too old is dropped. *)
Definition fewest_first (l : list (peer_id * list item_id)) : list (peer_id * list item_id) :=
  List.filter (λ e, (length e.2 =? 0)%nat) l ++ List.filter (λ e, negb (length e.2 =? 0)%nat) l.
Definition can_fetch (s : node) (x : prioritized_item_id) (e : peer_id * list item_id) : bool :=
  (Z.of_nat (length e.2) <? GRAPHENE_NET_MAX_ITEMS_PER_PEER_DURING_NORMAL_OPERATION) && offers (wanted x) s e.1 &&
  negb ((item_type (wanted x) =? trx_message_type) &&
        match connections s !! e.1 with Some c => is_transaction_fetching_inhibited (now s) c | None => false end).
Definition add_item (p : peer_id) (i : item_id) (l : list (peer_id * list item_id)) : list (peer_id * list item_id) :=
  map (λ e, if e.1 =? p then (p, e.2 ++ [i]) else e) l.
Fixpoint assign_items (s : node) (oldest : Z) (l : list prioritized_item_id) (by_peer : list (peer_id * list item_id)) :
    list prioritized_item_id * list (peer_id * list item_id) :=
  match l with
  | [] => ([], by_peer)
  | x :: l =>
      if heard_at x <? oldest then assign_items s oldest l by_peer
      else match List.find (can_fetch s x) (fewest_first by_peer) with
           | Some e => assign_items s oldest l (add_item e.1 (wanted x) by_peer)
           | None => let '(kept, by_peer) := assign_items s oldest l by_peer in (x :: kept, by_peer)
           end
  end.
Definition idle_peers (s : node) : list (peer_id * list item_id) :=
  map (λ p, (p, [])) (those idle s (active_connections s)).
(** One message per type of item. *)
Definition of_type (ty : Z) (l : list item_id) : list item_hash := map hash_of (List.filter (λ i, item_type i =? ty) l).
Definition types_of (l : list item_id) : list Z := remove_dups (map item_type l).
Definition request_items (p : peer_id) (l : list item_id) : Net unit :=
  t ← gets now;
  set_peer p (λ c, set_items_requested_from_peer (foldr (λ i m, <[i := t]> m) (items_requested_from_peer c) l) c) ;;
  for_each (types_of l) (λ ty, send_message p (fetch_items_message ty (of_type ty l))).
Definition fetch_items : Net unit :=
  s ← get_st;
  let oldest := now s - recent_block_interval_in_seconds config * GRAPHENE_NET_MESSAGE_CACHE_DURATION_IN_BLOCKS * 1000000 in
  let '(kept, by_peer) := assign_items s oldest (items_to_fetch s) (idle_peers s) in
  update (set_items_to_fetch kept) ;;
  for_each by_peer (λ e, request_items e.1 e.2).

(** One turn of [advertise_inventory_loop]. *)
Definition is_news (c : peer_connection) (i : item_id) : bool :=
  bool_decide (inventory_advertised_to_peer c !! i = None) && bool_decide (inventory_peer_advertised_to_us c !! i = None).
Definition advertise_to_peer (items : list item_id) (p : peer_id) : Net unit :=
  c ← peer p;
  t ← gets now;
  let news := if peer_needs_sync_items_from_us c then [] else List.filter (is_news c) items in
  set_peer p (λ c, clear_old_inventory t
    (set_inventory_advertised_to_peer (foldr (λ i m, <[i := seconds t]> m) (inventory_advertised_to_peer c) news) c)) ;;
  for_each (types_of news) (λ ty, send_message p (item_ids_inventory_message ty (of_type ty news))).
Definition advertise_inventory : Net unit :=
  items ← gets new_inventory;
  update (set_new_inventory []) ;;
  ps ← gets active_connections;
  for_each ps (advertise_to_peer items).

(** ** Blocks and transactions *)
Definition notice_inventory (i : item_id) (b : block_message) (p : peer_id) : Net unit :=
  c ← peer p;
  t ← gets now;
  set_peer p (λ c, clear_old_inventory t
    (if bool_decide (is_Some (inventory_peer_advertised_to_us c !! i))
     then set_last_block_time_delegate_has_seen (timestamp (header (block b))) (set_last_block_delegate_has_seen (block_id b) c)
     else c)).
Definition push_normal_block (b : block_message) (hash : item_hash) : Net unit :=
  s ← get_st;
  when (negb (bool_decide (block_id b ∈ most_recent_blocks_accepted s)))
    (update (λ s, set_message_ids_currently_being_processed ({[hash]} ∪ message_ids_currently_being_processed s) s) ;;
     contained ← on_delegate (handle_block b false);
     update (λ s, set_message_ids_currently_being_processed (message_ids_currently_being_processed s ∖ {[hash]}) s) ;;
     update (remember_block (block_id b)) ;;
     update (λ s, set_items_to_fetch (List.filter (λ x, negb (bool_decide (wanted x ∈ map (pair trx_message_type) contained)))
                                        (items_to_fetch s)) s)).
(** The peers to disconnect: those whose client is outdated. *)
Definition accept_normal_block (b : block_message) (hash : item_hash) : Net (list peer_id) :=
  push_normal_block b hash ;;
  ps ← gets active_connections;
  for_each ps (notice_inventory (block_message_type, hash) b) ;;
  broadcast (a_block_message b) ;;
  update (λ s, set_message_cache (Cache.block_accepted (message_cache s)) s) ;;
  s ← get_st;
  let n := Block.block_num (header (block b)) in
  mret (if is_hard_fork_block n s
        then those (is_outdated n s) s (active_connections s)
        else []).
Definition expecting (id : item_hash) (s : node) : list peer_id := those (waits_for id) s (active_connections s).
Definition process_block_during_normal_operation (p : peer_id) (b : block_message) (hash : item_hash) : Net unit :=
  '(restart, to_disconnect) ← try_catch (l ← accept_normal_block b hash; mret (false, l))
    (λ e, match e with
      | UnlinkableBlock => mret (true, [])
      | _ => if is_fc e then s ← get_st; mret (false, p :: without p (expecting (block_id b) s)) else mthrow e
      end);
  when restart (start_synchronizing_with_peer p) ;;
  for_each to_disconnect (λ q, disconnect_from_peer q true).
(** A block that was not asked for, unless it was accepted already. *)
Definition refuse_block (p : peer_id) (b : block_message) : Net unit :=
  accepted ← gets most_recent_blocks_accepted;
  when (negb (bool_decide (block_id b ∈ accepted))) (disconnect_from_peer p true).
Definition process_block_message (p : peer_id) (b : block_message) (hash : item_hash) : Net unit :=
  c ← peer p;
  match items_requested_from_peer c !! (block_message_type, hash) with
  | Some _ =>
      set_peer p (λ c, set_items_requested_from_peer (delete (block_message_type, hash) (items_requested_from_peer c)) c) ;;
      process_block_during_normal_operation p b hash
  | None =>
      match sync_items_requested_from_peer c !! block_id b with
      | Some _ =>
          set_peer p (λ c, set_sync_items_requested_from_peer (delete (block_id b) (sync_items_requested_from_peer c)) c) ;;
          update (λ s, set_active_sync_requests (delete (block_id b) (active_sync_requests s)) s) ;;
          done ← try_catch
            (process_block_during_sync b ;;
             when (0 <? number_of_unfetched_item_ids c) (fetch_next_batch_of_item_ids_from_peer p) ;; mret true)
            (λ e, match e with Fault => mthrow Fault | _ => mret false end);
          when (negb done) (refuse_block p b)
      | None => refuse_block p b
      end
  end.
Definition process_ordinary_message (p : peer_id) (m : message) (hash : item_hash) : Net unit :=
  c ← peer p;
  let i : item_id := (msg_type m, hash) in
  match items_requested_from_peer c !! i with
  | None => disconnect_from_peer p true
  | Some _ =>
      set_peer p (λ c, set_items_requested_from_peer (delete i (items_requested_from_peer c)) c) ;;
      ok ← try_catch
        (match m with trx_message t => on_delegate (handle_transaction t) | _ => on_delegate (handle_message m) end ;; mret true)
        (λ e, if is_fc e then
                update (λ s, set_recently_failed_items (match recently_failed_items s !! i with Some _ => recently_failed_items s
                  | None => <[i := seconds (now s)]> (recently_failed_items s) end) s) ;; mret false
              else mthrow e);
      when ok (broadcast m)
  end.

(** ** Introductions *)
Definition get_number_of_connections (s : node) : Z := u32 (Z.of_nat (size (handshaking_connections s)) + Z.of_nat (length (active_connections s))).
Definition is_accepting_new_connections (s : node) : bool := get_number_of_connections s <=? maximum_number_of_connections config.
Definition is_wanting_new_connections (s : node) : bool := get_number_of_connections s <? desired_number_of_connections config.
(** The active connections, then those that are handshaking. *)
Definition get_peer_by_node_id (id : node_id_t) (s : node) : option peer_id :=
  head (those (λ c, node_id c =? id) s (active_connections s ++ elements (handshaking_connections s))).
Definition is_already_connected_to_id (id : node_id_t) (s : node) : bool :=
  (id =? own_node_id s) || bool_decide (is_Some (get_peer_by_node_id id s)).
Definition get_connection_to_endpoint (e : endpoint) (s : node) : option peer_id :=
  head (those (λ c, bool_decide (remote_endpoint c = Some e)) s (active_connections s ++ elements (handshaking_connections s))).
Definition is_connection_to_endpoint_in_progress (e : endpoint) (s : node) : bool := bool_decide (is_Some (get_connection_to_endpoint e s)).
Definition trigger_p2p_network_connect_loop : Net unit := update (set_potential_peer_database_updated true).

(** A member of the user data that is there is converted. *)
Definition parse {A} (x : option (result A)) (f : A → peer_connection → peer_connection) (p : peer_id) : Net unit :=
  match x with
  | None => mret tt
  | Some r => v ← lift r; set_peer p (f v)
  end.
Definition parse_hello_user_data_for_peer (p : peer_id) (d : hello_user_data) : Net unit :=
  parse (ud_git_revision_unix_timestamp d) (λ v, set_graphene_git_revision_unix_timestamp (Some v)) p ;;
  parse (ud_node_id d) set_node_id p ;;
  parse (ud_last_known_fork_block_number d) set_last_known_fork_block_number p ;;
  parse (ud_chain_id d) (λ v, set_chain_id (Some v)) p.
Definition generate_hello_user_data : Net hello_user_data :=
  head_block_id ← on_delegate get_head_block_id;
  on_delegate (get_block_time head_block_id) ;;
  s ← get_st;
  mret (mkUserData None (Some (Ok (own_node_id s))) (Ok <$> last (hard_fork_block_numbers s)) (Some (Ok (get_chain_id (delegate s))))).
Definition send_hello_message (p : peer_id) (local : endpoint) : Net unit :=
  set_peer p (set_negotiation_status hello_sent) ;;
  c ← peer p;
  s ← get_st;
  let listening_port := if accept_incoming_connections config then (actual_listening_endpoint s).2 else 0 in
  let '(local, listening_port) := match self_firewalled s, publicly_visible_listening_endpoint s with
    | not_firewalled, Some e => (e, e.2)
    | _, _ => (local, listening_port)
    end in
  d ← generate_hello_user_data;
  send_message p (a_hello_message (mkHello GRAPHENE_NET_PROTOCOL_VERSION local.1 listening_port local.2 (own_public_key s)
    (sign_compact (shared_secret c)) d)).

Definition reject (p : peer_id) (reason : rejection_reason_code) : Net unit :=
  set_peer p (set_their_state connection_rejected) ;;
  send_message p (connection_rejected_message reason).
Definition store_hello (h : hello_message) (c : peer_connection) : peer_connection :=
  set_outbound_port (hello_outbound_port h) (set_inbound_port (hello_inbound_port h) (set_inbound_address (hello_inbound_address h)
    (set_core_protocol_version (hello_protocol_version h) (set_node_id (hello_node_public_key h) (set_node_public_key (hello_node_public_key h) c))))).
(** A peer that does not know of a fork that our chain has passed. *)
Definition is_too_old (c : peer_connection) : Net bool :=
  n ← gets (get_next_known_hard_fork_block_number (last_known_fork_block_number c));
  if (last_known_fork_block_number c =? 0) || (n =? 0) then mret false
  else id ← on_delegate get_head_block_id; mret (n <? get_block_number id).
(** Peers that see themselves at the address we see are not behind a firewall. *)
Definition note_firewall (p : peer_id) (c : peer_connection) : Net unit :=
  if bool_decide (socket_endpoint c = (inbound_address c, outbound_port c)) then
    if inbound_port c =? 0 then set_peer p (set_is_firewalled firewalled)
    else
      update_or_create (inbound_address c, inbound_port c) id ;;
      set_peer p (set_is_firewalled not_firewalled)
  else set_peer p (set_is_firewalled firewalled).
Definition answer_hello (p : peer_id) (already_connected_to_this_peer : bool) : Net unit :=
  c ← peer p;
  s ← get_st;
  if already_connected_to_this_peer then
    reject p (if own_node_id s =? node_id c then connected_to_self else already_connected)
  else
    note_firewall p c ;;
    ok ← gets is_accepting_new_connections;
    if ok : bool then
      set_peer p (set_their_state connection_accepted) ;;
      send_message p connection_accepted_message
    else reject p not_accepting_connections.
Definition on_hello_message (p : peer_id) (h : hello_message) : Net unit :=
  let claimed := match ud_node_id (user_data h) with Some (Ok id) => id | _ => hello_node_public_key h end in
  already_connected_to_this_peer ← gets (is_already_connected_to_id claimed);
  c ← peer p;
  expected_node_public_key ← lift (recover_node_key (signed_shared_secret h) (shared_secret c));
  set_peer p (store_hello h) ;;
  parse_hello_user_data_for_peer p (user_data h) ;;
  set_peer p (λ c, match graphene_git_revision_unix_timestamp c with
    | Some t => if last_known_fork_block_number c =? 0
                then set_last_known_fork_block_number (estimate_last_known_fork_from_git_revision_timestamp t) c else c
    | None => c
    end) ;;
  c ← peer p;
  if negb (bool_decide (their_state c = just_connected)) then disconnect_from_peer p false
  else if negb (hello_node_public_key h =? expected_node_public_key) then
    reject p invalid_hello_message ;; disconnect_from_peer p false
  else
    too_old ← is_too_old c;
    if too_old : bool then reject p unspecified ;; disconnect_from_peer p false
    else
      ours ← gets (λ s, get_chain_id (delegate s));
      if negb (bool_decide (chain_id c = Some ours)) then reject p different_chain ;; disconnect_from_peer p false
      else answer_hello p already_connected_to_this_peer.
Definition on_connection_accepted_message (p : peer_id) : Net unit :=
  set_peer p (λ c, set_our_state connection_accepted (set_negotiation_status peer_connection_accepted c)) ;;
  send_message p address_request_message ;;
  c ← peer p;
  s ← get_st;
  when (bool_decide (self_firewalled s = unknown_firewalled) &&
        (last_firewall_check_message_sent s <? now s - GRAPHENE_NET_FIREWALL_CHECK_MESSAGE_INTERVAL_MINUTES * 60 * 1000000) &&
        (106 <=? core_protocol_version c))
    (set_peer p (set_firewall_check_state (Some (mkFirewallCheck no_node_id no_endpoint [] no_node_id))) ;;
     send_message p (check_firewall_message no_node_id no_endpoint) ;;
     update (λ s, set_last_firewall_check_message_sent (now s) s)).
Definition on_connection_rejected_message (p : peer_id) (reason : rejection_reason_code) : Net unit :=
  c ← peer p;
  if bool_decide (our_state c = just_connected) then
    t ← gets now;
    (if bool_decide (reason = connected_to_self) then
       on_peer_db (PeerDb.erase (socket_endpoint c)) ;;
       move_peer_to_closing_list p ;;
       close_connection p
     else
       update_known (Some (socket_endpoint c))
         (λ r, set_last_connection_attempt_time (seconds t) (set_last_connection_disposition last_connection_rejected r))) ;;
    set_peer p (λ c, set_our_state connection_rejected (set_negotiation_status peer_connection_rejected c)) ;;
    send_message p address_request_message
  else mthrow FcException.
Definition on_address_request_message (p : peer_id) : Net unit :=
  s ← get_st;
  if peer_advertising_disabled config then send_message p (address_message [])
  else
    for_each (active_connections s) (λ q, c ← peer q; update_known (Some (socket_endpoint c)) (set_last_seen_time (seconds (now s)))) ;;
    send_message p (address_message (omap (λ q, c ← connections s !! q;
      Some (mkAddress (socket_endpoint c) (seconds (now s)) (round_trip_delay c) (node_id c) (direction c) (is_firewalled c))) (active_connections s))).
(** libraries/fc/src/network/ip.cpp *)
Definition between (lo hi a : Z) : bool := (lo <=? a) && (a <=? hi).
Definition is_private_address (a : Z) : bool :=
  between 0x0A000000 0x0AFFFFFF a || between 0xAC100000 0xAC1FFFFF a || between 0xC0A80000 0xC0A8FFFF a || between 0xA9FE0000 0xA9FEFFFF a.
Definition is_multicast_address (a : Z) : bool := between 0xE0000000 0xEFFFFFFF a.
Definition is_public_address (a : Z) : bool := negb (is_private_address a || is_multicast_address a).
Definition merge_address (t : Z) (a : address_info) (r : bool * peer_database) : bool * peer_database :=
  let '(new_information_received, l) := r in
  if bool_decide (address_firewalled a = not_firewalled) then
    let x := PeerDb.lookup_or_create_entry_for_endpoint (address_endpoint a) l in
    (new_information_received || (last_seen_time x <? t), PeerDb.update_entry (set_last_seen_time (Z.max t (last_seen_time x)) x) l)
  else r.
(** All with the time now. *)
Definition merge_address_info_with_potential_peer_database (addresses : list address_info) : Net bool := λ s,
  let '(b, l) := fold_left (λ r a, merge_address (seconds (now s)) a r) addresses (false, potential_peer_db s) in
  (Ok b, set_potential_peer_db l s).
Definition on_address_message (p : peer_id) (addresses : list address_info) : Net unit :=
  new_information_received ← merge_address_info_with_potential_peer_database
    (List.filter (λ a, is_public_address (address_endpoint a).1) addresses);
  when new_information_received trigger_p2p_network_connect_loop ;;
  s ← get_st;
  when (bool_decide (p ∈ handshaking_connections s))
    (c ← peer p;
     if bool_decide (our_state c = connection_rejected) || bool_decide (their_state c = connection_rejected) then disconnect_from_peer p false
     else
       update_known (get_endpoint_for_connecting c) (set_last_connection_disposition last_connection_succeeded) ;;
       set_peer p (set_negotiation_status negotiation_complete) ;;
       move_peer_to_active_list p ;;
       new_peer_just_added p).
Definition on_current_time_request_message (p : peer_id) (sent : Z) : Net unit :=
  t ← gets now;
  send_message p (current_time_reply_message sent t 0).
Definition on_current_time_reply_message (p : peer_id) (request_sent request_received reply_transmitted : Z) : Net unit :=
  t ← gets now;
  set_peer p (λ c, set_round_trip_delay ((t - request_sent) - (reply_transmitted - request_received))
    (set_clock_offset (Z.quot ((request_received - request_sent) + (reply_transmitted - t)) 2) c)).

(** ** Making connections *)
Definition new_connection (e : option endpoint) (t secret : Z) : peer_connection :=
  mkPeer [] ∅ 0 true true None ∅ null_block_id 0 false ∅ ∅ ∅ 0 0 unknown_direction false false t 0 0 0 0 false [] e 0 0 0 0 0 None 0 None
    disconnected disconnected not_connected unknown_firewalled None 0 0 secret.
Definition add_connection (p : peer_id) (c : peer_connection) : Net unit := update (λ s,
  set_connections (<[p := c]> (connections s)) (set_handshaking_connections ({[p]} ∪ handshaking_connections s) s)).
(** [initiate_connect_to]; [p] is the address of the new object. *)
Definition connect_to_endpoint (p : peer_id) (e : endpoint) : Net unit :=
  s ← get_st;
  if is_connection_to_endpoint_in_progress e s then mthrow FcException
  else add_connection p (new_connection (Some e) (now s) 0).
(** A connection that was accepted. *)
Definition accept_loop (p : peer_id) : Net unit :=
  t ← gets now;
  add_connection p (new_connection None t 0).
(** [accept_connection_task]: the endpoints are noted, and the secret of the
    connection is known, after the exchange of keys. *)
Definition accept_connection (p : peer_id) (remote local : endpoint) (secret : Z) : Net unit :=
  set_peer p (λ c, set_remote_endpoint (Some remote) (set_our_state just_connected (set_their_state just_connected (set_shared_secret secret
    (set_outbound_port local.2 (set_inbound_port local.2 (set_inbound_address local.1 (set_negotiation_status accepted (set_direction inbound c))))))))) ;;
  send_hello_message p local.
(** A connection that failed, or that was made for a check, is given up. *)
Definition performing_firewall_check (c : peer_connection) : bool :=
  match firewall_check_state c with Some f => negb (requesting_peer f =? no_node_id) | None => false end.
Definition abandon (p : peer_id) : Net unit := update (λ s,
  set_connections (delete p (connections s)) (set_handshaking_connections (handshaking_connections s ∖ {[p]})
    (set_terminating_connections (terminating_connections s ∖ {[p]}) (set_active_connections (without p (active_connections s))
      (set_closing_connections (closing_connections s ∖ {[p]}) (set_potential_peer_database_updated true s)))))).
(** [connected]: the local endpoint and the secret, when the socket connected. *)
Definition connect_to_task (p : peer_id) (connected : option (endpoint * Z)) : Net unit :=
  c ← peer p;
  s ← get_st;
  let t := seconds (now s) in
  let checking := performing_firewall_check c in
  let e := socket_endpoint c in
  when (negb checking)
    (update_or_create e (λ r, set_last_connection_attempt_time t (set_last_connection_disposition last_connection_failed r))) ;;
  match connected with
  | Some (local, secret) =>
      set_peer p (λ c, set_is_firewalled not_firewalled (set_our_state just_connected (set_their_state just_connected (set_shared_secret secret
        (set_negotiation_status now_connected (set_direction outbound c)))))) ;;
      update_or_create e (λ r, set_last_seen_time t (count_success (set_last_connection_disposition last_connection_handshaking_failed r)))
  | None =>
      set_peer p (λ c, set_negotiation_status connecting (set_direction outbound c)) ;;
      when (negb checking) (update_or_create e (λ r, count_failure (set_last_connection_disposition last_connection_failed r)))
  end ;;
  match firewall_check_state c with
  | Some f =>
      when checking
        (r ← gets (get_peer_by_node_id (requesting_peer f));
         match r with
         | Some q => send_message q (check_firewall_reply_message (expected_node_id f) (endpoint_to_test f)
             (match connected with Some _ => connection_successful | None => unable_to_connect end))
         | None => mret tt
         end)
  | None => mret tt
  end ;;
  match connected with
  | Some (local, _) =>
      if checking then abandon p
      else
        set_peer p (λ c, set_outbound_port local.2 (set_inbound_port
          (if accept_incoming_connections config then (actual_listening_endpoint s).2 else 0) (set_inbound_address local.1 c))) ;;
        send_hello_message p local
  | None => abandon p ;; mthrow FcException
  end.
Definition add_node (e : endpoint) : Net unit :=
  s ← get_st;
  let r := PeerDb.lookup_or_create_entry_for_endpoint e (potential_peer_db s) in
  let r := set_last_connection_attempt_time (Z.min (last_connection_attempt_time r)
             (seconds (now s - peer_connection_retry_timeout config * 1000000))) r in
  update (λ s, set_add_once_node_list (add_once_node_list s ++ [r]) s) ;;
  on_peer_db (PeerDb.update_entry r) ;;
  trigger_p2p_network_connect_loop.
(** Whom [p2p_network_connect_loop] tries: never again before a time that grows
    with the failures. *)
Definition worth_trying (s : node) (r : potential_peer_record) : bool :=
  negb (is_connection_to_endpoint_in_progress (record_endpoint r) s) &&
  (match last_connection_disposition r with
   | last_connection_failed | last_connection_rejected | last_connection_handshaking_failed => false
   | _ => true
   end ||
   (u32 ((number_of_failed_connection_attempts r + 1) * peer_connection_retry_timeout config) * 1000000
      <? now s - last_connection_attempt_time r * 1000000)).
Definition fresh_peer (s : node) : peer_id := fresh (dom (connections s)).
Fixpoint try_records (l : list potential_peer_record) : Net bool :=
  match l with
  | [] => mret false
  | r :: l =>
      s ← get_st;
      if is_wanting_new_connections s then
        if worth_trying s r then connect_to_endpoint (fresh_peer s) (record_endpoint r) ;; try_records l ;; mret true
        else try_records l
      else mret false
  end.
(** [while( is_wanting_new_connections() )]: each pass but the last starts a
    connection, so the number wanted bounds the passes. *)
Fixpoint connect_passes (fuel : nat) : Net unit :=
  match fuel with
  | O => mret tt
  | S fuel =>
      s ← get_st;
      when (is_wanting_new_connections s)
        (update (set_potential_peer_database_updated false) ;;
         initiated ← try_records (potential_peer_db s);
         if initiated : bool then connect_passes fuel else mret tt)
  end.
Definition connect_once (r : potential_peer_record) : Net unit :=
  s ← get_st;
  when (negb (is_connection_to_endpoint_in_progress (record_endpoint r) s)) (connect_to_endpoint (fresh_peer s) (record_endpoint r)).
Definition p2p_network_connect : Net unit :=
  l ← gets add_once_node_list;
  update (set_add_once_node_list []) ;;
  for_each l connect_once ;;
  connect_passes (S (Z.to_nat (desired_number_of_connections config))).

(** ** Checks for firewalls *)
Definition can_check (f : firewall_check_state_data) (c : peer_connection) : bool :=
  negb (expected_node_id f =? node_id c) && bool_decide (firewall_check_state c = None) &&
  negb (bool_decide (node_id c ∈ nodes_already_tested f)) && (106 <=? core_protocol_version c).
Definition forward_firewall_check_to_next_available_peer (f : firewall_check_state_data) : Net unit :=
  s ← get_st;
  match head (those (can_check f) s (active_connections s)) with
  | Some q =>
      set_peer q (λ c, set_firewall_check_state (Some (mkFirewallCheck (expected_node_id f) (endpoint_to_test f)
        (node_id c :: nodes_already_tested f) (requesting_peer f))) c) ;;
      send_message q (check_firewall_message (expected_node_id f) (endpoint_to_test f))
  | None =>
      match get_peer_by_node_id (expected_node_id f) s with
      | Some q => send_message q (check_firewall_reply_message (expected_node_id f) (endpoint_to_test f) unable_to_check)
      | None => mret tt
      end
  end.
(** When the check cannot be made, a reply is filled in and not sent. *)
Definition on_check_firewall_message (p : peer_id) (id : node_id_t) (e : endpoint) : Net unit :=
  c ← peer p;
  s ← get_st;
  if (id =? no_node_id) && bool_decide (e = no_endpoint) then
    let e := if inbound_port c =? outbound_port c then socket_endpoint c else ((socket_endpoint c).1, inbound_port c) in
    forward_firewall_check_to_next_available_peer (mkFirewallCheck (node_id c) e [] (node_id c))
  else if is_already_connected_to_id id s || is_connection_to_endpoint_in_progress e s then mret tt
  else add_connection (fresh_peer s) (set_firewall_check_state (Some (mkFirewallCheck id e [] (node_id c))) (new_connection (Some e) (now s) 0)).
Definition on_check_firewall_reply_message (p : peer_id) (id : node_id_t) (e : endpoint) (result : firewall_check_result) : Net unit :=
  c ← peer p;
  s ← get_st;
  match firewall_check_state c with
  | None => mret tt
  | Some f =>
      if requesting_peer f =? no_node_id then
        match result with
        | connection_successful => update (λ s, set_publicly_visible_listening_endpoint (Some e) (set_self_firewalled not_firewalled s))
        | unable_to_connect => update (λ s, set_publicly_visible_listening_endpoint None (set_self_firewalled firewalled s))
        | unable_to_check => mret tt
        end ;;
        set_peer p (set_firewall_check_state None)
      else if bool_decide (result = unable_to_check) then
        set_peer p (set_firewall_check_state None) ;;
        forward_firewall_check_to_next_available_peer f
      else
        match get_peer_by_node_id (requesting_peer f) s with
        | None => mret tt
        | Some q =>
            original ← peer q;
            when (bool_decide (result = connection_successful) && negb (bool_decide (is_firewalled original = not_firewalled)))
              (set_peer q (set_is_firewalled not_firewalled) ;;
               match get_endpoint_for_connecting c with
               | Some e => update_or_create e (set_last_seen_time (seconds (now s)))
               | None => mret tt
               end) ;;
            send_message q (check_firewall_reply_message id e result)
        end ;;
        set_peer p (set_firewall_check_state None)
  end.

(** ** Ends of connections *)
(** The lists, the database and a check that was left to the peer. *)
Definition leave (p : peer_id) (c : peer_connection) : Net unit :=
  s ← get_st;
  update (λ s, set_closing_connections (closing_connections s ∖ {[p]})
    (set_handshaking_connections (handshaking_connections s ∖ {[p]})
    (set_terminating_connections (terminating_connections s ∖ {[p]})
    (set_active_connections (without p (active_connections s)) s)))) ;;
  when (bool_decide (p ∈ active_connections s)) (update_known (get_endpoint_for_connecting c) (set_last_seen_time (seconds (now s)))) ;;
  trigger_p2p_network_connect_loop ;;
  report_number_of_connections ;;
  match firewall_check_state c with
  | Some f =>
      when (negb (requesting_peer f =? no_node_id))
        (set_peer p (set_firewall_check_state None) ;; forward_firewall_check_to_next_available_peer f)
  | None => mret tt
  end.
Definition on_connection_closed (p : peer_id) : Net unit :=
  c ← peer p;
  leave p c ;;
  update (λ s, set_active_sync_requests (filter (λ e, sync_items_requested_from_peer c !! e.1 = None) (active_sync_requests s)) s) ;;
  for_each (map_to_list (items_requested_from_peer c)) (λ e,
    found ← gets (is_item_in_any_peers_inventory e.1);
    when found (update (want_item e.1))) ;;
  update (λ s, set_connections (delete p (connections s)) s).
(** One turn of [terminate_inactive_connections_loop]. *)
Definition is_silent (t timeout : Z) (c : peer_connection) : bool :=
  (connection_initiation_time c <? t - timeout * 1000000) && (last_message_received_time c <? t - timeout * 1000000).
(** A request was left unanswered for too long. *)
Definition has_timed_out (threshold : Z) (c : peer_connection) : bool :=
  existsb (λ e, e.2 <? threshold) (map_to_list (sync_items_requested_from_peer c)) ||
  match item_ids_requested_from_peer c with Some (_, t) => t <? threshold | None => false end ||
  existsb (λ e, e.2 <? threshold) (map_to_list (items_requested_from_peer c)).
Definition has_stalled (c : peer_connection) : bool :=
  we_need_sync_items_from_peer c && bool_decide (item_ids_requested_from_peer c = None) && bool_decide (ids_of_items_to_get c = []).
Inductive verdict := keep | gently | forcibly | keep_alive.
Definition judge (t : Z) (c : peer_connection) : verdict :=
  let timeout := 10 * recent_block_interval_in_seconds config in
  if is_silent t timeout c then gently
  else if has_timed_out (t - active_ignored_request_timeout_microseconds config) c then forcibly
  else if is_silent t (timeout / 2) c then keep_alive
  else if has_stalled c then forcibly
  else keep.
Definition judged (v : peer_connection → verdict) (x : verdict) (c : peer_connection) : bool :=
  match v c, x with keep, keep | gently, gently | forcibly, forcibly | keep_alive, keep_alive => true | _, _ => false end.
Definition terminate_inactive_connections : Net unit :=
  s ← get_st;
  let t := now s in
  let inactive c := is_silent t (peer_inactivity_timeout config) c &&
    (last_message_sent_time c <? t - peer_inactivity_timeout config * 1000000) in
  let overdue c := connection_closed_time c <? t - GRAPHENE_NET_PEER_DISCONNECT_TIMEOUT * 1000000 in
  let unfinished c := negb (connection_terminated_time c =? 0) &&
    (connection_terminated_time c <? t - GRAPHENE_NET_FAILED_TERMINATE_TIMEOUT_SECONDS * 1000000) in
  for_each (those unfinished s (elements (terminating_connections s)))
    (λ p, update (λ s, set_connections (delete p (connections s))
                         (set_terminating_connections (terminating_connections s ∖ {[p]}) s))) ;;
  for_each (those inactive s (elements (handshaking_connections s)) ++
            those (judged (judge t) forcibly) s (active_connections s) ++
            those overdue s (elements (closing_connections s)))
    (λ p, move_peer_to_terminating_list p ;; close_connection p) ;;
  for_each (those (judged (judge t) gently) s (active_connections s)) (λ p, disconnect_from_peer p false) ;;
  for_each (those (judged (judge t) keep_alive) s (active_connections s)) (λ p, send_message p (current_time_request_message 0)).
(** One turn of [fetch_updated_peer_lists_loop]. *)
Definition fetch_updated_peer_lists : Net unit :=
  ps ← gets active_connections;
  for_each ps (λ p, send_message p address_request_message) ;;
  update (λ s, set_recently_failed_items
    (keep_since (seconds (now s - GRAPHENE_NET_PRUNE_FAILED_IDS_MINUTES * 60 * 1000000)) (recently_failed_items s)) s).

(** ** Messages *)
(** A message has arrived: [message_oriented_connection] notes when. *)
Definition on_message (p : peer_id) (m : message) : Net unit :=
  t ← gets now;
  set_peer p (set_last_message_received_time t) ;;
  let hash := get_message_id m in
  match m with
  | fetch_blockchain_item_ids_message ty synopsis => on_fetch_blockchain_item_ids_message p ty synopsis
  | blockchain_item_ids_inventory_message n ty hashes => on_blockchain_item_ids_inventory_message p n ty hashes
  | fetch_items_message ty hashes => on_fetch_items_message p ty hashes
  | item_not_available_message i => on_item_not_available_message p i
  | item_ids_inventory_message ty hashes => on_item_ids_inventory_message p ty hashes
  | closing_connection_message _ => on_closing_connection_message p
  | a_block_message b => process_block_message p b hash
  | current_time_request_message sent => on_current_time_request_message p sent
  | current_time_reply_message a b c => on_current_time_reply_message p a b c
  | a_hello_message h => on_hello_message p h
  | connection_accepted_message => on_connection_accepted_message p
  | connection_rejected_message reason => on_connection_rejected_message p reason
  | address_request_message => on_address_request_message p
  | address_message l => on_address_message p l
  | check_firewall_message id e => on_check_firewall_message p id e
  | check_firewall_reply_message id e r => on_check_firewall_reply_message p id e r
  | trx_message _ => process_ordinary_message p m hash
  | other_message ty =>
      when ((ty <? core_message_type_first) || (core_message_type_last <? ty)) (process_ordinary_message p m hash)
  end.
Definition sync_from (head : item_id) (forks : list Z) : Net unit := update (λ s,
  set_hard_fork_block_numbers forks (set_sync_item_type (item_type head) (set_most_recent_blocks_accepted [hash_of head] s))).
End with_delegate.
End Net.
