(* ===== verification/NetFacts.v ===== *)
(** * The network node: what its executions keep

    The node of Net.v as a system of events (messages that arrive, tasks that
    run, connections that open and close), and the lemmas on what each operation
    leaves alone: the requests for blocks, the order of the ids of a peer. *)
From S2P Require Import Prelude Protocol Block PeerDb Net.
#[local] Open Scope Z_scope.

(** ** Executions *)
Section system.
Context {D : Type} `{NodeDelegate D} `{NodeKeys} (config : node_configuration).
Import Net.
(** Its ids, the addresses it remembers and the endpoint it listens at. *)
Definition new_node (id key : node_id_t) (db : peer_database) (listening : endpoint) (d : D) : node_impl :=
  mkNode ∅ ∅ [] ∅ ∅ ∅ [] [] [] 0 ∅ [] ∅ [] block_message_type 0 [] (mkCache [] 0) 0 0
    id key db false [] unknown_firewalled 0 None listening d.

(** [incoming], [introduced]: a connection was accepted, and its keys exchanged;
    [outgoing_done]: the attempt to connect has ended.  [elsewhere]: the chain
    moves without the network, through the other threads of the program. *)
Inductive event :=
| incoming (p : peer_id)
| introduced (p : peer_id) (remote local : endpoint) (secret : Z)
| outgoing_done (p : peer_id) (connected : option (endpoint * Z))
| looking_for_peers
| node_added (e : endpoint)
| connection_wanted (e : endpoint)
| received (p : peer_id) (m : message)
| closed (p : peer_id)
| fetching_sync_items
| processing_backlog
| fetching_items
| advertising
| terminating_inactive
| updating_peer_lists
| broadcasting (m : message)
| synchronising (head : item_id) (hard_forks : list Z)
| ticked (t : Z)
| elsewhere (f : D → D).
Definition handle (e : event) : St (node_impl (D:=D)) unit :=
  match e with
  | incoming p => s ← get_st; when (bool_decide (connections s !! p = None)) (accept_loop p)
  | introduced p remote local secret => accept_connection config p remote local secret
  | outgoing_done p connected => connect_to_task config p connected
  | looking_for_peers => p2p_network_connect config
  | node_added e => add_node config e
  | connection_wanted e => s ← get_st; connect_to_endpoint (fresh_peer s) e
  | received p m => on_message config p m
  | closed p => on_connection_closed p
  | fetching_sync_items => fetch_sync_items config
  | processing_backlog => process_backlog_of_sync_blocks config
  | fetching_items => fetch_items config
  | advertising => advertise_inventory
  | terminating_inactive => terminate_inactive_connections config
  | updating_peer_lists => fetch_updated_peer_lists
  | broadcasting m => broadcast m
  | synchronising head forks => sync_from head forks
  | ticked t => update (λ s, set_now (Z.max t (now s)) s)
  | elsewhere f => update (λ s, set_delegate (f (delegate s)) s)
  end.
(** What a failed handler has done stays done. *)
Definition step (s : node_impl) (e : event) : node_impl := (handle e s).2.
Definition execute (es : list event) (s : node_impl) : node_impl := fold_left step es s.
Lemma execute_invariant (I : node_impl → Prop) es s : (∀ e, preserves I (handle e)) → I s → I (execute es s).
Proof. intros Hh. revert s. induction es as [|e es IH]; intros s Hs; [done|]. apply IH. by apply Hh. Qed.
End system.

(** ** What most operations leave alone

    The requests for blocks and their order: which blocks were asked of whom, that
    the list of ids of a peer is in sequence, that a peer is active once. *)
Section consecutive.
Context {D : Type} `{NodeDelegate D}.
(** Each id is of the block after the one before. *)
Fixpoint consecutive (l : list item_hash) : Prop :=
  match l with
  | [] => True
  | x :: l => match l with [] => True | y :: _ => get_block_number y = u32 (get_block_number x + 1) end ∧ consecutive l
  end.
Lemma consecutive_app l1 l2 : consecutive (l1 ++ l2) → consecutive l1 ∧ consecutive l2.
Proof.
  induction l1 as [|x l1 IH]; [done|]. simpl. intros [Hx Hl]. destruct (IH Hl) as [H1 H2]. split_and!; [|done|done].
  by destruct l1.
Qed.
Lemma consecutive_join l1 x l2 : consecutive (l1 ++ [x]) → consecutive (x :: l2) → consecutive (l1 ++ x :: l2).
Proof.
  intros H1 H2. induction l1 as [|y l1 IH]; [done|]. simpl in *. destruct H1 as [Hy H1]. split; [|by apply IH]. by destruct l1.
Qed.
End consecutive.
Section still.
Import Net.
Context {D : Type} `{NodeDelegate D}.
Record peer_still (c c' : peer_connection) : Prop := {
  same_requests : sync_items_requested_from_peer c' = sync_items_requested_from_peer c;
  same_order : consecutive (ids_of_items_to_get c) → consecutive (ids_of_items_to_get c')
}.
Record node_still (s s' : node_impl (D:=D)) : Prop := {
  same_active_requests : active_sync_requests s' = active_sync_requests s;
  same_new : new_received_sync_items s' = new_received_sync_items s;
  same_once : NoDup (active_connections s) → NoDup (active_connections s')
}.
#[global] Instance peer_still_preorder : PreOrder peer_still.
Proof. split; [by split|]. intros a b c [] []. split; [congruence|auto]. Qed.
#[global] Instance node_still_preorder : PreOrder node_still.
Proof. split; [by split|]. intros a b c [] []. split; [congruence|congruence|auto]. Qed.
Definition same (s s' : node_impl) : Prop :=
  node_still s s' ∧ ∀ p, option_Forall2 peer_still (connections s !! p) (connections s' !! p).
#[global] Instance same_preorder : PreOrder same.
Proof.
  split; [intros s; split; [done|intros p]; by destruct (connections s !! p); constructor|].
  intros a b c [N1 P1] [N2 P2]. split; [by etrans|]. intros p. specialize (P1 p). specialize (P2 p).
  destruct P1 as [x y Hxy|]; inversion P2 as [y' z Hyz|]; subst; constructor. by etrans.
Qed.
Definition still {A} (m : St (node_impl (D:=D)) A) : Prop := ∀ s0, preserves (same s0) m.
Lemma still_same {A} (m : St node_impl A) s : still m → same s (m s).2.
Proof. intros Hm. by apply Hm. Qed.
Lemma same_untouched (s s' : node_impl) : node_still s s' → connections s' = connections s → same s s'.
Proof. intros Hn E. split; [done|]. intros p. rewrite E. by destruct (connections s !! p); constructor. Qed.
Lemma still_update f : (∀ s, node_still s (f s)) → (∀ s, connections (f s) = connections s) → still (update f).
Proof. intros Hf Hc s0 s [E1 E2]. split; simpl; [by etrans|by rewrite Hc]. Qed.
Lemma still_set_peer_at p f s0 s : (∀ c, connections s !! p = Some c → peer_still c (f c)) →
  same s0 s → same s0 (set_peer p f s).2.
Proof.
  intros Hf Hs. etrans; [done|]. split; [by split|]. intros q. simpl. destruct (decide (p = q)) as [<-|].
  - rewrite lookup_alter_eq. destruct (connections s !! p) as [c|] eqn:E; simpl; constructor. by apply Hf.
  - rewrite lookup_alter_ne by done. by destruct (connections s !! q); constructor.
Qed.
Lemma still_set_peer p f : (∀ c, peer_still c (f c)) → still (set_peer p f).
Proof. intros Hf s0 s Hs. apply still_set_peer_at; [intros c _; apply Hf|done]. Qed.
Lemma still_peer p : still (peer p).
Proof. by intros s0 s. Qed.
Lemma still_on_delegate {A} (m : St D A) : still (on_delegate m).
Proof. intros s0 s [E1 E2]. unfold on_delegate. destruct (m (delegate s)) as [r d]. split; simpl; [by etrans|done]. Qed.
Lemma alter_known {A} (f g : A → A) (m : gmap peer_id A) p a : m !! p = Some a → f a = g a → alter f p m = alter g p m.
Proof.
  intros Hp E. apply map_eq. intros q. destruct (decide (p = q)) as [<-|]; [|by rewrite !lookup_alter_ne].
  rewrite !lookup_alter_eq, Hp. simpl. by rewrite E.
Qed.
End still.
Create HintDb still.
#[export] Hint Resolve still_peer still_on_delegate : still.
#[export] Hint Extern 1 (still (Net.update _)) => apply still_update; [intros ?; split; done|done] : still.
#[export] Hint Extern 1 (still (Net.set_peer _ _)) => apply still_set_peer; intros ?; split; done : still.
Ltac still_step :=
  lazymatch goal with
  | |- ∀ _, _ => intros ?
  | |- preserves _ (_ ≫= _) => apply preserves_bind
  | |- preserves _ (when _ _) => apply preserves_when
  | |- preserves _ (for_each _ _) => apply preserves_for_each
  | |- preserves _ (try_catch _ _) => apply preserves_try
  | |- preserves _ (match ?x with _ => _ end) => destruct x
  | |- preserves (same ?s) ?m => first [solve [eauto 3 with preserves] | apply (fun h : still m => h s); solve [eauto 3 with still]]
  end.
Ltac still := intros ?s0; repeat still_step.

(** ** Requests for blocks *)
Section requests.
Import Net.
Context {D : Type} `{NodeDelegate D} `{NodeKeys} (config : node_configuration).
Abbreviation node := (node_impl (D:=D)).
Lemma send_still p q : still (send p q).
Proof. apply still_set_peer; done. Qed.
#[local] Hint Resolve send_still : still.
Lemma close_connection_still p : still (close_connection p).
Proof. unfold close_connection. still. apply still_set_peer. intros c. by destruct (connection_terminated_time c =? 0). Qed.
Lemma update_known_still e f : still (update_known e f).
Proof. unfold update_known, on_peer_db. still. Qed.
Lemma update_or_create_still e f : still (update_or_create e f).
Proof. unfold update_or_create, on_peer_db. auto with still. Qed.
#[local] Hint Resolve update_known_still update_or_create_still : still.
#[local] Hint Resolve close_connection_still : still.
Lemma without_once p l : NoDup l → NoDup (without p l).
Proof. rewrite !NoDup_ListNoDup. apply List.NoDup_filter. Qed.
Lemma move_to_active_still p : still (move_peer_to_active_list p).
Proof. apply still_update; [|done]. intros s. split; [done|done|]. simpl. intros Hs. case_bool_decide; [done|by constructor]. Qed.
Lemma move_to_closing_still p : still (move_peer_to_closing_list p).
Proof. apply still_update; [|done]. intros s. split; [done|done|apply without_once]. Qed.
Lemma move_to_terminating_still p : still (move_peer_to_terminating_list p).
Proof. apply still_update; [|done]. intros s. split; [done|done|apply without_once]. Qed.
#[local] Hint Resolve move_to_active_still move_to_closing_still move_to_terminating_still : still.
Lemma disconnect_still p b : still (disconnect_from_peer p b).
Proof. unfold disconnect_from_peer, send_message. still. Qed.
#[local] Hint Resolve disconnect_still : still.
Lemma fetch_next_batch_still p : still (fetch_next_batch_of_item_ids_from_peer p).
Proof. unfold fetch_next_batch_of_item_ids_from_peer, create_blockchain_synopsis_for_peer, send_message. still. Qed.
#[local] Hint Resolve fetch_next_batch_still : still.
Lemma start_synchronizing_still p : still (start_synchronizing_with_peer p).
Proof. unfold start_synchronizing_with_peer. still. Qed.
#[local] Hint Resolve start_synchronizing_still : still.
Lemma new_peer_still p : still (new_peer_just_added p).
Proof. unfold new_peer_just_added, report_number_of_connections, send_message. still. Qed.
#[local] Hint Resolve new_peer_still : still.
Lemma on_fetch_ids_still p ty l : still (on_fetch_blockchain_item_ids_message p ty l).
Proof. unfold on_fetch_blockchain_item_ids_message, send_message. still. Qed.
Lemma drop_known_still p ty l : still (drop_known p ty l).
Proof. induction l as [|h l IH]; simpl; still; by apply IH. Qed.
#[local] Hint Resolve drop_known_still : still.
Definition ids_at (p : peer_id) (s : node) : option (list item_hash) := ids_of_items_to_get <$> connections s !! p.
Lemma ids_at_set_peer p f (s : node) ids :
  ids_at p s = Some ids → ∃ c, connections s !! p = Some c ∧ ids_of_items_to_get c = ids ∧
    ids_at p (set_connections (alter f p (connections s)) s) = Some (ids_of_items_to_get (f c)).
Proof.
  unfold ids_at. intros Hi. simpl. rewrite lookup_alter_eq. destruct (connections s !! p) as [c|]; [|done]. injection Hi as Hi. by exists c.
Qed.
Lemma ids_at_delegate p d (s : node) : ids_at p (set_delegate d s) = ids_at p s.
Proof. done. Qed.
Lemma drop_known_spec p ty l (s : node) ids : ids_at p s = Some ids →
  ids_at p (drop_known p ty l s).2 = Some ids ∧ ∀ rest, (drop_known p ty l s).1 = Ok rest → rest `suffix_of` l.
Proof.
  revert s. induction l as [|h l IH]; intros s Hs; [by split; [|intros rest [= <-]]|].
  cbn [drop_known]. rewrite bind_run. unfold on_delegate at 1 3. destruct (has_item (ty, h) (delegate s)) as [[[]|e] d]; [|by split; [|intros rest [= <-]]|done].
  rewrite bind_run. unfold on_delegate at 1 2. destruct (get_block_time h (delegate (set_delegate d s))) as [[t|e] d']; [|done].
  rewrite bind_run. unfold set_peer, update. cbv beta iota.
  set (s1 := set_delegate d' (set_delegate d s)).
  destruct (ids_at_set_peer p (λ c, set_last_block_time_delegate_has_seen t (set_last_block_delegate_has_seen h c)) s1 ids Hs) as (c & _ & Hc & Hi).
  rewrite Hc in Hi || (simpl in Hi; rewrite Hc in Hi). destruct (IH _ Hi) as [H1 H2]. split; [done|]. intros rest Hr. apply suffix_cons_r. by apply H2.
Qed.
Lemma pop_until_spec h l : pop_until h l = [] ∨ ∃ popped kept, l = popped ++ h :: kept ∧ pop_until h l = h :: kept.
Proof.
  induction l as [|x l IH]; [by left|]. simpl. case_bool_decide as Ex; [subst x; right; by exists [], l|].
  destruct IH as [->|(po & k & -> & ->)]; [by left|]. right. by exists (x :: po), k.
Qed.
(** What may be put after the list of a peer. *)
Definition fits (p : peer_id) (ids rest : list item_hash) (s : node) : Prop :=
  consecutive ids → ∀ ids', ids_at p s = Some ids' → consecutive (ids' ++ rest).
Lemma merge_fits p ty l (s : node) ids rest s' : consecutive l → ids_at p s = Some ids →
  merge_item_hashes p ty l s = (Ok rest, s') → fits p ids rest s'.
Proof.
  intros Hl Hi. unfold merge_item_hashes. rewrite bind_run. unfold peer. unfold ids_at in Hi.
  destruct (connections s !! p) as [c|] eqn:Ec; [|done]. injection Hi as Hi. rewrite Hi.
  assert (Hp : ids_at p s = Some ids) by (unfold ids_at; by rewrite Ec, <- Hi).
  destruct l as [|h l]; [intros [= <- <-] Hc ids'; rewrite Hp; intros [= <-]; by rewrite app_nil_r|].
  destruct ids as [|i ids].
  - rewrite bind_run. unfold gets. destruct (is_first_item_for_other_peer p h s).
    + intros [= <- <-] _ ids'. rewrite Hp. by intros [= <-].
    + destruct (drop_known_spec p ty (h :: l) s [] Hp) as [H1 H2]. intros Hr _ ids'. rewrite Hr in H1, H2. cbn [fst snd] in *. rewrite H1. intros [= <-].
      destruct (H2 _ eq_refl) as [pre E]. rewrite E in Hl. by apply consecutive_app in Hl as [_ Hl].
  - destruct (pop_until_spec h (reverse (i :: ids))) as [->|(po & k & E & ->)].
    + destruct (ids_at_set_peer p (λ c, set_last_block_delegate_has_seen h (set_ids_of_items_to_get [] c)) s _ Hp) as (c1 & _ & _ & H1).
      rewrite bind_run. unfold set_peer at 1, update. cbv beta iota.
      set (s1 := set_connections _ s) in *. rewrite bind_run. unfold on_delegate. destruct (get_block_time h (delegate s1)) as [[t|e] d]; [|done].
      destruct (ids_at_set_peer p (set_last_block_time_delegate_has_seen t) (set_delegate d s1) _ H1) as (c2 & _ & H2 & H3).
      intros [= <- <-] _ ids' Hi'. assert (ids' = []) as -> by (injection (eq_trans (eq_sym Hi') H3); intros ->; exact H2). by destruct Hl.
    + destruct (ids_at_set_peer p (set_ids_of_items_to_get (reverse k)) s _ Hp) as (c1 & _ & _ & H1).
      intros [= <- <-] Hc ids' Hi'. injection (eq_trans (eq_sym Hi') H1). intros ->. apply consecutive_join; [|done].
      apply (f_equal reverse) in E. rewrite reverse_involutive, reverse_app, reverse_cons in E. rewrite E in Hc.
      by apply consecutive_app in Hc as [Hc _].
Qed.
Lemma merge_still p ty l : consecutive l → still (merge_item_hashes p ty l).
Proof.
  intros Hl s0 s Hs. etrans; [done|]. unfold merge_item_hashes. rewrite bind_run. unfold peer.
  destruct (connections s !! p) as [c|] eqn:Ec; [|done]. destruct l as [|h l]; [done|].
  destruct (ids_of_items_to_get c) as [|i ids] eqn:Ei.
  - refine ((_ : preserves (same s) (_ ≫= _)) s _); [|done]. repeat still_step.
  - destruct (pop_until_spec h (reverse (i :: ids))) as [->|(po & k & E & ->)].
    + refine ((_ : preserves (same s) (_ ≫= _)) s _); [|done]. repeat still_step.
    + rewrite bind_run. cbn [fst snd]. apply still_set_peer_at; [|done]. intros c' Ec'. assert (c' = c) as -> by congruence. split; [done|].
      rewrite Ei. apply (f_equal reverse) in E. rewrite reverse_involutive, reverse_app, reverse_cons in E. rewrite E.
      intros Hc. by do 2 apply consecutive_app in Hc as [Hc _].
Qed.
Lemma append_still p n ty l (k : St node unit) : consecutive l → still k →
  still (rest ← merge_item_hashes p ty l;
         set_peer p (λ c, set_number_of_unfetched_item_ids n (set_ids_of_items_to_get (ids_of_items_to_get c ++ rest) c)) ;; k).
Proof.
  intros Hl Hk s0 s Hs. etrans; [done|]. rewrite bind_run. pose proof (still_same _ s (merge_still p ty l Hl)) as Hm.
  destruct (merge_item_hashes p ty l s) as [[rest|e] s'] eqn:Em; [|done]. cbn [fst snd] in Hm. rewrite bind_run. cbn [set_peer update fst snd].
  apply Hk. destruct Hm as [Hn Hp]. split; [by etrans|]. intros q. simpl.
  destruct (decide (p = q)) as [<-|]; [rewrite lookup_alter_eq|by rewrite lookup_alter_ne]. specialize (Hp p).
  pose proof (merge_fits p ty l s) as Hf. unfold ids_at in Hf. destruct (connections s !! p) as [c|]; inversion Hp as [? c' Hc E1 E2|E1 E2]; subst; [|by constructor].
  simpl. constructor. split; [apply Hc|]. intros Ho. specialize (Hf _ rest s' Hl eq_refl Em Ho). apply Hf. unfold ids_at. by rewrite <- E2.
Qed.
Lemma accept_hashes_still p n ty l : consecutive l → still (accept_item_hashes p n ty l).
Proof.
  intros Hl s0. unfold accept_item_hashes, report_unfetched_count, update_unfetched_count, tell_sync_status. do 2 (apply preserves_bind; [repeat still_step|intros ?]).
  apply preserves_if; [repeat still_step|]. apply preserves_bind; [repeat still_step|intros _].
  apply (append_still p n ty l (_ ;; _)); [done|]. still.
Qed.
Lemma sequential_consecutive l : sequential l = true → consecutive l.
Proof.
  destruct l as [|h l]; [done|]. cbn [sequential]. intros Hs.
  assert (Hk : ∀ k x, l !! k = Some x → get_block_number x = u32 (get_block_number h + Z.of_nat (S k))).
  { intros k x Hx. rewrite forallb_forall in Hs. apply Z.eqb_eq. apply (Hs (k, x)). apply list_elem_of_In, list_elem_of_lookup.
    exists k. by rewrite list_lookup_imap, Hx. }
  clear Hs. revert h Hk. induction l as [|x l IH]; intros h Hk; [done|]. split; [exact (Hk 0%nat x eq_refl)|].
  apply IH. intros k y Hy. rewrite (Hk (S k) y Hy), (Hk 0%nat x eq_refl). unfold u32. rewrite Zplus_mod_idemp_l. f_equal. lia.
Qed.
Lemma on_ids_inventory_still p n ty l : still (on_blockchain_item_ids_inventory_message p n ty l).
Proof.
  intros s0. unfold on_blockchain_item_ids_inventory_message, logged. apply preserves_bind; [repeat still_step|intros c].
  destruct (item_ids_requested_from_peer c) as [[synopsis t]|]; [|repeat still_step].
  destruct (valid_response synopsis l) eqn:Hv; [|repeat still_step]. apply preserves_bind; [repeat still_step|intros _].
  apply preserves_try; [|repeat still_step]. apply accept_hashes_still, sequential_consecutive.
  destruct l as [|h l]; [done|]. by apply andb_true_iff in Hv as [Hv _].
Qed.
(** The loop works on a copy of the connection it has just read. *)
Lemma notice_block_unfold b p l (s : node) :
  notice_block b (p :: l) s = match connections s !! p with
    | None => (Exc Fault, s)
    | Some c =>
        let n := Block.block_num (header (block b)) in
        if is_hard_fork_block n s && is_outdated n s c then notice_block b l s
        else
          (set_peer p (λ c, (block_seen_by_peer b c).1) ;;
           '(l1, l2) ← notice_block b l;
           mret (if (block_seen_by_peer b c).2 then p :: l1 else l1,
                 if in_sync_and_idle (block_seen_by_peer b c).1 then p :: l2 else l2)) s
    end.
Proof.
  cbn [notice_block]. rewrite bind_run. unfold peer. destruct (connections s !! p) as [c|] eqn:Ec; [|done].
  rewrite bind_run. cbn [get_st]. destruct (is_hard_fork_block _ s && is_outdated _ s c); [done|].
  destruct (block_seen_by_peer b c) as [c' e] eqn:Eb. rewrite !bind_run. unfold set_peer, update. cbv beta iota.
  by rewrite (alter_known (λ _, c') (λ c, (block_seen_by_peer b c).1) _ p c); [|done|rewrite Eb].
Qed.
Lemma block_seen_still b c : peer_still c (block_seen_by_peer b c).1.
Proof. unfold block_seen_by_peer. by case_bool_decide. Qed.
Lemma notice_block_still b l : still (notice_block b l).
Proof.
  induction l as [|p l IH]; [by intros s0 s|]. intros s0 s Hs. rewrite notice_block_unfold.
  destruct (connections s !! p) as [c|]; [|done]. simpl. destruct (_ : bool); [by apply IH|].
  refine ((_ : preserves (same s0) (_ ≫= _)) s Hs). repeat still_step. apply still_set_peer. apply block_seen_still.
Qed.
#[local] Hint Resolve notice_block_still : still.
Lemma send_sync_block_still b : still (send_sync_block_to_node_delegate b).
Proof. unfold send_sync_block_to_node_delegate. still. Qed.
#[local] Hint Resolve send_sync_block_still : still.
Lemma advance_same id c : peer_still c (advance id c).
Proof. unfold advance. destruct (waits_for id c); [|done]. split; [done|]. simpl. destruct (ids_of_items_to_get c); [done|]. by intros []. Qed.
Lemma process_one_still : still process_one_sync_block.
Proof. unfold process_one_sync_block. still. apply still_set_peer. intros c. apply advance_same. Qed.
#[local] Hint Resolve process_one_still : still.
Lemma process_blocks_still n : still (process_blocks n).
Proof. induction n as [|n IH]; cbn [process_blocks]; still; by apply IH. Qed.
Lemma broadcast_still m : still (broadcast m).
Proof. intros s0 s Hs. etrans; [done|]. apply same_untouched; [|unfold broadcast; by destruct m]. unfold broadcast. destruct m; by split. Qed.
#[local] Hint Resolve broadcast_still : still.
Lemma get_message_still i : still (get_message_for_item i).
Proof. unfold get_message_for_item. still. Qed.
#[local] Hint Resolve get_message_still : still.
Lemma replies_still ty l : still (replies ty l).
Proof. induction l as [|h l IH]; cbn [replies]; still; by apply IH. Qed.
#[local] Hint Resolve replies_still : still.
Lemma on_fetch_items_still p ty l : still (on_fetch_items_message p ty l).
Proof. unfold on_fetch_items_message, send_item, send_message. still. Qed.
Lemma want_item_still i : still (update (want_item i)).
Proof. apply still_update; done. Qed.
#[local] Hint Resolve want_item_still : still.
Lemma hear_still p i : still (hear_of_item p i).
Proof.
  unfold hear_of_item. still. apply still_update; intros s; by destruct (is_wanted i (items_to_fetch s)).
Qed.
#[local] Hint Resolve hear_still : still.
Lemma hear_all_still p ty l : still (hear_of_items p ty l).
Proof. induction l as [|h l IH]; cbn [hear_of_items]; still; by apply IH. Qed.
#[local] Hint Resolve hear_all_still : still.
Lemma on_item_ids_still p ty l : still (on_item_ids_inventory_message p ty l).
Proof. unfold on_item_ids_inventory_message. still. Qed.
Lemma fetch_items_still : still (fetch_items config).
Proof. unfold fetch_items, request_items, send_message. still. Qed.
Lemma advertise_still : still advertise_inventory.
Proof. unfold advertise_inventory, advertise_to_peer, send_message. still. Qed.
Lemma notice_inventory_still i b p : still (notice_inventory i b p).
Proof. unfold notice_inventory. still. apply still_set_peer. intros c. by destruct (bool_decide _). Qed.
#[local] Hint Resolve notice_inventory_still : still.
Lemma normal_block_still p b h : still (process_block_during_normal_operation p b h).
Proof. unfold process_block_during_normal_operation, accept_normal_block, push_normal_block. still. Qed.
Lemma ordinary_still p m h : still (process_ordinary_message p m h).
Proof. unfold process_ordinary_message. still. Qed.
Lemma refuse_still p b : still (refuse_block p b).
Proof. unfold refuse_block. still. Qed.
Lemma closing_still p : still (on_closing_connection_message p).
Proof. unfold on_closing_connection_message. still. Qed.

(** ** Connections and introductions *)
Lemma send_hello_still p e : still (send_hello_message config p e).
Proof. unfold send_hello_message, generate_hello_user_data, send_message. still. Qed.
#[local] Hint Resolve send_hello_still : still.
Lemma parse_still {A} (x : option (result A)) f p : (∀ v c, peer_still c (f v c)) → still (parse x f p).
Proof. intros Hf. unfold parse. still. by apply still_set_peer. Qed.
Lemma parse_user_data_still p d : still (parse_hello_user_data_for_peer p d).
Proof. unfold parse_hello_user_data_for_peer. still; by apply parse_still. Qed.
Lemma reject_still p r : still (reject p r).
Proof. unfold reject, send_message. still. Qed.
#[local] Hint Resolve parse_user_data_still reject_still : still.
Lemma answer_hello_still p b : still (answer_hello config p b).
Proof. unfold answer_hello, note_firewall, send_message. still. Qed.
#[local] Hint Resolve answer_hello_still : still.
Lemma on_hello_still p h : still (on_hello_message config p h).
Proof.
  unfold on_hello_message, is_too_old. still. apply still_set_peer. intros c. destruct (graphene_git_revision_unix_timestamp c); [|done].
  by destruct (_ =? _).
Qed.
Lemma on_accepted_still p : still (on_connection_accepted_message p).
Proof. unfold on_connection_accepted_message, send_message. still. Qed.
Lemma on_rejected_still p r : still (on_connection_rejected_message p r).
Proof. unfold on_connection_rejected_message, on_peer_db, send_message. still. Qed.
Lemma on_address_request_still p : still (on_address_request_message config p).
Proof. unfold on_address_request_message, send_message. still. Qed.
Lemma merge_addresses_still l : still (merge_address_info_with_potential_peer_database l).
Proof.
  intros s0 s Hs. unfold merge_address_info_with_potential_peer_database. destruct (fold_left _ _ _) as [b db]. etrans; [done|].
  by apply same_untouched.
Qed.
#[local] Hint Resolve merge_addresses_still : still.
Lemma on_address_still p l : still (on_address_message p l).
Proof. unfold on_address_message, trigger_p2p_network_connect_loop. still. Qed.
Lemma on_time_request_still p t : still (on_current_time_request_message p t).
Proof. unfold on_current_time_request_message, send_message. still. Qed.
Lemma on_time_reply_still p a b c : still (on_current_time_reply_message p a b c).
Proof. unfold on_current_time_reply_message. still. Qed.
Lemma accept_connection_still p r e x : still (accept_connection config p r e x).
Proof. unfold accept_connection. still. Qed.
Lemma add_node_still e : still (add_node config e).
Proof. unfold add_node, on_peer_db, trigger_p2p_network_connect_loop. still. Qed.
Lemma forward_check_still f : still (forward_firewall_check_to_next_available_peer f).
Proof. unfold forward_firewall_check_to_next_available_peer, send_message. still. Qed.
#[local] Hint Resolve forward_check_still : still.
Lemma on_check_reply_still p i e r : still (on_check_firewall_reply_message p i e r).
Proof. unfold on_check_firewall_reply_message, send_message. still. Qed.
Lemma leave_still p c : still (leave p c).
Proof.
  unfold leave, trigger_p2p_network_connect_loop, report_number_of_connections. still.
  apply still_update; [|done]. intros s. split; [done|done|apply without_once].
Qed.
Lemma update_lists_still : still fetch_updated_peer_lists.
Proof. unfold fetch_updated_peer_lists, send_message. still. Qed.
End requests.
#[export] Hint Resolve send_still close_connection_still move_to_active_still move_to_closing_still
  move_to_terminating_still disconnect_still fetch_next_batch_still start_synchronizing_still new_peer_still
  on_fetch_ids_still drop_known_still on_ids_inventory_still notice_block_still send_sync_block_still process_one_still
  process_blocks_still broadcast_still get_message_still replies_still on_fetch_items_still want_item_still hear_still
  hear_all_still on_item_ids_still fetch_items_still advertise_still notice_inventory_still normal_block_still
  ordinary_still refuse_still closing_still update_known_still update_or_create_still send_hello_still on_hello_still
  on_accepted_still on_rejected_still on_address_request_still on_address_still on_time_request_still on_time_reply_still
  accept_connection_still add_node_still forward_check_still on_check_reply_still leave_still update_lists_still : still.
