(* ===== verification/NetLists.v ===== *)
(** * The lists of connections

    A connection of the node is handshaking, active, closing or terminating: in
    every execution it is in exactly one of the four lists, and nothing else is
    in any of them. *)
From S2P Require Import Prelude Protocol Block PeerDb Net NetFacts.
#[local] Open Scope Z_scope.
Import Net.

Section counting.
Definition one (b : bool) : nat := if b then 1 else 0.
Definition count (p : peer_id) (l : list peer_id) : nat := length (List.filter (λ q, q =? p) l).
Lemma count_cons p q l : count p (q :: l) = (one (bool_decide (q = p)) + count p l)%nat.
Proof. unfold count. simpl. destruct (Z.eqb_spec q p); [by rewrite bool_decide_eq_true_2|by rewrite bool_decide_eq_false_2]. Qed.
Lemma count_without p q l : count p (without q l) = if decide (q = p) then 0%nat else count p l.
Proof.
  induction l as [|x l IH]; [by destruct (decide (q = p))|]. unfold without in *. simpl. rewrite count_cons.
  destruct (Z.eqb_spec x q) as [->|]; simpl; [rewrite IH; destruct (decide (q = p)); [done|]; by rewrite bool_decide_eq_false_2|].
  rewrite count_cons, IH. destruct (decide (q = p)) as [->|]; [by rewrite bool_decide_eq_false_2|done].
Qed.
Lemma count_pos p l : p ∈ l ↔ (0 < count p l)%nat.
Proof.
  induction l as [|x l IH]; [split; [by intros ?%elem_of_nil|intros ?; simpl in *; unfold count in *; simpl in *; lia]|].
  rewrite count_cons, elem_of_cons, IH. case_bool_decide; simpl; [split; [lia|by left]|]. split; [intros [->|]; [done|lia]|right; lia].
Qed.
Lemma one_bool_decide (P : Prop) `{Decision P} : P → one (bool_decide P) = 1%nat.
Proof. intros HP. by rewrite bool_decide_eq_true_2. Qed.
Lemma one_bool_decide_not (P : Prop) `{Decision P} : ¬ P → one (bool_decide P) = 0%nat.
Proof. intros HP. by rewrite bool_decide_eq_false_2. Qed.
End counting.

Section lists.
Context {D : Type} `{NodeDelegate D} `{NodeKeys} (config : node_configuration).
Abbreviation node := (node_impl (D:=D)).

(** In how many lists, and how often. *)
Definition places (p : peer_id) (s : node) : nat :=
  one (bool_decide (p ∈ handshaking_connections s)) + count p (active_connections s) +
  one (bool_decide (p ∈ closing_connections s)) + one (bool_decide (p ∈ terminating_connections s)).
Definition listed_once (s : node) : Prop := ∀ p, places p s = one (bool_decide (p ∈ dom (connections s))).
Definition view (s : node) :=
  (dom (connections s), handshaking_connections s, active_connections s, closing_connections s, terminating_connections s).

(** ** Operations that leave the lists alone *)
Definition quiet {A} (m : St node A) : Prop := ∀ v, preserves (λ s, view s = v) m.
Lemma quiet_update f : (∀ s, view (f s) = view s) → quiet (update f).
Proof. intros Hf v s Hs. simpl. by rewrite Hf. Qed.
Lemma quiet_set_peer p f : quiet (set_peer p f).
Proof. intros v s Hs. rewrite <- Hs. unfold view. simpl. by rewrite dom_alter_L. Qed.
Lemma quiet_peer p : quiet (peer p).
Proof. by intros v s. Qed.
Lemma quiet_on_delegate {A} (m : St D A) : quiet (on_delegate m).
Proof. intros v s Hs. unfold on_delegate. by destruct (m (delegate s)). Qed.
Lemma quiet_lift {A} (r : result A) : quiet (lift r).
Proof. by intros v s. Qed.
Lemma quiet_broadcast m : quiet (broadcast m).
Proof. intros v s Hs. unfold broadcast. by destruct m. Qed.
Lemma view_once s s' : view s' = view s → listed_once s → listed_once s'.
Proof. intros [= E1 E2 E3 E4 E5] Hs p. unfold places. rewrite E1, E2, E3, E4, E5. apply Hs. Qed.

(** ** The rules

    The connections are [X]; what is returned satisfies [Q]. *)
Definition known (X : gset peer_id) (s : node) : Prop := dom (connections s) = X ∧ listed_once s.
Definition keeps {A} (X : gset peer_id) (m : St node A) (Q : A → Prop) : Prop := ∀ s, known X s →
  known X (m s).2 ∧ ∀ a, (m s).1 = Ok a → Q a.
Abbreviation any := (λ _, True).
Lemma keeps_quiet {A} X (m : St node A) : quiet m → keeps X m any.
Proof.
  intros Hm s [Hd Ho]. split; [|done]. assert (E := Hm (view s) s eq_refl). split; [|exact (view_once _ _ E Ho)].
  rewrite <- Hd. exact (f_equal (λ v, v.1.1.1.1) E).
Qed.
Lemma keeps_ret {A} X (a : A) (Q : A → Prop) : Q a → keeps X (mret a) Q.
Proof. intros Ha s Hs. split; [done|]. by intros x [= <-]. Qed.
Lemma keeps_throw {A} X (e : exn) (Q : A → Prop) : keeps X (mthrow e) Q.
Proof. by intros s Hs. Qed.
Lemma keeps_bind {A B} X (m : St node A) (f : A → St node B) Q R : keeps X m Q → (∀ a, Q a → keeps X (f a) R) → keeps X (m ≫= f) R.
Proof.
  intros Hm Hf s Hs. destruct (Hm s Hs) as [Hs1 Ha]. unfold mbind, St_bind. destruct (m s) as [[a|e] s1]; [|done]. by apply Hf; [apply Ha|].
Qed.
Lemma keeps_peer {B} X p (f : peer_connection → St node B) R : (∀ c, p ∈ X → keeps X (f c) R) → keeps X (peer p ≫= f) R.
Proof.
  intros Hf. apply (keeps_bind X (peer p) f (λ _, p ∈ X)); [|intros c; apply Hf]. intros s Hs. split; [done|]. intros c. unfold peer.
  destruct (connections s !! p) as [c'|] eqn:E; [|done]. intros _. destruct Hs as [<- _]. by apply elem_of_dom_2 in E.
Qed.
Lemma keeps_get {B} X (f : node → St node B) R : (∀ s, known X s → keeps X (f s) R) → keeps X (get_st ≫= f) R.
Proof. intros Hf. apply (keeps_bind X get_st f (known X)); [|done]. intros s Hs. split; [done|]. by intros a [= <-]. Qed.
Lemma keeps_gets {A B} X (g : node → A) (f : A → St node B) R : (∀ s, known X s → keeps X (f (g s)) R) → keeps X (gets g ≫= f) R.
Proof.
  intros Hf. apply (keeps_bind X (gets g) f (λ a, ∃ s, known X s ∧ a = g s)); [|by intros a (s & Hs & ->); apply Hf].
  intros s Hs. split; [done|]. intros a [= <-]. by exists s.
Qed.
Lemma keeps_when X b (m : St node unit) : keeps X m any → keeps X (when b m) any.
Proof. destruct b; [done|intros _; by apply keeps_ret]. Qed.
Lemma keeps_for_each {A} X (l : list A) f : Forall (λ x, keeps X (f x) any) l → keeps X (for_each l f) any.
Proof. induction 1 as [|x l Hx _ IH]; [by apply keeps_ret|]. cbn [for_each]. apply (keeps_bind X _ _ any); [done|by intros [] _]. Qed.
Lemma keeps_try {A} X (m : St node A) h Q : keeps X m Q → (∀ e, keeps X (h e) Q) → keeps X (try_catch m h) Q.
Proof.
  intros Hm Hh s Hs. destruct (Hm s Hs) as [Hs1 Ha]. unfold try_catch. destruct (m s) as [[a|e] s1]; [done|]. by apply Hh.
Qed.
Lemma known_active X s p : known X s → p ∈ active_connections s → p ∈ X.
Proof.
  intros [<- Ho] Hp%count_pos. specialize (Ho p). unfold places in Ho. destruct (decide (p ∈ dom (connections s))) as [?|Hn]; [done|].
  rewrite (one_bool_decide_not _ Hn) in Ho. lia.
Qed.
Lemma known_handshaking X s p : known X s → p ∈ handshaking_connections s → p ∈ X.
Proof.
  intros [<- Ho] Hp. specialize (Ho p). unfold places in Ho. rewrite (one_bool_decide _ Hp) in Ho.
  destruct (decide (p ∈ dom (connections s))) as [?|Hn]; [done|]. rewrite (one_bool_decide_not _ Hn) in Ho. lia.
Qed.

(** ** Moves between the lists *)
Lemma set_once_elem (p q : peer_id) (l : gset peer_id) :
  one (bool_decide (q ∈ {[p]} ∪ l)) = if decide (p = q) then 1%nat else one (bool_decide (q ∈ l)).
Proof. destruct (decide (p = q)) as [<-|]; [apply one_bool_decide; set_solver|]. f_equal. apply bool_decide_ext. set_solver. Qed.
Lemma set_gone_elem (p q : peer_id) (l : gset peer_id) :
  one (bool_decide (q ∈ l ∖ {[p]})) = if decide (p = q) then 0%nat else one (bool_decide (q ∈ l)).
Proof. destruct (decide (p = q)) as [<-|]; [apply one_bool_decide_not; set_solver|]. f_equal. apply bool_decide_ext. set_solver. Qed.
Ltac by_places Hs q :=
  intros q; generalize (Hs q); unfold places; simpl; rewrite ?set_once_elem, ?set_gone_elem, ?count_without; repeat destruct (decide _) as [<-|]; simpl; try lia.
Lemma move_to_closing_keeps X p : p ∈ X → keeps X (move_peer_to_closing_list p) any.
Proof. intros Hp s [<- Hs]. split; [|done]. split; [done|]. by_places Hs q. by rewrite (one_bool_decide _ Hp). Qed.
Lemma move_to_terminating_keeps X p : p ∈ X → keeps X (move_peer_to_terminating_list p) any.
Proof. intros Hp s [<- Hs]. split; [|done]. split; [done|]. by_places Hs q. by rewrite (one_bool_decide _ Hp). Qed.
Lemma count_added p q l : count q (if bool_decide (p ∈ l) then l else p :: l) = if decide (p = q) then Nat.max 1 (count q l) else count q l.
Proof.
  case_bool_decide as Hp; rewrite count_pos in Hp; destruct (decide (p = q)) as [<-|]; rewrite ?count_cons; try lia.
  - rewrite one_bool_decide by done. lia.
  - by rewrite (one_bool_decide_not (p = q)).
Qed.
Lemma move_to_active_keeps X p : p ∈ X → keeps X (move_peer_to_active_list p) any.
Proof.
  intros Hp s [<- Hs]. split; [|done]. split; [done|]. intros q. generalize (Hs q). unfold places. simpl. rewrite count_added, !set_gone_elem.
  destruct (decide (p = q)) as [<-|]; [|done]. rewrite (one_bool_decide _ Hp). simpl. lia.
Qed.
End lists.
Create HintDb listed.
#[export] Hint Resolve quiet_set_peer quiet_peer quiet_on_delegate quiet_lift quiet_broadcast : listed.
#[export] Hint Extern 1 (quiet (Net.update _)) => apply quiet_update; done : listed.
Ltac quiet_step :=
  lazymatch goal with
  | |- ∀ _, _ => intros ?
  | |- preserves _ (_ ≫= _) => apply preserves_bind
  | |- preserves _ (when _ _) => apply preserves_when
  | |- preserves _ (for_each _ _) => apply preserves_for_each
  | |- preserves _ (try_catch _ _) => apply preserves_try
  | |- preserves _ (match ?x with _ => _ end) => destruct x
  | |- preserves (λ s, view s = ?v) ?m => first [solve [eauto 3 with preserves] | apply (fun h : quiet m => h v); solve [eauto 3 with listed]]
  end.
Ltac quiet := intros ?v; repeat quiet_step.
Ltac listed_step :=
  lazymatch goal with
  | |- ∀ _, _ => intros ?
  | |- keeps _ (peer _ ≫= _) _ => apply keeps_peer
  | |- keeps _ (get_st ≫= _) _ => apply keeps_get
  | |- keeps _ (gets _ ≫= _) _ => apply keeps_gets
  | |- keeps _ (try_catch _ _) _ => apply keeps_try
  | |- keeps ?X (_ ≫= _) _ => apply (keeps_bind X _ _ (λ _, True))
  | |- keeps _ (when _ _) _ => apply keeps_when
  | |- keeps _ (for_each _ _) _ => apply keeps_for_each, Forall_forall
  | |- keeps _ (mret _) _ => apply keeps_ret
  | |- keeps _ (mthrow _) _ => apply keeps_throw
  | |- keeps _ (match ?x with _ => _ end) _ => destruct x eqn:?
  | |- keeps _ ?m _ => first [apply keeps_quiet; solve [eauto 3 with listed preserves] | solve [eauto 3 with listed]]
  | |- True => exact I
  end.
Ltac listed := repeat listed_step.

Section handlers.
Context {D : Type} `{NodeDelegate D} `{NodeKeys} (config : node_configuration).
Abbreviation node := (node_impl (D:=D)).
Abbreviation any := (λ _, True).
#[local] Hint Resolve move_to_active_keeps move_to_closing_keeps move_to_terminating_keeps : listed.
Lemma update_known_quiet e f : quiet (D:=D) (update_known e f).
Proof. unfold update_known, on_peer_db. quiet. Qed.
Lemma update_or_create_quiet e f : quiet (D:=D) (update_or_create e f).
Proof. unfold update_or_create, on_peer_db. quiet. Qed.
Lemma close_connection_quiet p : quiet (D:=D) (close_connection p).
Proof. unfold close_connection. quiet. Qed.
Lemma send_quiet p q : quiet (D:=D) (send p q).
Proof. apply quiet_set_peer. Qed.
Lemma send_message_quiet p m : quiet (D:=D) (send_message p m).
Proof. apply quiet_set_peer. Qed.
#[local] Hint Resolve update_known_quiet update_or_create_quiet close_connection_quiet send_quiet send_message_quiet : listed.
Lemma disconnect_listed X p b : p ∈ X → keeps (D:=D) X (disconnect_from_peer p b) any.
Proof. intros Hp. unfold disconnect_from_peer. listed. Qed.
#[local] Hint Resolve disconnect_listed : listed.
Lemma fetch_next_batch_listed X p : keeps (D:=D) X (fetch_next_batch_of_item_ids_from_peer p) any.
Proof. unfold fetch_next_batch_of_item_ids_from_peer, create_blockchain_synopsis_for_peer. listed. Qed.
#[local] Hint Resolve fetch_next_batch_listed : listed.
Lemma start_synchronizing_listed X p : keeps (D:=D) X (start_synchronizing_with_peer p) any.
Proof. unfold start_synchronizing_with_peer. listed. Qed.
#[local] Hint Resolve start_synchronizing_listed : listed.
Lemma new_peer_listed X p : keeps (D:=D) X (new_peer_just_added p) any.
Proof. unfold new_peer_just_added, report_number_of_connections. listed. Qed.
#[local] Hint Resolve new_peer_listed : listed.
Lemma on_fetch_ids_listed X p ty l : keeps (D:=D) X (on_fetch_blockchain_item_ids_message p ty l) any.
Proof. unfold on_fetch_blockchain_item_ids_message. listed. Qed.
Lemma drop_known_quiet p ty l : quiet (D:=D) (drop_known p ty l).
Proof. induction l as [|h l IH]; cbn [drop_known]; quiet; by apply IH. Qed.
#[local] Hint Resolve drop_known_quiet : listed.
Lemma on_ids_inventory_listed X p n ty l : keeps (D:=D) X (on_blockchain_item_ids_inventory_message p n ty l) any.
Proof. unfold on_blockchain_item_ids_inventory_message, logged, accept_item_hashes, merge_item_hashes, report_unfetched_count, update_unfetched_count, tell_sync_status. listed. Qed.
Lemma notice_block_quiet b l : quiet (D:=D) (notice_block b l).
Proof. induction l as [|p l IH]; cbn [notice_block]; quiet; by apply IH. Qed.
#[local] Hint Resolve notice_block_quiet : listed.
Lemma process_one_listed X : keeps (D:=D) X process_one_sync_block any.
Proof. unfold process_one_sync_block, send_sync_block_to_node_delegate. listed. Qed.
#[local] Hint Resolve process_one_listed : listed.
Lemma process_blocks_listed X n : keeps (D:=D) X (process_blocks n) any.
Proof. induction n as [|n IH]; cbn [process_blocks]; listed. Qed.
Lemma replies_quiet ty l : quiet (D:=D) (replies ty l).
Proof. induction l as [|h l IH]; cbn [replies]; unfold get_message_for_item; quiet; by apply IH. Qed.
Lemma hear_quiet p i : quiet (D:=D) (hear_of_item p i).
Proof. unfold hear_of_item. quiet. apply quiet_update. intros s. by destruct (is_wanted i (items_to_fetch s)). Qed.
#[local] Hint Resolve replies_quiet hear_quiet : listed.
Lemma hear_all_quiet p ty l : quiet (D:=D) (hear_of_items p ty l).
Proof. induction l as [|h l IH]; cbn [hear_of_items]; quiet; by apply IH. Qed.
#[local] Hint Resolve hear_all_quiet : listed.
Lemma those_elem_of f (s : node) l p : p ∈ those f s l → p ∈ dom (connections s) ∧ p ∈ l.
Proof.
  unfold those. rewrite list_elem_of_In, filter_In, <- list_elem_of_In. intros [Hl Hf]. split; [|done].
  destruct (connections s !! p) eqn:E; [by apply elem_of_dom_2 in E|done].
Qed.
Lemma those_known f X (s : node) l : known X s → Forall (λ p, p ∈ X) (those f s l).
Proof. intros [<- _]. apply Forall_forall. intros p. by intros []%those_elem_of. Qed.
Lemma accept_normal_listed X b h : keeps (D:=D) X (accept_normal_block b h) (Forall (λ p, p ∈ X)).
Proof.
  unfold accept_normal_block, push_normal_block, notice_inventory. listed.
  destruct (is_hard_fork_block _ _); [by apply those_known|constructor].
Qed.
Lemma normal_block_listed X p b h : p ∈ X → keeps (D:=D) X (process_block_during_normal_operation p b h) any.
Proof.
  intros Hp. unfold process_block_during_normal_operation.
  apply (keeps_bind X _ _ (λ r, Forall (λ p, p ∈ X) r.2)).
  - apply keeps_try; [apply (keeps_bind X _ _ (Forall (λ p, p ∈ X))); [apply accept_normal_listed|intros l Hl; by apply keeps_ret]|].
    intros e. destruct e; listed; try (by constructor); constructor; try done; apply Forall_forall; intros q Hq; unfold without in Hq;
      rewrite list_elem_of_In, filter_In, <- list_elem_of_In in Hq; destruct Hq as [Hq _]; revert q Hq; apply Forall_forall; by apply those_known.
  - intros [restart l] Hl. cbn [snd] in Hl. rewrite Forall_forall in Hl. listed.
Qed.
#[local] Hint Resolve normal_block_listed : listed.
Lemma process_block_listed X p b h : keeps (D:=D) X (process_block_message p b h) any.
Proof. unfold process_block_message, process_block_during_sync, refuse_block. listed. Qed.
Lemma ordinary_listed X p m h : keeps (D:=D) X (process_ordinary_message p m h) any.
Proof. unfold process_ordinary_message. listed. Qed.
Lemma item_not_available_listed X p i : keeps (D:=D) X (on_item_not_available_message p i) any.
Proof. unfold on_item_not_available_message. listed. Qed.
Lemma send_hello_listed X p e : keeps (D:=D) X (send_hello_message config p e) any.
Proof. unfold send_hello_message, generate_hello_user_data. listed. Qed.
#[local] Hint Resolve process_block_listed ordinary_listed item_not_available_listed send_hello_listed : listed.
Lemma on_hello_listed X p h : keeps (D:=D) X (on_hello_message config p h) any.
Proof.
  unfold on_hello_message, parse_hello_user_data_for_peer, parse, is_too_old, answer_hello, note_firewall, reject. listed.
Qed.
Lemma on_rejected_listed X p r : keeps (D:=D) X (on_connection_rejected_message p r) any.
Proof. unfold on_connection_rejected_message, on_peer_db. listed. Qed.
Lemma merge_addresses_quiet l : quiet (D:=D) (merge_address_info_with_potential_peer_database l).
Proof. intros v s Hs. unfold merge_address_info_with_potential_peer_database. by destruct (fold_left _ _ _). Qed.
#[local] Hint Resolve merge_addresses_quiet : listed.
Lemma on_address_listed X p l : keeps (D:=D) X (on_address_message p l) any.
Proof. unfold on_address_message, trigger_p2p_network_connect_loop. listed. Qed.
Lemma forward_check_quiet f : quiet (D:=D) (forward_firewall_check_to_next_available_peer f).
Proof. unfold forward_firewall_check_to_next_available_peer. quiet. Qed.
#[local] Hint Resolve forward_check_quiet : listed.
Lemma on_check_reply_listed X p i e r : keeps (D:=D) X (on_check_firewall_reply_message p i e r) any.
Proof. unfold on_check_firewall_reply_message. listed. Qed.
#[local] Hint Resolve on_fetch_ids_listed on_ids_inventory_listed process_blocks_listed on_hello_listed on_rejected_listed
  on_address_listed on_check_reply_listed : listed.

(** ** Connections that come and go *)
Lemma keeps_once {A} (m : St node A) : (∀ X, keeps (D:=D) X m any) → preserves listed_once m.
Proof. intros Hm s Hs. by destruct (Hm (dom (connections s)) s) as [[_ ?] _]. Qed.
Lemma add_connection_once p c (s : node) : connections s !! p = None → listed_once s → listed_once (add_connection p c s).2.
Proof.
  intros Hp Hs q. assert (Hn : p ∉ dom (connections s)) by (by apply not_elem_of_dom). generalize (Hs q). unfold places. simpl. rewrite dom_insert_L, !set_once_elem.
  destruct (decide (p = q)) as [<-|]; [|done]. rewrite (one_bool_decide_not _ Hn). lia.
Qed.
Lemma fresh_peer_new (s : node) : connections s !! fresh_peer s = None.
Proof. unfold fresh_peer. apply not_elem_of_dom, is_fresh. Qed.
Lemma connect_to_endpoint_once e (s : node) : listed_once s → listed_once (connect_to_endpoint (fresh_peer s) e s).2.
Proof.
  intros Hs. unfold connect_to_endpoint. rewrite bind_run. cbn [get_st]. destruct (is_connection_to_endpoint_in_progress e s); [done|].
  by apply add_connection_once; [apply fresh_peer_new|].
Qed.
(** The state is read, and used at once. *)
Lemma once_get {B} (f : node → St node B) : (∀ s, listed_once s → listed_once (f s s).2) → preserves listed_once (get_st ≫= f).
Proof. intros Hf s Hs. by apply Hf. Qed.
Lemma once_bind {A B} (m : St node A) (f : A → St node B) (s : node) :
  listed_once (m s).2 → (∀ a, preserves listed_once (f a)) → listed_once ((m ≫= f) s).2.
Proof. intros Hm Hf. unfold mbind, St_bind. destruct (m s) as [[a|e] s']; [by apply Hf|done]. Qed.
Lemma try_records_once l : preserves listed_once (try_records (D:=D) config l).
Proof.
  induction l as [|r l IH]; cbn [try_records]; [apply preserves_ret|]. apply once_get. intros s Hs.
  destruct (is_wanting_new_connections config s); [|done]. destruct (worth_trying config s r); [|by apply IH].
  apply once_bind; [by apply connect_to_endpoint_once|intros _]. apply preserves_bind; [done|intros _; apply preserves_ret].
Qed.
Lemma connect_passes_once n : preserves listed_once (connect_passes (D:=D) config n).
Proof.
  induction n as [|n IH]; cbn [connect_passes]; [apply preserves_ret|]. apply preserves_bind; [apply preserves_get|intros s].
  apply preserves_when. apply preserves_bind; [by intros s'|intros _].
  apply preserves_bind; [apply try_records_once|intros b]. destruct b; [done|apply preserves_ret].
Qed.
Lemma connect_loop_once : preserves listed_once (p2p_network_connect (D:=D) config).
Proof.
  unfold p2p_network_connect. apply preserves_bind; [apply preserves_gets|intros l]. apply preserves_bind; [by intros s'|intros _].
  apply preserves_bind; [|intros _; apply connect_passes_once]. apply preserves_for_each. intros r. unfold connect_once. apply once_get.
  intros s Hs. destruct (is_connection_to_endpoint_in_progress _ s); [done|]. by apply connect_to_endpoint_once.
Qed.
Lemma on_check_once p i e : preserves listed_once (on_check_firewall_message (D:=D) p i e).
Proof.
  unfold on_check_firewall_message. apply preserves_bind; [by intros s|intros c]. apply once_get. intros s Hs.
  destruct (_ && _); [by apply (keeps_once _ (λ X, keeps_quiet X _ (forward_check_quiet _)))|]. destruct (_ || _); [done|].
  by apply add_connection_once; [apply fresh_peer_new|].
Qed.
(** A connection is forgotten, and no list has it any more. *)
Lemma forget_once p (s s' : node) : listed_once s → dom (connections s') = dom (connections s) ∖ {[p]} →
  (∀ q, q ≠ p → places q s' = places q s) → places p s' = 0%nat → listed_once s'.
Proof.
  intros Hs Hd Hq Hp q. rewrite Hd, set_gone_elem. destruct (decide (p = q)) as [<-|Hn]; [done|]. rewrite Hq by done. apply Hs.
Qed.
Lemma abandon_once p : preserves listed_once (abandon (D:=D) p).
Proof.
  intros s Hs. apply (forget_once p s); [done|simpl; by rewrite dom_delete_L|..].
  - intros q Hn. unfold places. simpl. rewrite count_without, !set_gone_elem. by destruct (decide (p = q)).
  - unfold places. simpl. rewrite count_without, !set_gone_elem. by destruct (decide (p = p)).
Qed.
Lemma quiet_once {A} (m : St node A) : quiet m → preserves listed_once m.
Proof. intros Hm. apply keeps_once. intros X. by apply keeps_quiet. Qed.
Ltac once_step :=
  lazymatch goal with
  | |- ∀ _, _ => intros ?
  | |- preserves _ (send_hello_message _ _ _) => apply keeps_once; intros ?; apply send_hello_listed
  | |- preserves _ (abandon _) => apply abandon_once
  | |- preserves _ (_ ≫= _) => apply preserves_bind
  | |- preserves _ (when _ _) => apply preserves_when
  | |- preserves _ (match ?x with _ => _ end) => destruct x
  | |- preserves _ _ => first [solve [eauto 2 with preserves] | apply quiet_once; solve [auto with listed]]
  end.
Lemma connect_to_task_once p r : preserves listed_once (connect_to_task (D:=D) config p r).
Proof. unfold connect_to_task. repeat once_step. Qed.
(** [leave] takes the connection out of the lists, and nothing after it puts it back. *)
Lemma leave_view p c (s : node) : ∃ s', leave p c s = (Ok tt, s') ∧
  view s' = (dom (connections s), handshaking_connections s ∖ {[p]}, without p (active_connections s), closing_connections s ∖ {[p]},
             terminating_connections s ∖ {[p]}).
Proof.
  unfold leave. rewrite bind_run. cbn [get_st]. rewrite bind_run. cbn [update]. set (s1 := set_closing_connections _ _).
  set (m := _ ≫= _). assert (Hm : quiet m).
  { unfold m, trigger_p2p_network_connect_loop, report_number_of_connections. quiet. }
  assert (Hok : (m s1).1 = Ok tt).
  { unfold m. rewrite bind_run. unfold update_known. destruct (bool_decide _), (get_endpoint_for_connecting c); cbn [when on_peer_db update mret St_ret];
      do 2 (rewrite bind_run; cbn [trigger_p2p_network_connect_loop report_number_of_connections update]); destruct (firewall_check_state c) as [f|]; try done;
      destruct (negb _); try done; cbn [when]; rewrite bind_run; cbn [set_peer update]; unfold forward_firewall_check_to_next_available_peer;
      rewrite bind_run; cbn [get_st]; destruct (head _); try done; destruct (get_peer_by_node_id _ _); done. }
  exists (m s1).2. split; [rewrite <- Hok; by destruct (m s1)|]. exact (Hm _ s1 eq_refl).
Qed.
Lemma closed_once p : preserves listed_once (on_connection_closed (D:=D) p).
Proof.
  intros s Hs. unfold on_connection_closed. rewrite bind_run. unfold peer. destruct (connections s !! p) as [c|]; [|done].
  rewrite bind_run. destruct (leave_view p c s) as (s1 & -> & [= E1 E2 E3 E4 E5]). rewrite bind_run. cbn [update].
  set (s2 := set_active_sync_requests _ s1). rewrite bind_run. set (m := for_each _ _).
  assert (Hm : quiet m) by (unfold m; quiet; apply quiet_update; done). specialize (Hm _ s2 eq_refl). simpl in Hm.
  assert (Hok : (m s2).1 = Ok tt).
  { unfold m. generalize (map_to_list (items_requested_from_peer c)). intros l. generalize s2. induction l as [|e l IH]; intros s'; [done|]. cbn [for_each].
    rewrite bind_run. rewrite bind_run. unfold gets. destruct (is_item_in_any_peers_inventory e.1 s'); apply IH. }
  destruct (m s2) as [r s3]. cbn [fst snd] in *. subst r. injection Hm as F1 F2 F3 F4 F5. cbn [update snd].
  apply (forget_once p s); [done|simpl; by rewrite dom_delete_L, F1, E1|..].
  - intros q Hn. unfold places. simpl. rewrite F2, F3, F4, F5, E2, E3, E4, E5, count_without, !set_gone_elem. by destruct (decide (p = q)).
  - unfold places. simpl. rewrite F2, F3, F4, F5, E2, E3, E4, E5, count_without, !set_gone_elem. by destruct (decide (p = p)).
Qed.
(** The connections that could not be ended in time are dropped from the list of
    those that are terminating. *)
Definition drop_terminating (p : peer_id) : St node unit := update (λ s,
  set_connections (delete p (connections s)) (set_terminating_connections (terminating_connections s ∖ {[p]}) s)).
Record dropping (t Y : gset peer_id) (s : node) : Prop := {
  dropping_once : listed_once s;
  dropping_from : ∀ p, p ∈ t → p ∈ dom (connections s) → p ∈ terminating_connections s;
  dropping_rest : Y ⊆ dom (connections s)
}.
Lemma drop_terminating_ok t Y p : p ∈ t → t ## Y → preserves (dropping t Y) (drop_terminating p).
Proof.
  intros Hp HY s [Hs Hf Hr]. destruct (decide (p ∈ dom (connections s))) as [Hd|Hd].
  - assert (Ht := Hf p Hp Hd). split.
    + apply (forget_once p s); [done|simpl; by rewrite dom_delete_L|..].
      * intros q Hn. unfold places. simpl. rewrite set_gone_elem. by destruct (decide (p = q)).
      * generalize (Hs p). unfold places. simpl. rewrite set_gone_elem, (one_bool_decide _ Ht), (one_bool_decide _ Hd).
        destruct (decide (p = p)); [lia|done].
    + intros q Hq. simpl. rewrite dom_delete_L. intros [Hq1 Hq2]%elem_of_difference. apply elem_of_difference. split; [by apply Hf|done].
    + simpl. rewrite dom_delete_L. set_solver.
  - assert (E : terminating_connections s ∖ {[p]} = terminating_connections s).
    { apply set_eq. intros q. split; [set_solver|]. intros Hq. apply elem_of_difference. split; [done|]. intros ->%elem_of_singleton. generalize (Hs p). unfold places.
      rewrite (one_bool_decide _ Hq), (one_bool_decide_not _ Hd). lia. }
    assert (E' : delete p (connections s) = connections s) by (by apply delete_id, not_elem_of_dom).
    unfold drop_terminating. simpl. rewrite E, E'. by split.
Qed.
Lemma for_each_in {A} (I : node → Prop) (l : list A) f : Forall (λ x, preserves I (f x)) l → preserves I (for_each l f).
Proof. induction 1 as [|x l Hx _ IH]; [apply preserves_ret|]. cbn [for_each]. by apply preserves_bind. Qed.
Lemma elsewhere_listed (s : node) p : listed_once s → p ∈ active_connections s ∨ p ∈ handshaking_connections s ∨ p ∈ closing_connections s →
  p ∈ dom (connections s) ∖ terminating_connections s.
Proof.
  intros Hs Hp. generalize (Hs p). unfold places. rewrite elem_of_difference.
  destruct (decide (p ∈ terminating_connections s)) as [Ht|Ht]; [rewrite (one_bool_decide _ Ht)|rewrite (one_bool_decide_not _ Ht)];
  (destruct (decide (p ∈ dom (connections s))) as [Hd|Hd]; [rewrite (one_bool_decide _ Hd)|rewrite (one_bool_decide_not _ Hd)]);
  intros E; try done; exfalso; (destruct Hp as [Hp%count_pos|[Hp|Hp]]; rewrite ?(one_bool_decide _ Hp) in E; lia).
Qed.
Lemma terminate_once : preserves listed_once (terminate_inactive_connections (D:=D) config).
Proof.
  intros s Hs. unfold terminate_inactive_connections. rewrite bind_run. cbn [get_st]. set (Y := dom (connections s) ∖ terminating_connections s).
  set (unfinished := those _ s (elements (terminating_connections s))). set (l1 := those _ s (elements (handshaking_connections s)) ++ _).
  set (l2 := those (judged _ keep_alive) s _). set (l3 := those (judged _ gently) s _).
  assert (Hl1 : ∀ p, p ∈ l1 → p ∈ Y).
  { intros p. unfold l1. rewrite !elem_of_app. intros [[_ Hp]%those_elem_of|[[_ Hp]%those_elem_of|[_ Hp]%those_elem_of]]; apply elsewhere_listed;
      rewrite ?elem_of_elements in Hp; auto. }
  assert (Hl2 : ∀ p, p ∈ l3 → p ∈ Y) by (intros p [_ Hp]%those_elem_of; apply elsewhere_listed; auto).
  clearbody l1 l2 l3. rewrite bind_run. set (m := for_each unfinished _).
  assert (Hd : dropping (terminating_connections s) Y (m s).2).
  { apply (for_each_in (dropping (terminating_connections s) Y)); [|split; [done|done|unfold Y; set_solver]]. apply Forall_forall.
    intros p [_ Hp%elem_of_elements]%those_elem_of. apply drop_terminating_ok; [done|unfold Y; set_solver]. }
  destruct (m s) as [[a|e] s1]; [|by destruct Hd]. cbn [snd] in Hd. destruct Hd as [Ho _ HY].
  set (k := _ ≫= _). assert (Hk : keeps (dom (connections s1)) k any).
  { unfold k. listed.
    - apply move_to_terminating_keeps. by apply HY, Hl1.
    - apply disconnect_listed. by apply HY, Hl2. }
  by destruct (Hk s1) as [[_ ?] _].
Qed.
Lemma on_message_once p m : preserves listed_once (on_message (D:=D) config p m).
Proof.
  unfold on_message. apply preserves_bind; [apply preserves_gets|intros t]. apply preserves_bind; [by apply quiet_once, quiet_set_peer|intros _].
  destruct m; try (apply keeps_once; intros X; solve [auto 3 with listed]); [..|apply on_check_once|apply keeps_once; intros X; listed];
    apply keeps_once; intros X; unfold on_item_ids_inventory_message, on_fetch_items_message, send_item, on_closing_connection_message,
      on_current_time_request_message, on_current_time_reply_message, on_connection_accepted_message, on_address_request_message; listed.
Qed.
Lemma handle_once e : preserves listed_once (handle (D:=D) config e).
Proof.
  destruct e; cbn [handle]; auto using connect_to_task_once, connect_loop_once, on_message_once, closed_once, terminate_once.
  - apply once_get. intros s Hs. case_bool_decide as Hn; [|done]. by apply add_connection_once.
  - unfold accept_connection. repeat once_step.
  - unfold add_node, on_peer_db, trigger_p2p_network_connect_loop. repeat once_step.
  - apply once_get. apply connect_to_endpoint_once.
  - apply keeps_once. intros X. unfold fetch_sync_items, request_sync_items_from_peer. listed.
  - apply keeps_once. intros X. unfold process_backlog_of_sync_blocks. listed.
  - apply keeps_once. intros X. unfold fetch_items, request_items. listed.
  - apply keeps_once. intros X. unfold advertise_inventory, advertise_to_peer. listed.
  - apply keeps_once. intros X. unfold fetch_updated_peer_lists. listed.
  - apply quiet_once, quiet_broadcast.
  - by apply quiet_once, quiet_update.
  - by apply quiet_once, quiet_update.
  - by apply quiet_once, quiet_update.
Qed.
Lemma new_node_once id key db local d : listed_once (new_node id key db local d : node).
Proof. done. Qed.
Lemma execute_once es (s : node) : listed_once s → listed_once (execute config es s).
Proof. apply execute_invariant. apply handle_once. Qed.

(** C17: in every execution of the node, each connection it has is in exactly one of
    the lists of handshaking, active, closing and terminating connections, and
    there once, and the lists have nothing but connections that exist: whatever is
    received, connected, rejected, closed or timed out. *)
Theorem connections_in_one_list id key db local d es p : let s := execute config es (new_node id key db local d) in
  places p s = one (bool_decide (is_Some (connections s !! p))).
Proof.
  cbv zeta. rewrite (execute_once es _ (new_node_once id key db local d) p). f_equal. apply bool_decide_ext. apply elem_of_dom.
Qed.
End handlers.
