(* ===== verification/NetSync.v ===== *)
(** * Synchronisation of the network node

    The invariant of the requests for blocks, over all executions of the node: a
    block is asked of one peer at a time, the requests are bounded, the ids of a
    peer are in sequence; and the fate of a block that a peer turned out not to
    have. *)
From S2P Require Import Prelude Protocol Block PeerDb Net NetFacts.
#[local] Open Scope Z_scope.
Import Net.

Section sync.
Context {D : Type} `{NodeDelegate D} `{NodeKeys} (config : node_configuration).
Abbreviation node := (node_impl (D:=D)).
Abbreviation requested := sync_items_requested_from_peer.

(** ** The invariant

    [plan] are requests that are about to be sent and [lost] are blocks that
    nobody was asked for and that are still noted as asked for. *)
Definition planned_for (p : peer_id) (plan : list (peer_id * item_hash)) : list (peer_id * item_hash) :=
  List.filter (λ e, e.1 =? p) plan.
Record requests_ok (plan : list (peer_id * item_hash)) (lost : list item_hash) (s : node) : Prop := {
  one_owner : ∀ p q c d i, connections s !! p = Some c → connections s !! q = Some d →
    is_Some (requested c !! i) → is_Some (requested d !! i) → p = q;
  owned_active : ∀ p c i, connections s !! p = Some c → is_Some (requested c !! i) → is_Some (active_sync_requests s !! i);
  within_peer_limit : ∀ p c, connections s !! p = Some c →
    Z.of_nat (size (requested c)) + Z.of_nat (length (planned_for p plan)) ≤ Z.max 0 (maximum_blocks_per_peer_during_syncing config);
  within_limit : prefetching_count s + Z.of_nat (length plan) ≤ Z.max 0 (maximum_number_of_sync_blocks_to_prefetch config + 1);
  in_order : ∀ p c, connections s !! p = Some c → consecutive (ids_of_items_to_get c);
  active_once : NoDup (active_connections s);
  plan_once : NoDup (map snd plan);
  plan_new : ∀ e, e ∈ plan → active_sync_requests s !! e.2 = None;
  lost_active : ∀ i, i ∈ lost → is_Some (active_sync_requests s !! i);
  lost_unowned : ∀ i p c, i ∈ lost → connections s !! p = Some c → requested c !! i = None
}.
Lemma same_lookup (s s' : node) p c' : same s s' → connections s' !! p = Some c' → ∃ c, connections s !! p = Some c ∧ peer_still c c'.
Proof. intros [_ Hp] E. specialize (Hp p). rewrite E in Hp. inversion Hp; eauto. Qed.
Lemma requests_same plan lost s s' : same s s' → requests_ok plan lost s → requests_ok plan lost s'.
Proof.
  intros Hs [H1 H2 H3 H4 H5 H6 H7 H8 H9 H10]. pose proof Hs as [[Ea En Eo] _].
  assert (Hl : ∀ p c', connections s' !! p = Some c' → ∃ c, connections s !! p = Some c ∧ requested c' = requested c ∧
    (consecutive (ids_of_items_to_get c) → consecutive (ids_of_items_to_get c'))).
  { intros p c' Hp. destruct (same_lookup _ _ _ _ Hs Hp) as (c & Hc & []). eauto. }
  split; rewrite ?Ea; try done.
  - intros p q c d i Hp Hq. destruct (Hl _ _ Hp) as (c0 & Hp0 & -> & _), (Hl _ _ Hq) as (d0 & Hq0 & -> & _). by eapply H1.
  - intros p c i Hp. destruct (Hl _ _ Hp) as (c0 & Hp0 & -> & _). by eapply H2.
  - intros p c Hp. destruct (Hl _ _ Hp) as (c0 & Hp0 & -> & _). by apply H3.
  - unfold prefetching_count in *. by rewrite Ea, En.
  - intros p c Hp. destruct (Hl _ _ Hp) as (c0 & Hp0 & _ & Hc). apply Hc. by eapply H5.
  - by apply Eo.
  - intros i p c Hi Hp. destruct (Hl _ _ Hp) as (c0 & Hp0 & -> & _). by eapply H10.
Qed.
Lemma still_requests {A} plan lost (m : St node A) : still m → preserves (requests_ok plan lost) m.
Proof. intros Hm s Hs. eapply requests_same; [|done]. by apply still_same. Qed.

(** ** Sending the requests *)
Definition request_one (p : peer_id) (i : item_hash) : St node unit :=
  t ← gets now;
  update (λ s, set_active_sync_requests (match active_sync_requests s !! i with Some _ => active_sync_requests s
                                         | None => <[i := t]> (active_sync_requests s) end) s) ;;
  set_peer p (λ c, set_sync_items_requested_from_peer (match requested c !! i with
                                         Some _ => requested c
                                         | None => <[i := t]> (requested c) end) c).
Lemma planned_cons p e plan : length (planned_for p (e :: plan)) = ((if (e.1 =? p)%Z then 1 else 0) + length (planned_for p plan))%nat.
Proof. destruct e as [q i]. unfold planned_for. simpl. by destruct (q =? p). Qed.
Lemma request_one_ok p i plan lost s : requests_ok ((p, i) :: plan) lost s →
  (request_one p i s).1 = Ok tt ∧ requests_ok plan lost (request_one p i s).2.
Proof.
  intros [H1 H2 H3 H4 H5 H6 H7 H8 H9 H10]. split; [done|].
  assert (Ei : active_sync_requests s !! i = None) by (apply (H8 (p, i)); left).
  assert (Hu : ∀ q c, connections s !! q = Some c → requested c !! i = None).
  { intros q c Hq. apply eq_None_not_Some. intros Hr. destruct (H2 _ _ _ Hq Hr) as [t Ht]. congruence. }
  set (s' := (request_one p i s).2).
  assert (Ea : active_sync_requests s' = <[i := now s]> (active_sync_requests s)) by (simpl; by rewrite Ei).
  assert (Hl : ∀ q c', connections s' !! q = Some c' → ∃ c, connections s !! q = Some c ∧
    ids_of_items_to_get c' = ids_of_items_to_get c ∧ requested c' = if decide (p = q) then <[i := now s]> (requested c) else requested c).
  { intros q c'. simpl. destruct (decide (p = q)) as [<-|].
    - rewrite lookup_alter_eq. destruct (connections s !! p) as [c|] eqn:Ec; [|done]. intros [= <-]. exists c. split_and!; [done|done|].
      simpl. by rewrite (Hu _ _ Ec).
    - rewrite lookup_alter_ne by done. intros Hc'. by exists c'. }
  split; rewrite ?Ea.
  - intros q r c d j Hq Hr. destruct (Hl _ _ Hq) as (c0 & Hq0 & _ & ->), (Hl _ _ Hr) as (d0 & Hr0 & _ & ->).
    destruct (decide (p = q)) as [<-|], (decide (p = r)) as [<-|]; [done|..|by eapply H1];
      (destruct (decide (i = j)) as [<-|]; [rewrite ?(Hu _ _ Hq0), ?(Hu _ _ Hr0); by intros ? []|rewrite lookup_insert_ne by done; by eapply H1]).
  - intros q c j Hq. destruct (Hl _ _ Hq) as (c0 & Hq0 & _ & ->). destruct (decide (i = j)) as [<-|]; [by rewrite lookup_insert_eq|].
    rewrite lookup_insert_ne by done. destruct (decide (p = q)); [rewrite lookup_insert_ne by done|]; by eapply H2.
  - intros q c Hq. destruct (Hl _ _ Hq) as (c0 & Hq0 & _ & ->). specialize (H3 _ _ Hq0). rewrite planned_cons in H3. simpl in H3.
    destruct (decide (p = q)); [rewrite map_size_insert_None by (by eapply Hu)|]; destruct (Z.eqb_spec p q); lia.
  - unfold prefetching_count in *. rewrite Ea, map_size_insert_None by done. simpl length in *. change (new_received_sync_items s') with (new_received_sync_items s). lia.
  - intros q c Hq. destruct (Hl _ _ Hq) as (c0 & Hq0 & -> & _). by eapply H5.
  - done.
  - by apply NoDup_cons in H7 as [_ ?].
  - intros e He. apply NoDup_cons in H7 as [Hn _]. rewrite lookup_insert_ne; [apply H8; by right|].
    simpl in Hn. intros E. apply Hn. rewrite E. apply list_elem_of_fmap. by exists e.
  - intros j Hj. destruct (decide (i = j)) as [<-|]; [by rewrite lookup_insert_eq|rewrite lookup_insert_ne by done; by apply H9].
  - intros j q c Hj Hq. destruct (Hl _ _ Hq) as (c0 & Hq0 & _ & ->).
    assert (i ≠ j) by (intros <-; destruct (H9 _ Hj); congruence).
    destruct (decide (p = q)); [rewrite lookup_insert_ne by done|]; by eapply H10.
Qed.
Lemma requests_weaken plan lost s : requests_ok plan lost s → requests_ok [] lost s.
Proof.
  intros [H1 H2 H3 H4 H5 H6 H7 H8 H9 H10]. split; try done; [|simpl; lia|constructor|by intros e ?%elem_of_nil].
  intros p c Hp. specialize (H3 p c Hp). simpl. lia.
Qed.
Lemma request_items_ok p l plan lost s : requests_ok (map (pair p) l ++ plan) lost s →
  (request_sync_items_from_peer p l s).1 = Ok tt ∧ requests_ok plan lost (request_sync_items_from_peer p l s).2.
Proof.
  intros Hs. change (request_sync_items_from_peer p l) with (for_each l (request_one p) ;; send_message p (fetch_items_message block_message_type l)).
  rewrite bind_run.
  assert (Hf : (for_each l (request_one p) s).1 = Ok tt ∧ requests_ok plan lost (for_each l (request_one p) s).2).
  { revert s Hs. induction l as [|i l IH]; intros s Hs; [done|]. cbn [for_each]. rewrite bind_run.
    destruct (request_one_ok _ _ _ _ _ Hs) as [E Hs1]. destruct (request_one p i s) as [r s1]. cbn [fst snd] in *. subst r. by apply IH. }
  destruct (for_each l (request_one p) s) as [r s1]. cbn [fst snd] in Hf.
  destruct Hf as [-> Hs1]. split; [done|]. apply still_requests; [apply send_still|done].
Qed.
Definition flatten (plan : list (peer_id * list item_hash)) : list (peer_id * item_hash) :=
  List.concat (map (λ r, map (pair r.1) r.2) plan).
Lemma send_plan_ok plan lost s : requests_ok (flatten plan) lost s →
  requests_ok [] lost (for_each plan (λ r, when (negb (bool_decide (r.2 = []))) (request_sync_items_from_peer r.1 r.2)) s).2.
Proof.
  revert s. induction plan as [|[p l] plan IH]; intros s Hs; [done|]. cbn [for_each]. rewrite bind_run. unfold flatten in Hs. cbn [map List.concat fst snd] in *.
  destruct l as [|i l].
  - apply IH. exact Hs.
  - rewrite bool_decide_eq_false_2 by done. cbn [negb when]. destruct (request_items_ok _ _ _ _ _ Hs) as [E Hs1].
    destruct (request_sync_items_from_peer p (i :: l) s) as [r s1]. cbn [fst snd] in *. subst r. by apply IH.
Qed.

(** ** Choosing the requests *)
Definition untouched (s : node) (l : list item_hash) : Prop := Forall (λ i, active_sync_requests s !! i = None) l.
(** The number of blocks is looked at before each one: there may be one too many. *)
Definition fits_limit (s : node) (chosen : list item_hash) : Prop :=
  prefetching_count s + Z.of_nat (length chosen) ≤ maximum_number_of_sync_blocks_to_prefetch config + 1.
Lemma choose_from_peer_spec s c ids chosen mine : NoDup chosen →
  ∃ new, choose_from_peer config s c ids chosen mine = (chosen ++ new, mine ++ new) ∧ NoDup (chosen ++ new) ∧ untouched s new ∧
    (new = [] ∨ fits_limit s (chosen ++ new) ∧
                Z.of_nat (length (mine ++ new)) + Z.of_nat (size (requested c)) ≤ maximum_blocks_per_peer_during_syncing config).
Proof.
  assert (Hstop : ∀ ch mi : list item_hash, NoDup ch → ∃ new, (ch, mi) = (ch ++ new, mi ++ new) ∧ NoDup (ch ++ new) ∧ untouched s new ∧
    (new = [] ∨ fits_limit s (ch ++ new) ∧
                Z.of_nat (length (mi ++ new)) + Z.of_nat (size (requested c)) ≤ maximum_blocks_per_peer_during_syncing config)).
  { intros ch mi Hn. exists []. rewrite !app_nil_r. split_and!; [done|done|constructor|by left]. }
  revert chosen mine. induction ids as [|i ids IH]; intros chosen mine Hn; cbn [choose_from_peer]; [by apply Hstop|].
  destruct (Z.leb_spec (maximum_blocks_per_peer_during_syncing config) (Z.of_nat (length mine) + Z.of_nat (size (requested c)))); [by apply Hstop|].
  unfold too_many. destruct (Z.ltb_spec (maximum_number_of_sync_blocks_to_prefetch config) (prefetching_count s + Z.of_nat (length chosen))); [by apply Hstop|].
  case_bool_decide as Hi; [by apply IH|]. case_bool_decide as Ha; [|by apply IH]. destruct (have_already_received_sync_item i s); [by apply IH|].
  cbn [negb andb]. destruct (IH (chosen ++ [i]) (mine ++ [i])) as (new & E & Hn' & Hu & Hl).
  { apply NoDup_app. split_and!; [done|by intros x Hx ->%list_elem_of_singleton|apply NoDup_singleton]. }
  rewrite <- (app_assoc chosen [i] new), <- ?(app_assoc mine [i] new) in *. exists (i :: new). split_and!; [exact E|exact Hn'|by constructor|].
  right. destruct Hl as [->|Hl]; [|exact Hl]. unfold fits_limit. rewrite !length_app. simpl. lia.
Qed.
Definition chosen_in (plan : list (peer_id * list item_hash)) : list item_hash := List.concat (map snd plan).
Lemma flatten_items plan : map snd (flatten plan) = chosen_in plan.
Proof.
  unfold flatten, chosen_in. induction plan as [|[p l] plan IH]; [done|]. simpl. rewrite map_app, IH. f_equal.
  rewrite List.map_map. apply List.map_id.
Qed.
Lemma planned_flatten p q l plan :
  planned_for q (flatten ((p, l) :: plan)) = if p =? q then map (pair p) l ++ planned_for q (flatten plan) else planned_for q (flatten plan).
Proof.
  unfold planned_for, flatten. simpl. rewrite List.filter_app. generalize (List.concat (map (λ r, map (pair r.1) r.2) plan)). intros m.
  induction l as [|i l IH]; simpl; [by destruct (p =? q)|]. destruct (p =? q); [|done]. simpl. by rewrite IH.
Qed.
Lemma choose_sync_items_spec s ps chosen : NoDup chosen → NoDup ps →
  let plan := choose_sync_items config s ps chosen in
  NoDup (chosen ++ chosen_in plan) ∧ untouched s (chosen_in plan) ∧ (chosen_in plan = [] ∨ fits_limit s (chosen ++ chosen_in plan)) ∧
  ∀ p c, connections s !! p = Some c → planned_for p (flatten plan) = [] ∨
    (p ∈ ps ∧ Z.of_nat (length (planned_for p (flatten plan))) + Z.of_nat (size (requested c)) ≤ maximum_blocks_per_peer_during_syncing config).
Proof.
  cbv zeta. intros Hc Hp. revert chosen Hc. induction Hp as [|p ps Hnp Hps IH]; intros chosen Hc; cbn [choose_sync_items].
  { split_and!; [by rewrite app_nil_r|constructor|by left|by left]. }
  assert (Hskip : ∀ q c, connections s !! q = Some c → ∀ plan, planned_for q (flatten plan) = [] ∨
    (q ∈ ps ∧ Z.of_nat (length (planned_for q (flatten plan))) + Z.of_nat (size (requested c)) ≤ maximum_blocks_per_peer_during_syncing config) →
    planned_for q (flatten plan) = [] ∨
    (q ∈ p :: ps ∧ Z.of_nat (length (planned_for q (flatten plan))) + Z.of_nat (size (requested c)) ≤ maximum_blocks_per_peer_during_syncing config)).
  { intros q c _ plan [?|[? ?]]; [by left|right]. split; [by right|done]. }
  assert (Hsame : let plan := choose_sync_items config s ps chosen in
    NoDup (chosen ++ chosen_in plan) ∧ untouched s (chosen_in plan) ∧ (chosen_in plan = [] ∨ fits_limit s (chosen ++ chosen_in plan)) ∧
    ∀ q c, connections s !! q = Some c → planned_for q (flatten plan) = [] ∨
      (q ∈ p :: ps ∧ Z.of_nat (length (planned_for q (flatten plan))) + Z.of_nat (size (requested c)) ≤ maximum_blocks_per_peer_during_syncing config)).
  { destruct (IH chosen Hc) as (H1 & H2 & H3 & H4). split_and!; [done|done|done|]. intros q c Hq. eapply Hskip; eauto. }
  destruct (connections s !! p) as [c|] eqn:Ep; [|exact Hsame]. destruct (_ || _); [exact Hsame|]. destruct (_ <=? _); [exact Hsame|].
  destruct (too_many config s chosen); [split_and!; [by rewrite app_nil_r|constructor|by left|by left]|].
  destruct (choose_from_peer_spec s c (ids_of_items_to_get c) chosen [] Hc) as (new & -> & Hn & Hu & Hl).
  destruct (IH (chosen ++ new) Hn) as (H1 & H2 & H3 & H4). unfold chosen_in in *. cbn [map List.concat snd app]. rewrite <- (assoc_L (++)) in H1, H3.
  split_and!; [done|by apply Forall_app|..].
  - destruct H3 as [E|H3]; [|by right]. rewrite E, app_nil_r. destruct Hl as [->|[? ?]]; [by left|by right].
  - intros q d Hq. rewrite planned_flatten. destruct (Z.eqb_spec p q) as [<-|]; [|by eapply Hskip; eauto].
    assert (d = c) as -> by congruence. destruct (H4 p c Ep) as [E|[? _]]; [|done]. rewrite E, app_nil_r.
    destruct Hl as [->|[_ Hl]]; [by left|right]. split; [left|]. by rewrite length_map.
Qed.
Lemma fetch_sync_items_ok lost : preserves (requests_ok [] lost) (fetch_sync_items config).
Proof.
  intros s Hs. apply send_plan_ok. pose proof Hs as [H1 H2 H3 H4 H5 H6 H7 H8 H9 H10].
  destruct (choose_sync_items_spec s (active_connections s) [] (NoDup_nil_2) H6) as (P1 & P2 & P3 & P4).
  set (plan := choose_sync_items config s (active_connections s) []) in *. rewrite <- flatten_items in *. cbn [app] in *.
  split; try done.
  - intros p c Hp. specialize (H3 p c Hp). simpl in H3. destruct (P4 p c Hp) as [->|[_ ?]]; simpl; lia.
  - unfold fits_limit in P3. rewrite length_map in P3. destruct P3 as [E|P3]; [|lia]. apply map_eq_nil in E. rewrite E. done.
  - intros e He. unfold untouched in P2. rewrite Forall_forall in P2. apply P2. apply list_elem_of_fmap. by exists e.
Qed.

(** ** Dropping requests *)
Lemma submap_size (m1 m2 : gmap item_hash Z) : m1 ⊆ m2 → (size m1 ≤ size m2)%nat.
Proof. intros Hm. rewrite <- !size_dom. apply subseteq_size. by apply subseteq_dom. Qed.
(** From [s] to [s'] connections may come, go, and lose requests. *)
Record shrinks (lost : list item_hash) (s s' : node) : Prop := {
  fewer_requests : ∀ p c', connections s' !! p = Some c' →
    (requested c' = ∅ ∧ consecutive (ids_of_items_to_get c')) ∨
    ∃ c, connections s !! p = Some c ∧ requested c' ⊆ requested c ∧
         (consecutive (ids_of_items_to_get c) → consecutive (ids_of_items_to_get c'));
  still_active : ∀ p c' i, connections s' !! p = Some c' → is_Some (requested c' !! i) →
    is_Some (active_sync_requests s !! i) → is_Some (active_sync_requests s' !! i);
  fewer : prefetching_count s' ≤ prefetching_count s;
  still_once : NoDup (active_connections s) → NoDup (active_connections s');
  still_lost : ∀ i, i ∈ lost → is_Some (active_sync_requests s !! i) → is_Some (active_sync_requests s' !! i)
}.
Lemma requests_shrink lost s s' : shrinks lost s s' → requests_ok [] lost s → requests_ok [] lost s'.
Proof.
  intros [S1 S2 S3 S4 S5] [H1 H2 H3 H4 H5 H6 _ _ H9 H10].
  assert (Hl : ∀ p c' i, connections s' !! p = Some c' → is_Some (requested c' !! i) →
    ∃ c, connections s !! p = Some c ∧ is_Some (requested c !! i)).
  { intros p c' i Hp [t Hr]. destruct (S1 _ _ Hp) as [[E _]|(c & Hc & Hsub & _)]; [by rewrite E in Hr|].
    exists c. split; [done|]. exists t. by eapply lookup_weaken. }
  split; try done.
  - intros p q c d i Hp Hq Hr1 Hr2. destruct (Hl _ _ _ Hp Hr1) as (c0 & Hp0 & Hc0), (Hl _ _ _ Hq Hr2) as (d0 & Hq0 & Hd0). by eapply H1.
  - intros p c i Hp Hr. destruct (Hl _ _ _ Hp Hr) as (c0 & Hp0 & Hr0). eapply S2; eauto.
  - intros p c Hp. simpl. destruct (S1 _ _ Hp) as [[-> _]|(c0 & Hc & Hsub%submap_size & _)]; [rewrite map_size_empty; lia|].
    specialize (H3 _ _ Hc). simpl in H3. lia.
  - lia.
  - intros p c Hp. destruct (S1 _ _ Hp) as [[_ ?]|(c0 & Hc & _ & Ho)]; [done|]. by apply Ho, (H5 p).
  - by apply S4.
  - constructor.
  - by intros e ?%elem_of_nil.
  - intros i Hi. by apply S5, H9.
  - intros i p c Hi Hp. apply eq_None_not_Some. intros Hr. destruct (Hl _ _ _ Hp Hr) as (c0 & Hp0 & [t Ht]).
    rewrite (H10 _ _ _ Hi Hp0) in Ht. done.
Qed.
Lemma backlog_ok lost : preserves (requests_ok [] lost) (process_backlog_of_sync_blocks config).
Proof.
  apply preserves_bind; [|intros _; apply still_requests, process_blocks_still].
  intros s. apply requests_shrink. split; [|done|unfold prefetching_count; simpl; lia|done|done]. intros p c Hp. right. by exists c.
Qed.
Lemma add_connection_ok lost p c : requested c = ∅ → ids_of_items_to_get c = [] → preserves (requests_ok [] lost) (add_connection p c).
Proof.
  intros Er Ei s. apply requests_shrink. split; [|done..]. intros q c'. simpl.
  destruct (decide (p = q)) as [<-|]; [rewrite lookup_insert_eq; intros [= <-]; left; by rewrite Ei|].
  rewrite lookup_insert_ne by done. intros Hq. right. by exists c'.
Qed.
Lemma abandon_ok lost p : preserves (requests_ok [] lost) (abandon p).
Proof.
  intros s. apply requests_shrink. split; [|done|done|apply without_once|done]. intros q c. simpl. intros [_ Hq]%lookup_delete_Some. right. by exists c.
Qed.
Lemma drop_connection_ok lost p (s : node) r : requests_ok [] lost s →
  requests_ok [] lost (set_connections (delete p (connections s)) (set_terminating_connections r s)).
Proof.
  apply requests_shrink. split; [|done..]. intros q c. simpl. intros [_ Hq]%lookup_delete_Some. right. by exists c.
Qed.
Lemma terminate_ok lost : preserves (requests_ok [] lost) (terminate_inactive_connections config).
Proof.
  unfold terminate_inactive_connections. apply preserves_bind; [apply preserves_get|intros s].
  apply preserves_bind; [apply preserves_for_each; intros p s'; apply drop_connection_ok|intros _].
  apply preserves_bind; [|intros _; apply preserves_bind; [|intros _]]; apply preserves_for_each; intros p.
  - apply preserves_bind; [|intros _]; apply still_requests; auto with still.
  - apply still_requests. auto with still.
  - apply still_requests. apply send_still.
Qed.
Ltac requests_step :=
  lazymatch goal with
  | |- ∀ _, _ => intros ?
  | |- preserves _ (_ ≫= _) => apply preserves_bind
  | |- preserves _ (when _ _) => apply preserves_when
  | |- preserves _ (match ?x with _ => _ end) => destruct x
  | |- preserves _ (add_connection _ _) => by apply add_connection_ok
  | |- preserves _ (abandon _) => apply abandon_ok
  | |- preserves _ _ => first [solve [eauto 3 with preserves] | apply still_requests; solve [eauto 3 with still]]
  end.
Ltac requests := repeat requests_step.
Lemma accept_loop_ok lost p : preserves (requests_ok [] lost) (accept_loop p).
Proof. unfold accept_loop. requests. Qed.
Lemma connect_to_task_ok lost p r : preserves (requests_ok [] lost) (connect_to_task config p r).
Proof. unfold connect_to_task, send_message. requests. Qed.
Lemma connect_to_endpoint_ok lost p e : preserves (requests_ok [] lost) (connect_to_endpoint p e).
Proof. unfold connect_to_endpoint. requests. Qed.
Lemma try_records_ok lost l : preserves (requests_ok [] lost) (try_records config l).
Proof. induction l as [|r l IH]; cbn [try_records]; requests; auto using connect_to_endpoint_ok. Qed.
Lemma connect_passes_ok lost n : preserves (requests_ok [] lost) (connect_passes config n).
Proof. induction n as [|n IH]; cbn [connect_passes]; requests; auto using try_records_ok. Qed.
Lemma connect_loop_ok lost : preserves (requests_ok [] lost) (p2p_network_connect config).
Proof.
  unfold p2p_network_connect, connect_once. requests; [|apply connect_passes_ok].
  apply preserves_for_each. requests. apply connect_to_endpoint_ok.
Qed.
Lemma on_check_ok lost p i e : preserves (requests_ok [] lost) (on_check_firewall_message p i e).
Proof. unfold on_check_firewall_message. requests. Qed.
Lemma filter_size (P : item_hash * Z → Prop) `{!∀ x, Decision (P x)} (m : gmap item_hash Z) : (size (filter P m) ≤ size m)%nat.
Proof. apply submap_size, map_filter_subseteq. Qed.
Lemma for_each_ok {A} (l : list A) (f : A → St node unit) s : (∀ x s, (f x s).1 = Ok tt) → (for_each l f s).1 = Ok tt.
Proof.
  intros Hf. revert s. induction l as [|x l IH]; intros s; [done|]. cbn [for_each]. rewrite bind_run. specialize (Hf x s).
  destruct (f x s) as [r s1]. cbn [fst] in Hf. subst r. apply IH.
Qed.
(** The requests of a connection that ends can be made again. *)
Lemma closed_ok lost p : preserves (requests_ok [] lost) (on_connection_closed p).
Proof.
  intros s0 Hs0. unfold on_connection_closed. rewrite bind_run. unfold peer. destruct (connections s0 !! p) as [c|] eqn:Ec0; [|done].
  rewrite bind_run. pose proof (still_same _ s0 (leave_still p c)) as Hleave. destruct (leave p c s0) as [[[]|e] s]; cbn [snd] in Hleave;
    [|by eapply requests_same]. assert (Hs : requests_ok [] lost s) by (by eapply requests_same).
  destruct (connections s !! p) as [c1|] eqn:Ec; [|exfalso; destruct Hleave as [_ Hl]; specialize (Hl p); rewrite Ec0, Ec in Hl; inversion Hl].
  destruct (same_lookup _ _ _ _ Hleave Ec) as (c2 & Ec2 & [Er _]). assert (c2 = c) as -> by congruence. clear Ec2.
  rewrite bind_run. cbn [update]. set (s1 := set_active_sync_requests _ _). rewrite bind_run.
  set (f := λ e : item_id * Z, _). set (l := map_to_list _).
  assert (Hsame : same s1 (for_each l f s1).2) by (apply (still_same (for_each l f)); unfold f; still).
  assert (Hok : (for_each l f s1).1 = Ok tt).
  { apply for_each_ok. intros x s'. unfold f. rewrite bind_run. unfold gets. by destruct (is_item_in_any_peers_inventory x.1 s'). }
  destruct (for_each l f s1) as [r s2]. cbn [fst snd] in *. subst r. cbn [update snd].
  eapply requests_shrink; [|exact Hs]. pose proof Hsame as [[Ea En Eo] _].
  assert (Hl : ∀ q c', delete p (connections s2) !! q = Some c' → q ≠ p ∧ ∃ c0, connections s !! q = Some c0 ∧ peer_still c0 c').
  { intros q c' [? Hq]%lookup_delete_Some. split; [done|]. destruct (same_lookup _ _ _ _ Hsame Hq) as (c0 & Hc0 & Hp). by exists c0. }
  split.
  - intros q c' Hq. destruct (Hl _ _ Hq) as (_ & c0 & Hc0 & [Er' Eord]). right. exists c0. by rewrite Er'.
  - intros q c' i Hq Hr [t Ht]. destruct (Hl _ _ Hq) as (Hqp & c0 & Hc0 & [Er' _]). simpl. rewrite Ea. exists t.
    apply map_lookup_filter_Some. split; [done|]. apply eq_None_not_Some. intros Hr'. apply Hqp. rewrite Er' in Hr. rewrite <- Er in Hr'.
    by eapply one_owner.
  - unfold prefetching_count. simpl. rewrite Ea, En. pose proof (filter_size (λ e, requested c !! e.1 = None) (active_sync_requests s)). simpl in *. lia.
  - intros Hn. simpl. by apply Eo.
  - intros i Hi [t Ht]. simpl. rewrite Ea. exists t. apply map_lookup_filter_Some. split; [done|]. simpl. rewrite <- Er. by eapply lost_unowned.
Qed.
Lemma alter_requests p g (s : node) q c' : connections (set_connections (alter (λ c, set_sync_items_requested_from_peer (g (requested c)) c) p (connections s)) s) !! q = Some c' →
  ∃ c, connections s !! q = Some c ∧ ids_of_items_to_get c' = ids_of_items_to_get c ∧
       requested c' = if decide (q = p) then g (requested c) else requested c.
Proof.
  simpl. destruct (decide (q = p)) as [->|].
  - rewrite lookup_alter_eq. destruct (connections s !! p) as [c|]; [|done]. intros [= <-]. by exists c.
  - rewrite lookup_alter_ne by done. intros Hq. by exists c'.
Qed.
Ltac by_still := cbv beta iota; lazymatch goal with |- requests_ok [] ?l (?m ?s).2 => apply (still_requests [] l m); [still|assumption] end.
Lemma process_block_ok lost p b h : preserves (requests_ok [] lost) (process_block_message p b h).
Proof.
  intros s Hs. unfold process_block_message. rewrite bind_run. unfold peer. destruct (connections s !! p) as [c|] eqn:Ec; [|done].
  destruct (items_requested_from_peer c !! (block_message_type, h)) as [t|].
  { refine (still_requests [] lost (_ ;; _) _ s Hs). still. }
  destruct (requested c !! block_id b) as [t|] eqn:Er; [|by apply (still_requests [] lost _ (refuse_still p b))].
  do 2 (rewrite bind_run; cbn [set_peer update]). set (s2 := set_active_sync_requests _ _).
  set (s3 := set_new_received_sync_items (b :: new_received_sync_items s2) s2).
  assert (H3 : requests_ok [] lost s3).
  { eapply requests_shrink; [|exact Hs]. assert (Hact : is_Some (active_sync_requests s !! block_id b)) by (eapply owned_active; eauto).
    assert (Hl := alter_requests p (delete (block_id b)) s). split.
    - intros q c' Hq. destruct (Hl _ _ Hq) as (c0 & Hc0 & Ei & Eq). right. exists c0. rewrite Ei, Eq. split_and!; [done| |done].
      destruct (decide (q = p)); [apply delete_subseteq|done].
    - intros q c' i Hq Hr Hi. destruct (Hl _ _ Hq) as (c0 & Hc0 & _ & Eq). rewrite Eq in Hr. simpl.
      destruct (decide (i = block_id b)) as [->|]; [|by rewrite lookup_delete_ne].
      destruct (decide (q = p)) as [->|Hqp]; [by rewrite lookup_delete_eq in Hr; destruct Hr|].
      destruct Hqp. eapply (one_owner _ _ _ Hs); eauto.
    - unfold prefetching_count. simpl. rewrite map_size_delete_Some by done.
      assert (size (active_sync_requests s) ≠ 0%nat) by (rewrite map_size_ne_0_lookup; eauto). lia.
    - done.
    - intros i Hi Ha. simpl. rewrite lookup_delete_ne; [done|]. intros <-. rewrite (lost_unowned _ _ _ Hs _ _ _ Hi Ec) in Er. done. }
  rewrite bind_run. unfold try_catch. rewrite bind_run. cbn [process_block_during_sync update]. fold s3.
  set (K := when _ _ ;; _). assert (HK : requests_ok [] lost (K s3).2) by (refine (still_requests [] lost K _ s3 H3); unfold K; still).
  destruct (K s3) as [[d|e] s4]; cbn [snd] in HK.
  - by_still.
  - destruct e; try exact HK; unfold mret, St_ret; by_still.
Qed.
Lemma item_not_available_ok lost p i : preserves (requests_ok [] lost) (on_item_not_available_message p i).
Proof.
  intros s Hs. unfold on_item_not_available_message. rewrite bind_run. unfold peer. destruct (connections s !! p) as [c|] eqn:Ec; [|done].
  destruct (items_requested_from_peer c !! i); [refine (still_requests [] lost (_ ;; _) _ s Hs); still|].
  destruct (requested c !! hash_of i) as [t|] eqn:Er; [|done]. rewrite bind_run. cbn [set_peer update]. set (s1 := set_connections _ s).
  assert (H1 : requests_ok [] lost s1).
  { eapply requests_shrink; [|exact Hs]. split; [|done..]. intros q c' Hq. destruct (alter_requests p (delete (hash_of i)) s _ _ Hq) as (c0 & Hc0 & Ei & Eq).
    right. exists c0. rewrite Ei, Eq. split_and!; [done| |done]. destruct (decide (q = p)); [apply delete_subseteq|done]. }
  by_still.
Qed.
Lemma on_message_ok lost p m : preserves (requests_ok [] lost) (on_message config p m).
Proof.
  unfold on_message. requests_step; [requests|intros t]. requests_step; [requests|intros _].
  destruct m; try (solve [requests]); auto using process_block_ok, item_not_available_ok, on_check_ok.
Qed.
Lemma handle_ok lost e : preserves (requests_ok [] lost) (handle config e).
Proof.
  destruct e; cbn [handle]; try (solve [requests]); auto using connect_to_task_ok, connect_loop_ok, on_message_ok, closed_ok,
    fetch_sync_items_ok, backlog_ok, terminate_ok.
  - requests. apply accept_loop_ok.
  - requests. apply connect_to_endpoint_ok.
  - unfold sync_from. requests.
Qed.
Lemma new_node_ok id key db e d : requests_ok [] [] (new_node id key db e d).
Proof.
  split; try done; [change (0 ≤ Z.max 0 (maximum_number_of_sync_blocks_to_prefetch config + 1)); lia|apply NoDup_nil_2|constructor|..]; by intros ? ?%elem_of_nil.
Qed.
Lemma execute_ok lost es s : requests_ok [] lost s → requests_ok [] lost (execute config es s).
Proof. apply execute_invariant. intros e. apply handle_ok. Qed.

(** C10: while a node synchronises, whatever messages arrive and whatever
    connections come and go: a block is asked of at most one peer at a time; what
    was asked of a peer is noted as asked; no peer is asked for more blocks than
    its limit; the blocks asked for and the blocks received but not yet taken over
    are at most one more than the limit of blocks to prefetch; and the ids that
    are to be fetched from a peer are those of successive blocks. *)
Theorem sync_requests_invariant id key db local d es : let s := execute config es (new_node id key db local d) in
  (∀ p q c e i, connections s !! p = Some c → connections s !! q = Some e →
     is_Some (requested c !! i) → is_Some (requested e !! i) → p = q) ∧
  (∀ p c i, connections s !! p = Some c → is_Some (requested c !! i) → is_Some (active_sync_requests s !! i)) ∧
  (∀ p c, connections s !! p = Some c →
     Z.of_nat (size (requested c)) ≤ Z.max 0 (maximum_blocks_per_peer_during_syncing config)) ∧
  prefetching_count s ≤ Z.max 0 (maximum_number_of_sync_blocks_to_prefetch config + 1) ∧
  (∀ p c, connections s !! p = Some c → consecutive (ids_of_items_to_get c)).
Proof.
  pose proof (execute_ok [] es _ (new_node_ok id key db local d)) as [H1 H2 H3 H4 H5 H6 _ _ _ _]. split_and!; [done|done| | |done].
  - intros p c Hp. specialize (H3 p c Hp). simpl in H3. lia.
  - simpl in H4. lia.
Qed.

(** When a peer turns out not to have a block. *)
Lemma requests_lost i s : requests_ok [] [] s → is_Some (active_sync_requests s !! i) →
  (∀ p c, connections s !! p = Some c → requested c !! i = None) → requests_ok [] [i] s.
Proof. intros [] Ha Hu. split; try done; by setoid_rewrite list_elem_of_singleton; naive_solver. Qed.
Lemma not_available_loses p i c t s : requests_ok [] [] s → connections s !! p = Some c →
  items_requested_from_peer c !! i = None → requested c !! hash_of i = Some t →
  requests_ok [] [hash_of i] (on_item_not_available_message p i s).2.
Proof.
  intros Hs Hp Hi Hr. unfold on_item_not_available_message. rewrite bind_run. unfold peer. rewrite Hp, Hi, Hr.
  rewrite bind_run. cbn [set_peer update]. set (s1 := set_connections _ s).
  assert (H1 : requests_ok [] [hash_of i] s1); [|by_still].
  assert (Hl := alter_requests p (delete (hash_of i)) s). apply requests_lost.
  - eapply requests_shrink; [|exact Hs]. split; [|done..]. intros q c' Hq. destruct (Hl _ _ Hq) as (c0 & Hc0 & Ei & Eq).
    right. exists c0. rewrite Ei, Eq. split_and!; [done| |done]. destruct (decide (q = p)); [apply delete_subseteq|done].
  - eapply (owned_active _ _ _ Hs); eauto.
  - intros q c' Hq. destruct (Hl _ _ Hq) as (c0 & Hc0 & _ & ->). destruct (decide (q = p)) as [->|Hqp]; [by rewrite lookup_delete_eq|].
    apply eq_None_not_Some. intros Hr'. apply Hqp. eapply (one_owner _ _ _ Hs); eauto.
Qed.

(** C40: a peer that was asked for a block while the node synchronises and answers
    that it does not have the block: the block stays noted as asked for although
    nobody is asked for it, whatever happens after, so it is never asked for
    again, of this peer or of any other. *)
Theorem unavailable_block_is_lost id key db local d es1 es2 p c i t :
  connections (execute config es1 (new_node id key db local d)) !! p = Some c →
  items_requested_from_peer c !! i = None → requested c !! hash_of i = Some t →
  let s := execute config (es1 ++ received p (item_not_available_message i) :: es2) (new_node id key db local d) in
  is_Some (active_sync_requests s !! hash_of i) ∧ ∀ q e, connections s !! q = Some e → requested e !! hash_of i = None.
Proof.
  intros Hp Hi Hr. unfold execute in *. rewrite fold_left_app. cbn [fold_left]. set (s1 := fold_left (step config) es1 (new_node id key db local d)) in *.
  assert (Hs1 : requests_ok [] [] s1) by apply execute_ok, new_node_ok.
  assert (Hs2 : requests_ok [] [hash_of i] (step config s1 (received p (item_not_available_message i)))).
  { unfold step. cbn [handle]. unfold on_message. do 2 (rewrite bind_run; cbn [gets set_peer update]).
    eapply (not_available_loses p i (set_last_message_received_time (now s1) c) t); [|by simpl; rewrite lookup_alter_eq, Hp|done|done].
    refine (still_requests [] [] (set_peer p (set_last_message_received_time (now s1))) _ s1 Hs1). auto with still. }
  pose proof (execute_ok [hash_of i] es2 _ Hs2) as Hs3. split.
  - apply (lost_active _ _ _ Hs3). by left.
  - intros q e Hq. apply (lost_unowned _ _ _ Hs3 _ _ _ (list_elem_of_here _ _) Hq).
Qed.
End sync.

(** ** A run *)
Module NetDemo.
(** A chain that knows blocks by their ids, whose first word is the number. *)
Definition chain : Type := list item_hash.
#[export] Instance delegate : NodeDelegate chain := {|
  get_message_id _ := null_block_id;
  trx_id _ := null_block_id;
  has_item i := gets (λ d : chain, bool_decide (hash_of i ∈ d));
  handle_block b _ := (λ d, (Ok [], block_id b :: d));
  handle_transaction _ := mret tt;
  handle_message _ := mthrow FcException;
  sync_status _ _ _ := mret tt;
  get_block_ids _ := gets (λ d : chain, (d, 0));
  get_item _ := mthrow KeyNotFound;
  get_blockchain_synopsis _ _ := get_st;
  get_block_number id := default 0 (head id);
  get_block_time _ := mret 0;
  get_head_block_id := gets (λ d : chain, default null_block_id (head d));
  get_chain_id _ := 0;
  estimate_last_known_fork_from_git_revision_timestamp _ := 0
|}.
(** A signature of a secret with a key is their sum. *)
Definition our_key : node_id_t := 1000.
#[export] Instance keys : NodeKeys := {| recover_node_key signature secret := Ok (signature - secret); sign_compact secret := our_key + secret |}.
Definition config : node_configuration := mkConfiguration 200 2000 50 1000000 30 3 20 200 30 true false.
Definition first_node (d : chain) : node_impl (D:=chain) := new_node our_key our_key [] (0, 2001) d.
(** A peer connects, says who it is and sends the addresses it knows. *)
Definition hello (p : peer_id) : message :=
  a_hello_message (mkHello 106 (5000 + p) 2001 4000 p (p + 7) (mkUserData None (Some (Ok p)) None (Some (Ok 0)))).
Definition joins (p : peer_id) : list (event (D:=chain)) :=
  [incoming p; introduced p (5000 + p, 4000) (1, 2001) 7; received p (hello p); received p connection_accepted_message;
   received p (address_message [])].
Definition id (n : Z) : item_hash := [n; 0; 0; 0; 0].
(** Two peers; both have block 2, and the first one is asked for it. *)
Definition asked : list (event (D:=chain)) :=
  joins 1 ++ joins 2 ++
  [received 1 (blockchain_item_ids_inventory_message 0 block_message_type [id 1; id 2]);
   received 2 (blockchain_item_ids_inventory_message 0 block_message_type [id 1; id 2]); fetching_sync_items].
Definition asked_node : node_impl (D:=chain) := execute config asked (first_node [id 1]).
Definition asks (s : node_impl (D:=chain)) (p : peer_id) : list item_hash :=
  match connections s !! p with Some c => map fst (map_to_list (sync_items_requested_from_peer c)) | None => [] end.
Example who_is_asked : (asks asked_node 1, asks asked_node 2) = ([], [id 2]).
Proof. vm_compute. reflexivity. Qed.
Definition asked_peer : peer_connection := default (new_connection None 0 0) (connections asked_node !! 2).
Definition unavailable : event (D:=chain) := received 2 (item_not_available_message (block_message_type, id 2)).
(** The other peer has the block and is not asked, also when this one is gone. *)
Example nobody_is_asked :
  let s := execute config (asked ++ [unavailable; closed 2; fetching_sync_items]) (first_node [id 1]) in
  (asks s 1, ids_of_items_to_get <$> connections s !! 1, we_need_sync_items_from_peer <$> connections s !! 1) = ([], Some [id 2], Some true).
Proof. vm_compute. reflexivity. Qed.
End NetDemo.
#[local] Existing Instances NetDemo.delegate NetDemo.keys.
Lemma unavailable_block_is_lost_witness :
  let s := execute NetDemo.config (NetDemo.asked ++ NetDemo.unavailable :: [closed 2; fetching_sync_items]) (NetDemo.first_node [NetDemo.id 1]) in
  is_Some (active_sync_requests s !! NetDemo.id 2) ∧
  ∀ q e, connections s !! q = Some e → sync_items_requested_from_peer e !! NetDemo.id 2 = None.
Proof.
  apply (unavailable_block_is_lost NetDemo.config NetDemo.our_key NetDemo.our_key [] (0, 2001) [NetDemo.id 1] NetDemo.asked [closed 2; fetching_sync_items] 2 NetDemo.asked_peer
           (block_message_type, NetDemo.id 2) 0); vm_compute; reflexivity.
Defined.
