(* ===== verification/NetConnect.v ===== *)
(** * The search for peers, and introductions that are left out

    What [p2p_network_connect_loop] has done when it ends, and how a peer becomes
    active without having said who it is. *)
From S2P Require Import Prelude Protocol Block PeerDb Net NetFacts NetLists NetSync.
#[local] Open Scope Z_scope.
Import Net.

Section connecting.
Context {D : Type} `{NodeDelegate D} `{NodeKeys} (config : node_configuration).
Abbreviation node := (node_impl (D:=D)).
Abbreviation desired := (desired_number_of_connections config).
Definition connection_count (s : node) : Z := Z.of_nat (size (handshaking_connections s)) + Z.of_nat (length (active_connections s)).

(** Who has a connection. *)
Lemma in_progress_iff e (s : node) : is_connection_to_endpoint_in_progress e s = true ↔
  ∃ q c, (q ∈ active_connections s ∨ q ∈ handshaking_connections s) ∧ connections s !! q = Some c ∧ remote_endpoint c = Some e.
Proof.
  unfold is_connection_to_endpoint_in_progress, get_connection_to_endpoint. rewrite bool_decide_eq_true. set (l := those _ _ _).
  assert (Hl : ∀ q, q ∈ l ↔ (q ∈ active_connections s ∨ q ∈ handshaking_connections s) ∧
    ∃ c, connections s !! q = Some c ∧ remote_endpoint c = Some e).
  { intros q. unfold l, those. rewrite list_elem_of_In, filter_In, <- list_elem_of_In, elem_of_app, elem_of_elements.
    destruct (connections s !! q) as [c|]; [rewrite bool_decide_eq_true|]; naive_solver. }
  destruct l as [|q l']; simpl.
  - split; [by intros [? ?]|]. intros (q & c & Hq & Hc). exfalso. eapply (not_elem_of_nil q), Hl. eauto.
  - split; [intros _|eauto]. destruct (proj1 (Hl q)) as (Hq & c & Hc); [by left|]. by exists q, c.
Qed.
(** What starting connections leaves as it was. *)
Record started (n : Z) (s s' : node) : Prop := {
  started_count : connection_count s' = connection_count s + n;
  started_once : listed_once s';
  started_db : potential_peer_db s' = potential_peer_db s;
  started_list : add_once_node_list s' = add_once_node_list s;
  started_keeps e : is_connection_to_endpoint_in_progress e s = true → is_connection_to_endpoint_in_progress e s' = true
}.
Lemma started_refl (s : node) : listed_once s → started 0 s s.
Proof. intros Hs. split; [lia|done..|by auto]. Qed.
Lemma wanting_spec s : 0 ≤ connection_count s < 2^32 → is_wanting_new_connections config s = bool_decide (connection_count s < desired).
Proof.
  intros Hc. unfold is_wanting_new_connections, get_number_of_connections. rewrite u32_id by exact Hc.
  change (Z.of_nat (size (handshaking_connections s)) + Z.of_nat (length (active_connections s))) with (connection_count s).
  destruct (Z.ltb_spec (connection_count s) desired); [by rewrite bool_decide_eq_true_2|by rewrite bool_decide_eq_false_2 by lia].
Qed.
Lemma connect_run e s : listed_once s → is_connection_to_endpoint_in_progress e s = false →
  ∃ s', connect_to_endpoint (fresh_peer s) e s = (Ok tt, s') ∧ started 1 s s' ∧ is_connection_to_endpoint_in_progress e s' = true.
Proof.
  intros Hs He. unfold connect_to_endpoint. rewrite bind_run. cbn [get_st]. rewrite He. eexists. split; [done|].
  assert (Hnew : connections s !! fresh_peer s = None) by apply fresh_peer_new. split; [split|].
  - unfold connection_count. simpl. rewrite size_union, size_singleton; [lia|]. apply disjoint_singleton_l. intros Hp.
    assert (Hd : fresh_peer s ∈ dom (connections s)) by (eapply known_handshaking; [split; [done|exact Hs]|done]).
    by apply not_elem_of_dom in Hd.
  - by apply add_connection_once.
  - done.
  - done.
  - intros e' (q & c & Hq & Hc & Hr)%in_progress_iff. apply in_progress_iff. exists q, c. simpl.
    rewrite lookup_insert_ne; [set_solver|]. intros <-. congruence.
  - apply in_progress_iff. eexists (fresh_peer s), _. simpl. rewrite lookup_insert_eq. split; [right; set_solver|done].
Qed.
Lemma started_trans n m s1 s2 s3 : started n s1 s2 → started m s2 s3 → started (n + m) s1 s3.
Proof. intros [E1 _ D1 A1 K1] [E2 L2 D2 A2 K2]. split; [lia|done|congruence|congruence|by auto]. Qed.
(** One pass over the addresses. *)
Lemma try_records_run l s : listed_once s → 0 ≤ connection_count s → connection_count s < 2^32 → desired < 2^32 →
  ∃ b n s', try_records config l s = (Ok b, s') ∧ started n s s' ∧ 0 ≤ n ∧ connection_count s' ≤ Z.max (connection_count s) desired ∧
    (b = true → 0 < n) ∧
    (b = false → s' = s ∧ (is_wanting_new_connections config s = true → Forall (λ r, worth_trying config s r = false) l)).
Proof.
  intros Hs Hpos Hc Hd. revert s Hs Hpos Hc. induction l as [|r l IH]; intros s Hs Hpos Hc; cbn [try_records].
  { exists false, 0, s. split; [done|]. split; [by apply started_refl|]. split; [lia|]. split; [lia|]. split; [done|]. split; [done|constructor]. }
  rewrite bind_run. cbn [get_st]. pose proof (wanting_spec s (conj Hpos Hc)) as Ew. destruct (is_wanting_new_connections config s) eqn:Eq.
  2:{ exists false, 0, s. split; [done|]. split; [by apply started_refl|]. split; [lia|]. split; [lia|]. split; [done|]. split; [done|congruence]. }
  symmetry in Ew. apply bool_decide_eq_true in Ew. destruct (worth_trying config s r) eqn:Er.
  - assert (He : is_connection_to_endpoint_in_progress (record_endpoint r) s = false).
    { unfold worth_trying in Er. apply andb_true_iff in Er as [Er _]. by apply negb_true_iff in Er. }
    rewrite bind_run. destruct (connect_run _ _ Hs He) as (s1 & -> & St1 & _). pose proof (started_count _ _ _ St1) as E1.
    destruct (IH s1 (started_once _ _ _ St1)) as (b & n & s2 & E2 & St2 & Hn & Hm & _); [lia|lia|]. rewrite bind_run, E2.
    exists true, (1 + n), s2. split; [done|]. split; [by eapply started_trans|]. split; [lia|]. split; [lia|]. split; [lia|done].
  - destruct (IH s Hs Hpos Hc) as (b & n & s2 & E2 & St2 & Hn & Hm & Hb & Hf). exists b, n, s2. split; [done|]. split; [done|]. split; [done|].
    split; [done|]. split; [done|]. intros Eb. destruct (Hf Eb) as [-> Hf']. split; [done|]. intros Hw. constructor; [done|by apply Hf'].
Qed.
(** When nothing more can be done. *)
Definition searched (s : node) : Prop :=
  is_wanting_new_connections config s = true → Forall (λ r, worth_trying config s r = false) (potential_peer_db s).
Lemma passes_run fuel s : listed_once s → 0 ≤ connection_count s → connection_count s < 2^32 → desired < 2^32 →
  desired - connection_count s < Z.of_nat fuel → (0 < fuel)%nat →
  ∃ n s', connect_passes config fuel s = (Ok tt, s') ∧ started n s s' ∧ connection_count s' ≤ Z.max (connection_count s) desired ∧ searched s'.
Proof.
  revert s. induction fuel as [|fuel IH]; intros s Hs Hpos Hc Hd Hf Hp; [lia|]. cbn [connect_passes]. rewrite bind_run. cbn [get_st].
  destruct (is_wanting_new_connections config s) eqn:Ew; cbn [when].
  2:{ exists 0, s. split; [done|]. split; [by apply started_refl|]. split; [lia|]. unfold searched. congruence. }
  rewrite bind_run. cbn [update]. set (s1 := set_potential_peer_database_updated false s). rewrite bind_run.
  destruct (try_records_run (potential_peer_db s) s1) as (b & n & s2 & -> & St & Hn & Hm & Hb & Hb'); [exact Hs|exact Hpos|exact Hc|exact Hd|].
  assert (St' : started n s s2) by (by destruct St; split).
  destruct b.
  - specialize (Hb eq_refl). pose proof (started_count _ _ _ St) as E. change (connection_count s1) with (connection_count s) in *.
    rewrite wanting_spec in Ew by done. apply bool_decide_eq_true in Ew.
    destruct (IH s2 (started_once _ _ _ St)) as (n' & s' & -> & St2 & Hm' & Hd'); [lia|lia|lia|lia|lia|].
    exists (n + n'), s'. split; [done|]. split; [by eapply started_trans|]. split; [lia|done].
  - destruct (Hb' eq_refl) as [-> Hall]. exists n, s1. split; [done|]. split; [done|]. split; [exact Hm|]. intros Hw. by apply Hall.
Qed.
Lemma connect_once_unfold r (s : node) : connect_once r s =
  if is_connection_to_endpoint_in_progress (record_endpoint r) s then (Ok tt, s) else connect_to_endpoint (fresh_peer s) (record_endpoint r) s.
Proof. unfold connect_once. rewrite bind_run. cbn [get_st]. by destruct (is_connection_to_endpoint_in_progress _ s). Qed.
Lemma once_list_run l (s : node) : listed_once s → ∃ n s', for_each l connect_once s = (Ok tt, s') ∧ started n s s' ∧
  0 ≤ n ≤ Z.of_nat (length l) ∧ Forall (λ r, is_connection_to_endpoint_in_progress (record_endpoint r) s' = true) l.
Proof.
  revert s. induction l as [|r l IH]; intros s Hs; cbn [for_each].
  { exists 0, s. split; [done|]. split; [by apply started_refl|]. split; [simpl; lia|constructor]. }
  assert (Hstep : ∃ n s1, connect_once r s = (Ok tt, s1) ∧ started n s s1 ∧ 0 ≤ n ≤ 1 ∧
    is_connection_to_endpoint_in_progress (record_endpoint r) s1 = true).
  { rewrite connect_once_unfold. destruct (is_connection_to_endpoint_in_progress (record_endpoint r) s) eqn:E.
    - exists 0, s. split; [done|]. split; [by apply started_refl|]. split; [lia|done].
    - destruct (connect_run _ _ Hs E) as (s1 & E1 & St & Hp). exists 1, s1. split; [done|]. split; [done|]. split; [lia|done]. }
  destruct Hstep as (n & s1 & E1 & St1 & Hn & Hp). rewrite bind_run, E1.
  destruct (IH s1 (started_once _ _ _ St1)) as (m & s2 & E2 & St2 & Hm & Hall).
  exists (n + m), s2. split; [exact E2|]. split; [by eapply started_trans|]. split; [simpl length; lia|].
  constructor; [|done]. by apply (started_keeps _ _ _ St2).
Qed.

(** C36: in every execution, a run of the loop that looks for peers ends, without an
    error.  First each node that was to be added once has a connection, however
    many connections there are, and is taken off the list; then addresses are
    tried until the node has as many connections as it wants or none of the
    addresses it knows is worth trying (for each there is a connection, or the
    last attempt failed too short a time ago).  No connection is dropped, and
    beyond those for the nodes to add once none is made above the number that is
    wanted. *)
Theorem connect_loop_searches id key db local d es : let s := execute config es (new_node id key db local d) in
  0 ≤ desired < 2^32 → connection_count s + Z.of_nat (length (add_once_node_list s)) < 2^32 →
  ∃ s', p2p_network_connect config s = (Ok tt, s') ∧
    connection_count s' ≤ Z.max (connection_count s + Z.of_nat (length (add_once_node_list s))) desired ∧
    add_once_node_list s' = [] ∧
    Forall (λ r, is_connection_to_endpoint_in_progress (record_endpoint r) s' = true) (add_once_node_list s) ∧
    (∀ e, is_connection_to_endpoint_in_progress e s = true → is_connection_to_endpoint_in_progress e s' = true) ∧
    (connection_count s' < desired → Forall (λ r, worth_trying config s' r = false) (potential_peer_db s')).
Proof.
  cbv zeta. set (s := execute config es (new_node id key db local d)). intros Hd Hc.
  assert (Hs : listed_once s) by apply execute_once, new_node_once. unfold p2p_network_connect. rewrite bind_run. cbn [gets]. rewrite bind_run. cbn [update].
  set (s1 := set_add_once_node_list [] s). assert (Hpos : 0 ≤ connection_count s) by (unfold connection_count; lia).
  rewrite bind_run. destruct (once_list_run (add_once_node_list s) s1) as (n & s2 & -> & St & Hn & Hall); [exact Hs|].
  pose proof (started_count _ _ _ St) as Hc2. change (connection_count s1) with (connection_count s) in Hc2.
  destruct (passes_run (S (Z.to_nat desired)) s2 (started_once _ _ _ St)) as (m & s' & E & St' & Hm & Hsr); [lia..|].
  pose proof (started_trans _ _ _ _ _ St St') as Sts. exists s'. split; [exact E|]. split; [lia|].
  split; [exact (started_list _ _ _ Sts)|]. split; [|split; [exact (started_keeps _ _ _ Sts)|]].
  - apply Forall_forall. intros r Hr. rewrite Forall_forall in Hall. by apply (started_keeps _ _ _ St'), Hall.
  - intros Hw. apply Hsr. rewrite wanting_spec by (unfold connection_count in *; lia). by apply bool_decide_eq_true.
Qed.
End connecting.

(** ** Runs *)
Module ConnectDemo.
Import NetDemo.
(** Three addresses: one was just tried in vain, one has a connection already. *)
Definition tried : potential_peer_record := mkRecord (5007, 4000) 0 last_connection_failed 1000 0 1.
Definition connected_to : potential_peer_record := mkRecord (5001, 4000) 0 last_connection_succeeded 900 1 0.
Definition untried : potential_peer_record := new_record (5009, 2001).
Definition start : node_impl (D:=chain) := new_node our_key our_key [tried; connected_to; untried] (0, 2001) [id 1].
Definition events : list (event (D:=chain)) := joins 1 ++ [ticked (1001 * 1000000); node_added (5008, 2001)].
Definition before : node_impl (D:=chain) := execute config events start.
(** The last one is the address that the peer listens at, as it said. *)
Example who_is_tried : map (λ e, socket_endpoint e.2) (map_to_list (connections (p2p_network_connect config before).2)) ≡ₚ
  [(5001, 4000); (5008, 2001); (5009, 2001); (5001, 2001)].
Proof. apply (bool_decide_unpack _). vm_compute. exact I. Qed.
(** A peer that never said hello is active once it asks for the ids of blocks. *)
Example introduction_can_be_skipped :
  let s := execute config [incoming 1; introduced 1 (5001, 4000) (1, 2001) 7;
                           received 1 (fetch_blockchain_item_ids_message block_message_type [])] (first_node [id 1]) in
  (active_connections s, (λ c, (their_state c, our_state c, node_id c, chain_id c)) <$> connections s !! 1) =
  ([1], Some (just_connected, just_connected, no_node_id, None)).
Proof. vm_compute. reflexivity. Qed.
(** So is a peer that was told that it is connected already. *)
Example rejection_can_be_ignored :
  let s := execute config (joins 1 ++ [incoming 2; introduced 2 (5002, 4000) (1, 2001) 7;
      received 2 (a_hello_message (mkHello 106 5002 2001 4000 1 8 (mkUserData None (Some (Ok 1)) None (Some (Ok 0)))));
      received 2 (fetch_blockchain_item_ids_message block_message_type [])]) (first_node [id 1]) in
  (active_connections s, their_state <$> connections s !! 2) = ([2; 1], Some connection_rejected).
Proof. vm_compute. reflexivity. Qed.
End ConnectDemo.
#[local] Existing Instances NetDemo.delegate NetDemo.keys.
Lemma connect_loop_searches_witness : ∃ s', p2p_network_connect NetDemo.config ConnectDemo.before = (Ok tt, s') ∧
  (connection_count s' < 20 → Forall (λ r, worth_trying NetDemo.config s' r = false) (potential_peer_db s')).
Proof.
  destruct (connect_loop_searches NetDemo.config NetDemo.our_key NetDemo.our_key
    [ConnectDemo.tried; ConnectDemo.connected_to; ConnectDemo.untried] (0, 2001) [NetDemo.id 1] ConnectDemo.events) as (s' & E & _ & _ & _ & _ & Hw).
  - split; [discriminate|reflexivity].
  - vm_compute. reflexivity.
  - exists s'. split; [exact E|exact Hw].
Defined.
