(* ===== verification/NetOrder.v ===== *)
(** * The order of synchronised blocks

    Blocks that arrive in any order are handed to the chain in the order of the
    list of the peer. *)
From S2P Require Import Prelude Protocol Block Net NetFacts NetSync.
#[local] Open Scope Z_scope.
Import Net.

Section order.
Context {D : Type} `{NodeDelegate D} (config : node_configuration) (p : peer_id).
Abbreviation node := (node_impl (D:=D)).
(** The chain refuses a block by an exception of the library. *)
Definition refuses_properly : Prop := ∀ (b : block_message) (d : D) e d', handle_block b true d = (Exc e, d') → is_fc e = true.
Definition hand_over (d : D) (b : block_message) : D := (handle_block b true d).2.

(** One active peer, which is being synchronised with and was asked for more
    ids; its list. *)
Record syncing (ids : list item_hash) (c : peer_connection) (s : node) : Prop := {
  the_peer : connections s !! p = Some c;
  only_peer : active_connections s = [p];
  the_ids : ids_of_items_to_get c = ids;
  needed : we_need_sync_items_from_peer c = true;
  asked_for_ids : is_Some (item_ids_requested_from_peer c)
}.
Lemma syncing_set f (ids ids' : list item_hash) c s : syncing ids c s → ids_of_items_to_get (f c) = ids' →
  we_need_sync_items_from_peer (f c) = we_need_sync_items_from_peer c → item_ids_requested_from_peer (f c) = item_ids_requested_from_peer c →
  syncing ids' (f c) (set_connections (alter f p (connections s)) s).
Proof. intros [H1 H2 H3 H4 H5] E1 E2 E3. split; simpl; [by rewrite lookup_alter_eq, H1|done|done|congruence|by rewrite E3]. Qed.
Lemma remember_elem x id (s : node) : x ∈ most_recent_blocks_accepted (remember_block id s) → x ∈ most_recent_blocks_accepted s ∨ x = id.
Proof.
  unfold remember_block. simpl. rewrite elem_of_app, list_elem_of_singleton. intros [Hx|Hx]; [left|by right].
  destruct (_ <=? _); [|done]. destruct (most_recent_blocks_accepted s); [done|by right].
Qed.
Lemma fetch_next_batch_waits ids c s : syncing ids c s → fetch_next_batch_of_item_ids_from_peer p s = (Ok tt, s).
Proof. intros [H1 _ _ _ [r Hr]]. unfold fetch_next_batch_of_item_ids_from_peer. rewrite bind_run. unfold peer. by rewrite H1, Hr. Qed.
Lemma notice_block_run b ids c s : syncing ids c s → ∃ l c' s', notice_block b [p] s = (Ok (l, []), s') ∧ syncing ids c' s' ∧
  (l = [] ∨ l = [p]) ∧ delegate s' = delegate s ∧ most_recent_blocks_accepted s' = most_recent_blocks_accepted s.
Proof.
  intros Hs. rewrite notice_block_unfold, (the_peer _ _ _ Hs). simpl. destruct (is_hard_fork_block _ _ && _).
  { exists [], c, s. split_and!; try done. by left. }
  rewrite bind_run. cbn [set_peer update].
  assert (E : in_sync_and_idle (block_seen_by_peer b c).1 = false).
  { unfold block_seen_by_peer. destruct (bool_decide _); unfold in_sync_and_idle; simpl; rewrite (needed _ _ _ Hs); apply andb_false_r. }
  rewrite bind_run. cbn [notice_block mret St_ret]. rewrite E.
  eexists _, _, _. split; [done|]. split; [|split; [by destruct (block_seen_by_peer b c).2; [right|left]|done]].
  eapply (syncing_set (λ c, (block_seen_by_peer b c).1)); [exact Hs|..]; unfold block_seen_by_peer; case_bool_decide; simpl; try done; apply (the_ids _ _ _ Hs).
Qed.
Lemma send_run b ids c s : refuses_properly → syncing ids c s → ∃ c' s', send_sync_block_to_node_delegate b s = (Ok tt, s') ∧ syncing ids c' s' ∧
  delegate s' = hand_over (delegate s) b ∧
  ∀ x, x ∈ most_recent_blocks_accepted s' → x ∈ most_recent_blocks_accepted s ∨ x = block_id b.
Proof.
  intros Hr Hs. unfold send_sync_block_to_node_delegate. rewrite bind_run. unfold try_catch. rewrite bind_run. unfold on_delegate, hand_over.
  destruct (handle_block b true (delegate s)) as [[l|e] d] eqn:Eh.
  - cbn [mret St_ret when]. do 2 (rewrite bind_run; cbn [update]). rewrite bind_run. cbn [gets]. set (s1 := set_total_number_of_unfetched_items _ _).
    assert (Hs1 : syncing ids c s1) by (destruct Hs; by split). change (active_connections s1) with (active_connections s). rewrite (only_peer _ _ _ Hs).
    rewrite bind_run. destruct (notice_block_run b ids c s1 Hs1) as (l1 & c' & s2 & -> & Hs2 & Hl & Ed & Em). rewrite bind_run.
    assert (Ef : for_each l1 fetch_next_batch_of_item_ids_from_peer s2 = (Ok tt, s2)).
    { destruct Hl as [->| ->]; [done|]. cbn [for_each]. rewrite bind_run, (fetch_next_batch_waits _ _ _ Hs2). done. }
    rewrite Ef. exists c', s2. split; [done|]. split; [done|]. split; [by rewrite Ed|]. intros x. rewrite Em. exact (remember_elem x (block_id b) (set_delegate d s)).
  - rewrite (Hr _ _ _ _ Eh). cbn [mret St_ret when]. exists c, (set_delegate d s). split; [done|]. split; [destruct Hs; by split|]. split; [done|]. by left.
Qed.
(** The block that is next in the list is found wherever it is. *)
Lemma first_block_run b rest c s before l : syncing (block_id b :: rest) c s → NoDup (map block_id l) → b ∈ l →
  ∃ l1 l2, first_block s before l = Some (before ++ l1, b, l2) ∧ l = l1 ++ b :: l2.
Proof.
  intros Hs. revert before. induction l as [|x l IH]; intros before Hn Hb; [by apply elem_of_nil in Hb|]. cbn [first_block].
  assert (Ep : ∀ i, is_potential_first_block i s = bool_decide (i = block_id b)).
  { intros i. unfold is_potential_first_block. rewrite (only_peer _ _ _ Hs). cbn [existsb]. rewrite (the_peer _ _ _ Hs), orb_false_r.
    unfold waits_for. rewrite (the_ids _ _ _ Hs). simpl. apply bool_decide_ext. naive_solver. }
  simpl in Hn. apply NoDup_cons in Hn as [Hx Hn]. rewrite Ep. case_bool_decide as Ei.
  - assert (x = b) as -> by (apply elem_of_cons in Hb as [->|Hb]; [done|]; destruct Hx; rewrite Ei; apply list_elem_of_fmap; by exists b).
    exists [], l. by rewrite app_nil_r.
  - assert (Hb' : b ∈ l) by (apply elem_of_cons in Hb as [->|Hb]; done).
    destruct (IH (before ++ [x]) Hn Hb') as (l1 & l2 & -> & ->). exists (x :: l1), l2. by rewrite <- app_assoc.
Qed.
(** What is left to do. *)
Record backlog (bs : list block_message) (rest : list item_hash) (s : node) : Prop := {
  backlog_peer : ∃ c, syncing (map block_id bs ++ rest) c s;
  backlog_received : received_sync_items s ≡ₚ bs;
  backlog_once : NoDup (map block_id bs);
  backlog_new : Forall (λ b, block_id b ∉ most_recent_blocks_accepted s) bs
}.
Lemma process_one_run b bs rest s : refuses_properly → backlog (b :: bs) rest s →
  ∃ s', process_one_sync_block s = (Ok true, s') ∧ backlog bs rest s' ∧ delegate s' = hand_over (delegate s) b.
Proof.
  intros Hr [[c Hs] Hp Hn Hf]. unfold process_one_sync_block. rewrite bind_run. cbn [get_st].
  destruct (first_block_run b (map block_id bs ++ rest) c s [] (received_sync_items s) Hs) as (l1 & l2 & -> & El).
  { by rewrite Hp. } { rewrite Hp. left. }
  cbn [app]. rewrite (only_peer _ _ _ Hs), bind_run. cbn [for_each]. rewrite bind_run. cbn [set_peer update mret St_ret].
  assert (Hs1 := syncing_set (advance (block_id b)) _ (map block_id bs ++ rest) c s Hs). set (s1 := set_connections _ s) in *.
  assert (Ew : waits_for (block_id b) c = true) by (unfold waits_for; rewrite (the_ids _ _ _ Hs); by apply bool_decide_eq_true_2).
  unfold advance in Hs1. rewrite Ew in Hs1. specialize (Hs1 ltac:(simpl; by rewrite (the_ids _ _ _ Hs)) eq_refl eq_refl).
  rewrite bind_run. cbn [gets]. apply Forall_cons in Hf as [Hb Hf]. simpl in Hn. apply NoDup_cons in Hn as [Hbn Hn].
  change (most_recent_blocks_accepted s1) with (most_recent_blocks_accepted s). rewrite bool_decide_eq_false_2 by done. cbn [negb when].
  rewrite bind_run. destruct (send_run b _ _ s1 Hr Hs1) as (c' & s2 & -> & Hs2 & Ed & Hm). rewrite bind_run. cbn [update].
  eexists. split; [done|]. split; [|exact Ed]. split.
  - exists c'. by destruct Hs2; split.
  - simpl. rewrite El in Hp. rewrite <- Permutation_middle in Hp. by apply Permutation_cons_inv in Hp.
  - done.
  - apply Forall_forall. intros x Hx Hin. rewrite Forall_forall in Hf. destruct (Hm _ Hin) as [Hin'|E]; [by apply (Hf x Hx)|].
    apply Hbn. rewrite <- E. apply list_elem_of_fmap. by exists x.
Qed.
Lemma process_blocks_run bs rest s n : refuses_properly → backlog bs rest s → (length bs ≤ n)%nat →
  ∃ s', process_blocks n s = (Ok tt, s') ∧ backlog [] rest s' ∧ delegate s' = fold_left hand_over bs (delegate s).
Proof.
  intros Hr. revert s n. induction bs as [|b bs IH]; intros s n Hs Hn.
  - exists s. split; [|done]. destruct n as [|n]; [done|]. cbn [process_blocks]. rewrite bind_run. unfold process_one_sync_block.
    rewrite bind_run. cbn [get_st]. assert (received_sync_items s = []) as -> by (apply Permutation_nil_r, (backlog_received _ _ _ Hs)). done.
  - destruct n as [|n]; [simpl in Hn; lia|]. cbn [process_blocks]. rewrite bind_run.
    destruct (process_one_run b bs rest s Hr Hs) as (s1 & -> & Hs1 & Ed). cbn [fold_left]. rewrite <- Ed. apply IH; [done|simpl in Hn; lia].
Qed.

(** C16: a node synchronises with its only active peer, which it has asked for
    more ids.  The blocks that have arrived, in whatever order, are those of the
    front of the list of the peer, no more than are handled at one time, and none
    of them is among those accepted last.  They are handed to the chain one by one
    in the order of the list, each once, also when the chain refuses one by an
    exception of the library; then the queues of received blocks are empty and the
    list of the peer goes on behind them. *)
Theorem sync_blocks_in_list_order s c bs rest : refuses_properly → syncing (map block_id bs ++ rest) c s →
  reverse (new_received_sync_items s) ++ received_sync_items s ≡ₚ bs → NoDup (map block_id bs) →
  Forall (λ b, block_id b ∉ most_recent_blocks_accepted s) bs →
  Z.of_nat (length bs) ≤ Z.max 1 (maximum_number_of_blocks_to_handle_at_one_time config) →
  ∃ s', process_backlog_of_sync_blocks config s = (Ok tt, s') ∧
    delegate s' = fold_left hand_over bs (delegate s) ∧ new_received_sync_items s' ++ received_sync_items s' = [] ∧
    ∃ c', connections s' !! p = Some c' ∧ ids_of_items_to_get c' = rest.
Proof.
  intros Hr Hs Hp Hn Hf Hl. unfold process_backlog_of_sync_blocks. rewrite bind_run. cbn [update]. set (s1 := set_new_received_sync_items _ _).
  destruct (process_blocks_run bs rest s1 (Z.to_nat (Z.max 1 (maximum_number_of_blocks_to_handle_at_one_time config))) Hr) as (s' & E & [[c' Hs'] Hp' _ _] & Ed).
  { split; [exists c; by destruct Hs; split|done|done|done]. } { lia. }
  exists s'. split; [done|]. split; [done|]. split; [|exists c'; by destruct Hs'].
  assert (Hnew : same s1 s') by (pose proof (still_same _ s1 (process_blocks_still (Z.to_nat (Z.max 1 (maximum_number_of_blocks_to_handle_at_one_time config))))) as Hst; by rewrite E in Hst).
  rewrite (same_new _ _ (proj1 Hnew)). simpl. by apply Permutation_nil_r.
Qed.
End order.

(** Blocks 4, 2 and 3 arrive, in this order; the chain gets 2, 3 and 4. *)
Module OrderDemo.
Import NetDemo.
Definition blk (n : Z) : block_message := mkBlockMessage (mkBlock (mkHeader [] 0 EmptyString [] [] 0) []) (id n).
Definition arrived : list (event (D:=chain)) :=
  joins 1 ++
  [received 1 (blockchain_item_ids_inventory_message 7 block_message_type [id 1; id 2; id 3; id 4; id 5]); fetching_sync_items;
   received 1 (a_block_message (blk 4)); received 1 (a_block_message (blk 2)); received 1 (a_block_message (blk 3))].
Definition node_before : node_impl (D:=chain) := execute config arrived (first_node [id 1]).
Definition the_connection : peer_connection := default (new_connection None 0 0) (connections node_before !! 1).
Lemma demo_refuses : refuses_properly (D:=chain).
Proof. by intros b d e d' [=]. Qed.
Lemma demo_syncing : syncing 1 (map block_id [blk 2; blk 3; blk 4] ++ [id 5]) the_connection node_before.
Proof. split; [vm_compute; reflexivity..|]. eexists. vm_compute. reflexivity. Qed.
Lemma demo_received : reverse (new_received_sync_items node_before) ++ received_sync_items node_before = [blk 4; blk 2; blk 3].
Proof. vm_compute. reflexivity. Qed.
End OrderDemo.
#[local] Existing Instances NetDemo.delegate NetDemo.keys.
Lemma sync_blocks_in_list_order_witness :
  ∃ s', process_backlog_of_sync_blocks NetDemo.config OrderDemo.node_before = (Ok tt, s') ∧
    delegate s' = [NetDemo.id 4; NetDemo.id 3; NetDemo.id 2; NetDemo.id 1].
Proof.
  destruct (sync_blocks_in_list_order NetDemo.config 1 OrderDemo.node_before OrderDemo.the_connection
    [OrderDemo.blk 2; OrderDemo.blk 3; OrderDemo.blk 4] [NetDemo.id 5] OrderDemo.demo_refuses OrderDemo.demo_syncing) as (s' & E & Ed & _).
  - rewrite OrderDemo.demo_received. exact (Permutation_app_comm [OrderDemo.blk 4] [OrderDemo.blk 2; OrderDemo.blk 3]).
  - apply (bool_decide_unpack _). vm_compute. exact I.
  - apply (bool_decide_unpack _). vm_compute. exact I.
  - vm_compute. discriminate.
  - exists s'. split; [exact E|]. rewrite Ed. vm_compute. reflexivity.
Defined.
