(* ===== verification/NetItems.v ===== *)
(** * Inventory of the network node

    How long a message stays in the cache, and how the items that peers advertise
    are shared out among the peers that have them. *)
From S2P Require Import Prelude Protocol Block Net NetFacts NetSync.
#[local] Open Scope Z_scope.
Import Net.

(** ** The cache *)
Inductive cache_step := accepting_block | caching (m : message) (hash contents : item_hash).
Definition cache_after (steps : list cache_step) (c : cache) : cache :=
  fold_left (λ c x, match x with accepting_block => Cache.block_accepted c | caching m h k => Cache.cache_message m h k c end) steps c.
Definition blocks_in (steps : list cache_step) : Z :=
  Z.of_nat (length (List.filter (λ x, match x with accepting_block => true | _ => false end) steps)).
Definition caches_other (hash : item_hash) (x : cache_step) : Prop := match x with caching _ h _ => h ≠ hash | _ => True end.
Definition entries (hash : item_hash) (c : cache) : list message_info :=
  List.filter (λ i, bool_decide (message_hash i = hash)) (cached c).
Lemma get_entries hash c : Cache.get_message hash c = message_body <$> head (entries hash c).
Proof. unfold Cache.get_message, entries. f_equal. induction (cached c) as [|i l IH]; [done|]. simpl. by destruct (bool_decide _). Qed.
Lemma filter_comm {A} (f g : A → bool) l : List.filter f (List.filter g l) = List.filter g (List.filter f l).
Proof. induction l as [|x l IH]; [done|]. simpl. destruct (g x) eqn:Eg, (f x) eqn:Ef; simpl; rewrite ?Eg, ?Ef, IH; done. Qed.
(** One step: the entry of a message stays as long as it is at most 20 blocks old. *)
Lemma cache_step_entries hash i c n x : 0 ≤ n → 0 ≤ block_clock_when_received i → block_clock c = block_clock_when_received i + n →
  block_clock c + blocks_in [x] < 2^32 → caches_other hash x → entries hash c = (if n <=? 20 then [i] else []) →
  let c' := cache_after [x] c in let n' := n + blocks_in [x] in
  entries hash c' = (if n' <=? 20 then [i] else []) ∧ block_clock c' = block_clock_when_received i + n'.
Proof.
  intros Hn H0 Hc Hw Hx He. destruct x as [|m h k]; simpl in *.
  - change (blocks_in [accepting_block]) with 1 in *. unfold Cache.block_accepted, GRAPHENE_NET_MESSAGE_CACHE_DURATION_IN_BLOCKS. simpl. rewrite u32_id by lia. split; [|lia].
    destruct (Z.ltb_spec 20 (block_clock c + 1)) as [Hlt|Hge].
    + unfold entries in *. simpl. rewrite filter_comm, He. destruct (Z.leb_spec n 20); simpl; [|destruct (Z.leb_spec (n + 1) 20); (done || lia)].
      destruct (Z.leb_spec (block_clock c + 1 - 20) (block_clock_when_received i)), (Z.leb_spec (n + 1) 20); (done || lia).
    + unfold entries in *. simpl. rewrite He. destruct (Z.leb_spec n 20), (Z.leb_spec (n + 1) 20); (done || lia).
  - unfold blocks_in. simpl. rewrite Z.add_0_r. unfold Cache.cache_message. case_bool_decide; [done|]. split; [|done].
    unfold entries in *. simpl. rewrite List.filter_app, He. simpl. rewrite bool_decide_eq_false_2 by done. by rewrite app_nil_r.
Qed.
Lemma cache_entries hash i steps c n : 0 ≤ n → 0 ≤ block_clock_when_received i → block_clock c = block_clock_when_received i + n →
  block_clock c + blocks_in steps < 2^32 → Forall (caches_other hash) steps → entries hash c = (if n <=? 20 then [i] else []) →
  entries hash (cache_after steps c) = (if n + blocks_in steps <=? 20 then [i] else []).
Proof.
  revert c n. induction steps as [|x steps IH]; intros c n Hn H0 Hc Hw Ho He; [by rewrite Z.add_0_r|].
  apply Forall_cons in Ho as [Hx Ho]. assert (Hb : blocks_in (x :: steps) = blocks_in [x] + blocks_in steps) by (destruct x; unfold blocks_in; simpl; lia).
  assert (0 ≤ blocks_in steps) by (unfold blocks_in; lia). assert (0 ≤ blocks_in [x] ≤ 1) by (destruct x; unfold blocks_in; simpl; lia).
  destruct (cache_step_entries hash i c n x Hn H0 Hc ltac:(lia) Hx He) as [E1 E2]. rewrite Hb, Z.add_assoc. apply (IH (cache_after [x] c)); try done; lia.
Qed.

(** A message that is cached can be sent to a peer for exactly 20 blocks,
    whatever other messages are cached meanwhile; after the 21st block it is gone. *)
Theorem cached_message_lifetime c m hash contents steps :
  0 ≤ block_clock c → block_clock c + blocks_in steps < 2^32 → hash ∉ map message_hash (cached c) → Forall (caches_other hash) steps →
  Cache.get_message hash (cache_after steps (Cache.cache_message m hash contents c)) = if blocks_in steps <=? 20 then Some m else None.
Proof.
  intros Hc Hw Hn Ho. rewrite get_entries. set (i := mkInfo hash m (block_clock c) contents).
  assert (E : Cache.cache_message m hash contents c = mkCache (cached c ++ [i]) (block_clock c)).
  { unfold Cache.cache_message. by rewrite bool_decide_eq_false_2. }
  rewrite E, (cache_entries hash i steps _ 0); try done; [rewrite Z.add_0_l; by destruct (blocks_in steps <=? 20)|simpl; lia|].
  unfold entries. simpl. rewrite List.filter_app. simpl. rewrite bool_decide_eq_true_2 by done.
  replace (List.filter _ (cached c)) with (@nil message_info); [done|]. symmetry. clear E.
  induction (cached c) as [|j l IH]; [done|]. simpl in *. apply not_elem_of_cons in Hn as [Hj Hn]. rewrite bool_decide_eq_false_2 by done. by apply IH.
Qed.

Lemma cached_message_lifetime_witness :
  let c := Cache.cache_message (current_time_request_message 0) [1] [2] (mkCache [] 0) in
  Cache.get_message [1] (cache_after (replicate 20 accepting_block ++ [caching (current_time_request_message 0) [3] [4]]) c) = Some (current_time_request_message 0) ∧
  Cache.get_message [1] (cache_after (replicate 21 accepting_block) c) = None.
Proof.
  split.
  - apply (cached_message_lifetime (mkCache [] 0) (current_time_request_message 0) [1] [2] (replicate 20 accepting_block ++ [caching (current_time_request_message 0) [3] [4]]));
      [done|by vm_compute|apply not_elem_of_nil|]. apply Forall_app. split; [by apply Forall_replicate|]. by repeat constructor.
  - apply (cached_message_lifetime (mkCache [] 0) (current_time_request_message 0) [1] [2] (replicate 21 accepting_block));
      [done|by vm_compute|apply not_elem_of_nil|by apply Forall_replicate].
Defined.

(** ** Sharing out *)
Section sharing.
Context {D : Type} `{NodeDelegate D} `{NodeKeys} (config : node_configuration).
Abbreviation node := (node_impl (D:=D)).
Abbreviation plan := (list (peer_id * list item_id)).
(** Blocks may be fetched from any peer that advertised them; transactions not
    from one that has fetching inhibited. *)
Definition may_fetch (s : node) (p : peer_id) (i : item_id) : Prop :=
  offers i s p = true ∧ (item_type i = trx_message_type → ∀ c, connections s !! p = Some c → is_transaction_fetching_inhibited (now s) c = false).
Lemma can_fetch_spec s x e : can_fetch s x e = true ↔ e.2 = [] ∧ may_fetch s e.1 (wanted x).
Proof.
  unfold can_fetch, may_fetch, GRAPHENE_NET_MAX_ITEMS_PER_PEER_DURING_NORMAL_OPERATION. rewrite !andb_true_iff, negb_true_iff, andb_false_iff, Z.eqb_neq, Z.ltb_lt.
  assert (Hl : Z.of_nat (length e.2) < 1 ↔ e.2 = []) by (destruct e.2; simpl; split; (done || lia)). rewrite Hl.
  assert (Ht : (item_type (wanted x) ≠ trx_message_type ∨ match connections s !! e.1 with Some c => is_transaction_fetching_inhibited (now s) c | None => false end = false) ↔
    (item_type (wanted x) = trx_message_type → ∀ c, connections s !! e.1 = Some c → is_transaction_fetching_inhibited (now s) c = false)).
  { destruct (decide (item_type (wanted x) = trx_message_type)); [|naive_solver]. destruct (connections s !! e.1); naive_solver. }
  rewrite Ht. tauto.
Qed.
Lemma fewest_first_elem e (l : plan) : e ∈ fewest_first l ↔ e ∈ l.
Proof.
  unfold fewest_first. rewrite elem_of_app, !list_elem_of_In, !filter_In. destruct (length e.2 =? 0)%nat; simpl; naive_solver.
Qed.
Definition expired (oldest : Z) (x : prioritized_item_id) : bool := heard_at x <? oldest.
Record shared (s : node) (oldest : Z) (l kept : list prioritized_item_id) (before after : plan) : Prop := {
  same_peers : map fst after = map fst before;
  nothing_lost : map wanted l ++ List.concat (map snd before) ≡ₚ
    map wanted kept ++ List.concat (map snd after) ++ map wanted (List.filter (expired oldest) l);
  one_each : Forall (λ e, (length e.2 ≤ 1)%nat ∧ Forall (may_fetch s e.1) e.2) after;
  no_peer_idle : Forall (λ x, expired oldest x = false ∧ Forall (λ e, e.2 = [] → ¬ may_fetch s e.1 (wanted x)) after) kept
}.
Lemma add_item_split p i (l : plan) y : NoDup (map fst l) → (p, y) ∈ l → ∃ l1 l2, l = l1 ++ (p, y) :: l2 ∧ add_item p i l = l1 ++ (p, y ++ [i]) :: l2.
Proof.
  intros Hn He. apply list_elem_of_split in He as (l1 & l2 & ->). exists l1, l2. split; [done|]. rewrite map_app in Hn. simpl in Hn.
  apply NoDup_app in Hn as (_ & H1 & H2). apply NoDup_cons in H2 as [H2 _].
  assert (Hid : ∀ m : plan, p ∉ map fst m → map (λ e, if e.1 =? p then (p, e.2 ++ [i]) else e) m = m).
  { intros m. induction m as [|[q z] m IH]; [done|]. simpl. intros [Hx Hm]%not_elem_of_cons. rewrite IH by done. by destruct (Z.eqb_spec q p). }
  unfold add_item. rewrite map_app. simpl. rewrite Z.eqb_refl, !Hid; [done|done|]. intros Hin. apply (H1 _ Hin). left.
Qed.
(** A peer that has nothing to do at the end had nothing to do before. *)
Definition still_free (e e' : peer_id * list item_id) : Prop := e'.1 = e.1 ∧ (e'.2 = [] → e.2 = []).
#[local] Instance still_free_preorder : PreOrder still_free.
Proof. split; [by intros e|]. intros a b c [? ?] [? ?]. split; [congruence|auto]. Qed.
Lemma assign_shared s oldest l before kept after : NoDup (map fst before) → Forall (λ e, (length e.2 ≤ 1)%nat ∧ Forall (may_fetch s e.1) e.2) before →
  assign_items s oldest l before = (kept, after) → shared s oldest l kept before after ∧ Forall2 still_free before after.
Proof.
  revert before kept after. induction l as [|x l IH]; intros before kept after Hn Hb; cbn [assign_items].
  { intros [= <- <-]. split; [split; [done|by rewrite app_nil_r|done|constructor]|done]. }
  destruct (heard_at x <? oldest) eqn:Ex.
  { intros Ha. destruct (IH _ _ _ Hn Hb Ha) as [[S1 S2 S3 S4] S5]. split; [split; try done|done]. simpl. unfold expired at 1. rewrite Ex. simpl.
    rewrite S2. rewrite <- !Permutation_middle. done. }
  destruct (List.find _ _) as [[q y]|] eqn:Ef.
  - apply List.find_some in Ef as [He Hc]. rewrite <- list_elem_of_In, fewest_first_elem in He. apply can_fetch_spec in Hc as [He2 Hm]. simpl in He2, Hm. subst y.
    destruct (add_item_split q (wanted x) before [] Hn He) as (l1 & l2 & E1 & E2). cbn [fst]. rewrite E2. simpl. intros Ha. subst before.
    rewrite map_app in Hn. simpl in Hn. apply Forall_app in Hb as [Hb1 [Hb2 Hb3]%Forall_cons].
    destruct (IH (l1 ++ (q, [wanted x]) :: l2) kept after) as [[S1 S2 S3 S4] S5]; [by rewrite map_app| |done|].
    { apply Forall_app. split; [done|]. apply Forall_cons. split; [|done]. split; [done|]. by constructor. }
    split; [split; try done|].
    + rewrite S1, !map_app. done.
    + unfold expired in *. simpl. rewrite Ex. rewrite <- S2. rewrite !map_app, !concat_app. simpl. by rewrite <- !Permutation_middle.
    + etrans; [|exact S5]. apply Forall2_app; [done|]. constructor; [|done]. by split.
  - destruct (assign_items s oldest l before) as [k a] eqn:Ea. intros [= <- <-]. destruct (IH _ _ _ Hn Hb Ea) as [[S1 S2 S3 S4] S5]. split; [split; try done|done].
    + unfold expired in *. simpl. rewrite Ex. simpl. by rewrite S2.
    + constructor; [|done]. split; [done|]. apply Forall_forall. intros e' He' Hempty Hm. apply list_elem_of_lookup in He' as [j Hj].
      destruct (Forall2_lookup_r _ _ _ _ _ S5 Hj) as (e & He & E1 & E2).
      assert (Hc : can_fetch s x e = false) by
        (apply (List.find_none _ _ Ef), list_elem_of_In, fewest_first_elem; by eapply list_elem_of_lookup_2).
      rewrite <- not_true_iff_false, can_fetch_spec in Hc. apply Hc. rewrite <- E1. auto.
Qed.
(** A peer is asked for what it was assigned. *)
Definition requests_made (t : Z) (c c' : peer_connection) (l : list item_id) : Prop :=
  items_requested_from_peer c' = foldr (λ i m, <[i := t]> m) (items_requested_from_peer c) l ∧
  queued_messages c' = queued_messages c ++ map (λ i, real_queued_message (fetch_items_message (item_type i) [hash_of i])) l.
Lemma request_items_run p l (s : node) : (length l ≤ 1)%nat → let r := request_items p l s in
  r.1 = Ok tt ∧ items_to_fetch r.2 = items_to_fetch s ∧ now r.2 = now s ∧ (∀ q, q ≠ p → connections r.2 !! q = connections s !! q) ∧
  ∀ c, connections s !! p = Some c → ∃ c', connections r.2 !! p = Some c' ∧ requests_made (now s) c c' l.
Proof.
  intros Hl. destruct l as [|i [|j l]]; [|clear Hl|simpl in Hl; lia].
  - split_and!; try done; [intros q Hq; simpl; by rewrite lookup_alter_ne|]. intros c Hc. eexists. simpl. rewrite lookup_alter_eq, Hc. split; [done|].
    split; [done|]. simpl. by rewrite app_nil_r.
  - assert (Ht : types_of [i] = [item_type i]) by done.
    assert (Ho : of_type (item_type i) [i] = [hash_of i]) by (unfold of_type; simpl; by rewrite Z.eqb_refl).
    unfold request_items. rewrite Ht. cbn [for_each]. rewrite Ho. split_and!; try done.
    + intros q Hq. simpl. by rewrite !lookup_alter_ne.
    + intros c Hc. eexists. simpl. rewrite !lookup_alter_eq, Hc. split; [done|]. by split.
Qed.
Lemma requests_run (l : plan) (s : node) : NoDup (map fst l) → Forall (λ e, (length e.2 ≤ 1)%nat) l →
  let s' := (for_each l (λ e, request_items e.1 e.2) s).2 in
  items_to_fetch s' = items_to_fetch s ∧ (∀ q, q ∉ map fst l → connections s' !! q = connections s !! q) ∧
  ∀ p m c, (p, m) ∈ l → connections s !! p = Some c → ∃ c', connections s' !! p = Some c' ∧ requests_made (now s) c c' m.
Proof.
  cbv zeta. revert s. induction l as [|[p m] l IH]; intros s Hn Hl; [split_and!; [done|done|by intros p m c ?%elem_of_nil]|].
  apply NoDup_cons in Hn as [Hp Hn]. apply Forall_cons in Hl as [Hm Hl]. cbn [for_each fst snd] in *. rewrite bind_run.
  destruct (request_items_run p m s Hm) as (R1 & R2 & R3 & R4 & R5). destruct (request_items p m s) as [r s1]. cbn [fst snd] in *. subst r.
  destruct (IH s1 Hn Hl) as (I1 & I2 & I3). split_and!.
  - congruence.
  - intros q [Hq Hql]%not_elem_of_cons. rewrite I2 by done. by apply R4.
  - intros q k c [[= -> ->]|Hq]%elem_of_cons Hc.
    + destruct (R5 c Hc) as (c' & Hc' & Hr). exists c'. rewrite I2 by done. done.
    + assert (q ≠ p) by (intros ->; apply Hp, list_elem_of_fmap; by exists (p, k)). rewrite <- R3. apply (I3 q k c Hq). by rewrite R4.
Qed.
Lemma those_elem f (s : node) l p : p ∈ those f s l → p ∈ l ∧ ∃ c, connections s !! p = Some c ∧ f c = true.
Proof.
  unfold those. rewrite !list_elem_of_In, filter_In. intros [Hl Hf]. split; [done|]. destruct (connections s !! p) as [c|]; [by exists c|done].
Qed.
Lemma idle_peers_once (s : node) : NoDup (active_connections s) → NoDup (map fst (idle_peers s)).
Proof.
  intros Hn. unfold idle_peers. rewrite List.map_map, List.map_id. unfold those. revert Hn. rewrite !NoDup_ListNoDup. apply List.NoDup_filter.
Qed.

(** C27: one turn of the loop that fetches items, in every execution.  What was
    heard of is split, without loss, into what is kept for later, what peers are
    asked for and what has grown too old.  Only idle peers are asked, each for at
    most one item, which it advertised and which, when it is a transaction, it is
    not excluded from; an item is kept only when no peer that is left without a
    request could give it.  What a peer is asked for is noted with the time, and
    the request is put in its queue. *)
Theorem items_shared_out id key db local d es : let s := execute config es (new_node id key db local d) in
  let s' := (fetch_items config s).2 in
  let oldest := now s - recent_block_interval_in_seconds config * GRAPHENE_NET_MESSAGE_CACHE_DURATION_IN_BLOCKS * 1000000 in
  ∃ asked, shared s oldest (items_to_fetch s) (items_to_fetch s') (idle_peers s) asked ∧
  ∀ p l, (p, l) ∈ asked → ∃ c c', connections s !! p = Some c ∧ idle c = true ∧
    connections s' !! p = Some c' ∧ requests_made (now s) c c' l.
Proof.
  cbv zeta. set (s := execute config es (new_node id key db local d)).
  assert (Hn : NoDup (map fst (idle_peers s))) by (apply idle_peers_once; apply (active_once config [] [] s), execute_ok, new_node_ok).
  unfold fetch_items. rewrite bind_run. cbn [get_st]. destruct (assign_items _ _ _ _) as [kept asked] eqn:Ea. exists asked.
  assert (Hf : Forall (λ e, (length e.2 ≤ 1)%nat ∧ Forall (may_fetch s e.1) e.2) (idle_peers s)).
  { apply Forall_forall. intros e (p & -> & _)%list_elem_of_fmap. split; [simpl; lia|constructor]. }
  destruct (assign_shared _ _ _ _ _ _ Hn Hf Ea) as [Hs _]. rewrite bind_run. cbn [update].
  destruct (requests_run asked (set_items_to_fetch kept s)) as (R1 & R2 & R3).
  { by rewrite (same_peers _ _ _ _ _ _ Hs). }
  { eapply Forall_impl; [apply (one_each _ _ _ _ _ _ Hs)|]. by intros e []. }
  rewrite R1. split; [done|]. intros p l Hp.
  assert (Hi : p ∈ map fst (idle_peers s)) by (rewrite <- (same_peers _ _ _ _ _ _ Hs); apply list_elem_of_fmap; by exists (p, l)).
  unfold idle_peers in Hi. rewrite List.map_map, List.map_id in Hi. destruct (those_elem _ _ _ _ Hi) as (_ & c & Hc & Hidle).
  destruct (R3 p l c Hp Hc) as (c' & Hc' & Hr). by exists c, c'.
Qed.
End sharing.
