(* ===== verification/NetDelegate.v ===== *)
(** * What the network node does to its chain

    The node reaches the chain only through [NodeDelegate]: what the functions of
    the delegate keep true of the chain stays true in every execution. *)
From S2P Require Import Prelude Protocol Block Net NetFacts.
#[local] Open Scope Z_scope.
Import Net.

(** Every function of the delegate keeps [J]. *)
Class DelegateKeeps {D} `{NodeDelegate D} (J : D → Prop) : Prop := {
  has_item_keeps i : preserves J (has_item i);
  handle_block_keeps b sync : preserves J (handle_block b sync);
  handle_transaction_keeps t : preserves J (handle_transaction t);
  handle_message_keeps m : preserves J (handle_message m);
  sync_status_keeps c t n : preserves J (sync_status c t n);
  get_block_ids_keeps l : preserves J (get_block_ids l);
  get_item_keeps i : preserves J (get_item i);
  get_blockchain_synopsis_keeps i n : preserves J (get_blockchain_synopsis i n);
  get_block_time_keeps i : preserves J (get_block_time i);
  get_head_block_id_keeps : preserves J get_head_block_id
}.
Create HintDb delegated discriminated.
#[export] Hint Constants Opaque : delegated.
#[export] Hint Resolve has_item_keeps handle_block_keeps handle_transaction_keeps handle_message_keeps sync_status_keeps get_block_ids_keeps
  get_item_keeps get_blockchain_synopsis_keeps get_block_time_keeps get_head_block_id_keeps : delegated.
Ltac chain_step :=
  lazymatch goal with
  | |- ∀ _, _ => intros ?
  | |- preserves _ (_ ≫= _) => apply preserves_bind
  | |- preserves _ (when _ _) => apply preserves_when
  | |- preserves _ (for_each _ _) => apply preserves_for_each
  | |- preserves _ (try_catch _ _) => apply preserves_try
  | |- preserves _ (match ?x with _ => _ end) => destruct x
  | |- preserves _ (mret _) => apply preserves_ret
  | |- preserves _ (mthrow _) => apply preserves_throw
  | |- preserves _ (gets _) => apply preserves_gets
  | |- preserves _ get_st => apply preserves_get
  | |- preserves _ (lift _) => apply preserves_lift
  | |- _ => solve [auto 3 with delegated nocore]
  end.
Ltac chain := repeat chain_step.

Section keeps.
Context {D : Type} `{ND : NodeDelegate D} `{NodeKeys} (config : node_configuration) (J : D → Prop) `{!DelegateKeeps J}.
Abbreviation node := (node_impl (D:=D)).
Abbreviation K := (preserves (λ s : node, J (delegate s))).
Lemma on_delegate_keeps {A} (m : St D A) : preserves J m → K (on_delegate m).
Proof. intros Hm s Hs. unfold on_delegate. specialize (Hm _ Hs). by destruct (m (delegate s)). Qed.
Lemma update_keeps f : (∀ s : node, delegate (f s) = delegate s) → K (update f).
Proof. intros Hf s Hs. simpl. by rewrite Hf. Qed.
Lemma set_peer_keeps p f : K (set_peer p f).
Proof. by intros s. Qed.
Lemma peer_keeps p : K (peer p).
Proof. by intros s. Qed.
#[local] Hint Resolve on_delegate_keeps set_peer_keeps peer_keeps : delegated.
#[local] Hint Extern 1 (preserves _ (update _)) => apply update_keeps; done : delegated.
Lemma disconnect_keeps p b : K (disconnect_from_peer p b).
Proof. unfold disconnect_from_peer, move_peer_to_closing_list, close_connection, update_known, on_peer_db, send_message, send. chain. Qed.
#[local] Hint Resolve disconnect_keeps : delegated.
Lemma fetch_next_batch_keeps p : K (fetch_next_batch_of_item_ids_from_peer p).
Proof. unfold fetch_next_batch_of_item_ids_from_peer, create_blockchain_synopsis_for_peer, send_message, send. chain. Qed.
#[local] Hint Resolve fetch_next_batch_keeps : delegated.
Lemma start_synchronizing_keeps p : K (start_synchronizing_with_peer p).
Proof. unfold start_synchronizing_with_peer. chain. Qed.
#[local] Hint Resolve start_synchronizing_keeps : delegated.
Lemma new_peer_keeps p : K (new_peer_just_added p).
Proof. unfold new_peer_just_added, report_number_of_connections, send_message, send. chain. Qed.
#[local] Hint Resolve new_peer_keeps : delegated.
Lemma on_fetch_ids_keeps p ty l : K (on_fetch_blockchain_item_ids_message p ty l).
Proof. unfold on_fetch_blockchain_item_ids_message, update_or_create, on_peer_db, move_peer_to_active_list, send_message, send. chain. Qed.
Lemma drop_known_keeps p ty l : K (drop_known p ty l).
Proof. induction l as [|h l IH]; cbn [drop_known]; chain. Qed.
#[local] Hint Resolve drop_known_keeps : delegated.
Lemma on_ids_inventory_keeps p n ty l : K (on_blockchain_item_ids_inventory_message p n ty l).
Proof. unfold on_blockchain_item_ids_inventory_message, logged, accept_item_hashes, merge_item_hashes, report_unfetched_count, update_unfetched_count, tell_sync_status. chain. Qed.
Lemma notice_block_keeps b l : K (notice_block b l).
Proof. induction l as [|p l IH]; cbn [notice_block]; chain. Qed.
#[local] Hint Resolve notice_block_keeps : delegated.
Lemma process_one_keeps : K process_one_sync_block.
Proof. unfold process_one_sync_block, send_sync_block_to_node_delegate. chain. Qed.
#[local] Hint Resolve process_one_keeps : delegated.
Lemma process_blocks_keeps n : K (process_blocks n).
Proof. induction n as [|n IH]; cbn [process_blocks]; chain. Qed.
Lemma broadcast_keeps m : K (broadcast m).
Proof. intros s Hs. unfold broadcast. by destruct m. Qed.
#[local] Hint Resolve process_blocks_keeps broadcast_keeps : delegated.
Lemma replies_keeps ty l : K (replies ty l).
Proof. induction l as [|h l IH]; cbn [replies]; unfold get_message_for_item; chain. Qed.
#[local] Hint Resolve replies_keeps : delegated.
Lemma hear_keeps p i : K (hear_of_item p i).
Proof. unfold hear_of_item. chain. apply update_keeps. intros s. by destruct (is_wanted _ _). Qed.
#[local] Hint Resolve hear_keeps : delegated.
Lemma hear_all_keeps p ty l : K (hear_of_items p ty l).
Proof. induction l as [|h l IH]; cbn [hear_of_items]; chain. Qed.
#[local] Hint Resolve hear_all_keeps : delegated.
Lemma process_block_keeps p b h : K (process_block_message p b h).
Proof.
  unfold process_block_message, process_block_during_sync, refuse_block, process_block_during_normal_operation, accept_normal_block,
    push_normal_block, notice_inventory. chain.
Qed.
Lemma ordinary_keeps p m h : K (process_ordinary_message p m h).
Proof. unfold process_ordinary_message. chain. Qed.
#[local] Hint Resolve on_fetch_ids_keeps on_ids_inventory_keeps process_block_keeps ordinary_keeps : delegated.
Lemma send_hello_keeps p e : K (send_hello_message config p e).
Proof. unfold send_hello_message, generate_hello_user_data, send_message, send. chain. Qed.
#[local] Hint Resolve send_hello_keeps : delegated.
Lemma on_hello_keeps p h : K (on_hello_message config p h).
Proof.
  unfold on_hello_message, parse_hello_user_data_for_peer, parse, is_too_old, answer_hello, note_firewall, update_or_create, on_peer_db, reject,
    send_message, send. chain.
Qed.
Lemma on_rejected_keeps p r : K (on_connection_rejected_message p r).
Proof.
  unfold on_connection_rejected_message, update_known, on_peer_db, move_peer_to_closing_list, close_connection, send_message, send. chain.
Qed.
Lemma on_address_keeps p l : K (on_address_message p l).
Proof.
  unfold on_address_message, trigger_p2p_network_connect_loop, update_known, on_peer_db, move_peer_to_active_list. chain.
  intros s Hs. unfold merge_address_info_with_potential_peer_database. by destruct (fold_left _ _ _).
Qed.
Lemma forward_check_keeps f : K (forward_firewall_check_to_next_available_peer f).
Proof. unfold forward_firewall_check_to_next_available_peer, send_message, send. chain. Qed.
#[local] Hint Resolve on_hello_keeps on_rejected_keeps on_address_keeps forward_check_keeps : delegated.
Lemma on_check_keeps p i e : K (on_check_firewall_message p i e).
Proof. unfold on_check_firewall_message, add_connection. chain. Qed.
Lemma on_check_reply_keeps p i e r : K (on_check_firewall_reply_message p i e r).
Proof. unfold on_check_firewall_reply_message, update_or_create, on_peer_db, send_message, send. chain. Qed.
#[local] Hint Resolve on_check_keeps on_check_reply_keeps : delegated.
Lemma connect_to_endpoint_keeps p e : K (connect_to_endpoint p e).
Proof. unfold connect_to_endpoint, add_connection. chain. Qed.
#[local] Hint Resolve connect_to_endpoint_keeps : delegated.
Lemma try_records_keeps l : K (try_records config l).
Proof. induction l as [|r l IH]; cbn [try_records]; chain. Qed.
#[local] Hint Resolve try_records_keeps : delegated.
Lemma connect_passes_keeps n : K (connect_passes config n).
Proof. induction n as [|n IH]; cbn [connect_passes]; chain. Qed.
#[local] Hint Resolve connect_passes_keeps : delegated.
Lemma connect_to_task_keeps p r : K (connect_to_task config p r).
Proof. unfold connect_to_task, update_or_create, on_peer_db, abandon, send_message, send. chain. Qed.
Lemma on_message_keeps p m : K (on_message config p m).
Proof.
  unfold on_message, on_fetch_items_message, on_item_not_available_message, on_item_ids_inventory_message, on_closing_connection_message,
    on_connection_accepted_message, on_address_request_message, update_known, on_peer_db, on_current_time_request_message,
    on_current_time_reply_message, close_connection, send_item, send_message, send. chain.
Qed.
#[local] Hint Resolve connect_to_task_keeps on_message_keeps : delegated.
Definition harmless (e : event) : Prop := match e with elsewhere f => ∀ d, J d → J (f d) | _ => True end.
Lemma handle_keeps e : harmless e → K (handle config e).
Proof.
  destruct e; cbn [handle]; intros He; try (solve [chain]).
  - unfold accept_loop, add_connection. chain.
  - unfold accept_connection. chain.
  - unfold p2p_network_connect, connect_once. chain.
  - unfold add_node, on_peer_db, trigger_p2p_network_connect_loop. chain.
  - unfold on_connection_closed, leave, update_known, on_peer_db, trigger_p2p_network_connect_loop, report_number_of_connections. chain.
  - unfold fetch_sync_items, request_sync_items_from_peer, send_message, send. chain.
  - unfold process_backlog_of_sync_blocks. chain.
  - unfold fetch_items, request_items, send_message, send. chain.
  - unfold advertise_inventory, advertise_to_peer, send_message, send. chain.
  - unfold terminate_inactive_connections, move_peer_to_terminating_list, close_connection, send_message, send. chain.
  - unfold fetch_updated_peer_lists, send_message, send. chain.
  - unfold sync_from. chain.
  - intros s Hs. simpl. by apply He.
Qed.
Lemma execute_keeps es s : Forall harmless es → J (delegate s) → J (delegate (execute config es s)).
Proof.
  intros Hes. revert s. induction Hes as [|e es He _ IH]; intros s Hs; [done|]. apply IH. by apply handle_keeps.
Qed.
End keeps.
