(* ===== verification/P2p.v ===== *)
(** * The node and its chain

    libraries/plugins/p2p/p2p_plugin.cpp and the write queue of
    libraries/plugins/chain/chain_plugin.cpp: the delegate through which the
    network code of Net.v reads and feeds the chain.  [ChainDelegate] is the
    instance of [NodeDelegate] that a running node has; the theorems are about
    the whole: a chain behind a network. *)
From S2P Require Import Prelude Safe Chainbase Asset Protocol SignState Block ForkDatabase ResourceDynamics Objects Database Ledger Evaluators EvaluatorFacts Xtt Operations LedgerProps Apply ApplyFacts BlockFacts Reindex Peer PeerDb Net NetFacts NetSync NetDelegate.
#[local] Open Scope Z_scope.
#[local] Opaque Base.start_undo_session Base.undo Base.squash Base.commit.

Create HintDb wellformed discriminated.
#[export] Hint Constants Opaque : wellformed.
Ltac walk_wf_step :=
  lazymatch goal with
  | |- ∀ _, _ => intros ?
  | |- preserves _ (_ ≫= _) => apply preserves_bind
  | |- preserves _ (when _ _) => apply preserves_when
  | |- preserves _ (for_each _ _) => apply preserves_for_each
  | |- preserves _ (capture_rethrow _) => apply preserves_capture
  | |- preserves _ (try_catch _ _) => apply preserves_try
  | |- preserves _ (match ?x with _ => _ end) => destruct x
  | |- preserves _ (mret _) => apply preserves_ret
  | |- preserves _ (mthrow _) => apply preserves_throw
  | |- preserves _ (gets _) => apply preserves_gets
  | |- preserves _ get_st => apply preserves_get
  | |- preserves _ (lift _) => apply preserves_lift
  | |- preserves _ (get_or _ _) => apply preserves_get_or
  | |- preserves _ (fc_assert _) => apply preserves_assert
  | |- preserves _ (assert_or _ _) => apply preserves_assert_or
  | |- preserves _ Db.get_dynamic_global_properties => unfold Db.get_dynamic_global_properties
  | |- preserves _ Db.head_block_num => unfold Db.head_block_num
  | |- preserves _ Db.head_block_id => unfold Db.head_block_id
  | |- preserves _ Db.head_block_time => unfold Db.head_block_time
  | |- _ => first [assumption | solve [auto 3 with wellformed nocore]]
  end.
Ltac walk_wf := repeat walk_wf_step.

(** ** The chain keeps its tables well formed

    Through everything that pushes transactions and blocks: sessions, switches
    between forks, and putting pending transactions back. *)
Section well_formed.
Context `{Env} `{Node} `{!NodePromise} `{Platform}.
Abbreviation W := (preserves (λ s, wf_tables (tbl s))).
Lemma on_base_wf {A} (m : St tables A) : (∀ d, wf_tables d → wf_tables (m d).2) → W (on_base m).
Proof. intros Hm s Hs. unfold on_base. specialize (Hm _ Hs). by destruct (m (tbl s)). Qed.
Lemma start_wf : W (on_base Base.start_undo_session).
Proof. apply on_base_wf. intros d Hd. destruct (start_session_ok d Hd) as (d' & -> & ? & _). done. Qed.
Lemma squash_wf : W (on_base Base.squash).
Proof. apply on_base_wf. intros d Hd. destruct (squash_tables d Hd) as (d' & -> & ? & _). done. Qed.
Lemma undo_wf : W (on_base Base.undo).
Proof.
  apply on_base_wf. intros d Hd. destruct (each_index_all (λ t, Chainbase.undo) d) as (d' & Hr & Hd').
  { intros t. by destruct (undo_ok (d t) (Hd t)) as (gi & -> & _). }
  change (Base.undo d) with (Base.each_index (λ t, Chainbase.undo) d). rewrite Hr. intros t. simpl. rewrite Hd'.
  by destruct (undo_ok (d t) (Hd t)) as (gi & -> & ? & _).
Qed.
Lemma update_wf f : (∀ s, tbl (f s) = tbl s) → W (update f).
Proof. intros Hf s Hs. simpl. by rewrite Hf. Qed.
Lemma on_fork_wf {A} (m : St ForkDb.fork_database A) : W (on_fork m).
Proof. intros s Hs. unfold on_fork. by destruct (m (fork_db s)). Qed.
#[local] Hint Resolve start_wf squash_wf undo_wf on_fork_wf : wellformed.
#[local] Hint Extern 1 (preserves _ (update _)) => apply update_wf; intros; reflexivity : wellformed.
Lemma drop_session_wf : W drop_session.
Proof. unfold drop_session. walk_wf. Qed.
#[local] Hint Resolve drop_session_wf : wellformed.
Lemma with_session_wf {A} (m : DB A) : W m → W (with_session m).
Proof. intros Hm. unfold with_session. walk_wf. Qed.
Lemma with_skip_wf {A} k (m : DB A) : W m → W (with_skip_flags k m).
Proof. intros Hm. unfold with_skip_flags. walk_wf. Qed.
Ltac walk_ops :=
  repeat lazymatch goal with
  | |- preserves _ (with_session _) => apply with_session_wf
  | |- preserves _ (with_skip_flags _ _) => apply with_skip_wf
  | |- _ => walk_wf_step
  end.
Lemma apply_transaction_wf tx : W (Apply._apply_transaction tx).
Proof. apply quiet_keeps_wf. intros d0. apply _apply_transaction_quiet. Qed.
Lemma apply_contents_wf b : W (Apply.apply_contents b).
Proof. apply quiet_keeps_wf. intros d0. apply apply_contents_quiet. Qed.
#[local] Hint Resolve apply_transaction_wf apply_contents_wf migrate_wf : wellformed.
Lemma apply_block_wf b k : W (Apply.apply_block b k).
Proof. unfold Apply.apply_block, Apply._apply_block. walk_ops. Qed.
#[local] Hint Resolve apply_block_wf : wellformed.
Lemma push_transaction_inner_wf tx : W (Apply._push_transaction tx).
Proof. unfold Apply._push_transaction, Apply.start_pending_session. walk_ops. Qed.
#[local] Hint Resolve push_transaction_inner_wf : wellformed.
Lemma push_transaction_wf tx k : W (Apply.push_transaction tx k).
Proof. unfold Apply.push_transaction. walk_ops. Qed.
Lemma clear_pending_wf : W Apply.clear_pending.
Proof. unfold Apply.clear_pending, Apply.reset_pending_session. walk_ops. Qed.
#[local] Hint Resolve clear_pending_wf : wellformed.
Lemma fetch_block_wf id : W (Store.fetch_block_by_id id).
Proof. unfold Store.fetch_block_by_id. walk_ops. Qed.
#[local] Hint Resolve fetch_block_wf : wellformed.
Lemma pop_block_wf : W Apply.pop_block.
Proof. unfold Apply.pop_block, Apply.reset_pending_session. walk_ops. Qed.
#[local] Hint Resolve pop_block_wf : wellformed.
Lemma pop_until_wf n id : W (Apply.pop_until n id).
Proof. induction n as [|n IH]; cbn [Apply.pop_until]; walk_ops. Qed.
#[local] Hint Resolve pop_until_wf : wellformed.
Lemma push_fork_wf k f good branch : W (Apply.push_fork k f good branch).
Proof. induction branch as [|a l IH]; cbn [Apply.push_fork]; unfold Apply.apply_fork_item, Apply.remove_fork_item, Apply.pop_to; walk_ops. Qed.
#[local] Hint Resolve push_fork_wf : wellformed.
Lemma restore_one_wf b tx : W (Apply.restore_one b tx).
Proof. unfold Apply.restore_one. walk_ops. Qed.
#[local] Hint Resolve restore_one_wf : wellformed.
Lemma restore_wf b l : W (Apply.restore b l).
Proof. revert b. induction l as [|tx l IH]; intros b; cbn [Apply.restore]; walk_ops. Qed.
#[local] Hint Resolve restore_wf : wellformed.
Lemma push_block_wf b k : W (Apply.push_block b k).
Proof.
  unfold Apply.push_block, Apply.check_checkpoints, Apply.without_pending_transactions, Apply.restore_pending, Apply._push_block,
    Apply.switch_forks, Apply.push_next, Apply.pop_to. walk_ops.
Qed.
End well_formed.

(** ** The delegate *)
Record p2p_plugin := mkP2p {
  chain_db : database;
  running : bool;
  block_producer : bool;
  force_validate : bool;
  ready_to_mine : bool;
  (** seconds, and how far ahead of them the time of a block may be *)
  wall_clock : Z;
  allow_future_time : Z
}.
Definition set_chain_db (v : database) (p : p2p_plugin) : p2p_plugin :=
  mkP2p v (running p) (block_producer p) (force_validate p) (ready_to_mine p) (wall_clock p) (allow_future_time p).
Definition set_ready_to_mine (v : bool) (p : p2p_plugin) : p2p_plugin :=
  mkP2p (chain_db p) (running p) (block_producer p) (force_validate p) v (wall_clock p) (allow_future_time p).

Definition skip_nothing : Z := 0.
Module P2p.
Section with_env.
Context `{Env} `{Node} `{Platform}.
Abbreviation P := (St p2p_plugin).
Definition on_chain {A} (m : DB A) : P A := λ p, let '(r, d) := m (chain_db p) in (r, set_chain_db d p).
(** What a write on the queue throws is kept and thrown again to the caller. *)
Definition written {A} (m : DB A) : P A := on_chain (try_catch m (λ e, mthrow (to_fc e))).
Definition check_time_in_block (b : signed_block) : P unit :=
  p ← get_st;
  fc_assert (timestamp (header b) <=? wall_clock p + allow_future_time p).
Definition accept_block (b : signed_block) (skip : Z) : P bool :=
  check_time_in_block b ;;
  written (Apply.push_block b skip).
Definition accept_transaction (tx : signed_transaction) : P unit := written (Apply.push_transaction tx skip_nothing).

Definition has_item (i : item_id) : P bool :=
  on_chain (if item_type i =? block_message_type then Peer.has_block (hash_of i) else Peer.has_transaction (hash_of i)).
Definition become_ready : P unit := λ p, (Ok tt, set_ready_to_mine true p).
(** The list of the transactions of the block is left empty. *)
Definition handle_block (b : block_message) (sync_mode : bool) : P (list item_hash) :=
  try_catch
    (p ← get_st;
     if running p then
       on_chain Db.head_block_num ;;
       try_catch
         (result ← accept_block (block b) (if block_producer p || force_validate p then skip_nothing else skip_transaction_signatures);
          when (negb sync_mode && result) become_ready ;;
          mret [])
         (λ e, mthrow match e with BlockTooOld => OlderThanUndoHistory | _ => e end)
     else mthrow FcException)
    (λ e, mthrow (to_fc e)).
Definition handle_transaction (tx : signed_transaction) : P unit :=
  p ← get_st;
  if running p then try_catch (accept_transaction tx) (λ e, mthrow (to_fc e)) else mthrow FcException.
Definition handle_message (m : message) : P unit := mthrow FcException.
Definition sync_status (connected : bool) (item_type item_count : Z) : P unit :=
  p ← get_st;
  when (negb (ready_to_mine p) && (item_count =? 0) && connected) become_ready.
Definition get_item (i : item_id) : P message :=
  if item_type i =? block_message_type then
    b ← on_chain (Peer.get_block_item (hash_of i));
    mret (a_block_message (mkBlockMessage b (Block.id (header b))))
  else
    tx ← on_chain (Peer.get_transaction_item (hash_of i));
    mret (trx_message tx).
End with_env.
End P2p.

(** [graphene::net::message::id()], a hash of the bytes of a message, and the id
    that the chain was opened with are parameters. *)
Section chain_node.
Context `{Env} `{Node} `{Platform} (message_id : message → item_hash) (chain_id : Z).
Definition ChainDelegate : NodeDelegate p2p_plugin := {|
  get_message_id := message_id;
  trx_id := tx_id;
  has_item := P2p.has_item;
  handle_block := P2p.handle_block;
  handle_transaction := P2p.handle_transaction;
  handle_message := P2p.handle_message;
  sync_status := P2p.sync_status;
  get_block_ids synopsis := P2p.on_chain (Peer.get_block_ids synopsis 2000);
  get_item := P2p.get_item;
  get_blockchain_synopsis reference_point n := P2p.on_chain (Peer.get_blockchain_synopsis reference_point n);
  get_block_number := Peer.get_block_number;
  get_block_time id := P2p.on_chain (Peer.get_block_time id);
  get_head_block_id := P2p.on_chain Peer.get_head_block_id;
  get_chain_id _ := chain_id;
  estimate_last_known_fork_from_git_revision_timestamp _ := 0
|}.
End chain_node.

(** ** A chain behind a network *)
Section reads.
Context `{Env} (I : database → Prop).
Lemma fetch_block_reads id : preserves I (Store.fetch_block_by_id id).
Proof. unfold Store.fetch_block_by_id. walk_wf. Qed.
#[local] Hint Resolve fetch_block_reads : wellformed.
Lemma known_block_reads id : preserves I (Store.is_known_block id).
Proof. unfold Store.is_known_block. walk_wf. Qed.
#[local] Hint Resolve known_block_reads : wellformed.
Lemma id_for_num_reads n : preserves I (Peer.get_block_id_for_num n).
Proof. unfold Peer.get_block_id_for_num, Store.find_block_id_for_num, Store.find_in_stores. walk_wf. Qed.
#[local] Hint Resolve id_for_num_reads : wellformed.
Lemma included_reads id : preserves I (Peer.is_included_block id).
Proof. unfold Peer.is_included_block. walk_wf. Qed.
#[local] Hint Resolve included_reads : wellformed.
Lemma last_known_reads l : preserves I (Peer.last_known l).
Proof. induction l as [|id l IH]; cbn [Peer.last_known]; walk_wf. Qed.
Lemma ids_from_reads r n h : preserves I (Peer.ids_from r n h).
Proof. revert n. induction r as [|r IH]; intros n; cbn [Peer.ids_from]; walk_wf. Qed.
#[local] Hint Resolve last_known_reads ids_from_reads : wellformed.
Lemma block_ids_reads l n : preserves I (Peer.get_block_ids l n).
Proof. unfold Peer.get_block_ids. walk_wf. Qed.
Lemma ids_of_reads l : preserves I (Peer.ids_of l).
Proof. induction l as [|a l IH]; cbn [Peer.ids_of]; unfold Peer.item_of; walk_wf. Qed.
Lemma synopsis_ids_reads nums n l : preserves I (Peer.synopsis_ids nums n l).
Proof. induction nums as [|x nums IH]; cbn [Peer.synopsis_ids]; walk_wf. Qed.
#[local] Hint Resolve ids_of_reads synopsis_ids_reads : wellformed.
Lemma synopsis_reads r n : preserves I (Peer.get_blockchain_synopsis r n).
Proof.
  unfold Peer.get_blockchain_synopsis, Peer.synopsis_range, Peer.get_block_ids_on_fork, Peer.item_of, Db.last_non_undoable_block_num. walk_wf.
Qed.
Lemma block_item_reads id : preserves I (Peer.get_block_item id).
Proof. unfold Peer.get_block_item. walk_wf. Qed.
Lemma transaction_item_reads id : preserves I (Peer.get_transaction_item id).
Proof. unfold Peer.get_transaction_item, Peer.get_recent_transaction. walk_wf. Qed.
Lemma block_time_reads id : preserves I (Peer.get_block_time id).
Proof. unfold Peer.get_block_time. walk_wf. Qed.
Lemma has_block_reads id : preserves I (Peer.has_block id).
Proof. unfold Peer.has_block. walk_wf. Qed.
End reads.

Section whole_node.
Context `{Env} `{Node} `{!NodePromise} `{Platform} `{NodeKeys} (message_id : message → item_hash) (chain_id : Z).
Definition well_formed (p : p2p_plugin) : Prop := wf_tables (tbl (chain_db p)).
Lemma on_chain_wf {A} (m : DB A) : preserves (λ s, wf_tables (tbl s)) m → preserves well_formed (P2p.on_chain m).
Proof. intros Hm p Hp. unfold P2p.on_chain. specialize (Hm _ Hp). by destruct (m (chain_db p)). Qed.
#[local] Hint Resolve block_ids_reads synopsis_reads block_item_reads transaction_item_reads block_time_reads has_block_reads : wellformed.
#[local] Hint Resolve push_block_wf push_transaction_wf on_chain_wf : wellformed.
#[local] Instance chain_delegate_keeps : DelegateKeeps (H:=ChainDelegate message_id chain_id) well_formed.
Proof.
  split; cbn [ChainDelegate has_item handle_block handle_transaction handle_message sync_status get_block_ids get_item get_blockchain_synopsis get_block_time get_head_block_id]; intros.
  - unfold P2p.has_item. apply on_chain_wf. unfold Peer.has_transaction. walk_wf.
  - unfold P2p.handle_block, P2p.accept_block, P2p.check_time_in_block, P2p.written, P2p.become_ready. walk_wf.
    + apply on_chain_wf. walk_wf.
    + apply on_chain_wf. walk_wf.
    + by intros p.
  - unfold P2p.handle_transaction, P2p.accept_transaction, P2p.written. walk_wf. apply on_chain_wf. walk_wf.
  - apply preserves_throw.
  - unfold P2p.sync_status, P2p.become_ready. walk_wf. by intros p.
  - apply on_chain_wf, block_ids_reads.
  - unfold P2p.get_item. walk_wf.
  - apply on_chain_wf, synopsis_reads.
  - apply on_chain_wf, block_time_reads.
  - apply on_chain_wf. unfold Peer.get_head_block_id. walk_wf.
Qed.

(** A request for a transaction that the node does not know is not answered: the
    handler throws, where a block that is not known is answered with
    [item_not_available_message]. *)
Lemma unknown_transaction_unanswered (p : peer_id) (h : item_hash) (s : node_impl (D:=p2p_plugin)) :
  Cache.get_message h (message_cache s) = None → find_first t_transaction (λ x, bool_decide (to_trx_id x = h)) (chain_db (delegate s)) = None →
  Net.on_fetch_items_message (H:=ChainDelegate message_id chain_id) p trx_message_type [h] s = (Exc AssertException, s).
Proof.
  intros Hc Ht. unfold Net.on_fetch_items_message. rewrite bind_run. cbn [Net.replies]. rewrite bind_run. unfold Net.get_message_for_item.
  rewrite bind_run. cbn [get_st]. change (hash_of (trx_message_type, h)) with h. rewrite Hc. unfold try_catch, Net.on_delegate. cbn [get_item ChainDelegate].
  assert (E : P2p.get_item (trx_message_type, h) (delegate s) = (Exc AssertException, delegate s)).
  { unfold P2p.get_item. cbn [item_type fst]. change (trx_message_type =? block_message_type) with false. cbv iota. rewrite bind_run. unfold P2p.on_chain, Peer.get_transaction_item, Peer.get_recent_transaction, capture_rethrow, try_catch.
    rewrite bind_run. unfold gets. cbn [hash_of snd]. rewrite Ht. by destruct (delegate s). }
  rewrite E. cbn [set_delegate]. by destruct s.
Qed.

(** Whatever messages its peers send a node, valid or not, in whatever order
    and with whatever connections opening, closing and timing out between them,
    the tables of its chain stay well formed, through refused transactions, failed
    blocks and switches between forks; provided that they are at the start and
    that the other threads of the program keep them so. *)
Theorem network_keeps_tables_well_formed (config : node_configuration) (id key : node_id_t) (db : peer_database) (local : endpoint)
    (p : p2p_plugin) (es : list event) :
  well_formed p → Forall (harmless well_formed) es →
  well_formed (delegate (execute (H:=ChainDelegate message_id chain_id) config es (new_node id key db local p))).
Proof. intros Hp Hes. by apply (execute_keeps (ND:=ChainDelegate message_id chain_id) config well_formed es). Qed.
End whole_node.

(** A peer sends a transaction and a block that nobody asked for, and the clock
    moves on. *)
Module P2pDemo.
Definition plugin : p2p_plugin := mkP2p BlockDemo.db true true false false 0 5.
Definition set_clock (t : Z) (p : p2p_plugin) : p2p_plugin :=
  mkP2p (chain_db p) (running p) (block_producer p) (force_validate p) (ready_to_mine p) t (allow_future_time p).
Definition arrivals : list (event (D:=p2p_plugin)) :=
  [incoming 1; introduced 1 (1, 4000) (2, 2001) 7; elsewhere (set_clock 2000); received 1 (trx_message ApplyDemo.overspend);
   received 1 (a_block_message (mkBlockMessage BlockDemo.bad null_block_id))].
Lemma arrivals_harmless : Forall (harmless well_formed) arrivals.
Proof. do 5 (apply Forall_cons; split; [by cbn|]). apply Forall_nil_2. Qed.
End P2pDemo.
#[local] Existing Instance NetDemo.keys.
Lemma network_keeps_tables_well_formed_witness :
  well_formed (delegate (execute (H:=ChainDelegate (λ _, null_block_id) 0) NetDemo.config P2pDemo.arrivals (new_node 1000 1000 [] (0, 2001) P2pDemo.plugin))).
Proof.
  exact (network_keeps_tables_well_formed (λ _, null_block_id) 0 NetDemo.config 1000 1000 [] (0, 2001) P2pDemo.plugin P2pDemo.arrivals
    BlockDemo.chain_wf P2pDemo.arrivals_harmless).
Defined.
