(* ===== verification/TxStatus.v ===== *)
(** * The status of transactions

    libraries/plugins/transaction_status/transaction_status_plugin.cpp, which keeps
    the block of each recent transaction, and find_transaction of
    libraries/plugins/apis/transaction_api/transaction_api.cpp, which answers from
    it.  The table of the plugin is a map by the id of the transaction, its only
    key; like every table it is put back when a session of the database is undone.
    The chain is read through [ChainReads]. *)
From S2P Require Import Prelude Protocol Block ForkDatabase Objects Database Apply.
#[local] Open Scope Z_scope.

(** ** State *)
Inductive transaction_status :=
  unknown | within_mempool | within_reversible_block | within_irreversible_block | expired_reversible | expired_irreversible | too_old.
Abbreviation statuses := (gmap transaction_id_type Z).
Record transaction_status_impl := mkStatus {
  nominal_block_depth : Z;
  nominal_track_after_block : Z;
  actual_block_depth : Z;
  actual_track_after_block : Z;
  reindexing : bool;
  tracking : bool;
  rebuild_state_flag : bool;
  (** [transaction_status_index]: the block of a transaction, 0 outside a block *)
  status_index : statuses
}.
Definition set_reindexing (v : bool) (s : transaction_status_impl) : transaction_status_impl :=
  mkStatus (nominal_block_depth s) (nominal_track_after_block s) (actual_block_depth s) (actual_track_after_block s) v (tracking s)
    (rebuild_state_flag s) (status_index s).
Definition set_tracking (v : bool) (s : transaction_status_impl) : transaction_status_impl :=
  mkStatus (nominal_block_depth s) (nominal_track_after_block s) (actual_block_depth s) (actual_track_after_block s) (reindexing s) v
    (rebuild_state_flag s) (status_index s).
Definition set_status_index (v : statuses) (s : transaction_status_impl) : transaction_status_impl :=
  mkStatus (nominal_block_depth s) (nominal_track_after_block s) (actual_block_depth s) (actual_track_after_block s) (reindexing s) (tracking s)
    (rebuild_state_flag s) v.

(** What the plugin reads of the chain. *)
Class ChainReads (C : Type) := {
  read_head_block_num : C → result Z;
  read_head_block_time : C → result Z;
  read_last_irreversible_block_num : C → result Z;
  read_block_by_number : Z → C → result (option signed_block)
}.
#[export] Instance database_reads `{Env} : ChainReads database := {|
  read_head_block_num s := (Db.head_block_num s).1;
  read_head_block_time s := (Db.head_block_time s).1;
  read_last_irreversible_block_num s := (Db.last_non_undoable_block_num s).1;
  read_block_by_number n s := (Store.fetch_block_by_number n s).1
|}.

Module TxStatus.
Section with_chain.
Context `{Env} {C : Type} `{ChainReads C}.
Abbreviation T := (St transaction_status_impl).
Definition update (f : transaction_status_impl → transaction_status_impl) : T unit := λ s, (Ok tt, f s).
Definition on_index (f : statuses → statuses) : T unit := update (λ s, set_status_index (f (status_index s)) s).
(** A key that is there already is refused. *)
Definition create_status (id : transaction_id_type) (block_num : Z) : T unit :=
  l ← gets status_index;
  match l !! id with
  | Some _ => mthrow LogicError
  | None => on_index (<[id := block_num]>)
  end.
Definition on_post_apply_transaction (id : transaction_id_type) : T unit :=
  t ← gets tracking;
  when t (create_status id 0).
Definition note_block (block_num : Z) (tx : signed_transaction) : T unit :=
  l ← gets status_index;
  match l !! tx_id tx with
  | Some _ => on_index (<[tx_id tx := block_num]>)
  | None => mthrow OutOfRange
  end.
(** The entries in the order of their blocks, from the first, up to the obsolete
    block. *)
Definition forget_until (obsolete_block : Z) (l : statuses) : statuses := filter (λ e, obsolete_block < e.2) l.
Definition on_post_apply_block (block_num : Z) (b : signed_block) : T unit :=
  s ← get_st;
  if tracking s then
    for_each (transactions b) (note_block block_num) ;;
    when (actual_block_depth s <? block_num) (on_index (forget_until (block_num - actual_block_depth s)))
  else when (negb (reindexing s) && (actual_track_after_block s <=? block_num)) (update (set_tracking true)).
(** [XGT_TRY_NOTIFY]: what a handler throws is logged; only a plugin_exception,
    which these handlers do not throw, would go on. *)
Definition notify (m : T unit) : T unit := try_catch m (λ e, match e with Fault | PluginException => mthrow e | _ => mret tt end).

Definition get_earliest_tracked_block_num (c : C) : T Z :=
  n ← lift (read_head_block_num c);
  s ← get_st;
  mret (u32 (Z.max 1 (Z.max (n - actual_block_depth s + 1) (u32 (actual_track_after_block s + 1))))).
Definition read_block (c : C) (n : Z) : T signed_block :=
  b ← lift (read_block_by_number n c);
  match b with Some b => mret b | None => mthrow AssertException end.
(** [for( block_num = first; block_num <= last; block_num++ )] *)
Definition blocks_in_range (first last : Z) : list Z := seqZ first (last - first + 1).
Fixpoint get_earliest_transaction (c : C) (nums : list Z) : T (option transaction_id_type) :=
  match nums with
  | [] => mret None
  | n :: nums =>
      b ← read_block c n;
      match transactions b with
      | tx :: _ => mret (Some (tx_id tx))
      | [] => get_earliest_transaction c nums
      end
  end.
Fixpoint get_latest_transaction (c : C) (nums : list Z) : T (option transaction_id_type) :=
  match nums with
  | [] => mret None
  | n :: nums =>
      b ← read_block c n;
      match last (transactions b) with
      | Some tx => mret (Some (tx_id tx))
      | None => get_latest_transaction c nums
      end
  end.
Definition get_earliest_transaction_in_range (c : C) (first last : Z) : T (option transaction_id_type) :=
  get_earliest_transaction c (blocks_in_range first last).
Definition get_latest_transaction_in_range (c : C) (first last : Z) : T (option transaction_id_type) :=
  get_latest_transaction c (reverse (blocks_in_range first last)).
Definition is_there (id : option transaction_id_type) (l : statuses) : bool :=
  match id with Some id => bool_decide (is_Some (l !! id)) | None => true end.
Definition state_is_valid (c : C) : T bool :=
  head_block_num ← lift (read_head_block_num c);
  earliest ← get_earliest_tracked_block_num c;
  earliest_tx ← get_earliest_transaction_in_range c earliest head_block_num;
  latest_tx ← get_latest_transaction_in_range c earliest head_block_num;
  l ← gets status_index;
  mret (is_there earliest_tx l && is_there latest_tx l).
Definition rebuild_block (c : C) (n : Z) : T unit :=
  b ← read_block c n;
  for_each (transactions b) (λ tx, create_status (tx_id tx) n).
Definition rebuild_state (c : C) : T unit :=
  on_index (λ _, ∅) ;;
  head_block_num ← lift (read_head_block_num c);
  earliest ← get_earliest_tracked_block_num c;
  for_each (blocks_in_range earliest head_block_num) (rebuild_block c).

(** The options, and the table that was found on disk. *)
Definition plugin_initialize (block_depth track_after : Z) (rebuild : bool) (l : statuses) : transaction_status_impl :=
  let margin := XGT_MAX_TIME_UNTIL_EXPIRATION / XGT_BLOCK_INTERVAL in
  let after := Z.max 0 (track_after - margin) in
  mkStatus block_depth track_after (u32 (block_depth + margin)) after false (after =? 0) rebuild l.
Definition pre_reindex : T unit := update (λ s, set_tracking false (set_reindexing true s)).
Definition post_reindex (c : C) : T unit :=
  update (λ s, set_tracking true (set_reindexing false s)) ;;
  rebuild_state c.
(** False: the program ends. *)
Definition plugin_startup (c : C) : T bool :=
  s ← get_st;
  if rebuild_state_flag s then rebuild_state c ;; mret true else state_is_valid c.

(** An optional block that is not there is not looked at. *)
Definition block_time (c : C) (n : Z) : T Z :=
  b ← lift (read_block_by_number n c);
  match b with Some b => mret (timestamp (header b)) | None => mthrow Fault end.
Definition expiration_status (c : C) (earliest lib expiration : Z) : T transaction_status :=
  t ← block_time c earliest;
  if expiration <? t + XGT_MAX_TIME_UNTIL_EXPIRATION then mret too_old
  else
    irreversible ← (if 0 <? lib then t ← block_time c lib; mret (expiration <=? t) else mret false);
    if irreversible : bool then mret expired_irreversible
    else
      now ← lift (read_head_block_time c);
      mret (if expiration <? now then expired_reversible else unknown).
Definition find_transaction (c : C) (id : transaction_id_type) (expiration : option Z) : T (transaction_status * option Z) :=
  earliest ← get_earliest_tracked_block_num c;
  n ← lift (read_head_block_num c);
  if earliest <=? n then
    lib ← lift (read_last_irreversible_block_num c);
    l ← gets status_index;
    match l !! id with
    | Some k =>
        mret (if k =? 0 then (within_mempool, None)
              else if k <=? lib then (within_irreversible_block, Some k) else (within_reversible_block, Some k))
    | None =>
        match expiration with
        | Some e => st ← expiration_status c earliest lib e; mret (st, None)
        | None => mret (unknown, None)
        end
    end
  else mret (unknown, None).
End with_chain.
End TxStatus.

(** ** What is recorded *)
Section records.
Context `{Env}.
Import TxStatus.
Abbreviation impl := transaction_status_impl.
Definition ids (b : signed_block) : list transaction_id_type := map tx_id (transactions b).
Definition all_ids (bs : list signed_block) : list transaction_id_type := List.concat (map ids bs).
(** Block [k] of a chain that starts with block 1. *)
Definition block_at (bs : list signed_block) (k : Z) : option signed_block := if 1 <=? k then bs !! Z.to_nat (k - 1) else None.
(** The transactions of the blocks from [lo]. *)
Definition records (lo : Z) (bs : list signed_block) (l : statuses) : Prop :=
  ∀ id k, l !! id = Some k ↔ lo ≤ k ∧ ∃ b, block_at bs k = Some b ∧ id ∈ ids b.
Lemma records_unique lo bs l l' : records lo bs l → records lo bs l' → l = l'.
Proof. intros Hl Hl'. apply map_eq. intros id. apply option_eq. intros k. by rewrite (Hl id k), (Hl' id k). Qed.
Lemma records_lower lo lo' bs l : records lo bs l → (∀ k, 1 ≤ k ≤ Z.of_nat (length bs) → lo ≤ k ↔ lo' ≤ k) → records lo' bs l.
Proof.
  intros Hl Hlo id k. rewrite (Hl id k). assert (Hk : ∀ b, block_at bs k = Some b → 1 ≤ k ≤ Z.of_nat (length bs)).
  { intros b. unfold block_at. destruct (Z.leb_spec 1 k); [|done]. intros Hb%lookup_lt_Some. lia. }
  split; intros [? (b & Hb & Hi)]; (split; [|by exists b]); specialize (Hk b Hb); apply Hlo; auto.
Qed.
Lemma records_nil lo : records lo [] ∅.
Proof. intros id k. rewrite lookup_empty. split; [done|]. intros [_ (b & Hb & _)]. unfold block_at in Hb. by destruct (1 <=? k). Qed.
Lemma block_at_snoc bs b k : block_at (bs ++ [b]) k = if k =? Z.of_nat (length bs) + 1 then Some b else block_at bs k.
Proof.
  unfold block_at. destruct (Z.leb_spec 1 k), (Z.eqb_spec k (Z.of_nat (length bs) + 1)); subst; try done; try lia.
  - apply list_lookup_middle. lia.
  - destruct (decide (Z.to_nat (k - 1) < length bs)%nat); [by rewrite lookup_app_l|].
    rewrite lookup_app_r by lia. rewrite (lookup_ge_None_2 bs) by lia. apply lookup_ge_None_2. simpl. lia.
Qed.
Lemma all_ids_elem bs id : id ∈ all_ids bs ↔ ∃ k b, block_at bs k = Some b ∧ id ∈ ids b.
Proof.
  unfold all_ids. rewrite list_elem_of_In, in_concat. split.
  - intros (x & (b & <- & Hb)%in_map_iff & Hi). apply list_elem_of_In in Hb as [i Hb]%list_elem_of_lookup.
    exists (Z.of_nat i + 1), b. unfold block_at. destruct (Z.leb_spec 1 (Z.of_nat i + 1)); [|lia].
    replace (Z.to_nat (Z.of_nat i + 1 - 1)) with i by lia. split; [done|]. by apply list_elem_of_In.
  - intros (k & b & Hb & Hi). unfold block_at in Hb. destruct (1 <=? k); [|done]. exists (ids b). split; [|by apply list_elem_of_In].
    apply in_map. apply list_elem_of_In. by eapply list_elem_of_lookup_2.
Qed.
(** A block behind the others. *)
Lemma records_snoc lo bs b l l' : records lo bs l → lo ≤ Z.of_nat (length bs) + 1 → (∀ id, id ∈ ids b → id ∉ all_ids bs) →
  (∀ id, l' !! id = if decide (id ∈ ids b) then Some (Z.of_nat (length bs) + 1) else l !! id) → records lo (bs ++ [b]) l'.
Proof.
  intros Hl Hlo Hn Hl' id k. rewrite Hl'. destruct (decide (id ∈ ids b)) as [Hi|Hi].
  - split.
    + intros [= <-]. split; [done|]. exists b. rewrite block_at_snoc, Z.eqb_refl. done.
    + intros [_ (b' & Hb' & Hi')]. rewrite block_at_snoc in Hb'. destruct (Z.eqb_spec k (Z.of_nat (length bs) + 1)) as [->|]; [done|].
      destruct (Hn id Hi). apply all_ids_elem. eauto.
  - rewrite (Hl id k). split; intros [? (b' & Hb' & Hi')]; (split; [done|]); exists b'; (split; [|done]).
    + rewrite block_at_snoc. destruct (Z.eqb_spec k (Z.of_nat (length bs) + 1)) as [->|]; [|done].
      unfold block_at in Hb'. destruct (1 <=? _); [|done]. apply lookup_lt_Some in Hb'. lia.
    + rewrite block_at_snoc in Hb'. destruct (Z.eqb_spec k (Z.of_nat (length bs) + 1)); [by injection Hb' as ->|done].
Qed.
Lemma records_forget lo lo' bs l : records lo bs l → lo ≤ lo' → records lo' bs (forget_until (lo' - 1) l).
Proof.
  intros Hl Hlo id k. unfold forget_until. rewrite map_lookup_filter_Some, (Hl id k). simpl. naive_solver lia.
Qed.

(** ** The loops *)
Definition fills (n : Z) (new : list transaction_id_type) (l l' : statuses) : Prop :=
  ∀ id, l' !! id = if decide (id ∈ new) then Some n else l !! id.
Lemma create_all n txs (s : impl) : NoDup (map tx_id txs) → (∀ id, id ∈ map tx_id txs → status_index s !! id = None) →
  ∃ l', for_each txs (λ tx, create_status (tx_id tx) n) s = (Ok tt, set_status_index l' s) ∧ fills n (map tx_id txs) (status_index s) l'.
Proof.
  revert s. induction txs as [|tx txs IH]; intros s Hn Hnew.
  { exists (status_index s). split; [by destruct s|]. intros id. destruct (decide _) as [He|]; [by apply elem_of_nil in He|done]. }
  simpl in Hn. apply NoDup_cons in Hn as [Hx Hn]. cbn [for_each]. rewrite bind_run. unfold create_status at 1. rewrite bind_run. cbn [gets].
  rewrite (Hnew (tx_id tx)) by left. cbn [on_index update]. set (s1 := set_status_index _ s).
  destruct (IH s1 Hn) as (l' & E & Hf).
  { intros id Hid. simpl. rewrite lookup_insert_ne by (intros <-; done). apply Hnew. by right. }
  exists l'. split; [exact E|]. intros id. rewrite Hf. simpl. destruct (decide (id ∈ map tx_id txs)), (decide (id ∈ tx_id tx :: map tx_id txs)) as [Hd|Hd]; try done.
  - destruct Hd. by right.
  - apply elem_of_cons in Hd as [->|]; [by rewrite lookup_insert_eq|done].
  - rewrite lookup_insert_ne; [done|]. intros <-. apply Hd. left.
Qed.
Lemma note_all n txs (s : impl) : (∀ id, id ∈ map tx_id txs → is_Some (status_index s !! id)) →
  ∃ l', for_each txs (note_block n) s = (Ok tt, set_status_index l' s) ∧ fills n (map tx_id txs) (status_index s) l'.
Proof.
  revert s. induction txs as [|tx txs IH]; intros s Hold.
  { exists (status_index s). split; [by destruct s|]. intros id. destruct (decide _) as [He|]; [by apply elem_of_nil in He|done]. }
  cbn [for_each]. rewrite bind_run. unfold note_block at 1. rewrite bind_run. cbn [gets].
  destruct (Hold (tx_id tx) (list_elem_of_here _ _)) as [k ->]. cbn [on_index update]. set (s1 := set_status_index _ s).
  destruct (IH s1) as (l' & E & Hf).
  { intros id Hid. simpl. destruct (decide (id = tx_id tx)) as [->|]; [by rewrite lookup_insert_eq|]. rewrite lookup_insert_ne by done. apply Hold. by right. }
  exists l'. split; [exact E|]. intros id. rewrite Hf. simpl. destruct (decide (id ∈ map tx_id txs)), (decide (id ∈ tx_id tx :: map tx_id txs)) as [Hd|Hd]; try done.
  - destruct Hd. by right.
  - apply elem_of_cons in Hd as [->|]; [by rewrite lookup_insert_eq|done].
  - rewrite lookup_insert_ne; [done|]. intros <-. apply Hd. left.
Qed.

(** ** A block and its transactions *)
(** The handlers that are called while block [n] is applied, and what becomes of
    them in the chain, which goes on when one throws. *)
Definition apply_block_handlers (n : Z) (b : signed_block) : St impl unit :=
  for_each (transactions b) (λ tx, on_post_apply_transaction (tx_id tx)) ;; on_post_apply_block n b.
Definition notify_block (n : Z) (b : signed_block) : St impl unit :=
  for_each (transactions b) (λ tx, notify (on_post_apply_transaction (tx_id tx))) ;; notify (on_post_apply_block n b).
Lemma notify_ok (m : St impl unit) s s' : m s = (Ok tt, s') → notify m s = (Ok tt, s').
Proof. unfold notify, try_catch. by intros ->. Qed.
Lemma notify_block_ok n b s s' : apply_block_handlers n b s = (Ok tt, s') → notify_block n b s = (Ok tt, s').
Proof.
  unfold apply_block_handlers, notify_block. rewrite !bind_run. generalize (on_post_apply_block n b). intros m.
  revert s. induction (transactions b) as [|tx txs IH]; intros s; [apply notify_ok|]. cbn [for_each]. rewrite !bind_run.
  destruct (on_post_apply_transaction (tx_id tx) s) as [[[]|e] s1] eqn:E; [|done]. rewrite (notify_ok _ _ _ E). apply IH.
Qed.
(** The first block that is kept of a chain of [n] blocks. *)
Definition first_kept (d n : Z) : Z := Z.max 1 (n - d + 1).
Lemma create_status_tracking id n (s : impl) : tracking (create_status id n s).2 = tracking s.
Proof. unfold create_status. rewrite bind_run. cbn [gets]. by destruct (status_index s !! id). Qed.
Lemma push_all txs (s : impl) : tracking s = true →
  for_each txs (λ tx, on_post_apply_transaction (tx_id tx)) s = for_each txs (λ tx, create_status (tx_id tx) 0) s.
Proof.
  revert s. induction txs as [|tx txs IH]; intros s Ht; [done|]. cbn [for_each]. rewrite !bind_run.
  assert (E : on_post_apply_transaction (tx_id tx) s = create_status (tx_id tx) 0 s).
  { unfold on_post_apply_transaction. rewrite bind_run. cbn [gets]. by rewrite Ht. }
  rewrite E. pose proof (create_status_tracking (tx_id tx) 0 s) as Hk. destruct (create_status _ _ s) as [[[]|e] s1]; [|done].
  apply IH. by rewrite <- Ht, <- Hk.
Qed.
Lemma all_ids_app bs bs' : all_ids (bs ++ bs') = all_ids bs ++ all_ids bs'.
Proof. unfold all_ids. by rewrite map_app, concat_app. Qed.
Lemma all_ids_snoc bs b : NoDup (all_ids (bs ++ [b])) → NoDup (all_ids bs) ∧ NoDup (ids b) ∧ ∀ id, id ∈ ids b → id ∉ all_ids bs.
Proof.
  rewrite all_ids_app. unfold all_ids at 2. simpl. rewrite app_nil_r. intros (? & Hd & ?)%NoDup_app. split_and!; try done. intros id Hi Ha. by apply (Hd id).
Qed.
Lemma records_fresh lo bs l id : records lo bs l → id ∉ all_ids bs → l !! id = None.
Proof. intros Hl Hn. apply eq_None_not_Some. intros [k [_ (b & Hb & Hi)]%Hl]. apply Hn, all_ids_elem. eauto. Qed.
Lemma block_handled d bs b (s : impl) : tracking s = true → actual_block_depth s = d → 0 ≤ d →
  records (first_kept d (Z.of_nat (length bs))) bs (status_index s) → NoDup (all_ids (bs ++ [b])) →
  ∃ l', apply_block_handlers (Z.of_nat (length bs) + 1) b s = (Ok tt, set_status_index l' s) ∧
    records (first_kept d (Z.of_nat (length bs) + 1)) (bs ++ [b]) l'.
Proof.
  intros Ht Hd Hd0 Hl (_ & Hb & Hf)%all_ids_snoc. set (n := Z.of_nat (length bs) + 1). unfold apply_block_handlers. rewrite bind_run, push_all by done.
  destruct (create_all 0 (transactions b) s Hb) as (l1 & -> & H1). { intros id Hi. by eapply records_fresh, Hf. }
  unfold on_post_apply_block. rewrite bind_run. cbn [get_st tracking set_status_index]. rewrite Ht, bind_run.
  destruct (note_all n (transactions b) (set_status_index l1 s)) as (l2 & E & H2).
  { intros id Hi. simpl. rewrite H1. by rewrite decide_True. }
  change (mkStatus _ _ _ _ _ _ _ l1) with (set_status_index l1 s). rewrite E.
  assert (Hr : records (first_kept d (Z.of_nat (length bs))) (bs ++ [b]) l2).
  { apply (records_snoc _ _ _ (status_index s)); [done|unfold first_kept; lia|done|]. intros id. rewrite H2. simpl. rewrite H1. unfold ids. by destruct (decide _). }
  cbn [actual_block_depth set_status_index]. rewrite Hd. unfold when. destruct (Z.ltb_spec d n).
  - eexists. split; [reflexivity|]. simpl. replace (first_kept d n) with (n - d + 1) by (unfold first_kept; lia).
    assert (Hk : first_kept d (Z.of_nat (length bs)) ≤ n - d + 1) by (unfold first_kept, n; lia).
    pose proof (records_forget _ _ _ _ Hr Hk) as Hg. by replace (n - d + 1 - 1) with (n - d) in Hg by lia.
  - exists l2. split; [done|]. replace (first_kept d n) with (first_kept d (Z.of_nat (length bs))); [done|]. unfold first_kept, n in *. lia.
Qed.

(** ** The table from the blocks *)
Context {C : Type} `{ChainReads C}.
(** The chain of [c] is [bs]; the last irreversible block is one of them. *)
Definition reads (c : C) (bs : list signed_block) (lib : Z) : Prop :=
  read_head_block_num c = Ok (Z.of_nat (length bs)) ∧
  (∀ b, last bs = Some b → read_head_block_time c = Ok (timestamp (header b))) ∧
  read_last_irreversible_block_num c = Ok lib ∧ 0 ≤ lib ≤ Z.of_nat (length bs) ∧
  ∀ k b, block_at bs k = Some b → read_block_by_number k c = Ok (Some b).
Lemma block_at_in bs k : 1 ≤ k ≤ Z.of_nat (length bs) → ∃ b, block_at bs k = Some b.
Proof. intros ?. unfold block_at. destruct (Z.leb_spec 1 k); [|lia]. apply lookup_lt_is_Some. lia. Qed.
Lemma block_at_bounds bs k b : block_at bs k = Some b → 1 ≤ k ≤ Z.of_nat (length bs).
Proof. unfold block_at. destruct (Z.leb_spec 1 k); [|done]. intros Hb%lookup_lt_Some. lia. Qed.
Lemma read_block_ok c bs lib k b (s : impl) : reads c bs lib → block_at bs k = Some b → read_block c k s = (Ok b, s).
Proof. intros (_ & _ & _ & _ & Hr) Hb. unfold read_block. rewrite bind_run. unfold lift. by rewrite (Hr k b Hb). Qed.
Lemma earliest_tracked c bs lib (s : impl) : reads c bs lib → actual_track_after_block s = 0 → 0 ≤ actual_block_depth s →
  Z.of_nat (length bs) + 1 < 2 ^ 32 →
  get_earliest_tracked_block_num c s = (Ok (first_kept (actual_block_depth s) (Z.of_nat (length bs))), s).
Proof.
  intros (Hn & _) Ha Hd Hl. unfold get_earliest_tracked_block_num. rewrite bind_run. unfold lift. rewrite Hn, bind_run. cbn [get_st].
  unfold mret, St_ret. rewrite Ha. unfold first_kept, u32. f_equal. f_equal. rewrite (Z.mod_small (0 + 1)) by lia. rewrite Z.mod_small; lia.
Qed.
Lemma rebuild_blocks c bs lib lo m (s : impl) : reads c bs lib → NoDup (all_ids bs) → 1 ≤ lo → lo - 1 + Z.of_nat m ≤ Z.of_nat (length bs) →
  status_index s = ∅ → ∃ l, for_each (seqZ lo (Z.of_nat m)) (rebuild_block c) s = (Ok tt, set_status_index l s) ∧
    records lo (take (Z.to_nat (lo - 1) + m) bs) l.
Proof.
  intros Hc Hd Hlo. revert s. induction m as [|m IH]; intros s Hm Hs.
  { exists ∅. split; [destruct s; simpl in Hs; by subst|]. intros id k. rewrite lookup_empty. split; [done|].
    intros [? (b & Hb%block_at_bounds & _)]. rewrite length_take in Hb. lia. }
  destruct (IH s) as (l & E & Hl); [lia|done|]. destruct (block_at_in bs (lo + Z.of_nat m)) as [b Hb]; [lia|].
  set (i := (Z.to_nat (lo - 1) + m)%nat) in *. assert (Hi : bs !! i = Some b).
  { unfold block_at in Hb. destruct (Z.leb_spec 1 (lo + Z.of_nat m)); [|lia]. rewrite <- Hb. f_equal. lia. }
  assert (Ht : take (Z.to_nat (lo - 1) + S m) bs = take i bs ++ [b]) by (rewrite Nat.add_succ_r; by apply take_S_r).
  pose proof (lookup_lt_Some _ _ _ Hi) as Hlt. assert (Hlen : Z.of_nat (length (take i bs)) + 1 = lo + Z.of_nat m) by (rewrite length_take; lia).
  assert (Hn : NoDup (all_ids (take i bs ++ [b]))).
  { rewrite <- (take_drop (Z.to_nat (lo - 1) + S m) bs), all_ids_app, Ht in Hd. by apply NoDup_app in Hd as (Hd & _). }
  apply all_ids_snoc in Hn as (_ & Hn & Hf).
  rewrite seqZ_S, (for_each_snoc _ _ _ _ _ E). unfold rebuild_block. rewrite bind_run, (read_block_ok c bs lib _ b) by done.
  destruct (create_all (lo + Z.of_nat m) (transactions b) (set_status_index l s) Hn) as (l' & E' & Hl').
  { intros id Hid. simpl. by eapply records_fresh, Hf. }
  exists l'. rewrite E'. split; [done|]. rewrite Ht. apply (records_snoc _ _ _ l); [done|lia|done|]. intros id. rewrite Hl', Hlen. done.
Qed.
Lemma rebuild_records c bs lib (s : impl) : reads c bs lib → NoDup (all_ids bs) → actual_track_after_block s = 0 → 0 ≤ actual_block_depth s →
  Z.of_nat (length bs) + 1 < 2 ^ 32 → ∃ l, rebuild_state c s = (Ok tt, set_status_index l s) ∧
    records (first_kept (actual_block_depth s) (Z.of_nat (length bs))) bs l.
Proof.
  intros Hc Hd Ha Hdepth Hlen. unfold rebuild_state. rewrite bind_run. cbn [on_index update]. set (s0 := set_status_index ∅ s).
  change (mkStatus _ _ _ _ _ _ _ _) with s0. rewrite bind_run. unfold lift. rewrite (proj1 Hc), bind_run.
  rewrite (earliest_tracked c bs lib s0) by done. set (lo := first_kept _ _). unfold blocks_in_range.
  assert (1 ≤ lo) by (unfold lo, first_kept; lia). destruct (decide (lo ≤ Z.of_nat (length bs) + 1)) as [Hle|Hgt].
  - destruct (rebuild_blocks c bs lib lo (Z.to_nat (Z.of_nat (length bs) - lo + 1)) s0) as (l & E & Hl); try done; [lia|].
    rewrite Z2Nat.id in E by lia. rewrite E. exists l. split; [done|]. rewrite firstn_all2 in Hl by lia. exact Hl.
  - unfold lo, first_kept in Hgt. simpl in Hgt. lia.
Qed.

(** ** The start-up check *)
Lemma earliest_transaction_found c bs lib nums (s : impl) : reads c bs lib → Forall (λ k, is_Some (block_at bs k)) nums →
  ∃ r, get_earliest_transaction c nums s = (Ok r, s) ∧ ∀ id, r = Some id → ∃ k b, k ∈ nums ∧ block_at bs k = Some b ∧ id ∈ ids b.
Proof.
  intros Hc. induction 1 as [|k nums [b Hb] Hk (r & E & Hr)]; [by exists None|]. cbn [get_earliest_transaction].
  rewrite bind_run, (read_block_ok c bs lib k b) by done. destruct (transactions b) as [|tx txs] eqn:Ht.
  - exists r. split; [done|]. intros id (k' & b' & ? & ?)%Hr. exists k', b'. split; [by right|done].
  - exists (Some (tx_id tx)). split; [done|]. intros id [= <-]. exists k, b. split_and!; [by left|done|]. unfold ids. rewrite Ht. by left.
Qed.
Lemma latest_transaction_found c bs lib nums (s : impl) : reads c bs lib → Forall (λ k, is_Some (block_at bs k)) nums →
  ∃ r, get_latest_transaction c nums s = (Ok r, s) ∧ ∀ id, r = Some id → ∃ k b, k ∈ nums ∧ block_at bs k = Some b ∧ id ∈ ids b.
Proof.
  intros Hc. induction 1 as [|k nums [b Hb] Hk (r & E & Hr)]; [by exists None|]. cbn [get_latest_transaction].
  rewrite bind_run, (read_block_ok c bs lib k b) by done. destruct (last (transactions b)) as [tx|] eqn:Ht.
  - exists (Some (tx_id tx)). split; [done|]. intros id [= <-]. exists k, b. split_and!; [by left|done|].
    apply list_elem_of_In, in_map, list_elem_of_In, last_Some_elem_of, Ht.
  - exists r. split; [done|]. intros id (k' & b' & ? & ?)%Hr. exists k', b'. split; [by right|done].
Qed.
Lemma blocks_in_range_there bs lo : 1 ≤ lo → Forall (λ k, is_Some (block_at bs k)) (blocks_in_range lo (Z.of_nat (length bs))).
Proof. intros ?. apply Forall_forall. intros k [??]%elem_of_seqZ. apply block_at_in. lia. Qed.
Lemma recorded_is_valid c bs lib (s : impl) : reads c bs lib → actual_track_after_block s = 0 → 0 ≤ actual_block_depth s →
  Z.of_nat (length bs) + 1 < 2 ^ 32 →
  (∀ id k b, first_kept (actual_block_depth s) (Z.of_nat (length bs)) ≤ k → block_at bs k = Some b → id ∈ ids b → is_Some (status_index s !! id)) →
  state_is_valid c s = (Ok true, s).
Proof.
  intros Hc Ha Hd Hlen Hl. unfold state_is_valid. rewrite bind_run. unfold lift. rewrite (proj1 Hc), bind_run.
  rewrite (earliest_tracked c bs lib s) by done. set (lo := first_kept _ _) in *.
  pose proof (blocks_in_range_there bs lo ltac:(unfold lo, first_kept; lia)) as Hb.
  destruct (earliest_transaction_found c bs lib _ s Hc Hb) as (r1 & E1 & H1).
  destruct (latest_transaction_found c bs lib (reverse (blocks_in_range lo (Z.of_nat (length bs)))) s Hc) as (r2 & E2 & H2).
  { by apply Forall_reverse. }
  unfold get_earliest_transaction_in_range, get_latest_transaction_in_range. rewrite bind_run, E1, bind_run, E2, bind_run. cbn [gets].
  assert (Hthere : ∀ r, (∀ id, r = Some id → ∃ k b, k ∈ blocks_in_range lo (Z.of_nat (length bs)) ∧ block_at bs k = Some b ∧ id ∈ ids b) →
    is_there r (status_index s) = true).
  { intros [id|] Hr; [|done]. simpl. apply bool_decide_eq_true. destruct (Hr id eq_refl) as (k & b & [??]%elem_of_seqZ & ? & ?). by apply (Hl id k b). }
  rewrite (Hthere r1 H1), (Hthere r2); [done|]. intros id (k & b & Hk & ?)%H2. rewrite elem_of_reverse in Hk. by exists k, b.
Qed.

(** ** The plugin beside the chain *)
Record tracked := mkTracked {
  plugin : impl;
  blocks : list signed_block;
  (** the transactions outside a block, which have a session of their own *)
  pending : list signed_transaction;
  (** the table without them, and the table before each block that can be undone *)
  base : statuses;
  saved : list statuses
}.
(** The plugin when the session of the pending transactions is undone. *)
Definition settled (t : tracked) : impl := set_status_index (base t) (plugin t).
Inductive happens : tracked → tracked → Prop :=
| transaction_pushed t tx s : tx_id tx ∉ map tx_id (pending t) → tx_id tx ∉ all_ids (blocks t) →
    notify (on_post_apply_transaction (tx_id tx)) (plugin t) = (Ok tt, s) →
    happens t (mkTracked s (blocks t) (pending t ++ [tx]) (base t) (saved t))
| pending_cleared t : happens t (mkTracked (settled t) (blocks t) [] (base t) (saved t))
| block_applied t b s : NoDup (all_ids (blocks t ++ [b])) →
    notify_block (Z.of_nat (length (blocks t)) + 1) b (settled t) = (Ok tt, s) →
    happens t (mkTracked s (blocks t ++ [b]) [] (status_index s) (base t :: saved t))
| block_popped t bs b l ls : blocks t = bs ++ [b] → saved t = l :: ls →
    happens t (mkTracked (set_status_index l (plugin t)) bs [] l ls)
| committed t n : happens t (mkTracked (plugin t) (blocks t) (pending t) (base t) (take n (saved t))).
Definition hour_of_blocks : Z := XGT_MAX_TIME_UNTIL_EXPIRATION / XGT_BLOCK_INTERVAL.
Definition tracking_start (depth track_after : Z) : tracked := mkTracked (plugin_initialize depth track_after false ∅) [] [] ∅ [].
(** The table before block [n + 1], for each block that can be undone. *)
Fixpoint saved_right (d : Z) (bs : list signed_block) (ls : list statuses) : Prop :=
  match ls with
  | [] => True
  | l :: ls => ∃ bs' b, bs = bs' ++ [b] ∧ records (first_kept d (Z.of_nat (length bs'))) bs' l ∧ saved_right d bs' ls
  end.
Record tracked_ok (d : Z) (t : tracked) : Prop := {
  ok_tracking : tracking (plugin t) = true;
  ok_depth : actual_block_depth (plugin t) = d;
  ok_after : actual_track_after_block (plugin t) = 0;
  ok_distinct : NoDup (all_ids (blocks t));
  ok_base : records (first_kept d (Z.of_nat (length (blocks t)))) (blocks t) (base t);
  ok_saved : saved_right d (blocks t) (saved t);
  ok_pending : fills 0 (map tx_id (pending t)) (base t) (status_index (plugin t));
  ok_apart : ∀ id, id ∈ map tx_id (pending t) → base t !! id = None
}.
Lemma saved_right_take d bs ls n : saved_right d bs ls → saved_right d bs (take n ls).
Proof.
  revert bs n. induction ls as [|l ls IH]; intros bs [|n]; try done. intros (bs' & b & ? & ? & ?). exists bs', b. auto.
Qed.
Lemma tracked_ok_pushed d t tx s : tracked_ok d t → tx_id tx ∉ map tx_id (pending t) → tx_id tx ∉ all_ids (blocks t) →
  notify (on_post_apply_transaction (tx_id tx)) (plugin t) = (Ok tt, s) → tracked_ok d (mkTracked s (blocks t) (pending t ++ [tx]) (base t) (saved t)).
Proof.
  intros [] Hnot Hnew E. pose proof (records_fresh _ _ _ _ ok_base0 Hnew) as Hbase. pose proof (ok_pending0 (tx_id tx)) as Hx. rewrite decide_False, Hbase in Hx by done.
  unfold notify, try_catch, on_post_apply_transaction in E. rewrite bind_run in E. cbn [gets] in E. rewrite ok_tracking0 in E.
  unfold when, create_status in E. rewrite bind_run in E. cbn [gets] in E. rewrite Hx in E. injection E as <-.
  split; try done; simpl; rewrite map_app; simpl.
  - intros id. destruct (decide (id = tx_id tx)) as [->|Hne].
    + rewrite lookup_insert_eq, decide_True; [done|]. apply elem_of_app. right. by left.
    + rewrite lookup_insert_ne, (ok_pending0 id) by done. destruct (decide (id ∈ map tx_id (pending t))), (decide (id ∈ map tx_id (pending t) ++ [tx_id tx])) as [Hd|Hd];
        try done; rewrite elem_of_app, list_elem_of_singleton in Hd; naive_solver.
  - intros id [Hi| ->%list_elem_of_singleton]%elem_of_app; [auto|done].
Qed.
Lemma tracked_ok_applied d t b s : 0 ≤ d → tracked_ok d t → NoDup (all_ids (blocks t ++ [b])) →
  notify_block (Z.of_nat (length (blocks t)) + 1) b (settled t) = (Ok tt, s) →
  tracked_ok d (mkTracked s (blocks t ++ [b]) [] (status_index s) (base t :: saved t)).
Proof.
  intros Hd [] Hn E. destruct (block_handled d (blocks t) b (settled t)) as (l & E' & Hl); try done. rewrite (notify_block_ok _ _ _ _ E') in E. injection E as <-.
  split; try done; simpl.
  - rewrite length_app. simpl. by replace (Z.of_nat (length (blocks t) + 1)) with (Z.of_nat (length (blocks t)) + 1) by lia.
  - by exists (blocks t), b.
  - by intros id ?%elem_of_nil.
Qed.
Lemma tracked_ok_step d t t' : 0 ≤ d → tracked_ok d t → happens t t' → tracked_ok d t'.
Proof.
  intros Hd Ht Hs. destruct Hs as [t tx s Hp Hx E|t|t b s Hn E|t bs b l ls Hb Hl|t n].
  - by apply tracked_ok_pushed.
  - destruct Ht. split; try done; by intros id ?%elem_of_nil.
  - by apply tracked_ok_applied.
  - destruct Ht. rewrite Hb in *. rewrite Hl in ok_saved0. destruct ok_saved0 as (bs' & b' & [-> ->]%app_inj_tail & Hr & Hs).
    apply all_ids_snoc in ok_distinct0 as [? _]. split; try done; by intros id ?%elem_of_nil.
  - destruct Ht. split; try done. by apply saved_right_take.
Qed.
Lemma tracked_ok_reached depth track_after t : 0 ≤ depth → depth + hour_of_blocks < 2 ^ 32 → track_after ≤ hour_of_blocks →
  rtc happens (tracking_start depth track_after) t → tracked_ok (depth + hour_of_blocks) t.
Proof.
  intros Hd Hw Ha Hr. assert (0 ≤ hour_of_blocks) by done. assert (Hstart : tracked_ok (depth + hour_of_blocks) (tracking_start depth track_after)).
  { assert (Hz : Z.max 0 (track_after - hour_of_blocks) = 0) by lia. split; simpl; try fold hour_of_blocks; rewrite ?Hz; try done.
    - unfold u32. rewrite Z.mod_small by lia. done.
    - constructor.
    - apply records_nil. }
  revert Hstart. induction Hr as [|x y z Hs Hr IH]; [done|]. intros Hx. apply IH. apply (tracked_ok_step _ x); [lia|done|done].
Qed.
Lemma base_rebuilt d t c lib l : tracked_ok d t → 0 ≤ d → reads c (blocks t) lib → Z.of_nat (length (blocks t)) + 1 < 2 ^ 32 →
  rebuild_state c (set_status_index l (plugin t)) = (Ok tt, settled t).
Proof.
  intros [] Hd Hc Hlen. destruct (rebuild_records c (blocks t) lib (set_status_index l (plugin t))) as (l' & E & Hl'); try done.
  { simpl. lia. }
  rewrite E. unfold settled. simpl in Hl'. rewrite ok_depth0 in Hl'. by rewrite (records_unique _ _ _ _ ok_base0 Hl').
Qed.
Lemma tracked_lookup d t id k b : tracked_ok d t → first_kept d (Z.of_nat (length (blocks t))) ≤ k → block_at (blocks t) k = Some b → id ∈ ids b →
  status_index (plugin t) !! id = Some k.
Proof.
  intros [] Hk Hb Hi. rewrite ok_pending0. assert (Hl : base t !! id = Some k) by (apply ok_base0; eauto).
  destruct (decide _) as [Hp|]; [|done]. apply ok_apart0 in Hp. by rewrite Hp in Hl.
Qed.
(** C20: The table the plugin keeps up to date is the table it would rebuild.  The
    plugin tracks from the first block on (no more than an hour of blocks is to be
    left out); the chain then takes blocks, each with transactions the chain does
    not hold, undoes blocks, makes blocks irreversible, and takes and gives up
    transactions outside a block, in any order.  Without the pending transactions
    the table is always the one [rebuild_state] computes from the blocks alone,
    whatever the table held before; no handler throws while a block is applied
    (what it throws would be swallowed, and the table left incomplete); and the check
    that is made at startup, [state_is_valid], accepts the state.  (A plugin that
    tracks from a later block on is not covered: [restart_misses_block].) *)
Theorem tracking_matches_chain depth track_after t c lib : 0 ≤ depth → depth + hour_of_blocks < 2 ^ 32 → track_after ≤ hour_of_blocks →
  rtc happens (tracking_start depth track_after) t → reads c (blocks t) lib → Z.of_nat (length (blocks t)) + 1 < 2 ^ 32 →
  (∀ l, rebuild_state c (set_status_index l (plugin t)) = (Ok tt, settled t)) ∧
  (∀ b, NoDup (all_ids (blocks t ++ [b])) → (apply_block_handlers (Z.of_nat (length (blocks t)) + 1) b (settled t)).1 = Ok tt) ∧
  state_is_valid c (plugin t) = (Ok true, plugin t).
Proof.
  intros Hd Hw Ha Hr Hc Hlen. assert (0 ≤ depth + hour_of_blocks) by (assert (0 ≤ hour_of_blocks) by done; lia).
  pose proof (tracked_ok_reached _ _ _ Hd Hw Ha Hr) as Ht. split_and!.
  - intros l. by eapply base_rebuilt.
  - intros b Hb. destruct Ht. destruct (block_handled (depth + hour_of_blocks) (blocks t) b (settled t)) as (l & -> & _); done.
  - destruct Ht as [] eqn:E. eapply recorded_is_valid; try done; rewrite ok_depth0; [done|]. intros id k b Hk Hb Hi. exists k. by eapply tracked_lookup.
Qed.

(** ** The answers *)
(** A block is later than the one before it, and holds transactions that had not
    expired by then and expire within the hour.  The transactions of block 1 are
    not checked. *)
Definition timely (bs : list signed_block) : Prop :=
  ∀ k b b', block_at bs k = Some b → block_at bs (k + 1) = Some b' →
    timestamp (header b) < timestamp (header b') ∧
    ∀ tx, tx ∈ transactions b' → timestamp (header b) < expiration tx ≤ timestamp (header b) + XGT_MAX_TIME_UNTIL_EXPIRATION.
(** The transaction is in block [k], which is not block 1. *)
Definition included (tx : signed_transaction) (bs : list signed_block) (k : Z) : Prop :=
  2 ≤ k ∧ ∃ b, block_at bs k = Some b ∧ tx ∈ transactions b.
Lemma timely_mono bs j k b b' : timely bs → block_at bs j = Some b → block_at bs k = Some b' → j ≤ k → timestamp (header b) ≤ timestamp (header b').
Proof.
  intros Ht Hj Hk Hle. pose proof (block_at_bounds _ _ _ Hj). pose proof (block_at_bounds _ _ _ Hk).
  assert (Hn : ∃ n, k = j + Z.of_nat n) by (exists (Z.to_nat (k - j)); lia). destruct Hn as [n ->]. clear Hle. revert b' Hk H2.
  induction n as [|n IH]; intros b' Hk Hb; [rewrite Z.add_0_r in Hk; by simplify_eq|].
  destruct (block_at_in bs (j + Z.of_nat n)) as [m Hm]; [lia|]. replace (j + Z.of_nat (S n)) with (j + Z.of_nat n + 1) in Hk by lia.
  destruct (Ht _ _ _ Hm Hk) as [Hlt _]. specialize (IH m Hm ltac:(lia)). lia.
Qed.
Lemma included_expiration bs tx k j b : timely bs → included tx bs k → block_at bs j = Some b →
  (j < k → timestamp (header b) < expiration tx) ∧ (k ≤ j → expiration tx < timestamp (header b) + XGT_MAX_TIME_UNTIL_EXPIRATION).
Proof.
  intros Ht [Hk (bk & Hbk & Hi)] Hj. pose proof (block_at_bounds _ _ _ Hbk). destruct (block_at_in bs (k - 1)) as [p Hp]; [lia|].
  replace k with (k - 1 + 1) in Hbk by lia. destruct (Ht _ _ _ Hp Hbk) as [Hlt He]. specialize (He tx Hi). split; intros Hjk.
  - pose proof (timely_mono _ _ _ _ _ Ht Hj Hp ltac:(lia)). lia.
  - pose proof (timely_mono _ _ _ _ _ Ht Hbk Hj ltac:(lia)). lia.
Qed.
Lemma block_at_take bs n k : 1 ≤ k ≤ Z.of_nat n → block_at (take n bs) k = block_at bs k.
Proof. intros ?. unfold block_at. destruct (1 <=? k); [|done]. apply lookup_take_lt. lia. Qed.
Lemma same_prefix bs bs' n k : take n bs' = take n bs → 1 ≤ k ≤ Z.of_nat n → block_at bs' k = block_at bs k.
Proof. intros He ?. by rewrite <- (block_at_take bs' n), He, block_at_take. Qed.
(** No chain that agrees up to block [j] has the transaction later than that. *)
Lemma expired_out bs bs' tx n b : timely bs' → take n bs' = take n bs → block_at bs (Z.of_nat n) = Some b → expiration tx ≤ timestamp (header b) →
  ∀ k, Z.of_nat n < k → ¬ included tx bs' k.
Proof.
  intros Ht He Hb Hx k Hk Hi. pose proof (block_at_bounds _ _ _ Hb). rewrite <- (same_prefix bs bs' n) in Hb by (done || lia).
  destruct (included_expiration bs' tx k _ b Ht Hi Hb) as [Hlt _]. specialize (Hlt Hk). lia.
Qed.
Lemma untracked_absent bs lo tx b : timely bs → block_at bs lo = Some b → (∀ k, lo ≤ k → ¬ included tx bs k) →
  timestamp (header b) + XGT_MAX_TIME_UNTIL_EXPIRATION ≤ expiration tx → ∀ k, ¬ included tx bs k.
Proof.
  intros Ht Hb Hu Hx k Hi. destruct (decide (lo ≤ k)) as [|Hlt]; [by eapply Hu|].
  destruct (included_expiration bs tx k lo b Ht Hi Hb) as [_ He]. specialize (He ltac:(lia)). lia.
Qed.
(** In none of the chains that begin with the first [n] blocks of this one. *)
Definition never_included (n : nat) (bs : list signed_block) (tx : signed_transaction) : Prop :=
  ∀ bs' k, timely bs' → take n bs' = take n bs → ¬ included tx bs' k.
Lemma expired_never bs tx n b : (∀ k, ¬ included tx bs k) → block_at bs (Z.of_nat n) = Some b → expiration tx ≤ timestamp (header b) →
  never_included n bs tx.
Proof.
  intros Ha Hb Hx bs' k Ht He Hi. destruct (decide (Z.of_nat n < k)) as [|Hle]; [by eapply (expired_out bs bs' tx n b)|].
  apply (Ha k). destruct Hi as [? (b' & Hb' & ?)]. split; [done|]. exists b'. rewrite <- (same_prefix bs bs' n) by (done || lia). done.
Qed.
(** What an answer says: [lo] is the first block that is kept, [lib] the last
    irreversible one.  Only what the last three say of blocks that are not kept
    or not there yet depends on the rules on time. *)
Definition truthful (lo lib : Z) (t : tracked) (tx : signed_transaction) (answer : transaction_status * option Z) : Prop :=
  let within n := ∃ b, block_at (blocks t) n = Some b ∧ tx_id tx ∈ ids b in
  let untracked := ∀ k, lo ≤ k → ¬ included tx (blocks t) k in
  let is_pending := tx_id tx ∈ map tx_id (pending t) in
  let expired_by n := ∃ b, block_at (blocks t) n = Some b ∧ expiration tx ≤ timestamp (header b) in
  match answer with
  | (within_irreversible_block, Some n) => n ≤ lib ∧ within n
  | (within_reversible_block, Some n) => lib < n ∧ within n
  | (within_mempool, None) => is_pending ∧ untracked
  | (too_old, None) => untracked ∧ ¬ is_pending
  | (expired_irreversible, None) => (untracked ∧ ¬ is_pending) ∧ expired_by lib ∧
      (timely (blocks t) → never_included (Z.to_nat lib) (blocks t) tx)
  | (expired_reversible, None) => (untracked ∧ ¬ is_pending) ∧ expired_by (Z.of_nat (length (blocks t))) ∧
      (timely (blocks t) → never_included (length (blocks t)) (blocks t) tx)
  | (unknown, None) => (untracked ∧ ¬ is_pending) ∧ (timely (blocks t) → ∀ k, ¬ included tx (blocks t) k)
  | _ => False
  end.
Lemma last_block_at bs b : last bs = Some b → block_at bs (Z.of_nat (length bs)) = Some b.
Proof.
  rewrite last_lookup. intros Hb. pose proof (lookup_lt_Some _ _ _ Hb). unfold block_at. destruct (Z.leb_spec 1 (Z.of_nat (length bs))); [|lia].
  rewrite <- Hb. f_equal. lia.
Qed.
Lemma block_time_ok c bs lib k b (s : impl) : reads c bs lib → block_at bs k = Some b → block_time c k s = (Ok (timestamp (header b)), s).
Proof. intros (_ & _ & _ & _ & Hr) Hb. unfold block_time. rewrite bind_run. unfold lift. by rewrite (Hr k b Hb). Qed.
Lemma expiration_truthful c lib lo t tx (s : impl) : reads c (blocks t) lib → 1 ≤ lo ≤ Z.of_nat (length (blocks t)) →
  (∀ k, lo ≤ k → ¬ included tx (blocks t) k) → tx_id tx ∉ map tx_id (pending t) →
  ∃ st, expiration_status c lo lib (expiration tx) s = (Ok st, s) ∧ truthful lo lib t tx (st, None).
Proof.
  intros Hc Hlo Hu Hp. destruct (block_at_in (blocks t) lo Hlo) as [b Hb]. unfold expiration_status.
  rewrite bind_run, (block_time_ok c (blocks t) lib lo b) by done.
  destruct (Z.ltb_spec (expiration tx) (timestamp (header b) + XGT_MAX_TIME_UNTIL_EXPIRATION)) as [|Hx]; [by exists too_old|].
  pose proof (λ Ht, untracked_absent _ _ _ _ Ht Hb Hu Hx) as Ha. pose proof Hc as (_ & Hh & _ & Hlib & _).
  rewrite bind_run. assert (Hi : ∃ r : bool, (if 0 <? lib then (t0 ← block_time c lib; mret (expiration tx <=? t0)) else mret false) s = (Ok r, s) ∧
    (r = true → ∃ bl, block_at (blocks t) lib = Some bl ∧ expiration tx ≤ timestamp (header bl))).
  { destruct (Z.ltb_spec 0 lib); [|by exists false]. destruct (block_at_in (blocks t) lib) as [bl Hbl]; [lia|]. rewrite bind_run.
    rewrite (block_time_ok c (blocks t) lib lib bl) by done. eexists. split; [reflexivity|]. intros He%Z.leb_le. by exists bl. }
  destruct Hi as (r & -> & Hi). destruct r.
  { destruct (Hi eq_refl) as (bl & Hbl & He). exists expired_irreversible. split; [done|]. split; [done|]. split; [by exists bl|].
    intros Ht. pose proof (block_at_bounds _ _ _ Hbl). apply (expired_never _ _ _ bl); [by apply Ha| |done]. by rewrite Z2Nat.id by lia. }
  destruct (last (blocks t)) as [bh|] eqn:Eh; [|apply last_None in Eh; rewrite Eh in Hlo; simpl in Hlo; lia].
  rewrite bind_run. unfold lift. rewrite (Hh bh eq_refl). eexists. split; [reflexivity|]. apply last_block_at in Eh.
  destruct (Z.ltb_spec (expiration tx) (timestamp (header bh))); [|by split].
  split; [done|]. split; [exists bh; split; [done|lia]|]. intros Ht. apply (expired_never _ _ _ bh); [by apply Ha|done|lia].
Qed.
Lemma found_truthful d t tx lib n : tracked_ok d t → status_index (plugin t) !! tx_id tx = Some n →
  truthful (first_kept d (Z.of_nat (length (blocks t)))) lib t tx
    (if n =? 0 then (within_mempool, None)
     else if n <=? lib then (within_irreversible_block, Some n) else (within_reversible_block, Some n)).
Proof.
  intros Ht Hn. pose proof (λ k b, tracked_lookup d t (tx_id tx) k b Ht) as Hk. destruct Ht. pose proof (ok_pending0 (tx_id tx)) as Hp. rewrite Hn in Hp.
  destruct (Z.eqb_spec n 0) as [->|Hz].
  - split.
    + destruct (decide _); [done|]. symmetry in Hp. apply ok_base0 in Hp as [? _]. unfold first_kept in *. lia.
    + intros k Hle [? (b & Hb & Hi)]. assert (Hin : tx_id tx ∈ ids b) by (by apply list_elem_of_In, in_map, list_elem_of_In).
      rewrite (Hk k b Hle Hb Hin) in Hn. injection Hn as ->. lia.
  - destruct (decide _); [congruence|]. symmetry in Hp. apply ok_base0 in Hp as [_ (b & Hb & Hi)]. destruct (Z.leb_spec n lib); (split; [done|eauto]).
Qed.
Lemma not_found_untracked d t tx : tracked_ok d t → status_index (plugin t) !! tx_id tx = None →
  (∀ k, first_kept d (Z.of_nat (length (blocks t))) ≤ k → ¬ included tx (blocks t) k) ∧ tx_id tx ∉ map tx_id (pending t).
Proof.
  intros Ht Hn. split.
  - intros k Hle [? (b & Hb & Hi)]. assert (Hin : tx_id tx ∈ ids b) by (by apply list_elem_of_In, in_map, list_elem_of_In).
    by rewrite (tracked_lookup d t (tx_id tx) k b Ht Hle Hb Hin) in Hn.
  - intros Hi. rewrite (ok_pending d t Ht (tx_id tx)), decide_True in Hn by done. done.
Qed.
(** C21: [find_transaction] tells the truth.  The plugin tracks from the first block
    on (it is told to leave out no more than an hour of blocks), and the chain has
    had any history.  Asked for a transaction and its expiration, the call returns,
    and: a transaction in a block that is kept is reported with the number of that
    block, as irreversible exactly up to the last irreversible block;
    [within_mempool] is said of pending transactions only; every other answer means
    that it is neither pending nor in a block that is kept, and "expired" that the
    last irreversible block or the head is past its expiration.  What these answers
    say of other blocks needs the rules on time, [timely]: times that grow and
    expirations within an hour of the block before, of which [_apply_block] checks
    only the second.  Then [unknown] means that it is not in the chain, however
    old, [expired_irreversible] that no chain with the same irreversible blocks
    ever includes it, and [expired_reversible] that no extension of the present
    chain does.  (Block 1, whose transactions are not checked against the time, is
    left out of the negative answers.) *)
Theorem find_transaction_truthful depth track_after t c lib tx : 0 ≤ depth → depth + hour_of_blocks < 2 ^ 32 → track_after ≤ hour_of_blocks →
  rtc happens (tracking_start depth track_after) t → reads c (blocks t) lib → 1 ≤ Z.of_nat (length (blocks t)) < 2 ^ 32 - 1 →
  ∃ answer, find_transaction c (tx_id tx) (Some (expiration tx)) (plugin t) = (Ok answer, plugin t) ∧
    truthful (first_kept (depth + hour_of_blocks) (Z.of_nat (length (blocks t)))) lib t tx answer.
Proof.
  intros Hd Hw Ha Hr Hc Hlen. assert (Hh : hour_of_blocks = 720) by done.
  pose proof (tracked_ok_reached _ _ _ Hd Hw Ha Hr) as Ht. set (d := depth + hour_of_blocks) in *. unfold find_transaction.
  rewrite bind_run, (earliest_tracked c (blocks t) lib) by (done || apply Ht || (rewrite (ok_depth d t Ht); lia) || lia).
  rewrite (ok_depth d t Ht). set (lo := first_kept _ _). rewrite bind_run. unfold lift at 1. pose proof Hc as (-> & _ & Hl & _ & _).
  assert (Hlo : 1 ≤ lo ≤ Z.of_nat (length (blocks t))) by (unfold lo, first_kept; lia). destruct (Z.leb_spec lo (Z.of_nat (length (blocks t)))); [|lia].
  rewrite bind_run. unfold lift at 1. rewrite Hl, bind_run. cbn [gets]. destruct (status_index (plugin t) !! tx_id tx) as [n|] eqn:Hn.
  - eexists. split; [reflexivity|]. by apply found_truthful.
  - destruct (not_found_untracked d t tx Ht Hn) as [Hu Hp].
    destruct (expiration_truthful c lib lo t tx (plugin t) Hc Hlo Hu Hp) as (st & E & Htr). rewrite bind_run, E. by exists (st, None).
Qed.
End records.

(** ** A history, run *)
Module TxStatusDemo.
Import TxStatus.
#[local] Existing Instance DemoEnv.demo.
(** The blocks, and the number of the last irreversible one. *)
#[local] Instance list_reads : ChainReads (list signed_block * Z) := {|
  read_head_block_num c := Ok (Z.of_nat (length c.1));
  read_head_block_time c := match last c.1 with Some b => Ok (timestamp (header b)) | None => Ok 0 end;
  read_last_irreversible_block_num c := Ok c.2;
  read_block_by_number n c := Ok (block_at c.1 n)
|}.
Definition tx (expires : Z) : signed_transaction := mkTx 0 0 expires [] [] [].
Definition blk (n : Z) (txs : list signed_transaction) : signed_block :=
  mkBlock (mkHeader [Block.endian_reverse_u32 (n - 1); 0; 0; 0; 0] (1000 + 5 * n) "alice" [0; 0; 0; 0; 0] [] 0) txs.
Definition chain_of_two : list signed_block := [blk 1 []; blk 2 [tx 1500]].
(** Block 3 came with the second transaction and was undone; the transaction is
    pending again. *)
Definition base_of_two : statuses := {[ tx_id (tx 1500) := 2 ]}.
Definition at_state (l : statuses) (bs : list signed_block) (p : list signed_transaction) (l0 : statuses) (ls : list statuses) : tracked :=
  mkTracked (set_status_index l (plugin_initialize 10 0 false ∅)) bs p l0 ls.
Definition second_pending : tracked := at_state (<[tx_id (tx 1600) := 0]> base_of_two) chain_of_two [tx 1600] base_of_two [∅].
Lemma one_new_id (t t' : signed_transaction) : tx_id t ≠ tx_id t' → NoDup [tx_id t; tx_id t'].
Proof. intros Hne. apply NoDup_cons. split; [by intros ?%list_elem_of_singleton|apply NoDup_singleton]. Qed.
Lemma second_pending_reached : rtc happens (tracking_start 10 0) second_pending.
Proof.
  set (l1 := {[ tx_id (tx 1500) := 0 ]} : statuses). set (l3 := <[tx_id (tx 1600) := 3]> base_of_two).
  apply (rtc_l _ _ (at_state l1 [] [tx 1500] ∅ [])); [by apply (transaction_pushed (at_state ∅ [] [] ∅ [])); try apply not_elem_of_nil|].
  apply (rtc_l _ _ (at_state ∅ [blk 1 []] [] ∅ [∅])).
  { apply (block_applied (at_state l1 [] [tx 1500] ∅ []) (blk 1 [])); [by apply NoDup_nil|done]. }
  apply (rtc_l _ _ (at_state base_of_two chain_of_two [] base_of_two [∅; ∅])).
  { apply (block_applied (at_state ∅ [blk 1 []] [] ∅ [∅]) (blk 2 [tx 1500])); [apply NoDup_singleton|done]. }
  apply (rtc_l _ _ (at_state l3 (chain_of_two ++ [blk 3 [tx 1600]]) [] l3 [base_of_two; ∅; ∅])).
  { apply (block_applied (at_state base_of_two chain_of_two [] base_of_two [∅; ∅]) (blk 3 [tx 1600])); [by apply (one_new_id (tx 1500) (tx 1600))|done]. }
  apply (rtc_l _ _ (at_state base_of_two chain_of_two [] base_of_two [∅; ∅])).
  { by apply (block_popped (at_state l3 (chain_of_two ++ [blk 3 [tx 1600]]) [] l3 [base_of_two; ∅; ∅]) chain_of_two (blk 3 [tx 1600])). }
  apply (rtc_l _ _ (at_state base_of_two chain_of_two [] base_of_two [∅])).
  { apply (committed (at_state base_of_two chain_of_two [] base_of_two [∅; ∅]) 1). }
  apply rtc_once. apply (transaction_pushed (at_state base_of_two chain_of_two [] base_of_two [∅])); [apply not_elem_of_nil|by intros ?%list_elem_of_singleton|done].
Qed.
Lemma two_read : reads (chain_of_two, 1) chain_of_two 1.
Proof. split_and!; try done; try (simpl; lia). - by intros b [= <-]. - intros k b Hb. simpl. by rewrite Hb. Qed.
Lemma two_timely : timely chain_of_two.
Proof.
  intros k b b' Hb Hb'. pose proof (block_at_bounds _ _ _ Hb). pose proof (block_at_bounds _ _ _ Hb') as Hk. simpl in Hk.
  replace k with 1 in * by lia. injection Hb as <-. injection Hb' as <-. split; [done|]. intros t ->%list_elem_of_singleton. done.
Qed.
Lemma tracking_matches_chain_witness :
  rebuild_state (chain_of_two, 1) (plugin second_pending) = (Ok tt, settled second_pending) ∧
  (apply_block_handlers 3 (blk 3 [tx 1600]) (settled second_pending)).1 = Ok tt.
Proof.
  destruct (tracking_matches_chain 10 0 second_pending (chain_of_two, 1) 1) as (Hr & Hb & _);
    [done|done|done|apply second_pending_reached|apply two_read|done|].
  split; [apply (Hr (status_index (plugin second_pending)))|]. apply (Hb (blk 3 [tx 1600])). apply (one_new_id (tx 1500) (tx 1600)). done.
Defined.
Lemma find_transaction_truthful_witness :
  ∃ answer, find_transaction (chain_of_two, 1) (tx_id (tx 1500)) (Some 1500) (plugin second_pending) = (Ok answer, plugin second_pending) ∧
    truthful 1 1 second_pending (tx 1500) answer ∧ answer = (within_reversible_block, Some 2) ∧ timely (blocks second_pending).
Proof.
  destruct (find_transaction_truthful 10 0 second_pending (chain_of_two, 1) 1 (tx 1500)) as (a & E & Ha);
    [done|done|done|apply second_pending_reached|apply two_read|done|].
  exists a. split_and!; [exact E|exact Ha| |exact two_timely]. vm_compute in E. injection E as <-. reflexivity.
Defined.

(** A plugin that was told to track from a later block forgets, when the node is
    started again, that it was tracking, until the next block has been applied.
    The transactions of that block are not recorded ([restart_misses_block]), and
    the node does not start again after that ([restart_then_refused]). *)
Definition restarted : transaction_status_impl := plugin_initialize 10 721 false ∅.
Definition started (blocks : list signed_block) (s : transaction_status_impl) : bool :=
  bool_decide ((plugin_startup (blocks, 0) s).1 = Ok true).
Definition after_block_3 : transaction_status_impl := (apply_block_handlers 3 (blk 3 [tx 1600]) restarted).2.
Definition chain_of_three : list signed_block := [blk 1 []; blk 2 []; blk 3 [tx 1600]].
Example restart_misses_block :
  started [blk 1 []; blk 2 []] restarted = true ∧ tracking after_block_3 = true ∧
  (get_earliest_tracked_block_num (chain_of_three, 0) after_block_3).1 = Ok 2 ∧
  (find_transaction (chain_of_three, 0) (tx_id (tx 1600)) None after_block_3).1 = Ok (unknown, None).
Proof. vm_compute. done. Qed.
Example restart_then_refused : started chain_of_three (plugin_initialize 10 721 false (status_index after_block_3)) = false.
Proof. vm_compute. reflexivity. Qed.
End TxStatusDemo.
