(* ===== verification/WalletByKey.v ===== *)
(** * The wallets of a key

    libraries/plugins/wallet_by_key/wallet_by_key_plugin.cpp, which keeps the wallet
    of each key and charges energy for transfers, and
    libraries/plugins/apis/wallet_by_key_api/wallet_by_key_api.cpp.  The handlers
    are given the authorities of the chain as they are when they are called. *)
From S2P Require Import Prelude Asset Protocol SignState ResourceDynamics Objects Database LedgerProps Apply ApplyFacts.
#[local] Open Scope Z_scope.

(** ** State *)
(** [key_lookup_index] has a unique index by the key alone, so it is a map; a
    search for a key and a wallet compares the key only. *)
Abbreviation key_table := (gmap public_key_type wallet_name_type).
Record wallet_by_key_plugin_impl := mkByKey {
  cached_keys : gset public_key_type;
  key_lookup : key_table
}.
Definition XGT_VOTING_ENERGY_REGENERATION_SECONDS : Z := 1 * 60 * 60 * 24.
Definition set_w_energybar (v : energybar) (o : wallet_object) : wallet_object :=
  mkWallet (w_id o) (w_name o) (w_memo_key o) (w_last_account_update o) (w_created o) (w_mined o)
    (w_recovery_account o) (w_reset_account o) (w_last_account_recovery o) (w_comment_count o)
    (w_lifetime_vote_count o) (w_post_count o) (w_can_vote o) v (w_balance o)
    (w_witnesses_voted_for o) (w_last_post o) (w_last_root_post o) (w_last_post_edit o)
    (w_last_vote_time o) (w_post_bandwidth o).
Abbreviation authorities := (wallet_name_type → option account_authority_object).

Module WalletByKey.
Section with_env.
Context `{Env}.
Abbreviation K := (St wallet_by_key_plugin_impl).
Definition update_cache (f : gset public_key_type → gset public_key_type) : K unit := λ s, (Ok tt, mkByKey (f (cached_keys s)) (key_lookup s)).
Definition update_lookup (f : key_table → key_table) : K unit := λ s, (Ok tt, mkByKey (cached_keys s) (f (key_lookup s))).
Definition keys_in (a : authority) : gset public_key_type := list_to_set (Authority.get_keys a).
Definition authority_keys (a : account_authority_object) : gset public_key_type :=
  keys_in (aa_recovery a) ∪ keys_in (aa_money a) ∪ keys_in (aa_social a).
Definition clear_cache : K unit := update_cache (λ _, ∅).
Definition cache_auths (a : account_authority_object) : K unit := update_cache (λ c, c ∪ authority_keys a).
Definition add_key (account : wallet_name_type) (key : public_key_type) : K unit :=
  s ← get_st;
  if bool_decide (key ∈ cached_keys s) then update_cache (.∖ {[key]})
  else match key_lookup s !! key with
       | None => update_lookup (<[key := account]>)
       | Some _ => mret tt
       end.
Definition remove_key (key : public_key_type) : K unit := update_lookup (delete key).
(** The keys are dealt with one by one, each apart from the others. *)
Definition update_key_lookup (a : account_authority_object) : K unit :=
  for_each (elements (authority_keys a)) (add_key (aa_account a)) ;;
  c ← gets cached_keys;
  for_each (elements c) remove_key ;;
  clear_cache.
Definition cache_wallet (find : authorities) (name : wallet_name_type) : K unit :=
  clear_cache ;;
  match find name with Some a => cache_auths a | None => mret tt end.
Definition on_pre_apply_operation (find : authorities) (op : operation) : K unit :=
  match op with
  | op_wallet_create _ => clear_cache
  | op_wallet_update o => cache_wallet find (wu_wallet o)
  | op_recover_wallet o => cache_wallet find (rw_account_to_recover o)
  | op_pow _ => clear_cache
  | _ => mret tt
  end.
(** The wallet whose keys are looked at after the operation. *)
Definition subject (op : operation) : option wallet_name_type :=
  match op with
  | op_wallet_create o => Some (wallet_name_of_keys (Authority.get_keys (wc_recovery o)))
  | op_wallet_update o => Some (wu_wallet o)
  | op_recover_wallet o => Some (rw_account_to_recover o)
  | op_pow o => Some (Apply.get_worker_name o)
  | _ => None
  end.
Definition on_post_apply_operation (find : authorities) (op : operation) : K unit :=
  match subject op with
  | Some name => match find name with Some a => update_key_lookup a | None => mret tt end
  | None => mret tt
  end.

(** ** Energy *)
Definition energy_cost (op : operation) : Z := match op with op_transfer _ => 1 | _ => 0 end.
Definition transaction_cost (tx : signed_transaction) : Z := fold_left (λ c op, u64 (c + energy_cost op)) (operations tx) 0.
(** A key without an entry: the null pointer is followed. *)
Fixpoint get_key_references (keys : list public_key_type) : K (list wallet_name_type) :=
  match keys with
  | [] => mret []
  | key :: keys =>
      l ← gets key_lookup;
      match l !! key with
      | None => mthrow Fault
      | Some account => rest ← get_key_references keys; mret (account :: rest)
      end
  end.
(** A failed assertion leaves the wallet as it is. *)
Definition charge (cost now : Z) (w : wallet_object) : result wallet_object :=
  let params := mkEnergyParams (amount (w_balance w)) XGT_VOTING_ENERGY_REGENERATION_SECONDS in
  let bar := w_energybar w in
  let bar := if last_update_time bar =? 0 then mkEnergybar (current_energy bar) now else bar in
  match Energybar.regenerate_energy false params now bar with
  | Ok bar => Ok (set_w_energybar (Energybar.use_energy_u64 cost 0 bar) w)
  | Exc AssertException => Ok w
  | Exc e => Exc e
  end.
Definition charge_wallet (cost now : Z) (name : wallet_name_type) : DB unit :=
  w ← gets (Db.find_account name);
  match w with
  | None => mret tt
  | Some w => modify t_wallet (w_id w) (charge cost now)
  end.
(** The chain and the plugin. *)
Definition in_chain {A} (m : DB A) : St (database * wallet_by_key_plugin_impl) A := λ s, let (r, d) := m s.1 in (r, (d, s.2)).
Definition in_plugin {A} (m : K A) : St (database * wallet_by_key_plugin_impl) A := λ s, let (r, p) := m s.2 in (r, (s.1, p)).
Definition on_pre_apply_transaction (tx : signed_transaction) : St (database * wallet_by_key_plugin_impl) unit :=
  let cost := transaction_cost tx in
  if cost =? 0 then mret tt
  else
    gpo ← in_chain Db.get_dynamic_global_properties;
    key_set ← lift (Apply.signature_keys tx);
    wallets ← in_plugin (get_key_references key_set);
    for_each wallets (λ name, in_chain (charge_wallet cost (dgp_time gpo) name)).
(** *** The API: at most one wallet for a key *)
Definition api_get_key_references (keys : list public_key_type) (s : wallet_by_key_plugin_impl) : list (list wallet_name_type) :=
  map (λ key, match key_lookup s !! key with Some account => [account] | None => [] end) keys.
Definition generate_wallet_name (recovery_keys : list public_key_type) : wallet_name_type := wallet_name_of_keys recovery_keys.
End with_env.
End WalletByKey.

(** ** What the handlers do to the table *)
Section lookup.
Context `{Env}.
Import WalletByKey.
Abbreviation impl := wallet_by_key_plugin_impl.
Lemma add_all account keys (s : impl) : NoDup keys →
  ∃ l, for_each keys (add_key account) s = (Ok tt, mkByKey (cached_keys s ∖ list_to_set keys) l) ∧
    ∀ k, l !! k = if decide (k ∈ keys ∧ (k ∉ cached_keys s) ∧ key_lookup s !! k = None) then Some account else key_lookup s !! k.
Proof.
  intros Hn. revert s. induction Hn as [|key keys Hx Hn IH]; intros s.
  { exists (key_lookup s). split; [|intros k; by destruct (decide _) as [[?%elem_of_nil _]|]]. simpl. rewrite difference_empty_L. by destruct s. }
  cbn [for_each]. rewrite bind_run. unfold add_key at 1. rewrite bind_run. cbn [get_st].
  set (s1 := (if bool_decide (key ∈ cached_keys s) then mkByKey (cached_keys s ∖ {[key]}) (key_lookup s)
    else match key_lookup s !! key with None => mkByKey (cached_keys s) (<[key := account]> (key_lookup s)) | Some _ => s end)).
  destruct (IH s1) as (l & E & Hl). exists l. assert (Hc : cached_keys s1 ∖ list_to_set keys = cached_keys s ∖ list_to_set (key :: keys)).
  { unfold s1. case_bool_decide; [|destruct (key_lookup s !! key)]; simpl; set_solver. }
  rewrite <- Hc, <- E. split; [unfold s1; case_bool_decide; [done|]; by destruct (key_lookup s !! key)|].
  intros k. rewrite Hl. destruct (decide (k = key)) as [->|Hk].
  - rewrite decide_False by naive_solver. unfold s1. case_bool_decide as Hb.
    + rewrite decide_False; [done|]. naive_solver.
    + destruct (key_lookup s !! key) eqn:El; simpl.
      * rewrite decide_False; [done|]. naive_solver.
      * rewrite lookup_insert_eq, decide_True; [done|]. split_and!; [by left|done|done].
  - assert (key_lookup s1 !! k = key_lookup s !! k ∧ (k ∈ cached_keys s1 ↔ k ∈ cached_keys s)) as [-> Hcs].
    { unfold s1. case_bool_decide; [|destruct (key_lookup s !! key)]; simpl; rewrite ?lookup_insert_ne by done; set_solver. }
    destruct (decide (k ∈ keys ∧ _)) as [Hd|Hd], (decide (k ∈ key :: keys ∧ _)) as [He|He]; try done; rewrite elem_of_cons in He; naive_solver.
Qed.
Lemma remove_all keys (s : impl) :
  ∃ l, for_each keys remove_key s = (Ok tt, mkByKey (cached_keys s) l) ∧ ∀ k, l !! k = if decide (k ∈ keys) then None else key_lookup s !! k.
Proof.
  revert s. induction keys as [|key keys IH]; intros s.
  { exists (key_lookup s). split; [by destruct s|]. intros k. by destruct (decide _) as [?%elem_of_nil|]. }
  cbn [for_each]. rewrite bind_run. cbn [remove_key update_lookup]. destruct (IH (mkByKey (cached_keys s) (delete key (key_lookup s)))) as (l & E & Hl).
  exists l. split; [exact E|]. intros k. rewrite Hl. simpl. destruct (decide (k = key)) as [->|Hk].
  - rewrite lookup_delete_eq, (decide_True (P := key ∈ key :: keys)) by (by left). by destruct (decide _).
  - rewrite lookup_delete_ne by done. destruct (decide (k ∈ keys)), (decide (k ∈ key :: keys)) as [Hd|Hd]; try done; rewrite elem_of_cons in Hd; naive_solver.
Qed.
(** The entry of a key after the wallet [a] has been looked at. *)
Definition entry_after (a : account_authority_object) (s : impl) (k : public_key_type) : option wallet_name_type :=
  if decide (k ∈ authority_keys a) then
    if decide ((k ∉ cached_keys s) ∧ key_lookup s !! k = None) then Some (aa_account a) else key_lookup s !! k
  else if decide (k ∈ cached_keys s) then None else key_lookup s !! k.
Lemma update_key_lookup_spec a (s : impl) :
  ∃ l, update_key_lookup a s = (Ok tt, mkByKey ∅ l) ∧ ∀ k, l !! k = entry_after a s k.
Proof.
  unfold update_key_lookup. rewrite bind_run. destruct (add_all (aa_account a) (elements (authority_keys a)) s) as (l1 & -> & H1); [apply NoDup_elements|].
  rewrite bind_run. cbn [gets cached_keys]. rewrite bind_run. destruct (remove_all (elements (cached_keys s ∖ list_to_set (elements (authority_keys a))))
    (mkByKey (cached_keys s ∖ list_to_set (elements (authority_keys a))) l1)) as (l2 & -> & H2).
  exists l2. split; [done|]. intros k. rewrite H2. simpl. rewrite H1. unfold entry_after. rewrite list_to_set_elements_L.
  destruct (decide (k ∈ authority_keys a)) as [Hk|Hk].
  - rewrite decide_False by (rewrite elem_of_elements; set_solver). destruct (decide (k ∈ elements _ ∧ _)) as [Hd|Hd], (decide ((k ∉ cached_keys s) ∧ _)) as [He|He];
      try done; rewrite elem_of_elements in Hd; naive_solver.
  - destruct (decide (k ∈ elements (cached_keys s ∖ _))) as [Hd|Hd]; rewrite elem_of_elements in Hd.
    + by rewrite decide_True by set_solver.
    + rewrite (decide_False (P := k ∈ cached_keys s)) by set_solver. rewrite decide_False; [done|]. rewrite elem_of_elements. naive_solver.
Qed.

(** ** The table and the authorities *)
(** An operation with both handlers around it; the authorities become [find']. *)
Definition notified (find : authorities) (op : operation) (find' : authorities) (s : impl) : impl :=
  (on_post_apply_operation find' op (on_pre_apply_operation find op s).2).2.
(** What the chain does to the authorities in an operation: only the subject's
    change, and creating a wallet or mining does not change one that is there. *)
Definition only_creates (op : operation) : bool := match op with op_wallet_create _ | op_pow _ => true | _ => false end.
Record fits (find : authorities) (op : operation) (find' : authorities) : Prop := {
  fits_others : ∀ n, subject op ≠ Some n → find' n = find n;
  fits_stays : ∀ n, is_Some (find n) → is_Some (find' n);
  fits_creates : ∀ n, only_creates op = true → subject op = Some n → find n = None ∨ find' n = find n;
  fits_named : ∀ n a, find' n = Some a → aa_account a = n
}.
Definition holds_key (find : authorities) (n : wallet_name_type) (k : public_key_type) : Prop := ∃ a, find n = Some a ∧ k ∈ authority_keys a.
Definition exclusive (find : authorities) : Prop := ∀ n n' k, holds_key find n k → holds_key find n' k → n = n'.
Definition with_wallet (n : wallet_name_type) (a : account_authority_object) (find : authorities) : authorities :=
  λ m, if bool_decide (m = n) then Some a else find m.
(** The authorities, the keys of wallets that came into being without one of the
    operations above, and the plugin.  When blocks are undone the authorities and
    the table go back together, and the cache stays. *)
Inductive reached : authorities → gset (public_key_type * wallet_name_type) → impl → Prop :=
| r_start : reached (λ _, None) ∅ (mkByKey ∅ ∅)
| r_silent find u s n a : reached find u s → find n = None → exclusive (with_wallet n a find) →
    reached (with_wallet n a find) (u ∪ set_map (λ k, (k, n)) (authority_keys a)) s
| r_applied find u s op find' : reached find u s → fits find op find' → exclusive find' → reached find' u (notified find op find' s)
| r_failed find u s op : reached find u s → reached find u (on_pre_apply_operation find op s).2
| r_undone find u s find0 u0 s0 : reached find u s → reached find0 u0 s0 → reached find0 u0 (mkByKey (cached_keys s) (key_lookup s0)).
Definition sound (find : authorities) (l : key_table) : Prop := ∀ k n, l !! k = Some n → holds_key find n k.
Definition complete (find : authorities) (u : gset (public_key_type * wallet_name_type)) (l : key_table) : Prop :=
  ∀ n k, holds_key find n k → l !! k = Some n ∨ (k, n) ∈ u.
Lemma pre_keeps_lookup find op (s : impl) : key_lookup (on_pre_apply_operation find op s).2 = key_lookup s.
Proof. destruct op; try done; simpl; unfold cache_wallet; rewrite bind_run; simpl; by destruct (find _). Qed.
(** The cache when the evaluator is done. *)
Lemma pre_cache find op n (s : impl) : subject op = Some n →
  cached_keys (on_pre_apply_operation find op s).2 =
    if only_creates op then ∅ else match find n with Some a => authority_keys a | None => ∅ end.
Proof.
  intros Hn. destruct op; try discriminate Hn; try done; injection Hn as <-; simpl; unfold cache_wallet; rewrite bind_run; simpl;
    destruct (find _); simpl; set_solver.
Qed.
Lemma notified_lookup find op find' (s : impl) :
  (∃ n a, subject op = Some n ∧ find' n = Some a ∧
    ∀ k, key_lookup (notified find op find' s) !! k = entry_after a (on_pre_apply_operation find op s).2 k) ∨
  ((∀ n, subject op = Some n → find' n = None) ∧ key_lookup (notified find op find' s) = key_lookup s).
Proof.
  unfold notified, on_post_apply_operation. destruct (subject op) as [n|] eqn:Hn; [|right; by rewrite <- (pre_keeps_lookup find op s)].
  destruct (find' n) as [a|] eqn:Ha.
  - left. exists n, a. split_and!; [done|done|]. destruct (update_key_lookup_spec a (on_pre_apply_operation find op s).2) as (l & -> & Hl). done.
  - right. split; [by intros ? [= <-]|]. apply pre_keeps_lookup.
Qed.
Lemma same_find_holds find find' n k : find' n = find n → holds_key find' n k ↔ holds_key find n k.
Proof. intros E. unfold holds_key. by rewrite E. Qed.
Section step.
Context (find : authorities) (u : gset (public_key_type * wallet_name_type)) (s : impl) (op : operation) (find' : authorities).
Context (Hs : sound find (key_lookup s)) (Hc : complete find u (key_lookup s)) (Hx : exclusive find) (Hx' : exclusive find') (Hf : fits find op find').
Context (n : wallet_name_type) (a : account_authority_object) (Hn : subject op = Some n) (Ha : find' n = Some a).
Let s1 := (on_pre_apply_operation find op s).2.
Lemma cached_held k : k ∈ cached_keys s1 → holds_key find n k.
Proof.
  unfold s1. rewrite (pre_cache find op n s Hn). destruct (only_creates op); [set_solver|]. destruct (find n) as [a0|] eqn:E; [|set_solver].
  intros Hk. by exists a0.
Qed.
(** What the wallet held and no longer holds is in the cache. *)
Lemma dropped_cached k : holds_key find n k → k ∉ authority_keys a → k ∈ cached_keys s1.
Proof.
  intros (a0 & E & Hk) Hd. unfold s1. rewrite (pre_cache find op n s Hn). destruct (only_creates op) eqn:Ho; [|by rewrite E].
  destruct (fits_creates _ _ _ Hf n Ho Hn) as [E0|E0]; rewrite E in E0; [done|]. rewrite Ha in E0. injection E0 as ->. done.
Qed.
Lemma sound_step l : (∀ k, l !! k = entry_after a s1 k) → sound find' l.
Proof.
  intros Hl k m Hm. rewrite Hl in Hm. unfold entry_after in Hm. replace (key_lookup s1) with (key_lookup s) in Hm by (symmetry; apply pre_keeps_lookup).
  assert (Hother : m ≠ n → key_lookup s !! k = Some m → holds_key find' m k).
  { intros Hne Hk. apply (same_find_holds find find'); [apply (fits_others _ _ _ Hf); congruence|]. by apply Hs. }
  destruct (decide (k ∈ authority_keys a)) as [Hk|Hk].
  - destruct (decide (_ ∧ _)).
    + injection Hm as <-. rewrite (fits_named _ _ _ Hf n a Ha). by exists a.
    + destruct (decide (m = n)) as [->|]; [by exists a|auto].
  - destruct (decide (k ∈ cached_keys s1)) as [|Hnc]; [done|]. destruct (decide (m = n)) as [->|]; [|auto].
    destruct Hnc. apply dropped_cached; [by apply Hs|done].
Qed.
Lemma complete_step l : (∀ k, l !! k = entry_after a s1 k) → complete find' u l.
Proof.
  intros Hl m k Hm. rewrite Hl. unfold entry_after. replace (key_lookup s1) with (key_lookup s) by (symmetry; apply pre_keeps_lookup).
  destruct (decide (m = n)) as [->|Hne].
  - destruct Hm as (a' & Ha' & Hk). rewrite Ha in Ha'. injection Ha' as <-. rewrite decide_True by done. destruct (decide (_ ∧ _)) as [|Hd].
    { left. f_equal. by apply (fits_named _ _ _ Hf). }
    destruct (decide (k ∈ cached_keys s1)) as [Hk'|Hk']; [by apply Hc, cached_held|]. destruct (key_lookup s !! k) as [m|] eqn:E; [|naive_solver].
    left. f_equal. destruct (decide (m = n)) as [|Hmn]; [done|]. apply (Hx' m n k); [|by exists a].
    apply (same_find_holds find find'); [apply (fits_others _ _ _ Hf); congruence|]. by apply Hs.
  - pose proof Hm as Hm'. rewrite (same_find_holds find find') in Hm by (apply (fits_others _ _ _ Hf); congruence).
    destruct (decide (k ∈ authority_keys a)) as [Hk|Hk]; [destruct Hne; apply (Hx' m n k); [done|by exists a]|].
    destruct (decide (k ∈ cached_keys s1)) as [Hk'|]; [|by apply Hc]. destruct Hne. apply (Hx m n k); [done|]. by apply cached_held.
Qed.
End step.
Lemma reached_exact find u s : reached find u s → exclusive find ∧ sound find (key_lookup s) ∧ complete find u (key_lookup s).
Proof.
  induction 1 as [|find u s n a Hr (Hx & Hs & Hc) Hn Hx'|find u s op find' Hr (Hx & Hs & Hc) Hf Hx'|find u s op Hr IH|find u s find0 u0 s0 Hr IH Hr0 IH0].
  - split_and!; [by intros n n' k (? & ? & _)|by intros k n|by intros n k (? & ? & _)].
  - assert (Ho : ∀ m, m ≠ n → with_wallet n a find m = find m) by (intros m Hm; unfold with_wallet; by rewrite bool_decide_eq_false_2).
    split_and!; [done| |].
    + intros k m Hk%Hs. assert (m ≠ n) by (intros ->; destruct Hk as (? & E & _); congruence). by apply (same_find_holds find); [apply Ho|].
    + intros m k Hk. destruct (decide (m = n)) as [->|Hm].
      * right. destruct Hk as (a' & E & Hk). unfold with_wallet in E. rewrite bool_decide_eq_true_2 in E by done. injection E as <-. set_solver.
      * rewrite (same_find_holds find) in Hk by (by apply Ho). destruct (Hc m k Hk); [by left|right; set_solver].
  - split; [done|]. destruct (notified_lookup find op find' s) as [(n & a & Hn & Ha & Hl)|[Hnone ->]].
    + split; [by eapply sound_step|by eapply complete_step].
    + assert (E : ∀ n, find' n = find n).
      { intros n. destruct (decide (subject op = Some n)) as [Hn|Hn]; [|by apply (fits_others _ _ _ Hf)]. rewrite (Hnone n Hn).
        destruct (find n) eqn:En; [|done]. destruct (fits_stays _ _ _ Hf n) as [? Hsome]; [done|]. rewrite (Hnone n Hn) in Hsome. done. }
      split; [intros k n Hk; by apply (same_find_holds find), Hs|intros n k Hk; apply Hc; by apply (same_find_holds find find')].
  - by rewrite pre_keeps_lookup.
  - done.
Qed.
Lemma references_found keys (s : impl) : (∀ k, k ∈ keys → is_Some (key_lookup s !! k)) →
  ∃ l, get_key_references keys s = (Ok l, s) ∧ Forall2 (λ k n, key_lookup s !! k = Some n) keys l.
Proof.
  induction keys as [|k keys IH]; intros Hk; [by exists []|]. destruct (Hk k) as [n Hn]; [by left|].
  destruct IH as (l & E & Hl); [intros k' ?; apply Hk; by right|]. exists (n :: l). cbn [get_key_references].
  rewrite bind_run. cbn [gets]. rewrite Hn, bind_run, E. split; [done|by constructor].
Qed.
(** C22: While no key is in the authorities of two wallets, the table is right.
    Whatever operations the chain applies, refuses and undoes, an entry of the
    table names the wallet whose authorities have the key; and each key of a wallet
    has its entry, unless the wallet came with that key into being by itself, at
    genesis or by a transfer to it, without an operation the plugin looks at.  For
    keys that have entries the wallets to charge are found, one for each, and no
    null pointer is followed. *)
Theorem key_lookup_exact find u s : reached find u s →
  (∀ k n, key_lookup s !! k = Some n → holds_key find n k) ∧
  (∀ n k, holds_key find n k → key_lookup s !! k = Some n ∨ (k, n) ∈ u) ∧
  (∀ keys, (∀ k, k ∈ keys → ∃ n, holds_key find n k ∧ (k, n) ∉ u) →
    ∃ l, get_key_references keys s = (Ok l, s) ∧ Forall2 (λ k n, holds_key find n k) keys l).
Proof.
  intros (_ & Hs & Hc)%reached_exact. split_and!; [done|done|]. intros keys Hk. destruct (references_found keys s) as (l & E & Hl).
  { intros k (n & Hn & Hu)%Hk. destruct (Hc n k Hn); [by exists n|done]. }
  exists l. split; [done|]. eapply Forall2_impl; [exact Hl|]. intros k n. apply Hs.
Qed.

(** ** A key in two wallets *)
Lemma missing_reference k keys (s : impl) : k ∈ keys → key_lookup s !! k = None → (get_key_references keys s).1 = Exc Fault.
Proof.
  intros Hin Hk. induction keys as [|k' keys IH]; [by apply elem_of_nil in Hin|]. cbn [get_key_references]. rewrite bind_run. cbn [gets].
  destruct (decide (k = k')) as [<-|Hne]; [by rewrite Hk|]. destruct (key_lookup s !! k'); [|done].
  apply elem_of_cons in Hin as [|Hin]; [done|]. rewrite bind_run. destruct (get_key_references keys s) as [[l|e] s'] eqn:E.
  - specialize (IH Hin). done.
  - specialize (IH Hin). simpl in IH. by injection IH as ->.
Qed.
(** C38: Anybody can make the nodes crash on the next transfer of anybody else.
    Wallet [B] takes a key of wallet [A] into its authorities, which needs no
    consent, and leaves it out again.  The first update changes nothing in the
    table, where the key stays with [A]; the second removes the entry of [A],
    because entries are searched by the key alone.  A transaction with a transfer
    that is signed with the key, as those of [A] are, then makes the plugin follow
    a null pointer. *)
Theorem dropped_key_crashes_node find0 find1 find2 o1 o2 A B b0 b1 b2 k (s : impl) : key_lookup s !! k = Some A →
  wu_wallet o1 = B → wu_wallet o2 = B → find0 B = Some b0 → find1 B = Some b1 → find2 B = Some b2 →
  k ∉ authority_keys b0 → k ∈ authority_keys b1 → k ∉ authority_keys b2 →
  let s1 := notified find0 (op_wallet_update o1) find1 s in
  let s2 := notified find1 (op_wallet_update o2) find2 s1 in
  key_lookup s1 !! k = Some A ∧ key_lookup s2 !! k = None ∧
  ∀ tx keys d p, transaction_cost tx ≠ 0 → Apply.signature_keys tx = Ok keys → k ∈ keys → Db.dgp d = Some p →
    (on_pre_apply_transaction tx (d, s2)).1 = Exc Fault.
Proof.
  intros HA <- H2 Hb0 Hb1 Hb2 Hk0 Hk1 Hk2 s1 s2.
  assert (E1 : key_lookup s1 !! k = Some A).
  { unfold s1. destruct (notified_lookup find0 (op_wallet_update o1) find1 s) as [(n & a & [= <-] & Ha & ->)|[Hnone _]];
      [|specialize (Hnone _ eq_refl); congruence].
    unfold entry_after. rewrite (pre_cache _ _ (wu_wallet o1)), pre_keeps_lookup, HA by done. rewrite Ha in Hb1. injection Hb1 as ->.
    by rewrite (decide_True (P := k ∈ _)), decide_False by naive_solver. }
  assert (E2 : key_lookup s2 !! k = None).
  { unfold s2. destruct (notified_lookup find1 (op_wallet_update o2) find2 s1) as [(n & a & [= <-] & Ha & ->)|[Hnone _]];
      [|specialize (Hnone _ eq_refl); congruence].
    unfold entry_after. rewrite (pre_cache _ _ (wu_wallet o2)), pre_keeps_lookup, E1 by done. rewrite H2 in *. rewrite Ha in Hb2. injection Hb2 as ->.
    rewrite decide_False by done. simpl. rewrite Hb1. by rewrite decide_True. }
  split_and!; [done|done|]. intros tx keys d p Hcost Hkeys Hin Hp. unfold on_pre_apply_transaction.
  destruct (Z.eqb_spec (transaction_cost tx) 0); [done|]. assert (Hg : Db.get_dynamic_global_properties d = (Ok p, d)).
  { unfold Db.get_dynamic_global_properties, get_or. by rewrite Hp. }
  rewrite bind_run. unfold in_chain at 1. cbn [fst snd]. rewrite Hg, bind_run. unfold lift. rewrite Hkeys, bind_run. unfold in_plugin. cbn [fst snd].
  pose proof (missing_reference k keys s2 Hin E2) as Hf. destruct (get_key_references keys s2) as [r s3]. simpl in Hf. by subst.
Qed.
End lookup.

(** ** Wallets, run *)
Module ByKeyDemo.
Import WalletByKey.
#[local] Existing Instance DemoEnv.demo.
Definition with_key (k : public_key_type) : authority := mkAuthority 1 [] [(k, 1)].
Definition wallet (n : wallet_name_type) (ks : public_key_type * public_key_type) : account_authority_object :=
  mkAccountAuthority 0 n (with_key ks.1) (with_key ks.2) (with_key ks.1) 0.
Definition genesis : authorities := with_wallet "init" (wallet "init" (1, 1)) (λ _, None).
Definition with_alice : authorities := with_wallet "alice" (wallet "alice" (2, 3)) genesis.
Definition update (n : wallet_name_type) : operation := op_wallet_update (mkWalletUpdate n None None None None "" "" []).
Definition at_genesis : wallet_by_key_plugin_impl := mkByKey ∅ ∅.
Definition with_alice_state : wallet_by_key_plugin_impl := notified genesis (update "alice") with_alice at_genesis.
Lemma held find n n' a k : holds_key (with_wallet n a find) n' k → (n' = n ∧ k ∈ authority_keys a) ∨ holds_key find n' k.
Proof. intros (a' & Ha & Hk). unfold with_wallet in Ha. case_bool_decide; [|right; by exists a']. injection Ha as <-. by left. Qed.
Lemma none_held n k : ¬ holds_key (λ _, None) n k.
Proof. by intros (? & ? & _). Qed.
Lemma wallet_keys n k k' k'' : k'' ∈ authority_keys (wallet n (k, k')) → k'' = k ∨ k'' = k'.
Proof. unfold authority_keys, keys_in. simpl. set_solver. Qed.
Lemma alice_exclusive : exclusive with_alice.
Proof.
  intros n n' k Hn Hn'.
  apply held in Hn as [[-> [->| ->]%wallet_keys]|[[-> [->| ->]%wallet_keys]|[]%none_held]%held];
    apply held in Hn' as [[-> Hk%wallet_keys]|[[-> Hk%wallet_keys]|[]%none_held]%held]; try done; lia.
Qed.
Lemma genesis_exclusive : exclusive genesis.
Proof. intros n n' k [[-> _]|[]%none_held]%held [[-> _]|[]%none_held]%held. done. Qed.
Lemma alice_fits : fits genesis (update "alice") with_alice.
Proof.
  split; simpl.
  - intros n Hn. unfold with_alice, with_wallet at 1. rewrite bool_decide_eq_false_2; [done|congruence].
  - intros n Hn. unfold with_alice, with_wallet at 1. by case_bool_decide.
  - done.
  - intros n a. unfold with_alice, genesis, with_wallet. repeat case_bool_decide; subst; intros E; by simplify_eq.
Qed.
Lemma alice_reached : reached with_alice {[ (1, "init"%string) ]} with_alice_state.
Proof.
  apply r_applied; [|apply alice_fits|apply alice_exclusive].
  assert (E : {[ (1, "init"%string) ]} = (∅ ∪ set_map (λ k, (k, "init"%string)) (authority_keys (wallet "init" (1, 1))) : gset (public_key_type * wallet_name_type))).
  { vm_compute. reflexivity. }
  rewrite E. apply r_silent; [apply r_start|done|apply genesis_exclusive].
Qed.
Lemma key_lookup_exact_witness : key_lookup with_alice_state !! 3 = Some "alice"%string.
Proof.
  destruct (key_lookup_exact _ _ _ alice_reached) as (_ & Hc & _). destruct (Hc "alice"%string 3) as [E|E]; [|exact E|set_solver].
  exists (wallet "alice" (2, 3)). split; [done|]. vm_compute. reflexivity.
Defined.
(** The wallet of genesis has no entry, and its transfers follow the null pointer. *)
Example genesis_transfer_crashes :
  (on_pre_apply_transaction (mkTx 0 0 1500 [ApplyDemo.transfer 30] [] [1]) (Demo.db, with_alice_state)).1 = Exc Fault.
Proof. vm_compute. reflexivity. Qed.

(** Bob, who has the key 7, takes the key 3 of alice and drops it again. *)
Definition with_bob (k : public_key_type) : authorities := with_wallet "bob" (wallet "bob" (7, k)) with_alice.
Definition bob_took : wallet_by_key_plugin_impl := notified (with_bob 7) (update "bob") (with_bob 3) with_alice_state.
Definition bob_dropped : wallet_by_key_plugin_impl := notified (with_bob 3) (update "bob") (with_bob 7) bob_took.
Definition spend_signed : signed_transaction := mkTx 0 0 1500 [ApplyDemo.transfer 30] [] [3].
Lemma dropped_key_crashes_node_witness :
  key_lookup bob_took !! 3 = Some "alice"%string ∧ (on_pre_apply_transaction spend_signed (Demo.db, bob_dropped)).1 = Exc Fault.
Proof.
  destruct (dropped_key_crashes_node (with_bob 7) (with_bob 3) (with_bob 7) (mkWalletUpdate "bob" None None None None "" "" [])
    (mkWalletUpdate "bob" None None None None "" "" []) "alice" "bob" (wallet "bob" (7, 7)) (wallet "bob" (7, 3)) (wallet "bob" (7, 7)) 3 with_alice_state)
    as (H1 & _ & H2); try reflexivity; try (vm_compute; reflexivity); try (vm_compute; discriminate).
  split; [exact H1|]. destruct (Db.dgp Demo.db) as [p|] eqn:Ep; [|vm_compute in Ep; discriminate].
  apply (H2 spend_signed [3] Demo.db p); [done|done|by left|exact Ep].
Defined.
End ByKeyDemo.
