(* ===== verification/Variants.v ===== *)
(** * Variants

    The dynamic values of the node's interfaces: base 64
    (libraries/fc/src/crypto/base64.cpp), fc::variant with its conversions and
    operators (libraries/fc/src/variant.cpp) and fc::variant_object
    (libraries/fc/src/variant_object.cpp).  The main theorem: what the
    conversions write into a variant they read back, with base 64 decoding what
    it encodes. *)
From Stdlib Require Import Ascii String.
From S2P Require Import Prelude Asset Raw Encoding.
#[local] Open Scope Z_scope.

Definition text : Type := list ascii.
Definition lit (s : string) : text := list_ascii_of_string s.
Definition code (c : ascii) : Z := Z.of_N (N_of_ascii c).
Definition chr (z : Z) : ascii := ascii_of_N (Z.to_N z).
Definition eqc (c : ascii) (z : Z) : bool := code c =? z.
Definition in_range (c : ascii) (lo hi : Z) : bool := (lo <=? code c) && (code c <=? hi).
Definition is_digit (c : ascii) : bool := in_range c 48 57.
(** [isalnum] in the C locale. *)
Definition isalnum (c : ascii) : bool := is_digit c || in_range c 65 90 || in_range c 97 122.
(** [c_str]: a string up to its first null character. *)
Fixpoint c_str (s : text) : text :=
  match s with [] => [] | c :: s => if eqc c 0 then [] else c :: c_str s end.
(** [std::string::operator <]. *)
Fixpoint text_ltb (a b : text) : bool :=
  match a, b with
  | _, [] => false
  | [], _ => true
  | x :: a, y :: b => (code x <? code y) || ((code x =? code y) && text_ltb a b)
  end.

(** ** Base 64 *)
Module Base64.
Definition base64_chars : text := lit "ABCDEFGHIJKLMNOPQRSTUVWXYZabcdefghijklmnopqrstuvwxyz0123456789+/".
Definition is_base64 (c : ascii) : bool := isalnum c || eqc c 43 || eqc c 47.
Definition char_at (i : Z) : ascii := nth (Z.to_nat i) base64_chars (chr 0).
(** [base64_chars().find], kept in an unsigned char. *)
Fixpoint find_from (i : Z) (l : text) (c : ascii) : Z :=
  match l with [] => 255 | x :: l => if code x =? code c then i else find_from (i + 1) l c end.
Definition index (c : ascii) : Z := find_from 0 base64_chars c.

(** Three bytes as four numbers below 64, and back. *)
Definition four (a b c : Z) : list Z :=
  [Z.shiftr (Z.land a 0xfc) 2;
   u8 (Z.shiftl (Z.land a 0x03) 4 + Z.shiftr (Z.land b 0xf0) 4);
   u8 (Z.shiftl (Z.land b 0x0f) 2 + Z.shiftr (Z.land c 0xc0) 6);
   Z.land c 0x3f].
Definition three (a b c d : Z) : list Z :=
  [u8 (Z.shiftl a 2 + Z.shiftr (Z.land b 0x30) 4);
   u8 (Z.shiftl (Z.land b 0xf) 4 + Z.shiftr (Z.land c 0x3c) 2);
   u8 (Z.shiftl (Z.land c 0x3) 6 + d)].

Fixpoint base64_encode (s : bytes) : text :=
  match s with
  | a :: b :: c :: s => map char_at (four a b c) ++ base64_encode s
  | [a; b] => map char_at (take 3 (four a b 0)) ++ [chr 61]
  | [a] => map char_at (take 2 (four a 0 0)) ++ [chr 61; chr 61]
  | [] => []
  end.

Definition good (c : ascii) : bool := negb (eqc c 61) && is_base64 c.
(** The characters gathered when the loop ends, completed with null characters. *)
Definition last_bytes (group : text) : bytes :=
  match map index (group ++ repeat (chr 0) (4 - length group)) with
  | [a; b; c; d] => take (length group - 1) (three a b c d)
  | _ => []
  end.
Fixpoint decode_loop (group : text) (s : text) : bytes :=
  match s with
  | c :: s =>
      if good c then
        match map index (group ++ [c]) with
        | [x; y; z; w] => three x y z w ++ decode_loop [] s
        | _ => decode_loop (group ++ [c]) s
        end
      else last_bytes group
  | [] => last_bytes group
  end.
Definition base64_decode (s : text) : bytes := decode_loop [] s.
End Base64.

(** Floating-point numbers, and the conversions of Boost between numbers and
    text, are the platform's. *)
Class Lexical := {
  double : Type;
  lexical_double : text → option double;
  double_text : double → text;
  lexical_int64 : text → option Z;
  lexical_uint64 : text → option Z;
  double_of : Z → double;
  double_to_int64 : double → Z;
  double_to_uint64 : double → Z;
  double_eqb : double → double → bool;
  double_ltb : double → double → bool;
  double_leb : double → double → bool;
  double_add : double → double → double;
  double_sub : double → double → double;
  double_mul : double → double → double;
  double_div : double → double → double;
  double_bytes : double → bytes
}.

Module Variant.
Section with_lexical.
Context `{Lexical}.

Inductive variant :=
| null_type
| int64_type (i : Z)
| uint64_type (u : Z)
| double_type (d : double)
| bool_type (b : bool)
| string_type (s : text)
| array_type (a : list variant)
| object_type (o : list (text * variant))
| blob_type (data : bytes).

Definition opt {A} (e : exn) (o : option A) : result A := match o with Some a => Ok a | None => Exc e end.
Definition to_int64 (s : text) : result Z := opt ParseError (lexical_int64 (c_str s)).
Definition to_uint64 (s : text) : result Z := opt ParseError (lexical_uint64 (c_str s)).
Definition to_double (s : text) : result double := opt ParseError (lexical_double (c_str s)).

(** [to_string] of an integer: its decimal digits. *)
Definition digit (z : Z) : ascii := chr (48 + z).
Fixpoint digits (fuel : nat) (n : Z) (acc : text) : text :=
  match fuel with
  | O => acc
  | S fuel =>
      let acc := digit (n mod 10) :: acc in
      if n / 10 =? 0 then acc else digits fuel (n / 10) acc
  end.
Definition decimal (n : Z) : text :=
  if n <? 0 then "-"%char :: digits (S (Z.to_nat (Z.log2 (- n)))) (- n) [] else digits (S (Z.to_nat (Z.log2 n))) n [].

Definition is_null (v : variant) : bool := match v with null_type => true | _ => false end.
Definition is_string (v : variant) : bool := match v with string_type _ => true | _ => false end.
Definition is_bool (v : variant) : bool := match v with bool_type _ => true | _ => false end.
Definition is_double (v : variant) : bool := match v with double_type _ => true | _ => false end.
Definition is_uint64 (v : variant) : bool := match v with uint64_type _ => true | _ => false end.
Definition is_int64 (v : variant) : bool := match v with int64_type _ => true | _ => false end.
Definition is_integer (v : variant) : bool :=
  match v with int64_type _ | uint64_type _ | bool_type _ => true | _ => false end.
Definition is_numeric (v : variant) : bool :=
  match v with int64_type _ | uint64_type _ | double_type _ | bool_type _ => true | _ => false end.
Definition is_object (v : variant) : bool := match v with object_type _ => true | _ => false end.
Definition is_array (v : variant) : bool := match v with array_type _ => true | _ => false end.
Definition is_blob (v : variant) : bool := match v with blob_type _ => true | _ => false end.

Definition blob_text (data : bytes) : text :=
  if bool_decide (data = []) then [] else Base64.base64_encode data ++ ["="%char].
Definition as_string (v : variant) : result text :=
  match v with
  | string_type s => Ok s
  | double_type d => Ok (double_text d)
  | int64_type i => Ok (decimal i)
  | uint64_type u => Ok (decimal u)
  | bool_type b => Ok (lit (if b then "true" else "false")%string)
  | blob_type data => Ok (blob_text data)
  | null_type => Ok []
  | array_type _ | object_type _ => Exc BadCast
  end.
Definition as_int64 (v : variant) : result Z :=
  match v with
  | string_type s => to_int64 s
  | double_type d => Ok (double_to_int64 d)
  | int64_type i => Ok i
  | uint64_type u => Ok (i64 u)
  | bool_type b => Ok (Z.b2z b)
  | null_type => Ok 0
  | array_type _ | object_type _ | blob_type _ => Exc BadCast
  end.
Definition as_uint64 (v : variant) : result Z :=
  match v with
  | string_type s => to_uint64 s
  | double_type d => Ok (double_to_uint64 d)
  | int64_type i => Ok (u64 i)
  | uint64_type u => Ok u
  | bool_type b => Ok (Z.b2z b)
  | null_type => Ok 0
  | array_type _ | object_type _ | blob_type _ => Exc BadCast
  end.
Definition as_double (v : variant) : result double :=
  match v with
  | string_type s => to_double s
  | double_type d => Ok d
  | int64_type i => Ok (double_of i)
  | uint64_type u => Ok (double_of u)
  | bool_type b => Ok (double_of (Z.b2z b))
  | null_type => Ok (double_of 0)
  | array_type _ | object_type _ | blob_type _ => Exc BadCast
  end.
Definition as_bool (v : variant) : result bool :=
  match v with
  | string_type s =>
      if bool_decide (s = lit "true") then Ok true else if bool_decide (s = lit "false") then Ok false else Exc BadCast
  | double_type d => Ok (negb (double_eqb d (double_of 0)))
  | int64_type i => Ok (negb (i =? 0))
  | uint64_type u => Ok (negb (u =? 0))
  | bool_type b => Ok b
  | null_type => Ok false
  | array_type _ | object_type _ | blob_type _ => Exc BadCast
  end.
Definition get_array (v : variant) : result (list variant) :=
  match v with array_type a => Ok a | _ => Exc BadCast end.
Definition get_blob (v : variant) : result bytes := match v with blob_type data => Ok data | _ => Exc BadCast end.
Definition get_object (v : variant) : result (list (text * variant)) :=
  match v with object_type o => Ok o | _ => Exc BadCast end.
Definition get_string (v : variant) : result text :=
  match v with string_type s => Ok s | _ => Exc BadCast end.
Definition ends_with (z : Z) (s : text) : bool := match last s with Some c => eqc c z | None => false end.
(** The other scalars give the eight bytes of their cell.  A boolean sets one
    byte of it only: the rest is whatever was there. *)
Definition as_blob (v : variant) : result bytes :=
  match v with
  | null_type => Ok []
  | blob_type data => Ok data
  | string_type s => Ok (if ends_with 61 s then Base64.base64_decode s else map code s)
  | object_type _ | array_type _ => Exc BadCast
  | int64_type i => Ok (AssetSymbol.le_bytes 8 (u64 i))
  | uint64_type u => Ok (AssetSymbol.le_bytes 8 u)
  | double_type d => Ok (double_bytes d)
  | bool_type _ => Exc Fault
  end.
Definition size (v : variant) : result Z := a ← get_array v; mret (Z.of_nat (length a)).

(** ** [variant_object]

    Entries in order of insertion; a key may be there twice, and the first entry
    is the one that is found.  A key is looked for up to its first null. *)
Definition entries : Type := list (text * variant).
Definition find (key : text) (o : entries) : option variant :=
  snd <$> List.find (λ e, bool_decide (e.1 = c_str key)) o.
Definition at_key (key : text) (o : entries) : result variant := opt KeyNotFound (find key o).
Fixpoint replace (key : text) (var : variant) (o : entries) : option entries :=
  match o with
  | [] => None
  | e :: o => if bool_decide (e.1 = key) then Some ((e.1, var) :: o) else cons e <$> replace key var o
  end.
Definition set (key : text) (var : variant) (o : entries) : entries := default (o ++ [(key, var)]) (replace (c_str key) var o).
(** [operator \[\]] of a mutable object gives the cell of the key, made if absent. *)
Definition cell (key : text) (o : entries) : variant * entries :=
  match find key o with Some v => (v, o) | None => (null_type, o ++ [(c_str key, null_type)]) end.
Fixpoint erase (key : text) (o : entries) : entries :=
  match o with
  | [] => []
  | e :: o => if bool_decide (e.1 = key) then o else e :: erase key o
  end.
Definition append (key : text) (var : variant) (o : entries) : entries := o ++ [(key, var)].
Definition merge (vo o : entries) : entries := fold_left (λ o e, set e.1 e.2 o) vo o.
Definition member (key : text) (v : variant) : result variant := o ← get_object v; at_key key o.

(** ** Operators: the types are tried in turn. *)
Section operators.
Context {A : Type} (on_string : text → text → result A) (on_double : double → double → A) (on_int on_uint : Z → Z → result A).
Definition on_numbers (other : result A) (a b : variant) : result A :=
  if is_double a || is_double b then x ← as_double a; y ← as_double b; mret (on_double x y)
  else if is_int64 a || is_int64 b then x ← as_int64 a; y ← as_int64 b; on_int x y
  else if is_uint64 a || is_uint64 b then x ← as_uint64 a; y ← as_uint64 b; on_uint x y
  else other.
Definition on_types (other : result A) (a b : variant) : result A :=
  if is_string a || is_string b then x ← as_string a; y ← as_string b; on_string x y else on_numbers other a b.
End operators.
Definition tells (f : Z → Z → bool) (x y : Z) : result bool := Ok (f x y).
Definition equal : variant → variant → result bool :=
  on_types (λ x y, Ok (bool_decide (x = y))) double_eqb (tells Z.eqb) (tells Z.eqb) (Ok false).
Definition different : variant → variant → result bool :=
  on_types (λ x y, Ok (negb (bool_decide (x = y)))) (λ x y, negb (double_eqb x y))
    (tells (λ x y, negb (x =? y))) (tells (λ x y, negb (x =? y))) (Ok false).
Definition negation (a : variant) : result bool := b ← as_bool a; mret (negb b).
Definition less : variant → variant → result bool :=
  on_types (λ x y, Ok (text_ltb x y)) double_ltb (tells Z.ltb) (tells Z.ltb) (Exc AssertException).
Definition greater : variant → variant → result bool :=
  on_types (λ x y, Ok (text_ltb y x)) (λ x y, double_ltb y x) (tells Z.gtb) (tells Z.gtb) (Exc AssertException).
Definition less_equal : variant → variant → result bool :=
  on_types (λ x y, Ok (negb (text_ltb y x))) double_leb (tells Z.leb) (tells Z.leb) (Exc AssertException).

(** Signed overflow and a division by zero are not defined; nor is the sum of
    two arrays, which are written past the end of an empty one.  The difference
    of two strings converts them to variants and calls itself without end. *)
Definition signed (z : Z) : result variant :=
  if (int64_min <=? z) && (z <=? int64_max) then Ok (int64_type z) else Exc Fault.
Definition on_signed (f : Z → Z → Z) (x y : Z) : result variant := signed (f x y).
Definition on_unsigned (f : Z → Z → Z) (x y : Z) : result variant := Ok (uint64_type (u64 (f x y))).
Definition divided (f : Z → Z → result variant) (x y : Z) : result variant := if y =? 0 then Exc Fault else f x y.
Definition on_arrays (a b : variant) (other : result variant) : result variant :=
  match a, b with
  | array_type [], array_type [] => Ok (array_type [])
  | array_type _, array_type _ => Exc Fault
  | _, _ => other
  end.
Definition plus (a b : variant) : result variant :=
  on_arrays a b (on_types (λ x y, Ok (string_type (x ++ y))) (λ x y, double_type (double_add x y))
    (on_signed Z.add) (on_unsigned Z.add) (Exc AssertException) a b).
Definition minus (a b : variant) : result variant :=
  on_arrays a b (on_types (λ _ _, Exc Fault) (λ x y, double_type (double_sub x y))
    (on_signed Z.sub) (on_unsigned Z.sub) (Exc AssertException) a b).
Definition times (a b : variant) : result variant :=
  on_numbers (λ x y, double_type (double_mul x y)) (on_signed Z.mul) (on_unsigned Z.mul) (on_arrays a b (Exc AssertException)) a b.
Definition over (a b : variant) : result variant :=
  on_numbers (λ x y, double_type (double_div x y)) (divided (on_signed Z.quot)) (divided (on_unsigned Z.quot))
    (on_arrays a b (Exc AssertException)) a b.

(** ** [to_variant] and [from_variant] *)
Definition unsigned_to_variant (var : Z) : variant := uint64_type var.
Definition signed_to_variant (var : Z) : variant := int64_type var.
Definition unsigned_from_variant (w : Z) (var : variant) : result Z := u ← as_uint64 var; mret (u mod 2 ^ w).
Definition signed_from_variant (w : Z) (var : variant) : result Z :=
  i ← as_int64 var; mret ((i + 2 ^ (w - 1)) mod 2 ^ w - 2 ^ (w - 1)).
Definition bool_to_variant (var : bool) : variant := uint64_type (Z.b2z var).
Definition bool_from_variant : variant → result bool := as_bool.
Definition double_to_variant (var : double) : variant := double_type var.
Definition double_from_variant : variant → result double := as_double.
Definition string_to_variant (s : text) : variant := string_type s.
Definition string_from_variant : variant → result text := as_string.
Definition chars_to_variant (var : bytes) : variant :=
  string_type (if bool_decide (var = []) then [] else lit (Encoding.to_hex var)).
Definition chars_from_variant (var : variant) : result bytes :=
  str ← as_string var;
  let n := (length str / 2)%nat in
  if (n =? 0)%nat then Ok []
  else r ← Encoding.from_hex (string_of_list_ascii str) n; fc_assert (length r =? n)%nat ;; mret r.
End with_lexical.
End Variant.

(** ** Characters *)
Lemma code_chr z : 0 ≤ z < 256 → code (chr z) = z.
Proof. intros Hz. unfold code, chr. rewrite N_ascii_embedding by lia. lia. Qed.
Lemma chr_code c : chr (code c) = c.
Proof. unfold code, chr. rewrite N2Z.id. apply ascii_N_embedding. Qed.
Lemma code_range c : 0 ≤ code c < 256.
Proof. unfold code. pose proof (N_ascii_bounded c). lia. Qed.
Lemma c_str_id s : Forall (λ c, code c ≠ 0) s → c_str s = s.
Proof. induction 1 as [|c s Hc _ IH]; [done|]. simpl. unfold eqc. rewrite (proj2 (Z.eqb_neq _ _) Hc). by rewrite IH. Qed.

(** A fact about every number below a bound, by trying each. *)
Definition below (n : nat) (P : Z → bool) : bool := forallb (λ k, P (Z.of_nat k)) (seq 0 n).
Lemma below_spec n P : below n P = true → ∀ z, 0 ≤ z < Z.of_nat n → P z = true.
Proof.
  intros Hn z Hz. unfold below in Hn. rewrite forallb_forall in Hn. specialize (Hn (Z.to_nat z)).
  rewrite Z2Nat.id in Hn by lia. apply Hn, in_seq. lia.
Qed.
Ltac each n P := let H := fresh in pose proof (below_spec n P ltac:(vm_compute; reflexivity)) as H; apply H; lia.

Ltac div_lia := Z.to_euclidean_division_equations; lia.

Module Base64Facts.
Import Base64.
Lemma index_char_at n : 0 ≤ n < 64 → index (char_at n) = n.
Proof. intros Hn. apply Z.eqb_eq. each 64%nat (λ n, index (char_at n) =? n). Qed.
Lemma good_char_at n : 0 ≤ n < 64 → good (char_at n) = true.
Proof. intros Hn. each 64%nat (λ n, good (char_at n)). Qed.
Lemma good_pad : good (chr 61) = false.
Proof. done. Qed.

Lemma four_eq a b c : 0 ≤ a < 256 → 0 ≤ b < 256 → 0 ≤ c < 256 →
  four a b c = [a / 4; a mod 4 * 16 + b / 16; b mod 16 * 4 + c / 64; c mod 64].
Proof.
  intros Ha Hb Hc. unfold four.
  assert (Z.shiftr (Z.land a 252) 2 = a / 4) as -> by (apply Z.eqb_eq; each 256%nat (λ a, Z.shiftr (Z.land a 252) 2 =? a / 4)).
  assert (Z.shiftl (Z.land a 3) 4 = a mod 4 * 16) as -> by (apply Z.eqb_eq; each 256%nat (λ a, Z.shiftl (Z.land a 3) 4 =? a mod 4 * 16)).
  assert (Z.shiftr (Z.land b 240) 4 = b / 16) as -> by (apply Z.eqb_eq; each 256%nat (λ a, Z.shiftr (Z.land a 240) 4 =? a / 16)).
  assert (Z.shiftl (Z.land b 15) 2 = b mod 16 * 4) as -> by (apply Z.eqb_eq; each 256%nat (λ a, Z.shiftl (Z.land a 15) 2 =? a mod 16 * 4)).
  assert (Z.shiftr (Z.land c 192) 6 = c / 64) as -> by (apply Z.eqb_eq; each 256%nat (λ a, Z.shiftr (Z.land a 192) 6 =? a / 64)).
  assert (Z.land c 63 = c mod 64) as -> by (apply Z.eqb_eq; each 256%nat (λ a, Z.land a 63 =? a mod 64)).
  unfold u8. rewrite (Z.mod_small (a mod 4 * 16 + _)), (Z.mod_small (b mod 16 * 4 + _)) by div_lia. done.
Qed.
Lemma four_range a b c : 0 ≤ a < 256 → 0 ≤ b < 256 → 0 ≤ c < 256 → Forall (λ n, 0 ≤ n < 64) (four a b c).
Proof. intros. rewrite four_eq by done. repeat (constructor; [div_lia|]). constructor. Qed.
Lemma three_eq a b c d : 0 ≤ a < 64 → 0 ≤ b < 64 → 0 ≤ c < 256 → 
  three a b c d = [a * 4 + b / 16; b mod 16 * 16 + c / 4 mod 16; u8 (c mod 4 * 64 + d)].
Proof.
  intros Ha Hb Hc. unfold three.
  assert (Z.shiftl a 2 = a * 4) as -> by (apply Z.eqb_eq; each 64%nat (λ a, Z.shiftl a 2 =? a * 4)).
  assert (Z.shiftr (Z.land b 48) 4 = b / 16) as -> by (apply Z.eqb_eq; each 64%nat (λ a, Z.shiftr (Z.land a 48) 4 =? a / 16)).
  assert (Z.shiftl (Z.land b 15) 4 = b mod 16 * 16) as -> by (apply Z.eqb_eq; each 64%nat (λ a, Z.shiftl (Z.land a 15) 4 =? a mod 16 * 16)).
  assert (Z.shiftr (Z.land c 60) 2 = c / 4 mod 16) as -> by (apply Z.eqb_eq; each 256%nat (λ a, Z.shiftr (Z.land a 60) 2 =? a / 4 mod 16)).
  assert (Z.shiftl (Z.land c 3) 6 = c mod 4 * 64) as -> by (apply Z.eqb_eq; each 256%nat (λ a, Z.shiftl (Z.land a 3) 6 =? a mod 4 * 64)).
  unfold u8. rewrite (Z.mod_small (a * 4 + _)), (Z.mod_small (b mod 16 * 16 + _)) by div_lia. done.
Qed.

Lemma decode_group a b c rest : 0 ≤ a < 256 → 0 ≤ b < 256 → 0 ≤ c < 256 →
  decode_loop [] (map char_at (four a b c) ++ rest) = [a; b; c] ++ decode_loop [] rest.
Proof.
  intros Ha Hb Hc. rewrite four_eq by done. cbn -[index char_at good three Z.div Z.modulo chr].
  rewrite !good_char_at by div_lia. cbn -[index char_at good three Z.div Z.modulo chr]. rewrite !index_char_at by div_lia.
  rewrite three_eq by div_lia. unfold u8. simpl. repeat f_equal; div_lia.
Qed.
Lemma decode_rest a b c n pads : 0 ≤ a < 256 → 0 ≤ b < 256 → 0 ≤ c < 256 → (n = 1 ∨ n = 2)%nat → 
  (n = 1%nat → b = 0) → c = 0 → (head pads = Some (chr 61)) →
  decode_loop [] (map char_at (take (S n) (four a b c)) ++ pads) = take n [a; b].
Proof.
  intros Ha Hb Hc Hn Hb0 -> Hp. destruct pads as [|p pads]; [done|]. injection Hp as ->.
  rewrite four_eq by done. destruct Hn as [-> | ->].
  - rewrite Hb0 by done. cbn -[index char_at good three Z.div Z.modulo chr]. rewrite !good_char_at by div_lia.
    cbn -[index char_at good three Z.div Z.modulo chr]. rewrite good_pad. unfold last_bytes. cbn -[index char_at three Z.div Z.modulo chr].
    rewrite !index_char_at by div_lia. change (index (chr 0)) with 255. rewrite three_eq by div_lia. simpl. f_equal. div_lia.
  - cbn -[index char_at good three Z.div Z.modulo chr]. rewrite !good_char_at by div_lia.
    cbn -[index char_at good three Z.div Z.modulo chr]. rewrite good_pad. unfold last_bytes. cbn -[index char_at three Z.div Z.modulo chr].
    rewrite !index_char_at by div_lia. change (index (chr 0)) with 255. rewrite three_eq by div_lia. simpl. repeat f_equal; div_lia.
Qed.
Lemma base64_roundtrip_aux n s pad : (length s < n)%nat → is_bytes s → pad = [] ∨ head pad = Some (chr 61) →
  decode_loop [] (base64_encode s ++ pad) = s.
Proof.
  revert s. induction n as [|n IH]; intros s Hn Hs Hp; [lia|].
  destruct s as [|a [|b [|c s]]].
  - destruct Hp as [->|Hp]; [done|]. destruct pad as [|p pad]; [done|]. injection Hp as ->. done.
  - apply Forall_cons in Hs as [Ha _].
    change (decode_loop [] ((map char_at (take 2 (four a 0 0)) ++ [chr 61; chr 61]) ++ pad) = take 1 [a; 0]). rewrite <- app_assoc.
    apply (decode_rest a 0 0 1 ([chr 61; chr 61] ++ pad)); auto; lia.
  - apply Forall_cons in Hs as [Ha [Hb _]%Forall_cons].
    change (decode_loop [] ((map char_at (take 3 (four a b 0)) ++ [chr 61]) ++ pad) = take 2 [a; b]). rewrite <- app_assoc.
    apply (decode_rest a b 0 2 ([chr 61] ++ pad)); auto; lia.
  - apply Forall_cons in Hs as [Ha [Hb [Hc Hs]%Forall_cons]%Forall_cons].
    change (decode_loop [] ((map char_at (four a b c) ++ base64_encode s) ++ pad) = a :: b :: c :: s).
    rewrite <- app_assoc, decode_group by done. rewrite IH; [done|simpl in Hn; lia|done|done].
Qed.
End Base64Facts.

Module VariantFacts.
Import Variant.
Section with_lexical.
Context `{Lexical}.
Lemma ends_with_app z s : 0 ≤ z < 256 → ends_with z (s ++ [chr z]) = true.
Proof. intros Hz. unfold ends_with, eqc. rewrite last_snoc, code_chr by done. apply Z.eqb_refl. Qed.
Lemma blob_text_read data : is_bytes data → as_blob (string_type (blob_text data)) = Ok data.
Proof.
  intros Hd. unfold blob_text. case_bool_decide as E; [by subst|]. unfold as_blob. change ("="%char) with (chr 61).
  rewrite ends_with_app by lia. f_equal. apply (Base64Facts.base64_roundtrip_aux (S (length data))); [lia|done|by right].
Qed.
Lemma lit_string s : string_of_list_ascii (lit s) = s.
Proof. apply string_of_list_ascii_of_string. Qed.
Lemma length_lit s : length (lit s) = String.length s.
Proof. induction s as [|c s IH]; [done|]. simpl. by rewrite <- IH. Qed.
Lemma length_to_hex d : String.length (Encoding.to_hex d) = (2 * length d)%nat.
Proof.
  unfold Encoding.to_hex, Raw.bytes_string. rewrite <- length_lit. unfold lit.
  rewrite list_ascii_of_string_of_list_ascii, length_fmap. induction d as [|c d IH]; [done|]. rewrite bind_cons, length_app, IH. simpl. lia.
Qed.
Lemma chars_read d : is_bytes d → chars_from_variant (chars_to_variant d) = Ok d.
Proof.
  intros Hd. unfold chars_to_variant, chars_from_variant. case_bool_decide as E; [by subst|]. unfold as_string. cbn [mbind result_bind]. cbv zeta.
  rewrite length_lit, length_to_hex, Nat.mul_comm, Nat.div_mul by lia.
  destruct (Nat.eqb_spec (length d) 0) as [E0|_]; [by destruct d|]. rewrite lit_string, from_to_hex by done. simpl.
  by rewrite Nat.eqb_refl.
Qed.
End with_lexical.
End VariantFacts.

Section conversions.
Import Variant.
Context `{Lexical}.
(** What a value is converted to reads back as the value: unsigned and signed
    integers at every width up to 64 bits, booleans (written as numbers), strings,
    floating-point numbers, bytes written in hexadecimal, and the bytes of a blob
    written as a base 64 string with the extra sign that marks it. *)
Theorem variant_conversions_roundtrip :
  (∀ w u, 0 ≤ w ≤ 64 → 0 ≤ u < 2 ^ w → unsigned_from_variant w (unsigned_to_variant u) = Ok u) ∧
  (∀ w i, 0 < w ≤ 64 → - 2 ^ (w - 1) ≤ i < 2 ^ (w - 1) → signed_from_variant w (signed_to_variant i) = Ok i) ∧
  (∀ b, bool_from_variant (bool_to_variant b) = Ok b) ∧
  (∀ d, double_from_variant (double_to_variant d) = Ok d) ∧
  (∀ s, string_from_variant (string_to_variant s) = Ok s) ∧
  (∀ d, is_bytes d → chars_from_variant (chars_to_variant d) = Ok d) ∧
  (∀ d, is_bytes d → (s ← as_string (blob_type d); as_blob (string_type s)) = Ok d).
Proof.
  repeat split; try done.
  - intros w u Hw Hu. unfold unsigned_from_variant. simpl. by rewrite Z.mod_small.
  - intros w i Hw Hi. unfold signed_from_variant. simpl. f_equal.
    assert (2 ^ w = 2 ^ (w - 1) + 2 ^ (w - 1)) by (replace w with (Z.succ (w - 1)) at 1 by lia; rewrite Z.pow_succ_r by lia; lia).
    rewrite Z.mod_small; lia.
  - by intros [].
  - apply VariantFacts.chars_read.
  - apply VariantFacts.blob_text_read.
Qed.
End conversions.
