(* ===== verification/Json.v ===== *)
(** * JSON

    The JSON printer and the parser the node uses by default
    (libraries/fc/src/io/json.cpp), over a stream of characters.  The main
    theorems: the parser ends on every input; what the printer writes the parser
    reads back, exactly when no string holds a control character that the printer
    escapes and the parser does not know. *)
From Stdlib Require Import Ascii String.
From S2P Require Import Prelude Variants.
#[local] Open Scope Z_scope.

Module Json.
Import Variant.
Section with_lexical.
Context `{Lexical}.
Abbreviation stream := (St text).

(** ** The stream *)
Definition peek : stream ascii := λ s, match s with [] => (Exc EofException, []) | c :: _ => (Ok c, s) end.
Definition get : stream ascii := λ s, match s with [] => (Exc EofException, []) | c :: s => (Ok c, s) end.
Definition white (c : ascii) : bool := eqc c 32 || eqc c 9 || eqc c 10 || eqc c 13.

(** ** The legacy parser *)
Definition parseEscape : stream ascii :=
  c ← peek;
  if eqc c 92 then
    get ;;
    c ← peek;
    if eqc c 116 then get ;; mret (chr 9)
    else if eqc c 110 then get ;; mret (chr 10)
    else if eqc c 114 then get ;; mret (chr 13)
    else if eqc c 92 then get ;; mret (chr 92)
    else get
  else mthrow ParseError.

(** Loops run on a bound for the characters left; every round reads one. *)
Fixpoint skip_white (fuel : nat) : stream bool :=
  match fuel with
  | O => mthrow Fault
  | S fuel => c ← peek; if white c then get ;; skip_white fuel ;; mret true else mret false
  end.
Definition bounded {A} (f : nat → stream A) : stream A := λ s, f (S (length s)) s.
Definition skip_white_space : stream bool := bounded skip_white.

Fixpoint string_loop (fuel : nat) (token : text) : stream text :=
  match fuel with
  | O => mthrow Fault
  | S fuel =>
      c ← peek;
      if eqc c 92 then e ← parseEscape; string_loop fuel (token ++ [e])
      else if eqc c 4 then mthrow ParseError
      else if eqc c 34 then get ;; mret token
      else get ;; string_loop fuel (token ++ [c])
  end.
Definition stringFromStream : stream text :=
  c ← peek;
  if negb (eqc c 34) then mthrow ParseError else get ;; bounded (λ f, string_loop f []).

Definition token_char (c : ascii) : bool :=
  isalnum c || eqc c 95 || eqc c 45 || eqc c 46 || eqc c 58 || eqc c 47.
(** A [try] whose [catch] returns what was read so far: the token is part of the
    result of each round. *)
Fixpoint token_loop (fuel : nat) (token : text) : stream text :=
  match fuel with
  | O => mthrow Fault
  | S fuel =>
      r ← try_catch (
        c ← peek;
        if eqc c 92 then e ← parseEscape; mret (inl (token ++ [e]))
        else if eqc c 9 || eqc c 32 || eqc c 0 || eqc c 10 then get ;; mret (inr token)
        else if token_char c then get ;; mret (inl (token ++ [c]))
        else mret (inr token)) (λ e, match e with EofException => mret (inr token) | _ => mthrow e end);
      match r with inl token => token_loop fuel token | inr token => mret token end
  end.
Definition stringFromToken : stream text := bounded (λ f, token_loop f []).

(** [number_from_stream]: the loop gives what was read, whether there was a
    point, and whether a letter stopped it. *)
Fixpoint number_loop (fuel : nat) (dot : bool) (ss : text) : stream (text * bool * bool) :=
  match fuel with
  | O => mthrow Fault
  | S fuel =>
      r ← try_catch (c ← peek; mret (Some c)) (λ e, match e with EofException => mret None | _ => mthrow e end);
      match r with
      | None => mret (ss, dot, false)
      | Some c =>
          if eqc c 0 then mret (ss, dot, false)
          else if eqc c 46 then
            if dot then mthrow ParseError else get ;; number_loop fuel true (ss ++ [c])
          else if is_digit c then get ;; number_loop fuel dot (ss ++ [c])
          else mret (ss, dot, isalnum c)
      end
  end.
Definition string_doubles_of (string_doubles : bool) (str : text) : result variant :=
  if string_doubles then Ok (string_type str) else d ← to_double str; mret (double_type d).
Definition finish_number (string_doubles neg : bool) (r : text * bool * bool) : stream variant :=
  let '(str, dot, letter) := r in
  if (letter : bool) then token ← stringFromToken; mret (string_type (str ++ token))
  else if bool_decide (str = lit "-.") || bool_decide (str = lit ".") then mthrow ParseError
  else if (dot : bool) then lift (string_doubles_of string_doubles str)
  else if neg then i ← lift (to_int64 str); mret (int64_type i)
  else u ← lift (to_uint64 str); mret (uint64_type u).
Definition number_from_stream (string_doubles : bool) : stream variant :=
  c ← peek;
  let neg := eqc c 45 in
  ss ← (if neg then c ← get; mret [c] else mret []);
  r ← bounded (λ f, number_loop f false ss);
  finish_number string_doubles neg r.

Definition keyword_char (c : ascii) : bool :=
  existsb (eqc c) [110; 117; 108; 116; 114; 101; 102; 97; 115].
Fixpoint keyword_loop (fuel : nat) (ss : text) : stream (text * bool) :=
  match fuel with
  | O => mthrow Fault
  | S fuel =>
      r ← try_catch (c ← peek; mret (Some c)) (λ e, match e with EofException => mret None | _ => mthrow e end);
      match r with
      | None => mret (ss, true)
      | Some c => if keyword_char c then get ;; keyword_loop fuel (ss ++ [c]) else mret (ss, false)
      end
  end.
Definition finish_token (r : text * bool) : stream variant :=
  let '(str, received_eof) := r in
  if bool_decide (str = lit "null") then mret null_type
  else if bool_decide (str = lit "true") then mret (bool_type true)
  else if bool_decide (str = lit "false") then mret (bool_type false)
  else if (received_eof : bool) then
    if bool_decide (str = []) then mthrow ParseError else mret (string_type str)
  else token ← stringFromToken; mret (string_type (str ++ token)).
Definition token_from_stream : stream variant :=
  r ← bounded (λ f, keyword_loop f []); finish_token r.

(** [objectFromStream] and [arrayFromStream], over the parser of values. *)
Section values.
Context (value : stream variant).
Fixpoint object_loop (fuel : nat) (obj : list (text * variant)) : stream (list (text * variant)) :=
  match fuel with
  | O => mthrow Fault
  | S fuel =>
      c ← peek;
      if eqc c 125 then get ;; mret obj
      else if eqc c 44 then get ;; object_loop fuel obj
      else
        skipped ← skip_white_space;
        if (skipped : bool) then object_loop fuel obj
        else
          key ← stringFromStream;
          skip_white_space ;;
          c ← peek;
          if negb (eqc c 58) then mthrow ParseError
          else
            get ;;
            val ← value;
            skip_white_space ;;
            object_loop fuel (append key val obj)
  end.
Definition objectFromStream : stream variant := try_catch (
  c ← peek;
  if negb (eqc c 123) then mthrow ParseError
  else
    get ;;
    skip_white_space ;;
    obj ← bounded (λ f, object_loop f []);
    mret (object_type obj)) (λ e, match e with EofException => mthrow ParseError | _ => mthrow e end).

Fixpoint array_loop (fuel : nat) (ar : list variant) : stream (list variant) :=
  match fuel with
  | O => mthrow Fault
  | S fuel =>
      c ← peek;
      if eqc c 93 then get ;; mret ar
      else if eqc c 44 then get ;; array_loop fuel ar
      else
        skipped ← skip_white_space;
        if (skipped : bool) then array_loop fuel ar
        else
          val ← value;
          skip_white_space ;;
          array_loop fuel (ar ++ [val])
  end.
Definition arrayFromStream : stream variant :=
  c ← peek;
  if negb (eqc c 91) then mthrow ParseError
  else
    get ;;
    skip_white_space ;;
    ar ← bounded (λ f, array_loop f []);
    mret (array_type ar).
End values.

(** [room] is what is left of [JSON_MAX_RECURSION_DEPTH]: each call of a parser
    of values, arrays or objects takes one and asserts that there was one. *)
Definition JSON_MAX_RECURSION_DEPTH : nat := 200.
#[global] Arguments JSON_MAX_RECURSION_DEPTH : simpl never.
Fixpoint variant_from_stream (string_doubles : bool) (room : nat) : stream variant :=
  match room with
  | O => mthrow AssertException
  | S room =>
      skip_white_space ;;
      c ← peek;
      if eqc c 34 then s ← stringFromStream; mret (string_type s)
      else if eqc c 123 then
        match room with O => mthrow AssertException | S room => objectFromStream (variant_from_stream string_doubles room) end
      else if eqc c 91 then
        match room with O => mthrow AssertException | S room => arrayFromStream (variant_from_stream string_doubles room) end
      else if eqc c 45 || eqc c 46 || is_digit c then number_from_stream string_doubles
      else if eqc c 110 || eqc c 116 || eqc c 102 then token_from_stream
      else if eqc c 4 || eqc c 255 || eqc c 0 then mthrow EofException
      else stringFromToken ;; mthrow ParseError
  end.

(** [check_string_depth]. *)
Fixpoint string_depth (object array : Z) (s : text) : bool :=
  match s with
  | [] => true
  | c :: s =>
      let object := if eqc c 123 then object + 1 else if eqc c 125 then object - 1 else object in
      let array := if eqc c 91 then array + 1 else if eqc c 93 then array - 1 else array in
      (object <? 100) && (array <? 100) && string_depth object array s
  end.
Definition check_string_depth (s : text) : result unit := fc_assert (string_depth 0 0 s).

(** [from_string] and [is_valid] with the legacy parsers; [from_string] starts
    one level down. *)
Definition from_string (string_doubles : bool) (s : text) : result variant :=
  check_string_depth s ;; (variant_from_stream string_doubles (JSON_MAX_RECURSION_DEPTH - 1) s).1.
Definition is_valid (string_doubles : bool) (s : text) : result bool :=
  if bool_decide (s = []) then Ok false
  else match variant_from_stream string_doubles JSON_MAX_RECURSION_DEPTH s with
       | (Ok _, []) => Ok true
       | (Ok _, _) => Ok false
       | (Exc e, _) => Exc e
       end.

(** ** The printer *)
Definition hex_digit (z : Z) : ascii := if z <? 10 then chr (48 + z) else chr (87 + z).
Definition escape_char (c : ascii) : text :=
  if eqc c 8 then [chr 92; "b"%char]
  else if eqc c 12 then [chr 92; "f"%char]
  else if eqc c 10 then [chr 92; "n"%char]
  else if eqc c 13 then [chr 92; "r"%char]
  else if eqc c 9 then [chr 92; "t"%char]
  else if eqc c 92 then [chr 92; chr 92]
  else if eqc c 34 then [chr 92; chr 34]
  else if code c <? 32 then [chr 92; "u"; "0"; "0"; hex_digit (code c / 16); hex_digit (code c mod 16)]%char
  else [c].
Definition escape_string (s : text) : text := [chr 34] ++ (s ≫= escape_char) ++ [chr 34].

Fixpoint join (l : list text) : text :=
  match l with
  | [] => []
  | [x] => x
  | x :: l => x ++ ","%char :: join l
  end.
Definition print_integer (stringify : bool) (n : Z) : text :=
  if stringify && (0xffffffff <? n) then [chr 34] ++ decimal n ++ [chr 34] else decimal n.
Fixpoint to_stream (stringify : bool) (v : variant) : text :=
  match v with
  | null_type => lit "null"
  | int64_type i => print_integer stringify i
  | uint64_type u => print_integer stringify u
  | double_type d => if stringify then [chr 34] ++ double_text d ++ [chr 34] else double_text d
  | bool_type b => lit (if b then "true" else "false")%string
  | string_type s => escape_string s
  | array_type a => "["%char :: join (map (to_stream stringify) a) ++ ["]"%char]
  | object_type o =>
      "{"%char :: join (map (λ e, escape_string e.1 ++ ":"%char :: to_stream stringify e.2) o) ++ ["}"%char]
  | blob_type data => escape_string (blob_text data)
  end.
Definition to_string : bool → variant → text := to_stream.

(** ** [format_string] (variant.cpp): the messages of exceptions

    [std::string::find] from a position; a character past the end is null. *)
Definition find_char (z : Z) (pos : nat) (s : text) : option nat :=
  (λ r, pos + fst r)%nat <$> list_find (λ c, eqc c z = true) (drop pos s).
Definition substr (pos n : nat) (s : text) : text := take n (drop pos s).
Definition argument (args : entries) (key : text) : result text :=
  match find key args with
  | Some v => if is_object v || is_array v then Ok (to_string true v) else as_string v
  | None => Ok (lit "${" ++ key ++ lit "}")
  end.
Fixpoint format_loop (fuel : nat) (format : text) (args : entries) (prev : nat) (next : option nat) : result text :=
  match fuel with
  | O => Exc Fault
  | S fuel =>
      if (prev <? length format)%nat then
        match next with
        | None => Ok (drop prev format)
        | Some next =>
            let shown := substr prev (next - prev) format in
            let prev := S next in
            let c := nth prev format (chr 0) in
            if eqc c 123 then
              match find_char 125 prev format with
              | Some close =>
                  value ← argument args (substr (prev + 1) (close - prev - 1) format);
                  rest ← format_loop fuel format args (S close) (find_char 36 (S close) format);
                  mret (shown ++ value ++ rest)
              | None => rest ← format_loop fuel format args prev None; mret (shown ++ rest)
              end
            else rest ← format_loop fuel format args (S prev) (find_char 36 (S prev) format); mret (shown ++ c :: rest)
        end
      else Ok []
  end.
Definition format_string (format : text) (args : entries) : result text :=
  format_loop (S (length format)) format args 0 (find_char 36 0 format).

(** [pretty_print]: one pass that tracks the nesting, whether a line is to be
    started, and whether it is inside quotes and behind a backslash. *)
Record layout := mkLayout { level : Z; first : bool; quote : bool; escape : bool }.
Definition indentation (indent : Z) (st : layout) : text := repeat " "%char (Z.to_nat (level st * indent)).
Definition new_line (indent : Z) (st : layout) : text := if first st then chr 10 :: indentation indent st else [].
Definition pretty_char (indent : Z) (prev : option ascii) (c : ascii) (st : layout) : layout * text :=
  let '(mkLayout level first quote escape) := st in
  if eqc c 92 then (mkLayout level first quote (if escape then false else quote), [c])
  else if eqc c 58 then (st, if quote then [c] else [c; " "%char])
  else if eqc c 34 then
    (mkLayout level false (if escape then quote else negb quote) false, new_line indent st ++ [c])
  else if eqc c 123 || eqc c 91 then
    (if quote then mkLayout level first quote false else mkLayout (level + 1) true quote escape, [c])
  else if eqc c 125 || eqc c 93 then
    if quote then (mkLayout level first quote false, [c])
    else
      let opened := match prev with Some p => eqc p 91 || eqc p 123 | None => false end in
      let st' := mkLayout (level - 1) false quote escape in
      (st', (if opened then [] else [chr 10]) ++ (if first then [] else indentation indent st') ++ [c])
  else if eqc c 44 then
    (if quote then mkLayout level first quote false else mkLayout level true quote escape, [c])
  else
    (mkLayout level false quote (if eqc c 110 && quote && escape then false else escape), new_line indent st ++ [c]).
Fixpoint pretty_loop (indent : Z) (prev : option ascii) (st : layout) (v : text) : text :=
  match v with
  | [] => []
  | c :: v => let '(st, out) := pretty_char indent prev c st in out ++ pretty_loop indent (Some c) st v
  end.
Definition pretty_print (v : text) (indent : Z) : text := pretty_loop indent None (mkLayout 0 false false false) v.
Definition to_pretty_string (stringify : bool) (v : variant) : text := pretty_print (to_string stringify v) 2.
End with_lexical.
End Json.

(** ** The parser ends *)
Section ends.
Import Variant Json.
Context `{Lexical}.

(** A parser ends when it does not run out of its bound and leaves no more than
    it got; it eats when, on success, it leaves less. *)
Definition ends {A} (m : St text A) : Prop :=
  ∀ s, (m s).1 ≠ Exc Fault ∧ (length (m s).2 ≤ length s)%nat.
Definition eats {A} (m : St text A) : Prop :=
  ∀ s a s', m s = (Ok a, s') → (length s' < length s)%nat.

Lemma ends_bind {A B} (m : St text A) (f : A → St text B) : ends m → (∀ a, ends (f a)) → ends (m ≫= f).
Proof.
  intros Hm Hf s. rewrite bind_run. destruct (Hm s) as [H1 H2]. destruct (m s) as [[a|e] s1]; simpl in *.
  - destruct (Hf a s1). split; [done|lia].
  - split; [congruence|done].
Qed.
Lemma ends_ret {A} (a : A) : ends (mret a).
Proof. by intros s. Qed.
Lemma ends_throw {A} (e : exn) : e ≠ Fault → ends (mthrow e : St text A).
Proof. intros He s. split; [by intros [= ->]|done]. Qed.
Lemma ends_lift {A} (r : result A) : r ≠ Exc Fault → ends (lift r).
Proof. by intros Hr s. Qed.
Lemma ends_try {A} (m : St text A) h : ends m → (∀ e, e ≠ Fault → ends (h e)) → ends (try_catch m h).
Proof.
  intros Hm Hh s. unfold try_catch. destruct (Hm s) as [H1 H2]. destruct (m s) as [[a|e] s1]; simpl in *; [done|].
  destruct (Hh e ltac:(congruence) s1). split; [done|lia].
Qed.
Lemma ends_peek : ends peek.
Proof. by intros [|c s]. Qed.
Lemma ends_get : ends get.
Proof. intros [|c s]; simpl; (split; [done|lia]). Qed.
Lemma eats_get : eats get.
Proof. intros [|c s] a s' [= <- <-]. simpl. lia. Qed.
Lemma eats_bind {A B} (m : St text A) (f : A → St text B) : eats m → (∀ a, ends (f a)) → eats (m ≫= f).
Proof.
  intros Hm Hf s b s' Hr. apply St_bind_ok in Hr as (a & s1 & Ha & Hb). apply Hm in Ha.
  destruct (Hf a s1) as [_ Hl]. rewrite Hb in Hl. simpl in Hl. lia.
Qed.
Lemma eats_after {A B} (m : St text A) (f : A → St text B) : ends m → (∀ a, eats (f a)) → eats (m ≫= f).
Proof.
  intros Hm Hf s b s' Hr. apply St_bind_ok in Hr as (a & s1 & Ha & Hb). apply Hf in Hb.
  destruct (Hm s) as [_ Hl]. rewrite Ha in Hl. simpl in Hl. lia.
Qed.
Lemma eats_throw {A} (e : exn) : eats (mthrow e : St text A).
Proof. by intros s a s'. Qed.

(** The same below a bound on the input. *)
Definition within {A} (n : nat) (m : St text A) : Prop :=
  ∀ s, (length s < n)%nat → (m s).1 ≠ Exc Fault ∧ (length (m s).2 ≤ length s)%nat.
Lemma within_ends {A} n (m : St text A) : ends m → within n m.
Proof. by intros Hm s _. Qed.
Lemma within_bind {A B} n (m : St text A) (f : A → St text B) : ends m → (∀ a, within n (f a)) → within n (m ≫= f).
Proof.
  intros Hm Hf s Hn. rewrite bind_run. destruct (Hm s) as [H1 H2]. destruct (m s) as [[a|e] s1]; simpl in *.
  - destruct (Hf a s1); [lia|]. split; [done|lia].
  - split; [congruence|done].
Qed.
Lemma within_step {A B} n (m : St text A) (f : A → St text B) : ends m → eats m → (∀ a, within n (f a)) →
  within (S n) (m ≫= f).
Proof.
  intros Hm He Hf s Hn. rewrite bind_run. destruct (Hm s) as [H1 H2]. destruct (m s) as [[a|e] s1] eqn:E; simpl in *.
  - apply He in E. destruct (Hf a s1); [lia|]. split; [done|lia].
  - split; [congruence|done].
Qed.
Lemma within_then {A B} n (m : St text A) (f : A → St text B) : within n m → (∀ a, ends (f a)) → within n (m ≫= f).
Proof.
  intros Hm Hf s Hn. rewrite bind_run. destruct (Hm s Hn) as [H1 H2]. destruct (m s) as [[a|e] s1]; simpl in *.
  - destruct (Hf a s1). split; [done|lia].
  - split; [congruence|done].
Qed.
Lemma ends_bounded {A} (f : nat → St text A) : (∀ n, within n (f n)) → ends (bounded f).
Proof. intros Hf s. apply Hf. lia. Qed.
Lemma within_zero {A} (m : St text A) : within 0 m.
Proof. intros s Hs. lia. Qed.
End ends.
Create HintDb ends.
#[export] Hint Resolve ends_bind ends_ret ends_peek ends_get eats_get eats_throw within_zero : ends.
#[export] Hint Extern 1 (ends (mthrow _)) => apply ends_throw; discriminate : ends.
Ltac ends_step :=
  lazymatch goal with
  | |- ∀ _, _ => intros ?; cbv zeta
  | |- ends (_ ≫= _) => apply ends_bind
  | |- within (S _) (Json.get ≫= _) => apply within_step
  | |- within _ (_ ≫= _) => apply within_bind
  | |- ends (try_catch _ _) => apply ends_try
  | |- ends (if ?b then _ else _) => destruct b
  | |- within _ (if ?b then _ else _) => destruct b
  | |- ends (match ?x with _ => _ end) => destruct x
  | |- within _ (match ?x with _ => _ end) => destruct x
  | |- ends _ => solve [eauto 2 with ends]
  | |- eats _ => solve [eauto 2 with ends]
  | |- within _ _ => first [solve [eauto 2 with ends]|apply within_ends]
  end.
Ltac ending := repeat ends_step.

Section parser.
Import Variant Json.
Context `{Lexical}.
Lemma parseEscape_ends : ends parseEscape.
Proof. unfold parseEscape. ending. Qed.
Lemma parseEscape_eats : eats parseEscape.
Proof.
  unfold parseEscape. apply eats_after; [ending|]. intros c. destruct (eqc c 92); [|apply eats_throw].
  apply eats_bind; ending.
Qed.
#[local] Hint Resolve parseEscape_ends parseEscape_eats : ends.
Lemma skip_white_within n : within n (skip_white n).
Proof.
  induction n as [|n IH]; [apply within_zero|]. cbn [skip_white].
  apply within_bind; [ending|]. intros c. destruct (white c); [|ending]. apply within_step; [ending..|].
  intros _. apply within_then; [exact IH|ending].
Qed.
Lemma skip_white_space_ends : ends skip_white_space.
Proof. apply ends_bounded, skip_white_within. Qed.
#[local] Hint Resolve skip_white_space_ends : ends.
Lemma skip_white_true n s s' : skip_white n s = (Ok true, s') → (length s' < length s)%nat.
Proof.
  destruct n as [|n]; [done|]. cbn [skip_white]. intros Hr. apply St_bind_ok in Hr as (c & s1 & Hp & Hr).
  destruct s as [|c' s]; [done|]. injection Hp as <- <-. destruct (white c'); [|done].
  apply St_bind_ok in Hr as (c2 & s2 & [= <- <-] & Hr). apply St_bind_ok in Hr as (b & s3 & Hw & [= <-]).
  assert (Hl : (length s3 ≤ length s)%nat); [|simpl; lia].
  clear - Hw. revert s s3 b Hw. induction n as [|n IH]; intros s s3 b Hw; [done|]. cbn [skip_white] in Hw.
  apply St_bind_ok in Hw as (c & s1 & Hp & Hr). destruct s as [|c' s]; [done|]. injection Hp as <- <-.
  destruct (white c'); [|by injection Hr as <- <-].
  apply St_bind_ok in Hr as (c2 & s2 & [= <- <-] & Hr). apply St_bind_ok in Hr as (b' & s4 & Hw & [= <- <-]).
  apply IH in Hw. simpl. lia.
Qed.
Lemma string_loop_within n token : within n (string_loop n token).
Proof.
  revert token. induction n as [|n IH]; intros token; [apply within_zero|]. cbn [string_loop].
  apply within_bind; [ending|]. intros c. destruct (eqc c 92); [apply within_step; ending|]. ending.
Qed.
Lemma stringFromStream_ends : ends stringFromStream.
Proof. unfold stringFromStream. ending. apply ends_bounded. intros n. apply string_loop_within. Qed.
Lemma stringFromStream_eats : eats stringFromStream.
Proof.
  unfold stringFromStream. apply eats_after; [ending|]. intros c. destruct (negb _); [apply eats_throw|].
  apply eats_bind; [ending|]. intros _. apply ends_bounded. intros n. apply string_loop_within.
Qed.
Lemma token_loop_within n token : within n (token_loop n token).
Proof.
  revert token. induction n as [|n IH]; intros token; [apply within_zero|]. cbn [token_loop].
  intros s Hn. set (m := try_catch _ _). assert (Hm : ends m).
  { unfold m. ending; done. }
  assert (He : ∀ t s', m s = (Ok (inl t), s') → (length s' < length s)%nat).
  { intros t s' Hr. unfold m in Hr. apply try_ok in Hr as [Hr|(e & s1 & _ & Hr)].
    - apply St_bind_ok in Hr as (c & s1 & Hp & Hr). destruct s as [|c' s]; [done|]. injection Hp as <- <-.
      destruct (eqc c' 92).
      { apply St_bind_ok in Hr as (e & s2 & He & [= _ <-]). by apply parseEscape_eats in He. }
      destruct (_ || _); [by apply St_bind_ok in Hr as (? & ? & _ & ?)|].
      destruct (token_char c'); [|done]. apply St_bind_ok in Hr as (c2 & s2 & [= <- <-] & [= _ <-]). simpl. lia.
    - destruct e; try discriminate Hr. }
  rewrite bind_run. destruct (Hm s) as [H1 H2]. destruct (m s) as [[[t|t]|e] s1]; cbn [fst snd] in *.
  - specialize (He t s1 eq_refl). destruct (IH t s1); [lia|]. split; [done|lia].
  - done.
  - split; [congruence|done].
Qed.
Lemma stringFromToken_ends : ends stringFromToken.
Proof. apply ends_bounded. intros n. apply token_loop_within. Qed.
#[local] Hint Resolve stringFromStream_ends stringFromToken_ends : ends.
Lemma maybe_peek_ends :
  ends (try_catch (c ← peek; mret (Some c)) (λ e, match e with EofException => mret None | _ => mthrow e end)).
Proof. ending; done. Qed.
#[local] Hint Resolve maybe_peek_ends : ends.
Lemma number_loop_within n dot ss : within n (number_loop n dot ss).
Proof.
  revert dot ss. induction n as [|n IH]; intros dot ss; [apply within_zero|]. cbn [number_loop].
  apply within_bind; [apply maybe_peek_ends|]. ending.
Qed.
Lemma keyword_loop_within n ss : within n (keyword_loop n ss).
Proof.
  revert ss. induction n as [|n IH]; intros ss; [apply within_zero|]. cbn [keyword_loop].
  apply within_bind; [apply maybe_peek_ends|]. ending.
Qed.
Lemma finish_number_ends sd neg r : ends (finish_number sd neg r).
Proof.
  destruct r as [[str dot] letter]. unfold finish_number. ending;
    apply ends_lift; unfold string_doubles_of, to_double, to_int64, to_uint64, opt; repeat (case_match; try done).
Qed.
Lemma finish_token_ends r : ends (finish_token r).
Proof. destruct r as [str eof]. unfold finish_token. ending. Qed.
#[local] Hint Resolve finish_number_ends finish_token_ends : ends.
Lemma number_from_stream_ends sd : ends (number_from_stream sd).
Proof. unfold number_from_stream. ending. apply ends_bounded. intros n. apply number_loop_within. Qed.
Lemma token_from_stream_ends : ends token_from_stream.
Proof. unfold token_from_stream. ending. apply ends_bounded. intros n. apply keyword_loop_within. Qed.

(** Both are called on a character that they read. *)
Lemma number_from_stream_eats sd c s a s' : eqc c 45 || eqc c 46 || is_digit c = true →
  number_from_stream sd (c :: s) = (Ok a, s') → (length s' < length (c :: s))%nat.
Proof.
  intros Hc Hr. unfold number_from_stream in Hr. rewrite bind_run in Hr. cbn [peek] in Hr. cbv zeta in Hr.
  rewrite bind_run in Hr. destruct (eqc c 45).
  - rewrite bind_run in Hr. cbn [get mret St_ret] in Hr.
    apply St_bind_ok in Hr as (r & s1 & Hr & Hf). destruct (finish_number_ends sd true r s1) as [_ Hl]. rewrite Hf in Hl.
    destruct (number_loop_within (S (length s)) false [c] s) as [_ Hl1]; [lia|]. unfold bounded in Hr. rewrite Hr in Hl1.
    simpl in *. lia.
  - cbn [mret St_ret] in Hr. apply St_bind_ok in Hr as (r & s1 & Hr & Hf).
    assert (Hl : (length s' ≤ length s1)%nat).
    { destruct (finish_number_ends sd false r s1) as [_ Hl]. by rewrite Hf in Hl. }
    enough (length s1 ≤ length s)%nat by (simpl; lia). clear Hf Hl. unfold bounded in Hr. cbn [length] in Hr.
    remember (S (length s)) as n eqn:Hn. cbn [number_loop] in Hr.
    rewrite bind_run in Hr. unfold try_catch at 1 in Hr. rewrite bind_run in Hr. cbn [peek mret St_ret] in Hr.
    destruct (eqc c 0) eqn:E0; [unfold eqc, is_digit, in_range in *; lia|]. destruct (eqc c 46) eqn:E46.
    + rewrite bind_run in Hr. cbn [get] in Hr. destruct (number_loop_within n true ([] ++ [c]) s) as [_ Hl]; [lia|].
      by rewrite Hr in Hl.
    + simpl in Hc. rewrite Hc in Hr. rewrite bind_run in Hr. cbn [get] in Hr.
      destruct (number_loop_within n false ([] ++ [c]) s) as [_ Hl]; [lia|]. by rewrite Hr in Hl.
Qed.
Lemma token_from_stream_eats c s a s' : keyword_char c = true →
  token_from_stream (c :: s) = (Ok a, s') → (length s' < length (c :: s))%nat.
Proof.
  intros Hc Hr. apply St_bind_ok in Hr as (r & s1 & Hr & Hf).
  assert (Hl : (length s' ≤ length s1)%nat).
  { destruct (finish_token_ends r s1) as [_ Hl]. by rewrite Hf in Hl. }
  enough (length s1 ≤ length s)%nat by (simpl; lia). clear Hf Hl. unfold bounded in Hr. cbn [length] in Hr.
  remember (S (length s)) as n eqn:Hn. cbn [keyword_loop] in Hr.
  rewrite bind_run in Hr. unfold try_catch at 1 in Hr. rewrite bind_run in Hr. cbn [peek mret St_ret] in Hr.
  rewrite Hc, bind_run in Hr. cbn [get] in Hr.
  destruct (keyword_loop_within n ([] ++ [c]) s) as [_ Hl]; [lia|]. by rewrite Hr in Hl.
Qed.

Section loops.
Context (value : St text variant) (Hends : ends value) (Heats : eats value).
Lemma object_loop_within n obj : within n (object_loop value n obj).
Proof.
  revert obj. induction n as [|n IH]; intros obj; [apply within_zero|]. cbn [object_loop].
  apply within_bind; [ending|]. intros c. destruct (eqc c 125); [ending|]. destruct (eqc c 44); [ending|].
  intros s Hn. rewrite bind_run. destruct (skip_white_space_ends s) as [H1 H2].
  destruct (skip_white_space s) as [[[]|e] s1] eqn:E; cbn [fst snd] in *.
  - apply skip_white_true in E. destruct (IH obj s1); [lia|]. split; [done|lia].
  - enough (Hw : within (S n) (key ← stringFromStream; skip_white_space ;; c ← peek;
      if negb (eqc c 58) then mthrow ParseError
      else get ;; val ← value; skip_white_space ;; object_loop value n (append key val obj)))
      by (destruct (Hw s1); [lia|split; [done|lia]]).
    apply within_step; [ending|apply stringFromStream_eats|]. ending; auto.
  - split; [congruence|done].
Qed.
Lemma array_loop_within n ar : within n (array_loop value n ar).
Proof.
  revert ar. induction n as [|n IH]; intros ar; [apply within_zero|]. cbn [array_loop].
  apply within_bind; [ending|]. intros c. destruct (eqc c 93); [ending|]. destruct (eqc c 44); [ending|].
  intros s Hn. rewrite bind_run. destruct (skip_white_space_ends s) as [H1 H2].
  destruct (skip_white_space s) as [[[]|e] s1] eqn:E; cbn [fst snd] in *.
  - apply skip_white_true in E. destruct (IH ar s1); [lia|]. split; [done|lia].
  - enough (Hw : within (S n) (val ← value; skip_white_space ;; array_loop value n (ar ++ [val])))
      by (destruct (Hw s1); [lia|split; [done|lia]]).
    apply within_step; [done..|]. ending.
  - split; [congruence|done].
Qed.
Lemma objectFromStream_ends : ends (objectFromStream value).
Proof. unfold objectFromStream. ending; try done. apply ends_bounded. intros n. apply object_loop_within. Qed.
Lemma arrayFromStream_ends : ends (arrayFromStream value).
Proof. unfold arrayFromStream. ending. apply ends_bounded. intros n. apply array_loop_within. Qed.
Lemma objectFromStream_eats : eats (objectFromStream value).
Proof.
  intros s a s' [Hr|(e & s1 & _ & Hr)]%try_ok; [|by destruct e]. revert s a s' Hr.
  enough (He : eats (c ← peek; if negb (eqc c 123) then mthrow ParseError else get ;; skip_white_space ;;
    obj ← bounded (λ f, object_loop value f []); mret (object_type obj))) by exact He.
  apply eats_after; [ending|]. intros c. destruct (negb _); [apply eats_throw|]. apply eats_bind; [ending|]. ending.
  apply ends_bounded. intros n. apply object_loop_within.
Qed.
Lemma arrayFromStream_eats : eats (arrayFromStream value).
Proof.
  apply eats_after; [ending|]. intros c. destruct (negb _); [apply eats_throw|]. apply eats_bind; [ending|]. ending.
  apply ends_bounded. intros n. apply array_loop_within.
Qed.
End loops.
#[local] Hint Resolve number_from_stream_ends token_from_stream_ends : ends.
Lemma variant_from_stream_unfold sd room : variant_from_stream sd (S room) =
  (skip_white_space ;;
   c ← peek;
   if eqc c 34 then s ← stringFromStream; mret (string_type s)
   else if eqc c 123 then
     match room with O => mthrow AssertException | S room => objectFromStream (variant_from_stream sd room) end
   else if eqc c 91 then
     match room with O => mthrow AssertException | S room => arrayFromStream (variant_from_stream sd room) end
   else if eqc c 45 || eqc c 46 || is_digit c then number_from_stream sd
   else if eqc c 110 || eqc c 116 || eqc c 102 then token_from_stream
   else if eqc c 4 || eqc c 255 || eqc c 0 then mthrow EofException
   else stringFromToken ;; mthrow ParseError).
Proof. done. Qed.
Lemma variant_from_stream_ends sd room : ends (variant_from_stream sd room) ∧ eats (variant_from_stream sd room).
Proof.
  induction room as [room IH] using lt_wf_ind. destruct room as [|room].
  { split; [|apply eats_throw]. simpl. ending. }
  assert (Hr : ∀ r, room = S r → ends (variant_from_stream sd r) ∧ eats (variant_from_stream sd r)) by (intros r ->; apply IH; lia).
  clear IH. rewrite variant_from_stream_unfold. split.
  - ending; destruct (Hr _ eq_refl); auto using objectFromStream_ends, arrayFromStream_ends.
  - apply eats_after; [ending|]. intros _ s a s' Hv. apply St_bind_ok in Hv as (c & s1 & Hp & Hv).
    destruct s as [|c' s]; [done|]. injection Hp as <- <-.
    destruct (eqc c' 34). { revert Hv. apply eats_bind; [apply stringFromStream_eats|ending]. }
    destruct (eqc c' 123).
    { destruct room as [|room]; [done|]. destruct (Hr _ eq_refl). revert Hv. by apply objectFromStream_eats. }
    destruct (eqc c' 91).
    { destruct room as [|room]; [done|]. destruct (Hr _ eq_refl). revert Hv. by apply arrayFromStream_eats. }
    destruct (_ || is_digit c') eqn:E; [by eapply number_from_stream_eats|].
    destruct (eqc c' 110 || eqc c' 116 || eqc c' 102) eqn:E1.
    { revert Hv. apply token_from_stream_eats. unfold keyword_char, eqc in *. simpl. lia. }
    destruct (eqc c' 4 || eqc c' 255 || eqc c' 0); [done|]. apply St_bind_ok in Hv as (? & ? & _ & ?). done.
Qed.

Lemma from_string_no_fault string_doubles s : from_string string_doubles s ≠ Exc Fault.
Proof.
  unfold from_string, check_string_depth, fc_assert. destruct (string_depth 0 0 s); [|done].
  cbn [mbind result_bind mret result_ret].
  by apply (variant_from_stream_ends string_doubles (JSON_MAX_RECURSION_DEPTH - 1)).
Qed.
(** C35: The JSON parser ends on every input: it gives a value or one of the
    parser's exceptions, it never reads beyond the input, and a value that was
    read has used up at least one character, whatever the text, the nesting and
    the conversions of numbers are. *)
Theorem json_parser_total (string_doubles : bool) (room : nat) (s : text) :
  (variant_from_stream string_doubles room s).1 ≠ Exc Fault ∧
  (length (variant_from_stream string_doubles room s).2 ≤ length s)%nat ∧
  (∀ v s', variant_from_stream string_doubles room s = (Ok v, s') → (length s' < length s)%nat) ∧
  from_string string_doubles s ≠ Exc Fault ∧ is_valid string_doubles s ≠ Exc Fault.
Proof.
  destruct (variant_from_stream_ends string_doubles room) as [He Ht]. destruct (He s) as [H1 H2].
  split; [done|]. split; [done|]. split; [intros v s'; apply Ht|]. split.
  - apply from_string_no_fault.
  - unfold is_valid. destruct (bool_decide _); [done|].
    destruct (proj1 (variant_from_stream_ends string_doubles JSON_MAX_RECURSION_DEPTH) s) as [Hf _]. clear He Ht H1 H2.
    destruct (variant_from_stream string_doubles JSON_MAX_RECURSION_DEPTH s) as [[v|e] [|c r]]; cbn [fst] in Hf.
    1,2: discriminate.
    1,2: intros E; injection E as E; apply Hf; rewrite E; reflexivity.
Qed.
End parser.

(** ** What is printed is read back *)
Section induction.
Import Variant.
Context `{Lexical} (P : variant → Prop).
Context (Hnull : P null_type) (Hint : ∀ i, P (int64_type i)) (Huint : ∀ u, P (uint64_type u))
  (Hdouble : ∀ d, P (double_type d)) (Hbool : ∀ b, P (bool_type b)) (Hstring : ∀ s, P (string_type s))
  (Harray : ∀ a, Forall P a → P (array_type a)) (Hobject : ∀ o, Forall (λ e, P e.2) o → P (object_type o))
  (Hblob : ∀ data, P (blob_type data)).
Fixpoint variant_induction (v : variant) : P v :=
  match v with
  | null_type => Hnull
  | int64_type i => Hint i
  | uint64_type u => Huint u
  | double_type d => Hdouble d
  | bool_type b => Hbool b
  | string_type s => Hstring s
  | array_type a => Harray a ((fix go l := match l return Forall P l with
      | [] => Forall_nil_2 P
      | x :: l => Forall_cons_2 P x l (variant_induction x) (go l) end) a)
  | object_type o => Hobject o ((fix go l := match l return Forall (λ e, P e.2) l with
      | [] => Forall_nil_2 (λ e : text * variant, P e.2)
      | x :: l => Forall_cons_2 (λ e : text * variant, P e.2) x l (variant_induction x.2) (go l) end) o)
  | blob_type data => Hblob data
  end.
End induction.

(** Characters. *)
Lemma eqc_true c z : eqc c z = true → c = chr z.
Proof. unfold eqc. intros <-%Z.eqb_eq. by rewrite chr_code. Qed.

(** What the parser makes of an escaped character. *)
Definition lossy (c : ascii) : bool := (code c <? 32) && negb (eqc c 9 || eqc c 10 || eqc c 13).
Definition read_back (c : ascii) : text :=
  if eqc c 8 then ["b"%char]
  else if eqc c 12 then ["f"%char]
  else if lossy c then ["u"; "0"; "0"; Json.hex_digit (code c / 16); Json.hex_digit (code c mod 16)]%char
  else [c].
Lemma read_back_same (s : text) : s ≫= read_back = s ↔ forallb (λ c, negb (lossy c)) s = true.
Proof.
  assert (Hlen : ∀ s : text, (length s ≤ length (s ≫= read_back))%nat).
  { clear s. intros s. induction s as [|c s IH]; [done|]. rewrite bind_cons, length_app.
    assert (1 ≤ length (read_back c))%nat by (unfold read_back; repeat case_match; simpl; lia). simpl. lia. }
  induction s as [|c s IH]; [done|]. rewrite bind_cons. cbn [forallb]. rewrite andb_true_iff, <- IH. clear IH.
  unfold read_back at 1. destruct (eqc c 8) eqn:E8.
  { apply eqc_true in E8 as ->. split; [by intros [= ]|]. intros [E _]. by vm_compute in E. }
  destruct (eqc c 12) eqn:E12.
  { apply eqc_true in E12 as ->. split; [by intros [= ]|]. intros [E _]. by vm_compute in E. }
  destruct (lossy c).
  - split; [|by intros []]. intros E. apply (f_equal length) in E. rewrite length_app in E. simpl in E.
    specialize (Hlen s). lia.
  - simpl. split; [by intros [= E]|]. by intros [_ ->].
Qed.

(** What the code relies on in Boost: a number that was written is read back. *)
Class LexicalPromise `{Lexical} := {
  lexical_uint64_decimal n : 0 ≤ n < 2 ^ 64 → lexical_uint64 (Variant.decimal n) = Some n;
  lexical_int64_decimal n : - 2 ^ 63 ≤ n < 0 → lexical_int64 (Variant.decimal n) = Some n
}.

Section reading.
Import Variant Json.
Context `{Lexical}.
Implicit Types (s rest token : text).

Definition raw (c : ascii) : bool := negb (eqc c 92 || eqc c 4 || eqc c 34).
Lemma string_loop_raw fuel token c s : raw c = true →
  string_loop (S fuel) token (c :: s) = string_loop fuel (token ++ [c]) s.
Proof.
  unfold raw. rewrite negb_true_iff, !orb_false_iff. intros [[E1 E2] E3].
  cbn [string_loop]. rewrite bind_run. cbn [peek]. by rewrite E1, E2, E3.
Qed.
(** One character behind the backslash. *)
Definition escaped (c : ascii) : ascii :=
  if eqc c 116 then chr 9 else if eqc c 110 then chr 10 else if eqc c 114 then chr 13 else c.
Lemma string_loop_escape fuel token c s :
  string_loop (S fuel) token (chr 92 :: c :: s) = string_loop fuel (token ++ [escaped c]) s.
Proof.
  cbn [string_loop]. rewrite bind_run. cbn [peek]. change (eqc (chr 92) 92) with true. cbv iota.
  rewrite bind_run. unfold parseEscape. rewrite bind_run. cbn [peek]. change (eqc (chr 92) 92) with true. cbv iota.
  rewrite bind_run. cbn [get]. rewrite bind_run. cbn [peek]. unfold escaped.
  destruct (eqc c 116); [done|]. destruct (eqc c 110); [done|]. destruct (eqc c 114); [done|].
  destruct (eqc c 92) eqn:E; [by apply eqc_true in E as ->|done].
Qed.
Lemma hex_digit_raw z : 0 ≤ z < 16 → raw (hex_digit z) = true.
Proof.
  intros Hz. unfold hex_digit, raw, eqc. destruct (z <? 10) eqn:E; rewrite !code_chr by lia; lia.
Qed.
Lemma string_loop_char c token s fuel : (length (escape_char c) ≤ fuel)%nat →
  ∃ f, (fuel - length (escape_char c) ≤ f)%nat ∧
    string_loop fuel token (escape_char c ++ s) = string_loop f (token ++ read_back c) s.
Proof.
  unfold escape_char, read_back, lossy.
  destruct (eqc c 8) eqn:E8; [|destruct (eqc c 12) eqn:E12; [|destruct (eqc c 10) eqn:E10; [|destruct (eqc c 13) eqn:E13;
    [|destruct (eqc c 9) eqn:E9; [|destruct (eqc c 92) eqn:E92; [|destruct (eqc c 34) eqn:E34; [|destruct (code c <? 32) eqn:E32]]]]]]];
    cbn [length app]; intros Hf.
  1-7: destruct fuel as [|fuel]; [lia|]; exists fuel; split; [lia|]; rewrite string_loop_escape; try done.
  - by apply eqc_true in E10 as ->.
  - by apply eqc_true in E13 as ->.
  - by apply eqc_true in E9 as ->.
  - by apply eqc_true in E92 as ->.
  - by apply eqc_true in E34 as ->.
  - do 5 (destruct fuel as [|fuel]; [lia|]). exists fuel. split; [lia|]. rewrite string_loop_escape.
    apply Z.ltb_lt in E32. pose proof (code_range c).
    assert (0 ≤ code c / 16 < 16) by (split; [apply Z.div_pos|apply Z.div_lt_upper_bound]; lia).
    pose proof (Z.mod_pos_bound (code c) 16 ltac:(lia)).
    rewrite !string_loop_raw by first [reflexivity|by apply hex_digit_raw]. by rewrite <- !(assoc_L (++)).
  - destruct fuel as [|fuel]; [lia|]. exists fuel. split; [lia|]. rewrite string_loop_raw; [done|].
    unfold raw. rewrite E92, E34. unfold eqc. lia.
Qed.
Lemma string_loop_reads s token rest fuel : (length (s ≫= escape_char) < fuel)%nat →
  string_loop fuel token ((s ≫= escape_char) ++ chr 34 :: rest) = (Ok (token ++ (s ≫= read_back)), rest).
Proof.
  revert token fuel. induction s as [|c s IH]; intros token fuel Hf.
  - destruct fuel as [|fuel]; [simpl in Hf; lia|]. simpl. by rewrite app_nil_r.
  - rewrite bind_cons, length_app in Hf. rewrite bind_cons, <- (assoc_L (++)).
    destruct (string_loop_char c token ((s ≫= escape_char) ++ chr 34 :: rest) fuel) as (f & Hf' & ->); [lia|].
    rewrite IH by lia. by rewrite bind_cons, (assoc_L (++)).
Qed.
Lemma string_reads s rest : stringFromStream (escape_string s ++ rest) = (Ok (s ≫= read_back), rest).
Proof.
  unfold escape_string. cbn [app]. rewrite <- (assoc_L (++)). cbn [app]. unfold stringFromStream. rewrite bind_run. cbn [peek].
  change (negb (eqc (chr 34) 34)) with false. cbv iota. rewrite bind_run. cbn [get]. unfold bounded.
  rewrite string_loop_reads; [done|]. rewrite length_app. lia.
Qed.

(** A text that ends a number: the end, or a separator. *)
Definition stops rest : Prop :=
  match rest with [] => True | c :: _ => eqc c 44 || eqc c 93 || eqc c 125 = true end.
Lemma number_loop_reads ds ss rest fuel : Forall (λ c, is_digit c = true) ds → stops rest → (length ds < fuel)%nat →
  number_loop fuel false ss (ds ++ rest) = (Ok (ss ++ ds, false, false), rest).
Proof.
  intros Hds Hr. revert ss fuel. induction Hds as [|c ds Hc Hds IH]; intros ss fuel Hf; (destruct fuel as [|fuel]; [simpl in Hf; lia|]).
  - cbn [app number_loop]. rewrite app_nil_r. destruct rest as [|c rest]; [done|]. simpl in Hr.
    rewrite bind_run. unfold try_catch at 1. rewrite bind_run. cbn [peek mret St_ret].
    assert (E : eqc c 0 = false ∧ eqc c 46 = false ∧ is_digit c = false ∧ isalnum c = false)
      by (unfold isalnum, is_digit, in_range, eqc in *; lia).
    destruct E as (-> & -> & -> & ->). done.
  - cbn [app number_loop]. rewrite bind_run. unfold try_catch at 1. rewrite bind_run. cbn [peek mret St_ret].
    assert (E : eqc c 0 = false ∧ eqc c 46 = false) by (unfold is_digit, in_range, eqc in *; lia).
    destruct E as [-> ->]. rewrite Hc, bind_run. cbn [get]. rewrite IH by (simpl in Hf; lia).
    by rewrite <- (assoc_L (++)).
Qed.
Lemma digit_is_digit z : 0 ≤ z < 10 → is_digit (digit z) = true.
Proof. intros Hz. unfold is_digit, in_range, digit. rewrite code_chr by lia. lia. Qed.
Lemma digits_are_digits fuel n acc : 0 ≤ n → Forall (λ c, is_digit c = true) acc →
  Forall (λ c, is_digit c = true) (digits fuel n acc).
Proof.
  revert n acc. induction fuel as [|fuel IH]; intros n acc Hn Hacc; [done|]. simpl.
  assert (Hd : Forall (λ c, is_digit c = true) (digit (n mod 10) :: acc)).
  { constructor; [|done]. apply digit_is_digit. apply Z.mod_pos_bound. lia. }
  destruct (_ =? 0); [done|]. apply IH; [|done]. apply Z.div_pos; lia.
Qed.
Lemma digits_nonempty fuel n acc : acc ≠ [] → digits fuel n acc ≠ [].
Proof. revert n acc. induction fuel as [|fuel IH]; intros n acc Ha; [done|]. simpl. destruct (_ =? 0); [done|]. by apply IH. Qed.
Lemma decimal_shape n : ∃ c ds, Forall (λ c, is_digit c = true) (c :: ds) ∧
  decimal n = if n <? 0 then "-"%char :: c :: ds else c :: ds.
Proof.
  assert (Hk : ∀ k m, 0 ≤ m → ∃ c ds, Forall (λ c, is_digit c = true) (c :: ds) ∧ digits (S k) m [] = c :: ds).
  { intros k m Hm. pose proof (digits_are_digits (S k) m [] Hm ltac:(done)) as Hd.
    destruct (digits (S k) m []) as [|c ds] eqn:E; [|eauto]. exfalso. simpl in E. destruct (_ =? 0); [done|].
    by eapply digits_nonempty, E. }
  unfold decimal. destruct (n <? 0) eqn:E.
  - destruct (Hk (Z.to_nat (Z.log2 (- n))) (- n)) as (c & ds & Hd & ->); [lia|]. eauto.
  - destruct (Hk (Z.to_nat (Z.log2 n)) n) as (c & ds & Hd & ->); [lia|]. eauto.
Qed.

Lemma digits_not_null l : Forall (λ c, is_digit c = true) l → Forall (λ c, code c ≠ 0) l.
Proof. intros Hl. eapply Forall_impl; [exact Hl|]. intros c Hc. unfold is_digit, in_range in Hc. simpl in Hc. lia. Qed.

(** ** Values *)
Context `{!LexicalPromise}.
Lemma natural_reads sd n rest : 0 ≤ n < 2 ^ 64 → stops rest →
  number_from_stream sd (decimal n ++ rest) = (Ok (uint64_type n), rest).
Proof.
  intros Hn Hr. destruct (decimal_shape n) as (c & ds & Hd & E). rewrite (proj2 (Z.ltb_ge n 0)) in E by lia.
  pose proof (lexical_uint64_decimal n Hn) as Hlex. rewrite E in *. inversion_clear Hd as [|? ? Hc Hds].
  assert (Ec : eqc c 45 = false ∧ c ≠ "-"%char ∧ c ≠ "."%char).
  { split; [unfold is_digit, in_range, eqc in *; lia|]. split; intros ->; discriminate Hc. }
  destruct Ec as (E45 & Hm & Hp). unfold number_from_stream. cbn [app]. rewrite bind_run. cbn [peek]. cbv zeta. rewrite E45.
  rewrite bind_run. cbn [mret St_ret]. rewrite bind_run. unfold bounded.
  change (c :: ds ++ rest) with ((c :: ds) ++ rest).
  rewrite number_loop_reads; [|by constructor|done|rewrite length_app; lia]. unfold finish_number. cbn [app].
  rewrite !bool_decide_false by (vm_compute; congruence). cbv iota. simpl. rewrite bind_run. unfold lift, to_uint64.
  rewrite c_str_id by (apply digits_not_null; by constructor). by rewrite Hlex.
Qed.
Lemma negative_reads sd n rest : - 2 ^ 63 ≤ n < 0 → stops rest →
  number_from_stream sd (decimal n ++ rest) = (Ok (int64_type n), rest).
Proof.
  intros Hn Hr. destruct (decimal_shape n) as (c & ds & Hd & E). rewrite (proj2 (Z.ltb_lt n 0)) in E by lia.
  pose proof (lexical_int64_decimal n Hn) as Hlex. rewrite E in *. inversion_clear Hd as [|? ? Hc Hds].
  assert (Hp : c ≠ "."%char) by (intros ->; discriminate Hc).
  unfold number_from_stream. cbn [app]. rewrite bind_run. cbn [peek]. cbv zeta.
  change (eqc "-" 45) with true. cbv iota. rewrite bind_run, bind_run. cbn [get mret St_ret]. rewrite bind_run. unfold bounded.
  change (c :: ds ++ rest) with ((c :: ds) ++ rest).
  rewrite number_loop_reads; [|by constructor|done|rewrite length_app; lia]. unfold finish_number. cbn [app].
  rewrite !bool_decide_false by (vm_compute; congruence). cbv iota. simpl. rewrite bind_run. unfold lift, to_int64.
  rewrite c_str_id by (constructor; [done|]; apply digits_not_null; by constructor). by rewrite Hlex.
Qed.
Lemma keyword_loop_reads w ss rest fuel : Forall (λ c, keyword_char c = true) w → stops rest → (length w < fuel)%nat →
  ∃ eof, keyword_loop fuel ss (w ++ rest) = (Ok (ss ++ w, eof), rest).
Proof.
  intros Hw Hr. revert ss fuel. induction Hw as [|c w Hc Hw IH]; intros ss fuel Hf; (destruct fuel as [|fuel]; [simpl in Hf; lia|]).
  - rewrite app_nil_r. destruct rest as [|c rest]; [by exists true|]. exists false. cbn [app keyword_loop].
    rewrite bind_run. unfold try_catch at 1. rewrite bind_run. cbn [peek mret St_ret].
    assert (keyword_char c = false) as -> by (simpl in Hr; unfold keyword_char, eqc in *; simpl; lia). done.
  - cbn [app keyword_loop]. rewrite bind_run. unfold try_catch at 1. rewrite bind_run. cbn [peek mret St_ret].
    rewrite Hc, bind_run. cbn [get]. destruct (IH (ss ++ [c]) fuel) as [eof ->]; [simpl in Hf; lia|].
    exists eof. by rewrite <- (assoc_L (++)).
Qed.
Lemma keyword_reads w v rest : Forall (λ c, keyword_char c = true) w → stops rest →
  (∀ eof s, finish_token (w, eof) s = (Ok v, s)) → token_from_stream (w ++ rest) = (Ok v, rest).
Proof.
  intros Hw Hr Hv. unfold token_from_stream. rewrite bind_run. unfold bounded.
  destruct (keyword_loop_reads w [] rest (S (length (w ++ rest)))) as [eof ->]; [done..|rewrite length_app; lia|]. apply Hv.
Qed.
Lemma skip_none c s : white c = false → skip_white_space (c :: s) = (Ok false, c :: s).
Proof. intros Hw. unfold skip_white_space, bounded. cbn [length skip_white]. rewrite bind_run. cbn [peek]. by rewrite Hw. Qed.

(** The levels of recursion a value takes, and the values that are written
    without the floating-point library. *)
Fixpoint need (v : variant) : nat :=
  match v with
  | array_type a => S (S (max_list (map need a)))
  | object_type o => S (S (max_list (map (λ e, need e.2) o)))
  | _ => 1
  end.
Fixpoint ranged (v : variant) : bool :=
  match v with
  | int64_type i => (- 2 ^ 63 <=? i) && (i <? 2 ^ 63)
  | uint64_type u => (0 <=? u) && (u <? 2 ^ 64)
  | double_type _ => false
  | array_type a => forallb ranged a
  | object_type o => forallb (λ e, ranged e.2) o
  | _ => true
  end.
(** What a value is after it was printed and parsed: a positive number is
    unsigned, or a string when large numbers are written as strings, and strings
    are as the parser sees them. *)
Definition number_back (stringify : bool) (n : Z) : variant :=
  if stringify && (0xffffffff <? n) then string_type (decimal n)
  else if n <? 0 then int64_type n else uint64_type n.
Fixpoint back (stringify : bool) (v : variant) : variant :=
  match v with
  | int64_type i => number_back stringify i
  | uint64_type u => number_back stringify u
  | string_type s => string_type (s ≫= read_back)
  | array_type a => array_type (map (back stringify) a)
  | object_type o => object_type (map (λ e, (e.1 ≫= read_back, back stringify e.2)) o)
  | blob_type data => string_type (blob_text data ≫= read_back)
  | _ => v
  end.

Definition plain (c : ascii) : bool := is_digit c || eqc c 45.
Lemma plain_same ds : Forall (λ c, plain c = true) ds → ds ≫= escape_char = ds ∧ ds ≫= read_back = ds.
Proof.
  intros Hds. split.
  - induction Hds as [|c ds Hc _ IH]; [done|]. rewrite bind_cons, IH. unfold escape_char.
    assert (E : eqc c 8 = false ∧ eqc c 12 = false ∧ eqc c 10 = false ∧ eqc c 13 = false ∧ eqc c 9 = false ∧
      eqc c 92 = false ∧ eqc c 34 = false ∧ (code c <? 32) = false)
      by (unfold plain, is_digit, in_range, eqc in *; lia).
    by destruct E as (-> & -> & -> & -> & -> & -> & -> & ->).
  - apply read_back_same, forallb_forall. intros c Hc%list_elem_of_In. rewrite Forall_forall in Hds. apply Hds in Hc.
    unfold lossy, plain, is_digit, in_range, eqc in *. lia.
Qed.
Lemma decimal_plain n : Forall (λ c, plain c = true) (decimal n).
Proof.
  destruct (decimal_shape n) as (c & ds & Hd & ->).
  assert (Forall (λ c, plain c = true) (c :: ds)) by (eapply Forall_impl; [exact Hd|]; unfold plain; simpl; intros x ->; done).
  destruct (n <? 0); [by constructor|done].
Qed.

(** A text that begins a value. *)
Definition opens (s : text) : Prop :=
  match s with [] => False | c :: _ => white c = false ∧ eqc c 93 = false ∧ eqc c 44 = false ∧ eqc c 125 = false end.
Lemma decimal_opens n : opens (decimal n).
Proof.
  pose proof (decimal_plain n) as Hp. destruct (decimal_shape n) as (c & ds & _ & E).
  destruct (decimal n) as [|c' ds']; [destruct (n <? 0); discriminate E|]. inversion_clear Hp as [|? ? Hc _].
  unfold opens, white, plain, is_digit, in_range, eqc in *. lia.
Qed.
Lemma print_opens stringify v : ranged v = true → opens (to_stream stringify v).
Proof.
  destruct v as [| | | |[]| | | |]; intros Hr; try done; cbn [to_stream]; unfold print_integer; destruct (_ && _); try done;
    apply decimal_opens.
Qed.
Lemma opens_app s rest : opens s → ∃ c s', s ++ rest = c :: s' ∧ white c = false ∧ eqc c 93 = false ∧ eqc c 44 = false ∧ eqc c 125 = false.
Proof. destruct s as [|c s]; [done|]. intros Ho. by exists c, (s ++ rest). Qed.

Lemma variant_at sd room c s : white c = false → variant_from_stream sd (S room) (c :: s) =
  (if eqc c 34 then s ← stringFromStream; mret (string_type s)
   else if eqc c 123 then
     match room with O => mthrow AssertException | S room => objectFromStream (variant_from_stream sd room) end
   else if eqc c 91 then
     match room with O => mthrow AssertException | S room => arrayFromStream (variant_from_stream sd room) end
   else if eqc c 45 || eqc c 46 || is_digit c then number_from_stream sd
   else if eqc c 110 || eqc c 116 || eqc c 102 then token_from_stream
   else if eqc c 4 || eqc c 255 || eqc c 0 then mthrow EofException
   else stringFromToken ;; mthrow ParseError) (c :: s).
Proof. intros Hw. rewrite variant_from_stream_unfold, bind_run, skip_none by done. by rewrite bind_run. Qed.
Lemma string_value_reads sd room s rest :
  variant_from_stream sd (S room) (escape_string s ++ rest) = (Ok (string_type (s ≫= read_back)), rest).
Proof.
  pose proof (string_reads s rest) as Hs. unfold escape_string in *. cbn [app] in *. rewrite variant_at by done.
  change (eqc (chr 34) 34) with true. cbv iota. by rewrite bind_run, Hs.
Qed.
Lemma integer_reads sd room stringify n rest : - 2 ^ 63 ≤ n < 2 ^ 64 → stops rest →
  variant_from_stream sd (S room) (print_integer stringify n ++ rest) = (Ok (number_back stringify n), rest).
Proof.
  intros Hn Hr. destruct (plain_same _ (decimal_plain n)) as [He Hb]. unfold print_integer, number_back.
  destruct (stringify && _).
  - rewrite <- He at 1. rewrite <- Hb at 2. apply string_value_reads.
  - assert (Hnum : number_from_stream sd (decimal n ++ rest) = (Ok (if n <? 0 then int64_type n else uint64_type n), rest)).
    { destruct (n <? 0) eqn:E; [apply negative_reads|apply natural_reads]; (done || lia). }
    revert Hnum. pose proof (decimal_plain n) as Hp. pose proof (decimal_opens n) as Ho.
    destruct (decimal n) as [|c ds]; [done|]. cbn [app]. inversion_clear Hp as [|? ? Hc _]. intros Hnum.
    rewrite variant_at by apply Ho.
    assert (E : eqc c 34 = false ∧ eqc c 123 = false ∧ eqc c 91 = false ∧ eqc c 45 || eqc c 46 || is_digit c = true)
      by (unfold plain, is_digit, in_range, eqc in *; lia).
    by destruct E as (-> & -> & -> & ->).
Qed.

Section values.
Context (sd stringify : bool) (room : nat).
Abbreviation value := (variant_from_stream sd room).
Definition reads_back (v : variant) : Prop := ∀ rest, stops rest →
  value (to_stream stringify v ++ rest) = (Ok (back stringify v), rest).
Lemma array_loop_reads a ar rest fuel : Forall (λ v, ranged v = true ∧ reads_back v) a →
  (length (join (map (to_stream stringify) a)) + 1 < fuel)%nat →
  array_loop value fuel ar (join (map (to_stream stringify) a) ++ "]"%char :: rest) = (Ok (ar ++ map (back stringify) a), rest).
Proof.
  intros Ha. revert ar fuel. induction Ha as [|v a [Hr Hv] Ha IH]; intros ar fuel Hf.
  { destruct fuel as [|fuel]; [simpl in Hf; lia|]. simpl. by rewrite app_nil_r. }
  destruct fuel as [|fuel]; [lia|]. cbn [map] in Hf |- *. destruct (opens_app (to_stream stringify v) [] (print_opens stringify v Hr)) as (c & s' & E & Ho).
  rewrite app_nil_r in E.
  assert (Hstep : ∀ tail, stops tail → tail ≠ [] → (match tail with c :: _ => white c | [] => true end) = false →
    array_loop value (S fuel) ar (to_stream stringify v ++ tail) = array_loop value fuel (ar ++ [back stringify v]) tail).
  { intros tail Hs Hne Hw. destruct Ho as (Hw0 & H93 & H44 & _). specialize (Hv tail Hs). rewrite E in Hv |- *. cbn [app] in Hv |- *.
    cbn [array_loop]. rewrite bind_run. cbn [peek]. rewrite H93, H44, bind_run, skip_none by done. cbv iota.
    rewrite bind_run, Hv, bind_run. destruct tail as [|c0 tail]; [done|]. by rewrite skip_none. }
  destruct a as [|v' a].
  - cbn [map join]. rewrite Hstep by done. destruct fuel as [|fuel]; [cbn [map join length] in Hf; rewrite E in Hf; simpl in Hf; lia|]. done.
  - change (join (to_stream stringify v :: map (to_stream stringify) (v' :: a))) with
      (to_stream stringify v ++ ","%char :: join (map (to_stream stringify) (v' :: a))) in *.
    rewrite length_app in Hf. rewrite <- (assoc_L (++)). cbn [app]. rewrite Hstep by done.
    destruct fuel as [|fuel]; [simpl in Hf; lia|]. cbn [array_loop]. rewrite bind_run. cbn [peek].
    change (eqc "," 93) with false. change (eqc "," 44) with true. cbv iota. rewrite bind_run. cbn [get].
    rewrite IH by (rewrite E in Hf; cbn [length] in Hf; lia). by rewrite <- (assoc_L (++)).
Qed.
Definition print_entry (e : text * variant) : text := escape_string e.1 ++ ":"%char :: to_stream stringify e.2.
Definition entry_back (e : text * variant) : text * variant := (e.1 ≫= read_back, back stringify e.2).
Lemma object_loop_reads o obj rest fuel : Forall (λ e, ranged e.2 = true ∧ reads_back e.2) o →
  (length (join (map print_entry o)) + 1 < fuel)%nat →
  object_loop value fuel obj (join (map print_entry o) ++ "}"%char :: rest) = (Ok (obj ++ map entry_back o), rest).
Proof.
  intros Ho. revert obj fuel. induction Ho as [|e o [Hr Hv] Ho IH]; intros obj fuel Hf.
  { destruct fuel as [|fuel]; [simpl in Hf; lia|]. simpl. by rewrite app_nil_r. }
  destruct fuel as [|fuel]; [lia|]. cbn [map] in Hf |- *.
  assert (Hstep : ∀ tail, stops tail → tail ≠ [] → (match tail with c :: _ => white c | [] => true end) = false →
    object_loop value (S fuel) obj (print_entry e ++ tail) = object_loop value fuel (obj ++ [entry_back e]) tail).
  { intros tail Hs Hne Hw. unfold print_entry. rewrite <- (assoc_L (++)). cbn [app].
    pose proof (string_reads e.1 (":"%char :: to_stream stringify e.2 ++ tail)) as Hk. unfold escape_string in Hk |- *.
    cbn [app] in Hk |- *. cbn [object_loop]. rewrite bind_run. cbn [peek].
    change (eqc (chr 34) 125) with false. change (eqc (chr 34) 44) with false. cbv iota. rewrite bind_run, skip_none by done. cbv iota.
    rewrite bind_run, Hk, bind_run, skip_none by done. rewrite bind_run. cbn [peek]. change (negb (eqc ":" 58)) with false. cbv iota.
    rewrite bind_run. cbn [get]. rewrite bind_run, Hv by done. rewrite bind_run.
    destruct tail as [|c0 tail]; [done|]. by rewrite skip_none. }
  assert (He : (1 ≤ length (print_entry e))%nat) by (unfold print_entry, escape_string; simpl; lia).
  destruct o as [|e' o].
  - cbn [map join]. rewrite Hstep by done. destruct fuel as [|fuel]; [cbn [map join length] in Hf; lia|]. done.
  - change (join (print_entry e :: map print_entry (e' :: o))) with
      (print_entry e ++ ","%char :: join (map print_entry (e' :: o))) in *.
    rewrite length_app in Hf. rewrite <- (assoc_L (++)). cbn [app]. rewrite Hstep by done.
    destruct fuel as [|fuel]; [simpl in Hf; lia|]. cbn [object_loop]. rewrite bind_run. cbn [peek].
    change (eqc "," 125) with false. change (eqc "," 44) with true. cbv iota. rewrite bind_run. cbn [get].
    rewrite IH by (cbn [length] in Hf; lia). by rewrite <- (assoc_L (++)).
Qed.
End values.

Lemma join_opens (l : list text) rest c : Forall opens l → white c = false →
  ∃ c' s', join l ++ c :: rest = c' :: s' ∧ white c' = false.
Proof.
  intros Hl Hc. destruct l as [|x l]; [by exists c, rest|]. inversion_clear Hl as [|? ? Hx _].
  destruct x as [|c' x]; [done|]. destruct Hx as [Hw _]. destruct l; by eexists c', _.
Qed.
Lemma max_list_le (l : list nat) x : x ∈ l → (x ≤ max_list l)%nat.
Proof. induction l as [|y l IH]; [by intros ?%not_elem_of_nil|]. intros [->|Hx%IH]%elem_of_cons; simpl; lia. Qed.

Lemma max_list_map {A} (f : A → nat) (l : list A) x : x ∈ l → (f x ≤ max_list (map f l))%nat.
Proof. intros Hx. apply max_list_le. apply list_elem_of_In, in_map. by apply list_elem_of_In. Qed.
Lemma map_opens {A} (f : A → text) (l : list A) : (∀ x, x ∈ l → opens (f x)) → Forall opens (map f l).
Proof.
  intros Hf. apply Forall_forall. intros t Ht%list_elem_of_In. apply in_map_iff in Ht as (x & <- & Hx). apply Hf.
  by apply list_elem_of_In.
Qed.
Lemma array_reads sd stringify room a rest : Forall (λ v, ranged v = true ∧ reads_back sd stringify room v) a →
  arrayFromStream (variant_from_stream sd room) (to_stream stringify (array_type a) ++ rest) =
  (Ok (array_type (map (back stringify) a)), rest).
Proof.
  intros Ha. cbn [to_stream app]. unfold arrayFromStream. rewrite bind_run. cbn [peek].
  change (negb (eqc "[" 91)) with false. cbv iota. rewrite bind_run. cbn [get]. rewrite bind_run, <- (assoc_L (++)). cbn [app].
  destruct (join_opens (map (to_stream stringify) a) rest "]"%char) as (c' & s' & E & Hw); [|done|].
  { apply map_opens. intros x Hx. rewrite Forall_forall in Ha. by apply print_opens, Ha. }
  rewrite E, skip_none by done. rewrite <- E. rewrite bind_run. unfold bounded.
  by rewrite array_loop_reads by (done || (rewrite length_app; simpl; lia)).
Qed.
Lemma object_reads sd stringify room o rest : Forall (λ e, ranged e.2 = true ∧ reads_back sd stringify room e.2) o →
  objectFromStream (variant_from_stream sd room) (to_stream stringify (object_type o) ++ rest) =
  (Ok (object_type (map (entry_back stringify) o)), rest).
Proof.
  intros Ho. cbn [to_stream app]. unfold objectFromStream, try_catch. rewrite bind_run. cbn [peek].
  change (negb (eqc "{" 123)) with false. cbv iota. rewrite bind_run. cbn [get]. rewrite bind_run, <- (assoc_L (++)). cbn [app].
  change (map (λ e, escape_string e.1 ++ ":"%char :: to_stream stringify e.2) o) with (map (print_entry stringify) o).
  destruct (join_opens (map (print_entry stringify) o) rest "}"%char) as (c' & s' & E & Hw); [|done|].
  { by apply map_opens. }
  rewrite E, skip_none by done. rewrite <- E. rewrite bind_run. unfold bounded.
  by rewrite object_loop_reads by (done || (rewrite length_app; simpl; lia)).
Qed.
Lemma keyword_value_reads sd room c w v rest : eqc c 110 || eqc c 116 || eqc c 102 = true →
  Forall (λ c, keyword_char c = true) (c :: w) → stops rest → (∀ eof s, finish_token (c :: w, eof) s = (Ok v, s)) →
  variant_from_stream sd (S room) ((c :: w) ++ rest) = (Ok v, rest).
Proof.
  intros Hc Hw Hs Hv. pose proof (keyword_reads (c :: w) v rest Hw Hs Hv) as Hk. cbn [app] in *.
  assert (E : white c = false ∧ eqc c 34 = false ∧ eqc c 123 = false ∧ eqc c 91 = false ∧ eqc c 45 || eqc c 46 || is_digit c = false)
    by (unfold white, is_digit, in_range, eqc in *; lia).
  destruct E as (Ew & E1 & E2 & E3 & E4). rewrite variant_at by done. by rewrite E1, E2, E3, E4, Hc.
Qed.
Lemma print_reads sd stringify v : ranged v = true → ∀ room, (need v ≤ room)%nat → reads_back sd stringify room v.
Proof.
  induction v as [|n|n|d|c|s|a IHa|o IHo|data] using variant_induction; intros Hr room Hn rest Hs; cbn [need] in Hn;
    (destruct room as [|room]; [lia|]).
  - apply keyword_value_reads; [done|by repeat constructor|done|done].
  - cbn [ranged] in Hr. apply integer_reads; [lia|done].
  - cbn [ranged] in Hr. apply integer_reads; [lia|done].
  - done.
  - destruct c; apply keyword_value_reads; try done; by repeat constructor.
  - apply string_value_reads.
  - destruct room as [|room]; [lia|]. cbn [ranged] in Hr. rewrite forallb_forall in Hr. rewrite Forall_forall in IHa.
    change (variant_from_stream sd (S (S room)) (to_stream stringify (array_type a) ++ rest)) with
      (arrayFromStream (variant_from_stream sd room) (to_stream stringify (array_type a) ++ rest)).
    apply array_reads, Forall_forall. intros x Hx. assert (Hrx : ranged x = true) by (apply Hr; by apply list_elem_of_In).
    split; [done|]. apply IHa; [done..|]. pose proof (max_list_map need a x Hx). lia.
  - destruct room as [|room]; [lia|]. cbn [ranged] in Hr. rewrite forallb_forall in Hr. rewrite Forall_forall in IHo.
    change (variant_from_stream sd (S (S room)) (to_stream stringify (object_type o) ++ rest)) with
      (objectFromStream (variant_from_stream sd room) (to_stream stringify (object_type o) ++ rest)).
    apply object_reads, Forall_forall. intros x Hx. assert (Hrx : ranged x.2 = true) by (apply (Hr x); by apply list_elem_of_In).
    split; [done|]. apply IHo; [done..|]. pose proof (max_list_map (λ e, need e.2) o x Hx). simpl in *. lia.
  - apply (string_value_reads sd room (blob_text data)).
Qed.
End reading.

Section roundtrip.
Import Variant Json.
Context `{Lexical} `{!LexicalPromise}.

(** The values that come back unchanged when numbers are written as numbers. *)
Definition unlossy (s : text) : bool := forallb (λ c, negb (lossy c)) s.
Fixpoint canonical (v : variant) : bool :=
  match v with
  | int64_type i => i <? 0
  | blob_type _ => false
  | string_type s => unlossy s
  | array_type a => forallb canonical a
  | object_type o => forallb (λ e, unlossy e.1 && canonical e.2) o
  | _ => true
  end.
Lemma map_same {A} (f : A → A) (p : A → bool) (l : list A) : Forall (λ x, f x = x ↔ p x = true) l →
  map f l = l ↔ forallb p l = true.
Proof.
  intros Hl. induction Hl as [|x l Hx _ IH]; [done|]. simpl. rewrite andb_true_iff, <- IH, <- Hx. split; [by intros [= -> ->]|].
  by intros [-> ->].
Qed.
Lemma back_same v : ranged v = true → back false v = v ↔ canonical v = true.
Proof.
  induction v as [|n|n|d|c|s|a IHa|o IHo|data] using variant_induction; intros Hr; try done; cbn [back canonical].
  - unfold number_back. simpl. by destruct (n <? 0).
  - unfold number_back. simpl. cbn [ranged] in Hr. by rewrite (proj2 (Z.ltb_ge n 0)) by lia.
  - unfold unlossy. rewrite <- read_back_same. split; [by intros [= E]|by intros ->].
  - cbn [ranged] in Hr. rewrite forallb_forall in Hr. rewrite <- (map_same (back false) canonical a).
    + split; [by intros [= E]|by intros ->].
    + apply Forall_forall. intros x Hx. rewrite Forall_forall in IHa. apply IHa; [done|]. apply Hr. by apply list_elem_of_In.
  - cbn [ranged] in Hr. rewrite forallb_forall in Hr.
    rewrite <- (map_same (λ e, (e.1 ≫= read_back, back false e.2)) (λ e, unlossy e.1 && canonical e.2) o).
    + split; [by intros [= E]|by intros ->].
    + apply Forall_forall. intros [k x] Hx. rewrite Forall_forall in IHo. rewrite andb_true_iff. unfold unlossy.
      rewrite <- read_back_same. simpl. rewrite <- (IHo (k, x)); [|done|apply (Hr (k, x)); by apply list_elem_of_In].
      simpl. split; [by intros [= -> ->]|by intros [-> ->]].
Qed.

(** C25: Printing and parsing JSON.  A value without floating-point numbers, with
    integers of 64 bits, whose nesting the parser allows is read back from its
    text, under either way of writing numbers, as [back]: null, booleans, arrays
    and objects as they are, in order, negative numbers as signed and others as
    unsigned, or as strings when large numbers are written as strings, blobs as
    their text in base 64, and in strings and keys every control character but
    tab, newline and carriage return changed, which the printer escapes in a way
    the parser does not understand.  The text is valid.  With numbers written as
    numbers the value comes back unchanged exactly when it is [canonical]: no
    signed number that is not negative, no blob, and no such character. *)
Theorem json_roundtrip (string_doubles stringify : bool) (v : variant) : ranged v = true → (need v < JSON_MAX_RECURSION_DEPTH)%nat →
  string_depth 0 0 (to_string stringify v) = true →
  from_string string_doubles (to_string stringify v) = Ok (back stringify v) ∧
  is_valid string_doubles (to_string stringify v) = Ok true ∧
  (back false v = v ↔ canonical v = true).
Proof.
  intros Hr Hn Hd. split; [|split; [|by apply back_same]].
  - unfold from_string, check_string_depth. rewrite Hd. cbn [fc_assert mbind result_bind mret result_ret].
    pose proof (print_reads string_doubles stringify v Hr (JSON_MAX_RECURSION_DEPTH - 1) ltac:(lia) [] I) as Hp.
    rewrite app_nil_r in Hp. unfold to_string. by rewrite Hp.
  - unfold is_valid, to_string. pose proof (print_opens stringify v Hr) as Ho.
    rewrite bool_decide_false by (intros E; by rewrite E in Ho).
    pose proof (print_reads string_doubles stringify v Hr JSON_MAX_RECURSION_DEPTH ltac:(lia) [] I) as Hp.
    rewrite app_nil_r in Hp. by rewrite Hp.
Qed.
End roundtrip.

(** ** Numbers as Boost reads them, and a value *)
Module JsonDemo.
Import Variant Json.
Definition value_of (s : text) (acc : Z) : Z := fold_left (λ acc c, acc * 10 + (code c - 48)) s acc.
Lemma value_of_digits fuel n acc : 0 ≤ n < 2 ^ Z.of_nat fuel → value_of (digits fuel n acc) 0 = value_of acc n.
Proof.
  revert n acc. induction fuel as [|fuel IH]; intros n acc Hn.
  - simpl in Hn. assert (n = 0) as -> by lia. done.
  - rewrite Nat2Z.inj_succ, Z.pow_succ_r in Hn by lia. cbn [digits].
    assert (Hc : value_of (digit (n mod 10) :: acc) (n / 10) = value_of acc n).
    { unfold value_of. cbn [fold_left]. f_equal. unfold digit. pose proof (Z.mod_pos_bound n 10 ltac:(lia)).
      rewrite code_chr by lia. pose proof (Z.div_mod n 10 ltac:(lia)). lia. }
    destruct (n / 10 =? 0) eqn:E; [apply Z.eqb_eq in E; by rewrite E in Hc|].
    rewrite IH, Hc; [done|]. split; [apply Z.div_pos; lia|]. apply Z.div_lt_upper_bound; lia.
Qed.
Lemma log2_fuel n : 0 ≤ n → 0 ≤ n < 2 ^ Z.of_nat (S (Z.to_nat (Z.log2 n))).
Proof.
  intros Hn. split; [done|]. rewrite Nat2Z.inj_succ, Z2Nat.id by apply Z.log2_nonneg. destruct (Z.eq_dec n 0) as [->|Hz]; [done|].
  apply Z.log2_spec. lia.
Qed.
Definition natural (s : text) : option Z :=
  if bool_decide (s = []) then None else if forallb is_digit s then Some (value_of s 0) else None.
#[global] Instance lexical : Lexical := {|
  double := unit; lexical_double _ := None; double_text _ := []; double_of _ := tt; double_to_int64 _ := 0;
  double_to_uint64 _ := 0; double_eqb _ _ := true; double_ltb _ _ := false; double_leb _ _ := true; double_add _ _ := tt;
  double_sub _ _ := tt; double_mul _ _ := tt; double_div _ _ := tt; double_bytes _ := [];
  lexical_uint64 := natural;
  lexical_int64 s := match s with c :: s' => if eqc c 45 then Z.opp <$> natural s' else natural s | [] => None end
|}.
Lemma natural_decimal n : 0 ≤ n → natural (digits (S (Z.to_nat (Z.log2 n))) n []) = Some n.
Proof.
  intros Hn. unfold natural. pose proof (value_of_digits _ n [] (log2_fuel n Hn)) as Hv.
  pose proof (digits_are_digits (S (Z.to_nat (Z.log2 n))) n [] Hn ltac:(done)) as Hd.
  rewrite bool_decide_false.
  - rewrite (proj2 (forallb_forall _ _)); [by rewrite Hv|]. intros c Hc. rewrite Forall_forall in Hd. by apply Hd, list_elem_of_In.
  - simpl. destruct (_ =? 0); [done|]. by apply digits_nonempty.
Qed.
#[global] Instance lexical_promise : LexicalPromise.
Proof.
  split; intros n Hn; unfold decimal.
  - rewrite (proj2 (Z.ltb_ge n 0)) by lia. apply natural_decimal. lia.
  - rewrite (proj2 (Z.ltb_lt n 0)) by lia. set (ds := digits _ _ _). change (Z.opp <$> natural ds = Some n).
    unfold ds. rewrite natural_decimal by lia. simpl. f_equal. lia.
Qed.
Definition request : variant :=
  object_type [(lit "jsonrpc", string_type (lit "2.0")); (lit "id", uint64_type 7);
    (lit "params", array_type [int64_type (-5); bool_type true; null_type; string_type (lit "a b")])].
End JsonDemo.

Lemma json_roundtrip_witness :
  Json.from_string false (Json.to_string false JsonDemo.request) = Ok JsonDemo.request ∧
  Json.is_valid false (Json.to_string false JsonDemo.request) = Ok true.
Proof.
  destruct (json_roundtrip false false JsonDemo.request eq_refl ltac:(vm_compute; lia) ltac:(vm_compute; reflexivity)) as (H1 & H2 & H3).
  split; [|exact H2]. rewrite (proj2 H3) in H1 by (vm_compute; reflexivity). exact H1.
Defined.

(** A tab at the end of a string makes [pretty_print] lose track of the quotes:
    it writes spaces into the strings that follow. *)
Lemma pretty_print_changes_strings :
  let v := Variant.object_type [(lit "a", Variant.string_type [chr 9]); (lit "b", Variant.string_type (lit "x:y"))] in
  Json.from_string false (Json.to_string false v) = Ok v ∧
  Json.from_string false (Json.to_pretty_string false v) =
    Ok (Variant.object_type [(lit "a", Variant.string_type [chr 9]); (lit "b", Variant.string_type (lit "x: y"))]).
Proof. split; reflexivity. Qed.
(** Two booleans, or two nulls, are neither equal nor different. *)
Lemma bool_neither_equal_nor_different `{Lexical} b : Variant.equal (Variant.bool_type b) (Variant.bool_type b) = Ok false ∧
  Variant.different (Variant.bool_type b) (Variant.bool_type (negb b)) = Ok false.
Proof. done. Qed.

(** [format_string] always gives a text, and leaves a format without a dollar
    sign as it is; one that ends in a dollar sign gains a null character. *)
Lemma find_char_spec z pos s n : Json.find_char z pos s = Some n → (pos ≤ n < length s)%nat.
Proof.
  unfold Json.find_char. intros ([i c] & Hf & ->)%fmap_Some_1. apply list_find_Some in Hf as (Hl & _ & _).
  apply lookup_lt_Some in Hl. rewrite length_drop in Hl. simpl. lia.
Qed.
Lemma argument_returns `{Lexical} args key : ∃ t, Json.argument args key = Ok t.
Proof. unfold Json.argument. destruct (Variant.find key args) as [[]|]; simpl; eauto. Qed.
Lemma format_loop_returns `{Lexical} format args fuel prev next : (0 < fuel)%nat → (length format < prev + fuel)%nat →
  (∀ n, next = Some n → (prev ≤ n < length format)%nat) → ∃ t, Json.format_loop fuel format args prev next = Ok t.
Proof.
  revert prev next. induction fuel as [|fuel IH]; intros prev next H0 Hf Hn; [lia|]. cbn [Json.format_loop].
  destruct (Nat.ltb_spec prev (length format)); [|eauto]. destruct next as [n|]; [|eauto]. specialize (Hn n eq_refl).
  cbv zeta. destruct (eqc _ 123).
  - destruct (Json.find_char 125 _ format) as [close|] eqn:Ec.
    + apply find_char_spec in Ec. destruct (argument_returns args (Json.substr (S n + 1) (close - S n - 1) format)) as [t ->].
        destruct (IH (S close) (Json.find_char 36 (S close) format)) as [t' Ht]; [lia|lia|by apply find_char_spec|].
        cbn [mbind result_bind]. rewrite Ht. eauto.
    + destruct (IH (S n) None) as [t' Ht]; [lia|lia|done|]. rewrite Ht. eauto.
  - destruct (IH (S (S n)) (Json.find_char 36 (S (S n)) format)) as [t' Ht]; [lia|lia|by apply find_char_spec|]. rewrite Ht. eauto.
Qed.
Lemma format_string_returns `{Lexical} format args : ∃ t, Json.format_string format args = Ok t.
Proof. apply format_loop_returns; [lia|lia|]. by apply find_char_spec. Qed.
Lemma format_string_adds_null : Json.format_string (lit "cost $") [] = Ok (lit "cost " ++ [chr 0]).
Proof. vm_compute. reflexivity. Qed.
