(* ===== verification/JsonRpc.v ===== *)
(** * JSON-RPC

    The dispatcher of requests (libraries/plugins/json_rpc/json_rpc_plugin.cpp):
    the registry of API methods, the checks on a request, the call, and the
    answer as text.  An API method is a function of the plugin that registers
    it, over that plugin's state.  The main theorems: every text is answered,
    with one answer per request of a batch, each holding a result or an error and
    the id of its request; and a request reaches the method it names, with its
    parameters, once. *)
From Stdlib Require Import Ascii String.
From stdpp Require Import sorting.
From S2P Require Import Prelude Variants Json.
#[local] Open Scope Z_scope.

(** The order of [std::sort] on strings. *)
Definition not_after (a b : text) : Prop := text_ltb b a = false.
#[export] Instance not_after_dec : RelDecision not_after.
Proof. intros a b. unfold not_after. apply _. Defined.

(** What the exceptions of fc say of themselves. *)
Class ExceptionText `{Lexical} := {
  exception_text : exn → text;
  exception_variant : exn → Variant.variant
}.

Module JsonRpc.
Import Variant Json.
Section with_node.
Context `{ExceptionText} {N : Type}.

Definition JSON_RPC_PARSE_ERROR : Z := -32700.
Definition JSON_RPC_INVALID_REQUEST : Z := -32600.
Definition JSON_RPC_METHOD_NOT_FOUND : Z := -32601.
Definition JSON_RPC_SERVER_ERROR : Z := -32000.
Definition JSON_RPC_NO_PARAMS : Z := -32001.
Definition JSON_RPC_PARSE_PARAMS_ERROR : Z := -32002.
Definition JSON_RPC_ERROR_DURING_CALL : Z := -32003.

Record json_rpc_error := mkError { code : Z; message : text; data : option variant }.
Record json_rpc_response := mkResponse { result_of : option variant; error_of : option json_rpc_error; id_of : variant }.
Record api_method_signature := mkSignature { sig_args : variant; sig_ret : variant }.

(** The plugin's own methods, and those of other plugins. *)
Inductive api_method :=
| get_methods_method
| get_signature_method
| plugin_method (f : variant → St N variant).

Record json_rpc_logger := mkLogger { counter : Z; errors : Z; files : list (text * variant) }.
Record impl := mkImpl {
  registered_apis : gmap text (gmap text api_method);
  methods : list text;
  method_sigs : gmap text (gmap text api_method_signature);
  logger : option json_rpc_logger;
  node : N
}.
Definition set_logger (l : option json_rpc_logger) (s : impl) : impl :=
  mkImpl (registered_apis s) (methods s) (method_sigs s) l (node s).
Definition set_node (n : N) (s : impl) : impl :=
  mkImpl (registered_apis s) (methods s) (method_sigs s) (logger s) n.

(** ** Reflection *)
Definition field (name : string) (v : variant) : entries := [(lit name, v)].
Definition optional_field (name : string) (v : option variant) : entries :=
  match v with Some v => field name v | None => [] end.
Definition error_to_variant (e : json_rpc_error) : variant :=
  object_type (field "code" (int64_type (code e)) ++ field "message" (string_type (message e)) ++ optional_field "data" (data e)).
Definition response_to_variant (r : json_rpc_response) : variant :=
  object_type (field "jsonrpc" (string_type (lit "2.0")) ++ optional_field "result" (result_of r) ++
    optional_field "error" (error_to_variant <$> error_of r) ++ field "id" (id_of r)).
Definition signature_to_variant (s : api_method_signature) : variant :=
  object_type (field "args" (sig_args s) ++ field "ret" (sig_ret s)).

(** ** The registry *)
Definition add_to {A} (api_name method_name : text) (a : A) (m : gmap text (gmap text A)) : gmap text (gmap text A) :=
  <[api_name := <[method_name := a]> (default ∅ (m !! api_name))]> m.
Definition add_api_method (api_name method_name : text) (api : api_method) (sig : api_method_signature) (s : impl) : impl :=
  mkImpl (add_to api_name method_name api (registered_apis s))
    (methods s ++ [api_name ++ "."%char :: method_name])
    (add_to api_name method_name sig (method_sigs s)) (logger s) (node s).
(** [fc::variant( Args() )] and [fc::variant( Ret() )] of the plugin's methods. *)
Definition initialize (s : impl) : impl :=
  let s := add_api_method (lit "jsonrpc") (lit "get_methods") get_methods_method
             (mkSignature (object_type []) (array_type [])) s in
  add_api_method (lit "jsonrpc") (lit "get_signature") get_signature_method
    (mkSignature (object_type (field "method" (string_type [])))
       (signature_to_variant (mkSignature null_type null_type))) s.
(** [std::sort] of the names. *)
Definition plugin_startup (s : impl) : impl :=
  mkImpl (registered_apis s) (merge_sort not_after (methods s)) (method_sigs s) (logger s) (node s).

(** [boost::split] at dots: the pieces, empty ones included. *)
Fixpoint split (s : text) : list text :=
  match s with
  | [] => [[]]
  | c :: s =>
      if eqc c 46 then [] :: split s
      else match split s with p :: ps => (c :: p) :: ps | [] => [[c]] end
  end.
Definition find_in {A} (api method : text) (m : gmap text (gmap text A)) : result A :=
  a ← match m !! api with Some a => Ok a | None => Exc AssertException end;
  match a !! method with Some f => Ok f | None => Exc AssertException end.
Definition get_methods (args : variant) (s : impl) : result variant :=
  _ ← get_object args; mret (array_type (map string_type (methods s))).
Definition get_signature (args : variant) (s : impl) : result variant :=
  o ← get_object args;
  method ← match find (lit "method") o with Some v => as_string v | None => Ok [] end;
  match split method with
  | [api; m] => sig ← find_in api m (method_sigs s); mret (signature_to_variant sig)
  | _ => Exc AssertException
  end.
Definition invoke (m : api_method) (args : variant) : St impl variant := λ s,
  match m with
  | get_methods_method => (get_methods args s, s)
  | get_signature_method => (get_signature args s, s)
  | plugin_method f => let '(r, n) := f args (node s) in (r, set_node n s)
  end.
Definition find_api_method (api method : text) : St impl api_method := λ s, (find_in api method (registered_apis s), s).

(** ** Requests *)
Definition contains (key : string) (o : entries) : bool := bool_decide (is_Some (find (lit key) o)).
Definition process_params (method : text) (request : entries) : St impl (api_method * variant * text) :=
  if bool_decide (method = lit "call") then
    fc_assert (contains "params" request) ;;
    params ← lift (at_key (lit "params") request);
    v ← (if is_array params then lift (get_array params) else mret []);
    fc_assert ((length v =? 2)%nat || (length v =? 3)%nat) ;;
    api ← lift (as_string (nth 0 v null_type));
    m ← lift (as_string (nth 1 v null_type));
    ret ← find_api_method api m;
    args ← (if (length v =? 3)%nat then mret (nth 2 v null_type) else lift (from_string false (lit "{}")));
    mret (ret, args, api ++ "."%char :: m)
  else
    match split method with
    | [api; m] =>
        ret ← find_api_method api m;
        args ← (if contains "params" request then lift (at_key (lit "params") request)
                else lift (from_string false (lit "{}")));
        mret (ret, args, method)
    | _ => mthrow AssertException
    end.

Definition set_error (c : Z) (m : text) (d : option variant) (r : json_rpc_response) : json_rpc_response :=
  mkResponse (result_of r) (Some (mkError c m d)) (id_of r).
Definition set_result (v : variant) (r : json_rpc_response) : json_rpc_response :=
  mkResponse (Some v) (error_of r) (id_of r).
(** An error that carries the exception. *)
Definition report (c : Z) (e : exn) : json_rpc_response → json_rpc_response :=
  set_error c (exception_text e) (Some (exception_variant e)).

Definition quoted (s : string) : text := chr 34 :: lit s ++ [chr 34].
Definition rpc_id (request : entries) (response : json_rpc_response) : json_rpc_response :=
  match find (lit "id") request with
  | Some (int64_type _ | uint64_type _ | string_type _) as v =>
      mkResponse (result_of response) (error_of response) (default null_type v)
  | Some _ => set_error JSON_RPC_INVALID_REQUEST (lit "Only integer value or string is allowed for member " ++ quoted "id") None response
  | None => response
  end.

Definition catch_assert {A} (m : St impl A) (h : exn → St impl A) : St impl A :=
  try_catch m (λ e, match e with AssertException => h e | _ => mthrow e end).

(** The member [jsonrpc] is the string 2.0. *)
Definition version_ok (request : entries) : bool :=
  match find (lit "jsonrpc") request with Some (string_type s) => bool_decide (s = lit "2.0") | _ => false end.
Definition call_method (method : text) (request : entries) (response : json_rpc_response) : St impl json_rpc_response :=
  r ← catch_assert (p ← process_params method request; mret (Some p, response))
        (λ e, mret (None, report JSON_RPC_PARSE_PARAMS_ERROR e response));
  match r with
  | (Some (call, func_args, _), response) =>
      catch_assert (v ← invoke call func_args; mret (set_result v response))
        (λ e, mret (report JSON_RPC_ERROR_DURING_CALL e response))
  | (None, response) => mret response
  end.
(** The files that were written; writing a file is taken to succeed. *)
Definition log (request : entries) (response : json_rpc_response) : St impl unit := λ s,
  match logger s with
  | None => (Ok tt, s)
  | Some l =>
      let l := match error_of response with
        | Some e =>
            let name := decimal (u32 (errors l + 1)) ++ lit "_error" in
            mkLogger (counter l) (u32 (errors l + 1))
              (files l ++ [(name ++ lit ".json", object_type request); (name ++ lit ".json.pat", error_to_variant e)])
        | None =>
            let name := decimal (u32 (counter l + 1)) in
            mkLogger (u32 (counter l + 1)) (errors l)
              (files l ++ [(name ++ lit ".json", object_type request);
                           (name ++ lit ".json.pat", default null_type (result_of response))])
        end in
      (Ok tt, set_logger (Some l) s)
  end.
Definition rpc_jsonrpc (request : entries) (response : json_rpc_response) : St impl json_rpc_response :=
  response ←
    (if version_ok request then
       match find (lit "method") request with
       | Some (string_type method) =>
           catch_assert
             (if bool_decide (method = lit "call") && negb (contains "params" request) then
                mret (set_error JSON_RPC_NO_PARAMS (lit "A member " ++ quoted "params" ++ lit " does not exist") None response)
              else call_method method request response)
             (λ e, mret (report JSON_RPC_METHOD_NOT_FOUND e response))
       | _ => mret (set_error JSON_RPC_INVALID_REQUEST (lit "A member " ++ quoted "method" ++ lit " does not exist") None response)
       end
     else mret (set_error JSON_RPC_INVALID_REQUEST (lit "jsonrpc value is not " ++ quoted "2.0") None response));
  log request response ;;
  mret response.

Definition unknown_error : text := lit "Unknown error - parsing rpc message failed".
(** A trap ends the program; nothing catches it. *)
Definition catch_all {A} (m : St impl A) (h : exn → St impl A) : St impl A :=
  try_catch m (λ e, match e with Fault => mthrow Fault | _ => h e end).
Definition server_error (e : exn) (response : json_rpc_response) : json_rpc_response :=
  if is_fc e then report JSON_RPC_SERVER_ERROR e response
  else set_error JSON_RPC_SERVER_ERROR unknown_error (Some (string_type (exception_text e))) response.
Definition rpc (message : variant) : St impl json_rpc_response :=
  let response := mkResponse None None null_type in
  catch_all
    (request ← lift (get_object message);
     let response := rpc_id request response in
     catch_all
       (if bool_decide (error_of response = None) then rpc_jsonrpc request response else mret response)
       (λ e, mret (server_error e response)))
    (λ e, mret (match e with
       | ParseError | BadCast => report JSON_RPC_PARSE_ERROR e response
       | _ => server_error e response
       end)).

Fixpoint rpc_each (messages : list variant) : St impl (list json_rpc_response) :=
  match messages with
  | [] => mret []
  | m :: ms => r ← rpc m; rs ← rpc_each ms; mret (r :: rs)
  end.
Definition respond (r : json_rpc_response) : text := Json.to_string true (response_to_variant r).
Definition call (msg : text) : St impl text :=
  let response := mkResponse None None null_type in
  catch_all
    (v ← lift (from_string false msg);
     match v with
     | array_type [] => mret (respond (set_error JSON_RPC_SERVER_ERROR (lit "Array is invalid") None response))
     | array_type messages =>
         responses ← rpc_each messages;
         mret (Json.to_string true (array_type (map response_to_variant responses)))
     | _ => r ← rpc v; mret (respond r)
     end)
    (λ e, mret (respond
       (if is_fc e then report JSON_RPC_SERVER_ERROR e response
        else set_error JSON_RPC_SERVER_ERROR (lit "Unknown exception") (Some (string_type (exception_text e))) response))).
End with_node.
End JsonRpc.

Create HintDb runs.
Section facts.
Import Variant Json JsonRpc.
Context `{ExceptionText} {N : Type}.
Abbreviation rpc_state := (impl (N:=N)).
Implicit Types s : rpc_state.

(** No registered method traps; the registry is what it was. *)
Definition safe (s : rpc_state) : Prop :=
  ∀ api m f, find_in api m (registered_apis s) = Ok (plugin_method f) → ∀ v (n : N), (f v n).1 ≠ Exc Fault.
Definition kept (s s' : rpc_state) : Prop :=
  registered_apis s' = registered_apis s ∧ methods s' = methods s ∧ method_sigs s' = method_sigs s.
#[local] Instance kept_preorder : PreOrder kept.
Proof. split; [done|]. intros a b c (?&?&?) (?&?&?). unfold kept. by split_and!; etrans. Qed.
Lemma kept_safe s s' : kept s s' → safe s → safe s'.
Proof. intros (E & _) Hs api m f. rewrite E. apply Hs. Qed.

Lemma find_in_add {A} (api m api' m' : text) (a b : A) r : find_in api m (add_to api' m' a r) = Ok b →
  b = a ∨ find_in api m r = Ok b.
Proof.
  unfold find_in, add_to. destruct (decide (api' = api)) as [->|]; [|by rewrite lookup_insert_ne by done; right].
  rewrite lookup_insert_eq. cbn [mbind result_bind].
  destruct (decide (m' = m)) as [->|]; [rewrite lookup_insert_eq; by intros [= ->]; left|]. rewrite lookup_insert_ne by done. right.
  destruct (r !! api) as [x|]; [done|]. cbn [default from_option] in *. by rewrite lookup_empty in *.
Qed.
Lemma find_in_added {A} (api m : text) (a : A) r : find_in api m (add_to api m a r) = Ok a.
Proof. unfold find_in, add_to. rewrite lookup_insert_eq. cbn [mbind result_bind]. by rewrite lookup_insert_eq. Qed.
Lemma add_api_method_safe api m f sig s : (∀ g, f = plugin_method g → ∀ v n, (g v n).1 ≠ Exc Fault) → safe s →
  safe (add_api_method api m f sig s).
Proof. intros Hf Hs a b g [Hg|Hg]%find_in_add; [by apply Hf|by eapply Hs]. Qed.
Lemma initialize_safe s : safe s → safe (initialize s).
Proof. intros Hs. by repeat apply add_api_method_safe. Qed.
Lemma startup_safe s : safe s → safe (plugin_startup s).
Proof. done. Qed.
Lemma unregistered_safe l (n : N) : safe (mkImpl ∅ [] ∅ l n).
Proof. intros api m f. unfold find_in. simpl. by rewrite lookup_empty. Qed.

(** [runs m]: [m] ends without a trap.  [answers P m]: it returns, with [P]. *)
Definition runs {A} (m : St rpc_state A) : Prop := ∀ s, safe s → (m s).1 ≠ Exc Fault ∧ kept s (m s).2.
Definition answers {A} (P : A → Prop) (m : St rpc_state A) : Prop :=
  ∀ s, safe s → ∃ a s', m s = (Ok a, s') ∧ kept s s' ∧ P a.
Lemma runs_ret {A} (a : A) : runs (mret a).
Proof. done. Qed.
Lemma runs_lift {A} (r : result A) : r ≠ Exc Fault → runs (lift r).
Proof. done. Qed.
Lemma runs_throw {A} (e : exn) : e ≠ Fault → runs (mthrow e : St rpc_state A).
Proof. intros He s Hs. split; [|done]. simpl. congruence. Qed.
Lemma runs_assert b : runs (fc_assert b).
Proof. by destruct b. Qed.
Lemma runs_bind {A B} (m : St rpc_state A) (f : A → St rpc_state B) : runs m → (∀ a, runs (f a)) → runs (m ≫= f).
Proof.
  intros Hm Hf s Hs. destruct (Hm s Hs) as [H1 H2]. rewrite bind_run. destruct (m s) as [[a|e] s1]; [|by split; [intros [= ->]|]]. simpl in H2.
  destruct (Hf a s1 (kept_safe _ _ H2 Hs)) as [H3 H4]. split; [done|]. by etrans.
Qed.
Lemma runs_if {A} (b : bool) (m m' : St rpc_state A) : runs m → runs m' → runs (if b then m else m').
Proof. by destruct b. Qed.
Lemma runs_catch {A} (m : St rpc_state A) h : runs m → (∀ e, e ≠ Fault → runs (h e)) → runs (catch_assert m h).
Proof.
  intros Hm Hh s Hs. destruct (Hm s Hs) as [H1 H2]. unfold catch_assert, try_catch. destruct (m s) as [[a|e] s1]; [done|].
  simpl in H1, H2. assert (He : e ≠ Fault) by congruence.
  destruct e; try (split; [simpl; congruence|done]).
  destruct (Hh AssertException He s1 (kept_safe _ _ H2 Hs)) as [H3 H4]. split; [done|]. by etrans.
Qed.
Lemma bind_no_fault {A B} (r : result A) (f : A → result B) : r ≠ Exc Fault → (∀ a, f a ≠ Exc Fault) → (r ≫= f) ≠ Exc Fault.
Proof. destruct r as [a|e]; [by intros _ Hf; apply Hf|]. intros He _ [= ->]. done. Qed.
Lemma find_in_no_fault {A} (api m : text) (r : gmap text (gmap text A)) : find_in api m r ≠ Exc Fault.
Proof. unfold find_in. destruct (r !! api) as [a|]; [|done]. simpl. by destruct (a !! m). Qed.
Lemma runs_find api m : runs (find_api_method api m).
Proof. intros s Hs. split; [|done]. apply find_in_no_fault. Qed.
Lemma as_string_no_fault v : as_string v ≠ Exc Fault.
Proof. by destruct v. Qed.
Lemma runs_as_string v : runs (lift (as_string v)).
Proof. apply runs_lift, as_string_no_fault. Qed.
Lemma runs_from_string t : runs (lift (from_string false t)).
Proof. apply runs_lift, from_string_no_fault. Qed.
Lemma runs_at_key k o : runs (lift (at_key k o)).
Proof. apply runs_lift. unfold at_key, opt. by destruct (find k o). Qed.
Lemma runs_log o r : runs (log o r).
Proof. intros s Hs. unfold log. destruct (logger s); [|done]. by destruct (error_of r). Qed.
#[local] Hint Resolve runs_ret runs_lift runs_assert runs_bind runs_if runs_find runs_as_string runs_from_string runs_at_key
  runs_log : runs.

Lemma process_params_runs method o : runs (process_params method o).
Proof.
  unfold process_params. apply runs_if.
  - apply runs_bind; [apply runs_assert|]. intros _. apply runs_bind; [apply runs_at_key|]. intros p.
    apply runs_bind; [destruct p; simpl; auto with runs|]. intros v. auto 20 with runs.
  - destruct (split method) as [|api [|m [|? ?]]]; try (by apply runs_throw). auto 20 with runs.
Qed.
Lemma invoke_runs s api m f v : safe s → find_in api m (registered_apis s) = Ok f →
  (invoke f v s).1 ≠ Exc Fault ∧ kept s (invoke f v s).2.
Proof.
  intros Hs Hf. destruct f as [| |f]; unfold invoke; cbn [fst snd].
  - split; [|done]. unfold get_methods. by destruct v.
  - split; [|done]. apply bind_no_fault; [by destruct v|]. intros o. apply bind_no_fault.
    { destruct (find _ o); [apply as_string_no_fault|done]. }
    intros t. destruct (split t) as [|a [|b [|? ?]]]; try done. apply bind_no_fault; [apply find_in_no_fault|done].
  - specialize (Hs api m f Hf v (node s)). by destruct (f v (node s)) as [r n].
Qed.
Lemma process_params_found method o s p s' : process_params method o s = (Ok p, s') →
  s' = s ∧ ∃ api m, find_in api m (registered_apis s) = Ok p.1.1.
Proof.
  unfold process_params. destruct (bool_decide _).
  - intros Hr. repeat (apply St_bind_ok in Hr as (? & ? & ? & Hr)). injection Hr as <- <-.
    repeat match goal with
    | Hx : lift _ _ = _ |- _ => injection Hx as ? <-
    | Hx : fc_assert ?b _ = _ |- _ => destruct b; [injection Hx as <- <-|done]
    | Hx : (if ?b then _ else _) _ = _ |- _ => destruct b
    | Hx : mret _ _ = _ |- _ => injection Hx as <- <-
    | Hx : find_api_method _ _ _ = _ |- _ => injection Hx as ? <-
    end; split; try done; simpl; eauto.
  - destruct (split method) as [|api [|m [|? ?]]]; try done.
    intros Hr. repeat (apply St_bind_ok in Hr as (? & ? & ? & Hr)). injection Hr as <- <-.
    repeat match goal with
    | Hx : (if ?b then _ else _) _ = _ |- _ => destruct b
    | Hx : lift _ _ = _ |- _ => injection Hx as ? <-
    | Hx : find_api_method _ _ _ = _ |- _ => injection Hx as ? <-
    end; split; try done; simpl; eauto.
Qed.

(** A response with a result or an error, and not both, for an id. *)
Definition answer (id : variant) (r : json_rpc_response) : Prop :=
  (is_Some (result_of r) ↔ error_of r = None) ∧ id_of r = id.
Definition request_id (message : variant) : variant :=
  match message with
  | object_type o => match find (lit "id") o with Some (int64_type _ | uint64_type _ | string_type _) as v => default null_type v | _ => null_type end
  | _ => null_type
  end.
Lemma answer_error id c m d r : result_of r = None → id_of r = id → answer id (set_error c m d r).
Proof. intros Hr Hi. split; [|done]. simpl. rewrite Hr. split; [by intros []|done]. Qed.
Lemma answer_server id e r : result_of r = None → id_of r = id → answer id (server_error e r).
Proof. intros Hr Hi. unfold server_error, report. destruct (is_fc e); by apply answer_error. Qed.

(** How a run from [s] may end: no trap, and an answer if it returns. *)
Definition ends_well (id : variant) s (p : result json_rpc_response * rpc_state) : Prop :=
  p.1 ≠ Exc Fault ∧ kept s p.2 ∧ match p.1 with Ok r => answer id r | Exc _ => True end.
Lemma ends_well_exc id s e s' : kept s s' → e ≠ Fault → ends_well id s (Exc e, s').
Proof. intros Hk He. split_and!; [simpl; congruence|done|done]. Qed.
Lemma ends_well_error id s s' c m d r : kept s s' → result_of r = None → id_of r = id →
  ends_well id s (Ok (set_error c m d r), s').
Proof. intros Hk Hr Hi. split_and!; [done|done|by apply answer_error]. Qed.

Lemma call_method_answers id method o r s : result_of r = None → error_of r = None → id_of r = id → safe s →
  ends_well id s (call_method method o r s).
Proof.
  intros Hr He Hi Hs. unfold call_method. destruct (process_params_runs method o s Hs) as [Hp1 Hp2].
  rewrite bind_run. unfold catch_assert at 1, try_catch at 1. rewrite bind_run.
  destruct (process_params method o s) as [[[[f v] nm]|e] s1] eqn:Hp; cbn [mret St_ret].
  - apply process_params_found in Hp as (-> & api & m & Hf). simpl in Hf.
    destruct (invoke_runs s api m f v Hs Hf) as [H1 H2]. unfold catch_assert, try_catch. rewrite bind_run.
    destruct (invoke f v s) as [[x|e] s2]; cbn [mret St_ret fst snd] in *.
    + split_and!; [done|done|]. split; [|done]. simpl. by rewrite He.
    + assert (e ≠ Fault) by congruence. destruct e; try (by apply ends_well_exc). by apply ends_well_error.
  - simpl in Hp1, Hp2. assert (e ≠ Fault) by congruence. destruct e; try (by apply ends_well_exc). by apply ends_well_error.
Qed.
Lemma log_ends_well id o s (m : St rpc_state json_rpc_response) : safe s → ends_well id s (m s) →
  ends_well id s ((r ← m; log o r ;; mret r) s).
Proof.
  intros Hs (H1 & H2 & H3). rewrite bind_run. destruct (m s) as [[r1|e] s1]; simpl in H1, H2.
  - destruct (runs_log o r1 s1 (kept_safe _ _ H2 Hs)) as [H4 H5]. rewrite bind_run.
    destruct (log o r1 s1) as [[[]|e] s2]; simpl in H4, H5.
    + split_and!; [done|by etrans|done].
    + apply ends_well_exc; [by etrans|congruence].
  - apply ends_well_exc; [done|congruence].
Qed.
Lemma rpc_jsonrpc_answers id o r s : result_of r = None → error_of r = None → id_of r = id → safe s →
  ends_well id s (rpc_jsonrpc o r s).
Proof.
  intros Hr He Hi Hs. apply log_ends_well; [done|].
  destruct (version_ok o); [|by apply ends_well_error].
  destruct (find (lit "method") o) as [[| | | | |method| | |]|]; try (by apply ends_well_error).
  unfold catch_assert, try_catch. destruct (bool_decide _ && _); [by apply ends_well_error|].
  destruct (call_method_answers id method o r s Hr He Hi Hs) as (H1 & H2 & H3).
  destruct (call_method method o r s) as [[r1|e] s1]; simpl in H1, H2; [by split_and!|].
  assert (e ≠ Fault) by congruence. destruct e; try (by apply ends_well_exc). by apply ends_well_error.
Qed.
Lemma rpc_id_id o : id_of (rpc_id o (mkResponse None None null_type)) = request_id (object_type o) ∧
  result_of (rpc_id o (mkResponse None None null_type)) = None.
Proof. unfold rpc_id, request_id. by destruct (find (lit "id") o) as [[]|]. Qed.
Lemma rpc_answers message : answers (answer (request_id message)) (rpc message).
Proof.
  intros s Hs. unfold rpc, catch_all at 1, try_catch at 1. rewrite bind_run. unfold lift.
  destruct message as [| | | | | | |o|]; cbn [get_object];
    try (eexists _, s; split_and!; [reflexivity|done|]; by apply answer_error).
  destruct (rpc_id_id o) as [Hi Hr]. set (r := rpc_id o _) in *. cbv zeta. unfold catch_all, try_catch.
  case_bool_decide as He.
  - destruct (rpc_jsonrpc_answers _ o r s Hr He Hi Hs) as (H1 & H2 & H3).
    destruct (rpc_jsonrpc o r s) as [[r1|e] s1]; simpl in H1, H2, H3; [by eexists _, _|].
    assert (Hse : ∃ a s', (mret (server_error e r) : St rpc_state json_rpc_response) s1 = (Ok a, s') ∧ kept s s' ∧ answer (request_id (object_type o)) a).
    { eexists _, _. split_and!; [reflexivity|done|by apply answer_server]. }
    by destruct e.
  - eexists _, s. split_and!; [reflexivity|done|]. split; [|done]. rewrite Hr. split; [by intros []|done].
Qed.
Lemma rpc_each_answers messages : answers (Forall2 answer (map request_id messages)) (rpc_each messages).
Proof.
  induction messages as [|m ms IH]; intros s Hs; [by eexists _, s|].
  destruct (rpc_answers m s Hs) as (r & s1 & H1 & K1 & A1). destruct (IH s1 (kept_safe _ _ K1 Hs)) as (rs & s2 & H2 & K2 & A2).
  exists (r :: rs), s2. cbn [rpc_each]. rewrite bind_run, H1, bind_run, H2. split_and!; [done|by etrans|by constructor].
Qed.

(** The requests of a text; none when it cannot be parsed or is an empty batch. *)
Definition requests (msg : text) : list variant :=
  match from_string false msg with
  | Ok (array_type ms) => ms
  | Ok v => [v]
  | Exc _ => []
  end.
Definition is_batch (msg : text) : bool :=
  match from_string false msg with Ok (array_type (_ :: _)) => true | _ => false end.

(** C28: Every text is answered.  Provided no registered method traps, [call]
    returns: for a batch, a list with one answer per request, in their order; for
    any other value that parses, one answer; for a text that does not parse, or
    an empty batch, one error, with the state as it was.  Each answer has a result or an
    error and not both, and carries the id of its request, whichever way the
    request failed, or null if it had none of an allowed type.  The registered
    methods stay the same. *)
Theorem rpc_call_answers (msg : text) s : safe s → ∃ rs s',
  call msg s = (Ok (if is_batch msg then to_string true (array_type (map response_to_variant rs))
                    else default [] (respond <$> head rs)), s') ∧ kept s s' ∧
  if bool_decide (requests msg = []) then ∃ r, rs = [r] ∧ answer null_type r ∧ is_Some (error_of r) ∧ s' = s
  else Forall2 answer (map request_id (requests msg)) rs.
Proof.
  intros Hs. unfold call, catch_all, try_catch, requests, is_batch. rewrite bind_run. unfold lift.
  pose proof (from_string_no_fault false msg) as Hf. destruct (from_string false msg) as [v|e].
  - destruct (rpc_answers v s Hs) as (r & s1 & H1 & K1 & A1).
    destruct v as [| | | | | |[|m ms]| |];
      try (exists [r], s1; rewrite bind_run, H1; split_and!; [done|done|by constructor]).
    + eexists [_], s. split_and!; [reflexivity|done|]. eexists. split_and!; [done|by apply answer_error|by eexists|done].
    + destruct (rpc_each_answers (m :: ms) s Hs) as (rs & s2 & H2 & K2 & A2). exists rs, s2. rewrite bind_run, H2. by split_and!.
  - eexists [_], s. assert (e ≠ Fault) by congruence.
    split_and!; [destruct e; try done; reflexivity|done|]. eexists. split_and!; [done| |by destruct (is_fc e); eexists|done].
    destruct (is_fc e); by apply answer_error.
Qed.

(** A request names a method of an API and its arguments, in one of two ways. *)
Inductive names (o : entries) (api m : text) (args : variant) : Prop :=
| by_name method : find (lit "method") o = Some (string_type method) → method ≠ lit "call" → split method = [api; m] →
    args = default (object_type []) (find (lit "params") o) → names o api m args
| by_call va vm rest : find (lit "method") o = Some (string_type (lit "call")) →
    find (lit "params") o = Some (array_type (va :: vm :: rest)) → as_string va = Ok api → as_string vm = Ok m →
    rest = [] ∧ args = object_type [] ∨ rest = [args] → names o api m args.
(** The answer to a request by what the method did. *)
Definition outcome (id : variant) (r : result variant) : json_rpc_response :=
  let none := mkResponse None None id in
  match r with
  | Ok v => set_result v none
  | Exc AssertException => report JSON_RPC_ERROR_DURING_CALL AssertException none
  | Exc e => server_error e none
  end.
Lemma no_arguments : from_string false (lit "{}") = Ok (object_type []).
Proof. vm_compute. reflexivity. Qed.
Lemma process_params_names o api m args method s : names o api m args → find (lit "method") o = Some (string_type method) →
  ∃ name, process_params method o s =
    (match find_in api m (registered_apis s) with Ok f => Ok (f, args, name) | Exc e => Exc e end, s).
Proof.
  intros Hn Hm. unfold process_params, contains, at_key, opt. destruct Hn as [method' Hm' Hc Hsp ->|va vm rest Hm' Hp Ha Hv Hr].
  - rewrite Hm in Hm'. injection Hm' as <-. exists method. rewrite bool_decide_false, Hsp by done. rewrite bind_run.
    unfold find_api_method. destruct (find_in api m (registered_apis s)) as [f|e]; [|done]. rewrite bind_run.
    destruct (find (lit "params") o) as [p|]; [done|]. rewrite bool_decide_false by (by intros []). by rewrite no_arguments.
  - rewrite Hm in Hm'. injection Hm' as ->. exists (api ++ "."%char :: m). rewrite bool_decide_true, Hp by done.
    rewrite bool_decide_true by eauto. rewrite bind_run. cbn [fc_assert mret St_ret].
    rewrite bind_run. unfold lift at 1. cbn [is_array get_array]. rewrite bind_run. unfold lift.
    assert (Hl : ((length (va :: vm :: rest) =? 2)%nat || (length (va :: vm :: rest) =? 3)%nat) = true).
    { by destruct Hr as [[-> _]| ->]. }
    rewrite bind_run, Hl. cbn [fc_assert mret St_ret nth]. rewrite bind_run, Ha, bind_run, Hv, bind_run.
    unfold find_api_method. destruct (find_in api m (registered_apis s)) as [f|e]; [|done]. rewrite bind_run.
    destruct Hr as [[-> ->]| ->]; [|done]. cbn [length Nat.eqb]. by rewrite no_arguments.
Qed.
Lemma log_node o r s : ∃ s', log o r s = (Ok tt, s') ∧ node s' = node s.
Proof. unfold log. destruct (logger s) as [l|]; [|eauto]. by destruct (error_of r); eexists. Qed.
Lemma logged o r s (m : St rpc_state json_rpc_response) s1 : m s = (Ok r, s1) →
  ∃ s', (r ← m; log o r ;; mret r) s = (Ok r, s') ∧ node s' = node s1.
Proof.
  intros Hm. rewrite bind_run, Hm, bind_run. destruct (log_node o r s1) as (s2 & -> & Hn). by eexists.
Qed.
Lemma call_method_found o method s f args name r : error_of r = None → result_of r = None →
  process_params method o s = (Ok (f, args, name), s) → (invoke f args s).1 ≠ Exc Fault →
  call_method method o r s =
    (match (invoke f args s).1 with
     | Ok v => Ok (set_result v r)
     | Exc AssertException => Ok (report JSON_RPC_ERROR_DURING_CALL AssertException r)
     | Exc e => Exc e
     end, (invoke f args s).2).
Proof.
  intros He Hr Hp Hf. unfold call_method. rewrite bind_run. unfold catch_assert at 1, try_catch at 1. rewrite bind_run, Hp.
  cbn [mret St_ret]. unfold catch_assert, try_catch. rewrite bind_run. destruct (invoke f args s) as [[v|e] s1]; [done|]. by destruct e.
Qed.
Lemma rpc_run o s method : version_ok o = true → find (lit "method") o = Some (string_type method) →
  (method = lit "call" → is_Some (find (lit "params") o)) →
  error_of (rpc_id o (mkResponse None None null_type)) = None →
  rpc (object_type o) s =
    let r := mkResponse None None (request_id (object_type o)) in
    catch_all (rpc_jsonrpc o r) (λ e, mret (server_error e r)) s.
Proof.
  intros Hv Hm Hc He. unfold rpc, catch_all at 1, try_catch at 1. rewrite bind_run. unfold lift. cbn [get_object]. cbv zeta.
  destruct (rpc_id_id o) as [Hi Hr]. destruct (rpc_id o _) as [rs er i]. simpl in *. subst. rewrite bool_decide_true by done.
  set (m := catch_all _ _ s). destruct m as [[r|e] s'] eqn:E; [done|].
  assert (e = Fault) as ->; [|done]. unfold m, catch_all, try_catch in E.
  destruct (rpc_jsonrpc o _ s) as [[r|e'] s1]; [done|]. destruct e'; try discriminate E. by injection E as <- <-.
Qed.

(** C29: A well-formed request reaches the method it names.  When a request has
    the right version, a method given by name or through [call], and no id of a
    type that is not allowed, the method registered under that name is run once, with the
    parameters of the request or an empty object, and the state of the node after
    the request is the one the method left.  The answer holds the method's result,
    or an error that tells an assertion of the method from its other exceptions.
    A name that is not registered is reported as an error of the parameters, and
    the state of the node does not change. *)
Theorem rpc_dispatches (o : entries) (api m : text) (args : variant) s :
  version_ok o = true → error_of (rpc_id o (mkResponse None None null_type)) = None → names o api m args →
  let id := request_id (object_type o) in
  match find_in api m (registered_apis s) with
  | Ok f => (invoke f args s).1 ≠ Exc Fault → ∃ s', rpc (object_type o) s = (Ok (outcome id (invoke f args s).1), s') ∧
      node s' = node (invoke f args s).2
  | Exc e => ∃ s', rpc (object_type o) s = (Ok (report JSON_RPC_PARSE_PARAMS_ERROR e (mkResponse None None id)), s') ∧
      node s' = node s
  end.
Proof.
  intros Hv He Hn id. assert (Hm : ∃ method, find (lit "method") o = Some (string_type method) ∧
    (method = lit "call" → is_Some (find (lit "params") o))).
  { destruct Hn as [method Hm Hc _ _|va vm rest Hm Hp _ _ _]; eexists; (split; [exact Hm|]); [done|by eauto]. }
  destruct Hm as (method & Hm & Hc). rewrite (rpc_run o s method) by done. cbv zeta.
  destruct (process_params_names o api m args method s Hn Hm) as (name & Hp).
  assert (Hcall : bool_decide (method = lit "call") && negb (contains "params" o) = false).
  { unfold contains. case_bool_decide as E; [|done]. by rewrite bool_decide_true by auto. }
  set (r := mkResponse None None (request_id (object_type o))).
  unfold catch_all, try_catch, rpc_jsonrpc. rewrite Hv, Hm, Hcall.
  set (step := catch_assert _ _). destruct (find_in api m (registered_apis s)) as [f|e] eqn:Hf.
  - intros Hno. pose proof (call_method_found o method s f args name r eq_refl eq_refl Hp Hno) as Hcm.
    assert (Hs : step s = (match (invoke f args s).1 with
      | Ok v => Ok (set_result v r) | Exc AssertException => Ok (report JSON_RPC_ERROR_DURING_CALL AssertException r)
      | Exc e => Exc e end, (invoke f args s).2)).
    { unfold step, catch_assert, try_catch. rewrite Hcm. destruct (invoke f args s) as [[v|e] s1]; [done|]. by destruct e. }
    destruct (invoke f args s) as [[v|e] s1]; cbn [fst snd] in *.
    + destruct (logged o _ s step s1 Hs) as (s' & -> & Hnode). by exists s'.
    + destruct e; try (by (rewrite bind_run, Hs; exists s1)).
      destruct (logged o _ s step s1 Hs) as (s' & -> & Hnode). by exists s'.
  - assert (e = AssertException) as ->.
    { revert Hf. unfold find_in. destruct (registered_apis s !! api) as [a|]; [|by intros [= <-]]. simpl. destruct (a !! m); [done|by intros [= <-]]. }
    assert (Hs : step s = (Ok (report JSON_RPC_PARSE_PARAMS_ERROR AssertException r), s)).
    { unfold step, catch_assert at 1, try_catch at 1, call_method. rewrite bind_run. unfold catch_assert at 1, try_catch at 1.
      by rewrite bind_run, Hp. }
    destruct (logged o _ s step s Hs) as (s' & -> & Hnode). by exists s'.
Qed.
End facts.

(** ** A plugin with a counter *)
Module RpcDemo.
Import Variant JsonRpc.
#[global] Instance exceptions : ExceptionText := {| exception_text _ := lit "error"; exception_variant _ := null_type |}.
(** [counter.add] adds its argument to a counter and returns the sum. *)
Definition add (args : variant) : St Z variant :=
  v ← lift (o ← get_object args; at_key (lit "n") o);
  i ← lift (as_int64 v);
  n ← get_st;
  put_st (n + i) ;;
  mret (int64_type (n + i)).
Definition node : impl (N:=Z) :=
  plugin_startup (add_api_method (lit "counter") (lit "add") (plugin_method add)
    (mkSignature (object_type []) (int64_type 0)) (initialize (mkImpl ∅ [] ∅ None 40))).
Definition request : entries :=
  field "jsonrpc" (string_type (lit "2.0")) ++ field "method" (string_type (lit "counter.add")) ++
  field "params" (object_type (field "n" (uint64_type 2))) ++ field "id" (uint64_type 7).
Lemma node_safe : safe node.
Proof.
  apply startup_safe, add_api_method_safe, initialize_safe, unregistered_safe. intros g [= <-] v n.
  unfold add. rewrite bind_run. unfold lift.
  assert (Hk : (o ← get_object v; at_key (lit "n") o) ≠ Exc Fault).
  { apply bind_no_fault; [by destruct v|]. intros o. unfold at_key. by destruct (find _ _). }
  destruct (o ← get_object v; at_key (lit "n") o) as [x|e]; [|simpl; congruence]. rewrite bind_run.
  destruct x as [| | | | |t| | |]; try done. simpl. unfold to_int64. by destruct (lexical_int64 _).
Qed.
End RpcDemo.

Lemma rpc_call_answers_witness : safe RpcDemo.node ∧
  ∃ rs s', JsonRpc.call (lit "[{},1]") RpcDemo.node =
    (Ok (Json.to_string true (Variant.array_type (map JsonRpc.response_to_variant rs))), s') ∧ length rs = 2%nat.
Proof.
  split; [exact RpcDemo.node_safe|]. destruct (rpc_call_answers (lit "[{},1]") RpcDemo.node RpcDemo.node_safe) as (rs & s' & H1 & _ & H2).
  exists rs, s'. assert (Eb : is_batch (lit "[{},1]") = true) by (vm_compute; reflexivity). rewrite Eb in H1. split; [exact H1|].
  assert (Er : requests (lit "[{},1]") = [Variant.object_type []; Variant.uint64_type 1]) by exact eq_refl.
  rewrite Er in H2. apply Forall2_length in H2. simpl in H2. lia.
Defined.
Lemma rpc_dispatches_witness : ∃ s',
  JsonRpc.rpc (Variant.object_type RpcDemo.request) RpcDemo.node =
    (Ok (JsonRpc.mkResponse (Some (Variant.int64_type 42)) None (Variant.uint64_type 7)), s') ∧ JsonRpc.node s' = 42.
Proof.
  pose proof (rpc_dispatches RpcDemo.request (lit "counter") (lit "add") (Variant.object_type (JsonRpc.field "n" (Variant.uint64_type 2)))
    RpcDemo.node eq_refl eq_refl) as Hd.
  assert (Hn : names RpcDemo.request (lit "counter") (lit "add") (Variant.object_type (JsonRpc.field "n" (Variant.uint64_type 2)))).
  { exact (by_name RpcDemo.request _ _ _ (lit "counter.add") eq_refl ltac:(discriminate) eq_refl eq_refl). }
  specialize (Hd Hn). assert (Ef : JsonRpc.find_in (lit "counter") (lit "add") (JsonRpc.registered_apis RpcDemo.node) =
    Ok (JsonRpc.plugin_method RpcDemo.add)) by apply find_in_added.
  rewrite Ef in Hd. destruct Hd as (s' & H1 & H2); [discriminate|].
  exists s'. split; [exact H1|exact H2].
Defined.
